(* ===== verification/_CoqProject ===== *)
-Q . S2P
Prelude.v
Statistics.v
Float64.v
Format.v
FloatText.v
ConfigParser.v
Config.v
Jsmn.v
ConfigFile.v
Cli.v
Usage.v
World.v
Tuner.v
Cpu.v
TrampolineState.v
Guard.v
Admission.v
Trampoline.v
Machine.v
Attestation.v
Dispatch.v
PerfMeasure.v
Perf.v
PerfMode.v
TelemetryHelper.v
Fusion.v
FusionThread.v
FusionBridge.v
Arx.v
Policy.v
Monitor.v
Lifecycle.v
RuntimeApi.v
TelemetryState.v
Metrics.v
Http.v
Exporter.v
Workload.v
History.v
Sensors.v
Signals.v
Logging.v
Program.v
Kernels.v
Benchmark.v
Overhead.v
Transparency.v
