(* ===== verification/Prelude.v ===== *)
(** * Thermal SIMD Dispatcher: a verification development

    ** The program

    The dispatcher runs registered kernels in the widest SIMD variant that is
    safe at the moment.  A process-wide _guard_ ([src/src/runtime_guard.c])
    decides whether a wide width is authorized and admits executions; a _code
    page_ ([src/src/patcher/]) holds the selected variant; _counters_
    ([src/src/thermal_perf.c]) measure the workload and fall back to a degraded
    software mode; a _monitor_ thread ([src/src/thermal_simd.c]) samples them and
    changes the selection; _dispatchers_ ([src/src/dispatch/]) resolve and run
    kernels under the guard; and a _life cycle_ starts and stops all of it behind
    public handles ([src/src/runtime_api.c]).  Guard, selector and counters share
    process state; the monitor writes the selection, dispatchers read it, and the
    counters publish the evidence that the guard reads.  A _telemetry helper_
    ([src/src/telemetry_helper.c]) reads sensors, a _fusion engine_ with a worker
    thread ([src/src/telemetry/]) combines readings and keeps the temperature
    gate of the guard, a _predictive policy_ ([src/src/policy/]) advises the
    monitor, and the command line and a JSON file configure everything
    ([src/src/thermal_config.c]).  _Observability_ ([src/src/observability/])
    publishes the state of these parts: a registry, a StatsD client and an HTTP
    server of metrics.  The _executable_ ([thermal_simd.c], [main.cpp]) runs a
    built-in workload, the machine code of the selected slot, through all of it.
    An offline _policy tuner_ derives a policy from recorded samples, and two
    _benchmarks_ ([src/benchmarks/]) are clients of the public interface.

    ** The files

    - [Prelude] (this file): machine integers, record update, the state monad,
      [wp] and [respects] rules, shared tactics.
    - [Statistics]: [src/src/statistics.c].  [Float64]: C doubles, [strtol] and
      [strtod].  [Format]: text as [printf] and the output streams write it.
      [FloatText]: rounding, and [double]s read back from text.
    - [ConfigParser]: [src/src/config_parser.c].  [Config]: the record,
      defaults, validation, tick refresh and degraded overlay of
      [src/src/thermal_config.c], and the validation of a runtime generation.
    - [Jsmn]: the tokenizer [src/src/third_party/jsmn.c].  [ConfigFile]: the
      reader of configuration files of [src/src/thermal_config.c].  [Cli]: its
      command line, with the closing validation.  [Usage]: its help text.
      [Tuner]: the tool [src/src/tools/policy_tuner].
    - [World]: the process state (one record per translation unit), mutexes as
      ghost state, and the environment [Env] that answers system calls.
    - [Cpu]: [src/src/thermal_cpu.c].  [TrampolineState]: the packed selection
      word of [src/src/patcher/trampoline_state.c].
    - [Guard]: [runtime_guard.c], [config/runtime_flags.c] and what they read of
      the observability and fusion state.  [Admission]: the same admission
      protocol as a step relation over any number of threads.
    - [Trampoline]: the code page and [tsd_trampoline_patch].  [Machine]: the
      instructions of the payloads, decoded from their bytes.  [Attestation]: the
      queries of the digest of the selected code.  [Dispatch]: both dispatcher
      generations of [dispatch/adaptive_dispatch.c].
    - [PerfMeasure], [Perf], [PerfMode]: counter arithmetic, the mode machine of
      [thermal_perf.c], and its invariants.  [TelemetryHelper]: sensor search,
      frequency ratios and retries of [telemetry_helper.c].
    - [Fusion]: bus, collectors, ring and worker loop of [telemetry/bus.cpp],
      [collector.cpp] and [fusion.cpp].  [FusionThread]: starts, stops and the
      worker of [fusion.cpp] as a step relation over any number of threads.
      [FusionBridge]: the C interface [telemetry/fusion_bridge.cpp] over the
      engine, the helper, the guard and the selector.
    - [Arx]: the temperature model of [policy/arx_model.cpp] and its coefficient
      reader.  [Policy]: the controller of [policy/mpc_controller.cpp] and the C
      interface of [policy/dispatcher_policy.cpp], with C++ exceptions.
    - [Monitor]: the sampling loop of [thermal_simd.c].  [Lifecycle]: private
      start and stop, the startup sandbox ([healthcheck/sandbox.cpp]) and the
      health check.  [RuntimeApi]: public handles.
    - [TelemetryState]: all of [observability/telemetry_state.cpp], with a proof
      that [Guard] models its effect.  [Metrics]: the registry and exposition of
      [observability/metrics.cpp] and the StatsD client.  [Http]: one connection
      of the metrics server.  [Exporter]: its accept thread, workers, start and
      stop as a transition system.
    - [History], [Sensors]: baseline store, sensor adapters and evaluator
      ([telemetry/history_store.cpp], [sensors.cpp], [evaluator.cpp]).
    - [Signals]: the crash report of [thermal_signals.c].  [Logging]:
      [logging.c] and the reports of [runtime_metrics.c].
    - [Workload]: the built-in shim and the timed workload of [thermal_simd.c].
      [Program]: its demonstration and main function, and [main.cpp].
    - [Kernels]: the vector kernels of [benchmarks/registered_kernel.c], lane by
      lane.  [Benchmark]: the rest of that program.  [Overhead]:
      [benchmarks/dispatch_overhead.c].  [Transparency]: chunked execution
      against the contract of registered kernels.

    ** Correspondence

    A C function is a definition of the same name.  Functions over process state
    are computations of the state monad [ST].  Its state is [world] ([M]) for the
    process, and grows with what a component adds: [pstate] the counter context
    ([PM]), [lstate] the life cycle and its heap ([LM]), [program] the vector
    registers and the calls of the executable ([PG]), [bench] and [overhead] the
    buffers and files of a benchmark ([BN], [OV]), [fstate] a fusion engine
    ([FM]), [bstate] the fusion bridge ([BM]), [qstate] a policy object ([QM]),
    [tstate] the fields that are only reported ([TM]), [mstate] the registry and
    StatsD client ([MM]), [cstate] a connection ([CM]), [astate] the thread's
    attestation error ([AM]). A telemetry helper and the history store have
    states [hstate] of their own ([HM]), sensors [shared] ([SM]), the crash
    report [gstate] ([GM]), the logger [log_state] ([GLM]). C++ exceptions are
    values of a sum. Parsers are functions to an outcome type that tells
    failure, an access out of bounds and lack of fuel apart. A function longer
    than a screen is split into definitions that are composed as its blocks are;
    the manifest names the lines of each.
    [errno] is a field.  Integers are [Z] with the wrap-around written where the
    C type can wrap.  A system call is answered by a function of the number of
    calls made so far, so theorems hold for every sequence of answers.  Mutexes
    record who holds them: taking a held mutex sets [w_deadlock] and releasing
    is checked by the invariants.

    ** What is shown

    - Guard: the authorization test is the written policy; admission is open
      only with recorded evidence and never while stopping; entry and exit
      balance; the quiescence wait ends; in every interleaving a quiescent
      stopping runtime stays quiescent.
    - Selector: only authorized widths are selected; the code page is sealed and
      canonical; a patched trampoline validates; the packed word round-trips.
    - Dispatch: exactly one admissible call per execution, counters restored on
      every path including cancellation; chunked runs follow a reference plan,
      and for kernels that keep their contract they are the reference operation.
    - Counters: no descriptor leaks; evaluation fails closed; recovery is
      transactional; backoff is bounded; arithmetic stays in its types.
    - Monitor: upgrades need evidence, emergencies act at once, dwell and
      cooldown hold, the thread returns on a stop.
    - Life cycle: start is all or nothing, stop completes or can be repeated,
      start and stop round-trip; public handles refine a one-slot automaton.
    - Configuration: exact languages and bounds of option parsing, validity of
      accepted generations, conservative degraded overlay; the tokenizer is total
      and sound; a configuration file and the command line always terminate and
      deliver only settings in range, which a runtime generation accepts; the
      help text names exactly the options the command line tests for.
    - Telemetry: the sensor search settles on an unambiguous sensor of the right
      package; samples are well formed from creation to destruction.
    - Fusion: the bus keeps the newest reading of each source and snapshots fuse
      the best fresh one; a stop of the engine is synchronous and never
      deadlocks; the bridge is a counted session that leaves nothing behind; the
      temperature gate opens only on a fresh raw temperature; helper and bridge
      keep the laws that [PerfMode] and [Monitor] assume of telemetry.
    - Policy: wider widths are recommended only with a recorded temperature below
      the limit; exceptions lead to a fallback that only a reset leaves; loading
      coefficients is transactional and forecasts use valid samples only.
    - Observability: publications agree with the guard's model; the registry is
      exact and a reader of the exposition recovers it; without the credentials a
      client gets one of four fixed refusals; every open client has one owner in
      every interleaving and a stop by the controlling thread always returns.
    - Sensors and history: the store survives a restart bit for bit in its range;
      a failing adapter is discounted, and a socket without any weight answers
      with its stored baseline.
    - Machine code and attestation: the payloads compute one function, the 32-bit
      product, on every host that can run them; the digest query accepts exactly
      the code selected.
    - Executable: the shim runs only admitted code the host has; the workload
      ends; a run stops the exporter exactly when it started it.
    - Benchmarks: whatever widths ran, the checksum reported is that of the
      scalar mix and the counts add up; nothing is left behind; direct and
      dispatched sums agree.
    - Tools and reports: a tuned policy stays in its limits for any samples; the
      crash report is complete despite interrupted and partial writes; the time
      stamp and text of a log line read back.

    ** Bounds and fuel

    The monitor loop and the quiescence wait take fuel; liveness theorems give
    the fuel that is enough (samples until a stop, executions in flight plus
    one).  The tokenizer takes one unit per byte, the token array doubles at most
    as often as the text has bytes, [json_skip] takes two units per token and the
    coefficient reader one per byte; their theorems show that this is enough.
    Reading a request takes one unit per read, 8193 at most; its header loop, the
    send loop and the loaders of files take one per byte or line; the write loop
    of the crash report one per call, interruptions included; the shim makes two
    attempts; the workload one unit per batch, enough when the clock has passed
    the duration by then.  A pass of the benchmark takes one unit per item, which
    is enough; its phases one per pass, enough for a fixed width when the clock
    passes the duration within as many calls.
    Everything else is structurally recursive or bounded by its data.

    ** Interfaces

    [Env], [PerfEnv], [MonitorEnv], [LifeEnv], [SysEnv], [FusionEnv], [BridgeEnv],
    [PolicyEnv], [DiagEnv], [MetricsEnv], [HttpEnv], [HistoryEnv], [SensorEnv],
    [SignalEnv], [LogEnv], [ProgramEnv], [BenchEnv] and [TunerEnv] are the operating system,
    network, files, data providers and the C and C++ libraries; [HostLaws] says
    that AVX-512 implies AVX2 and [ClockLaws] that the monotonic clock is one;
    [Telemetry] with [TelemetryLaws] is telemetry as the counters see it, and
    [FusionBridge] discharges the laws for the repository's helper and bridge;
    [Controller] is the predictive policy as the monitor sees it, with arbitrary
    answers ([Policy] models the one in the repository); [PrivateRuntime] with
    [PrivateLaws] is what public handles use of the private life cycle, and
    [RuntimeApi.private_laws] discharges it; [RangeKernel] is what dispatchers ask
    of registered kernels, and [Transparency.mix_range_kernel] discharges it for
    the benchmark's.

    ** Not modelled

    The log lines of the library components (the logger itself is modelled, and so
    are the lines of the executable) and code compiled only for tests.  Exhaustion of memory while text
    is put together and failures of the mutexes of the sensor adapters are not
    considered; SHA-256, TLS and the expansion of a format by [vsnprintf] are
    parameters.  Memory orderings are not weakened: [Admission], [FusionThread]
    and [Exporter] interleave sequentially consistent steps. *)
From stdpp Require Export base tactics numbers option list.
From Stdlib Require Export ZArith Lia.

#[global] Open Scope Z_scope.

Declare Scope tsd_scope.
Delimit Scope tsd_scope with tsd.
#[global] Open Scope tsd_scope.

(** ** Machine integers

    C integers are carried as [Z]; an operation that can leave the range of its
    type is written with the reduction the C abstract machine performs. *)

Definition INT_MAX : Z := 2147483647.
Definition INT_MIN : Z := -2147483648.
Definition LONG_MAX : Z := 9223372036854775807.
Definition LONG_MIN : Z := -9223372036854775808.
Definition UINT32_MAX : Z := 4294967295.
Definition UINT64_MAX : Z := 18446744073709551615.
Definition SIZE_MAX : Z := UINT64_MAX.

Definition u8 (z : Z) : Z := z mod 256.
Definition u32 (z : Z) : Z := z mod 4294967296.
Definition u64 (z : Z) : Z := z mod 18446744073709551616.
Definition i32 (z : Z) : Z := (z + 2147483648) mod 4294967296 - 2147483648.

Definition in_u32 (z : Z) : Prop := 0 <= z <= UINT32_MAX.
Definition in_u64 (z : Z) : Prop := 0 <= z <= UINT64_MAX.
Definition in_int (z : Z) : Prop := INT_MIN <= z <= INT_MAX.

Ltac unfold_int :=
  unfold in_u32, in_u64, in_int, u8, u32, u64, i32, INT_MAX, INT_MIN, LONG_MAX, LONG_MIN,
    UINT32_MAX, UINT64_MAX, SIZE_MAX in *; unfold UINT64_MAX in *.

Lemma u64_small z : in_u64 z -> u64 z = z.
Proof. unfold_int. intros. apply Z.mod_small. lia. Qed.

Lemma u32_small z : in_u32 z -> u32 z = z.
Proof. unfold_int. intros. apply Z.mod_small. lia. Qed.

Lemma i32_small z : in_int z -> i32 z = z.
Proof. unfold_int. intros. rewrite Z.mod_small; lia. Qed.

Lemma u64_add_l a b : u64 (u64 a + b) = u64 (a + b).
Proof. unfold u64. by rewrite Zplus_mod_idemp_l. Qed.
Lemma u64_range z : in_u64 (u64 z).
Proof. unfold_int. pose proof (Z.mod_pos_bound z 18446744073709551616). lia. Qed.

Lemma u32_range z : in_u32 (u32 z).
Proof. unfold_int. pose proof (Z.mod_pos_bound z 4294967296). lia. Qed.

Lemma i32_range z : in_int (i32 z).
Proof. unfold_int. pose proof (Z.mod_pos_bound (z + 2147483648) 4294967296). lia. Qed.

(** A quotient of non-negative numbers is bounded by its numerator. *)
Lemma div_le_num a b : 0 <= a -> 0 < b -> 0 <= a / b <= a.
Proof.
  intros Ha Hb. split; [apply Z.div_pos; lia|].
  apply Z.div_le_upper_bound; nia.
Qed.

(** Ceiling division, the reference for tick and chunk counts. *)
Definition cdiv (a b : Z) : Z := - ((- a) / b).

Lemma cdiv_spec a b : 0 < b -> (cdiv a b - 1) * b < a <= cdiv a b * b.
Proof.
  intros Hb. unfold cdiv.
  pose proof (Z.div_mod (- a) b ltac:(lia)).
  pose proof (Z.mod_pos_bound (- a) b Hb). nia.
Qed.

Lemma cdiv_add a b : 0 < b -> cdiv a b = (a + b - 1) / b.
Proof.
  intros Hb. apply (Z.div_unique (a + b - 1) b (cdiv a b) (a + b - 1 - cdiv a b * b)); [|lia].
  pose proof (cdiv_spec a b Hb). lia.
Qed.

Create Rewrite HintDb machine_int.
#[export] Hint Rewrite u64_small u32_small i32_small using (unfold_int; lia) : machine_int.

(** ** errno values (Linux) *)

Definition EPERM : Z := 1.
Definition ENOENT : Z := 2.
Definition EINTR : Z := 4.
Definition EIO : Z := 5.
Definition E2BIG : Z := 7.
Definition EBADF : Z := 9.
Definition EAGAIN : Z := 11.
Definition ENOMEM : Z := 12.
Definition EACCES : Z := 13.
Definition EBUSY : Z := 16.
Definition ENODEV : Z := 19.
Definition EINVAL : Z := 22.
Definition ERANGE : Z := 34.
Definition EDEADLK : Z := 35.
Definition ENODATA : Z := 61.
Definition EOPNOTSUPP : Z := 95.
Definition ENOTSUP : Z := 95.

(** ** Record update

    [r <| f := v |>] replaces one field.  Each record declares how it is rebuilt
    from its projections; the setter of a projection is found by abstracting it. *)

Class Eta (R : Type) : Type := eta : R -> R.

Class Setter {R T : Type} (proj : R -> T) : Type := over : (T -> T) -> R -> R.
Arguments over {R T} proj {_} _ _ /.

Ltac find_setter proj :=
  match type of proj with
  | ?R -> _ =>
      let e := eval hnf in (_ : Eta R) in
      match eval pattern proj in e with
      | ?g _ => exact (fun h => g (fun r => h (proj r)))
      end
  end.

#[global] Hint Extern 1 (Setter ?proj) => (find_setter proj) : typeclass_instances.

Notation "r <| f := v |>" := (over f (fun _ => v) r)
  (at level 1, f constr, v constr at level 200, left associativity) : tsd_scope.
Notation "r <| f ::= g |>" := (over f g r)
  (at level 1, f constr, g constr at level 200, left associativity) : tsd_scope.

(** ** The state monad of C code with global state *)

Definition ST (W A : Type) : Type := W -> A * W.

Definition ret {W A} (a : A) : ST W A := fun w => (a, w).
Definition bind {W A B} (m : ST W A) (k : A -> ST W B) : ST W B :=
  fun w => let '(a, w') := m w in k a w'.
Definition gets {W A} (f : W -> A) : ST W A := fun w => (f w, w).
Definition modify {W} (f : W -> W) : ST W unit := fun w => (tt, f w).
Definition when {W} (b : bool) (m : ST W unit) : ST W unit := if b then m else ret tt.

Notation "x <- c ;; k" := (bind c (fun x => k))
  (at level 100, c at next level, right associativity) : tsd_scope.
Notation "'let*' p ':=' c 'in' k" := (bind c (fun x => match x with p => k end))
  (at level 10, p strict pattern, c at level 100, k at level 200) : tsd_scope.
Notation "c ;;; k" := (bind c (fun _ => k))
  (at level 100, right associativity) : tsd_scope.

Definition exec {W A} (m : ST W A) (w : W) : W := (m w).2.
Definition result {W A} (m : ST W A) (w : W) : A := (m w).1.

(** Postconditions of a computation. *)
Definition wp {W A} (m : ST W A) (Q : A -> W -> Prop) (w : W) : Prop := Q (m w).1 (m w).2.

Section wp_rules.
Context {W : Type}.

Lemma wp_ret {A} (a : A) Q (w : W) : Q a w -> wp (ret a) Q w.
Proof. done. Qed.

Lemma wp_bind {A B} (m : ST W A) (k : A -> ST W B) Q w :
  wp m (fun a => wp (k a) Q) w -> wp (bind m k) Q w.
Proof. unfold wp, bind. by destruct (m w). Qed.

Lemma wp_mono {A} (m : ST W A) (P Q : A -> W -> Prop) w :
  wp m P w -> (forall a w', P a w' -> Q a w') -> wp m Q w.
Proof. unfold wp. eauto. Qed.

Lemma wp_gets {A} (f : W -> A) Q (w : W) : Q (f w) w -> wp (gets f) Q w.
Proof. done. Qed.

Lemma wp_modify (f : W -> W) Q w : Q tt (f w) -> wp (modify f) Q w.
Proof. done. Qed.

Lemma wp_when (b : bool) (m : ST W unit) Q w :
  (if b then wp m Q w else Q tt w) -> wp (when b m) Q w.
Proof. by destruct b. Qed.

Lemma bind_run {A B} (m : ST W A) (k : A -> ST W B) w :
  bind m k w = k (m w).1 (m w).2.
Proof. unfold bind. by destruct (m w). Qed.
End wp_rules.

(** ** Preservation of a preorder on states

    [respects R m] states that every run of [m] moves the state along [R]: an
    invariant is the case [R w w' := I w -> I w'], a frame condition the case
    [R w w' := f w = f w'].  The rules below make it compositional. *)

Definition respects {W A} (R : W -> W -> Prop) (m : ST W A) : Prop :=
  forall w, R w (m w).2.

Section respects_rules.
Context {W : Type} (R : W -> W -> Prop) `{HR : !PreOrder R}.

Lemma respects_ret {A} (a : A) : respects R (ret a).
Proof. intros w. apply (PreOrder_Reflexive w). Qed.

Lemma respects_gets {A} (f : W -> A) : respects R (gets f).
Proof. intros w. apply (PreOrder_Reflexive w). Qed.

Lemma respects_bind {A B} (m : ST W A) (k : A -> ST W B) :
  respects R m -> (forall a, respects R (k a)) -> respects R (bind m k).
Proof.
  intros Hm Hk w. rewrite bind_run.
  eapply PreOrder_Transitive; [apply Hm | apply Hk].
Qed.

Lemma respects_when b (m : ST W unit) : respects R m -> respects R (when b m).
Proof. destruct b; [done | intros _; apply respects_ret]. Qed.

Lemma respects_if {A} (b : bool) (m1 m2 : ST W A) :
  respects R m1 -> respects R m2 -> respects R (if b then m1 else m2).
Proof. by destruct b. Qed.
End respects_rules.

#[export] Instance eq_field_preorder {W T} (f : W -> T) :
  PreOrder (fun w w' => f w = f w').
Proof. split; red; cbn; congruence. Qed.

#[export] Instance inv_preorder {W} (I : W -> Prop) : PreOrder (fun w w' => I w -> I w').
Proof. split; red; cbn; auto. Qed.

Create HintDb tsd discriminated.
#[export] Hint Resolve respects_ret respects_gets respects_bind respects_when : tsd.

(** Decompose a [respects] goal along the shape of the program. *)
Ltac respects_step :=
  match goal with
  | |- respects _ (bind _ _) => apply respects_bind; [exact _ | | intro]
  | |- respects _ (ret _) => apply respects_ret; exact _
  | |- respects _ (gets _) => apply respects_gets; exact _
  | |- respects _ (when _ _) => apply respects_when; [exact _ |]
  | |- respects _ (if ?b then _ else _) => apply respects_if
  | |- respects _ (match ?x with _ => _ end) => destruct x
  | |- respects _ (let '(_, _) := ?x in _) => destruct x
  end.

(** ** Boolean comparisons of C code *)

Notation "a <>? b" := (negb (Z.eqb a b)) (at level 70) : Z_scope.

Ltac zbool :=
  repeat match goal with
  | H : Z.eqb _ _ = true |- _ => apply Z.eqb_eq in H
  | H : Z.eqb _ _ = false |- _ => apply Z.eqb_neq in H
  | H : Z.ltb _ _ = true |- _ => apply Z.ltb_lt in H
  | H : Z.ltb _ _ = false |- _ => apply Z.ltb_ge in H
  | H : Z.leb _ _ = true |- _ => apply Z.leb_le in H
  | H : Z.leb _ _ = false |- _ => apply Z.leb_gt in H
  | H : Z.gtb _ _ = _ |- _ => rewrite Z.gtb_ltb in H
  | H : Z.geb _ _ = _ |- _ => rewrite Z.geb_leb in H
  | H : andb _ _ = true |- _ => apply andb_true_iff in H as [? ?]
  | H : orb _ _ = false |- _ => apply orb_false_iff in H as [? ?]
  | H : negb _ = true |- _ => apply negb_true_iff in H
  | H : negb _ = false |- _ => apply negb_false_iff in H
  end.

(** Case analysis on the tests of the goal, keeping the outcome. *)
Ltac case_if :=
  match goal with
  | |- context [if ?b then _ else _] => let E := fresh "E" in destruct b eqn:E
  | H : context [if ?b then _ else _] |- _ => let E := fresh "E" in destruct b eqn:E
  end.

(** Split a conjunction and close what is immediate. *)
Ltac split_done := repeat match goal with |- _ /\ _ => split end; try done.
