(* ===== verification/Statistics.v ===== *)
(** * Statistics: the estimators of [src/src/statistics.c]

    [tsd_update_ewma] (integer exponential moving average that never
    overshoots its sample) and [tsd_compute_trimmed_mean] (in-place insertion
    sort of a window of at most eight ratios, then the mean without its two
    extremes).  The sort is modelled on the scratch array itself, index by
    index, and proved to produce the sorted permutation of the window. *)
From S2P Require Import Prelude.
From stdpp Require Import sorting.
#[local] Open Scope Z_scope.

Definition TSD_RATIO_HISTORY : nat := 8.

(** ** Exponential moving average *)

Definition tsd_update_ewma (prev sample shift : Z) : Z :=
  if (prev =? 0) || (shift =? 0) then sample
  else if sample =? prev then prev
  else if sample >? prev then
    let delta := u64 (sample - prev) in
    let step := Z.shiftr delta shift in
    let step := if step =? 0 then 1 else step in
    let next := u64 (prev + step) in
    if next >? sample then sample else next
  else
    let delta := u64 (prev - sample) in
    let step := Z.shiftr delta shift in
    let step := if step =? 0 then 1 else step in
    let next := u64 (prev - step) in
    if next <? sample then sample else next.

(** ** Trimmed mean *)

(** [while (j > 0 && scratch[j-1] > key) { scratch[j] = scratch[j-1]; --j; }] *)
Fixpoint shift_up (scratch : list Z) (key : Z) (j : nat) : list Z * nat :=
  match j with
  | O => (scratch, O)
  | S j' =>
      if scratch !!! j' >? key then shift_up (<[j := scratch !!! j']> scratch) key j'
      else (scratch, j)
  end.

(** Body of the outer [for] loop at index [i]. *)
Definition sort_step (scratch : list Z) (i : nat) : list Z :=
  let key := scratch !!! i in
  let '(scratch, j) := shift_up scratch key i in
  <[j := key]> scratch.

Definition insertion_sort (scratch : list Z) (count : nat) : list Z :=
  foldl sort_step scratch (seq 1 (count - 1)).

(** [for (i = start; i < end; ++i) { sum += scratch[i]; ++samples; }] *)
Definition sum_range (scratch : list Z) (start stop : nat) : Z * Z :=
  foldl (fun '(sum, samples) i => (u64 (sum + scratch !!! i), samples + 1))
    (0, 0) (seq start (stop - start)).

Definition tsd_compute_trimmed_mean (values : option (list Z)) (count : nat) : Z :=
  match values with
  | None => 0
  | Some values =>
      if Nat.eqb count 0 then 0 else
      let count := if Nat.ltb TSD_RATIO_HISTORY count then TSD_RATIO_HISTORY else count in
      let scratch := insertion_sort (take count values) count in
      if Nat.leb count 2 then
        u32 ((sum_range scratch 0 count).1 / Z.of_nat count)
      else
        let '(sum, samples) := sum_range scratch 1 (count - 1) in
        if samples =? 0 then scratch !!! Nat.div count 2 else u32 (sum / samples)
  end.

(** ** Moving average: lemmas *)

Section ewma.
Context (prev sample shift : Z).
Hypothesis (Hp : in_u64 prev) (Hs : in_u64 sample) (Hsh : 0 <= shift).

Lemma shiftr_bound d : 0 <= d -> 0 <= Z.shiftr d shift <= d.
Proof.
  intros Hd. rewrite Z.shiftr_div_pow2 by done.
  apply div_le_num; [done | apply Z.pow_pos_nonneg; lia].
Qed.

Lemma ewma_cases :
  tsd_update_ewma prev sample shift =
    if (prev =? 0) || (shift =? 0) || (prev =? sample) then sample
    else if prev <? sample then prev + Z.max 1 (Z.shiftr (sample - prev) shift)
    else prev - Z.max 1 (Z.shiftr (prev - sample) shift).
Proof.
  unfold tsd_update_ewma.
  destruct ((prev =? 0) || (shift =? 0)) eqn:E0; [done|]. cbn.
  rewrite (Z.eqb_sym sample prev). destruct (prev =? sample) eqn:E1; [zbool; lia|].
  rewrite Z.gtb_ltb. zbool.
  destruct (prev <? sample) eqn:E2; zbool.
  - rewrite (u64_small (sample - prev)) by (unfold_int; lia).
    pose proof (shiftr_bound (sample - prev) ltac:(lia)) as Hb.
    cbv zeta. destruct (Z.shiftr _ _ =? 0) eqn:E3; zbool;
      rewrite u64_small by (unfold_int; lia);
      rewrite Z.gtb_ltb; case_if; zbool; lia.
  - rewrite (u64_small (prev - sample)) by (unfold_int; lia).
    pose proof (shiftr_bound (prev - sample) ltac:(lia)) as Hb.
    cbv zeta. destruct (Z.shiftr _ _ =? 0) eqn:E3; zbool;
      rewrite u64_small by (unfold_int; lia); case_if; zbool; lia.
Qed.

(** No overshoot: the estimate stays between its old value and the sample. *)
Lemma ewma_between :
  Z.min prev sample <= tsd_update_ewma prev sample shift <= Z.max prev sample \/
  (prev = 0 \/ shift = 0) /\ tsd_update_ewma prev sample shift = sample.
Proof.
  rewrite ewma_cases.
  destruct ((prev =? 0) || (shift =? 0)) eqn:E0; cbn.
  { right. split; [|done]. apply orb_true_iff in E0 as [E|E]; zbool; lia. }
  left. destruct (prev =? sample) eqn:E1; [zbool; lia|].
  destruct (prev <? sample) eqn:E2; zbool.
  - pose proof (shiftr_bound (sample - prev) ltac:(lia)). lia.
  - pose proof (shiftr_bound (prev - sample) ltac:(lia)). lia.
Qed.

(** Strict progress: unless already there, the distance shrinks. *)
Lemma ewma_progress :
  prev <> sample ->
  Z.abs (tsd_update_ewma prev sample shift - sample) < Z.abs (prev - sample).
Proof.
  intros Hne. rewrite ewma_cases.
  destruct ((prev =? 0) || (shift =? 0)) eqn:E0; cbn; [lia|].
  destruct (prev =? sample) eqn:E1; [zbool; lia|].
  destruct (prev <? sample) eqn:E2; zbool.
  - pose proof (shiftr_bound (sample - prev) ltac:(lia)). lia.
  - pose proof (shiftr_bound (prev - sample) ltac:(lia)). lia.
Qed.
End ewma.

(** Repeated updates with one constant sample. *)
Fixpoint ewma_iter (n : nat) (prev sample shift : Z) : Z :=
  match n with
  | O => prev
  | S n => ewma_iter n (tsd_update_ewma prev sample shift) sample shift
  end.

Lemma ewma_range prev sample shift :
  in_u64 prev -> in_u64 sample -> 0 <= shift -> in_u64 (tsd_update_ewma prev sample shift).
Proof.
  intros Hp Hs Hsh. destruct (ewma_between prev sample shift Hp Hs Hsh) as [H|[_ ->]]; [|done].
  unfold_int; lia.
Qed.

Lemma ewma_iter_converges n prev sample shift :
  in_u64 prev -> in_u64 sample -> 0 <= shift ->
  Z.abs (prev - sample) <= Z.of_nat n -> ewma_iter n prev sample shift = sample.
Proof.
  revert prev. induction n as [|n IH]; intros prev Hp Hs Hsh Hd; cbn; [lia|].
  apply IH; [by apply ewma_range | done | done |].
  destruct (Z.eq_dec prev sample) as [->|Hne].
  - rewrite ewma_cases by done. rewrite Z.eqb_refl, !orb_true_r. lia.
  - pose proof (ewma_progress prev sample shift Hp Hs Hsh Hne). lia.
Qed.

(** ** Insertion sort: lemmas *)

(** Reference insertion into a sorted list. *)
Fixpoint ins (key : Z) (l : list Z) : list Z :=
  match l with
  | [] => [key]
  | y :: l => if y <=? key then y :: ins key l else key :: y :: l
  end.

Lemma ins_snoc_gt key p y : key < y -> ins key (p ++ [y]) = ins key p ++ [y].
Proof.
  intros Hy. induction p as [|z p IH]; cbn.
  - destruct (Z.leb_spec y key); [lia | done].
  - destruct (z <=? key); [by rewrite IH | done].
Qed.

Lemma ins_all_le key p : Forall (fun y => y <= key) p -> ins key p = p ++ [key].
Proof.
  induction 1 as [|y p Hy _ IH]; cbn; [done|].
  destruct (Z.leb_spec y key); [by rewrite IH | lia].
Qed.

Lemma ins_perm key l : ins key l ≡ₚ key :: l.
Proof.
  induction l as [|y l IH]; cbn; [done|].
  destruct (y <=? key); [rewrite IH; apply Permutation_swap | done].
Qed.

Lemma ins_sorted key l : StronglySorted Z.le l -> StronglySorted Z.le (ins key l).
Proof.
  induction 1 as [|y l Hl IH Hy]; cbn.
  - repeat constructor.
  - destruct (Z.leb_spec y key).
    + constructor; [done|]. rewrite ins_perm. by constructor.
    + constructor; [by constructor|]. constructor; [lia|].
      eapply Forall_impl; [exact Hy | cbn; lia].
Qed.

Lemma sorted_snoc_le p y key :
  StronglySorted Z.le (p ++ [y]) -> y <= key -> Forall (fun z => z <= key) (p ++ [y]).
Proof.
  induction p as [|z p IH]; cbn; intros Hs Hy; [by constructor|].
  inversion Hs as [|? ? Hs' Hz]; subst. constructor; [|by apply IH].
  apply Forall_app in Hz as [_ Hz]. inversion Hz; subst. lia.
Qed.

Lemma sorted_app_l (p q : list Z) : StronglySorted Z.le (p ++ q) -> StronglySorted Z.le p.
Proof.
  induction p as [|z p IH]; cbn; intros Hs; [constructor|].
  inversion Hs as [|? ? Hs' Hz]; subst. constructor; [by apply IH|].
  by apply Forall_app in Hz as [Hz _].
Qed.

Lemma shift_up_spec key p x post scratch j :
  StronglySorted Z.le p ->
  shift_up (p ++ x :: post) key (length p) = (scratch, j) ->
  <[j := key]> scratch = ins key p ++ post.
Proof.
  revert x post scratch j.
  induction p as [|y p IH] using rev_ind; intros x post scratch j Hs; cbn.
  { intros [= <- <-]. done. }
  rewrite length_app, Nat.add_1_r. cbn.
  rewrite <- (app_assoc p [y]). cbn.
  rewrite list_lookup_total_middle by done.
  destruct (Z.gtb_spec y key) as [Hgt|Hle].
  - rewrite insert_app_r_alt by lia.
    replace (S (length p) - length p)%nat with 1%nat by lia. cbn.
    intros H. apply IH in H; [|by eapply sorted_app_l].
    rewrite H, ins_snoc_gt by done. by rewrite <- app_assoc.
  - intros [= <- <-].
    rewrite (ins_all_le key (p ++ [y])) by (by apply sorted_snoc_le).
    rewrite insert_app_r_alt by lia.
    replace (S (length p) - length p)%nat with 1%nat by lia. cbn.
    by rewrite <- !app_assoc.
Qed.

Lemma sort_step_spec p key post :
  StronglySorted Z.le p -> sort_step (p ++ key :: post) (length p) = ins key p ++ post.
Proof.
  intros Hs. unfold sort_step. rewrite list_lookup_total_middle by done.
  destruct (shift_up _ _ _) as [s j] eqn:E. by eapply shift_up_spec.
Qed.

Lemma sort_loop_spec n k p post :
  StronglySorted Z.le p -> length p = k -> (n <= length post)%nat ->
  exists q, foldl sort_step (p ++ post) (seq k n) = q ++ drop n post /\
    StronglySorted Z.le q /\ q ≡ₚ p ++ take n post /\ length q = (k + n)%nat.
Proof.
  revert k p post. induction n as [|n IH]; intros k p post Hs Hk Hn; cbn.
  { exists p. rewrite drop_0, app_nil_r. repeat split; [done | done | lia]. }
  destruct post as [|key post]; cbn in *; [lia|].
  subst k. rewrite sort_step_spec by done.
  assert (Hlen : length (ins key p) = S (length p)).
  { erewrite Permutation_length; [|apply ins_perm]. done. }
  destruct (IH (S (length p)) (ins key p) post) as (q & Hq & Hsq & Hpq & Hlq);
    [by apply ins_sorted | done | lia |].
  exists q. rewrite Hq. repeat split; [done | | lia].
  rewrite Hpq, ins_perm. apply Permutation_middle.
Qed.

Lemma insertion_sort_spec l :
  StronglySorted Z.le (insertion_sort l (length l)) /\ insertion_sort l (length l) ≡ₚ l.
Proof.
  unfold insertion_sort. destruct l as [|x l]; cbn; [repeat constructor|].
  destruct (sort_loop_spec (length l) 1 [x] l) as (q & Hq & Hs & Hp & _);
    [repeat constructor | done | done |].
  rewrite Nat.sub_0_r. cbn in Hq. rewrite Hq, drop_all, app_nil_r.
  split; [done|]. rewrite Hp, take_ge by lia. done.
Qed.

(** ** Window sums *)

Lemma sum_list_Z_bounds (l : list Z) lo hi :
  Forall (fun x => lo <= x <= hi) l ->
  Z.of_nat (length l) * lo <= foldr Z.add 0 l <= Z.of_nat (length l) * hi.
Proof. induction 1; cbn [foldr length]; lia. Qed.

Lemma sum_range_app (a l b : list Z) s c :
  Forall in_u32 l -> 0 <= s -> s + foldr Z.add 0 l <= UINT64_MAX ->
  foldl (fun '(sum, samples) i => (u64 (sum + (a ++ l ++ b) !!! i), samples + 1))
    (s, c) (seq (length a) (length l)) = (s + foldr Z.add 0 l, c + Z.of_nat (length l)).
Proof.
  revert a s c. induction l as [|x l IH]; intros a s c Hl Hs Hb; cbn.
  { f_equal; lia. }
  inversion Hl as [|? ? Hx Hl']; subst.
  assert (0 <= foldr Z.add 0 l).
  { pose proof (sum_list_Z_bounds l 0 UINT32_MAX Hl'). lia. }
  rewrite list_lookup_total_middle by done. cbn in Hb.
  rewrite u64_small by (unfold_int; lia).
  replace (a ++ x :: l ++ b) with ((a ++ [x]) ++ l ++ b) by (by rewrite <- app_assoc).
  replace (S (length a)) with (length (a ++ [x])) by (rewrite length_app; cbn; lia).
  rewrite IH by (try done; unfold_int; lia). f_equal; lia.
Qed.

Lemma sum_range_middle (a l b : list Z) :
  Forall in_u32 l -> (length l <= TSD_RATIO_HISTORY)%nat ->
  sum_range (a ++ l ++ b) (length a) (length a + length l) =
    (foldr Z.add 0 l, Z.of_nat (length l)).
Proof.
  intros Hl Hn. unfold sum_range.
  replace (length a + length l - length a)%nat with (length l) by lia.
  rewrite sum_range_app; [f_equal; lia | done | lia |].
  pose proof (sum_list_Z_bounds l 0 UINT32_MAX Hl).
  unfold TSD_RATIO_HISTORY in Hn. unfold_int. lia.
Qed.

Lemma mean_bounds (l : list Z) lo hi :
  l <> [] -> Forall (fun x => lo <= x <= hi) l ->
  lo <= foldr Z.add 0 l / Z.of_nat (length l) <= hi.
Proof.
  intros Hne Hl. pose proof (sum_list_Z_bounds l lo hi Hl).
  assert (0 < Z.of_nat (length l)) by (destruct l; cbn in *; [done | lia]).
  split; [apply Z.div_le_lower_bound | apply Z.div_le_upper_bound]; lia.
Qed.

(** A sorted window of at least three values splits into its extremes and its
    middle part. *)
Lemma sorted_split3 (s : list Z) :
  StronglySorted Z.le s -> (2 < length s)%nat ->
  exists lo mid hi, s = lo :: mid ++ [hi] /\ Forall (fun x => lo <= x <= hi) mid.
Proof.
  intros Hs Hn. destruct s as [|lo t]; cbn in Hn; [lia|].
  destruct t as [|hi mid _] using rev_ind; cbn in Hn; [lia|].
  exists lo, mid, hi. split; [done|].
  inversion Hs as [|? ? Ht Hlo]; subst.
  apply Forall_app in Hlo as [Hlo _].
  assert (Forall (fun x => x <= hi) (mid ++ [hi])) by (by apply sorted_snoc_le).
  apply Forall_app in H as [Hhi _].
  apply Forall_forall. intros x Hx.
  rewrite Forall_forall in Hlo. rewrite Forall_forall in Hhi.
  split; [by apply Hlo | by apply Hhi].
Qed.

Lemma mean_u32 (l : list Z) :
  l <> [] -> Forall in_u32 l ->
  u32 (foldr Z.add 0 l / Z.of_nat (length l)) = foldr Z.add 0 l / Z.of_nat (length l).
Proof. intros Hne Hl. apply u32_small. by apply mean_bounds. Qed.

Lemma sum_perm (l1 l2 : list Z) : l1 ≡ₚ l2 -> foldr Z.add 0 l1 = foldr Z.add 0 l2.
Proof. induction 1; cbn; lia. Qed.

(** The window the code averages. *)
Definition window (vs : list Z) (count : nat) : list Z :=
  take (Nat.min count TSD_RATIO_HISTORY) vs.

Lemma trimmed_mean_eq vs count :
  (0 < count <= length vs)%nat ->
  let w := window vs count in
  let s := insertion_sort w (length w) in
  tsd_compute_trimmed_mean (Some vs) count =
    if Nat.leb (length w) 2 then u32 ((sum_range s 0 (length w)).1 / Z.of_nat (length w))
    else let '(sum, samples) := sum_range s 1 (length w - 1) in
         if samples =? 0 then s !!! Nat.div (length w) 2 else u32 (sum / samples).
Proof.
  intros [Hc Hl]. cbv zeta. unfold tsd_compute_trimmed_mean, window.
  replace (Nat.eqb count 0) with false by (symmetry; apply Nat.eqb_neq; lia).
  rewrite (length_take_le vs) by lia.
  replace (if Nat.ltb TSD_RATIO_HISTORY count then TSD_RATIO_HISTORY else count)
    with (Nat.min count TSD_RATIO_HISTORY)
    by (destruct (Nat.ltb_spec TSD_RATIO_HISTORY count); lia).
  done.
Qed.

Lemma trimmed_mean_small vs count :
  Forall in_u32 vs -> (0 < count <= length vs)%nat -> (length (window vs count) <= 2)%nat ->
  tsd_compute_trimmed_mean (Some vs) count =
    foldr Z.add 0 (window vs count) / Z.of_nat (length (window vs count)).
Proof.
  intros Hv Hc Hw2. rewrite trimmed_mean_eq by done. cbv zeta.
  set (w := window vs count) in *.
  assert (Hw : Forall in_u32 w) by (by apply Forall_take).
  assert (Hne : w <> []).
  { intros E. apply (f_equal length) in E. unfold w, window in E.
    rewrite length_take_le in E by lia. cbn in E. unfold TSD_RATIO_HISTORY in E. lia. }
  rewrite (proj2 (Nat.leb_le _ _) Hw2).
  destruct (insertion_sort_spec w) as [_ Hp].
  assert (Hsum := sum_range_middle [] (insertion_sort w (length w)) []).
  cbn [app length Nat.add] in Hsum. rewrite app_nil_r, (Permutation_length Hp) in Hsum.
  rewrite Hsum; [| by rewrite Hp | unfold TSD_RATIO_HISTORY; lia].
  cbn [fst]. rewrite (sum_perm _ _ Hp). by apply mean_u32.
Qed.

Lemma trimmed_mean_large vs count :
  Forall in_u32 vs -> (0 < count <= length vs)%nat -> (2 < length (window vs count))%nat ->
  exists lo mid hi,
    insertion_sort (window vs count) (length (window vs count)) = lo :: mid ++ [hi] /\
    window vs count ≡ₚ lo :: mid ++ [hi] /\
    Forall (fun x => lo <= x <= hi) mid /\ mid <> [] /\
    tsd_compute_trimmed_mean (Some vs) count = foldr Z.add 0 mid / Z.of_nat (length mid).
Proof.
  intros Hv Hc Hw2. rewrite trimmed_mean_eq by done. cbv zeta.
  set (w := window vs count) in *.
  rewrite (proj2 (Nat.leb_gt _ _) Hw2).
  destruct (insertion_sort_spec w) as [Hsort Hp].
  assert (Hls := Permutation_length Hp).
  destruct (sorted_split3 _ Hsort ltac:(lia)) as (lo & mid & hi & Heq & Hmid).
  assert (Hlm : length w = S (S (length mid))).
  { rewrite <- Hls, Heq. cbn. rewrite length_app. cbn. lia. }
  assert (Hum : Forall in_u32 mid).
  { assert (Hs : Forall in_u32 (lo :: mid ++ [hi])) by (rewrite <- Heq, Hp; by apply Forall_take).
    inversion Hs as [|? ? _ Hs']; subst. by apply Forall_app in Hs' as [? _]. }
  assert (Hne : mid <> []) by (intros ->; cbn in *; lia).
  assert (Hw8 : (length w <= TSD_RATIO_HISTORY)%nat) by (unfold w, window; rewrite length_take; lia).
  exists lo, mid, hi. split; [done|]. split; [by rewrite <- Heq|]. split; [done|]. split; [done|].
  assert (Hsum := sum_range_middle [lo] mid [hi] Hum ltac:(lia)).
  cbn [app length] in Hsum. rewrite <- Heq in Hsum.
  replace (length w - 1)%nat with (1 + length mid)%nat by lia.
  rewrite Hsum. rewrite (proj2 (Z.eqb_neq (Z.of_nat (length mid)) 0)) by lia.
  by apply mean_u32.
Qed.

(** ** Properties *)

(** Feeding one constant sample to [tsd_update_ewma] moves the
    estimate to that sample, and keeps it there, after at most [|prev - sample|]
    updates, whatever the smoothing shift: the minimum step of one rules out a
    stuck estimate, and no update overshoots or wraps around 64 bits. *)
Theorem ewma_reaches_sample (n : nat) (prev sample shift : Z) :
  in_u64 prev -> in_u64 sample -> 0 <= shift ->
  Z.abs (prev - sample) <= Z.of_nat n ->
  ewma_iter n prev sample shift = sample /\
  Z.min prev sample <= tsd_update_ewma prev sample shift <= Z.max prev sample.
Proof.
  intros Hp Hs Hsh Hn. split; [by apply ewma_iter_converges|].
  destruct (ewma_between prev sample shift Hp Hs Hsh) as [H|[_ ->]]; lia.
Qed.

Lemma ewma_reaches_sample_witness :
  ewma_iter 90 10 100 5 = 100 /\ 10 <= tsd_update_ewma 10 100 5 <= 100.
Proof.
  apply (ewma_reaches_sample 90 10 100 5); unfold in_u64, UINT64_MAX; lia.
Defined.

(** On a window of at least three ratios
    [tsd_compute_trimmed_mean] is the integer mean of what remains after one
    smallest and one largest value are dropped, and it lies between the two
    dropped values: a single outlier cannot move it.  The window is what the
    code copies, the first [min(count, 8)] values. *)
Theorem trimmed_mean_drops_extremes (vs : list Z) (count : nat) :
  Forall in_u32 vs -> (0 < count <= length vs)%nat -> (2 < count)%nat ->
  exists lo mid hi,
    window vs count ≡ₚ lo :: mid ++ [hi] /\
    Forall (fun x => lo <= x <= hi) mid /\
    tsd_compute_trimmed_mean (Some vs) count = foldr Z.add 0 mid / Z.of_nat (length mid) /\
    lo <= tsd_compute_trimmed_mean (Some vs) count <= hi.
Proof.
  intros Hv Hc H2. destruct (trimmed_mean_large vs count) as (lo & mid & hi & _ & Hp & Hm & Hne & Heq);
    [done | done | unfold window; rewrite length_take; unfold TSD_RATIO_HISTORY; lia |].
  exists lo, mid, hi. rewrite Heq. do 3 (split; [done|]). by apply mean_bounds.
Qed.

Lemma trimmed_mean_drops_extremes_witness :
  exists lo mid hi,
    window [900; 1000; 5000; 1100] 4 ≡ₚ lo :: mid ++ [hi] /\
    Forall (fun x => lo <= x <= hi) mid /\
    tsd_compute_trimmed_mean (Some [900; 1000; 5000; 1100]) 4 =
      foldr Z.add 0 mid / Z.of_nat (length mid) /\
    lo <= tsd_compute_trimmed_mean (Some [900; 1000; 5000; 1100]) 4 <= hi.
Proof.
  apply (trimmed_mean_drops_extremes [900; 1000; 5000; 1100] 4);
    [repeat constructor; unfold in_u32, UINT32_MAX; lia | cbn; lia | lia].
Defined.

(** The trimmed mean depends on the contents of the window and
    not on their order, so the position of the ring-buffer cursor in
    [perf_ctx.ratio_history] does not influence the reported ratio. *)
Theorem trimmed_mean_order_irrelevant (vs1 vs2 : list Z) :
  Forall in_u32 vs1 -> (0 < length vs1 <= TSD_RATIO_HISTORY)%nat -> vs1 ≡ₚ vs2 ->
  tsd_compute_trimmed_mean (Some vs1) (length vs1) = tsd_compute_trimmed_mean (Some vs2) (length vs2).
Proof.
  intros Hv Hl Hp. assert (Hlp := Permutation_length Hp).
  rewrite !trimmed_mean_eq by lia. unfold window.
  rewrite !take_ge by lia. cbv zeta. rewrite <- Hlp.
  destruct (insertion_sort_spec vs1) as [Hs1 Hp1], (insertion_sort_spec vs2) as [Hs2 Hp2].
  rewrite <- Hlp in Hs2, Hp2.
  rewrite (StronglySorted_unique Z.le (insertion_sort vs1 (length vs1)) (insertion_sort vs2 (length vs1)));
    [done | done | done | by rewrite Hp1, Hp2].
Qed.

Lemma trimmed_mean_order_irrelevant_witness :
  tsd_compute_trimmed_mean (Some [900; 1000; 5000]) 3 =
  tsd_compute_trimmed_mean (Some [5000; 900; 1000]) 3.
Proof.
  apply (trimmed_mean_order_irrelevant [900; 1000; 5000] [5000; 900; 1000]);
    [repeat constructor; unfold in_u32, UINT32_MAX; lia | unfold TSD_RATIO_HISTORY; cbn; lia |].
  apply (Permutation_app_comm [900; 1000] [5000]).
Defined.

(** The bound every caller relies on: the mean of a window of 32-bit ratios is
    a 32-bit ratio. *)
Lemma trimmed_mean_range vs count :
  Forall in_u32 vs -> (0 < count <= length vs)%nat ->
  in_u32 (tsd_compute_trimmed_mean (Some vs) count).
Proof.
  intros Hv Hc. destruct (Nat.le_gt_cases (length (window vs count)) 2) as [H|H].
  - rewrite trimmed_mean_small by done. apply mean_bounds.
    + intros E. apply (f_equal length) in E. unfold window in E.
      rewrite length_take in E. cbn in E. unfold TSD_RATIO_HISTORY in E. lia.
    + by apply Forall_take.
  - destruct (trimmed_mean_large vs count Hv Hc H) as (lo & mid & hi & Hi & Hp & Hm & Hne & ->).
    apply mean_bounds; [done|].
    assert (Hs : Forall in_u32 (lo :: mid ++ [hi])) by (rewrite <- Hp; by apply Forall_take).
    inversion Hs as [|? ? _ Hs']; subst. by apply Forall_app in Hs' as [? _].
Qed.

Example ewma_step_example : tsd_update_ewma 1000 2000 2 = 1250.
Proof. reflexivity. Qed.

Example trimmed_mean_example : tsd_compute_trimmed_mean (Some [10; 30; 20; 1000]) 4 = 25.
Proof. reflexivity. Qed.
