(* ===== verification/Float64.v ===== *)
(** * Float64: C [double] and the number conversions of the C library

    A [double] is an IEEE-754 binary64 datum of the Standard Library's
    [SpecFloat] (executable, axiom free); arithmetic rounds to nearest even as
    the x86-64 SSE unit does.  [strtol] and [strtod] are the conversions that
    [src/src/config_parser.c] and [src/src/thermal_config.c] use, with the end
    pointer and the [errno] they report. *)
From S2P Require Import Prelude.
From Stdlib Require Import SpecFloat.
From Stdlib Require Import Ascii String.
#[local] Open Scope string_scope.
#[local] Open Scope Z_scope.

(** ** Doubles *)

Abbreviation double := spec_float.

Definition f64_prec : Z := 53.
Definition f64_emax : Z := 1024.

Definition f64_of_Z (z : Z) : double := binary_normalize f64_prec f64_emax z 0 false.
Definition fmul : double -> double -> double := SFmul f64_prec f64_emax.
Definition fadd : double -> double -> double := SFadd f64_prec f64_emax.
Definition fsub : double -> double -> double := SFsub f64_prec f64_emax.
Definition fdiv : double -> double -> double := SFdiv f64_prec f64_emax.
Definition flt : double -> double -> bool := SFltb.
Definition fle : double -> double -> bool := SFleb.

Definition f64_zero : double := S754_zero false.
Definition f64_half : double := fdiv (f64_of_Z 1) (f64_of_Z 2).

Definition isnan (x : double) : bool := match x with S754_nan => true | _ => false end.
Definition isinf (x : double) : bool := match x with S754_infinity _ => true | _ => false end.
Definition isfinite (x : double) : bool :=
  match x with S754_zero _ | S754_finite _ _ _ => true | _ => false end.

(** Truncation towards zero, the integer part a C conversion keeps. *)
Definition f64_trunc (x : double) : Z :=
  match x with
  | S754_finite s m e =>
      let a := if 0 <=? e then Z.pos m * 2 ^ e else Z.pos m / 2 ^ (- e) in
      if s then - a else a
  | _ => 0
  end.

(** [(uint64_t)x] for the values the callers admit. *)
Definition f64_to_u64 (x : double) : Z := u64 (f64_trunc x).

(** Decimal literals of the source, [num / den] correctly rounded. *)
Definition f64_ratio (num : Z) (den : positive) : double :=
  match num with
  | Z0 => S754_zero false
  | Z.pos m =>
      let '(q, e, l) := SFdiv_core_binary f64_prec f64_emax (Z.pos m) 0 (Z.pos den) 0 in
      binary_round_aux f64_prec f64_emax false q e l
  | Z.neg m =>
      let '(q, e, l) := SFdiv_core_binary f64_prec f64_emax (Z.pos m) 0 (Z.pos den) 0 in
      binary_round_aux f64_prec f64_emax true q e l
  end.

(** ** Characters *)

Definition code (c : ascii) : Z := Z.of_N (N_of_ascii c).

(** [isspace] in the C locale. *)
Definition isspace (c : ascii) : bool := (code c =? 32) || ((9 <=? code c) && (code c <=? 13)).
Definition isdigit (c : ascii) : bool := (48 <=? code c) && (code c <=? 57).
Definition digit_val (c : ascii) : Z := code c - 48.
Definition tolower (c : ascii) : ascii :=
  if (65 <=? code c) && (code c <=? 90) then ascii_of_N (Z.to_N (code c + 32)) else c.

Fixpoint skip_space (s : string) : string :=
  match s with
  | String c s' => if isspace c then skip_space s' else s
  | EmptyString => s
  end.

(** An optional sign: whether it is negative, and the rest. *)
Definition scan_sign (s : string) : bool * string :=
  match s with
  | String c s' => if code c =? 45 then (true, s') else if code c =? 43 then (false, s') else (false, s)
  | EmptyString => (false, s)
  end.

(** Decimal digits: accumulated value, number of digits read, and the rest. *)
Fixpoint scan_digits (s : string) (acc n : Z) : Z * Z * string :=
  match s with
  | String c s' => if isdigit c then scan_digits s' (10 * acc + digit_val c) (n + 1) else (acc, n, s)
  | EmptyString => (acc, n, s)
  end.

(** What [strtol]/[strtod] report: the value, [errno] (0 when it is left
    alone), and the end pointer ([None] when [end == value]). *)
Record strto (A : Type) : Type := mkStrto { st_val : A; st_errno : Z; st_end : option string }.
Arguments mkStrto {A}.
Arguments st_val {A}.
Arguments st_errno {A}.
Arguments st_end {A}.

(** [strtol(value, &end, 10)] with a 64-bit [long]. *)
Definition strtol (value : string) : strto Z :=
  let '(neg, s) := scan_sign (skip_space value) in
  let '(mag, n, rest) := scan_digits s 0 0 in
  if n =? 0 then mkStrto 0 0 None
  else
    let v := if neg : bool then - mag else mag in
    if v >? LONG_MAX then mkStrto LONG_MAX ERANGE (Some rest)
    else if v <? LONG_MIN then mkStrto LONG_MIN ERANGE (Some rest)
    else mkStrto v 0 (Some rest).

(** ** [strtod] *)

Fixpoint has_prefix_nocase (p s : string) : option string :=
  match p, s with
  | EmptyString, _ => Some s
  | String a p', String b s' => if Ascii.eqb a (tolower b) then has_prefix_nocase p' s' else None
  | _, _ => None
  end.

Definition hex_val (c : ascii) : option Z :=
  let k := code (tolower c) in
  if isdigit c then Some (digit_val c)
  else if (97 <=? k) && (k <=? 102) then Some (k - 87) else None.

Fixpoint scan_hex (s : string) (acc n : Z) : Z * Z * string :=
  match s with
  | String c s' =>
      match hex_val c with Some d => scan_hex s' (16 * acc + d) (n + 1) | None => (acc, n, s) end
  | EmptyString => (acc, n, s)
  end.

(** An optional exponent introduced by the (lower case) letter [mark]. *)
Definition scan_exponent (mark : Z) (s : string) : Z * string :=
  match s with
  | String c s' =>
      if code (tolower c) =? mark then
        let '(neg, s'') := scan_sign s' in
        let '(e, n, rest) := scan_digits s'' 0 0 in
        if n =? 0 then (0, s) else (if neg : bool then - e else e, rest)
      else (0, s)
  | EmptyString => (0, s)
  end.

(** Digits with an optional fraction, in base 10 or 16: the digits as one
    integer, the number of fraction digits, the number of digits, the rest. *)
Definition scan_mantissa (scan : string -> Z -> Z -> Z * Z * string) (s : string) : Z * Z * Z * string :=
  let '(m, n, rest) := scan s 0 0 in
  match rest with
  | String c rest' =>
      if code c =? 46 then
        let '(m', n', rest'') := scan rest' m n in
        if n' =? 0 then (m, 0, 0, s) else (m', n' - n, n', rest'')
      else (m, 0, n, rest)
  | EmptyString => (m, 0, n, rest)
  end.

(** [num/den] rounded to a double, with the range error glibc raises: overflow
    to infinity, or an inexact zero or subnormal. *)
Definition round_ratio (neg : bool) (num : Z) (den : positive) : double * Z :=
  let x := f64_ratio num den in
  let y := if neg then SFopp x else x in
  match x with
  | S754_infinity _ => (y, ERANGE)
  | S754_zero _ => (y, if num =? 0 then 0 else ERANGE)
  | S754_finite _ m e =>
      let tiny := (e =? emin f64_prec f64_emax) && (Z.pos (digits2_pos m) <? f64_prec) in
      let exact := if 0 <=? e then Z.pos m * 2 ^ e * Z.pos den =? num
                   else Z.pos m * Z.pos den =? num * 2 ^ (- e) in
      (y, if tiny && negb exact then ERANGE else 0)
  | S754_nan => (y, 0)
  end.

(** [m * base^e]. *)
Definition scale_to_double (neg : bool) (m base e : Z) : double * Z :=
  if m =? 0 then (S754_zero neg, 0)
  else if 0 <=? e then round_ratio neg (m * base ^ e) 1
  else round_ratio neg m (Z.to_pos (base ^ (- e))).

Definition scan_nan_payload (s : string) : string :=
  match s with
  | String c s' =>
      if code c =? 40 then
        (fix go (t : string) : string :=
           match t with
           | String d t' =>
               if code d =? 41 then t'
               else if isdigit d || ((97 <=? code (tolower d)) && (code (tolower d) <=? 122)) || (code d =? 95)
                    then go t' else s
           | EmptyString => s
           end) s'
      else s
  | EmptyString => s
  end.

(** [strtod] in the C locale: infinities, NaNs, hexadecimal and decimal forms. *)
Definition strtod (value : string) : strto double :=
  let '(neg, s) := scan_sign (skip_space value) in
  let signed (x : double) := if neg : bool then SFopp x else x in
  match has_prefix_nocase "infinity" s with
  | Some rest => mkStrto (signed (S754_infinity false)) 0 (Some rest)
  | None =>
  match has_prefix_nocase "inf" s with
  | Some rest => mkStrto (signed (S754_infinity false)) 0 (Some rest)
  | None =>
  match has_prefix_nocase "nan" s with
  | Some rest => mkStrto S754_nan 0 (Some (scan_nan_payload rest))
  | None =>
    let decimal :=
      let '(m, frac, n, rest) := scan_mantissa scan_digits s in
      if n =? 0 then mkStrto f64_zero 0 None
      else let '(e, rest') := scan_exponent 101 rest in
           let '(x, err) := scale_to_double neg m 10 (e - frac) in
           mkStrto x err (Some rest') in
    match has_prefix_nocase "0x" s with
    | Some h =>
        let '(m, frac, n, rest) := scan_mantissa scan_hex h in
        if n =? 0 then decimal
        else let '(e, rest') := scan_exponent 112 rest in
             let '(x, err) := scale_to_double neg m 2 (e - 4 * frac) in
             mkStrto x err (Some rest')
    | None => decimal
    end
  end end end.

(** ** Facts *)

Fixpoint dec_value (ds : string) (acc : Z) : Z :=
  match ds with
  | String c ds' => dec_value ds' (10 * acc + digit_val c)
  | EmptyString => acc
  end.

Fixpoint all_chars (p : ascii -> bool) (s : string) : bool :=
  match s with
  | String c s' => p c && all_chars p s'
  | EmptyString => true
  end.

Lemma scan_digits_full ds acc n :
  all_chars isdigit ds = true ->
  scan_digits ds acc n = (dec_value ds acc, n + Z.of_nat (String.length ds), "").
Proof.
  revert acc n. induction ds as [|c ds IH]; intros acc n H; cbn in *; [do 2 f_equal; lia|].
  apply andb_true_iff in H as [-> H]. rewrite IH by done. do 2 f_equal. lia.
Qed.

Lemma scan_digits_inv s acc n v k :
  scan_digits s acc n = (v, k, "") ->
  all_chars isdigit s = true /\ v = dec_value s acc /\ k = n + Z.of_nat (String.length s).
Proof.
  revert acc n. induction s as [|c s IH]; intros acc n H; cbn in *.
  - inversion H; subst. repeat split. lia.
  - destruct (isdigit c); [|discriminate].
    apply IH in H as (H1 & H2 & H3). repeat split; [done | done | lia].
Qed.

Lemma skip_space_split s :
  exists ws, s = ws ++ skip_space s /\ all_chars isspace ws = true.
Proof.
  induction s as [|c s IH]; cbn; [exists ""; done|].
  destruct (isspace c) eqn:E.
  - destruct IH as (ws & Hs & Hw). exists (String c ws). cbn. rewrite E. by rewrite <- Hs.
  - exists "". done.
Qed.

Lemma skip_space_app ws s :
  all_chars isspace ws = true -> skip_space (ws ++ s) = skip_space s.
Proof.
  induction ws as [|c ws IH]; cbn; [done|].
  intros H. apply andb_true_iff in H as [-> H]. by apply IH.
Qed.

Lemma isdigit_not_space c : isdigit c = true -> isspace c = false.
Proof. unfold isdigit, isspace. intros. zbool. lia. Qed.

Lemma isdigit_not_sign c : isdigit c = true -> (code c =? 45) = false /\ (code c =? 43) = false.
Proof. unfold isdigit. intros. zbool. lia. Qed.

Lemma dec_value_nonneg ds acc :
  all_chars isdigit ds = true -> 0 <= acc -> 0 <= dec_value ds acc.
Proof.
  revert acc. induction ds as [|c ds IH]; cbn; [done|].
  intros acc H Ha. apply andb_true_iff in H as [Hc H]. apply IH; [done|].
  unfold isdigit, digit_val in *. zbool. lia.
Qed.

Example strtol_example : strtol "  -42x" = mkStrto (-42) 0 (Some "x").
Proof. reflexivity. Qed.

Example strtod_example :
  strtod "1.5" = mkStrto (fadd (f64_of_Z 1) f64_half) 0 (Some "").
Proof. vm_compute. reflexivity. Qed.

Example strtod_tenth : st_val (strtod "0.1") = S754_finite false 7205759403792794 (-56).
Proof. vm_compute. reflexivity. Qed.

Example strtod_underflow : st_errno (strtod "1e-330") = ERANGE.
Proof. vm_compute. reflexivity. Qed.
