(* ===== verification/Format.v ===== *)
(** * Format: numbers and text as the output streams print them

    Decimal integers ([%d], [operator<<]), [double]s in fixed notation
    ([std::fixed] with a precision) and in the default notation (six significant
    digits), rounded to nearest even on the exact value as the C library does,
    and the byte-string functions the exporters and the logger share. *)
From S2P Require Import Prelude Float64.
From Stdlib Require Import SpecFloat Ascii String DecimalString DecimalZ DecimalFacts.
#[local] Open Scope string_scope.
#[local] Open Scope Z_scope.

(** ** Text *)

Definition chr (n : Z) : ascii := ascii_of_N (Z.to_N n).
(** A double quote and a line feed, as strings. *)
Definition dq : string := String (chr 34) "".
Definition nl : string := String (chr 10) "".
Definition crlf : string := String (chr 13) nl.

(** [text] between double quotes. *)
Definition in_quotes (text : string) : string := dq ++ text ++ dq.

(** ["true"] or ["false"] *)
Definition bool_text (b : bool) : string := if b then "true" else "false".

Fixpoint concat_text {A} (f : A -> string) (l : list A) : string :=
  match l with [] => "" | a :: l => f a ++ concat_text f l end.

(** [strstr(hay, needle) != NULL] *)
Fixpoint strstr (hay needle : string) : bool :=
  String.prefix needle hay || match hay with "" => false | String _ hay => strstr hay needle end.

(** [std::getline]: the line and the rest of the stream; [None] at its end. *)
Fixpoint getline (s : string) : option (string * string) :=
  match s with
  | "" => None
  | String c s =>
      if code c =? 10 then Some ("", s)
      else match getline s with Some (l, r) => Some (String c l, r) | None => Some (String c "", "") end
  end.

(** A C string ends at the first NUL. *)
Fixpoint until_nul (s : string) : string :=
  match s with "" => "" | String c s => if code c =? 0 then "" else String c (until_nul s) end.

(** ** Integers *)

Definition decimal (n : Z) : string := NilZero.string_of_int (Z.to_int n).

(** ** Doubles *)

(** Rounding of [num / den] to nearest, ties to even. *)
Definition round_even (num den : Z) : Z :=
  let q := num / den in
  let r := num mod den in
  if 2 * r <? den then q else if den <? 2 * r then q + 1 else if Z.even q then q else q + 1.

Fixpoint zeros (n : nat) : string := match n with O => "" | S n => String "0" (zeros n) end.

(** [n] in at least [width] digits. *)
Definition padded (width : nat) (n : Z) : string := zeros (width - String.length (decimal n)) ++ decimal n.

Definition sign_text (s : bool) : string := if s then "-" else "".

(** A positive finite value as a fraction. *)
Definition magnitude (m : positive) (e : Z) : Z * Z :=
  if 0 <=? e then (Z.pos m * 2 ^ e, 1) else (Z.pos m, 2 ^ (- e)).

Definition point (digits : string) : string := if String.eqb digits "" then "" else "." ++ digits.

(** ["%.pf"] *)
Definition f64_fixed (p : nat) (x : double) : string :=
  match x with
  | S754_nan => "nan"
  | S754_infinity s => sign_text s ++ "inf"
  | S754_zero s => sign_text s ++ "0" ++ point (zeros p)
  | S754_finite s m e =>
      let '(num, den) := magnitude m e in
      let unit := 10 ^ Z.of_nat p in
      let n := round_even (num * unit) den in
      sign_text s ++ decimal (n / unit) ++ point (if Nat.eqb p 0 then "" else padded p (n mod unit))
  end.

(** Trailing zeros are dropped. *)
Fixpoint strip_zeros (s : string) : string :=
  match s with
  | "" => ""
  | String c s => let t := strip_zeros s in if Ascii.eqb c "0" && String.eqb t "" then "" else String c t
  end.

(** The decimal exponent of [num / den]: [10 ^ x <= num / den < 10 ^ (x + 1)]. *)
Definition exponent10 (num den : Z) : Z :=
  if den <=? num then Z.of_nat (String.length (decimal (num / den))) - 1
  else - Z.of_nat (String.length (decimal ((den - 1) / num))).

(** The six significant digits, as an integer, and the decimal exponent. *)
Definition significant (num den : Z) : Z * Z :=
  let x := exponent10 num den in
  let n := if x <=? 5 then round_even (num * 10 ^ (5 - x)) den else round_even num (den * 10 ^ (x - 5)) in
  if n =? 1000000 then (100000, x + 1) else (n, x).

(** ["%g"] *)
Definition f64_general (x : double) : string :=
  match x with
  | S754_nan => "nan"
  | S754_infinity s => sign_text s ++ "inf"
  | S754_zero s => sign_text s ++ "0"
  | S754_finite s m e =>
      let '(num, den) := magnitude m e in
      let '(n, x) := significant num den in
      sign_text s ++
      (if (-4 <=? x) && (x <? 6) then
         let unit := 10 ^ (5 - x) in
         decimal (n / unit) ++ point (strip_zeros (if x =? 5 then "" else padded (Z.to_nat (5 - x)) (n mod unit)))
       else
         decimal (n / 100000) ++ point (strip_zeros (padded 5 (n mod 100000))) ++
         "e" ++ (if x <? 0 then "-" else "+") ++ padded 2 (Z.abs x))
  end.

Example general_examples :
  List.map f64_general [f64_ratio 1 2; f64_ratio 289 4; f64_ratio 1 100000; f64_of_Z 1234567; f64_of_Z 100000;
                   f64_ratio 9999996 10; f64_ratio (-1) 3; f64_ratio 19999999 20000000; f64_zero]
  = ["0.5"; "72.25"; "1e-05"; "1.23457e+06"; "100000"; "1e+06"; "-0.333333"; "1"; "0"].
Proof. vm_compute. reflexivity. Qed.

Example fixed_examples :
  List.map (f64_fixed 3) [f64_ratio 1 2; f64_of_Z 72; f64_ratio (-1) 3; f64_ratio 1 16; f64_zero]
  = ["0.500"; "72.000"; "-0.333"; "0.062"; "0.000"].
Proof. vm_compute. reflexivity. Qed.

(** ** Facts *)

Lemma string_app_assoc (a b c : string) : (a ++ b) ++ c = a ++ b ++ c.
Proof. induction a as [|x a IH]; cbn; congruence. Qed.

Lemma string_app_nil (a : string) : a ++ "" = a.
Proof. induction a as [|x a IH]; cbn; congruence. Qed.

Lemma string_length_app (a b : string) : String.length (a ++ b) = (String.length a + String.length b)%nat.
Proof. induction a as [|x a IH]; cbn; congruence. Qed.

Lemma all_chars_app p (a b : string) : all_chars p (a ++ b) = all_chars p a && all_chars p b.
Proof. induction a as [|x a IH]; cbn; [done|]. rewrite IH. by rewrite andb_assoc. Qed.

Lemma all_chars_mono (p q : ascii -> bool) s :
  (forall c, p c = true -> q c = true) -> all_chars p s = true -> all_chars q s = true.
Proof.
  intros Hpq. induction s as [|c s IH]; cbn; [done|].
  intros H. apply andb_true_iff in H as [Hc Hs]. by rewrite Hpq, IH.
Qed.

Lemma code_chr n : 0 <= n < 256 -> code (chr n) = n.
Proof. intros H. unfold code, chr. rewrite N_ascii_embedding by lia. lia. Qed.

Lemma chr_code c : chr (code c) = c.
Proof. unfold code, chr. rewrite N2Z.id. apply ascii_N_embedding. Qed.

Lemma code_inj a b : code a = code b -> a = b.
Proof. intros H. rewrite <- (chr_code a), <- (chr_code b). by rewrite H. Qed.

Lemma code_range c : 0 <= code c < 256.
Proof. unfold code. pose proof (N_ascii_bounded c). lia. Qed.

(** *** Lines *)

Definition not_code (n : Z) (c : ascii) : bool := negb (code c =? n).
Abbreviation one_line := (all_chars (not_code 10)).

Lemma getline_length s l r : getline s = Some (l, r) -> (String.length l <= String.length s /\ String.length r <= String.length s)%nat.
Proof.
  revert l r. induction s as [|c s IH]; intros l r; cbn [getline]; [done|].
  destruct (code c =? 10); [intros [= <- <-]; cbn; lia|].
  destruct (getline s) as [[l' r']|] eqn:E; intros [= <- <-]; cbn; [destruct (IH _ _ eq_refl); lia | lia].
Qed.

Lemma getline_shorter s l r : getline s = Some (l, r) -> (String.length r < String.length s)%nat.
Proof.
  revert l r. induction s as [|c s IH]; intros l r; cbn [getline]; [done|].
  destruct (code c =? 10); [intros [= <- <-]; cbn; lia|].
  destruct (getline s) as [[l' r']|] eqn:E; intros [= <- <-]; cbn; [specialize (IH _ _ eq_refl); lia | lia].
Qed.

Lemma getline_app a r : one_line a = true -> getline (a ++ nl ++ r) = Some (a, r).
Proof.
  induction a as [|c a IH]; [done|]. cbn [all_chars]. intros H. apply andb_true_iff in H as [Hc Ha].
  change (String c a ++ ?x) with (String c (a ++ x)). cbn [getline]. unfold not_code in Hc. apply negb_true_iff in Hc.
  by rewrite Hc, IH.
Qed.

(** Characters of a printed number. *)
Definition num_char (c : ascii) : bool := isdigit c || existsb (Ascii.eqb c) ["+"; "-"; "."; "e"; "i"; "n"; "f"; "a"]%char.

Lemma uint_digits u : all_chars isdigit (NilEmpty.string_of_uint u) = true.
Proof. by induction u. Qed.

Lemma nil_zero_digits u : all_chars isdigit (NilZero.string_of_uint u) = true.
Proof. destruct u; cbn; try done; apply uint_digits. Qed.

Lemma digit_num_char s : all_chars isdigit s = true -> all_chars num_char s = true.
Proof. apply all_chars_mono. unfold num_char. by intros c ->. Qed.

Lemma decimal_num n : all_chars num_char (decimal n) = true.
Proof.
  unfold decimal. destruct (Z.to_int n) as [u|u]; cbn.
  - apply digit_num_char, nil_zero_digits.
  - apply digit_num_char. apply nil_zero_digits.
Qed.

Lemma decimal_nonneg n : 0 <= n -> all_chars isdigit (decimal n) = true.
Proof. unfold decimal. destruct n; try lia; intros _; apply nil_zero_digits. Qed.

Lemma zeros_num n : all_chars num_char (zeros n) = true.
Proof. by induction n. Qed.

Lemma padded_num w n : all_chars num_char (padded w n) = true.
Proof. unfold padded. by rewrite all_chars_app, zeros_num, decimal_num. Qed.

Lemma strip_num s : all_chars num_char s = true -> all_chars num_char (strip_zeros s) = true.
Proof.
  induction s as [|c s IH]; [done|]. cbn [strip_zeros all_chars].
  intros H. apply andb_true_iff in H as [Hc Hs].
  case_match; [done|]. cbn [all_chars]. by rewrite Hc, IH.
Qed.

Lemma point_num s : all_chars num_char s = true -> all_chars num_char (point s) = true.
Proof. unfold point. intros H. case_match; [done|]. cbn. by rewrite H. Qed.

#[export] Hint Resolve decimal_num zeros_num padded_num strip_num point_num : tsd.

(** Splits along [++]. *)
Ltac num_text := repeat (rewrite all_chars_app; apply andb_true_iff; split); auto with tsd.

Lemma fixed_num p x : all_chars num_char (f64_fixed p x) = true.
Proof.
  destruct x as [s|s| |s m e]; unfold f64_fixed; try (destruct s; num_text; done); [done|].
  destruct (magnitude m e). destruct s; num_text; case_match; num_text.
Qed.

Lemma general_num x : all_chars num_char (f64_general x) = true.
Proof.
  destruct x as [s|s| |s m e]; unfold f64_general; try (destruct s; num_text; done); [done|].
  destruct (magnitude m e) as [num den]. destruct (significant num den) as [n x].
  destruct ((-4 <=? x) && (x <? 6)), s; cbv zeta; num_text;
    repeat first [done | apply point_num | apply strip_num | case_match | num_text].
Qed.

(** ** Printing and scanning an integer *)

Lemma of_uint_acc_value u acc :
  Z.pos (Pos.of_uint_acc u acc) = dec_value (NilEmpty.string_of_uint u) (Z.pos acc).
Proof.
  revert acc. induction u as [|u IH|u IH|u IH|u IH|u IH|u IH|u IH|u IH|u IH|u IH]; intros acc; [done|..];
    cbn [Pos.of_uint_acc NilEmpty.string_of_uint dec_value]; rewrite IH; f_equal;
    match goal with |- context [digit_val ?c] => let v := eval vm_compute in (digit_val c) in change (digit_val c) with v end;
    lia.
Qed.

Lemma of_uint_value u : Z.of_uint u = dec_value (NilEmpty.string_of_uint u) 0.
Proof.
  unfold Z.of_uint. induction u as [|u IH|u IH|u IH|u IH|u IH|u IH|u IH|u IH|u IH|u IH]; [done|exact IH|..];
    exact (of_uint_acc_value u _).
Qed.

Lemma nil_zero_value u : u <> Decimal.Nil -> dec_value (NilZero.string_of_uint u) 0 = Z.of_uint u.
Proof. intros H. rewrite of_uint_value. by destruct u. Qed.

Lemma decimal_value n : 0 <= n -> dec_value (decimal n) 0 = n.
Proof.
  intros H. unfold decimal. pose proof (DecimalZ.of_to n) as E.
  destruct n as [|p|p]; [done| |lia]. cbn in E |- *.
  rewrite nil_zero_value; [exact E|].
  apply DecimalPos.Unsigned.to_uint_nonnil.
Qed.

Lemma decimal_nonempty n : exists c s, decimal n = String c s.
Proof.
  unfold decimal. destruct (Z.to_int n) as [u|u]; cbn; [|by eexists _, _].
  destruct u; cbn; by eexists _, _.
Qed.

(** [strtol] reads back what was printed. *)
Lemma strtol_decimal n : LONG_MIN <= n <= LONG_MAX -> strtol (decimal n) = mkStrto n 0 (Some "").
Proof.
  intros Hn. assert (Hpos : forall k, 0 <= k -> scan_digits (decimal k) 0 0 = (k, Z.of_nat (String.length (decimal k)), "")).
  { intros k Hk. rewrite scan_digits_full by by apply decimal_nonneg. rewrite decimal_value by done. by rewrite Z.add_0_l. }
  assert (Hlen : forall k, (Z.of_nat (String.length (decimal k)) =? 0) = false).
  { intros k. destruct (decimal_nonempty k) as (c & s & ->). cbn [String.length]. apply Z.eqb_neq. lia. }
  unfold strtol. destruct (Z_lt_le_dec n 0) as [Hneg|Hneg].
  - assert (E : decimal n = String "-" (decimal (- n))) by (destruct n; [lia..|done]).
    assert (Eg : scan_sign (skip_space (decimal n)) = (true, decimal (- n))) by by rewrite E.
    rewrite Eg, Hpos by lia. rewrite Hlen. unfold_int.
    assert (E1 : (- - n >? 9223372036854775807) = false) by lia.
    assert (E2 : (- - n <? -9223372036854775808) = false) by lia.
    rewrite E1, E2. do 2 f_equal. lia.
  - pose proof (decimal_nonneg n Hneg) as Hd. destruct (decimal_nonempty n) as (c & s & E).
    assert (Hc : isdigit c = true) by (rewrite E in Hd; cbn in Hd; by apply andb_true_iff in Hd as [? _]).
    assert (Es : skip_space (decimal n) = decimal n) by (rewrite E; cbn; by rewrite isdigit_not_space).
    rewrite Es. assert (Eg : scan_sign (decimal n) = (false, decimal n)).
    { rewrite E; cbn. destruct (isdigit_not_sign c Hc) as [-> ->]. done. }
    rewrite Eg, Hpos by done. rewrite Hlen. unfold_int.
    assert (E1 : (n >? 9223372036854775807) = false) by lia.
    assert (E2 : (n <? -9223372036854775808) = false) by lia. by rewrite E1, E2.
Qed.
