(* ===== verification/FloatText.v ===== *)
(** * FloatText: rounding, and numbers written and read as text

    How the rounding of [SpecFloat] acts on a quotient of integers, and what
    follows for text: a [double] of magnitude at least 1/8 printed with 17
    decimals ([std::fixed << std::setprecision(17)], as
    [src/src/telemetry/history_store.cpp] prints it) is read back exactly.
    The second half models [operator>>] of the input streams for the integer
    types and [double]. *)
From S2P Require Import Prelude Float64 Format.
From Stdlib Require Import SpecFloat Ascii String DecimalString DecimalPos DecimalFacts.
#[local] Open Scope string_scope.
#[local] Open Scope Z_scope.

(** ** Rounding of a quotient *)

Lemma digits2_bounds p : 2 ^ (Z.pos (digits2_pos p) - 1) <= Z.pos p < 2 ^ Z.pos (digits2_pos p).
Proof.
  induction p as [p IH|p IH|]; cbn [digits2_pos]; [| |done];
    rewrite Pos2Z.inj_succ;
    replace (Z.succ (Z.pos (digits2_pos p)) - 1) with (Z.succ (Z.pos (digits2_pos p) - 1)) by lia;
    rewrite !Z.pow_succ_r by lia; lia.
Qed.

Lemma digits2_unique p k : 0 <= k -> 2 ^ k <= Z.pos p < 2 ^ (k + 1) -> Z.pos (digits2_pos p) = k + 1.
Proof.
  intros Hk [Hlo Hhi]. pose proof (digits2_bounds p) as [Dlo Dhi].
  assert (k < Z.pos (digits2_pos p)) by (apply (Z.pow_lt_mono_r_iff 2); lia).
  assert (Z.pos (digits2_pos p) - 1 < k + 1) by (apply (Z.pow_lt_mono_r_iff 2); lia). lia.
Qed.

(** [mrs] holds [num / den] truncated, with its two rounding bits. *)
Definition truncates (mrs : shr_record) (num den : Z) : Prop :=
  let rest := num - shr_m mrs * den in
  0 <= shr_m mrs /\ 0 <= rest < den /\
  shr_r mrs = (den <=? 2 * rest) /\ shr_s mrs = negb ((rest =? 0) || (2 * rest =? den)).

Lemma shr_1_truncates mrs num den : 0 < den -> truncates mrs num den -> truncates (shr_1 mrs) num (2 * den).
Proof.
  destruct mrs as [m r s]. intros Hd (Hm & HR & Hr & Hs). cbn [shr_m shr_r shr_s] in *.
  assert (Hrs : r || s = negb (num - m * den =? 0)).
  { rewrite Hr, Hs. set (rest := num - m * den) in *. clearbody rest. clear -Hd HR.
    destruct (Z.leb_spec den (2 * rest)), (Z.eqb_spec rest 0), (Z.eqb_spec (2 * rest) den); cbn; lia. }
  unfold shr_1. rewrite Hrs. clear Hr Hs Hrs r s.
  assert (H2 : forall q (b : bool), m = 2 * q + Z.b2z b -> 0 <= q ->
    truncates {| shr_m := q; shr_r := b; shr_s := negb (num - m * den =? 0) |} num (2 * den)).
  { intros q b -> Hq. repeat split; cbn [shr_m shr_r shr_s]; [done|destruct b; cbn [Z.b2z] in *; lia..| |].
    - destruct b; cbn [Z.b2z] in *; [symmetry; apply Z.leb_le|symmetry; apply Z.leb_gt]; lia.
    - f_equal. apply eq_true_iff_eq. rewrite orb_true_iff, !Z.eqb_eq. destruct b; cbn [Z.b2z] in *; lia. }
  destruct m as [|[p|p|]|[p|p|]]; try lia; apply H2; cbn [Z.b2z]; lia.
Qed.

Lemma iter_pos_truncates p mrs num den :
  0 < den -> truncates mrs num den -> truncates (iter_pos shr_1 p mrs) num (2 ^ Z.pos p * den).
Proof.
  revert mrs den. induction p as [p IH|p IH|]; intros mrs den Hd H; cbn [iter_pos].
  - rewrite (Pos2Z.inj_xI p), Z.pow_add_r, Z.pow_mul_r by lia.
    replace ((2 ^ 2) ^ Z.pos p * 2 ^ 1 * den) with (2 ^ Z.pos p * (2 ^ Z.pos p * (2 * den)))
      by (change (2 ^ 2) with (2 * 2); rewrite Z.pow_mul_l; lia).
    assert (0 < 2 ^ Z.pos p) by lia.
    apply IH; [nia|]. apply IH; [nia|]. by apply shr_1_truncates.
  - rewrite (Pos2Z.inj_xO p), Z.pow_mul_r by lia.
    replace ((2 ^ 2) ^ Z.pos p * den) with (2 ^ Z.pos p * (2 ^ Z.pos p * den))
      by (change (2 ^ 2) with (2 * 2); rewrite Z.pow_mul_l; lia).
    assert (0 < 2 ^ Z.pos p) by lia.
    apply IH; [nia|]. by apply IH.
  - by apply shr_1_truncates.
Qed.

Lemma shr_truncates mrs e k num den :
  0 < den -> 0 <= k -> truncates mrs num den ->
  truncates (shr mrs e k).1 num (2 ^ k * den) /\ (shr mrs e k).2 = e + k.
Proof.
  intros Hd Hk H. destruct k as [|p|p]; [|split; [by apply iter_pos_truncates|done]|lia].
  cbn [shr fst snd]. rewrite Z.pow_0_r, Z.mul_1_l, Z.add_0_r. done.
Qed.

(** Rounding the truncated quotient rounds the quotient. *)
Lemma round_truncates mrs num den :
  0 < den -> truncates mrs num den ->
  round_nearest_even (shr_m mrs) (loc_of_shr_record mrs) = round_even num den.
Proof.
  destruct mrs as [m r s]. intros Hd (Hm & HR & Hr & Hs). cbn [shr_m shr_r shr_s] in *.
  assert (Hq : num / den = m) by (symmetry; apply (Z.div_unique_pos num den m (num - m * den)); lia).
  assert (Ht : num mod den = num - m * den) by (rewrite Z.mod_eq by lia; rewrite Hq; lia).
  unfold round_even. rewrite Hq, Ht. set (rest := num - m * den) in *. clearbody rest. subst r s.
  destruct (Z.leb_spec den (2 * rest)), (Z.eqb_spec rest 0), (Z.eqb_spec (2 * rest) den), (Z.ltb_spec (2 * rest) den),
    (Z.ltb_spec den (2 * rest)); cbn; done || lia.
Qed.

Lemma round_even_near num den n : 0 < den -> Z.abs (2 * (num - n * den)) < den -> round_even num den = n.
Proof.
  intros Hd Hn. unfold round_even.
  pose proof (Z.div_mod num den ltac:(lia)). pose proof (Z.mod_pos_bound num den Hd).
  set (q := num / den) in *. set (r := num mod den) in *. clearbody q r.
  assert (Hc : q = n \/ q = n - 1) by nia. destruct Hc as [->| ->].
  - assert (2 * r < den) by nia. by rewrite (proj2 (Z.ltb_lt _ _)).
  - assert (den < 2 * r) by nia. rewrite (proj2 (Z.ltb_ge _ _)), (proj2 (Z.ltb_lt _ _)) by lia. lia.
Qed.

Lemma new_location_truncates q rest den :
  0 <= q -> 0 <= rest < den -> truncates (shr_record_of_loc q (new_location den rest)) (q * den + rest) den.
Proof.
  intros Hq Hr. unfold truncates, new_location, new_location_even, new_location_odd.
  destruct (Z.even den) eqn:Ev, (Z.eqb_spec rest 0) as [->|Hne].
  - cbn. repeat split; lia.
  - destruct (Z.compare_spec (2 * rest) den) as [E|E|E]; cbn [shr_record_of_loc shr_m shr_r shr_s];
      replace (q * den + rest - q * den) with rest by lia; repeat split; try lia.
  - cbn. repeat split; lia.
  - assert (2 * rest <> den) by (intros <-; rewrite Z.even_mul in Ev; done).
    destruct (Z.compare_spec (2 * rest + 1) den) as [E|E|E]; cbn [shr_record_of_loc shr_m shr_r shr_s];
      replace (q * den + rest - q * den) with rest by lia; repeat split; try lia.
Qed.

(** [num / den] is closer to [m * 2 ^ e] than a quarter of [2 ^ e]; both sides
    scaled by [2 ^ t]. *)
Definition close_to (num den m e t : Z) : Prop := Z.abs (4 * (num * 2 ^ t - m * 2 ^ (e + t) * den)) < 2 ^ (e + t) * den.

Lemma close_to_scale num den m e t j :
  0 <= j -> 0 <= t -> 0 <= e + t -> close_to num den m e t <-> close_to num den m e (t + j).
Proof.
  intros Hj Ht He. unfold close_to. rewrite Z.add_assoc, (Z.pow_add_r 2 t j), (Z.pow_add_r 2 (e + t) j) by lia.
  assert (Hp : 0 < 2 ^ j) by lia. set (p := 2 ^ j) in *. set (a := 2 ^ t). set (b := 2 ^ (e + t)).
  replace (4 * (num * (a * p) - m * (b * p) * den)) with (p * (4 * (num * a - m * b * den))) by ring.
  replace (b * p * den) with (p * (b * den)) by ring. rewrite (Z.abs_mul p), (Z.abs_eq p) by lia.
  rewrite <- Z.mul_lt_mono_pos_l by lia. done.
Qed.

Lemma close_to_any num den m e t t' :
  0 <= t -> 0 <= e + t -> 0 <= t' -> 0 <= e + t' -> close_to num den m e t -> close_to num den m e t'.
Proof.
  intros H1 H2 H3 H4 H. destruct (Z.le_ge_cases t t').
  - replace t' with (t + (t' - t)) by lia. apply close_to_scale; [lia..|done].
  - apply (close_to_scale _ _ _ _ t' (t - t')); [lia..|]. by replace (t' + (t - t')) with t by lia.
Qed.

(** One rounding: the mantissa [binary_round_aux] first settles on. *)
Lemma shr_fexp_rounds q e' l num den k :
  0 < den -> 0 < q -> truncates (shr_record_of_loc q l) num den ->
  0 <= k -> fexp f64_prec f64_emax (Zdigits2 q + e') = e' + k ->
  let '(mrs, ex) := shr_fexp f64_prec f64_emax q e' l in
  round_nearest_even (shr_m mrs) (loc_of_shr_record mrs) = round_even num (2 ^ k * den) /\ ex = e' + k.
Proof.
  intros Hd Hq Ht Hk Hf. unfold shr_fexp. rewrite Hf. replace (e' + k - e') with k by lia.
  destruct (shr_truncates _ e' k num den Hd Hk Ht) as [H1 H2].
  destruct (shr (shr_record_of_loc q l) e' k) as [mrs ex]. cbn in H1, H2.
  split; [|done]. apply round_truncates; [|done]. assert (0 < 2 ^ k) by lia. nia.
Qed.

(** The second pass leaves a 53-bit mantissa alone and renormalises [2 ^ 53]. *)
Lemma renormalise m e :
  2 ^ 52 <= Z.pos m < 2 ^ 53 -> -1074 <= e -> shr_fexp f64_prec f64_emax (Z.pos m) e loc_Exact = (Build_shr_record (Z.pos m) false false, e).
Proof.
  intros Hm He. unfold shr_fexp. cbn [Zdigits2 shr_record_of_loc].
  rewrite (digits2_unique m 52) by lia. unfold fexp, emin, f64_prec, f64_emax.
  replace (Z.max (52 + 1 + e - 53) (3 - 1024 - 53) - e) with 0 by lia. done.
Qed.

Lemma renormalise_carry e :
  -1074 <= e -> shr_fexp f64_prec f64_emax (2 ^ 53) e loc_Exact = (Build_shr_record (2 ^ 52) false false, e + 1).
Proof.
  intros He. unfold shr_fexp. change (Zdigits2 (2 ^ 53)) with 54. unfold fexp, emin, f64_prec, f64_emax.
  replace (Z.max (54 + e - 53) (3 - 1024 - 53) - e) with 1 by lia. done.
Qed.

(** The rounding of [num / den], truncated at exponent [e' <= e], when the
    quotient is close to [m * 2 ^ e]. *)
Lemma binary_round_aux_close sx m e q e' l num den :
  2 ^ 52 <= Z.pos m < 2 ^ 53 -> -1073 <= e <= 971 -> 0 < den -> 0 < q -> e' <= e ->
  truncates (shr_record_of_loc q l) num den ->
  Z.abs (4 * (num - Z.pos m * 2 ^ (e - e') * den)) < 2 ^ (e - e') * den ->
  (num < 2 ^ (52 + (e - e')) * den -> e' < e) ->
  binary_round_aux f64_prec f64_emax sx q e' l = S754_finite sx m e.
Proof.
  intros Hm He Hd Hq Hle Ht Hc Hlow. set (k := e - e') in *.
  assert (Hqn : q * den <= num < (q + 1) * den).
  { destruct Ht as (_ & HR & _). replace (shr_m (shr_record_of_loc q l)) with q in HR by by destruct l as [|[]]. lia. }
  assert (Hk : 0 < 2 ^ k) by lia. unfold binary_round_aux.
  destruct (Z.lt_ge_cases num (2 ^ (52 + k) * den)) as [Hlt|Hge].
  - (* just below a power of two: [m = 2 ^ 52] and the first pass carries *)
    specialize (Hlow Hlt). rewrite Z.pow_add_r in Hlt by lia. assert (Em : Z.pos m = 2 ^ 52) by nia.
    assert (E2 : 2 ^ k = 2 * 2 ^ (k - 1)) by (rewrite <- Z.pow_succ_r by lia; f_equal; lia).
    assert (Hk1 : 0 < 2 ^ (k - 1)) by lia.
    assert (Hdig : Zdigits2 q = 52 + k).
    { destruct q as [|q|q]; try lia. cbn [Zdigits2]. rewrite (digits2_unique q (51 + k)); [lia|lia|].
      replace (51 + k + 1) with (53 + (k - 1)) by lia. replace (51 + k) with (52 + (k - 1)) by lia.
      rewrite !Z.pow_add_r by lia. set (a := 2 ^ (k - 1)) in *. clearbody a. nia. }
    pose proof (shr_fexp_rounds q e' l num den (k - 1) Hd Hq Ht ltac:(lia)) as H1.
    destruct (shr_fexp f64_prec f64_emax q e' l) as [mrs ex].
    destruct H1 as [-> ->]; [rewrite Hdig; unfold fexp, emin, f64_prec, f64_emax; lia|].
    rewrite (round_even_near num (2 ^ (k - 1) * den) (2 ^ 53)) by (set (a := 2 ^ (k - 1)) in *; clearbody a; nia).
    rewrite renormalise_carry by lia. cbn [shr_m]. change (2 ^ 52) with (Z.pos 4503599627370496) in *.
    cbn [shr_m]. replace (e' + (k - 1) + 1 <=? f64_emax - f64_prec) with true
      by (symmetry; apply Z.leb_le; unfold f64_emax, f64_prec; lia).
    injection Em as ->. f_equal. lia.
  - assert (Hdig : Zdigits2 q = 53 + k).
    { destruct q as [|q|q]; try lia. cbn [Zdigits2]. rewrite (digits2_unique q (52 + k)); [lia|lia|].
      replace (52 + k + 1) with (53 + k) by lia. rewrite !Z.pow_add_r in * by lia.
      set (a := 2 ^ k) in *. clearbody a. nia. }
    pose proof (shr_fexp_rounds q e' l num den k Hd Hq Ht ltac:(lia)) as H1.
    destruct (shr_fexp f64_prec f64_emax q e' l) as [mrs ex].
    destruct H1 as [-> ->]; [rewrite Hdig; unfold fexp, emin, f64_prec, f64_emax; lia|].
    rewrite (round_even_near num (2 ^ k * den) (Z.pos m)) by (set (a := 2 ^ k) in *; clearbody a; nia).
    rewrite renormalise by lia. cbn [shr_m]. replace (e' + k <=? f64_emax - f64_prec) with true
      by (symmetry; apply Z.leb_le; unfold f64_emax, f64_prec; lia).
    f_equal. lia.
Qed.

(** A quotient whose binary digits exceed those of the divisor by [j] is large. *)
Lemma quotient_lower num den j e :
  0 <= - e -> j <= Z.pos (digits2_pos num) - Z.pos (digits2_pos den) -> 0 < j - e ->
  2 ^ (j - 1 - e) * Z.pos den < Z.pos num * 2 ^ (- e).
Proof.
  intros He Hj Hp. pose proof (digits2_bounds num) as [Hn _]. pose proof (digits2_bounds den) as [_ Hd].
  set (d1 := Z.pos (digits2_pos num)) in *. set (d2 := Z.pos (digits2_pos den)) in *.
  assert (0 < d1 /\ 0 < d2) as [Hd1 Hd2] by (subst d1 d2; lia). clearbody d1 d2.
  apply (Z.lt_le_trans _ (2 ^ (j - 1 - e) * 2 ^ d2)).
  - apply Z.mul_lt_mono_pos_l; [lia|done].
  - apply (Z.le_trans _ (2 ^ (d1 - 1) * 2 ^ (- e))).
    + rewrite <- !Z.pow_add_r by lia. apply Z.pow_le_mono_r; lia.
    + apply Z.mul_le_mono_nonneg_r; lia.
Qed.

(** The double [f64_ratio] picks for a quotient close to a double. *)
Lemma f64_ratio_close num den m e t :
  2 ^ 52 <= Z.pos m < 2 ^ 53 -> -1073 <= e <= 971 -> 0 < num -> 0 <= t -> 0 <= e + t ->
  close_to num (Z.pos den) (Z.pos m) e t -> f64_ratio num den = S754_finite false m e.
Proof.
  intros Hm He Hn Ht Het Hc. destruct num as [|p|p]; try lia. clear Hn.
  unfold f64_ratio, SFdiv_core_binary. cbn [Zdigits2].
  set (d := Z.pos (digits2_pos p) + 0 - (Z.pos (digits2_pos den) + 0)).
  change (0 - 0) with 0. set (e' := Z.min (fexp f64_prec f64_emax d) 0).
  assert (Hs : 0 <= - e') by lia.
  assert (Em : match 0 - e' with 0 => Z.pos p | Z.pos _ => Z.shiftl (Z.pos p) (0 - e') | Z.neg _ => 0 end
               = Z.pos p * 2 ^ (- e')).
  { replace (0 - e') with (- e') by lia. destruct (- e') eqn:E; [lia|by rewrite Z.shiftl_mul_pow2 by lia|lia]. }
  rewrite Em. clear Em.
  assert (Hjump : e <= 0 -> e <= fexp f64_prec f64_emax d -> 2 ^ 52 * Z.pos den < Z.pos p * 2 ^ (- e)).
  { intros H0 Hf. replace 52 with (e + 53 - 1 - e) by lia. apply quotient_lower; [lia| |lia].
    subst d. unfold fexp, emin, f64_prec, f64_emax in Hf. lia. }
  assert (Hle : e' <= e).
  { destruct (Z.le_gt_cases e' e) as [|Hgt]; [done|exfalso].
    assert (Hd : 2 ^ 53 * Z.pos den < Z.pos p * 2 ^ (- e)).
    { replace 53 with (e + 54 - 1 - e) by lia. apply quotient_lower; [lia| |lia].
      subst e' d. unfold fexp, emin, f64_prec, f64_emax in Hgt. lia. }
    apply (close_to_any _ _ _ _ _ (- e)) in Hc; [|lia..]. unfold close_to in Hc.
    rewrite Z.add_opp_diag_r, Z.pow_0_r in Hc. set (N := Z.pos p * 2 ^ (- e)) in *. clearbody N. nia. }
  apply (close_to_any _ _ _ _ _ (- e')) in Hc; [|lia..]. unfold close_to in Hc.
  replace (e + - e') with (e - e') in Hc by lia.
  assert (Hk : 0 < 2 ^ (e - e')) by lia.
  set (N := Z.pos p * 2 ^ (- e')) in *.
  pose proof (Z_div_mod N (Z.pos den) ltac:(lia)) as Hdiv.
  destruct (Z.div_eucl N (Z.pos den)) as [q r]. destruct Hdiv as [HN Hr].
  assert (Hq : 0 < q) by (set (a := 2 ^ (e - e')) in *; clearbody a; nia).
  apply (binary_round_aux_close false m e q e' _ N (Z.pos den)); try done; try lia.
  - replace N with (q * Z.pos den + r) by lia. apply new_location_truncates; lia.
  - intros Hlow. destruct (Z.eq_dec e' e) as [E|]; [exfalso|lia].
    rewrite E, Z.sub_diag in Hlow. subst N. rewrite E in Hlow. specialize (Hjump ltac:(lia) ltac:(lia)). lia.
Qed.

(** ** Comparison *)

Lemma SFcompare_swap x y : SFcompare y x = match SFcompare x y with Some c => Some (CompOpp c) | None => None end.
Proof.
  destruct x as [[]|[]| |[] m e], y as [[]|[]| |[] m' e']; try done; cbn [SFcompare]; f_equal;
    rewrite (Z.compare_antisym e e'); destruct (e ?= e'); cbn [CompOpp]; try done;
    pose proof (Pos.compare_cont_antisym m m' Eq) as H; cbn [CompOpp] in H; rewrite <- H; by destruct (Pos.compare_cont Eq m m').
Qed.

(** Numbers are totally ordered. *)
Lemma not_flt_fle x y : isnan x = false -> isnan y = false -> flt x y = false -> fle y x = true.
Proof.
  unfold flt, fle, SFltb, SFleb. intros Hx Hy. rewrite (SFcompare_swap x y).
  destruct (SFcompare x y) as [[]|] eqn:E; try done.
  destruct x as [[]|[]| |[] m e], y as [[]|[]| |[] m' e']; done.
Qed.

(** ** Extraction from a stream *)

(** [operator>>] skips white space, then takes the longest text of the right
    form.  It fails (and every later extraction with it) when there is none or
    when the value is out of range; infinities and NaNs are not accepted. *)
Definition stream_signed (lo hi : Z) (s : string) : option (Z * string) :=
  let '(neg, s) := scan_sign (skip_space s) in
  let '(mag, n, rest) := scan_digits s 0 0 in
  let v := if neg : bool then - mag else mag in
  if (n =? 0) || (v <? lo) || (v >? hi) then None else Some (v, rest).

Definition stream_int : string -> option (Z * string) := stream_signed INT_MIN INT_MAX.
Definition stream_long : string -> option (Z * string) := stream_signed LONG_MIN LONG_MAX.

(** A sign is accepted on an unsigned type and negates modulo [2 ^ 64]. *)
Definition stream_u64 (s : string) : option (Z * string) :=
  let '(neg, s) := scan_sign (skip_space s) in
  let '(mag, n, rest) := scan_digits s 0 0 in
  if (n =? 0) || (mag >? UINT64_MAX) then None else Some (u64 (if neg : bool then - mag else mag), rest).

(** An exponent letter must be followed by digits. *)
Definition stream_exponent (s : string) : option (Z * string) :=
  match s with
  | String c s' =>
      if code (tolower c) =? 101 then
        let '(neg, s') := scan_sign s' in
        let '(e, n, rest) := scan_digits s' 0 0 in
        if n =? 0 then None else Some (if neg : bool then - e else e, rest)
      else Some (0, s)
  | EmptyString => Some (0, s)
  end.

Definition stream_double (s : string) : option (double * string) :=
  let '(neg, s) := scan_sign (skip_space s) in
  let '(m, frac, n, rest) := scan_mantissa scan_digits s in
  if n =? 0 then None
  else
    match stream_exponent rest with
    | None => None
    | Some (e, rest) =>
        let x := (scale_to_double neg m 10 (e - frac)).1 in
        if isinf x then None else Some (x, rest)
    end.

(** ** Reading back what was printed *)

(** Text after which a number has ended. *)
Definition ends_number (s : string) : bool :=
  match s with
  | String c _ => negb (isdigit c) && negb (code c =? 46) && negb (code (tolower c) =? 101)
  | EmptyString => true
  end.
Definition no_digit (s : string) : bool := match s with String c _ => negb (isdigit c) | EmptyString => true end.

Lemma ends_no_digit s : ends_number s = true -> no_digit s = true.
Proof. destruct s as [|c s]; [done|]. cbn. intros H. by apply andb_true_iff in H as [[? _]%andb_true_iff _]. Qed.

Lemma scan_digits_stop ds rest acc n :
  all_chars isdigit ds = true -> no_digit rest = true ->
  scan_digits (ds ++ rest) acc n = (dec_value ds acc, n + Z.of_nat (String.length ds), rest).
Proof.
  revert acc n. induction ds as [|c ds IH]; intros acc n Hd Hr; cbn in Hd |- *.
  - destruct rest as [|c rest]; cbn in Hr |- *; [by rewrite Z.add_0_r|].
    rewrite (proj1 (negb_true_iff _) Hr). by rewrite Z.add_0_r.
  - apply andb_true_iff in Hd as [-> Hd]. rewrite IH by done. do 2 f_equal. lia.
Qed.

Lemma dec_value_app a b acc : dec_value (a ++ b) acc = dec_value b (dec_value a acc).
Proof. revert acc. induction a as [|c a IH]; intros acc; cbn; [done|apply IH]. Qed.

Lemma dec_value_shift s acc : dec_value s acc = acc * 10 ^ Z.of_nat (String.length s) + dec_value s 0.
Proof.
  revert acc. induction s as [|c s IH]; intros acc; cbn [dec_value String.length]; [cbn; lia|].
  rewrite (IH (10 * acc + _)), (IH (10 * 0 + _)), Nat2Z.inj_succ, Z.pow_succ_r by lia. lia.
Qed.

Lemma digit_val_range c : isdigit c = true -> 0 <= digit_val c <= 9.
Proof. unfold isdigit, digit_val. intros. zbool. lia. Qed.

Lemma dec_value_bound s : all_chars isdigit s = true -> 0 <= dec_value s 0 < 10 ^ Z.of_nat (String.length s).
Proof.
  induction s as [|c s IH]; [done|]. cbn [all_chars dec_value String.length]. intros [Hc Hs]%andb_true_iff. specialize (IH Hs).
  apply digit_val_range in Hc. rewrite dec_value_shift, Nat2Z.inj_succ, Z.pow_succ_r by lia.
  set (p := 10 ^ Z.of_nat (String.length s)) in *. nia.
Qed.

(** Digit strings of one length are known by their value. *)
Lemma dec_value_inj s t :
  all_chars isdigit s = true -> all_chars isdigit t = true -> String.length s = String.length t ->
  dec_value s 0 = dec_value t 0 -> s = t.
Proof.
  revert t. induction s as [|c s IH]; intros [|d t]; try done. cbn [all_chars String.length dec_value].
  intros [Hc Hs]%andb_true_iff [Hd Ht]%andb_true_iff [= Hl]. rewrite (dec_value_shift s), (dec_value_shift t), Hl.
  pose proof (dec_value_bound s Hs) as Bs. pose proof (dec_value_bound t Ht) as Bt. rewrite Hl in Bs. intros E.
  set (p := 10 ^ Z.of_nat (String.length t)) in *. set (x := dec_value s 0) in *. set (y := dec_value t 0) in *.
  assert (digit_val c = digit_val d) as Ec by (clearbody p x y; nia).
  assert (Exy : x = y) by (clearbody p x y; nia).
  f_equal; [|by apply IH]. apply code_inj. unfold digit_val in Ec. lia.
Qed.

Lemma zeros_digits n : all_chars isdigit (zeros n) = true.
Proof. by induction n. Qed.

Lemma zeros_length n : String.length (zeros n) = n.
Proof. induction n; cbn; congruence. Qed.

Lemma zeros_value n : dec_value (zeros n) 0 = 0.
Proof. by induction n. Qed.

(** A printed positive number has no leading zero. *)
Lemma decimal_head n c s : 0 < n -> decimal n = String c s -> code c <> 48.
Proof.
  intros Hn. unfold decimal. destruct n as [|p|p]; try lia. cbn [Z.to_int NilZero.string_of_int].
  pose proof (DecimalPos.Unsigned.to_of (Pos.to_uint p)) as Hu.
  rewrite DecimalPos.Unsigned.of_to in Hu. cbn [N.to_uint] in Hu.
  pose proof (DecimalPos.Unsigned.to_uint_nonzero p) as Hz.
  destruct (Pos.to_uint p) as [|u|u|u|u|u|u|u|u|u|u]; cbn; intros [= <- <-]; try done.
  exfalso. unfold Decimal.unorm in Hu. cbn [Decimal.nzhead] in Hu.
  pose proof (nzhead_nonzero u) as Hh. destruct (Decimal.nzhead u) eqn:E; try done.
  by apply (Hh u0).
Qed.

Lemma decimal_length n (w : nat) : (0 < w)%nat -> 0 <= n < 10 ^ Z.of_nat w -> (String.length (decimal n) <= w)%nat.
Proof.
  intros Hw [H0 Hn]. destruct (Z.eq_dec n 0) as [->|Hnz]; [cbn; lia|].
  destruct (decimal_nonempty n) as (c & s & E). pose proof (decimal_head n c s ltac:(lia) E) as Hc.
  pose proof (decimal_nonneg n H0) as Hd. pose proof (decimal_value n H0) as Hv. rewrite E in *.
  cbn [all_chars] in Hd. apply andb_true_iff in Hd as [Hd Hs]. cbn [dec_value] in Hv. rewrite dec_value_shift in Hv.
  pose proof (dec_value_nonneg s 0 Hs ltac:(lia)). cbn [String.length].
  assert (1 <= digit_val c) by (unfold isdigit, digit_val in *; zbool; lia).
  assert (10 ^ Z.of_nat (String.length s) < 10 ^ Z.of_nat w) as Hlt.
  { assert (0 < 10 ^ Z.of_nat (String.length s)) by lia. nia. }
  apply Z.pow_lt_mono_r_iff in Hlt; lia.
Qed.

Lemma padded_spec w n :
  (0 < w)%nat -> 0 <= n < 10 ^ Z.of_nat w ->
  all_chars isdigit (padded w n) = true /\ String.length (padded w n) = w /\ dec_value (padded w n) 0 = n.
Proof.
  intros Hw Hn. pose proof (decimal_length n w Hw Hn). unfold padded.
  rewrite all_chars_app, zeros_digits, (decimal_nonneg n), string_length_app, zeros_length, dec_value_app, zeros_value by lia.
  split; [done|]. split; [lia|]. apply decimal_value. lia.
Qed.

Lemma scan_sign_digit c s : isdigit c = true -> scan_sign (String c s) = (false, String c s).
Proof. intros H. cbn. by destruct (isdigit_not_sign c H) as [-> ->]. Qed.

(** A printed number, with or without its sign, after a blank. *)
Lemma scan_sign_decimal n rest :
  scan_sign (skip_space (decimal n ++ rest)) = (n <? 0, decimal (Z.abs n) ++ rest).
Proof.
  destruct (Z.ltb_spec n 0).
  - by destruct n as [|p|p]; try lia.
  - rewrite Z.abs_eq by done. pose proof (decimal_nonneg n ltac:(done)) as Hd.
    destruct (decimal_nonempty n) as (c & s & E). rewrite E in Hd |- *. cbn [String.append].
    assert (Hc : isdigit c = true) by (cbn in Hd; by apply andb_true_iff in Hd as [? _]).
    cbn [skip_space]. rewrite isdigit_not_space by done. by apply scan_sign_digit.
Qed.

Lemma scan_decimal n rest :
  0 <= n -> no_digit rest = true ->
  exists k, 0 < k /\ scan_digits (decimal n ++ rest) 0 0 = (n, k, rest).
Proof.
  intros Hn Hr. exists (Z.of_nat (String.length (decimal n))). split.
  - destruct (decimal_nonempty n) as (c & s & ->). cbn. lia.
  - rewrite scan_digits_stop by (done || by apply decimal_nonneg). by rewrite decimal_value.
Qed.

Lemma stream_signed_decimal lo hi n rest :
  lo <= n <= hi -> no_digit rest = true -> stream_signed lo hi (decimal n ++ rest) = Some (n, rest).
Proof.
  intros Hn Hr. unfold stream_signed. rewrite scan_sign_decimal.
  destruct (scan_decimal (Z.abs n) rest) as (k & Hk & ->); [lia|done|].
  assert (E : (if n <? 0 then - Z.abs n else Z.abs n) = n) by (destruct (Z.ltb_spec n 0); lia).
  rewrite E, (proj2 (Z.eqb_neq k 0)), (proj2 (Z.ltb_ge n lo)) by lia.
  replace (n >? hi) with false by lia. done.
Qed.

Lemma stream_u64_decimal n rest :
  0 <= n <= UINT64_MAX -> no_digit rest = true -> stream_u64 (decimal n ++ rest) = Some (n, rest).
Proof.
  intros Hn Hr. unfold stream_u64. rewrite scan_sign_decimal.
  destruct (scan_decimal (Z.abs n) rest) as (k & Hk & ->); [lia|done|].
  rewrite (proj2 (Z.eqb_neq k 0)), (proj2 (Z.ltb_ge n 0)), Z.abs_eq by lia.
  replace (n >? UINT64_MAX) with false by lia. cbn [orb]. do 2 f_equal. unfold u64. apply Z.mod_small. unfold_int. lia.
Qed.

(** The digits of a number printed with [p > 0] decimals. *)
Lemma scan_fixed a b (p : nat) rest :
  (0 < p)%nat -> 0 <= a -> 0 <= b < 10 ^ Z.of_nat p -> no_digit rest = true ->
  exists k, 0 < k /\
    scan_mantissa scan_digits (decimal a ++ point (padded p b) ++ rest) = (a * 10 ^ Z.of_nat p + b, Z.of_nat p, k, rest).
Proof.
  intros Hp Ha Hb Hr. destruct (padded_spec p b Hp Hb) as (Hd & Hl & Hv).
  assert (Ept : point (padded p b) ++ rest = String "." (padded p b ++ rest)).
  { unfold point. destruct (padded p b) as [|c t]; [cbn in Hl; lia|done]. }
  rewrite Ept. unfold scan_mantissa.
  destruct (scan_decimal a (String "." (padded p b ++ rest)) Ha eq_refl) as (k & Hk & ->).
  change (code ".") with 46. change (46 =? 46) with true. cbv iota.
  rewrite scan_digits_stop, Hl by done. rewrite (proj2 (Z.eqb_neq _ 0)) by lia.
  exists (k + Z.of_nat p). split; [lia|]. do 3 f_equal; [|lia]. rewrite dec_value_shift, Hl, Hv. lia.
Qed.

(** Doubles that 17 decimals identify: zeros, and normal numbers of magnitude at least 1/8. *)
Definition printable (x : double) : bool :=
  match x with
  | S754_zero _ => true
  | S754_finite _ m e => bounded f64_prec f64_emax m e && (-55 <=? e)
  | _ => false
  end.

Lemma printable_mantissa s m e :
  printable (S754_finite s m e) = true -> 2 ^ 52 <= Z.pos m < 2 ^ 53 /\ -55 <= e <= 971.
Proof.
  cbn. unfold bounded, canonical_mantissa, fexp, emin, f64_prec, f64_emax. intros H.
  apply andb_true_iff in H as [[H1 H2]%andb_true_iff H3].
  apply Z.eqb_eq in H1. apply Z.leb_le in H2, H3.
  assert (Z.pos (digits2_pos m) = 53) as E by lia.
  pose proof (digits2_bounds m) as Hd. rewrite E in Hd. change (53 - 1) with 52 in Hd. lia.
Qed.

(** The decimal digits of [x] are close to [x]. *)
Lemma fixed_digits_close m e num den :
  2 ^ 52 <= Z.pos m < 2 ^ 53 -> -55 <= e <= 971 -> magnitude m e = (num, den) ->
  exists t, 0 <= t /\ 0 <= e + t /\ 0 < round_even (num * 10 ^ 17) den /\
    close_to (round_even (num * 10 ^ 17) den) (10 ^ 17) (Z.pos m) e t.
Proof.
  intros Hm He. unfold magnitude, close_to. destruct (Z.leb_spec 0 e); intros [= <- <-].
  - exists 0. assert (0 < 2 ^ e) by lia.
    rewrite (round_even_near (Z.pos m * 2 ^ e * 10 ^ 17) 1 (Z.pos m * 2 ^ e * 10 ^ 17)) by lia.
    rewrite Z.add_0_r, Z.pow_0_r. nia.
  - exists (- e). rewrite Z.add_opp_diag_r, Z.pow_0_r.
    assert (Hp : 0 < 2 ^ (- e)) by lia.
    assert (H55 : 2 ^ (- e) <= 2 ^ 55) by (apply Z.pow_le_mono_r; lia).
    assert (Hb : forall x d, 0 < d -> Z.abs (2 * (x - round_even x d * d)) <= d).
    { intros x d Hd. unfold round_even. pose proof (Z.div_mod x d ltac:(lia)). pose proof (Z.mod_pos_bound x d Hd).
      set (q := x / d) in *. set (r := x mod d) in *. clearbody q r.
      destruct (Z.ltb_spec (2 * r) d), (Z.ltb_spec d (2 * r)), (Z.even q); nia. }
    specialize (Hb (Z.pos m * 10 ^ 17) (2 ^ (- e)) Hp). set (n := round_even _ _) in *. clearbody n.
    set (d := 2 ^ (- e)) in *. clearbody d. change (2 ^ 55) with 36028797018963968 in H55.
    change (2 ^ 52) with 4503599627370496 in Hm. change (10 ^ 17) with 100000000000000000 in *. split; [lia|].
    split; [lia|]. split; [nia|]. lia.
Qed.

(** Reading what [std::fixed << std::setprecision(17)] printed. *)
Lemma stream_double_fixed x rest :
  printable x = true -> ends_number rest = true -> stream_double (f64_fixed 17 x ++ rest) = Some (x, rest).
Proof.
  intros Hx Hr. pose proof (ends_no_digit rest Hr) as Hnd.
  assert (Hexp : stream_exponent rest = Some (0, rest)).
  { destruct rest as [|c r]; [done|]. cbn in Hr |- *. apply andb_true_iff in Hr as [_ Hr].
    by rewrite (proj1 (negb_true_iff _) Hr). }
  assert (Hsign : forall s a b k n frac v, 0 <= a -> 0 < k ->
    scan_mantissa scan_digits (decimal a ++ b ++ rest) = (n, frac, k, rest) ->
    (scale_to_double s n 10 (0 - frac)).1 = v -> isinf v = false ->
    stream_double ((sign_text s ++ decimal a ++ b) ++ rest) = Some (v, rest)).
  { intros s a b k n frac v Ha Hk Hscan Hv Hinf. unfold stream_double.
    assert (E : scan_sign (skip_space ((sign_text s ++ decimal a ++ b) ++ rest)) = (s, decimal a ++ b ++ rest)).
    { rewrite !string_app_assoc. destruct s; [done|]. cbn [sign_text String.append].
      rewrite scan_sign_decimal, Z.abs_eq by done. by rewrite (proj2 (Z.ltb_ge a 0)). }
    rewrite E, Hscan, (proj2 (Z.eqb_neq k 0)), Hexp, Hv, Hinf by lia. done. }
  destruct x as [s|s| |s m e]; try done.
  - unfold f64_fixed. destruct (scan_fixed 0 0 17 rest) as (k & Hk & Hscan); [lia..|done|].
    by apply (Hsign s 0 (point (zeros 17)) k 0 17 (S754_zero s)).
  - apply printable_mantissa in Hx as [Hm He]. unfold f64_fixed.
    destruct (magnitude m e) as [num den] eqn:Emag.
    destruct (fixed_digits_close m e num den Hm He Emag) as (t & Ht & Het & Hn & Hc).
    change (10 ^ Z.of_nat 17) with (10 ^ 17). set (n := round_even (num * 10 ^ 17) den) in *. clearbody n.
    pose proof (Z.div_mod n (10 ^ 17) ltac:(done)) as Hdm. pose proof (Z.mod_pos_bound n (10 ^ 17) ltac:(done)) as Hb.
    assert (Ha : 0 <= n / 10 ^ 17) by (apply Z.div_pos; lia).
    destruct (scan_fixed (n / 10 ^ 17) (n mod 10 ^ 17) 17 rest) as (k & Hk & Hscan); [lia|done|done|done|].
    change (Z.of_nat 17) with 17 in Hscan.
    replace (n / 10 ^ 17 * 10 ^ 17 + n mod 10 ^ 17) with n in Hscan by lia.
    apply (Hsign s (n / 10 ^ 17) _ k n 17); [done|done|exact Hscan| |done].
    unfold scale_to_double. rewrite (proj2 (Z.eqb_neq n 0)) by lia. change (0 <=? 0 - 17) with false. cbv iota.
    change (Z.to_pos (10 ^ (- (0 - 17)))) with 100000000000000000%positive. unfold round_ratio.
    rewrite (f64_ratio_close n _ m e t Hm) by (done || lia). by destruct s.
Qed.

(** ** Canonical results *)

(** The mantissa of a normal number has 53 bits; so every double the arithmetic
    unit produces. *)
Definition canonical (x : double) : Prop :=
  match x with
  | S754_finite _ m e => -1074 <= e /\ Z.pos m < 2 ^ 53 /\ (-1074 < e -> 2 ^ 52 <= Z.pos m)
  | _ => True
  end.

Lemma exact_truncates m : 0 <= m -> truncates (shr_record_of_loc m loc_Exact) m 1.
Proof. intros Hm. unfold truncates. cbn [shr_record_of_loc shr_m shr_r shr_s]. replace (m - m * 1) with 0 by lia. by split_done; lia. Qed.

Lemma round_even_bounds num den q : 0 < den -> q * den <= num < (q + 1) * den -> q <= round_even num den <= q + 1.
Proof.
  intros Hd Hq. assert (E : num / den = q) by (symmetry; apply (Z.div_unique_pos num den q (num - q * den)); lia).
  unfold round_even. rewrite E. repeat case_match; lia.
Qed.

(** The second pass of a rounding. *)
Lemma second_pass m e :
  0 < m <= 2 ^ 53 -> -1074 <= e -> (-1074 < e -> 2 ^ 52 <= m) ->
  exists m' e', shr_fexp f64_prec f64_emax m e loc_Exact = (Build_shr_record (Z.pos m') false false, e') /\
    -1074 <= e' /\ Z.pos m' < 2 ^ 53 /\ (-1074 < e' -> 2 ^ 52 <= Z.pos m').
Proof.
  intros Hm He Hn. destruct (Z.eq_dec m (2 ^ 53)) as [->|Hne].
  { rewrite renormalise_carry by lia. exists 4503599627370496%positive, (e + 1). by split_done; lia. }
  destruct m as [|m|m]; try lia. destruct (Z.le_gt_cases (2 ^ 52) (Z.pos m)) as [Hge|Hlt].
  { rewrite renormalise by lia. exists m, e. by split_done; lia. }
  assert (e = -1074) as -> by lia. unfold shr_fexp. cbn [Zdigits2 shr_record_of_loc].
  pose proof (digits2_bounds m) as [Hlo _]. assert (Z.pos (digits2_pos m) - 1 < 52) by (apply (Z.pow_lt_mono_r_iff 2); lia).
  unfold fexp, emin, f64_prec, f64_emax. replace (Z.max (Z.pos (digits2_pos m) + -1074 - 53) (3 - 1024 - 53) - -1074) with 0 by lia.
  exists m, (-1074). by split_done; lia.
Qed.

(** Rounding a mantissa that is not too short for its exponent. *)
Lemma round_aux_canonical sx m e :
  e <= fexp f64_prec f64_emax (Z.pos (digits2_pos m) + e) -> canonical (binary_round_aux f64_prec f64_emax sx (Z.pos m) e loc_Exact).
Proof.
  intros Hf. set (k := fexp f64_prec f64_emax (Z.pos (digits2_pos m) + e) - e). assert (Hk : 0 <= k) by (unfold k; lia).
  pose proof (shr_fexp_rounds (Z.pos m) e loc_Exact (Z.pos m) 1 k ltac:(lia) ltac:(lia) (exact_truncates (Z.pos m) ltac:(lia)) Hk ltac:(unfold k; cbn [Zdigits2]; lia)) as H1.
  unfold binary_round_aux. destruct (shr_fexp f64_prec f64_emax (Z.pos m) e loc_Exact) as [mrs ex]. destruct H1 as [-> ->].
  rewrite Z.mul_1_r. set (q := Z.pos m / 2 ^ k). assert (Hp : 0 < 2 ^ k) by lia.
  assert (Hq : q * 2 ^ k <= Z.pos m < (q + 1) * 2 ^ k).
  { pose proof (Z.div_mod (Z.pos m) (2 ^ k) ltac:(lia)). pose proof (Z.mod_pos_bound (Z.pos m) (2 ^ k) Hp). subst q. lia. }
  pose proof (round_even_bounds _ _ _ Hp Hq) as Hr. set (r := round_even _ _) in *. clearbody r.
  pose proof (digits2_bounds m) as [Dlo Dhi]. set (d := Z.pos (digits2_pos m)) in *.
  assert (Hd : 0 < d) by (subst d; lia). clearbody d.
  assert (Hex : e + k = Z.max (d + e - 53) (-1074)) by (unfold k, fexp, emin, f64_prec, f64_emax; lia).
  assert (Hq0 : 0 <= q) by (apply Z.div_pos; lia).
  assert (Hup : q < 2 ^ 53).
  { apply (Z.mul_lt_mono_pos_r (2 ^ k)); [lia|]. rewrite <- Z.pow_add_r by lia. apply (Z.le_lt_trans _ (Z.pos m)); [lia|].
    apply (Z.lt_le_trans _ (2 ^ d)); [lia|]. apply Z.pow_le_mono_r; lia. }
  assert (Hlow : -1074 < e + k -> 2 ^ 52 <= q).
  { intros Hn. assert (k = d - 53) by lia. assert (2 ^ 52 * 2 ^ k < (q + 1) * 2 ^ k); [|nia].
    rewrite <- Z.pow_add_r by lia. replace (52 + k) with (d - 1) by lia. lia. }
  destruct (Z.eq_dec r 0) as [->|Hr0].
  { destruct (shr_fexp f64_prec f64_emax 0 (e + k) loc_Exact) as [mrs' ex'] eqn:E. unfold shr_fexp in E. cbn [Zdigits2 shr_record_of_loc] in E.
    assert (Hz : forall p, iter_pos shr_1 p (Build_shr_record 0 false false) = Build_shr_record 0 false false).
    { induction p as [p IH|p IH|]; cbn [iter_pos shr_1 orb]; rewrite ?IH; done. }
    unfold shr in E. destruct (_ - _) in E; injection E as <- <-; rewrite ?Hz; done. }
  destruct (second_pass r (e + k)) as (m' & e' & -> & H1 & H2 & H3); [lia | lia | lia|]. cbn [shr_m].
  destruct (e' <=? _); [|done]. by split_done.
Qed.

(** A product with a normal factor is rounded correctly whatever the other one. *)
Lemma fmul_canonical x s m e : 2 ^ 52 <= Z.pos m -> canonical (fmul x (S754_finite s m e)).
Proof.
  intros Hm. destruct x as [sx|sx| |sx mx ex]; try done. unfold fmul, SFmul. apply round_aux_canonical.
  pose proof (digits2_bounds (mx * m)) as [_ Hhi].
  assert (52 < Z.pos (digits2_pos (mx * m))) by (apply (Z.pow_lt_mono_r_iff 2); [lia..|]; rewrite Pos2Z.inj_mul in Hhi; nia).
  unfold fexp, emin, f64_prec, f64_emax. lia.
Qed.

Lemma iter_xO m d : Z.pos (Pos.iter xO m d) = Z.pos m * 2 ^ Z.pos d.
Proof.
  revert m. induction d as [|d IH] using Pos.peano_ind; intros m; [cbn; lia|].
  rewrite Pos.iter_succ, Pos2Z.inj_succ, Z.pow_succ_r by lia. change (Z.pos (Pos.iter xO m d)~0) with (2 * Z.pos (Pos.iter xO m d)). rewrite IH. lia.
Qed.

Lemma digits2_shift m d : Z.pos (digits2_pos (Pos.iter xO m d)) = Z.pos (digits2_pos m) + Z.pos d.
Proof.
  pose proof (digits2_bounds m) as [Hlo Hhi]. set (k := Z.pos (digits2_pos m)) in *. assert (0 < k) by (subst k; lia).
  rewrite (digits2_unique _ (k - 1 + Z.pos d)); [lia | lia|]. rewrite iter_xO. replace (k - 1 + Z.pos d + 1) with (k + Z.pos d) by lia.
  rewrite !Z.pow_add_r in * by lia. assert (0 < 2 ^ Z.pos d) by lia. nia.
Qed.

Lemma binary_round_canonical sx m e : canonical (binary_round f64_prec f64_emax sx m e).
Proof.
  unfold binary_round, shl_align. set (f := fexp f64_prec f64_emax _). destruct (f - e) as [|d|d] eqn:E; apply round_aux_canonical; fold f; [lia..|].
  rewrite digits2_shift. replace (Z.pos (digits2_pos m) + Z.pos d + f) with (Z.pos (digits2_pos m) + e) by lia. fold f. lia.
Qed.

(** A sum with a canonical term. *)
Lemma fadd_canonical x y : canonical x -> canonical y -> canonical (fadd x y).
Proof.
  intros Hx Hy. unfold fadd, SFadd. destruct x as [sx|sx| |sx mx ex], y as [sy|sy| |sy my ey]; try done; try (by destruct sx, sy).
  unfold binary_normalize. destruct (_ + _); [done | apply binary_round_canonical..].
Qed.

(** A finite nonzero sum is canonical whatever the terms, unless one is zero. *)
Lemma fadd_rounds x s m e : canonical (S754_finite s m e) -> canonical (fadd x (S754_finite s m e)).
Proof.
  intros Hc. unfold fadd, SFadd. destruct x as [sx|sx| |sx mx ex]; try done.
  unfold binary_normalize. destruct (_ + _); [done | apply binary_round_canonical..].
Qed.

(** The order of positive doubles is the order of their values. *)
Lemma flt_value m e m' e' t :
  canonical (S754_finite false m e) -> canonical (S754_finite false m' e') -> -1074 < e' -> 0 <= e + t -> 0 <= e' + t ->
  flt (S754_finite false m e) (S754_finite false m' e') = true -> Z.pos m * 2 ^ (e + t) < Z.pos m' * 2 ^ (e' + t).
Proof.
  intros (H1 & H2 & H3) (H4 & H5 & H6) Hn Ht Ht'. unfold flt, SFltb, SFcompare. destruct (Z.compare_spec e e') as [->|Hlt|Hgt]; [|intros _|done].
  - destruct (Pos.compare_cont Eq m m') eqn:E; try done. intros _. change (Pos.compare m m' = Lt) in E. apply Pos.compare_lt_iff in E.
    apply Z.mul_lt_mono_pos_r; [lia | by apply Pos2Z.pos_lt_pos].
  - specialize (H6 Hn). replace (e' + t) with ((e' - e) + (e + t)) by lia. rewrite (Z.pow_add_r 2 (e' - e) (e + t)) by lia. rewrite Z.mul_assoc.
    apply Z.mul_lt_mono_pos_r; [lia|]. assert (2 ^ 1 <= 2 ^ (e' - e)) by (apply Z.pow_le_mono_r; lia). nia.
Qed.
