(* ===== verification/ConfigParser.v ===== *)
(** * ConfigParser: option parsing of [src/src/config_parser.c]

    Each parser returns [None] for the C result [-1] and [Some v] for [0] with
    the value stored through the out pointers (which every caller passes
    non-null).  A [value] of [None] is the null pointer. *)
From S2P Require Import Prelude Float64.
From Stdlib Require Import SpecFloat Ascii String.
#[local] Open Scope string_scope.
#[local] Open Scope Z_scope.

(** [errno != 0 || end == value || *end != '\0'] negated: the conversion consumed
    the whole string without a range error. *)
Definition conversion_complete {A} (r : strto A) : bool :=
  (st_errno r =? 0) && match st_end r with Some rest => String.eqb rest "" | None => false end.

Definition tsd_parse_int_option (value : option string) (min max : Z) : option Z :=
  match value with
  | None => None
  | Some value =>
      let r := strtol value in
      if negb (conversion_complete r) then None
      else
        let parsed := st_val r in
        if (parsed <? min) || (parsed >? max) then None
        else Some (i32 parsed)
  end.

Definition tsd_parse_ms_option (value : option string) (min_ms max_ms : Z) : option Z :=
  match tsd_parse_int_option value min_ms max_ms with
  | None => None
  | Some parsed_ms =>
      let converted := parsed_ms * 1000 in
      if converted >? INT_MAX then None else Some (i32 converted)
  end.

(** [(double)UINT64_MAX], which rounds up to 2^64. *)
Definition f64_uint64_max : double := f64_of_Z UINT64_MAX.
Definition f64_thousand : double := f64_of_Z 1000.

Definition tsd_parse_ratio_option (value : option string) (min max : double) : option (double * Z) :=
  match value with
  | None => None
  | Some value =>
      let r := strtod value in
      if negb (conversion_complete r) then None
      else
        let parsed := st_val r in
        if isnan parsed || isinf parsed then None
        else if flt parsed min || flt max parsed then None
        else
          let scaled := fmul parsed f64_thousand in
          if flt scaled f64_zero || flt f64_uint64_max scaled then None
          else
            let scaled_out := f64_to_u64 (fadd scaled f64_half) in
            Some (parsed, if (scaled_out =? 0) && flt f64_zero parsed then 1 else scaled_out)
  end.

Definition tsd_parse_double_option (value : option string) (min max : double) : option double :=
  match value with
  | None => None
  | Some value =>
      let r := strtod value in
      if negb (conversion_complete r) then None
      else
        let parsed := st_val r in
        if isnan parsed || isinf parsed then None
        else if flt parsed min || flt max parsed then None
        else Some parsed
  end.

(** [inl errno] is the result [-1]; [inr ticks] is [0].  The second component is
    what is stored through [raw_ticks_out]. *)
Definition tsd_compute_ticks_from_ms (interval_us ms : Z) : (Z + Z) * Z :=
  if interval_us <=? 0 then (inl EINVAL, -1)
  else if ms <? 0 then (inl EINVAL, -1)
  else
    let total_us := ms * 1000 in
    let interval := interval_us in
    let ticks64 := Z.quot (total_us + interval - 1) interval in
    if (ticks64 <=? 0) || (ticks64 >? INT_MAX) then (inl ERANGE, ticks64)
    else (inr (i32 ticks64), ticks64).

(** ** Integer options *)

(** The language [tsd_parse_int_option] reads: white space, an optional sign and
    at least one digit, to the end of the string, denoting [v]. *)
Definition int_literal (s : string) (v : Z) : Prop :=
  exists ws sign ds,
    s = ws ++ sign ++ ds /\ all_chars isspace ws = true /\
    (sign = "" \/ sign = "+" \/ sign = "-") /\
    all_chars isdigit ds = true /\ ds <> "" /\
    v = if String.eqb sign "-" then - dec_value ds 0 else dec_value ds 0.

Lemma string_eq_nil s : String.eqb s "" = true <-> s = "".
Proof. destruct s; cbn; split; intros; done. Qed.

Lemma scan_sign_cases s neg rest :
  scan_sign s = (neg, rest) ->
  (s = rest /\ neg = false) \/ (s = String "+" rest /\ neg = false) \/ (s = String "-" rest /\ neg = true).
Proof.
  destruct s as [|c s]; cbn; [intros [= <- <-]; auto|].
  assert (Hc : forall d, code c = code d -> c = d).
  { intros d H. rewrite <- (ascii_N_embedding c), <- (ascii_N_embedding d).
    unfold code in H. f_equal. lia. }
  destruct (code c =? 45) eqn:E1; [intros [= <- <-]; zbool; rewrite (Hc "-"%char E1); auto|].
  destruct (code c =? 43) eqn:E2; [intros [= <- <-]; zbool; rewrite (Hc "+"%char E2); auto|].
  intros [= <- <-]; auto.
Qed.

(** A complete conversion reads exactly an integer literal. *)
Lemma strtol_complete_iff s v :
  LONG_MIN <= v <= LONG_MAX ->
  (conversion_complete (strtol s) = true /\ st_val (strtol s) = v) <-> int_literal s v.
Proof.
  intros Hv. unfold int_literal. split.
  - intros [Hc Hval]. unfold conversion_complete, strtol in *.
    destruct (skip_space_split s) as (ws & Hs & Hws).
    destruct (scan_sign (skip_space s)) as [neg t] eqn:Et.
    destruct (scan_digits t 0 0) as [[mag n] rest] eqn:Ed.
    destruct (n =? 0) eqn:En; [cbn in Hc; discriminate|].
    set (x := if neg : bool then - mag else mag) in *.
    destruct (x >? LONG_MAX); [cbn in Hc; discriminate|].
    destruct (x <? LONG_MIN); [cbn in Hc; discriminate|].
    cbn in Hc, Hval. apply string_eq_nil in Hc. subst rest.
    apply scan_digits_inv in Ed as (Hd & Hm & Hn). zbool.
    assert (Hne : t <> "") by (intros ->; cbn in *; lia).
    rewrite Hs.
    destruct (scan_sign_cases _ _ _ Et) as [[H1 H2]|[[H1 H2]|[H1 H2]]]; rewrite H1; subst neg;
      [exists ws, "", t | exists ws, "+", t | exists ws, "-", t];
      repeat split; auto; subst; cbn; reflexivity.
  - intros (ws & sign & ds & -> & Hws & Hsign & Hd & Hne & Hval).
    assert (Hscan : scan_sign (skip_space (ws ++ sign ++ ds)) = (String.eqb sign "-", ds)).
    { rewrite skip_space_app by done. destruct ds as [|c ds]; [done|].
      cbn in Hd. apply andb_true_iff in Hd as [Hc _].
      destruct Hsign as [-> | [-> | ->]]; cbn; [|done|done].
      rewrite (isdigit_not_space _ Hc). cbn.
      destruct (isdigit_not_sign _ Hc) as [-> ->]. done. }
    unfold conversion_complete, strtol. rewrite Hscan, scan_digits_full by done.
    assert (Hn : (0 + Z.of_nat (String.length ds) =? 0) = false)
      by (apply Z.eqb_neq; destruct ds; [done | cbn; lia]).
    rewrite Hn, <- Hval.
    replace (v >? LONG_MAX) with false by (symmetry; rewrite Z.gtb_ltb; apply Z.ltb_ge; lia).
    replace (v <? LONG_MIN) with false by (symmetry; apply Z.ltb_ge; lia).
    done.
Qed.

Lemma parse_int_option_iff s min max v :
  INT_MIN <= min -> max <= INT_MAX ->
  tsd_parse_int_option (Some s) min max = Some v <-> int_literal s v /\ min <= v <= max.
Proof.
  intros Hmin Hmax. unfold tsd_parse_int_option. split.
  - destruct (conversion_complete (strtol s)) eqn:Ec; cbn; [|discriminate].
    destruct ((st_val (strtol s) <? min) || (st_val (strtol s) >? max)) eqn:Er; [discriminate|].
    apply orb_false_iff in Er as [E1 E2]. rewrite Z.gtb_ltb in E2. zbool.
    rewrite i32_small by (unfold_int; lia). intros [= <-].
    split; [|lia]. apply strtol_complete_iff; [unfold_int; lia | by split].
  - intros [Hl Hr].
    apply strtol_complete_iff in Hl as [Hc Hval]; [|unfold_int; lia].
    rewrite Hc, Hval. cbn.
    replace (v <? min) with false by (symmetry; apply Z.ltb_ge; lia).
    replace (v >? max) with false by (symmetry; rewrite Z.gtb_ltb; apply Z.ltb_ge; lia).
    cbn. f_equal. apply i32_small. unfold_int; lia.
Qed.

(** Whatever is accepted lies in the caller's range. *)
Lemma parse_int_option_range value min max v :
  INT_MIN <= min -> max <= INT_MAX ->
  tsd_parse_int_option value min max = Some v -> min <= v <= max.
Proof.
  destruct value as [s|]; [|discriminate].
  intros H1 H2 H. by apply parse_int_option_iff in H as [_ H].
Qed.

(** ** Ticks *)

Lemma compute_ticks_value interval ms :
  0 < interval -> 0 <= ms ->
  Z.quot (ms * 1000 + interval - 1) interval = cdiv (ms * 1000) interval.
Proof. intros. rewrite cdiv_add by done. apply Z.quot_div_nonneg; lia. Qed.

Lemma compute_ticks_ok interval ms t raw :
  tsd_compute_ticks_from_ms interval ms = (inr t, raw) ->
  0 < interval /\ 0 < ms /\ t = cdiv (ms * 1000) interval /\ raw = t /\ 0 < t <= INT_MAX.
Proof.
  unfold tsd_compute_ticks_from_ms.
  destruct (interval <=? 0) eqn:E1; [discriminate|].
  destruct (ms <? 0) eqn:E2; [discriminate|]. zbool.
  rewrite compute_ticks_value by lia.
  destruct (_ || _) eqn:E3; [discriminate|].
  apply orb_false_iff in E3 as [E3 E4]. rewrite Z.gtb_ltb in E4. zbool.
  rewrite i32_small by (unfold_int; lia). intros [= <- <-].
  repeat split; try lia.
  destruct (Z.eq_dec ms 0) as [->|]; [|lia].
  unfold cdiv in E3. cbn in E3. rewrite Z.div_0_l in E3; lia.
Qed.

(** ** Properties *)

(** [tsd_parse_int_option] accepts exactly the strings made of
    white space, an optional sign and decimal digits to the end whose value is in
    the caller's range, and stores that value: nothing is truncated, wrapped or
    accepted with trailing text. *)
Theorem parse_int_option_language (s : string) (min max v : Z) :
  INT_MIN <= min -> max <= INT_MAX ->
  tsd_parse_int_option (Some s) min max = Some v <-> int_literal s v /\ min <= v <= max.
Proof. apply parse_int_option_iff. Qed.

Lemma parse_int_option_language_witness :
  tsd_parse_int_option (Some " +150") 1 3600000 = Some 150 <->
  int_literal " +150" 150 /\ 1 <= 150 <= 3600000.
Proof. apply (parse_int_option_language " +150" 1 3600000 150); unfold INT_MIN, INT_MAX; lia. Defined.

(** [tsd_compute_ticks_from_ms] returns the least number of control
    intervals that covers the requested time, always a positive [int]; it fails
    with [EINVAL] exactly on a non-positive interval or a negative time and with
    [ERANGE] exactly when the time is zero or the count does not fit an [int]. *)
Theorem compute_ticks_ceiling (interval ms : Z) :
  in_int interval -> in_int ms ->
  match (tsd_compute_ticks_from_ms interval ms).1 with
  | inr t => (t - 1) * interval < ms * 1000 <= t * interval /\ 0 < t <= INT_MAX
  | inl e => (e = EINVAL /\ (interval <= 0 \/ ms < 0)) \/
             (e = ERANGE /\ 0 < interval /\ (ms = 0 \/ INT_MAX * interval < ms * 1000))
  end.
Proof.
  intros Hi Hm. destruct (tsd_compute_ticks_from_ms interval ms) as [[e|t] raw] eqn:E; cbn.
  - unfold tsd_compute_ticks_from_ms in E.
    destruct (interval <=? 0) eqn:E1; [injection E as <- <-; zbool; auto|].
    destruct (ms <? 0) eqn:E2; [injection E as <- <-; zbool; auto|]. zbool.
    rewrite compute_ticks_value in E by lia.
    pose proof (cdiv_spec (ms * 1000) interval ltac:(lia)) as Hc.
    destruct (_ || _) eqn:E3; [|discriminate]. injection E as <- <-.
    right. apply orb_true_iff in E3 as [E3|E3]; rewrite ?Z.gtb_ltb in E3; zbool; nia.
  - apply compute_ticks_ok in E as (H1 & H2 & -> & _ & H3).
    split; [by apply cdiv_spec | done].
Qed.

Lemma compute_ticks_ceiling_witness :
  match (tsd_compute_ticks_from_ms 50000 1010).1 with
  | inr t => (t - 1) * 50000 < 1010 * 1000 <= t * 50000 /\ 0 < t <= INT_MAX
  | inl e => (e = EINVAL /\ (50000 <= 0 \/ 1010 < 0)) \/
             (e = ERANGE /\ 0 < 50000 /\ (1010 = 0 \/ INT_MAX * 50000 < 1010 * 1000))
  end.
Proof. apply (compute_ticks_ceiling 50000 1010); unfold in_int, INT_MIN, INT_MAX; lia. Defined.

(** Accepted ratios are finite doubles inside the caller's range. *)
Lemma parse_ratio_option_range value min max r m :
  tsd_parse_ratio_option value min max = Some (r, m) ->
  isfinite r = true /\ flt r min = false /\ flt max r = false /\ 0 <= m.
Proof.
  destruct value as [s|]; [|discriminate]. unfold tsd_parse_ratio_option. cbv zeta.
  destruct (conversion_complete (strtod s)); [|discriminate]. cbn [negb].
  set (x := st_val (strtod s)).
  destruct (isnan x || isinf x) eqn:E1; [discriminate|].
  destruct (flt x min || flt max x) eqn:E2; [discriminate|].
  destruct (flt (fmul x f64_thousand) f64_zero || flt f64_uint64_max (fmul x f64_thousand));
    [discriminate|].
  intros [= Hr Hm]. rewrite <- Hr, <- Hm. clear Hr Hm.
  apply orb_false_iff in E1 as [E1 E1']. apply orb_false_iff in E2 as [E2 E2'].
  repeat split; try done; [by destruct x | destruct (_ && _); [done|]].
  pose proof (u64_range (f64_trunc (fadd (fmul x f64_thousand) f64_half))) as Hr.
  unfold f64_to_u64. unfold_int. lia.
Qed.

Example parse_ms_example : tsd_parse_ms_option (Some "50") 1 10000 = Some 50000.
Proof. reflexivity. Qed.

Example parse_ratio_example :
  option_map snd (tsd_parse_ratio_option (Some "1.25") (f64_of_Z 1) (f64_of_Z 10)) = Some 1250.
Proof. vm_compute. reflexivity. Qed.
