(* ===== verification/Config.v ===== *)
(** * Config: the runtime configuration and its degraded overlay

    The configuration record of [include/thermal/simd/thermal_config.h], its
    defaults, tick refresh, validation and [effective_*] accessors
    ([src/src/thermal_config.c]), the policy sub-configuration
    ([src/src/policy/policy_config.c]) and the validation a runtime generation
    performs on its private copy ([src/src/runtime_guard.c]).

    C [int] flags that only ever hold 0 or 1 are [bool]; fixed-size character
    arrays are strings; the process-wide atomic [g_tsd_degraded_active] that the
    accessors load is their first argument. *)
From S2P Require Import Prelude Float64 ConfigParser.
From Stdlib Require Import SpecFloat Ascii String.
#[local] Open Scope string_scope.
#[local] Open Scope Z_scope.

(** ** Policy configuration *)

Record tsd_policy_config : Type := mkPolicyConfig {
  slo_ratio_milli : Z;
  slo_temp_millic : Z;
  transition_penalty_up_milli : Z;
  transition_penalty_down_milli : Z;
  forecast_horizon : Z;
}.
#[export] Instance eta_policy_config : Eta tsd_policy_config := fun r =>
  mkPolicyConfig (slo_ratio_milli r) (slo_temp_millic r) (transition_penalty_up_milli r)
    (transition_penalty_down_milli r) (forecast_horizon r).

Definition tsd_policy_config_defaults : tsd_policy_config := mkPolicyConfig 1500 85000 750 1000 5.

Definition tsd_policy_config_apply_bounds (cfg : tsd_policy_config) : tsd_policy_config :=
  if forecast_horizon cfg =? 0 then cfg <| forecast_horizon := 1 |> else cfg.

(** ** Runtime configuration *)

Record tsd_runtime_config : Type := mkConfig {
  check_interval_us : Z;
  down_count : Z;
  up_count : Z;
  down_ratio : double;
  down_ratio_milli : Z;
  cooldown_down_ms : Z;
  cooldown_up_ms : Z;
  allow_avx512 : bool;
  min_dwell_ms : Z;
  memory_guard_divisor : Z;
  memory_guard_offset_milli : Z;
  demo_duration_sec : Z;
  run_forever : bool;
  work_iters : Z;
  cooldown_down_ticks : Z;
  cooldown_up_ticks : Z;
  min_dwell_ticks : Z;
  thermal_temp_weight_milli : Z;
  thermal_ratio_weight_milli : Z;
  degraded_timeout_sec : Z;
  degraded_policy_active : bool;
  health_check_mode : bool;
  metrics_enabled : bool;
  metrics_port : Z;
  metrics_bind_host : string;
  metrics_tls_cert_path : string;
  metrics_tls_key_path : string;
  metrics_tls_ca_path : string;
  metrics_tls_require_client_auth : bool;
  metrics_basic_auth_user : string;
  metrics_basic_auth_pass : string;
  statsd_host : string;
  statsd_port : Z;
  telemetry_interval_ms : Z;
  telemetry_max_skew_ms : Z;
  telemetry_ewma_alpha : double;
  telemetry_profile_path : string;
  predictive_temp_ceiling_c : Z;
  predictive_safety_margin_c : Z;
  predictive_emergency_margin_c : Z;
  predictive_alpha : double;
  predictive_coeff_path : string;
  log_level : Z;
  policy : tsd_policy_config;
}.
#[export] Instance eta_config : Eta tsd_runtime_config := fun r =>
  mkConfig (check_interval_us r) (down_count r) (up_count r) (down_ratio r) (down_ratio_milli r)
    (cooldown_down_ms r) (cooldown_up_ms r) (allow_avx512 r) (min_dwell_ms r)
    (memory_guard_divisor r) (memory_guard_offset_milli r) (demo_duration_sec r) (run_forever r)
    (work_iters r) (cooldown_down_ticks r) (cooldown_up_ticks r) (min_dwell_ticks r)
    (thermal_temp_weight_milli r) (thermal_ratio_weight_milli r) (degraded_timeout_sec r)
    (degraded_policy_active r) (health_check_mode r) (metrics_enabled r) (metrics_port r)
    (metrics_bind_host r) (metrics_tls_cert_path r) (metrics_tls_key_path r)
    (metrics_tls_ca_path r) (metrics_tls_require_client_auth r) (metrics_basic_auth_user r)
    (metrics_basic_auth_pass r) (statsd_host r) (statsd_port r) (telemetry_interval_ms r)
    (telemetry_max_skew_ms r) (telemetry_ewma_alpha r) (telemetry_profile_path r)
    (predictive_temp_ceiling_c r) (predictive_safety_margin_c r)
    (predictive_emergency_margin_c r) (predictive_alpha r) (predictive_coeff_path r)
    (log_level r) (policy r).

Definition TSD_LOG_LEVEL_ERROR : Z := 0.
Definition TSD_LOG_LEVEL_WARN : Z := 1.
Definition TSD_LOG_LEVEL_INFO : Z := 2.
Definition TSD_LOG_LEVEL_DEBUG : Z := 3.

Definition TSD_MIN_TEMP_C : Z := 20.
Definition TSD_MAX_TEMP_C : Z := 125.
Definition TSD_MIN_MARGIN_C : Z := 0.
Definition TSD_MAX_MARGIN_C : Z := 60.
Definition TSD_MIN_TELEMETRY_INTERVAL_MS : Z := 10.
Definition TSD_MAX_TELEMETRY_INTERVAL_MS : Z := 60000.
Definition TSD_MIN_TELEMETRY_SKEW_MS : Z := 0.
Definition TSD_MAX_TELEMETRY_SKEW_MS : Z := 60000.

Definition k_default_config : tsd_runtime_config :=
  mkConfig 50000 3 5 (f64_ratio 3 2) 1500 1000 2000 false 200 5 200 10 false 10000000 0 0 0 0 0
    120 false false true 9464 "127.0.0.1" "" "" "" false "" "" "" 8125 50 150 (f64_ratio 1 4) ""
    92 4 10 (f64_ratio 1 4) "config/controller_coeffs.json" TSD_LOG_LEVEL_INFO
    (mkPolicyConfig 0 0 0 0 0).

Definition tsd_runtime_config_set_defaults : tsd_runtime_config :=
  k_default_config <| policy := tsd_policy_config_apply_bounds tsd_policy_config_defaults |>
    <| degraded_policy_active := false |>.

(** ** The degraded overlay *)

Definition saturated_double_int (value : Z) : Z :=
  if value <=? 0 then value
  else if value >? INT_MAX / 2 then INT_MAX else value * 2.

Section effective.
(** [tsd_runtime_config_is_degraded()] *)
Context (degraded : bool).

Definition tsd_runtime_config_effective_down_count (cfg : option tsd_runtime_config) : Z :=
  match cfg with
  | None => 1
  | Some cfg =>
      let value := down_count cfg in
      let value := if degraded && (value >? 1) then value - 1 else value in
      if value >? 0 then value else 1
  end.

Definition tsd_runtime_config_effective_up_count (cfg : option tsd_runtime_config) : Z :=
  match cfg with
  | None => 1
  | Some cfg =>
      let value := up_count cfg in
      let value :=
        if degraded && (value <? 10) then
          let value := value + 2 in if value >? 10 then 10 else value
        else value in
      if value >? 0 then value else 1
  end.

Definition tsd_runtime_config_effective_cooldown_down_ms (cfg : option tsd_runtime_config) : Z :=
  match cfg with
  | None => 0
  | Some cfg =>
      let value := cooldown_down_ms cfg in
      let value := if degraded then
                     if value <? 2000 then 2000 else saturated_double_int value
                   else value in
      if value >? 0 then value else 0
  end.

Definition tsd_runtime_config_effective_cooldown_up_ms (cfg : option tsd_runtime_config) : Z :=
  match cfg with
  | None => 0
  | Some cfg =>
      let value := cooldown_up_ms cfg in
      let value := if degraded then
                     if value <? 4000 then 4000 else saturated_double_int value
                   else value in
      if value >? 0 then value else 0
  end.

Definition tsd_runtime_config_effective_min_dwell_ms (cfg : option tsd_runtime_config) : Z :=
  match cfg with
  | None => 0
  | Some cfg =>
      let value := min_dwell_ms cfg in
      let value := if degraded && (value <? 500) then 500 else value in
      if value >? 0 then value else 0
  end.

Definition tsd_runtime_config_effective_down_ratio_milli (cfg : option tsd_runtime_config) : Z :=
  match cfg with
  | None => 1500
  | Some cfg =>
      let value := if down_ratio_milli cfg =? 0 then 1500 else down_ratio_milli cfg in
      if degraded && (value >? 1300) then 1300 else value
  end.
End effective.

(** ** Ticks and validation *)

(** [Some errno] is the result [-1]; the fields written before a failure stay
    written, as in the C code. *)
Definition tsd_runtime_config_refresh_ticks (cfg : tsd_runtime_config) : option Z * tsd_runtime_config :=
  match (tsd_compute_ticks_from_ms (check_interval_us cfg) (cooldown_down_ms cfg)).1 with
  | inl e => (Some e, cfg)
  | inr t =>
      let cfg := cfg <| cooldown_down_ticks := t |> in
      match (tsd_compute_ticks_from_ms (check_interval_us cfg) (cooldown_up_ms cfg)).1 with
      | inl e => (Some e, cfg)
      | inr t =>
          let cfg := cfg <| cooldown_up_ticks := t |> in
          match (tsd_compute_ticks_from_ms (check_interval_us cfg) (min_dwell_ms cfg)).1 with
          | inl e => (Some e, cfg)
          | inr t => (None, cfg <| min_dwell_ticks := t |>)
          end
      end
  end.

Definition is_empty (s : string) : bool := String.eqb s "".

(** Startup validation of the command line path: [None] is [-1]. *)
Definition validate_runtime_config (cfg : tsd_runtime_config) : option tsd_runtime_config :=
  if xorb (negb (is_empty (metrics_tls_cert_path cfg))) (negb (is_empty (metrics_tls_key_path cfg))) then None
  else if metrics_tls_require_client_auth cfg && is_empty (metrics_tls_ca_path cfg) then None
  else if xorb (negb (is_empty (metrics_basic_auth_user cfg))) (negb (is_empty (metrics_basic_auth_pass cfg))) then None
  else
    let cfg := if is_empty (statsd_host cfg) then cfg <| statsd_port := 0 |> else cfg in
    if (telemetry_interval_ms cfg <? TSD_MIN_TELEMETRY_INTERVAL_MS) ||
       (telemetry_interval_ms cfg >? TSD_MAX_TELEMETRY_INTERVAL_MS) then None
    else if (telemetry_max_skew_ms cfg <? TSD_MIN_TELEMETRY_SKEW_MS) ||
            (telemetry_max_skew_ms cfg >? TSD_MAX_TELEMETRY_SKEW_MS) then None
    else if (predictive_temp_ceiling_c cfg <? TSD_MIN_TEMP_C) ||
            (predictive_temp_ceiling_c cfg >? TSD_MAX_TEMP_C) then None
    else if (predictive_safety_margin_c cfg <? TSD_MIN_MARGIN_C) ||
            (predictive_safety_margin_c cfg >? TSD_MAX_MARGIN_C) then None
    else if (predictive_emergency_margin_c cfg <? TSD_MIN_MARGIN_C) ||
            (predictive_emergency_margin_c cfg >? TSD_MAX_MARGIN_C) then None
    else if flt (predictive_alpha cfg) f64_zero || flt (f64_of_Z 1) (predictive_alpha cfg) then None
    else Some cfg.

(** The field checks at the top of [validate_generation_config]. *)
Definition generation_fields_ok (cfg : tsd_runtime_config) : bool :=
  negb ((check_interval_us cfg <=? 0) || (down_count cfg <=? 0) || (up_count cfg <=? 0) ||
        negb (isfinite (down_ratio cfg)) || fle (down_ratio cfg) f64_zero ||
        (cooldown_down_ms cfg <? 0) || (cooldown_up_ms cfg <? 0) || (min_dwell_ms cfg <? 0) ||
        (memory_guard_divisor cfg <=? 0) || (degraded_timeout_sec cfg <=? 0) ||
        (telemetry_interval_ms cfg <? 10) || (telemetry_interval_ms cfg >? 60000) ||
        (telemetry_max_skew_ms cfg <? 0) || (telemetry_max_skew_ms cfg >? 60000) ||
        negb (isfinite (telemetry_ewma_alpha cfg)) || flt (telemetry_ewma_alpha cfg) f64_zero ||
        flt (f64_of_Z 1) (telemetry_ewma_alpha cfg) ||
        (predictive_temp_ceiling_c cfg <? 20) || (predictive_temp_ceiling_c cfg >? 125) ||
        (predictive_safety_margin_c cfg <? 0) || (predictive_safety_margin_c cfg >? 60) ||
        (predictive_emergency_margin_c cfg <? 0) || (predictive_emergency_margin_c cfg >? 60) ||
        negb (isfinite (predictive_alpha cfg)) || flt (predictive_alpha cfg) f64_zero ||
        flt (f64_of_Z 1) (predictive_alpha cfg)).

(** [inl errno] is [-1]; [inr cfg] is [0] with the completed copy. *)
Definition validate_generation_config (cfg : tsd_runtime_config) : Z + tsd_runtime_config :=
  if negb (generation_fields_ok cfg) then inl EINVAL
  else
    let scaled := fmul (down_ratio cfg) f64_thousand in
    if (down_ratio_milli cfg =? 0) &&
       (negb (isfinite scaled) || flt scaled (f64_of_Z 1) || flt f64_uint64_max scaled) then inl EINVAL
    else
      let cfg := if down_ratio_milli cfg =? 0
                 then cfg <| down_ratio_milli := f64_to_u64 (fadd scaled f64_half) |> else cfg in
      let cfg := cfg <| policy ::= tsd_policy_config_apply_bounds |> in
      match tsd_runtime_config_refresh_ticks cfg with
      | (Some e, _) => inl (if e =? 0 then EINVAL else e)
      | (None, cfg) => inr cfg
      end.

(** ** Lemmas *)

Lemma saturated_double_ge value : in_int value -> value <= saturated_double_int value <= INT_MAX.
Proof.
  unfold saturated_double_int. intros H. change (INT_MAX / 2) with 1073741823. unfold_int.
  destruct (value <=? 0) eqn:E; zbool; [lia|].
  rewrite Z.gtb_ltb. destruct (1073741823 <? value) eqn:E2; zbool; lia.
Qed.

Lemma refresh_ticks_ok cfg cfg' :
  tsd_runtime_config_refresh_ticks cfg = (None, cfg') ->
  0 < check_interval_us cfg /\ 0 < cooldown_down_ms cfg /\ 0 < cooldown_up_ms cfg /\
  0 < min_dwell_ms cfg /\
  cfg' = cfg <| cooldown_down_ticks := cdiv (cooldown_down_ms cfg * 1000) (check_interval_us cfg) |>
             <| cooldown_up_ticks := cdiv (cooldown_up_ms cfg * 1000) (check_interval_us cfg) |>
             <| min_dwell_ticks := cdiv (min_dwell_ms cfg * 1000) (check_interval_us cfg) |>.
Proof.
  unfold tsd_runtime_config_refresh_ticks.
  destruct (tsd_compute_ticks_from_ms _ (cooldown_down_ms cfg)) as [[?|t1] r1] eqn:E1; [discriminate|].
  cbn -[tsd_compute_ticks_from_ms].
  destruct (tsd_compute_ticks_from_ms _ (cooldown_up_ms cfg)) as [[?|t2] r2] eqn:E2; [discriminate|].
  cbn -[tsd_compute_ticks_from_ms].
  destruct (tsd_compute_ticks_from_ms _ (min_dwell_ms cfg)) as [[?|t3] r3] eqn:E3; [discriminate|].
  intros [= <-].
  apply compute_ticks_ok in E1 as (? & ? & -> & _).
  apply compute_ticks_ok in E2 as (? & ? & -> & _).
  apply compute_ticks_ok in E3 as (? & ? & -> & _).
  done.
Qed.

(** The invariant of a published generation copy. *)
Record generation_valid (cfg : tsd_runtime_config) : Prop := {
  gv_interval : 0 < check_interval_us cfg;
  gv_down : 0 < down_count cfg;
  gv_up : 0 < up_count cfg;
  gv_divisor : 0 < memory_guard_divisor cfg;
  gv_timeout : 0 < degraded_timeout_sec cfg;
  gv_skew : 0 <= telemetry_max_skew_ms cfg <= 60000;
  gv_ceiling : 20 <= predictive_temp_ceiling_c cfg <= 125;
  gv_safety : 0 <= predictive_safety_margin_c cfg <= 60;
  gv_emergency : 0 <= predictive_emergency_margin_c cfg <= 60;
  gv_horizon : forecast_horizon (policy cfg) <> 0;
  gv_down_ticks : cooldown_down_ticks cfg = cdiv (cooldown_down_ms cfg * 1000) (check_interval_us cfg);
  gv_up_ticks : cooldown_up_ticks cfg = cdiv (cooldown_up_ms cfg * 1000) (check_interval_us cfg);
  gv_dwell_ticks : min_dwell_ticks cfg = cdiv (min_dwell_ms cfg * 1000) (check_interval_us cfg);
}.

Lemma apply_bounds_horizon p : forecast_horizon (tsd_policy_config_apply_bounds p) <> 0.
Proof.
  unfold tsd_policy_config_apply_bounds.
  destruct (forecast_horizon p =? 0) eqn:E; zbool; cbn; lia.
Qed.

Lemma validate_generation_valid cfg cfg' :
  validate_generation_config cfg = inr cfg' -> generation_valid cfg'.
Proof.
  unfold validate_generation_config.
  destruct (generation_fields_ok cfg) eqn:Ef; [|discriminate]. cbn [negb].
  destruct (_ && _); [discriminate|].
  set (c1 := if down_ratio_milli cfg =? 0 then _ else cfg).
  set (c2 := c1 <| policy ::= tsd_policy_config_apply_bounds |>).
  destruct (tsd_runtime_config_refresh_ticks c2) as [[e|] c3] eqn:Er; [discriminate|].
  intros [= <-]. apply refresh_ticks_ok in Er as (H1 & H2 & H3 & H4 & ->).
  unfold generation_fields_ok in Ef. apply negb_true_iff in Ef.
  repeat (apply orb_false_iff in Ef as [Ef ?]).
  rewrite ?Z.gtb_ltb in *. zbool.
  destruct (down_ratio_milli cfg =? 0); subst c1 c2; cbn in *;
    constructor; cbn; try lia; apply apply_bounds_horizon.
Qed.

(** ** Properties *)

(** Entering degraded mode only makes the effective policy more
    conservative: fewer throttle events before a downgrade, more stable events
    before an upgrade, longer cooldowns and dwell, and a lower ratio threshold;
    every effective value stays a positive or non-negative [int]. *)
Theorem degraded_more_conservative (cfg : tsd_runtime_config) :
  in_int (down_count cfg) -> in_int (up_count cfg) ->
  in_int (cooldown_down_ms cfg) -> in_int (cooldown_up_ms cfg) -> in_int (min_dwell_ms cfg) ->
  1 <= tsd_runtime_config_effective_down_count true (Some cfg)
    <= tsd_runtime_config_effective_down_count false (Some cfg) /\
  1 <= tsd_runtime_config_effective_up_count false (Some cfg)
    <= tsd_runtime_config_effective_up_count true (Some cfg) /\
  tsd_runtime_config_effective_up_count true (Some cfg) <= INT_MAX /\
  0 <= tsd_runtime_config_effective_cooldown_down_ms false (Some cfg)
    <= tsd_runtime_config_effective_cooldown_down_ms true (Some cfg) /\
  tsd_runtime_config_effective_cooldown_down_ms true (Some cfg) <= INT_MAX /\
  0 <= tsd_runtime_config_effective_cooldown_up_ms false (Some cfg)
    <= tsd_runtime_config_effective_cooldown_up_ms true (Some cfg) /\
  tsd_runtime_config_effective_cooldown_up_ms true (Some cfg) <= INT_MAX /\
  0 <= tsd_runtime_config_effective_min_dwell_ms false (Some cfg)
    <= tsd_runtime_config_effective_min_dwell_ms true (Some cfg) /\
  tsd_runtime_config_effective_min_dwell_ms true (Some cfg) <= INT_MAX /\
  tsd_runtime_config_effective_down_ratio_milli true (Some cfg)
    <= tsd_runtime_config_effective_down_ratio_milli false (Some cfg).
Proof.
  intros H1 H2 H3 H4 H5.
  pose proof (saturated_double_ge _ H3). pose proof (saturated_double_ge _ H4).
  unfold_int. cbn. rewrite !Z.gtb_ltb.
  repeat split; repeat case_if; rewrite ?Z.gtb_ltb in *; zbool; lia.
Qed.

Lemma degraded_more_conservative_witness :
  1 <= tsd_runtime_config_effective_down_count true (Some tsd_runtime_config_set_defaults)
    <= tsd_runtime_config_effective_down_count false (Some tsd_runtime_config_set_defaults) /\
  tsd_runtime_config_effective_cooldown_up_ms true (Some tsd_runtime_config_set_defaults) = 4000.
Proof.
  split; [|reflexivity].
  refine (proj1 (degraded_more_conservative tsd_runtime_config_set_defaults _ _ _ _ _));
    vm_compute; intuition discriminate.
Defined.

(** A configuration that [validate_generation_config] accepts is
    well formed: positive interval and counts, temperature limits in the ranges
    the guard assumes, a non-zero forecast horizon, and tick fields equal to the
    ceiling of their times over the check interval. *)
Theorem accepted_generation_is_valid (cfg cfg' : tsd_runtime_config) :
  validate_generation_config cfg = inr cfg' -> generation_valid cfg'.
Proof. apply validate_generation_valid. Qed.

Definition generation_of_defaults : tsd_runtime_config :=
  tsd_runtime_config_set_defaults <| cooldown_down_ticks := 20 |> <| cooldown_up_ticks := 40 |>
    <| min_dwell_ticks := 4 |>.

Lemma accepted_generation_is_valid_witness : generation_valid generation_of_defaults.
Proof. apply (accepted_generation_is_valid tsd_runtime_config_set_defaults). vm_compute. reflexivity. Defined.

(** A cooldown or dwell time of zero passes the field checks of
    [validate_generation_config] (they only reject negative times), and is then
    refused by the tick refresh with [ERANGE], although [runtime.h] documents
    [EINVAL] for every invalid configuration. *)
Theorem zero_time_rejected_with_erange (cfg : tsd_runtime_config) :
  generation_fields_ok cfg = true -> down_ratio_milli cfg <> 0 ->
  cooldown_down_ms cfg = 0 -> validate_generation_config cfg = inl ERANGE.
Proof.
  intros Hf Hr Hz. unfold validate_generation_config. rewrite Hf. cbn [negb].
  rewrite (proj2 (Z.eqb_neq _ 0) Hr). cbn [andb].
  assert (Hi : 0 < check_interval_us cfg).
  { unfold generation_fields_ok in Hf. apply negb_true_iff in Hf.
    repeat (apply orb_false_iff in Hf as [Hf ?]). zbool. lia. }
  unfold tsd_runtime_config_refresh_ticks. cbn -[tsd_compute_ticks_from_ms].
  rewrite Hz. unfold tsd_compute_ticks_from_ms.
  rewrite (proj2 (Z.leb_gt _ _) Hi). cbn [Z.ltb Z.compare].
  rewrite compute_ticks_value by lia. unfold cdiv. cbn. rewrite Z.div_0_l by lia. done.
Qed.

Lemma zero_time_rejected_with_erange_witness :
  validate_generation_config (tsd_runtime_config_set_defaults <| cooldown_down_ms := 0 |>) = inl ERANGE.
Proof.
  apply (zero_time_rejected_with_erange (tsd_runtime_config_set_defaults <| cooldown_down_ms := 0 |>));
    [vm_compute; reflexivity | cbn; lia | reflexivity].
Defined.
