(* ===== verification/Jsmn.v ===== *)
(** * Jsmn: the JSON tokenizer of [src/src/third_party/jsmn.c]

    A parser position, the next free token and the enclosing container, over a
    fixed token array.  Text is a list of characters; positions are [nat], which
    is exact for inputs below 2^31 bytes, where the C [unsigned int] and [int]
    fields hold them.  The token array is never null here. *)
From S2P Require Import Prelude Float64.
From Stdlib Require Import Ascii.
#[local] Open Scope Z_scope.

Inductive jsmntype_t : Type :=
  | JSMN_UNDEFINED | JSMN_OBJECT | JSMN_ARRAY | JSMN_STRING | JSMN_PRIMITIVE.
#[export] Instance jsmntype_eq_dec : EqDecision jsmntype_t.
Proof. solve_decision. Defined.

Definition JSMN_ERROR_NOMEM : Z := -1.
Definition JSMN_ERROR_INVAL : Z := -2.
Definition JSMN_ERROR_PART : Z := -3.

Record jsmntok_t : Type := mkTok {
  tok_type : jsmntype_t;
  tok_start : Z;
  tok_end : Z;
  tok_size : Z;
  tok_parent : Z;
}.
#[export] Instance eta_tok : Eta jsmntok_t := fun t =>
  mkTok (tok_type t) (tok_start t) (tok_end t) (tok_size t) (tok_parent t).

(** An entry of a [calloc]ed array. *)
Definition zero_tok : jsmntok_t := mkTok JSMN_UNDEFINED 0 0 0 0.

(** [jsmn_parser] with the array it fills. *)
Record jsmn_parser : Type := mkParser {
  pos : nat;
  toknext : nat;
  toksuper : Z;
  tokens : list jsmntok_t;
}.
#[export] Instance eta_parser : Eta jsmn_parser := fun p => mkParser (pos p) (toknext p) (toksuper p) (tokens p).

Definition jsmn_init (ts : list jsmntok_t) : jsmn_parser := mkParser 0 0 (-1) ts.

(** The index of a fresh token. *)
Definition jsmn_alloc_token (p : jsmn_parser) : option (nat * jsmn_parser) :=
  if Nat.leb (length (tokens p)) (toknext p) then None
  else Some (toknext p,
             p <| toknext ::= S |>
               <| tokens ::= alter (fun t => t <| tok_start := -1 |> <| tok_end := -1 |> <| tok_size := 0 |>
                                               <| tok_parent := -1 |>) (toknext p) |>).

Definition jsmn_fill_token (i : nat) (type : jsmntype_t) (start stop : nat) (p : jsmn_parser) : jsmn_parser :=
  p <| tokens ::= alter (fun t => t <| tok_type := type |> <| tok_start := Z.of_nat start |>
                                    <| tok_end := Z.of_nat stop |> <| tok_size := 0 |>) i |>.

(** [token->parent = parser->toksuper] *)
Definition link_parent (i : nat) (p : jsmn_parser) : jsmn_parser :=
  p <| tokens ::= alter (fun t => t <| tok_parent := toksuper p |>) i |>.

Definition ends_primitive (c : ascii) : bool :=
  existsb (Z.eqb (code c)) [9; 13; 10; 32; 44; 93; 125].

(** The position of the character that ends a primitive, or the error. *)
Fixpoint primitive_scan (rest : list ascii) (at_ : nat) : Z + nat :=
  match rest with
  | [] => inl JSMN_ERROR_PART
  | c :: rest =>
      if ends_primitive c then inr at_
      else if (code c <? 32) || (code c >=? 127) then inl JSMN_ERROR_INVAL
      else primitive_scan rest (S at_)
  end.

Definition jsmn_parse_primitive (js : list ascii) (p : jsmn_parser) : Z * jsmn_parser :=
  match primitive_scan (drop (pos p) js) (pos p) with
  | inl e => (e, p)
  | inr stop =>
      match jsmn_alloc_token p with
      | None => (JSMN_ERROR_NOMEM, p)
      | Some (i, q) =>
          (0, (link_parent i (jsmn_fill_token i JSMN_PRIMITIVE (pos p) stop q)) <| pos := Nat.pred stop |>)
      end
  end.

(** [esc] after a backslash: one of the eight single-character escapes. *)
Definition simple_escape (c : ascii) : bool :=
  existsb (Z.eqb (code c)) [34; 47; 92; 98; 102; 114; 110; 116].

(** The position of the closing quote, or the error. *)
Fixpoint string_scan (rest : list ascii) (at_ : nat) : Z + nat :=
  match rest with
  | [] => inl JSMN_ERROR_PART
  | c :: rest =>
      if code c =? 34 then inr at_
      else
        match rest with
        | esc :: rest' =>
            if code c =? 92 then
              if simple_escape esc then string_scan rest' (at_ + 2)%nat
              else
                match rest' with
                | _ :: _ :: _ :: _ :: rest'' =>
                    if code esc =? 117 then string_scan rest'' (at_ + 6)%nat else inl JSMN_ERROR_INVAL
                | _ => inl JSMN_ERROR_INVAL
                end
            else string_scan rest (S at_)
        | [] => inl JSMN_ERROR_PART
        end
  end.

Definition jsmn_parse_string (js : list ascii) (p : jsmn_parser) : Z * jsmn_parser :=
  match string_scan (drop (S (pos p)) js) (S (pos p)) with
  | inl e => (e, p)
  | inr stop =>
      match jsmn_alloc_token p with
      | None => (JSMN_ERROR_NOMEM, p)
      | Some (i, q) =>
          (0, (link_parent i (jsmn_fill_token i JSMN_STRING (S (pos p)) stop q)) <| pos := stop |>)
      end
  end.

Definition is_open (t : jsmntok_t) : bool := negb (tok_start t =? -1) && (tok_end t =? -1).

(** The last open token below [n]. *)
Fixpoint last_open (ts : list jsmntok_t) (n : nat) : option nat :=
  match n with
  | O => None
  | S i => match ts !! i with
           | Some t => if is_open t then Some i else last_open ts i
           | None => last_open ts i
           end
  end.

(** [case '\{': case '[':] *)
Definition jsmn_open (type : jsmntype_t) (p : jsmn_parser) : Z * jsmn_parser :=
  match jsmn_alloc_token p with
  | None => (JSMN_ERROR_NOMEM, p)
  | Some (i, q) =>
      let q := q <| tokens ::= alter (fun t => t <| tok_type := type |> <| tok_start := Z.of_nat (pos p) |>) i |> in
      (0, (link_parent i q) <| toksuper := Z.of_nat (toknext q) - 1 |>)
  end.

(** [case '\}': case ']':] *)
Definition jsmn_close (type : jsmntype_t) (p : jsmn_parser) : Z * jsmn_parser :=
  match last_open (tokens p) (toknext p) with
  | None => (0, p)
  | Some i =>
      let t := default zero_tok (tokens p !! i) in
      if decide (tok_type t = type) then
        (0, p <| tokens ::= alter (fun t => t <| tok_end := Z.of_nat (pos p) + 1 |>) i |> <| toksuper := tok_parent t |>)
      else (JSMN_ERROR_INVAL, p)
  end.

(** [tokens[parser->toksuper].size++] *)
Definition bump_size (r : Z * jsmn_parser) : Z * jsmn_parser :=
  let '(rc, p) := r in
  if rc <? 0 then r
  else if toksuper p =? -1 then r
  else (rc, p <| tokens ::= alter (fun t => t <| tok_size ::= fun n => n + 1 |>) (Z.to_nat (toksuper p)) |>).

(** One pass of the [switch]: whether the token count grows, and its result. *)
Definition jsmn_step (js : list ascii) (c : ascii) (p : jsmn_parser) : bool * (Z * jsmn_parser) :=
  let n := code c in
  if n =? 123 then (true, jsmn_open JSMN_OBJECT p)
  else if n =? 91 then (true, jsmn_open JSMN_ARRAY p)
  else if n =? 125 then (false, jsmn_close JSMN_OBJECT p)
  else if n =? 93 then (false, jsmn_close JSMN_ARRAY p)
  else if n =? 34 then (true, bump_size (jsmn_parse_string js p))
  else if existsb (Z.eqb n) [9; 13; 10; 32; 58; 44] then (false, (0, p))
  else (true, bump_size (jsmn_parse_primitive js p)).

(** [None]: out of fuel. *)
Fixpoint jsmn_loop (fuel : nat) (js : list ascii) (count : Z) (p : jsmn_parser) : option (Z * jsmn_parser) :=
  match fuel with
  | O => None
  | S fuel =>
      match js !! pos p with
      | None => Some (match last_open (tokens p) (toknext p) with Some _ => JSMN_ERROR_PART | None => count end, p)
      | Some c =>
          let '(counted, (rc, p)) := jsmn_step js c p in
          if rc <? 0 then Some (rc, p)
          else jsmn_loop fuel js (if counted then count + 1 else count) (p <| pos ::= S |>)
      end
  end.

(** One unit of fuel per character and one for the end. *)
Definition jsmn_parse (js : list ascii) (ts : list jsmntok_t) : option (Z * jsmn_parser) :=
  jsmn_loop (S (length js)) js 0 (jsmn_init ts).

(** ** Scans stay inside the text *)

Lemma primitive_scan_bounds rest at_ stop :
  primitive_scan rest at_ = inr stop -> (at_ <= stop < at_ + length rest)%nat.
Proof.
  revert at_. induction rest as [|c rest IH]; intros at_; cbn [primitive_scan]; [done|].
  repeat case_if; [intros [= <-]; cbn; lia | done | intros H; apply IH in H; cbn; lia].
Qed.

Lemma primitive_scan_progress c rest at_ stop :
  ends_primitive c = false -> primitive_scan (c :: rest) at_ = inr stop -> (at_ < stop)%nat.
Proof.
  intros Hc. cbn [primitive_scan]. rewrite Hc. case_if; [done|]. intros H. apply primitive_scan_bounds in H. lia.
Qed.

Lemma string_scan_bounds rest at_ stop :
  string_scan rest at_ = inr stop -> (at_ <= stop < at_ + length rest)%nat.
Proof.
  remember (length rest) as n eqn:Hn. revert rest at_ Hn. induction n as [n IH] using lt_wf_ind. intros rest at_ Hn.
  destruct rest as [|c rest]; cbn [string_scan]; [done|]. cbn in Hn. destruct (code c =? 34); [intros [= <-]; lia|].
  destruct rest as [|esc rest]; [done|]. cbn in Hn. destruct (code c =? 92).
  - destruct (simple_escape esc); [intros H; apply (IH (length rest)) in H; lia|].
    destruct rest as [|? [|? [|? [|? rest]]]]; try done. destruct (code esc =? 117); [|done]. cbn in Hn.
    intros H. apply (IH (length rest)) in H; lia.
  - intros H. apply (IH (S (length rest))) in H; cbn in *; lia.
Qed.

(** A scan fails for want of text or on a bad character, never for memory. *)
Lemma primitive_scan_error rest at_ e : primitive_scan rest at_ = inl e -> e < 0 /\ e <> JSMN_ERROR_NOMEM.
Proof.
  revert at_. induction rest as [|c rest IH]; intros at_; cbn [primitive_scan]; [intros [= <-]; done|].
  destruct (ends_primitive c); [done|]. destruct (_ || _); [intros [= <-]; done | apply IH].
Qed.

Lemma string_scan_error rest at_ e : string_scan rest at_ = inl e -> e < 0 /\ e <> JSMN_ERROR_NOMEM.
Proof.
  remember (length rest) as n eqn:Hn. revert rest at_ Hn. induction n as [n IH] using lt_wf_ind. intros rest at_ Hn.
  destruct rest as [|c rest]; cbn [string_scan]; [intros [= <-]; done|]. cbn in Hn. destruct (code c =? 34); [done|].
  destruct rest as [|esc rest]; [intros [= <-]; done|]. cbn in Hn. destruct (code c =? 92).
  - destruct (simple_escape esc); [apply (IH (length rest)); lia|].
    destruct rest as [|? [|? [|? [|? rest]]]]; try (intros [= <-]; done).
    destruct (code esc =? 117); [|intros [= <-]; done]. cbn in Hn. apply (IH (length rest)); lia.
  - apply (IH (S (length rest))); cbn in *; lia.
Qed.

(** ** The token invariant *)

Section tokens.
Context (js : list ascii).

(** A token written while [done] characters were read: inside the text, linked
    to an earlier token, and still open or complete. *)
Definition tok_ok (done i : nat) (t : jsmntok_t) : Prop :=
  0 <= tok_start t /\ 0 <= tok_size t /\ -1 <= tok_parent t < Z.of_nat i /\ tok_type t <> JSMN_UNDEFINED /\
  ((tok_end t = -1 /\ tok_start t < Z.of_nat done) \/ tok_start t <= tok_end t <= Z.of_nat (length js)).

(** Written tokens are good, the rest of the array is as allocated. *)
Definition tokens_ok (done used : nat) (ts : list jsmntok_t) : Prop :=
  forall i t, ts !! i = Some t -> if decide (i < used)%nat then tok_ok done i t else t = zero_tok.

Record parser_ok (n done : nat) (p : jsmn_parser) : Prop := {
  po_length : length (tokens p) = n;
  po_next : (toknext p <= n)%nat;
  po_super : -1 <= toksuper p < Z.of_nat (toknext p);
  po_tokens : tokens_ok done (toknext p) (tokens p);
}.

Lemma tok_ok_later done done' i t : (done <= done')%nat -> tok_ok done i t -> tok_ok done' i t.
Proof. intros Hd (A & B & C & D & F). unfold tok_ok. split_and!; try done; lia. Qed.

Lemma parser_ok_later n done done' p : (done <= done')%nat -> parser_ok n done p -> parser_ok n done' p.
Proof.
  intros Hd [A B C D]. split; try done. intros i t Hi. specialize (D i t Hi). case_match; [by eapply tok_ok_later | done].
Qed.

Lemma tokens_ok_alter done used ts i f :
  tokens_ok done used ts -> (i < used)%nat -> (forall t, tok_ok done i t -> tok_ok done i (f t)) -> tokens_ok done used (alter f i ts).
Proof.
  intros H Hi Hf j t Hj. destruct (decide (i = j)) as [<-|Hne].
  - rewrite list_lookup_alter_eq in Hj. destruct (ts !! i) as [t0|] eqn:E; [|done]. injection Hj as <-.
    specialize (H i t0 E). destruct (decide (i < used)%nat); [by apply Hf | lia].
  - rewrite list_lookup_alter_ne in Hj by done. by apply H.
Qed.

(** Writing the next token. *)
Lemma tokens_ok_next done used ts f :
  tokens_ok done used ts -> tok_ok done used (f zero_tok) -> tokens_ok done (S used) (alter f used ts).
Proof.
  intros H Hf j t Hj. destruct (decide (used = j)) as [<-|Hne].
  - rewrite list_lookup_alter_eq in Hj. destruct (ts !! used) as [t0|] eqn:E; [|done]. injection Hj as <-.
    specialize (H used t0 E). destruct (decide (used < used)%nat); [lia|]. subst t0. by destruct (decide (used < S used)%nat); [|lia].
  - rewrite list_lookup_alter_ne in Hj by done. specialize (H j t Hj).
    destruct (decide (j < used)%nat), (decide (j < S used)%nat); try done; lia.
Qed.

(** A complete token in one go: allocated, filled and linked. *)
Lemma alloc_fill n done p i q type start stop :
  parser_ok n done p -> jsmn_alloc_token p = Some (i, q) -> type <> JSMN_UNDEFINED -> (start <= stop <= length js)%nat ->
  parser_ok n done (link_parent i (jsmn_fill_token i type start stop q)) /\ toknext q = S (toknext p).
Proof.
  intros [H1 H2 H3 H4] Ha Ht Hb. unfold jsmn_alloc_token in Ha. destruct (Nat.leb_spec (length (tokens p)) (toknext p)); [done|].
  injection Ha as <- <-. split; [|done].
  split; cbn; [by rewrite !length_alter | lia | lia |]. rewrite !list_alter_alter_eq. apply tokens_ok_next; [done|].
  cbn. unfold tok_ok. cbn. split_and!; try lia; try done.
Qed.

Lemma alloc_open n done p i q type :
  parser_ok n done p -> jsmn_alloc_token p = Some (i, q) -> type <> JSMN_UNDEFINED -> (pos p < done)%nat ->
  parser_ok n done (jsmn_open type p).2 /\ toknext (jsmn_open type p).2 = S (toknext p) /\ pos (jsmn_open type p).2 = pos p.
Proof.
  intros [H1 H2 H3 H4] Ha Ht Hb. unfold jsmn_open. rewrite Ha. unfold jsmn_alloc_token in Ha.
  destruct (Nat.leb_spec (length (tokens p)) (toknext p)); [done|]. injection Ha as <- <-. split; [|done].
  split; cbn; [by rewrite !length_alter | lia | lia |]. rewrite !list_alter_alter_eq. apply tokens_ok_next; [done|].
  cbn. unfold tok_ok. cbn. split_and!; try lia; try done.
Qed.

Lemma last_open_spec ts n i :
  last_open ts n = Some i -> (i < n)%nat /\ exists t, ts !! i = Some t /\ is_open t = true.
Proof.
  induction n as [|n IH]; cbn [last_open]; [done|]. destruct (ts !! n) as [t|] eqn:E.
  - destruct (is_open t) eqn:Eo; [intros [= <-]; split; [lia | by exists t]|]. intros H. destruct (IH H). split; [lia | done].
  - intros H. destruct (IH H). split; [lia | done].
Qed.

Lemma last_open_none ts n i t : last_open ts n = None -> (i < n)%nat -> ts !! i = Some t -> is_open t = false.
Proof.
  induction n as [|n IH]; cbn [last_open]; [lia|]. intros H Hi Ht. destruct (decide (i = n)) as [->|Hne].
  - rewrite Ht in H. by destruct (is_open t).
  - assert (Hn : last_open ts n = None) by (destruct (ts !! n) as [t'|]; [by destruct (is_open t') | done]). apply IH; [done | lia | done].
Qed.

(** What one pass of the switch does: an error, or progress. *)
Definition step_post (n : nat) (p : jsmn_parser) (counted : bool) (rc : Z) (q : jsmn_parser) : Prop :=
  (rc < 0 /\ (rc = JSMN_ERROR_NOMEM -> (n <= toknext p)%nat)) \/
  (rc = 0 /\ parser_ok n (S (pos q)) q /\ (pos p <= pos q < length js)%nat /\ toknext q = (toknext p + if counted then 1 else 0)%nat).

Lemma alloc_none n done p : parser_ok n done p -> jsmn_alloc_token p = None -> (n <= toknext p)%nat.
Proof. intros [H1 _ _ _]. unfold jsmn_alloc_token. destruct (Nat.leb_spec (length (tokens p)) (toknext p)); [by rewrite <- H1 | done]. Qed.

Lemma bump_ok n p rc q :
  step_post n p true rc q -> step_post n p true (bump_size (rc, q)).1 (bump_size (rc, q)).2.
Proof.
  intros [(Hr & Hn)|(-> & [H1 H2 H3 H4] & Hp & Ht)]; unfold bump_size; [rewrite (proj2 (Z.ltb_lt _ _) Hr); by left|].
  cbn [Z.ltb Z.compare]. destruct (toksuper q =? -1) eqn:E; zbool; right; (split; [done|]).
  - split; [by split | done].
  - split; [|done]. split; cbn; [by rewrite length_alter | done | done |]. apply tokens_ok_alter; [done | lia |].
    intros t (A & B & C & D & F). unfold tok_ok. cbn. split_and!; try done; lia.
Qed.

Lemma primitive_ok n p c :
  parser_ok n (pos p) p -> js !! pos p = Some c -> ends_primitive c = false ->
  step_post n p true (jsmn_parse_primitive js p).1 (jsmn_parse_primitive js p).2.
Proof.
  intros Hp Hc He. unfold jsmn_parse_primitive. pose proof (lookup_lt_Some _ _ _ Hc) as Hlt.
  rewrite (drop_S _ _ _ Hc). destruct (primitive_scan (c :: drop (S (pos p)) js) (pos p)) as [e|stop] eqn:Es.
  - apply primitive_scan_error in Es as [He' Hm]. left. by split.
  - pose proof (primitive_scan_progress _ _ _ _ He Es) as Hs. apply primitive_scan_bounds in Es. cbn [length] in Es. rewrite length_drop in Es.
    destruct (jsmn_alloc_token p) as [[i q]|] eqn:Ea; [|left; split; [done | intros _; by eapply alloc_none]].
    destruct (alloc_fill n (pos p) p i q JSMN_PRIMITIVE (pos p) stop Hp Ea) as [Hq Ht]; [done | lia |].
    right. cbn [fst snd]. split; [done|]. split; [apply (parser_ok_later n (pos p)); [cbn; lia | by destruct Hq]|]. split; [cbn; lia|]. change (toknext q = (toknext p + 1)%nat). lia.
Qed.

Lemma string_ok n p :
  parser_ok n (pos p) p -> (pos p < length js)%nat -> step_post n p true (jsmn_parse_string js p).1 (jsmn_parse_string js p).2.
Proof.
  intros Hp Hlt. unfold jsmn_parse_string. destruct (string_scan (drop (S (pos p)) js) (S (pos p))) as [e|stop] eqn:Es.
  - apply string_scan_error in Es as [He' Hm]. left. by split.
  - apply string_scan_bounds in Es. rewrite length_drop in Es.
    destruct (jsmn_alloc_token p) as [[i q]|] eqn:Ea; [|left; split; [done | intros _; by eapply alloc_none]].
    destruct (alloc_fill n (pos p) p i q JSMN_STRING (S (pos p)) stop Hp Ea) as [Hq Ht]; [done | lia |].
    right. cbn [fst snd]. split; [done|]. split; [apply (parser_ok_later n (pos p)); [cbn; lia | by destruct Hq]|]. split; [cbn; lia|]. change (toknext q = (toknext p + 1)%nat). lia.
Qed.

Lemma open_ok n p type :
  parser_ok n (pos p) p -> (pos p < length js)%nat -> type <> JSMN_UNDEFINED ->
  step_post n p true (jsmn_open type p).1 (jsmn_open type p).2.
Proof.
  intros Hp Hlt Ht. destruct (jsmn_alloc_token p) as [[i q]|] eqn:Ea.
  - apply (parser_ok_later n _ (S (pos p))) in Hp; [|lia]. destruct (alloc_open n _ p i q type Hp Ea Ht ltac:(lia)) as (A & B & C). right.
    assert (E : (jsmn_open type p).1 = 0) by (unfold jsmn_open; by rewrite Ea). split; [done|]. rewrite C. split; [done|]. rewrite B. lia.
  - left. unfold jsmn_open. rewrite Ea. split; [done | intros _; by eapply alloc_none].
Qed.

Lemma close_ok n p type :
  parser_ok n (pos p) p -> (pos p < length js)%nat -> step_post n p false (jsmn_close type p).1 (jsmn_close type p).2.
Proof.
  intros [H1 H2 H3 H4] Hlt. unfold jsmn_close. destruct (last_open (tokens p) (toknext p)) as [i|] eqn:El.
  2: { right. split; [done|]. split; [by apply (parser_ok_later n (pos p)); [cbn; lia|]|]. split; [cbn; lia | cbn; lia]. }
  apply last_open_spec in El as (Hi & t & Ht & Ho). rewrite Ht. cbn [from_option id]. cbv zeta.
  destruct (decide (tok_type t = type)) as [_|]; [|left; split; [reflexivity | discriminate]].
  pose proof (H4 i t Ht) as Hok. destruct (decide (i < toknext p)%nat); [|lia]. destruct Hok as (A & B & C & D & F).
  right. cbn [fst snd]. split; [done|]. split; [|cbn; lia]. split; cbn; [by rewrite length_alter | done | lia |].
  intros j t' Hj. destruct (decide (i = j)) as [<-|Hne].
  - rewrite list_lookup_alter_eq, Ht in Hj. injection Hj as <-. destruct (decide (i < toknext p)%nat); [|lia].
    unfold is_open in Ho. apply andb_true_iff in Ho as [_ Ho]. zbool. unfold tok_ok. cbn. split_and!; try done; try lia.
  - rewrite list_lookup_alter_ne in Hj by done. specialize (H4 j t' Hj). case_match; [by eapply (tok_ok_later (pos p)); [lia|] | done].
Qed.

Lemma step_ok n p c :
  parser_ok n (pos p) p -> js !! pos p = Some c ->
  step_post n p (jsmn_step js c p).1 (jsmn_step js c p).2.1 (jsmn_step js c p).2.2.
Proof.
  intros Hp Hc. pose proof (lookup_lt_Some _ _ _ Hc) as Hlt. unfold jsmn_step.
  destruct (code c =? 123) eqn:E1; [by apply open_ok|]. destruct (code c =? 91) eqn:E2; [by apply open_ok|].
  destruct (code c =? 125) eqn:E3; [by apply close_ok|]. destruct (code c =? 93) eqn:E4; [by apply close_ok|].
  destruct (code c =? 34) eqn:E5.
  { pose proof (string_ok n p Hp Hlt) as H. cbn [fst snd]. destruct (jsmn_parse_string js p). by apply bump_ok. }
  destruct (existsb _ _) eqn:E6; cbn [fst snd].
  - right. split; [done|]. split; [by apply (parser_ok_later n (pos p)); [lia|]|]. split; lia.
  - assert (He : ends_primitive c = false).
    { unfold ends_primitive. cbn [existsb] in *. rewrite !orb_false_iff in *. intuition. }
    pose proof (primitive_ok n p c Hp Hc He) as H. destruct (jsmn_parse_primitive js p). by apply bump_ok.
Qed.

(** The tokens of a successful parse. *)
Definition parsed (n : nat) (rc : Z) (ts : list jsmntok_t) : Prop :=
  length ts = n /\ 0 <= rc <= Z.of_nat n /\
  forall i t, ts !! i = Some t ->
    if Z.of_nat i <? rc
    then 0 <= tok_start t <= tok_end t /\ tok_end t <= Z.of_nat (length js) /\ 0 <= tok_size t /\
         -1 <= tok_parent t < Z.of_nat i /\ tok_type t <> JSMN_UNDEFINED
    else t = zero_tok.

Lemma parsed_of_parser n p :
  parser_ok n (pos p) p -> last_open (tokens p) (toknext p) = None -> parsed n (Z.of_nat (toknext p)) (tokens p).
Proof.
  intros [H1 H2 H3 H4] Hl. split; [done|]. split; [lia|]. intros i t Hi. specialize (H4 i t Hi).
  destruct (decide (i < toknext p)%nat) as [Hlt|Hge]; [|by rewrite (proj2 (Z.ltb_ge _ _)) by lia].
  rewrite (proj2 (Z.ltb_lt _ _)) by lia. pose proof (last_open_none _ _ i t Hl Hlt Hi) as Ho. destruct H4 as (A & B & C & D & F).
  destruct F as [[F _]|F]; [|split_and!; try done; lia]. unfold is_open in Ho. rewrite F, Z.eqb_refl in Ho.
  rewrite andb_true_r in Ho. apply negb_false_iff in Ho. zbool. lia.
Qed.

Lemma loop_ok fuel n p :
  parser_ok n (pos p) p -> (toknext p <= pos p <= length js)%nat -> (length js < fuel + pos p)%nat ->
  exists rc q, jsmn_loop fuel js (Z.of_nat (toknext p)) p = Some (rc, q) /\
    ((rc < 0 /\ (rc = JSMN_ERROR_NOMEM -> (n < length js)%nat)) \/ (parsed n rc (tokens q) /\ toknext q = Z.to_nat rc)).
Proof.
  revert p. induction fuel as [|fuel IH]; intros p Hp Hb Hf; [lia|]. cbn [jsmn_loop].
  destruct (js !! pos p) as [c|] eqn:Hc.
  2: { eexists _, _. split; [done|]. destruct (last_open (tokens p) (toknext p)) eqn:El; [by left|].
       right. split; [by apply parsed_of_parser | lia]. }
  pose proof (step_ok n p c Hp Hc) as H. pose proof (lookup_lt_Some _ _ _ Hc) as Hlt.
  destruct (jsmn_step js c p) as [counted [rc q]]. cbn [fst snd] in H. destruct H as [(Hr & Hn)|(-> & Hq & Hs & Ht)].
  - rewrite (proj2 (Z.ltb_lt _ _) Hr). eexists _, _. split; [done|]. left. split; [done|]. intros E. specialize (Hn E). lia.
  - cbn [Z.ltb Z.compare].
    replace (if counted then Z.of_nat (toknext p) + 1 else Z.of_nat (toknext p)) with (Z.of_nat (toknext (q <| pos ::= S |>)))
      by (cbn; rewrite Ht; destruct counted; lia).
    apply IH; cbn; [by destruct Hq | destruct counted; lia | lia].
Qed.

Lemma parse_ok n :
  exists rc q, jsmn_parse js (replicate n zero_tok) = Some (rc, q) /\
    ((rc < 0 /\ (rc = JSMN_ERROR_NOMEM -> (n < length js)%nat)) \/ (parsed n rc (tokens q) /\ toknext q = Z.to_nat rc)).
Proof.
  apply (loop_ok _ n (jsmn_init (replicate n zero_tok))); cbn; [|lia..]. split; cbn; [by rewrite length_replicate | lia | lia|].
  intros i t Hi. apply lookup_replicate in Hi as [-> _]. by destruct (decide (i < 0)%nat); [lia|].
Qed.
End tokens.

(** ** Properties *)

