(* ===== verification/ConfigFile.v ===== *)
(** * ConfigFile: the JSON configuration file of [src/src/thermal_config.c]

    Reading values from the tokens of [Jsmn], the six object parsers and
    [parse_config_file] with its token array that doubles until the text fits.
    The file's contents (or the failure to read them) and the success of each
    allocation are arguments.  An access outside the token array is an outcome of
    its own, so that memory safety is a statement about outcomes; a failed load
    makes the caller exit, so the fields it had already written are not kept. *)
From S2P Require Import Prelude Float64 ConfigParser Config Jsmn.
From Stdlib Require Import SpecFloat Ascii String.
#[local] Open Scope string_scope.
#[local] Open Scope Z_scope.

(** The outcome of a reader: the C result [-1], a read past the token array, a
    loop that ran out of fuel, or a value. *)
Inductive jres (A : Type) : Type := JFail | JOverrun | JStuck | JDone (a : A).
Arguments JFail {A}.
Arguments JOverrun {A}.
Arguments JStuck {A}.
Arguments JDone {A} a.

#[export] Instance jres_ret : MRet jres := fun A a => JDone a.
#[export] Instance jres_bind : MBind jres := fun A B k m =>
  match m with JFail => JFail | JOverrun => JOverrun | JStuck => JStuck | JDone a => k a end.

(** [-1] or a value, with nothing to go wrong in between. *)
Definition or_fail {A} (o : option A) : jres A := match o with Some a => JDone a | None => JFail end.

(** [strncmp(a, b, n) == 0]: both end together, or agree on [n] characters. *)
Fixpoint strneq (a b : string) (n : nat) : bool :=
  match n with
  | O => true
  | S n =>
      match a, b with
      | "", "" => true
      | String x a, String y b => Ascii.eqb x y && strneq a b n
      | _, _ => false
      end
  end.

(** The C string a byte sequence holds: everything before the first NUL. *)
Fixpoint c_string (bytes : list ascii) : string :=
  match bytes with
  | [] => ""
  | c :: bytes => if code c =? 0 then "" else String c (c_string bytes)
  end.

Section reader.
(** The text, the token array and the number of tokens in use. *)
Context (json : list ascii) (ts : list jsmntok_t) (token_count : nat).

(** [tokens[i]] *)
Definition token_at (i : nat) : jres jsmntok_t := match ts !! i with Some t => JDone t | None => JOverrun end.

Definition tok_len (t : jsmntok_t) : nat := Z.to_nat (tok_end t - tok_start t).
Definition tok_text (t : jsmntok_t) : list ascii := take (tok_len t) (drop (Z.to_nat (tok_start t)) json).

Definition json_token_equals (t : jsmntok_t) (text : string) : bool :=
  bool_decide (tok_type t = JSMN_STRING) && Nat.eqb (String.length text) (tok_len t) &&
  strneq (string_of_list_ascii (drop (Z.to_nat (tok_start t)) json)) text (tok_len t).

Definition is_container (t : jsmntok_t) : bool :=
  match tok_type t with JSMN_PRIMITIVE | JSMN_STRING | JSMN_UNDEFINED => false | _ => true end.

(** [json_skip] and its loop; [None] is out of fuel. *)
Fixpoint json_skip_from (fuel index : nat) : option nat :=
  match fuel with
  | O => None
  | S fuel =>
      if Nat.leb token_count index then Some index
      else if is_container (default zero_tok (ts !! index)) then skip_children fuel index (S index)
      else Some (S index)
  end
with skip_children (fuel index cursor : nat) : option nat :=
  match fuel with
  | O => None
  | S fuel =>
      if Nat.ltb cursor token_count && (tok_parent (default zero_tok (ts !! cursor)) >=? Z.of_nat index) then
        match json_skip_from fuel cursor with
        | Some cursor => skip_children fuel index cursor
        | None => None
        end
      else Some cursor
  end.

(** Two units per token left, and one to look at the end. *)
Definition json_skip (index : nat) : jres nat :=
  match json_skip_from (S (2 * token_count)) index with Some n => JDone n | None => JStuck end.

Definition json_token_to_string (t : jsmntok_t) (dest_size : nat) : option string :=
  if negb (bool_decide (tok_type t = JSMN_STRING)) then None
  else if Nat.leb dest_size (tok_len t) then None
  else Some (c_string (tok_text t)).

Definition json_token_to_int (t : jsmntok_t) (min max : Z) : option Z :=
  if negb (bool_decide (tok_type t = JSMN_PRIMITIVE)) then None
  else if Nat.eqb (tok_len t) 0 || Nat.leb 64 (tok_len t) then None
  else
    let r := strtol (c_string (tok_text t)) in
    if negb (conversion_complete r) || (st_val r <? min) || (st_val r >? max) then None else Some (i32 (st_val r)).

Definition json_token_to_double (t : jsmntok_t) (min max : double) : option double :=
  if negb (bool_decide (tok_type t = JSMN_PRIMITIVE)) then None
  else if Nat.eqb (tok_len t) 0 || Nat.leb 64 (tok_len t) then None
  else
    let r := strtod (c_string (tok_text t)) in
    if negb (conversion_complete r) || isnan (st_val r) || isinf (st_val r) || flt (st_val r) min || flt max (st_val r)
    then None else Some (st_val r).

Definition json_token_to_bool (t : jsmntok_t) : option bool :=
  if negb (bool_decide (tok_type t = JSMN_PRIMITIVE)) then None
  else
    let text := string_of_list_ascii (drop (Z.to_nat (tok_start t)) json) in
    if Nat.eqb (tok_len t) 4 && strneq text "true" 4 then Some true
    else if Nat.eqb (tok_len t) 5 && strneq text "false" 5 then Some false
    else if Nat.eqb (tok_len t) 1 && (strneq text "0" 1 || strneq text "1" 1) then Some (strneq text "1" 1)
    else None.

(** ** Object parsers

    One branch of a parser's chain: read [tokens[value_index]] with a converter
    and store it. *)
Definition store {A} (conv : jsmntok_t -> option A) (set : A -> tsd_runtime_config -> tsd_runtime_config)
    (value_index : nat) (cfg : tsd_runtime_config) : jres tsd_runtime_config :=
  t ← token_at value_index; a ← or_fail (conv t); JDone (set a cfg).

(** The body of a [while] loop below a key: the new cursor and configuration. *)
Definition fields_t : Type := jsmntok_t -> nat -> nat -> tsd_runtime_config -> jres (nat * tsd_runtime_config).

Definition advance (next : nat) (r : jres tsd_runtime_config) : jres (nat * tsd_runtime_config) :=
  cfg ← r; JDone (next, cfg).

Fixpoint object_loop (fuel : nat) (fields : fields_t) (cursor stop : nat) (cfg : tsd_runtime_config) :
    jres (nat * tsd_runtime_config) :=
  match fuel with
  | O => JStuck
  | S fuel =>
      if Nat.ltb cursor stop then
        key ← token_at cursor;
        if negb (bool_decide (tok_type key = JSMN_STRING)) then JFail
        else
          let value_index := S cursor in
          next ← json_skip value_index;
          r ← fields key value_index next cfg;
          object_loop fuel fields r.1 stop r.2
      else JDone (stop, cfg)
  end.

(** The frame all object parsers share: a value that is not an object is skipped. *)
Definition parse_object (fields : fields_t) (index : nat) (cfg : tsd_runtime_config) : jres (nat * tsd_runtime_config) :=
  obj ← token_at index;
  stop ← json_skip index;
  if negb (bool_decide (tok_type obj = JSMN_OBJECT)) then JDone (stop, cfg)
  else object_loop (S (S token_count)) fields (S index) stop cfg.

Definition parse_metrics_tls_object : nat -> tsd_runtime_config -> jres (nat * tsd_runtime_config) :=
  parse_object (fun key value next cfg => advance next (
    if json_token_equals key "certificate" then
      store (fun t => json_token_to_string t 256) (fun s c => c <| metrics_tls_cert_path := s |>) value cfg
    else if json_token_equals key "private_key" then
      store (fun t => json_token_to_string t 256) (fun s c => c <| metrics_tls_key_path := s |>) value cfg
    else if json_token_equals key "client_ca" then
      store (fun t => json_token_to_string t 256) (fun s c => c <| metrics_tls_ca_path := s |>) value cfg
    else if json_token_equals key "require_client_auth" then
      store json_token_to_bool (fun b c => c <| metrics_tls_require_client_auth := b |>) value cfg
    else JDone cfg)).

Definition parse_metrics_basic_auth_object : nat -> tsd_runtime_config -> jres (nat * tsd_runtime_config) :=
  parse_object (fun key value next cfg => advance next (
    if json_token_equals key "username" then
      store (fun t => json_token_to_string t 128) (fun s c => c <| metrics_basic_auth_user := s |>) value cfg
    else if json_token_equals key "password" then
      store (fun t => json_token_to_string t 128) (fun s c => c <| metrics_basic_auth_pass := s |>) value cfg
    else JDone cfg)).

Definition parse_metrics_statsd_object : nat -> tsd_runtime_config -> jres (nat * tsd_runtime_config) :=
  parse_object (fun key value next cfg => advance next (
    if json_token_equals key "host" then
      store (fun t => json_token_to_string t 128) (fun s c => c <| statsd_host := s |>) value cfg
    else if json_token_equals key "port" then
      store (fun t => json_token_to_int t 1 65535) (fun n c => c <| statsd_port := n |>) value cfg
    else JDone cfg)).

Definition parse_metrics_object : nat -> tsd_runtime_config -> jres (nat * tsd_runtime_config) :=
  parse_object (fun key value next cfg =>
    if json_token_equals key "bind_address" then
      advance next (store (fun t => json_token_to_string t 64) (fun s c => c <| metrics_bind_host := s |>) value cfg)
    else if json_token_equals key "port" then
      advance next (store (fun t => json_token_to_int t 0 65535)
                      (fun n c => c <| metrics_port := n |> <| metrics_enabled := n >? 0 |>) value cfg)
    else if json_token_equals key "tls" then parse_metrics_tls_object value cfg
    else if json_token_equals key "basic_auth" then parse_metrics_basic_auth_object value cfg
    else if json_token_equals key "statsd" then parse_metrics_statsd_object value cfg
    else JDone (next, cfg)).

Definition parse_predictive_object : nat -> tsd_runtime_config -> jres (nat * tsd_runtime_config) :=
  parse_object (fun key value next cfg => advance next (
    if json_token_equals key "coeff_path" then
      store (fun t => json_token_to_string t 256) (fun s c => c <| predictive_coeff_path := s |>) value cfg
    else if json_token_equals key "temp_ceiling_c" then
      store (fun t => json_token_to_int t TSD_MIN_TEMP_C TSD_MAX_TEMP_C) (fun n c => c <| predictive_temp_ceiling_c := n |>) value cfg
    else if json_token_equals key "safety_margin_c" then
      store (fun t => json_token_to_int t TSD_MIN_MARGIN_C TSD_MAX_MARGIN_C) (fun n c => c <| predictive_safety_margin_c := n |>) value cfg
    else if json_token_equals key "emergency_margin_c" then
      store (fun t => json_token_to_int t TSD_MIN_MARGIN_C TSD_MAX_MARGIN_C) (fun n c => c <| predictive_emergency_margin_c := n |>) value cfg
    else if json_token_equals key "alpha" then
      store (fun t => json_token_to_double t f64_zero (f64_of_Z 1)) (fun x c => c <| predictive_alpha := x |>) value cfg
    else JDone cfg)).

Definition parse_telemetry_object : nat -> tsd_runtime_config -> jres (nat * tsd_runtime_config) :=
  parse_object (fun key value next cfg => advance next (
    if json_token_equals key "profile" then
      store (fun t => json_token_to_string t 256) (fun s c => c <| telemetry_profile_path := s |>) value cfg
    else if json_token_equals key "interval_ms" then
      store (fun t => json_token_to_int t TSD_MIN_TELEMETRY_INTERVAL_MS TSD_MAX_TELEMETRY_INTERVAL_MS)
        (fun n c => c <| telemetry_interval_ms := n |>) value cfg
    else if json_token_equals key "max_skew_ms" then
      store (fun t => json_token_to_int t TSD_MIN_TELEMETRY_SKEW_MS TSD_MAX_TELEMETRY_SKEW_MS)
        (fun n c => c <| telemetry_max_skew_ms := n |>) value cfg
    else if json_token_equals key "ewma" then
      store (fun t => json_token_to_double t f64_zero (f64_of_Z 1)) (fun x c => c <| telemetry_ewma_alpha := x |>) value cfg
    else JDone cfg)).

(** The [for] over [tokens[0].size] pairs. *)
Fixpoint root_loop (pairs cursor : nat) (cfg : tsd_runtime_config) : jres tsd_runtime_config :=
  match pairs with
  | O => JDone cfg
  | S pairs =>
      key ← token_at cursor;
      if negb (bool_decide (tok_type key = JSMN_STRING)) then JFail
      else
        let value_index := S cursor in
        r ← (if json_token_equals key "predictive" then parse_predictive_object value_index cfg
             else if json_token_equals key "telemetry" then parse_telemetry_object value_index cfg
             else if json_token_equals key "metrics" then parse_metrics_object value_index cfg
             else next ← json_skip value_index; JDone (next, cfg));
        root_loop pairs r.1 r.2
  end.
End reader.

Section load.
(** [calloc] of so many tokens succeeds. *)
Context (calloc_ok : nat -> bool).

(** The [while (1)]: the result of the first parse that did not run out of tokens. *)
Fixpoint tokenize (fuel capacity : nat) (json : list ascii) : jres (Z * list jsmntok_t) :=
  match fuel with
  | O => JStuck
  | S fuel =>
      if negb (calloc_ok capacity) then JFail
      else
        match jsmn_parse json (replicate capacity zero_tok) with
        | None => JStuck
        | Some (parsed, p) =>
            if parsed =? JSMN_ERROR_NOMEM then tokenize fuel (2 * capacity) json else JDone (parsed, tokens p)
        end
  end.

(** [contents]: what [fopen]/[fread] delivered, [None] when one of them failed. *)
Definition parse_config_file (cfg : tsd_runtime_config) (contents : option (list ascii)) : jres tsd_runtime_config :=
  json ← or_fail contents;
  r ← tokenize (S (List.length json)) 128 json;
  let '(parsed, ts) := r in
  if (parsed <=? 0) then JFail
  else
    root ← token_at ts 0;
    if negb (bool_decide (tok_type root = JSMN_OBJECT)) then JFail
    else root_loop json ts (Z.to_nat parsed) (Z.to_nat (tok_size root)) 1 cfg.
End load.

(** ** Outcomes *)

(** The outcome satisfies [P] when it is a value; it is never out of fuel, and
    reads past the array only when [full] holds. *)
Definition jpost {A} (full : Prop) (P : A -> Prop) (r : jres A) : Prop :=
  match r with JFail => True | JOverrun => full | JStuck => False | JDone a => P a end.

Lemma jpost_bind {A B} full (P : A -> Prop) (Q : B -> Prop) (m : jres A) (k : A -> jres B) :
  jpost full P m -> (forall a, P a -> jpost full Q (k a)) -> jpost full Q (m ≫= k).
Proof. destruct m; cbn; auto; done. Qed.

Lemma jpost_mono {A} full (P Q : A -> Prop) (r : jres A) : jpost full P r -> (forall a, P a -> Q a) -> jpost full Q r.
Proof. destruct r; cbn; auto. Qed.

Lemma jpost_or_fail {A} full (P : A -> Prop) (o : option A) : (forall a, o = Some a -> P a) -> jpost full P (or_fail o).
Proof. destruct o; cbn; auto. Qed.

(** ** Skipping *)

Section skip.
Context (ts : list jsmntok_t) (token_count : nat).

(** What lies between a container and the end [json_skip] finds for it. *)
Definition subtree_end (index stop : nat) : Prop :=
  (index < stop <= token_count)%nat /\
  (forall j, (index < j < stop)%nat -> Z.of_nat index <= tok_parent (default zero_tok (ts !! j))) /\
  (stop = token_count \/ tok_parent (default zero_tok (ts !! stop)) < Z.of_nat index).

Definition skip_result (index stop : nat) : Prop :=
  if Nat.leb token_count index then stop = index
  else if is_container (default zero_tok (ts !! index)) then subtree_end index stop
  else stop = S index.

Lemma skip_bounds index stop : skip_result index stop -> (index <= token_count)%nat -> (index <= stop <= token_count)%nat.
Proof.
  unfold skip_result, subtree_end. destruct (Nat.leb_spec token_count index); [lia|]. case_match; lia.
Qed.

(** Everything strictly inside a skipped value hangs below it, hence below an
    enclosing [index] too. *)
Lemma skip_inside index cursor stop j :
  skip_result cursor stop -> (index < cursor)%nat -> (cursor < j < stop)%nat ->
  Z.of_nat index <= tok_parent (default zero_tok (ts !! j)).
Proof.
  unfold skip_result. destruct (Nat.leb_spec token_count cursor); [lia|].
  destruct (is_container _); [|lia]. intros (_ & Hin & _) Hi Hj. specialize (Hin j Hj). lia.
Qed.

Lemma skip_children_S fuel index cursor :
  skip_children ts token_count (S fuel) index cursor =
  if Nat.ltb cursor token_count && (tok_parent (default zero_tok (ts !! cursor)) >=? Z.of_nat index) then
    match json_skip_from ts token_count fuel cursor with
    | Some cursor => skip_children ts token_count fuel index cursor
    | None => None
    end
  else Some cursor.
Proof. reflexivity. Qed.

Lemma skip_terminates fuel :
  (forall index, (2 * (token_count - index) < fuel)%nat ->
     exists stop, json_skip_from ts token_count fuel index = Some stop /\ skip_result index stop) /\
  (forall index cursor, (index < cursor <= token_count)%nat -> (2 * (token_count - cursor) + 1 < fuel)%nat ->
     (forall j, (index < j < cursor)%nat -> Z.of_nat index <= tok_parent (default zero_tok (ts !! j))) ->
     exists stop, skip_children ts token_count fuel index cursor = Some stop /\ subtree_end index stop).
Proof.
  induction fuel as [|fuel [IH1 IH2]]; (split; [|split || idtac]); try lia.
  - intros index Hf. cbn [json_skip_from]. unfold skip_result. destruct (Nat.leb_spec token_count index); [by eexists|].
    destruct (is_container _); [|by eexists]. apply IH2; lia.
  - intros index cursor Hc Hf Hin. rewrite skip_children_S.
    destruct (Nat.ltb_spec cursor token_count) as [Hlt|]; cbn [andb]; [|exists cursor; split; [done|]; split_and!; [lia | lia | done | left; lia]].
    rewrite Z.geb_leb. destruct (Z.of_nat index <=? _) eqn:Ep; zbool; [|exists cursor; split; [done|]; split_and!; [lia | lia | done | by right]].
    destruct (IH1 cursor ltac:(lia)) as (next & -> & Hn). pose proof (skip_bounds _ _ Hn ltac:(lia)) as Hb.
    assert (cursor < next)%nat.
    { unfold skip_result, subtree_end in Hn. rewrite (proj2 (Nat.leb_gt _ _) Hlt) in Hn. case_match; lia. }
    apply IH2; [lia | lia |]. intros j Hj. destruct (decide (j < cursor)%nat); [apply Hin; lia|].
    destruct (decide (j = cursor)) as [->|]; [done|]. apply (skip_inside index cursor next); [done | lia | lia].
Qed.

Lemma json_skip_ok index : exists stop, json_skip ts token_count index = JDone stop /\ skip_result index stop.
Proof.
  unfold json_skip. destruct (proj1 (skip_terminates (S (2 * token_count))) index ltac:(lia)) as (stop & -> & H). by exists stop.
Qed.
End skip.

(** ** Settings *)

Definition unit_interval (x : double) : Prop :=
  isfinite x = true /\ flt x f64_zero = false /\ flt (f64_of_Z 1) x = false.

(** Text fits its [char] array with the terminator. *)
Definition fits (size : nat) (s : string) : Prop := (String.length s < size)%nat.

(** What startup maintains of the configuration while it reads options: every
    number in the range its option documents, every string inside its buffer. *)
Record settings_ok (cfg : tsd_runtime_config) : Prop := {
  so_interval : 0 < check_interval_us cfg <= 10000000;
  so_down : 1 <= down_count cfg <= 100;
  so_up : 1 <= up_count cfg <= 100;
  so_ratio : isfinite (down_ratio cfg) = true /\ flt (down_ratio cfg) (f64_of_Z 1) = false /\
             flt (f64_of_Z 10) (down_ratio cfg) = false;
  so_cooldown_down : 1 <= cooldown_down_ms cfg <= 3600000;
  so_cooldown_up : 1 <= cooldown_up_ms cfg <= 3600000;
  so_dwell : 1 <= min_dwell_ms cfg <= 3600000;
  so_divisor : 1 <= memory_guard_divisor cfg <= 1000;
  so_timeout : 1 <= degraded_timeout_sec cfg <= 86400;
  so_ports : 0 <= metrics_port cfg <= 65535 /\ 0 <= statsd_port cfg <= 65535;
  so_tinterval : TSD_MIN_TELEMETRY_INTERVAL_MS <= telemetry_interval_ms cfg <= TSD_MAX_TELEMETRY_INTERVAL_MS;
  so_skew : TSD_MIN_TELEMETRY_SKEW_MS <= telemetry_max_skew_ms cfg <= TSD_MAX_TELEMETRY_SKEW_MS;
  so_ceiling : TSD_MIN_TEMP_C <= predictive_temp_ceiling_c cfg <= TSD_MAX_TEMP_C;
  so_safety : TSD_MIN_MARGIN_C <= predictive_safety_margin_c cfg <= TSD_MAX_MARGIN_C;
  so_emergency : TSD_MIN_MARGIN_C <= predictive_emergency_margin_c cfg <= TSD_MAX_MARGIN_C;
  so_ewma : unit_interval (telemetry_ewma_alpha cfg);
  so_alpha : unit_interval (predictive_alpha cfg);
  so_bind : fits 64 (metrics_bind_host cfg);
  so_cert : fits 256 (metrics_tls_cert_path cfg);
  so_key : fits 256 (metrics_tls_key_path cfg);
  so_ca : fits 256 (metrics_tls_ca_path cfg);
  so_auth : fits 128 (metrics_basic_auth_user cfg) /\ fits 128 (metrics_basic_auth_pass cfg);
  so_statsd : fits 128 (statsd_host cfg);
  so_profile : fits 256 (telemetry_profile_path cfg);
  so_coeff : fits 256 (predictive_coeff_path cfg);
}.

(** One field of a good configuration replaced by a good value. *)
Ltac one_field Hs := destruct Hs; split; cbn; try done; intuition lia.

Lemma c_string_length bytes : (String.length (c_string bytes) <= List.length bytes)%nat.
Proof. induction bytes as [|c bytes IH]; cbn; [lia|]. case_match; cbn; lia. Qed.

Section converters.
Context (json : list ascii).

Lemma token_to_string_fits t size s : json_token_to_string json t size = Some s -> fits size s.
Proof.
  unfold json_token_to_string. destruct (negb _); [done|]. destruct (Nat.leb_spec size (tok_len t)); [done|].
  intros [= <-]. unfold fits. pose proof (c_string_length (tok_text json t)) as H1. unfold tok_text in *.
  rewrite length_take in H1. lia.
Qed.

Lemma token_to_int_range t min max n :
  INT_MIN <= min -> max <= INT_MAX -> json_token_to_int json t min max = Some n -> min <= n <= max.
Proof.
  intros Hmin Hmax. unfold json_token_to_int. destruct (negb _); [done|]. destruct (_ || _); [done|]. cbv zeta.
  destruct (negb _ || _ || _) eqn:E; [done|]. intros [= <-]. rewrite !orb_false_iff in E. destruct E as [[_ E1] E2].
  rewrite Z.gtb_ltb in E2. zbool. rewrite i32_small; unfold_int; lia.
Qed.

Lemma token_to_double_unit t x : json_token_to_double json t f64_zero (f64_of_Z 1) = Some x -> unit_interval x.
Proof.
  unfold json_token_to_double. destruct (negb _); [done|]. destruct (_ || _); [done|]. cbv zeta.
  destruct (negb _ || _ || _ || _ || _) eqn:E; [done|]. intros [= <-]. rewrite !orb_false_iff in E.
  destruct E as [[[[_ E1] E2] E3] E4]. split_and!; try done. by destruct (st_val _).
Qed.
End converters.

(** ** Object parsers keep the settings and stay inside the array *)

Section objects.
Context (json : list ascii) (ts : list jsmntok_t) (token_count : nat).
Context (in_use : (token_count <= List.length ts)%nat).

Definition full : Prop := List.length ts = token_count.

Lemma token_at_ok i : (i <= token_count)%nat -> jpost full (fun t => ts !! i = Some t) (token_at ts i).
Proof.
  intros Hi. unfold token_at. destruct (ts !! i) eqn:E; cbn; [done|]. apply lookup_ge_None in E. unfold full. lia.
Qed.

Lemma store_ok {A} (conv : jsmntok_t -> option A) set v cfg :
  (v <= token_count)%nat -> (forall t a, conv t = Some a -> settings_ok (set a cfg)) ->
  jpost full settings_ok (store ts conv set v cfg).
Proof.
  intros Hv H. eapply jpost_bind; [by apply token_at_ok|]. intros t _.
  eapply jpost_bind; [by apply jpost_or_fail; intros a Ha; exact (H t a Ha)|]. done.
Qed.

(** What a parser of this component promises, between positions. *)
Definition moves (v : nat) (r : jres (nat * tsd_runtime_config)) : Prop :=
  jpost full (fun a => (v <= a.1 <= token_count)%nat /\ settings_ok a.2) r.

Lemma advance_ok v next r : (v <= next <= token_count)%nat -> jpost full settings_ok r -> moves v (advance next r).
Proof. intros Hn H. eapply jpost_bind; [exact H|]. done. Qed.

Definition fields_ok (fields : fields_t) : Prop :=
  forall key v next cfg, (v <= next <= token_count)%nat -> settings_ok cfg -> moves v (fields key v next cfg).

Lemma object_loop_ok fields fuel cursor stop cfg :
  fields_ok fields -> settings_ok cfg -> (stop <= token_count)%nat -> (cursor <= S token_count)%nat ->
  (S token_count - cursor < fuel)%nat ->
  jpost full (fun a => a.1 = stop /\ settings_ok a.2) (object_loop ts token_count fuel fields cursor stop cfg).
Proof.
  intros Hfi. revert cursor cfg. induction fuel as [|fuel IH]; intros cursor cfg Hs He Hc Hf; [lia|]. cbn [object_loop].
  destruct (Nat.ltb_spec cursor stop); [|done]. eapply jpost_bind; [apply token_at_ok; lia|]. intros key _.
  destruct (negb _); [done|]. cbv zeta. destruct (json_skip_ok ts token_count (S cursor)) as (next & -> & Hn). cbn [mbind jres_bind].
  pose proof (skip_bounds _ _ _ _ Hn ltac:(lia)) as Hb.
  eapply jpost_bind; [by apply Hfi|]. intros [c cfg'] [H1 H2]. cbn in *. apply IH; try done; lia.
Qed.

Lemma parse_object_ok fields index cfg :
  fields_ok fields -> settings_ok cfg -> (index <= token_count)%nat ->
  moves index (parse_object ts token_count fields index cfg).
Proof.
  intros Hfi Hs Hi. unfold parse_object. eapply jpost_bind; [by apply token_at_ok|]. intros obj _.
  destruct (json_skip_ok ts token_count index) as (stop & -> & Hn). cbn [mbind jres_bind].
  pose proof (skip_bounds _ _ _ _ Hn Hi) as Hb. destruct (negb _); [done|].
  eapply jpost_mono; [apply object_loop_ok; try done; lia|]. intros [c cfg'] [H1 H2]. cbn in *. subst. by split.
Qed.

Lemma set_string_ok {size} set v cfg :
  (v <= token_count)%nat -> (forall s, fits size s -> settings_ok (set s cfg)) ->
  jpost full settings_ok (store ts (fun t => json_token_to_string json t size) set v cfg).
Proof. intros Hv H. apply store_ok; [done|]. intros t s Hs. apply H. by eapply token_to_string_fits. Qed.

Lemma set_int_ok {min max} set v cfg :
  INT_MIN <= min -> max <= INT_MAX -> (v <= token_count)%nat -> (forall n, min <= n <= max -> settings_ok (set n cfg)) ->
  jpost full settings_ok (store ts (fun t => json_token_to_int json t min max) set v cfg).
Proof. intros H1 H2 Hv H. apply store_ok; [done|]. intros t n Hn. apply H. by eapply token_to_int_range. Qed.

Lemma set_unit_ok set v cfg :
  (v <= token_count)%nat -> (forall x, unit_interval x -> settings_ok (set x cfg)) ->
  jpost full settings_ok (store ts (fun t => json_token_to_double json t f64_zero (f64_of_Z 1)) set v cfg).
Proof. intros Hv H. apply store_ok; [done|]. intros t x Hx. apply H. by eapply token_to_double_unit. Qed.

Ltac branch Hs :=
  case_if;
  [first [ apply set_string_ok; [lia | intros ? ?; one_field Hs]
         | apply set_int_ok; [unfold_int; compute; congruence .. | lia | intros ? ?; one_field Hs]
         | apply set_unit_ok; [lia | intros ? ?; one_field Hs]
         | apply store_ok; [lia | intros ? ? ?; one_field Hs] ]|].

Lemma tls_ok index cfg : settings_ok cfg -> (index <= token_count)%nat -> moves index (parse_metrics_tls_object json ts token_count index cfg).
Proof. apply parse_object_ok. intros key v next c Hn Hs. apply advance_ok; [done|]. repeat branch Hs. done. Qed.

Lemma basic_auth_ok index cfg :
  settings_ok cfg -> (index <= token_count)%nat -> moves index (parse_metrics_basic_auth_object json ts token_count index cfg).
Proof. apply parse_object_ok. intros key v next c Hn Hs. apply advance_ok; [done|]. repeat branch Hs. done. Qed.

Lemma statsd_ok index cfg :
  settings_ok cfg -> (index <= token_count)%nat -> moves index (parse_metrics_statsd_object json ts token_count index cfg).
Proof. apply parse_object_ok. intros key v next c Hn Hs. apply advance_ok; [done|]. repeat branch Hs. done. Qed.

Lemma predictive_ok index cfg :
  settings_ok cfg -> (index <= token_count)%nat -> moves index (parse_predictive_object json ts token_count index cfg).
Proof. apply parse_object_ok. intros key v next c Hn Hs. apply advance_ok; [done|]. repeat branch Hs. done. Qed.

Lemma telemetry_ok index cfg :
  settings_ok cfg -> (index <= token_count)%nat -> moves index (parse_telemetry_object json ts token_count index cfg).
Proof. apply parse_object_ok. intros key v next c Hn Hs. apply advance_ok; [done|]. repeat branch Hs. done. Qed.

Lemma metrics_ok index cfg :
  settings_ok cfg -> (index <= token_count)%nat -> moves index (parse_metrics_object json ts token_count index cfg).
Proof.
  apply parse_object_ok. intros key v next c Hn Hs. case_if; [apply advance_ok; [done|]|].
  { apply set_string_ok; [lia | intros ? ?; one_field Hs]. }
  case_if; [apply advance_ok; [done|]|].
  { apply set_int_ok; [unfold_int; lia .. | lia | intros ? ?; one_field Hs]. }
  case_if; [apply tls_ok; [done | lia]|]. case_if; [apply basic_auth_ok; [done | lia]|].
  case_if; [apply statsd_ok; [done | lia]|]. done.
Qed.

Lemma root_loop_ok pairs cursor cfg :
  settings_ok cfg -> (cursor <= token_count)%nat ->
  (forall t, ts !! token_count = Some t -> t = zero_tok) ->
  jpost full settings_ok (root_loop json ts token_count pairs cursor cfg).
Proof.
  intros Hs Hc Hz. revert cursor cfg Hs Hc. induction pairs as [|pairs IH]; intros cursor cfg Hs Hc; cbn [root_loop]; [done|].
  eapply jpost_bind; [by apply token_at_ok|]. intros key Hk. destruct (bool_decide _) eqn:Et; [|done]. cbn [negb]. cbv zeta.
  assert (Hlt : (cursor < token_count)%nat).
  { destruct (decide (cursor = token_count)) as [->|]; [|lia]. apply Hz in Hk. subst key. apply bool_decide_eq_true in Et. done. }
  eapply (jpost_bind _ (fun a => (S cursor <= a.1 <= token_count)%nat /\ settings_ok a.2)).
  - case_if; [by apply predictive_ok|]. case_if; [by apply telemetry_ok|]. case_if; [by apply metrics_ok|].
    destruct (json_skip_ok ts token_count (S cursor)) as (next & -> & Hn). cbn. split; [|done].
    apply (skip_bounds _ _ _ _ Hn). lia.
  - intros [c cfg'] [H1 H2]. apply IH; [done|]. cbn in *. lia.
Qed.
End objects.

(** ** The whole file *)

(** Some token array the loader tries is filled to its last entry. *)
Definition token_array_full (json : list ascii) : Prop :=
  exists n p, jsmn_parse json (replicate n zero_tok) = Some (Z.of_nat n, p).

Lemma tokenize_ok calloc_ok json fuel capacity :
  (List.length json - capacity < fuel)%nat -> (0 < capacity)%nat ->
  jpost False (fun r : Z * list jsmntok_t => r.1 < 0 \/
    (parsed json (List.length r.2) r.1 r.2 /\ (r.1 = Z.of_nat (List.length r.2) -> token_array_full json)))
    (tokenize calloc_ok fuel capacity json).
Proof.
  revert capacity. induction fuel as [|fuel IH]; intros capacity Hf Hc; [lia|]. cbn [tokenize].
  destruct (negb _); [done|]. destruct (parse_ok json capacity) as (rc & p & E & H). rewrite E.
  destruct (rc =? JSMN_ERROR_NOMEM) eqn:En; zbool.
  - destruct H as [[_ H]|[[_ [H _]] _]]; [|unfold JSMN_ERROR_NOMEM in *; lia]. specialize (H En). apply IH; lia.
  - cbn. destruct H as [[H _]|[H _]]; [by left|]. right. pose proof H as (Hl & _). rewrite Hl. split; [done|].
    intros ->. by exists capacity, p.
Qed.

Lemma config_file_ok calloc_ok cfg contents :
  settings_ok cfg ->
  jpost (exists json, contents = Some json /\ token_array_full json) settings_ok (parse_config_file calloc_ok cfg contents).
Proof.
  intros Hs. unfold parse_config_file. destruct contents as [json|]; [|done]. cbn [or_fail mbind jres_bind].
  pose proof (tokenize_ok calloc_ok json (S (List.length json)) 128 ltac:(lia) ltac:(lia)) as Ht.
  destruct (tokenize calloc_ok (S (List.length json)) 128 json) as [| | |[rc ts]]; [done | destruct Ht .. |]. cbn [jpost fst snd] in Ht.
  change (jpost (exists json0, Some json = Some json0 /\ token_array_full json0) settings_ok
    (if rc <=? 0 then JFail else root ← token_at ts 0; if negb (bool_decide (tok_type root = JSMN_OBJECT)) then JFail
       else root_loop json ts (Z.to_nat rc) (Z.to_nat (tok_size root)) 1 cfg)).
  destruct (rc <=? 0) eqn:Er; [done|]. zbool. destruct Ht as [Ht|[Hp Hfull]]; [lia|].
  destruct Hp as (_ & Hrc & Htok). unfold token_at. destruct (ts !! 0%nat) as [root|] eqn:E0.
  2: { apply lookup_ge_None in E0. lia. }
  cbn [mbind jres_bind]. destruct (negb _); [done|]. assert (Hz : forall t, ts !! Z.to_nat rc = Some t -> t = zero_tok).
  { intros t Hl. specialize (Htok _ _ Hl). destruct (Z.of_nat (Z.to_nat rc) <? rc) eqn:E; zbool; [lia | done]. }
  pose proof (root_loop_ok json ts (Z.to_nat rc) ltac:(lia) (Z.to_nat (tok_size root)) 1 cfg Hs ltac:(lia) Hz) as H.
  destruct (root_loop _ _ _ _ _ _); cbn in *; try done.
  exists json. split; [done|]. apply Hfull. unfold full in H. lia.
Qed.

(** ** Properties *)

(** [json_skip] terminates on every token array and finds the end of the value at
    [index]: for a container, the first later token that does not hang below it. *)
Theorem json_skip_finds_subtree_end (ts : list jsmntok_t) (token_count index : nat) :
  exists stop, json_skip ts token_count index = JDone stop /\ skip_result ts token_count index stop.
Proof. apply json_skip_ok. Qed.

(** Loading a configuration file always terminates (the token array doubles at
    most until it is as long as the text), leaves every setting in range and
    every string inside its buffer, and reads past the token array only when the
    text fills an array exactly. *)
Theorem config_file_keeps_settings (calloc_ok : nat -> bool) (cfg : tsd_runtime_config) (contents : option (list ascii)) :
  settings_ok cfg ->
  match parse_config_file calloc_ok cfg contents with
  | JStuck => False
  | JFail => True
  | JOverrun => exists json, contents = Some json /\ token_array_full json
  | JDone cfg' => settings_ok cfg'
  end.
Proof. apply config_file_ok. Qed.

(** Text with single quotes for the double ones of JSON. *)
Definition json_text (s : string) : list ascii :=
  map (fun c => if Ascii.eqb c "'" then ascii_of_nat 34 else c) (list_ascii_of_string s).

Lemma defaults_settings_ok : settings_ok tsd_runtime_config_set_defaults.
Proof. split; vm_compute; intuition (congruence || lia). Qed.

Definition sample_file : list ascii :=
  json_text "{'metrics': {'port': 0, 'x': [1, {'y': 2}], 'tls': {'certificate': '/c'}}, 'telemetry': {'ewma': 0.5 }}".

Lemma config_file_keeps_settings_witness :
  match parse_config_file (fun _ => true) tsd_runtime_config_set_defaults (Some sample_file) with
  | JDone cfg' => settings_ok cfg' /\ metrics_enabled cfg' = false /\ metrics_tls_cert_path cfg' = "/c" /\
                  telemetry_ewma_alpha cfg' = f64_half
  | _ => False
  end.
Proof.
  pose proof (config_file_keeps_settings (fun _ => true) tsd_runtime_config_set_defaults (Some sample_file) defaults_settings_ok) as H.
  destruct (parse_config_file (fun _ => true) tsd_runtime_config_set_defaults (Some sample_file)) as [| | |c] eqn:E;
    [vm_compute in E; discriminate E .. |].
  split; [exact H|]. vm_compute in E. injection E as <-. repeat split.
Defined.

(** A scalar beside the known objects makes the whole file fail: the tokenizer
    counts both keys and scalar values in [tokens[0].size], and the loop takes
    that as the number of pairs. *)
Example root_scalar_rejected :
  parse_config_file (fun _ => true) tsd_runtime_config_set_defaults
    (Some (json_text "{'version': 1, 'metrics': {'port': 9000 }}")) = JFail.
Proof. vm_compute. reflexivity. Qed.

(** With exactly 128 tokens the same miscount reads [tokens[128]] of a 128-entry
    array instead. *)
Example full_array_overread :
  parse_config_file (fun _ => true) tsd_runtime_config_set_defaults
    (Some (json_text ("{" ++ String.concat "," (replicate 62 "'a': 'b'") ++ ", 'k': ['x']}"))) = JOverrun.
Proof. vm_compute. reflexivity. Qed.
