(* ===== verification/Cli.v ===== *)
(** * Cli: the command line of [src/src/thermal_config.c]

    The options of [tsd_runtime_config_parse_cli] in the order its [if] chain
    tests them, with the literal and the length each [strncmp] is given, the
    closing normalisation and validation, and [tsd_log_level_from_string]
    ([src/src/logging.c]).  [exit] is an outcome; so is a pointer that a length
    longer than the literal moves past the end of the argument.  The environment
    variable, the files and the allocations are arguments. *)
From S2P Require Import Prelude Float64 ConfigParser Config Jsmn ConfigFile.
From Stdlib Require Import SpecFloat Ascii String.
#[local] Open Scope string_scope.
#[local] Open Scope Z_scope.

Inductive cli_result (A : Type) : Type := CliExit (status : Z) | CliOverrun | CliStuck | CliNext (a : A).
Arguments CliExit {A} status.
Arguments CliOverrun {A}.
Arguments CliStuck {A}.
Arguments CliNext {A} a.

(** The configuration being filled, and [g_sandbox_only]. *)
Record cli_state : Type := mkCli { cli_cfg : tsd_runtime_config; cli_sandbox_only : bool }.
#[export] Instance eta_cli : Eta cli_state := fun s => mkCli (cli_cfg s) (cli_sandbox_only s).

Fixpoint lower (s : string) : string :=
  match s with "" => "" | String c s => String (tolower c) (lower s) end.

(** [strcasecmp(a, b) == 0] *)
Definition strcaseeq (a b : string) : bool := String.eqb (lower a) (lower b).

Definition tsd_log_level_from_string (s : string) : option Z :=
  if strcaseeq s "error" then Some TSD_LOG_LEVEL_ERROR
  else if strcaseeq s "warn" || strcaseeq s "warning" then Some TSD_LOG_LEVEL_WARN
  else if strcaseeq s "info" then Some TSD_LOG_LEVEL_INFO
  else if strcaseeq s "debug" then Some TSD_LOG_LEVEL_DEBUG
  else None.

Definition copy_string_field (dest_size : nat) (value : string) : option string :=
  if Nat.leb dest_size (String.length value) then None else Some value.

(** [value] and the text after the first [':'], as [strchr] splits them. *)
Fixpoint split_colon (value : string) : option (string * string) :=
  match value with
  | "" => None
  | String c rest =>
      if Ascii.eqb c ":" then Some ("", rest)
      else match split_colon rest with Some (user, pass) => Some (String c user, pass) | None => None end
  end.

(** [argv[i] + n]; [None] is a pointer past the terminator. *)
Fixpoint string_at (s : string) (n : nat) {struct n} : option string :=
  match n, s with
  | O, _ => Some s
  | S n, String _ s => string_at s n
  | S _, "" => None
  end.

(** A test of the chain. *)
Inductive matcher : Type := Prefix (literal : string) (n : nat) | Exact (literal : string).

Definition matches (arg : string) (m : matcher) : bool :=
  match m with Prefix literal n => strneq arg literal n | Exact literal => String.eqb arg literal end.

(** [die_invalid_option] *)
Definition die_invalid_option {A} : cli_result A := CliExit 1.

Definition set_cfg (f : tsd_runtime_config -> tsd_runtime_config) (s : cli_state) : cli_state := s <| cli_cfg ::= f |>.

Definition handler : Type := string -> cli_state -> cli_result cli_state.

(** [if (parse(value, ...) != 0) die_invalid_option(...); cfg->field = parsed;] *)
Definition with_value {A} (parse : string -> option A) (set : A -> tsd_runtime_config -> tsd_runtime_config) : handler :=
  fun value s => match parse value with None => die_invalid_option | Some a => CliNext (set_cfg (set a) s) end.

Definition int_option (min max : Z) := @with_value Z (fun v => tsd_parse_int_option (Some v) min max).
Definition double_option (min max : double) := @with_value double (fun v => tsd_parse_double_option (Some v) min max).
Definition ratio_option (min max : double) := @with_value (double * Z) (fun v => tsd_parse_ratio_option (Some v) min max).
Definition text_option (size : nat) :=
  @with_value string (fun v => if is_empty v then None else copy_string_field size v).
Definition flag (set : tsd_runtime_config -> tsd_runtime_config) : handler := fun _ s => CliNext (set_cfg set s).

Definition basic_auth_value (value : string) : option (string * string) :=
  match split_colon value with
  | None => None
  | Some (user, pass) =>
      if is_empty user || is_empty pass then None
      else if Nat.leb 128 (String.length user) || Nat.leb 128 (String.length pass) then None
      else Some (user, pass)
  end.

Section cli.
(** What a path reads as, and whether [calloc] of so many tokens succeeds. *)
Context (read_file : string -> option (list ascii)) (calloc_ok : nat -> bool).

Definition config_option : handler := fun path s =>
  if is_empty path then die_invalid_option
  else match parse_config_file calloc_ok (cli_cfg s) (read_file path) with
       | JFail => CliExit 1
       | JOverrun => CliOverrun
       | JStuck => CliStuck
       | JDone cfg => CliNext (s <| cli_cfg := cfg |>)
       end.

Definition cli_table : list (matcher * handler) := [
  (Prefix "--config=" 9, config_option);
  (Prefix "--interval=" 11, with_value (fun v => tsd_parse_ms_option (Some v) 1 10000) (fun n c => c <| check_interval_us := n |>));
  (Prefix "--down-count=" 13, int_option 1 100 (fun n c => c <| down_count := n |>));
  (Prefix "--up-count=" 11, int_option 1 100 (fun n c => c <| up_count := n |>));
  (Prefix "--down-ratio=" 13, ratio_option (f64_of_Z 1) (f64_of_Z 10) (fun r c => c <| down_ratio := r.1 |> <| down_ratio_milli := r.2 |>));
  (Prefix "--cooldown-down=" 16, int_option 1 3600000 (fun n c => c <| cooldown_down_ms := n |>));
  (Prefix "--cooldown-up=" 14, int_option 1 3600000 (fun n c => c <| cooldown_up_ms := n |>));
  (Prefix "--min-dwell=" 12, int_option 1 3600000 (fun n c => c <| min_dwell_ms := n |>));
  (Exact "--no-avx512", flag (fun c => c <| allow_avx512 := false |>));
  (Exact "--allow-avx512", flag (fun c => c <| allow_avx512 := true |>));
  (Prefix "--memory-guard-div=" 20, int_option 1 1000 (fun n c => c <| memory_guard_divisor := n |>));
  (Prefix "--memory-guard-offset=" 23, int_option 0 1000000 (fun n c => c <| memory_guard_offset_milli := n |>));
  (Prefix "--thermal-temp-weight=" 22, int_option 0 100000 (fun n c => c <| thermal_temp_weight_milli := n |>));
  (Prefix "--thermal-ratio-weight=" 23, int_option 0 100000 (fun n c => c <| thermal_ratio_weight_milli := n |>));
  (Prefix "--duration-sec=" 15, int_option 1 86400 (fun n c => c <| demo_duration_sec := n |>));
  (Exact "--run-forever", flag (fun c => c <| run_forever := true |>));
  (Prefix "--work-iters=" 13, int_option 1 INT_MAX (fun n c => c <| work_iters := n |>));
  (Prefix "--metrics-port=" 15, int_option 0 65535 (fun n c => c <| metrics_port := n |> <| metrics_enabled := n >? 0 |>));
  (Prefix "--metrics-bind=" 15, text_option 64 (fun v c => c <| metrics_bind_host := v |>));
  (Prefix "--metrics-cert=" 15, text_option 256 (fun v c => c <| metrics_tls_cert_path := v |>));
  (Prefix "--metrics-key=" 14, text_option 256 (fun v c => c <| metrics_tls_key_path := v |>));
  (Prefix "--metrics-ca=" 13, text_option 256 (fun v c => c <| metrics_tls_ca_path := v |>));
  (Exact "--metrics-require-client-auth", flag (fun c => c <| metrics_tls_require_client_auth := true |>));
  (Prefix "--metrics-basic-auth=" 21, with_value basic_auth_value
     (fun a c => c <| metrics_basic_auth_user := a.1 |> <| metrics_basic_auth_pass := a.2 |>));
  (Prefix "--statsd-host=" 14, text_option 128 (fun v c => c <| statsd_host := v |>));
  (Prefix "--statsd-port=" 14, int_option 1 65535 (fun n c => c <| statsd_port := n |>));
  (Prefix "--degraded-timeout-sec=" 23, int_option 1 86400 (fun n c => c <| degraded_timeout_sec := n |>));
  (Prefix "--temp-ceiling=" 15, int_option TSD_MIN_TEMP_C TSD_MAX_TEMP_C (fun n c => c <| predictive_temp_ceiling_c := n |>));
  (Prefix "--safety-margin=" 16, int_option TSD_MIN_MARGIN_C TSD_MAX_MARGIN_C (fun n c => c <| predictive_safety_margin_c := n |>));
  (Prefix "--emergency-margin=" 19, int_option TSD_MIN_MARGIN_C TSD_MAX_MARGIN_C (fun n c => c <| predictive_emergency_margin_c := n |>));
  (Prefix "--predictive-alpha=" 19, double_option f64_zero (f64_of_Z 1) (fun x c => c <| predictive_alpha := x |>));
  (Prefix "--telemetry-interval=" 21, int_option TSD_MIN_TELEMETRY_INTERVAL_MS TSD_MAX_TELEMETRY_INTERVAL_MS (fun n c => c <| telemetry_interval_ms := n |>));
  (Prefix "--telemetry-max-skew=" 21, int_option TSD_MIN_TELEMETRY_SKEW_MS TSD_MAX_TELEMETRY_SKEW_MS (fun n c => c <| telemetry_max_skew_ms := n |>));
  (Prefix "--telemetry-ewma=" 17, double_option f64_zero (f64_of_Z 1) (fun x c => c <| telemetry_ewma_alpha := x |>));
  (Prefix "--telemetry-profile=" 20, text_option 256 (fun v c => c <| telemetry_profile_path := v |>));
  (Prefix "--coeff-path=" 13, text_option 256 (fun v c => c <| predictive_coeff_path := v |>));
  (Prefix "--policy-slo-ratio=" 19, ratio_option f64_half (f64_of_Z 10) (fun r c => c <| policy ::= fun p => p <| slo_ratio_milli := u32 r.2 |> |>));
  (Prefix "--policy-slo-temp=" 18, int_option (-100) 200 (fun n c => c <| policy ::= fun p => p <| slo_temp_millic := n * 1000 |> |>));
  (Prefix "--policy-penalty-up=" 20, int_option 0 1000000 (fun n c => c <| policy ::= fun p => p <| transition_penalty_up_milli := n |> |>));
  (Prefix "--policy-penalty-down=" 22, int_option 0 1000000 (fun n c => c <| policy ::= fun p => p <| transition_penalty_down_milli := n |> |>));
  (Prefix "--policy-forecast=" 19, int_option 0 1000 (fun n c => c <| policy ::= fun p => p <| forecast_horizon := n |> |>));
  (Exact "--health-check", flag (fun c => c <| health_check_mode := true |>));
  (Exact "--sandbox-only", fun _ s => CliNext (s <| cli_sandbox_only := true |>));
  (Prefix "--log-level=" 12, with_value tsd_log_level_from_string (fun n c => c <| log_level := n |>));
  (Exact "--help", fun _ _ => CliExit 0)].

(** The first branch whose test holds, or the final [else]. *)
Fixpoint first_match (arg : string) (table : list (matcher * handler)) (s : cli_state) : cli_result cli_state :=
  match table with
  | [] => CliExit 1
  | (m, h) :: table =>
      if matches arg m then
        match m with
        | Exact _ => h "" s
        | Prefix _ n => match string_at arg n with None => CliOverrun | Some value => h value s end
        end
      else first_match arg table s
  end.

Fixpoint cli_loop (args : list string) (s : cli_state) : cli_result cli_state :=
  match args with
  | [] => CliNext s
  | arg :: args => match first_match arg cli_table s with CliNext s => cli_loop args s | r => r end
  end.

(** The metrics port, switch and bind address after the option loop. *)
Definition normalise_metrics (cfg : tsd_runtime_config) : tsd_runtime_config :=
  let cfg := if metrics_port cfg <=? 0 then cfg <| metrics_port := 0 |> <| metrics_enabled := false |>
             else if negb (metrics_enabled cfg) then cfg <| metrics_enabled := true |> else cfg in
  if is_empty (metrics_bind_host cfg) then cfg <| metrics_bind_host := metrics_bind_host k_default_config |> else cfg.

(** The milli ratio and the policy bounds recomputed from a validated configuration. *)
Definition derive_fields (cfg : tsd_runtime_config) : tsd_runtime_config :=
  let cfg := cfg <| down_ratio_milli := f64_to_u64 (fadd (fmul (down_ratio cfg) f64_thousand) f64_half) |> in
  let cfg := if down_ratio_milli cfg =? 0 then cfg <| down_ratio_milli := 1 |> else cfg in
  cfg <| policy ::= tsd_policy_config_apply_bounds |>.

(** Everything after the option loop. *)
Definition cli_finish (cfg : tsd_runtime_config) : cli_result tsd_runtime_config :=
  match validate_runtime_config (normalise_metrics cfg) with
  | None => CliExit 1
  | Some cfg => match tsd_runtime_config_refresh_ticks (derive_fields cfg) with
                | (Some _, _) => CliExit 1
                | (None, cfg) => CliNext cfg
                end
  end.

(** [args] is [argv] without the program name.  The result is stored through
    [cfg] and copied to [g_tsd_config]. *)
Definition tsd_runtime_config_parse_cli (env_level : option string) (sandbox_only : bool) (args : list string) : cli_result cli_state :=
  let cfg := tsd_runtime_config_set_defaults in
  let cfg := match env_level with
             | None => cfg
             | Some level =>
                 if is_empty level then cfg
                 else match tsd_log_level_from_string level with Some n => cfg <| log_level := n |> | None => cfg end
             end in
  match cli_loop args (mkCli cfg sandbox_only) with
  | CliNext s => match cli_finish (cli_cfg s) with
                 | CliNext cfg => CliNext (s <| cli_cfg := cfg |>)
                 | CliExit status => CliExit status
                 | CliOverrun => CliOverrun
                 | CliStuck => CliStuck
                 end
  | r => r
  end.
End cli.

(** ** Option values *)

Lemma parse_ms_option_range value min max v :
  INT_MIN <= min -> max <= INT_MAX -> 0 <= min -> tsd_parse_ms_option value min max = Some v -> min * 1000 <= v <= max * 1000.
Proof.
  intros H1 H2 H0. unfold tsd_parse_ms_option. destruct (tsd_parse_int_option value min max) as [n|] eqn:E; [|done].
  apply parse_int_option_range in E; [|done..]. rewrite Z.gtb_ltb. destruct (INT_MAX <? n * 1000) eqn:E2; [done|]. zbool.
  intros [= <-]. rewrite i32_small; unfold_int; lia.
Qed.

Lemma parse_double_option_unit s x : tsd_parse_double_option s f64_zero (f64_of_Z 1) = Some x -> unit_interval x.
Proof.
  destruct s as [s|]; [|done]. unfold tsd_parse_double_option. cbv zeta. destruct (negb _); [done|].
  destruct (isnan _ || isinf _) eqn:E1; [done|]. destruct (flt _ _ || flt _ _) eqn:E2; [done|]. intros [= <-].
  apply orb_false_iff in E1 as [E1 E1'], E2 as [E2 E2']. split_and!; try done. by destruct (st_val _).
Qed.

Lemma copy_string_fits size v w : copy_string_field size v = Some w -> fits size w.
Proof. unfold copy_string_field, fits. destruct (Nat.leb_spec size (String.length v)); [done|]. by intros [= <-]. Qed.

Lemma text_value_fits size v w : (if is_empty v then None else copy_string_field size v) = Some w -> fits size w.
Proof. destruct (is_empty v); [done | apply copy_string_fits]. Qed.

Lemma basic_auth_fits v a : basic_auth_value v = Some a -> fits 128 a.1 /\ fits 128 a.2.
Proof.
  unfold basic_auth_value. destruct (split_colon v) as [[u p]|]; [|done]. destruct (_ || _); [done|].
  destruct (Nat.leb_spec 128 (String.length u)); [done|]. destruct (Nat.leb_spec 128 (String.length p)); [done|].
  intros [= <-]. unfold fits. cbn [fst snd]. lia.
Qed.

(** ** Prefixes *)

(** A test with the length of its literal holds exactly of its extensions. *)
Lemma strneq_prefix literal arg :
  strneq arg literal (String.length literal) = true -> exists v, arg = literal ++ v /\ string_at arg (String.length literal) = Some v.
Proof.
  revert arg. induction literal as [|c literal IH]; intros arg; cbn; [by exists arg|].
  destruct arg as [|a arg]; [done|]. intros H. apply andb_true_iff in H as [H1 H2]. apply Ascii.eqb_eq in H1 as ->.
  destruct (IH arg H2) as (v & -> & H). by exists v.
Qed.

(** One more character compares the terminator as well. *)
Lemma strneq_whole literal arg :
  strneq arg literal (S (String.length literal)) = true -> arg = literal /\ string_at arg (S (String.length literal)) = None.
Proof.
  revert arg. induction literal as [|c literal IH]; intros [|a arg]; cbn [strneq String.length]; try done.
  intros H. apply andb_true_iff in H as [H1 H2]. apply Ascii.eqb_eq in H1 as ->.
  destruct (IH arg H2) as [-> H]. done.
Qed.

(** ** Every option keeps the settings *)

Definition cpost {A} (over : Prop) (P : A -> Prop) (r : cli_result A) : Prop :=
  match r with CliExit _ => True | CliOverrun => over | CliStuck => False | CliNext a => P a end.

(** The literals whose test is one character too long. *)
Definition overlong : list string := ["--memory-guard-div="; "--memory-guard-offset="; "--policy-forecast="].

Section options.
Context (read_file : string -> option (list ascii)) (calloc_ok : nat -> bool).

Definition state_ok (s : cli_state) : Prop := settings_ok (cli_cfg s).

(** The over-read of a configuration file named on the command line. *)
Definition file_full : Prop := exists path json, read_file path = Some json /\ token_array_full json.

Definition handler_ok (h : handler) : Prop := forall v s, state_ok s -> cpost file_full state_ok (h v s).

Lemma with_value_ok {A} (parse : string -> option A) set :
  (forall v a c, parse v = Some a -> settings_ok c -> settings_ok (set a c)) -> handler_ok (with_value parse set).
Proof. intros H v s Hs. unfold with_value. destruct (parse v) as [a|] eqn:E; [|done]. by apply (H v a). Qed.

Lemma int_option_ok min max set :
  INT_MIN <= min -> max <= INT_MAX -> (forall n c, min <= n <= max -> settings_ok c -> settings_ok (set n c)) ->
  handler_ok (int_option min max set).
Proof. intros H1 H2 H. apply with_value_ok. intros v n c E. apply H. by eapply parse_int_option_range. Qed.

Lemma config_option_ok : handler_ok (config_option read_file calloc_ok).
Proof.
  intros path s Hs. unfold config_option. destruct (is_empty path); [done|].
  pose proof (config_file_ok calloc_ok (cli_cfg s) (read_file path) Hs) as H.
  destruct (parse_config_file _ _ _); try done. destruct H as (json & E & H). by exists path, json.
Qed.

Definition entry_ok (e : matcher * handler) : Prop :=
  match e.1 with
  | Exact _ => handler_ok e.2
  | Prefix literal n => (n = String.length literal /\ handler_ok e.2) \/ (n = S (String.length literal) /\ In literal overlong)
  end.

Lemma first_match_ok arg table s :
  Forall entry_ok table -> state_ok s -> cpost (file_full \/ In arg overlong) state_ok (first_match arg table s).
Proof.
  intros Ht Hs. induction Ht as [|[m h] table He Ht IH]; cbn [first_match]; [done|]. destruct (matches arg m) eqn:Em; [|done].
  assert (Hh : forall v, handler_ok h -> cpost (file_full \/ In arg overlong) state_ok (h v s)).
  { intros v H. specialize (H v s Hs). destruct (h v s); try done. by left. }
  destruct m as [literal n | literal]; [|by apply Hh]. destruct He as [[-> He]|[-> He]]; cbn [matches] in Em.
  - destruct (strneq_prefix _ _ Em) as (v & _ & ->). by apply Hh.
  - destruct (strneq_whole _ _ Em) as [-> ->]. by right.
Qed.

Ltac entry :=
  first
    [ apply int_option_ok; [unfold INT_MIN; cbv; congruence | unfold INT_MAX; cbv; congruence | intros ? ? ? Hs; one_field Hs]
    | apply with_value_ok; intros ? ? ? E Hs;
      first [ apply text_value_fits in E | apply parse_double_option_unit in E | apply basic_auth_fits in E
            | apply parse_ms_option_range in E; [|unfold_int; lia ..]
            | match type of E with tsd_parse_ratio_option _ _ _ = Some ?a => destruct a end; apply parse_ratio_option_range in E
            | idtac ]; one_field Hs
    | intros ? s Hs; unfold state_ok in *; destruct s; cbn in *; try done; one_field Hs ].

Lemma table_ok : Forall entry_ok (cli_table read_file calloc_ok).
Proof.
  unfold cli_table. constructor; [left; split; [done | apply config_option_ok]|].
  repeat (apply Forall_cons; split; [unfold entry_ok; cbn [fst snd];
    first [ right; split; [reflexivity | cbn; tauto] | left; split; [reflexivity | entry] | entry ]|]).
  apply Forall_nil. done.
Qed.

Lemma cli_loop_ok args s :
  state_ok s -> cpost (file_full \/ exists arg, In arg args /\ In arg overlong) state_ok (cli_loop read_file calloc_ok args s).
Proof.
  revert s. induction args as [|arg args IH]; intros s Hs; cbn [cli_loop]; [done|].
  pose proof (first_match_ok arg _ s table_ok Hs) as H. destruct (first_match _ _ _) as [| | |s']; try done.
  - destruct H as [H|H]; [by left | right; exists arg; split; [by left | done]].
  - specialize (IH s' H). destruct (cli_loop _ _ args s'); try done.
    destruct IH as [IH|(a & H1 & H2)]; [by left | right; exists a; split; [by right | done]].
Qed.
End options.

(** ** The closing steps *)

(** What the accepted configuration guarantees beyond the ranges. *)
Record startup_ok (cfg : tsd_runtime_config) : Prop := {
  su_settings : settings_ok cfg;
  su_tls : is_empty (metrics_tls_cert_path cfg) = is_empty (metrics_tls_key_path cfg);
  su_client_auth : metrics_tls_require_client_auth cfg = true -> is_empty (metrics_tls_ca_path cfg) = false;
  su_basic_auth : is_empty (metrics_basic_auth_user cfg) = is_empty (metrics_basic_auth_pass cfg);
  su_metrics : metrics_enabled cfg = (0 <? metrics_port cfg);
  su_bind : is_empty (metrics_bind_host cfg) = false;
  su_statsd : is_empty (statsd_host cfg) = true -> statsd_port cfg = 0;
  su_generation : validate_generation_config cfg = inr cfg;
}.

Lemma normalise_metrics_ok cfg :
  settings_ok cfg ->
  settings_ok (normalise_metrics cfg) /\ metrics_enabled (normalise_metrics cfg) = (0 <? metrics_port (normalise_metrics cfg)) /\
  is_empty (metrics_bind_host (normalise_metrics cfg)) = false.
Proof.
  intros Hs. unfold normalise_metrics.
  set (c := if metrics_port cfg <=? 0 then _ else _).
  assert (Hc : settings_ok c /\ metrics_enabled c = (0 <? metrics_port c)).
  { subst c. destruct (metrics_port cfg <=? 0) eqn:Ep; [split; [one_field Hs | reflexivity]|]. zbool.
    destruct (metrics_enabled cfg) eqn:Ee; cbn [negb]; (split; [done || one_field Hs|]).
    - by rewrite Ee, (proj2 (Z.ltb_lt _ _) Ep).
    - symmetry. by apply Z.ltb_lt. }
  clearbody c. destruct Hc as [Hc He]. cbv zeta. destruct (is_empty (metrics_bind_host c)) eqn:Eb; [|done].
  split; [|done]. destruct Hc. split; try done. unfold fits. cbn. lia.
Qed.

Lemma validate_runtime_ok cfg cfg' :
  validate_runtime_config cfg = Some cfg' ->
  cfg' = (if is_empty (statsd_host cfg) then cfg <| statsd_port := 0 |> else cfg) /\
  is_empty (metrics_tls_cert_path cfg) = is_empty (metrics_tls_key_path cfg) /\
  (metrics_tls_require_client_auth cfg = true -> is_empty (metrics_tls_ca_path cfg) = false) /\
  is_empty (metrics_basic_auth_user cfg) = is_empty (metrics_basic_auth_pass cfg).
Proof.
  unfold validate_runtime_config. destruct (xorb _ _) eqn:E1; [done|]. destruct (_ && _) eqn:E2; [done|].
  destruct (xorb (negb (is_empty (metrics_basic_auth_user cfg))) _) eqn:E3; [done|]. cbv zeta.
  repeat (destruct (_ || _); [done|]). intros [= <-]. split; [done|]. split_and!.
  - by destruct (is_empty (metrics_tls_cert_path cfg)), (is_empty (metrics_tls_key_path cfg)).
  - intros H. by rewrite H in E2.
  - by destruct (is_empty (metrics_basic_auth_user cfg)), (is_empty (metrics_basic_auth_pass cfg)).
Qed.

(** A ratio of at least one is positive. *)
Lemma ge_one_positive x : isfinite x = true -> flt x (f64_of_Z 1) = false -> fle x f64_zero = false.
Proof.
  change (f64_of_Z 1) with (S754_finite false 4503599627370496 (-52)).
  destruct x as [[] | [] | | [] m e]; done.
Qed.

Lemma settings_fields_ok cfg : settings_ok cfg -> generation_fields_ok cfg = true.
Proof.
  intros [H1 H2 H3 (R1 & R2 & R3) H5 H6 H7 H8 H9 _ H11 H12 H13 H14 H15 (W1 & W2 & W3) (A1 & A2 & A3) _ _ _ _ _ _ _ _].
  unfold generation_fields_ok. rewrite R1, (ge_one_positive _ R1 R2), W1, W2, W3, A1, A2, A3.
  unfold TSD_MIN_TELEMETRY_INTERVAL_MS, TSD_MAX_TELEMETRY_INTERVAL_MS, TSD_MIN_TELEMETRY_SKEW_MS, TSD_MAX_TELEMETRY_SKEW_MS,
    TSD_MIN_TEMP_C, TSD_MAX_TEMP_C, TSD_MIN_MARGIN_C, TSD_MAX_MARGIN_C in *.
  apply negb_true_iff. cbn [negb orb]. rewrite !orb_false_r, !Z.gtb_ltb.
  repeat (apply orb_false_iff; split); try (apply Z.ltb_ge; lia); try (apply Z.leb_gt; lia).
Qed.

Lemma derive_fields_ok cfg : settings_ok cfg -> settings_ok (derive_fields cfg) /\ down_ratio_milli (derive_fields cfg) <> 0.
Proof.
  intros Hs. unfold derive_fields. cbv zeta. destruct (_ =? 0) eqn:E; zbool; cbn in *; (split; [one_field Hs | done]).
Qed.

(** The tick fields depend on the times alone, so a second refresh changes nothing. *)
Lemma refresh_again cfg cfg' : tsd_runtime_config_refresh_ticks cfg = (None, cfg') -> tsd_runtime_config_refresh_ticks cfg' = (None, cfg').
Proof.
  intros H. pose proof H as H'. apply refresh_ticks_ok in H' as (_ & _ & _ & _ & ->). revert H. unfold tsd_runtime_config_refresh_ticks.
  cbn -[tsd_compute_ticks_from_ms]. destruct (tsd_compute_ticks_from_ms _ (cooldown_down_ms cfg)).1 as [|t1]; [done|].
  cbn -[tsd_compute_ticks_from_ms]. destruct (tsd_compute_ticks_from_ms _ (cooldown_up_ms cfg)).1 as [|t2]; [done|].
  cbn -[tsd_compute_ticks_from_ms]. destruct (tsd_compute_ticks_from_ms _ (min_dwell_ms cfg)).1 as [|t3]; [done|].
  exact (fun H => H).
Qed.

Lemma apply_bounds_again p : tsd_policy_config_apply_bounds (tsd_policy_config_apply_bounds p) = tsd_policy_config_apply_bounds p.
Proof. pose proof (apply_bounds_horizon p) as H. unfold tsd_policy_config_apply_bounds at 1. by apply Z.eqb_neq in H as ->. Qed.

(** A refreshed configuration that passes the field checks is its own generation. *)
Lemma generation_fixpoint cfg cfg' :
  settings_ok cfg' -> down_ratio_milli cfg' <> 0 -> tsd_policy_config_apply_bounds (policy cfg') = policy cfg' ->
  tsd_runtime_config_refresh_ticks cfg = (None, cfg') -> validate_generation_config cfg' = inr cfg'.
Proof.
  intros Hs Hm Hp Hr. unfold validate_generation_config. rewrite (settings_fields_ok _ Hs). cbn [negb].
  rewrite (proj2 (Z.eqb_neq _ _) Hm). cbn [andb].
  replace (cfg' <| policy ::= tsd_policy_config_apply_bounds |>) with cfg'
    by (destruct cfg'; cbn in Hp; cbn; by rewrite Hp).
  by rewrite (refresh_again _ _ Hr).
Qed.

Lemma cli_finish_ok cfg : settings_ok cfg -> cpost False startup_ok (cli_finish cfg).
Proof.
  intros Hs. unfold cli_finish. destruct (normalise_metrics_ok cfg Hs) as (Hn & He & Hb).
  destruct (validate_runtime_config _) as [c1|] eqn:Ev; [|done]. apply validate_runtime_ok in Ev as (Ec & Ht & Ha & Hu).
  assert (Hc : settings_ok c1) by (rewrite Ec; destruct (is_empty (statsd_host (normalise_metrics cfg))); [one_field Hn | exact Hn]).
  destruct (derive_fields_ok c1 Hc) as [Hd Hm].
  destruct (tsd_runtime_config_refresh_ticks (derive_fields c1)) as [[e|] c2] eqn:Er; [done|]. cbn [cpost].
  pose proof Er as E2. apply refresh_ticks_ok in E2 as (_ & _ & _ & _ & E2).
  assert (H2 : settings_ok c2) by (subst c2; one_field Hd).
  assert (Hg : validate_generation_config c2 = inr c2).
  { apply (generation_fixpoint (derive_fields c1)); [done | by subst c2 | | done].
    subst c2. unfold derive_fields. cbv zeta. destruct (_ =? 0); cbn; apply apply_bounds_again. }
  assert (Hst : is_empty (statsd_host c1) = true -> statsd_port c1 = 0)
    by (rewrite Ec; destruct (is_empty (statsd_host (normalise_metrics cfg))) eqn:Eh; [done | by rewrite Eh]).
  assert (Ha1 : metrics_tls_require_client_auth c1 = true -> is_empty (metrics_tls_ca_path c1) = false)
    by (rewrite Ec; by destruct (is_empty (statsd_host (normalise_metrics cfg)))).
  split; try done; rewrite E2; unfold derive_fields; cbv zeta; destruct (down_ratio_milli _ =? 0); try done;
    rewrite Ec; by destruct (is_empty (statsd_host (normalise_metrics cfg))).
Qed.

Lemma env_settings_ok env_level :
  settings_ok (match env_level with
               | None => tsd_runtime_config_set_defaults
               | Some level =>
                   if is_empty level then tsd_runtime_config_set_defaults
                   else match tsd_log_level_from_string level with
                        | Some n => tsd_runtime_config_set_defaults <| log_level := n |>
                        | None => tsd_runtime_config_set_defaults
                        end
               end).
Proof.
  pose proof defaults_settings_ok as Hs. destruct env_level as [level|]; [|done]. destruct (is_empty level); [done|].
  destruct (tsd_log_level_from_string level); [one_field Hs | done].
Qed.

Lemma parse_cli_ok read_file calloc_ok env_level sandbox_only args :
  cpost (file_full read_file \/ exists arg, In arg args /\ In arg overlong) (fun s => startup_ok (cli_cfg s))
    (tsd_runtime_config_parse_cli read_file calloc_ok env_level sandbox_only args).
Proof.
  unfold tsd_runtime_config_parse_cli. cbv zeta.
  pose proof (cli_loop_ok read_file calloc_ok args (mkCli _ sandbox_only) (env_settings_ok env_level)) as H.
  destruct (cli_loop _ _ args _) as [| | |s]; try done. pose proof (cli_finish_ok (cli_cfg s) H) as Hf.
  by destruct (cli_finish (cli_cfg s)).
Qed.

(** ** Properties *)


(** The memory-guard and forecast options can never be given a value: their
    [strncmp] length includes the terminator, so the option followed by any text
    is an unknown option and the program exits with status 1, and the option with
    nothing after it makes the parser read behind the argument's terminator. *)
Theorem overlong_options_are_unknown (read_file : string -> option (list ascii)) (calloc_ok : nat -> bool)
    (literal : string) (c : ascii) (value : string) (s : cli_state) :
  In literal overlong ->
  first_match (literal ++ String c value) (cli_table read_file calloc_ok) s = CliExit 1 /\
  first_match literal (cli_table read_file calloc_ok) s = CliOverrun.
Proof. intros [<-|[<-|[<-|[]]]]; split; reflexivity. Qed.

Lemma overlong_options_are_unknown_witness :
  first_match "--memory-guard-div=5" (cli_table (fun _ => None) (fun _ => true)) (mkCli tsd_runtime_config_set_defaults false) = CliExit 1 /\
  first_match "--memory-guard-div=" (cli_table (fun _ => None) (fun _ => true)) (mkCli tsd_runtime_config_set_defaults false) = CliOverrun.
Proof. apply (overlong_options_are_unknown (fun _ => None) (fun _ => true) "--memory-guard-div=" "5" ""). cbn. auto. Defined.

Example cli_accepts :
  match tsd_runtime_config_parse_cli (fun _ => Some sample_file) (fun _ => true) (Some "DEBUG") false
          ["--interval=20"; "--config=a.json"; "--metrics-key=k"; "--down-ratio=1.25"; "--policy-penalty-up=7"; "--sandbox-only"] with
  | CliNext s => cli_sandbox_only s = true /\ check_interval_us (cli_cfg s) = 20000 /\ down_ratio_milli (cli_cfg s) = 1250 /\
                 cooldown_down_ticks (cli_cfg s) = 50 /\ log_level (cli_cfg s) = 3 /\ metrics_enabled (cli_cfg s) = false /\
                 transition_penalty_up_milli (policy (cli_cfg s)) = 7
  | _ => False
  end.
Proof. vm_compute. repeat split. Qed.
