(* ===== verification/Usage.v ===== *)
(** * Usage: the help text of the command line

    [tsd_runtime_config_print_usage] of [src/src/thermal_config.c], line by line,
    and what it says compared with what the command line of [Cli.v] does. *)
From S2P Require Import Prelude Float64 Format Config ConfigParser Cli.
From stdpp Require Import list strings.
From Stdlib Require Import SpecFloat Ascii String.
#[local] Open Scope string_scope.
#[local] Open Scope Z_scope.

Definition usage_lines : list string :=
  ["Options:";
   "  --config=FILE          Load configuration overrides from JSON file";
   "  --interval=MS          Check interval in milliseconds (default: 50)";
   "  --down-count=N         Throttle events before downgrade (default: 3)";
   "  --up-count=N           Stable events before upgrade (default: 5)";
   "  --down-ratio=R         CPI ratio for throttle detection (default: 1.5)";
   "  --cooldown-down=MS     Cooldown after downgrade (default: 1000)";
   "  --cooldown-up=MS       Cooldown after upgrade (default: 2000)";
   "  --min-dwell=MS         Minimum time per width (default: 200)";
   "  --allow-avx512         Permit AVX-512 (default: disabled)";
   "  --no-avx512            Explicitly disable AVX-512";
   "  --memory-guard-div=N   Memory guard divisor [1-1000] (default: 5)";
   "  --memory-guard-offset=M Additional memory guard in milli-ratio [0-1000000] (default: 200)";
   "  --thermal-temp-weight=W Temperature severity weight in milli [0-100000] (default: 0)";
   "  --thermal-ratio-weight=W Frequency ratio severity weight in milli [0-100000] (default: 0)";
   "  --duration-sec=S       Finite demo duration in wall-clock seconds (default: 10)";
   "  --run-forever          Run until SIGINT/SIGTERM instead of using --duration-sec";
   "  --work-iters=N         Inner workload batch size (default: 10000000)";
   "  --metrics-port=P       Prometheus metrics port (0 to disable, default: " ++ decimal (metrics_port k_default_config) ++ ")";
   "  --metrics-bind=ADDR    Metrics bind address (default: " ++ metrics_bind_host k_default_config ++ ")";
   "  --metrics-cert=PATH    Enable TLS for metrics endpoint (requires --metrics-key)";
   "  --metrics-key=PATH     TLS private key for metrics endpoint";
   "  --metrics-ca=PATH      Optional client CA bundle for metrics TLS";
   "  --metrics-require-client-auth Enforce mutual TLS for metrics";
   "  --metrics-basic-auth=user:pass Protect metrics endpoint with basic auth";
   "  --statsd-host=HOST     Enable StatsD export to HOST (default: disabled)";
   "  --statsd-port=PORT     StatsD UDP port (default: " ++ decimal (statsd_port k_default_config) ++ ")";
   "  --degraded-timeout-sec=S Fail closed if hardware counters missing for S seconds (default: " ++ decimal (degraded_timeout_sec k_default_config) ++ ")";
   "  --temp-ceiling=C       Predictive controller temperature ceiling (default: " ++ decimal (predictive_temp_ceiling_c k_default_config) ++ ")";
   "  --safety-margin=C      Predictive safety margin below ceiling (default: " ++ decimal (predictive_safety_margin_c k_default_config) ++ ")";
   "  --emergency-margin=C   Predictive emergency margin (default: " ++ decimal (predictive_emergency_margin_c k_default_config) ++ ")";
   "  --predictive-alpha=A   Predictive CPI EWMA alpha [0-1] (default: " ++ f64_fixed 2 (predictive_alpha k_default_config) ++ ")";
   "  --coeff-path=PATH      Controller coefficients JSON (default: " ++ predictive_coeff_path k_default_config ++ ")";
   "  --telemetry-interval=MS Telemetry fusion interval (default: " ++ decimal (telemetry_interval_ms k_default_config) ++ ")";
   "  --telemetry-max-skew=MS Telemetry freshness window (default: " ++ decimal (telemetry_max_skew_ms k_default_config) ++ ")";
   "  --telemetry-ewma=A     Telemetry EWMA alpha [0-1] (default: " ++ f64_fixed 2 (telemetry_ewma_alpha k_default_config) ++ ")";
   "  --telemetry-profile=PATH Telemetry profile manifest";
   "  --policy-slo-ratio=R   Predictive policy CPI target ratio (default: " ++ f64_fixed 3 (fdiv (f64_of_Z (slo_ratio_milli tsd_policy_config_defaults)) f64_thousand) ++ ")";
   "  --policy-slo-temp=C    Predictive policy package temperature target in Celsius (default: " ++ f64_fixed 1 (fdiv (f64_of_Z (slo_temp_millic tsd_policy_config_defaults)) f64_thousand) ++ ")";
   "  --policy-penalty-up=M  Predictive policy upgrade penalty in milli-cost (default: " ++ decimal (transition_penalty_up_milli tsd_policy_config_defaults) ++ ")";
   "  --policy-penalty-down=M Predictive policy downgrade penalty in milli-cost (default: " ++ decimal (transition_penalty_down_milli tsd_policy_config_defaults) ++ ")";
   "  --policy-forecast=N    Predictive policy forecast horizon in samples (default: " ++ decimal (forecast_horizon tsd_policy_config_defaults) ++ ")";
   "  --health-check         Run diagnostics and exit with status";
   "  --sandbox-only         Execute startup sandbox and exit";
   "  --log-level=LEVEL      Log verbosity (error, warn, info, debug)";
   "  --help                 Show this help"].

Definition tsd_runtime_config_print_usage (prog : string) : string :=
  "Usage: " ++ prog ++ " [OPTIONS]" ++ nl ++ concat_text (fun line => line ++ nl) usage_lines.

(** ** Reading the text *)

(** The characters up to the first [c], included, or up to a blank. *)
Fixpoint word_to (c : ascii) (s : string) : string :=
  match s with
  | "" => ""
  | String d s => if Ascii.eqb d c then String d "" else if Ascii.eqb d " " then "" else String d (word_to c s)
  end.

(** The option a line is about: [--name=] or [--name]. *)
Definition option_named (line : string) : option string :=
  if String.prefix "  --" line then Some (word_to "=" (substring 2 (String.length line) line)) else None.

Fixpoint after_text (needle hay : string) : option string :=
  if String.prefix needle hay then Some (substring (String.length needle) (String.length hay) hay)
  else match hay with "" => None | String _ hay => after_text needle hay end.

Fixpoint before_paren (s : string) : string :=
  match s with "" => "" | String c s => if Ascii.eqb c ")" then "" else String c (before_paren s) end.

(** The value a line gives as the default. *)
Definition stated_default (line : string) : option string :=
  match after_text "default: " line with Some rest => Some (before_paren rest) | None => None end.

(** The argument that sets the option of a line to its stated default. *)
Definition default_argument (line : string) : option string :=
  match option_named line, stated_default line with
  | Some name, Some value =>
      if String.eqb value "disabled" then None else Some (name ++ value)
  | _, _ => None
  end.

Definition literal_of (m : matcher) : string := match m with Prefix literal _ => literal | Exact literal => literal end.

Definition default_arguments : list string := omap default_argument usage_lines.

(** The stated defaults the command line refuses: three options whose test
    compares one character too many, and one that prints a fraction for an
    integer. *)
Definition refused_defaults : list string :=
  ["--memory-guard-div=5"; "--memory-guard-offset=200"; "--policy-slo-temp=85.0"; "--policy-forecast=5"].

Definition default_state (sandbox_only : bool) : cli_state := mkCli tsd_runtime_config_set_defaults sandbox_only.

Section usage.
Context (read_file : string -> option (list ascii)) (calloc_ok : nat -> bool).

Definition is_refused (a : string) : bool := existsb (String.eqb a) refused_defaults.

Lemma default_arguments_run sandbox_only :
  Forall (fun a => first_match a (cli_table read_file calloc_ok) (default_state sandbox_only) =
                   if is_refused a then CliExit 1 else CliNext (default_state sandbox_only)) default_arguments.
Proof.
  let l := eval vm_compute in default_arguments in change default_arguments with l.
  repeat (apply Forall_cons; split; [vm_compute; reflexivity|]). by apply Forall_nil.
Qed.

(** The help text is the command line's.  It names every option the
    parser tests for and no other; and every default it states is the default:
    passing the option with that value leaves a default configuration as it is,
    except for the four options above, whose stated default is refused. *)
Theorem usage_matches_command_line (sandbox_only : bool) :
  omap option_named usage_lines ≡ₚ map (fun e => literal_of e.1) (cli_table read_file calloc_ok) /\
  forall line arg, In line usage_lines -> default_argument line = Some arg ->
    first_match arg (cli_table read_file calloc_ok) (default_state sandbox_only) =
      if existsb (String.eqb arg) refused_defaults then CliExit 1 else CliNext (default_state sandbox_only).
Proof.
  split.
  - apply (bool_decide_unpack _). vm_compute. exact I.
  - intros line arg Hin Ha. pose proof (default_arguments_run sandbox_only) as H. rewrite Forall_forall in H. apply H.
    unfold default_arguments. apply list_elem_of_omap. exists line. split; [by apply list_elem_of_In | done].
Qed.
End usage.
