(* ===== verification/World.v ===== *)
(** * World: the process-global state of the dispatcher and its environment

    The C code keeps its state in file-scope atomics of several translation
    units that call each other.  [world] collects them, one record per unit,
    and an operation is a computation of [M A := world -> A * world].

    What the process obtains from outside (results of system and library calls,
    clock readings) comes from an [Env]: each external call takes the answer the
    environment has for the index of that call, so a theorem that quantifies
    over the environment covers every sequence of answers.  The processor
    ([cpuid]/[xgetbv]) is constant during a run.

    Mutexes: the model runs one thread at a time and records which mutexes that
    thread holds; locking a held (non-recursive) mutex sets [w_deadlock]. *)
From S2P Require Import Prelude Float64 Config.
From Stdlib Require Import SpecFloat Ascii String.
#[local] Open Scope string_scope.
#[local] Open Scope Z_scope.

(** ** SIMD widths

    [simd_width_t] is kept as an integer: the code itself range-checks it. *)

Abbreviation simd_width_t := Z.
Definition SIMD_SSE41 : simd_width_t := 0.
Definition SIMD_AVX2 : simd_width_t := 1.
Definition SIMD_AVX512 : simd_width_t := 2.

Definition width_in_range (w : simd_width_t) : bool := negb ((w <? SIMD_SSE41) || (w >? SIMD_AVX512)).

(** ** Perf modes ([include/thermal/simd/thermal_perf.h]) *)

Definition TSD_PERF_MODE_NONE : Z := 0.
Definition TSD_PERF_MODE_HARDWARE : Z := 1.
Definition TSD_PERF_MODE_SOFTWARE : Z := 2.

(** ** Environment *)

Record host : Type := mkHost {
  cpuid_1_ecx : option Z;       (** leaf 1, [None] when the leaf is not supported *)
  cpuid_7_ebx : option Z;       (** leaf 7, sub-leaf 0 *)
  xgetbv_eax : Z;
  xgetbv_edx : Z;
}.

Class Env : Type := mkEnv {
  env_host : host;
  env_lock : nat -> Z;                (** [pthread_mutex_lock] *)
  env_cond_wait : nat -> Z * Z;       (** [pthread_cond_wait] in the quiescence loop: its result and
                                          the number of wide executions the waiter then finds *)
  env_steady : nat -> Z;              (** [std::chrono::steady_clock::now()], ns since its epoch *)
  env_clock : nat -> option (Z * Z);  (** [clock_gettime(CLOCK_MONOTONIC)] *)
  env_page_size : nat -> Z;           (** [sysconf(_SC_PAGESIZE)] *)
  env_mmap : nat -> Z;                (** address, 0 for [MAP_FAILED] *)
  env_mprotect : nat -> Z;
  env_maps_rx : nat -> bool;          (** the [/proc/self/maps] line of an address is [r-x] *)
  env_sha256_ok : nat -> bool;        (** OpenSSL [SHA256] returned a digest *)
  env_sha256 : list Z -> Z;           (** the digest of these bytes *)
  env_errno : nat -> Z;               (** [errno] left by a failed system call *)
  env_calloc : nat -> bool;           (** [calloc] found memory *)
  env_cancel : nat -> Z;              (** [pthread_setcancelstate] *)
  env_kernel : nat -> option Z;       (** application kernel: its return value, or [None] when the
                                          thread is cancelled before it returns *)
}.

(** ** State of the translation units *)

(** [src/src/runtime_guard.c] *)
Record tsd_safety_config_snapshot_t : Type := mkSafetyCfg {
  sc_max_skew_ms : Z;
  sc_temp_ceiling_c : Z;
  sc_safety_margin_c : Z;
  sc_emergency_margin_c : Z;
}.

Record guard_state : Type := mkGuard {
  g_active_wide_executions : Z;
  g_wide_admission_open : bool;
  g_runtime_stopping : bool;
  g_runtime_owner_tid : Z;
  g_wide_execution_depth : Z;           (** thread-local of the running thread *)
  g_config_snapshot_state : Z;          (** 0 inactive, 1 publishing, 2 active *)
  g_config_snapshot : tsd_runtime_config;
  g_safety_snapshot_state : Z;
  g_safety_snapshot : tsd_safety_config_snapshot_t;
}.
#[export] Instance eta_guard : Eta guard_state := fun r =>
  mkGuard (g_active_wide_executions r) (g_wide_admission_open r) (g_runtime_stopping r)
    (g_runtime_owner_tid r) (g_wide_execution_depth r) (g_config_snapshot_state r)
    (g_config_snapshot r) (g_safety_snapshot_state r) (g_safety_snapshot r).

(** [src/src/patcher/trampoline_state.c] and the context of
    [src/src/patcher/trampoline.cpp]; slot pointers are addresses, 0 is null. *)
Record tramp_state : Type := mkTramp {
  t_selection_word : Z;
  t_current_width : simd_width_t;
  t_current_width_byte : Z;
  t_initialized : bool;
  t_active_trampoline : Z;
  t_last_patch_attempt : Z;
  t_last_patched_width : Z;
  t_page_a_writable : bool;
  t_page_b_writable : bool;
  t_page_a : Z;
  t_ctx_active : Z;
  t_ctx_inactive : Z;
  t_slots : list Z;                      (** [g_slots] *)
  t_code : list (Z * list Z);            (** bytes written to slots of the code page *)
  t_hash : option Z;                     (** [g_active_hash] when valid *)
}.
#[export] Instance eta_tramp : Eta tramp_state := fun r =>
  mkTramp (t_selection_word r) (t_current_width r) (t_current_width_byte r) (t_initialized r)
    (t_active_trampoline r) (t_last_patch_attempt r) (t_last_patched_width r)
    (t_page_a_writable r) (t_page_b_writable r) (t_page_a r) (t_ctx_active r) (t_ctx_inactive r)
    (t_slots r) (t_code r) (t_hash r).

(** [src/src/config/runtime_flags.c] *)
Record flags_state : Type := mkFlags {
  f_sandbox_complete : bool;
  f_sandbox_success : bool;
  f_sandbox_only : bool;
  f_sandbox_message : string;
}.
#[export] Instance eta_flags : Eta flags_state := fun r =>
  mkFlags (f_sandbox_complete r) (f_sandbox_success r) (f_sandbox_only r) (f_sandbox_message r).

(** [src/src/observability/telemetry_state.cpp]: the fields the safety guard
    reads, and the fusion gate of [src/src/telemetry/fusion_bridge.cpp]. *)
Record obs_state : Type := mkObs {
  o_perf_mode : Z;
  o_perf_counters_healthy : bool;
  o_perf_pinned_cpu : Z;
  o_perf_monitor_cpu : Z;
  o_perf_freshness_at : Z;
  o_fusion_obs_running : bool;
  o_raw_temp_available : bool;
  o_raw_package_temp_c : double;
  o_raw_temp_freshness_at : Z;
  o_fusion_running : bool;               (** [g_fusion_running] *)
  o_temperature_upgrade_allowed : bool;  (** [g_temperature_upgrade_allowed] *)
}.
#[export] Instance eta_obs : Eta obs_state := fun r =>
  mkObs (o_perf_mode r) (o_perf_counters_healthy r) (o_perf_pinned_cpu r) (o_perf_monitor_cpu r)
    (o_perf_freshness_at r) (o_fusion_obs_running r) (o_raw_temp_available r)
    (o_raw_package_temp_c r) (o_raw_temp_freshness_at r) (o_fusion_running r)
    (o_temperature_upgrade_allowed r).

(** Mutexes held by the running thread; those of the life cycle are in
    [Lifecycle.v]. *)
Record lock_state : Type := mkLocks {
  l_guard_update : bool;
  l_wide_drain : bool;
  l_sandbox_message : bool;
  l_patch : bool;
  l_attestation : bool;
}.
#[export] Instance eta_locks : Eta lock_state := fun r =>
  mkLocks (l_guard_update r) (l_wide_drain r) (l_sandbox_message r) (l_patch r)
    (l_attestation r).

Definition no_locks : lock_state := mkLocks false false false false false.

(** A call of a registered application kernel: the function (an address, 0 is
    null), the range it was given, and the wide executions then in flight. *)
Record kernel_call : Type := mkCall {
  kc_fn : Z; kc_offset : Z; kc_items : Z; kc_active : Z }.

(** Process-wide flags and counters of the remaining C units. *)
Record world : Type := mkWorld {
  w_calls : nat;                 (** external calls made so far *)
  w_errno : Z;
  w_self_tid : Z;                (** [gettid()] of the running thread *)
  w_locks : lock_state;
  w_deadlock : bool;
  w_guard : guard_state;
  w_tramp : tramp_state;
  w_flags : flags_state;
  w_obs : obs_state;
  w_config : tsd_runtime_config; (** [g_tsd_config] *)
  w_degraded : bool;             (** [g_tsd_degraded_active] *)
  w_avx_available : bool;        (** [g_tsd_avx_available] *)
  w_metrics : list Z;            (** [g_tsd_metric_counters] *)
  w_workload_iterations : Z;     (** [g_tsd_workload_iterations] *)
  w_running : bool;              (** [g_tsd_running] *)
  w_stop_requested : bool;       (** [g_tsd_stop_requested] *)
  w_reload_requested : bool;     (** [g_tsd_reload_requested] *)
  w_cancel_enabled : bool;       (** cancellation state of the running thread *)
  w_kernel_log : list kernel_call; (** kernel calls made, oldest first *)
}.
#[export] Instance eta_world : Eta world := fun r =>
  mkWorld (w_calls r) (w_errno r) (w_self_tid r) (w_locks r) (w_deadlock r) (w_guard r)
    (w_tramp r) (w_flags r) (w_obs r) (w_config r) (w_degraded r) (w_avx_available r)
    (w_metrics r) (w_workload_iterations r) (w_running r) (w_stop_requested r)
    (w_reload_requested r) (w_cancel_enabled r) (w_kernel_log r).

Abbreviation M := (ST world).

(** ** Primitive effects *)

Definition ext {A} (f : nat -> A) : M A :=
  fun w => (f (w_calls w), w <| w_calls ::= S |>).

Definition set_errno (e : Z) : M unit := modify (fun w => w <| w_errno := e |>).

(** [errno = e; return -1;] *)
Definition fail (e : Z) : M Z := set_errno e ;;; ret (-1).

Definition on_guard (f : guard_state -> guard_state) : M unit := modify (fun w => w <| w_guard ::= f |>).
Definition on_tramp (f : tramp_state -> tramp_state) : M unit := modify (fun w => w <| w_tramp ::= f |>).
Definition on_flags (f : flags_state -> flags_state) : M unit := modify (fun w => w <| w_flags ::= f |>).
Definition on_obs (f : obs_state -> obs_state) : M unit := modify (fun w => w <| w_obs ::= f |>).

(** A mutex, as the field of [lock_state] that tells whether it is held. *)
Record mutex : Type := mkMutex {
  mx_held : lock_state -> bool;
  mx_set : bool -> lock_state -> lock_state;
}.

Definition g_tsd_guard_update_lock : mutex := mkMutex l_guard_update (fun b => over l_guard_update (fun _ => b)).
Definition g_tsd_wide_drain_lock : mutex := mkMutex l_wide_drain (fun b => over l_wide_drain (fun _ => b)).
Definition g_sandbox_message_lock : mutex := mkMutex l_sandbox_message (fun b => over l_sandbox_message (fun _ => b)).
Definition g_tsd_patch_lock : mutex := mkMutex l_patch (fun b => over l_patch (fun _ => b)).
Definition g_attestation_lock : mutex := mkMutex l_attestation (fun b => over l_attestation (fun _ => b)).

Section effects.
Context `{Env}.

Definition pthread_mutex_lock (m : mutex) : M Z :=
  rc <- ext env_lock ;;
  if rc =? 0 then
    modify (fun w => w <| w_deadlock ::= orb (mx_held m (w_locks w)) |>
                       <| w_locks ::= mx_set m true |>) ;;;
    ret 0
  else ret rc.

(** The code only unlocks mutexes it holds, for which the call succeeds. *)
Definition pthread_mutex_unlock (m : mutex) : M Z :=
  modify (fun w => w <| w_locks ::= mx_set m false |>) ;;; ret 0.
End effects.

Definition current_tid : M Z := gets w_self_tid.

(** Metric counters are 64-bit and wrap. *)
Definition TSD_METRIC_PERF_FALLBACKS : nat := 0.
Definition TSD_METRIC_PERF_RECOVERIES : nat := 1.
Definition TSD_METRIC_PATCH_TRANSITIONS : nat := 8.
Definition TSD_METRIC_PATCH_FAILURES : nat := 9.
Definition TSD_METRIC_HEALTH_CHECK_FAILURES : nat := 10.
Definition TSD_METRIC_SOFTWARE_TIMEOUT_ESCALATIONS : nat := 11.
Definition TSD_METRIC_COUNT : nat := 18.

(** [tsd_metrics_add]: an out-of-range identifier is ignored (list update does
    nothing beyond the end of the array of [TSD_METRIC_COUNT] counters). *)
Definition tsd_metrics_add (id : nat) (value : Z) : M unit :=
  modify (fun w => w <| w_metrics ::= alter (fun c => u64 (c + value)) id |>).
Definition tsd_metrics_increment (id : nat) : M unit := tsd_metrics_add id 1.

(** ** A fresh process *)

Definition initial_tramp : tramp_state := mkTramp 0 0 0 false 0 0 0 false false 0 0 0 [0; 0; 0] [] None.
Definition initial_guard (cfg : tsd_runtime_config) : guard_state :=
  mkGuard 0 false false 0 0 0 cfg 0 (mkSafetyCfg 0 0 0 0).
Definition initial_flags : flags_state := mkFlags false false false "sandbox pending".
Definition initial_obs : obs_state := mkObs 0 false (-1) (-1) 0 false false f64_zero 0 false true.

Definition initial_world (tid : Z) (cfg : tsd_runtime_config) : world :=
  mkWorld 0 0 tid no_locks false (initial_guard cfg) initial_tramp initial_flags initial_obs cfg
    false false (replicate TSD_METRIC_COUNT 0) 0 true false false true [].

(** An environment in which every call succeeds: the host has all three widths
    enabled (OSXSAVE, AVX, SSE4.1; AVX2, AVX-512 F/DQ/BW/VL/CD; XCR0 = 0xE6),
    the clock stands at one second and mappings start at 0x10000. *)
Definition quiet_env : Env :=
  mkEnv (mkHost (Some (Z.lor (Z.shiftl 1 19) (Z.lor (Z.shiftl 1 27) (Z.shiftl 1 28))))
               (Some (Z.lor (Z.shiftl 1 5) (Z.lor (Z.shiftl 1 16) (Z.lor (Z.shiftl 1 17)
                      (Z.lor (Z.shiftl 1 28) (Z.lor (Z.shiftl 1 30) (Z.shiftl 1 31))))))) 230 0)
    (fun _ => 0) (fun _ => (0, 0)) (fun _ => 1000000000) (fun _ => Some (1, 0)) (fun _ => 4096)
    (fun _ => 65536) (fun _ => 0) (fun _ => true) (fun _ => true) (fun bytes => Z.of_nat (List.length bytes))
    (fun _ => 0) (fun _ => true) (fun _ => 0) (fun _ => Some 0).

(** ** Reading a run *)

Lemma ext_run {A} (f : nat -> A) w : ext f w = (f (w_calls w), w <| w_calls ::= S |>).
Proof. done. Qed.

Lemma wp_ext {A} (f : nat -> A) Q w : Q (f (w_calls w)) (w <| w_calls ::= S |>) -> wp (ext f) Q w.
Proof. done. Qed.
