(* ===== verification/Tuner.v ===== *)
(** * Tuner: the policy tuner of [src/src/tools/policy_tuner]

    An offline tool: it reads an archive of telemetry samples (comma-separated
    lines), derives a predictive-policy configuration from their averages and
    extremes, and writes it as a JSON bundle.  Numbers are IEEE doubles read by
    [std::stod], so a sample may be an infinity or a NaN; [std::lround] of a
    value outside [long] is unspecified and comes from the environment, as do the
    answers of the file system. *)
From S2P Require Import Prelude Float64 Format FloatText Config World.
From Stdlib Require Import SpecFloat Ascii String.
#[local] Open Scope string_scope.
#[local] Open Scope Z_scope.

Record TelemetrySample : Type := mkTelemetrySample {
  cpi_ratio : double;
  package_temp_c : double;
  dwell_ms : double;
  sample_width : simd_width_t;
}.

Record TuningResult : Type := mkTuningResult {
  tr_policy : tsd_policy_config;
  tr_score : double;
  tr_sample_count : Z;
}.

Class TunerEnv : Type := mkTunerEnv {
  te_archive : string -> option string;      (** the file's contents, if it opens *)
  te_lround : double -> Z;                   (** [std::lround] outside the range of [long] *)
  te_parent : string -> bool;                (** the directory of a path is there, or was created *)
  te_open : string -> bool;                  (** [std::ofstream] with [std::ios::trunc] *)
}.

(** ** Reading the archive *)

Definition ParseWidth (token : string) : simd_width_t :=
  if String.eqb token "avx512" then SIMD_AVX512 else if String.eqb token "avx2" then SIMD_AVX2 else SIMD_SSE41.

(** [std::getline(stream, item, ',')] *)
Fixpoint getitem (s : string) : option (string * string) :=
  match s with
  | "" => None
  | String c s =>
      if code c =? 44 then Some ("", s)
      else match getitem s with Some (l, r) => Some (String c l, r) | None => Some (String c "", "") end
  end.

(** One leading and then one trailing blank is removed. *)
Definition drop_front_blank (item : string) : string :=
  match item with String c rest => if code c =? 32 then rest else item | "" => item end.
Fixpoint drop_back_blank (item : string) : string :=
  match item with
  | "" => ""
  | String c "" => if code c =? 32 then "" else String c ""
  | String c rest => String c (drop_back_blank rest)
  end.
Definition trim_item (item : string) : string := drop_back_blank (drop_front_blank item).

(** The loop, which ends with the stream: an item takes a character. *)
Fixpoint split_items (fuel : nat) (s : string) : list string :=
  match fuel with
  | O => []
  | S fuel => match getitem s with None => [] | Some (item, rest) => trim_item item :: split_items fuel rest end
  end.

Definition SplitCSVLine (line : string) : list string := split_items (S (String.length line)) line.

(** [std::stod]: it throws without a conversion and on a range error. *)
Definition stod (s : string) : option double :=
  let r := strtod s in
  match st_end r with
  | None => None
  | Some _ => if st_errno r =? ERANGE then None else Some (st_val r)
  end.

Definition parse_sample (tokens : list string) : option TelemetrySample :=
  match tokens with
  | _ :: _ :: width :: ratio :: temp :: more =>
      match stod ratio, stod temp, match more with dwell :: _ => stod dwell | [] => Some f64_zero end with
      | Some ratio, Some temp, Some dwell => Some (mkTelemetrySample ratio temp dwell (ParseWidth width))
      | _, _, _ => None
      end
  | _ => None
  end.

Definition skipped (line : string) : bool := match line with "" => true | String c _ => code c =? 35 end.

Fixpoint load_samples (fuel : nat) (s : string) : list TelemetrySample :=
  match fuel with
  | O => []
  | S fuel =>
      match getline s with
      | None => []
      | Some (line, rest) =>
          if skipped line then load_samples fuel rest
          else match parse_sample (SplitCSVLine line) with
               | Some sample => sample :: load_samples fuel rest
               | None => load_samples fuel rest
               end
      end
  end.

(** ** Tuning *)

Definition fmax (a b : double) : double := if flt a b then b else a.
Definition fmin (a b : double) : double := if flt b a then b else a.

Definition ClampDouble (value min_value max_value : double) : double := fmax min_value (fmin max_value value).

Section tuner.
Context `{TE : TunerEnv}.

(** Rounding half away from zero. *)
Definition lround (x : double) : Z :=
  match x with
  | S754_zero _ => 0
  | S754_finite s m e =>
      let '(num, den) := magnitude m e in
      let a := (2 * num + den) / (2 * den) in
      let v := if s then - a else a in
      if (LONG_MIN <=? v) && (v <=? LONG_MAX) then v else te_lround x
  | _ => te_lround x
  end.

(** The sums and extremes of the loop. *)
Record tally : Type := mkTally { ratio_sum : double; dwell_sum : double; max_temp : double; min_ratio : double; max_ratio : double }.

Definition no_samples : tally :=
  mkTally f64_zero f64_zero (f64_of_Z (-1000000000)) (S754_infinity false) f64_zero.

Definition add_sample (t : tally) (s : TelemetrySample) : tally :=
  mkTally (fadd (ratio_sum t) (cpi_ratio s)) (fadd (dwell_sum t) (dwell_ms s)) (fmax (max_temp t) (package_temp_c s))
    (fmin (min_ratio t) (cpi_ratio s)) (fmax (max_ratio t) (cpi_ratio s)).

Definition thousand : double := f64_of_Z 1000.

(** [std::clamp<std::uint32_t>(v, 1u, 60u)] *)
Definition clamp_horizon (v : Z) : Z := if v <? 1 then 1 else if v >? 60 then 60 else v.

Definition TuneFromSamples (samples : list TelemetrySample) : TuningResult :=
  let count := Z.of_nat (List.length samples) in
  match samples with
  | [] => mkTuningResult (tsd_policy_config_apply_bounds tsd_policy_config_defaults) f64_zero count
  | _ =>
      let t := fold_left add_sample samples no_samples in
      let ratio_mean := fdiv (ratio_sum t) (f64_of_Z count) in
      let dwell_mean := fdiv (dwell_sum t) (f64_of_Z count) in
      let slo_ratio := ClampDouble (fmul ratio_mean thousand) (f64_of_Z 900) (f64_of_Z 4000) in
      let slo_temp := ClampDouble (fmul (max_temp t) thousand) (f64_of_Z 60000) (f64_of_Z 100000) in
      let baseline_penalty := ClampDouble (fadd (fdiv dwell_mean (f64_of_Z 12)) (f64_of_Z 400)) (f64_of_Z 200) (f64_of_Z 4000) in
      let down := ClampDouble (fmul baseline_penalty (f64_ratio 5 4)) (f64_of_Z 250) (f64_of_Z 6000) in
      let spread := fmax (f64_of_Z 1) (fsub (max_ratio t) (min_ratio t)) in
      let horizon := clamp_horizon (u32 (lround (fmul spread (f64_of_Z 3)))) in
      let policy := mkPolicyConfig (u32 (lround slo_ratio)) (i32 (lround slo_temp)) (u32 (lround baseline_penalty))
                      (u32 (lround down)) horizon in
      let score := fsub (fmul ratio_mean (fadd (f64_of_Z 1) (fdiv (max_temp t) (f64_of_Z 100)))) (fdiv dwell_mean thousand) in
      mkTuningResult (tsd_policy_config_apply_bounds policy) score count
  end.

Definition LoadArchive (path : string) : list TelemetrySample :=
  match te_archive path with None => [] | Some s => load_samples (S (String.length s)) s end.

(** ** Writing the bundle *)

Definition member (name value : string) : string := "    " ++ in_quotes name ++ ": " ++ value.

Definition bundle_text (r : TuningResult) : string :=
  let p := tr_policy r in
  "{" ++ nl ++
  "  " ++ in_quotes "metadata" ++ ": {" ++ nl ++
  member "score" (f64_fixed 3 (tr_score r)) ++ "," ++ nl ++
  member "samples" (decimal (tr_sample_count r)) ++ nl ++
  "  }," ++ nl ++
  "  " ++ in_quotes "policy" ++ ": {" ++ nl ++
  member "slo_ratio_milli" (decimal (slo_ratio_milli p)) ++ "," ++ nl ++
  member "slo_temp_millic" (decimal (slo_temp_millic p)) ++ "," ++ nl ++
  member "transition_penalty_up_milli" (decimal (transition_penalty_up_milli p)) ++ "," ++ nl ++
  member "transition_penalty_down_milli" (decimal (transition_penalty_down_milli p)) ++ "," ++ nl ++
  member "forecast_horizon" (decimal (forecast_horizon p)) ++ nl ++
  "  }" ++ nl ++
  "}" ++ nl.

(** The text given to the file, or [None] when the function returns false.
    Whether the stream could store it is not looked at. *)
Definition WritePolicyBundle (path : string) (r : TuningResult) : option string :=
  if negb (te_parent path) then None
  else if negb (te_open path) then None
  else Some (bundle_text r).

(** The exit status, what the bundle file is given, and what the two streams
    print; [args] is [argv]. *)
Definition policy_tuner_main (args : list string) : Z * option string * (string * string) :=
  match args with
  | _ :: archive_path :: output_path :: _ =>
      let samples := LoadArchive archive_path in
      let warning := match samples with
                     | [] => "policy_tuner: no telemetry samples loaded from '" ++ archive_path ++ "'" ++ nl
                     | _ => "" end in
      let result := TuneFromSamples samples in
      match WritePolicyBundle output_path result with
      | None => (1, None, ("", warning ++ "policy_tuner: failed to write policy bundle to '" ++ output_path ++ "'" ++ nl))
      | Some text =>
          (0, Some text, ("policy_tuner: wrote policy bundle to '" ++ output_path ++ "' (samples=" ++ decimal (tr_sample_count result) ++ ")" ++ nl, warning))
      end
  | _ =>
      let prog := match args with prog :: _ => prog | [] => "policy_tuner" end in
      (1, None, ("", "Usage: " ++ prog ++ " <telemetry-archive.csv> <output-bundle.json>" ++ nl))
  end.
End tuner.

(** ** Facts *)

(** A double that is the integer [n], normalised. *)
Definition exactly (x : double) (n : Z) : Prop :=
  exists m e, x = S754_finite false m e /\ 2 ^ 52 <= Z.pos m < 2 ^ 53 /\ -1074 < e <= 0 /\ Z.pos m = n * 2 ^ (- e).

Ltac exact_number := eexists _, _; split; [vm_compute; reflexivity|]; split; [split; vm_compute; congruence|]; split; [lia | vm_compute; reflexivity].

Lemma clamp_cases v lo hi :
  ClampDouble v lo hi = lo \/ ClampDouble v lo hi = hi \/
  (ClampDouble v lo hi = v /\ flt lo v = true /\ flt v hi = true).
Proof.
  unfold ClampDouble, fmax, fmin. destruct (flt v hi) eqn:E1; destruct (flt lo _) eqn:E2; auto.
Qed.

(** The numbers of the source. *)
Lemma exact_200 : exactly (f64_of_Z 200) 200. Proof. exact_number. Qed.
Lemma exact_250 : exactly (f64_of_Z 250) 250. Proof. exact_number. Qed.
Lemma exact_400 : exactly (f64_of_Z 400) 400. Proof. exact_number. Qed.
Lemma exact_900 : exactly (f64_of_Z 900) 900. Proof. exact_number. Qed.
Lemma exact_1000 : exactly thousand 1000. Proof. exact_number. Qed.
Lemma exact_4000 : exactly (f64_of_Z 4000) 4000. Proof. exact_number. Qed.
Lemma exact_6000 : exactly (f64_of_Z 6000) 6000. Proof. exact_number. Qed.
Lemma exact_60000 : exactly (f64_of_Z 60000) 60000. Proof. exact_number. Qed.
Lemma exact_100000 : exactly (f64_of_Z 100000) 100000. Proof. exact_number. Qed.

Section facts.
Context `{TE : TunerEnv}.

Lemma lround_integer m e n :
  2 ^ 52 <= Z.pos m < 2 ^ 53 -> -1074 < e <= 0 -> Z.pos m = n * 2 ^ (- e) -> lround (S754_finite false m e) = n.
Proof.
  intros Hm He Hn. unfold lround, magnitude. assert (Hp : 0 < 2 ^ (- e)) by lia.
  assert (Hb : 0 < n < 2 ^ 53) by nia.
  assert (E : (if 0 <=? e then (Z.pos m * 2 ^ e, 1) else (Z.pos m, 2 ^ (- e))) = (n * 2 ^ (- e), 2 ^ (- e))).
  { destruct (Z.leb_spec 0 e); [|by rewrite Hn]. assert (e = 0) as -> by lia. rewrite Hn. change (2 ^ (- 0)) with 1. change (2 ^ 0) with 1. f_equal. lia. }
  rewrite E. assert (Ea : (2 * (n * 2 ^ (- e)) + 2 ^ (- e)) / (2 * 2 ^ (- e)) = n).
  { symmetry. apply (Z.div_unique_pos _ _ n (2 ^ (- e))); lia. }
  rewrite Ea. assert ((LONG_MIN <=? n) && (n <=? LONG_MAX) = true) as ->; [|done].
  apply andb_true_iff. split; apply Z.leb_le; unfold LONG_MIN, LONG_MAX; lia.
Qed.

(** Clamping and rounding to integers stay between the integers. *)
Lemma clamped_lround v lo hi L H :
  canonical v -> exactly lo L -> exactly hi H -> L <= H < 2 ^ 52 -> L <= lround (ClampDouble v lo hi) <= H.
Proof.
  intros Hv (ml & el & -> & Hml & Hel & El) (mh & eh & -> & Hmh & Heh & Eh) HLH.
  destruct (clamp_cases v (S754_finite false ml el) (S754_finite false mh eh)) as [-> | [-> | (-> & H1 & H2)]].
  - rewrite (lround_integer ml el L) by done. lia.
  - rewrite (lround_integer mh eh H) by done. lia.
  - destruct v as [s|[]| |s m e]; try (by destruct s); try done. destruct s; [done|].
    assert (Hcl : canonical (S754_finite false ml el)) by (cbn [canonical]; lia). assert (Hch : canonical (S754_finite false mh eh)) by (cbn [canonical]; lia).
    assert (He : -1074 < e).
    { unfold flt, SFltb, SFcompare in H1. destruct (Z.compare_spec el e); try done; lia. }
    pose proof (flt_value ml el m e 1074 Hcl Hv He ltac:(lia) ltac:(lia) H1) as B1.
    pose proof (flt_value m e mh eh 1074 Hv Hch ltac:(lia) ltac:(lia) ltac:(lia) H2) as B2.
    destruct Hv as (_ & Hm2 & Hm1). specialize (Hm1 He).
    assert (Hval : forall n x ex, -1074 < ex <= 0 -> Z.pos x = n * 2 ^ (- ex) -> Z.pos x * 2 ^ (ex + 1074) = n * 2 ^ 1074).
    { intros n x ex Hex Hx. rewrite Hx, <- Z.mul_assoc, <- Z.pow_add_r by lia. do 2 f_equal. lia. }
    rewrite (Hval L ml el) in B1 by done. rewrite (Hval H mh eh) in B2 by done.
    destruct (Z.le_gt_cases 0 e) as [Hge|Hlt].
    { exfalso. rewrite Z.pow_add_r, Z.mul_assoc in B2 by lia. apply Z.mul_lt_mono_pos_r in B2; [|lia].
      assert (1 <= 2 ^ e) by (pose proof (Z.pow_pos_nonneg 2 e); lia). nia. }
    set (den := 2 ^ (- e)). assert (Hden : 0 < den) by (unfold den; lia).
    assert (Hsplit : 2 ^ 1074 = den * 2 ^ (e + 1074)) by (unfold den; rewrite <- Z.pow_add_r by lia; f_equal; lia).
    assert (Hpe : 0 < 2 ^ (e + 1074)) by lia. rewrite Hsplit, Z.mul_assoc in B1, B2. apply Z.mul_lt_mono_pos_r in B1, B2; [|done..].
    unfold lround, magnitude. rewrite (proj2 (Z.leb_gt 0 e)) by lia. fold den.
    set (a := (2 * Z.pos m + den) / (2 * den)).
    assert (Ha : L <= a <= H).
    { unfold a. split; [apply Z.div_le_lower_bound; lia|]. apply Z.lt_succ_r, Z.div_lt_upper_bound; lia. }
    assert ((LONG_MIN <=? a) && (a <=? LONG_MAX) = true) as ->; [|done].
    assert (HL : 0 <= L) by (assert (0 < 2 ^ (- el)) by lia; nia).
    apply andb_true_iff. split; apply Z.leb_le; unfold LONG_MIN, LONG_MAX; lia.
Qed.

Lemma canonical_product x n c : exactly c n -> canonical (fmul x c).
Proof. intros (m & e & -> & Hm & _). apply fmul_canonical. lia. Qed.

Lemma canonical_five_quarters x : canonical (fmul x (f64_ratio 5 4)).
Proof.
  assert (E : exists m e, f64_ratio 5 4 = S754_finite false m e /\ 2 ^ 52 <= Z.pos m)
    by (eexists _, _; split; [vm_compute; reflexivity | vm_compute; discriminate]).
  destruct E as (m & e & -> & Hm). by apply fmul_canonical.
Qed.

Lemma canonical_sum x n c : exactly c n -> canonical (fadd x c).
Proof. intros (m & e & -> & Hm & He & _). apply fadd_rounds. cbn [canonical]. lia. Qed.
End facts.

(** What a tuned policy may hold. *)
Record policy_bounded (p : tsd_policy_config) : Prop := {
  pb_ratio : 900 <= slo_ratio_milli p <= 4000;
  pb_temp : 60000 <= slo_temp_millic p <= 100000;
  pb_up : 200 <= transition_penalty_up_milli p <= 4000;
  pb_down : 250 <= transition_penalty_down_milli p <= 6000;
  pb_horizon : 1 <= forecast_horizon p <= 60;
}.

Lemma clamp_horizon_range v : 1 <= clamp_horizon v <= 60.
Proof. unfold clamp_horizon. rewrite Z.gtb_ltb. repeat case_if; zbool; lia. Qed.

Lemma u32_between v L H : L <= v <= H -> 0 <= L -> H <= UINT32_MAX -> L <= u32 v <= H.
Proof. intros Hv HL HH. rewrite u32_small; [done|]. unfold in_u32. lia. Qed.
Lemma i32_between v L H : L <= v <= H -> 0 <= L -> H <= INT_MAX -> L <= i32 v <= H.
Proof. intros Hv HL HH. rewrite i32_small; [done|]. unfold Prelude.in_int, INT_MIN. lia. Qed.

Lemma apply_bounds_id p : 1 <= forecast_horizon p -> tsd_policy_config_apply_bounds p = p.
Proof. intros H. unfold tsd_policy_config_apply_bounds. by rewrite (proj2 (Z.eqb_neq _ 0)) by lia. Qed.

Section properties.
Context `{TE : TunerEnv}.

End properties.

(** The loops reach the end of their stream: more fuel changes nothing. *)
Lemma getitem_shorter s item rest : getitem s = Some (item, rest) -> (String.length rest < String.length s)%nat.
Proof.
  revert item rest. induction s as [|c s IH]; intros item rest; cbn [getitem]; [done|].
  destruct (code c =? 44); [intros [= <- <-]; cbn; lia|].
  destruct (getitem s) as [[l r]|]; intros [= <- <-]; cbn [String.length]; [|lia]. specialize (IH l r eq_refl). lia.
Qed.

Lemma split_items_fuel n m s : (String.length s < n)%nat -> (String.length s < m)%nat -> split_items n s = split_items m s.
Proof.
  revert m s. induction n as [|n IH]; intros [|m] s Hn Hm; [lia..|]. cbn [split_items].
  destruct (getitem s) as [[item rest]|] eqn:E; [|done]. apply getitem_shorter in E. f_equal. apply IH; lia.
Qed.

Lemma load_samples_fuel n m s : (String.length s < n)%nat -> (String.length s < m)%nat -> load_samples n s = load_samples m s.
Proof.
  revert m s. induction n as [|n IH]; intros [|m] s Hn Hm; [lia..|]. cbn [load_samples].
  destruct (getline s) as [[line rest]|] eqn:E; [|done]. apply getline_shorter in E.
  destruct (skipped line); [apply IH; lia|]. destruct (parse_sample _); [f_equal|]; apply IH; lia.
Qed.

(** ** Concrete archives *)

Definition sample_archive : string :=
  "# time,host,width,ratio,temp,dwell" ++ nl ++ "1,a, avx2 ,1.5,70,1200" ++ nl ++ "2,a,sse,not a number,70" ++ nl ++ "3,a,avx512,1.25,82.5,600,x" ++ nl.

(** On x86-64 [lround] answers [LONG_MIN] outside its range. *)
Definition example_files : TunerEnv :=
  mkTunerEnv (fun p => if String.eqb p "ok.csv" then Some sample_archive
                       else if String.eqb p "nan.csv" then Some ("1,a,sse,nan,70,100" ++ nl)
                       else if String.eqb p "wide.csv" then Some ("1,a,sse,0,70,100" ++ nl ++ "2,a,sse,1431655766,70,100" ++ nl)
                       else None)
    (fun _ => LONG_MIN) (fun _ => true) (fun _ => true).

Example tune_example :
  let r := TuneFromSamples (TE := example_files) (LoadArchive (TE := example_files) "ok.csv") in
  tr_sample_count r = 2 /\ tr_policy r = mkPolicyConfig 1375 82500 475 594 3.
Proof. vm_compute. split; reflexivity. Qed.

(** One NaN ratio in the archive gives the loosest ratio target, and a score that
    makes the bundle invalid JSON. *)
Theorem nan_sample_loosens_policy :
  let r := TuneFromSamples (TE := example_files) (LoadArchive (TE := example_files) "nan.csv") in
  slo_ratio_milli (tr_policy r) = 4000 /\ strstr (bundle_text r) (in_quotes "score" ++ ": nan,") = true.
Proof. vm_compute. split; reflexivity. Qed.

(** The horizon is converted to 32 bits before it is limited: a spread of
    1431655766 gives a horizon of 2 instead of 60. *)
Theorem wide_spread_wraps_horizon :
  forecast_horizon (tr_policy (TuneFromSamples (TE := example_files) (LoadArchive (TE := example_files) "wide.csv"))) = 2.
Proof. vm_compute. reflexivity. Qed.

(** Without an archive the tool writes the defaults and reports success. *)
Example tune_missing_archive :
  exists text out err, policy_tuner_main (TE := example_files) ["tuner"; "missing.csv"; "out.json"] = (0, Some text, (out, err)) /\
    strstr text (in_quotes "samples" ++ ": 0") = true.
Proof. vm_compute. do 3 eexists. split; reflexivity. Qed.
