(* ===== verification/Cpu.v ===== *)
(** * Cpu: host capability detection of [src/src/thermal_cpu.c]

    [cpuid] and [xgetbv] answers come from the environment's [host]; feature
    bits are read with the masks of the source. *)
From S2P Require Import Prelude Float64 Config World.
#[local] Open Scope Z_scope.

Section cpu.
Context `{Env}.

(** [(reg & (1u << n)) != 0] *)
Definition bit_set (reg : Z) (n : Z) : bool := negb (Z.land reg (Z.shiftl 1 n) =? 0).

Definition tsd_cpu_avx_available : M bool := gets w_avx_available.

Definition tsd_cpu_has_sse41 : bool :=
  match cpuid_1_ecx env_host with None => false | Some ecx => bit_set ecx 19 end.

Definition cpu_has_avx_bit : bool :=
  match cpuid_1_ecx env_host with None => false | Some ecx => bit_set ecx 28 end.

(** [((uint64_t)edx << 32) | eax] *)
Definition xcr0 : Z := Z.lor (Z.shiftl (xgetbv_edx env_host) 32) (xgetbv_eax env_host).

Definition check_xsave_support : bool :=
  match cpuid_1_ecx env_host with
  | None => false
  | Some ecx => if bit_set ecx 27 then Z.land xcr0 6 =? 6 else false
  end.

Definition detect_impl (cfg : option tsd_runtime_config) : M simd_width_t :=
  if negb tsd_cpu_has_sse41 then ret SIMD_SSE41
  else if negb check_xsave_support then ret SIMD_SSE41
  else
    when cpu_has_avx_bit (modify (fun w => w <| w_avx_available := true |>)) ;;;
    let allow := match cfg with Some c => allow_avx512 c | None => false end in
    match cpuid_7_ebx env_host with
    | Some ebx =>
        if allow then
          if bit_set ebx 16 && cpu_has_avx_bit && (Z.land xcr0 230 =? 230) then ret SIMD_AVX512
          else if bit_set ebx 5 && cpu_has_avx_bit then ret SIMD_AVX2
          else ret SIMD_SSE41
        else if bit_set ebx 5 && cpu_has_avx_bit then ret SIMD_AVX2
        else ret SIMD_SSE41
    | None => ret SIMD_SSE41
    end.

Definition tsd_detect_max_simd (cfg : option tsd_runtime_config) : M simd_width_t := detect_impl cfg.

(** The detected width as a value: it does not depend on the state. *)
Definition detected_width (cfg : option tsd_runtime_config) : simd_width_t :=
  if negb tsd_cpu_has_sse41 || negb check_xsave_support then SIMD_SSE41
  else match cpuid_7_ebx env_host with
       | Some ebx =>
           if match cfg with Some c => allow_avx512 c | None => false end &&
              bit_set ebx 16 && cpu_has_avx_bit && (Z.land xcr0 230 =? 230) then SIMD_AVX512
           else if bit_set ebx 5 && cpu_has_avx_bit then SIMD_AVX2
           else SIMD_SSE41
       | None => SIMD_SSE41
       end.

Lemma detect_run cfg w :
  tsd_detect_max_simd cfg w =
    (detected_width cfg,
     if negb tsd_cpu_has_sse41 || negb check_xsave_support then w
     else if cpu_has_avx_bit then w <| w_avx_available := true |> else w).
Proof.
  unfold tsd_detect_max_simd, detect_impl, detected_width.
  destruct tsd_cpu_has_sse41; [|done]. destruct check_xsave_support; [|done]. cbn [negb orb].
  destruct cpu_has_avx_bit, (cpuid_7_ebx env_host) as [ebx|]; cbn; try done;
    destruct cfg as [c|]; cbn; try destruct (allow_avx512 c); cbn;
    destruct (bit_set ebx 16), (bit_set ebx 5), (Z.land xcr0 230 =? 230); done.
Qed.

Lemma detect_frame cfg w :
  exists a, tsd_detect_max_simd cfg w = (detected_width cfg, w <| w_avx_available := a |>).
Proof.
  rewrite detect_run.
  assert (Hw : w = w <| w_avx_available := w_avx_available w |>) by (by destruct w).
  destruct (_ || _); [exists (w_avx_available w); by rewrite <- Hw|].
  destruct cpu_has_avx_bit; [by exists true | exists (w_avx_available w); by rewrite <- Hw].
Qed.

Lemma detected_width_range cfg : width_in_range (detected_width cfg) = true.
Proof. unfold detected_width. repeat case_if; try done; destruct (cpuid_7_ebx _); repeat case_if; done. Qed.
End cpu.

(** A mask test reads the bits of the mask. *)
Lemma land_mask_testbit x m n : Z.land x m = m -> Z.testbit m n = true -> Z.testbit x n = true.
Proof.
  intros Hx Hm. rewrite <- Hx, Z.land_spec in Hm. by apply andb_true_iff in Hm as [? _].
Qed.

(** AVX-512 is reported only when the configuration allows it, the
    processor announces AVX-512F and AVX, and the operating system has enabled
    the SSE, AVX, opmask and both ZMM state components in XCR0; any reported
    width above SSE4.1 has SSE and AVX state enabled.  Forbidding AVX-512 never
    reports more than AVX2 and never more than allowing it. *)
Theorem detect_requires_os_support `{Env} (c : tsd_runtime_config) (w : world) :
  (result (tsd_detect_max_simd (Some c)) w = SIMD_AVX512 ->
     allow_avx512 c = true /\
     (forall n, In n [1; 2; 5; 6; 7] -> Z.testbit xcr0 n = true) /\ cpu_has_avx_bit = true) /\
  (SIMD_SSE41 < result (tsd_detect_max_simd (Some c)) w ->
     Z.testbit xcr0 1 = true /\ Z.testbit xcr0 2 = true /\ cpu_has_avx_bit = true) /\
  result (tsd_detect_max_simd (Some (c <| allow_avx512 := false |>))) w <= SIMD_AVX2 /\
  result (tsd_detect_max_simd (Some (c <| allow_avx512 := false |>))) w
    <= result (tsd_detect_max_simd (Some (c <| allow_avx512 := true |>))) w.
Proof.
  assert (Hxs : check_xsave_support = true -> Z.testbit xcr0 1 = true /\ Z.testbit xcr0 2 = true).
  { unfold check_xsave_support. destruct (cpuid_1_ecx env_host); [|done].
    destruct (bit_set _ 27); [|done]. intros Hm. zbool.
    split; eapply land_mask_testbit; eauto. }
  unfold result. rewrite !detect_run. unfold detected_width. cbn.
  destruct tsd_cpu_has_sse41, check_xsave_support; cbn; try (repeat split; done).
  destruct (Hxs eq_refl) as [H1 H2].
  destruct (cpuid_7_ebx env_host) as [ebx|]; cbn; [|repeat split; done].
  destruct (allow_avx512 c), (bit_set ebx 16), cpu_has_avx_bit, (bit_set ebx 5),
    (Z.land xcr0 230 =? 230) eqn:Em; cbn; repeat split; try done; zbool;
    intros n Hn; cbn in Hn; intuition subst; eapply land_mask_testbit; eauto.
Qed.
