(* ===== verification/TrampolineState.v ===== *)
(** * TrampolineState: the selection word of [src/src/patcher/trampoline_state.c]

    The selected width and the slot it executes are published together in one
    atomic machine word (the slot pointer with the width in its two low bits);
    the other atomics are diagnostic mirrors. *)
From S2P Require Import Prelude Float64 Config World.
#[local] Open Scope Z_scope.

Definition TSD_SELECTION_WIDTH_MASK : Z := 3.

Record tsd_trampoline_selection_t : Type := mkSelection { sel_width : simd_width_t; sel_active : Z }.

Definition encode_selection (width : simd_width_t) (active : Z) : Z :=
  let ptr := active in
  if (active =? 0) || negb (Z.land ptr TSD_SELECTION_WIDTH_MASK =? 0) ||
     (width <? SIMD_SSE41) || (width >? SIMD_AVX512) then 0
  else Z.lor ptr width.

Definition tsd_trampoline_state_snapshot : M (Z * tsd_trampoline_selection_t) :=
  word <- gets (fun w => t_selection_word (w_tramp w)) ;;
  if word =? 0 then set_errno ENODEV ;;; ret (-1, mkSelection SIMD_SSE41 0)
  else
    let width := Z.land word TSD_SELECTION_WIDTH_MASK in
    let active := Z.land word (Z.lnot TSD_SELECTION_WIDTH_MASK) in
    if (width <? SIMD_SSE41) || (width >? SIMD_AVX512) || (active =? 0) then
      set_errno EIO ;;; ret (-1, mkSelection SIMD_SSE41 0)
    else ret (0, mkSelection width active).

Definition tsd_trampoline_state_current_width : M simd_width_t :=
  let* (rc, snapshot) := tsd_trampoline_state_snapshot in
  if rc =? 0 then ret (sel_width snapshot) else gets (fun w => t_current_width (w_tramp w)).

Definition tsd_trampoline_state_current_width_byte : M Z :=
  width <- tsd_trampoline_state_current_width ;; ret (u8 width).

Definition tsd_trampoline_state_initialized : M bool := gets (fun w => t_initialized (w_tramp w)).

Definition tsd_trampoline_state_active : M Z :=
  let* (rc, snapshot) := tsd_trampoline_state_snapshot in
  if rc =? 0 then ret (sel_active snapshot) else gets (fun w => t_active_trampoline (w_tramp w)).

Definition tsd_trampoline_state_last_patch_attempt : M Z := gets (fun w => t_last_patch_attempt (w_tramp w)).
Definition tsd_trampoline_state_last_patched_width : M Z := gets (fun w => t_last_patched_width (w_tramp w)).
Definition tsd_trampoline_state_page_a_writable : M bool := gets (fun w => t_page_a_writable (w_tramp w)).
Definition tsd_trampoline_state_page_b_writable : M bool := gets (fun w => t_page_b_writable (w_tramp w)).

Definition tsd_trampoline_state_reset (active : Z) : M unit :=
  let word := encode_selection SIMD_SSE41 active in
  on_tramp (fun t => t <| t_selection_word := word |> <| t_current_width := SIMD_SSE41 |>
                       <| t_current_width_byte := SIMD_SSE41 |> <| t_active_trampoline := active |>
                       <| t_initialized := false |> <| t_last_patch_attempt := SIMD_SSE41 |>
                       <| t_last_patched_width := SIMD_SSE41 |>).

Definition tsd_trampoline_state_set_initialized (initialized : bool) : M unit :=
  on_tramp (fun t => t <| t_initialized := initialized |>).

Definition tsd_trampoline_state_set_last_patch_attempt (width : simd_width_t) : M unit :=
  on_tramp (fun t => t <| t_last_patch_attempt := u8 width |>).

Definition tsd_trampoline_state_publish_selection (width : simd_width_t) (active : Z) : M unit :=
  let word := encode_selection width active in
  if word =? 0 then ret tt
  else on_tramp (fun t => t <| t_selection_word := word |> <| t_current_width := width |>
                            <| t_current_width_byte := u8 width |> <| t_active_trampoline := active |>
                            <| t_initialized := true |> <| t_last_patched_width := u8 width |>).

Definition tsd_trampoline_state_set_page_a_writable (writable : bool) : M unit :=
  on_tramp (fun t => t <| t_page_a_writable := writable |>).
Definition tsd_trampoline_state_set_page_b_writable (writable : bool) : M unit :=
  on_tramp (fun t => t <| t_page_b_writable := writable |>).

(** ** The encoding *)

(** A pointer that can be published: aligned (slots are 64-byte aligned) and
    not null. *)
Definition slot_ptr (p : Z) : Prop := 0 < p <= UINT64_MAX /\ Z.land p TSD_SELECTION_WIDTH_MASK = 0.

Lemma width_cases w : width_in_range w = true -> w = SIMD_SSE41 \/ w = SIMD_AVX2 \/ w = SIMD_AVX512.
Proof.
  unfold width_in_range, SIMD_SSE41, SIMD_AVX2, SIMD_AVX512. intros H.
  apply negb_true_iff, orb_false_iff in H as [H1 H2]. zbool. lia.
Qed.

Lemma encode_valid w p : width_in_range w = true -> slot_ptr p -> encode_selection w p = Z.lor p w.
Proof.
  intros Hw [Hp Ha]. unfold encode_selection. rewrite Ha.
  unfold width_in_range in Hw. apply negb_true_iff, orb_false_iff in Hw as [-> ->].
  rewrite (proj2 (Z.eqb_neq p 0)) by lia. done.
Qed.

Lemma decode_width w p :
  width_in_range w = true -> slot_ptr p -> Z.land (Z.lor p w) TSD_SELECTION_WIDTH_MASK = w.
Proof.
  intros Hw [_ Hp]. rewrite Z.land_lor_distr_l, Hp.
  destruct (width_cases w Hw) as [-> | [-> | ->]]; done.
Qed.

Lemma decode_ptr w p :
  width_in_range w = true -> slot_ptr p -> Z.land (Z.lor p w) (Z.lnot TSD_SELECTION_WIDTH_MASK) = p.
Proof.
  intros Hw [_ Hp]. rewrite Z.land_lor_distr_l.
  replace (Z.land w (Z.lnot TSD_SELECTION_WIDTH_MASK)) with 0
    by (destruct (width_cases w Hw) as [-> | [-> | ->]]; done).
  rewrite Z.lor_0_r.
  rewrite <- (Z.lor_0_l (Z.land p _)), <- Hp, <- Z.land_lor_distr_r, Z.lor_lnot_diag.
  apply Z.land_m1_r.
Qed.

Lemma encode_nonzero w p : width_in_range w = true -> slot_ptr p -> Z.lor p w <> 0.
Proof. intros Hw Hp H. pose proof (decode_ptr w p Hw Hp) as Hd. rewrite H, Z.land_0_l in Hd. destruct Hp as [Hp _]. lia. Qed.

(** ** The invariant of the selection state *)

(** Either nothing is selected, or the word decodes to the mirrors. *)
Definition tramp_ok (t : tramp_state) : Prop :=
  width_in_range (t_current_width t) = true /\
  (t_selection_word t = 0 \/
   slot_ptr (t_active_trampoline t) /\
   t_selection_word t = Z.lor (t_active_trampoline t) (t_current_width t)).

Lemma snapshot_run w :
  tramp_ok (w_tramp w) ->
  tsd_trampoline_state_snapshot w =
    (if t_selection_word (w_tramp w) =? 0
     then ((-1, mkSelection SIMD_SSE41 0), w <| w_errno := ENODEV |>)
     else ((0, mkSelection (t_current_width (w_tramp w)) (t_active_trampoline (w_tramp w))), w)).
Proof.
  intros [Hw Hs]. unfold tsd_trampoline_state_snapshot. cbn.
  destruct (t_selection_word (w_tramp w) =? 0) eqn:E; [done|].
  destruct Hs as [Hs|[Hp Hs]]; [zbool; lia|]. rewrite Hs.
  rewrite decode_width, decode_ptr by done.
  unfold width_in_range in Hw. apply negb_true_iff in Hw. rewrite Hw.
  destruct Hp as [Hp _]. rewrite (proj2 (Z.eqb_neq _ 0)) by lia. done.
Qed.

Lemma current_width_run w :
  tramp_ok (w_tramp w) ->
  tsd_trampoline_state_current_width w =
    (t_current_width (w_tramp w),
     if t_selection_word (w_tramp w) =? 0 then w <| w_errno := ENODEV |> else w).
Proof.
  intros Ht. unfold tsd_trampoline_state_current_width. rewrite bind_run, snapshot_run by done.
  destruct (t_selection_word (w_tramp w) =? 0); done.
Qed.

Lemma encode_cases w p :
  in_u64 p -> encode_selection w p = 0 \/
    (width_in_range w = true /\ slot_ptr p /\ encode_selection w p = Z.lor p w).
Proof.
  intros Hp. unfold encode_selection.
  destruct ((p =? 0) || _ || _ || _) eqn:E; [by left|]. right.
  repeat (apply orb_false_iff in E as [E ?]). zbool.
  repeat split; try done; [unfold width_in_range; apply negb_true_iff, orb_false_iff; split;
    [apply Z.ltb_ge | rewrite Z.gtb_ltb; apply Z.ltb_ge]; done | |]; unfold_int; lia.
Qed.

Lemma reset_ok active w :
  in_u64 active -> tramp_ok (w_tramp (exec (tsd_trampoline_state_reset active) w)).
Proof.
  intros Hp. unfold exec, tramp_ok. cbn. split; [done|].
  destruct (encode_cases SIMD_SSE41 active Hp) as [H|(_ & H1 & H2)]; [by left | by right].
Qed.

Lemma publish_ok width active w :
  in_u64 active -> tramp_ok (w_tramp w) ->
  tramp_ok (w_tramp (exec (tsd_trampoline_state_publish_selection width active) w)).
Proof.
  intros Hp Ht. unfold exec, tsd_trampoline_state_publish_selection.
  destruct (encode_cases width active Hp) as [->|(H1 & H2 & ->)]; [done|].
  rewrite (proj2 (Z.eqb_neq _ 0)) by (by apply encode_nonzero).
  unfold tramp_ok. cbn. split; [done|]. by right.
Qed.

(** The operations that write the selection state. *)
Inductive tramp_op : Type :=
  | OpReset (active : Z)
  | OpPublish (width : simd_width_t) (active : Z)
  | OpSetInitialized (b : bool)
  | OpSetLastAttempt (width : simd_width_t)
  | OpSetPageA (b : bool)
  | OpSetPageB (b : bool).

Definition run_tramp_op (o : tramp_op) : M unit :=
  match o with
  | OpReset a => tsd_trampoline_state_reset a
  | OpPublish w a => tsd_trampoline_state_publish_selection w a
  | OpSetInitialized b => tsd_trampoline_state_set_initialized b
  | OpSetLastAttempt w => tsd_trampoline_state_set_last_patch_attempt w
  | OpSetPageA b => tsd_trampoline_state_set_page_a_writable b
  | OpSetPageB b => tsd_trampoline_state_set_page_b_writable b
  end.

Definition op_ptr_ok (o : tramp_op) : Prop :=
  match o with OpReset a | OpPublish _ a => in_u64 a | _ => True end.

Definition run_tramp_ops (ops : list tramp_op) (w : world) : world :=
  foldl (fun w o => exec (run_tramp_op o) w) w ops.

Lemma run_tramp_ops_ok ops w :
  Forall op_ptr_ok ops -> tramp_ok (w_tramp w) -> tramp_ok (w_tramp (run_tramp_ops ops w)).
Proof.
  intros Hops. revert w. induction Hops as [|o ops Ho _ IH]; intros w Hw; [done|].
  cbn. apply IH. destruct o; cbn in Ho; [by apply reset_ok | by apply publish_ok | done..].
Qed.

(** ** Properties *)

(** Publishing a width in range with a slot pointer makes
    [tsd_trampoline_state_snapshot] return exactly that width and pointer, and
    the diagnostic width mirror agree; any other arguments publish nothing and
    leave the selection as it was. *)
Theorem publish_snapshot_roundtrip (width : simd_width_t) (active : Z) (w : world) :
  in_u64 active ->
  let w' := exec (tsd_trampoline_state_publish_selection width active) w in
  (width_in_range width = true -> slot_ptr active ->
     result tsd_trampoline_state_snapshot w' = (0, mkSelection width active) /\
     result tsd_trampoline_state_current_width w' = width) /\
  (width_in_range width = false \/ ~ slot_ptr active -> w' = w).
Proof.
  intros Hp. cbv zeta. split.
  - intros Hw Hs. unfold result, exec, tsd_trampoline_state_publish_selection.
    rewrite encode_valid, (proj2 (Z.eqb_neq _ 0)) by (try done; by apply encode_nonzero).
    set (w' := (on_tramp _ w).2).
    assert (Ht : tramp_ok (w_tramp w')) by (split; [done | by right]).
    rewrite current_width_run, snapshot_run by done. cbn -[Z.lor].
    by rewrite (proj2 (Z.eqb_neq _ 0)) by (by apply encode_nonzero).
  - intros Hbad. unfold exec, tsd_trampoline_state_publish_selection.
    destruct (encode_cases width active Hp) as [->|(H1 & H2 & _)]; [done|].
    destruct Hbad as [Hb|Hb]; [congruence | done].
Qed.

Lemma publish_snapshot_roundtrip_witness :
  result tsd_trampoline_state_snapshot
    (exec (tsd_trampoline_state_publish_selection SIMD_AVX2 4096) (initial_world 1 k_default_config))
    = (0, mkSelection SIMD_AVX2 4096).
Proof.
  refine (proj1 (proj1 (publish_snapshot_roundtrip SIMD_AVX2 4096 (initial_world 1 k_default_config) _) _ _));
    [unfold in_u64, UINT64_MAX; lia | reflexivity |
     split; [unfold UINT64_MAX; lia | reflexivity]].
Defined.

(** After any sequence of state operations from process start a
    snapshot is coherent: it fails with nothing selected, or it returns the width
    and pointer of the last publication, which the diagnostic mirrors repeat. *)
Theorem selection_always_coherent (ops : list tramp_op) (tid : Z) (cfg : tsd_runtime_config) :
  Forall op_ptr_ok ops ->
  let w := run_tramp_ops ops (initial_world tid cfg) in
  let rc := (result tsd_trampoline_state_snapshot w).1 in
  let sel := (result tsd_trampoline_state_snapshot w).2 in
  width_in_range (result tsd_trampoline_state_current_width w) = true /\
  (rc = 0 -> sel_width sel = t_current_width (w_tramp w) /\
             sel_active sel = t_active_trampoline (w_tramp w) /\ slot_ptr (sel_active sel)) /\
  (rc <> 0 -> t_selection_word (w_tramp w) = 0).
Proof.
  intros Hops. cbv zeta.
  assert (Ht : tramp_ok (w_tramp (run_tramp_ops ops (initial_world tid cfg))))
    by (apply run_tramp_ops_ok; [done | split; [done | by left]]).
  unfold result. rewrite current_width_run, snapshot_run by done.
  destruct Ht as [Hw Hs].
  destruct (t_selection_word _ =? 0) eqn:E; zbool; cbn; (split; [done|]); split; try done.
  intros _. destruct Hs as [Hs|[Hs _]]; [done|]. done.
Qed.

Lemma selection_always_coherent_witness :
  let ops := [OpReset 4096; OpPublish 7 4096; OpPublish SIMD_AVX512 4224] in
  let w := run_tramp_ops ops (initial_world 1 k_default_config) in
  result tsd_trampoline_state_snapshot w = (0, mkSelection SIMD_AVX512 4224) /\
  width_in_range (result tsd_trampoline_state_current_width w) = true.
Proof.
  intros ops w. split; [vm_compute; reflexivity|].
  assert (Hops : Forall op_ptr_ok ops) by (repeat constructor; cbn; unfold UINT64_MAX; lia).
  exact (proj1 (selection_always_coherent ops 1 k_default_config Hops)).
Defined.
