(* ===== verification/Guard.v ===== *)
(** * Guard: wide-SIMD authorization and admission

    [src/src/runtime_guard.c], [src/src/config/runtime_flags.c] and what they
    read of [src/src/observability/telemetry_state.cpp] and
    [src/src/telemetry/fusion_bridge.cpp].  This file runs one thread at a time;
    the interleavings of the admission protocol are in [Admission.v]. *)
From S2P Require Import Prelude Float64 Config World Cpu.
From Stdlib Require Import SpecFloat Ascii String.
#[local] Open Scope string_scope.
#[local] Open Scope Z_scope.

(** ** Observability reads and the fusion gate *)

Definition tsd_observability_runtime_guard_active : M bool :=
  gets (fun w => (o_perf_mode (w_obs w) <>? 0) || o_fusion_obs_running (w_obs w)).

Definition tsd_observability_perf_mode : M Z := gets (fun w => o_perf_mode (w_obs w)).

Definition NS_PER_MS : Z := 1000000.
Definition NS_PER_S : Z := 1000000000.

Definition tsd_telemetry_temperature_upgrade_allowed : M bool :=
  gets (fun w => if negb (o_fusion_running (w_obs w)) then true
                 else o_temperature_upgrade_allowed (w_obs w)).

(** ** Configuration snapshots *)

Definition tsd_runtime_config_activate_snapshot (config : option tsd_runtime_config) : M Z :=
  match config with
  | None => fail EINVAL
  | Some cfg =>
      match validate_generation_config cfg with
      | inl err => fail err
      | inr snapshot =>
          state <- gets (fun w => g_config_snapshot_state (w_guard w)) ;;
          if state =? 0 then
            on_guard (fun g => g <| g_config_snapshot_state := 1 |>) ;;;
            on_guard (fun g => g <| g_config_snapshot := snapshot |>) ;;;
            on_guard (fun g => g <| g_config_snapshot_state := 2 |>) ;;;
            on_guard (fun g => g <| g_safety_snapshot_state := 0 |>) ;;;
            ret 0
          else fail EBUSY
      end
  end.

Definition tsd_runtime_config_deactivate_snapshot : M unit :=
  on_guard (fun g => g <| g_safety_snapshot_state := 0 |>) ;;;
  on_guard (fun g => g <| g_config_snapshot_state := 0 |>).

Definition tsd_runtime_config_snapshot_is_active : M bool :=
  gets (fun w => g_config_snapshot_state (w_guard w) =? 2).

(** The generation's immutable snapshot when one is active, else [g_tsd_config]. *)
Definition tsd_runtime_config_active_snapshot : M tsd_runtime_config :=
  gets (fun w => if g_config_snapshot_state (w_guard w) =? 2
                 then g_config_snapshot (w_guard w) else w_config w).

Definition capture_safety (cfg : tsd_runtime_config) : tsd_safety_config_snapshot_t :=
  {| sc_max_skew_ms := telemetry_max_skew_ms cfg;
     sc_temp_ceiling_c := predictive_temp_ceiling_c cfg;
     sc_safety_margin_c := predictive_safety_margin_c cfg;
     sc_emergency_margin_c := predictive_emergency_margin_c cfg |}.

(** [None] stands for the return value 0. *)
Definition safety_config_snapshot : M (option tsd_safety_config_snapshot_t) :=
  state <- gets (fun w => g_safety_snapshot_state (w_guard w)) ;;
  state <- (if state =? 0 then
              expected <- gets (fun w => g_safety_snapshot_state (w_guard w)) ;;
              if expected =? 0 then
                on_guard (fun g => g <| g_safety_snapshot_state := 1 |>) ;;;
                runtime_cfg <- tsd_runtime_config_active_snapshot ;;
                on_guard (fun g => g <| g_safety_snapshot := capture_safety runtime_cfg |>) ;;;
                on_guard (fun g => g <| g_safety_snapshot_state := 2 |>) ;;;
                ret 2
              else ret expected
            else ret state) ;;
  if state <>? 2 then ret None
  else gets (fun w => Some (g_safety_snapshot (w_guard w))).

(** ** Admission bit, owner and stopping flag *)

Definition tsd_runtime_wide_admission_close : M unit :=
  on_guard (fun g => g <| g_wide_admission_open := false |>).
Definition tsd_runtime_wide_admission_is_open : M bool := gets (fun w => g_wide_admission_open (w_guard w)).

Definition tsd_runtime_set_owner_tid_locked (tid : Z) : M unit :=
  on_guard (fun g => g <| g_runtime_owner_tid := if tid >? 0 then tid else 0 |>).

Definition tsd_runtime_current_thread_is_owner : M bool :=
  owner <- gets (fun w => g_runtime_owner_tid (w_guard w)) ;;
  if owner <=? 0 then ret true
  else tid <- current_tid ;; ret (tid =? owner).

Definition tsd_runtime_work_accounting_allowed : M bool :=
  active <- tsd_observability_runtime_guard_active ;;
  if negb active then ret true else tsd_runtime_current_thread_is_owner.

Definition tsd_runtime_current_thread_in_wide_execution : M bool :=
  gets (fun w => g_wide_execution_depth (w_guard w) <>? 0).

Definition tsd_runtime_is_stopping : M bool := gets (fun w => g_runtime_stopping (w_guard w)).

Definition tsd_runtime_set_stopping_locked (stopping : bool) : M unit :=
  on_guard (fun g => g <| g_runtime_stopping := stopping |>) ;;;
  when stopping
    (tsd_runtime_wide_admission_close ;;;
     on_guard (fun g => g <| g_safety_snapshot_state := 0 |>)).

(** ** Sandbox flags *)

Definition tsd_runtime_flags_allow_transitions : M bool :=
  complete <- gets (fun w => f_sandbox_complete (w_flags w)) ;;
  success <- gets (fun w => f_sandbox_success (w_flags w)) ;;
  if negb complete || negb success then ret false
  else tsd_telemetry_temperature_upgrade_allowed.

Definition tsd_runtime_flags_sandbox_complete : M bool := gets (fun w => f_sandbox_complete (w_flags w)).
Definition tsd_runtime_flags_set_sandbox_only (enabled : bool) : M unit :=
  on_flags (fun f => f <| f_sandbox_only := enabled |>).
Definition tsd_runtime_flags_sandbox_only : M bool := gets (fun w => f_sandbox_only (w_flags w)).

(** [snprintf] into 256 bytes keeps 255 characters. *)
Definition snprintf_256 (s : string) : string := String.substring 0 255 s.

Definition set_message_locked (message : option string) : M unit :=
  let text := match message with
              | Some m => if is_empty m then "sandbox failed" else m
              | None => "sandbox failed"
              end in
  on_flags (fun f => f <| f_sandbox_message := snprintf_256 text |>).

(** ** Temperature limits *)

Definition runtime_temperature_limits_valid (cfg : tsd_safety_config_snapshot_t) : bool :=
  (sc_temp_ceiling_c cfg >=? 20) && (sc_temp_ceiling_c cfg <=? 125) &&
  (sc_safety_margin_c cfg >=? 0) && (sc_safety_margin_c cfg <=? 60) &&
  (sc_emergency_margin_c cfg >=? 0) && (sc_emergency_margin_c cfg <=? 60).

Record tsd_perf_telemetry_t : Type := mkPerfTelemetry {
  pt_mode : Z; pt_counters_healthy : bool; pt_pinned_cpu : Z; pt_monitor_cpu : Z }.

Section guard.
Context `{EV : Env}.

(** [TelemetryState::perf_hardware_fresh(std::chrono::seconds(5))] *)
Definition tsd_observability_perf_hardware_fresh : M bool :=
  o <- gets w_obs ;;
  if (o_perf_mode o <>? 1) || negb (o_perf_counters_healthy o) || (o_perf_freshness_at o =? 0)
  then ret false
  else
    now <- ext env_steady ;;
    ret ((now >=? o_perf_freshness_at o) && (now - o_perf_freshness_at o <=? 5 * NS_PER_S)).

(** [None]: no usable raw temperature *)
Definition tsd_observability_raw_temperature_c (max_age_ms : Z) : M (option double) :=
  if max_age_ms <? 0 then ret None
  else
    o <- gets w_obs ;;
    if negb (o_raw_temp_available o) || (o_raw_temp_freshness_at o =? 0) then ret None
    else
      now <- ext env_steady ;;
      if (now <? o_raw_temp_freshness_at o) ||
         (now - o_raw_temp_freshness_at o >? max_age_ms * NS_PER_MS) then ret None
      else ret (Some (o_raw_package_temp_c o)).

Definition raw_temperature_upgrade_allowed : M bool :=
  gate <- tsd_telemetry_temperature_upgrade_allowed ;;
  if negb gate then ret false
  else
    snapshot <- safety_config_snapshot ;;
    match snapshot with
    | None => ret false
    | Some cfg =>
        if negb (runtime_temperature_limits_valid cfg) then ret false
        else
          let freshness_ms := if sc_max_skew_ms cfg <? 0 then 150 else sc_max_skew_ms cfg in
          temp <- tsd_observability_raw_temperature_c freshness_ms ;;
          match temp with
          | None => ret false
          | Some raw_temp_c =>
              if negb (isfinite raw_temp_c) then ret false
              else
                let limit_c := f64_of_Z (sc_temp_ceiling_c cfg - sc_safety_margin_c cfg) in
                ret (fle raw_temp_c limit_c)
          end
    end.

Definition tsd_runtime_width_authorized (width : simd_width_t) : M bool :=
  if (width <? SIMD_SSE41) || (width >? SIMD_AVX512) then ret false
  else if width =? SIMD_SSE41 then ret true
  else
    stopping <- tsd_runtime_is_stopping ;;
    if stopping then ret false
    else
      allow <- tsd_runtime_flags_allow_transitions ;;
      if negb allow then ret false
      else
        active <- tsd_observability_runtime_guard_active ;;
        if negb active then ret true
        else
          perf_mode <- tsd_observability_perf_mode ;;
          if perf_mode <>? TSD_PERF_MODE_HARDWARE then ret false
          else
            fresh <- tsd_observability_perf_hardware_fresh ;;
            if negb fresh then ret false else raw_temperature_upgrade_allowed.

(** ** Execution admission *)

Definition wide_execution_release : M unit :=
  on_guard (fun g => g <| g_wide_execution_depth ::=
                            fun d => if d >? 0 then d - 1 else d |>) ;;;
  previous <- gets (fun w => g_active_wide_executions (w_guard w)) ;;
  on_guard (fun g => g <| g_active_wide_executions ::= fun a => u64 (a - 1) |>) ;;;
  if previous =? 0 then on_guard (fun g => g <| g_active_wide_executions := 0 |>)
  else when (previous =? 1)
    (rc <- pthread_mutex_lock g_tsd_wide_drain_lock ;;
     when (rc =? 0) (pthread_mutex_unlock g_tsd_wide_drain_lock ;;; ret tt)).

(** The conjunction of checks made before and again after the increment; the
    C conditions are short-circuit. *)
Definition admission_check_first (width : simd_width_t) : M bool :=
  owner <- tsd_runtime_current_thread_is_owner ;;
  if negb owner then ret false
  else
    is_open <- tsd_runtime_wide_admission_is_open ;;
    if negb is_open then ret false else tsd_runtime_width_authorized width.

Definition admission_recheck (width : simd_width_t) : M bool :=
  is_open <- tsd_runtime_wide_admission_is_open ;;
  if negb is_open then ret false
  else
    owner <- tsd_runtime_current_thread_is_owner ;;
    if negb owner then ret false else tsd_runtime_width_authorized width.

Definition tsd_runtime_execution_enter (width : simd_width_t) : M Z :=
  if (width <? SIMD_SSE41) || (width >? SIMD_AVX512) then fail EINVAL
  else if width =? SIMD_SSE41 then ret 0
  else
    ok <- admission_check_first width ;;
    if negb ok then fail EAGAIN
    else
      on_guard (fun g => g <| g_active_wide_executions ::= fun a => u64 (a + 1) |>) ;;;
      on_guard (fun g => g <| g_wide_execution_depth ::= fun d => u32 (d + 1) |>) ;;;
      ok <- admission_recheck width ;;
      if negb ok then wide_execution_release ;;; fail EAGAIN
      else ret 0.

Definition tsd_runtime_execution_leave (width : simd_width_t) : M unit :=
  when ((width >? SIMD_SSE41) && (width <=? SIMD_AVX512)) wide_execution_release.

(** The waiting loop; [None] when the fuel runs out before the drain. *)
Fixpoint drain_loop (fuel : nat) : M (option Z) :=
  match fuel with
  | O => ret None
  | S fuel =>
      active <- gets (fun w => g_active_wide_executions (w_guard w)) ;;
      if active <>? 0 then
        let* (rc, found) := ext env_cond_wait in
        on_guard (fun g => g <| g_active_wide_executions := found |>) ;;;
        if rc <>? 0 then
          pthread_mutex_unlock g_tsd_wide_drain_lock ;;;
          rc <- fail rc ;; ret (Some rc)
        else drain_loop fuel
      else
        rc <- pthread_mutex_unlock g_tsd_wide_drain_lock ;;
        if rc <>? 0 then (rc <- fail rc ;; ret (Some rc)) else ret (Some 0)
  end.

Definition tsd_runtime_wait_for_wide_quiescence (fuel : nat) : M (option Z) :=
  inside <- tsd_runtime_current_thread_in_wide_execution ;;
  if inside then (rc <- fail EDEADLK ;; ret (Some rc))
  else
    rc <- pthread_mutex_lock g_tsd_wide_drain_lock ;;
    if rc <>? 0 then (rc <- fail rc ;; ret (Some rc)) else drain_loop fuel.

Definition tsd_runtime_safety_write_enter : M Z :=
  rc <- pthread_mutex_lock g_tsd_guard_update_lock ;;
  if rc <>? 0 then fail rc
  else tsd_runtime_wide_admission_close ;;; ret 0.

Definition tsd_runtime_safety_write_leave : M unit :=
  stopping <- tsd_runtime_is_stopping ;;
  reopen <- (if stopping then ret false else tsd_runtime_width_authorized SIMD_AVX2) ;;
  on_guard (fun g => g <| g_wide_admission_open := reopen |>) ;;;
  pthread_mutex_unlock g_tsd_guard_update_lock ;;; ret tt.

(** A guard-state publication: the shape shared by every writer below.  The
    bracket does nothing when the writer lock cannot be taken. *)
Definition safety_update (body : M unit) : M unit :=
  rc <- tsd_runtime_safety_write_enter ;;
  if rc <>? 0 then ret tt else body ;;; tsd_runtime_safety_write_leave.

Definition sandbox_publish (message : option string) (success complete : bool) : M unit :=
  pthread_mutex_lock g_sandbox_message_lock ;;;
  set_message_locked message ;;;
  on_flags (fun f => f <| f_sandbox_success := success |>) ;;;
  on_flags (fun f => f <| f_sandbox_complete := complete |>) ;;;
  pthread_mutex_unlock g_sandbox_message_lock ;;; ret tt.

Definition tsd_runtime_flags_init : M unit :=
  rc <- tsd_runtime_safety_write_enter ;;
  if rc <>? 0 then ret tt
  else
    sandbox_publish (Some "sandbox pending") false false ;;;
    tsd_runtime_safety_write_leave ;;;
    on_flags (fun f => f <| f_sandbox_only := false |>).

Definition tsd_runtime_flags_record_sandbox_success : M unit :=
  safety_update (sandbox_publish (Some "sandbox passed") true true).

Definition tsd_runtime_flags_record_sandbox_failure (message : option string) : M unit :=
  safety_update (sandbox_publish message false true).

Definition tsd_runtime_flags_status_message : M string :=
  pthread_mutex_lock g_sandbox_message_lock ;;;
  text <- gets (fun w => snprintf_256 (f_sandbox_message (w_flags w))) ;;
  pthread_mutex_unlock g_sandbox_message_lock ;;; ret text.

(** ** Telemetry publication *)

Definition tsd_observability_update_perf (telemetry : option tsd_perf_telemetry_t) : M unit :=
  match telemetry with
  | None => ret tt
  | Some t =>
      safety_update
        (on_obs (fun o => o <| o_perf_mode := pt_mode t |>
                            <| o_perf_counters_healthy := pt_counters_healthy t |>
                            <| o_perf_pinned_cpu := pt_pinned_cpu t |>
                            <| o_perf_monitor_cpu := pt_monitor_cpu t |>) ;;;
         now <- ext env_steady ;;
         on_obs (fun o => o <| o_perf_freshness_at := now |>))
  end.

(** The raw channel of [tsd_temperature_channels_t]; the filtered channel is
    diagnostic and not part of [obs_state]. *)
Definition tsd_observability_update_temperature_channels (raw : option (bool * double)) : M unit :=
  match raw with
  | None => ret tt
  | Some (raw_available, raw_package_temp_c) =>
      safety_update
        (on_obs (fun o => o <| o_raw_temp_available := raw_available |>
                            <| o_raw_package_temp_c := raw_package_temp_c |>) ;;;
         if raw_available then
           now <- ext env_steady ;;
           on_obs (fun o => o <| o_raw_temp_freshness_at := now |>)
         else on_obs (fun o => o <| o_raw_temp_freshness_at := 0 |>))
  end.

(** [TelemetryState::update_fusion], its [running] field. *)
Definition tsd_observability_update_fusion (running : option bool) : M unit :=
  match running with
  | None => ret tt
  | Some r => safety_update (on_obs (fun o => o <| o_fusion_obs_running := r |>))
  end.
End guard.

(** ** What authorization reads and writes *)

(** [tsd_runtime_width_authorized] only consumes clock readings and captures the
    safety configuration. *)
Definition auth_frame (w w' : world) : Prop :=
  exists n st sn,
    w' = w <| w_calls := n |>
           <| w_guard ::= fun g => g <| g_safety_snapshot_state := st |> <| g_safety_snapshot := sn |> |>.

#[export] Instance auth_frame_preorder : PreOrder auth_frame.
Proof.
  split.
  - intros w. exists (w_calls w), (g_safety_snapshot_state (w_guard w)), (g_safety_snapshot (w_guard w)).
    destruct w as [? ? ? ? ? g]; by destruct g.
  - intros w1 w2 w3 (n & st & sn & ->) (n' & st' & sn' & ->). by exists n', st', sn'.
Qed.

Lemma auth_frame_ext {A} (f : nat -> A) : respects auth_frame (ext f).
Proof.
  intros w. exists (S (w_calls w)), (g_safety_snapshot_state (w_guard w)), (g_safety_snapshot (w_guard w)).
  destruct w as [? ? ? ? ? g]; by destruct g.
Qed.

Lemma auth_frame_state st : respects auth_frame (on_guard (fun g => g <| g_safety_snapshot_state := st |>)).
Proof. intros w. by exists (w_calls w), st, (g_safety_snapshot (w_guard w)). Qed.

Lemma auth_frame_snapshot sn : respects auth_frame (on_guard (fun g => g <| g_safety_snapshot := sn |>)).
Proof. intros w. by exists (w_calls w), (g_safety_snapshot_state (w_guard w)), sn. Qed.

#[export] Hint Resolve auth_frame_ext auth_frame_state auth_frame_snapshot : tsd.

Ltac solve_respects := repeat (auto with tsd; respects_step); auto with tsd.

(** The configuration a safety check uses: captured once per generation. *)
Definition safety_in_force (w : world) : option tsd_safety_config_snapshot_t :=
  if g_safety_snapshot_state (w_guard w) =? 0 then
    Some (capture_safety (if g_config_snapshot_state (w_guard w) =? 2
                          then g_config_snapshot (w_guard w) else w_config w))
  else if g_safety_snapshot_state (w_guard w) =? 2 then Some (g_safety_snapshot (w_guard w))
  else None.

Lemma safety_config_snapshot_run w :
  (safety_config_snapshot w).1 = safety_in_force w /\
  w_obs (safety_config_snapshot w).2 = w_obs w /\
  w_calls (safety_config_snapshot w).2 = w_calls w.
Proof.
  unfold safety_config_snapshot, safety_in_force.
  rewrite bind_run. cbn [gets fst snd].
  destruct (g_safety_snapshot_state (w_guard w) =? 0) eqn:E0.
  - rewrite bind_run. cbn. rewrite E0. done.
  - rewrite bind_run. cbn. by destruct (g_safety_snapshot_state (w_guard w) =? 2).
Qed.

Definition gate_open (o : obs_state) : bool :=
  negb (o_fusion_running o) || o_temperature_upgrade_allowed o.
Definition guard_active (o : obs_state) : bool := (o_perf_mode o <>? 0) || o_fusion_obs_running o.
Definition sandbox_passed (f : flags_state) : bool := f_sandbox_complete f && f_sandbox_success f.

(** ** The policy: when a width above SSE4.1 may be used *)

Section policy.
Context `{EV : Env}.

(** A raw package temperature no older than the configured skew, finite and not
    above the ceiling less the safety margin. *)
Definition temperature_evidence (o : obs_state) (cfg : tsd_safety_config_snapshot_t) (now : Z) : Prop :=
  runtime_temperature_limits_valid cfg = true /\
  o_raw_temp_available o = true /\ o_raw_temp_freshness_at o <> 0 /\
  0 <= now - o_raw_temp_freshness_at o <=
    (if sc_max_skew_ms cfg <? 0 then 150 else sc_max_skew_ms cfg) * NS_PER_MS /\
  isfinite (o_raw_package_temp_c o) = true /\
  fle (o_raw_package_temp_c o) (f64_of_Z (sc_temp_ceiling_c cfg - sc_safety_margin_c cfg)) = true.

(** Healthy hardware counters reported within the last five seconds. *)
Definition counter_evidence (o : obs_state) (now : Z) : Prop :=
  o_perf_mode o = TSD_PERF_MODE_HARDWARE /\ o_perf_counters_healthy o = true /\
  o_perf_freshness_at o <> 0 /\ 0 <= now - o_perf_freshness_at o <= 5 * NS_PER_S.

Definition wide_policy (w : world) : Prop :=
  g_runtime_stopping (w_guard w) = false /\
  sandbox_passed (w_flags w) = true /\
  gate_open (w_obs w) = true /\
  (guard_active (w_obs w) = true ->
     counter_evidence (w_obs w) (env_steady (w_calls w)) /\
     exists cfg, safety_in_force w = Some cfg /\
       temperature_evidence (w_obs w) cfg (env_steady (S (w_calls w)))).

Lemma hardware_fresh_run w :
  ((tsd_observability_perf_hardware_fresh w).1 = true <->
     counter_evidence (w_obs w) (env_steady (w_calls w))) /\
  ((tsd_observability_perf_hardware_fresh w).1 = true ->
     (tsd_observability_perf_hardware_fresh w).2 = w <| w_calls ::= S |>).
Proof.
  unfold tsd_observability_perf_hardware_fresh, counter_evidence, TSD_PERF_MODE_HARDWARE.
  rewrite bind_run. cbn [gets fst snd].
  destruct (o_perf_mode (w_obs w) =? 1) eqn:E1; destruct (o_perf_counters_healthy (w_obs w)) eqn:E2;
    destruct (o_perf_freshness_at (w_obs w) =? 0) eqn:E3; cbn -[Z.mul];
    rewrite ?andb_true_iff, ?Z.geb_leb, ?Z.leb_le; zbool; split; (split || intro); intros;
    try done; try (repeat split; lia); naive_solver lia.
Qed.

Lemma raw_temperature_run ms w t :
  0 <= ms ->
  ((tsd_observability_raw_temperature_c ms w).1 = Some t <->
   o_raw_temp_available (w_obs w) = true /\ o_raw_temp_freshness_at (w_obs w) <> 0 /\
   0 <= env_steady (w_calls w) - o_raw_temp_freshness_at (w_obs w) <= ms * NS_PER_MS /\
   t = o_raw_package_temp_c (w_obs w)).
Proof.
  intros Hms. unfold tsd_observability_raw_temperature_c.
  rewrite (proj2 (Z.ltb_ge ms 0)) by lia. rewrite bind_run. cbn [gets fst snd].
  destruct (o_raw_temp_available (w_obs w)); destruct (o_raw_temp_freshness_at (w_obs w) =? 0) eqn:E;
    zbool; cbn -[Z.mul]; try naive_solver.
  destruct (_ || _) eqn:E2; cbn -[Z.mul].
  - apply orb_true_iff in E2 as [E2|E2]; [|rewrite Z.gtb_ltb in E2]; apply Z.ltb_lt in E2;
      split; [done | lia | done | lia].
  - zbool. split; [intros [= <-]; repeat split; (done || lia) | intros (_ & _ & _ & ->); done].
Qed.

Lemma raw_upgrade_run w :
  (raw_temperature_upgrade_allowed w).1 = true <->
  gate_open (w_obs w) = true /\
  exists cfg, safety_in_force w = Some cfg /\
    temperature_evidence (w_obs w) cfg (env_steady (w_calls w)).
Proof.
  unfold raw_temperature_upgrade_allowed, gate_open, temperature_evidence.
  rewrite bind_run. cbn [gets fst snd tsd_telemetry_temperature_upgrade_allowed].
  destruct (o_fusion_running (w_obs w)), (o_temperature_upgrade_allowed (w_obs w)); cbn [negb orb].
  2: by split; [done | intros [? _]].
  all: rewrite bind_run; destruct (safety_config_snapshot_run w) as (-> & Ho & Hc);
    destruct (safety_in_force w) as [cfg|]; [|by split; [done | intros (_ & ? & ? & _)]].
  all: destruct (runtime_temperature_limits_valid cfg) eqn:EL; cbn [negb];
    [|by split; [done | intros (_ & ? & [= <-] & ? & _); congruence]].
  all: set (ms := if sc_max_skew_ms cfg <? 0 then 150 else sc_max_skew_ms cfg).
  all: assert (Hms : 0 <= ms) by (unfold ms; case_if; zbool; lia).
  all: rewrite bind_run; set (w1 := (safety_config_snapshot w).2) in *.
  all: destruct (tsd_observability_raw_temperature_c ms w1).1 as [t|] eqn:ET.
  all: pose proof (raw_temperature_run ms w1 t Hms) as HT || pose proof (raw_temperature_run ms w1 (o_raw_package_temp_c (w_obs w)) Hms) as HT; rewrite ET, Ho, Hc in HT.
  all: try (split; [done|]; intros (_ & ? & [= <-] & HE); destruct HT as [_ HT]; discriminate HT; naive_solver).
  all: destruct HT as [HT _]; destruct (HT eq_refl) as (Ha & Hf & Hr & ->).
  all: destruct (isfinite (o_raw_package_temp_c (w_obs w))) eqn:EF; cbn [negb];
    [|by split; [done | intros (_ & ? & [= <-] & HE); destruct HE as (_ & _ & _ & _ & ? & _); congruence]].
  all: split; [intros Hle; split; [done|]; exists cfg; repeat split; (done || lia)
              | intros (_ & ? & [= <-] & HE); apply HE].
Qed.

(** Authorization computes the policy. *)
Lemma width_authorized_run width w :
  (tsd_runtime_width_authorized width w).1 = true <->
  width_in_range width = true /\ (width = SIMD_SSE41 \/ wide_policy w).
Proof.
  unfold tsd_runtime_width_authorized, width_in_range, wide_policy, sandbox_passed, guard_active.
  destruct ((width <? SIMD_SSE41) || (width >? SIMD_AVX512)); cbn [negb];
    [by split; [done | intros [? _]]|].
  destruct (width =? SIMD_SSE41) eqn:E; zbool; [by split; [auto|]|].
  rewrite bind_run. cbn [gets fst snd tsd_runtime_is_stopping].
  destruct (g_runtime_stopping (w_guard w)); [by split; [done | intros [_ [?|[? _]]]]|].
  rewrite bind_run. unfold tsd_runtime_flags_allow_transitions. rewrite !bind_run. cbn [gets fst snd].
  destruct (f_sandbox_complete (w_flags w)), (f_sandbox_success (w_flags w)); cbn [negb orb andb];
    try by (split; [done | intros [_ [?|(_ & ? & _)]]]).
  cbn [gets fst snd tsd_telemetry_temperature_upgrade_allowed].
  replace (if negb (o_fusion_running (w_obs w)) then true else o_temperature_upgrade_allowed (w_obs w))
    with (gate_open (w_obs w)) by (unfold gate_open; by destruct (o_fusion_running _)).
  destruct (gate_open (w_obs w)) eqn:EG; cbn [negb]; [|by split; [done | intros [_ [?|(_ & _ & ? & _)]]]].
  rewrite bind_run. cbn [gets fst snd tsd_observability_runtime_guard_active].
  destruct (_ || o_fusion_obs_running (w_obs w)) eqn:EA; cbn [negb];
    [|split; [intros _; split; [done|]; right; repeat split; done | done]].
  rewrite bind_run. cbn [gets fst snd tsd_observability_perf_mode].
  destruct (o_perf_mode (w_obs w) =? TSD_PERF_MODE_HARDWARE) eqn:EM; cbn [negb]; zbool;
    [|by split; [done | intros [_ [?|(_ & _ & _ & HP)]]; [done|]; destruct (HP eq_refl) as [[? _] _]]].
  rewrite bind_run. destruct (hardware_fresh_run w) as [H1 H2].
  destruct (tsd_observability_perf_hardware_fresh w).1 eqn:EF; cbn [negb].
  - rewrite (H2 eq_refl), raw_upgrade_run. naive_solver.
  - split; [done|]. intros [_ [?|(_ & _ & _ & HP)]]; [done|]. destruct (HP eq_refl) as [HC _].
    apply H1 in HC. done.
Qed.

Lemma width_authorized_frame width : respects auth_frame (tsd_runtime_width_authorized width).
Proof.
  unfold tsd_runtime_width_authorized, raw_temperature_upgrade_allowed, safety_config_snapshot,
    tsd_observability_raw_temperature_c, tsd_observability_perf_hardware_fresh,
    tsd_runtime_flags_allow_transitions, tsd_runtime_is_stopping, tsd_observability_perf_mode,
    tsd_observability_runtime_guard_active, tsd_telemetry_temperature_upgrade_allowed,
    tsd_runtime_config_active_snapshot.
  solve_respects.
Qed.
End policy.
#[export] Hint Resolve width_authorized_frame : tsd.

(** ** Lock discipline and admission *)

(** Exactly the mutexes of [L] are held, and no mutex was ever taken twice. *)
Definition holds (L : lock_state) (w : world) : Prop := w_locks w = L /\ w_deadlock w = false.

Definition guard_only : lock_state := no_locks <| l_guard_update := true |>.

Section admission.
Context `{EV : Env}.

Lemma lock_run m w :
  (exists e, e <> 0 /\ pthread_mutex_lock m w = (e, w <| w_calls ::= S |>)) \/
  pthread_mutex_lock m w =
    (0, w <| w_calls ::= S |> <| w_deadlock ::= orb (mx_held m (w_locks w)) |>
          <| w_locks ::= mx_set m true |>).
Proof.
  unfold pthread_mutex_lock. rewrite bind_run. cbn [ext fst snd].
  destruct (env_lock (w_calls w) =? 0) eqn:E; zbool; [by right | left; by eexists].
Qed.

Definition active_of (w : world) : Z := g_active_wide_executions (w_guard w).
Definition depth_of (w : world) : Z := g_wide_execution_depth (w_guard w).
Definition admission_open (w : world) : bool := g_wide_admission_open (w_guard w).
Definition is_owner (w : world) : bool :=
  (g_runtime_owner_tid (w_guard w) <=? 0) || (w_self_tid w =? g_runtime_owner_tid (w_guard w)).

Lemma owner_run w : tsd_runtime_current_thread_is_owner w = (is_owner w, w).
Proof.
  unfold tsd_runtime_current_thread_is_owner, is_owner. rewrite bind_run. cbn [gets fst snd].
  by destruct (g_runtime_owner_tid (w_guard w) <=? 0).
Qed.

(** The counters after a release. *)
Definition released (g : guard_state) : guard_state :=
  g <| g_active_wide_executions ::= fun a => if a =? 0 then 0 else u64 (a - 1) |>
    <| g_wide_execution_depth ::= fun d => if d >? 0 then d - 1 else d |>.

(** A release moves the counters and, when the drain lock was free, leaves the
    locks as they were. *)
Lemma release_run w :
  exists n dl lk,
    wide_execution_release w =
      (tt, w <| w_calls := n |> <| w_deadlock := dl |> <| w_locks := lk |> <| w_guard ::= released |>) /\
    (l_wide_drain (w_locks w) = false -> dl = w_deadlock w /\ lk = w_locks w).
Proof.
  unfold wide_execution_release, released. rewrite !bind_run. cbn -[Z.eqb Z.sub u64 Z.gtb].
  destruct (g_active_wide_executions (w_guard w) =? 0) eqn:E0.
  { exists (w_calls w), (w_deadlock w), (w_locks w). split; [|done]. by destruct w. }
  destruct (_ =? 1); cbn [when].
  2: { exists (w_calls w), (w_deadlock w), (w_locks w). split; [|done]. by destruct w. }
  rewrite bind_run.
  match goal with |- context [pthread_mutex_lock ?m ?w] => destruct (lock_run m w) as [(e & He & ->) | ->] end.
  - cbn -[Z.eqb Z.sub u64 Z.gtb]. rewrite (proj2 (Z.eqb_neq e 0)) by done.
    exists (S (w_calls w)), (w_deadlock w), (w_locks w). split; [|done]. by destruct w.
  - do 3 eexists. split; [cbn -[Z.eqb Z.sub u64 Z.gtb]; reflexivity|].
    intros HL. cbn. rewrite HL. split; [done|]. destruct (w_locks w); cbn in *; congruence.
Qed.

(** Entering a wide width either fails and leaves the counters as they were, or
    counts one more execution; it succeeds only through an open admission, on
    the owner thread, and with the policy satisfied when it was checked. *)
Lemma enter_run width w rc w' :
  tsd_runtime_execution_enter width w = (rc, w') ->
  0 <= active_of w < UINT64_MAX -> 0 <= depth_of w < UINT32_MAX ->
  (rc = -1 /\ active_of w' = active_of w /\ depth_of w' = depth_of w /\
     w_errno w' = (if width_in_range width then EAGAIN else EINVAL)) \/
  (rc = 0 /\ width = SIMD_SSE41 /\ w' = w) \/
  (rc = 0 /\ (width = SIMD_AVX2 \/ width = SIMD_AVX512) /\
     active_of w' = active_of w + 1 /\ depth_of w' = depth_of w + 1 /\
     admission_open w = true /\ is_owner w = true /\ wide_policy w).
Proof.
  intros Hrun Ha Hd. revert Hrun. unfold tsd_runtime_execution_enter, width_in_range.
  destruct ((width <? SIMD_SSE41) || (width >? SIMD_AVX512)) eqn:ER; cbn [negb];
    [intros [= <- <-]; by left|].
  destruct (width =? SIMD_SSE41) eqn:ES; [intros [= <- <-]; zbool; right; by left|].
  assert (Hw : width = SIMD_AVX2 \/ width = SIMD_AVX512)
    by (zbool; unfold SIMD_SSE41, SIMD_AVX2, SIMD_AVX512 in *; lia).
  rewrite bind_run. unfold admission_check_first. rewrite bind_run, owner_run. cbn [fst snd].
  destruct (is_owner w) eqn:EO; cbn [negb]; [|intros [= <- <-]; by left].
  rewrite bind_run. cbn [gets fst snd tsd_runtime_wide_admission_is_open].
  destruct (g_wide_admission_open (w_guard w)) eqn:EP; cbn [negb]; [|intros [= <- <-]; by left].
  pose proof (width_authorized_run width w) as Hauth.
  destruct (width_authorized_frame width w) as (n & st & sn & Hf). rewrite Hf.
  destruct (tsd_runtime_width_authorized width w).1 eqn:EA; cbn [negb]; [|intros [= <- <-]; by left].
  destruct (proj1 Hauth eq_refl) as [_ Hpol].
  rewrite !bind_run. set (w1 := snd _). cbn in w1. unfold admission_recheck.
  rewrite bind_run. cbn [gets fst snd tsd_runtime_wide_admission_is_open].
  unfold w1 at 1. cbn [w_guard over g_wide_admission_open]. cbn. rewrite EP. cbn [negb].
  rewrite bind_run, owner_run. cbn [fst snd].
  replace (is_owner w1) with (is_owner w) by done. rewrite EO. cbn [negb].
  destruct (width_authorized_frame width w1) as (n' & st' & sn' & Hf'). rewrite Hf'.
  assert (Hact : active_of w1 = active_of w + 1) by (unfold w1; cbn; apply u64_small; unfold_int; unfold active_of in *; lia).
  assert (Hdep : depth_of w1 = depth_of w + 1) by (unfold w1; cbn; apply u32_small; unfold_int; unfold depth_of in *; lia).
  destruct (tsd_runtime_width_authorized width w1).1; cbn [negb]; intros Hrun.
  - injection Hrun as <- <-. right; right. naive_solver.
  - rewrite bind_run in Hrun. injection Hrun as <- <-. left.
    match goal with |- context [wide_execution_release ?x] => destruct (release_run x) as (? & ? & ? & -> & _) end.
    unfold active_of, depth_of in *. cbn in Hact, Hdep |- *. rewrite Hact, Hdep.
    rewrite (proj2 (Z.eqb_neq _ 0)) by lia.
    rewrite Z.gtb_ltb, (proj2 (Z.ltb_lt 0 _)) by lia.
    repeat split; [rewrite u64_small by (unfold_int; lia)|]; lia.
Qed.
End admission.

(** ** Runs of guard operations *)

(** What entering, leaving and checking can change. *)
Definition admission_frame (w w' : world) : Prop :=
  exists n e dl lk a d st sn,
    w' = w <| w_calls := n |> <| w_errno := e |> <| w_deadlock := dl |> <| w_locks := lk |>
           <| w_guard ::= fun g => g <| g_active_wide_executions := a |> <| g_wide_execution_depth := d |>
                                     <| g_safety_snapshot_state := st |> <| g_safety_snapshot := sn |> |> /\
    (l_wide_drain (w_locks w) = false -> dl = w_deadlock w /\ lk = w_locks w).

Lemma admission_frame_intro w n e a d st sn :
  admission_frame w
    (w <| w_calls := n |> <| w_errno := e |>
       <| w_guard ::= fun g => g <| g_active_wide_executions := a |> <| g_wide_execution_depth := d |>
                                 <| g_safety_snapshot_state := st |> <| g_safety_snapshot := sn |> |>).
Proof.
  exists n, e, (w_deadlock w), (w_locks w), a, d, st, sn. split; [by destruct w | done].
Qed.

(** Put a world in the form of the frame, its own fields as the new ones. *)
Ltac frame_of w :=
  match goal with |- admission_frame _ ?w' =>
    let H := fresh in
    pose proof (admission_frame_intro w (w_calls w') (w_errno w')
      (g_active_wide_executions (w_guard w')) (g_wide_execution_depth (w_guard w'))
      (g_safety_snapshot_state (w_guard w')) (g_safety_snapshot (w_guard w'))) as H;
    destruct w as [? ? ? ? ? g]; destruct g; exact H
  end.

#[export] Instance admission_frame_preorder : PreOrder admission_frame.
Proof.
  split.
  - intros w. frame_of w.
  - intros w1 w2 w3 (n & e & dl & lk & a & d & st & sn & -> & H1) (n' & e' & dl' & lk' & a' & d' & st' & sn' & -> & H2).
    exists n', e', dl', lk', a', d', st', sn'. split; [reflexivity|].
    intros HL. destruct (H1 HL) as [-> ->]. cbn in H2. by apply H2.
Qed.

Lemma auth_in_admission {A} (m : M A) : respects auth_frame m -> respects admission_frame m.
Proof.
  intros Hm w. destruct (Hm w) as (n & st & sn & ->). frame_of w.
Qed.

Lemma admission_frame_errno e : respects admission_frame (set_errno e).
Proof. intros w. frame_of w. Qed.

Lemma admission_frame_fail e : respects admission_frame (fail e).
Proof. unfold fail. apply respects_bind; [exact _ | apply admission_frame_errno | intro; apply respects_ret; exact _]. Qed.

Lemma admission_frame_counts f :
  (exists a d, forall g, f g = g <| g_active_wide_executions ::= a |> <| g_wide_execution_depth ::= d |>) ->
  respects admission_frame (on_guard f).
Proof.
  intros (a & d & Hf) w. cbn. rewrite Hf. frame_of w.
Qed.
#[export] Hint Resolve admission_frame_errno admission_frame_fail : tsd.

Section frames.
Context `{EV : Env}.

Lemma admission_frame_authorized width : respects admission_frame (tsd_runtime_width_authorized width).
Proof. apply auth_in_admission, width_authorized_frame. Qed.
#[local] Hint Resolve admission_frame_authorized : tsd.

Lemma admission_frame_release : respects admission_frame wide_execution_release.
Proof.
  intros w. destruct (release_run w) as (n & dl & lk & -> & Hl).
  exists n, (w_errno w), dl, lk, (g_active_wide_executions (released (w_guard w))),
    (g_wide_execution_depth (released (w_guard w))), (g_safety_snapshot_state (w_guard w)),
    (g_safety_snapshot (w_guard w)).
  split; [|exact Hl]. destruct w as [? ? ? ? ? g]; by destruct g.
Qed.
#[local] Hint Resolve admission_frame_release : tsd.

Lemma admission_frame_enter width : respects admission_frame (tsd_runtime_execution_enter width).
Proof.
  unfold tsd_runtime_execution_enter, admission_check_first, admission_recheck,
    tsd_runtime_current_thread_is_owner, tsd_runtime_wide_admission_is_open, current_tid.
  repeat (auto with tsd; respects_step); auto with tsd; apply admission_frame_counts;
    [exists (fun a => u64 (a + 1)), id | exists id, (fun d => u32 (d + 1))]; by intros [].
Qed.

Lemma admission_frame_leave width : respects admission_frame (tsd_runtime_execution_leave width).
Proof. unfold tsd_runtime_execution_leave. apply respects_when; [exact _ | apply admission_frame_release]. Qed.

(** The store half of [update_temperature_gate_unlocked]; on a lock failure the
    gate is stored closed without the lock. *)
Definition temperature_gate_store (raw_temperature_available : bool) : M bool :=
  rc <- tsd_runtime_safety_write_enter ;;
  if rc =? 0 then
    on_obs (fun o => o <| o_temperature_upgrade_allowed := raw_temperature_available |>) ;;;
    tsd_runtime_safety_write_leave ;;; ret raw_temperature_available
  else
    on_obs (fun o => o <| o_temperature_upgrade_allowed := false |>) ;;; ret false.

(** Stores of [g_fusion_running] are not bracketed by the writer lock. *)
Definition store_fusion_running (running : bool) : M unit :=
  on_obs (fun o => o <| o_fusion_running := running |>).

Inductive guard_op : Type :=
  | GFlagsInit
  | GSandboxSuccess
  | GSandboxFailure (message : option string)
  | GUpdatePerf (telemetry : option tsd_perf_telemetry_t)
  | GUpdateTemperature (raw : option (bool * double))
  | GUpdateFusion (running : option bool)
  | GTemperatureGate (available : bool)
  | GFusionRunning (running : bool)
  | GSetStopping (stopping : bool)
  | GSetOwner (tid : Z)
  | GActivate (config : option tsd_runtime_config)
  | GDeactivate
  | GClose
  | GEnter (width : simd_width_t)
  | GLeave (width : simd_width_t).

Definition drop {A} (m : M A) : M unit := m ;;; ret tt.

Definition run_guard_op (o : guard_op) : M unit :=
  match o with
  | GFlagsInit => tsd_runtime_flags_init
  | GSandboxSuccess => tsd_runtime_flags_record_sandbox_success
  | GSandboxFailure m => tsd_runtime_flags_record_sandbox_failure m
  | GUpdatePerf t => tsd_observability_update_perf t
  | GUpdateTemperature r => tsd_observability_update_temperature_channels r
  | GUpdateFusion r => tsd_observability_update_fusion r
  | GTemperatureGate b => drop (temperature_gate_store b)
  | GFusionRunning b => store_fusion_running b
  | GSetStopping b => tsd_runtime_set_stopping_locked b
  | GSetOwner t => tsd_runtime_set_owner_tid_locked t
  | GActivate c => drop (tsd_runtime_config_activate_snapshot c)
  | GDeactivate => tsd_runtime_config_deactivate_snapshot
  | GClose => tsd_runtime_wide_admission_close
  | GEnter width => drop (tsd_runtime_execution_enter width)
  | GLeave width => tsd_runtime_execution_leave width
  end.

Definition run_guard_ops (ops : list guard_op) (w : world) : world :=
  foldl (fun w o => exec (run_guard_op o) w) w ops.

(** Admission is open only for a state that was authorized when it was
    published: no lock is held, the runtime is not stopping, the sandbox passed
    and, with a live runtime, the counters are hardware and healthy and a raw
    temperature is available. *)
Definition evidence_recorded (w : world) : Prop :=
  g_runtime_stopping (w_guard w) = false /\ sandbox_passed (w_flags w) = true /\
  (guard_active (w_obs w) = true ->
     o_perf_mode (w_obs w) = TSD_PERF_MODE_HARDWARE /\ o_perf_counters_healthy (w_obs w) = true /\
     o_raw_temp_available (w_obs w) = true).

Definition guard_inv (w : world) : Prop :=
  holds no_locks w /\ (admission_open w = true -> evidence_recorded w).

Lemma write_leave_run w :
  holds guard_only w -> guard_inv (tsd_runtime_safety_write_leave w).2.
Proof.
  intros [Hl Hd]. unfold tsd_runtime_safety_write_leave. rewrite bind_run.
  cbn [gets fst snd tsd_runtime_is_stopping].
  destruct (g_runtime_stopping (w_guard w)) eqn:ES; rewrite bind_run.
  { unfold guard_inv, holds, admission_open. cbn. by rewrite Hl, Hd. }
  pose proof (width_authorized_run SIMD_AVX2 w) as Ha.
  destruct (width_authorized_frame SIMD_AVX2 w) as (n & st & sn & ->).
  unfold guard_inv, holds, admission_open, evidence_recorded. cbn. rewrite Hl, Hd.
  split; [done|]. intros H1. apply Ha in H1 as [_ [H1|(? & ? & _ & HP)]]; [done|].
  do 2 (split; [done|]). intros HG. destruct (HP HG) as ((? & ? & _) & cfg & _ & _ & ? & _). done.
Qed.

Lemma write_enter_run w :
  holds no_locks w ->
  ((tsd_runtime_safety_write_enter w).1 <> 0 /\
     exists e, (tsd_runtime_safety_write_enter w).2 = w <| w_calls ::= S |> <| w_errno := e |>) \/
  ((tsd_runtime_safety_write_enter w).1 = 0 /\
     (tsd_runtime_safety_write_enter w).2 =
       w <| w_calls ::= S |> <| w_locks := guard_only |> <| w_deadlock := false |>
         <| w_guard ::= fun g => g <| g_wide_admission_open := false |> |>).
Proof.
  intros [Hl Hd]. unfold tsd_runtime_safety_write_enter. rewrite bind_run.
  destruct (lock_run g_tsd_guard_update_lock w) as [(e & He & ->) | ->]; cbn.
  - left. rewrite (proj2 (Z.eqb_neq e 0)) by done. cbn. split; [done | by exists e].
  - right. rewrite Hl, Hd. done.
Qed.
End frames.

(** Decompose a guard operation down to its primitive steps. *)
Ltac guard_op_steps lemmas :=
  unfold tsd_runtime_flags_init, tsd_runtime_flags_record_sandbox_success,
    tsd_runtime_flags_record_sandbox_failure, tsd_observability_update_perf,
    tsd_observability_update_temperature_channels, tsd_observability_update_fusion,
    safety_update, sandbox_publish, set_message_locked, temperature_gate_store,
    tsd_runtime_config_activate_snapshot, drop;
  repeat first [lemmas | respects_step | (intro; reflexivity)].

Section invariant.
Context `{EV : Env}.

Definition preserves (I : world -> Prop) {A} (m : M A) : Prop := respects (fun w w' => I w -> I w') m.

Lemma guard_inv_frame w w' :
  w_locks w' = w_locks w -> w_deadlock w' = w_deadlock w ->
  admission_open w' = admission_open w ->
  (evidence_recorded w -> evidence_recorded w') -> guard_inv w -> guard_inv w'.
Proof. unfold guard_inv, holds. intros -> -> -> He [Hl Ho]. auto. Qed.

(** The bracket shared by the writers: whatever the body publishes, the leaving
    side decides admission from the new state. *)
Lemma safety_update_inv (body : M unit) :
  preserves (holds guard_only) body -> preserves guard_inv (safety_update body).
Proof.
  intros Hb w Hw. unfold safety_update. rewrite bind_run.
  destruct (write_enter_run w (proj1 Hw)) as [(Hrc & e & ->)|(-> & ->)].
  - rewrite (proj2 (Z.eqb_neq _ 0)) by done. eapply guard_inv_frame; [..|exact Hw]; done.
  - cbn [Z.eqb negb]. rewrite bind_run. apply write_leave_run, Hb. done.
Qed.

Lemma holds_sandbox_publish message success complete :
  preserves (holds guard_only) (sandbox_publish message success complete).
Proof.
  intros w [Hl Hd]. unfold sandbox_publish. rewrite bind_run.
  destruct (lock_run g_sandbox_message_lock w) as [(e & _ & ->) | ->]; unfold holds; cbn;
    rewrite Hl, Hd; done.
Qed.

Lemma flags_init_inv : preserves guard_inv tsd_runtime_flags_init.
Proof.
  intros w Hw. unfold tsd_runtime_flags_init. rewrite bind_run.
  destruct (write_enter_run w (proj1 Hw)) as [(Hrc & e & ->)|(-> & ->)].
  - rewrite (proj2 (Z.eqb_neq _ 0)) by done. eapply guard_inv_frame; [..|exact Hw]; done.
  - cbn [Z.eqb negb]. rewrite !bind_run.
    eapply guard_inv_frame; [..|apply write_leave_run, holds_sandbox_publish]; done.
Qed.

Lemma temperature_gate_inv b : preserves guard_inv (temperature_gate_store b).
Proof.
  intros w Hw. unfold temperature_gate_store. rewrite bind_run.
  destruct (write_enter_run w (proj1 Hw)) as [(Hrc & e & ->)|(-> & ->)].
  - rewrite (proj2 (Z.eqb_neq _ 0)) by done. eapply guard_inv_frame; [..|exact Hw]; done.
  - cbn [Z.eqb]. rewrite !bind_run. cbn [ret snd]. by apply write_leave_run.
Qed.

Lemma activate_inv c : preserves guard_inv (tsd_runtime_config_activate_snapshot c).
Proof.
  intros w Hw. unfold tsd_runtime_config_activate_snapshot.
  destruct c as [cfg|]; [|eapply guard_inv_frame; [..|exact Hw]; done].
  destruct (validate_generation_config cfg); [eapply guard_inv_frame; [..|exact Hw]; done|].
  rewrite bind_run. cbn [gets fst snd].
  destruct (_ =? 0); (eapply guard_inv_frame; [..|exact Hw]); done.
Qed.

Lemma admission_frame_inv {A} (m : M A) : respects admission_frame m -> preserves guard_inv m.
Proof.
  intros Hm w Hw. destruct (Hm w) as (n & e & dl & lk & a & d & st & sn & -> & Hl).
  destruct Hl as [-> ->]; [by destruct Hw as [[-> _] _]|].
  eapply guard_inv_frame; [..|exact Hw]; done.
Qed.

Lemma set_stopping_inv b : preserves guard_inv (tsd_runtime_set_stopping_locked b).
Proof.
  intros w [Hl Ho]. unfold tsd_runtime_set_stopping_locked. rewrite bind_run.
  destruct b; (split; [done|]); unfold admission_open in *; cbn; [done|].
  intros Hop. destruct (Ho Hop) as (_ & ? & ?). done.
Qed.

Lemma run_guard_op_inv o : preserves guard_inv (run_guard_op o).
Proof.
  destruct o as [| |m|t|r|r|b|b|b|t|c| | |width|width]; cbn [run_guard_op];
    try (intros w Hw; eapply guard_inv_frame; [..|exact Hw]; done).
  - apply flags_init_inv.
  - apply safety_update_inv, holds_sandbox_publish.
  - apply safety_update_inv, holds_sandbox_publish.
  - destruct t; [apply safety_update_inv; intros w Hw; apply Hw | by intros w Hw].
  - destruct r as [[a t]|]; [apply safety_update_inv; intros w Hw; destruct a; apply Hw | by intros w Hw].
  - destruct r; [apply safety_update_inv; intros w Hw; apply Hw | by intros w Hw].
  - apply respects_bind; [exact _ | apply temperature_gate_inv | intros _; apply respects_ret; exact _].
  - apply set_stopping_inv.
  - apply respects_bind; [exact _ | apply activate_inv | intros _; apply respects_ret; exact _].
  - intros w [Hl Ho]. split; [done|]. by unfold admission_open.
  - apply admission_frame_inv, respects_bind;
      [exact _ | apply admission_frame_enter | intros; apply respects_ret; exact _].
  - apply admission_frame_inv, admission_frame_leave.
Qed.

Lemma run_guard_ops_inv ops w : guard_inv w -> guard_inv (run_guard_ops ops w).
Proof. revert w. induction ops as [|o ops IH]; intros w Hw; [done|]. apply IH. by apply run_guard_op_inv. Qed.

Lemma initial_guard_inv tid cfg : guard_inv (initial_world tid cfg).
Proof. done. Qed.

(** ** Stopping is sticky *)

Definition stopping_of (w : world) : bool := g_runtime_stopping (w_guard w).
Definition keeps_stopping {A} (m : M A) : Prop := respects (fun w w' => stopping_of w = stopping_of w') m.

Lemma keeps_stopping_admission {A} (m : M A) : respects admission_frame m -> keeps_stopping m.
Proof. intros Hm w. destruct (Hm w) as (n & e & dl & lk & a & d & st & sn & -> & _). done. Qed.

Lemma keeps_stopping_write_enter : keeps_stopping tsd_runtime_safety_write_enter.
Proof.
  intros w. unfold tsd_runtime_safety_write_enter. rewrite bind_run.
  destruct (lock_run g_tsd_guard_update_lock w) as [(e & He & ->) | ->]; cbn; [|done].
  by destruct (e =? 0).
Qed.

Lemma keeps_stopping_write_leave : keeps_stopping tsd_runtime_safety_write_leave.
Proof.
  intros w. unfold tsd_runtime_safety_write_leave. rewrite !bind_run. cbn [gets fst snd tsd_runtime_is_stopping].
  destruct (g_runtime_stopping (w_guard w)) eqn:E; [done|].
  destruct (width_authorized_frame SIMD_AVX2 w) as (n & st & sn & ->). done.
Qed.

Lemma keeps_stopping_lock m : keeps_stopping (pthread_mutex_lock m).
Proof. intros w. destruct (lock_run m w) as [(e & He & ->) | ->]; done. Qed.

Lemma run_guard_op_keeps_stopping o :
  match o with GSetStopping _ => False | _ => True end -> keeps_stopping (run_guard_op o).
Proof.
  intros Ho. unfold keeps_stopping.
  destruct o; cbn [run_guard_op]; try done;
    guard_op_steps ltac:(first
      [ apply keeps_stopping_write_enter | apply keeps_stopping_write_leave | apply keeps_stopping_lock
      | apply keeps_stopping_admission, admission_frame_enter
      | apply keeps_stopping_admission, admission_frame_leave ]).
Qed.

(** ** Guard operations leave the rest of the process alone *)

Definition outside_guard (w : world) :=
  (w_tramp w, w_config w, w_self_tid w, (w_metrics w, w_workload_iterations w, w_degraded w),
   (w_avx_available w, w_running w, w_stop_requested w, w_reload_requested w),
   (w_cancel_enabled w, w_kernel_log w)).

Definition guard_frame (w w' : world) : Prop := outside_guard w = outside_guard w'.
#[export] Instance guard_frame_preorder : PreOrder guard_frame.
Proof. unfold guard_frame. exact _. Qed.

Lemma guard_frame_admission {A} (m : M A) : respects admission_frame m -> respects guard_frame m.
Proof. intros Hm w. destruct (Hm w) as (n & e & dl & lk & a & d & st & sn & -> & _). done. Qed.

Lemma guard_frame_write_enter : respects guard_frame tsd_runtime_safety_write_enter.
Proof.
  intros w. unfold tsd_runtime_safety_write_enter. rewrite bind_run.
  destruct (lock_run g_tsd_guard_update_lock w) as [(e & He & ->) | -> ]; cbn; [|done].
  by destruct (e =? 0).
Qed.

Lemma guard_frame_write_leave : respects guard_frame tsd_runtime_safety_write_leave.
Proof.
  intros w. unfold tsd_runtime_safety_write_leave. rewrite !bind_run. cbn [gets fst snd tsd_runtime_is_stopping].
  destruct (g_runtime_stopping (w_guard w)) eqn:E; [done|].
  destruct (width_authorized_frame SIMD_AVX2 w) as (n & st & sn & ->). done.
Qed.

Lemma guard_frame_lock m : respects guard_frame (pthread_mutex_lock m).
Proof. intros w. destruct (lock_run m w) as [(e & He & ->) | -> ]; done. Qed.

Lemma run_guard_op_frame o : respects guard_frame (run_guard_op o).
Proof.
  destruct o; cbn [run_guard_op]; try done;
    guard_op_steps ltac:(first
      [ apply guard_frame_write_enter | apply guard_frame_write_leave | apply guard_frame_lock
      | apply guard_frame_admission, admission_frame_enter
      | apply guard_frame_admission, admission_frame_leave ]).
  by destruct stopping.
Qed.
End invariant.

(** ** Draining *)

Section drain.
Context `{EV : Env}.

Definition wakeup (n : nat) : Z := (env_cond_wait n).2.

(** Kernels in flight leave and none enters: each wakeup finds fewer of them. *)
Definition draining (from : nat) (active : Z) : Prop :=
  (forall n, (env_cond_wait n).1 = 0) /\
  0 <= wakeup from /\ (0 < active -> wakeup from < active) /\
  (forall n, (from <= n)%nat -> 0 <= wakeup (S n) /\ (0 < wakeup n -> wakeup (S n) < wakeup n)).

Lemma drain_loop_finishes fuel w :
  0 <= active_of w < Z.of_nat fuel -> draining (w_calls w) (active_of w) ->
  exists n, drain_loop fuel w =
    (Some 0, w <| w_calls := n |> <| w_guard ::= fun g => g <| g_active_wide_executions := 0 |> |>
               <| w_locks ::= over l_wide_drain (fun _ => false) |>).
Proof.
  revert w. induction fuel as [|fuel IH]; intros w Hf Hdr; [lia|].
  cbn [drain_loop]. rewrite bind_run. cbn [gets fst snd]. unfold active_of in *.
  destruct (g_active_wide_executions (w_guard w) =? 0) eqn:E; zbool; cbn [negb].
  - exists (w_calls w). cbn. destruct w as [? ? ? ? ? g]; destruct g; cbn in E |- *. by rewrite E.
  - rewrite bind_run. cbn [ext fst snd].
    destruct Hdr as (Hrc & H0 & Hlt & Hs). specialize (Hlt ltac:(lia)).
    pose proof (Hrc (w_calls w)) as Hr. unfold wakeup in *.
    destruct (env_cond_wait (w_calls w)) as [rc found] eqn:Ew. cbn in Hr, H0, Hlt. subst rc.
    rewrite bind_run. cbn [Z.eqb negb].
    match goal with |- context [drain_loop fuel ?x] => destruct (IH x) as [n ->] end.
    + cbn. lia.
    + pose proof (Hs (w_calls w) ltac:(lia)) as H1. rewrite Ew in H1. cbn in *.
      unfold draining, wakeup. split; [done|]. repeat split; try apply H1; intros;
        apply Hs; lia.
    + exists n. by destruct w as [? ? ? ? ? g]; destruct g.
Qed.

Lemma drain_loop_sound fuel w rc w' :
  drain_loop fuel w = (Some rc, w') ->
  (rc = 0 -> active_of w' = 0) /\ l_wide_drain (w_locks w') = false /\ w_deadlock w' = w_deadlock w.
Proof.
  revert w. induction fuel as [|fuel IH]; intros w; [done|].
  cbn [drain_loop]. rewrite bind_run. cbn [gets fst snd]. unfold active_of in *.
  destruct (g_active_wide_executions (w_guard w) =? 0) eqn:E; zbool; cbn [negb].
  - intros [= <- <-]. cbn. done.
  - rewrite bind_run. cbn [ext fst snd]. destruct (env_cond_wait (w_calls w)) as [r found].
    rewrite bind_run. destruct (r =? 0) eqn:Er; cbn [negb].
    + intros Hrun. by apply IH in Hrun.
    + intros [= <- <-]. cbn. done.
Qed.
End drain.

(** ** Properties *)

Section properties.
Context `{EV : Env}.

(** C1 (refinement). [tsd_runtime_width_authorized] decides the written policy
    exactly: SSE4.1 always; a wider width if and only if the runtime is not
    stopping, the sandbox passed, the fusion gate is open and, while a runtime
    is live, the counters are hardware, healthy and at most five seconds old and
    a finite raw temperature no older than the configured skew is at most the
    ceiling less the safety margin. *)
Theorem width_authorized_iff_policy (width : simd_width_t) (w : world) :
  result (tsd_runtime_width_authorized width) w = true <->
  width_in_range width = true /\ (width = SIMD_SSE41 \/ wide_policy w).
Proof. exact (width_authorized_run width w). Qed.


Lemma run_guard_ops_stopping ops w :
  Forall (fun o => match o with GSetStopping _ => False | _ => True end) ops ->
  stopping_of (run_guard_ops ops w) = stopping_of w.
Proof.
  intros Hops. revert w. induction Hops as [|o ops Ho _ IH]; intros w; [done|].
  etransitivity; [apply IH|]. symmetry. by apply run_guard_op_keeps_stopping.
Qed.

(** Once the runtime is marked stopping, no later guard operation
    short of clearing that mark reopens admission, and every attempt to enter a
    wide execution fails with EAGAIN and leaves the in-flight count alone, while
    SSE4.1 is still admitted. *)
Theorem stopping_blocks_wide_entry (before after : list guard_op) (width : simd_width_t)
    (tid : Z) (cfg : tsd_runtime_config) :
  Forall (fun o => match o with GSetStopping _ => False | _ => True end) after ->
  let w := run_guard_ops (before ++ GSetStopping true :: after) (initial_world tid cfg) in
  let rc := result (tsd_runtime_execution_enter width) w in
  let w' := exec (tsd_runtime_execution_enter width) w in
  g_wide_admission_open (w_guard w) = false /\
  (width = SIMD_SSE41 -> rc = 0) /\
  (width = SIMD_AVX2 \/ width = SIMD_AVX512 ->
     rc = -1 /\ w_errno w' = EAGAIN /\
     g_active_wide_executions (w_guard w') = g_active_wide_executions (w_guard w)).
Proof.
  intros Hafter. cbv zeta.
  set (w := run_guard_ops _ _).
  assert (Hs : stopping_of w = true).
  { unfold w, run_guard_ops. rewrite foldl_app. cbn [foldl].
    apply (run_guard_ops_stopping after); done. }
  pose proof (run_guard_ops_inv (before ++ GSetStopping true :: after) _ (initial_guard_inv tid cfg))
    as [_ Ho]. fold w in Ho.
  assert (Hc : g_wide_admission_open (w_guard w) = false).
  { destruct (g_wide_admission_open (w_guard w)) eqn:Eo; [|done].
    destruct (Ho Eo) as [Hn _]. unfold stopping_of in Hs. congruence. }
  clearbody w. split; [done|]. split; [by intros ->|].
  intros Hw. unfold result, exec, tsd_runtime_execution_enter.
  destruct Hw as [-> | ->]; cbn [Z.ltb Z.gtb Z.eqb orb SIMD_SSE41 SIMD_AVX2 SIMD_AVX512 Z.compare Pos.compare Pos.compare_cont];
    rewrite bind_run; unfold admission_check_first; rewrite bind_run, owner_run; cbn [fst snd];
    (destruct (is_owner w); cbn [negb];
      [rewrite bind_run; cbn [gets fst snd tsd_runtime_wide_admission_is_open]; rewrite Hc|]; done).
Qed.

(** [tsd_runtime_execution_enter] either fails with the
    in-flight count and the thread's depth unchanged, or admits: for a wide
    width it then saw admission open on the owner thread with the policy
    satisfied and counted exactly one execution, which
    [tsd_runtime_execution_leave] takes back. *)
Theorem enter_leave_balanced (width : simd_width_t) (w : world) :
  0 <= active_of w < UINT64_MAX -> 0 <= depth_of w < UINT32_MAX ->
  let rc := result (tsd_runtime_execution_enter width) w in
  let w1 := exec (tsd_runtime_execution_enter width) w in
  let w2 := exec (tsd_runtime_execution_leave width) w1 in
  (rc <> 0 -> active_of w1 = active_of w /\ depth_of w1 = depth_of w) /\
  (rc = 0 -> active_of w2 = active_of w /\ depth_of w2 = depth_of w) /\
  (rc = 0 -> width <> SIMD_SSE41 ->
     active_of w1 = active_of w + 1 /\ depth_of w1 = depth_of w + 1 /\
     g_wide_admission_open (w_guard w) = true /\ is_owner w = true /\ wide_policy w).
Proof.
  intros Ha Hd. cbv zeta. unfold result, exec.
  destruct (tsd_runtime_execution_enter width w) as [rc w1] eqn:Hrun. cbn [fst snd].
  destruct (enter_run width w rc w1 Hrun Ha Hd) as
    [(-> & H1 & H2 & _)|[(-> & -> & ->)|(-> & Hw & H1 & H2 & Ho & Hi & Hp)]]; [done | done |].
  split; [done|]. split; [|done]. intros _. unfold tsd_runtime_execution_leave.
  replace ((width >? SIMD_SSE41) && (width <=? SIMD_AVX512)) with true by (destruct Hw as [-> | ->]; done).
  cbn [when]. destruct (release_run w1) as (n & dl & lk & -> & _).
  unfold active_of, depth_of in *. cbn. rewrite H1, H2.
  rewrite (proj2 (Z.eqb_neq _ 0)), Z.gtb_ltb, (proj2 (Z.ltb_lt 0 _)) by lia.
  rewrite u64_small by (unfold_int; lia). lia.
Qed.

End properties.

(** Concrete runs. *)

Lemma stopping_blocks_wide_entry_witness :
  let w := run_guard_ops (EV := quiet_env) ([GSandboxSuccess] ++ GSetStopping true :: [GUpdateFusion (Some true)])
             (initial_world 1 k_default_config) in
  g_wide_admission_open (w_guard (run_guard_ops (EV := quiet_env) [GSandboxSuccess] (initial_world 1 k_default_config))) = true /\
  g_wide_admission_open (w_guard w) = false.
Proof.
  split; [vm_compute; reflexivity|].
  refine (proj1 (stopping_blocks_wide_entry (EV := quiet_env) [GSandboxSuccess] [GUpdateFusion (Some true)]
    SIMD_AVX2 1 k_default_config _)).
  repeat constructor.
Defined.

Definition admitted_world : world :=
  run_guard_ops (EV := quiet_env) [GSandboxSuccess] (initial_world 1 k_default_config).

Lemma enter_leave_balanced_witness :
  result (tsd_runtime_execution_enter (EV := quiet_env) SIMD_AVX2) admitted_world = 0 /\
  wide_policy (EV := quiet_env) admitted_world.
Proof.
  assert (H0 : result (tsd_runtime_execution_enter (EV := quiet_env) SIMD_AVX2) admitted_world = 0)
    by (vm_compute; reflexivity).
  split; [exact H0|].
  refine (proj2 (proj2 (proj2 (proj2 (proj2 (proj2 (enter_leave_balanced (EV := quiet_env) SIMD_AVX2 admitted_world _ _)) H0 _)))));
    [vm_compute; split; congruence | vm_compute; split; congruence | discriminate].
Defined.

