(* ===== verification/Admission.v ===== *)
(** * Admission: interleavings of the wide-execution protocol

    [tsd_runtime_execution_enter]/[leave] and the guard writers of
    [src/src/runtime_guard.c] as a step relation over any number of threads:
    every shared access of the C code is one step, and steps of different
    threads interleave freely (the code pairs its accesses with sequentially
    consistent fences).  The evidence a width check reads may also change
    between any two steps: clock readings expire, and [g_fusion_running] is
    stored without the writer lock. *)
From S2P Require Import Prelude Float64 Config World Cpu TrampolineState Guard.
From stdpp Require Import relations.
#[local] Open Scope Z_scope.

(** Where a thread is in [tsd_runtime_execution_enter]. *)
Inductive pc : Type :=
  | Out                 (** not executing wide code *)
  | SawOpen             (** first check: admission read as open *)
  | SawRunning          (** first check: not stopping *)
  | Passed              (** first check complete, not yet counted *)
  | Counted             (** in-flight counter incremented *)
  | ReSawOpen           (** recheck: admission read as open *)
  | ReSawRunning        (** recheck: not stopping *)
  | Inside.             (** admitted, running wide code *)

#[export] Instance pc_eq_dec : EqDecision pc.
Proof. solve_decision. Defined.

(** A thread that has incremented the counter and not yet released it. *)
Definition in_flight (p : pc) : bool :=
  match p with Counted | ReSawOpen | ReSawRunning | Inside => true | _ => false end.

(** Who holds [g_tsd_guard_update_lock], and how far it is. *)
Inductive writer : Type :=
  | Free
  | Locked                       (** lock taken, admission not closed yet *)
  | Closed                       (** admission closed; guard state may be published *)
  | Decided (reopen : bool).     (** leaving: decision read, store pending *)

Record adm : Type := mkAdm {
  a_count : Z;             (** [g_tsd_active_wide_executions] *)
  a_open : bool;           (** [g_tsd_wide_admission_open] *)
  a_stopping : bool;       (** [g_tsd_runtime_stopping] *)
  a_evidence : bool;       (** sandbox, gate, counters and temperature allow a wide width *)
  a_writer : writer;
  a_threads : list pc;
}.
#[export] Instance eta_adm : Eta adm := fun r =>
  mkAdm (a_count r) (a_open r) (a_stopping r) (a_evidence r) (a_writer r) (a_threads r).

(** Thread [i] moves from [p] to [q] and changes nothing else. *)
Definition move (i : nat) (q : pc) (s : adm) : adm := s <| a_threads ::= <[i := q]> |>.

Definition at_pc (i : nat) (p : pc) (s : adm) : Prop := a_threads s !! i = Some p.

(** The counter after [wide_execution_release]. *)
Definition dec_count (c : Z) : Z := if c =? 0 then 0 else u64 (c - 1).

Inductive adm_step : adm -> adm -> Prop :=
  (* first check *)
  | step_first_open i s : at_pc i Out s -> a_open s = true -> adm_step s (move i SawOpen s)
  | step_first_running i s : at_pc i SawOpen s -> a_stopping s = false -> adm_step s (move i SawRunning s)
  | step_first_evidence i s : at_pc i SawRunning s -> a_evidence s = true -> adm_step s (move i Passed s)
  | step_first_refuse i s p : at_pc i p s -> In p [SawOpen; SawRunning] -> adm_step s (move i Out s)
  (* increment, then recheck *)
  | step_count i s : at_pc i Passed s ->
      adm_step s (move i Counted s <| a_count ::= fun c => u64 (c + 1) |>)
  | step_again_open i s : at_pc i Counted s -> a_open s = true -> adm_step s (move i ReSawOpen s)
  | step_again_running i s : at_pc i ReSawOpen s -> a_stopping s = false -> adm_step s (move i ReSawRunning s)
  | step_admit i s : at_pc i ReSawRunning s -> a_evidence s = true -> adm_step s (move i Inside s)
  (* back out of a failed recheck, or leave *)
  | step_back_out i s : at_pc i Counted s -> a_open s = false ->
      adm_step s (move i Out s <| a_count ::= dec_count |>)
  | step_back_out_late i s p : at_pc i p s -> In p [ReSawOpen; ReSawRunning] ->
      adm_step s (move i Out s <| a_count ::= dec_count |>)
  | step_leave i s : at_pc i Inside s -> adm_step s (move i Out s <| a_count ::= dec_count |>)
  (* guard writers, serialized by the update lock *)
  | step_lock s : a_writer s = Free -> adm_step s (s <| a_writer := Locked |>)
  | step_close s : a_writer s = Locked -> adm_step s (s <| a_writer := Closed |> <| a_open := false |>)
  | step_publish s : forall evidence, a_writer s = Closed -> adm_step s (s <| a_evidence := evidence |>)
  | step_set_stopping s : forall b, a_writer s = Closed -> adm_step s (s <| a_stopping := b |>)
  | step_decide s : a_writer s = Closed ->
      adm_step s (s <| a_writer := Decided (negb (a_stopping s) && a_evidence s) |>)
  | step_reopen s b : a_writer s = Decided b -> adm_step s (s <| a_writer := Free |> <| a_open := b |>)
  (* evidence moves by itself *)
  | step_evidence s b : adm_step s (s <| a_evidence := b |>).

(** A process with [n] threads, none of them executing. *)
Definition adm_init (n : nat) : adm := mkAdm 0 false false false Free (replicate n Out).

Definition reachable (n : nat) (s : adm) : Prop := rtc adm_step (adm_init n) s.

(** ** Counting threads *)

Definition flight (l : list pc) : Z := Z.of_nat (List.length (List.filter in_flight l)).

Lemma flight_insert l i p q :
  l !! i = Some p ->
  flight (<[i := q]> l) = flight l - (if in_flight p then 1 else 0) + (if in_flight q then 1 else 0).
Proof.
  intros Hi. unfold flight. revert i Hi. induction l as [|x l IH]; intros i Hi; [done|].
  destruct i as [|i].
  - injection Hi as ->. change (<[0%nat := q]> (p :: l)) with (q :: l). cbn [List.filter].
    destruct (in_flight p), (in_flight q); cbn [List.length]; lia.
  - cbn in Hi. specialize (IH i Hi). change (<[S i := q]> (x :: l)) with (x :: <[i := q]> l). cbn [List.filter].
    destruct (in_flight x); cbn [List.length]; lia.
Qed.

Lemma flight_bound l : 0 <= flight l <= Z.of_nat (List.length l).
Proof. unfold flight. pose proof (filter_length_le in_flight l). lia. Qed.

Lemma flight_zero l : flight l = 0 <-> forall i p, l !! i = Some p -> in_flight p = false.
Proof.
  unfold flight. split.
  - intros H0 i p Hi. destruct (in_flight p) eqn:E; [|done]. exfalso.
    assert (Hin : In p (List.filter in_flight l))
      by (apply filter_In; split; [apply list_elem_of_In; by eapply list_elem_of_lookup_2 | done]).
    destruct (List.filter in_flight l); [done | cbn in H0; lia].
  - intros Hall. destruct (List.filter in_flight l) as [|x r] eqn:E; [done|]. exfalso.
    assert (Hin : In x (List.filter in_flight l)) by (rewrite E; by left).
    apply filter_In in Hin as [Hin Hx]. apply list_elem_of_In, list_elem_of_lookup_1 in Hin as [i Hi].
    rewrite (Hall i x Hi) in Hx. done.
Qed.

Lemma flight_init n : flight (replicate n Out) = 0.
Proof. apply flight_zero. intros i p Hi. by apply lookup_replicate in Hi as [-> _]. Qed.

(** ** Invariant *)

Definition writer_decision (s : adm) : Prop :=
  match a_writer s with
  | Free | Locked => True
  | Closed => a_open s = false
  | Decided b => a_open s = false /\ (b = true -> a_stopping s = false)
  end.

Record adm_inv (s : adm) : Prop := {
  ai_count : a_count s = flight (a_threads s);
  ai_open : a_open s = true -> a_stopping s = false;
  ai_writer : writer_decision s;
}.

(** The number of threads fits the counter. *)
Definition few (s : adm) : Prop := Z.of_nat (List.length (a_threads s)) < UINT64_MAX.

Lemma step_threads s s' : adm_step s s' -> List.length (a_threads s') = List.length (a_threads s).
Proof. destruct 1; cbn; rewrite ?length_insert; done. Qed.

(** A thread in flight is counted, so a release subtracts one. *)
Lemma dec_count_in_flight s i p :
  few s -> a_count s = flight (a_threads s) -> at_pc i p s -> in_flight p = true ->
  dec_count (a_count s) = flight (a_threads s) - 1.
Proof.
  intros Hfew Hc Hi Hp. unfold few in Hfew. pose proof (flight_bound (a_threads s)).
  pose proof (flight_insert _ _ _ Out Hi) as Hf. rewrite Hp in Hf. cbn in Hf.
  pose proof (flight_bound (<[i := Out]> (a_threads s))).
  unfold dec_count. rewrite Hc, (proj2 (Z.eqb_neq _ 0)) by lia. apply u64_small. unfold_int. lia.
Qed.

Lemma adm_step_inv s s' : adm_step s s' -> few s -> adm_inv s -> adm_inv s'.
Proof.
  intros Hstep Hfew [Hc Ho Hw].
  assert (Hinc : u64 (a_count s + 1) = flight (a_threads s) + 1).
  { pose proof (flight_bound (a_threads s)). unfold few in Hfew. rewrite Hc. apply u64_small. unfold_int. lia. }
  pose proof (dec_count_in_flight s) as Hdec. unfold writer_decision in *.
  destruct Hstep; try match goal with H : In _ _ |- _ => cbn in H; destruct H as [<-|[<-|[]]] end;
    (split; unfold writer_decision; cbn;
     [ repeat match goal with H : at_pc _ _ _ |- _ =>
         rewrite (flight_insert _ _ _ _ H); first [rewrite (Hdec _ _ Hfew Hc H eq_refl) | rewrite Hinc | idtac]; clear H end;
       cbn [in_flight]; rewrite ?Hc; lia
     | try exact Ho | try exact Hw]);
    match goal with H : a_writer _ = _ |- _ => rewrite H in Hw; try rewrite H end.
  all: try done.
  all: try (intros; congruence).
  - split; [done|]. by destruct (a_stopping s).
  - apply Hw.
Qed.

Lemma adm_run_inv s s' : rtc adm_step s s' -> few s -> adm_inv s -> adm_inv s' /\ few s'.
Proof.
  induction 1 as [|s s1 s' Hst _ IH]; intros Hf Hi; [done|].
  apply IH; [|by eapply adm_step_inv]. unfold few in *. by rewrite (step_threads _ _ Hst).
Qed.

Lemma adm_init_inv n : adm_inv (adm_init n).
Proof. split; [symmetry; apply flight_init | done | done]. Qed.

Lemma reachable_inv n s : Z.of_nat n < UINT64_MAX -> reachable n s -> adm_inv s /\ few s.
Proof.
  intros Hn Hr. eapply adm_run_inv; [exact Hr | | apply adm_init_inv].
  unfold few. cbn. by rewrite length_replicate.
Qed.

(** ** Quiescence *)

(** A step after which the runtime is still stopping. *)
Definition stopping_step (s s' : adm) : Prop := adm_step s s' /\ a_stopping s' = true.

(** No thread is past the recheck of the admission bit. *)
Definition none_past_recheck (s : adm) : Prop :=
  forall i p, at_pc i p s -> In p [Out; SawOpen; SawRunning; Passed; Counted].

Lemma insert_pcs (l : list pc) i q (P : pc -> Prop) :
  (forall j p, l !! j = Some p -> P p) -> P q -> forall j p, <[i := q]> l !! j = Some p -> P p.
Proof.
  intros Hl Hq j p Hj. apply list_lookup_insert_Some in Hj as [(-> & <- & _)|[_ Hj]]; [done | by eapply Hl].
Qed.

Lemma quiet_step s s' :
  adm_inv s -> few s -> a_stopping s = true -> none_past_recheck s -> stopping_step s s' ->
  adm_inv s' /\ few s' /\ a_stopping s' = true /\ none_past_recheck s'.
Proof.
  intros Hi Hf Hs Hn [Hst Hs']. split; [by eapply adm_step_inv|].
  split; [unfold few in *; by rewrite (step_threads _ _ Hst)|]. split; [done|].
  assert (Hclosed : a_open s = false) by (destruct (a_open s) eqn:E; [|done]; rewrite (ai_open s Hi E) in Hs; done).
  unfold none_past_recheck, at_pc in *.
  destruct Hst; cbn; try exact Hn; try congruence; try (apply insert_pcs; [exact Hn | cbn; tauto]).
  match goal with H : at_pc i ReSawRunning s |- _ => apply Hn in H; cbn in H; naive_solver end.
Qed.

Lemma quiet_run s s' :
  adm_inv s -> few s -> a_stopping s = true -> none_past_recheck s -> rtc stopping_step s s' -> none_past_recheck s'.
Proof.
  intros Hi Hf Hs Hn Hr. induction Hr as [|s s1 s' Hst _ IH]; [done|].
  destruct (quiet_step s s1 Hi Hf Hs Hn Hst) as (? & ? & ? & ?). auto.
Qed.

(** ** Properties *)

(** In every interleaving the in-flight counter is exactly the
    number of threads between their increment and their release, so it is never
    below the number of threads running wide code, and the admission bit is open
    only while the runtime is not stopping. *)
Theorem inflight_counter_is_exact (n : nat) (s : adm) :
  Z.of_nat n < UINT64_MAX -> reachable n s ->
  a_count s = flight (a_threads s) /\
  (forall i, at_pc i Inside s -> 0 < a_count s) /\
  (a_open s = true -> a_stopping s = false).
Proof.
  intros Hn Hr. destruct (reachable_inv n s Hn Hr) as [[Hc Ho _] _].
  split; [done|]. split; [|done]. intros i Hi. rewrite Hc.
  pose proof (flight_insert _ _ _ Out Hi) as Hf. cbn in Hf.
  pose proof (flight_bound (<[i := Out]> (a_threads s))). lia.
Qed.

(** C2 (safety). Once a stopping runtime has seen the in-flight counter at zero,
    no thread runs wide code, and none will in any continuation in which the
    runtime stays stopping, however the threads and writers interleave. *)
Theorem quiescence_is_final (n : nat) (s s' : adm) (i : nat) :
  Z.of_nat n < UINT64_MAX -> reachable n s ->
  a_stopping s = true -> a_count s = 0 -> rtc stopping_step s s' -> ~ at_pc i Inside s'.
Proof.
  intros Hn Hr Hs H0 Hrun Hin. destruct (reachable_inv n s Hn Hr) as [Hinv Hf].
  assert (Hq : none_past_recheck s).
  { intros j p Hj. rewrite (ai_count s Hinv) in H0. pose proof (proj1 (flight_zero _) H0 j p Hj) as Hp.
    destruct p; cbn in *; try done; tauto. }
  pose proof (quiet_run s s' Hinv Hf Hs Hq Hrun i Inside Hin) as Hbad. cbn in Hbad. naive_solver.
Qed.

(** A stopping run of two threads: thread 0 enters and leaves, then a writer
    marks the runtime stopping. *)
Definition stopped_example : adm := mkAdm 0 false true true Free [Out; Passed].

Lemma stopped_example_reachable : reachable 2 stopped_example.
Proof.
  unfold reachable.
  eapply rtc_l; [apply step_lock; reflexivity|].
  eapply rtc_l; [apply step_close; reflexivity|].
  eapply rtc_l; [apply (step_publish _ true); reflexivity|].
  eapply rtc_l; [apply step_decide; reflexivity|].
  eapply rtc_l; [apply (step_reopen _ true); reflexivity|].
  eapply rtc_l; [apply (step_first_open 0); reflexivity|].
  eapply rtc_l; [apply (step_first_running 0); reflexivity|].
  eapply rtc_l; [apply (step_first_evidence 0); reflexivity|].
  eapply rtc_l; [apply (step_count 0); reflexivity|].
  eapply rtc_l; [apply (step_first_open 1); reflexivity|].
  eapply rtc_l; [apply (step_first_running 1); reflexivity|].
  eapply rtc_l; [apply (step_first_evidence 1); reflexivity|].
  eapply rtc_l; [apply (step_again_open 0); reflexivity|].
  eapply rtc_l; [apply (step_again_running 0); reflexivity|].
  eapply rtc_l; [apply (step_admit 0); reflexivity|].
  eapply rtc_l; [apply (step_leave 0); reflexivity|].
  eapply rtc_l; [apply step_lock; reflexivity|].
  eapply rtc_l; [apply step_close; reflexivity|].
  eapply rtc_l; [apply (step_set_stopping _ true); reflexivity|].
  eapply rtc_l; [apply step_decide; reflexivity|].
  eapply rtc_l; [apply (step_reopen _ false); reflexivity|].
  apply rtc_refl.
Qed.

Lemma inflight_counter_is_exact_witness : a_count stopped_example = flight (a_threads stopped_example).
Proof. exact (proj1 (inflight_counter_is_exact 2 stopped_example ltac:(unfold UINT64_MAX; lia) stopped_example_reachable)). Defined.

Lemma quiescence_is_final_witness : ~ at_pc 1 Inside (move 1 Counted stopped_example <| a_count ::= fun c => u64 (c + 1) |>).
Proof.
  apply (quiescence_is_final 2 stopped_example _ 1);
    [unfold UINT64_MAX; lia | exact stopped_example_reachable | reflexivity | reflexivity |].
  apply rtc_once. split; [apply step_count; reflexivity | reflexivity].
Defined.

(** ** The sequential code runs inside the relation *)

Section simulation.
Context `{EV : Env}.

(** The shared state of the protocol, thread [i] at [p] among [l]. *)
Definition abstract (evidence : bool) (l : list pc) (w : world) : adm :=
  mkAdm (active_of w) (admission_open w) (g_runtime_stopping (w_guard w)) evidence Free l.

(** An uninterrupted call of [tsd_runtime_execution_enter] for
    a wide width is a run of the step relation: the thread ends inside when the
    call returns 0 and outside otherwise, with the counter, admission bit and
    stopping flag the code leaves; [tsd_runtime_execution_leave] is the leaving
    step. *)
Theorem enter_leave_refine_steps (width : simd_width_t) (w : world) (l : list pc) (i : nat) (ev : bool) :
  (width = SIMD_AVX2 \/ width = SIMD_AVX512) ->
  0 <= active_of w < UINT64_MAX -> 0 <= depth_of w < UINT32_MAX -> l !! i = Some Out ->
  let rc := result (tsd_runtime_execution_enter width) w in
  let w1 := exec (tsd_runtime_execution_enter width) w in
  let w2 := exec (tsd_runtime_execution_leave width) w1 in
  exists ev',
    rtc adm_step (abstract ev l w) (abstract ev' (<[i := if rc =? 0 then Inside else Out]> l) w1) /\
    (rc = 0 -> adm_step (abstract ev' (<[i := Inside]> l) w1) (abstract ev' (<[i := Out]> l) w2)).
Proof.
  intros Hw Ha Hd Hi. cbv zeta. unfold result, exec.
  pose proof (admission_frame_enter width w) as Hfr.
  destruct (tsd_runtime_execution_enter width w) as [rc w1] eqn:Hrun. cbn [fst snd] in *.
  assert (Ho : admission_open w1 = admission_open w /\ g_runtime_stopping (w_guard w1) = g_runtime_stopping (w_guard w))
    by (destruct Hfr as (? & ? & ? & ? & ? & ? & ? & ? & -> & _); done).
  destruct Ho as [Ho Hs].
  assert (Hlen : (i < List.length l)%nat) by (by eapply lookup_lt_Some).
  destruct (enter_run width w rc w1 Hrun Ha Hd) as
    [(-> & H1 & _ & _)|[(-> & -> & ->)|(-> & _ & H1 & H2 & Hop & _ & Hp)]]; cbn [Z.eqb].
  - exists ev. rewrite list_insert_id by done. unfold abstract. rewrite H1, Ho, Hs. split; [apply rtc_refl | done].
  - by destruct Hw.
  - exists true. assert (Hst : g_runtime_stopping (w_guard w) = false) by apply Hp.
    split.
    + unfold abstract. rewrite H1, Ho, Hs, Hop, Hst.
      assert (Hat : forall c e q, at_pc i q (mkAdm c true false e Free (<[i := q]> l)))
        by (intros; apply list_lookup_insert_eq; done).
      eapply rtc_l; [apply (step_evidence _ true)|].
      eapply rtc_l; [apply (step_first_open i); done|]. unfold move. cbn.
      eapply rtc_l; [apply (step_first_running i); [apply Hat | done]|]. unfold move. cbn. rewrite list_insert_insert_eq.
      eapply rtc_l; [apply (step_first_evidence i); [apply Hat | done]|]. unfold move. cbn. rewrite list_insert_insert_eq.
      eapply rtc_l; [apply (step_count i); apply Hat|]. unfold move. cbn. rewrite list_insert_insert_eq.
      rewrite u64_small by (unfold_int; lia).
      eapply rtc_l; [apply (step_again_open i); [apply Hat | done]|]. unfold move. cbn. rewrite list_insert_insert_eq.
      eapply rtc_l; [apply (step_again_running i); [apply Hat | done]|]. unfold move. cbn. rewrite list_insert_insert_eq.
      eapply rtc_l; [apply (step_admit i); [apply Hat | done]|]. unfold move. cbn. rewrite list_insert_insert_eq.
      apply rtc_refl.
    + intros _. unfold tsd_runtime_execution_leave.
      replace ((width >? SIMD_SSE41) && (width <=? SIMD_AVX512)) with true by (destruct Hw as [-> | ->]; done).
      cbn [when]. destruct (release_run w1) as (n & dl & lk & -> & _).
      pose proof (step_leave i (abstract true (<[i := Inside]> l) w1) ltac:(apply list_lookup_insert_eq; done)) as Hstep.
      unfold move in Hstep. cbn in Hstep. rewrite list_insert_insert_eq in Hstep. exact Hstep.
Qed.
End simulation.

Lemma enter_leave_refine_steps_witness :
  exists ev', rtc adm_step (abstract false [Out] admitted_world)
    (abstract ev' [Inside] (exec (tsd_runtime_execution_enter (EV := quiet_env) SIMD_AVX2) admitted_world)).
Proof.
  destruct (enter_leave_refine_steps (EV := quiet_env) SIMD_AVX2 admitted_world [Out] 0 false (or_introl eq_refl)
    ltac:(vm_compute; split; congruence) ltac:(vm_compute; split; congruence) eq_refl) as (ev' & Hrun & _).
  exists ev'. exact Hrun.
Defined.
