(* ===== verification/Trampoline.v ===== *)
(** * Trampoline: the immutable code page and width selection

    [src/src/patcher/trampoline.cpp] (production configuration, without
    [TSD_ENABLE_TESTS]) and the authorization bracket of
    [src/src/patcher/trampoline_guard.c].  Code bytes are the payloads of the
    source; the OpenSSL digest and the memory-mapping calls come from [Env]. *)
From S2P Require Import Prelude Float64 Config World Cpu TrampolineState Guard.
#[local] Open Scope Z_scope.

Definition kWidthCount : Z := 3.
Definition kSlotStride : Z := 64.
Definition TSD_TRAMPOLINE_SLOT_SIZE : Z := 32.

Definition kPatchSse41 : list Z :=
  [0xF3; 0x0F; 0x1E; 0xFA;  0x66; 0x0F; 0x70; 0xC0; 0x00;  0x66; 0x0F; 0x70; 0xC9; 0x00;
   0x66; 0x0F; 0x38; 0x40; 0xC1;  0xC3;
   0x90; 0x90; 0x90; 0x90; 0x90; 0x90;  0x90; 0x90; 0x90; 0x90; 0x90; 0x90].

Definition kPatchAvx2 : list Z :=
  [0xF3; 0x0F; 0x1E; 0xFA;  0xC4; 0xE2; 0x7D; 0x58; 0xC0;  0xC4; 0xE2; 0x7D; 0x58; 0xC9;
   0xC4; 0xE2; 0x7D; 0x40; 0xC1;  0xC5; 0xF8; 0x77;  0xC3;
   0x90; 0x90; 0x90; 0x90; 0x90; 0x90; 0x90; 0x90; 0x90].

Definition kPatchAvx512 : list Z :=
  [0xF3; 0x0F; 0x1E; 0xFA;  0x62; 0xF2; 0x7D; 0x48; 0x58; 0xC0;  0x62; 0xF2; 0x7D; 0x48; 0x58; 0xC9;
   0x62; 0xF2; 0x7D; 0x48; 0x40; 0xC1;  0xC5; 0xF8; 0x77;  0xC3;
   0x90; 0x90; 0x90; 0x90; 0x90; 0x90].

Definition canonical_patch (width : simd_width_t) : option (list Z) :=
  if width =? SIMD_SSE41 then Some kPatchSse41
  else if width =? SIMD_AVX2 then Some kPatchAvx2
  else if width =? SIMD_AVX512 then Some kPatchAvx512
  else None.

Definition kEnbr64 : Z := 0xFA1E0FF3.

Definition has_enbr64_prefix (bytes : list Z) : bool :=
  match bytes with
  | b0 :: b1 :: b2 :: b3 :: _ =>
      Z.lor (Z.lor (Z.lor b0 (Z.shiftl b1 8)) (Z.shiftl b2 16)) (Z.shiftl b3 24) =? kEnbr64
  | _ => false
  end.

(** [set_error]: the message goes to the log. *)
Definition set_error (err : Z) : M unit := when (err <>? 0) (set_errno err).

(** The bytes most recently written to a slot of the code page. *)
Fixpoint code_at (code : list (Z * list Z)) (p : Z) : list Z :=
  match code with
  | [] => []
  | (q, bytes) :: code => if q =? p then bytes else code_at code p
  end.

Definition memcpy_slot (p : Z) (bytes : list Z) : M unit :=
  on_tramp (fun t => t <| t_code ::= cons (p, bytes) |>).

Definition discard_code_page : M unit :=
  on_tramp (fun t => t <| t_page_a := 0 |> <| t_ctx_active := 0 |> <| t_ctx_inactive := 0 |>
                       <| t_slots := [0; 0; 0] |> <| t_code := [] |>) ;;;
  tsd_trampoline_state_set_page_a_writable false ;;;
  tsd_trampoline_state_set_page_b_writable false.

Section trampoline.
Context `{EV : Env}.

(** [mapping_is_rx_not_writable] of a null address is false without a call. *)
Definition mapping_is_rx_not_writable (address : Z) : M bool :=
  if address =? 0 then ret false else ext env_maps_rx.

Definition commit_selection_and_attestation (width : simd_width_t) (target : Z) : M Z :=
  if target =? 0 then set_error EINVAL ;;; ret (-1)
  else
    hashed <- ext env_sha256_ok ;;
    if negb hashed then set_error EIO ;;; ret (-1)
    else
      new_hash <- gets (fun w => env_sha256 (code_at (t_code (w_tramp w)) target)) ;;
      rc <- pthread_mutex_lock g_attestation_lock ;;
      if rc <>? 0 then set_error rc ;;; ret (-1)
      else
        on_tramp (fun t => t <| t_hash := None |>) ;;;
        old_active <- tsd_trampoline_state_active ;;
        on_tramp (fun t => t <| t_ctx_active := target |> <| t_ctx_inactive := old_active |>) ;;;
        tsd_trampoline_state_publish_selection width target ;;;
        on_tramp (fun t => t <| t_hash := Some new_hash |>) ;;;
        pthread_mutex_unlock g_attestation_lock ;;;
        ret 0.

(** The loop of [build_canonical_code_page] over the widths, from [i]. *)
Fixpoint write_slots (n : nat) (i page : Z) : M Z :=
  match n with
  | O => ret 0
  | S n =>
      match canonical_patch i with
      | Some patch =>
          if negb (has_enbr64_prefix patch) then discard_code_page ;;; set_error EINVAL ;;; ret (-1)
          else
            on_tramp (fun t => t <| t_slots ::= <[Z.to_nat i := page + i * kSlotStride]> |>) ;;;
            memcpy_slot (page + i * kSlotStride) patch ;;;
            write_slots n (i + 1) page
      | None => discard_code_page ;;; set_error EINVAL ;;; ret (-1)
      end
  end.

Definition build_canonical_code_page : M Z :=
  pagesize <- ext env_page_size ;;
  if pagesize <=? 0 then
    err <- ext env_errno ;; set_error (if err <>? 0 then err else EINVAL) ;;; ret (-1)
  else if kWidthCount * kSlotStride >? pagesize then set_error E2BIG ;;; ret (-1)
  else
    page <- ext env_mmap ;;
    if page =? 0 then err <- ext env_errno ;; set_error err ;;; ret (-1)
    else
      on_tramp (fun t => t <| t_page_a := page |>) ;;;
      tsd_trampoline_state_set_page_a_writable true ;;;
      tsd_trampoline_state_set_page_b_writable false ;;;
      rc <- write_slots (Z.to_nat kWidthCount) 0 page ;;
      if rc <>? 0 then ret (-1)
      else
        rc <- ext env_mprotect ;;
        if rc <>? 0 then
          err <- ext env_errno ;; discard_code_page ;;; set_error err ;;; ret (-1)
        else
          tsd_trampoline_state_set_page_a_writable false ;;;
          rx <- mapping_is_rx_not_writable page ;;
          if negb rx then discard_code_page ;;; set_error EPERM ;;; ret (-1)
          else ret 0.

(** [if (!page_a && build_canonical_code_page() != 0)]: 0 when a page exists. *)
Definition ensure_code_page : M Z :=
  page <- gets (fun w => t_page_a (w_tramp w)) ;;
  if page =? 0 then build_canonical_code_page else ret 0.

(** [g_slots[i]] *)
Definition slot_of (t : tramp_state) (i : Z) : Z := default 0 (t_slots t !! Z.to_nat i).

Definition tsd_trampoline_init : M Z :=
  rc <- pthread_mutex_lock g_tsd_patch_lock ;;
  if rc <>? 0 then fail rc
  else
    rc <- ensure_code_page ;;
    if rc <>? 0 then pthread_mutex_unlock g_tsd_patch_lock ;;; ret (-1)
    else
      rc <- pthread_mutex_lock g_attestation_lock ;;
      if rc <>? 0 then set_errno rc ;;; pthread_mutex_unlock g_tsd_patch_lock ;;; ret (-1)
      else
        slots <- gets w_tramp ;;
        on_tramp (fun t => t <| t_ctx_active := slot_of slots SIMD_SSE41 |>
                             <| t_ctx_inactive := slot_of slots SIMD_AVX2 |>) ;;;
        tsd_trampoline_state_reset (slot_of slots SIMD_SSE41) ;;;
        on_tramp (fun t => t <| t_hash := None |>) ;;;
        pthread_mutex_unlock g_attestation_lock ;;;
        pthread_mutex_unlock g_tsd_patch_lock ;;;
        ret 0.

(** [tsd_metrics_record_width_transition]; the exporter is diagnostic. *)
Definition tsd_metrics_record_width_transition (rc : Z) : M unit :=
  if rc =? 0 then tsd_metrics_increment TSD_METRIC_PATCH_TRANSITIONS
  else tsd_metrics_increment TSD_METRIC_PATCH_FAILURES.

(** The [do { ... } while (0)] block of the selector. *)
Definition select_trampoline (new_width : simd_width_t) : M Z :=
  if (new_width <? SIMD_SSE41) || (new_width >? SIMD_AVX512) then set_error EINVAL ;;; ret (-1)
  else if negb tsd_cpu_has_sse41 then set_error ENOTSUP ;;; ret (-1)
  else
    runtime_cfg <- tsd_runtime_config_active_snapshot ;;
    allowed_width <- tsd_detect_max_simd (Some runtime_cfg) ;;
    if new_width >? allowed_width then set_error ENOTSUP ;;; ret (-1)
    else
      rc <- ensure_code_page ;;
      if rc <>? 0 then ret (-1)
      else
        match canonical_patch new_width with
        | None => set_error EINVAL ;;; ret (-1)
        | Some patch =>
            if negb (has_enbr64_prefix patch) then set_error EINVAL ;;; ret (-1)
            else
              target <- gets (fun w => slot_of (w_tramp w) new_width) ;;
              rx <- mapping_is_rx_not_writable target ;;
              if (target =? 0) || negb rx then set_error EPERM ;;; ret (-1)
              else
                rc <- commit_selection_and_attestation new_width target ;;
                if rc <>? 0 then ret (-1) else ret 0
        end.

Definition tsd_trampoline_patch_impl (new_width : simd_width_t) : M Z :=
  rc <- pthread_mutex_lock g_tsd_patch_lock ;;
  if rc <>? 0 then fail rc
  else
    previous_width <- tsd_trampoline_state_current_width ;;
    tsd_trampoline_state_set_last_patch_attempt new_width ;;;
    rc <- select_trampoline new_width ;;
    tsd_metrics_record_width_transition rc ;;;
    pthread_mutex_unlock g_tsd_patch_lock ;;;
    ret rc.

Definition tsd_trampoline_patch (new_width : simd_width_t) : M Z :=
  rc <- tsd_runtime_safety_write_enter ;;
  if rc <>? 0 then ret (-1)
  else
    authorized <- tsd_runtime_width_authorized new_width ;;
    if negb authorized then tsd_runtime_safety_write_leave ;;; fail EAGAIN
    else
      rc <- tsd_trampoline_patch_impl new_width ;;
      saved_errno <- gets w_errno ;;
      tsd_runtime_safety_write_leave ;;;
      when (rc <>? 0) (set_errno (if saved_errno <>? 0 then saved_errno else EIO)) ;;;
      ret rc.

Definition tsd_trampoline_self_validate : M Z :=
  rc <- pthread_mutex_lock g_tsd_patch_lock ;;
  if rc <>? 0 then fail rc
  else
    initialized <- tsd_trampoline_state_initialized ;;
    rc <- (if negb initialized then ret (-1)
           else
             width <- tsd_trampoline_state_current_width ;;
             active <- tsd_trampoline_state_active ;;
             match canonical_patch width with
             | None => ret (-1)
             | Some expected =>
                 if active =? 0 then ret (-1)
                 else
                   code <- gets (fun w => code_at (t_code (w_tramp w)) active) ;;
                   if negb (bool_decide (code = expected)) then ret (-1)
                   else if negb (has_enbr64_prefix code) then ret (-1)
                   else
                     rx <- mapping_is_rx_not_writable active ;;
                     if negb rx then ret (-1)
                     else
                       a <- tsd_trampoline_state_page_a_writable ;;
                       b <- tsd_trampoline_state_page_b_writable ;;
                       if a || b then ret (-1) else ret 0
             end) ;;
    pthread_mutex_unlock g_tsd_patch_lock ;;;
    ret rc.
End trampoline.

(** ** Invariant of the code page and the selection *)

(** What the kernel promises about a mapping: page aligned, so slots inside it
    keep their low bits clear, and inside the address space. *)
Definition page_ok (p : Z) : Prop := 0 < p /\ p mod 4096 = 0 /\ p + 4096 <= UINT64_MAX.

Class MmapAligned `{EV : Env} : Prop := mmap_aligned : forall n, env_mmap n = 0 \/ page_ok (env_mmap n).

Definition page_slots (p : Z) : list Z := [p; p + kSlotStride; p + 2 * kSlotStride].

Definition same_selection (t t' : tramp_state) : Prop :=
  t_selection_word t' = t_selection_word t /\ t_current_width t' = t_current_width t /\
  t_active_trampoline t' = t_active_trampoline t /\ t_hash t' = t_hash t /\
  t_initialized t' = t_initialized t /\ t_last_patched_width t' = t_last_patched_width t.

Section invariant.
Context `{EV : Env}.

(** Outside a build the page is never writable, its slots hold the canonical
    payloads, the selection is a slot of the selected width, and a valid
    attestation is the digest of the selected payload. *)
Record code_inv (t : tramp_state) : Prop := {
  ci_sealed : t_page_a_writable t = false /\ t_page_b_writable t = false;
  ci_no_page : t_page_a t = 0 -> t_slots t = [0; 0; 0] /\ t_selection_word t = 0;
  ci_page : t_page_a t <> 0 -> page_ok (t_page_a t) /\ t_slots t = page_slots (t_page_a t) /\
    forall width, width_in_range width = true ->
      canonical_patch width = Some (code_at (t_code t) (t_page_a t + width * kSlotStride));
  ci_tramp : tramp_ok t;
  ci_selected : t_selection_word t <> 0 ->
    t_active_trampoline t = t_page_a t + t_current_width t * kSlotStride;
  ci_hash : forall h, t_hash t = Some h ->
    t_selection_word t <> 0 /\ h = env_sha256 (code_at (t_code t) (t_active_trampoline t));
  ci_initialized : t_initialized t = true -> t_selection_word t <> 0;
}.

Lemma slot_in_page p width :
  page_ok p -> width_in_range width = true -> slot_ptr (p + width * kSlotStride).
Proof.
  intros (H1 & H2 & H3) Hw. unfold slot_ptr, TSD_SELECTION_WIDTH_MASK, kSlotStride.
  assert (Hr : 0 <= width <= 2) by (destruct (width_cases width Hw) as [-> | [-> | -> ]]; done).
  split; [lia|]. change 3 with (Z.ones 2). rewrite Z.land_ones by lia. change (2 ^ 2) with 4.
  replace p with (p / 4096 * 4096) by (pose proof (Z.div_mod p 4096 ltac:(lia)); lia).
  replace (p / 4096 * 4096 + width * 64) with ((p / 4096 * 1024 + width * 16) * 4) by lia.
  apply Z.mod_mul. lia.
Qed.

Lemma slot_of_page t width :
  t_slots t = page_slots (t_page_a t) -> width_in_range width = true ->
  slot_of t width = t_page_a t + width * kSlotStride.
Proof.
  intros Hs Hw. unfold slot_of. rewrite Hs. generalize (t_page_a t). intros p. unfold kSlotStride, page_slots.
  destruct (width_cases width Hw) as [-> | [-> | -> ]].
  - change (p = p + 0 * 64). lia.
  - change (p + 64 = p + 1 * 64). lia.
  - reflexivity.
Qed.

Lemma canonical_prefix width patch : canonical_patch width = Some patch -> has_enbr64_prefix patch = true.
Proof. unfold canonical_patch. repeat case_if; intros [= <-]; reflexivity. Qed.

Lemma canonical_some width : width_in_range width = true -> exists patch, canonical_patch width = Some patch.
Proof. intros Hw. destruct (width_cases width Hw) as [-> | [-> | -> ]]; by eexists. Qed.

(** The state after a successful build. *)
Definition built (p : Z) (t : tramp_state) : tramp_state :=
  t <| t_page_a := p |> <| t_page_a_writable := false |> <| t_page_b_writable := false |>
    <| t_slots := page_slots p |>
    <| t_code := [(p + 2 * kSlotStride, kPatchAvx512); (p + kSlotStride, kPatchAvx2); (p, kPatchSse41)] ++ t_code t |>.

Definition discarded (t : tramp_state) : tramp_state :=
  t <| t_page_a := 0 |> <| t_ctx_active := 0 |> <| t_ctx_inactive := 0 |>
    <| t_slots := [0; 0; 0] |> <| t_code := [] |> <| t_page_a_writable := false |> <| t_page_b_writable := false |>.

Definition with_tramp (n : nat) (e : Z) (t : tramp_state) (w : world) : world :=
  w <| w_calls := n |> <| w_errno := e |> <| w_tramp := t |>.

Lemma with_tramp_same w : w = with_tramp (w_calls w) (w_errno w) (w_tramp w) w.
Proof. by destruct w. Qed.

Lemma write_slots_run p w :
  t_slots (w_tramp w) = [0; 0; 0] ->
  write_slots 3 0 p w = (0, w <| w_tramp ::= fun t => t <| t_slots := page_slots p |>
    <| t_code := [(p + 2 * kSlotStride, kPatchAvx512); (p + kSlotStride, kPatchAvx2); (p, kPatchSse41)] ++ t_code t |> |>).
Proof.
  intros Hs. cbn -[kPatchSse41 kPatchAvx2 kPatchAvx512 kSlotStride Z.mul Z.add has_enbr64_prefix].
  change (has_enbr64_prefix kPatchSse41) with true. change (has_enbr64_prefix kPatchAvx2) with true.
  change (has_enbr64_prefix kPatchAvx512) with true.
  cbn -[kPatchSse41 kPatchAvx2 kPatchAvx512 kSlotStride Z.mul Z.add].
  rewrite Hs. cbn -[kPatchSse41 kPatchAvx2 kPatchAvx512 kSlotStride Z.mul Z.add].
  change (0 * kSlotStride) with 0. change (0 + 1) with 1. change (1 * kSlotStride) with kSlotStride.
  change (1 + 1) with 2. by rewrite Z.add_0_r.
Qed.

(** Exhibit the result of a concrete run as [with_tramp]. *)
Ltac show_tramp w :=
  unfold ret;
  match goal with
  | |- exists n e t, (_, ?x) = (_, with_tramp n e t _) /\ _ =>
      exists (w_calls x), (w_errno x), (w_tramp x); split; [unfold with_tramp; by destruct w|]
  end.

Lemma build_run w :
  t_slots (w_tramp w) = [0; 0; 0] -> t_page_a (w_tramp w) = 0 ->
  (exists n e t, build_canonical_code_page w = (-1, with_tramp n e t w) /\
     (t = w_tramp w \/ t = discarded (w_tramp w))) \/
  (exists n e t, build_canonical_code_page w = (0, with_tramp n e t w) /\
     exists k, env_mmap k <> 0 /\ t = built (env_mmap k) (w_tramp w)).
Proof.
  intros Hs Hp. unfold build_canonical_code_page, set_error. rewrite bind_run. cbn [ext fst snd].
  destruct (_ <=? 0).
  { left. cbn. destruct (env_errno _ =? 0) eqn:E; cbn; rewrite ?E; cbn. all: show_tramp w; by left. }
  destruct (_ >? _); [left; cbn; show_tramp w; by left|].
  rewrite bind_run. cbn [ext fst snd].
  destruct (env_mmap _ =? 0) eqn:Em; zbool.
  { left. cbn. destruct (env_errno _ =? 0); cbn; show_tramp w; by left. }
  rewrite 4!bind_run. change (Z.to_nat kWidthCount) with 3%nat. rewrite write_slots_run by (cbn; exact Hs).
  cbn [fst snd Z.eqb negb]. rewrite bind_run. cbn [ext fst snd].
  destruct (env_mprotect _ =? 0); cbn [negb].
  2: { left. cbn. destruct (env_errno _ =? 0); cbn; show_tramp w; right; by destruct w. }
  rewrite !bind_run. unfold mapping_is_rx_not_writable.
  rewrite (proj2 (Z.eqb_neq _ 0)) by exact Em. cbn [ext fst snd].
  destruct (env_maps_rx _); cbn.
  - right. show_tramp w. eexists. split; [exact Em|]. by destruct w.
  - left. show_tramp w. right. by destruct w.
Qed.

Lemma code_inv_built p t :
  page_ok p -> t_page_a t = 0 -> code_inv t -> code_inv (built p t).
Proof.
  intros Hp H0 Ht. destruct (ci_no_page t Ht H0) as [_ Hw0]. destruct Hp as (Hp & Hm & Hu).
  split; cbn -[Z.mul kPatchSse41 kPatchAvx2 kPatchAvx512].
  - done.
  - lia.
  - intros _. split; [done|]. split; [done|]. intros width Hw. unfold kSlotStride.
    destruct (width_cases width Hw) as [-> | [-> | -> ]];
      unfold SIMD_SSE41, SIMD_AVX2, SIMD_AVX512; cbn [canonical_patch Z.eqb];
      repeat (rewrite (proj2 (Z.eqb_neq _ _)) by lia); rewrite (proj2 (Z.eqb_eq _ _)) by lia; reflexivity.
  - apply Ht.
  - done.
  - intros h Hh. by destruct (ci_hash t Ht h Hh).
  - apply Ht.
Qed.

Lemma code_inv_discarded t : t_page_a t = 0 -> code_inv t -> code_inv (discarded t).
Proof.
  intros H0 Ht. destruct (ci_no_page t Ht H0) as [_ Hw0].
  split; cbn; [done | done | done | apply Ht | done | | apply Ht].
  intros h Hh. by destruct (ci_hash t Ht h Hh).
Qed.

Lemma ensure_run `{!MmapAligned} w :
  code_inv (w_tramp w) ->
  exists rc n e t, ensure_code_page w = (rc, with_tramp n e t w) /\
    code_inv t /\ same_selection (w_tramp w) t /\ (rc = 0 \/ rc = -1) /\ (rc = 0 -> t_page_a t <> 0).
Proof.
  intros Ht. unfold ensure_code_page. rewrite bind_run. cbn [gets fst snd].
  destruct (t_page_a (w_tramp w) =? 0) eqn:E; zbool.
  - destruct (ci_no_page _ Ht E) as [Hs _].
    destruct (build_run w Hs E) as [(n & e & t & -> & Hor)|(n & e & t & -> & k & Hk & ->)];
      do 4 eexists; (split; [reflexivity|]).
    + split; [destruct Hor as [-> | ->]; [done | by apply code_inv_discarded]|].
      split; [destruct Hor as [-> | ->]; done|]. split; [by right | done].
    + split; [apply code_inv_built; [destruct (mmap_aligned k); done | done | done]|].
      split; [done|]. split; [by left | done].
  - exists 0, (w_calls w), (w_errno w), (w_tramp w). rewrite <- with_tramp_same.
    split; [done|]. split; [done|]. split; [done|]. split; [by left | done].
Qed.

(** The state a commit publishes. *)
Definition selected (width target h old : Z) (t : tramp_state) : tramp_state :=
  t <| t_ctx_active := target |> <| t_ctx_inactive := old |>
    <| t_selection_word := Z.lor target width |> <| t_current_width := width |>
    <| t_current_width_byte := u8 width |> <| t_active_trampoline := target |>
    <| t_initialized := true |> <| t_last_patched_width := u8 width |> <| t_hash := Some h |>.

Lemma selected_inv width old t :
  code_inv t -> t_page_a t <> 0 -> width_in_range width = true ->
  code_inv (selected width (t_page_a t + width * kSlotStride)
              (env_sha256 (code_at (t_code t) (t_page_a t + width * kSlotStride))) old t).
Proof.
  intros Ht Hp Hw. destruct (ci_page t Ht Hp) as (Hpok & Hs & Hc).
  pose proof (slot_in_page _ _ Hpok Hw) as Hptr.
  split; cbn -[Z.lor Z.mul].
  - apply Ht.
  - done.
  - done.
  - split; [done|]. by right.
  - done.
  - intros h [= <-]. split; [by apply encode_nonzero | done].
  - intros _. by apply encode_nonzero.
Qed.

Lemma active_run t w :
  w_tramp w = t -> tramp_ok t ->
  exists e, tsd_trampoline_state_active w = (t_active_trampoline t, w <| w_errno := e |>).
Proof.
  intros <- Ht. unfold tsd_trampoline_state_active. rewrite bind_run, snapshot_run by done.
  destruct (t_selection_word (w_tramp w) =? 0).
  - by exists ENODEV.
  - exists (w_errno w). cbn. by destruct w.
Qed.

(** A commit fails before it changes anything, or selects. *)
Lemma commit_run width w :
  code_inv (w_tramp w) -> t_page_a (w_tramp w) <> 0 -> width_in_range width = true ->
  l_attestation (w_locks w) = false ->
  let target := t_page_a (w_tramp w) + width * kSlotStride in
  exists rc n e t, commit_selection_and_attestation width target w = (rc, with_tramp n e t w) /\
    ((rc = -1 /\ t = w_tramp w) \/
     (rc = 0 /\ exists old, t = selected width target (env_sha256 (code_at (t_code (w_tramp w)) target)) old (w_tramp w))).
Proof.
  intros Ht Hp Hw Hl target.
  assert (Hptr : slot_ptr target) by (apply slot_in_page; [apply (ci_page _ Ht Hp) | done]).
  unfold commit_selection_and_attestation, set_error.
  rewrite (proj2 (Z.eqb_neq target 0)) by (destruct Hptr; lia).
  rewrite bind_run. cbn [ext fst snd]. destruct (env_sha256_ok _); cbn [negb].
  2: { exists (-1), (S (w_calls w)), EIO, (w_tramp w). split; [by destruct w | by left]. }
  rewrite !bind_run. cbn [gets fst snd].
  match goal with |- context [pthread_mutex_lock ?m ?w] => destruct (lock_run m w) as [(e & He & ->) | -> ] end;
    cbn [fst snd].
  { rewrite (proj2 (Z.eqb_neq e 0)) by done. cbn.
    exists (-1), (S (S (w_calls w))), e, (w_tramp w). split; [by destruct w | by left]. }
  cbn [Z.eqb negb]. rewrite 2!bind_run.
  match goal with |- context [tsd_trampoline_state_active ?x] =>
    destruct (active_run (w_tramp x) x eq_refl) as [e ->]; [exact (ci_tramp _ Ht)|] end.
  rewrite 2!bind_run. unfold tsd_trampoline_state_publish_selection.
  rewrite encode_valid by done. rewrite (proj2 (Z.eqb_neq _ 0)) by (by apply encode_nonzero).
  cbn -[Z.lor target].
  exists 0, (S (S (w_calls w))), e. eexists. split; [|right; split; [reflexivity | exists (t_active_trampoline (w_tramp w)); reflexivity]].
  unfold with_tramp, selected, ret. cbn -[Z.lor target].
  destruct w as [? ? ? lk]; destruct lk; cbn in *; subst. done.
Qed.

(** The configuration in force. *)
Definition config_in_force (w : world) : tsd_runtime_config :=
  if g_config_snapshot_state (w_guard w) =? 2 then g_config_snapshot (w_guard w) else w_config w.

(** What a selection attempt may have done, by its result. *)
Definition select_outcome (width rc : Z) (w : world) (t : tramp_state) : Prop :=
  (rc = -1 /\ same_selection (w_tramp w) t) \/
  (rc = 0 /\ width_in_range width = true /\ tsd_cpu_has_sse41 = true /\
     width <= detected_width (Some (config_in_force w)) /\
     t_current_width t = width /\ t_selection_word t <> 0 /\ t_initialized t = true /\
     exists patch, canonical_patch width = Some patch /\ t_hash t = Some (env_sha256 patch)).

Lemma select_run `{!MmapAligned} width w :
  code_inv (w_tramp w) -> l_attestation (w_locks w) = false ->
  exists rc n e t a, select_trampoline width w = (rc, with_tramp n e t (w <| w_avx_available := a |>)) /\
    code_inv t /\ select_outcome width rc w t.
Proof.
  intros Ht Hl. unfold select_trampoline.
  assert (Hstay : forall e, exists n e' t a,
    (-1, w <| w_errno := e |>) = (-1, with_tramp n e' t (w <| w_avx_available := a |>)) /\
    code_inv t /\ select_outcome width (-1) w t).
  { intros e. exists (w_calls w), e, (w_tramp w), (w_avx_available w).
    split; [by destruct w|]. split; [done | by left]. }
  destruct ((width <? SIMD_SSE41) || (width >? SIMD_AVX512)) eqn:ER; [exists (-1); apply (Hstay EINVAL)|].
  assert (Hw : width_in_range width = true) by (unfold width_in_range; by rewrite ER).
  destruct tsd_cpu_has_sse41 eqn:Ecpu; cbn [negb]; [|exists (-1); apply (Hstay ENOTSUP)].
  rewrite bind_run. cbn [gets fst snd tsd_runtime_config_active_snapshot]. rewrite bind_run.
  fold (config_in_force w).
  destruct (detect_frame (Some (config_in_force w)) w) as [a ->]. cbn [fst snd]. clear Hstay.
  destruct (width >? detected_width _) eqn:Ed.
  { exists (-1), (w_calls w), ENOTSUP, (w_tramp w), a. split; [by destruct w|]. split; [done | by left]. }
  rewrite Z.gtb_ltb in Ed. apply Z.ltb_ge in Ed.
  rewrite bind_run. match goal with |- context [ensure_code_page ?x] =>
    destruct (ensure_run x Ht) as (rc & n & e & t & -> & Hinv & Hsame & Hrc & Hpage) end.
  destruct Hrc as [-> | ->]; cbn [fst snd Z.eqb negb].
  2: { exists (-1), n, e, t, a. split; [done|]. split; [done | by left]. }
  specialize (Hpage eq_refl). destruct (canonical_some width Hw) as [patch Hpatch]. rewrite Hpatch.
  rewrite (canonical_prefix _ _ Hpatch). cbn [negb].
  destruct (ci_page t Hinv Hpage) as (Hpok & Hs & Hc).
  rewrite bind_run. cbn [gets fst snd]. change (w_tramp (with_tramp n e t _)) with t.
  rewrite (slot_of_page t width Hs Hw).
  assert (Hnz : (t_page_a t + width * kSlotStride =? 0) = false)
    by (apply Z.eqb_neq; destruct (slot_in_page _ _ Hpok Hw); lia).
  rewrite bind_run. unfold mapping_is_rx_not_writable. rewrite Hnz. cbn [ext fst snd orb].
  destruct (env_maps_rx _); cbn [negb].
  2: { exists (-1), (S n), EPERM, t, a. split; [by destruct w|]. split; [done | by left]. }
  rewrite bind_run.
  match goal with |- context [commit_selection_and_attestation _ _ ?x] =>
    set (w1 := x); destruct (commit_run width w1 Hinv Hpage Hw Hl) as (rc & n' & e' & t' & Hrun & Hor);
    change (w_tramp w1) with t in Hrun, Hor end.
  rewrite Hrun. cbn [fst snd].
  destruct Hor as [(-> & ->)|(-> & old & ->)]; cbn [Z.eqb negb].
  - exists (-1), n', e', t, a. split; [by destruct w|]. split; [done | by left].
  - exists 0, n', e'. eexists. exists a. split; [by destruct w|]. split; [by apply selected_inv|].
    right. do 5 (split; [done|]). split; [apply encode_nonzero; [done | by apply slot_in_page]|].
    split; [done|]. exists patch. split; [done|]. pose proof (Hc width Hw) as Hcw.
    rewrite Hpatch in Hcw. injection Hcw as ->. done.
Qed.

Definition bump (rc : Z) (m : list Z) : list Z :=
  alter (fun c => u64 (c + 1)) (if rc =? 0 then TSD_METRIC_PATCH_TRANSITIONS else TSD_METRIC_PATCH_FAILURES) m.

Lemma width_run w :
  tramp_ok (w_tramp w) ->
  exists e, tsd_trampoline_state_current_width w = (t_current_width (w_tramp w), w <| w_errno := e |>).
Proof.
  intros Ht. rewrite current_width_run by done.
  destruct (_ =? 0); [by exists ENODEV | exists (w_errno w); by destruct w].
Qed.

Lemma same_selection_attempt width t :
  code_inv t -> code_inv (t <| t_last_patch_attempt := width |>).
Proof. intros []. by split. Qed.

(** The selector under its own lock: the locks are as before and an attempt
    that got the lock counts one transition or one failure. *)
Lemma impl_run `{!MmapAligned} width w :
  code_inv (w_tramp w) -> l_attestation (w_locks w) = false -> l_patch (w_locks w) = false ->
  exists rc n e t a m,
    tsd_trampoline_patch_impl width w =
      (rc, with_tramp n e t (w <| w_avx_available := a |> <| w_metrics := m |>)) /\
    code_inv t /\ select_outcome width rc w t /\
    (rc = 0 -> m = bump 0 (w_metrics w)) /\ (m = w_metrics w \/ m = bump rc (w_metrics w)).
Proof.
  intros Ht Hla Hlp. unfold tsd_trampoline_patch_impl. rewrite bind_run.
  destruct (lock_run g_tsd_patch_lock w) as [(e & He & ->) | -> ]; cbn [fst snd].
  { rewrite (proj2 (Z.eqb_neq e 0)) by done.
    exists (-1), (S (w_calls w)), e, (w_tramp w), (w_avx_available w), (w_metrics w).
    split; [by destruct w|]. split; [done|]. split; [by left|]. split; [done | by left]. }
  cbn [Z.eqb negb]. rewrite bind_run.
  match goal with |- context [tsd_trampoline_state_current_width ?x] =>
    destruct (width_run x (ci_tramp _ Ht)) as [e ->] end.
  rewrite bind_run. cbn [fst snd]. rewrite bind_run.
  match goal with |- context [select_trampoline width ?x] =>
    set (w1 := x); destruct (select_run width w1) as (rc & n & e' & t & a & -> & Hinv & Hout);
    [by apply same_selection_attempt | done|] end.
  exists rc, n, e', t, a, (bump rc (w_metrics w)).
  split; [|split; [done|]; split; [done|]; split; [by intros -> | by right]].
  rewrite bind_run. cbn [fst snd]. unfold tsd_metrics_record_width_transition, tsd_metrics_increment, tsd_metrics_add, bump.
  destruct (rc =? 0); unfold w1, with_tramp, ret; cbn;
    destruct w as [? ? ? lk]; destruct lk; cbn in *; subst; done.
Qed.

(** What [tsd_trampoline_patch] guarantees. *)
Definition patch_outcome (width rc : Z) (w w' : world) : Prop :=
  (rc = -1 /\ same_selection (w_tramp w) (w_tramp w') /\ w_errno w' <> 0) \/
  (rc = 0 /\ select_outcome width 0 w (w_tramp w') /\ w_metrics w' = bump 0 (w_metrics w) /\
     (width = SIMD_SSE41 \/ wide_policy (exec tsd_runtime_safety_write_enter w))).

Lemma patch_run `{!MmapAligned} width w :
  guard_inv w -> code_inv (w_tramp w) ->
  exists rc w', tsd_trampoline_patch width w = (rc, w') /\
    guard_inv w' /\ code_inv (w_tramp w') /\ patch_outcome width rc w w'.
Proof.
  intros Hg Ht. unfold tsd_trampoline_patch, patch_outcome, exec. rewrite bind_run.
  destruct (write_enter_run w (proj1 Hg)) as [(Hrc & e & Hw1)|(-> & Hw1)].
  { assert (He : w_errno (tsd_runtime_safety_write_enter w).2 <> 0).
    { revert Hrc. unfold tsd_runtime_safety_write_enter. rewrite bind_run.
      destruct (lock_run g_tsd_guard_update_lock w) as [(e' & He' & ->) | -> ]; cbn; [|done].
      by rewrite (proj2 (Z.eqb_neq e' 0)). }
    rewrite (proj2 (Z.eqb_neq _ 0)) by done. cbn [negb]. do 2 eexists. split; [reflexivity|].
    rewrite Hw1 in *. split; [|split; [done | by left]]. eapply guard_inv_frame; [..|exact Hg]; done. }
  rewrite Hw1. set (w1 := w <| w_calls ::= S |> <| w_locks := guard_only |> <| w_deadlock := false |>
     <| w_guard ::= fun g => g <| g_wide_admission_open := false |> |>).
  cbn [Z.eqb negb]. rewrite bind_run.
  pose proof (width_authorized_run width w1) as Hauth.
  destruct (width_authorized_frame width w1) as (n & st & sn & Hf). rewrite Hf.
  set (w2 := w1 <| w_calls := n |> <| w_guard ::= fun g => g <| g_safety_snapshot_state := st |> <| g_safety_snapshot := sn |> |>).
  assert (Hframe : forall x, outside_guard x = outside_guard (exec tsd_runtime_safety_write_leave x))
    by (intros x; apply guard_frame_write_leave).
  destruct (tsd_runtime_width_authorized width w1).1; cbn [negb].
  2: { rewrite bind_run. cbn [fail]. do 2 eexists. split; [reflexivity|].
    pose proof (write_leave_run w2 ltac:(done)) as Hinv. pose proof (Hframe w2) as Hfr.
    injection Hfr as Htr _. unfold exec in Htr. cbn in Htr |- *.
    split; [eapply guard_inv_frame; [..|exact Hinv]; done|].
    rewrite <- Htr. split; [done | by left]. }
  rewrite bind_run.
  destruct (impl_run width w2 Ht eq_refl eq_refl) as (rc & k & e & t & a & m & -> & Hinv & Hout & Hm & _).
  cbn [fst snd]. rewrite !bind_run. cbn [gets fst snd].
  set (w3 := with_tramp _ _ _ _). pose proof (write_leave_run w3 ltac:(done)) as Hg'.
  pose proof (Hframe w3) as Hfr. injection Hfr as Htr _ _ Hmet _ _ _ _ _ _. unfold exec in Htr, Hmet.
  set (w4 := (tsd_runtime_safety_write_leave w3).2) in *. change (w_tramp w3) with t in Htr. change (w_metrics w3) with m in Hmet.
  destruct Hout as [(-> & Hs)|(-> & Hs)]; do 2 eexists; (split; [reflexivity|]); cbn; rewrite <- ?Htr.
  - split; [eapply guard_inv_frame; [..|exact Hg']; done|]. split; [done|]. left.
    split; [done|]. split; [done|]. by destruct (e =? 0) eqn:Ee; zbool.
  - split; [done|]. split; [done|]. right. split; [done|]. split; [by right|].
    split; [by rewrite <- Hmet, Hm|]. by apply Hauth.
Qed.

(** What selecting a width leaves alone. *)
Definition outside_patch (w : world) :=
  (w_obs w, w_flags w, (w_config w, w_degraded w, w_workload_iterations w, w_self_tid w),
   (w_running w, w_stop_requested w, w_reload_requested w),
   (g_runtime_stopping (w_guard w), g_runtime_owner_tid (w_guard w), g_active_wide_executions (w_guard w)),
   (g_config_snapshot_state (w_guard w), g_config_snapshot (w_guard w))).

Definition patch_frame (w w' : world) : Prop := outside_patch w = outside_patch w'.
#[export] Instance patch_frame_preorder : PreOrder patch_frame.
Proof. unfold patch_frame. exact _. Qed.

Lemma patch_frame_obs w w' : patch_frame w w' -> w_obs w = w_obs w'.
Proof. unfold patch_frame, outside_patch. congruence. Qed.

Lemma patch_frame_authorized width : respects patch_frame (tsd_runtime_width_authorized width).
Proof. intros w. destruct (width_authorized_frame width w) as (n & st & sn & ->). done. Qed.

Lemma patch_frame_lock m : respects patch_frame (pthread_mutex_lock m).
Proof. intros w. destruct (lock_run m w) as [(e & He & ->) | -> ]; done. Qed.

Lemma patch_frame_detect cfg : respects patch_frame (tsd_detect_max_simd cfg).
Proof. intros w. destruct (detect_frame cfg w) as (n & -> ). done. Qed.

Ltac patch_steps :=
  repeat first
    [ apply patch_frame_authorized | apply patch_frame_lock | apply patch_frame_detect
    | respects_step | (intro; reflexivity) ].

Lemma patch_frame_write_leave : respects patch_frame tsd_runtime_safety_write_leave.
Proof. unfold tsd_runtime_safety_write_leave, tsd_runtime_is_stopping. patch_steps. Qed.

Lemma patch_frame_slots n i page : respects patch_frame (write_slots n i page).
Proof.
  revert i. induction n as [|n IH]; intros i; cbn [write_slots]; [patch_steps|].
  unfold discard_code_page, set_error, memcpy_slot. patch_steps; apply IH.
Qed.

Lemma patch_keeps width : respects patch_frame (tsd_trampoline_patch width).
Proof.
  unfold tsd_trampoline_patch, tsd_runtime_safety_write_enter, tsd_runtime_safety_write_leave,
    tsd_runtime_is_stopping, tsd_trampoline_patch_impl, select_trampoline, ensure_code_page,
    build_canonical_code_page, discard_code_page, mapping_is_rx_not_writable,
    commit_selection_and_attestation, tsd_trampoline_state_active, tsd_trampoline_state_current_width,
    tsd_trampoline_state_snapshot, tsd_trampoline_state_publish_selection, tsd_metrics_record_width_transition,
    tsd_runtime_config_active_snapshot, set_error, fail.
  repeat first [apply patch_frame_slots | progress patch_steps].
Qed.

Lemma reset_inv t a b :
  code_inv t -> t_page_a t <> 0 ->
  code_inv (t <| t_ctx_active := a |> <| t_ctx_inactive := b |>
              <| t_selection_word := encode_selection SIMD_SSE41 (t_page_a t) |>
              <| t_current_width := SIMD_SSE41 |> <| t_current_width_byte := SIMD_SSE41 |>
              <| t_active_trampoline := t_page_a t |> <| t_initialized := false |>
              <| t_last_patch_attempt := SIMD_SSE41 |> <| t_last_patched_width := SIMD_SSE41 |>
              <| t_hash := None |>).
Proof.
  intros Ht Hp. destruct (ci_page t Ht Hp) as (Hpok & Hs & Hc).
  pose proof (slot_in_page _ SIMD_SSE41 Hpok eq_refl) as Hptr.
  change (SIMD_SSE41 * kSlotStride) with 0 in Hptr. rewrite Z.add_0_r in Hptr.
  rewrite encode_valid by done.
  split; cbn -[Z.lor Z.mul]; try done; [apply Ht | split; [done | by right] | intros _; unfold SIMD_SSE41; lia].
Qed.

Lemma init_run `{!MmapAligned} w :
  guard_inv w -> code_inv (w_tramp w) ->
  exists rc n e t, tsd_trampoline_init w = (rc, with_tramp n e t w) /\ code_inv t /\
    ((rc = -1 /\ same_selection (w_tramp w) t) \/
     (rc = 0 /\ t_page_a t <> 0 /\ t_current_width t = SIMD_SSE41 /\ t_selection_word t <> 0)).
Proof.
  intros [[Hl Hd] _] Ht. unfold tsd_trampoline_init. rewrite bind_run.
  destruct (lock_run g_tsd_patch_lock w) as [(e & He & ->) | -> ]; cbn [fst snd].
  { rewrite (proj2 (Z.eqb_neq e 0)) by done. exists (-1), (S (w_calls w)), e, (w_tramp w).
    split; [by destruct w|]. split; [done | by left]. }
  cbn [Z.eqb negb]. rewrite bind_run. match goal with |- context [ensure_code_page ?x] =>
    destruct (ensure_run x Ht) as (rc & n & e & t & -> & Hinv & Hsame & Hrc & Hpage) end.
  destruct Hrc as [-> | ->]; cbn [fst snd Z.eqb negb].
  2: { exists (-1), n, e, t. split; [destruct w; cbn in Hl, Hd; by subst|]. split; [done | by left]. }
  specialize (Hpage eq_refl). rewrite bind_run.
  match goal with |- context [pthread_mutex_lock ?m ?w] => destruct (lock_run m w) as [(e' & He & ->) | -> ] end;
    cbn [fst snd].
  { rewrite (proj2 (Z.eqb_neq e' 0)) by done. exists (-1), (S n), e', t.
    split; [destruct w; cbn in Hl, Hd; by subst|]. split; [done | by left]. }
  cbn [Z.eqb negb]. rewrite bind_run. cbn [gets fst snd].
  destruct (ci_page t Hinv Hpage) as (Hpok & Hs & Hc).
  match goal with |- context [slot_of ?t' SIMD_SSE41] => change t' with t end.
  rewrite !(slot_of_page t) by done. change (SIMD_SSE41 * kSlotStride) with 0. rewrite Z.add_0_r.
  exists 0, (S n), e. eexists. split; [|split; [by apply reset_inv|]].
  - destruct w; cbn in Hl, Hd; subst. reflexivity.
  - right. split; [done|]. split; [done|]. split; [done|]. cbn -[encode_selection].
    pose proof (slot_in_page _ SIMD_SSE41 Hpok eq_refl) as Hptr.
    change (SIMD_SSE41 * kSlotStride) with 0 in Hptr. rewrite Z.add_0_r in Hptr.
    rewrite encode_valid by done. by apply encode_nonzero.
Qed.

(** ** Runs of the trampoline and the guard together *)

Inductive tramp_call : Type :=
  | CInit
  | CPatch (width : simd_width_t)
  | CGuard (op : guard_op).

Definition run_tramp_call (c : tramp_call) : M unit :=
  match c with
  | CInit => drop tsd_trampoline_init
  | CPatch width => drop (tsd_trampoline_patch width)
  | CGuard op => run_guard_op op
  end.

Definition run_tramp_calls (cs : list tramp_call) (w : world) : world :=
  foldl (fun w c => exec (run_tramp_call c) w) w cs.

Definition system_inv (w : world) : Prop := guard_inv w /\ code_inv (w_tramp w).

Lemma run_tramp_call_inv `{!MmapAligned} c w : system_inv w -> system_inv (exec (run_tramp_call c) w).
Proof.
  intros [Hg Ht]. unfold exec. destruct c as [|width|op]; cbn [run_tramp_call].
  - unfold drop. rewrite bind_run. destruct (init_run w Hg Ht) as (rc & n & e & t & -> & Hinv & _).
    split; [|done]. eapply guard_inv_frame; [..|exact Hg]; done.
  - unfold drop. rewrite bind_run. destruct (patch_run width w Hg Ht) as (rc & w' & -> & Hg' & Ht' & _). done.
  - split; [by apply run_guard_op_inv|]. pose proof (run_guard_op_frame op w) as Hfr.
    injection Hfr as Htr _. by rewrite <- Htr.
Qed.

Lemma run_tramp_calls_inv `{!MmapAligned} cs w : system_inv w -> system_inv (run_tramp_calls cs w).
Proof. revert w. induction cs as [|c cs IH]; intros w Hw; [done|]. apply IH. by apply run_tramp_call_inv. Qed.

Lemma initial_system_inv tid cfg : system_inv (initial_world tid cfg).
Proof. split; [done|]. split; try done. split; [done | by left]. Qed.

(** A selected, initialized trampoline passes its own validation. *)
Lemma self_validate_run w :
  code_inv (w_tramp w) -> t_selection_word (w_tramp w) <> 0 -> t_initialized (w_tramp w) = true ->
  env_lock (w_calls w) = 0 -> env_maps_rx (S (w_calls w)) = true ->
  (tsd_trampoline_self_validate w).1 = 0.
Proof.
  intros Ht Hn Hi Hl Hrx.
  assert (Hp : t_page_a (w_tramp w) <> 0) by (intros H0; by destruct (ci_no_page _ Ht H0)).
  destruct (ci_page _ Ht Hp) as (Hpok & _ & Hc). specialize (Hc _ (proj1 (ci_tramp _ Ht))).
  pose proof (ci_selected _ Ht Hn) as Ha. rewrite <- Ha in Hc.
  destruct (ci_sealed _ Ht) as [Hwa Hwb].
  assert (Hnz : (t_active_trampoline (w_tramp w) =? 0) = false)
    by (apply Z.eqb_neq; rewrite Ha; destruct (slot_in_page _ _ Hpok (proj1 (ci_tramp _ Ht))); lia).
  unfold tsd_trampoline_self_validate. rewrite bind_run.
  replace (pthread_mutex_lock g_tsd_patch_lock w) with
    (0, w <| w_calls ::= S |> <| w_deadlock ::= orb (l_patch (w_locks w)) |> <| w_locks ::= over l_patch (fun _ => true) |>)
    by (unfold pthread_mutex_lock; rewrite bind_run; cbn [ext fst snd]; by rewrite Hl).
  set (w1 := w <| w_calls ::= S |> <| w_deadlock ::= _ |> <| w_locks ::= _ |>).
  cbn [fst snd Z.eqb negb]. rewrite bind_run. cbn [gets fst snd tsd_trampoline_state_initialized].
  change (w_tramp w1) with (w_tramp w). rewrite Hi. cbn [negb]. rewrite 2!bind_run.
  cbn [ret fst]. rewrite bind_run. rewrite current_width_run by apply Ht. change (w_tramp w1) with (w_tramp w).
  rewrite (proj2 (Z.eqb_neq (t_selection_word (w_tramp w)) 0)) by done. cbn [fst snd]. rewrite bind_run.
  unfold tsd_trampoline_state_active. rewrite bind_run, snapshot_run by apply Ht.
  change (w_tramp w1) with (w_tramp w). rewrite (proj2 (Z.eqb_neq (t_selection_word (w_tramp w)) 0)) by done.
  cbn [fst snd Z.eqb ret sel_active]. rewrite Hc, Hnz, bind_run.
  cbn [gets fst snd]. change (w_tramp w1) with (w_tramp w).
  rewrite bool_decide_true by done. cbn [negb]. rewrite (canonical_prefix _ _ Hc). cbn [negb].
  rewrite bind_run. unfold mapping_is_rx_not_writable. rewrite Hnz. cbn [ext fst snd].
  change (w_calls w1) with (S (w_calls w)). rewrite Hrx. cbn. by rewrite Hwa, Hwb.
Qed.
End invariant.

#[export] Instance quiet_mmap_aligned : @MmapAligned quiet_env.
Proof. intros n. right. cbn. repeat split; unfold UINT64_MAX; lia. Qed.

(** ** Properties *)

Section properties.
Context `{EV : Env, !MmapAligned}.


(** C4 (safety). [tsd_trampoline_patch] returns 0 only for a width the policy
    authorized under the writer lock, that the host supports and the
    configuration in force allows; the selection then has that width and its
    payload's digest, and one transition is counted.  Otherwise it returns -1
    with errno set and the selection and its attestation are as before. *)
Theorem patch_selects_only_authorized (cs : list tramp_call) (width : simd_width_t)
    (tid : Z) (cfg : tsd_runtime_config) :
  let w := run_tramp_calls cs (initial_world tid cfg) in
  let w' := exec (tsd_trampoline_patch width) w in
  let rc := result (tsd_trampoline_patch width) w in
  (rc = 0 /\ (width = SIMD_SSE41 \/ wide_policy (exec tsd_runtime_safety_write_enter w)) /\
     tsd_cpu_has_sse41 = true /\ width <= detected_width (Some (config_in_force w)) /\
     (exists p, result tsd_trampoline_state_snapshot w' = (0, mkSelection width p)) /\
     (exists patch, canonical_patch width = Some patch /\ t_hash (w_tramp w') = Some (env_sha256 patch)) /\
     w_metrics w' = bump 0 (w_metrics w)) \/
  (rc = -1 /\ w_errno w' <> 0 /\ same_selection (w_tramp w) (w_tramp w')).
Proof.
  cbv zeta. destruct (run_tramp_calls_inv cs _ (initial_system_inv tid cfg)) as [Hg Ht].
  set (w := run_tramp_calls _ _) in *. clearbody w. unfold result at 1 3, exec at 2 3 4 5 6.
  destruct (patch_run width w Hg Ht) as (rc & w' & -> & _ & Ht' & [(-> & ? & ?)|(-> & Hsel & ? & ?)]);
    cbn [fst snd]; [by right|].
  destruct Hsel as [[? _]|(_ & _ & ? & ? & Hw & Hn & _ & Hh)]; [done|]. left.
  do 4 (split; [done|]). split; [|done]. unfold result. rewrite snapshot_run by apply Ht'.
  rewrite (proj2 (Z.eqb_neq _ 0)) by done. cbn [fst]. rewrite Hw. by eexists.
Qed.

(** A width change that succeeded leaves a trampoline that
    [tsd_trampoline_self_validate] accepts, provided its lock and the mapping
    check succeed. *)
Theorem patched_trampoline_validates (cs : list tramp_call) (width : simd_width_t)
    (tid : Z) (cfg : tsd_runtime_config) :
  let w := run_tramp_calls cs (initial_world tid cfg) in
  let w' := exec (tsd_trampoline_patch width) w in
  result (tsd_trampoline_patch width) w = 0 ->
  env_lock (w_calls w') = 0 -> env_maps_rx (S (w_calls w')) = true ->
  result tsd_trampoline_self_validate w' = 0.
Proof.
  cbv zeta. destruct (run_tramp_calls_inv cs _ (initial_system_inv tid cfg)) as [Hg Ht].
  set (w := run_tramp_calls _ _) in *. clearbody w. unfold result at 1, exec.
  destruct (patch_run width w Hg Ht) as (rc & w' & -> & _ & Ht' & [(-> & _)|(-> & Hsel & _)]);
    cbn [fst snd]; [done|]. intros _ Hl Hrx.
  destruct Hsel as [[? _]|(_ & _ & _ & _ & Hw & Hn & Hi & _)]; [done|].
  by apply self_validate_run.
Qed.
End properties.

Lemma patched_trampoline_validates_witness :
  let w := run_tramp_calls (EV := quiet_env) [CGuard GSandboxSuccess; CInit] (initial_world 1 k_default_config) in
  result (tsd_trampoline_self_validate (EV := quiet_env)) (exec (tsd_trampoline_patch (EV := quiet_env) SIMD_AVX2) w) = 0.
Proof.
  refine (patched_trampoline_validates (EV := quiet_env) [CGuard GSandboxSuccess; CInit] SIMD_AVX2 1 k_default_config _ _ _);
    vm_compute; reflexivity.
Defined.


Lemma patch_selects_only_authorized_witness :
  let w := run_tramp_calls (EV := quiet_env) [CGuard GSandboxSuccess; CInit] (initial_world 1 k_default_config) in
  result (tsd_trampoline_patch (EV := quiet_env) SIMD_AVX2) w = 0 /\
  exists p, result tsd_trampoline_state_snapshot (exec (tsd_trampoline_patch (EV := quiet_env) SIMD_AVX2) w) = (0, mkSelection SIMD_AVX2 p).
Proof.
  intros w. assert (H0 : result (tsd_trampoline_patch (EV := quiet_env) SIMD_AVX2) w = 0) by (vm_compute; reflexivity).
  split; [exact H0|].
  destruct (patch_selects_only_authorized (EV := quiet_env) [CGuard GSandboxSuccess; CInit] SIMD_AVX2 1 k_default_config)
    as [H|[H _]]; [exact (proj1 (proj2 (proj2 (proj2 (proj2 H)))))|].
  exfalso. unfold w in H0. rewrite H in H0. discriminate H0.
Defined.
