(* ===== verification/Machine.v ===== *)
(** * Machine: the code a trampoline slot runs

    The payloads of [src/src/patcher/trampoline.cpp] are x86-64 machine code and
    the built-in shim of [src/src/thermal_simd.c] calls them from a naked
    assembly function.  This file gives the instructions they use (decoded from
    their bytes, with the register operands the ModRM and VEX fields name) their
    effect on the vector registers, so that what the code page computes is a
    statement about its bytes.

    A register is its 16 lanes of 32 bits, lane 0 first.  A legacy SSE
    instruction keeps the lanes above the 128-bit part, a VEX or EVEX one clears
    the lanes above its own width, and [vzeroupper] clears the lanes above the
    128-bit part of every register.  An instruction the processor or the
    operating system does not enable faults. *)
From S2P Require Import Prelude Float64 Config World Cpu TrampolineState Guard Trampoline.
#[local] Open Scope Z_scope.

Abbreviation vreg := (list Z).
Abbreviation vregs := (list vreg).

Definition LANES : nat := 16.
Definition XMM_LANES : nat := 4.

(** ** Instructions *)

Inductive instr : Type :=
  | Endbr64
  | Nop
  | Ret
  | Vzeroupper
  | Pshufd (dst src : nat) (order : Z)         (** [pshufd xmm, xmm, imm8] *)
  | Pmulld (dst src : nat)                     (** [pmulld xmm, xmm] *)
  | Vpbroadcastd (lanes dst src : nat)         (** [vpbroadcastd ymm/zmm, xmm] *)
  | Vpmulld (lanes dst src1 src2 : nat).       (** [vpmulld ymm/zmm, ymm/zmm, ymm/zmm] *)

(** The operands of a register-direct ModRM byte: [reg] and [rm]. *)
Definition modrm (b : Z) : option (nat * nat) :=
  if Z.shiftr b 6 =? 3 then Some (Z.to_nat (Z.land (Z.shiftr b 3) 7), Z.to_nat (Z.land b 7)) else None.

(** The [vvvv] field of a VEX or EVEX prefix byte, which is stored inverted. *)
Definition vvvv (b : Z) : nat := Z.to_nat (Z.lxor (Z.land (Z.shiftr b 3) 15) 15).

(** An instruction of the 66.0F38 map with [lanes] lanes. *)
Definition decode_0f38 (lanes : nat) (prefix opcode operands : Z) : option instr :=
  match modrm operands with
  | None => None
  | Some (reg, rm) =>
      if opcode =? 0x58 then if (vvvv prefix =? 0)%nat then Some (Vpbroadcastd lanes reg rm) else None
      else if opcode =? 0x40 then Some (Vpmulld lanes reg (vvvv prefix) rm)
      else None
  end.

(** [W] clear, [pp] the 66 prefix, and bit 2 set (in VEX the 256-bit length, in
    EVEX a fixed one); [vvvv] is free. *)
Definition w0_66 (b : Z) : bool := Z.land b 0x87 =? 0x05.

Definition with_rest (i : option instr) (rest : list Z) : option (instr * list Z) :=
  match i with Some i => Some (i, rest) | None => None end.

(** The first instruction and the bytes after it. *)
Definition decode (code : list Z) : option (instr * list Z) :=
  match code with
  | 0xC3 :: rest => Some (Ret, rest)
  | 0x90 :: rest => Some (Nop, rest)
  | 0xF3 :: 0x0F :: 0x1E :: 0xFA :: rest => Some (Endbr64, rest)
  | 0xC5 :: 0xF8 :: 0x77 :: rest => Some (Vzeroupper, rest)
  | 0x66 :: 0x0F :: 0x70 :: b :: order :: rest =>
      with_rest (match modrm b with Some (reg, rm) => Some (Pshufd reg rm order) | None => None end) rest
  | 0x66 :: 0x0F :: 0x38 :: 0x40 :: b :: rest =>
      with_rest (match modrm b with Some (reg, rm) => Some (Pmulld reg rm) | None => None end) rest
  | 0xC4 :: 0xE2 :: p :: opcode :: b :: rest =>
      (* VEX, 256 bits *)
      if w0_66 p then with_rest (decode_0f38 8 p opcode b) rest else None
  | 0x62 :: 0xF2 :: p :: 0x48 :: opcode :: b :: rest =>
      (* EVEX, 512 bits, no mask *)
      if w0_66 p then with_rest (decode_0f38 16 p opcode b) rest else None
  | _ => None
  end.

(** ** What the host runs *)

Section machine.
Context `{Env}.

Definition leaf7_bit (n : Z) : bool := match cpuid_7_ebx env_host with Some ebx => bit_set ebx n | None => false end.

Definition runs_avx : bool := tsd_cpu_has_sse41 && check_xsave_support && cpu_has_avx_bit.
Definition runs_avx2 : bool := runs_avx && leaf7_bit 5.
Definition runs_avx512 : bool := runs_avx && leaf7_bit 16 && (Z.land xcr0 230 =? 230).

(** [pshufd] is SSE2, which every x86-64 processor has. *)
Definition runs (i : instr) : bool :=
  match i with
  | Endbr64 | Nop | Ret | Pshufd _ _ _ => true
  | Pmulld _ _ => tsd_cpu_has_sse41
  | Vzeroupper => runs_avx
  | Vpbroadcastd lanes _ _ | Vpmulld lanes _ _ _ => if (lanes <=? 8)%nat then runs_avx2 else runs_avx512
  end.

(** ** Effect on the registers *)

Definition lane (v : vreg) (i : nat) : Z := nth i v 0.
Definition reg (rs : vregs) (r : nat) : vreg := nth r rs [].

Definition mul32 (x y : Z) : Z := u32 (x * y).

(** The 128-bit part with the lanes above it kept, and the lanes of a wider
    operation with those above cleared. *)
Definition write_xmm (rs : vregs) (r : nat) (v : vreg) : vregs := <[r := v ++ skipn XMM_LANES (reg rs r)]> rs.
Definition write_wide (rs : vregs) (r : nat) (v : vreg) : vregs := <[r := v ++ replicate (LANES - length v) 0]> rs.

Definition clear_upper (v : vreg) : vreg := firstn XMM_LANES v ++ replicate (LANES - XMM_LANES) 0.
Definition vzeroupper (rs : vregs) : vregs := map clear_upper rs.

Definition effect (i : instr) (rs : vregs) : vregs :=
  match i with
  | Endbr64 | Nop | Ret => rs
  | Vzeroupper => vzeroupper rs
  | Pshufd dst src order =>
      let pick i := lane (reg rs src) (Z.to_nat (Z.land (Z.shiftr order (2 * i)) 3)) in
      write_xmm rs dst [pick 0; pick 1; pick 2; pick 3]
  | Pmulld dst src => write_xmm rs dst (zip_with mul32 (firstn XMM_LANES (reg rs dst)) (firstn XMM_LANES (reg rs src)))
  | Vpbroadcastd lanes dst src => write_wide rs dst (replicate lanes (lane (reg rs src) 0))
  | Vpmulld lanes dst src1 src2 =>
      write_wide rs dst (zip_with mul32 (firstn lanes (reg rs src1)) (firstn lanes (reg rs src2)))
  end.

(** The instructions up to the [ret]; every one has a byte, so the bytes bound
    the loop. *)
Fixpoint disassemble (fuel : nat) (code : list Z) : option (list instr) :=
  match fuel with
  | O => None
  | S fuel =>
      match decode code with
      | Some (Ret, _) => Some []
      | Some (i, rest) => match disassemble fuel rest with Some l => Some (i :: l) | None => None end
      | None => None
      end
  end.

(** [None] for a fault. *)
Fixpoint run_instrs (l : list instr) (rs : vregs) : option vregs :=
  match l with
  | [] => Some rs
  | i :: l => if runs i then run_instrs l (effect i rs) else None
  end.

Definition call_code (code : list Z) (rs : vregs) : option vregs :=
  match disassemble (length code) code with Some l => run_instrs l rs | None => None end.

(** [movd xmm, r32]: the other lanes of the 128-bit part are cleared. *)
Definition movd (rs : vregs) (r : nat) (x : Z) : vregs := write_xmm rs r [u32 x; 0; 0; 0].

(** The assembly of [simd_shim_unlocked]: [vzeroupper] before SSE code on an AVX
    host, the arguments into [xmm0] and [xmm1], the call, the result from [xmm0]. *)
Definition shim_asm (avx_available : bool) (a b : Z) (code : list Z) (selected : simd_width_t) (rs : vregs) : option (Z * vregs) :=
  let zero := avx_available && (selected =? 0) in
  if zero && negb (runs Vzeroupper) then None
  else
    let rs := if zero then vzeroupper rs else rs in
    match call_code code (movd (movd rs 0 a) 1 b) with
    | Some rs => Some (i32 (lane (reg rs 0) 0), rs)
    | None => None
    end.
End machine.

(** ** The payloads compute one function *)

Definition regs_ok (rs : vregs) : Prop := length rs = 16%nat /\ Forall (fun v => length v = LANES) rs.

(** Nothing above the 128-bit parts: no transition penalty for SSE code. *)
Definition upper_clear (rs : vregs) : Prop := Forall (fun v => clear_upper v = v) rs.

Section payloads.
Context `{EV : Env}.

(** A processor with AVX-512F has AVX2 as well (Intel SDM, AVX-512 detection). *)
Class HostLaws : Prop := avx512_has_avx2 : leaf7_bit 16 = true -> leaf7_bit 5 = true.

(** The widest code of the host. *)
Definition host_level : simd_width_t := detected_width (Some (k_default_config <| allow_avx512 := true |>)).

Lemma detected_level cfg : detected_width cfg <= host_level.
Proof.
  unfold host_level, detected_width. destruct (_ || _); [done|]. destruct (cpuid_7_ebx env_host) as [ebx|]; [|done]. cbn.
  destruct (match cfg with Some c => allow_avx512 c | None => false end), (bit_set ebx 16), cpu_has_avx_bit, (bit_set ebx 5), (Z.land xcr0 230 =? 230); done.
Qed.

(** The instructions of a payload no wider than the host run. *)
Definition can_run (width : simd_width_t) : bool :=
  if width =? SIMD_SSE41 then tsd_cpu_has_sse41 else if width =? SIMD_AVX2 then runs_avx2 else runs_avx512.

Lemma level_runs `{!HostLaws} width :
  tsd_cpu_has_sse41 = true -> width_in_range width = true -> width <= host_level -> can_run width = true.
Proof.
  intros Hs Hr. unfold host_level, detected_width, can_run, runs_avx2, runs_avx512, runs_avx. rewrite Hs.
  pose proof avx512_has_avx2 as Hl. unfold leaf7_bit in *.
  destruct (width_cases width Hr) as [-> | [-> | -> ]]; cbn [Z.eqb SIMD_SSE41 SIMD_AVX2 SIMD_AVX512]; [done|..];
    destruct check_xsave_support; cbn; try done; destruct (cpuid_7_ebx env_host) as [ebx|]; try done; cbn;
    destruct (bit_set ebx 16), cpu_has_avx_bit, (bit_set ebx 5), (Z.land xcr0 230 =? 230); cbn; try done; by discriminate Hl.
Qed.

Lemma can_run_avx width : width_in_range width = true -> width <> SIMD_SSE41 -> can_run width = true -> runs_avx = true.
Proof.
  intros Hr Hw. unfold can_run, runs_avx2, runs_avx512. rewrite (proj2 (Z.eqb_neq _ _)) by done.
  destruct runs_avx; [done|]. by destruct (width =? SIMD_AVX2).
Qed.

Lemma clear_upper_idem v : length v = LANES -> clear_upper (clear_upper v) = clear_upper v.
Proof. intros Hv. do 17 (destruct v as [|? v]; [try done|]); done. Qed.

Lemma vzeroupper_clear rs : Forall (fun v => length v = LANES) rs -> upper_clear (vzeroupper rs).
Proof. intros Hr. unfold upper_clear, vzeroupper. induction Hr as [|v rs Hv _ IH]; constructor; [by apply clear_upper_idem | done]. Qed.

Lemma vzeroupper_lengths rs : Forall (fun v => length v = LANES) rs -> Forall (fun v => length v = LANES) (vzeroupper rs).
Proof.
  intros Hr. unfold vzeroupper. induction Hr as [|v rs Hv _ IH]; constructor; [|done].
  do 17 (destruct v as [|? v]; [try done|]); done.
Qed.

Lemma mul32_u32 a b : mul32 (u32 a) (u32 b) = u32 (a * b).
Proof. unfold mul32, u32. by rewrite <- Zmult_mod. Qed.

Lemma i32_u32 x : i32 (u32 x) = i32 x.
Proof. unfold i32, u32. by rewrite Zplus_mod_idemp_l. Qed.

(** What the payloads are. *)
Lemma sse_listing : disassemble (length kPatchSse41) kPatchSse41 = Some [Endbr64; Pshufd 0 0 0; Pshufd 1 1 0; Pmulld 0 1].
Proof. vm_compute. reflexivity. Qed.
Lemma avx2_listing :
  disassemble (length kPatchAvx2) kPatchAvx2 = Some [Endbr64; Vpbroadcastd 8 0 0; Vpbroadcastd 8 1 1; Vpmulld 8 0 0 1; Vzeroupper].
Proof. vm_compute. reflexivity. Qed.
Lemma avx512_listing :
  disassemble (length kPatchAvx512) kPatchAvx512 = Some [Endbr64; Vpbroadcastd 16 0 0; Vpbroadcastd 16 1 1; Vpmulld 16 0 0 1; Vzeroupper].
Proof. vm_compute. reflexivity. Qed.

(** The registers after each payload, with the arguments in lane 0 of [xmm0] and
    [xmm1]. *)
Lemma sse_payload x y t0 t1 rest :
  tsd_cpu_has_sse41 = true ->
  call_code kPatchSse41 ((x :: 0 :: 0 :: 0 :: t0) :: (y :: 0 :: 0 :: 0 :: t1) :: rest) =
    Some ((replicate 4 (mul32 x y) ++ t0) :: (replicate 4 y ++ t1) :: rest).
Proof. intros Hs. unfold call_code. rewrite sse_listing. cbn -[mul32 tsd_cpu_has_sse41]. rewrite Hs. reflexivity. Qed.

Lemma avx2_payload v0 v1 rest :
  runs_avx2 = true ->
  call_code kPatchAvx2 (v0 :: v1 :: rest) =
    Some ((replicate 4 (mul32 (lane v0 0) (lane v1 0)) ++ replicate 12 0) :: (replicate 4 (lane v1 0) ++ replicate 12 0) :: vzeroupper rest).
Proof.
  intros Hs. assert (Ha : runs_avx = true) by (revert Hs; unfold runs_avx2; by destruct runs_avx).
  unfold call_code. rewrite avx2_listing. cbn -[mul32 runs_avx runs_avx2 lane]. by rewrite Hs, Ha.
Qed.

Lemma avx512_payload v0 v1 rest :
  runs_avx512 = true ->
  call_code kPatchAvx512 (v0 :: v1 :: rest) =
    Some ((replicate 4 (mul32 (lane v0 0) (lane v1 0)) ++ replicate 12 0) :: (replicate 4 (lane v1 0) ++ replicate 12 0) :: vzeroupper rest).
Proof.
  intros Hs. assert (Ha : runs_avx = true) by (revert Hs; unfold runs_avx512; by destruct runs_avx).
  unfold call_code. rewrite avx512_listing. cbn -[mul32 runs_avx runs_avx512 lane]. by rewrite Hs, Ha.
Qed.

(** Two registers written, the others as they were. *)
Definition others_kept (rs rs' : vregs) : Prop :=
  forall r, (2 <= r)%nat -> firstn XMM_LANES (reg rs' r) = firstn XMM_LANES (reg rs r).

Lemma firstn_clear v : length v = LANES -> firstn XMM_LANES (clear_upper v) = firstn XMM_LANES v.
Proof. intros Hv. do 17 (destruct v as [|? v]; [try done|]); done. Qed.

Lemma vzeroupper_kept rs r :
  Forall (fun v => length v = LANES) rs -> firstn XMM_LANES (nth r (vzeroupper rs) []) = firstn XMM_LANES (nth r rs []).
Proof.
  intros Hr. revert r. induction Hr as [|v rs Hv _ IH]; intros [|r]; [done | done | by apply firstn_clear | apply IH].
Qed.

(** The result of the shim, and what it leaves in the registers. *)
Record shim_result (avx : bool) (a b : Z) (width : simd_width_t) (rs rs' : vregs) : Prop := {
  sr_ok : regs_ok rs';
  sr_lanes : firstn XMM_LANES (reg rs' 0) = replicate 4 (u32 (a * b));
  sr_kept : others_kept rs rs';
  sr_clear : avx = true \/ width <> SIMD_SSE41 -> upper_clear rs';
}.

(** The 128-bit part of a register and the rest. *)
Lemma lanes_split (v : vreg) : length v = LANES -> exists x0 x1 x2 x3 (t : vreg), v = x0 :: x1 :: x2 :: x3 :: t /\ length t = 12%nat.
Proof. intros Hv. do 4 (destruct v as [|? v]; [done|]). do 5 eexists. split; [reflexivity|]. unfold LANES in Hv. cbn in Hv. lia. Qed.

(** Registers as two arguments and the rest. *)
Lemma regs_split rs :
  regs_ok rs -> exists v0 v1 rest, rs = v0 :: v1 :: rest /\ length v0 = LANES /\ length v1 = LANES /\
    length rest = 14%nat /\ Forall (fun v => length v = LANES) rest.
Proof.
  intros [Hl Hf]. destruct rs as [|v0 [|v1 rest]]; [done..|]. apply Forall_cons in Hf as [H0 Hf]. apply Forall_cons in Hf as [H1 Hf].
  exists v0, v1, rest. cbn in Hl. split_done. lia.
Qed.

Lemma vzeroupper_ok rs : regs_ok rs -> regs_ok (vzeroupper rs).
Proof. intros [H1 H2]. split; [unfold vzeroupper; by rewrite length_map | by apply vzeroupper_lengths]. Qed.

(** The payload of a width, called with the arguments in place. *)
Lemma payload_run a b width code v0 v1 rest :
  can_run width = true -> width_in_range width = true -> canonical_patch width = Some code ->
  call_code code (movd (movd (v0 :: v1 :: rest) 0 a) 1 b) =
    Some (if width =? SIMD_SSE41
          then (replicate 4 (u32 (a * b)) ++ skipn 4 v0) :: (replicate 4 (u32 b) ++ skipn 4 v1) :: rest
          else (replicate 4 (u32 (a * b)) ++ replicate 12 0) :: (replicate 4 (u32 b) ++ replicate 12 0) :: vzeroupper rest).
Proof.
  intros Hc Hr Hp. change (movd (movd (v0 :: v1 :: rest) 0 a) 1 b) with
    ((u32 a :: 0 :: 0 :: 0 :: skipn 4 v0) :: (u32 b :: 0 :: 0 :: 0 :: skipn 4 v1) :: rest).
  unfold can_run in Hc. destruct (width_cases width Hr) as [-> | [-> | -> ]]; injection Hp as <-.
  - rewrite sse_payload by done. by rewrite mul32_u32.
  - rewrite avx2_payload by done. unfold lane. cbn [nth]. by rewrite mul32_u32.
  - rewrite avx512_payload by done. unfold lane. cbn [nth]. by rewrite mul32_u32.
Qed.

Lemma shim_asm_run avx a b width code rs :
  can_run width = true -> (avx = true -> runs_avx = true) ->
  width_in_range width = true -> canonical_patch width = Some code -> regs_ok rs ->
  exists rs', shim_asm avx a b code width rs = Some (i32 (a * b), rs') /\ shim_result avx a b width rs rs'.
Proof.
  intros Hc Havx Hr Hp Hok. unfold shim_asm. change (width =? 0) with (width =? SIMD_SSE41).
  set (zero := avx && (width =? SIMD_SSE41)).
  assert (Hrun : zero && negb (runs Vzeroupper) = false).
  { unfold zero. cbn [runs]. destruct avx; [|done]. by rewrite Havx, andb_false_r. }
  rewrite Hrun. clear Hrun. set (rs0 := if zero then vzeroupper rs else rs).
  assert (Hok0 : regs_ok rs0) by (unfold rs0; case_if; [by apply vzeroupper_ok | done]).
  assert (Hk0 : others_kept rs rs0) by (intros r _; unfold rs0; case_if; [apply vzeroupper_kept, Hok | done]).
  assert (Hcl : zero = true -> upper_clear rs0) by (intros E; unfold rs0; rewrite E; apply vzeroupper_clear, Hok).
  clearbody rs0. destruct (regs_split rs0 Hok0) as (v0 & v1 & rest & -> & Hv0 & Hv1 & Hlr & Hlf).
  rewrite (payload_run a b width code) by done.
  destruct (lanes_split v0 Hv0) as (x0 & x1 & x2 & x3 & t0 & -> & Ht0). destruct (lanes_split v1 Hv1) as (y0 & y1 & y2 & y3 & t1 & -> & Ht1).
  destruct (width =? SIMD_SSE41) eqn:Ew; cbn [skipn].
  - eexists. split; [cbn -[u32 i32]; by rewrite i32_u32|]. split; [|done| |].
    + split; [cbn; by rewrite Hlr|]. do 2 (constructor; [cbn; by rewrite ?Ht0, ?Ht1|]). done.
    + intros r Hge. rewrite <- (Hk0 r Hge). by do 2 (destruct r as [|r]; [lia|]).
    + intros [-> | Hne]; [|by zbool]. specialize (Hcl eq_refl). unfold upper_clear in *.
      apply Forall_cons in Hcl as [H0 Hcl]. apply Forall_cons in Hcl as [H1 Hcl].
      injection H0 as <-. injection H1 as <-. do 2 (constructor; [done|]). done.
  - eexists. split; [cbn -[u32 i32 vzeroupper]; by rewrite i32_u32|]. split; [|done| |].
    + split; [cbn; unfold vzeroupper; by rewrite length_map, Hlr|]. do 2 (constructor; [done|]). by apply vzeroupper_lengths.
    + intros r Hge. rewrite <- (Hk0 r Hge). do 2 (destruct r as [|r]; [lia|]). by apply vzeroupper_kept.
    + intros _. do 2 (constructor; [done|]). by apply vzeroupper_clear.
Qed.
End payloads.

(** C24 (equivalence). The three payloads of the code page, decoded from their
    bytes, are implementations of one function: on a host that can run the
    payload of a width, the shim returns the 32-bit product of its arguments
    without a fault, whatever the other registers held, changes only [xmm0] and
    [xmm1], puts the product in every lane of the 128-bit part, and on an AVX
    host (and after every wide payload) leaves the upper halves of all registers
    clear, so that SSE code that follows pays no transition. *)
Theorem payloads_compute_one_product `{EV : Env} (avx : bool) (a b : Z) (width : simd_width_t) (code : list Z) (rs : vregs) :
  canonical_patch width = Some code -> can_run width = true -> (avx = true -> runs_avx = true) -> regs_ok rs ->
  exists rs', shim_asm avx a b code width rs = Some (i32 (a * b), rs') /\
    firstn XMM_LANES (reg rs' 0) = replicate 4 (u32 (a * b)) /\ others_kept rs rs' /\
    (avx = true \/ width <> SIMD_SSE41 -> upper_clear rs').
Proof.
  intros Hp Hc Havx Hok. assert (Hr : width_in_range width = true).
  { revert Hp. unfold canonical_patch. repeat case_if; zbool; subst; done. }
  destruct (shim_asm_run avx a b width code rs Hc Havx Hr Hp Hok) as (rs' & E & []). by exists rs'.
Qed.

(** A host with AVX-512, and registers with something in every lane. *)
Definition dirty_regs : vregs := replicate 16 (replicate 16 0xDEADBEEF).

Lemma payloads_compute_one_product_witness :
  shim_asm (H := quiet_env) true (-3) 2147483647 kPatchAvx512 SIMD_AVX512 dirty_regs <> None /\
  exists rs', shim_asm (H := quiet_env) true 42 7 kPatchSse41 SIMD_SSE41 dirty_regs = Some (294, rs') /\ upper_clear rs'.
Proof.
  split; [vm_compute; discriminate|].
  destruct (payloads_compute_one_product (EV := quiet_env) true 42 7 SIMD_SSE41 kPatchSse41 dirty_regs) as (rs' & E & _ & _ & Hu);
    [reflexivity | vm_compute; reflexivity | intros _; vm_compute; reflexivity | split; [reflexivity | repeat constructor] |].
  exists rs'. split; [exact E | apply Hu; left; reflexivity].
Defined.
