(* ===== verification/Attestation.v ===== *)
(** * Attestation: the digest of the selected trampoline

    The [tsd_attestation_*] functions of [src/src/patcher/trampoline.cpp].  A
    digest is the number its 32 bytes spell (OpenSSL computes it, see [Env]);
    the thread-local text of the last failure is the field [at_error]. *)
From S2P Require Import Prelude Float64 Format Config World Cpu TrampolineState Guard Trampoline.
From stdpp Require Import list.
From Stdlib Require Import Ascii String.
#[local] Open Scope string_scope.
#[local] Open Scope Z_scope.
#[local] Arguments String.append !_ _ : simpl nomatch.

Definition TSD_ATTESTATION_HASH_SIZE : nat := 32.
Definition EKEYREJECTED : Z := 129.

(** The bytes of a digest, first byte first. *)
Definition digest_byte (h : Z) (i : nat) : Z := (h / 256 ^ (31 - Z.of_nat i)) mod 256.
Definition digest_bytes (h : Z) : list Z := digest_byte h <$> seq 0 TSD_ATTESTATION_HASH_SIZE.

(** ["%02x"] *)
Definition hex_digit (d : Z) : ascii := if d <? 10 then chr (48 + d) else chr (87 + d).
Definition hex2 (b : Z) : string := String (hex_digit (b / 16)) (String (hex_digit (b mod 16)) "").

(** [snprintf] of more bytes behind those already in a buffer of [cap] bytes:
    the loop ends when the next two would not fit. *)
Fixpoint append_hex (cap : nat) (buffer : string) (bytes : list Z) : string :=
  match bytes with
  | [] => buffer
  | b :: bytes =>
      if (String.length buffer + 2 <? cap)%nat then append_hex cap (buffer ++ hex2 b) bytes else buffer
  end.

(** [format_hash_line] into a buffer of [len] bytes. *)
Definition format_hash_line (hash : list Z) (len : nat) : string :=
  if (len =? 0)%nat then ""
  else
    let head := "Trampoline hash=" in
    if (len <=? String.length head)%nat then String.substring 0 (Nat.pred len) head else append_hex len head hash.

(** The message of a failed comparison, in a buffer of 192 bytes.  The second
    label only moves the cursor when all of it fits; else the bytes of the hash
    are written over it. *)
Definition mismatch_message (expected hash : list Z) : string :=
  let message := append_hex 192 "attestation mismatch expected=" expected in
  let room := (192 - String.length message)%nat in
  if (8 <? room)%nat then append_hex 192 (message ++ " actual=") hash
  else if (2 <? room)%nat && negb (bool_decide (hash = [])) then append_hex 192 message hash
  else message ++ String.substring 0 (Nat.pred room) " actual=".

(** ** State *)

Record astate : Type := mkAstate { at_world : world; at_error : string }.
#[export] Instance eta_astate : Eta astate := fun s => mkAstate (at_world s) (at_error s).
Abbreviation AM := (ST astate).

Definition aw {A} (m : M A) : AM A := fun s => let '(a, w) := m (at_world s) in (a, s <| at_world := w |>).

(** [snprintf(g_attestation_last_error, 256, "%s", text)] *)
Definition set_last_error (text : string) : AM unit := modify (fun s => s <| at_error := String.substring 0 255 text |>).

Section attestation.
Context `{EV : Env}.

(** A failure: the message, [errno] and -1. *)
Definition refuse {A} (failed : A) (message : string) (err : Z) : AM A :=
  set_last_error message ;;; aw (set_errno err) ;;; ret failed.

(** The two [PthreadLockGuard]s around a body. *)
Definition with_locks {A} (failed : A) (body : AM A) : AM A :=
  rc <- aw (pthread_mutex_lock g_tsd_patch_lock) ;;
  if rc <>? 0 then aw (set_errno rc) ;;; ret failed
  else
    rc <- aw (pthread_mutex_lock g_attestation_lock) ;;
    if rc <>? 0 then aw (set_errno rc) ;;; aw (pthread_mutex_unlock g_tsd_patch_lock) ;;; ret failed
    else
      r <- body ;;
      aw (pthread_mutex_unlock g_attestation_lock) ;;;
      aw (pthread_mutex_unlock g_tsd_patch_lock) ;;;
      ret r.

(** With the hash, or the failure without one. *)
Definition with_hash {A} (failed : A) (k : Z -> AM A) : AM A :=
  hash <- aw (gets (fun w => t_hash (w_tramp w))) ;;
  match hash with
  | None => refuse failed "hash unavailable" ENODATA
  | Some h => k h
  end.

(** [buffer] says whether the pointer is not null; the bytes stored, [None] for -1. *)
Definition tsd_attestation_get_active_hash (buffer : bool) (len : Z) : AM (option (list Z)) :=
  if negb buffer || (len <? 32) then refuse None "buffer too small" EINVAL
  else with_locks None (with_hash None (fun h => ret (Some (digest_bytes h)))).

Definition tsd_attestation_get_active_hash_hex (buffer : bool) (len : Z) : AM (option string) :=
  if negb buffer || (len <? 65) then refuse None "hex buffer too small" EINVAL
  else with_locks None (with_hash None (fun h => ret (Some (concat_text hex2 (digest_bytes h))))).

(** [expected] is the array behind the pointer. *)
Definition tsd_attestation_expect_active_hash (expected : option (list Z)) (len : Z) : AM Z :=
  match expected with
  | None => refuse (-1) "expected hash invalid" EINVAL
  | Some bytes =>
      if len <? 32 then refuse (-1) "expected hash invalid" EINVAL
      else
        with_locks (-1) (with_hash (-1) (fun h =>
          if bool_decide (take TSD_ATTESTATION_HASH_SIZE bytes = digest_bytes h) then set_last_error "" ;;; ret 0
          else refuse (-1) (mismatch_message (take TSD_ATTESTATION_HASH_SIZE bytes) (digest_bytes h)) EKEYREJECTED))
  end.

Definition tsd_attestation_last_error : AM string := gets at_error.
End attestation.

(** ** Hexadecimal text *)

Definition hex_value (c : ascii) : Z := if isdigit c then code c - 48 else code c - 87.

Fixpoint unhex (s : string) : list Z :=
  match s with
  | String a (String b s) => (16 * hex_value a + hex_value b) :: unhex s
  | _ => []
  end.

Lemma hex_digit_value d : 0 <= d < 16 -> hex_value (hex_digit d) = d.
Proof.
  intros H. unfold hex_value, hex_digit, isdigit. destruct (Z.ltb_spec d 10); rewrite code_chr by lia; case_match; zbool; lia.
Qed.

Lemma unhex_hex2 bytes : Forall (fun b => 0 <= b < 256) bytes -> unhex (concat_text hex2 bytes) = bytes.
Proof.
  induction 1 as [|b bytes Hb _ IH]; [done|]. cbn [concat_text hex2 String.append unhex].
  rewrite IH, !hex_digit_value by (Z.div_mod_to_equations; lia). f_equal. Z.div_mod_to_equations. lia.
Qed.

Lemma digest_bytes_range h : Forall (fun b => 0 <= b < 256) (digest_bytes h).
Proof.
  unfold digest_bytes. rewrite Forall_fmap. apply Forall_forall. intros i _. unfold digest_byte. cbn.
  apply Z.mod_pos_bound. lia.
Qed.

Lemma digest_bytes_length h : List.length (digest_bytes h) = TSD_ATTESTATION_HASH_SIZE.
Proof. unfold digest_bytes. by rewrite length_fmap, length_seq. Qed.

Lemma hex_length bytes : String.length (concat_text hex2 bytes) = (2 * List.length bytes)%nat.
Proof. induction bytes as [|b bytes IH]; [done|]. cbn [concat_text hex2 String.append String.length List.length]. rewrite IH. lia. Qed.

(** With room for all of them every byte is printed. *)
Lemma append_hex_fits cap buffer bytes :
  (String.length buffer + 2 * List.length bytes < cap)%nat -> append_hex cap buffer bytes = buffer ++ concat_text hex2 bytes.
Proof.
  revert buffer. induction bytes as [|b bytes IH]; intros buffer H; cbn [append_hex concat_text List.length] in *.
  - by rewrite string_app_nil.
  - rewrite (proj2 (Nat.ltb_lt _ _)) by lia.
    rewrite IH by (rewrite string_length_app; cbn; lia). by rewrite string_app_assoc.
Qed.

Lemma mismatch_message_complete e h :
  List.length e = 32%nat -> List.length h = 32%nat ->
  mismatch_message e h = "attestation mismatch expected=" ++ concat_text hex2 e ++ " actual=" ++ concat_text hex2 h.
Proof.
  intros He Hh. unfold mismatch_message. rewrite append_hex_fits by (rewrite He; cbn; lia).
  assert (Hl : String.length ("attestation mismatch expected=" ++ concat_text hex2 e) = 94%nat).
  { rewrite string_length_app, hex_length, He. done. }
  rewrite Hl. change (8 <? 192 - 94)%nat with true. cbv iota.
  rewrite append_hex_fits by (rewrite string_length_app, Hl, Hh; cbn; lia). by rewrite !string_app_assoc.
Qed.

(** [format_hash_line] in its caller's buffer of 96 bytes. *)
Lemma hash_line_complete h :
  List.length h = 32%nat -> format_hash_line h 96 = "Trampoline hash=" ++ concat_text hex2 h.
Proof. intros Hh. apply append_hex_fits. rewrite Hh. cbn. lia. Qed.

(** A digest is known by its bytes. *)
Lemma digest_bytes_inj h h' : 0 <= h < 256 ^ 32 -> 0 <= h' < 256 ^ 32 -> digest_bytes h = digest_bytes h' -> h = h'.
Proof.
  intros Hh Hh' E.
  assert (Hb : forall i, (i < 32)%nat -> digest_byte h i = digest_byte h' i).
  { intros i Hi. apply (f_equal (fun l => l !! i)) in E. unfold digest_bytes in E.
    rewrite !list_lookup_fmap, lookup_seq_lt in E by done. cbn in E. by injection E. }
  assert (Hq : forall k, (k <= 32)%nat -> h / 256 ^ (32 - Z.of_nat k) = h' / 256 ^ (32 - Z.of_nat k)).
  { induction k as [|k IH]; intros Hk.
    - rewrite !Z.div_small by (cbn [Z.of_nat]; rewrite Z.sub_0_r; lia). done.
    - specialize (IH ltac:(lia)). specialize (Hb k ltac:(lia)). unfold digest_byte in Hb.
      replace (32 - Z.of_nat (S k)) with (31 - Z.of_nat k) by lia.
      replace (32 - Z.of_nat k) with ((31 - Z.of_nat k) + 1) in IH by lia.
      rewrite Z.pow_add_r, <- !Z.div_div in IH by lia. change (256 ^ 1) with 256 in IH.
      rewrite (Z.div_mod (h / 256 ^ (31 - Z.of_nat k)) 256), (Z.div_mod (h' / 256 ^ (31 - Z.of_nat k)) 256) by lia. lia. }
  specialize (Hq 32%nat ltac:(lia)). cbn in Hq. rewrite !Z.div_1_r in Hq. done.
Qed.

(** ** Attesting the selected code *)

Section properties.
Context `{EV : Env}.

(** What a call may change in the process besides [errno]. *)
Definition untouched (w w' : world) : Prop := w_tramp w' = w_tramp w /\ w_locks w' = no_locks /\ w_deadlock w' = false.

Lemma aw_run {A} (m : M A) w err a w' : m w = (a, w') -> aw m (mkAstate w err) = (a, mkAstate w' err).
Proof. unfold aw. cbn [at_world]. by intros ->. Qed.

Lemma lock_failed m w e w'  : e <> 0 -> pthread_mutex_lock m w = (e, w') -> env_lock (w_calls w) <> 0.
Proof.
  intros He E H0. unfold pthread_mutex_lock in E. rewrite bind_run in E. cbn [ext fst snd] in E. rewrite H0 in E.
  cbn in E. injection E as E _. by subst.
Qed.

Lemma with_locks_run {A} (failed : A) body s :
  w_locks (at_world s) = no_locks -> w_deadlock (at_world s) = false ->
  (exists e, e <> 0 /\ (env_lock (w_calls (at_world s)) <> 0 \/ env_lock (S (w_calls (at_world s))) <> 0) /\
     (with_locks failed body s).1 = failed /\ untouched (at_world s) (at_world (with_locks failed body s).2) /\
     w_errno (at_world (with_locks failed body s).2) = e) \/
  (exists s1, w_tramp (at_world s1) = w_tramp (at_world s) /\
     w_locks (at_world s1) = no_locks <| l_patch := true |> <| l_attestation := true |> /\ w_deadlock (at_world s1) = false /\
     (with_locks failed body s).1 = (body s1).1 /\
     (with_locks failed body s).2 = (body s1).2 <| at_world ::= fun w => w <| w_locks ::= fun l => l <| l_attestation := false |> <| l_patch := false |> |> |>).
Proof.
  intros Hl Hd. destruct s as [w err]. cbn [at_world] in *.
  destruct (lock_run g_tsd_patch_lock w) as [(e & He & E)|E].
  { left. exists e. assert (Er : with_locks failed body (mkAstate w err) = (failed, mkAstate (w <| w_calls ::= S |> <| w_errno := e |>) err)).
    { unfold with_locks. rewrite bind_run, (aw_run _ _ err _ _ E). cbn [fst snd].
      by rewrite (proj2 (Z.eqb_neq e 0) He). }
    rewrite Er. split; [done|]. split; [left; by apply (lock_failed _ _ _ _ He E)|]. done. }
  set (w1 := w <| w_calls ::= S |> <| w_deadlock ::= _ |> <| w_locks ::= _ |>) in E.
  destruct (lock_run g_attestation_lock w1) as [(e & He & E2)|E2].
  { left. exists e. assert (Er : with_locks failed body (mkAstate w err)
      = (failed, mkAstate (w1 <| w_calls ::= S |> <| w_errno := e |> <| w_locks ::= mx_set g_tsd_patch_lock false |>) err)).
    { unfold with_locks. rewrite bind_run, (aw_run _ _ err _ _ E). cbn [fst snd Z.eqb negb].
      rewrite bind_run, (aw_run _ _ err _ _ E2). cbn [fst snd]. by rewrite (proj2 (Z.eqb_neq e 0) He). }
    rewrite Er. split; [done|]. split; [right; by apply (lock_failed _ _ _ _ He E2)|].
    split; [done|]. unfold untouched. cbn. by rewrite Hl, Hd. }
  right. set (w2 := w1 <| w_calls ::= S |> <| w_deadlock ::= _ |> <| w_locks ::= _ |>) in E2. exists (mkAstate w2 err).
  split; [done|]. split; [cbn; by rewrite Hl|]. split; [cbn; by rewrite Hl, Hd|].
  assert (Er : with_locks failed body (mkAstate w err) = (r <- body ;;
      aw (pthread_mutex_unlock g_attestation_lock) ;;; aw (pthread_mutex_unlock g_tsd_patch_lock) ;;; ret r) (mkAstate w2 err)).
  { unfold with_locks. rewrite bind_run, (aw_run _ _ err _ _ E). cbn [fst snd Z.eqb negb].
    rewrite bind_run, (aw_run _ _ err _ _ E2). done. }
  rewrite Er, bind_run. destruct (body (mkAstate w2 err)) as [a [w3 err3]]. done.
Qed.

Lemma expect_spec bytes len s :
  w_locks (at_world s) = no_locks -> w_deadlock (at_world s) = false ->
  let r := tsd_attestation_expect_active_hash (Some bytes) len s in
  untouched (at_world s) (at_world r.2) /\
  (r.1 = 0 /\ at_error r.2 = "" /\ (exists h, t_hash (w_tramp (at_world s)) = Some h /\ take 32 bytes = digest_bytes h) \/
   r.1 = -1 /\ w_errno (at_world r.2) <> 0 /\
   (env_lock (w_calls (at_world s)) = 0 -> env_lock (S (w_calls (at_world s))) = 0 -> 32 <= len ->
    forall h, t_hash (w_tramp (at_world s)) = Some h -> take 32 bytes <> digest_bytes h)).
Proof.
  intros Hl Hd. unfold tsd_attestation_expect_active_hash. cbv zeta. destruct (Z.ltb_spec len 32).
  { split; [done|]. right. split; [done|]. split; [done|]. lia. }
  destruct (with_locks_run (-1) (with_hash (-1) (fun h =>
      if bool_decide (take TSD_ATTESTATION_HASH_SIZE bytes = digest_bytes h) then set_last_error "" ;;; ret 0
      else refuse (-1) (mismatch_message (take TSD_ATTESTATION_HASH_SIZE bytes) (digest_bytes h)) EKEYREJECTED)) s Hl Hd)
    as [(e & He & Hlock & -> & Hu & Ee)|([w1 err] & Ht & Hl1 & Hd1 & -> & ->)].
  - split; [done|]. right. split; [done|]. split; [by rewrite Ee|]. intros H1 H2. by destruct Hlock.
  - cbn [at_world] in *. unfold with_hash. rewrite bind_run. unfold aw, gets. cbn [fst snd at_world]. rewrite Ht.
    destruct (t_hash (w_tramp (at_world s))) as [h|] eqn:Eh.
    + case_bool_decide as Eb; cbn; (split; [unfold untouched; cbn; by rewrite Ht, Hl1|]).
      * left. split; [done|]. split; [done|]. by exists h.
      * right. split; [done|]. split; [done|]. intros _ _ _ h' [= <-]. exact Eb.
    + cbn. split; [unfold untouched; cbn; by rewrite Ht, Hl1|]. right. done.
Qed.

Context `{!MmapAligned}.

(** C29 (safety). After any sequence of guard and trampoline operations, the
    comparison with the active digest changes nothing but [errno] and the error
    text and releases its locks; it accepts exactly the SHA-256 digest of the
    canonical payload of the selected width.  A refusal carries an [errno] and,
    when both locks were free and the array was long enough, means that nothing
    is attested or that the digest is another one. *)
Theorem attestation_identifies_selected_code cs tid cfg error bytes len :
  let w := run_tramp_calls cs (initial_world tid cfg) in
  let r := tsd_attestation_expect_active_hash (Some bytes) len (mkAstate w error) in
  untouched w (at_world r.2) /\
  (r.1 = 0 /\ at_error r.2 = "" /\ (exists width patch, (result tsd_trampoline_state_snapshot w).1 = 0 /\
     sel_width (result tsd_trampoline_state_snapshot w).2 = width /\ canonical_patch width = Some patch /\
     take 32 bytes = digest_bytes (env_sha256 patch)) \/
   r.1 = -1 /\ w_errno (at_world r.2) <> 0 /\
   (env_lock (w_calls w) = 0 -> env_lock (S (w_calls w)) = 0 -> 32 <= len ->
    forall h, t_hash (w_tramp w) = Some h -> take 32 bytes <> digest_bytes h)).
Proof.
  cbv zeta. destruct (run_tramp_calls_inv cs _ (initial_system_inv tid cfg)) as [[[Hl Hd] _] Ht].
  set (w := run_tramp_calls _ _) in *. clearbody w.
  destruct (expect_spec bytes len (mkAstate w error) Hl Hd) as [Hu Hr]. split; [exact Hu|].
  destruct Hr as [(H0 & He & h & Hh & Hb)|Hr]; [left|by right]. split; [done|]. split; [done|].
  cbn [at_world] in Hh. destruct (ci_hash _ Ht h Hh) as [Hn ->].
  assert (Hp : t_page_a (w_tramp w) <> 0) by (intros Hz; by destruct (ci_no_page _ Ht Hz)).
  destruct (ci_page _ Ht Hp) as (_ & _ & Hc). specialize (Hc _ (proj1 (ci_tramp _ Ht))).
  rewrite <- (ci_selected _ Ht Hn) in Hc. unfold result. rewrite snapshot_run by apply Ht.
  rewrite (proj2 (Z.eqb_neq _ 0)) by done. cbn [fst snd sel_width]. by do 2 eexists.
Qed.

(** What the hexadecimal query stores decodes to the digest. *)
Lemma hex_query_decodes len s text :
  w_locks (at_world s) = no_locks -> w_deadlock (at_world s) = false ->
  (tsd_attestation_get_active_hash_hex true len s).1 = Some text ->
  exists h, t_hash (w_tramp (at_world s)) = Some h /\ unhex text = digest_bytes h /\ String.length text = 64%nat.
Proof.
  intros Hl Hd. unfold tsd_attestation_get_active_hash_hex. case_if; [done|].
  destruct (with_locks_run None (with_hash None (fun h => ret (Some (concat_text hex2 (digest_bytes h))))) s Hl Hd)
    as [(e & _ & _ & -> & _)|([w1 err] & Ht & _ & _ & -> & _)]; [done|].
  unfold with_hash. rewrite bind_run. unfold aw, gets. cbn [fst snd at_world] in *. rewrite Ht.
  destruct (t_hash (w_tramp (at_world s))) as [h|]; [|done]. unfold ret. cbn [fst]. intros Et.
  assert (text = concat_text hex2 (digest_bytes h)) as -> by congruence. exists h.
  split; [done|]. rewrite unhex_hex2 by apply digest_bytes_range.
  split; [done|]. rewrite hex_length, digest_bytes_length. done.
Qed.
End properties.

Section concrete.
#[local] Existing Instance quiet_env.

(** The payload selected after start is attested; any other digest is refused with the full text of both. *)
Definition attested : world := run_tramp_calls [CInit; CPatch SIMD_SSE41] (initial_world 7 k_default_config).

Example attested_ok :
  match t_hash (w_tramp attested) with
  | Some h => (tsd_attestation_expect_active_hash (Some (digest_bytes h)) 32 (mkAstate attested "")).1 = 0
  | None => False
  end.
Proof. vm_compute. reflexivity. Qed.

Example attested_refused :
  let r := tsd_attestation_expect_active_hash (Some (replicate 32 171)) 32 (mkAstate attested "") in
  r.1 = -1 /\ w_errno (at_world r.2) = EKEYREJECTED /\ String.length (at_error r.2) = 166%nat.
Proof. vm_compute. done. Qed.

Lemma attestation_identifies_selected_code_witness :
  exists patch, canonical_patch SIMD_SSE41 = Some patch /\
    (tsd_attestation_expect_active_hash (Some (digest_bytes (env_sha256 patch))) 32 (mkAstate attested "")).1 = 0.
Proof.
  destruct (attestation_identifies_selected_code [CInit; CPatch SIMD_SSE41] 7 k_default_config ""
    (digest_bytes (env_sha256 kPatchSse41)) 32) as [_ [(H0 & _)|(_ & _ & H)]].
  - exists kPatchSse41. split; [reflexivity|]. exact H0.
  - exfalso. apply (H eq_refl eq_refl ltac:(lia) (env_sha256 kPatchSse41)); vm_compute; reflexivity.
Defined.
End concrete.
