(* ===== verification/Dispatch.v ===== *)
(** * Dispatch: registered kernels ([src/src/dispatch/adaptive_dispatch.c])

    Both dispatcher generations.  A kernel is application code: it appears as an
    address, its return value comes from [Env], and every call is appended to
    [w_kernel_log].  Other threads may publish guard state while this thread
    runs; [Others] lists what they do at each such point, and theorems hold for
    every list.  A thread cancelled inside a kernel runs the cleanup handler and
    ends, which is the outcome [Cancelled]. *)
From S2P Require Import Prelude Float64 Config World Cpu TrampolineState Guard.
From Stdlib Require Import SpecFloat Ascii String.
#[local] Open Scope Z_scope.

(** ** Workload counter ([src/src/workload_counter.c]) *)

Definition tsd_workload_iterations_load : M Z := gets w_workload_iterations.
Definition tsd_workload_iterations_add (count : Z) : M unit :=
  if count =? 0 then ret tt
  else modify (fun w => w <| w_workload_iterations ::= fun c => u64 (c + count) |>).
Definition tsd_workload_iterations_reset : M unit := modify (fun w => w <| w_workload_iterations := 0 |>).

(** ** Handles *)

Record tsd_kernel_variants_t : Type := mkVariants { sse41 : Z; avx2 : Z; avx512 : Z }.

Record tsd_kernel_dispatch_t : Type := mkDispatch { variants : tsd_kernel_variants_t; host_max : simd_width_t }.

Definition is_null {A} (p : option A) : bool := match p with None => true | Some _ => false end.

(** The int result with the width stored through the out parameter, if any. *)
Inductive outcome : Type :=
  | Returned (rc : Z) (used : option simd_width_t)
  | Cancelled
  | OutOfFuel.

(** What the other threads publish at a point where they can run. *)
Class Others : Type := others : nat -> list guard_op.

Definition is_writer (o : guard_op) : bool :=
  match o with GEnter _ | GLeave _ => false | _ => true end.

(** [x ? a : b] on pointers is written [x <>? 0]. *)
Definition registered (v : tsd_kernel_variants_t) (width : simd_width_t) : Z :=
  if width =? SIMD_AVX512 then avx512 v else if width =? SIMD_AVX2 then avx2 v else sse41 v.

Section dispatch.
Context `{EV : Env, OT : Others}.

Definition others_run : M unit :=
  fun w => (tt, run_guard_ops (List.filter is_writer (others (w_calls w))) (w <| w_calls ::= S |>)).

Definition pthread_setcancelstate (enable : bool) : M (Z * bool) :=
  previous <- gets w_cancel_enabled ;;
  rc <- ext env_cancel ;;
  if rc <>? 0 then ret (rc, previous)
  else modify (fun w => w <| w_cancel_enabled := enable |>) ;;; ret (0, previous).

Definition cancel_disable : M (Z * bool) :=
  let* (rc, previous) := pthread_setcancelstate false in
  if rc <>? 0 then (rc <- fail rc ;; ret (rc, previous)) else ret (0, previous).

Definition cancel_set_state (state : bool) : M Z :=
  let* (rc, _) := pthread_setcancelstate state in
  if rc <>? 0 then fail rc else ret 0.

(** [probe = {0}; probe.allow_avx512 = 1]: detection reads no other field. *)
Definition detect_host_max : M simd_width_t :=
  tsd_detect_max_simd (Some (k_default_config <| allow_avx512 := true |>)).

Definition selected_width_snapshot : M simd_width_t :=
  selected <- tsd_trampoline_state_current_width ;;
  if (selected <? SIMD_SSE41) || (selected >? SIMD_AVX512) then ret SIMD_SSE41
  else if selected >? SIMD_SSE41 then
    is_open <- tsd_runtime_wide_admission_is_open ;;
    if negb is_open then ret SIMD_SSE41
    else
      owner <- tsd_runtime_current_thread_is_owner ;;
      if negb owner then ret SIMD_SSE41
      else
        authorized <- tsd_runtime_width_authorized selected ;;
        if negb authorized then ret SIMD_SSE41 else ret selected
  else ret selected.

(** The choice of a variant, shared text of [resolve_internal] and
    [resolve_v2_internal]. *)
Definition choose_variant (d : tsd_kernel_dispatch_t) (selected : simd_width_t) : simd_width_t * Z :=
  let selected := if selected >? host_max d then host_max d else selected in
  if (selected >=? SIMD_AVX512) && (host_max d >=? SIMD_AVX512) && (avx512 (variants d) <>? 0)
  then (SIMD_AVX512, avx512 (variants d))
  else if (selected >=? SIMD_AVX2) && (host_max d >=? SIMD_AVX2) && (avx2 (variants d) <>? 0)
  then (SIMD_AVX2, avx2 (variants d))
  else (SIMD_SSE41, sse41 (variants d)).

(** [None] for the return value -1, else the resolved width and function. *)
Definition resolve_internal (dispatch : option tsd_kernel_dispatch_t) : M (option (simd_width_t * Z)) :=
  match dispatch with
  | None => set_errno EINVAL ;;; ret None
  | Some d =>
      if sse41 (variants d) =? 0 then set_errno EINVAL ;;; ret None
      else
        selected <- selected_width_snapshot ;;
        ret (Some (choose_variant d selected))
  end.

(** [None] for -1, else the width and function to run. *)
Definition enter_or_fallback_v1 (dispatch : option tsd_kernel_dispatch_t) (actual : simd_width_t) (fn : Z)
    : M (option (simd_width_t * Z)) :=
  match dispatch with
  | None => set_errno EINVAL ;;; ret None
  | Some d =>
      if fn =? 0 then set_errno EINVAL ;;; ret None
      else
        rc <- tsd_runtime_execution_enter actual ;;
        if rc =? 0 then ret (Some (actual, fn))
        else
          err <- gets w_errno ;;
          if (actual <=? SIMD_SSE41) || (err <>? EAGAIN) then ret None
          else
            rc <- tsd_runtime_execution_enter SIMD_SSE41 ;;
            if rc =? 0 then ret (Some (SIMD_SSE41, sse41 (variants d))) else ret None
  end.

Definition account_completed_work (work_items : Z) : M unit :=
  if work_items >? 0 then
    allowed <- tsd_runtime_work_accounting_allowed ;;
    when allowed (modify (fun w => w <| w_workload_iterations ::= fun c => u64 (c + work_items) |>))
  else ret tt.

Definition tsd_kernel_dispatch_create (v : option tsd_kernel_variants_t)
    : M (Z * option tsd_kernel_dispatch_t) :=
  match v with
  | None => rc <- fail EINVAL ;; ret (rc, None)
  | Some v =>
      if sse41 v =? 0 then (rc <- fail EINVAL ;; ret (rc, None))
      else if negb tsd_cpu_has_sse41 then (rc <- fail ENOTSUP ;; ret (rc, None))
      else
        found <- ext env_calloc ;;
        if negb found then ret (-1, None)
        else
          m <- detect_host_max ;;
          let m := if (m <? SIMD_SSE41) || (m >? SIMD_AVX512) then SIMD_SSE41 else m in
          ret (0, Some (mkDispatch v m))
  end.

(** [tsd_kernel_dispatch_resolve]: the width is stored only on success. *)
Definition tsd_kernel_dispatch_resolve (dispatch : option tsd_kernel_dispatch_t) (want : bool) : M outcome :=
  if negb want then (rc <- fail EINVAL ;; ret (Returned rc None))
  else
    r <- resolve_internal dispatch ;;
    match r with
    | None => ret (Returned (-1) None)
    | Some (width, _) => ret (Returned 0 (Some width))
    end.

(** A call of the application kernel, with other threads running meanwhile; it
    is cut short only when cancellation is enabled. *)
Definition call_kernel (fn offset items : Z) : M (option Z) :=
  modify (fun w => w <| w_kernel_log ::= fun l =>
    l ++ [mkCall fn offset items (g_active_wide_executions (w_guard w))] |>) ;;;
  others_run ;;;
  enabled <- gets w_cancel_enabled ;;
  r <- ext env_kernel ;;
  ret (if enabled then r else Some (default 0 r)).

(** [saved_errno = errno; cancel_set_state(previous); errno = saved_errno; return -1] *)
Definition restore_and_fail (previous : bool) (saved_errno : Z) : M outcome :=
  cancel_set_state previous ;;; set_errno saved_errno ;;; ret (Returned (-1) None).

Definition tsd_kernel_dispatch_execute (dispatch : option tsd_kernel_dispatch_t) (work_items : Z) : M outcome :=
  let* (rc, previous) := cancel_disable in
  if rc <>? 0 then ret (Returned (-1) None)
  else
    r <- resolve_internal dispatch ;;
    match r with
    | None => err <- gets w_errno ;; restore_and_fail previous err
    | Some (actual, fn) =>
        others_run ;;;
        e <- enter_or_fallback_v1 dispatch actual fn ;;
        match e with
        | None => err <- gets w_errno ;; restore_and_fail previous err
        | Some (actual, fn) =>
            rc <- cancel_set_state previous ;;
            if rc =? 0 then
              r <- call_kernel fn 0 work_items ;;
              match r with
              | None => tsd_runtime_execution_leave actual ;;; ret Cancelled
              | Some _ =>
                  let* (rc, _) := cancel_disable in
                  if rc =? 0 then
                    account_completed_work work_items ;;;
                    tsd_runtime_execution_leave actual ;;;
                    rc <- cancel_set_state previous ;;
                    if rc <>? 0 then ret (Returned (-1) (Some actual)) else ret (Returned 0 (Some actual))
                  else
                    err <- gets w_errno ;;
                    tsd_runtime_execution_leave actual ;;;
                    restore_and_fail previous (if err <>? 0 then err else EIO)
              end
            else
              err <- gets w_errno ;;
              tsd_runtime_execution_leave actual ;;;
              restore_and_fail previous (if err <>? 0 then err else EIO)
        end
    end.

(** The chunk loop; [last] is the local the callee stores its width to. *)
Fixpoint execute_chunks (fuel : nat) (dispatch : option tsd_kernel_dispatch_t)
    (remaining max_chunk : Z) (last : simd_width_t) (want : bool) : M outcome :=
  if remaining >? 0 then
    match fuel with
    | O => ret OutOfFuel
    | S fuel =>
        let chunk := if remaining <? max_chunk then remaining else max_chunk in
        o <- tsd_kernel_dispatch_execute dispatch chunk ;;
        match o with
        | Returned rc used =>
            let last := default last used in
            if rc <>? 0 then ret (Returned (-1) None)
            else execute_chunks fuel dispatch (u64 (remaining - chunk)) max_chunk last want
        | o => ret o
        end
    end
  else ret (Returned 0 (if want then Some last else None)).

Definition tsd_kernel_dispatch_execute_chunked (dispatch : option tsd_kernel_dispatch_t)
    (total max_chunk : Z) (want : bool) : M outcome :=
  if is_null dispatch || (max_chunk =? 0) then (rc <- fail EINVAL ;; ret (Returned rc None))
  else if total =? 0 then
    if want then tsd_kernel_dispatch_resolve dispatch want else ret (Returned 0 None)
  else execute_chunks (Z.to_nat total) dispatch total max_chunk SIMD_SSE41 want.

(** ** Second generation: kernels get an offset and return a status *)

Definition resolve_v2_internal (dispatch : option tsd_kernel_dispatch_t) : M (option (simd_width_t * Z)) :=
  match dispatch with
  | None => set_errno EINVAL ;;; ret None
  | Some d =>
      if sse41 (variants d) =? 0 then set_errno EINVAL ;;; ret None
      else
        selected <- selected_width_snapshot ;;
        ret (Some (choose_variant d selected))
  end.

Definition enter_or_fallback_v2 (dispatch : option tsd_kernel_dispatch_t) (actual : simd_width_t) (fn : Z)
    : M (option (simd_width_t * Z)) :=
  match dispatch with
  | None => set_errno EINVAL ;;; ret None
  | Some d =>
      if fn =? 0 then set_errno EINVAL ;;; ret None
      else
        rc <- tsd_runtime_execution_enter actual ;;
        if rc =? 0 then ret (Some (actual, fn))
        else
          err <- gets w_errno ;;
          if (actual <=? SIMD_SSE41) || (err <>? EAGAIN) then ret None
          else
            rc <- tsd_runtime_execution_enter SIMD_SSE41 ;;
            if rc =? 0 then ret (Some (SIMD_SSE41, sse41 (variants d))) else ret None
  end.

Definition tsd_kernel_dispatch_v2_create (v : option tsd_kernel_variants_t)
    : M (Z * option tsd_kernel_dispatch_t) :=
  match v with
  | None => rc <- fail EINVAL ;; ret (rc, None)
  | Some v =>
      if sse41 v =? 0 then (rc <- fail EINVAL ;; ret (rc, None))
      else if negb tsd_cpu_has_sse41 then (rc <- fail ENOTSUP ;; ret (rc, None))
      else
        found <- ext env_calloc ;;
        if negb found then ret (-1, None)
        else
          m <- detect_host_max ;;
          let m := if (m <? SIMD_SSE41) || (m >? SIMD_AVX512) then SIMD_SSE41 else m in
          ret (0, Some (mkDispatch v m))
  end.

Definition tsd_kernel_dispatch_v2_resolve (dispatch : option tsd_kernel_dispatch_t) (want : bool) : M outcome :=
  if negb want then (rc <- fail EINVAL ;; ret (Returned rc None))
  else
    r <- resolve_v2_internal dispatch ;;
    match r with
    | None => ret (Returned (-1) None)
    | Some (width, _) => ret (Returned 0 (Some width))
    end.

Definition tsd_kernel_dispatch_v2_execute (dispatch : option tsd_kernel_dispatch_t)
    (offset work_items : Z) : M outcome :=
  let* (rc, previous) := cancel_disable in
  if rc <>? 0 then ret (Returned (-1) None)
  else
    r <- resolve_v2_internal dispatch ;;
    match r with
    | None => err <- gets w_errno ;; restore_and_fail previous err
    | Some (actual, fn) =>
        others_run ;;;
        e <- enter_or_fallback_v2 dispatch actual fn ;;
        match e with
        | None => err <- gets w_errno ;; restore_and_fail previous err
        | Some (actual, fn) =>
            rc <- cancel_set_state previous ;;
            if rc =? 0 then
              r <- call_kernel fn offset work_items ;;
              match r with
              | None => tsd_runtime_execution_leave actual ;;; ret Cancelled
              | Some callback_rc =>
                  let* (rc, _) := cancel_disable in
                  if rc =? 0 then
                    when (callback_rc =? 0) (account_completed_work work_items) ;;;
                    let used := if callback_rc =? 0 then Some actual else None in
                    tsd_runtime_execution_leave actual ;;;
                    rc <- cancel_set_state previous ;;
                    if rc <>? 0 then ret (Returned (-1) used) else ret (Returned callback_rc used)
                  else
                    err <- gets w_errno ;;
                    tsd_runtime_execution_leave actual ;;;
                    restore_and_fail previous (if err <>? 0 then err else EIO)
              end
            else
              err <- gets w_errno ;;
              tsd_runtime_execution_leave actual ;;;
              restore_and_fail previous (if err <>? 0 then err else EIO)
        end
    end.

Fixpoint execute_v2_chunks (fuel : nat) (dispatch : option tsd_kernel_dispatch_t)
    (offset remaining max_chunk : Z) (last : simd_width_t) (want : bool) : M outcome :=
  if remaining >? 0 then
    match fuel with
    | O => ret OutOfFuel
    | S fuel =>
        let chunk := if remaining <? max_chunk then remaining else max_chunk in
        o <- tsd_kernel_dispatch_v2_execute dispatch offset chunk ;;
        match o with
        | Returned rc used =>
            let last := default last used in
            if rc <>? 0 then ret (Returned rc None)
            else execute_v2_chunks fuel dispatch (u64 (offset + chunk)) (u64 (remaining - chunk)) max_chunk last want
        | o => ret o
        end
    end
  else ret (Returned 0 (if want then Some last else None)).

Definition tsd_kernel_dispatch_v2_execute_chunked (dispatch : option tsd_kernel_dispatch_t)
    (initial_offset total max_chunk : Z) (want : bool) : M outcome :=
  if is_null dispatch || (max_chunk =? 0) || (initial_offset >? SIZE_MAX - total) then
    (rc <- fail EINVAL ;; ret (Returned rc None))
  else if total =? 0 then
    if want then tsd_kernel_dispatch_v2_resolve dispatch want else ret (Returned 0 None)
  else execute_v2_chunks (Z.to_nat total) dispatch initial_offset total max_chunk SIMD_SSE41 want.
End dispatch.

(** ** Facts *)

Definition counts (w : world) : Z * Z := (active_of w, depth_of w).

(** Room for one more execution in the counters of the process and the thread. *)
Definition counts_ok (w : world) : Prop :=
  0 <= active_of w < UINT64_MAX /\ 0 <= depth_of w < UINT32_MAX.

Section facts.
Context `{EV : Env, OT : Others}.

(** Writers never move the in-flight counters. *)
Definition keeps_counts {A} (m : M A) : Prop := respects (fun w w' => counts w = counts w') m.

Lemma keeps_counts_write_enter : keeps_counts tsd_runtime_safety_write_enter.
Proof.
  intros w. unfold tsd_runtime_safety_write_enter. rewrite bind_run.
  destruct (lock_run g_tsd_guard_update_lock w) as [(e & He & ->) | -> ]; cbn; [|done].
  by destruct (e =? 0).
Qed.

Lemma keeps_counts_auth {A} (m : M A) : respects auth_frame m -> keeps_counts m.
Proof. intros Hm w. by destruct (Hm w) as (n & st & sn & ->). Qed.

Lemma keeps_counts_write_leave : keeps_counts tsd_runtime_safety_write_leave.
Proof.
  unfold tsd_runtime_safety_write_leave, keeps_counts, tsd_runtime_is_stopping.
  repeat first [apply keeps_counts_auth, width_authorized_frame | respects_step | (intro; reflexivity)].
Qed.

Lemma keeps_counts_lock m : keeps_counts (pthread_mutex_lock m).
Proof. intros w. destruct (lock_run m w) as [(e & He & ->) | -> ]; done. Qed.

Lemma writer_keeps_counts o : is_writer o = true -> keeps_counts (run_guard_op o).
Proof.
  intros Ho. unfold keeps_counts. destruct o; cbn [run_guard_op]; try done;
    guard_op_steps ltac:(first
      [ apply keeps_counts_write_enter | apply keeps_counts_write_leave | apply keeps_counts_lock ]).
  by destruct stopping.
Qed.

(** What another thread's publications leave alone. *)
Definition mine (w : world) := (counts w, outside_guard w).

Lemma mine_ops ops w :
  Forall (fun o => is_writer o = true) ops -> mine (run_guard_ops ops w) = mine w.
Proof.
  intros Hops. revert w. induction Hops as [|o ops Ho _ IH]; intros w; [done|].
  etransitivity; [apply IH|]. unfold mine. f_equal; symmetry;
    [by apply writer_keeps_counts | apply run_guard_op_frame].
Qed.

Lemma others_run_spec w :
  mine (others_run w).2 = mine w /\ (guard_inv w -> guard_inv (others_run w).2).
Proof.
  unfold others_run. cbn [snd]. split.
  - etransitivity; [apply mine_ops|done].
    apply Forall_forall. intros o Ho. apply list_elem_of_In, filter_In in Ho. apply Ho.
  - intros Hg. apply run_guard_ops_inv. eapply guard_inv_frame; [..|exact Hg]; done.
Qed.

(** ** Cancellation state *)

Lemma setcancel_run b w :
  exists rc n e c, cancel_set_state b w =
    (if rc =? 0 then 0 else -1, w <| w_calls := n |> <| w_errno := e |> <| w_cancel_enabled := c |>) /\
    (rc = 0 -> c = b) /\ (rc <> 0 -> e = rc /\ c = w_cancel_enabled w) /\ rc = env_cancel (w_calls w).
Proof.
  unfold cancel_set_state, pthread_setcancelstate. rewrite !bind_run. cbn [gets ext fst snd].
  exists (env_cancel (w_calls w)). destruct (env_cancel (w_calls w) =? 0) eqn:E; zbool; cbn [negb].
  - exists (S (w_calls w)), (w_errno w), b. cbn. split; [by destruct w | done].
  - exists (S (w_calls w)), (env_cancel (w_calls w)), (w_cancel_enabled w). unfold fail, ret. cbn.
    rewrite (proj2 (Z.eqb_neq _ 0)) by done. split; [by destruct w | done].
Qed.

Lemma cancel_disable_run w :
  exists rc n e c, cancel_disable w =
    ((if rc =? 0 then 0 else -1, w_cancel_enabled w),
     w <| w_calls := n |> <| w_errno := e |> <| w_cancel_enabled := c |>) /\
    (rc = 0 -> c = false) /\ (rc <> 0 -> c = w_cancel_enabled w) /\ rc = env_cancel (w_calls w).
Proof.
  unfold cancel_disable, pthread_setcancelstate. rewrite !bind_run. cbn [gets ext fst snd].
  exists (env_cancel (w_calls w)). destruct (env_cancel (w_calls w) =? 0) eqn:E; zbool; cbn [negb].
  - exists (S (w_calls w)), (w_errno w), false. cbn. split; [by destruct w | done].
  - exists (S (w_calls w)), (env_cancel (w_calls w)), (w_cancel_enabled w). unfold fail, ret. cbn.
    rewrite (proj2 (Z.eqb_neq _ 0)) by done. split; [by destruct w | done].
Qed.

(** ** Resolution *)

Definition valid_dispatch (d : tsd_kernel_dispatch_t) : Prop :=
  sse41 (variants d) <> 0 /\ width_in_range (host_max d) = true.

(** The widest registered variant within the selection and the host. *)
Lemma choose_variant_spec d selected width fn :
  valid_dispatch d -> choose_variant d selected = (width, fn) ->
  fn = registered (variants d) width /\ fn <> 0 /\ width_in_range width = true /\
  width <= host_max d /\ (width <= selected \/ width = SIMD_SSE41).
Proof.
  intros [Hs Hm]. pose proof (width_cases _ Hm) as Hcase.
  unfold choose_variant, registered, SIMD_SSE41, SIMD_AVX2, SIMD_AVX512 in *.
  set (sel := if selected >? host_max d then host_max d else selected).
  assert (Hsel : sel <= host_max d /\ sel <= selected)
    by (unfold sel; rewrite Z.gtb_ltb; case_if; zbool; lia).
  destruct ((sel >=? 2) && _ && _) eqn:E2; [zbool; intros [= <- <-]; repeat split; try done; lia|].
  destruct ((sel >=? 1) && _ && _) eqn:E1; [zbool; intros [= <- <-]; repeat split; try done; lia|].
  intros [= <- <-]. repeat split; try done; lia.
Qed.

Lemma selected_snapshot_run w :
  tramp_ok (w_tramp w) ->
  exists n e st sn width,
    selected_width_snapshot w =
      (width, w <| w_calls := n |> <| w_errno := e |>
                <| w_guard ::= fun g => g <| g_safety_snapshot_state := st |> <| g_safety_snapshot := sn |> |>) /\
    (width = SIMD_SSE41 \/ width = t_current_width (w_tramp w) /\
       (admission_open w = true /\ is_owner w = true /\ exists e', wide_policy (w <| w_errno := e' |>))).
Proof.
  intros Ht. unfold selected_width_snapshot. rewrite bind_run.
  assert (Hcw : exists e, tsd_trampoline_state_current_width w = (t_current_width (w_tramp w), w <| w_errno := e |>)).
  { rewrite current_width_run by done.
    destruct (_ =? 0); [by exists ENODEV | exists (w_errno w); by destruct w]. }
  destruct Hcw as [e ->]. cbn [fst snd].
  assert (Hstay : exists n e' st sn width, (SIMD_SSE41, w <| w_errno := e |>) =
      (width, w <| w_calls := n |> <| w_errno := e' |>
                <| w_guard ::= fun g => g <| g_safety_snapshot_state := st |> <| g_safety_snapshot := sn |> |>) /\
      (width = SIMD_SSE41 \/ width = t_current_width (w_tramp w) /\
        (admission_open w = true /\ is_owner w = true /\ exists e', wide_policy (w <| w_errno := e' |>)))).
  { exists (w_calls w), e, (g_safety_snapshot_state (w_guard w)), (g_safety_snapshot (w_guard w)), SIMD_SSE41.
    split; [destruct w as [? ? ? ? ? g]; by destruct g | by left]. }
  destruct ((t_current_width (w_tramp w) <? SIMD_SSE41) || _); [exact Hstay|].
  destruct (t_current_width (w_tramp w) >? SIMD_SSE41) eqn:Egt.
  2: { destruct (width_cases _ (proj1 Ht)) as [Hw|[Hw|Hw]]; rewrite Hw in Egt, Hstay |- *; try done. }
  rewrite bind_run. cbn [gets fst snd tsd_runtime_wide_admission_is_open].
  destruct (g_wide_admission_open _) eqn:Eo; cbn [negb]; [|exact Hstay].
  rewrite bind_run, owner_run. cbn [fst snd].
  destruct (is_owner _) eqn:Ei; cbn [negb]; [|exact Hstay]. clear Hstay.
  rewrite bind_run. pose proof (width_authorized_run (t_current_width (w_tramp w)) (w <| w_errno := e |>)) as Ha.
  destruct (width_authorized_frame (t_current_width (w_tramp w)) (w <| w_errno := e |>)) as (n & st & sn & ->).
  destruct (tsd_runtime_width_authorized _ _).1; cbn [negb]; exists n, e, st, sn; eexists;
    (split; [by destruct w as [? ? ? ? ? g]; destruct g|]); [|by left].
  right. split; [done|]. split; [done|]. split; [done|]. exists e.
  destruct (proj1 Ha eq_refl) as [_ [Hsse|Hp]]; [|done]. rewrite Hsse in Egt. done.
Qed.

(** ** Entry, with its fallback *)

Definition weight (width : simd_width_t) : Z := if width =? SIMD_SSE41 then 0 else 1.

Lemma enter_sse_run w : tsd_runtime_execution_enter SIMD_SSE41 w = (0, w).
Proof. done. Qed.

(** With a registered function entry always succeeds, at worst on SSE4.1. *)
Lemma enter_or_fallback_run d actual w :
  valid_dispatch d -> counts_ok w -> width_in_range actual = true -> registered (variants d) actual <> 0 ->
  exists width w',
    enter_or_fallback_v2 (Some d) actual (registered (variants d) actual) w =
      (Some (width, registered (variants d) width), w') /\
    admission_frame w w' /\ (width = actual \/ width = SIMD_SSE41) /\
    counts w' = (active_of w + weight width, depth_of w + weight width) /\
    (width <> SIMD_SSE41 -> admission_open w = true /\ is_owner w = true /\ wide_policy w).
Proof.
  intros [Hs _] [Ha Hd] Hr Hf. unfold enter_or_fallback_v2.
  rewrite (proj2 (Z.eqb_neq _ 0)) by done. rewrite bind_run.
  pose proof (admission_frame_enter actual w) as Hfr.
  destruct (tsd_runtime_execution_enter actual w) as [rc w1] eqn:Hrun. cbn [fst snd] in *.
  destruct (enter_run actual w rc w1 Hrun Ha Hd) as
    [(-> & H1 & H2 & He)|[(-> & -> & ->)|(-> & Hw & H1 & H2 & Ho & Hi & Hp)]]; cbn [Z.eqb].
  - rewrite Hr in He. rewrite bind_run. cbn [gets fst snd]. rewrite He. change (EAGAIN =? EAGAIN) with true.
    destruct (actual <=? SIMD_SSE41) eqn:Ele; cbn [negb orb].
    { exfalso. destruct (width_cases _ Hr) as [-> | [-> | -> ]]; try discriminate Ele.
      rewrite enter_sse_run in Hrun. discriminate Hrun. }
    rewrite bind_run, enter_sse_run. cbn [fst snd Z.eqb].
    exists SIMD_SSE41, w1. unfold counts. rewrite H1, H2. cbn. rewrite !Z.add_0_r.
    split; [done|]. split; [done|]. split; [by right|]. done.
  - exists SIMD_SSE41, w. unfold counts. cbn. rewrite !Z.add_0_r. split; [done|]. split; [done|]. split; [by left | done].
  - exists actual, w1. unfold counts, weight. rewrite H1, H2.
    assert (actual <> SIMD_SSE41) by (destruct Hw as [-> | -> ]; done).
    rewrite (proj2 (Z.eqb_neq _ _)) by done. split; [done|]. split; [done|]. split; [by left | done].
Qed.

Lemma leave_run width w a d :
  width_in_range width = true -> 0 <= a < UINT64_MAX -> 0 <= d < UINT32_MAX ->
  counts w = (a + weight width, d + weight width) ->
  counts (tsd_runtime_execution_leave width w).2 = (a, d).
Proof.
  intros Hr Ha Hd [= H1 H2]. unfold tsd_runtime_execution_leave, weight in *.
  destruct (width_cases _ Hr) as [-> | [-> | -> ]]; cbn [Z.gtb Z.leb Z.compare SIMD_SSE41 SIMD_AVX2 SIMD_AVX512 andb when Pos.compare Pos.compare_cont Z.eqb] in *.
  { unfold counts, ret. cbn. rewrite H1, H2. by rewrite !Z.add_0_r. }
  all: destruct (release_run w) as (n & dl & lk & -> & _); unfold counts, active_of, depth_of in *; cbn;
    rewrite H1, H2, (proj2 (Z.eqb_neq _ 0)), Z.gtb_ltb, (proj2 (Z.ltb_lt 0 _)) by lia;
    rewrite u64_small by (unfold_int; lia); f_equal; lia.
Qed.

(** ** Execution *)

Definition accounting_allowed (w : world) : bool := negb (guard_active (w_obs w)) || is_owner w.

Lemma account_run items w :
  account_completed_work items w =
    (tt, if (items >? 0) && accounting_allowed w
         then w <| w_workload_iterations ::= fun c => u64 (c + items) |> else w).
Proof.
  unfold account_completed_work, accounting_allowed. destruct (items >? 0); [|done].
  rewrite bind_run. unfold tsd_runtime_work_accounting_allowed. rewrite bind_run.
  cbn [gets fst snd tsd_observability_runtime_guard_active andb]. fold (guard_active (w_obs w)).
  destruct (guard_active (w_obs w)); cbn [negb orb]; [|done].
  rewrite owner_run. cbn [fst snd]. by destruct (is_owner w).
Qed.

(** Both generations: [keep] is what the dispatcher retains of the kernel's
    return value (nothing for the first one, whose kernels return void). *)
Definition execute_gen (keep : Z -> Z) (dispatch : option tsd_kernel_dispatch_t) (offset work_items : Z) : M outcome :=
  let* (rc, previous) := cancel_disable in
  if rc <>? 0 then ret (Returned (-1) None)
  else
    r <- resolve_v2_internal dispatch ;;
    match r with
    | None => err <- gets w_errno ;; restore_and_fail previous err
    | Some (actual, fn) =>
        others_run ;;;
        e <- enter_or_fallback_v2 dispatch actual fn ;;
        match e with
        | None => err <- gets w_errno ;; restore_and_fail previous err
        | Some (actual, fn) =>
            rc <- cancel_set_state previous ;;
            if rc =? 0 then
              r <- call_kernel fn offset work_items ;;
              match r with
              | None => tsd_runtime_execution_leave actual ;;; ret Cancelled
              | Some cb =>
                  let* (rc, _) := cancel_disable in
                  if rc =? 0 then
                    when (keep cb =? 0) (account_completed_work work_items) ;;;
                    let used := if keep cb =? 0 then Some actual else None in
                    tsd_runtime_execution_leave actual ;;;
                    rc <- cancel_set_state previous ;;
                    if rc <>? 0 then ret (Returned (-1) used) else ret (Returned (keep cb) used)
                  else
                    err <- gets w_errno ;;
                    tsd_runtime_execution_leave actual ;;;
                    restore_and_fail previous (if err <>? 0 then err else EIO)
              end
            else
              err <- gets w_errno ;;
              tsd_runtime_execution_leave actual ;;;
              restore_and_fail previous (if err <>? 0 then err else EIO)
        end
    end.

Lemma execute_v1_gen d items : tsd_kernel_dispatch_execute d items = execute_gen (fun _ => 0) d 0 items.
Proof. reflexivity. Qed.

Lemma execute_v2_gen d off items : tsd_kernel_dispatch_v2_execute d off items = execute_gen id d off items.
Proof. reflexivity. Qed.

(** From a successful entry to the return. *)
Definition admitted (keep : Z -> Z) (previous : bool) (actual : simd_width_t) (fn offset work_items : Z) : M outcome :=
  rc <- cancel_set_state previous ;;
  if rc =? 0 then
    r <- call_kernel fn offset work_items ;;
    match r with
    | None => tsd_runtime_execution_leave actual ;;; ret Cancelled
    | Some cb =>
        let* (rc, _) := cancel_disable in
        if rc =? 0 then
          when (keep cb =? 0) (account_completed_work work_items) ;;;
          let used := if keep cb =? 0 then Some actual else None in
          tsd_runtime_execution_leave actual ;;;
          rc <- cancel_set_state previous ;;
          if rc <>? 0 then ret (Returned (-1) used) else ret (Returned (keep cb) used)
        else
          err <- gets w_errno ;;
          tsd_runtime_execution_leave actual ;;;
          restore_and_fail previous (if err <>? 0 then err else EIO)
    end
  else
    err <- gets w_errno ;;
    tsd_runtime_execution_leave actual ;;;
    restore_and_fail previous (if err <>? 0 then err else EIO).

(** [pthread_setcancelstate] rejects a state only when the state is invalid. *)
Definition cancel_failed : Prop := exists n, env_cancel n <> 0.

(** How an admitted call can end, [iterations] being the workload counter
    before it. *)
Inductive ended (keep : Z -> Z) (previous : bool) (width : simd_width_t) (items iterations : Z) (w' : world) : outcome -> Prop :=
  | ended_cancelled :
      w_workload_iterations w' = iterations ->
      ended keep previous width items iterations w' Cancelled
  | ended_unaccounted :
      w_workload_iterations w' = iterations -> cancel_failed ->
      ended keep previous width items iterations w' (Returned (-1) None)
  | ended_returned cb rc :
      w_workload_iterations w' =
        (if (keep cb =? 0) && ((items >? 0) && accounting_allowed w') then u64 (iterations + items) else iterations) ->
      (rc = keep cb /\ w_cancel_enabled w' = previous \/ rc = -1 /\ cancel_failed) ->
      ended keep previous width items iterations w' (Returned rc (if keep cb =? 0 then Some width else None)).

Lemma leave_frame width w : exists w', tsd_runtime_execution_leave width w = (tt, w') /\ admission_frame w w'.
Proof.
  pose proof (admission_frame_leave width w) as Hf.
  destruct (tsd_runtime_execution_leave width w) as [[] w'] eqn:E. by exists w'.
Qed.

(** One execution of [width] is counted on top of [a] and [d]. *)
Record entered (width : simd_width_t) (a d : Z) (w : world) : Prop := {
  en_inv : guard_inv w;
  en_width : width_in_range width = true;
  en_active : 0 <= a < UINT64_MAX;
  en_depth : 0 <= d < UINT32_MAX;
  en_counts : counts w = (a + weight width, d + weight width);
}.

(** What leaving and the cancellation calls leave alone. *)
Definition kept (w : world) := (w_tramp w, w_workload_iterations w, w_kernel_log w, (w_obs w, w_self_tid w, g_runtime_owner_tid (w_guard w))).

Lemma kept_accounting w w' : kept w = kept w' -> accounting_allowed w = accounting_allowed w'.
Proof. unfold kept, accounting_allowed, is_owner. intros [= _ _ _ -> -> ->]. done. Qed.

Lemma leave_run_kept width a d w :
  entered width a d w ->
  exists w', tsd_runtime_execution_leave width w = (tt, w') /\ guard_inv w' /\ counts w' = (a, d) /\
    kept w' = kept w /\ w_cancel_enabled w' = w_cancel_enabled w.
Proof.
  intros [Hg Hr Ha Hd Hc]. pose proof (leave_run width w a d Hr Ha Hd Hc) as Hcounts.
  pose proof (admission_frame_inv _ (admission_frame_leave width) w Hg) as Hinv.
  destruct (leave_frame width w) as (w' & Hrun & Hf). rewrite Hrun in *. exists w'.
  split; [done|]. split; [done|]. split; [done|].
  destruct Hf as (? & ? & ? & ? & ? & ? & ? & ? & -> & _). done.
Qed.

Lemma cancel_set_kept b w :
  exists rc w', cancel_set_state b w = (rc, w') /\ (guard_inv w -> guard_inv w') /\ counts w' = counts w /\
    kept w' = kept w /\ (rc = 0 /\ w_cancel_enabled w' = b \/ rc = -1 /\ cancel_failed).
Proof.
  destruct (setcancel_run b w) as (rc & n & e & c & -> & H1 & H2 & H3). do 2 eexists. split; [reflexivity|].
  split; [intros Hg; eapply guard_inv_frame; [..|exact Hg]; done|]. split; [done|]. split; [done|].
  destruct (rc =? 0) eqn:E; zbool; [left; by rewrite (H1 E)|right]. split; [done|]. exists (w_calls w). congruence.
Qed.

Lemma cancel_disable_kept w :
  exists rc w', cancel_disable w = ((rc, w_cancel_enabled w), w') /\ (guard_inv w -> guard_inv w') /\ counts w' = counts w /\
    kept w' = kept w /\ (rc = 0 \/ rc = -1 /\ cancel_failed).
Proof.
  destruct (cancel_disable_run w) as (rc & n & e & c & -> & H1 & H2 & H3). do 2 eexists. split; [reflexivity|].
  split; [intros Hg; eapply guard_inv_frame; [..|exact Hg]; done|]. split; [done|]. split; [done|].
  destruct (rc =? 0) eqn:E; zbool; [by left | right]. split; [done|]. exists (w_calls w). congruence.
Qed.

(** Leaving on a failed cancellation call. *)
Lemma leave_restore_run width previous err a d w :
  entered width a d w ->
  exists w', (tsd_runtime_execution_leave width ;;; restore_and_fail previous err) w = (Returned (-1) None, w') /\
    guard_inv w' /\ counts w' = (a, d) /\ kept w' = kept w.
Proof.
  intros He. rewrite bind_run. destruct (leave_run_kept width a d w He) as (w1 & -> & Hg & Hc & Hk & _).
  unfold restore_and_fail. cbn [snd]. rewrite bind_run.
  destruct (cancel_set_kept previous w1) as (rc & w2 & -> & Hg2 & Hc2 & Hk2 & _). rewrite bind_run.
  eexists. split; [reflexivity|]. split; [eapply guard_inv_frame; [..|exact (Hg2 Hg)]; done|].
  split; [by rewrite <- Hc, <- Hc2 | by rewrite <- Hk, <- Hk2].
Qed.

Lemma call_kernel_run fn off items w :
  exists r w', call_kernel fn off items w = (r, w') /\ (guard_inv w -> guard_inv w') /\ counts w' = counts w /\
    w_tramp w' = w_tramp w /\ w_workload_iterations w' = w_workload_iterations w /\
    w_kernel_log w' = w_kernel_log w ++ [mkCall fn off items (active_of w)] /\
    w_self_tid w' = w_self_tid w /\ w_cancel_enabled w' = w_cancel_enabled w.
Proof.
  unfold call_kernel. rewrite bind_run. cbn [modify snd]. rewrite bind_run.
  match goal with |- context [others_run ?x] => destruct (others_run_spec x) as [Hm Hg];
    destruct (others_run x) as [[] w1] end.
  cbn [snd] in *. rewrite bind_run. cbn [gets fst snd]. rewrite bind_run. cbn [ext fst snd ret].
  unfold mine, outside_guard in Hm. injection Hm as Hc Hd Ht _ Hself _ Hwl _ _ _ _ _ Hce Hlog.
  do 2 eexists. split; [reflexivity|]. unfold counts, active_of, depth_of in *. cbn in *.
  split; [intros H0; eapply guard_inv_frame; [..|apply Hg; eapply guard_inv_frame; [..|exact H0]]; done|].
  rewrite Hc, Hd, Ht, Hself, Hwl, Hce, Hlog. done.
Qed.

Lemma when_account_run b items w :
  exists w', when b (account_completed_work items) w = (tt, w') /\
    w_workload_iterations w' =
      (if b && ((items >? 0) && accounting_allowed w) then u64 (w_workload_iterations w + items)
       else w_workload_iterations w) /\
    w_kernel_log w' = w_kernel_log w /\ w_tramp w' = w_tramp w /\
    accounting_allowed w' = accounting_allowed w /\ counts w' = counts w /\ (guard_inv w -> guard_inv w').
Proof.
  destruct b; cbn [when andb]; [rewrite account_run | by exists w].
  eexists. split; [reflexivity|]. destruct ((items >? 0) && accounting_allowed w); [|done].
  do 5 (split; [done|]). intros Hg. eapply guard_inv_frame; [..|exact Hg]; done.
Qed.

Lemma admitted_run keep previous width fn off items a d w :
  entered width a d w ->
  exists o w', admitted keep previous width fn off items w = (o, w') /\
    guard_inv w' /\ counts w' = (a, d) /\ w_tramp w' = w_tramp w /\
    ((o = Returned (-1) None /\ cancel_failed /\ w_kernel_log w' = w_kernel_log w /\
        w_workload_iterations w' = w_workload_iterations w) \/
     (w_kernel_log w' = w_kernel_log w ++ [mkCall fn off items (a + weight width)] /\
        ended keep previous width items (w_workload_iterations w) w' o)).
Proof.
  intros He. unfold admitted. rewrite bind_run.
  destruct (cancel_set_kept previous w) as (rc & w1 & -> & Hg1 & Hc1 & Hk1 & Hrc). cbn [fst snd].
  assert (He1 : entered width a d w1) by (destruct He; split; auto; congruence).
  injection Hk1 as Ht1 Hw1 Hl1 _ _ _.
  destruct Hrc as [[-> Hce]|[-> Hcf]]; cbn [Z.eqb].
  2: { rewrite bind_run. cbn [gets fst snd].
    destruct (leave_restore_run width previous (if w_errno w1 <>? 0 then w_errno w1 else EIO) a d w1 He1)
      as (w2 & -> & Hg2 & Hc2 & [= Ht2 Hw2 Hl2 _ _ _]). do 2 eexists. split; [reflexivity|].
    do 2 (split; [done|]). split; [congruence|]. left. repeat split; (done || congruence). }
  rewrite bind_run. destruct (call_kernel_run fn off items w1)
    as (r & w2 & -> & Hg2 & Hc2 & Ht2 & Hw2 & Hl2 & Hs2 & Hce2). cbn [fst snd].
  assert (He2 : entered width a d w2) by (destruct He1; split; auto; congruence).
  pose proof (en_counts _ _ _ _ He1) as [= Hact _]. rewrite Hact, Hl1 in Hl2.
  destruct r as [cb|].
  2: { rewrite bind_run. destruct (leave_run_kept width a d w2 He2) as (w3 & -> & Hg3 & Hc3 & [= Ht3 Hw3 Hl3 _ _ _] & _).
    exists Cancelled, w3. split; [reflexivity|]. do 2 (split; [done|]). split; [congruence|]. right.
    split; [by rewrite Hl3|]. apply ended_cancelled. congruence. }
  rewrite bind_run. destruct (cancel_disable_kept w2) as (rc & w3 & -> & Hg3 & Hc3 & [= Ht3 Hw3 Hl3 Ho3 Hs3 Hi3] & Hrc).
  cbn [fst snd].
  assert (He3 : entered width a d w3) by (destruct He2; split; auto; congruence).
  destruct Hrc as [-> |[-> Hcf]]; cbn [Z.eqb].
  2: { rewrite bind_run. cbn [gets fst snd].
    destruct (leave_restore_run width previous (if w_errno w3 <>? 0 then w_errno w3 else EIO) a d w3 He3)
      as (w4 & -> & Hg4 & Hc4 & [= Ht4 Hw4 Hl4 _ _ _]). do 2 eexists. split; [reflexivity|].
    do 2 (split; [done|]). split; [congruence|]. right. split; [congruence|]. apply ended_unaccounted; [congruence | done]. }
  rewrite bind_run.
  destruct (when_account_run (keep cb =? 0) items w3) as (w4 & -> & Hw4 & Hl4 & Ht4 & Ha4 & Hc4 & Hg4).
  assert (He4 : entered width a d w4) by (destruct He3; split; auto; congruence).
  cbn [snd]. rewrite bind_run.
  destruct (leave_run_kept width a d w4 He4) as (w5 & -> & Hg5 & Hc5 & Hk5 & _).
  cbn [snd]. rewrite bind_run.
  destruct (cancel_set_kept previous w5) as (rc & w6 & -> & Hg6 & Hc6 & Hk6 & Hrc).
  pose proof (kept_accounting w6 w4 ltac:(congruence)) as Hacc.
  injection Hk5 as Ht5 Hw5 Hl5 _ _ _. injection Hk6 as Ht6 Hw6 Hl6 _ _ _. cbn [fst snd].
  exists (Returned (if rc =? 0 then keep cb else -1) (if keep cb =? 0 then Some width else None)), w6.
  split; [destruct Hrc as [[-> _]|[-> _]]; done|]. split; [auto|]. split; [congruence|]. split; [congruence|].
  right. split; [congruence|]. apply ended_returned.
  - rewrite Hw6, Hw5, Hw4, Hacc, Ha4. by replace (w_workload_iterations w3) with (w_workload_iterations w) by congruence.
  - destruct Hrc as [[-> ?]|[-> ?]]; [by left | by right].
Qed.

(** The contract of one execution. *)
Record exec_post (keep : Z -> Z) (d : tsd_kernel_dispatch_t) (off items : Z) (w w' : world) (o : outcome) : Prop := {
  ep_inv : guard_inv w';
  ep_counts : counts w' = counts w;
  ep_tramp : w_tramp w' = w_tramp w;
  ep_call :
    (o = Returned (-1) None /\ cancel_failed /\ w_kernel_log w' = w_kernel_log w /\
       w_workload_iterations w' = w_workload_iterations w) \/
    (exists width,
       width_in_range width = true /\ width <= host_max d /\
       (width <= t_current_width (w_tramp w) \/ width = SIMD_SSE41) /\
       registered (variants d) width <> 0 /\
       w_kernel_log w' = w_kernel_log w ++
         [mkCall (registered (variants d) width) off items (active_of w + weight width)] /\
       ended keep (w_cancel_enabled w) width items (w_workload_iterations w) w' o /\
       (width <> SIMD_SSE41 ->
          exists entry, wide_policy entry /\ admission_open entry = true /\ is_owner entry = true /\
            counts entry = counts w /\ w_tramp entry = w_tramp w));
}.

Lemma admission_frame_kept w w' :
  admission_frame w w' -> kept w' = kept w /\ (guard_inv w -> guard_inv w').
Proof.
  intros (n & e & dl & lk & a & d & st & sn & -> & Hl). split; [done|]. intros Hg.
  destruct Hl as [-> ->]; [by destruct Hg as [[-> _] _]|]. eapply guard_inv_frame; [..|exact Hg]; done.
Qed.

Lemma resolve_run d w :
  valid_dispatch d -> tramp_ok (w_tramp w) ->
  exists width w', resolve_v2_internal (Some d) w = (Some (width, registered (variants d) width), w') /\
    (guard_inv w -> guard_inv w') /\ counts w' = counts w /\ kept w' = kept w /\
    width_in_range width = true /\ width <= host_max d /\ registered (variants d) width <> 0 /\
    (width <= t_current_width (w_tramp w) \/ width = SIMD_SSE41) /\
    (width <> SIMD_SSE41 -> admission_open w = true /\ is_owner w = true /\ exists e, wide_policy (w <| w_errno := e |>)).
Proof.
  intros Hd Ht. unfold resolve_v2_internal. destruct Hd as [Hs Hm].
  rewrite (proj2 (Z.eqb_neq _ 0)) by done. rewrite bind_run.
  destruct (selected_snapshot_run w Ht) as (n & e & st & sn & sel & -> & Hsel). cbn [fst snd].
  destruct (choose_variant d sel) as [width fn] eqn:Ec.
  destruct (choose_variant_spec d sel width fn (conj Hs Hm) Ec) as (-> & Hn & Hr & Hh & Hle).
  exists width. eexists. split; [reflexivity|].
  split; [intros Hg; eapply guard_inv_frame; [..|exact Hg]; done|]. do 5 (split; [done|]).
  destruct Hsel as [->|(-> & H1)].
  - split; [right; destruct Hle as [Hle|]; [|done]; destruct (width_cases _ Hr) as [-> | [-> | -> ]]; done|].
    intros Hw. exfalso. destruct Hle as [Hle|]; [|done].
    destruct (width_cases _ Hr) as [-> | [-> | -> ]]; done.
  - split; [done|]. intros _. done.
Qed.

Lemma execute_gen_run keep d off items w :
  valid_dispatch d -> guard_inv w -> tramp_ok (w_tramp w) -> counts_ok w ->
  exists o w', execute_gen keep (Some d) off items w = (o, w') /\ exec_post keep d off items w w' o.
Proof.
  intros Hd Hg Ht Hok. unfold execute_gen. rewrite bind_run.
  destruct (cancel_disable_kept w) as (rc & w1 & -> & Hg1 & Hc1 & [= Ht1 Hw1 Hl1 _ Hs1 _] & Hrc). cbn [fst snd].
  destruct Hrc as [-> |[-> Hcf]]; cbn [Z.eqb negb].
  2: { exists (Returned (-1) None), w1. split; [done|]. split; auto. }
  rewrite bind_run. destruct (resolve_run d w1 Hd ltac:(by rewrite Ht1))
    as (actual & w2 & -> & Hg2 & Hc2 & Hk2 & Hr & Hh & Hn & Hsel & _). cbn [fst snd].
  injection Hk2 as Ht2 Hw2 Hl2 _ Hs2 _. rewrite bind_run.
  destruct (others_run_spec w2) as [Hm3 Hg3]. destruct (others_run w2) as [[] w3]. cbn [snd] in *.
  unfold mine, outside_guard in Hm3. injection Hm3 as Ha3 Hd3 Ht3 _ Hs3 _ Hw3 _ _ _ _ _ Hce3 Hl3.
  assert (Hc3 : counts w3 = counts w) by (unfold counts in *; congruence).
  assert (Hok3 : counts_ok w3) by (unfold counts_ok in *; injection Hc3 as -> ->; done).
  rewrite bind_run. destruct (enter_or_fallback_run d actual w3 Hd Hok3 Hr Hn)
    as (width & w4 & -> & Hf4 & Hw4 & Hc4 & Hp4). cbn [fst snd].
  destruct (admission_frame_kept w3 w4 Hf4) as [[= Ht4 Hwl4 Hl4 _ Hs4 _] Hg4].
  assert (Hr4 : width_in_range width = true) by (destruct Hw4 as [-> | ->]; done).
  injection Hc3 as Ha Hdp. rewrite Ha, Hdp in Hc4. destruct Hok as [Hok1 Hok2].
  assert (He : entered width (active_of w) (depth_of w) w4) by (split; auto).
  match goal with |- context [bind (cancel_set_state ?p) _ w4] =>
    change (exists o w', admitted keep p width (registered (variants d) width) off items w4 = (o, w') /\
              exec_post keep d off items w w' o) end.
  destruct (admitted_run keep (w_cancel_enabled w) width (registered (variants d) width) off items
              (active_of w) (depth_of w) w4 He) as (o & w5 & -> & Hg5 & Hc5 & Ht5 & Hend).
  exists o, w5. split; [done|]. split; [done | done | congruence |].
  replace (w_workload_iterations w4) with (w_workload_iterations w) in Hend by congruence.
  replace (w_kernel_log w4) with (w_kernel_log w) in Hend by congruence.
  destruct Hend as [Hend|[Hlog Hend]]; [by left|]. right. exists width.
  rewrite Ht1 in Hsel. split; [done|].
  assert (Hwa : width <= actual) by (destruct Hw4 as [-> | ->]; [lia | destruct (width_cases _ Hr) as [-> | [-> | -> ]]; done]).
  split; [lia|]. split; [destruct Hsel as [?|Hs]; [left; lia | right; destruct Hw4; congruence]|].
  split; [destruct Hw4 as [-> | ->]; [done | apply Hd]|]. do 2 (split; [done|]).
  intros Hwide. destruct (Hp4 Hwide) as (? & ? & ?). exists w3. unfold counts. rewrite Ha, Hdp.
  do 4 (split; [done|]). congruence.
Qed.
End facts.

(** ** Chunking *)

(** The reference split of a range: consecutive chunks of [max_chunk] items, the
    last one shorter. *)
Definition chunk_plan (off total max_chunk : Z) : list (Z * Z) :=
  (fun i => (off + i * max_chunk, Z.min max_chunk (total - i * max_chunk))) <$> seqZ 0 (cdiv total max_chunk).

Lemma cdiv_zero b : 0 < b -> cdiv 0 b = 0.
Proof. intros. unfold cdiv. by rewrite Z.div_0_l by lia. Qed.

Lemma cdiv_pos a b : 0 < a -> 0 < b -> 0 < cdiv a b.
Proof. intros Ha Hb. pose proof (cdiv_spec a b Hb). nia. Qed.

Lemma cdiv_sub a b : 0 < b -> cdiv (a - b) b = cdiv a b - 1.
Proof.
  intros Hb. unfold cdiv. replace (- (a - b)) with (- a + 1 * b) by lia. rewrite Z.div_add by lia. lia.
Qed.

Lemma chunk_plan_cons off total mc :
  0 < total -> 0 < mc ->
  chunk_plan off total mc =
    (off, Z.min mc total) :: chunk_plan (off + Z.min mc total) (total - Z.min mc total) mc.
Proof.
  intros Ht Hm. unfold chunk_plan. rewrite seqZ_cons by (by apply cdiv_pos). cbn [fmap list_fmap].
  f_equal; [f_equal; lia|].
  destruct (Z.le_gt_cases total mc) as [Hle|Hgt].
  - rewrite (Z.min_r mc total) by lia. rewrite Z.sub_diag, cdiv_zero by lia.
    replace (cdiv total mc) with 1 by (pose proof (cdiv_spec total mc Hm); nia). done.
  - rewrite (Z.min_l mc total), cdiv_sub by lia. replace (Z.pred (cdiv total mc)) with (cdiv total mc - 1) by lia.
    replace (Z.succ 0) with (1 + 0) by lia. rewrite <- fmap_add_seqZ, <- list_fmap_compose.
    apply list_fmap_ext. intros i k _. cbn. f_equal; [|f_equal]; lia.
Qed.

Lemma chunk_plan_nil off mc : 0 < mc -> chunk_plan off 0 mc = [].
Proof. intros. unfold chunk_plan. by rewrite cdiv_zero. Qed.

Definition range_of (c : kernel_call) : Z * Z := (kc_offset c, kc_items c).

Section chunking.
Context `{EV : Env, OT : Others}.

(** What a run of several chunks guarantees; [plan] is what a complete run
    calls. *)
Record chunks_post (d : tsd_kernel_dispatch_t) (plan : list (Z * Z)) (w w' : world) (o : outcome)
    (calls : list kernel_call) : Prop := {
  cp_fuel : o <> OutOfFuel;
  cp_inv : guard_inv w';
  cp_counts : counts w' = counts w;
  cp_tramp : w_tramp w' = w_tramp w;
  cp_log : w_kernel_log w' = w_kernel_log w ++ calls;
  cp_registered : Forall (fun c => exists width, width <= host_max d /\ kc_fn c = registered (variants d) width /\ kc_fn c <> 0) calls;
  cp_prefix : (range_of <$> calls) `prefix_of` plan;
  cp_complete : forall used, o = Returned 0 used -> range_of <$> calls = plan;
}.

Lemma chunks_stop keep d off items plan w w' o o' :
  exec_post keep d off items w w' o -> o' <> OutOfFuel -> (forall u, o' <> Returned 0 u) ->
  exists calls, chunks_post d ((off, items) :: plan) w w' o' calls.
Proof.
  intros [Hg Hc Ht Hcall] Hf Hn. destruct Hcall as [(_ & _ & Hl & _)|(width & Hr & Hh & _ & Hreg & Hl & _)].
  - exists []. split; try done; [by rewrite app_nil_r | apply prefix_nil | intros u ->; by destruct (Hn u)].
  - eexists [_]. split; try done.
    + apply Forall_singleton. by exists width.
    + apply prefix_cons, prefix_nil.
    + intros u ->. by destruct (Hn u).
Qed.

Lemma chunks_step keep d off items plan w w1 w2 o o2 used calls :
  exec_post keep d off items w w1 o -> o = Returned 0 used ->
  chunks_post d plan w1 w2 o2 calls ->
  exists calls, chunks_post d ((off, items) :: plan) w w2 o2 calls.
Proof.
  intros [Hg Hc Ht Hcall] -> [Hf2 Hg2 Hc2 Ht2 Hl2 Hr2 Hp2 Hd2].
  destruct Hcall as [([=] & _)|(width & Hr & Hh & _ & Hreg & Hl & _)].
  eexists (_ :: calls). split; try done; [congruence | congruence | | | |].
  - rewrite Hl2, Hl, <- app_assoc. reflexivity.
  - apply Forall_cons. split; [by exists width | done].
  - by apply prefix_cons.
  - intros u ->. cbn. f_equal. by eapply Hd2.
Qed.

Lemma ended_not_fuel keep p width items it w o : ended keep p width items it w o -> o <> OutOfFuel.
Proof. by intros []. Qed.

Lemma exec_not_fuel keep d off items w w' o : exec_post keep d off items w w' o -> o <> OutOfFuel.
Proof. intros [_ _ _ [(-> & _)|(? & _ & _ & _ & _ & _ & He & _)]]; [done | by eapply ended_not_fuel]. Qed.

Lemma chunk_size rem mc : 0 < mc -> (if rem <? mc then rem else mc) = Z.min mc rem.
Proof. intros. case_if; zbool; lia. Qed.

Lemma v2_chunks_run fuel d off rem mc last want w :
  valid_dispatch d -> 0 < mc -> 0 <= rem <= Z.of_nat fuel -> 0 <= off -> off + rem <= SIZE_MAX ->
  guard_inv w -> tramp_ok (w_tramp w) -> counts_ok w ->
  exists o w' calls, execute_v2_chunks fuel (Some d) off rem mc last want w = (o, w') /\
    chunks_post d (chunk_plan off rem mc) w w' o calls.
Proof.
  intros Hd Hmc. revert off rem last w. induction fuel as [|fuel IH]; intros off rem last w Hrem Ho Hmax Hg Ht Hok;
    cbn [execute_v2_chunks]; (destruct (rem >? 0) eqn:Er; rewrite Z.gtb_ltb in Er; zbool);
    [lia | | |];
    try (replace rem with 0 by lia; exists (Returned 0 (if want then Some last else None)), w, [];
         split; [done|]; rewrite chunk_plan_nil by done; split; try done; by rewrite app_nil_r).
  rewrite bind_run, execute_v2_gen, chunk_size, chunk_plan_cons by lia.
  destruct (execute_gen_run id d off (Z.min mc rem) w Hd Hg Ht Hok) as (o & w1 & -> & Hpost). cbn [fst snd].
  pose proof (exec_not_fuel _ _ _ _ _ _ _ Hpost) as Hnf.
  destruct o as [rc used| |]; [| |done].
  2: { destruct (chunks_stop _ _ _ _ (chunk_plan (off + Z.min mc rem) (rem - Z.min mc rem) mc) _ _ _ Cancelled Hpost) as [calls Hcp];
       [done | done | exists Cancelled, w1, calls; done]. }
  destruct (rc =? 0) eqn:Erc; cbn [negb]; zbool.
  - subst rc. rewrite !u64_small by (unfold_int; lia).
    destruct (IH (off + Z.min mc rem) (rem - Z.min mc rem) (default last used) w1) as (o & w2 & calls & -> & Hcp);
      [lia | lia | lia | apply Hpost | by rewrite (ep_tramp _ _ _ _ _ _ _ Hpost)
      | unfold counts_ok in *; pose proof (ep_counts _ _ _ _ _ _ _ Hpost) as [= -> ->]; done |].
    destruct (chunks_step _ _ _ _ _ _ _ _ _ _ _ _ Hpost eq_refl Hcp) as [calls' Hcp']. by exists o, w2, calls'.
  - destruct (chunks_stop _ _ _ _ (chunk_plan (off + Z.min mc rem) (rem - Z.min mc rem) mc) _ _ _ (Returned rc None) Hpost) as [calls Hcp];
      [done | intros u [=]; congruence | exists (Returned rc None), w1, calls; done].
Qed.

(** First generation: the same sizes, without offsets. *)
Lemma v1_chunks_run fuel d off rem mc last want w :
  valid_dispatch d -> 0 < mc -> 0 <= rem <= Z.of_nat fuel -> rem <= SIZE_MAX ->
  guard_inv w -> tramp_ok (w_tramp w) -> counts_ok w ->
  exists o w' calls, execute_chunks fuel (Some d) rem mc last want w = (o, w') /\
    chunks_post d ((fun p => (0, p.2)) <$> chunk_plan off rem mc) w w' o calls.
Proof.
  intros Hd Hmc. revert off rem last w. induction fuel as [|fuel IH]; intros off rem last w Hrem Hmax Hg Ht Hok;
    cbn [execute_chunks]; (destruct (rem >? 0) eqn:Er; rewrite Z.gtb_ltb in Er; zbool);
    [lia | | |];
    try (replace rem with 0 by lia; exists (Returned 0 (if want then Some last else None)), w, [];
         split; [done|]; rewrite chunk_plan_nil by done; split; try done; by rewrite app_nil_r).
  rewrite bind_run, execute_v1_gen, chunk_size, chunk_plan_cons by lia. rewrite fmap_cons. cbn [snd].
  destruct (execute_gen_run (fun _ => 0) d 0 (Z.min mc rem) w Hd Hg Ht Hok) as (o & w1 & -> & Hpost). cbn [fst snd].
  pose proof (exec_not_fuel _ _ _ _ _ _ _ Hpost) as Hnf.
  set (plan := (fun p : Z * Z => (0, p.2)) <$> chunk_plan (off + Z.min mc rem) (rem - Z.min mc rem) mc).
  destruct o as [rc used| |]; [| |done].
  2: { destruct (chunks_stop _ _ _ _ plan _ _ _ Cancelled Hpost) as [calls Hcp];
       [done | done | exists Cancelled, w1, calls; done]. }
  destruct (rc =? 0) eqn:Erc; cbn [negb]; zbool.
  - subst rc. rewrite !u64_small by (unfold_int; lia).
    destruct (IH (off + Z.min mc rem) (rem - Z.min mc rem) (default last used) w1) as (o & w2 & calls & -> & Hcp);
      [lia | lia | apply Hpost | by rewrite (ep_tramp _ _ _ _ _ _ _ Hpost)
      | unfold counts_ok in *; pose proof (ep_counts _ _ _ _ _ _ _ Hpost) as [= -> ->]; done |].
    destruct (chunks_step _ _ _ _ _ _ _ _ _ _ _ _ Hpost eq_refl Hcp) as [calls' Hcp']. by exists o, w2, calls'.
  - destruct (chunks_stop _ _ _ _ plan _ _ _ (Returned (-1) None) Hpost) as [calls Hcp];
      [done | done | exists (Returned (-1) None), w1, calls; done].
Qed.
End chunking.

(** ** Properties *)

Section properties.
Context `{EV : Env, OT : Others}.

(** Resolution of a valid dispatcher always succeeds and names a
    registered variant no wider than the host and no wider than the selected
    trampoline; a wide answer is given only while admission is open, on the
    owner thread, with the policy satisfied.  A null dispatcher, or one without
    its SSE4.1 variant, is EINVAL. *)
Theorem resolve_names_registered_variant (d : tsd_kernel_dispatch_t) (w : world) :
  valid_dispatch d -> tramp_ok (w_tramp w) ->
  (exists width,
     result (tsd_kernel_dispatch_v2_resolve (Some d) true) w = Returned 0 (Some width) /\
     registered (variants d) width <> 0 /\ width <= host_max d /\
     (width <= t_current_width (w_tramp w) \/ width = SIMD_SSE41) /\
     (width <> SIMD_SSE41 ->
        admission_open w = true /\ is_owner w = true /\ exists e, wide_policy (w <| w_errno := e |>))) /\
  result (tsd_kernel_dispatch_v2_resolve None true) w = Returned (-1) None /\
  w_errno (exec (tsd_kernel_dispatch_v2_resolve None true) w) = EINVAL.
Proof.
  intros Hd Ht. split; [|done]. unfold result, tsd_kernel_dispatch_v2_resolve. cbn [negb]. rewrite bind_run.
  destruct (resolve_run d w Hd Ht) as (width & w' & -> & _ & _ & _ & _ & Hh & Hn & Hle & Hw).
  by exists width.
Qed.


(** C16 (equivalence). Chunked execution of the second generation: invalid
    arguments (null dispatcher, zero chunk size, or a range that would pass
    SIZE_MAX) are EINVAL without a call; otherwise the loop always returns, no
    offset wraps, the kernel calls are a prefix of the reference split of the
    range into consecutive chunks, and a zero return means the whole split was
    executed.  Admission counters are as before. *)
Theorem chunked_v2_follows_plan (d : tsd_kernel_dispatch_t) (off total max_chunk : Z) (want : bool) (w : world) :
  valid_dispatch d -> guard_inv w -> tramp_ok (w_tramp w) -> counts_ok w ->
  in_u64 off -> in_u64 total -> in_u64 max_chunk ->
  let o := result (tsd_kernel_dispatch_v2_execute_chunked (Some d) off total max_chunk want) w in
  let w' := exec (tsd_kernel_dispatch_v2_execute_chunked (Some d) off total max_chunk want) w in
  (max_chunk = 0 \/ SIZE_MAX < off + total -> o = Returned (-1) None /\ w' = w <| w_errno := EINVAL |>) /\
  (0 < max_chunk -> 0 < total -> off + total <= SIZE_MAX ->
     exists calls, w_kernel_log w' = w_kernel_log w ++ calls /\
       (range_of <$> calls) `prefix_of` chunk_plan off total max_chunk /\
       o <> OutOfFuel /\ (forall used, o = Returned 0 used -> range_of <$> calls = chunk_plan off total max_chunk) /\
       counts w' = counts w).
Proof.
  intros Hd Hg Ht Hok Ho Htot Hmc. cbv zeta. unfold result, exec, tsd_kernel_dispatch_v2_execute_chunked. cbn [is_null orb].
  split.
  - intros Hbad. replace ((max_chunk =? 0) || (off >? SIZE_MAX - total)) with true; [done|]. symmetry.
    apply orb_true_iff. rewrite Z.gtb_ltb, Z.eqb_eq, Z.ltb_lt. lia.
  - intros Hm Ht0 Hmax. rewrite (proj2 (Z.eqb_neq max_chunk 0)), Z.gtb_ltb, (proj2 (Z.ltb_ge _ _)) by lia.
    cbn [orb]. rewrite (proj2 (Z.eqb_neq total 0)) by lia.
    destruct (v2_chunks_run (Z.to_nat total) d off total max_chunk SIMD_SSE41 want w) as (o & w' & calls & -> & Hcp);
      try done; try (unfold_int; lia). cbn [fst snd]. exists calls. destruct Hcp. done.
Qed.

(** Chunked execution of the first generation calls its
    kernels with the sizes of the same split, in order, and always returns. *)
Theorem chunked_v1_follows_plan (d : tsd_kernel_dispatch_t) (total max_chunk : Z) (want : bool) (w : world) :
  valid_dispatch d -> guard_inv w -> tramp_ok (w_tramp w) -> counts_ok w ->
  0 < total <= SIZE_MAX -> 0 < max_chunk ->
  let o := result (tsd_kernel_dispatch_execute_chunked (Some d) total max_chunk want) w in
  let w' := exec (tsd_kernel_dispatch_execute_chunked (Some d) total max_chunk want) w in
  exists calls, w_kernel_log w' = w_kernel_log w ++ calls /\
    (kc_items <$> calls) `prefix_of` (snd <$> chunk_plan 0 total max_chunk) /\
    o <> OutOfFuel /\
    (forall used, o = Returned 0 used -> kc_items <$> calls = snd <$> chunk_plan 0 total max_chunk) /\
    counts w' = counts w.
Proof.
  intros Hd Hg Ht Hok Htot Hm. cbv zeta. unfold result, exec, tsd_kernel_dispatch_execute_chunked. cbn [is_null orb].
  rewrite (proj2 (Z.eqb_neq max_chunk 0)), (proj2 (Z.eqb_neq total 0)) by lia.
  destruct (v1_chunks_run (Z.to_nat total) d 0 total max_chunk SIMD_SSE41 want w) as (o & w' & calls & -> & Hcp);
    try done; try lia. cbn [fst snd]. exists calls. destruct Hcp as [Hf _ Hc _ Hl _ Hp Hall].
  assert (Hi : forall l, kc_items <$> l = snd <$> (range_of <$> l)) by (intros l; by rewrite <- list_fmap_compose).
  assert (Hj : snd <$> ((fun p : Z * Z => (0, p.2)) <$> chunk_plan 0 total max_chunk) = snd <$> chunk_plan 0 total max_chunk)
    by (by rewrite <- list_fmap_compose).
  split; [done|]. split; [rewrite Hi, <- Hj; destruct Hp as [k ->]; exists (snd <$> k); apply fmap_app|]. split; [done|]. split; [|done].
  intros used Hu. rewrite Hi, <- Hj. f_equal. by eapply Hall.
Qed.
End properties.

(** Concrete runs. *)

#[export] Instance nobody : Others := fun _ => [].

Definition wide_world : world := exec (tsd_trampoline_state_publish_selection SIMD_AVX2 65600) admitted_world.
Definition example_dispatch : tsd_kernel_dispatch_t := mkDispatch (mkVariants 10 20 0) SIMD_AVX512.

Lemma wide_world_ok : guard_inv wide_world /\ tramp_ok (w_tramp wide_world) /\ counts_ok wide_world.
Proof.
  split; [|split; [|vm_compute; intuition congruence]].
  - split; [split; vm_compute; reflexivity|]. intros _. vm_compute. split; [reflexivity|]. split; [reflexivity | discriminate].
  - split; [reflexivity|]. right. vm_compute. intuition congruence.
Qed.

Lemma resolve_names_registered_variant_witness :
  exists width, result (tsd_kernel_dispatch_v2_resolve (EV := quiet_env) (Some example_dispatch) true) wide_world = Returned 0 (Some width) /\
    registered (variants example_dispatch) width <> 0.
Proof.
  assert (Hd : valid_dispatch example_dispatch) by (split; [discriminate | reflexivity]).
  destruct (resolve_names_registered_variant (EV := quiet_env) example_dispatch wide_world Hd (proj1 (proj2 wide_world_ok)))
    as [(width & H1 & H2 & _) _].
  exists width. split; assumption.
Defined.


Lemma chunked_v2_follows_plan_witness :
  result (tsd_kernel_dispatch_v2_execute_chunked (EV := quiet_env) (Some example_dispatch) 3 10 4 true) wide_world = Returned 0 (Some SIMD_AVX2) /\
  chunk_plan 3 10 4 = [(3, 4); (7, 4); (11, 2)] /\
  exists calls, w_kernel_log (exec (tsd_kernel_dispatch_v2_execute_chunked (EV := quiet_env) (Some example_dispatch) 3 10 4 true) wide_world)
    = w_kernel_log wide_world ++ calls.
Proof.
  split; [vm_compute; reflexivity|]. split; [vm_compute; reflexivity|].
  assert (Hd : valid_dispatch example_dispatch) by (split; [discriminate | reflexivity]).
  destruct wide_world_ok as (Hg & Ht & Hc).
  assert (Hu : forall z, 0 <= z <= 10 -> in_u64 z) by (unfold_int; lia).
  destruct (proj2 (chunked_v2_follows_plan (EV := quiet_env) example_dispatch 3 10 4 true wide_world Hd Hg Ht Hc
    (Hu 3 ltac:(lia)) (Hu 10 ltac:(lia)) (Hu 4 ltac:(lia))) ltac:(lia) ltac:(lia) ltac:(unfold_int; lia))
    as (calls & Hl & _).
  exists calls. exact Hl.
Defined.

Lemma chunked_v1_follows_plan_witness :
  exists calls, w_kernel_log (exec (tsd_kernel_dispatch_execute_chunked (EV := quiet_env) (Some example_dispatch) 10 4 true) wide_world)
    = w_kernel_log wide_world ++ calls.
Proof.
  assert (Hd : valid_dispatch example_dispatch) by (split; [discriminate | reflexivity]).
  destruct wide_world_ok as (Hg & Ht & Hc).
  destruct (chunked_v1_follows_plan (EV := quiet_env) example_dispatch 10 4 true wide_world Hd Hg Ht Hc
    ltac:(unfold_int; lia) ltac:(lia)) as (calls & Hl & _).
  exists calls. exact Hl.
Defined.
