(* ===== verification/PerfMeasure.v ===== *)
(** * PerfMeasure: counter arithmetic of [src/src/thermal_perf.c]

    The measurement context, scaling and ordering of counter groups, assembling
    reads, and [process_measurement]: averages, degradation ratio, history,
    threshold and severity.  Everything here is a pure function; the mode
    machine around it is in [Perf.v]. *)
From S2P Require Import Prelude Float64 Statistics Config.
#[local] Open Scope Z_scope.

Definition FAST_EWMA_SHIFT : Z := 2.
Definition SLOW_EWMA_SHIFT : Z := 5.
Definition MPKI_SCALE : Z := 1000000.
Definition TSD_TEMP_REF_MILLIC : Z := 85000.
Definition TSD_FREQ_REF_MILLI : Z := 1000.
Definition RATIO_HISTORY : nat := TSD_RATIO_HISTORY.

(** ** Samples and results *)

Record tsd_telemetry_sample_t : Type := mkSample {
  ts_temp_available : bool;
  ts_freq_ratio_available : bool;
  ts_package_temp_millic : Z;
  ts_freq_ratio_milli : Z;
  ts_filtered_temp_available : bool;
  ts_filtered_freq_ratio_available : bool;
  ts_filtered_package_temp_millic : Z;
  ts_filtered_freq_ratio_milli : Z;
}.
#[export] Instance eta_sample : Eta tsd_telemetry_sample_t := fun r =>
  mkSample (ts_temp_available r) (ts_freq_ratio_available r) (ts_package_temp_millic r)
    (ts_freq_ratio_milli r) (ts_filtered_temp_available r) (ts_filtered_freq_ratio_available r)
    (ts_filtered_package_temp_millic r) (ts_filtered_freq_ratio_milli r).
Definition zero_sample : tsd_telemetry_sample_t := mkSample false false 0 0 false false 0 0.

(** [tsd_thermal_eval_t]; its telemetry fields are kept together. *)
Record tsd_thermal_eval_t : Type := mkEval {
  ev_performance_available : bool;
  ev_work_normalized : bool;
  ev_work_cost_milli : Z;
  ev_cpi_milli : Z;
  ev_ratio_milli : Z;
  ev_trimmed_ratio_milli : Z;
  ev_llc_mpki_milli : Z;
  ev_severity_milli : Z;
  ev_thermal_severity_milli : Z;
  ev_memory_bound : bool;
  ev_telemetry : tsd_telemetry_sample_t;
}.
#[export] Instance eta_eval : Eta tsd_thermal_eval_t := fun r =>
  mkEval (ev_performance_available r) (ev_work_normalized r) (ev_work_cost_milli r) (ev_cpi_milli r)
    (ev_ratio_milli r) (ev_trimmed_ratio_milli r) (ev_llc_mpki_milli r) (ev_severity_milli r)
    (ev_thermal_severity_milli r) (ev_memory_bound r) (ev_telemetry r).
Definition zero_eval : tsd_thermal_eval_t := mkEval false false 0 0 0 0 0 0 0 false zero_sample.

Record perf_group_read_t : Type := mkGroup {
  gr_nr : Z; gr_time_enabled : Z; gr_time_running : Z; gr_cycles : Z; gr_insns : Z }.
Definition zero_group : perf_group_read_t := mkGroup 0 0 0 0 0.

(** [struct perf_ctx]; a [timespec] is a pair, a callback is whether it is set. *)
Record perf_ctx : Type := mkPerf {
  p_fd_cycles : Z;
  p_fd_insns : Z;
  p_fd_llc_misses : Z;
  p_baseline_cpi : Z;
  p_calibrated_cpi_reference : Z;
  p_baseline_work_cost_milli : Z;
  p_calibrated_work_reference : Z;
  p_baseline_llc_mpki_milli : Z;
  p_slow_cpi : Z;
  p_fast_cpi : Z;
  p_slow_llc_mpki : Z;
  p_fast_llc_mpki : Z;
  p_ratio_history : list Z;
  p_ratio_history_count : nat;
  p_ratio_history_cursor : nat;
  p_ratio_trimmed_milli : Z;
  p_owner_tid : Z;
  p_original_affinity_valid : bool;
  p_pinned_cpu : Z;
  p_monitor_cpu : Z;
  p_last_group_read : perf_group_read_t;
  p_last_group_valid : bool;
  p_last_llc_value : Z;
  p_zero_running_samples : Z;
  p_mode : Z;
  p_hardware_validated : bool;
  p_software_adaptation : bool;
  p_sw_last_timestamp : Z * Z;
  p_sw_last_iterations : Z;
  p_hw_last_iterations : Z;
  p_workload : bool;
  p_fusion_acquired : bool;
  p_mode_entered_at : Z * Z;
  p_timeout_notified : bool;
  p_perf_retry_deadline_ns : Z;
  p_perf_retry_backoff_seconds : Z;
  p_llc_retry_deadline_ns : Z;
  p_llc_retry_backoff_seconds : Z;
  p_force_software : bool;
}.
#[export] Instance eta_perf : Eta perf_ctx := fun r =>
  mkPerf (p_fd_cycles r) (p_fd_insns r) (p_fd_llc_misses r) (p_baseline_cpi r)
    (p_calibrated_cpi_reference r) (p_baseline_work_cost_milli r) (p_calibrated_work_reference r)
    (p_baseline_llc_mpki_milli r) (p_slow_cpi r) (p_fast_cpi r) (p_slow_llc_mpki r)
    (p_fast_llc_mpki r) (p_ratio_history r) (p_ratio_history_count r) (p_ratio_history_cursor r)
    (p_ratio_trimmed_milli r) (p_owner_tid r) (p_original_affinity_valid r) (p_pinned_cpu r)
    (p_monitor_cpu r) (p_last_group_read r) (p_last_group_valid r) (p_last_llc_value r)
    (p_zero_running_samples r) (p_mode r) (p_hardware_validated r) (p_software_adaptation r)
    (p_sw_last_timestamp r) (p_sw_last_iterations r) (p_hw_last_iterations r) (p_workload r)
    (p_fusion_acquired r) (p_mode_entered_at r) (p_timeout_notified r) (p_perf_retry_deadline_ns r)
    (p_perf_retry_backoff_seconds r) (p_llc_retry_deadline_ns r) (p_llc_retry_backoff_seconds r)
    (p_force_software r).

(** [calloc(1, sizeof(perf_ctx_t))] *)
Definition zero_perf : perf_ctx :=
  mkPerf 0 0 0 0 0 0 0 0 0 0 0 0 (replicate RATIO_HISTORY 0) 0 0 0 0 false 0 0 zero_group false 0 0 0
    false false (0, 0) 0 0 false false (0, 0) false 0 0 0 0 false.

(** ** Time and counters *)

(** [time_t] and [long] are 64-bit and hold differences of clock readings. *)
Definition timespec_diff_ns (start stop : Z * Z) : Z :=
  let sec := stop.1 - start.1 in
  let nsec := stop.2 - start.2 in
  let '(sec, nsec) := if nsec <? 0 then (sec - 1, nsec + 1000000000) else (sec, nsec) in
  if sec <? 0 then 0 else u64 (sec * 1000000000 + nsec).

Definition scale_counter (delta time_enabled time_running : Z) : Z :=
  if (time_running =? 0) || (time_enabled =? 0) then 0
  else u64 (delta * time_enabled / time_running).

Definition group_order_valid (before after : perf_group_read_t) : bool :=
  if (gr_nr before <>? 2) || (gr_nr after <>? 2) then false
  else if (gr_time_enabled after <? gr_time_enabled before) || (gr_time_running after <? gr_time_running before) then false
  else if (gr_cycles after <? gr_cycles before) || (gr_insns after <? gr_insns before) then false
  else true.

Definition group_baseline_progress_valid (before after : perf_group_read_t) : bool :=
  if negb (group_order_valid before after) then false
  else (gr_time_enabled after >? gr_time_enabled before) && (gr_time_running after >? gr_time_running before) &&
       (gr_cycles after >? gr_cycles before) && (gr_insns after >? gr_insns before).

(** ** Assembling a read

    The answers the kernel gives to the successive [read] calls of one transfer;
    a list that ends is end of file. *)
Inductive read_answer : Type :=
  | ReadError (err : Z)
  | ReadData (bytes : list Z).

Fixpoint tsd_perf_read_exact (answers : list read_answer) (size : nat) : option (list Z) :=
  match size with
  | O => Some []
  | _ =>
      match answers with
      | [] => None
      | ReadError err :: answers => if err =? EINTR then tsd_perf_read_exact answers size else None
      | ReadData bytes :: answers =>
          let bytes := take size bytes in
          match bytes with
          | [] => None
          | _ => app bytes <$> tsd_perf_read_exact answers (size - length bytes)
          end
      end
  end.

(** Little-endian words. *)
Fixpoint le_word (bytes : list Z) : Z :=
  match bytes with [] => 0 | b :: bytes => u8 b + 256 * le_word bytes end.

Definition word_at (i : nat) (bytes : list Z) : Z := le_word (take 8 (drop (8 * i) bytes)).

Definition decode_group (bytes : list Z) : perf_group_read_t :=
  mkGroup (word_at 0 bytes) (word_at 1 bytes) (word_at 2 bytes) (word_at 3 bytes) (word_at 4 bytes).

(** ** Processing a measurement *)

Definition reset_measurement_domain (ctx : perf_ctx) : perf_ctx :=
  ctx <| p_slow_cpi := 0 |> <| p_fast_cpi := 0 |> <| p_slow_llc_mpki := 0 |> <| p_fast_llc_mpki := 0 |>
      <| p_ratio_history := replicate RATIO_HISTORY 0 |> <| p_ratio_history_count := 0%nat |>
      <| p_ratio_history_cursor := 0%nat |> <| p_ratio_trimmed_milli := 0 |>.

(** [a ? a : b] on an unsigned value. *)
Definition or_else (a b : Z) : Z := if a <>? 0 then a else b.

(** [((__uint128_t)value * 1000 + reference / 2) / reference], stored in 64 bits. *)
Definition ratio_of (value reference : Z) : Z := u64 ((value * 1000 + reference / 2) / reference).

Definition update_averages (ctx : perf_ctx) (current_cpi mpki_milli : Z) : perf_ctx :=
  let ctx := if (p_calibrated_cpi_reference ctx =? 0) && (current_cpi >? 0)
             then ctx <| p_calibrated_cpi_reference := current_cpi |> else ctx in
  let ctx := ctx <| p_fast_cpi ::= fun v => tsd_update_ewma v current_cpi FAST_EWMA_SHIFT |> in
  let ctx := ctx <| p_slow_cpi ::= fun v => tsd_update_ewma v current_cpi SLOW_EWMA_SHIFT |> in
  let ctx := if p_slow_cpi ctx =? 0
             then ctx <| p_slow_cpi := or_else current_cpi (or_else (p_baseline_cpi ctx) 1000) |> else ctx in
  let ctx := ctx <| p_fast_llc_mpki ::= fun v => tsd_update_ewma v mpki_milli FAST_EWMA_SHIFT |> in
  ctx <| p_slow_llc_mpki ::= fun v => tsd_update_ewma v mpki_milli SLOW_EWMA_SHIFT |>.

(** The degradation ratio: per work item when work was completed, else per
    instruction against the larger of the adaptive and calibrated references. *)
Definition performance_ratio (ctx : perf_ctx) (current_cpi work_cost : Z) : Z * perf_ctx :=
  let reference_cpi := or_else (p_slow_cpi ctx) (or_else (p_baseline_cpi ctx) 1) in
  let adaptive := ratio_of current_cpi reference_cpi in
  let absolute_reference := or_else (p_calibrated_cpi_reference ctx) reference_cpi in
  let absolute := ratio_of current_cpi absolute_reference in
  let cpi_ratio := if adaptive >? absolute then adaptive else absolute in
  if work_cost >? 0 then
    let ctx := if p_calibrated_work_reference ctx =? 0
               then ctx <| p_calibrated_work_reference := work_cost |> <| p_baseline_work_cost_milli := work_cost |>
               else ctx in
    (ratio_of work_cost (p_calibrated_work_reference ctx), ctx)
  else (cpi_ratio, ctx).

Definition record_ratio (ctx : perf_ctx) (ratio_milli : Z) : perf_ctx :=
  let ctx := if Nat.ltb (p_ratio_history_count ctx) RATIO_HISTORY
             then ctx <| p_ratio_history_count ::= S |> else ctx in
  let stored := if ratio_milli >? UINT32_MAX then UINT32_MAX else u32 ratio_milli in
  let ctx := ctx <| p_ratio_history ::= <[p_ratio_history_cursor ctx := stored]> |> in
  let ctx := ctx <| p_ratio_history_cursor ::= fun c => Nat.modulo (c + 1) RATIO_HISTORY |> in
  ctx <| p_ratio_trimmed_milli := tsd_compute_trimmed_mean (Some (p_ratio_history ctx)) (p_ratio_history_count ctx) |>.

Definition is_memory_bound (ctx : perf_ctx) (mpki_milli : Z) : bool :=
  let baseline := or_else (p_baseline_llc_mpki_milli ctx) 1000 in
  let reference := or_else (p_slow_llc_mpki ctx) mpki_milli in
  (p_fd_llc_misses ctx >=? 0) && (ratio_of reference baseline >? 2500).

(** The slope penalty lowers the threshold by at most a quarter. *)
Definition slope_threshold (ctx : perf_ctx) (threshold : Z) : Z :=
  if p_fast_cpi ctx >? p_slow_cpi ctx then
    let delta := u64 (p_fast_cpi ctx - p_slow_cpi ctx) in
    let delta_ratio := u64 (delta * 1000 / or_else (p_slow_cpi ctx) 1) in
    let penalty := delta_ratio / 5 in
    let penalty := if penalty >? threshold / 4 then threshold / 4 else penalty in
    if threshold >? penalty then u64 (threshold - penalty) else threshold
  else threshold.

Definition guard_threshold (cfg : option tsd_runtime_config) (memory_bound : bool) (threshold : Z) : Z :=
  match cfg with
  | Some cfg =>
      if memory_bound then
        let guard := if memory_guard_divisor cfg >? 0 then threshold / memory_guard_divisor cfg else 0 in
        let guard := u64 (guard + u64 (memory_guard_offset_milli cfg)) in
        u64 (threshold + guard)
      else threshold
  | None => threshold
  end.

Definition dynamic_threshold (degraded : bool) (ctx : perf_ctx) (cfg : option tsd_runtime_config)
    (memory_bound : bool) : Z :=
  guard_threshold cfg memory_bound
    (slope_threshold ctx (tsd_runtime_config_effective_down_ratio_milli degraded cfg)).

(** [weight] of a signed excess, in 64-bit arithmetic. *)
Definition weighted (excess weight : Z) : Z :=
  if excess >? 0 then u64 (u64 excess * u64 weight) / 1000 else 0.

Definition thermal_severity (cfg : option tsd_runtime_config) (telemetry : option tsd_telemetry_sample_t) : Z :=
  match cfg, telemetry with
  | Some cfg, Some t =>
      let s := if ts_temp_available t && (thermal_temp_weight_milli cfg >? 0)
               then weighted (ts_package_temp_millic t - TSD_TEMP_REF_MILLIC) (thermal_temp_weight_milli cfg) else 0 in
      if ts_freq_ratio_available t && (thermal_ratio_weight_milli cfg >? 0)
      then u64 (s + weighted (TSD_FREQ_REF_MILLI - ts_freq_ratio_milli t) (thermal_ratio_weight_milli cfg)) else s
  | _, _ => 0
  end.

(** Result, context and the filled [*out]. *)
Definition process_measurement (degraded : bool) (ctx : perf_ctx) (out : tsd_thermal_eval_t)
    (current_cpi work_cost mpki_milli : Z) (cfg : option tsd_runtime_config)
    (telemetry : option tsd_telemetry_sample_t) : Z * perf_ctx * tsd_thermal_eval_t :=
  let ctx := update_averages ctx current_cpi mpki_milli in
  let '(ratio_milli, ctx) := performance_ratio ctx current_cpi work_cost in
  let ctx := record_ratio ctx ratio_milli in
  let memory_bound := is_memory_bound ctx mpki_milli in
  let threshold := dynamic_threshold degraded ctx cfg memory_bound in
  let consensus := u64 (ratio_milli + p_ratio_trimmed_milli ctx) / 2 in
  let base := if consensus >? threshold then u64 (consensus - threshold) else 0 in
  let thermal := thermal_severity cfg telemetry in
  let severity := u64 (base + thermal) in
  let out := out <| ev_performance_available := true |> <| ev_work_normalized := work_cost >? 0 |>
                 <| ev_work_cost_milli := work_cost |> <| ev_cpi_milli := current_cpi |>
                 <| ev_ratio_milli := u32 ratio_milli |> <| ev_trimmed_ratio_milli := p_ratio_trimmed_milli ctx |>
                 <| ev_llc_mpki_milli := mpki_milli |> <| ev_severity_milli := severity |>
                 <| ev_thermal_severity_milli := thermal |> <| ev_memory_bound := memory_bound |> in
  let out := match telemetry with Some t => out <| ev_telemetry := t |> | None => out end in
  (if severity >? 0 then 1 else 0, ctx, out).

(** ** Facts *)

(** Rounding to nearest, ties up. *)
Lemma ratio_of_nearest value reference :
  0 < reference -> 0 <= value -> (value * 1000 + reference / 2) / reference <= UINT64_MAX ->
  2 * value * 1000 - reference < 2 * (ratio_of value reference * reference) <= 2 * value * 1000 + reference.
Proof.
  intros Hr Hv Hb. unfold ratio_of.
  assert (Hh : 0 <= reference / 2) by (apply Z.div_pos; lia).
  rewrite u64_small by (unfold_int; split; [apply Z.div_pos; lia | exact Hb]).
  pose proof (Z.div_mod (value * 1000 + reference / 2) reference ltac:(lia)) as Hd.
  pose proof (Z.mod_pos_bound (value * 1000 + reference / 2) reference Hr).
  pose proof (Z.div_mod reference 2 ltac:(lia)). pose proof (Z.mod_pos_bound reference 2 ltac:(lia)).
  set (q := (value * 1000 + reference / 2) / reference) in *. nia.
Qed.

Lemma ratio_of_self v : 0 < v -> ratio_of v v = 1000.
Proof.
  intros Hv. unfold ratio_of.
  assert (Hq : (v * 1000 + v / 2) / v = 1000).
  { symmetry. apply (Z.div_unique _ v 1000 (v / 2)); [|lia]. left.
    split; [apply Z.div_pos; lia | apply Z.div_lt; lia]. }
  rewrite Hq. reflexivity.
Qed.

Lemma ratio_of_range v r : in_u64 (ratio_of v r).
Proof. apply u64_range. Qed.

Lemma or_else_pos a b : 0 <= a -> 0 < b -> 0 < or_else a b.
Proof. unfold or_else. intros. destruct (a =? 0) eqn:E; zbool; cbn; lia. Qed.

(** ** Invariant of the measurement state *)

Record measure_ok (ctx : perf_ctx) : Prop := {
  mo_history : length (p_ratio_history ctx) = RATIO_HISTORY;
  mo_ratios : Forall in_u32 (p_ratio_history ctx);
  mo_count : (p_ratio_history_count ctx <= RATIO_HISTORY)%nat;
  mo_cursor : (p_ratio_history_cursor ctx < RATIO_HISTORY)%nat;
  mo_trimmed : in_u32 (p_ratio_trimmed_milli ctx);
  mo_averages : in_u64 (p_slow_cpi ctx) /\ in_u64 (p_fast_cpi ctx) /\
                in_u64 (p_slow_llc_mpki ctx) /\ in_u64 (p_fast_llc_mpki ctx);
  mo_references : in_u64 (p_baseline_cpi ctx) /\ in_u64 (p_calibrated_cpi_reference ctx) /\
                  in_u64 (p_calibrated_work_reference ctx) /\ in_u64 (p_baseline_llc_mpki_milli ctx);
}.

Lemma measure_ok_reset ctx : measure_ok ctx -> measure_ok (reset_measurement_domain ctx).
Proof.
  intros []. split; cbn -[RATIO_HISTORY]; try done; try (unfold_int; lia);
    try (unfold RATIO_HISTORY, TSD_RATIO_HISTORY; lia).
  repeat constructor; unfold_int; lia.
Qed.

Lemma ewma_u64 prev sample shift : 0 <= shift -> in_u64 prev -> in_u64 sample -> in_u64 (tsd_update_ewma prev sample shift).
Proof. intros Hs Hp Hv. by apply ewma_range. Qed.

Lemma update_averages_ok ctx cpi mpki :
  in_u64 cpi -> in_u64 mpki -> measure_ok ctx ->
  measure_ok (update_averages ctx cpi mpki) /\ 0 < p_slow_cpi (update_averages ctx cpi mpki).
Proof.
  intros Hc Hm [H1 H2 H3 H4 H5 (Ha & Hb & Hd & He) (Hf & Hg & Hh & Hi)].
  pose proof (ewma_u64 (p_slow_cpi ctx) cpi SLOW_EWMA_SHIFT ltac:(unfold SLOW_EWMA_SHIFT; lia) Ha Hc) as Hs.
  pose proof (ewma_u64 (p_fast_cpi ctx) cpi FAST_EWMA_SHIFT ltac:(unfold FAST_EWMA_SHIFT; lia) Hb Hc) as Hfa.
  pose proof (ewma_u64 (p_slow_llc_mpki ctx) mpki SLOW_EWMA_SHIFT ltac:(unfold SLOW_EWMA_SHIFT; lia) Hd Hm) as Hsl.
  pose proof (ewma_u64 (p_fast_llc_mpki ctx) mpki FAST_EWMA_SHIFT ltac:(unfold FAST_EWMA_SHIFT; lia) He Hm) as Hfl.
  assert (Hor : 0 < or_else cpi (or_else (p_baseline_cpi ctx) 1000) /\ in_u64 (or_else cpi (or_else (p_baseline_cpi ctx) 1000))).
  { unfold or_else. unfold_int. destruct (cpi =? 0) eqn:E1, (p_baseline_cpi ctx =? 0) eqn:E2; zbool; cbn; lia. }
  unfold update_averages.
  destruct ((p_calibrated_cpi_reference ctx =? 0) && (cpi >? 0));
    cbn -[tsd_update_ewma or_else FAST_EWMA_SHIFT SLOW_EWMA_SHIFT];
    destruct (tsd_update_ewma (p_slow_cpi ctx) cpi SLOW_EWMA_SHIFT =? 0) eqn:E0; zbool;
    cbn -[tsd_update_ewma or_else FAST_EWMA_SHIFT SLOW_EWMA_SHIFT];
    (split; [split; cbn -[tsd_update_ewma or_else FAST_EWMA_SHIFT SLOW_EWMA_SHIFT]; tauto | unfold_int; lia]).
Qed.

Lemma performance_ratio_ok ctx cpi work :
  in_u64 cpi -> in_u64 work -> measure_ok ctx ->
  in_u64 (performance_ratio ctx cpi work).1 /\ measure_ok (performance_ratio ctx cpi work).2 /\
  p_slow_cpi (performance_ratio ctx cpi work).2 = p_slow_cpi ctx.
Proof.
  intros Hc Hw [H1 H2 H3 H4 H5 H6 (Hf & Hg & Hh & Hi)]. unfold performance_ratio.
  destruct (work >? 0); cbn -[ratio_of or_else].
  - destruct (p_calibrated_work_reference ctx =? 0); cbn -[ratio_of]; (split; [apply ratio_of_range|]);
      split; try done; split; tauto.
  - split; [destruct (_ >? _); apply ratio_of_range|]. split; [|done]. split; tauto.
Qed.

Lemma record_ratio_ok ctx ratio : measure_ok ctx -> measure_ok (record_ratio ctx ratio).
Proof.
  intros [H1 H2 H3 H4 H5 H6 H7]. unfold record_ratio.
  set (stored := if ratio >? UINT32_MAX then UINT32_MAX else u32 ratio).
  assert (Hst : in_u32 stored) by (unfold stored; destruct (_ >? _); [unfold_int; lia | apply u32_range]).
  assert (Hlen : length (<[p_ratio_history_cursor ctx := stored]> (p_ratio_history ctx)) = RATIO_HISTORY)
    by (by rewrite length_insert).
  assert (Hall : Forall in_u32 (<[p_ratio_history_cursor ctx := stored]> (p_ratio_history ctx)))
    by (by apply Forall_insert).
  destruct (Nat.ltb (p_ratio_history_count ctx) RATIO_HISTORY) eqn:E;
    [apply Nat.ltb_lt in E | apply Nat.ltb_ge in E];
    (split; cbn -[RATIO_HISTORY tsd_compute_trimmed_mean Nat.modulo]; try done; try lia;
     [apply Nat.mod_upper_bound; unfold RATIO_HISTORY, TSD_RATIO_HISTORY; lia
     | apply trimmed_mean_range; [done | rewrite Hlen; unfold RATIO_HISTORY, TSD_RATIO_HISTORY in *; lia]]).
Qed.

Lemma slope_threshold_bounds ctx t : in_u64 t -> t - t / 4 <= slope_threshold ctx t <= t.
Proof.
  intros Ht. assert (Hq : 0 <= t / 4 <= t) by (apply div_le_num; unfold_int; lia).
  unfold slope_threshold. destruct (_ >? p_slow_cpi ctx); [|lia].
  set (dr := u64 (_ / _)). pose proof (u64_range (u64 (p_fast_cpi ctx - p_slow_cpi ctx) * 1000 / or_else (p_slow_cpi ctx) 1)) as Hdr. fold dr in Hdr.
  assert (Hp : 0 <= dr / 5) by (apply Z.div_pos; unfold_int; lia).
  destruct (dr / 5 >? t / 4) eqn:E1; rewrite Z.gtb_ltb in E1; zbool;
    match goal with |- context [t >? ?x] => destruct (t >? x) eqn:E2; rewrite Z.gtb_ltb in E2; zbool end;
    rewrite ?u64_small by (unfold_int; lia); lia.
Qed.

(** ** Assembled reads *)

Fixpoint payload (answers : list read_answer) : list Z :=
  match answers with
  | [] => []
  | ReadError _ :: answers => payload answers
  | ReadData bytes :: answers => bytes ++ payload answers
  end.

(** Only interruptions and non-empty pieces. *)
Definition transient (a : read_answer) : Prop :=
  match a with ReadError err => err = EINTR | ReadData bytes => bytes <> [] end.

Lemma read_exact_eq answers size :
  Forall transient answers ->
  tsd_perf_read_exact answers size =
    if Nat.leb size (length (payload answers)) then Some (take size (payload answers)) else None.
Proof.
  intros Ht. revert size. induction Ht as [|a answers Ha _ IH]; intros size.
  - by destruct size.
  - destruct size as [|size]; [by rewrite take_0|].
    destruct a as [err|bytes]; cbn [transient] in Ha.
    + subst err. cbn [tsd_perf_read_exact payload]. change (EINTR =? EINTR) with true. apply IH.
    + cbn [tsd_perf_read_exact payload]. destruct bytes as [|b bytes]; [done|].
      cbn [take]. rewrite IH. cbn [length]. rewrite length_take, length_app. cbn [length].
      destruct (Nat.le_gt_cases (length bytes) size) as [Hle|Hgt].
      * rewrite Nat.min_r by lia. rewrite (take_ge bytes size) by lia.
        replace (S size - S (length bytes))%nat with (size - length bytes)%nat by lia.
        destruct (Nat.leb (size - length bytes) (length (payload answers))) eqn:E.
        -- apply Nat.leb_le in E. rewrite (proj2 (Nat.leb_le _ _)) by lia. cbn. f_equal.
           cbn [app]. f_equal. rewrite take_app. by rewrite (take_ge bytes) by lia.
        -- apply Nat.leb_gt in E. rewrite (proj2 (Nat.leb_gt _ _)) by lia. done.
      * rewrite Nat.min_l by lia. rewrite Nat.sub_diag.
        rewrite (proj2 (Nat.leb_le 0 _)), (proj2 (Nat.leb_le _ _)) by lia.
        cbn. f_equal. f_equal. rewrite take_app_le by lia. by rewrite app_nil_r.
Qed.

Lemma guard_threshold_eq c t :
  in_u64 t -> 0 < memory_guard_divisor c ->
  0 <= t + t / memory_guard_divisor c + memory_guard_offset_milli c <= UINT64_MAX ->
  guard_threshold (Some c) true t = t + t / memory_guard_divisor c + memory_guard_offset_milli c.
Proof.
  intros Ht Hd Hr. unfold guard_threshold. rewrite Z.gtb_ltb, (proj2 (Z.ltb_lt 0 _)) by lia.
  cbv zeta. unfold u64. rewrite !Zplus_mod_idemp_r, Z.add_assoc, Zplus_mod_idemp_r, Z.mod_small by (unfold_int; lia). lia.
Qed.

(** ** Properties *)

(** [tsd_perf_read_exact] retries interrupted reads and joins
    short ones: on a transfer of non-empty pieces it returns exactly the first
    [size] bytes when that many arrive, and fails when the transfer ends
    early. *)
Theorem read_exact_assembles (answers : list read_answer) (size : nat) :
  Forall transient answers ->
  tsd_perf_read_exact answers size =
    if Nat.leb size (length (payload answers)) then Some (take size (payload answers)) else None.
Proof. apply read_exact_eq. Qed.

Lemma read_exact_assembles_witness :
  tsd_perf_read_exact [ReadData [1; 2]; ReadError EINTR; ReadData [3; 4; 5]] 4 = Some [1; 2; 3; 4].
Proof.
  refine (eq_trans (read_exact_assembles [ReadData [1; 2]; ReadError EINTR; ReadData [3; 4; 5]] 4 _) _);
    [repeat constructor; discriminate | reflexivity].
Defined.


(** A context with one calibrated work cost. *)
Definition example_ctx : perf_ctx :=
  reset_measurement_domain (zero_perf <| p_calibrated_work_reference := 500 |> <| p_fd_llc_misses := -1 |>).

Lemma example_ctx_ok : measure_ok example_ctx.
Proof.
  split; try reflexivity; cbn; try (unfold_int; lia); try (unfold RATIO_HISTORY, TSD_RATIO_HISTORY; lia).
  repeat constructor; unfold_int; lia.
Qed.


(** With completed work, the reported degradation ratio is the
    work cost relative to the calibrated cost in thousandths, rounded to
    nearest: exactly 1000 at the calibrated cost, and the first work sample
    calibrates. *)
Theorem work_ratio_is_relative_cost (degraded : bool) (ctx : perf_ctx) (out : tsd_thermal_eval_t)
    (cpi work mpki : Z) (cfg : option tsd_runtime_config) (telemetry : option tsd_telemetry_sample_t) :
  0 < work <= UINT64_MAX -> 0 <= p_calibrated_work_reference ctx ->
  let reference := if p_calibrated_work_reference ctx =? 0 then work else p_calibrated_work_reference ctx in
  (work * 1000 + reference / 2) / reference <= UINT32_MAX ->
  let '(_, ctx', out') := process_measurement degraded ctx out cpi work mpki cfg telemetry in
  p_calibrated_work_reference ctx' = reference /\ ev_work_normalized out' = true /\
  2 * work * 1000 - reference < 2 * (ev_ratio_milli out' * reference) <= 2 * work * 1000 + reference /\
  (work = reference -> ev_ratio_milli out' = 1000).
Proof.
  intros Hw Hr reference Hb. unfold process_measurement.
  assert (Hcal : p_calibrated_work_reference (update_averages ctx cpi mpki) = p_calibrated_work_reference ctx).
  { unfold update_averages. cbv zeta. repeat (match goal with |- context [if ?b then _ else _] => destruct b end); reflexivity. }
  assert (Href : 0 < reference) by (unfold reference; destruct (_ =? 0) eqn:E; zbool; lia).
  destruct (performance_ratio (update_averages ctx cpi mpki) cpi work) as [ratio ctx2] eqn:Ep.
  assert (Hp : ratio = ratio_of work reference /\ p_calibrated_work_reference ctx2 = reference).
  { revert Ep. unfold performance_ratio. rewrite Z.gtb_ltb, (proj2 (Z.ltb_lt 0 work)) by lia.
    rewrite Hcal. unfold reference. destruct (p_calibrated_work_reference ctx =? 0) eqn:E;
      intros Hp; apply pair_equal_spec in Hp as [<- <-]; split; try done; by rewrite Hcal. }
  destruct Hp as [-> Hc2].
  assert (Hc3 : p_calibrated_work_reference (record_ratio ctx2 (ratio_of work reference)) = reference)
    by (unfold record_ratio; by destruct (Nat.ltb _ _)).
  assert (Hrange : 0 <= (work * 1000 + reference / 2) / reference)
    by (apply Z.div_pos; [pose proof (Z.div_pos reference 2); lia | lia]).
  assert (Hu : u32 (ratio_of work reference) = ratio_of work reference)
    by (unfold ratio_of; rewrite u64_small by (unfold_int; lia); apply u32_small; unfold_int; lia).
  assert (Hnear : 2 * work * 1000 - reference < 2 * (ratio_of work reference * reference) <= 2 * work * 1000 + reference)
    by (apply ratio_of_nearest; [done | lia | unfold_int; lia]).
  assert (Hself : work = reference -> ratio_of work reference = 1000) by (intros Heq; rewrite <- Heq; apply ratio_of_self; lia).
  destruct telemetry; cbn -[u64 u32 ratio_of thermal_severity dynamic_threshold is_memory_bound Z.mul Z.gtb];
    rewrite Hu; (split; [done|]); (split; [by rewrite Z.gtb_ltb, (proj2 (Z.ltb_lt 0 work)) by lia|]); done.
Qed.

Lemma work_ratio_is_relative_cost_witness :
  ev_ratio_milli (process_measurement false example_ctx zero_eval 1000 750 0 None None).2 = 1500 /\
  ev_work_normalized (process_measurement false example_ctx zero_eval 1000 750 0 None None).2 = true.
Proof.
  split; [reflexivity|].
  exact (proj1 (proj2 (work_ratio_is_relative_cost false example_ctx zero_eval 1000 750 0 None None
    ltac:(unfold_int; lia) ltac:(cbn; lia) ltac:(vm_compute; congruence)))).
Defined.

(** A rising cost lowers the severity threshold by at most a
    quarter of the configured one, and a memory-bound phase raises it by its
    configured share and offset, without wrapping while the sum fits. *)
Theorem threshold_moves_are_bounded (degraded : bool) (ctx : perf_ctx) (c : tsd_runtime_config) :
  let t := tsd_runtime_config_effective_down_ratio_milli degraded (Some c) in
  in_u64 t ->
  t - t / 4 <= dynamic_threshold degraded ctx (Some c) false <= t /\
  (0 < memory_guard_divisor c -> 0 <= memory_guard_offset_milli c ->
   t + t / memory_guard_divisor c + memory_guard_offset_milli c <= UINT64_MAX ->
   let base := dynamic_threshold degraded ctx (Some c) false in
   dynamic_threshold degraded ctx (Some c) true = base + base / memory_guard_divisor c + memory_guard_offset_milli c).
Proof.
  intros t Ht. unfold dynamic_threshold. fold t. cbn [guard_threshold].
  pose proof (slope_threshold_bounds ctx t Ht) as Hb. split; [done|]. intros Hd Ho Hm.
  set (s := slope_threshold ctx t) in *.
  assert (Hq : 0 <= t / 4 <= t) by (apply div_le_num; unfold_int; lia).
  assert (Hsd : 0 <= s / memory_guard_divisor c <= t / memory_guard_divisor c)
    by (split; [apply Z.div_pos; lia | apply Z.div_le_mono; lia]).
  cbv zeta. apply guard_threshold_eq; unfold_int; lia.
Qed.

Lemma threshold_moves_are_bounded_witness :
  dynamic_threshold false example_ctx (Some k_default_config) true = 1500 + 1500 / 5 + 200.
Proof.
  exact (proj2 (threshold_moves_are_bounded false example_ctx k_default_config ltac:(cbn; unfold_int; lia))
    ltac:(cbn; lia) ltac:(cbn; lia) ltac:(vm_compute; congruence)).
Defined.

(** A ratio above 32 bits is stored saturated in the history but
    reported truncated: at a work cost of 2^32 thousandths of the reference the
    evaluation carries the ratio 0 beside a trimmed ratio of UINT32_MAX. *)
Theorem reported_ratio_truncates :
  let out := (process_measurement false (example_ctx <| p_calibrated_work_reference := 1000 |>) zero_eval
                1000 4294967296 0 None None).2 in
  ev_ratio_milli out = 0 /\ ev_trimmed_ratio_milli out = UINT32_MAX.
Proof. split; vm_compute; reflexivity. Qed.
