(* ===== verification/Perf.v ===== *)
(** * Perf: the counter mode machine of [src/src/thermal_perf.c]

    A context moves between hardware counters and a degraded software mode.
    [pstate] is the process, the context and the perf descriptors that are open
    (ghost state, to say that none leaks and none is closed twice).  The telemetry helper and the
    fusion bridge are reached through the interface [Telemetry]. *)
From S2P Require Import Prelude Float64 Statistics Config World Cpu TrampolineState Guard Trampoline Dispatch PerfMeasure.
#[local] Open Scope Z_scope.

Definition PERF_INITIAL_BACKOFF_SEC : Z := 5.
Definition PERF_MAX_BACKOFF_SEC : Z := 60.
Definition PERF_ZERO_RUNNING_LIMIT : Z := 3.
Definition GROUP_READ_SIZE : nat := 40.
Definition WORD_READ_SIZE : nat := 8.

(** Answers of the operating system, by call index. *)
Class PerfEnv : Type := mkPerfEnv {
  pe_open : nat -> Z;                     (** [perf_event_open]: a descriptor or a negative value *)
  pe_ioctl : nat -> Z;
  pe_read : nat -> list read_answer;      (** the [read] calls of one transfer *)
  pe_affinity : nat -> option (list Z);   (** [sched_getaffinity]: allowed CPUs in order *)
  pe_getcpu : nat -> Z;
  pe_setaffinity : nat -> Z;
  pe_work : nat -> Z;                     (** work items completed during an observation *)
  pe_force_software : bool;               (** [TSD_FAKE_PERF] set and not "0" *)
}.

(** What this component uses of the telemetry helper and the fusion bridge. *)
Class Telemetry : Type := mkTelemetry {
  tsd_telemetry_helper_init : Z -> M Z;
  tsd_telemetry_helper_destroy : M unit;
  tsd_telemetry_helper_sample : M (Z * tsd_telemetry_sample_t);
  tsd_telemetry_fusion_start_for_cpu : Z -> M Z;
  tsd_telemetry_fusion_stop : M unit;
  tsd_telemetry_fusion_sample : M (Z * tsd_telemetry_sample_t);
}.

Record pstate : Type := mkPstate {
  ps_world : world;
  ps_ctx : perf_ctx;
  ps_fds : list Z;          (** open perf descriptors *)
  ps_bad_close : bool;      (** a descriptor that was not open has been closed *)
}.
#[export] Instance eta_pstate : Eta pstate := fun r =>
  mkPstate (ps_world r) (ps_ctx r) (ps_fds r) (ps_bad_close r).

Abbreviation PM := (ST pstate).

Definition lift {A} (m : M A) : PM A :=
  fun s => let '(a, w) := m (ps_world s) in (a, s <| ps_world := w |>).
Definition ctx_get {A} (f : perf_ctx -> A) : PM A := gets (fun s => f (ps_ctx s)).
Definition ctx_set (f : perf_ctx -> perf_ctx) : PM unit := modify (fun s => s <| ps_ctx ::= f |>).

Fixpoint remove_fd (fd : Z) (fds : list Z) : list Z :=
  match fds with [] => [] | x :: fds => if x =? fd then fds else x :: remove_fd fd fds end.

(** [close(fd)] of a descriptor that is not negative. *)
Definition close_fd (fd : Z) : PM unit :=
  when (fd >=? 0)
    (modify (fun s => s <| ps_bad_close ::= orb (negb (bool_decide (fd ∈ ps_fds s))) |>
                        <| ps_fds ::= remove_fd fd |>)).

(** The return value and [*out] of an evaluation. *)
Abbreviation evaluation := (Z * tsd_thermal_eval_t)%type.

(** ** Degraded overlay ([src/src/thermal_config.c]) *)

Definition tsd_runtime_config_is_degraded : M bool := gets w_degraded.
Definition tsd_runtime_config_reset_dynamic_state : M unit := modify (fun w => w <| w_degraded := false |>).
(** The compare-exchange only decides whether the change is logged. *)
Definition tsd_runtime_config_enter_degraded_mode : M unit :=
  degraded <- gets w_degraded ;;
  if degraded then ret tt else modify (fun w => w <| w_degraded := true |>).
Definition tsd_runtime_config_exit_degraded_mode : M unit :=
  degraded <- gets w_degraded ;;
  if negb degraded then ret tt else modify (fun w => w <| w_degraded := false |>).

Section perf.
Context `{EV : Env, PE : PerfEnv, TL : Telemetry}.

Definition publish_perf_state (healthy : bool) : PM unit :=
  ctx <- ctx_get id ;;
  lift (tsd_observability_update_perf
          (Some (mkPerfTelemetry (p_mode ctx) healthy (p_pinned_cpu ctx) (p_monitor_cpu ctx)))).

Definition clock_gettime : PM (option (Z * Z)) := lift (ext env_clock).

Definition monotonic_now_ns : PM Z :=
  now <- clock_gettime ;;
  match now with
  | None => ret 0
  | Some (sec, nsec) => ret (u64 (sec * 1000000000 + nsec))
  end.

(** ** Retry schedules *)

Definition reset_perf_retry : PM unit :=
  ctx_set (fun c => c <| p_perf_retry_deadline_ns := 0 |> <| p_perf_retry_backoff_seconds := PERF_INITIAL_BACKOFF_SEC |>).

(** [now > UINT64_MAX - delta ? UINT64_MAX : now + delta] *)
Definition deadline_after (now delay : Z) : Z :=
  let delta := delay * 1000000000 in
  if now >? UINT64_MAX - delta then UINT64_MAX else now + delta.

(** The doubled backoff, at most the maximum. *)
Definition next_backoff (backoff : Z) : Z :=
  if backoff <? PERF_MAX_BACKOFF_SEC then
    let next := backoff * 2 in if next >? PERF_MAX_BACKOFF_SEC then PERF_MAX_BACKOFF_SEC else next
  else backoff.

Definition schedule_perf_retry : PM unit :=
  ctx <- ctx_get id ;;
  if p_force_software ctx then ret tt
  else
    when (p_perf_retry_backoff_seconds ctx <=? 0)
      (ctx_set (fun c => c <| p_perf_retry_backoff_seconds := PERF_INITIAL_BACKOFF_SEC |>)) ;;;
    backoff <- ctx_get p_perf_retry_backoff_seconds ;;
    let delay := if backoff >? PERF_MAX_BACKOFF_SEC then PERF_MAX_BACKOFF_SEC else backoff in
    now <- monotonic_now_ns ;;
    ctx_set (fun c => c <| p_perf_retry_deadline_ns := deadline_after now delay |>) ;;;
    ctx_set (fun c => c <| p_perf_retry_backoff_seconds := next_backoff backoff |>).

Definition perf_retry_due : PM bool :=
  ctx <- ctx_get id ;;
  if p_force_software ctx then ret false
  else if p_perf_retry_deadline_ns ctx =? 0 then ret true
  else now <- monotonic_now_ns ;; ret (now >=? p_perf_retry_deadline_ns ctx).

Definition reset_llc_retry : PM unit :=
  ctx_set (fun c => c <| p_llc_retry_deadline_ns := 0 |> <| p_llc_retry_backoff_seconds := PERF_INITIAL_BACKOFF_SEC |>).

Definition schedule_llc_retry : PM unit :=
  ctx <- ctx_get id ;;
  if p_force_software ctx then ret tt
  else
    when (p_llc_retry_backoff_seconds ctx <=? 0)
      (ctx_set (fun c => c <| p_llc_retry_backoff_seconds := PERF_INITIAL_BACKOFF_SEC |>)) ;;;
    backoff <- ctx_get p_llc_retry_backoff_seconds ;;
    let delay := if backoff >? PERF_MAX_BACKOFF_SEC then PERF_MAX_BACKOFF_SEC else backoff in
    now <- monotonic_now_ns ;;
    ctx_set (fun c => c <| p_llc_retry_deadline_ns := deadline_after now delay |>) ;;;
    ctx_set (fun c => c <| p_llc_retry_backoff_seconds := next_backoff backoff |>).

Definition llc_retry_due : PM bool :=
  ctx <- ctx_get id ;;
  if p_force_software ctx || (p_mode ctx <>? TSD_PERF_MODE_HARDWARE) then ret false
  else if p_llc_retry_deadline_ns ctx =? 0 then ret true
  else now <- monotonic_now_ns ;; ret (now >=? p_llc_retry_deadline_ns ctx).

(** ** Modes *)

(** Entering software mode: revoke admission, publish, then drop the selection
    to SSE4.1. *)
Definition enter_software : PM unit :=
  lift tsd_runtime_wide_admission_close ;;;
  ctx_set (fun c => c <| p_calibrated_cpi_reference := 0 |> <| p_calibrated_work_reference := 0 |>
                      <| p_hardware_validated := false |>) ;;;
  lift (tsd_metrics_increment TSD_METRIC_PERF_FALLBACKS) ;;;
  lift tsd_runtime_config_enter_degraded_mode ;;;
  publish_perf_state false ;;;
  width <- lift tsd_trampoline_state_current_width ;;
  if width <>? SIMD_SSE41 then lift (tsd_trampoline_patch SIMD_SSE41) ;;; ret tt else ret tt.

Definition perf_set_mode (mode : Z) : PM unit :=
  previous <- ctx_get p_mode ;;
  if previous =? mode then
    validated <- ctx_get p_hardware_validated ;;
    publish_perf_state ((mode =? TSD_PERF_MODE_HARDWARE) && validated)
  else
    ctx_set reset_measurement_domain ;;;
    ctx_set (fun c => c <| p_mode := mode |>) ;;;
    now <- clock_gettime ;;
    ctx_set (fun c => match now with Some t => c <| p_mode_entered_at := t |> | None => c end) ;;;
    ctx_set (fun c => c <| p_timeout_notified := false |>) ;;;
    if mode =? TSD_PERF_MODE_SOFTWARE then enter_software
    else if mode =? TSD_PERF_MODE_HARDWARE then
      validated <- ctx_get p_hardware_validated ;;
      when ((previous =? TSD_PERF_MODE_SOFTWARE) && validated)
        (lift (tsd_metrics_increment TSD_METRIC_PERF_RECOVERIES)) ;;;
      lift tsd_runtime_config_exit_degraded_mode ;;;
      publish_perf_state validated
    else
      ctx_set (fun c => c <| p_hardware_validated := false |>) ;;;
      publish_perf_state false.

Definition perf_software_timeout_exceeded (timeout_sec : Z) : PM bool :=
  ctx <- ctx_get id ;;
  if (timeout_sec <=? 0) || (p_mode ctx <>? TSD_PERF_MODE_SOFTWARE) then ret false
  else
    now <- clock_gettime ;;
    let elapsed_ns := timespec_diff_ns (p_mode_entered_at ctx) (default (0, 0) now) in
    ret (elapsed_ns >=? timeout_sec * 1000000000).

(** ** Descriptors *)

(** [perf_event_open_sys]: [None] leaves an errno. *)
Definition perf_event_open_sys : PM (option Z) :=
  fd <- lift (ext pe_open) ;;
  if fd <? 0 then err <- lift (ext env_errno) ;; lift (set_errno err) ;;; ret None
  else modify (fun s => s <| ps_fds ::= cons fd |>) ;;; ret (Some fd).

Definition perf_ioctl (fd : Z) (required : bool) : PM Z :=
  if fd <? 0 then ret (if required then -1 else 0)
  else rc <- lift (ext pe_ioctl) ;; ret (if rc <>? 0 then -1 else 0).

Definition close_perf_events : PM unit :=
  ctx <- ctx_get id ;;
  close_fd (p_fd_cycles ctx) ;;;
  close_fd (p_fd_insns ctx) ;;;
  close_fd (p_fd_llc_misses ctx) ;;;
  ctx_set (fun c => c <| p_fd_cycles := -1 |> <| p_fd_insns := -1 |> <| p_fd_llc_misses := -1 |>
                      <| p_last_group_valid := false |> <| p_last_llc_value := 0 |> <| p_zero_running_samples := 0 |>).

(** [close(ctx->fd_llc_misses); ctx->fd_llc_misses = -1; schedule_llc_retry(ctx)] *)
Definition drop_llc : PM unit :=
  fd <- ctx_get p_fd_llc_misses ;;
  close_fd fd ;;;
  ctx_set (fun c => c <| p_fd_llc_misses := -1 |>) ;;;
  schedule_llc_retry.

Definition open_llc_event : PM Z :=
  fd <- ctx_get p_fd_llc_misses ;;
  when (fd >=? 0) (close_fd fd ;;; ctx_set (fun c => c <| p_fd_llc_misses := -1 |>)) ;;;
  r <- perf_event_open_sys ;;
  match r with
  | None => schedule_llc_retry ;;; ret (-1)
  | Some fd => ctx_set (fun c => c <| p_fd_llc_misses := fd |>) ;;; reset_llc_retry ;;; ret 0
  end.

Definition open_perf_events : PM Z :=
  close_perf_events ;;;
  r <- perf_event_open_sys ;;
  match r with
  | None => ret (-1)
  | Some fd_cycles =>
      ctx_set (fun c => c <| p_fd_cycles := fd_cycles |>) ;;;
      r <- perf_event_open_sys ;;
      match r with
      | None =>
          err <- lift (gets w_errno) ;;
          close_perf_events ;;; lift (set_errno err) ;;; ret (-1)
      | Some fd_insns =>
          ctx_set (fun c => c <| p_fd_insns := fd_insns |>) ;;;
          open_llc_event ;;;
          reset_perf_retry ;;; ret 0
      end
  end.

Definition enable_optional_llc : PM Z :=
  fd <- ctx_get p_fd_llc_misses ;;
  if fd <? 0 then ret 0
  else
    rc <- perf_ioctl fd false ;;
    rc <- (if rc <>? 0 then ret rc else perf_ioctl fd false) ;;
    if rc <>? 0 then drop_llc ;;; ret (-1) else ret 0.

Definition enable_perf_events_strict : PM Z :=
  ctx <- ctx_get id ;;
  if (p_fd_cycles ctx <? 0) || (p_fd_insns ctx <? 0) then lift (fail EBADF)
  else
    rc <- perf_ioctl (p_fd_cycles ctx) true ;;
    rc <- (if rc <>? 0 then ret rc else perf_ioctl (p_fd_cycles ctx) true) ;;
    if rc <>? 0 then ret (-1) else enable_optional_llc ;;; ret 0.

Definition perf_fail_closed : PM unit :=
  close_perf_events ;;;
  ctx_set (fun c => c <| p_hardware_validated := false |> <| p_software_adaptation := false |>) ;;;
  schedule_perf_retry ;;;
  perf_set_mode TSD_PERF_MODE_SOFTWARE.

(** ** Life of a context *)

(** The first two allowed CPUs; the affinity calls only log on failure. *)
Definition select_runtime_cpus : PM unit :=
  tid <- lift current_tid ;;
  ctx_set (fun c => c <| p_owner_tid := tid |>) ;;;
  allowed <- lift (ext pe_affinity) ;;
  when (negb (is_null allowed)) (ctx_set (fun c => c <| p_original_affinity_valid := true |>)) ;;;
  cpus <- (match default [] allowed with
           | [] => current <- lift (ext pe_getcpu) ;;
                   let first := if current >=? 0 then current else 0 in ret (first, first)
           | [first] => ret (first, first)
           | first :: second :: _ => ret (first, second)
           end) ;;
  ctx_set (fun c => c <| p_pinned_cpu := cpus.1 |> <| p_monitor_cpu := cpus.2 |>) ;;;
  lift (ext pe_setaffinity) ;;; ret tt.

Definition restore_owner_affinity : PM unit :=
  ctx <- ctx_get id ;;
  if negb (p_original_affinity_valid ctx) || (p_owner_tid ctx <=? 0) then ret tt
  else lift (ext pe_setaffinity) ;;; ctx_set (fun c => c <| p_original_affinity_valid := false |>).

Definition fetch_fused_telemetry : PM tsd_telemetry_sample_t :=
  acquired <- ctx_get p_fusion_acquired ;;
  let* (rc, out) := (if acquired then lift tsd_telemetry_fusion_sample else ret (-1, zero_sample)) in
  if rc =? 0 then ret out
  else
    let* (_, out) := lift tsd_telemetry_helper_sample in
    let out := if ts_temp_available out && negb (ts_filtered_temp_available out)
               then out <| ts_filtered_temp_available := true |>
                        <| ts_filtered_package_temp_millic := ts_package_temp_millic out |> else out in
    ret (if ts_freq_ratio_available out && negb (ts_filtered_freq_ratio_available out)
         then out <| ts_filtered_freq_ratio_available := true |>
                  <| ts_filtered_freq_ratio_milli := ts_freq_ratio_milli out |> else out).

(** [false] when no memory was found for the context. *)
Definition tsd_perf_init (workload : bool) : PM bool :=
  found <- lift (ext env_calloc) ;;
  if negb found then ret false
  else
    ctx_set (fun _ => zero_perf <| p_fd_cycles := -1 |> <| p_fd_insns := -1 |> <| p_fd_llc_misses := -1 |>
                                <| p_mode := TSD_PERF_MODE_NONE |> <| p_workload := workload |>) ;;;
    reset_perf_retry ;;;
    reset_llc_retry ;;;
    now <- clock_gettime ;;
    ctx_set (fun c => match now with Some t => c <| p_mode_entered_at := t |> | None => c end) ;;;
    select_runtime_cpus ;;;
    publish_perf_state false ;;;
    cpu <- ctx_get p_pinned_cpu ;;
    lift (tsd_telemetry_helper_init cpu) ;;;
    rc <- lift (tsd_telemetry_fusion_start_for_cpu cpu) ;;
    ctx_set (fun c => c <| p_fusion_acquired := rc =? 0 |>) ;;;
    ctx_set (fun c => c <| p_force_software := pe_force_software |>) ;;;
    if pe_force_software then perf_set_mode TSD_PERF_MODE_SOFTWARE ;;; ret true
    else
      rc <- open_perf_events ;;
      if rc <>? 0 then
        schedule_perf_retry ;;; perf_set_mode TSD_PERF_MODE_SOFTWARE ;;; ret true
      else
        ctx_set (fun c => c <| p_hardware_validated := false |>) ;;;
        perf_set_mode TSD_PERF_MODE_HARDWARE ;;; ret true.

Definition tsd_perf_enable : PM unit :=
  mode <- ctx_get p_mode ;;
  if mode <>? TSD_PERF_MODE_HARDWARE then ret tt
  else rc <- enable_perf_events_strict ;; when (rc <>? 0) perf_fail_closed.

Definition tsd_perf_disable : PM unit :=
  ctx <- ctx_get id ;;
  if p_mode ctx <>? TSD_PERF_MODE_HARDWARE then ret tt
  else perf_ioctl (p_fd_cycles ctx) false ;;; perf_ioctl (p_fd_llc_misses ctx) false ;;; ret tt.

Definition tsd_perf_cleanup : PM unit :=
  tsd_perf_disable ;;;
  close_perf_events ;;;
  lift tsd_telemetry_helper_destroy ;;;
  acquired <- ctx_get p_fusion_acquired ;;
  when acquired (lift tsd_telemetry_fusion_stop) ;;;
  ctx_set (fun c => c <| p_mode := TSD_PERF_MODE_NONE |> <| p_hardware_validated := false |>) ;;;
  publish_perf_state false ;;;
  restore_owner_affinity.

(** ** Baselines *)

Definition read_group (fd : Z) : PM (option perf_group_read_t) :=
  if fd <? 0 then ret None
  else answers <- lift (ext pe_read) ;;
       ret (decode_group <$> tsd_perf_read_exact answers GROUP_READ_SIZE).

Definition read_word (fd : Z) : PM (option Z) :=
  if fd <? 0 then ret None
  else answers <- lift (ext pe_read) ;;
       ret (word_at 0 <$> tsd_perf_read_exact answers WORD_READ_SIZE).

(** On the owner thread the workload (or a local probe) runs, on another thread
    the owner is given time; either way some work items may complete. *)
Definition create_baseline_observation : PM unit :=
  items <- lift (ext pe_work) ;; lift (tsd_workload_iterations_add items).

(** Work items between two readings of the counter. *)
Definition work_delta (now last : Z) : Z := if now >=? last then now - last else 0.

(** [(uint64_t)(((__uint128_t)cycles * 1000u) / work)], 0 without work *)
Definition work_cost (cycles work : Z) : Z := if work <>? 0 then u64 (cycles * 1000 / work) else 0.

(** The measurements a validated baseline stores. *)
Definition store_baseline (cfg : option tsd_runtime_config) (rd_after : perf_group_read_t)
    (llc_after delta_cycles delta_insns delta_llc work_before work_after : Z) (c : perf_ctx) : perf_ctx :=
  let c := c <| p_baseline_cpi := u64 (delta_cycles * 1000) / delta_insns |> in
  let c := c <| p_calibrated_cpi_reference := or_else (p_baseline_cpi c) 1 |> in
  let c := c <| p_baseline_work_cost_milli := work_cost delta_cycles (work_delta work_after work_before) |> in
  let c := c <| p_calibrated_work_reference := p_baseline_work_cost_milli c |> in
  let c := c <| p_hw_last_iterations := work_after |> in
  let c := c <| p_baseline_llc_mpki_milli := or_else (u64 (delta_llc * MPKI_SCALE) / delta_insns) 1000 |> in
  let c := c <| p_slow_cpi := or_else (p_baseline_cpi c) 1000 |> <| p_fast_cpi := or_else (p_baseline_cpi c) 1000 |> in
  let c := c <| p_slow_llc_mpki := p_baseline_llc_mpki_milli c |> <| p_fast_llc_mpki := p_baseline_llc_mpki_milli c |> in
  let c := c <| p_ratio_history_count := 0%nat |> <| p_ratio_history_cursor := 0%nat |> in
  let c := c <| p_ratio_trimmed_milli := from_option (fun cfg => u32 (down_ratio_milli cfg)) 1500 cfg |> in
  c <| p_last_group_read := rd_after |> <| p_last_group_valid := true |> <| p_last_llc_value := llc_after |>
    <| p_zero_running_samples := 0 |>.

(** The end of a baseline: scale the deltas of two valid reads and store them. *)
Definition finish_baseline (cfg : option tsd_runtime_config) (rd_before rd_after : perf_group_read_t)
    (llc_fd llc_before llc_after work_before work_after : Z) : PM Z :=
  let enabled_delta := u64 (gr_time_enabled rd_after - gr_time_enabled rd_before) in
  let running_delta := u64 (gr_time_running rd_after - gr_time_running rd_before) in
  let delta_cycles := scale_counter (u64 (gr_cycles rd_after - gr_cycles rd_before)) enabled_delta running_delta in
  let delta_insns := scale_counter (u64 (gr_insns rd_after - gr_insns rd_before)) enabled_delta running_delta in
  if (delta_cycles =? 0) || (delta_insns =? 0) then ret (-1) else
  let delta_llc := if (llc_fd >=? 0) && (llc_after >=? llc_before) then llc_after - llc_before else 0 in
  ctx_set (store_baseline cfg rd_after llc_after delta_cycles delta_insns delta_llc work_before work_after) ;;;
  fetch_fused_telemetry ;;;
  ret 0.

Definition measure_hardware_baseline (cfg : option tsd_runtime_config) : PM Z :=
  fd <- ctx_get p_fd_cycles ;;
  before <- read_group fd ;;
  match before with
  | None => ret (-1)
  | Some rd_before =>
  if gr_nr rd_before <>? 2 then ret (-1) else
  llc_fd <- ctx_get p_fd_llc_misses ;;
  llc_before <- read_word llc_fd ;;
  let llc_before := default 0 llc_before in
  work_before <- lift tsd_workload_iterations_load ;;
  create_baseline_observation ;;;
  work_after <- lift tsd_workload_iterations_load ;;
  after <- read_group fd ;;
  match after with
  | None => ret (-1)
  | Some rd_after =>
  if gr_nr rd_after <>? 2 then ret (-1) else
  if negb (group_baseline_progress_valid rd_before rd_after) then ret (-1) else
  llc_after <- read_word llc_fd ;;
  let llc_after := if llc_fd >=? 0 then default llc_before llc_after else 0 in
  finish_baseline cfg rd_before rd_after llc_fd llc_before llc_after work_before work_after
  end end.

(** The surrogate of software mode: elapsed time per work item; [loops] is the
    number of calls made when the counter did not move. *)
Definition measure_software_baseline (cfg : option tsd_runtime_config) : PM unit :=
  before_iters <- lift tsd_workload_iterations_load ;;
  start <- clock_gettime ;;
  create_baseline_observation ;;;
  stop <- clock_gettime ;;
  after_iters <- lift tsd_workload_iterations_load ;;
  let delta_iters := if after_iters >? before_iters then after_iters - before_iters else 100000 in
  let elapsed_ns := or_else (timespec_diff_ns (default (0, 0) start) (default (0, 0) stop)) 1 in
  let surrogate_cpi := or_else (if delta_iters =? 0 then 1000 else u64 (elapsed_ns * 1000) / delta_iters) 1000 in
  ctx_set (fun c => c <| p_baseline_cpi := surrogate_cpi |> <| p_calibrated_cpi_reference := surrogate_cpi |>
                      <| p_baseline_llc_mpki_milli := 1000 |>
                      <| p_slow_cpi := surrogate_cpi |> <| p_fast_cpi := surrogate_cpi |>
                      <| p_slow_llc_mpki := 1000 |> <| p_fast_llc_mpki := 1000 |>
                      <| p_ratio_history_count := 0%nat |> <| p_ratio_history_cursor := 0%nat |>
                      <| p_ratio_trimmed_milli := from_option (fun cfg => u32 (down_ratio_milli cfg)) 1500 cfg |>
                      <| p_last_group_valid := false |> <| p_last_llc_value := 0 |>
                      <| p_software_adaptation := true |>) ;;;
  iterations <- lift tsd_workload_iterations_load ;;
  ctx_set (fun c => c <| p_sw_last_iterations := iterations |>) ;;;
  now <- clock_gettime ;;
  ctx_set (fun c => match now with Some t => c <| p_sw_last_timestamp := t |> | None => c end).

Definition tsd_perf_measure_baseline (cfg : option tsd_runtime_config) : PM unit :=
  mode <- ctx_get p_mode ;;
  if mode =? TSD_PERF_MODE_SOFTWARE then measure_software_baseline cfg
  else if mode <>? TSD_PERF_MODE_HARDWARE then ret tt
  else
    rc <- enable_perf_events_strict ;;
    rc <- (if rc <>? 0 then ret rc else measure_hardware_baseline cfg) ;;
    if rc <>? 0 then perf_fail_closed
    else
      ctx_set (fun c => c <| p_hardware_validated := true |>) ;;;
      publish_perf_state true.

(** ** Recovery *)

Definition try_recover_hardware : PM bool :=
  mode <- ctx_get p_mode ;;
  due <- (if mode <>? TSD_PERF_MODE_SOFTWARE then ret false else perf_retry_due) ;;
  if negb due then ret false
  else
    rc <- open_perf_events ;;
    if rc <>? 0 then schedule_perf_retry ;;; publish_perf_state false ;;; ret false
    else
      rc <- enable_perf_events_strict ;;
      rc <- (if rc <>? 0 then ret rc
             else cfg <- lift tsd_runtime_config_active_snapshot ;; measure_hardware_baseline (Some cfg)) ;;
      if rc <>? 0 then
        close_perf_events ;;;
        ctx_set (fun c => c <| p_hardware_validated := false |>) ;;;
        schedule_perf_retry ;;; publish_perf_state false ;;; ret false
      else
        ctx_set (fun c => c <| p_hardware_validated := true |> <| p_software_adaptation := false |>) ;;;
        reset_perf_retry ;;;
        perf_set_mode TSD_PERF_MODE_HARDWARE ;;;
        ret true.

Definition try_recover_llc : PM unit :=
  ctx <- ctx_get id ;;
  due <- (if (p_mode ctx <>? TSD_PERF_MODE_HARDWARE) || (p_fd_llc_misses ctx >=? 0) then ret false
          else llc_retry_due) ;;
  if negb due then ret tt
  else
    rc <- open_llc_event ;;
    if rc <>? 0 then ret tt
    else
      rc <- enable_optional_llc ;;
      if rc <>? 0 then ret tt
      else
        fd <- ctx_get p_fd_llc_misses ;;
        seed <- read_word fd ;;
        match seed with
        | None => drop_llc
        | Some seed => ctx_set (fun c => c <| p_last_llc_value := seed |>) ;;; reset_llc_retry
        end.

(** ** Evaluation *)

Definition severe (out : tsd_thermal_eval_t) : evaluation := (1, out <| ev_severity_milli := 1 |>).

Definition measurement (out : tsd_thermal_eval_t) (cost work_cost mpki : Z)
    (cfg : option tsd_runtime_config) (telemetry : tsd_telemetry_sample_t) : PM evaluation :=
  ctx <- ctx_get id ;;
  degraded <- lift tsd_runtime_config_is_degraded ;;
  let '(rc, ctx, out) := process_measurement degraded ctx out cost work_cost mpki cfg (Some telemetry) in
  ctx_set (fun _ => ctx) ;;; ret (rc, out).

Definition handle_no_running_progress (out : tsd_thermal_eval_t) : PM evaluation :=
  ctx_set (fun c => c <| p_zero_running_samples ::= fun n => i32 (n + 1) |>) ;;;
  samples <- ctx_get p_zero_running_samples ;;
  if samples <? PERF_ZERO_RUNNING_LIMIT then ret (0, out)
  else perf_fail_closed ;;; ret (severe out).

Definition evaluate_software (out : tsd_thermal_eval_t) (cfg : option tsd_runtime_config) : PM evaluation :=
  recovered <- try_recover_hardware ;;
  if recovered then ret (0, out)
  else
    adapting <- ctx_get p_software_adaptation ;;
    now_iters <- lift tsd_workload_iterations_load ;;
    now <- clock_gettime ;;
    if negb adapting then
      ctx_set (fun c => c <| p_sw_last_iterations := now_iters |>) ;;;
      ctx_set (fun c => match now with Some t => c <| p_sw_last_timestamp := t |> | None => c end) ;;;
      ctx_set (fun c => c <| p_software_adaptation := true |>) ;;;
      ret (0, out)
    else
      let now := default (0, 0) now in
      ctx <- ctx_get id ;;
      let delta_iters := work_delta now_iters (p_sw_last_iterations ctx) in
      let delta_ns := timespec_diff_ns (p_sw_last_timestamp ctx) now in
      ctx_set (fun c => c <| p_sw_last_iterations := now_iters |> <| p_sw_last_timestamp := now |>) ;;;
      if (delta_iters =? 0) || (delta_ns =? 0) then ret (0, out)
      else
        let software_cost_milli := or_else (u64 (delta_ns * 1000) / delta_iters) 1 in
        telemetry <- fetch_fused_telemetry ;;
        r <- measurement out software_cost_milli 0 0 cfg telemetry ;;
        ret (r.1, r.2 <| ev_performance_available := false |>).

(** [ctx->last_group_read = rd_now; ctx->last_llc_value = llc_now; publish_perf_state(ctx, 1);] *)
Definition advance_cursors (rd_now : perf_group_read_t) (llc_now : Z) : PM unit :=
  ctx_set (fun c => c <| p_last_group_read := rd_now |> <| p_last_llc_value := llc_now |>) ;;;
  publish_perf_state true.

(** A sample with progress in enabled time, running time and instructions. *)
Definition evaluate_progress (out : tsd_thermal_eval_t) (cfg : option tsd_runtime_config)
    (rd_now : perf_group_read_t) (llc_now enabled_delta running_delta : Z) : PM evaluation :=
  ctx <- ctx_get id ;;
  let last := p_last_group_read ctx in
  let delta_cycles := scale_counter (u64 (gr_cycles rd_now - gr_cycles last)) enabled_delta running_delta in
  let delta_insns := scale_counter (u64 (gr_insns rd_now - gr_insns last)) enabled_delta running_delta in
  if (delta_cycles =? 0) || (delta_insns =? 0) then handle_no_running_progress out
  else
    let current_cpi := u64 (delta_cycles * 1000) / delta_insns in
    now_work <- lift tsd_workload_iterations_load ;;
    let delta_work := work_delta now_work (p_hw_last_iterations ctx) in
    ctx_set (fun c => c <| p_hw_last_iterations := now_work |>) ;;;
    let current_work_cost_milli := work_cost delta_cycles delta_work in
    if negb (p_workload ctx) && (delta_work =? 0) then
      advance_cursors rd_now llc_now ;;;
      telemetry <- fetch_fused_telemetry ;;
      ret (0, out <| ev_performance_available := false |> <| ev_work_normalized := false |>
                  <| ev_work_cost_milli := 0 |> <| ev_telemetry := telemetry |>)
    else
      let delta_llc := if (p_fd_llc_misses ctx >=? 0) && (llc_now >=? p_last_llc_value ctx)
                       then llc_now - p_last_llc_value ctx else 0 in
      let mpki_milli := u64 (delta_llc * MPKI_SCALE) / delta_insns in
      advance_cursors rd_now llc_now ;;;
      telemetry <- fetch_fused_telemetry ;;
      measurement out current_cpi current_work_cost_milli mpki_milli cfg telemetry.

Definition evaluate_group (out : tsd_thermal_eval_t) (cfg : option tsd_runtime_config)
    (rd_now : perf_group_read_t) : PM evaluation :=
  fd <- ctx_get p_fd_llc_misses ;;
  llc <- read_word fd ;;
  when ((fd >=? 0) && is_null llc) drop_llc ;;;
  let llc_now := default 0 llc in
  ctx <- ctx_get id ;;
  if negb (p_last_group_valid ctx) then
    ctx_set (fun c => c <| p_last_group_valid := true |>) ;;;
    advance_cursors rd_now llc_now ;;; ret (0, out)
  else if negb (group_order_valid (p_last_group_read ctx) rd_now) then
    perf_fail_closed ;;; ret (severe out)
  else
    let last := p_last_group_read ctx in
    let enabled_delta := u64 (gr_time_enabled rd_now - gr_time_enabled last) in
    let running_delta := u64 (gr_time_running rd_now - gr_time_running last) in
    if (running_delta =? 0) || (enabled_delta =? 0) then handle_no_running_progress out
    else
      ctx_set (fun c => c <| p_zero_running_samples := 0 |>) ;;;
      if u64 (gr_insns rd_now - gr_insns last) =? 0 then advance_cursors rd_now llc_now ;;; ret (0, out)
      else evaluate_progress out cfg rd_now llc_now enabled_delta running_delta.

Definition tsd_perf_evaluate (cfg : option tsd_runtime_config) : PM evaluation :=
  let out := zero_eval in
  ctx <- ctx_get id ;;
  if p_mode ctx =? TSD_PERF_MODE_SOFTWARE then evaluate_software out cfg
  else if (p_mode ctx <>? TSD_PERF_MODE_HARDWARE) || negb (p_hardware_validated ctx) then ret (severe out)
  else
    try_recover_llc ;;;
    fd <- ctx_get p_fd_cycles ;;
    rd <- read_group fd ;;
    match rd with
    | None => perf_fail_closed ;;; ret (severe out)
    | Some rd_now =>
        if gr_nr rd_now <>? 2 then perf_fail_closed ;;; ret (severe out)
        else evaluate_group out cfg rd_now
    end.

Definition tsd_perf_get_mode : PM Z := ctx_get p_mode.
Definition tsd_perf_get_pinned_cpu : PM Z := ctx_get p_pinned_cpu.
Definition tsd_perf_get_monitor_cpu : PM Z := ctx_get p_monitor_cpu.
Definition tsd_perf_upgrades_allowed : PM bool :=
  ctx_get (fun c => (p_mode c =? TSD_PERF_MODE_HARDWARE) && p_hardware_validated c).

Definition tsd_perf_check_software_timeout (timeout_sec : Z) : PM bool :=
  notified <- ctx_get p_timeout_notified ;;
  if (timeout_sec <=? 0) || notified then ret false
  else
    exceeded <- perf_software_timeout_exceeded timeout_sec ;;
    if negb exceeded then ret false
    else
      ctx_set (fun c => c <| p_timeout_notified := true |>) ;;;
      lift (tsd_metrics_increment TSD_METRIC_SOFTWARE_TIMEOUT_ESCALATIONS) ;;;
      ret true.
End perf.
