(* ===== verification/PerfMode.v ===== *)
(** * PerfMode: invariants of the counter mode machine

    Descriptor accounting, the frame of each operation of [Perf.v], the
    invariant that ties mode, validation, descriptors, degraded policy and
    published state together, and the properties that follow: no leak, closed
    admission without validated counters, evaluation that fails closed, and
    transactional recovery. *)
From S2P Require Import Prelude Float64 Statistics Config World Cpu TrampolineState Guard Trampoline Dispatch PerfMeasure Perf.
#[local] Open Scope Z_scope.

(** ** Descriptor accounting *)

Lemma remove_fd_perm fd l : fd ∈ l -> l ≡ₚ fd :: remove_fd fd l.
Proof.
  induction l as [|x l IH]; cbn; intros Hin; [by apply elem_of_nil in Hin|].
  destruct (x =? fd) eqn:E; zbool; [by subst|].
  apply elem_of_cons in Hin as [->|Hin]; [done|]. rewrite (IH Hin) at 1. apply perm_swap.
Qed.

(** The descriptors the context names. *)
Definition fd_slots (c : perf_ctx) : list Z := [p_fd_cycles c; p_fd_insns c; p_fd_llc_misses c].
Definition open_fds (fds : list Z) : list Z := List.filter (fun fd => fd >=? 0) fds.

(** Every open descriptor is named once, and nothing else was ever closed. *)
Definition fds_ok (s : pstate) : Prop :=
  ps_fds s ≡ₚ open_fds (fd_slots (ps_ctx s)) /\ ps_bad_close s = false.

(** Closing a descriptor that is accounted for. *)
Lemma close_fd_run fd rest s :
  ps_fds s ≡ₚ open_fds (fd :: rest) -> ps_bad_close s = false ->
  exists l, close_fd fd s = (tt, s <| ps_fds := l |>) /\ l ≡ₚ open_fds rest.
Proof.
  unfold close_fd, open_fds. cbn [List.filter]. intros Hp Hb.
  destruct (fd >=? 0) eqn:E; cbn [when].
  - exists (remove_fd fd (ps_fds s)).
    assert (Hin : fd ∈ ps_fds s) by (rewrite Hp; apply list_elem_of_here).
    split.
    + unfold modify. rewrite bool_decide_true by done. destruct s as [? ? ? b]; cbn in Hb; by subst b.
    + apply (Permutation_cons_inv (a := fd)). by rewrite <- Hp, <- remove_fd_perm.
  - exists (ps_fds s). split; [by destruct s | done].
Qed.

Definition slot_eqs (c : perf_ctx) (a b d : Z) : Prop :=
  p_fd_cycles c = a /\ p_fd_insns c = b /\ p_fd_llc_misses c = d.

Section frames.
Context `{EV : Env, PE : PerfEnv, TL : Telemetry}.

(** ** Frames

    [core] is what the mode machine keeps: slots, mode, validation, the open
    descriptors, the degraded overlay and the published mode and health. *)
Definition published_of (w : world) := (o_perf_mode (w_obs w), o_perf_counters_healthy (w_obs w)).
Definition core (s : pstate) :=
  (fd_slots (ps_ctx s), p_mode (ps_ctx s), p_hardware_validated (ps_ctx s), ps_fds s, ps_bad_close s,
   w_degraded (ps_world s), published_of (ps_world s)).

Definition world_keeps (w w' : world) : Prop :=
  (system_inv w -> system_inv w') /\ (published_of w, w_degraded w) = (published_of w', w_degraded w').
#[export] Instance world_keeps_preorder : PreOrder world_keeps.
Proof.
  split; [by split|]. intros a b c [H1 E1] [H2 E2]. split; [auto | by rewrite E1].
Qed.

(** A step that leaves [core] and the invariant of the process alone. *)
Definition quiet (s s' : pstate) : Prop :=
  core s = core s' /\ (system_inv (ps_world s) -> system_inv (ps_world s')).
#[export] Instance quiet_preorder : PreOrder quiet.
Proof. split; [by split|]. intros a b c [E1 H1] [E2 H2]. split; [by rewrite E1 | auto]. Qed.

Lemma quiet_lift {A} (m : M A) : respects world_keeps m -> respects quiet (lift m).
Proof.
  intros Hm s. unfold lift. pose proof (Hm (ps_world s)) as H. destruct (m (ps_world s)) as [a w].
  destruct H as [Hi [= Hp Hh Hd]]. cbn in Hp, Hh, Hd. unfold quiet, core, published_of. cbn.
  split; [by rewrite Hp, Hh, Hd | done].
Qed.

Lemma quiet_set f :
  (forall c, (fd_slots (f c), p_mode (f c), p_hardware_validated (f c)) =
             (fd_slots c, p_mode c, p_hardware_validated c)) ->
  respects quiet (ctx_set f).
Proof.
  intros Hf s. unfold quiet, core. cbn. pose proof (Hf (ps_ctx s)) as H.
  apply pair_equal_spec in H as [H Hv]. apply pair_equal_spec in H as [H Hm].
  by rewrite H, Hv, Hm.
Qed.

Lemma quiet_get {A} (f : perf_ctx -> A) : respects quiet (ctx_get f).
Proof. by intros s. Qed.

Lemma keeps_same {A} (m : M A) :
  (forall w, exists n e i m', (snd (m w)) = w <| w_calls := n |> <| w_errno := e |> <| w_workload_iterations := i |> <| w_metrics := m' |>) ->
  respects world_keeps m.
Proof.
  intros Hm w. destruct (Hm w) as (n & e & i & m' & ->). split; [|done].
  intros [Hg Ht]. split; [|done]. eapply guard_inv_frame; [..|exact Hg]; done.
Qed.

Ltac same_world w :=
  exists (w_calls w), (w_errno w), (w_workload_iterations w), (w_metrics w); by destruct w.

Lemma keeps_ext {A} (f : nat -> A) : respects world_keeps (ext f).
Proof. apply keeps_same. intros w. exists (S (w_calls w)), (w_errno w), (w_workload_iterations w), (w_metrics w). by destruct w. Qed.

Lemma keeps_gets {A} (f : world -> A) : respects world_keeps (gets f).
Proof. apply keeps_same. intros w. same_world w. Qed.

Lemma keeps_errno e : respects world_keeps (set_errno e).
Proof. apply keeps_same. intros w. exists (w_calls w), e, (w_workload_iterations w), (w_metrics w). by destruct w. Qed.

Lemma keeps_fail e : respects world_keeps (fail e).
Proof. apply keeps_same. intros w. exists (w_calls w), e, (w_workload_iterations w), (w_metrics w). by destruct w. Qed.

Lemma keeps_metric i : respects world_keeps (tsd_metrics_increment i).
Proof.
  apply keeps_same. intros w.
  exists (w_calls w), (w_errno w), (w_workload_iterations w), (alter (fun c => u64 (c + 1)) i (w_metrics w)). by destruct w.
Qed.

Lemma keeps_work n : respects world_keeps (tsd_workload_iterations_add n).
Proof.
  unfold tsd_workload_iterations_add. destruct (n =? 0); [apply respects_ret; exact _|].
  apply keeps_same. intros w.
  exists (w_calls w), (w_errno w), (u64 (w_workload_iterations w + n)), (w_metrics w). by destruct w.
Qed.

(** What the rest of the process promises this component: telemetry calls keep
    the invariant of the process, the published counter state, the overlay and
    the life-cycle flags, and they move the selection only to SSE4.1. *)
Definition selection_narrows (w w' : world) : Prop :=
  t_current_width (w_tramp w') = t_current_width (w_tramp w) \/ t_current_width (w_tramp w') = SIMD_SSE41.

Definition telemetry_keeps (w w' : world) : Prop :=
  world_keeps w w' /\ (system_inv w -> selection_narrows w w') /\
  (w_running w', stopping_of w') = (w_running w, stopping_of w).
#[export] Instance telemetry_keeps_preorder : PreOrder telemetry_keeps.
Proof.
  split.
  - intros w. split; [apply (PreOrder_Reflexive w)|]. split; [by left | done].
  - intros w1 w2 w3 (A1 & B1 & D1) (A2 & B2 & D2). split; [by transitivity w2|].
    split; [|congruence]. intros Hi. unfold selection_narrows in *.
    destruct (B2 (proj1 A1 Hi)) as [-> | ->]; [by apply B1 | by right].
Qed.

(** A telemetry call that does not touch the selection. *)
Lemma telemetry_keeps_intro {A} (m : M A) :
  respects world_keeps m ->
  (forall w, w_tramp (m w).2 = w_tramp w /\
     (w_running (m w).2, stopping_of (m w).2) = (w_running w, stopping_of w)) ->
  respects telemetry_keeps m.
Proof.
  intros Hk Hr w. destruct (Hr w) as (Et & Hf). split; [apply Hk|].
  split; [intros _; left; by rewrite Et | done].
Qed.

Lemma telemetry_world {A} (m : M A) : respects telemetry_keeps m -> respects world_keeps m.
Proof. intros Hm w. apply Hm. Qed.

Class TelemetryLaws : Prop := mkTelemetryLaws {
  helper_init_keeps cpu : respects telemetry_keeps (tsd_telemetry_helper_init cpu);
  helper_destroy_keeps : respects telemetry_keeps tsd_telemetry_helper_destroy;
  helper_sample_keeps : respects telemetry_keeps tsd_telemetry_helper_sample;
  fusion_start_keeps cpu : respects telemetry_keeps (tsd_telemetry_fusion_start_for_cpu cpu);
  fusion_stop_keeps : respects telemetry_keeps tsd_telemetry_fusion_stop;
  fusion_sample_keeps : respects telemetry_keeps tsd_telemetry_fusion_sample;
}.

Definition locks_ok : Prop := forall n, env_lock n = 0.

(** Publishing the counter state: it takes effect whenever the writer lock is
    available, and always keeps the invariant. *)
Lemma update_perf_run t w :
  system_inv w ->
  let w' := exec (tsd_observability_update_perf (Some t)) w in
  system_inv w' /\ w_degraded w' = w_degraded w /\
  (locks_ok -> published_of w' = (pt_mode t, pt_counters_healthy t)).
Proof.
  intros [Hg Ht]. cbv zeta. unfold exec. split; [|split].
  - split; [apply (run_guard_op_inv (GUpdatePerf (Some t)) w Hg)|].
    assert (Htr : w_tramp (tsd_observability_update_perf (Some t) w).2 = w_tramp w); [|by rewrite Htr].
    pose proof (run_guard_op_frame (GUpdatePerf (Some t)) w) as Hf. by injection Hf.
  - pose proof (run_guard_op_frame (GUpdatePerf (Some t)) w) as Hf. by injection Hf.
  - intros HL. cbn [tsd_observability_update_perf]. unfold safety_update. rewrite bind_run.
    assert (Hrc : (tsd_runtime_safety_write_enter w).1 = 0).
    { unfold tsd_runtime_safety_write_enter, pthread_mutex_lock. rewrite !bind_run. cbn [ext fst snd].
      by rewrite HL. }
    rewrite Hrc. cbn [Z.eqb negb]. rewrite !bind_run.
    match goal with |- context [tsd_runtime_safety_write_leave ?x] => pose proof (patch_frame_obs _ _ (patch_frame_write_leave x)) as Hobs end.
    unfold published_of. by rewrite <- Hobs.
Qed.

Context `{TLL : !TelemetryLaws}.

Create HintDb perf discriminated.

#[local] Hint Resolve keeps_ext keeps_gets keeps_errno keeps_fail keeps_metric keeps_work : perf.
#[local] Hint Extern 1 (respects world_keeps _) =>
  apply telemetry_world; solve [apply helper_init_keeps | apply helper_destroy_keeps | apply helper_sample_keeps
    | apply fusion_start_keeps | apply fusion_stop_keeps | apply fusion_sample_keeps] : perf.

Ltac quiet_step :=
  match goal with
  | |- respects _ (lift _) => apply quiet_lift; solve [auto with perf nocore]
  | |- respects _ (ctx_get _) => apply quiet_get
  | |- respects _ (ctx_set _) => apply quiet_set; solve [reflexivity | by intros []; case_match | by intro; case_match]
  | _ => respects_step
  end.
Ltac quiet_steps := repeat first [solve [auto with perf nocore] | quiet_step].

Lemma quiet_clock : respects quiet clock_gettime.
Proof. unfold clock_gettime. quiet_steps. Qed.
#[local] Hint Resolve quiet_clock : perf.

Lemma quiet_now : respects quiet monotonic_now_ns.
Proof. unfold monotonic_now_ns. quiet_steps. Qed.
#[local] Hint Resolve quiet_now : perf.

Lemma quiet_schedule_perf : respects quiet schedule_perf_retry.
Proof. unfold schedule_perf_retry. quiet_steps. Qed.
Lemma quiet_schedule_llc : respects quiet schedule_llc_retry.
Proof. unfold schedule_llc_retry. quiet_steps. Qed.
Lemma quiet_reset_perf : respects quiet reset_perf_retry.
Proof. unfold reset_perf_retry. quiet_steps. Qed.
Lemma quiet_reset_llc : respects quiet reset_llc_retry.
Proof. unfold reset_llc_retry. quiet_steps. Qed.
Lemma quiet_perf_due : respects quiet perf_retry_due.
Proof. unfold perf_retry_due. quiet_steps. Qed.
Lemma quiet_llc_due : respects quiet llc_retry_due.
Proof. unfold llc_retry_due. quiet_steps. Qed.
Lemma quiet_ioctl fd required : respects quiet (perf_ioctl fd required).
Proof. unfold perf_ioctl. quiet_steps. Qed.
Lemma quiet_read_group fd : respects quiet (read_group fd).
Proof. unfold read_group. quiet_steps. Qed.
Lemma quiet_read_word fd : respects quiet (read_word fd).
Proof. unfold read_word. quiet_steps. Qed.
Lemma quiet_observation : respects quiet create_baseline_observation.
Proof. unfold create_baseline_observation. quiet_steps. Qed.
Lemma quiet_fetch : respects quiet fetch_fused_telemetry.
Proof. unfold fetch_fused_telemetry. quiet_steps. Qed.
Lemma quiet_timeout t : respects quiet (perf_software_timeout_exceeded t).
Proof. unfold perf_software_timeout_exceeded. quiet_steps. Qed.
#[local] Hint Resolve quiet_schedule_perf quiet_schedule_llc quiet_reset_perf quiet_reset_llc
  quiet_perf_due quiet_llc_due quiet_ioctl quiet_read_group quiet_read_word quiet_observation quiet_fetch
  quiet_timeout : perf.

Definition slots_and_mode (c : perf_ctx) := (fd_slots c, p_mode c, p_hardware_validated c).

Lemma averages_slots c cpi mpki : slots_and_mode (update_averages c cpi mpki) = slots_and_mode c.
Proof.
  unfold update_averages. destruct (_ && _); match goal with |- context [if ?b then _ else _] => destruct b end; done.
Qed.
Lemma ratio_slots c cpi work : slots_and_mode (performance_ratio c cpi work).2 = slots_and_mode c.
Proof. unfold performance_ratio. destruct (work >? 0); [|done]. by destruct (_ =? 0). Qed.
Lemma record_slots c r : slots_and_mode (record_ratio c r) = slots_and_mode c.
Proof. unfold record_ratio. by destruct (Nat.ltb _ _). Qed.

Lemma process_keeps_slots degraded c out cpi work mpki cfg t :
  let c' := (process_measurement degraded c out cpi work mpki cfg t).1.2 in
  slots_and_mode c' = slots_and_mode c.
Proof.
  cbv zeta. unfold process_measurement. pose proof (ratio_slots (update_averages c cpi mpki) cpi work) as H.
  destruct (performance_ratio _ _ _) as [r c']. cbn [fst snd] in *.
  by rewrite record_slots, H, averages_slots.
Qed.

Lemma quiet_measurement out cost work mpki cfg t : respects quiet (measurement out cost work mpki cfg t).
Proof.
  intros s. unfold measurement. rewrite bind_run. cbn [ctx_get gets fst snd]. rewrite bind_run.
  cbn [lift tsd_runtime_config_is_degraded gets fst snd].
  pose proof (process_keeps_slots (w_degraded (ps_world s)) (ps_ctx s) out cost work mpki cfg (Some t)) as H.
  unfold id. destruct (process_measurement _ _ _ _ _ _ _ _) as [[rc c] o]. cbn in H. unfold slots_and_mode in H.
  apply pair_equal_spec in H as [H Hv]. apply pair_equal_spec in H as [H Hm].
  unfold quiet, core. cbn. by rewrite H, Hv, Hm.
Qed.

Lemma quiet_finish cfg before after fd lb la wb wa : respects quiet (finish_baseline cfg before after fd lb la wb wa).
Proof. unfold finish_baseline. quiet_steps. Qed.
#[local] Hint Resolve quiet_finish : perf.

Lemma quiet_hardware_baseline cfg : respects quiet (measure_hardware_baseline cfg).
Proof. unfold measure_hardware_baseline. quiet_steps. Qed.
Lemma quiet_software_baseline cfg : respects quiet (measure_software_baseline cfg).
Proof. unfold measure_software_baseline. quiet_steps. Qed.
#[local] Hint Resolve quiet_measurement quiet_hardware_baseline quiet_software_baseline : perf.

(** ** Opening and closing *)

(** A step that may change descriptors only. *)
Definition beside_fds (s : pstate) :=
  (p_mode (ps_ctx s), p_hardware_validated (ps_ctx s), w_degraded (ps_world s), published_of (ps_world s)).
Definition fd_step (s s' : pstate) : Prop :=
  beside_fds s = beside_fds s' /\ (system_inv (ps_world s) -> system_inv (ps_world s')).
#[export] Instance fd_step_preorder : PreOrder fd_step.
Proof. split; [by split|]. intros a b c [E1 H1] [E2 H2]. split; [by rewrite E1 | auto]. Qed.

Lemma quiet_eqs s s' :
  quiet s s' ->
  fd_slots (ps_ctx s') = fd_slots (ps_ctx s) /\ ps_fds s' = ps_fds s /\ ps_bad_close s' = ps_bad_close s /\ beside_fds s' = beside_fds s.
Proof. intros [Hc _]. unfold core in Hc. unfold beside_fds. repeat split; congruence. Qed.

Lemma quiet_fd_step s s' : quiet s s' -> fd_step s s'.
Proof.
  intros Hq. split; [symmetry; apply (quiet_eqs s s' Hq) | apply Hq].
Qed.

Lemma quiet_is_fd_step {A} (m : PM A) : respects quiet m -> respects fd_step m.
Proof. intros Hm s. by apply quiet_fd_step. Qed.

Lemma quiet_fds_ok s s' : quiet s s' -> fds_ok s -> fds_ok s'.
Proof. intros (H1 & H2 & H3 & _)%quiet_eqs. unfold fds_ok. by rewrite H1, H2, H3. Qed.

Lemma quiet_slots s s' a b d : quiet s s' -> slot_eqs (ps_ctx s) a b d -> slot_eqs (ps_ctx s') a b d.
Proof. intros ([= H1 H2 H3] & _)%quiet_eqs. unfold slot_eqs. by rewrite H1, H2, H3. Qed.

Lemma fds_ok_intro s a b d :
  slot_eqs (ps_ctx s) a b d -> ps_fds s ≡ₚ open_fds [a; b; d] -> ps_bad_close s = false -> fds_ok s.
Proof. unfold fds_ok, fd_slots. intros (-> & -> & ->). done. Qed.

(** The slots in any order. *)
Lemma open_fds_rotate a b d : open_fds [a; b; d] ≡ₚ open_fds [d; a; b].
Proof. unfold open_fds. cbn. destruct (a >=? 0), (b >=? 0), (d >=? 0); solve_Permutation. Qed.

Lemma close_events_run s :
  fds_ok s ->
  let s' := exec close_perf_events s in
  slot_eqs (ps_ctx s') (-1) (-1) (-1) /\ ps_fds s' = [] /\ ps_bad_close s' = false /\ fd_step s s'.
Proof.
  intros [Hp Hb]. cbv zeta. unfold exec, close_perf_events. rewrite bind_run. cbn [ctx_get gets fst snd id].
  rewrite bind_run. destruct (close_fd_run _ _ s Hp Hb) as (l1 & -> & H1). cbn [fst snd].
  rewrite bind_run. match goal with |- context [close_fd _ ?x] => destruct (close_fd_run _ _ x H1 Hb) as (l2 & -> & H2) end.
  cbn [fst snd]. rewrite bind_run.
  match goal with |- context [close_fd _ ?x] => destruct (close_fd_run _ _ x H2 Hb) as (l3 & -> & H3) end.
  symmetry in H3. apply Permutation_nil in H3. by subst l3.
Qed.

Lemma open_sys_run s :
  exists s', quiet s s' /\
    (perf_event_open_sys s = (None, s') \/
     exists fd, 0 <= fd /\ perf_event_open_sys s = (Some fd, s' <| ps_fds ::= cons fd |>)).
Proof.
  unfold perf_event_open_sys. rewrite bind_run.
  assert (Hq : quiet s (lift (ext pe_open) s).2) by (apply quiet_lift, keeps_ext).
  destruct (lift (ext pe_open) s) as [fd s1]. cbn [fst snd] in *.
  destruct (fd <? 0) eqn:E; zbool.
  - eexists. split; [|left; reflexivity]. etransitivity; [exact Hq|].
    assert (Hr : respects quiet (err <- lift (ext env_errno);; lift (set_errno err);;; ret (@None Z))) by quiet_steps.
    apply Hr.
  - exists s1. split; [exact Hq|]. right. by exists fd.
Qed.

Lemma drop_llc_run s a b d :
  fds_ok s -> slot_eqs (ps_ctx s) a b d ->
  let s' := exec drop_llc s in
  fds_ok s' /\ slot_eqs (ps_ctx s') a b (-1) /\ fd_step s s'.
Proof.
  intros [Hp Hb] Hs. destruct Hs as (Ha & Hbb & Hd). cbv zeta. unfold exec, drop_llc. rewrite bind_run. cbn [ctx_get gets fst snd].
  rewrite bind_run. unfold fd_slots in Hp. rewrite open_fds_rotate in Hp.
  destruct (close_fd_run _ _ s Hp Hb) as (l & -> & Hl). cbn [fst snd]. rewrite bind_run.
  set (s1 := (ctx_set _ _).2).
  assert (Hok : fds_ok s1).
  { apply (fds_ok_intro s1 a b (-1)); [done | | done]. rewrite open_fds_rotate. cbn. by rewrite Hl, Ha, Hbb. }
  pose proof (quiet_schedule_llc s1) as Hq. split; [by apply (quiet_fds_ok s1)|].
  split; [by apply (quiet_slots s1)|]. transitivity s1; [done | by apply quiet_fd_step].
Qed.

Lemma open_llc_run s a b :
  fds_ok s -> p_fd_cycles (ps_ctx s) = a -> p_fd_insns (ps_ctx s) = b ->
  let s' := exec open_llc_event s in
  fds_ok s' /\ (exists d, slot_eqs (ps_ctx s') a b d) /\ fd_step s s'.
Proof.
  intros [Hp Hb] Ha Hbb. cbv zeta. unfold exec, open_llc_event. rewrite bind_run. cbn [ctx_get gets fst snd].
  rewrite bind_run. set (s1 := (when _ _ s).2).
  assert (H1 : ps_fds s1 ≡ₚ open_fds [a; b] /\ ps_bad_close s1 = false /\ fd_step s s1 /\
               exists d, slot_eqs (ps_ctx s1) a b d /\ d < 0).
  { unfold fd_slots in Hp. rewrite open_fds_rotate, Ha, Hbb in Hp. unfold s1.
    destruct (p_fd_llc_misses (ps_ctx s) >=? 0) eqn:E; cbn [when].
    - rewrite bind_run. destruct (close_fd_run _ _ s Hp Hb) as (l & -> & Hl). cbn [fst snd].
      split; [done|]. split; [done|]. split; [done|]. exists (-1). by split.
    - assert (Hn : p_fd_llc_misses (ps_ctx s) < 0) by (zbool; lia). split; [|split; [done|split; [done|exists (p_fd_llc_misses (ps_ctx s)); by split]]].
      rewrite Hp. unfold open_fds. cbn [List.filter]. by rewrite E. }
  clearbody s1. destruct H1 as (Hp1 & Hb1 & Hst & d & Hd & Hneg). rewrite bind_run.
  assert (Hclosed : fds_ok s1).
  { apply (fds_ok_intro s1 a b d); [done| |done]. rewrite open_fds_rotate. unfold open_fds at 1. cbn [List.filter].
    by rewrite Z.geb_leb, (proj2 (Z.leb_gt 0 d)) by lia. }
  destruct (open_sys_run s1) as (s2 & Hq & [->|(fd & Hfd & ->)]); cbn [fst snd]; rewrite bind_run.
  - pose proof (quiet_schedule_llc s2) as Hq2. assert (Hq3 : quiet s1 (schedule_llc_retry s2).2) by (by etransitivity).
    cbn [ret snd]. split; [by apply (quiet_fds_ok s1)|]. split; [exists d; by apply (quiet_slots s1)|].
    transitivity s1; [done | by apply quiet_fd_step].
  - set (s3 := (ctx_set _ _).2). rewrite bind_run. cbn [ret snd].
    pose proof (quiet_slots _ _ _ _ _ Hq Hd) as (E1 & E2 & _).
    assert (Hs3 : slot_eqs (ps_ctx s3) a b fd) by done.
    assert (Hf : ps_fds s2 = ps_fds s1 /\ ps_bad_close s2 = ps_bad_close s1)
      by (by apply quiet_eqs in Hq as (_ & ? & ? & _)).
    assert (Hok : fds_ok s3).
    { apply (fds_ok_intro s3 a b fd); [done| |unfold s3; cbn; by rewrite (proj2 Hf)].
      rewrite open_fds_rotate. unfold open_fds at 1. cbn [List.filter].
      rewrite Z.geb_leb, (proj2 (Z.leb_le 0 fd)) by lia. unfold s3; cbn. by rewrite (proj1 Hf), Hp1. }
    pose proof (quiet_reset_llc s3) as Hr. split; [by apply (quiet_fds_ok s3)|].
    split; [exists fd; by apply (quiet_slots s3)|].
    transitivity s1; [done|]. transitivity s2; [by apply quiet_fd_step|].
    transitivity s3; [done | by apply quiet_fd_step].
Qed.

Lemma open_events_run s :
  fds_ok s ->
  let rc := result open_perf_events s in let s' := exec open_perf_events s in
  fds_ok s' /\ fd_step s s' /\
  ((rc = 0 /\ 0 <= p_fd_cycles (ps_ctx s') /\ 0 <= p_fd_insns (ps_ctx s')) \/
   (rc = -1 /\ slot_eqs (ps_ctx s') (-1) (-1) (-1))).
Proof.
  intros Hok. cbv zeta. unfold result, exec, open_perf_events. rewrite bind_run.
  destruct (close_events_run s Hok) as (Hs & Hf & Hb & Hst). unfold exec in *.
  set (s0 := (close_perf_events s).2) in *. clearbody s0. rewrite bind_run.
  destruct (open_sys_run s0) as (s1 & Hq & [->|(fd & Hfd & ->)]); cbn [fst snd ret].
  { assert (Hs1 : slot_eqs (ps_ctx s1) (-1) (-1) (-1)) by (by apply (quiet_slots s0)).
    split; [apply (quiet_fds_ok s0 s1 Hq), (fds_ok_intro s0 (-1) (-1) (-1)); [done | by rewrite Hf | done]|].
    split; [transitivity s0; [done | by apply quiet_fd_step]|]. by right. }
  pose proof (quiet_slots _ _ _ _ _ Hq Hs) as (_ & E2 & E3).
  destruct (quiet_eqs _ _ Hq) as (_ & Hf1 & Hb1 & _). rewrite bind_run.
  set (s2 := (ctx_set _ _).2).
  assert (Hs2 : slot_eqs (ps_ctx s2) fd (-1) (-1)) by done.
  assert (Hfd' : (fd >=? 0) = true) by (rewrite Z.geb_leb; by apply Z.leb_le).
  assert (Hok2 : fds_ok s2).
  { apply (fds_ok_intro s2 fd (-1) (-1)); [done| |unfold s2; cbn; by rewrite Hb1].
    unfold s2, open_fds. cbn. by rewrite Hf1, Hf, Hfd'. }
  assert (Hst2 : fd_step s s2) by (transitivity s0; [done|]; transitivity s1; [by apply quiet_fd_step | done]).
  clearbody s2. clear Hst Hf Hb Hs Hq. rewrite bind_run.
  destruct (open_sys_run s2) as (s3 & Hq & [->|(fd2 & Hfd2 & ->)]); cbn [fst snd].
  - rewrite bind_run. cbn [lift gets fst snd]. rewrite bind_run.
    match goal with |- context [close_perf_events ?x] => destruct (close_events_run x) as (Hc & Hf & Hb & Hst) end.
    { apply (quiet_fds_ok s2); [|done]. by destruct s3. }
    unfold exec in *. set (s4 := (close_perf_events _).2) in *. clearbody s4. rewrite bind_run. cbn [ret fst snd].
    assert (He : quiet s4 (lift (set_errno (w_errno (ps_world s3))) s4).2) by (apply quiet_lift, keeps_errno).
    split; [apply (quiet_fds_ok s4 _ He), (fds_ok_intro s4 (-1) (-1) (-1)); [done | by rewrite Hf | done]|].
    split; [|right; split; [done | by apply (quiet_slots s4)]].
    transitivity s2; [done|]. transitivity s3; [by apply quiet_fd_step|].
    transitivity s4; [by destruct s3 | by apply quiet_fd_step].
  - pose proof (quiet_slots _ _ _ _ _ Hq Hs2) as (E4 & _ & E6).
    destruct (quiet_eqs _ _ Hq) as (_ & Hf3 & Hb3 & _). rewrite bind_run. set (s4 := (ctx_set _ _).2).
    assert (Hfd2' : (fd2 >=? 0) = true) by (rewrite Z.geb_leb; by apply Z.leb_le).
    assert (Hs4 : slot_eqs (ps_ctx s4) fd fd2 (-1)) by done.
    assert (Hok4 : fds_ok s4).
    { apply (fds_ok_intro s4 fd fd2 (-1)); [done| |unfold s4; cbn; rewrite Hb3; apply Hok2].
      destruct Hok2 as [Hp _]. unfold fd_slots in Hp. destruct Hs2 as (e1 & e2 & e3). rewrite e1, e2, e3 in Hp.
      unfold s4, open_fds in *. cbn in *. rewrite Hf3, Hfd2', Hfd' in *. rewrite Hp. apply perm_swap. }
    assert (Hst4 : fd_step s s4)
      by (transitivity s2; [done|]; transitivity s3; [by apply quiet_fd_step | done]).
    rewrite bind_run. destruct (open_llc_run s4 fd fd2 Hok4) as (Hok5 & (d & Hd) & Hst5); [apply Hs4..|].
    unfold exec in *. rewrite bind_run. cbn [ret fst snd].
    match goal with |- context [reset_perf_retry ?x] => pose proof (quiet_reset_perf x) as Hq6 end.
    split; [by apply (quiet_fds_ok _ _ Hq6)|]. split.
    + transitivity s4; [done|]. etransitivity; [exact Hst5 | by apply quiet_fd_step].
    + left. split; [done|]. by destruct (quiet_slots _ _ _ _ _ Hq6 Hd) as (-> & -> & _).
Qed.

(** Steps that keep the two counter slots; the optional one may be dropped. *)
Definition llc_step (s s' : pstate) : Prop :=
  fd_step s s' /\
  (fds_ok s -> fds_ok s' /\ p_fd_cycles (ps_ctx s') = p_fd_cycles (ps_ctx s) /\
               p_fd_insns (ps_ctx s') = p_fd_insns (ps_ctx s)).
#[export] Instance llc_step_preorder : PreOrder llc_step.
Proof.
  split; [by split|]. intros a b c [E1 H1] [E2 H2]. split; [by transitivity b|]. intros Ha.
  destruct (H1 Ha) as (Hb & <- & <-). by apply H2.
Qed.

Lemma quiet_llc_step s s' : quiet s s' -> llc_step s s'.
Proof.
  intros Hq. split; [by apply quiet_fd_step|]. intros Hok. split; [by apply (quiet_fds_ok s)|].
  apply quiet_eqs in Hq as ([= -> ->] & _). done.
Qed.

Lemma quiet_is_llc_step {A} (m : PM A) : respects quiet m -> respects llc_step m.
Proof. intros Hm s. by apply quiet_llc_step. Qed.

Lemma llc_step_drop : respects llc_step drop_llc.
Proof.
  intros s. split.
  - unfold drop_llc. assert (H : respects fd_step drop_llc); [|apply H].
    unfold drop_llc, close_fd. apply respects_bind; [exact _ | by intro|]. intros fd.
    apply respects_bind; [exact _ | apply respects_when; [exact _|by intro]|]. intros _.
    apply respects_bind; [exact _ | by intro|]. intros _. apply quiet_is_fd_step, quiet_schedule_llc.
  - intros Hok. destruct (drop_llc_run s _ _ _ Hok (conj eq_refl (conj eq_refl eq_refl))) as (H & (E1 & E2 & _) & _).
    done.
Qed.

Lemma llc_step_open : respects llc_step open_llc_event.
Proof.
  intros s. split.
  - assert (H : respects fd_step open_llc_event); [|apply H].
    unfold open_llc_event, close_fd, perf_event_open_sys.
    repeat first [apply quiet_is_fd_step; solve [quiet_steps] | respects_step | by intro].
  - intros Hok. destruct (open_llc_run s _ _ Hok eq_refl eq_refl) as (H & (d & E1 & E2 & _) & _). done.
Qed.

Ltac llc_steps :=
  repeat first [apply llc_step_drop | apply llc_step_open
               | apply quiet_is_llc_step; solve [quiet_steps] | respects_step].

Lemma llc_step_enable_optional : respects llc_step enable_optional_llc.
Proof. unfold enable_optional_llc. llc_steps. Qed.

Lemma llc_step_enable : respects llc_step enable_perf_events_strict.
Proof. unfold enable_perf_events_strict. repeat first [apply llc_step_enable_optional | progress llc_steps]. Qed.

Lemma llc_step_recover : respects llc_step try_recover_llc.
Proof. unfold try_recover_llc. repeat first [apply llc_step_enable_optional | progress llc_steps]. Qed.

(** ** The mode machine *)

Record mode_inv (s : pstate) : Prop := {
  mi_fds : fds_ok s;
  mi_hardware : p_mode (ps_ctx s) = TSD_PERF_MODE_HARDWARE ->
                0 <= p_fd_cycles (ps_ctx s) /\ 0 <= p_fd_insns (ps_ctx s);
  mi_closed : p_mode (ps_ctx s) <> TSD_PERF_MODE_HARDWARE ->
              slot_eqs (ps_ctx s) (-1) (-1) (-1) /\ p_hardware_validated (ps_ctx s) = false;
  mi_degraded : p_mode (ps_ctx s) = TSD_PERF_MODE_SOFTWARE -> w_degraded (ps_world s) = true;
  mi_published : locks_ok -> published_of (ps_world s) = (p_mode (ps_ctx s), p_hardware_validated (ps_ctx s));
  mi_system : system_inv (ps_world s);
}.

Lemma beside_eqs s s' :
  fd_step s s' ->
  p_mode (ps_ctx s') = p_mode (ps_ctx s) /\ p_hardware_validated (ps_ctx s') = p_hardware_validated (ps_ctx s) /\
  w_degraded (ps_world s') = w_degraded (ps_world s) /\ published_of (ps_world s') = published_of (ps_world s).
Proof. intros [Hb _]. unfold beside_fds in Hb. repeat split; congruence. Qed.

Lemma llc_step_inv s s' :
  llc_step s s' -> p_mode (ps_ctx s) = TSD_PERF_MODE_HARDWARE -> mode_inv s -> mode_inv s'.
Proof.
  intros [Hst Hl] Hm [H1 H2 H3 H4 H5 H6]. destruct (Hl H1) as (Hok & Hc & Hi).
  destruct (beside_eqs _ _ Hst) as (Em & Ev & Ed & Ep).
  split; rewrite ?Em, ?Ev, ?Ed, ?Ep, ?Hc, ?Hi; auto; [done | by apply (proj2 Hst)].
Qed.

Lemma quiet_inv s s' : quiet s s' -> mode_inv s -> mode_inv s'.
Proof.
  intros Hq [H1 H2 H3 H4 H5 H6]. pose proof (quiet_fds_ok _ _ Hq H1) as Hok.
  destruct (quiet_eqs _ _ Hq) as ([= Ec Ei El] & _).
  destruct (beside_eqs _ _ (quiet_fd_step _ _ Hq)) as (Em & Ev & Ed & Ep).
  split; unfold slot_eqs; rewrite ?Em, ?Ev, ?Ed, ?Ep, ?Ec, ?Ei, ?El; auto. by apply (proj2 Hq).
Qed.

Lemma publish_run b s :
  system_inv (ps_world s) ->
  exists w', publish_perf_state b s = (tt, s <| ps_world := w' |>) /\ system_inv w' /\
    w_degraded w' = w_degraded (ps_world s) /\ (locks_ok -> published_of w' = (p_mode (ps_ctx s), b)).
Proof.
  intros Hs. unfold publish_perf_state. rewrite bind_run. cbn [ctx_get gets fst snd id]. unfold lift.
  match goal with |- context [tsd_observability_update_perf (Some ?t) ?w] =>
    destruct (update_perf_run t w Hs) as (H1 & H2 & H3); unfold exec in *;
    destruct (tsd_observability_update_perf (Some t) w) as [[] w'] end.
  exists w'. done.
Qed.

Lemma patch_system_inv width w :
  MmapAligned -> system_inv w ->
  let w' := exec (tsd_trampoline_patch width) w in
  system_inv w' /\ w_degraded w' = w_degraded w /\ published_of w' = published_of w.
Proof.
  intros HM [Hg Ht]. cbv zeta. unfold exec. pose proof (patch_keeps width w) as Hf.
  pose proof (patch_frame_obs _ _ Hf) as Ho. unfold published_of. rewrite <- Ho.
  split; [|split; [|done]].
  - destruct (patch_run width w Hg Ht) as (rc & w' & -> & Hg' & Ht' & _). done.
  - unfold patch_frame, outside_patch in Hf. congruence.
Qed.

Context `{MM : !MmapAligned}.

(** Closing the gate and the degraded overlay are invisible to the guard. *)
Lemma degraded_inv b w : system_inv w -> system_inv (w <| w_degraded := b |>).
Proof. intros [Hg Ht]. split; [|done]. eapply guard_inv_frame; [..|exact Hg]; done. Qed.

Lemma lift_run {A} (m : M A) s : lift m s = ((m (ps_world s)).1, s <| ps_world := (m (ps_world s)).2 |>).
Proof. unfold lift. by destruct (m (ps_world s)). Qed.

Lemma enter_degraded_run w : tsd_runtime_config_enter_degraded_mode w = (tt, w <| w_degraded := true |>).
Proof. destruct w as [? ? ? ? ? ? ? ? ? ? d]. by destruct d. Qed.

Lemma exit_degraded_run w : tsd_runtime_config_exit_degraded_mode w = (tt, w <| w_degraded := false |>).
Proof. destruct w as [? ? ? ? ? ? ? ? ? ? d]. by destruct d. Qed.

Lemma close_gate_inv w : system_inv w -> system_inv (tsd_runtime_wide_admission_close w).2.
Proof. intros [[Hl _] Ht]. by split; [split|]. Qed.

Lemma enter_software_run s :
  system_inv (ps_world s) ->
  exists c w', enter_software s = (tt, s <| ps_ctx := c |> <| ps_world := w' |>) /\ system_inv w' /\
    fd_slots c = fd_slots (ps_ctx s) /\ p_mode c = p_mode (ps_ctx s) /\ p_hardware_validated c = false /\
    w_degraded w' = true /\ (locks_ok -> published_of w' = (p_mode (ps_ctx s), false)).
Proof.
  intros Hs. unfold enter_software. do 4 rewrite bind_run. rewrite !lift_run, enter_degraded_run. cbn [fst snd].
  match goal with |- context [bind (publish_perf_state false) _ ?x] => set (s1 := x) end.
  assert (H1 : system_inv (ps_world s1)).
  { apply degraded_inv. apply (proj1 (keeps_metric TSD_METRIC_PERF_FALLBACKS _)). by apply close_gate_inv. }
  assert (Hd1 : w_degraded (ps_world s1) = true) by done.
  assert (Hc : fd_slots (ps_ctx s1) = fd_slots (ps_ctx s) /\ p_mode (ps_ctx s1) = p_mode (ps_ctx s) /\
               p_hardware_validated (ps_ctx s1) = false /\ ps_fds s1 = ps_fds s /\ ps_bad_close s1 = ps_bad_close s)
    by done.
  clearbody s1. destruct Hc as (Ec & Em & Ev & Ef & Eb). rewrite bind_run.
  destruct (publish_run false s1 H1) as (w2 & -> & Hs2 & Hd2 & Hp2). cbn [fst snd]. rewrite bind_run.
  set (s2 := s1 <| ps_world := w2 |>).
  assert (Hw : exists e, (tsd_trampoline_state_current_width w2).2 = w2 <| w_errno := e |>).
  { destruct Hs2 as [_ Ht2]. destruct (width_run w2 (ci_tramp _ Ht2)) as [e ->]. by exists e. }
  destruct Hw as [e Hw]. rewrite lift_run. change (ps_world s2) with w2. rewrite Hw. cbn [fst snd].
  assert (Hs3 : system_inv (w2 <| w_errno := e |>))
    by (destruct Hs2 as [Hg Ht]; split; [|done]; eapply guard_inv_frame; [..|exact Hg]; done).
  destruct (_ <>? SIMD_SSE41).
  - rewrite bind_run, lift_run.
    destruct (patch_system_inv SIMD_SSE41 _ MM Hs3) as (Hs4 & Hd4 & Hp4). unfold exec in *.
    cbn [snd fst ret]. match goal with |- context [tsd_trampoline_patch _ ?x] => change x with (w2 <| w_errno := e |>) end.
    exists (ps_ctx s1), (tsd_trampoline_patch SIMD_SSE41 (w2 <| w_errno := e |>)).2. split; [destruct s, s1; cbn in Ef, Eb; by subst|].
    rewrite Hd4, Hp4, <- Em. do 3 (split; [done|]). split; [done|]. split; [by rewrite <- Hd1, <- Hd2 | done].
  - exists (ps_ctx s1), (w2 <| w_errno := e |>). split; [destruct s, s1; cbn in Ef, Eb; by subst|].
    rewrite <- Em. do 3 (split; [done|]). split; [done|]. split; [by rewrite <- Hd1, <- Hd2 | done].
Qed.

Definition fds_view (s : pstate) := (fd_slots (ps_ctx s), ps_fds s, ps_bad_close s).

Lemma quiet_view s s' : quiet s s' -> fds_view s' = fds_view s.
Proof. intros (H1 & H2 & H3 & _)%quiet_eqs. unfold fds_view. by rewrite H1, H2, H3. Qed.

Lemma set_mode_run mode s :
  system_inv (ps_world s) ->
  let s' := exec (perf_set_mode mode) s in
  let previous := p_mode (ps_ctx s) in
  fds_view s' = fds_view s /\ system_inv (ps_world s') /\ p_mode (ps_ctx s') = mode /\
  p_hardware_validated (ps_ctx s') =
    (if (mode =? TSD_PERF_MODE_HARDWARE) || (previous =? mode) then p_hardware_validated (ps_ctx s) else false) /\
  (mode = TSD_PERF_MODE_SOFTWARE ->
     w_degraded (ps_world s') = if previous =? mode then w_degraded (ps_world s) else true) /\
  (locks_ok -> published_of (ps_world s') =
                 (mode, (mode =? TSD_PERF_MODE_HARDWARE) && p_hardware_validated (ps_ctx s'))).
Proof.
  intros Hs. cbv zeta. unfold exec, perf_set_mode. rewrite bind_run. cbn [ctx_get gets fst snd].
  destruct (p_mode (ps_ctx s) =? mode) eqn:Ep; zbool.
  { subst mode. rewrite bind_run. cbn [ctx_get gets fst snd].
    match goal with |- context [publish_perf_state ?b s] => destruct (publish_run b s Hs) as (w' & -> & Hs' & Hd & Hp) end.
    cbn [snd ps_ctx ps_world over]. rewrite orb_true_r. unfold fds_view. cbn. split_done. }
  rewrite orb_false_r. do 2 rewrite bind_run. rewrite bind_run.
  assert (Hq : forall x, quiet x (clock_gettime x).2) by (intro; apply quiet_clock).
  match goal with |- context [clock_gettime ?x] =>
    set (s0 := x); pose proof (Hq s0) as Hc; destruct (clock_gettime s0) as [now s1] end.
  cbn [fst snd] in *. do 2 rewrite bind_run.
  match goal with |- context [(if mode =? TSD_PERF_MODE_SOFTWARE then _ else _) ?x] => set (s2 := x) end.
  assert (H2 : fds_view s2 = fds_view s /\ system_inv (ps_world s2) /\ p_mode (ps_ctx s2) = mode /\
               p_hardware_validated (ps_ctx s2) = p_hardware_validated (ps_ctx s)).
  { destruct (beside_eqs _ _ (quiet_fd_step _ _ Hc)) as (Em & Ev & _).
    split; [change (fds_view s) with (fds_view s0); rewrite <- (quiet_view _ _ Hc); by destruct now|].
    split; [by apply (proj2 Hc)|]. split; [transitivity (p_mode (ps_ctx s1)); [by destruct now | done]|].
    transitivity (p_hardware_validated (ps_ctx s1)); [by destruct now | done]. }
  clearbody s2. destruct H2 as (Hf & Hs2 & Hm & Hv). rewrite <- Hf.
  destruct (mode =? TSD_PERF_MODE_SOFTWARE) eqn:Es; zbool.
  - rewrite Es in Hm |- *. destruct (enter_software_run s2 Hs2) as (c & w' & -> & Hi & E1 & E2 & E3 & E4 & E5). cbn [snd].
    unfold fds_view. cbn. rewrite E1, E2, E3, E4, Hm. rewrite Hm in E5. split_done.
  - destruct (mode =? TSD_PERF_MODE_HARDWARE) eqn:Eh; zbool.
    + rewrite Eh in Hm |- *. rewrite bind_run. cbn [ctx_get gets fst snd]. rewrite bind_run.
      set (s3 := (when _ _ s2).2).
      assert (H3 : fds_view s3 = fds_view s2 /\ ps_ctx s3 = ps_ctx s2 /\ system_inv (ps_world s3)).
      { unfold s3. destruct (_ && _); [|done]. cbn [when]. rewrite lift_run. cbn [snd].
        split; [done|]. split; [done|]. by apply (proj1 (keeps_metric TSD_METRIC_PERF_RECOVERIES _)). }
      clearbody s3. destruct H3 as (Hf3 & Hc3 & Hs3). rewrite bind_run, lift_run, exit_degraded_run. cbn [fst snd].
      match goal with |- context [publish_perf_state ?b ?x] =>
        destruct (publish_run b x) as (w' & -> & Hs' & Hd & Hp); [by apply degraded_inv|] end.
      cbn [snd]. unfold fds_view in *. cbn in *. rewrite <- Hf3, Hc3. rewrite Hc3 in Hp.
      rewrite Hm, Hv in *. split_done.
    + rewrite bind_run. match goal with |- context [publish_perf_state ?b ?x] =>
        destruct (publish_run b x Hs2) as (w' & -> & Hs' & Hd & Hp) end.
      cbn [snd]. unfold fds_view. cbn in *. rewrite Hm in *. split_done.
Qed.

(** Failing closed ends in software mode with everything released. *)
Lemma fail_closed_run s :
  fds_ok s -> system_inv (ps_world s) ->
  (p_mode (ps_ctx s) = TSD_PERF_MODE_SOFTWARE -> w_degraded (ps_world s) = true) ->
  let s' := exec perf_fail_closed s in
  mode_inv s' /\ p_mode (ps_ctx s') = TSD_PERF_MODE_SOFTWARE /\ ps_fds s' = [].
Proof.
  intros Hok Hs Hd. cbv zeta. unfold exec, perf_fail_closed. rewrite bind_run.
  destruct (close_events_run s Hok) as (Hc & Hf & Hb & Hst). unfold exec in *.
  set (s1 := (close_perf_events s).2) in *. clearbody s1. rewrite bind_run. set (s2 := (ctx_set _ _).2).
  rewrite bind_run. pose proof (quiet_schedule_perf s2) as Hq. set (s3 := (schedule_perf_retry s2).2) in *.
  destruct (quiet_eqs _ _ Hq) as (Eslots & Ef & Eb & _).
  destruct (beside_eqs _ _ (quiet_fd_step _ _ Hq)) as (Em & Ev & Ed & _). destruct (beside_eqs _ _ Hst) as (Em1 & _ & Ed1 & _).
  change (p_mode (ps_ctx s2)) with (p_mode (ps_ctx s1)) in Em. change (w_degraded (ps_world s2)) with (w_degraded (ps_world s1)) in Ed.
  change (fd_slots (ps_ctx s2)) with (fd_slots (ps_ctx s1)) in Eslots. change (ps_fds s2) with (ps_fds s1) in Ef.
  change (ps_bad_close s2) with (ps_bad_close s1) in Eb. change (p_hardware_validated (ps_ctx s2)) with false in Ev.
  assert (Hs3 : system_inv (ps_world s3)) by (apply (proj2 Hq), (proj2 Hst), Hs). clearbody s3.
  destruct (set_mode_run TSD_PERF_MODE_SOFTWARE s3 Hs3) as (Hv & Hi & Hm & Hval & Hdeg & Hpub). unfold exec in *.
  set (s4 := (perf_set_mode _ s3).2) in *. clearbody s4. unfold fds_view in Hv. injection Hv as E1 E2 E3 E4 E5.
  unfold fd_slots in Eslots. injection Eslots as F1 F2 F3. destruct Hc as (C1 & C2 & C3).
  assert (Hslots : slot_eqs (ps_ctx s4) (-1) (-1) (-1)) by (unfold slot_eqs; split_and!; congruence).
  assert (Hval' : p_hardware_validated (ps_ctx s4) = false) by (rewrite Hval, Ev; by destruct (_ || _)).
  split; [|split; [done | congruence]]. split.
  - apply (fds_ok_intro s4 _ _ _ Hslots); [|congruence]. by rewrite E4, Ef, Hf.
  - by rewrite Hm.
  - done.
  - intros _. rewrite Hdeg by done. destruct (p_mode (ps_ctx s3) =? TSD_PERF_MODE_SOFTWARE) eqn:E; zbool; [|done]. rewrite Ed, Ed1. apply Hd. congruence.
  - intros HL. by rewrite Hpub, Hm, Hval'.
  - done.
Qed.

(** ** Every operation keeps the invariant *)

Definition keeps_inv {A} (m : PM A) : Prop := respects (fun s s' => mode_inv s -> mode_inv s') m.

Lemma quiet_keeps {A} (m : PM A) : respects quiet m -> keeps_inv m.
Proof. intros Hm s. by apply quiet_inv. Qed.

Lemma fail_closed_inv s :
  mode_inv s ->
  let s' := exec perf_fail_closed s in
  mode_inv s' /\ p_mode (ps_ctx s') = TSD_PERF_MODE_SOFTWARE /\ ps_fds s' = [].
Proof. intros [H1 _ _ H4 _ H6]. by apply fail_closed_run. Qed.

Lemma keeps_fail_closed : keeps_inv perf_fail_closed.
Proof. intros s Hs. by apply fail_closed_inv. Qed.

(** Publishing the state the context is in. *)
Lemma publish_keeps b s :
  mode_inv s -> b = p_hardware_validated (ps_ctx s) -> mode_inv (publish_perf_state b s).2.
Proof.
  intros [H1 H2 H3 H4 H5 H6] ->. destruct (publish_run (p_hardware_validated (ps_ctx s)) s H6) as (w' & -> & Hi & Hd & Hp).
  split; cbn; rewrite ?Hd; auto.
Qed.

Lemma keeps_enable : keeps_inv tsd_perf_enable.
Proof.
  intros s Hs. unfold tsd_perf_enable. rewrite bind_run. cbn [ctx_get gets fst snd].
  destruct (p_mode (ps_ctx s) =? TSD_PERF_MODE_HARDWARE) eqn:Em; zbool; cbn [negb]; [|done].
  rewrite bind_run. pose proof (llc_step_inv _ _ (llc_step_enable s) Em Hs) as H1.
  destruct (negb _); cbn [when]; [by apply keeps_fail_closed | done].
Qed.

Lemma quiet_disable : respects quiet tsd_perf_disable.
Proof. unfold tsd_perf_disable. quiet_steps. Qed.

Lemma keeps_baseline cfg : keeps_inv (tsd_perf_measure_baseline cfg).
Proof.
  intros s Hs. unfold tsd_perf_measure_baseline. rewrite bind_run. cbn [ctx_get gets fst snd].
  destruct (p_mode (ps_ctx s) =? TSD_PERF_MODE_SOFTWARE) eqn:Es; [by apply (quiet_inv _ _ (quiet_software_baseline cfg s))|].
  destruct (p_mode (ps_ctx s) =? TSD_PERF_MODE_HARDWARE) eqn:Em; zbool; cbn [negb]; [|done].
  rewrite bind_run. pose proof (llc_step_inv _ _ (llc_step_enable s) Em Hs) as H1.
  destruct (beside_eqs _ _ (proj1 (llc_step_enable s))) as (Em1 & _). rewrite Em in Em1.
  set (rc := (enable_perf_events_strict s).1). set (s1 := (enable_perf_events_strict s).2) in *. clearbody rc s1.
  rewrite bind_run. match goal with |- context [(if _ then _ else measure_hardware_baseline _) ?x] =>
    set (s2 := ((if rc <>? 0 then ret rc else measure_hardware_baseline cfg) s1).2) in * end.
  assert (Hq : quiet s1 s2) by (unfold s2; destruct (rc <>? 0); [done | apply quiet_hardware_baseline]).
  pose proof (quiet_inv _ _ Hq H1) as H2. destruct (beside_eqs _ _ (quiet_fd_step _ _ Hq)) as (Em2 & _).
  rewrite Em1 in Em2. match goal with |- context [if negb ?b then _ else _] => destruct b end; cbn [negb].
  - rewrite bind_run. destruct H2 as [K1 K2 K3 K4 K5 K6].
    match goal with |- context [publish_perf_state _ ?x] => set (s3 := x) end.
    destruct (publish_run true s3 K6) as (w' & -> & Hi & Hd & Hp). split; cbn in *; rewrite ?Em2 in *; done.
  - by apply keeps_fail_closed.
Qed.

Lemma keeps_timeout t : keeps_inv (tsd_perf_check_software_timeout t).
Proof. apply quiet_keeps. unfold tsd_perf_check_software_timeout. quiet_steps. Qed.

(** A released context in software mode, once it is published. *)
Lemma publish_released s :
  fds_ok s -> slot_eqs (ps_ctx s) (-1) (-1) (-1) -> p_mode (ps_ctx s) = TSD_PERF_MODE_SOFTWARE ->
  p_hardware_validated (ps_ctx s) = false -> w_degraded (ps_world s) = true -> system_inv (ps_world s) ->
  mode_inv (publish_perf_state false s).2 /\ p_mode (ps_ctx (publish_perf_state false s).2) = TSD_PERF_MODE_SOFTWARE.
Proof.
  intros Hok Hc Hm Hv Hd Hs. destruct (publish_run false s Hs) as (w' & -> & Hi & Hd' & Hp). split; [|done].
  split; cbn; rewrite ?Hm, ?Hv, ?Hd', ?Hd in *; done.
Qed.

(** One reprobe: hardware mode with a validated group, or still software. *)
Lemma recover_run s :
  mode_inv s ->
  let r := result try_recover_hardware s in let s' := exec try_recover_hardware s in
  mode_inv s' /\
  (r = true -> p_mode (ps_ctx s') = TSD_PERF_MODE_HARDWARE /\ p_hardware_validated (ps_ctx s') = true) /\
  (r = false -> p_mode (ps_ctx s') = p_mode (ps_ctx s)).
Proof.
  intros Hs. cbv zeta. unfold result, exec, try_recover_hardware. rewrite bind_run. cbn [ctx_get gets fst snd].
  rewrite bind_run. destruct (p_mode (ps_ctx s) =? TSD_PERF_MODE_SOFTWARE) eqn:Em; zbool; cbn [negb]; [|done].
  pose proof (quiet_perf_due s) as Hq0. destruct (perf_retry_due s) as [due s0]. cbn [fst snd] in *.
  pose proof (quiet_inv _ _ Hq0 Hs) as Hs0. destruct (beside_eqs _ _ (quiet_fd_step _ _ Hq0)) as (Em0 & _).
  rewrite Em in Em0. clear Hs. destruct due; cbn [negb]; [|cbn; rewrite Em, Em0; done].
  destruct Hs0 as [K1 _ K3 K4 _ K6]. destruct K3 as [_ Kv]; [by rewrite Em0|].
  rewrite bind_run. destruct (open_events_run s0 K1) as (Hok1 & Hst1 & Hrc). unfold result, exec in *.
  destruct (open_perf_events s0) as [rc s1]. cbn [fst snd] in *.
  destruct (beside_eqs _ _ Hst1) as (Em1 & Ev1 & Ed1 & _). rewrite Em0 in Em1. rewrite Kv in Ev1. rewrite (K4 Em0) in Ed1.
  pose proof (proj2 Hst1 K6) as Hi1. destruct Hrc as [(-> & Hc & Hi)|(-> & Hslots)]; cbn [Z.eqb negb].
  - rewrite bind_run. destruct (llc_step_enable s1) as [Hst2 Hl2]. destruct (Hl2 Hok1) as (Hok2 & Ec2 & Ei2).
    destruct (enable_perf_events_strict s1) as [rc2 s2]. cbn [fst snd] in *.
    rewrite bind_run. match goal with |- context [(if negb (rc2 =? 0) then _ else ?k) s2] =>
      set (probe := if negb (rc2 =? 0) then ret rc2 else k) end.
    assert (Hq3 : quiet s2 (probe s2).2).
    { assert (Hp : respects quiet probe); [|apply Hp]. unfold probe, tsd_runtime_config_active_snapshot. quiet_steps. }
    destruct (probe s2) as [rc3 s3]. cbn [fst snd] in *. clear probe.
    pose proof (quiet_fds_ok _ _ Hq3 Hok2) as Hok3.
    destruct (beside_eqs _ _ Hst2) as (Em2 & Ev2 & Ed2 & _). destruct (beside_eqs _ _ (quiet_fd_step _ _ Hq3)) as (Em3 & Ev3 & Ed3 & _).
    pose proof (proj2 Hq3 (proj2 Hst2 Hi1)) as Hi3. destruct (rc3 =? 0); cbn [negb].
    + rewrite bind_run. set (s4 := (ctx_set _ s3).2). rewrite bind_run. pose proof (quiet_reset_perf s4) as Hq5.
      set (s5 := (reset_perf_retry s4).2) in *. rewrite bind_run.
      destruct (set_mode_run TSD_PERF_MODE_HARDWARE s5) as (Hv6 & Hi6 & Hm6 & Hval6 & _ & Hp6); [by apply (proj2 Hq5)|].
      unfold exec in *. set (s6 := (perf_set_mode _ s5).2) in *. cbn [ret fst snd].
      rewrite (quiet_view _ _ Hq5) in Hv6. change (fds_view s4) with (fds_view s3) in Hv6.
      destruct (beside_eqs _ _ (quiet_fd_step _ _ Hq5)) as (_ & Ev5 & _). 
      assert (Hval : p_hardware_validated (ps_ctx s6) = true) by (by rewrite Hval6, Ev5).
      split; [|done]. unfold fds_view in Hv6. injection Hv6 as E1 E2 E3 E4 E5.
      destruct (quiet_eqs _ _ Hq3) as ([= F1 F2 F3] & _). split; rewrite ?Hm6; try done.
      * destruct Hok3 as [P B]. split; [|congruence]. unfold fd_slots in *. by rewrite E1, E2, E3, E4.
      * intros _. by rewrite E1, E2, F1, F2, Ec2, Ei2.
    + rewrite bind_run. destruct (close_events_run s3 Hok3) as (Hc4 & Hf4 & Hb4 & Hst4). unfold exec in *.
      set (s4 := (close_perf_events s3).2) in *. rewrite bind_run. set (s5 := (ctx_set _ s4).2). rewrite bind_run.
      pose proof (quiet_schedule_perf s5) as Hq6. set (s6 := (schedule_perf_retry s5).2) in *. rewrite bind_run.
      destruct (beside_eqs _ _ Hst4) as (Em4 & _ & Ed4 & _).
      destruct (beside_eqs _ _ (quiet_fd_step _ _ Hq6)) as (Em6 & Ev6 & Ed6 & _). cbn [ret fst snd].
      destruct (publish_released s6) as [Hinv Hm]; [..|split; [done|]; split; [done | congruence]].
      * apply (quiet_fds_ok _ _ Hq6), (fds_ok_intro s5 (-1) (-1) (-1)); [done | change (ps_fds s4 ≡ₚ []); by rewrite Hf4 | done].
      * by apply (quiet_slots _ _ _ _ _ Hq6).
      * rewrite Em6. change (p_mode (ps_ctx s4) = TSD_PERF_MODE_SOFTWARE). congruence.
      * by rewrite Ev6.
      * rewrite Ed6. change (w_degraded (ps_world s4) = true). congruence.
      * by apply (proj2 Hq6), (proj2 Hst4).
  - rewrite bind_run. pose proof (quiet_schedule_perf s1) as Hq. set (s2 := (schedule_perf_retry s1).2) in *. rewrite bind_run.
    destruct (beside_eqs _ _ (quiet_fd_step _ _ Hq)) as (Em2 & Ev2 & Ed2 & _). cbn [ret fst snd].
    destruct (publish_released s2) as [Hinv Hm]; [..|split; [done|]; split; [done | congruence]].
    + by apply (quiet_fds_ok _ _ Hq).
    + by apply (quiet_slots _ _ _ _ _ Hq).
    + congruence.
    + congruence.
    + congruence.
    + by apply (proj2 Hq).
Qed.

(** ** Evaluation *)

(** A context that authorizes widening: hardware counters, validated. *)
Definition live (s : pstate) : Prop :=
  mode_inv s /\ p_mode (ps_ctx s) = TSD_PERF_MODE_HARDWARE /\ p_hardware_validated (ps_ctx s) = true.

(** What an evaluation of a live context ends in. *)
Definition eval_post (out : tsd_thermal_eval_t) (r : evaluation) (s' : pstate) : Prop :=
  live s' \/
  (mode_inv s' /\ p_mode (ps_ctx s') = TSD_PERF_MODE_SOFTWARE /\ ps_fds s' = [] /\ r = severe out).

Lemma live_quiet s s' : quiet s s' -> live s -> live s'.
Proof.
  intros Hq (Hi & Hm & Hv). destruct (beside_eqs _ _ (quiet_fd_step _ _ Hq)) as (Em & Ev & _).
  split; [by apply (quiet_inv s)|]. by rewrite Em, Ev.
Qed.

Lemma live_llc s s' : llc_step s s' -> live s -> live s'.
Proof.
  intros Hl (Hi & Hm & Hv). destruct (beside_eqs _ _ (proj1 Hl)) as (Em & Ev & _).
  split; [by apply (llc_step_inv s)|]. by rewrite Em, Ev.
Qed.

Lemma live_advance rd llc s : live s -> live (advance_cursors rd llc s).2.
Proof.
  intros (Hi & Hm & Hv). unfold advance_cursors. rewrite bind_run. set (s1 := (ctx_set _ s).2).
  assert (H1 : live s1) by (apply (live_quiet s); [done | by split]). destruct H1 as (Hi1 & Hm1 & Hv1).
  destruct (publish_run true s1 (mi_system _ Hi1)) as (w' & E & _). pose proof (publish_keeps true s1 Hi1 (eq_sym Hv1)) as Hk.
  rewrite E in Hk |- *. done.
Qed.

Lemma eval_quiet out s {A} (m : PM A) (k : A -> PM evaluation) :
  respects quiet m -> live s -> (forall a s', live s' -> wp (k a) (eval_post out) s') ->
  wp (bind m k) (eval_post out) s.
Proof. intros Hm Hs Hk. apply wp_bind, Hk, (live_quiet s); [apply Hm | done]. Qed.

Lemma eval_return out r s : live s -> wp (ret r) (eval_post out) s.
Proof. intros Hs. by left. Qed.

Lemma eval_fail out s : live s -> wp (perf_fail_closed ;;; ret (severe out)) (eval_post out) s.
Proof.
  intros (Hi & _). apply wp_bind. unfold wp. cbn. right. destruct (fail_closed_inv s Hi) as (? & ? & ?). done.
Qed.

Lemma eval_advance out rd llc (k : PM evaluation) s :
  live s -> (forall s', live s' -> wp k (eval_post out) s') -> wp (advance_cursors rd llc ;;; k) (eval_post out) s.
Proof. intros Hs Hk. by apply wp_bind, Hk, live_advance. Qed.

Ltac eval_step :=
  match goal with
  | |- wp (bind (advance_cursors _ _) _) _ _ => apply eval_advance; [done | intros ? ?]
  | |- wp (bind perf_fail_closed _) _ _ => apply eval_fail; done
  | |- wp (ret _) _ _ => apply eval_return; done
  | |- wp (if ?b then _ else _) _ _ => destruct b
  | |- wp (bind _ _) _ _ => apply eval_quiet; [solve [quiet_steps] | done | intros ? ? ?]
  end.

Lemma eval_no_progress out s : live s -> wp (handle_no_running_progress out) (eval_post out) s.
Proof. intros Hs. unfold handle_no_running_progress. repeat eval_step. Qed.

Lemma eval_measurement out s cost work mpki cfg t :
  live s -> wp (measurement out cost work mpki cfg t) (eval_post out) s.
Proof. intros Hs. left. by apply (live_quiet s); [apply quiet_measurement|]. Qed.

Lemma eval_progress out cfg rd llc e r s :
  live s -> wp (evaluate_progress out cfg rd llc e r) (eval_post out) s.
Proof.
  intros Hs. unfold evaluate_progress. cbv zeta.
  repeat first [by apply eval_no_progress | by apply eval_measurement | eval_step].
Qed.

Lemma eval_group out cfg rd s : live s -> wp (evaluate_group out cfg rd) (eval_post out) s.
Proof.
  intros Hs. unfold evaluate_group. do 2 eval_step. apply wp_bind.
  match goal with |- wp (when ?b drop_llc) _ ?x => set (s1 := (when b drop_llc x).2);
    assert (H1 : live s1) by (unfold s1; destruct b; cbn [when];
      [apply (live_llc x); [apply llc_step_drop | done] | done]) end.
  unfold wp at 1. fold s1. clearbody s1. cbv zeta.
  repeat first [by apply eval_no_progress | by apply eval_progress | eval_step].
Qed.

Lemma evaluate_live cfg s : live s -> wp (tsd_perf_evaluate cfg) (eval_post zero_eval) s.
Proof.
  intros Hs. unfold tsd_perf_evaluate. cbv zeta. apply wp_bind, wp_gets. destruct Hs as (Hi & Hm & Hv). unfold id. rewrite Hm, Hv.
  cbn [Z.eqb negb orb]. change (TSD_PERF_MODE_HARDWARE =? TSD_PERF_MODE_SOFTWARE) with false.
  change (negb (TSD_PERF_MODE_HARDWARE =? TSD_PERF_MODE_HARDWARE) || negb true) with false. cbv iota.
  assert (H1 : live (try_recover_llc s).2) by (apply (live_llc s); [apply llc_step_recover | by split]).
  apply wp_bind. unfold wp at 1. set (s1 := (try_recover_llc s).2) in *. clearbody s1. clear Hi Hm Hv s.
  do 2 eval_step. case_match; repeat first [by apply eval_group | eval_step].
Qed.

(** Software mode: evidence is never reported as performance, and only a
    validated group leads out of it. *)
Definition software_post (r : evaluation) (s' : pstate) : Prop :=
  mode_inv s' /\ ev_performance_available r.2 = false /\
  (p_mode (ps_ctx s') = TSD_PERF_MODE_SOFTWARE \/ (live s' /\ r = (0, zero_eval))).

Lemma evaluate_software_run cfg s :
  mode_inv s -> p_mode (ps_ctx s) = TSD_PERF_MODE_SOFTWARE ->
  wp (evaluate_software zero_eval cfg) software_post s.
Proof.
  intros Hi Hm. unfold evaluate_software. apply wp_bind.
  destruct (recover_run s Hi) as (Hi1 & Ht & Hf). unfold result, exec in *. unfold wp at 1.
  destruct (try_recover_hardware s) as [recovered s1]. cbn [fst snd] in *. destruct recovered.
  { destruct (Ht eq_refl). split; [done|]. split; [done|]. right. split; [by split | done]. }
  rewrite Hm in Hf. specialize (Hf eq_refl).
  match goal with |- wp ?m _ _ => assert (Hq : respects quiet m) end.
  { quiet_steps. }
  assert (Hm' : forall s', quiet s1 s' -> mode_inv s' /\ p_mode (ps_ctx s') = TSD_PERF_MODE_SOFTWARE).
  { intros s' Hq'. split; [by apply (quiet_inv s1)|]. destruct (beside_eqs _ _ (quiet_fd_step _ _ Hq')) as (-> & _). done. }
  match goal with |- wp ?m _ _ => destruct (Hm' _ (Hq s1)) as [Hi2 Hm2] end.
  unfold wp, software_post. split; [exact Hi2|]. split; [|by left].
  clear. repeat (rewrite bind_run; cbn [fst snd]). case_if; [done|].
  repeat (rewrite bind_run; cbn [fst snd]). case_if; [done|]. by repeat (rewrite bind_run; cbn [fst snd]).
Qed.

(** ** Life of a context *)

Lemma quiet_select_cpus : respects quiet select_runtime_cpus.
Proof. unfold select_runtime_cpus, current_tid. quiet_steps. Qed.

Lemma quiet_restore : respects quiet restore_owner_affinity.
Proof. unfold restore_owner_affinity. quiet_steps. Qed.

(** The part of [tsd_perf_init] before the mode is chosen. *)
Definition released_context (s : pstate) : Prop :=
  slot_eqs (ps_ctx s) (-1) (-1) (-1) /\ ps_fds s = [] /\ ps_bad_close s = false /\
  p_mode (ps_ctx s) = TSD_PERF_MODE_NONE /\ p_hardware_validated (ps_ctx s) = false /\ system_inv (ps_world s).

Lemma released_quiet s s' : quiet s s' -> released_context s -> released_context s'.
Proof.
  intros Hq (H1 & H2 & H3 & H4 & H5 & H6). destruct (quiet_eqs _ _ Hq) as (_ & Ef & Eb & _).
  destruct (beside_eqs _ _ (quiet_fd_step _ _ Hq)) as (Em & Ev & _).
  unfold released_context. rewrite Ef, Eb, Em, Ev. split; [by apply (quiet_slots s)|]. split_done. by apply (proj2 Hq).
Qed.

Lemma released_fds s : released_context s -> fds_ok s.
Proof. intros (H1 & H2 & H3 & _). apply (fds_ok_intro s _ _ _ H1); [by rewrite H2 | done]. Qed.

(** Choosing the first mode of a released context whose counters are [open]. *)
Lemma first_mode mode s :
  fds_ok s -> p_mode (ps_ctx s) = TSD_PERF_MODE_NONE -> p_hardware_validated (ps_ctx s) = false ->
  system_inv (ps_world s) ->
  (mode = TSD_PERF_MODE_SOFTWARE /\ slot_eqs (ps_ctx s) (-1) (-1) (-1) \/
   mode = TSD_PERF_MODE_HARDWARE /\ 0 <= p_fd_cycles (ps_ctx s) /\ 0 <= p_fd_insns (ps_ctx s)) ->
  mode_inv (perf_set_mode mode s).2.
Proof.
  intros Hok Hm Hv Hs Hcase. destruct (set_mode_run mode s Hs) as (Hview & Hi & Hm' & Hv' & Hd & Hp). unfold exec in *.
  rewrite Hm, Hv in *. unfold fds_view in Hview. injection Hview as E1 E2 E3 E4 E5.
  assert (Hval : p_hardware_validated (ps_ctx (perf_set_mode mode s).2) = false) by (rewrite Hv'; by destruct (_ || _)).
  split.
  - destruct Hok as [P B]. split; [|congruence]. unfold fd_slots in *. by rewrite E1, E2, E3, E4.
  - rewrite Hm', E1, E2. intros ->. by destruct Hcase as [[? _]|[_ ?]].
  - rewrite Hm'. intros Hne. destruct Hcase as [[_ Hs0]|[? _]]; [|done]. split; [|done].
    unfold slot_eqs in *. by rewrite E1, E2, E3.
  - rewrite Hm'. intros ->. by rewrite Hd.
  - intros HL. rewrite (Hp HL), Hm', Hval. by destruct (_ =? _).
  - done.
Qed.

Lemma released_publish b s : released_context s -> released_context (publish_perf_state b s).2.
Proof.
  intros (H1 & H2 & H3 & H4 & H5 & H6). destruct (publish_run b s H6) as (w' & -> & Hi & _). done.
Qed.

Lemma released_step {A B} (m : PM A) (k : A -> PM B) Q s :
  (forall s, released_context s -> released_context (m s).2) -> released_context s ->
  (forall a s', released_context s' -> wp (k a) Q s') -> wp (bind m k) Q s.
Proof. intros Hm Hs Hk. apply wp_bind, Hk, Hm, Hs. Qed.

Ltac released_next :=
  apply released_step; [| done | intros ? ? ?];
  [first [apply released_publish | intros ? ?; eapply released_quiet; [|eassumption]; 
          match goal with |- quiet ?x (?m ?x).2 => assert (Hq : respects quiet m); [|apply Hq] end;
          first [apply quiet_select_cpus | solve [quiet_steps]]]|].

Lemma init_inv workload s :
  ps_fds s = [] -> ps_bad_close s = false -> system_inv (ps_world s) ->
  wp (tsd_perf_init workload) (fun r s' => r = true -> mode_inv s') s.
Proof.
  intros Hf Hb Hs. unfold tsd_perf_init. apply wp_bind.
  pose proof (quiet_lift _ (keeps_ext env_calloc) s) as Hq0. unfold wp at 1.
  destruct (lift (ext env_calloc) s) as [found s0]. cbn [fst snd] in *.
  destruct found; cbn [negb]; [|done]. apply wp_bind. unfold wp at 1. set (s1 := (ctx_set _ s0).2).
  assert (H1 : released_context s1).
  { destruct (quiet_eqs _ _ Hq0) as (_ & Ef & Eb & _). unfold released_context. cbn. rewrite Ef, Eb. split_done. by apply (proj2 Hq0). }
  clearbody s1. clear Hq0 Hs Hf Hb s s0. do 11 released_next.
  destruct pe_force_software.
  { apply wp_bind. unfold wp. cbn [ret fst snd]. intros _.
    match goal with H : released_context ?x |- mode_inv (perf_set_mode _ ?x).2 => pose proof (released_fds _ H); destruct H as (? & _ & _ & ? & ? & ?) end.
    apply first_mode; auto. }
  apply wp_bind. unfold wp at 1.
  match goal with H : released_context ?x |- context [open_perf_events ?x] =>
    destruct (open_events_run x (released_fds _ H)) as (Hok & Hst & Hrc); destruct H as (_ & _ & _ & Hm & Hv & Hs);
    unfold result, exec in *; destruct (open_perf_events x) as [rc s2] end. cbn [fst snd] in *.
  destruct (beside_eqs _ _ Hst) as (Em & Ev & _). rewrite Hm in Em. rewrite Hv in Ev. pose proof (proj2 Hst Hs) as Hs2.
  destruct Hrc as [(-> & Hc & Hi)|(-> & Hslots)]; cbn [Z.eqb negb]; apply wp_bind; unfold wp at 1; apply wp_bind; unfold wp; cbn [ret fst snd]; intros _.
  - apply first_mode; auto.
  - pose proof (quiet_schedule_perf s2) as Hq. destruct (beside_eqs _ _ (quiet_fd_step _ _ Hq)) as (Em' & Ev' & _).
    apply first_mode; [by apply (quiet_fds_ok _ _ Hq) | congruence | congruence | by apply (proj2 Hq) | left].
    split; [done | by apply (quiet_slots _ _ _ _ _ Hq)].
Qed.

Lemma cleanup_run s :
  fds_ok s -> system_inv (ps_world s) ->
  let s' := exec tsd_perf_cleanup s in
  ps_fds s' = [] /\ ps_bad_close s' = false /\ system_inv (ps_world s').
Proof.
  intros Hok Hs. cbv zeta. unfold exec, tsd_perf_cleanup. rewrite bind_run.
  pose proof (quiet_disable s) as Hq1. set (s1 := (tsd_perf_disable s).2) in *. rewrite bind_run.
  destruct (close_events_run s1 (quiet_fds_ok _ _ Hq1 Hok)) as (_ & Hf & Hb & Hst). unfold exec in *.
  pose proof (proj2 Hst (proj2 Hq1 Hs)) as Hi. set (s2 := (close_perf_events s1).2) in *. clearbody s2.
  assert (Hrest : forall {A} (m : PM A) s, respects quiet m -> ps_fds s = [] /\ ps_bad_close s = false /\ system_inv (ps_world s) ->
            ps_fds (m s).2 = [] /\ ps_bad_close (m s).2 = false /\ system_inv (ps_world (m s).2)).
  { intros A m x Hm (E1 & E2 & E3). destruct (quiet_eqs _ _ (Hm x)) as (_ & -> & -> & _). split_done. by apply (proj2 (Hm x)). }
  rewrite bind_run. match goal with |- context [lift tsd_telemetry_helper_destroy s2] =>
    pose proof (Hrest _ _ s2 (quiet_lift _ (telemetry_world _ helper_destroy_keeps)) (conj Hf (conj Hb Hi))) as H3 end.
  set (s3 := (lift tsd_telemetry_helper_destroy s2).2) in *. clearbody s3. rewrite bind_run. cbn [ctx_get gets fst snd].
  rewrite bind_run. set (s4 := (when _ _ s3).2).
  assert (H4 : ps_fds s4 = [] /\ ps_bad_close s4 = false /\ system_inv (ps_world s4)).
  { apply Hrest; [|done]. quiet_steps. }
  clearbody s4. rewrite bind_run. set (s5 := (ctx_set _ s4).2). rewrite bind_run. destruct H4 as (Hf4 & Hb4 & Hs4).
  destruct (publish_run false s5 Hs4) as (w' & -> & Hi5 & _). cbn [fst snd].
  apply Hrest; [apply quiet_restore | done].
Qed.

(** ** Runs of a context *)

Lemma keeps_evaluate cfg : keeps_inv (tsd_perf_evaluate cfg).
Proof.
  intros s Hi. destruct (p_mode (ps_ctx s) =? TSD_PERF_MODE_SOFTWARE) eqn:Es.
  { unfold tsd_perf_evaluate. rewrite bind_run. cbn [ctx_get gets fst snd]. unfold id. rewrite Es. zbool.
    apply (evaluate_software_run cfg s Hi Es). }
  destruct (p_mode (ps_ctx s) =? TSD_PERF_MODE_HARDWARE) eqn:Eh; [destruct (p_hardware_validated (ps_ctx s)) eqn:Ev|].
  - zbool. destruct (evaluate_live cfg s) as [(? & _)|(? & _)]; done.
  - unfold tsd_perf_evaluate. rewrite bind_run. cbn [ctx_get gets fst snd]. unfold id. by rewrite Es, Eh, Ev.
  - unfold tsd_perf_evaluate. rewrite bind_run. cbn [ctx_get gets fst snd]. unfold id. by rewrite Es, Eh.
Qed.

(** Calls on a context, between calls of the other components. *)
Inductive perf_op : Type :=
  | PEnable
  | PDisable
  | PBaseline (cfg : option tsd_runtime_config)
  | PEvaluate (cfg : option tsd_runtime_config)
  | PTimeout (timeout_sec : Z)
  | PSelect (width : simd_width_t)
  | PGuard (o : guard_op).

Definition run_perf_op (o : perf_op) : PM unit :=
  match o with
  | PEnable => tsd_perf_enable
  | PDisable => tsd_perf_disable
  | PBaseline cfg => tsd_perf_measure_baseline cfg
  | PEvaluate cfg => tsd_perf_evaluate cfg ;;; ret tt
  | PTimeout t => tsd_perf_check_software_timeout t ;;; ret tt
  | PSelect width => lift (tsd_trampoline_patch width) ;;; ret tt
  | PGuard o => lift (run_guard_op o)
  end.

Definition run_perf_ops (ops : list perf_op) (s : pstate) : pstate :=
  foldl (fun s o => exec (run_perf_op o) s) s ops.

(** Only the context itself publishes the counter state. *)
Definition own_publisher (o : perf_op) : Prop :=
  match o with PGuard (GUpdatePerf _) => False | _ => True end.

Lemma published_write_enter : respects (fun w w' => published_of w = published_of w') tsd_runtime_safety_write_enter.
Proof.
  intros w. unfold tsd_runtime_safety_write_enter. rewrite bind_run.
  destruct (lock_run g_tsd_guard_update_lock w) as [(e & He & ->) | -> ]; cbn; [|done]. by destruct (e =? 0).
Qed.

Lemma published_write_leave : respects (fun w w' => published_of w = published_of w') tsd_runtime_safety_write_leave.
Proof.
  intros w. unfold tsd_runtime_safety_write_leave. rewrite !bind_run. cbn [gets fst snd tsd_runtime_is_stopping].
  destruct (g_runtime_stopping (w_guard w)) eqn:E; [done|].
  destruct (width_authorized_frame SIMD_AVX2 w) as (n & st & sn & ->). done.
Qed.

Lemma published_lock m : respects (fun w w' => published_of w = published_of w') (pthread_mutex_lock m).
Proof. intros w. destruct (lock_run m w) as [(e & He & ->) | -> ]; done. Qed.

Lemma published_admission {A} (m : M A) :
  respects admission_frame m -> respects (fun w w' => published_of w = published_of w') m.
Proof. intros Hm w. destruct (Hm w) as (n & e & dl & lk & a & d & st & sn & -> & _). done. Qed.

Lemma published_guard_op o :
  own_publisher (PGuard o) -> respects (fun w w' => published_of w = published_of w') (run_guard_op o).
Proof.
  intros Ho. destruct o; cbn [run_guard_op]; try done;
    guard_op_steps ltac:(first
      [ apply published_write_enter | apply published_write_leave | apply published_lock
      | apply published_admission, admission_frame_enter | apply published_admission, admission_frame_leave ]).
  by destruct stopping.
Qed.

Lemma guard_op_keeps o : own_publisher (PGuard o) -> respects world_keeps (run_guard_op o).
Proof.
  intros Ho w. split.
  - intros [Hg Ht]. split; [by apply run_guard_op_inv|].
    assert (Htr : w_tramp (run_guard_op o w).2 = w_tramp w); [|by rewrite Htr].
    pose proof (run_guard_op_frame o w) as Hf. unfold guard_frame, outside_guard in Hf. congruence.
  - pose proof (published_guard_op o Ho w) as Hp. pose proof (run_guard_op_frame o w) as Hf. unfold guard_frame, outside_guard in Hf.
    rewrite Hp. f_equal. congruence.
Qed.

Lemma patch_world_keeps width : respects world_keeps (tsd_trampoline_patch width).
Proof.
  intros w. pose proof (patch_keeps width w) as Hf. split.
  - intros Hs. by apply (patch_system_inv width w MM).
  - unfold patch_frame, outside_patch in Hf. unfold published_of. congruence.
Qed.

Lemma run_perf_op_inv o : own_publisher o -> keeps_inv (run_perf_op o).
Proof.
  intros Ho. unfold keeps_inv. destruct o; cbn [run_perf_op].
  - apply keeps_enable.
  - apply quiet_keeps, quiet_disable.
  - apply keeps_baseline.
  - apply respects_bind; [exact _ | apply keeps_evaluate | intros; apply respects_ret; exact _].
  - apply respects_bind; [exact _ | apply keeps_timeout | intros; apply respects_ret; exact _].
  - apply respects_bind; [exact _ | apply quiet_keeps, quiet_lift, patch_world_keeps | intros; apply respects_ret; exact _].
  - by apply quiet_keeps, quiet_lift, guard_op_keeps.
Qed.

Lemma run_perf_ops_inv ops s : Forall own_publisher ops -> mode_inv s -> mode_inv (run_perf_ops ops s).
Proof.
  intros Ho. revert s. induction Ho as [|o ops Ho _ IH]; intros s Hs; [done|]. apply IH. by apply run_perf_op_inv.
Qed.

(** ** Retry schedules *)

Lemma next_backoff_spec b : 5 <= b <= 60 -> next_backoff b = Z.min 60 (2 * b).
Proof. unfold next_backoff, PERF_MAX_BACKOFF_SEC. intros Hb. repeat case_if; zbool; lia. Qed.

Lemma backoff_iter n : Nat.iter n next_backoff PERF_INITIAL_BACKOFF_SEC = Z.min 60 (5 * 2 ^ Z.of_nat n).
Proof.
  induction n as [|n IH]; [done|]. rewrite Nat.iter_succ, IH, Nat2Z.inj_succ, Z.pow_succ_r by lia.
  pose proof (Z.pow_pos_nonneg 2 (Z.of_nat n) ltac:(lia) ltac:(lia)). rewrite next_backoff_spec; lia.
Qed.

Lemma deadline_after_spec now delay :
  in_u64 now -> 0 <= delay <= 60 -> deadline_after now delay = Z.min UINT64_MAX (now + delay * 1000000000).
Proof. unfold deadline_after, in_u64. intros Hn Hd. case_if; zbool; unfold_int; lia. Qed.

Lemma schedule_run s :
  p_force_software (ps_ctx s) = false -> 5 <= p_perf_retry_backoff_seconds (ps_ctx s) <= 60 ->
  let now := result monotonic_now_ns s in let backoff := p_perf_retry_backoff_seconds (ps_ctx s) in
  exists s1, quiet s s1 /\ ps_ctx s1 = ps_ctx s /\
    schedule_perf_retry s =
      (tt, s1 <| ps_ctx ::= fun c => c <| p_perf_retry_deadline_ns := deadline_after now backoff |>
                                       <| p_perf_retry_backoff_seconds := next_backoff backoff |> |>).
Proof.
  intros Hf Hb. cbv zeta. unfold schedule_perf_retry, result. rewrite bind_run. cbn [ctx_get gets fst snd]. unfold id. rewrite Hf.
  rewrite (proj2 (Z.leb_gt _ 0)) by lia. rewrite bind_run. cbn [when ret fst snd]. rewrite bind_run. cbn [ctx_get gets fst snd].
  rewrite Z.gtb_ltb, (proj2 (Z.ltb_ge PERF_MAX_BACKOFF_SEC _)) by (unfold PERF_MAX_BACKOFF_SEC; lia). rewrite bind_run.
  pose proof (quiet_now s) as Hq. assert (Hc : ps_ctx (monotonic_now_ns s).2 = ps_ctx s).
  { unfold monotonic_now_ns, clock_gettime. rewrite bind_run, lift_run. cbn. by destruct (env_clock (w_calls (ps_world s))) as [[? ?]|]. }
  destruct (monotonic_now_ns s) as [now s1]. cbn [fst snd] in *. rewrite bind_run.
  exists s1. split; [done|]. split; [done|]. by destruct s1.
Qed.

(** ** Baselines *)

(** Reads of a group that decode. *)
Definition group_read_at (n : nat) (rd : perf_group_read_t) : Prop :=
  decode_group <$> tsd_perf_read_exact (pe_read n) GROUP_READ_SIZE = Some rd.

(** A baseline is stored only from two reads that show progress. *)
Definition baseline_evidence (c : perf_ctx) : Prop :=
  exists before after, (exists n, group_read_at n before) /\ (exists n, group_read_at n after) /\
    group_baseline_progress_valid before after = true /\ p_last_group_read c = after /\
    p_last_group_valid c = true /\ 0 < p_calibrated_cpi_reference c.

Lemma read_group_some fd s rd s' : read_group fd s = (Some rd, s') -> exists n, group_read_at n rd.
Proof.
  unfold read_group. destruct (fd <? 0); [done|]. rewrite bind_run, lift_run. cbn. intros [= H _].
  by exists (w_calls (ps_world s)).
Qed.

(** Steps that keep the stored baseline. *)
Definition baseline_of (c : perf_ctx) := (p_last_group_read c, p_last_group_valid c, p_calibrated_cpi_reference c).
Definition baseline_kept (s s' : pstate) : Prop := baseline_of (ps_ctx s) = baseline_of (ps_ctx s').
#[export] Instance baseline_kept_preorder : PreOrder baseline_kept.
Proof. unfold baseline_kept. exact _. Qed.

Lemma baseline_kept_lift {A} (m : M A) : respects baseline_kept (lift m).
Proof. intros s. by rewrite lift_run. Qed.

Ltac kept_steps :=
  repeat first [apply baseline_kept_lift | respects_step | (intro; cbn; repeat case_match; reflexivity)].

Lemma fetch_kept : respects baseline_kept fetch_fused_telemetry.
Proof. unfold fetch_fused_telemetry. kept_steps. Qed.

Lemma store_evidence cfg after llc dc di dl wb wa c before :
  (exists n, group_read_at n before) -> (exists n, group_read_at n after) ->
  group_baseline_progress_valid before after = true -> 0 <= dc -> 0 < di ->
  baseline_evidence (store_baseline cfg after llc dc di dl wb wa c).
Proof.
  intros Hb Ha Hp Hc Hi. exists before, after. split_done. cbn. unfold or_else.
  assert (0 <= u64 (dc * 1000) / di) by (apply Z.div_pos; [apply u64_range | done]).
  destruct (_ =? 0) eqn:E; zbool; cbn; lia.
Qed.

Lemma scale_nonneg a b c : 0 <= scale_counter a b c.
Proof. unfold scale_counter. destruct (_ || _); [done | apply u64_range]. Qed.

Lemma kept_evidence s s' : baseline_kept s s' -> baseline_evidence (ps_ctx s) -> baseline_evidence (ps_ctx s').
Proof.
  unfold baseline_kept, baseline_of. intros [= K1 K2 K3] (b & a & ? & ? & ? & ? & ? & ?).
  exists b, a. by rewrite <- K1, <- K2, <- K3.
Qed.

Lemma ctx_set_evidence s cfg before after llc dc di dl wb wa :
  (exists n, group_read_at n before) -> (exists n, group_read_at n after) ->
  group_baseline_progress_valid before after = true -> 0 <= dc -> 0 < di ->
  baseline_evidence (ps_ctx (ctx_set (store_baseline cfg after llc dc di dl wb wa) s).2).
Proof. intros. by apply (store_evidence _ _ _ _ _ _ _ _ _ before). Qed.

(** Running past a computation whose result and state do not matter. *)
Lemma wp_skip {W A B} (m : ST W A) (k : A -> ST W B) Q s :
  (forall a s', m s = (a, s') -> wp (k a) Q s') -> wp (bind m k) Q s.
Proof. intros Hk. apply wp_bind. unfold wp at 1. destruct (m s) as [a s'] eqn:E. by apply Hk. Qed.

Lemma finish_evidence cfg before after fd lb la wb wa s :
  (exists n, group_read_at n before) -> (exists n, group_read_at n after) ->
  group_baseline_progress_valid before after = true ->
  wp (finish_baseline cfg before after fd lb la wb wa) (fun rc s' => rc = 0 -> baseline_evidence (ps_ctx s')) s.
Proof.
  intros Hb Ha Hp. unfold finish_baseline. cbv zeta.
  match goal with |- wp (if (?dc =? 0) || (?di =? 0) then _ else _) _ _ =>
    generalize (scale_nonneg (u64 (gr_cycles after - gr_cycles before)) (u64 (gr_time_enabled after - gr_time_enabled before)) (u64 (gr_time_running after - gr_time_running before)));
    generalize (scale_nonneg (u64 (gr_insns after - gr_insns before)) (u64 (gr_time_enabled after - gr_time_enabled before)) (u64 (gr_time_running after - gr_time_running before)));
    generalize dc di end.
  intros dc di Hdi Hdc. destruct ((dc =? 0) || (di =? 0)) eqn:Ez; [done|]. zbool.
  apply wp_skip. intros u s1 E. injection E as <- <-. apply wp_skip. intros t s2 E. intros _. cbn [ret snd].
  pose proof (fetch_kept (ctx_set (store_baseline cfg after la dc di (if (fd >=? 0) && (la >=? lb) then la - lb else 0) wb wa) s).2) as Hk.
  change s2 with (t, s2).2. rewrite <- E. apply (kept_evidence _ _ Hk).
  apply (ctx_set_evidence _ _ before after); [done..|lia|lia].
Qed.

Lemma hardware_baseline_evidence cfg s :
  wp (measure_hardware_baseline cfg) (fun rc s' => rc = 0 -> baseline_evidence (ps_ctx s')) s.
Proof.
  unfold measure_hardware_baseline. apply wp_skip; intros fd s0 _. apply wp_skip; intros [before|] s1 E1; [|done].
  apply read_group_some in E1. destruct (gr_nr before =? 2); cbn [negb]; [|done].
  do 5 (apply wp_skip; intros ? ? _). apply wp_skip; intros [after|] s2 E2; [|done].
  apply read_group_some in E2. destruct (gr_nr after =? 2); cbn [negb]; [|done].
  destruct (group_baseline_progress_valid before after) eqn:Ep; cbn [negb]; [|done].
  apply wp_skip; intros llc s3 _. by apply finish_evidence.
Qed.

Lemma set_hardware_kept : respects baseline_kept (perf_set_mode TSD_PERF_MODE_HARDWARE).
Proof.
  unfold perf_set_mode, publish_perf_state, clock_gettime.
  change (TSD_PERF_MODE_HARDWARE =? TSD_PERF_MODE_SOFTWARE) with false. cbv iota. kept_steps.
Qed.

Lemma recover_evidence s :
  wp try_recover_hardware (fun r s' => r = true -> baseline_evidence (ps_ctx s')) s.
Proof.
  unfold try_recover_hardware. do 2 (apply wp_skip; intros ? ? _).
  match goal with |- wp (if ?b then _ else _) _ _ => destruct b end; [done|]. apply wp_skip; intros rc s1 _.
  destruct (rc =? 0); cbn [negb]; [|do 2 (apply wp_skip; intros ? ? _); done].
  apply wp_skip; intros rc2 s2 _.
  assert (Hprobe : wp (if negb (rc2 =? 0) then ret rc2
                       else cfg <- lift tsd_runtime_config_active_snapshot;; measure_hardware_baseline (Some cfg))
                     (fun rc s' => rc = 0 -> baseline_evidence (ps_ctx s')) s2).
  { destruct (rc2 =? 0) eqn:E; cbn [negb]; [apply wp_skip; intros; apply hardware_baseline_evidence|].
    intros H. cbn in H. subst. done. }
  apply wp_bind. eapply wp_mono; [exact Hprobe|]. cbv beta. intros rc3 s3 Hev.
  destruct (rc3 =? 0) eqn:E; cbn [negb]; zbool; [|do 4 (apply wp_skip; intros ? ? _); done]. specialize (Hev E).
  apply wp_bind, wp_modify, wp_bind. unfold wp at 1. apply wp_bind. unfold wp. cbn [ret fst snd]. intros _.
  eapply kept_evidence; [apply set_hardware_kept|]. exact Hev.
Qed.

Lemma reached_inv workload ops s :
  ps_fds s = [] -> ps_bad_close s = false -> system_inv (ps_world s) -> Forall own_publisher ops ->
  result (tsd_perf_init workload) s = true ->
  mode_inv (run_perf_ops ops (exec (tsd_perf_init workload) s)).
Proof. intros Hf Hb Hs Ho Hr. by apply run_perf_ops_inv, init_inv. Qed.

(** ** Properties *)

(** C14 (invariant). From the creation of a context, whatever calls are made on
    it and on the other components, the open counter descriptors are exactly the
    ones the context names, none is closed twice, and after [tsd_perf_cleanup]
    none is open. *)
Theorem perf_descriptors_never_leak (workload : bool) (ops : list perf_op) (s : pstate) :
  ps_fds s = [] -> ps_bad_close s = false -> system_inv (ps_world s) -> Forall own_publisher ops ->
  result (tsd_perf_init workload) s = true ->
  let s1 := run_perf_ops ops (exec (tsd_perf_init workload) s) in
  let s2 := exec tsd_perf_cleanup s1 in
  ps_fds s1 ≡ₚ open_fds (fd_slots (ps_ctx s1)) /\ ps_bad_close s1 = false /\
  ps_fds s2 = [] /\ ps_bad_close s2 = false.
Proof.
  intros Hf Hb Hs Ho Hr. cbv zeta. pose proof (reached_inv workload ops s Hf Hb Hs Ho Hr) as Hi.
  destruct (mi_fds _ Hi) as [Hp Hc]. destruct (cleanup_run _ (mi_fds _ Hi) (mi_system _ Hi)) as (H1 & H2 & _). done.
Qed.

(** C13 (safety). Whatever calls are made: upgrades are allowed only with both
    counters open; outside hardware mode nothing is open or validated; software
    mode runs with the degraded policy; and when the writer lock can be taken,
    the published mode and health are those of the context, and a context that
    does not allow upgrades leaves the wide admission gate closed. *)
Theorem perf_mode_controls_admission (workload : bool) (ops : list perf_op) (s : pstate) :
  ps_fds s = [] -> ps_bad_close s = false -> system_inv (ps_world s) -> Forall own_publisher ops ->
  result (tsd_perf_init workload) s = true ->
  let s' := run_perf_ops ops (exec (tsd_perf_init workload) s) in
  let c := ps_ctx s' in
  (result tsd_perf_upgrades_allowed s' = true -> 0 <= p_fd_cycles c /\ 0 <= p_fd_insns c) /\
  (p_mode c <> TSD_PERF_MODE_HARDWARE -> ps_fds s' = [] /\ p_hardware_validated c = false) /\
  (p_mode c = TSD_PERF_MODE_SOFTWARE -> w_degraded (ps_world s') = true) /\
  (locks_ok -> published_of (ps_world s') = (p_mode c, p_hardware_validated c)) /\
  (locks_ok -> p_mode c <> TSD_PERF_MODE_NONE -> result tsd_perf_upgrades_allowed s' = false ->
   g_wide_admission_open (w_guard (ps_world s')) = false).
Proof.
  intros Hf Hb Hs Ho Hr. cbv zeta. destruct (reached_inv workload ops s Hf Hb Hs Ho Hr) as [[Hp Hc] Hh Hcl Hd Hpub [Hg _]].
  set (s' := run_perf_ops ops _) in *. clearbody s'. unfold result, tsd_perf_upgrades_allowed. cbn [ctx_get gets fst].
  split; [|split; [|split; [done|split; [done|]]]].
  - intros [Hm _]%andb_true_iff. zbool. auto.
  - intros Hne. destruct (Hcl Hne) as ((E1 & E2 & E3) & Ev). split; [|done].
    unfold fd_slots in Hp. rewrite E1, E2, E3 in Hp. symmetry in Hp. by apply Permutation_nil in Hp.
  - intros HL Hne Hup. destruct (g_wide_admission_open (w_guard (ps_world s'))) eqn:Eo; [|done].
    destruct (proj2 Hg Eo) as (_ & _ & Hev). specialize (Hpub HL). unfold published_of in Hpub. injection Hpub as E1 E2.
    destruct Hev as (Hm & Hv & _); [unfold guard_active; rewrite E1; by rewrite (proj2 (Z.eqb_neq _ 0))|].
    rewrite E1 in Hm. rewrite E2 in Hv. by rewrite Hm, Hv in Hup.
Qed.

(** C15 (error). Evaluating a context that allows upgrades either leaves it
    allowing them, or fails closed: software mode, no descriptor open, result 1
    with severity 1 and, when the writer lock can be taken, a closed wide
    admission gate.  A group read that fails or has the wrong layout always
    fails closed. *)
Theorem evaluation_fails_closed (cfg : option tsd_runtime_config) (s : pstate) :
  live s ->
  let r := result (tsd_perf_evaluate cfg) s in let s' := exec (tsd_perf_evaluate cfg) s in
  let s1 := exec try_recover_llc s in
  let closed := p_mode (ps_ctx s') = TSD_PERF_MODE_SOFTWARE /\ ps_fds s' = [] /\ r = severe zero_eval /\
    (locks_ok -> g_wide_admission_open (w_guard (ps_world s')) = false) in
  (result tsd_perf_upgrades_allowed s' = true \/ closed) /\
  (from_option (fun rd => gr_nr rd <> 2) True (result (read_group (p_fd_cycles (ps_ctx s1))) s1) -> closed).
Proof.
  intros Hl. cbv zeta. pose proof Hl as (Hi & Hm & Hv).
  assert (Hfin : forall r s', mode_inv s' /\ p_mode (ps_ctx s') = TSD_PERF_MODE_SOFTWARE /\ ps_fds s' = [] /\ r = severe zero_eval ->
            p_mode (ps_ctx s') = TSD_PERF_MODE_SOFTWARE /\ ps_fds s' = [] /\ r = severe zero_eval /\
            (locks_ok -> g_wide_admission_open (w_guard (ps_world s')) = false)).
  { intros r s' (Hi' & Hm' & Hf' & Hr'). split_done. intros HL. destruct (g_wide_admission_open _) eqn:Eo; [|done].
    destruct (proj2 (proj1 (mi_system _ Hi')) Eo) as (_ & _ & Hev). pose proof (mi_published _ Hi' HL) as Hp.
    unfold published_of in Hp. injection Hp as E1 E2. destruct Hev as (Hx & _); [unfold guard_active; by rewrite E1, Hm'|].
    by rewrite E1, Hm' in Hx. }
  split.
  - destruct (evaluate_live cfg s Hl) as [(_ & Hm' & Hv')|H].
    + left. unfold result, exec, tsd_perf_upgrades_allowed. cbn [ctx_get gets fst]. by rewrite Hm', Hv'.
    + right. by apply Hfin.
  - intros Hbad. apply Hfin. unfold result, exec, tsd_perf_evaluate in *. rewrite bind_run. cbn [ctx_get gets fst snd].
    unfold id. rewrite Hm, Hv. change (TSD_PERF_MODE_HARDWARE =? TSD_PERF_MODE_SOFTWARE) with false.
    change (negb (TSD_PERF_MODE_HARDWARE =? TSD_PERF_MODE_HARDWARE) || negb true) with false. cbv iota.
    rewrite bind_run. pose proof (live_llc _ _ (llc_step_recover s) Hl) as H1. set (s1 := (try_recover_llc s).2) in *.
    clearbody s1. rewrite bind_run. cbn [ctx_get gets fst snd]. rewrite bind_run.
    pose proof (live_quiet _ _ (quiet_read_group (p_fd_cycles (ps_ctx s1)) s1) H1) as (H2 & _).
    destruct (read_group _ s1) as [rd s2]. cbn [fst snd] in *.
    assert (Hf : forall m : PM evaluation, m = (perf_fail_closed ;;; ret (severe zero_eval)) ->
      mode_inv (m s2).2 /\ p_mode (ps_ctx (m s2).2) = TSD_PERF_MODE_SOFTWARE /\ ps_fds (m s2).2 = [] /\ (m s2).1 = severe zero_eval).
    { intros m ->. rewrite bind_run. cbn [ret fst snd]. by destruct (fail_closed_inv s2 H2) as (? & ? & ?). }
    destruct rd as [rd|]; cbn [from_option] in Hbad; apply Hf; [|done].
    by rewrite (proj2 (Z.eqb_neq _ 2) Hbad).
Qed.

(** A reprobe from software mode is transactional: it reports
    success only with a validated group that is published as hardware mode and
    whose stored baseline comes from two reads with increasing time, running
    time, cycles and instructions; otherwise the context is still in software
    mode with nothing open. *)
Theorem recovery_is_transactional (s : pstate) :
  mode_inv s -> p_mode (ps_ctx s) = TSD_PERF_MODE_SOFTWARE ->
  let r := result try_recover_hardware s in let s' := exec try_recover_hardware s in
  (r = true -> result tsd_perf_upgrades_allowed s' = true /\ baseline_evidence (ps_ctx s') /\
     (locks_ok -> published_of (ps_world s') = (TSD_PERF_MODE_HARDWARE, true))) /\
  (r = false -> p_mode (ps_ctx s') = TSD_PERF_MODE_SOFTWARE /\ p_hardware_validated (ps_ctx s') = false /\
     fd_slots (ps_ctx s') = [-1; -1; -1]).
Proof.
  intros Hi Hm. cbv zeta. destruct (recover_run s Hi) as (Hi' & Ht & Hf). pose proof (recover_evidence s) as He.
  unfold wp in He. unfold result, exec in *. destruct (try_recover_hardware s) as [r s']. cbn [fst snd] in *. split.
  - intros ->. destruct (Ht eq_refl) as (Hm' & Hv'). unfold tsd_perf_upgrades_allowed. cbn [ctx_get gets fst].
    rewrite Hm', Hv'. split; [done|]. split; [by apply He|]. intros HL. by rewrite (mi_published _ Hi' HL), Hm', Hv'.
  - intros ->. rewrite Hm in Hf. specialize (Hf eq_refl). destruct (mi_closed _ Hi') as ((E1 & E2 & E3) & Ev); [by rewrite Hf|].
    unfold fd_slots. by rewrite E1, E2, E3.
Qed.

(** Retry delays: the backoff after [n] failures in a row is five
    seconds doubled [n] times, at most sixty; a scheduled deadline is that many
    seconds after now, saturating at the largest 64-bit time. *)
Theorem retry_backoff_bounded (s : pstate) :
  p_force_software (ps_ctx s) = false -> 5 <= p_perf_retry_backoff_seconds (ps_ctx s) <= 60 ->
  let now := result monotonic_now_ns s in
  let c := ps_ctx (exec schedule_perf_retry s) in
  let backoff := p_perf_retry_backoff_seconds (ps_ctx s) in
  p_perf_retry_deadline_ns c = Z.min UINT64_MAX (now + backoff * 1000000000) /\
  p_perf_retry_backoff_seconds c = Z.min 60 (2 * backoff) /\
  forall n, Nat.iter n next_backoff PERF_INITIAL_BACKOFF_SEC = Z.min 60 (5 * 2 ^ Z.of_nat n).
Proof.
  intros Hf Hb. cbv zeta. destruct (schedule_run s Hf Hb) as (s1 & _ & Hc & Hrun). unfold exec. rewrite Hrun. cbn [snd].
  cbn. rewrite next_backoff_spec by done. split; [|split; [done | apply backoff_iter]].
  apply deadline_after_spec; [|lia]. unfold result, monotonic_now_ns, clock_gettime. rewrite bind_run, lift_run. cbn.
  destruct (env_clock (w_calls (ps_world s))) as [[? ?]|]; [apply u64_range | done].
Qed.

(** Steps that keep the schedule of the primary counters. *)
Definition schedule_of (c : perf_ctx) := (p_perf_retry_backoff_seconds c, p_force_software c).
Definition schedule_kept (s s' : pstate) : Prop := schedule_of (ps_ctx s) = schedule_of (ps_ctx s').
#[export] Instance schedule_kept_preorder : PreOrder schedule_kept.
Proof. unfold schedule_kept. exact _. Qed.

Lemma schedule_kept_lift {A} (m : M A) : respects schedule_kept (lift m).
Proof. intros s. by rewrite lift_run. Qed.

Ltac schedule_steps :=
  repeat first [apply schedule_kept_lift | respects_step | (intro; cbn; repeat case_match; reflexivity)].

Lemma schedule_kept_llc : respects schedule_kept schedule_llc_retry.
Proof. unfold schedule_llc_retry, monotonic_now_ns, clock_gettime. schedule_steps. Qed.

Lemma schedule_kept_ops :
  respects schedule_kept close_perf_events /\ respects schedule_kept perf_event_open_sys /\
  respects schedule_kept open_llc_event /\ respects schedule_kept enable_perf_events_strict /\
  respects schedule_kept perf_retry_due /\ (forall b, respects schedule_kept (publish_perf_state b)).
Proof.
  split_and!; intros; unfold close_perf_events, open_llc_event, enable_perf_events_strict, enable_optional_llc, drop_llc,
    close_fd, perf_event_open_sys, perf_ioctl, perf_retry_due, monotonic_now_ns, clock_gettime, publish_perf_state, reset_llc_retry;
    repeat first [apply schedule_kept_llc | progress schedule_steps].
Qed.

Definition forced_off (s : pstate) : Prop := p_force_software (ps_ctx s) = false.

Lemma kept_schedule {A} (m : PM A) s b :
  respects schedule_kept m -> p_perf_retry_backoff_seconds (ps_ctx s) = b -> forced_off s ->
  p_perf_retry_backoff_seconds (ps_ctx (m s).2) = b /\ forced_off (m s).2.
Proof. intros Hm <- Hf. specialize (Hm s). unfold schedule_kept, schedule_of in Hm. injection Hm as E1 E2. split; [done|]. unfold forced_off. by rewrite <- E2. Qed.

(** Opening succeeds when every [perf_event_open] does, and restarts the backoff. *)
Lemma open_events_restart s :
  (forall n, 0 <= pe_open n) -> forced_off s ->
  (open_perf_events s).1 = 0 /\ p_perf_retry_backoff_seconds (ps_ctx (open_perf_events s).2) = 5 /\
  forced_off (open_perf_events s).2.
Proof.
  intros Ho Hf. destruct schedule_kept_ops as (Kc & Ks & Kl & _).
  assert (Hopen : forall s, (perf_event_open_sys s).1 <> None).
  { intros x. unfold perf_event_open_sys. rewrite bind_run, lift_run. cbn. by rewrite (proj2 (Z.ltb_ge _ 0)). }
  unfold open_perf_events. rewrite bind_run. destruct (kept_schedule _ s _ Kc eq_refl Hf) as [_ Hf1].
  set (s1 := (close_perf_events s).2) in *. rewrite bind_run. destruct (kept_schedule _ s1 _ Ks eq_refl Hf1) as [_ Hf2].
  pose proof (Hopen s1) as H1. destruct (perf_event_open_sys s1) as [[fd|] s2]; [|done]. cbn [fst snd] in *.
  rewrite bind_run. set (s3 := (ctx_set _ s2).2). rewrite bind_run. destruct (kept_schedule _ s3 _ Ks eq_refl Hf2) as [_ Hf4].
  pose proof (Hopen s3) as H3. destruct (perf_event_open_sys s3) as [[fd2|] s4]; [|done]. cbn [fst snd] in *.
  rewrite bind_run. set (s5 := (ctx_set _ s4).2). rewrite bind_run. destruct (kept_schedule _ s5 _ Kl eq_refl Hf4) as [_ Hf6].
  rewrite bind_run. done.
Qed.

(** The backoff restarts whenever the descriptors can be opened: with
    counters that open but cannot be enabled, every due reprobe is rejected and
    leaves the next delay at ten seconds, however long it had grown. *)
Theorem rejected_reprobe_restarts_backoff (s : pstate) :
  (forall n, 0 <= pe_open n) -> (forall n, pe_ioctl n <> 0) ->
  p_mode (ps_ctx s) = TSD_PERF_MODE_SOFTWARE -> p_force_software (ps_ctx s) = false ->
  result perf_retry_due s = true ->
  result try_recover_hardware s = false /\
  p_perf_retry_backoff_seconds (ps_ctx (exec try_recover_hardware s)) = 10.
Proof.
  intros Ho Hio Hm Hf Hdue. destruct schedule_kept_ops as (Kc & _ & _ & Ke & Kd & Kp).
  unfold result, exec, try_recover_hardware in *. rewrite bind_run. cbn [ctx_get gets fst snd]. rewrite Hm.
  rewrite bind_run. cbn [Z.eqb negb]. change (negb (TSD_PERF_MODE_SOFTWARE =? TSD_PERF_MODE_SOFTWARE)) with false. cbv iota.
  rewrite Hdue. cbn [negb]. destruct (kept_schedule _ s _ Kd eq_refl Hf) as [_ Hf0]. set (s0 := (perf_retry_due s).2) in *. clearbody s0.
  rewrite bind_run. destruct (open_events_restart s0 Ho Hf0) as (E1 & Hb1 & Hf1). rewrite E1. cbn [Z.eqb negb].
  set (s1 := (open_perf_events s0).2) in *. clearbody s1. rewrite bind_run.
  assert (Hrc : (enable_perf_events_strict s1).1 = -1).
  { unfold enable_perf_events_strict, perf_ioctl. rewrite bind_run. cbn [ctx_get gets fst snd]. unfold id.
    destruct (p_fd_cycles (ps_ctx s1) <? 0) eqn:Ec; [cbn [orb]; by rewrite lift_run|]. cbn [orb].
    destruct (p_fd_insns (ps_ctx s1) <? 0); [by rewrite lift_run|]. rewrite !bind_run, lift_run. cbn [fst snd ext]. by rewrite (proj2 (Z.eqb_neq _ 0) (Hio _)). }
  rewrite Hrc. destruct (kept_schedule _ s1 _ Ke Hb1 Hf1) as [Hb2 Hf2].
  set (s2 := (enable_perf_events_strict s1).2) in *. clearbody s2. rewrite bind_run. cbn [Z.eqb negb ret fst snd].
  rewrite bind_run. destruct (kept_schedule _ s2 _ Kc Hb2 Hf2) as [Hb3 Hf3]. set (s3 := (close_perf_events s2).2) in *. clearbody s3.
  rewrite bind_run. set (s4 := (ctx_set _ s3).2). rewrite bind_run.
  destruct (schedule_run s4 Hf3) as (s5 & _ & Hc5 & ->); [cbn; lia|]. cbn [snd]. rewrite bind_run. cbn [ret fst snd]. split; [done|].
  match goal with |- context [publish_perf_state ?b ?x] => destruct (kept_schedule _ x 10 (Kp b)) as [H _] end; [| |exact H].
  - cbn. by rewrite Hb3.
  - unfold forced_off. cbn. by rewrite Hc5.
Qed.

(** A context whose retry falls due. *)
Definition due_again (s : pstate) : pstate := exec (ctx_set (fun c => c <| p_perf_retry_deadline_ns := 0 |>)) s.

Lemma due_again_inv s : mode_inv s -> mode_inv (due_again s).
Proof. apply quiet_inv. by apply quiet_set. Qed.
End frames.

(** ** Concrete runs *)

Definition quiet_telemetry : Telemetry :=
  mkTelemetry (fun _ => ret 0) (ret tt) (ret (0, zero_sample)) (fun _ => ret 0) (ret tt) (ret (0, zero_sample)).

#[export] Instance quiet_telemetry_laws : TelemetryLaws (EV := quiet_env) (TL := quiet_telemetry).
Proof. by split; intros; intros w. Qed.

(** Counters of one group, all at the same value below 256. *)
Definition group_bytes (value : Z) : list Z :=
  let word v := v :: replicate 7 0 in word 2 ++ word value ++ word value ++ word value ++ word value.

(** Descriptors 3, 4, ...; counters that advance with every call; two CPUs. *)
Definition quiet_perf_env : PerfEnv :=
  mkPerfEnv (fun n => 3 + Z.of_nat n) (fun _ => 0) (fun n => [ReadData (group_bytes (Z.of_nat n))])
    (fun _ => Some [0; 1]) (fun _ => 0) (fun _ => 0) (fun _ => 7) false.

(** The same with counters that open but cannot be enabled. *)
Definition stuck_perf_env : PerfEnv :=
  mkPerfEnv (fun n => 3 + Z.of_nat n) (fun _ => -1) (fun _ => [])
    (fun _ => Some [0; 1]) (fun _ => 0) (fun _ => 0) (fun _ => 7) false.

Definition fresh_pstate : pstate := mkPstate (initial_world 1 k_default_config) zero_perf [] false.

Section concrete.
#[local] Existing Instance quiet_env.
#[local] Existing Instance quiet_telemetry.
#[local] Existing Instance quiet_perf_env.

(** A context that has validated its counters. *)
Definition live_pstate : pstate :=
  run_perf_ops [PEnable; PBaseline (Some k_default_config)] (exec (tsd_perf_init false) fresh_pstate).

Lemma live_pstate_ok : live live_pstate.
Proof.
  split; [|split; vm_compute; reflexivity].
  apply reached_inv; [reflexivity | reflexivity | apply initial_system_inv | repeat constructor | vm_compute; reflexivity].
Qed.

(** A context that failed closed, and whose retry is due. *)
Definition software_pstate : pstate := due_again (exec perf_fail_closed live_pstate).

Lemma software_pstate_ok : mode_inv software_pstate.
Proof.
  exact (due_again_inv _ (keeps_fail_closed live_pstate (proj1 live_pstate_ok))).
Qed.

Lemma perf_descriptors_never_leak_witness :
  let s1 := run_perf_ops [PEnable; PBaseline (Some k_default_config); PEvaluate None] (exec (tsd_perf_init false) fresh_pstate) in
  length (ps_fds s1) = 3%nat /\ ps_fds (exec tsd_perf_cleanup s1) = [].
Proof.
  intros s1. split; [vm_compute; reflexivity|].
  refine (proj1 (proj2 (proj2 (perf_descriptors_never_leak false
    [PEnable; PBaseline (Some k_default_config); PEvaluate None] fresh_pstate eq_refl eq_refl _ _ _)))).
  - apply initial_system_inv.
  - repeat constructor.
  - vm_compute; reflexivity.
Defined.

Lemma perf_mode_controls_admission_witness :
  let s' := run_perf_ops [PEnable; PGuard GSandboxSuccess] (exec (tsd_perf_init false) fresh_pstate) in
  result tsd_perf_upgrades_allowed s' = false /\ g_wide_admission_open (w_guard (ps_world s')) = false.
Proof.
  intros s'. split; [vm_compute; reflexivity|].
  assert (HL : locks_ok) by (intros n; reflexivity).
  refine (proj2 (proj2 (proj2 (proj2 (perf_mode_controls_admission false [PEnable; PGuard GSandboxSuccess]
    fresh_pstate eq_refl eq_refl _ _ _)))) HL _ _).
  - apply initial_system_inv.
  - repeat constructor.
  - vm_compute; reflexivity.
  - vm_compute; discriminate.
  - vm_compute; reflexivity.
Defined.

Lemma evaluation_fails_closed_witness :
  result tsd_perf_upgrades_allowed (exec (tsd_perf_evaluate (Some k_default_config)) live_pstate) = true \/
  result (tsd_perf_evaluate (Some k_default_config)) live_pstate = severe zero_eval.
Proof.
  destruct (proj1 (evaluation_fails_closed (Some k_default_config) live_pstate live_pstate_ok)) as [H|H];
    [left; exact H | right; exact (proj1 (proj2 (proj2 H)))].
Defined.

Lemma recovery_is_transactional_witness :
  result try_recover_hardware software_pstate = true /\ baseline_evidence (ps_ctx (exec try_recover_hardware software_pstate)).
Proof.
  assert (Hr : result try_recover_hardware software_pstate = true) by (vm_compute; reflexivity).
  split; [exact Hr|].
  assert (Hm : p_mode (ps_ctx software_pstate) = TSD_PERF_MODE_SOFTWARE) by (vm_compute; reflexivity).
  exact (proj1 (proj2 (proj1 (recovery_is_transactional software_pstate software_pstate_ok Hm) Hr))).
Defined.

Lemma retry_backoff_bounded_witness :
  p_perf_retry_backoff_seconds (ps_ctx (exec schedule_perf_retry live_pstate)) = 10.
Proof.
  refine (proj1 (proj2 (retry_backoff_bounded live_pstate _ _))); vm_compute; [reflexivity | split; discriminate].
Defined.
End concrete.

Lemma rejected_reprobe_restarts_backoff_witness :
  let s := fresh_pstate <| ps_ctx := zero_perf <| p_mode := TSD_PERF_MODE_SOFTWARE |> <| p_perf_retry_backoff_seconds := 60 |> |> in
  result (try_recover_hardware (EV := quiet_env) (PE := stuck_perf_env) (TL := quiet_telemetry)) s = false /\
  p_perf_retry_backoff_seconds (ps_ctx (exec (try_recover_hardware (EV := quiet_env) (PE := stuck_perf_env) (TL := quiet_telemetry)) s)) = 10.
Proof.
  intros s.
  apply (rejected_reprobe_restarts_backoff (EV := quiet_env) (PE := stuck_perf_env) (TL := quiet_telemetry) s);
    [intros n; cbn; lia | intros n; discriminate | reflexivity | reflexivity | vm_compute; reflexivity].
Defined.
