(* ===== verification/TelemetryHelper.v ===== *)
(** * TelemetryHelper: the sensors of [src/src/telemetry_helper.c]

    Choosing the package temperature sensor among thermal zones and hwmon
    inputs, the cpufreq and MSR frequency ratios, and their retry schedules.
    The file system is an argument: each access takes the answer of its call
    index, so files may appear, change and vanish between accesses.  [hstate] is
    the process, the helper, the MSR descriptors that are open and the candidates
    seen by the last sensor search (the last two are ghost state).  [errno] only
    reaches log lines here and is left out. *)
From S2P Require Import Prelude Float64 Format ConfigParser Config World Guard Trampoline PerfMeasure Perf PerfMode.
From Stdlib Require Import Ascii String DecimalString.
#[local] Open Scope string_scope.
#[local] Open Scope Z_scope.

Definition INITIAL_BACKOFF_SEC : Z := 5.
Definition MAX_BACKOFF_SEC : Z := 600.
Definition TSD_TEMP_MIN_MILLIC : Z := -50000.
Definition TSD_TEMP_MAX_MILLIC : Z := 150000.
Definition TSD_METRIC_TELEMETRY_TEMP_DROPS : nat := 2.
Definition TSD_METRIC_TELEMETRY_TEMP_RECOVERIES : nat := 3.
Definition TSD_METRIC_TELEMETRY_FREQ_DROPS : nat := 4.
Definition TSD_METRIC_TELEMETRY_FREQ_RECOVERIES : nat := 5.
Definition TSD_METRIC_TELEMETRY_MSR_DROPS : nat := 6.
Definition TSD_METRIC_TELEMETRY_MSR_RECOVERIES : nat := 7.

Class SysEnv : Type := mkSysEnv {
  sys_text : nat -> string -> option string;        (** contents of a file, [None] when [fopen] fails *)
  sys_list : nat -> string -> option (list string); (** [readdir] names, [None] when [opendir] fails *)
  sys_readable : nat -> string -> bool;             (** [access(path, R_OK) == 0] *)
  sys_open : nat -> string -> Z;                    (** [open]: a descriptor or -1 *)
  sys_pread : nat -> Z -> Z -> option Z;            (** a whole 64-bit word at an offset, or a short read *)
}.

Record tsd_telemetry_helper_t : Type := mkHelper {
  h_cpu : Z;
  h_temp_available : bool;
  h_freq_sysfs_available : bool;
  h_msr_fd : Z;
  h_msr_available : bool;
  h_freq_max_khz : Z;
  h_last_aperf : Z;
  h_last_mperf : Z;
  h_temp_path : string;
  h_freq_cur_path : string;
  h_temp_retry_deadline : Z;
  h_freq_retry_deadline : Z;
  h_msr_retry_deadline : Z;
  h_temp_backoff_seconds : Z;
  h_freq_backoff_seconds : Z;
  h_msr_backoff_seconds : Z;
}.
#[export] Instance eta_helper : Eta tsd_telemetry_helper_t := fun h =>
  mkHelper (h_cpu h) (h_temp_available h) (h_freq_sysfs_available h) (h_msr_fd h) (h_msr_available h)
    (h_freq_max_khz h) (h_last_aperf h) (h_last_mperf h) (h_temp_path h) (h_freq_cur_path h)
    (h_temp_retry_deadline h) (h_freq_retry_deadline h) (h_msr_retry_deadline h)
    (h_temp_backoff_seconds h) (h_freq_backoff_seconds h) (h_msr_backoff_seconds h).

(** The helper after its [memset]. *)
Definition zero_helper : tsd_telemetry_helper_t := mkHelper 0 false false 0 false 0 0 0 "" "" 0 0 0 0 0 0.

(** A readable sensor with a plausible value, and the text it was judged by. *)
Record candidate : Type := mkCandidate { ca_path : string; ca_score : Z; ca_explicit : bool; ca_label : string }.

(** What the last search saw. *)
Record search : Type := mkSearch { se_package : Z; se_packages : Z; se_seen : list candidate }.
#[export] Instance eta_search : Eta search := fun s => mkSearch (se_package s) (se_packages s) (se_seen s).

Record hstate : Type := mkHstate {
  hs_world : world;
  hs_helper : tsd_telemetry_helper_t;
  hs_fds : list Z;
  hs_search : search;
}.
#[export] Instance eta_hstate : Eta hstate := fun s => mkHstate (hs_world s) (hs_helper s) (hs_fds s) (hs_search s).

Abbreviation HM := (ST hstate).

Definition in_world {A} (m : M A) : HM A := fun s => let '(a, w) := m (hs_world s) in (a, s <| hs_world := w |>).
Definition helper_get {A} (f : tsd_telemetry_helper_t -> A) : HM A := gets (fun s => f (hs_helper s)).
Definition helper_set (f : tsd_telemetry_helper_t -> tsd_telemetry_helper_t) : HM unit := modify (fun s => s <| hs_helper ::= f |>).
Definition hext {A} (f : nat -> A) : HM A := in_world (ext f).
Definition count_metric (id : nat) : HM unit := in_world (tsd_metrics_increment id).

(** [continue] for each name of a directory. *)
Fixpoint each {A} (body : string -> A -> HM A) (names : list string) (acc : A) : HM A :=
  match names with
  | [] => ret acc
  | name :: names => acc <- body name acc ;; each body names acc
  end.

(** ** Text *)

(** [snprintf] into a buffer: whether everything fitted, and what it then holds. *)
Definition snprintf (size : nat) (text : string) : bool * string :=
  (Nat.ltb (String.length text) size, String.substring 0 (Nat.pred size) text).

(** At most [n] characters, up to and including a newline. *)
Fixpoint fgets_line (n : nat) (s : string) : string :=
  match n, s with
  | S n, String c s => if code c =? 10 then String c "" else String c (fgets_line n s)
  | _, _ => ""
  end.


Definition is_blank (c : ascii) : bool := existsb (Z.eqb (code c)) [10; 13; 32; 9].

Fixpoint trim_end (s : string) : string :=
  match s with
  | "" => ""
  | String c s => let t := trim_end s in if is_blank c && is_empty t then "" else String c t
  end.

Fixpoint lowercase_ascii (s : string) : string :=
  match s with "" => "" | String c s => String (tolower c) (lowercase_ascii s) end.

(** ** Retry schedules: the deadline and the backoff *)

Definition schedule_retry (now backoff : Z) : Z * Z :=
  let backoff := if backoff <=? 0 then INITIAL_BACKOFF_SEC else backoff in
  let next := if backoff >? MAX_BACKOFF_SEC then MAX_BACKOFF_SEC else backoff in
  (now + next,
   if backoff <? MAX_BACKOFF_SEC then
     let doubled := backoff * 2 in if doubled >? MAX_BACKOFF_SEC then MAX_BACKOFF_SEC else doubled
   else backoff).

Definition reset_temp_retry (h : tsd_telemetry_helper_t) : tsd_telemetry_helper_t :=
  h <| h_temp_retry_deadline := 0 |> <| h_temp_backoff_seconds := INITIAL_BACKOFF_SEC |>.
Definition reset_freq_retry (h : tsd_telemetry_helper_t) : tsd_telemetry_helper_t :=
  h <| h_freq_retry_deadline := 0 |> <| h_freq_backoff_seconds := INITIAL_BACKOFF_SEC |>.
Definition reset_msr_retry (h : tsd_telemetry_helper_t) : tsd_telemetry_helper_t :=
  h <| h_msr_retry_deadline := 0 |> <| h_msr_backoff_seconds := INITIAL_BACKOFF_SEC |>.

(** ** Sensor labels *)

Definition label_mentions_package (label : string) (package_id : Z) : bool :=
  if package_id <? 0 then false
  else strstr label ("package id " ++ decimal package_id) || strstr label ("package " ++ decimal package_id)
       || strstr label ("pkg" ++ decimal package_id).

Definition driver_score (driver : string) : Z :=
  if strstr driver "x86_pkg_temp" then 120
  else if strstr driver "coretemp" then 110
  else if strstr driver "k10temp" then 110
  else if strstr driver "zenpower" then 105
  else if strstr driver "cpu" then 50 else 0.

Definition label_score (label : string) (package_id : Z) : Z :=
  if label_mentions_package label package_id then 150
  else if strstr label "package" then 100
  else if strstr label "pkg" then 90
  else if strstr label "tctl" then 85
  else if strstr label "tdie" then 80
  else if strstr label "cpu" then 50
  else if strstr label "core" then 10 else 0.

Definition temperature_candidate_score (driver label : option string) (package_id : Z) : Z :=
  match driver with Some d => driver_score d | None => 0 end +
  match label with Some l => label_score l package_id | None => 0 end.

(** [tempN_input]: the index. *)
Fixpoint temp_index (s : string) (value : Z) : option Z :=
  match s with
  | String c rest =>
      if isdigit c then
        let value := value * 10 + digit_val c in if value >? 9999 then None else temp_index rest value
      else if String.eqb s "_input" then Some value else None
  | "" => None
  end.

Definition parse_hwmon_temp_input (name : string) : option Z :=
  if String.prefix "temp" name then
    match String.substring 4 (String.length name - 4) name with
    | String c rest => if isdigit c then temp_index (String c rest) 0 else None
    | "" => None
    end
  else None.

(** [temp_candidate_state_t] *)
Record temp_candidate_state_t : Type := mkBest { b_path : string; b_score : Z; b_explicit : bool; b_ambiguous : bool }.
#[export] Instance eta_best : Eta temp_candidate_state_t := fun b => mkBest (b_path b) (b_score b) (b_explicit b) (b_ambiguous b).

(** The comparison with the best so far, once the candidate was read. *)
Definition compare_candidate (c : candidate) (best : temp_candidate_state_t) : temp_candidate_state_t :=
  if (ca_score c >? b_score best) || ((ca_score c =? b_score best) && (ca_explicit c && negb (b_explicit best))) then
    let '(fits, text) := snprintf 256 (ca_path c) in
    if fits then mkBest text (ca_score c) (ca_explicit c) false else best <| b_path := text |>
  else if (ca_score c =? b_score best) && Bool.eqb (ca_explicit c) (b_explicit best) &&
          negb (is_empty (b_path best)) && negb (String.eqb (ca_path c) (b_path best)) then best <| b_ambiguous := true |>
  else best.

Section helper.
Context `{EV : Env, SE : SysEnv}.

Definition tsd_now_seconds : HM Z :=
  now <- hext env_clock ;;
  ret (match now with Some (sec, _) => if sec <? 0 then 0 else sec | None => 0 end).

(** [None] is -1. *)
Definition read_text_from_path (path : string) (size : nat) : HM (option string) :=
  text <- hext (fun n => sys_text n path) ;;
  ret (match text with
       | None | Some "" => None
       | Some text => Some (trim_end (until_nul (fgets_line (Nat.pred size) text)))
       end).

Definition read_long_from_path (path : string) : HM (option Z) :=
  text <- read_text_from_path path 64 ;;
  ret (match text with
       | None => None
       | Some text => let r := strtol text in if conversion_complete r then Some (st_val r) else None
       end).

Definition physical_package_id (cpu : Z) : HM Z :=
  let '(fits, path) := snprintf 256 ("/sys/devices/system/cpu/cpu" ++ decimal cpu ++ "/topology/physical_package_id") in
  if negb fits then ret (-1)
  else
    package <- read_long_from_path path ;;
    ret (match package with
         | Some package => if (package <? 0) || (package >? 4096) then -1 else i32 package
         | None => -1
         end).

(** The CPU number of a directory entry of [/sys/devices/system/cpu]. *)
Definition cpu_entry (name : string) : option Z :=
  if String.prefix "cpu" name then
    match String.substring 3 (String.length name - 3) name with
    | String c rest =>
        if isdigit c then
          let r := strtol (String c rest) in
          match st_end r with
          | Some "" => if (st_val r <? 0) || (st_val r >? 1048576) then None else Some (i32 (st_val r))
          | _ => None
          end
        else None
    | "" => None
    end
  else None.

Definition physical_package_count : HM Z :=
  names <- hext (fun n => sys_list n "/sys/devices/system/cpu") ;;
  match names with
  | None => ret 0
  | Some names =>
      packages <- each (fun name packages =>
        match cpu_entry name with
        | None => ret packages
        | Some cpu =>
            package <- physical_package_id cpu ;;
            ret (if package <? 0 then packages
                 else if existsb (Z.eqb package) packages then packages
                 else if Nat.ltb (List.length packages) 256 then packages ++ [package] else packages)%list
        end) names [] ;;
      ret (Z.of_nat (List.length packages))
  end.

Definition consider_temp_candidate (path : string) (score : Z) (explicit_package_match : bool) (label : string)
    (best : temp_candidate_state_t) : HM temp_candidate_state_t :=
  readable <- hext (fun n => sys_readable n path) ;;
  if negb readable then ret best
  else
    value <- read_long_from_path path ;;
    match value with
    | None => ret best
    | Some value =>
        if (value <? TSD_TEMP_MIN_MILLIC) || (value >? TSD_TEMP_MAX_MILLIC) then ret best
        else
          let c := mkCandidate path score explicit_package_match label in
          modify (fun s => s <| hs_search ::= fun t => t <| se_seen ::= fun cs => (cs ++ [c])%list |> |>) ;;;
          ret (compare_candidate c best)
    end.

Definition scan_thermal_zones (package_id : Z) (best : temp_candidate_state_t) : HM temp_candidate_state_t :=
  names <- hext (fun n => sys_list n "/sys/class/thermal") ;;
  match names with
  | None => ret best
  | Some names =>
      each (fun name best =>
        if negb (String.prefix "thermal_zone" name) then ret best
        else
          let '(ok1, type_path) := snprintf 320 ("/sys/class/thermal/" ++ name ++ "/type") in
          let '(ok2, temp_path) := snprintf 320 ("/sys/class/thermal/" ++ name ++ "/temp") in
          if negb ok1 || negb ok2 then ret best
          else
            type <- read_text_from_path type_path 128 ;;
            match type with
            | None => ret best
            | Some type =>
                let type := lowercase_ascii type in
                let score := temperature_candidate_score (Some type) (Some type) package_id in
                if score >=? 50
                then consider_temp_candidate temp_path score (label_mentions_package type package_id) type best
                else ret best
            end) names best
  end.

(** The inputs of one hwmon device. *)
Definition scan_hwmon_device (package_id : Z) (base : string) (driver_score : Z) (best : temp_candidate_state_t) :
    HM temp_candidate_state_t :=
  names <- hext (fun n => sys_list n base) ;;
  match names with
  | None => ret best
  | Some names =>
      each (fun name best =>
        match parse_hwmon_temp_input name with
        | None => ret best
        | Some index =>
            let '(ok1, input_path) := snprintf 384 (base ++ "/" ++ name) in
            let '(ok2, label_path) := snprintf 384 (base ++ "/temp" ++ decimal index ++ "_label") in
            if negb ok1 || negb ok2 then ret best
            else
              text <- read_text_from_path label_path 128 ;;
              let label := match text with Some t => lowercase_ascii t | None => "" end in
              let score := driver_score + temperature_candidate_score None (Some label) package_id in
              consider_temp_candidate input_path score (label_mentions_package label package_id) label best
        end) names best
  end.

Definition scan_hwmon (package_id : Z) (best : temp_candidate_state_t) : HM temp_candidate_state_t :=
  names <- hext (fun n => sys_list n "/sys/class/hwmon") ;;
  match names with
  | None => ret best
  | Some names =>
      each (fun name best =>
        if negb (String.prefix "hwmon" name) then ret best
        else
          let '(ok, base) := snprintf 320 ("/sys/class/hwmon/" ++ name) in
          if negb ok then ret best
          else
            driver <- read_text_from_path (snprintf 384 (base ++ "/name")).2 128 ;;
            match driver with
            | None => ret best
            | Some driver =>
                let score := temperature_candidate_score (Some (lowercase_ascii driver)) None package_id in
                if score =? 0 then ret best else scan_hwmon_device package_id base score best
            end) names best
  end.

(** What [detect_temp_sensor] requires of the best candidate. *)
Definition sensor_trusted (package_id package_count : Z) (best : temp_candidate_state_t) : bool :=
  negb ((package_count >? 1) && ((package_id <? 0) || negb (b_explicit best))) &&
  negb ((package_id >=? 0) && b_ambiguous best && negb (b_explicit best)).

Definition detect_temp_sensor : HM bool :=
  helper_set (fun h => h <| h_temp_available := false |> <| h_temp_path := "" |>) ;;;
  cpu <- helper_get h_cpu ;;
  package_id <- physical_package_id cpu ;;
  modify (fun s => s <| hs_search := mkSearch package_id 0 [] |>) ;;;
  best <- scan_thermal_zones package_id (mkBest "" (-1) false false) ;;
  best <- scan_hwmon package_id best ;;
  if (b_score best <? 0) || is_empty (b_path best) then ret false
  else
    package_count <- physical_package_count ;;
    modify (fun s => s <| hs_search ::= fun t => t <| se_packages := package_count |> |>) ;;;
    if negb (sensor_trusted package_id package_count best) then ret false
    else
      let '(fits, path) := snprintf 256 (b_path best) in
      if negb fits then helper_set (fun h => h <| h_temp_path := path |>) ;;; ret false
      else helper_set (fun h => h <| h_temp_path := path |> <| h_temp_available := true |>) ;;; ret true.

(** ** Frequency *)

Definition cpufreq_path (cpu : Z) (file : string) : bool * string :=
  snprintf 256 ("/sys/devices/system/cpu/cpu" ++ decimal cpu ++ "/cpufreq/" ++ file).

(** A positive frequency read from a path that fitted its buffer. *)
Definition read_khz (path : bool * string) : HM (option Z) :=
  if negb path.1 then ret None
  else khz <- read_long_from_path path.2 ;; ret (match khz with Some k => if k <=? 0 then None else Some k | None => None end).

Definition freq_unavailable (h : tsd_telemetry_helper_t) : tsd_telemetry_helper_t :=
  h <| h_freq_sysfs_available := false |> <| h_freq_cur_path := "" |> <| h_freq_max_khz := 0 |>.

Definition detect_cpufreq_paths : HM bool :=
  cpu <- helper_get h_cpu ;;
  let '(fits, path) := cpufreq_path cpu "scaling_cur_freq" in
  readable <- (if negb fits then ret false else hext (fun n => sys_readable n path)) ;;
  if negb readable then helper_set freq_unavailable ;;; ret false
  else
    let '(fits, copy) := snprintf 256 path in
    helper_set (fun h => h <| h_freq_cur_path := copy |>) ;;;
    if negb fits then ret false
    else
      khz <- read_khz (cpufreq_path cpu "scaling_max_freq") ;;
      khz <- match khz with Some k => ret (Some k) | None => read_khz (cpufreq_path cpu "cpuinfo_max_freq") end ;;
      match khz with
      | None => helper_set freq_unavailable ;;; ret false
      | Some k => helper_set (fun h => h <| h_freq_sysfs_available := true |> <| h_freq_max_khz := u64 k |>) ;;; ret true
      end.

Definition retry_temp_later : HM unit :=
  now <- tsd_now_seconds ;;
  helper_set (fun h => h <| h_temp_retry_deadline := (schedule_retry now (h_temp_backoff_seconds h)).1 |>
                         <| h_temp_backoff_seconds := (schedule_retry now (h_temp_backoff_seconds h)).2 |>).
Definition retry_freq_later : HM unit :=
  now <- tsd_now_seconds ;;
  helper_set (fun h => h <| h_freq_retry_deadline := (schedule_retry now (h_freq_backoff_seconds h)).1 |>
                         <| h_freq_backoff_seconds := (schedule_retry now (h_freq_backoff_seconds h)).2 |>).
Definition retry_msr_later : HM unit :=
  now <- tsd_now_seconds ;;
  helper_set (fun h => h <| h_msr_retry_deadline := (schedule_retry now (h_msr_backoff_seconds h)).1 |>
                         <| h_msr_backoff_seconds := (schedule_retry now (h_msr_backoff_seconds h)).2 |>).

Definition reopen_msr (emit_events : bool) : HM Z :=
  cpu <- helper_get h_cpu ;;
  let '(fits, path) := snprintf 128 ("/dev/cpu/" ++ decimal cpu ++ "/msr") in
  if negb fits then ret (-1)
  else
    fd <- hext (fun n => sys_open n path) ;;
    if fd >=? 0 then
      modify (fun s => s <| hs_fds ::= cons fd |>) ;;;
      helper_set (fun h => reset_msr_retry (h <| h_msr_fd := fd |> <| h_msr_available := true |>)) ;;;
      when emit_events (count_metric TSD_METRIC_TELEMETRY_MSR_RECOVERIES) ;;;
      ret 0
    else
      helper_set (fun h => h <| h_msr_fd := -1 |> <| h_msr_available := false |>) ;;;
      retry_msr_later ;;;
      ret (-1).

Definition MSR_IA32_MPERF : Z := 231.
Definition MSR_IA32_APERF : Z := 232.

Definition read_msr64 (fd offset : Z) : HM (option Z) :=
  if fd <? 0 then ret None
  else word <- hext (fun n => sys_pread n fd offset) ;; ret (option_map u64 word).

Definition close_msr : HM unit :=
  fd <- helper_get h_msr_fd ;;
  modify (fun s => s <| hs_fds ::= remove_fd fd |>).

(** ** Life of a helper *)

Definition tsd_telemetry_helper_init_impl (cpu : Z) : HM Z :=
  if cpu <? 0 then ret (-1)
  else
    helper_set (fun _ => reset_msr_retry (reset_freq_retry (reset_temp_retry (zero_helper <| h_cpu := cpu |> <| h_msr_fd := -1 |>)))) ;;;
    found <- detect_temp_sensor ;;
    when found (helper_set reset_temp_retry) ;;;
    found <- detect_cpufreq_paths ;;
    when found (helper_set reset_freq_retry) ;;;
    rc <- reopen_msr false ;;
    when (rc <>? 0) (count_metric TSD_METRIC_TELEMETRY_MSR_DROPS) ;;;
    ret 0.

Definition tsd_telemetry_helper_destroy_impl : HM unit :=
  fd <- helper_get h_msr_fd ;;
  when (fd >=? 0) close_msr ;;;
  helper_set (fun h => h <| h_msr_fd := -1 |> <| h_msr_available := false |>).

(** ** Sampling *)

(** A retry is due. *)
Definition due (deadline : tsd_telemetry_helper_t -> Z) : HM bool :=
  now <- tsd_now_seconds ;;
  at_ <- helper_get deadline ;;
  ret ((at_ =? 0) || (now >=? at_)).

(** Searching again for a lost sensor. *)
Definition recover_temp : HM unit :=
  available <- helper_get (fun h => h_temp_available h && negb (is_empty (h_temp_path h))) ;;
  if available then ret tt
  else
    now <- due h_temp_retry_deadline ;;
    when now
      (found <- detect_temp_sensor ;;
       if found then helper_set reset_temp_retry ;;; count_metric TSD_METRIC_TELEMETRY_TEMP_RECOVERIES
       else retry_temp_later).

Definition sample_temperature (out : tsd_telemetry_sample_t) : HM tsd_telemetry_sample_t :=
  recover_temp ;;;
  available <- helper_get h_temp_available ;;
  if negb available then ret out
  else
    path <- helper_get h_temp_path ;;
    value <- read_long_from_path path ;;
    match match value with
          | Some v => if (v >=? TSD_TEMP_MIN_MILLIC) && (v <=? TSD_TEMP_MAX_MILLIC) then Some v else None
          | None => None
          end with
    | Some v => ret (out <| ts_temp_available := true |> <| ts_package_temp_millic := i32 v |>)
    | None =>
        helper_set (fun h => h <| h_temp_available := false |> <| h_temp_path := "" |>) ;;;
        count_metric TSD_METRIC_TELEMETRY_TEMP_DROPS ;;;
        retry_temp_later ;;;
        ret out
    end.

(** [(uint128)num * 1000 / den], saturated to 32 bits. *)
Definition ratio_milli (num den : Z) : Z :=
  let ratio := u64 (num * 1000 / den) in if ratio >? UINT32_MAX then UINT32_MAX else ratio.

Definition sample_msr_ratio (out : tsd_telemetry_sample_t) : HM tsd_telemetry_sample_t :=
  usable <- helper_get (fun h => h_msr_available h && (h_msr_fd h >=? 0)) ;;
  (if usable then ret tt else now <- due h_msr_retry_deadline ;; when now (reopen_msr true ;;; ret tt)) ;;;
  usable <- helper_get (fun h => h_msr_available h && (h_msr_fd h >=? 0)) ;;
  if negb usable then ret out
  else
    fd <- helper_get h_msr_fd ;;
    aperf <- read_msr64 fd MSR_IA32_APERF ;;
    mperf <- match aperf with Some _ => read_msr64 fd MSR_IA32_MPERF | None => ret None end ;;
    match aperf, mperf with
    | Some aperf, Some mperf =>
        h <- helper_get id ;;
        helper_set (fun h => h <| h_last_aperf := aperf |> <| h_last_mperf := mperf |>) ;;;
        ret (if (h_last_mperf h <>? 0) && (mperf >? h_last_mperf h) && (aperf >=? h_last_aperf h)
             then out <| ts_freq_ratio_milli := ratio_milli (aperf - h_last_aperf h) (mperf - h_last_mperf h) |>
                      <| ts_freq_ratio_available := true |>
             else out)
    | _, _ =>
        close_msr ;;;
        helper_set (fun h => h <| h_msr_fd := -1 |> <| h_msr_available := false |>) ;;;
        count_metric TSD_METRIC_TELEMETRY_MSR_DROPS ;;;
        retry_msr_later ;;;
        ret out
    end.

Definition recover_freq : HM unit :=
  available <- helper_get (fun h => h_freq_sysfs_available h && negb (is_empty (h_freq_cur_path h)) && negb (h_freq_max_khz h =? 0)) ;;
  if available then ret tt
  else
    now <- due h_freq_retry_deadline ;;
    when now
      (found <- detect_cpufreq_paths ;;
       if found then helper_set reset_freq_retry ;;; count_metric TSD_METRIC_TELEMETRY_FREQ_RECOVERIES
       else retry_freq_later).

Definition sample_cpufreq_ratio (out : tsd_telemetry_sample_t) : HM tsd_telemetry_sample_t :=
  recover_freq ;;;
  available <- helper_get h_freq_sysfs_available ;;
  if negb available then ret out
  else
    path <- helper_get h_freq_cur_path ;;
    khz <- read_khz (true, path) ;;
    match khz with
    | None =>
        helper_set (fun h => h <| h_freq_sysfs_available := false |> <| h_freq_cur_path := "" |>) ;;;
        count_metric TSD_METRIC_TELEMETRY_FREQ_DROPS ;;;
        retry_freq_later ;;;
        ret out
    | Some cur_khz =>
        max <- helper_get h_freq_max_khz ;;
        ret (out <| ts_freq_ratio_milli := ratio_milli cur_khz max |> <| ts_freq_ratio_available := true |>)
    end.

Definition tsd_telemetry_helper_sample_impl : HM (Z * tsd_telemetry_sample_t) :=
  out <- sample_temperature zero_sample ;;
  out <- sample_msr_ratio out ;;
  out <- (if negb (ts_freq_ratio_available out) then sample_cpufreq_ratio out else ret out) ;;
  ret (if ts_temp_available out || ts_freq_ratio_available out then 0 else -1, out).
End helper.

(** ** The best candidate *)

(** The order of [consider_temp_candidate], by score and then an explicit match,
    as one number. *)
Definition rank_of (score : Z) (explicit : bool) : Z := 2 * score + Z.b2z explicit.
Definition rank (c : candidate) : Z := rank_of (ca_score c) (ca_explicit c).

(** A candidate as the scans produce them. *)
Definition plausible (c : candidate) : Prop := 0 <= ca_score c /\ is_empty (ca_path c) = false /\ (String.length (ca_path c) < 256)%nat.

(** [c] is the choice from [cs]: the first of the highest rank, and [ambiguous]
    tells whether another sensor has the same rank. *)
Record choice (cs : list candidate) (c : candidate) (ambiguous : bool) : Prop := {
  ch_member : In c cs;
  ch_best : forall d, In d cs -> rank d <= rank c;
  ch_ambiguous : ambiguous = true <-> exists d, In d cs /\ rank d = rank c /\ ca_path d <> ca_path c;
}.

Definition best_of (cs : list candidate) (best : temp_candidate_state_t) : Prop :=
  (cs = [] /\ best = mkBest "" (-1) false false) \/
  exists c, choice cs c (b_ambiguous best) /\ b_path best = ca_path c /\ b_score best = ca_score c /\ b_explicit best = ca_explicit c.

Lemma substring_all s n : (String.length s <= n)%nat -> String.substring 0 n s = s.
Proof. revert n. induction s as [|c s IH]; intros [|n] H; cbn in *; try done; [lia|]. f_equal. apply IH. lia. Qed.

Lemma snprintf_fits size s : (String.length s < size)%nat -> snprintf size s = (true, s).
Proof.
  intros H. unfold snprintf. rewrite substring_all by lia. f_equal. by apply Nat.ltb_lt.
Qed.

Lemma snprintf_true size s : (snprintf size s).1 = true -> (snprintf size s).2 = s /\ (String.length s < size)%nat.
Proof. cbn. intros H. apply Nat.ltb_lt in H. split; [apply substring_all; lia | done]. Qed.

Lemma snprintf_empty n s : is_empty (snprintf (S (S n)) s).2 = is_empty s.
Proof. by destruct s. Qed.

Lemma choice_new cs c : (forall d, In d cs -> rank d < rank c) -> choice (cs ++ [c])%list c false.
Proof.
  intros H. split.
  - apply in_or_app. right. by left.
  - intros d [Hd|[<-|[]]]%in_app_or; [specialize (H d Hd)|]; lia.
  - split; [done|]. intros (d & [Hd|[<-|[]]]%in_app_or & Hr & Hp); [|done]. specialize (H d Hd). lia.
Qed.

Lemma choice_keep cs c b a a' :
  choice cs b a -> rank c <= rank b -> (a' = true <-> a = true \/ (rank c = rank b /\ ca_path c <> ca_path b)) ->
  choice (cs ++ [c])%list b a'.
Proof.
  intros [H1 H2 H3] Hn Ha. split.
  - apply in_or_app. by left.
  - intros d [Hd|[<-|[]]]%in_app_or; [by apply H2 | done].
  - rewrite Ha, H3. split.
    + intros [(d & Hd & Ht)|Ht]; [exists d | exists c]; (split; [apply in_or_app; cbn; auto | done]).
    + intros (d & [Hd|[<-|[]]]%in_app_or & Ht); [left; by exists d | by right].
Qed.

(** The two comparisons of the code are those of the ranks. *)
Lemma better_iff s1 e1 s2 e2 :
  (s1 >? s2) || ((s1 =? s2) && (e1 && negb e2)) = (rank_of s2 e2 <? rank_of s1 e1).
Proof.
  apply eq_true_iff_eq. rewrite orb_true_iff, !andb_true_iff, Z.gtb_ltb, !Z.ltb_lt, Z.eqb_eq. unfold rank_of.
  destruct e1, e2; cbn; intuition (lia || congruence).
Qed.

Lemma tied_iff s1 e1 s2 e2 : (s1 =? s2) && Bool.eqb e1 e2 = (rank_of s1 e1 =? rank_of s2 e2).
Proof.
  apply eq_true_iff_eq. rewrite andb_true_iff, !Z.eqb_eq. unfold rank_of. destruct e1, e2; cbn; intuition (lia || congruence).
Qed.

Lemma compare_candidate_ok cs c best :
  plausible c -> (forall d, In d cs -> plausible d) -> best_of cs best -> best_of (cs ++ [c]) (compare_candidate c best).
Proof.
  intros (Hs & Hp & Hl) Hcs Hb. unfold compare_candidate. rewrite better_iff, tied_iff, (snprintf_fits 256 _ Hl).
  destruct Hb as [[-> ->]|(b & Hc & E1 & E2 & E3)]; cbn [b_score b_explicit b_path b_ambiguous].
  - rewrite (proj2 (Z.ltb_lt _ _)) by (unfold rank_of; destruct (ca_explicit c); cbn; lia).
    right. exists c. split; [by apply choice_new|]. done.
  - rewrite E1, E2, E3. fold (rank c) (rank b). destruct (rank b <? rank c) eqn:Er; zbool.
    + right. exists c. split; [|done]. apply choice_new. intros d Hd. pose proof (ch_best _ _ _ Hc d Hd). lia.
    + assert (Hbp : is_empty (ca_path b) = false) by apply Hcs, Hc. rewrite Hbp. cbn [negb]. rewrite andb_true_r.
      right. exists b. destruct ((rank c =? rank b) && negb (String.eqb (ca_path c) (ca_path b))) eqn:Et; cbn.
      * split; [|done]. apply andb_true_iff in Et as [Et Ep]. apply negb_true_iff, String.eqb_neq in Ep. zbool.
        eapply choice_keep; [exact Hc | lia |]. split; [intros _; by right | done].
      * split; [|done]. eapply choice_keep; [exact Hc | lia |]. split; [by left|]. intros [?|[Hr Hne]]; [done|].
        apply andb_false_iff in Et as [Et|Et]; zbool; [lia|]. apply String.eqb_eq in Et. done.
Qed.

(** ** Reading leaves the helper alone *)

Definition side (s : hstate) := (hs_helper s, hs_fds s, hs_search s).
Abbreviation reads_only := (respects (fun s s' : hstate => side s = side s')).

Definition owned (s : hstate) := (hs_helper s, hs_fds s).
Abbreviation scans_only := (respects (fun s s' : hstate => owned s = owned s')).

Lemma respects_each {A} R `{!PreOrder R} (body : string -> A -> HM A) names acc :
  (forall name acc, respects R (body name acc)) -> respects R (each body names acc).
Proof.
  intros H. revert acc. induction names as [|name names IH]; intros acc; cbn [each]; [by apply respects_ret|].
  apply respects_bind; [exact _ | apply H | intros a; apply IH].
Qed.

Lemma wp_each {A} (I : A -> hstate -> Prop) (body : string -> A -> HM A) names acc s :
  (forall name acc s, I acc s -> wp (body name acc) I s) -> I acc s -> wp (each body names acc) I s.
Proof.
  intros H. revert acc s. induction names as [|name names IH]; intros acc s Hi; cbn [each]; [by apply wp_ret|].
  apply wp_bind. eapply wp_mono; [by apply H|]. intros a s' Ha. by apply IH.
Qed.

Lemma in_world_side {A} (m : M A) : reads_only (in_world m).
Proof. intros s. unfold in_world. by destruct (m (hs_world s)). Qed.

(** Continue with any state whose helper side is the same. *)
Lemma wp_reads {A} (m : HM A) Q s : reads_only m -> (forall a s', side s = side s' -> Q a s') -> wp m Q s.
Proof. intros Hm HQ. unfold wp. apply HQ, Hm. Qed.

Section reading.
Context `{EV : Env, SE : SysEnv}.

Ltac reads := repeat first [respects_step | apply in_world_side | apply respects_each; [exact _|]; intros].

Lemma hext_side {A} (f : nat -> A) : reads_only (hext f).
Proof. apply in_world_side. Qed.
Lemma metric_side i : reads_only (count_metric i).
Proof. apply in_world_side. Qed.
Lemma now_side : reads_only tsd_now_seconds.
Proof. unfold tsd_now_seconds, hext. reads. Qed.
Lemma read_text_side path size : reads_only (read_text_from_path path size).
Proof. unfold read_text_from_path, hext. reads. Qed.
Lemma read_long_side path : reads_only (read_long_from_path path).
Proof. unfold read_long_from_path. repeat first [respects_step | apply read_text_side]. Qed.
Lemma package_id_side cpu : reads_only (physical_package_id cpu).
Proof. unfold physical_package_id. repeat first [respects_step | apply read_long_side]. Qed.
Lemma package_count_side : reads_only physical_package_count.
Proof.
  unfold physical_package_count, hext. repeat first [respects_step | apply in_world_side | apply respects_each; [exact _|]; intros | apply package_id_side].
Qed.
Lemma read_khz_side path : reads_only (read_khz path).
Proof. unfold read_khz. repeat first [respects_step | apply read_long_side]. Qed.
Lemma due_side deadline : reads_only (due deadline).
Proof. unfold due, helper_get. repeat first [respects_step | apply now_side]. Qed.
Lemma read_msr64_side fd off : reads_only (read_msr64 fd off).
Proof. unfold read_msr64, hext. reads. Qed.

(** ** The sensor search *)

(** What the scans maintain about the candidates of the log and the best so far. *)
Definition scanning (package_id : Z) (best : temp_candidate_state_t) (s : hstate) : Prop :=
  let cs := se_seen (hs_search s) in
  se_package (hs_search s) = package_id /\
  (forall c, In c cs -> 0 <= ca_score c /\ is_empty (ca_path c) = false /\
                        ca_explicit c = label_mentions_package (ca_label c) package_id) /\
  ((forall c, In c cs -> (String.length (ca_path c) < 256)%nat) -> best_of cs best).

Lemma scanning_side pkg best s s' : side s = side s' -> scanning pkg best s -> scanning pkg best s'.
Proof. unfold side, scanning. intros [= _ _ ->]. done. Qed.

Lemma consider_ok pkg path score label best s :
  0 <= score -> is_empty path = false -> scanning pkg best s ->
  wp (consider_temp_candidate path score (label_mentions_package label pkg) label best) (scanning pkg) s.
Proof.
  intros Hsc Hpath Hs. unfold consider_temp_candidate. apply wp_bind. apply wp_reads; [apply hext_side|]. intros readable s1 E1.
  apply (scanning_side _ _ _ _ E1) in Hs. destruct (negb readable); [by apply wp_ret|].
  apply wp_bind. apply wp_reads; [apply read_long_side|]. intros [value|] s2 E2; apply (scanning_side _ _ _ _ E2) in Hs; [|by apply wp_ret].
  destruct (_ || _); [by apply wp_ret|]. apply wp_bind, wp_modify, wp_ret. destruct Hs as (H1 & H2 & H3).
  assert (Hin : forall c, In c (se_seen (hs_search s2) ++ [mkCandidate path score (label_mentions_package label pkg) label])%list ->
                In c (se_seen (hs_search s2)) \/ c = mkCandidate path score (label_mentions_package label pkg) label).
  { intros c [Hc|[<-|[]]]%in_app_or; auto. }
  split; [done|]. split.
  - intros c Hc. destruct (Hin c Hc) as [Hc' | ->]; [by apply H2 | done].
  - intros Hshort. apply compare_candidate_ok.
    + split; [done|]. split; [done|]. apply Hshort, in_or_app. right. by left.
    + intros d Hd. destruct (H2 d Hd) as (? & ? & _). split; [done|]. split; [done|]. apply Hshort, in_or_app. by left.
    + apply H3. intros c Hc. apply Hshort, in_or_app. by left.
Qed.

Lemma driver_score_nonneg d : 0 <= driver_score d.
Proof. unfold driver_score. repeat case_if; lia. Qed.
Lemma label_score_nonneg l pkg : 0 <= label_score l pkg.
Proof. unfold label_score. repeat case_if; lia. Qed.
Lemma candidate_score_nonneg d l pkg : 0 <= temperature_candidate_score d l pkg.
Proof.
  unfold temperature_candidate_score. destruct d as [d|], l as [l|];
    try pose proof (driver_score_nonneg d); try pose proof (label_score_nonneg l pkg); lia.
Qed.

Lemma thermal_zones_ok pkg best s : scanning pkg best s -> wp (scan_thermal_zones pkg best) (scanning pkg) s.
Proof.
  intros Hs. unfold scan_thermal_zones. apply wp_bind. apply wp_reads; [apply hext_side|]. intros [names|] s1 E1;
    apply (scanning_side _ _ _ _ E1) in Hs; [|by apply wp_ret].
  apply wp_each; [|done]. clear s s1 E1 Hs best. intros name best s Hs. destruct (negb _); [by apply wp_ret|].
  destruct (snprintf 320 ("/sys/class/thermal/" ++ name ++ "/type")) as [ok1 type_path].
  destruct (snprintf 320 ("/sys/class/thermal/" ++ name ++ "/temp")) as [ok2 temp_path] eqn:E2.
  destruct (negb ok1 || negb ok2) eqn:Eok; [by apply wp_ret|]. apply orb_false_iff in Eok as [_ Eok]. apply negb_false_iff in Eok. subst ok2.
  assert (Hp : is_empty temp_path = false).
  { pose proof (snprintf_true 320 ("/sys/class/thermal/" ++ name ++ "/temp")) as H. rewrite E2 in H. cbn [fst snd] in H. by destruct (H eq_refl) as [-> _]. }
  apply wp_bind. apply wp_reads; [apply read_text_side|]. intros [type|] s2 E3; apply (scanning_side _ _ _ _ E3) in Hs; [|by apply wp_ret].
  destruct (_ >=? 50); [|by apply wp_ret]. apply consider_ok; [apply candidate_score_nonneg | done | done].
Qed.

Lemma hwmon_device_ok pkg base score best s :
  0 <= score -> scanning pkg best s -> wp (scan_hwmon_device pkg base score best) (scanning pkg) s.
Proof.
  intros Hsc Hs. unfold scan_hwmon_device. apply wp_bind. apply wp_reads; [apply hext_side|]. intros [names|] s1 E1;
    apply (scanning_side _ _ _ _ E1) in Hs; [|by apply wp_ret].
  apply wp_each; [|done]. clear s s1 E1 Hs best. intros name best s Hs. destruct (parse_hwmon_temp_input name) as [index|]; [|by apply wp_ret].
  destruct (snprintf 384 (base ++ "/" ++ name)) as [ok1 input_path] eqn:E2.
  destruct (snprintf 384 (base ++ "/temp" ++ decimal index ++ "_label")) as [ok2 label_path].
  destruct (negb ok1 || negb ok2) eqn:Eok; [by apply wp_ret|]. apply orb_false_iff in Eok as [Eok _]. apply negb_false_iff in Eok. subst ok1.
  assert (Hp : is_empty input_path = false).
  { pose proof (snprintf_true 384 (base ++ "/" ++ name)) as H. rewrite E2 in H. cbn [fst snd] in H. destruct (H eq_refl) as [-> _]. by destruct base. }
  apply wp_bind. apply wp_reads; [apply read_text_side|]. intros text s2 E3. apply (scanning_side _ _ _ _ E3) in Hs. cbv zeta.
  match goal with |- context [temperature_candidate_score None (Some ?l) pkg] => set (label := l); pose proof (candidate_score_nonneg None (Some label) pkg) end.
  apply consider_ok; [lia | done | done].
Qed.

Lemma hwmon_ok pkg best s : scanning pkg best s -> wp (scan_hwmon pkg best) (scanning pkg) s.
Proof.
  intros Hs. unfold scan_hwmon. apply wp_bind. apply wp_reads; [apply hext_side|]. intros [names|] s1 E1;
    apply (scanning_side _ _ _ _ E1) in Hs; [|by apply wp_ret].
  apply wp_each; [|done]. clear s s1 E1 Hs best. intros name best s Hs. destruct (negb (String.prefix "hwmon" name)); [by apply wp_ret|].
  destruct (snprintf 320 ("/sys/class/hwmon/" ++ name)) as [ok base]. destruct (negb ok); [by apply wp_ret|].
  apply wp_bind. apply wp_reads; [apply read_text_side|]. intros [driver|] s2 E2; apply (scanning_side _ _ _ _ E2) in Hs; [|by apply wp_ret].
  cbv zeta. destruct (_ =? 0); [by apply wp_ret|]. apply hwmon_device_ok; [apply candidate_score_nonneg | done].
Qed.

(** The outcome of a search, in terms of the candidates it saw. *)
Definition search_outcome (found : bool) (s : hstate) : Prop :=
  let t := hs_search s in
  if found then
    (forall c, In c (se_seen t) -> (String.length (ca_path c) < 256)%nat) ->
    exists c ambiguous, choice (se_seen t) c ambiguous /\ h_temp_path (hs_helper s) = ca_path c /\
      (1 < se_packages t -> 0 <= se_package t /\ label_mentions_package (ca_label c) (se_package t) = true) /\
      (0 <= se_package t -> ca_explicit c = false -> ambiguous = false)
  else h_temp_available (hs_helper s) = false.

Lemma trusted_spec pkg n best :
  sensor_trusted pkg n best = true ->
  (1 < n -> 0 <= pkg /\ b_explicit best = true) /\ (0 <= pkg -> b_explicit best = false -> b_ambiguous best = false).
Proof.
  unfold sensor_trusted. rewrite Z.gtb_ltb, Z.geb_leb. intros H. apply andb_true_iff in H as [H1 H2].
  apply negb_true_iff in H1, H2. split.
  - intros Hn. rewrite (proj2 (Z.ltb_lt _ _) Hn) in H1. cbn in H1. apply orb_false_iff in H1 as [H1 H3]. apply negb_false_iff in H3. zbool. done.
  - intros Hp He. rewrite (proj2 (Z.leb_le _ _) Hp), He in H2. cbn in H2. by rewrite andb_true_r in H2.
Qed.

Lemma wp_and {A} R (m : HM A) Q s : respects R m -> wp m Q s -> wp m (fun a s' => Q a s' /\ R s s') s.
Proof. intros Hm HQ. split; [exact HQ | apply Hm]. Qed.

Lemma scans_reads {A} (m : HM A) : reads_only m -> scans_only m.
Proof. intros Hm s. specialize (Hm s). unfold side, owned in *. by injection Hm as -> -> _. Qed.

Ltac scans :=
  repeat first [respects_step | apply scans_reads, hext_side | apply scans_reads, read_text_side | apply scans_reads, read_long_side
               | apply respects_each; [exact _|]; intros | intros s; reflexivity].

Lemma consider_scans path score e label best : scans_only (consider_temp_candidate path score e label best).
Proof. unfold consider_temp_candidate. scans. Qed.

Lemma thermal_zones_scans pkg best : scans_only (scan_thermal_zones pkg best).
Proof. unfold scan_thermal_zones. repeat first [apply consider_scans | progress scans]. Qed.

Lemma hwmon_scans pkg best : scans_only (scan_hwmon pkg best).
Proof. unfold scan_hwmon, scan_hwmon_device. repeat first [apply consider_scans | progress scans]. Qed.

Lemma snprintf_path b cs :
  best_of cs b -> is_empty (b_path b) = false -> (forall c, In c cs -> (String.length (ca_path c) < 256)%nat) ->
  exists c, choice cs c (b_ambiguous b) /\ b_explicit b = ca_explicit c /\ (snprintf 256 (b_path b)).2 = ca_path c.
Proof.
  intros [[-> ->]|(c & Hc & E1 & E2 & E3)] He Hl; [done|]. exists c. split; [done|]. split; [done|].
  rewrite E1, snprintf_fits; [done | apply Hl, Hc].
Qed.

Lemma detect_ok s : wp detect_temp_sensor search_outcome s.
Proof.
  unfold detect_temp_sensor. apply wp_bind, wp_modify, wp_bind, wp_gets, wp_bind.
  apply wp_reads; [apply package_id_side|]. intros pkg s1 E1. apply wp_bind, wp_modify, wp_bind.
  assert (Ha : h_temp_available (hs_helper s1) = false) by (unfold side in E1; by injection E1 as <- _ _).
  match goal with |- wp _ _ ?x => assert (H0 : scanning pkg (mkBest "" (-1) false false) x) by (split; [done | split; [done | by left]]) end.
  eapply wp_mono; [apply (wp_and _ _ (scanning pkg) _ (thermal_zones_scans pkg _)), thermal_zones_ok, H0|]. clear H0. intros best1 s2 [H2 E2].
  apply wp_bind. eapply wp_mono; [apply (wp_and _ _ (scanning pkg) _ (hwmon_scans pkg best1)), hwmon_ok, H2|]. clear H2. intros best s3 [H3 E3].
  assert (Ha3 : h_temp_available (hs_helper s3) = false).
  { unfold owned in E2, E3. injection E3 as <- _. injection E2 as <- _. done. }
  clear E1 E2 E3 Ha. destruct ((b_score best <? 0) || is_empty (b_path best)) eqn:Eb; [by apply wp_ret|].
  apply orb_false_iff in Eb as [_ Eb]. apply wp_bind. apply wp_reads; [apply package_count_side|]. intros n s4 E4.
  apply (scanning_side _ _ _ _ E4) in H3. assert (Ha4 : h_temp_available (hs_helper s4) = false) by (unfold side in E4; by injection E4 as <- _ _).
  apply wp_bind, wp_modify. destruct (sensor_trusted pkg n best) eqn:Et; cbn [negb]; [|by apply wp_ret].
  destruct (snprintf 256 (b_path best)) as [fits path] eqn:Es.
  destruct fits; cbn [negb]; apply wp_bind, wp_modify, wp_ret; [|done]. intros Hshort. cbn in Hshort |- *.
  destruct H3 as (H1 & H2 & H3). destruct (snprintf_path best _ (H3 Hshort) Eb Hshort) as (c & Hc & Ee & Ep).
  exists c, (b_ambiguous best). split; [exact Hc|]. split; [by rewrite Es in Ep|]. rewrite H1.
  destruct (trusted_spec _ _ _ Et) as [T1 T2]. rewrite <- Ee. split; [|exact T2].
  intros Hn. destruct (T1 Hn) as [Hp He]. split; [done|]. rewrite <- He, Ee. symmetry. apply H2, Hc.
Qed.
End reading.

(** ** The helper invariant *)

Definition backoff_ok (b : Z) : Prop := INITIAL_BACKOFF_SEC <= b <= MAX_BACKOFF_SEC.

(** Retries stay within their bounds, an available sensor has a path, an
    available frequency a positive maximum, and the one open MSR descriptor is
    the one the helper holds. *)
Record helper_inv (h : tsd_telemetry_helper_t) (fds : list Z) : Prop := {
  hi_temp_backoff : backoff_ok (h_temp_backoff_seconds h);
  hi_freq_backoff : backoff_ok (h_freq_backoff_seconds h);
  hi_msr_backoff : backoff_ok (h_msr_backoff_seconds h);
  hi_temp : h_temp_available h = true -> is_empty (h_temp_path h) = false;
  hi_freq : h_freq_sysfs_available h = true -> is_empty (h_freq_cur_path h) = false /\ 0 < h_freq_max_khz h;
  hi_msr : h_msr_available h = (h_msr_fd h >=? 0);
  hi_fds : fds = if h_msr_fd h >=? 0 then [h_msr_fd h] else [];
}.

Definition helper_ok (s : hstate) : Prop := helper_inv (hs_helper s) (hs_fds s).

(** What a direct sample may report. *)
Record sample_ok (out : tsd_telemetry_sample_t) : Prop := {
  sm_temp : if ts_temp_available out then TSD_TEMP_MIN_MILLIC <= ts_package_temp_millic out <= TSD_TEMP_MAX_MILLIC
            else ts_package_temp_millic out = 0;
  sm_ratio : if ts_freq_ratio_available out then 0 <= ts_freq_ratio_milli out <= UINT32_MAX else ts_freq_ratio_milli out = 0;
  sm_raw : (ts_filtered_temp_available out, ts_filtered_freq_ratio_available out, ts_filtered_package_temp_millic out,
            ts_filtered_freq_ratio_milli out) = (false, false, 0, 0);
}.

Lemma schedule_retry_ok now b : backoff_ok b -> backoff_ok (schedule_retry now b).2 /\ now < (schedule_retry now b).1 <= now + MAX_BACKOFF_SEC.
Proof.
  unfold backoff_ok, schedule_retry, INITIAL_BACKOFF_SEC, MAX_BACKOFF_SEC. intros H. rewrite !Z.gtb_ltb. cbn [fst snd].
  repeat case_if; zbool; lia.
Qed.

Lemma ratio_milli_range num den : 0 <= ratio_milli num den <= UINT32_MAX.
Proof.
  unfold ratio_milli. pose proof (u64_range (num * 1000 / den)) as H. rewrite Z.gtb_ltb. case_if; zbool; unfold_int; lia.
Qed.

Lemma helper_ok_side s s' : side s = side s' -> helper_ok s -> helper_ok s'.
Proof. unfold side, helper_ok. intros [= -> -> _]. done. Qed.

Lemma remove_only fd : remove_fd fd [fd] = [].
Proof. cbn. by rewrite Z.eqb_refl. Qed.

Section invariant.
Context `{EV : Env, SE : SysEnv}.

(** A computation that keeps the invariant, with what else it guarantees. *)
Definition keeps_ok {A} (Q : A -> Prop) (m : HM A) : Prop :=
  forall s, helper_ok s -> wp m (fun a s' => helper_ok s' /\ Q a) s.

Lemma keeps_bind {A B} (P : A -> Prop) (Q : B -> Prop) (m : HM A) (k : A -> HM B) :
  keeps_ok P m -> (forall a, P a -> keeps_ok Q (k a)) -> keeps_ok Q (bind m k).
Proof. intros Hm Hk s Hs. apply wp_bind. eapply wp_mono; [by apply Hm|]. intros a s' [Hs' Ha]. by apply Hk. Qed.

Lemma keeps_ret {A} (Q : A -> Prop) a : Q a -> keeps_ok Q (ret a).
Proof. intros Ha s Hs. by apply wp_ret. Qed.

Lemma keeps_reads {A} (m : HM A) : reads_only m -> keeps_ok (fun _ => True) m.
Proof. intros Hm s Hs. apply wp_reads; [done|]. intros a s' E. split; [by eapply helper_ok_side | done]. Qed.

Lemma keeps_get {A} (f : tsd_telemetry_helper_t -> A) (Q : A -> Prop) :
  (forall h fds, helper_inv h fds -> Q (f h)) -> keeps_ok Q (helper_get f).
Proof. intros H s Hs. apply wp_gets. split; [done | by eapply H]. Qed.

Lemma keeps_set f : (forall h fds, helper_inv h fds -> helper_inv (f h) fds) -> keeps_ok (fun _ => True) (helper_set f).
Proof. intros H s Hs. apply wp_modify. split; [by apply H | done]. Qed.

Lemma keeps_when (b : bool) (m : HM unit) : (b = true -> keeps_ok (fun _ => True) m) -> keeps_ok (fun _ => True) (when b m).
Proof. destruct b; [by intros H; apply H | intros _; by apply keeps_ret]. Qed.

Lemma keeps_weaken {A} (P Q : A -> Prop) m : keeps_ok P m -> (forall a, P a -> Q a) -> keeps_ok Q m.
Proof. intros Hm H s Hs. eapply wp_mono; [by apply Hm|]. intros a s' [? ?]. auto. Qed.

Lemma retry_temp_ok : keeps_ok (fun _ => True) retry_temp_later.
Proof.
  eapply keeps_bind; [apply keeps_reads, now_side|]. intros now _. apply keeps_set. intros h fds [].
  split; try done. by apply schedule_retry_ok.
Qed.
Lemma retry_freq_ok : keeps_ok (fun _ => True) retry_freq_later.
Proof.
  eapply keeps_bind; [apply keeps_reads, now_side|]. intros now _. apply keeps_set. intros h fds [].
  split; try done. by apply schedule_retry_ok.
Qed.
Lemma retry_msr_ok : keeps_ok (fun _ => True) retry_msr_later.
Proof.
  eapply keeps_bind; [apply keeps_reads, now_side|]. intros now _. apply keeps_set. intros h fds [].
  split; try done. by apply schedule_retry_ok.
Qed.

Lemma keeps_scans {A} (m : HM A) : scans_only m -> keeps_ok (fun _ => True) m.
Proof. intros Hm s Hs. split; [|done]. specialize (Hm s). unfold helper_ok, owned in *. by injection Hm as <- <-. Qed.

Lemma modify_search f : scans_only (modify (fun s : hstate => s <| hs_search ::= f |>)).
Proof. intros s. reflexivity. Qed.
Lemma set_search t : scans_only (modify (fun s : hstate => s <| hs_search := t |>)).
Proof. intros s. reflexivity. Qed.

(** Every sensor search either fails or leaves a sensor with a path. *)
Lemma detect_temp_keeps : keeps_ok (fun _ => True) detect_temp_sensor.
Proof.
  unfold detect_temp_sensor. eapply keeps_bind; [apply keeps_set; intros h fds []; by split|]. intros _ _.
  eapply keeps_bind; [by apply (keeps_get _ (fun _ => True))|]. intros cpu _.
  eapply keeps_bind; [apply keeps_reads, package_id_side|]. intros pkg _.
  eapply keeps_bind; [apply keeps_scans, set_search|]. intros _ _.
  eapply keeps_bind; [apply keeps_scans, thermal_zones_scans|]. intros b1 _.
  eapply keeps_bind; [apply keeps_scans, hwmon_scans|]. intros best _.
  destruct ((b_score best <? 0) || is_empty (b_path best)) eqn:Eb; [by apply keeps_ret|]. apply orb_false_iff in Eb as [_ Eb].
  eapply keeps_bind; [apply keeps_reads, package_count_side|]. intros n _.
  eapply keeps_bind; [apply keeps_scans, modify_search|]. intros _ _. destruct (negb _); [by apply keeps_ret|].
  pose proof (snprintf_empty 254 (b_path best)) as Hp. rewrite Eb in Hp.
  destruct (snprintf 256 (b_path best)) as [fits path]. cbn [snd] in Hp.
  destruct (negb fits); (eapply keeps_bind; [apply keeps_set; intros h fds []; by split|]; intros _ _; by apply keeps_ret).
Qed.

Lemma strtol_range text : LONG_MIN <= st_val (strtol text) <= LONG_MAX.
Proof.
  unfold strtol. destruct (scan_sign (skip_space text)) as [neg t]. destruct (scan_digits t 0 0) as [[mag n] rest].
  destruct (n =? 0); [cbn; unfold_int; lia|]. cbv zeta. rewrite Z.gtb_ltb. repeat case_if; zbool; cbn; unfold_int; lia.
Qed.

(** A detection that succeeds has stored the path and a positive maximum. *)
Lemma read_khz_pos path s : wp (read_khz path) (fun k s' => side s = side s' /\ (forall n, k = Some n -> 0 < n <= LONG_MAX)) s.
Proof.
  unfold read_khz. destruct (negb _); [by apply wp_ret|]. apply wp_bind. unfold read_long_from_path. apply wp_bind.
  apply wp_reads; [apply read_text_side|]. intros text s' E. apply wp_ret. cbv beta. apply wp_ret. split; [done|]. intros n.
  destruct text as [text|]; [|done]. cbv zeta. destruct (conversion_complete _); [|done]. pose proof (strtol_range text).
  destruct (st_val (strtol text) <=? 0) eqn:Ek; [done|]. zbool. intros [= <-]. lia.
Qed.

Lemma freq_unavailable_ok h fds : helper_inv h fds -> helper_inv (freq_unavailable h) fds.
Proof. intros []. by split. Qed.

Lemma freq_path_ok h fds path : is_empty path = false -> helper_inv h fds -> helper_inv (h <| h_freq_cur_path := path |>) fds.
Proof. intros Hp []. split; try done. cbn. intros Ha. split; [done | by apply hi_freq0]. Qed.

Lemma detect_cpufreq_keeps : keeps_ok (fun _ => True) detect_cpufreq_paths.
Proof.
  unfold detect_cpufreq_paths. eapply keeps_bind; [by apply (keeps_get _ (fun _ => True))|]. intros cpu _.
  assert (Hne : is_empty (cpufreq_path cpu "scaling_cur_freq").2 = false) by apply (snprintf_empty 254).
  destruct (cpufreq_path cpu "scaling_cur_freq") as [fits path]. cbn [snd] in Hne.
  eapply keeps_bind; [apply keeps_reads; destruct (negb fits); [apply respects_ret; exact _ | apply hext_side]|]. intros readable _.
  destruct (negb readable); [eapply keeps_bind; [apply keeps_set, freq_unavailable_ok|]; intros _ _; by apply keeps_ret|].
  assert (Hc : is_empty (snprintf 256 path).2 = false) by (by rewrite (snprintf_empty 254)).
  destruct (snprintf 256 path) as [fits' copy]. cbn [snd] in Hc. intros s Hs. apply wp_bind, wp_modify.
  set (s1 := s <| hs_helper ::= _ |>). assert (H1 : helper_ok s1) by by apply freq_path_ok.
  assert (Hp : h_freq_cur_path (hs_helper s1) = copy) by done. clearbody s1.
  destruct (negb fits'); [by apply wp_ret|]. apply wp_bind. eapply wp_mono; [apply read_khz_pos|]. intros k1 s2 [E2 K1].
  apply wp_bind. apply (wp_mono _ (fun k s' => side s2 = side s' /\ (forall n, k = Some n -> 0 < n <= LONG_MAX))).
  { destruct k1 as [k|]; [by apply wp_ret | apply read_khz_pos]. }
  intros k s3 [E3 K3]. rewrite <- E2 in E3. pose proof (helper_ok_side _ _ E3 H1) as H3.
  assert (Hp3 : h_freq_cur_path (hs_helper s3) = copy) by (unfold side in E3; injection E3 as <- _ _; done). destruct k as [k|].
  - apply wp_bind, wp_modify, wp_ret. split; [|done]. destruct H3. split; try done. cbn. intros _. rewrite Hp3. split; [done|].
    specialize (K3 k eq_refl). rewrite u64_small; unfold_int; lia.
  - apply wp_bind, wp_modify, wp_ret. split; [by apply freq_unavailable_ok | done].
Qed.

Lemma reopen_msr_ok emit s : helper_ok s -> h_msr_fd (hs_helper s) < 0 -> wp (reopen_msr emit) (fun _ s' => helper_ok s') s.
Proof.
  intros Hs Hfd. unfold reopen_msr. apply wp_bind, wp_gets. destruct (snprintf 128 _) as [fits path]. destruct (negb fits); [by apply wp_ret|].
  apply wp_bind. apply wp_reads; [apply hext_side|]. intros fd s1 E1.
  assert (Hfd1 : h_msr_fd (hs_helper s1) < 0) by (unfold side in E1; by injection E1 as <- _ _). apply (helper_ok_side _ _ E1) in Hs.
  destruct (fd >=? 0) eqn:Ef.
  - apply wp_bind, wp_modify, wp_bind, wp_modify, wp_bind. apply wp_reads; [apply respects_when; [exact _ | apply metric_side]|].
    intros _ s2 E2. apply wp_ret. eapply helper_ok_side; [exact E2|]. destruct Hs. split; cbn; try done.
    rewrite Ef. rewrite hi_fds0, Z.geb_leb, (proj2 (Z.leb_gt _ _) Hfd1). done.
  - apply wp_bind, wp_modify, wp_bind. eapply wp_mono; [apply retry_msr_ok|intros _ s2 [H2 _]; by apply wp_ret].
    destruct Hs. split; cbn; try done. rewrite hi_fds0, Z.geb_leb, (proj2 (Z.leb_gt _ _) Hfd1). done.
Qed.

(** Giving up the descriptor the helper holds. *)
Lemma drop_msr_ok s : helper_ok s -> h_msr_fd (hs_helper s) >= 0 ->
  wp close_msr (fun _ s' => helper_inv ((hs_helper s') <| h_msr_fd := -1 |> <| h_msr_available := false |>) (hs_fds s')) s.
Proof.
  intros Hs Hfd. unfold close_msr. apply wp_bind, wp_gets, wp_modify. destruct Hs. split; cbn; try done.
  rewrite hi_fds0. rewrite Z.geb_leb, (proj2 (Z.leb_le _ _)) by lia. apply remove_only.
Qed.

(** The searches do not touch the MSR descriptor. *)
Abbreviation keeps_msr := (respects (fun s s' : hstate => h_msr_fd (hs_helper s) = h_msr_fd (hs_helper s'))).

Lemma msr_scans {A} (m : HM A) : scans_only m -> keeps_msr m.
Proof. intros Hm s. specialize (Hm s). unfold owned in Hm. injection Hm as <- _. done. Qed.
Lemma msr_reads {A} (m : HM A) : reads_only m -> keeps_msr m.
Proof. intros Hm. by apply msr_scans, scans_reads. Qed.

Ltac msr_frame :=
  repeat first [respects_step | (let st := fresh in intros st; reflexivity) | apply msr_reads, package_id_side | apply msr_scans, thermal_zones_scans
               | apply msr_scans, hwmon_scans | apply msr_reads, package_count_side | apply msr_reads, hext_side
               | apply msr_reads, read_khz_side].

Lemma detect_temp_msr : keeps_msr detect_temp_sensor.
Proof. unfold detect_temp_sensor, helper_get. msr_frame. Qed.
Lemma detect_cpufreq_msr : keeps_msr detect_cpufreq_paths.
Proof. unfold detect_cpufreq_paths, helper_get. msr_frame. Qed.

Lemma reset_temp_ok b : keeps_ok (fun _ => True) (when b (helper_set reset_temp_retry)).
Proof. apply keeps_when. intros _. apply keeps_set. intros h fds []. by split. Qed.
Lemma reset_freq_ok b : keeps_ok (fun _ => True) (when b (helper_set reset_freq_retry)).
Proof. apply keeps_when. intros _. apply keeps_set. intros h fds []. by split. Qed.

(** A search step of [init]: it keeps the invariant and the missing descriptor. *)
Lemma no_msr_step {A B} (m : HM A) (k : A -> HM B) Q s :
  keeps_ok (fun _ => True) m -> keeps_msr m -> helper_ok s -> h_msr_fd (hs_helper s) < 0 ->
  (forall a s', helper_ok s' -> h_msr_fd (hs_helper s') < 0 -> wp (k a) Q s') -> wp (bind m k) Q s.
Proof.
  intros Hm Hf Hs Hfd Hk. apply wp_bind. unfold wp at 1. apply Hk; [apply Hm, Hs|]. by rewrite <- (Hf s).
Qed.

Lemma init_ok cpu s : 0 <= cpu -> hs_fds s = [] -> wp (tsd_telemetry_helper_init_impl cpu) (fun rc s' => rc = 0 /\ helper_ok s') s.
Proof.
  intros Hc Hf. unfold tsd_telemetry_helper_init_impl. rewrite (proj2 (Z.ltb_ge _ _) Hc). apply wp_bind, wp_modify.
  match goal with |- wp _ _ ?x => assert (H0 : helper_ok x) by (split; cbn; unfold backoff_ok, INITIAL_BACKOFF_SEC, MAX_BACKOFF_SEC; try done; lia) end.
  match goal with |- wp _ _ ?x => assert (F0 : h_msr_fd (hs_helper x) < 0) by done; revert H0 F0; generalize x end. clear s Hf. intros s Hs Hfd.
  apply no_msr_step; [apply detect_temp_keeps | apply detect_temp_msr | done | done |]. clear s Hs Hfd. intros b1 s Hs Hfd.
  apply no_msr_step; [apply reset_temp_ok | msr_frame | done | done |]. clear s Hs Hfd. intros _ s Hs Hfd.
  apply no_msr_step; [apply detect_cpufreq_keeps | apply detect_cpufreq_msr | done | done |]. clear s Hs Hfd. intros b2 s Hs Hfd.
  apply no_msr_step; [apply reset_freq_ok | msr_frame | done | done |]. clear s Hs Hfd. intros _ s Hs Hfd.
  apply wp_bind. eapply wp_mono; [by apply reopen_msr_ok|]. intros rc s1 H1. apply wp_bind.
  apply wp_reads; [apply respects_when; [exact _ | apply metric_side]|]. intros _ s2 E2. apply wp_ret. split; [done | by eapply helper_ok_side].
Qed.

Lemma destroy_ok s : helper_ok s -> wp tsd_telemetry_helper_destroy_impl (fun _ s' => helper_ok s' /\ hs_fds s' = []) s.
Proof.
  intros Hs. unfold tsd_telemetry_helper_destroy_impl. apply wp_bind, wp_gets, wp_bind, wp_when.
  destruct (h_msr_fd (hs_helper s) >=? 0) eqn:E.
  - eapply wp_mono; [apply drop_msr_ok; [done | zbool; lia]|]. intros ? s' H'; cbv beta in H'. apply wp_modify. split; [exact H' | exact (hi_fds _ _ H')].
  - apply wp_modify. assert (Hf : hs_fds s = []) by (destruct Hs; by rewrite hi_fds0, E). split; [|done]. destruct Hs. by split.
Qed.

(** ** Samples *)

Lemma recover_temp_ok : keeps_ok (fun _ => True) recover_temp.
Proof.
  unfold recover_temp. eapply keeps_bind; [by apply (keeps_get _ (fun _ => True))|]. intros available _. destruct available; [by apply keeps_ret|].
  eapply keeps_bind; [apply keeps_reads, due_side|]. intros now _. apply keeps_when. intros _.
  eapply keeps_bind; [apply detect_temp_keeps|]. intros found _. destruct found; [|apply retry_temp_ok].
  eapply keeps_bind; [apply (reset_temp_ok true)|]. intros _ _. apply keeps_reads, metric_side.
Qed.

Lemma recover_freq_ok : keeps_ok (fun _ => True) recover_freq.
Proof.
  unfold recover_freq. eapply keeps_bind; [by apply (keeps_get _ (fun _ => True))|]. intros available _. destruct available; [by apply keeps_ret|].
  eapply keeps_bind; [apply keeps_reads, due_side|]. intros now _. apply keeps_when. intros _.
  eapply keeps_bind; [apply detect_cpufreq_keeps|]. intros found _. destruct found; [|apply retry_freq_ok].
  eapply keeps_bind; [apply (reset_freq_ok true)|]. intros _ _. apply keeps_reads, metric_side.
Qed.

Lemma sample_temperature_ok out : sample_ok out -> ts_temp_available out = false -> keeps_ok sample_ok (sample_temperature out).
Proof.
  intros Ho Ht. unfold sample_temperature. eapply keeps_bind; [apply recover_temp_ok|]. intros _ _.
  eapply keeps_bind; [by apply (keeps_get _ (fun _ => True))|]. intros available _. destruct (negb available); [by apply keeps_ret|].
  eapply keeps_bind; [by apply (keeps_get _ (fun _ => True))|]. intros path _.
  eapply keeps_bind; [apply keeps_reads, read_long_side|]. intros value _.
  destruct value as [v|]; [destruct ((v >=? TSD_TEMP_MIN_MILLIC) && (v <=? TSD_TEMP_MAX_MILLIC)) eqn:Ev|].
  { apply keeps_ret. zbool. destruct Ho. split; cbn; try done. unfold TSD_TEMP_MIN_MILLIC, TSD_TEMP_MAX_MILLIC in *.
    rewrite i32_small; unfold_int; lia. }
  all: eapply keeps_bind; [apply keeps_set; intros h fds []; by split|]; intros _ _;
    eapply keeps_bind; [apply keeps_reads, metric_side|]; intros _ _;
    eapply keeps_bind; [apply retry_temp_ok|]; intros _ _; by apply keeps_ret.
Qed.

Lemma sample_cpufreq_ok out : sample_ok out -> keeps_ok sample_ok (sample_cpufreq_ratio out).
Proof.
  intros Ho. unfold sample_cpufreq_ratio. eapply keeps_bind; [apply recover_freq_ok|]. intros _ _.
  eapply keeps_bind; [by apply (keeps_get _ (fun _ => True))|]. intros available _. destruct (negb available); [by apply keeps_ret|].
  eapply keeps_bind; [by apply (keeps_get _ (fun _ => True))|]. intros path _.
  eapply keeps_bind; [apply keeps_reads, read_khz_side|]. intros [khz|] _.
  - eapply keeps_bind; [by apply (keeps_get _ (fun _ => True))|]. intros max _. apply keeps_ret. destruct Ho. split; cbn; try done. apply ratio_milli_range.
  - eapply keeps_bind; [apply keeps_set; intros h fds []; by split|]; intros _ _.
    eapply keeps_bind; [apply keeps_reads, metric_side|]; intros _ _. eapply keeps_bind; [apply retry_freq_ok|]; intros _ _. by apply keeps_ret.
Qed.

(** Reopening when there is no usable descriptor. *)
Lemma recover_msr_ok usable s :
  helper_ok s -> usable = h_msr_available (hs_helper s) && (h_msr_fd (hs_helper s) >=? 0) ->
  wp (if usable then ret tt else now <- due h_msr_retry_deadline ;; when now (reopen_msr true ;;; ret tt)) (fun _ s' => helper_ok s') s.
Proof.
  intros Hs Hu. destruct usable; [by apply wp_ret|].
  assert (Hfd : h_msr_fd (hs_helper s) < 0).
  { destruct Hs. rewrite hi_msr0, andb_diag, Z.geb_leb in Hu. symmetry in Hu. zbool. lia. }
  apply wp_bind. apply wp_reads; [apply due_side|]. intros now s1 E1.
  assert (Hfd1 : h_msr_fd (hs_helper s1) < 0) by (unfold side in E1; by injection E1 as <- _ _). apply (helper_ok_side _ _ E1) in Hs.
  apply wp_when. destruct now; [|done]. apply wp_bind. eapply wp_mono; [by apply reopen_msr_ok|]. intros rc s2 H2. by apply wp_ret.
Qed.

Lemma give_up_msr_ok out s :
  sample_ok out -> helper_ok s -> h_msr_fd (hs_helper s) >= 0 ->
  wp (close_msr ;;; helper_set (fun h => h <| h_msr_fd := -1 |> <| h_msr_available := false |>) ;;;
      count_metric TSD_METRIC_TELEMETRY_MSR_DROPS ;;; retry_msr_later ;;; ret out) (fun o s' => helper_ok s' /\ sample_ok o) s.
Proof.
  intros Ho Hs Hfd. apply wp_bind. eapply wp_mono; [by apply drop_msr_ok|]. intros ? s1 H1. cbv beta in H1. apply wp_bind, wp_modify, wp_bind.
  apply wp_reads; [apply metric_side|]. intros _ s2 E2. apply wp_bind.
  eapply wp_mono; [apply retry_msr_ok; eapply helper_ok_side; [exact E2 | exact H1]|]. intros _ s3 [H3 _]. by apply wp_ret.
Qed.

Lemma sample_msr_ok out : sample_ok out -> keeps_ok sample_ok (sample_msr_ratio out).
Proof.
  intros Ho s Hs. unfold sample_msr_ratio. apply wp_bind, wp_gets, wp_bind. eapply wp_mono; [by apply recover_msr_ok|].
  clear s Hs. intros ? s Hs. cbv beta in Hs. apply wp_bind, wp_gets. destruct (h_msr_available (hs_helper s) && (h_msr_fd (hs_helper s) >=? 0)) eqn:Eu; cbn [negb]; [|by apply wp_ret].
  assert (Hfd : h_msr_fd (hs_helper s) >= 0) by (zbool; lia). apply wp_bind, wp_gets, wp_bind.
  apply wp_reads; [apply read_msr64_side|]. intros aperf s1 E1. apply wp_bind.
  apply wp_reads; [destruct aperf; [apply read_msr64_side | apply respects_ret; exact _]|]. intros mperf s2 E2. rewrite <- E1 in E2.
  assert (Hfd2 : h_msr_fd (hs_helper s2) >= 0) by (unfold side in E2; by injection E2 as <- _ _). apply (helper_ok_side _ _ E2) in Hs.
  destruct aperf as [av|]; [destruct mperf as [mv|]; [|by apply give_up_msr_ok] | by apply give_up_msr_ok].
  apply wp_bind, wp_gets, wp_bind, wp_modify, wp_ret. split; [destruct Hs; by split|]. destruct (_ && _ && _); [|done].
  destruct Ho. split; cbn; try done. apply ratio_milli_range.
Qed.

Lemma sample_keeps :
  keeps_ok (fun r => sample_ok r.2 /\ (r.1 = if ts_temp_available r.2 || ts_freq_ratio_available r.2 then 0 else -1)) tsd_telemetry_helper_sample_impl.
Proof.
  unfold tsd_telemetry_helper_sample_impl. eapply keeps_bind; [by apply sample_temperature_ok|]. intros o1 H1.
  eapply keeps_bind; [by apply sample_msr_ok|]. intros o2 H2.
  eapply (keeps_bind sample_ok); [destruct (negb _); [by apply sample_cpufreq_ok | by apply keeps_ret]|]. intros o3 H3. by apply keeps_ret.
Qed.
End invariant.

(** ** What the rest of the process sees of the helper *)

(** A helper call seen from the process, started on a given helper. *)
Definition seen_from_world {A} (m : HM A) (h : tsd_telemetry_helper_t) (fds : list Z) (t : search) : M A :=
  fun w => let r := m (mkHstate w h fds t) in (r.1, hs_world r.2).

(** The helper touches the process only through external calls and metric
    counters, so it respects whatever those respect. *)
Section frame.
Context `{EV : Env, SE : SysEnv} (R : world -> world -> Prop) `{HR : !PreOrder R}.
Hypothesis R_ext : forall A (f : nat -> A), respects R (ext f).
Hypothesis R_metric : forall i, respects R (tsd_metrics_increment i).

Abbreviation harmless := (respects (fun s s' : hstate => R (hs_world s) (hs_world s'))).

#[local] Instance harmless_preorder : PreOrder (fun s s' : hstate => R (hs_world s) (hs_world s')).
Proof. split; [intros s; apply (PreOrder_Reflexive (hs_world s)) | intros s1 s2 s3; apply PreOrder_Transitive]. Qed.

Lemma harmless_world {A} (m : M A) : respects R m -> harmless (in_world m).
Proof. intros Hm s. specialize (Hm (hs_world s)). unfold in_world. by destruct (m (hs_world s)). Qed.
Lemma harmless_set f : harmless (helper_set f).
Proof. intros s. apply (PreOrder_Reflexive (hs_world s)). Qed.
Lemma harmless_fds f : harmless (modify (fun s : hstate => s <| hs_fds ::= f |>)).
Proof. intros s. apply (PreOrder_Reflexive (hs_world s)). Qed.
Lemma harmless_search f : harmless (modify (fun s : hstate => s <| hs_search ::= f |>)).
Proof. intros s. apply (PreOrder_Reflexive (hs_world s)). Qed.
Lemma harmless_reset t : harmless (modify (fun s : hstate => s <| hs_search := t |>)).
Proof. intros s. apply (PreOrder_Reflexive (hs_world s)). Qed.

Ltac harmless_steps :=
  repeat first
    [ respects_step
    | apply harmless_set | apply harmless_fds | apply harmless_search | apply harmless_reset
    | apply harmless_world, R_ext | apply harmless_world, R_metric
    | apply respects_each; [exact _|]; intros ].

Lemma sensors_harmless : harmless detect_temp_sensor /\ harmless detect_cpufreq_paths /\ (forall e, harmless (reopen_msr e)).
Proof.
  split_and!; [| |intros e].
  - unfold detect_temp_sensor, scan_hwmon, scan_hwmon_device, scan_thermal_zones, consider_temp_candidate, physical_package_count,
      physical_package_id, read_long_from_path, read_text_from_path, helper_get, hext. harmless_steps.
  - unfold detect_cpufreq_paths, read_khz, read_long_from_path, read_text_from_path, helper_get, hext. harmless_steps.
  - unfold reopen_msr, retry_msr_later, tsd_now_seconds, count_metric, helper_get, hext. harmless_steps.
Qed.

Lemma init_harmless cpu : harmless (tsd_telemetry_helper_init_impl cpu).
Proof.
  destruct sensors_harmless as (H1 & H2 & H3). unfold tsd_telemetry_helper_init_impl, count_metric.
  repeat first [apply H1 | apply H2 | apply H3 | progress harmless_steps].
Qed.

Lemma destroy_harmless : harmless tsd_telemetry_helper_destroy_impl.
Proof. unfold tsd_telemetry_helper_destroy_impl, close_msr, helper_get. harmless_steps. Qed.

Lemma sample_harmless : harmless tsd_telemetry_helper_sample_impl.
Proof.
  destruct sensors_harmless as (H1 & H2 & H3).
  unfold tsd_telemetry_helper_sample_impl, sample_temperature, sample_msr_ratio, sample_cpufreq_ratio, recover_temp, recover_freq, due,
    read_msr64, read_khz, read_long_from_path, read_text_from_path, close_msr, retry_temp_later, retry_freq_later, retry_msr_later,
    tsd_now_seconds, count_metric, helper_get, hext.
  repeat first [apply H1 | apply H2 | apply H3 | progress harmless_steps].
Qed.

Lemma seen_from_world_keeps {A} (m : HM A) h fds t : harmless m -> respects R (seen_from_world m h fds t).
Proof. intros Hm w. exact (Hm (mkHstate w h fds t)). Qed.
End frame.

Lemma ext_keeps `{EV : Env} {A} (f : nat -> A) : respects telemetry_keeps (ext f).
Proof. apply telemetry_keeps_intro; [apply keeps_ext | done]. Qed.
Lemma metric_keeps `{EV : Env} i : respects telemetry_keeps (tsd_metrics_increment i).
Proof. apply telemetry_keeps_intro; [apply keeps_metric | done]. Qed.

(** ** Properties *)

Section properties.
Context `{EV : Env, SE : SysEnv}.

Fixpoint run_samples (n : nat) : HM (list (Z * tsd_telemetry_sample_t)) :=
  match n with
  | O => ret []
  | S n => r <- tsd_telemetry_helper_sample_impl ;; rs <- run_samples n ;; ret (r :: rs)
  end.

(** A helper from creation to destruction. *)
Definition session (cpu : Z) (n : nat) : HM (list (Z * tsd_telemetry_sample_t)) :=
  tsd_telemetry_helper_init_impl cpu ;;;
  rs <- run_samples n ;;
  tsd_telemetry_helper_destroy_impl ;;;
  ret rs.

Definition report_ok (r : Z * tsd_telemetry_sample_t) : Prop :=
  sample_ok r.2 /\ r.1 = if ts_temp_available r.2 || ts_freq_ratio_available r.2 then 0 else -1.

Lemma run_samples_ok n : keeps_ok (Forall report_ok) (run_samples n).
Proof.
  induction n as [|n IH]; cbn [run_samples]; [apply keeps_ret; constructor|].
  eapply keeps_bind; [apply sample_keeps|]. intros r Hr. eapply keeps_bind; [exact IH|]. intros rs Hrs. apply keeps_ret. by constructor.
Qed.

(** Whatever the file system answers, a search that succeeds settles on the
    first of the best-ranked candidates it read: on a host with several packages
    one whose label names the CPU's package, and elsewhere, when the package is
    known but not named, one that no other sensor ties with.  A failed search
    leaves no sensor. *)
Theorem sensor_search_is_unambiguous (s : hstate) :
  let '(found, s') := detect_temp_sensor s in
  if found then
    (forall c, In c (se_seen (hs_search s')) -> (String.length (ca_path c) < 256)%nat) ->
    exists c ambiguous, choice (se_seen (hs_search s')) c ambiguous /\ h_temp_path (hs_helper s') = ca_path c /\
      (1 < se_packages (hs_search s') ->
       0 <= se_package (hs_search s') /\ label_mentions_package (ca_label c) (se_package (hs_search s')) = true) /\
      (0 <= se_package (hs_search s') -> ca_explicit c = false -> ambiguous = false)
  else h_temp_available (hs_helper s') = false.
Proof. pose proof (detect_ok s) as H. unfold wp, search_outcome in H. by destruct (detect_temp_sensor s) as [found s']. Qed.

(** C39 (invariant). From creation to destruction every sample is well formed: a temperature is
    reported only within the plausible range, a ratio only within 32 bits, a
    missing channel is zero, filtered channels stay empty and the result tells
    whether anything was measured; retries stay between five and six hundred
    seconds, and the MSR descriptor is closed at the end. *)
Theorem helper_session_is_sound (cpu : Z) (n : nat) (s : hstate) :
  0 <= cpu -> hs_fds s = [] ->
  let '(rs, s') := session cpu n s in Forall report_ok rs /\ List.length rs = n /\ helper_ok s' /\ hs_fds s' = [].
Proof.
  intros Hc Hf. assert (H : wp (session cpu n) (fun rs s' => Forall report_ok rs /\ List.length rs = n /\ helper_ok s' /\ hs_fds s' = []) s).
  2: { unfold wp in H. by destruct (session cpu n s). }
  unfold session. apply wp_bind. eapply wp_mono; [by apply init_ok|]. intros rc s1 [_ H1]. apply wp_bind.
  assert (Hl : forall k s, List.length (run_samples k s).1 = k).
  { intros k. induction k as [|k IH]; intros st; cbn [run_samples]; [done|]. rewrite !bind_run. cbn. by rewrite IH. }
  unfold wp at 1. pose proof (run_samples_ok n s1 H1) as [H2 Hr]. specialize (Hl n s1). destruct (run_samples n s1) as [rs s2]. cbn in *.
  apply wp_bind. eapply wp_mono; [by apply destroy_ok|]. intros ? s3 [H3 Hd]. by apply wp_ret.
Qed.

End properties.

(** A host with two packages and labelled coretemp sensors. *)
Definition two_socket_sys : SysEnv :=
  mkSysEnv
    (fun _ path =>
       if String.eqb path "/sys/devices/system/cpu/cpu0/topology/physical_package_id" then Some "0"
       else if String.eqb path "/sys/devices/system/cpu/cpu1/topology/physical_package_id" then Some "1"
       else if String.eqb path "/sys/class/hwmon/hwmon0/name" then Some "coretemp"
       else if String.eqb path "/sys/class/hwmon/hwmon1/name" then Some "coretemp"
       else if String.eqb path "/sys/class/hwmon/hwmon0/temp1_label" then Some "Package id 0"
       else if String.eqb path "/sys/class/hwmon/hwmon1/temp1_label" then Some "Package id 1"
       else if String.eqb path "/sys/class/hwmon/hwmon0/temp1_input" then Some "41000"
       else if String.eqb path "/sys/class/hwmon/hwmon1/temp1_input" then Some "67000"
       else None)
    (fun _ dir =>
       if String.eqb dir "/sys/class/hwmon" then Some ["hwmon0"; "hwmon1"]
       else if String.eqb dir "/sys/devices/system/cpu" then Some ["cpu0"; "cpu1"; "cpufreq"]
       else if String.prefix "/sys/class/hwmon/hwmon" dir then Some ["name"; "temp1_input"; "temp1_label"]
       else None)
    (fun _ _ => true) (fun _ _ => 7) (fun _ _ _ => Some 12345).

Definition fresh_hstate : hstate :=
  mkHstate (initial_world 1 tsd_runtime_config_set_defaults) zero_helper [] (mkSearch (-1) 0 []).

Lemma helper_session_is_sound_witness :
  let '(rs, s') := session (EV := quiet_env) (SE := two_socket_sys) 1 2 fresh_hstate in
  map (fun r => ts_package_temp_millic r.2) rs = [67000; 67000] /\
  Forall report_ok rs /\ List.length rs = 2%nat /\ helper_ok s' /\ hs_fds s' = [].
Proof.
  pose proof (helper_session_is_sound (EV := quiet_env) (SE := two_socket_sys) 1 2 fresh_hstate ltac:(lia) eq_refl) as H.
  destruct (session (EV := quiet_env) (SE := two_socket_sys) 1 2 fresh_hstate) as [rs s'] eqn:E.
  split; [|exact H]. assert (Hrs : rs = (session (EV := quiet_env) (SE := two_socket_sys) 1 2 fresh_hstate).1) by (by rewrite E).
  rewrite Hrs. vm_compute. reflexivity.
Defined.

(** The label test is a substring test: the label of package 10 names package 1. *)
Example label_of_another_package : label_mentions_package "package id 10" 1 = true.
Proof. reflexivity. Qed.

(** A better candidate whose path does not fit still overwrites the path of the
    best one so far, which keeps its own score. *)
Example overlong_candidate_overwrites_path :
  let best := compare_candidate (mkCandidate (String.concat "" (replicate 300 "x")) 260 true "") (mkBest "/sys/a" 110 false false) in
  b_path best = String.concat "" (replicate 255 "x") /\ b_score best = 110 /\ b_explicit best = false.
Proof. vm_compute. by repeat split. Qed.
