(* ===== verification/Fusion.v ===== *)
(** * Fusion: telemetry bus, collectors and the fusion engine

    [src/src/telemetry/bus.cpp], [collector.cpp] and the data path of
    [fusion.cpp]: readings are published per signal and source, periodic
    collectors feed the bus, and each iteration of the worker fuses the best
    fresh reading of every signal into a snapshot kept in a ring buffer.  The
    thread around it is in [FusionThread.v], the C interface in [FusionBridge.v].

    C++ exceptions are values: an operation that can throw returns [exn + A].
    Node allocation is the only thing that throws inside the bus; what a data
    provider returns or throws comes from [FusionEnv]. *)
From S2P Require Import Prelude Float64 Config World Guard.
From stdpp Require Import gmap strings.
From Stdlib Require Import String.
#[local] Open Scope string_scope.
#[local] Open Scope Z_scope.

(** ** Exceptions *)

Inductive exn : Type := BadAlloc | SystemError (code : Z) | StdException | OtherException.

Definition throw {W A} (e : exn) : ST W (exn + A) := ret (inl e).
Definition bind_exn {W A B} (m : ST W (exn + A)) (k : A -> ST W (exn + B)) : ST W (exn + B) :=
  r <- m ;; match r with inl e => ret (inl e) | inr a => k a end.
(** A step that does not throw. *)
Definition fine {W A} (m : ST W A) : ST W (exn + A) := a <- m ;; ret (inr a).

Notation "x <-! c ;; k" := (bind_exn c (fun x => k))
  (at level 100, c at next level, right associativity) : tsd_scope.
Notation "c ;;! k" := (bind_exn c (fun _ => k))
  (at level 100, right associativity) : tsd_scope.

(** ** Data *)

Inductive TelemetrySignal : Type := kPackageTempC | kFrequencyRatio | kThermalCpi | kPowerBudgetWatts.

#[export] Instance signal_eq_dec : EqDecision TelemetrySignal.
Proof. solve_decision. Defined.
Definition signal_code (s : TelemetrySignal) : nat :=
  match s with kPackageTempC => 0 | kFrequencyRatio => 1 | kThermalCpi => 2 | kPowerBudgetWatts => 3 end.
Definition code_signal (n : nat) : option TelemetrySignal :=
  [kPackageTempC; kFrequencyRatio; kThermalCpi; kPowerBudgetWatts] !! n.
#[export] Instance signal_countable : Countable TelemetrySignal.
Proof. apply (inj_countable signal_code code_signal). by intros []. Defined.

(** Time points are nanoseconds since the epoch of [steady_clock]. *)
Record TelemetryReading : Type := mkReading {
  rd_value : double;
  rd_valid : bool;
  rd_quality : Z;
  rd_timestamp : Z;
  rd_source : string;
}.
#[export] Instance eta_reading : Eta TelemetryReading := fun r =>
  mkReading (rd_value r) (rd_valid r) (rd_quality r) (rd_timestamp r) (rd_source r).
Definition default_reading : TelemetryReading := mkReading f64_zero false 0 0 "".

Abbreviation SourceMap := (gmap string TelemetryReading).
Abbreviation TelemetryBus := (gmap TelemetrySignal SourceMap).

Record PerfSample : Type := mkPerfSample { sp_thermal_cpi : double; sp_freq_hint : double; sp_valid : bool }.
Record TemperatureSample : Type := mkTempSample { st_package_temp_c : double; st_valid : bool }.
Record RaplSample : Type := mkRaplSample { sr_power_budget_w : double; sr_valid : bool }.

(** Iterating an [std::unordered_map] visits every entry once, in no specified
    order. *)
Class FusionEnv : Type := mkFusionEnv {
  fe_perf : nat -> exn + PerfSample;
  fe_temperature : nat -> exn + TemperatureSample;
  fe_rapl : nat -> exn + RaplSample;
  fe_alloc : nat -> bool;                       (** memory was found *)
  fe_order : nat -> SourceMap -> list TelemetryReading;
  fe_order_all : forall n m, fe_order n m ≡ₚ (map_to_list m).*2;
}.

(** [std::optional::has_value] *)
Definition has {A} (o : option A) : bool := match o with Some _ => true | None => false end.

(** ** Bus *)

Definition source_key (reading : TelemetryReading) : string :=
  if String.eqb (rd_source reading) "" then "default" else rd_source reading.

(** Whether a reading replaces the one stored for its source. *)
Definition supersedes (reading slot : TelemetryReading) : bool :=
  (rd_timestamp slot =? 0) || (rd_timestamp reading >? rd_timestamp slot) ||
  ((rd_timestamp reading =? rd_timestamp slot) && (rd_quality reading >=? rd_quality slot)).

Definition sources_of (bus : TelemetryBus) (signal : TelemetrySignal) : SourceMap := default ∅ (bus !! signal).

Definition publish (signal : TelemetrySignal) (reading : TelemetryReading) (bus : TelemetryBus) : TelemetryBus :=
  let key := source_key reading in
  let sources := sources_of bus signal in
  let slot := default default_reading (sources !! key) in
  let slot := if supersedes reading slot then reading <| rd_source := key |> else slot in
  <[signal := <[key := slot]> sources]> bus.

(** The scan of [TelemetryBus::latest]. *)
Definition later_reading (best : option TelemetryReading) (reading : TelemetryReading) : option TelemetryReading :=
  match best with
  | None => Some reading
  | Some b =>
      if (rd_valid reading && negb (rd_valid b)) ||
         (bool_decide (rd_valid reading = rd_valid b) && (rd_timestamp reading >? rd_timestamp b)) ||
         (bool_decide (rd_valid reading = rd_valid b) && (rd_timestamp reading =? rd_timestamp b) &&
          (rd_quality reading >? rd_quality b))
      then Some reading else best
  end.

(** ** Collectors *)

Inductive CollectorKind : Type := PerfCollector | MsrCollector | RaplCollector | FreqCollector | OemCollector.

Record PeriodicCollector : Type := mkCollector {
  co_kind : CollectorKind;
  co_interval : Z;                (** milliseconds *)
  co_next_run : Z;
  co_provider : bool;             (** a provider is set *)
  co_quality : Z;
}.
#[export] Instance eta_collector : Eta PeriodicCollector := fun c =>
  mkCollector (co_kind c) (co_interval c) (co_next_run c) (co_provider c) (co_quality c).

(** [steady_clock::time_point::min()] *)
Definition time_point_min : Z := LONG_MIN.
Definition new_collector (kind : CollectorKind) (interval : Z) (provider : bool) (quality : Z) : PeriodicCollector :=
  mkCollector kind interval time_point_min provider quality.

Definition make_reading (value : double) (valid : bool) (quality now : Z) (source : string) : TelemetryReading :=
  mkReading value valid quality now source.

(** ** Snapshots and their ring *)

Record TelemetrySnapshot : Type := mkSnapshot {
  sn_generation : Z;
  sn_capture_time : Z;
  sn_degraded : bool;
  sn_package_temp_c : option double;   (** [temp_available] and its value *)
  sn_freq_ratio : option double;
  sn_thermal_cpi : option double;
  sn_power_budget_w : option double;
}.
Definition empty_snapshot : TelemetrySnapshot := mkSnapshot 0 0 false None None None None.

Record SnapshotRing : Type := mkRing {
  rb_capacity : nat;
  rb_buffer : list TelemetrySnapshot;
  rb_head : nat;
  rb_last_generation : Z;
}.

Definition new_ring (capacity : nat) : SnapshotRing :=
  let capacity := if (capacity =? 0)%nat then 1%nat else capacity in
  mkRing capacity (replicate capacity empty_snapshot) (capacity - 1) 0.

Definition ring_publish (snapshot : TelemetrySnapshot) (ring : SnapshotRing) : SnapshotRing :=
  let head := ((rb_head ring + 1) mod rb_capacity ring)%nat in
  mkRing (rb_capacity ring) (<[head := snapshot]> (rb_buffer ring)) head (sn_generation snapshot).

Definition ring_head (ring : SnapshotRing) : option TelemetrySnapshot := rb_buffer ring !! rb_head ring.

Definition ring_latest (ring : SnapshotRing) : option TelemetrySnapshot :=
  if rb_last_generation ring =? 0 then None else ring_head ring.

(** [wait_for]; [arrived] are the snapshots published before the wait ends. *)
Definition ring_wait_for (generation : Z) (arrived : list TelemetrySnapshot) (ring : SnapshotRing) : option TelemetrySnapshot :=
  let ring :=
    if (generation =? 0) || (generation >? rb_last_generation ring)
    then foldl (fun r s => ring_publish s r) ring arrived else ring in
  if (rb_last_generation ring =? 0) || (rb_last_generation ring <? generation) then None else ring_head ring.

(** ** Engine *)

Record TelemetryFusion : Type := mkFusion {
  tf_poll_interval : Z;          (** milliseconds *)
  tf_freshness_window : Z;       (** milliseconds *)
  tf_bus : TelemetryBus;         (** shared with the bus manager *)
  tf_collectors : list PeriodicCollector;
  tf_ring : SnapshotRing;
  tf_running : bool;
  tf_joinable : bool;
  tf_generation : Z;
}.
#[export] Instance eta_fusion : Eta TelemetryFusion := fun f =>
  mkFusion (tf_poll_interval f) (tf_freshness_window f) (tf_bus f) (tf_collectors f) (tf_ring f) (tf_running f)
    (tf_joinable f) (tf_generation f).

Definition new_fusion (poll_interval freshness_window : Z) (ring_size : nat) : TelemetryFusion :=
  mkFusion poll_interval freshness_window ∅ [] (new_ring ring_size) false false 0.

Definition register_collector (collector : option PeriodicCollector) (f : TelemetryFusion) : TelemetryFusion :=
  match collector with None => f | Some c => f <| tf_collectors ::= fun cs => app cs [c] |> end.

Record fstate : Type := mkFstate { fs_world : world; fs_engine : TelemetryFusion }.
#[export] Instance eta_fstate : Eta fstate := fun s => mkFstate (fs_world s) (fs_engine s).

Abbreviation FM := (ST fstate).

Definition in_process {A} (m : M A) : FM A := fun s => let '(a, w) := m (fs_world s) in (a, s <| fs_world := w |>).
Definition engine_get {A} (f : TelemetryFusion -> A) : FM A := gets (fun s => f (fs_engine s)).
Definition engine_set (f : TelemetryFusion -> TelemetryFusion) : FM unit := modify (fun s => s <| fs_engine ::= f |>).

(** Whether a reading may be fused, and which of two is preferred. *)
Definition usable (window now : Z) (r : TelemetryReading) : bool :=
  rd_valid r && isfinite (rd_value r) && negb (rd_timestamp r =? 0) && negb (rd_timestamp r >? now) &&
  negb (now - rd_timestamp r >? window * NS_PER_MS).
Definition preferred (r best : TelemetryReading) : bool :=
  (rd_quality r >? rd_quality best) || ((rd_quality r =? rd_quality best) && (rd_timestamp r >? rd_timestamp best)).

Definition consider (window now : Z) (best : option TelemetryReading) (r : TelemetryReading) : option TelemetryReading :=
  if negb (usable window now r) then best
  else match best with
       | None => Some r
       | Some b => if preferred r b then Some r else best
       end.
Definition select_reading (window now : Z) (candidates : list TelemetryReading) : option TelemetryReading :=
  foldl (consider window now) None candidates.

Section engine.
Context `{EV : Env, FE : FusionEnv}.

Definition bus_publish (signal : TelemetrySignal) (reading : TelemetryReading) : FM (exn + unit) :=
  found <- in_process (ext fe_alloc) ;;
  if negb found then throw BadAlloc
  else engine_set (fun f => f <| tf_bus ::= publish signal reading |>) ;;; ret (inr tt).

Definition readings (signal : TelemetrySignal) : FM (exn + list TelemetryReading) :=
  bus <- engine_get tf_bus ;;
  match bus !! signal with
  | None => ret (inr [])
  | Some sources =>
      found <- in_process (ext fe_alloc) ;;
      if negb found then throw BadAlloc
      else l <- in_process (ext fe_order) ;; ret (inr (l sources))
  end.

Definition latest (signal : TelemetrySignal) : FM (exn + option TelemetryReading) :=
  candidates <-! readings signal ;; ret (inr (foldl later_reading None candidates)).

(** The [sample] methods of the five collectors. *)
Definition collector_sample (c : PeriodicCollector) (now : Z) : FM (exn + unit) :=
  if negb (co_provider c) then ret (inr tt)
  else
    match co_kind c with
    | PerfCollector =>
        sample <-! in_process (ext fe_perf) ;;
        bus_publish kThermalCpi (make_reading (sp_thermal_cpi sample) (sp_valid sample) (co_quality c) now "perf") ;;!
        bus_publish kFrequencyRatio (make_reading (sp_freq_hint sample) (sp_valid sample) (co_quality c) now "perf")
    | MsrCollector =>
        sample <-! in_process (ext fe_temperature) ;;
        bus_publish kPackageTempC (make_reading (st_package_temp_c sample) (st_valid sample) (co_quality c) now "msr")
    | RaplCollector =>
        sample <-! in_process (ext fe_rapl) ;;
        bus_publish kPowerBudgetWatts (make_reading (sr_power_budget_w sample) (sr_valid sample) (co_quality c) now "rapl")
    | FreqCollector =>
        sample <-! in_process (ext fe_perf) ;;
        bus_publish kFrequencyRatio (make_reading (sp_freq_hint sample) (sp_valid sample) (co_quality c) now "freq")
    | OemCollector =>
        sample <-! in_process (ext fe_temperature) ;;
        bus_publish kPackageTempC (make_reading (st_package_temp_c sample) (st_valid sample) (co_quality c) now "oem")
    end.

(** [PeriodicCollector::collect] of the [i]-th collector. *)
Definition collect (i : nat) (now : Z) : FM (exn + unit) :=
  found <- engine_get (fun f => tf_collectors f !! i) ;;
  match found with
  | None => ret (inr tt)
  | Some c =>
      if now <? co_next_run c then ret (inr tt)
      else
        engine_set (fun f => f <| tf_collectors ::= alter (fun c => c <| co_next_run := now + co_interval c * NS_PER_MS |>) i |>) ;;;
        collector_sample c now
  end.

(** An exception leaves the loop: later collectors are not polled. *)
Fixpoint poll_from (i n : nat) (now : Z) : FM (exn + unit) :=
  match n with
  | O => ret (inr tt)
  | S n => collect i now ;;! poll_from (S i) n now
  end.
Definition poll (now : Z) : FM (exn + unit) :=
  n <- engine_get (fun f => List.length (tf_collectors f)) ;; poll_from 0 n now.

(** [None] is [out_flag = false]. *)
Definition assign_value (signal : TelemetrySignal) (now : Z) : FM (exn + option double) :=
  candidates <-! readings signal ;;
  window <-! fine (engine_get tf_freshness_window) ;;
  ret (inr (option_map rd_value (select_reading window now candidates))).

Definition publish_running : FM unit :=
  running <- engine_get tf_running ;; in_process (tsd_observability_update_fusion (Some running)).

Definition fuse (now : Z) : FM (exn + TelemetrySnapshot) :=
  engine_set (fun f => f <| tf_generation ::= fun g => u64 (g + 1) |>) ;;;
  generation <- engine_get tf_generation ;;
  temp <-! assign_value kPackageTempC now ;;
  freq <-! assign_value kFrequencyRatio now ;;
  cpi <-! assign_value kThermalCpi now ;;
  power <-! assign_value kPowerBudgetWatts now ;;
  let degraded := negb (has temp) || negb (has freq) in
  fine publish_running ;;!
  ret (inr (mkSnapshot generation now degraded temp freq cpi power)).

(** One turn of the loop of [TelemetryFusion::run], up to its wait. *)
Definition run_iteration : FM unit :=
  r <- (now <-! fine (in_process (ext env_steady)) ;;
        poll now ;;!
        snapshot <-! fuse now ;;
        fine (engine_set (fun f => f <| tf_ring ::= ring_publish snapshot |>))) ;;
  match r with inl _ => publish_running | inr _ => ret tt end.

(** [n] turns, while the engine runs. *)
Fixpoint worker_turns (n : nat) : FM unit :=
  match n with
  | O => ret tt
  | S n => running <- engine_get tf_running ;; if running then run_iteration ;;; worker_turns n else ret tt
  end.

(** [start] and [stop] of one caller at a time (the races are in
    [FusionThread.v]); [None]: the thread was created. *)
Definition fusion_start (thread_error : option exn) : FM (exn + unit) :=
  busy <- engine_get (fun f => tf_running f || tf_joinable f) ;;
  if busy : bool then ret (inr tt)
  else
    engine_set (fun f => f <| tf_running := true |>) ;;;
    match thread_error with
    | Some e =>
        engine_set (fun f => f <| tf_running := false |>) ;;;
        in_process (tsd_observability_update_fusion (Some false)) ;;; throw e
    | None =>
        engine_set (fun f => f <| tf_joinable := true |>) ;;;
        in_process (tsd_observability_update_fusion (Some true)) ;;; ret (inr tt)
    end.

Definition fusion_stop : FM unit :=
  engine_set (fun f => f <| tf_running := false |>) ;;;
  engine_set (fun f => f <| tf_joinable := false |>) ;;;
  in_process (tsd_observability_update_fusion (Some false)).
End engine.

(** ** Selecting a reading *)

(** [v] is the fused value of the readings stored in [sources]: the value of a
    usable one to which no other usable one is preferred, or none is usable. *)
Definition fused_value (window now : Z) (sources : SourceMap) (v : option double) : Prop :=
  match v with
  | Some x => exists key r, sources !! key = Some r /\ usable window now r = true /\ rd_value r = x /\
      (forall key' r', sources !! key' = Some r' -> usable window now r' = true -> preferred r' r = false)
  | None => forall key r, sources !! key = Some r -> usable window now r = false
  end.

Lemma preferred_false r b :
  preferred r b = false <->
  rd_quality r < rd_quality b \/ (rd_quality r = rd_quality b /\ rd_timestamp r <= rd_timestamp b).
Proof.
  unfold preferred. rewrite orb_false_iff, andb_false_iff, !Z.gtb_ltb, !Z.ltb_ge, Z.eqb_neq. lia.
Qed.

(** [b] is among the usable readings of [l] and none of them is preferred. *)
Definition best_in (window now : Z) (l : list TelemetryReading) (best : option TelemetryReading) : Prop :=
  match best with
  | Some b => b ∈ l /\ usable window now b = true /\
      (forall r, r ∈ l -> usable window now r = true -> preferred r b = false)
  | None => forall r, r ∈ l -> usable window now r = false
  end.

Lemma consider_best window now l best r :
  best_in window now l best -> best_in window now (app l [r]) (consider window now best r).
Proof.
  unfold consider. intros Hb. destruct (usable window now r) eqn:Eu; cbn [negb].
  2: { destruct best as [b|]; cbn in *.
       - destruct Hb as (Hin & Hu & Hall). split_and!; [set_solver | done|]. intros x Hx Hux.
         apply elem_of_app in Hx as [Hx|Hx%list_elem_of_singleton]; [by apply Hall | congruence].
       - intros x Hx. apply elem_of_app in Hx as [Hx|Hx%list_elem_of_singleton]; [by apply Hb | by subst]. }
  destruct best as [b|]; cbn in *.
  2: { split_and!; [set_solver | done|]. intros x Hx Hux. apply elem_of_app in Hx as [Hx|Hx%list_elem_of_singleton].
       - rewrite Hb in Hux by done. done.
       - subst. apply preferred_false. lia. }
  destruct Hb as (Hin & Hu & Hall). destruct (preferred r b) eqn:Ep; cbn; (split_and!; [set_solver | done|]);
    intros x Hx Hux; (apply elem_of_app in Hx as [Hx|Hx%list_elem_of_singleton]; [specialize (Hall x Hx Hux) | subst]).
  - apply not_false_iff_true in Ep. rewrite preferred_false in *. lia.
  - apply preferred_false. lia.
  - done.
  - done.
Qed.

Lemma select_best window now l : best_in window now l (select_reading window now l).
Proof.
  unfold select_reading. induction l as [|r l IH] using rev_ind; [intros r Hr; by apply elem_of_nil in Hr|].
  rewrite foldl_app. cbn. by apply consider_best.
Qed.

Lemma select_fused window now (sources : SourceMap) l :
  l ≡ₚ (map_to_list sources).*2 -> fused_value window now sources (option_map rd_value (select_reading window now l)).
Proof.
  intros Hp.
  assert (Hl : forall r, r ∈ l <-> exists key, sources !! key = Some r).
  { intros r. rewrite Hp, list_elem_of_fmap. split.
    - intros ([key x] & -> & Hx). apply elem_of_map_to_list in Hx. by exists key.
    - intros (key & Hk). exists (key, r). split; [done | by apply elem_of_map_to_list]. }
  pose proof (select_best window now l) as Hs. destruct (select_reading window now l) as [b|]; cbn in *.
  - destruct Hs as ((key & Hk)%Hl & Hu & Hall). exists key, b. split_and!; try done.
    intros key' r' Hk'. apply Hall, Hl. by exists key'.
  - intros key r Hk. apply Hs, Hl. by exists key.
Qed.

(** ** The bus keeps the newest reading of every source *)

Abbreviation publication := (TelemetrySignal * TelemetryReading)%type.

Definition publish_all (ps : list publication) : TelemetryBus := foldl (fun bus p => publish p.1 p.2 bus) ∅ ps.

Definition stored (bus : TelemetryBus) (signal : TelemetrySignal) (key : string) : option TelemetryReading :=
  sources_of bus signal !! key.

Lemma stored_publish signal reading bus signal' key :
  stored (publish signal reading bus) signal' key =
  if decide (signal' = signal /\ key = source_key reading) then
    let slot := default default_reading (stored bus signal key) in
    Some (if supersedes reading slot then reading <| rd_source := key |> else slot)
  else stored bus signal' key.
Proof.
  unfold stored, publish, sources_of. destruct (decide (signal' = signal)) as [-> |Hn].
  - rewrite lookup_insert_eq. cbn [from_option id]. destruct (decide (key = source_key reading)) as [-> |Hk].
    + rewrite lookup_insert_eq, decide_True by done. done.
    + rewrite lookup_insert_ne by done. rewrite decide_False by naive_solver. done.
  - rewrite lookup_insert_ne by done. rewrite decide_False by naive_solver. done.
Qed.

(** The reading stored for a source after some publications. *)
Definition newest (ps : list publication) (signal : TelemetrySignal) (key : string) (slot : option TelemetryReading) : Prop :=
  match slot with
  | None => forall p, p ∈ ps -> ~ (p.1 = signal /\ source_key p.2 = key)
  | Some r =>
      (exists r0, (signal, r0) ∈ ps /\ source_key r0 = key /\ r = r0 <| rd_source := key |>) /\
      (forall r', (signal, r') ∈ ps -> source_key r' = key ->
         rd_timestamp r' <= rd_timestamp r /\
         (rd_timestamp r' = rd_timestamp r -> rd_timestamp r <> 0 -> rd_quality r' <= rd_quality r))
  end.

Lemma supersedes_spec reading slot : 0 <= rd_timestamp reading -> 0 <= rd_timestamp slot ->
  if supersedes reading slot
  then rd_timestamp slot <= rd_timestamp reading /\
       (rd_timestamp slot = rd_timestamp reading -> rd_timestamp reading <> 0 -> rd_quality slot <= rd_quality reading)
  else rd_timestamp reading <= rd_timestamp slot /\
       (rd_timestamp reading = rd_timestamp slot -> rd_quality reading <= rd_quality slot).
Proof.
  intros H1 H2. destruct (supersedes reading slot) eqn:E; unfold supersedes in E.
  - rewrite !orb_true_iff, andb_true_iff, Z.gtb_ltb, Z.geb_leb, Z.ltb_lt, Z.leb_le, !Z.eqb_eq in E. lia.
  - rewrite !orb_false_iff, andb_false_iff, Z.gtb_ltb, Z.geb_leb, Z.ltb_ge, Z.leb_gt, !Z.eqb_neq in E. lia.
Qed.

Lemma newest_step ps signal0 reading signal key slot :
  Forall (fun p : publication => 0 <= rd_timestamp p.2) ps -> 0 <= rd_timestamp reading ->
  newest ps signal key slot ->
  newest (app ps [(signal0, reading)]) signal key
    (if decide (signal = signal0 /\ key = source_key reading) then
       let old := default default_reading slot in
       Some (if supersedes reading old then reading <| rd_source := key |> else old)
     else slot).
Proof.
  intros Hps Hr Hn. rewrite Forall_forall in Hps.
  destruct (decide _) as [[-> Hk]|Hne].
  2: { destruct slot as [r|]; cbn in *.
       - destruct Hn as [(r0 & Hin & E1 & E2) Hall]. split; [exists r0; set_solver|]. intros r' Hr'.
         apply elem_of_app in Hr' as [Hr'|[= -> ->]%list_elem_of_singleton]; [by apply Hall | naive_solver].
       - intros p Hp. apply elem_of_app in Hp as [Hp| ->%list_elem_of_singleton]; [by apply Hn | cbn; naive_solver]. }
  cbv zeta. destruct slot as [r|]; cbn [from_option id newest] in *.
  - destruct Hn as [(r0 & Hin & E1 & ->) Hall]. pose proof (Hps _ Hin) as H0. cbn in H0.
    pose proof (supersedes_spec reading (r0 <| rd_source := key |>) Hr H0) as Hsp.
    destruct (supersedes _ _); cbn in Hsp |- *.
    + split; [exists reading; set_solver|]. intros r' Hr' Hkey.
      apply elem_of_app in Hr' as [Hr'|[= ->]%list_elem_of_singleton]; [|cbn; lia].
      destruct (Hall r' Hr' Hkey) as [Ha Hb]. cbn in Ha, Hb. split; [lia|]. intros Ht Hz. lia.
    + split; [exists r0; set_solver|]. intros r' Hr' Hkey.
      apply elem_of_app in Hr' as [Hr'|[= ->]%list_elem_of_singleton]; [by apply Hall | cbn; lia].
  - replace (supersedes reading default_reading) with true by done. split; [exists reading; set_solver|]. intros r' Hr' Hkey.
    apply elem_of_app in Hr' as [Hr'|[= ->]%list_elem_of_singleton]; [by destruct (Hn _ Hr') | cbn; lia].
Qed.

(** ** Ring *)

Record ring_ok (ring : SnapshotRing) : Prop := {
  ro_size : List.length (rb_buffer ring) = rb_capacity ring;
  ro_head : (rb_head ring < rb_capacity ring)%nat;
  ro_latest : rb_last_generation ring <> 0 -> exists sn, ring_head ring = Some sn /\ sn_generation sn = rb_last_generation ring;
}.

Lemma new_ring_ok n : ring_ok (new_ring n).
Proof. split; cbn; [apply length_replicate | destruct n; cbn; lia | done]. Qed.

Lemma ring_publish_ok sn ring : ring_ok ring -> ring_ok (ring_publish sn ring) /\ ring_head (ring_publish sn ring) = Some sn.
Proof.
  intros [Hs Hh Hl].
  assert (Hm : ((rb_head ring + 1) mod rb_capacity ring < rb_capacity ring)%nat) by (apply Nat.mod_upper_bound; lia).
  assert (He : ring_head (ring_publish sn ring) = Some sn).
  { unfold ring_head. cbn. apply list_lookup_insert_eq. by rewrite Hs. }
  split; [|done]. split; cbn; [by rewrite length_insert | done|]. intros _. by exists sn.
Qed.

Lemma ring_publish_latest sn ring : ring_ok ring ->
  ring_latest (ring_publish sn ring) = if sn_generation sn =? 0 then None else Some sn.
Proof. intros Hr. unfold ring_latest. by rewrite (proj2 (ring_publish_ok sn ring Hr)). Qed.

(** A wait only returns a snapshot of at least the generation it asked for. *)
Lemma ring_wait_for_generation generation arrived ring sn :
  ring_ok ring -> ring_wait_for generation arrived ring = Some sn -> generation <= sn_generation sn /\ sn_generation sn <> 0.
Proof.
  intros Hr. unfold ring_wait_for. cbv zeta.
  match goal with |- context [rb_last_generation (if ?b then ?x else ring)] => set (ring' := if b then x else ring) end.
  assert (H' : ring_ok ring').
  { unfold ring'. case_if; [|done]. clear -Hr. revert ring Hr. induction arrived as [|x l IH]; intros ring Hr; [done|].
    apply IH, ring_publish_ok, Hr. }
  clearbody ring'. case_if; [done|]. zbool. destruct (ro_latest _ H') as (x & -> & Hx); [done|]. intros [= ->]. lia.
Qed.

(** ** Runs of the engine *)

Lemma respects_exn {W A B} (R : W -> W -> Prop) `{!PreOrder R} (m : ST W (exn + A)) (k : A -> ST W (exn + B)) :
  respects R m -> (forall a, respects R (k a)) -> respects R (bind_exn m k).
Proof.
  intros Hm Hk. unfold bind_exn. apply respects_bind; [exact _ | done|]. intros [e|a]; [apply respects_ret; exact _ | apply Hk].
Qed.

Lemma wp_exn {W A B} (m : ST W (exn + A)) (k : A -> ST W (exn + B)) Q s :
  wp m (fun r s' => match r with inl e => Q (inl e) s' | inr a => wp (k a) Q s' end) s -> wp (bind_exn m k) Q s.
Proof. intros Hm. apply wp_bind. eapply wp_mono; [exact Hm|]. by intros [e|a] s' H'. Qed.

Lemma wp_fine {W A} (m : ST W A) Q s : wp m (fun a => Q (inr a)) s -> wp (fine m) Q s.
Proof. intros Hm. by apply wp_bind. Qed.

Lemma wp_run {W A} (m : ST W A) a s s' (Q : A -> W -> Prop) : m s = (a, s') -> Q a s' -> wp m Q s.
Proof. unfold wp. by intros ->. Qed.

(** What polling does not touch. *)
Definition engine_frame (s : fstate) :=
  let f := fs_engine s in
  (tf_poll_interval f, tf_freshness_window f, tf_ring f, tf_running f, tf_joinable f, tf_generation f).

(** A snapshot that fuses what the bus of [f] holds at [now]. *)
Record snapshot_of (f : TelemetryFusion) (now : Z) (sn : TelemetrySnapshot) : Prop := {
  so_time : sn_capture_time sn = now;
  so_degraded : sn_degraded sn = negb (has (sn_package_temp_c sn)) || negb (has (sn_freq_ratio sn));
  so_temp : fused_value (tf_freshness_window f) now (sources_of (tf_bus f) kPackageTempC) (sn_package_temp_c sn);
  so_freq : fused_value (tf_freshness_window f) now (sources_of (tf_bus f) kFrequencyRatio) (sn_freq_ratio sn);
  so_cpi : fused_value (tf_freshness_window f) now (sources_of (tf_bus f) kThermalCpi) (sn_thermal_cpi sn);
  so_power : fused_value (tf_freshness_window f) now (sources_of (tf_bus f) kPowerBudgetWatts) (sn_power_budget_w sn);
}.

Section runs.
Context `{EV : Env, FE : FusionEnv}.

Lemma in_process_run {A} (m : M A) s : in_process m s = ((m (fs_world s)).1, s <| fs_world := (m (fs_world s)).2 |>).
Proof. unfold in_process. by destruct (m (fs_world s)). Qed.

Lemma publish_running_run s : exists w, publish_running s = (tt, s <| fs_world := w |>).
Proof.
  unfold publish_running. rewrite bind_run. cbn [engine_get gets fst snd]. rewrite in_process_run.
  destruct (tsd_observability_update_fusion _ _) as [[] w]. by exists w.
Qed.

Lemma readings_run signal s :
  exists r w, readings signal s = (r, s <| fs_world := w |>) /\
    match r with
    | inr l => l ≡ₚ (map_to_list (sources_of (tf_bus (fs_engine s)) signal)).*2
    | inl e => e = BadAlloc
    end.
Proof.
  unfold readings, sources_of. rewrite bind_run. cbn [engine_get gets fst snd].
  destruct (tf_bus (fs_engine s) !! signal) as [m|].
  2: { exists (inr []), (fs_world s). split; [by destruct s|]. cbn. by rewrite map_to_list_empty. }
  rewrite bind_run, in_process_run. cbn [ext fst snd]. destruct (fe_alloc _); cbn [negb].
  - rewrite bind_run, in_process_run. cbn [ext fst snd ret]. do 2 eexists. split; [reflexivity|]. apply fe_order_all.
  - do 2 eexists. split; reflexivity.
Qed.

Lemma assign_run signal now s :
  exists r w, assign_value signal now s = (r, s <| fs_world := w |>) /\
    match r with
    | inr v => fused_value (tf_freshness_window (fs_engine s)) now (sources_of (tf_bus (fs_engine s)) signal) v
    | inl e => e = BadAlloc
    end.
Proof.
  unfold assign_value, bind_exn. rewrite bind_run.
  destruct (readings_run signal s) as (r & w & -> & Hr). cbn [fst snd]. destruct r as [e|l].
  - exists (inl e), w. done.
  - eexists (inr _), w. split; [reflexivity|]. by apply select_fused.
Qed.

(** The next channel of a snapshot. *)
Ltac next_value sig now :=
  unfold bind_exn at 1; rewrite bind_run;
  match goal with |- context [assign_value sig now ?x] =>
    destruct (assign_run sig now x) as ([e|?v] & ?w & -> & ?Hv); cbn [fst snd];
    [subst e; do 2 eexists; split; [reflexivity | reflexivity] |] end.

Lemma fuse_run now s :
  exists r w, let g := u64 (tf_generation (fs_engine s) + 1) in
    fuse now s = (r, mkFstate w ((fs_engine s) <| tf_generation := g |>)) /\
    match r with
    | inr sn => sn_generation sn = g /\ snapshot_of (fs_engine s) now sn
    | inl e => e = BadAlloc
    end.
Proof.
  unfold fuse. rewrite bind_run. cbn [engine_set modify fst snd]. rewrite bind_run. cbn [engine_get gets fst snd].
  set (s0 := s <| fs_engine ::= _ |>).
  next_value kPackageTempC now. next_value kFrequencyRatio now. next_value kThermalCpi now. next_value kPowerBudgetWatts now.
  unfold bind_exn, fine, publish_running. rewrite !bind_run. cbn [engine_get gets fst snd]. rewrite in_process_run.
  cbn [fst snd ret]. do 2 eexists. split; [reflexivity|]. split; [done|]. by split.
Qed.

Ltac frame_steps :=
  repeat first
    [ respects_step
    | apply respects_exn; [exact _| |intro]
    | (intros ?s; unfold in_process; by case_match)
    | (intros ?s; reflexivity) ].

Lemma poll_frame now : respects (fun s s' => engine_frame s = engine_frame s') (poll now).
Proof.
  unfold poll. apply respects_bind; [exact _ | by intros s|]. intros n. generalize 0%nat.
  induction n as [|n IH]; intros i; cbn [poll_from]; [apply respects_ret; exact _|].
  apply respects_exn; [exact _ | | intros _; apply IH].
  unfold collect, collector_sample, bus_publish, engine_get, engine_set, throw. frame_steps.
Qed.

(** One turn of the loop, whatever the providers do. *)
Lemma iteration_run s :
  ring_ok (tf_ring (fs_engine s)) ->
  wp run_iteration (fun _ s' =>
    let f := fs_engine s in let f' := fs_engine s' in
    ring_ok (tf_ring f') /\
    (tf_poll_interval f', tf_freshness_window f', tf_running f', tf_joinable f') =
      (tf_poll_interval f, tf_freshness_window f, tf_running f, tf_joinable f) /\
    (tf_ring f' = tf_ring f \/
     exists sn, snapshot_of f' (env_steady (w_calls (fs_world s))) sn /\
       sn_generation sn = u64 (tf_generation f + 1) /\ tf_generation f' = sn_generation sn /\
       ring_latest (tf_ring f') = if sn_generation sn =? 0 then None else Some sn)) s.
Proof.
  intros Hr. unfold run_iteration. apply wp_bind, wp_exn, wp_fine. eapply wp_run; [apply in_process_run|].
  cbn [ext fst snd]. set (now := env_steady _). set (s1 := s <| fs_world := _ |>).
  apply wp_exn. pose proof (poll_frame now s1) as Hp. cbv beta in Hp.
  destruct (poll now s1) as [r s2] eqn:Epoll. eapply wp_run; [exact Epoll|]. unfold engine_frame in Hp. cbn in Hp. injection Hp as E1 E2 E3 E4 E5 E6.
  destruct r as [e|[]]; [destruct (publish_running_run s2) as [w Ew]; eapply wp_run; [exact Ew|]; cbn;
    rewrite <- E1, <- E2, <- E3, <- E4, <- E5; split_and!; [done..| by left]|].
  apply wp_exn. destruct (fuse_run now s2) as (r & w & Ef & Hf). eapply wp_run; [exact Ef|].
  destruct r as [e|sn]; [match goal with |- wp _ _ ?x => destruct (publish_running_run x) as [w' Ew] end; eapply wp_run; [exact Ew|]; cbn;
    rewrite <- E1, <- E2, <- E3, <- E4, <- E5; split_and!; [done..| by left]|].
  destruct Hf as [Hg Hsn]. apply wp_fine, wp_modify. cbn. rewrite <- E1, <- E2, <- E3, <- E4, <- E5.
  split_and!; [exact (proj1 (ring_publish_ok sn _ Hr)) | done|]. right. exists sn.
  split_and!; [destruct Hsn; split; cbn; rewrite ?E2; done | congruence | done | by apply ring_publish_latest].
Qed.
End runs.

(** ** Properties *)

(** Whatever was published, the bus holds for a source and signal exactly what that
    source last said: one of its own readings, no older than any other of them
    and, among those of the same instant, of the highest quality; other sources
    do not disturb it, and a source that never published has no entry. *)
Theorem bus_keeps_newest_reading (ps : list publication) (signal : TelemetrySignal) (key : string) :
  Forall (fun p : publication => 0 <= rd_timestamp p.2) ps ->
  newest ps signal key (stored (publish_all ps) signal key).
Proof.
  unfold publish_all. induction ps as [|[signal0 reading] ps IH] using rev_ind; intros Hps.
  - unfold stored, sources_of. cbn [foldl]. rewrite lookup_empty. cbn [from_option]. rewrite lookup_empty.
    intros p Hp. by apply elem_of_nil in Hp.
  - apply Forall_app in Hps as [Hps Hr]; apply (Forall_inv (P := fun p : publication => 0 <= rd_timestamp p.2)) in Hr; cbn in Hr. rewrite foldl_app. cbn [foldl fst snd]. rewrite stored_publish.
    pose proof (newest_step ps signal0 reading signal key _ Hps Hr (IH Hps)) as Hn.
    destruct (decide (signal = signal0 /\ key = source_key reading)) as [[-> ->]|]; exact Hn.
Qed.

Section worker.
Context `{EV : Env, FE : FusionEnv}.

End worker.

(** ** Concrete runs *)

Definition plain_fusion_env : FusionEnv.
Proof.
  refine (mkFusionEnv (fun _ => inr (mkPerfSample (f64_of_Z 2) (f64_of_Z 900) true))
    (fun _ => inr (mkTempSample (f64_of_Z 61) true)) (fun _ => inl StdException) (fun _ => true)
    (fun _ m => (map_to_list m).*2) _).
  reflexivity.
Defined.

Definition two_sources : list publication :=
  [(kPackageTempC, mkReading (f64_of_Z 60) true 5 100 "msr"); (kPackageTempC, mkReading (f64_of_Z 70) true 9 90 "oem");
   (kPackageTempC, mkReading (f64_of_Z 62) false 5 120 "msr"); (kPackageTempC, mkReading (f64_of_Z 59) true 9 110 "msr")].

Lemma bus_keeps_newest_reading_witness :
  Forall (fun p : publication => 0 <= rd_timestamp p.2) two_sources /\
  stored (publish_all two_sources) kPackageTempC "msr" = Some (mkReading (f64_of_Z 62) false 5 120 "msr") /\
  newest two_sources kPackageTempC "msr" (Some (mkReading (f64_of_Z 62) false 5 120 "msr")).
Proof.
  assert (H : Forall (fun p : publication => 0 <= rd_timestamp p.2) two_sources) by (repeat constructor; cbn; lia).
  split; [exact H|]. split; [vm_compute; reflexivity|].
  exact (bus_keeps_newest_reading two_sources kPackageTempC "msr" H).
Defined.

(** An engine with a temperature and a performance collector, running. *)
Definition collecting : fstate :=
  mkFstate (initial_world 1 tsd_runtime_config_set_defaults)
    ((register_collector (Some (new_collector PerfCollector 50 true 1))
       (register_collector (Some (new_collector MsrCollector 50 true 1)) (new_fusion 50 150 4))) <| tf_running := true |>).

