(* ===== verification/FusionThread.v ===== *)
(** * FusionThread: races of [TelemetryFusion::start] and [stop]

    The worker life cycle of [src/src/telemetry/fusion.cpp] as a step relation:
    any number of threads call [start] and [stop], the worker runs its loop and
    may itself call [stop] from a collector.  A critical section of
    [thread_mutex_] is one step; the loads and publications of the worker, which
    do not take that mutex, are steps of their own.  The header of the class
    promises that a [stop] returns only after the worker is joined and the
    stopped state published, and that a [start] overlapping a [stop] is ignored. *)
From S2P Require Import Prelude.
From stdpp Require Import gmap relations.
#[local] Open Scope Z_scope.

(** The worker between two accesses of shared state. *)
Inductive worker_pc : Type :=
  | WNone                        (** no thread *)
  | WLoop                        (** at the loop test *)
  | WPoll                        (** polling collectors *)
  | WLoaded (running : bool)     (** [running_] loaded for publication *)
  | WExited.                     (** returned from [run], not joined *)

(** A thread inside [stop]. *)
Inductive stop_pc : Type := Waiting | Joining.

#[export] Instance worker_pc_eq_dec : EqDecision worker_pc.
Proof. solve_decision. Defined.
#[export] Instance stop_pc_eq_dec : EqDecision stop_pc.
Proof. solve_decision. Defined.

Record flife : Type := mkLife {
  fl_running : bool;                  (** [running_] *)
  fl_callers : nat;                   (** [stop_callers_] *)
  fl_join : bool;                     (** [stop_join_in_progress_] *)
  fl_joinable : bool;                 (** [thread_.joinable()] *)
  fl_id : bool;                       (** [worker_thread_id_] names the worker *)
  fl_worker : worker_pc;
  fl_stops : gmap nat stop_pc;        (** threads inside [stop] *)
  fl_published : bool;                (** last [running] handed to the observability state *)
}.
#[export] Instance eta_flife : Eta flife := fun s =>
  mkLife (fl_running s) (fl_callers s) (fl_join s) (fl_joinable s) (fl_id s) (fl_worker s) (fl_stops s) (fl_published s).

Inductive event : Type := Started (accepted : bool) | Returned (i : nat) | Internal.

(** The test of [start]. *)
Definition can_start (s : flife) : bool :=
  negb (fl_running s || negb (fl_callers s =? 0)%nat || fl_join s || fl_joinable s).

Definition start_accepted (s : flife) : flife :=
  s <| fl_running := true |> <| fl_joinable := true |> <| fl_id := true |> <| fl_worker := WLoop |> <| fl_published := true |>.

(** [std::thread] threw. *)
Definition start_failed (s : flife) : flife :=
  s <| fl_running := false |> <| fl_id := false |> <| fl_published := false |>.

(** The prologue of [stop], and the decrement with which every path ends. *)
Definition stop_enter (s : flife) : flife := s <| fl_callers ::= S |> <| fl_running := false |>.
Definition stop_leave (s : flife) : flife := s <| fl_callers ::= pred |>.

(** No thread to join. *)
Definition stop_idle (s : flife) : flife := stop_leave ((stop_enter s) <| fl_published := false |> <| fl_id := false |>).

(** Become the owner of the join, or wait for it. *)
Definition stop_take_join (i : nat) (s : flife) : flife :=
  (stop_enter s) <| fl_join := true |> <| fl_joinable := false |> <| fl_stops ::= <[i := Joining]> |>.
Definition stop_await (i : nat) (s : flife) : flife := (stop_enter s) <| fl_stops ::= <[i := Waiting]> |>.

Definition stop_joined (i : nat) (s : flife) : flife :=
  (stop_leave s) <| fl_worker := WNone |> <| fl_id := false |> <| fl_published := false |> <| fl_join := false |>
    <| fl_stops ::= delete i |>.
Definition stop_awaited (i : nat) (s : flife) : flife := (stop_leave s) <| fl_stops ::= delete i |>.

(** [stop] called by the worker ([caller_is_worker], for which the invariant
    below shows that [worker_thread_id_] is set): it never waits. *)
Definition worker_stop (s : flife) : flife :=
  let s1 := stop_enter s in
  if fl_join s1 then stop_leave s1
  else if negb (fl_joinable s1) then stop_leave (s1 <| fl_published := false |> <| fl_id := false |>)
  else stop_leave (s1 <| fl_published := false |>).

Definition worker_at (p : worker_pc) (s : flife) : flife := s <| fl_worker := p |>.

Inductive life_step : flife -> event -> flife -> Prop :=
  | ls_start s : can_start s = true -> life_step s (Started true) (start_accepted s)
  | ls_start_throws s : can_start s = true -> life_step s (Started false) (start_failed s)
  | ls_start_ignored s : can_start s = false -> life_step s (Started false) s
  | ls_stop_wait i s : fl_stops s !! i = None -> fl_join s = true -> life_step s Internal (stop_await i s)
  | ls_stop_idle i s : fl_stops s !! i = None -> fl_join s = false -> fl_joinable s = false ->
      life_step s (Returned i) (stop_idle s)
  | ls_stop_join i s : fl_stops s !! i = None -> fl_join s = false -> fl_joinable s = true ->
      life_step s Internal (stop_take_join i s)
  | ls_joined i s : fl_stops s !! i = Some Joining -> fl_worker s = WExited -> life_step s (Returned i) (stop_joined i s)
  | ls_awaited i s : fl_stops s !! i = Some Waiting -> fl_join s = false -> life_step s (Returned i) (stop_awaited i s)
  | ls_worker_poll s : fl_worker s = WLoop -> fl_running s = true -> life_step s Internal (worker_at WPoll s)
  | ls_worker_exit s : fl_worker s = WLoop -> fl_running s = false -> life_step s Internal (worker_at WExited s)
  | ls_worker_stop s : fl_worker s = WPoll -> life_step s Internal (worker_stop s)
  | ls_worker_load s : fl_worker s = WPoll -> life_step s Internal (worker_at (WLoaded (fl_running s)) s)
  | ls_worker_publish b s : fl_worker s = WLoaded b -> life_step s Internal ((worker_at WLoop s) <| fl_published := b |>).

Definition life_init : flife := mkLife false 0 false false false WNone ∅ false.

Definition life_any (s s' : flife) : Prop := exists e, life_step s e s'.
Definition life_reachable (s : flife) : Prop := rtc life_any life_init s.

(** ** Invariant *)

(** Nothing of the worker is left and the stopped state is published. *)
Definition stopped_clean (s : flife) : Prop :=
  fl_worker s = WNone /\ fl_running s = false /\ fl_joinable s = false /\ fl_join s = false /\
  fl_id s = false /\ fl_published s = false.

Record life_inv (s : flife) : Prop := {
  li_callers : fl_callers s = size (fl_stops s);
  li_join : fl_join s = true <-> exists i, fl_stops s !! i = Some Joining;
  li_joiner : forall i j, fl_stops s !! i = Some Joining -> fl_stops s !! j = Some Joining -> i = j;
  li_owner : fl_worker s <> WNone <-> fl_joinable s = true \/ fl_join s = true;
  li_pending : fl_stops s <> ∅ -> fl_joinable s = false /\ fl_running s = false;
  li_running : fl_running s = true ->
    fl_joinable s = true /\ fl_published s = true /\ fl_worker s <> WExited /\ fl_worker s <> WLoaded false;
  li_id : fl_worker s <> WNone -> fl_id s = true;
  li_stopped : fl_joinable s = false -> fl_join s = false -> stopped_clean s;
}.

Lemma life_init_inv : life_inv life_init.
Proof.
  split; cbn; try done.
  - split; [done|]. intros [i Hi]. by rewrite lookup_empty in Hi.
  - naive_solver.
Qed.

Lemma can_start_true s : can_start s = true ->
  fl_running s = false /\ fl_callers s = 0%nat /\ fl_join s = false /\ fl_joinable s = false.
Proof.
  unfold can_start. intros H. apply negb_true_iff in H. repeat (apply orb_false_iff in H as [H ?]).
  split_and!; try done. apply Nat.eqb_eq. by apply negb_false_iff.
Qed.

(** Steps of the worker leave the callers of [stop] alone. *)
Lemma worker_stop_shape s :
  exists p d, worker_stop s = s <| fl_running := false |> <| fl_published := p |> <| fl_id := d |> /\
    (p = false \/ fl_join s = true /\ p = fl_published s) /\
    (fl_join s = true \/ fl_joinable s = true -> d = fl_id s).
Proof.
  destruct s as [r c j jo d w st p]. unfold worker_stop, stop_leave, stop_enter. cbn.
  destruct j, jo; cbn; do 2 eexists; (split; [reflexivity|]); naive_solver.
Qed.

Lemma size_insert_new (m : gmap nat stop_pc) i p : m !! i = None -> size (<[i := p]> m) = S (size m).
Proof. intros Hi. by rewrite map_size_insert_None. Qed.

Lemma size_delete_some (m : gmap nat stop_pc) i p : m !! i = Some p -> size (delete i m) = pred (size m).
Proof. intros Hi. by rewrite map_size_delete_Some by (by exists p). Qed.

Lemma start_inv s : life_inv s -> can_start s = true -> life_inv (start_accepted s) /\ life_inv (start_failed s).
Proof.
  intros [Hc Hj Hu Ho Hp Hr Hi Hs] (E1 & E2 & E3 & E4)%can_start_true.
  assert (Hem : fl_stops s = ∅) by (apply map_size_empty_inv; congruence).
  destruct (Hs E4 E3) as (F1 & F2 & F3 & F4 & F5 & F6).
  split; split; cbn; rewrite ?Hem in *; try done; try naive_solver.
Qed.

Lemma take_join_inv i s :
  life_inv s -> fl_stops s !! i = None -> fl_join s = false -> fl_joinable s = true -> life_inv (stop_take_join i s).
Proof.
  intros [Hc Hj Hu Ho Hp Hr Hi Hs] Hn Ej Ejo.
  assert (Hno : forall k, fl_stops s !! k <> Some Joining) by (intros k Hk; rewrite (proj2 Hj) in Ej; [done | by exists k]).
  split; cbn; try done.
  - by rewrite size_insert_new, Hc.
  - split; [|done]. intros _. exists i. apply lookup_insert_eq.
  - intros a b Ha Hb. apply lookup_insert_Some in Ha, Hb. naive_solver.
  - split; [by right|]. intros _. apply Ho. by left.
Qed.

Lemma await_inv i s : life_inv s -> fl_stops s !! i = None -> fl_join s = true -> life_inv (stop_await i s).
Proof.
  intros [Hc Hj Hu Ho Hp Hr Hi Hs] Hn Ej. destruct (proj1 Hj Ej) as [k Hk].
  assert (Hne : fl_stops s <> ∅) by (intros He; by rewrite He, lookup_empty in Hk).
  destruct (Hp Hne) as [Ejo Er].
  split; cbn; try done.
  - by rewrite size_insert_new, Hc.
  - split; [|done]. intros _. exists k. rewrite lookup_insert_ne by congruence. done.
  - intros a b Ha Hb. apply lookup_insert_Some in Ha, Hb. naive_solver.
  - congruence.
Qed.

Lemma joined_inv i s : life_inv s -> fl_stops s !! i = Some Joining -> life_inv (stop_joined i s).
Proof.
  intros [Hc Hj Hu Ho Hp Hr Hi Hs] Hn.
  assert (Hne : fl_stops s <> ∅) by (intros He; by rewrite He, lookup_empty in Hn).
  destruct (Hp Hne) as [Ejo Er].
  split; cbn; try done.
  - by rewrite (size_delete_some _ _ _ Hn), Hc.
  - split; [done|]. intros [k Hk]. apply lookup_delete_Some in Hk as [Hd Hk]. by destruct Hd; apply Hu.
  - intros a b Ha Hb. apply lookup_delete_Some in Ha, Hb. naive_solver.
  - rewrite Ejo. naive_solver.
  - congruence.
Qed.

Lemma awaited_inv i s : life_inv s -> fl_stops s !! i = Some Waiting -> fl_join s = false -> life_inv (stop_awaited i s).
Proof.
  intros [Hc Hj Hu Ho Hp Hr Hi Hs] Hn Ej.
  assert (Hne : fl_stops s <> ∅) by (intros He; by rewrite He, lookup_empty in Hn).
  destruct (Hp Hne) as [Ejo Er].
  split; cbn; try done.
  - by rewrite (size_delete_some _ _ _ Hn), Hc.
  - split; [congruence|]. intros [k Hk]. apply lookup_delete_Some in Hk as [Hd Hk]. apply Hj. by exists k.
  - intros a b Ha Hb. apply lookup_delete_Some in Ha, Hb. naive_solver.
Qed.

Lemma stop_idle_inv s : life_inv s -> fl_join s = false -> fl_joinable s = false -> life_inv (stop_idle s) /\ stopped_clean (stop_idle s).
Proof.
  intros [Hc Hj Hu Ho Hp Hr Hi Hs] Ej Ejo. destruct (Hs Ejo Ej) as (F1 & F2 & F3 & F4 & F5 & F6).
  split; [split|]; cbn; done.
Qed.

Lemma worker_inv s p : life_inv s -> fl_worker s <> WNone -> p <> WNone ->
  (fl_running s = true -> p <> WExited /\ p <> WLoaded false) -> life_inv (worker_at p s).
Proof.
  intros [Hc Hj Hu Ho Hp Hr Hi Hs] Hw Hn Hrun. pose proof (proj1 Ho Hw) as Hown.
  split; cbn; try done; try tauto. intros Ejo Ej. destruct Hown; congruence.
Qed.

Lemma worker_stop_inv s : life_inv s -> fl_worker s <> WNone -> life_inv (worker_stop s).
Proof.
  intros [Hc Hj Hu Ho Hp Hr Hi Hs] Hw. pose proof (proj1 Ho Hw) as Hown.
  destruct (worker_stop_shape s) as (p & d & -> & Hpub & Hd).
  split; cbn; try done; [by intros Hne; destruct (Hp Hne) | by intros; rewrite Hd by tauto; apply Hi |].
  intros Ejo Ej. destruct Hown; congruence.
Qed.

Lemma life_step_inv s e s' : life_inv s -> life_step s e s' -> life_inv s'.
Proof.
  intros Hs Hstep. destruct Hstep.
  - by apply start_inv.
  - by apply start_inv.
  - done.
  - by apply await_inv.
  - by apply stop_idle_inv.
  - by apply take_join_inv.
  - by apply joined_inv.
  - by apply awaited_inv.
  - apply worker_inv; try done; congruence.
  - apply worker_inv; try done; congruence.
  - apply worker_stop_inv; congruence.
  - apply worker_inv; try done; [congruence|]. intros ->. done.
  - assert (H1 : life_inv (worker_at WLoop s)) by (apply worker_inv; try done; congruence).
    destruct Hs as [_ _ _ Ho _ Hr _ _]. assert (Hw : fl_worker s <> WNone) by congruence.
    destruct H1 as [Hc1 Hj1 Hu1 Ho1 Hp1 Hr1 Hi1 Hs1]. split; cbn in *; try done.
    + intros E. destruct (Hr E) as (? & ? & ? & ?). split_and!; try done. destruct b; congruence.
    + intros Ejo Ej. destruct (proj1 Ho Hw); congruence.
Qed.

Lemma life_reachable_inv s : life_reachable s -> life_inv s.
Proof.
  revert s. apply (rtc_ind_r (R := life_any) life_inv); [apply life_init_inv|].
  intros x y _ [e Hstep] IH. by eapply life_step_inv.
Qed.

(** ** Draining *)

(** Steps that need no new call: the worker's own (collectors that do not call
    [stop]), and returns of pending stops. *)
Inductive drain_step : flife -> flife -> Prop :=
  | drain_load s : fl_worker s = WPoll -> drain_step s (worker_at (WLoaded (fl_running s)) s)
  | drain_publish b s : fl_worker s = WLoaded b -> drain_step s ((worker_at WLoop s) <| fl_published := b |>)
  | drain_exit s : fl_worker s = WLoop -> fl_running s = false -> drain_step s (worker_at WExited s)
  | drain_return i s s' : life_step s (Returned i) s' -> drain_step s s'.

Lemma drain_is_life s s' : drain_step s s' -> life_any s s'.
Proof. intros []; eexists; try (econstructor; eassumption). exact H. Qed.

Lemma drain_inv s s' : rtc drain_step s s' -> life_inv s -> life_inv s'.
Proof. induction 1 as [|x y z Hxy _ IH]; [done|]. intros Hx. apply IH. destruct (drain_is_life _ _ Hxy) as [e He]. by eapply life_step_inv. Qed.

(** Once [running_] is false the worker leaves within three steps. *)
Lemma worker_drains s : fl_running s = false -> fl_worker s <> WNone ->
  exists p, bsteps drain_step 3 s ((worker_at WExited s) <| fl_published := p |>).
Proof.
  intros Hr Hw.
  assert (Hloop : forall x, fl_running x = false -> fl_worker x = WLoop -> drain_step x (worker_at WExited x)) by (intros; by constructor).
  assert (Hpub : forall b x, fl_running x = false -> fl_worker x = WLoaded b ->
    bsteps drain_step 2 x ((worker_at WExited x) <| fl_published := b |>)).
  { intros b x Hx Hb. eapply bsteps_l; [by apply (drain_publish b)|]. eapply bsteps_l; [by apply Hloop|]. apply bsteps_refl. }
  destruct (fl_worker s) as [| | |b|] eqn:E; [done|..].
  - exists (fl_published s). eapply bsteps_l; [by apply Hloop|]. destruct s; apply bsteps_refl.
  - exists (fl_running s). eapply bsteps_l; [by apply drain_load|].
    exact (Hpub (fl_running s) (worker_at _ s) Hr eq_refl).
  - exists b. apply (bsteps_weaken 2); [lia | by apply Hpub].
  - exists (fl_published s). destruct s; cbn in E; subst. apply bsteps_refl.
Qed.

(** With no join in progress every pending stop only has to return. *)
Lemma waiters_return n s : life_inv s -> fl_join s = false -> size (fl_stops s) = n ->
  exists s', bsteps drain_step n s s' /\ fl_stops s' = ∅ /\ life_inv s' /\ fl_joinable s' = fl_joinable s.
Proof.
  revert s. induction n as [|n IH]; intros s Hi Hj Hn.
  - exists s. split_and!; [apply bsteps_refl | by apply map_size_empty_inv | done..].
  - destruct (map_choose (fl_stops s)) as (i & p & Hp); [intros He; by rewrite He, map_size_empty in Hn|].
    assert (Ep : p = Waiting).
    { destruct p; [done|]. exfalso. rewrite (proj2 (li_join _ Hi)) in Hj; [done | by exists i]. }
    subst p. assert (Hs : life_step s (Returned i) (stop_awaited i s)) by (by constructor).
    destruct (IH (stop_awaited i s)) as (s' & Hb & He & Hi' & Ejo).
    + by eapply life_step_inv.
    + done.
    + cbn. rewrite (size_delete_some _ _ _ Hp), Hn. done.
    + exists s'. split_and!; try done. eapply bsteps_l; [by eapply drain_return | done].
Qed.

Lemma published_inv s p : life_inv s -> fl_running s = false -> fl_join s = true -> life_inv (s <| fl_published := p |>).
Proof. intros [] Hr Hj. split; cbn; try done; congruence. Qed.

Lemma drained s : life_inv s ->
  exists s', bsteps drain_step (4 + size (fl_stops s)) s s' /\ fl_stops s' = ∅ /\ life_inv s' /\ fl_joinable s' = fl_joinable s.
Proof.
  intros Hi. destruct (fl_join s) eqn:Ej.
  2: { destruct (waiters_return _ s Hi Ej eq_refl) as (s' & Hb & ? & ? & ?). exists s'. split_and!; try done.
       eapply bsteps_weaken; [|exact Hb]. lia. }
  destruct (proj1 (li_join _ Hi) Ej) as [i Hj].
  assert (Hne : fl_stops s <> ∅) by (intros He; by rewrite He, lookup_empty in Hj).
  assert (Hw : fl_worker s <> WNone) by (apply (li_owner _ Hi); by right).
  destruct (li_pending _ Hi Hne) as [Ejo Er]. destruct (worker_drains s Er Hw) as [p Hp].
  set (s1 := (worker_at WExited s) <| fl_published := p |>) in *.
  assert (H1 : life_inv s1) by (apply published_inv; [apply worker_inv; try done; congruence | done | done]).
  assert (Hs : life_step s1 (Returned i) (stop_joined i s1)) by (by constructor).
  assert (H2 : life_inv (stop_joined i s1)) by (by eapply life_step_inv).
  destruct (waiters_return _ _ H2 eq_refl eq_refl) as (s' & Hb & ? & ? & ?). exists s'. split_and!; try done.
  eapply bsteps_weaken; [|eapply bsteps_trans; [exact Hp | eapply bsteps_l; [by eapply drain_return | exact Hb]]].
  cbn. rewrite (size_delete_some _ _ _ Hj). lia.
Qed.

(** ** Properties *)

(** C18 (safety). However calls interleave, when a [stop] returns to an outside caller the worker
    has been joined, [running_] is false, no join is in progress and the stopped
    state is the last one published; and a [start] is accepted only when no
    [stop] is active and no worker is left, and then publishes the running
    state. *)
Theorem stop_is_synchronous (s s' : flife) (e : event) :
  life_reachable s -> life_step s e s' ->
  match e with
  | Returned _ => stopped_clean s'
  | Started true => fl_stops s = ∅ /\ stopped_clean s /\ fl_running s' = true /\ fl_published s' = true
  | _ => True
  end.
Proof.
  intros Hs%life_reachable_inv Hstep. pose proof (life_step_inv _ _ _ Hs Hstep) as Hs'.
  destruct Hstep as [s Hc| | | |i s Hn Ej Ejo| |i s Hn Hw|i s Hn Ej| | | | |]; try done.
  - destruct (can_start_true s Hc) as (? & Hz & Ej & Ejo). split_and!; try done; [|by apply Hs].
    apply map_size_empty_inv. rewrite <- (li_callers _ Hs). done.
  - by apply stop_idle_inv.
  - apply (li_stopped _ Hs'); [|done]. apply (li_pending _ Hs). intros He. by rewrite He, lookup_empty in Hn.
  - apply (li_stopped _ Hs'); [|done]. apply (li_pending _ Hs). intros He. by rewrite He, lookup_empty in Hn.
Qed.

(** In every reachable state there is at most one worker and it is always owned:
    it exists exactly while its handle is joinable or one [stop], and only one,
    is joining it; [stop_callers_] counts the threads inside [stop]; while
    [running_] is set the worker is in its loop and the published state says so;
    and without a worker the published state is stopped. *)
Theorem worker_is_always_owned (s : flife) :
  life_reachable s ->
  fl_callers s = size (fl_stops s) /\
  (fl_worker s <> WNone <-> fl_joinable s = true \/ exists i, fl_stops s !! i = Some Joining) /\
  (forall i j, fl_stops s !! i = Some Joining -> fl_stops s !! j = Some Joining -> i = j) /\
  (fl_worker s <> WNone -> fl_id s = true) /\
  (fl_running s = true -> fl_worker s <> WNone /\ fl_worker s <> WExited /\ fl_published s = true) /\
  (fl_worker s = WNone -> stopped_clean s).
Proof.
  intros Hi%life_reachable_inv. destruct Hi as [Hc Hj Hu Ho Hp Hr Hid Hs]. split_and!; try done.
  - rewrite Ho, Hj. done.
  - intros H. destruct (Hr H) as (? & ? & ? & ?). split_and!; try done. apply Ho. by left.
  - intros E. apply Hs; apply not_true_is_false; intros Hx; by apply (proj2 Ho); [tauto|].
Qed.


(** ** A contended stop: thread 0 joins while thread 1 waits. *)

Definition contended : flife := stop_await 1 (stop_take_join 0 (start_accepted life_init)).

Lemma contended_reachable : life_reachable contended.
Proof.
  eapply rtc_l; [eexists; by apply ls_start|]. eapply rtc_l; [eexists; by apply (ls_stop_join 0)|].
  eapply rtc_l; [eexists; by apply (ls_stop_wait 1)|]. apply rtc_refl.
Qed.

Lemma stop_is_synchronous_witness :
  let s := worker_at WExited contended in
  life_reachable s /\ life_step s (Returned 0) (stop_joined 0 s) /\ stopped_clean (stop_joined 0 s).
Proof.
  assert (H : life_step (worker_at WExited contended) (Returned 0) (stop_joined 0 (worker_at WExited contended))) by (by constructor).
  assert (Hr : life_reachable (worker_at WExited contended))
    by (eapply rtc_r; [apply contended_reachable | eexists; by apply ls_worker_exit]).
  split; [exact Hr|]. split; [exact H|]. exact (stop_is_synchronous _ _ _ Hr H).
Defined.

Lemma worker_is_always_owned_witness : life_reachable contended /\ fl_callers contended = 2%nat /\ fl_id contended = true.
Proof.
  split; [apply contended_reachable|]. split; [reflexivity|].
  refine (proj1 (proj2 (proj2 (proj2 (worker_is_always_owned contended contended_reachable)))) _). discriminate.
Defined.

