(* ===== verification/FusionBridge.v ===== *)
(** * FusionBridge: the C interface of the fusion engine

    [src/src/telemetry/fusion_bridge.cpp]: one process-wide engine with a user
    count, the direct helper of [TelemetryHelper.v] that feeds it, the raw and
    smoothed channels, and the temperature gate that authorization reads.

    Every call runs under [g_fusion_mutex]; the worker does not take that mutex,
    so it may complete any number of turns inside a call: [worker_runs] marks the
    points where the call reads or writes what the worker shares with it. *)
From S2P Require Import Prelude Float64 Config World TrampolineState Guard Trampoline PerfMeasure Perf PerfMode TelemetryHelper Fusion.
From stdpp Require Import gmap strings.
From Stdlib Require Import SpecFloat String.
#[local] Open Scope string_scope.
#[local] Open Scope Z_scope.

Class BridgeEnv : Type := mkBridgeEnv {
  be_throw : nat -> option exn;     (** locking [g_fusion_mutex], allocating, creating the thread *)
  be_turns : nat -> nat;            (** turns the worker completed meanwhile *)
}.

(** A raw channel: [g_raw_temp_valid], [g_raw_temp_millic], [g_raw_temp_at] and
    the same for the frequency ratio. *)
Record raw_channel : Type := mkRaw { rw_valid : bool; rw_value : Z; rw_at : Z }.
Definition no_raw : raw_channel := mkRaw false 0 0.

Record bstate : Type := mkBstate {
  bs_world : world;
  bs_fusion : option TelemetryFusion;      (** [g_fusion] *)
  bs_manager : bool;                       (** [g_manager] is set; its bus is the engine's *)
  bs_helper : tsd_telemetry_helper_t;      (** [g_direct_helper] *)
  bs_fds : list Z;
  bs_search : search;
  bs_helper_ready : bool;
  bs_users : Z;
  bs_cpu : Z;
  bs_smoothed_temp_c : option double;
  bs_smoothed_freq_ratio : option double;
  bs_raw_temp : raw_channel;
  bs_raw_freq : raw_channel;
}.
#[export] Instance eta_bstate : Eta bstate := fun s =>
  mkBstate (bs_world s) (bs_fusion s) (bs_manager s) (bs_helper s) (bs_fds s) (bs_search s) (bs_helper_ready s)
    (bs_users s) (bs_cpu s) (bs_smoothed_temp_c s) (bs_smoothed_freq_ratio s) (bs_raw_temp s) (bs_raw_freq s).

Abbreviation BM := (ST bstate).

Definition bw {A} (m : M A) : BM A := fun s => let '(a, w) := m (bs_world s) in (a, s <| bs_world := w |>).

(** A call of the engine, when there is one. *)
Definition on_engine {A} (m : FM A) (absent : A) : BM A := fun s =>
  match bs_fusion s with
  | None => (absent, s)
  | Some f => let '(a, t) := m (mkFstate (bs_world s) f) in
              (a, s <| bs_world := fs_world t |> <| bs_fusion := Some (fs_engine t) |>)
  end.

Definition on_helper {A} (m : HM A) : BM A := fun s =>
  let '(a, t) := m (mkHstate (bs_world s) (bs_helper s) (bs_fds s) (bs_search s)) in
  (a, s <| bs_world := hs_world t |> <| bs_helper := hs_helper t |> <| bs_fds := hs_fds t |> <| bs_search := hs_search t |>).

(** ** Configuration *)

Definition runtime_config_initialized (cfg : tsd_runtime_config) : bool := check_interval_us cfg >? 0.

(** Milliseconds. *)
Definition freshness_window (cfg : tsd_runtime_config) : Z :=
  let freshness_ms := if runtime_config_initialized cfg then telemetry_max_skew_ms cfg else 150 in
  if freshness_ms <? 0 then 150 else freshness_ms.

Definition default_interval (cfg : tsd_runtime_config) : Z :=
  if runtime_config_initialized cfg && (telemetry_interval_ms cfg >? 0) then telemetry_interval_ms cfg else 50.
Definition default_config (cfg : tsd_runtime_config) : TelemetryFusion :=
  new_fusion (default_interval cfg) (freshness_window cfg) 128.

Definition smoothing_alpha (cfg : tsd_runtime_config) : double :=
  if negb (runtime_config_initialized cfg) then f64_of_Z 1
  else
    let alpha := telemetry_ewma_alpha cfg in
    if negb (isfinite alpha) || flt alpha f64_zero || flt (f64_of_Z 1) alpha then f64_of_Z 1
    else if SFeqb alpha f64_zero then f64_of_Z 1 else alpha.

Definition smooth_value (cfg : tsd_runtime_config) (raw : double) (state : option double) : double :=
  let alpha := smoothing_alpha cfg in
  match state with
  | None => raw
  | Some previous => fadd (fmul alpha raw) (fmul (fsub (f64_of_Z 1) alpha) previous)
  end.

(** [llround]: to the nearest integer, halves away from zero. *)
Definition llround (x : double) : Z :=
  match x with
  | S754_finite s m e =>
      let a := if 0 <=? e then Z.pos m * 2 ^ e else (Z.pos m + 2 ^ (- e) / 2) / 2 ^ (- e) in
      if s then - a else a
  | _ => 0
  end.

(** Celsius to the millidegrees of a sample. *)
Definition millic_of (celsius : double) : Z := i32 (llround (fmul celsius (f64_of_Z 1000))).
Definition celsius_of (millic : Z) : double := fdiv (f64_of_Z millic) (f64_of_Z 1000).

(** ** Channels *)

Definition record_raw_sample_unlocked (sample : tsd_telemetry_sample_t) (now : Z) : BM unit :=
  when (ts_temp_available sample) (modify (fun s => s <| bs_raw_temp := mkRaw true (ts_package_temp_millic sample) now |>)) ;;;
  when (ts_freq_ratio_available sample) (modify (fun s => s <| bs_raw_freq := mkRaw true (ts_freq_ratio_milli sample) now |>)).

Definition raw_is_fresh (cfg : tsd_runtime_config) (timestamp now : Z) : bool :=
  if timestamp =? 0 then false else (now >=? timestamp) && (now - timestamp <=? freshness_window cfg * NS_PER_MS).

Definition copy_raw_cache (cfg : tsd_runtime_config) (temp freq : raw_channel) (now : Z) (out : tsd_telemetry_sample_t) : tsd_telemetry_sample_t :=
  let out := if rw_valid temp && raw_is_fresh cfg (rw_at temp) now
             then out <| ts_temp_available := true |> <| ts_package_temp_millic := rw_value temp |> else out in
  if rw_valid freq && raw_is_fresh cfg (rw_at freq) now
  then out <| ts_freq_ratio_available := true |> <| ts_freq_ratio_milli := rw_value freq |> else out.
Definition copy_raw_cache_unlocked (out : tsd_telemetry_sample_t) (now : Z) : BM tsd_telemetry_sample_t :=
  cfg <- bw tsd_runtime_config_active_snapshot ;;
  gets (fun s => copy_raw_cache cfg (bs_raw_temp s) (bs_raw_freq s) now out).

Definition copy_filtered_snapshot (snapshot : TelemetrySnapshot) (out : tsd_telemetry_sample_t) : bool * tsd_telemetry_sample_t :=
  if negb (has (sn_package_temp_c snapshot)) && negb (has (sn_freq_ratio snapshot)) then (false, out)
  else
    (true, out <| ts_filtered_temp_available := has (sn_package_temp_c snapshot) |>
               <| ts_filtered_freq_ratio_available := has (sn_freq_ratio snapshot) |>
               <| ts_filtered_package_temp_millic := match sn_package_temp_c snapshot with Some t => millic_of t | None => 0 end |>
               <| ts_filtered_freq_ratio_milli := match sn_freq_ratio snapshot with Some r => u32 (llround r) | None => 0 end |>).

Definition fill_filtered_from_raw (out : tsd_telemetry_sample_t) : tsd_telemetry_sample_t :=
  let out := if negb (ts_filtered_temp_available out) && ts_temp_available out
             then out <| ts_filtered_temp_available := true |> <| ts_filtered_package_temp_millic := ts_package_temp_millic out |> else out in
  if negb (ts_filtered_freq_ratio_available out) && ts_freq_ratio_available out
  then out <| ts_filtered_freq_ratio_available := true |> <| ts_filtered_freq_ratio_milli := ts_freq_ratio_milli out |> else out.

Definition reset_signal_state_unlocked : BM unit :=
  modify (fun s => s <| bs_smoothed_temp_c := None |> <| bs_smoothed_freq_ratio := None |>
                     <| bs_raw_temp := no_raw |> <| bs_raw_freq := no_raw |>).

Section bridge.
Context `{EV : Env, SE : SysEnv, FE : FusionEnv, BE : BridgeEnv}.

Definition steady_now : BM Z := bw (ext env_steady).

Definition worker_runs : BM unit := n <- bw (ext be_turns) ;; on_engine (worker_turns n) tt.

Definition may_throw : BM (exn + unit) :=
  e <- bw (ext be_throw) ;; ret (match e with Some e => inl e | None => inr tt end).

Definition direct_reading (value : double) (now : Z) : TelemetryReading := mkReading value true 100 now "direct".

Definition publish_temperature (sample : tsd_telemetry_sample_t) (now : Z) : BM (exn + unit) :=
  if negb (ts_temp_available sample) then ret (inr tt)
  else
    cfg <- bw tsd_runtime_config_active_snapshot ;;
    state <- gets bs_smoothed_temp_c ;;
    let value := smooth_value cfg (celsius_of (ts_package_temp_millic sample)) state in
    modify (fun s => s <| bs_smoothed_temp_c := Some value |>) ;;;
    on_engine (bus_publish kPackageTempC (direct_reading value now)) (inr tt).

Definition publish_frequency (sample : tsd_telemetry_sample_t) (now : Z) : BM (exn + unit) :=
  if negb (ts_freq_ratio_available sample) then ret (inr tt)
  else
    cfg <- bw tsd_runtime_config_active_snapshot ;;
    state <- gets bs_smoothed_freq_ratio ;;
    let value := smooth_value cfg (f64_of_Z (ts_freq_ratio_milli sample)) state in
    modify (fun s => s <| bs_smoothed_freq_ratio := Some value |>) ;;;
    on_engine (bus_publish kFrequencyRatio (direct_reading value now)) (inr tt).

Definition publish_sample_unlocked (sample : tsd_telemetry_sample_t) : BM (exn + bool) :=
  attached <- gets (fun s => bs_manager s && has (bs_fusion s)) ;;
  if negb attached then ret (inr false)
  else
    now <- steady_now ;;
    record_raw_sample_unlocked sample now ;;;
    publish_temperature sample now ;;!
    fine worker_runs ;;!
    publish_frequency sample now ;;!
    ret (inr (ts_temp_available sample || ts_freq_ratio_available sample)).

(** The raw channel; the filtered one is diagnostic. *)
Definition update_temperature_observability_unlocked (sample : tsd_telemetry_sample_t) : BM unit :=
  bw (tsd_observability_update_temperature_channels
        (Some (ts_temp_available sample,
               if ts_temp_available sample then celsius_of (ts_package_temp_millic sample) else f64_zero))).

Definition update_temperature_gate (raw_temperature_available : bool) : M unit :=
  available <- temperature_gate_store raw_temperature_available ;;
  if available : bool then ret tt
  else
    initialized <- tsd_trampoline_state_initialized ;;
    if negb initialized then ret tt
    else
      width <- tsd_trampoline_state_current_width ;;
      when (width <>? SIMD_SSE41) (tsd_trampoline_patch SIMD_SSE41 ;;; ret tt).
Definition update_temperature_gate_unlocked (raw_temperature_available : bool) : BM unit :=
  bw (update_temperature_gate raw_temperature_available).

(** [g_fusion.reset()]: the destructor stops the engine. *)
Definition reset_fusion : BM unit :=
  on_engine fusion_stop tt ;;; modify (fun s => s <| bs_fusion := None |>).

Definition destroy_direct_helper : BM unit :=
  ready <- gets bs_helper_ready ;;
  when ready (on_helper tsd_telemetry_helper_destroy_impl ;;; modify (fun s => s <| bs_helper_ready := false |>)).

(** What a failed start and the last stop share. *)
Definition release_fusion : BM unit :=
  on_engine fusion_stop tt ;;;
  reset_fusion ;;;
  modify (fun s => s <| bs_manager := false |>) ;;;
  destroy_direct_helper ;;;
  modify (fun s => s <| bs_users := 0 |> <| bs_cpu := -1 |>) ;;;
  reset_signal_state_unlocked ;;;
  bw (store_fusion_running false) ;;;
  bw (safety_update (on_obs (fun o => o <| o_temperature_upgrade_allowed := true |>))) ;;;
  bw (tsd_observability_update_temperature_channels (Some (false, f64_zero))).
Definition rollback_start_unlocked : BM unit := release_fusion.

(** The first sample of a new engine. *)
Definition initial_sample : BM (exn + bool) :=
  ready <- gets bs_helper_ready ;;
  if negb ready then ret (inr false)
  else
    let* (rc, initial) := on_helper tsd_telemetry_helper_sample_impl in
    if rc <>? 0 then ret (inr false)
    else
      (if ts_temp_available initial || ts_freq_ratio_available initial
       then publish_sample_unlocked initial else ret (inr false)) ;;!
      smoothed <-! fine (gets bs_smoothed_temp_c) ;;
      let initial :=
        match smoothed with
        | Some t => if ts_temp_available initial
                    then initial <| ts_filtered_temp_available := true |> <| ts_filtered_package_temp_millic := millic_of t |>
                    else initial
        | None => initial
        end in
      fine (update_temperature_observability_unlocked initial) ;;!
      ret (inr (ts_temp_available initial)).

(** The [try] block of [start_unlocked]. *)
Definition start_engine (cpu : Z) : BM (exn + unit) :=
  may_throw ;;!
  fine (modify (fun s => s <| bs_manager := true |>)) ;;!
  cfg <-! fine (bw tsd_runtime_config_active_snapshot) ;;
  may_throw ;;!
  fine (reset_fusion ;;; modify (fun s => s <| bs_fusion := Some (default_config cfg) |>)) ;;!
  fine reset_signal_state_unlocked ;;!
  rc <-! fine (on_helper (tsd_telemetry_helper_init_impl cpu)) ;;
  fine (modify (fun s => s <| bs_helper_ready := (rc =? 0) |> <| bs_cpu := cpu |>)) ;;!
  thread_error <-! fine (bw (ext be_throw)) ;;
  on_engine (fusion_start thread_error) (inr tt) ;;!
  fine (modify (fun s => s <| bs_users := 1 |>)) ;;!
  fine (bw (store_fusion_running true)) ;;!
  has_raw_temp <-! initial_sample ;;
  fine (update_temperature_gate_unlocked has_raw_temp).

Definition exception_errno (e : exn) : Z :=
  match e with
  | BadAlloc => ENOMEM
  | SystemError code => if code >? 0 then code else EAGAIN
  | StdException | OtherException => EIO
  end.

Definition start_unlocked (cpu : Z) : BM Z :=
  if cpu <? 0 then bw (fail EINVAL)
  else
    cfg <- bw tsd_runtime_config_active_snapshot ;;
    if runtime_config_initialized cfg && negb (String.eqb (telemetry_profile_path cfg) "") then bw (fail ENOTSUP)
    else
      running <- gets (fun s => match bs_fusion s with Some f => tf_running f | None => false end) ;;
      if running : bool then
        current <- gets bs_cpu ;;
        if negb (cpu =? current) then bw (fail EBUSY)
        else modify (fun s => s <| bs_users ::= fun u => u32 (u + 1) |>) ;;; ret 0
      else
        r <- start_engine cpu ;;
        match r with
        | inr _ => ret 0
        | inl e => rollback_start_unlocked ;;; bw (fail (exception_errno e))
        end.

(** Each entry point first takes [g_fusion_mutex]. *)
Definition fusion_start_for_cpu (cpu : Z) : BM Z :=
  locked <- may_throw ;;
  match locked with inl _ => bw (fail EIO) | inr _ => start_unlocked cpu end.

Definition fusion_stop_call : BM unit :=
  locked <- may_throw ;;
  match locked with
  | inl _ => ret tt
  | inr _ =>
      users <- gets bs_users ;;
      if users >? 1 then modify (fun s => s <| bs_users ::= fun u => u - 1 |>)
      else release_fusion
  end.

Definition fusion_publish_sample (sample : option tsd_telemetry_sample_t) : BM Z :=
  match sample with
  | None => bw (fail EINVAL)
  | Some sample =>
      r <- (may_throw ;;!
            attached <-! fine (gets (fun s => has (bs_fusion s) && bs_manager s)) ;;
            if negb attached then fine (bw (fail ENODEV))
            else
              published <-! publish_sample_unlocked sample ;;
              now <-! fine steady_now ;;
              safety <-! fine (copy_raw_cache_unlocked zero_sample now) ;;
              smoothed <-! fine (gets bs_smoothed_temp_c) ;;
              let safety :=
                match smoothed with
                | Some t => safety <| ts_filtered_temp_available := true |> <| ts_filtered_package_temp_millic := millic_of t |>
                | None => safety
                end in
              fine (update_temperature_observability_unlocked safety) ;;!
              fine (update_temperature_gate_unlocked (ts_temp_available safety)) ;;!
              if published : bool then ret (inr 0) else fine (bw (fail ENODATA))) ;;
      match r with inr rc => ret rc | inl _ => bw (fail EIO) end
  end.

(** The direct helper, polled and published. *)
Definition poll_direct_helper : BM (exn + unit) :=
  ready <- gets bs_helper_ready ;;
  if negb ready then ret (inr tt)
  else
    let* (rc, direct) := on_helper tsd_telemetry_helper_sample_impl in
    if (rc =? 0) && (ts_temp_available direct || ts_freq_ratio_available direct)
    then publish_sample_unlocked direct ;;! ret (inr tt)
    else ret (inr tt).

Definition latest_snapshot : BM (option TelemetrySnapshot) :=
  worker_runs ;;; on_engine (engine_get (fun f => ring_latest (tf_ring f))) None.

Definition sample_unlocked : BM (exn + Z * tsd_telemetry_sample_t) :=
  poll_direct_helper ;;!
  snapshot <-! fine latest_snapshot ;;
  let '(filtered_usable, out) :=
    match snapshot with Some sn => copy_filtered_snapshot sn zero_sample | None => (false, zero_sample) end in
  now <-! fine steady_now ;;
  out <-! fine (copy_raw_cache_unlocked out now) ;;
  let out := fill_filtered_from_raw out in
  fine (update_temperature_observability_unlocked out) ;;!
  fine (update_temperature_gate_unlocked (ts_temp_available out)) ;;!
  let raw_usable := ts_temp_available out || ts_freq_ratio_available out in
  if raw_usable || filtered_usable then ret (inr (0, out))
  else rc <-! fine (bw (fail ENODATA)) ;; ret (inr (rc, out)).

Definition fusion_sample : BM (Z * tsd_telemetry_sample_t) :=
  r <- (may_throw ;;!
        present <-! fine (gets (fun s => has (bs_fusion s))) ;;
        if negb present then rc <-! fine (bw (fail ENODEV)) ;; ret (inr (rc, zero_sample))
        else sample_unlocked) ;;
  match r with
  | inr r => ret r
  | inl _ => rc <- bw (fail EIO) ;; ret (rc, zero_sample)
  end.
End bridge.

(** ** What the bridge does to the process

    Relations between worlds that the bridge respects, in three strengths:
    engine and helper work, publication of the temperature with its gate, and
    the release of the engine. *)

Definition active_config (w : world) : tsd_runtime_config := result tsd_runtime_config_active_snapshot w.

Section relations.
Context `{EV : Env} (R : world -> world -> Prop).

Class QuietRel : Prop := {
  qr_preorder :: PreOrder R;
  qr_ext A (f : nat -> A) : respects R (ext f);
  qr_metric i : respects R (tsd_metrics_increment i);
  qr_errno e : respects R (set_errno e);
  qr_fusion r : respects R (tsd_observability_update_fusion r);
}.

Class GateRel : Prop := {
  gr_quiet :: QuietRel;
  gr_channels r : respects R (tsd_observability_update_temperature_channels r);
  gr_gate b : respects R (update_temperature_gate b);
}.

Class ReleaseRel : Prop := {
  rr_gate :: GateRel;
  rr_running b : respects R (store_fusion_running b);
  rr_reopen : respects R (safety_update (on_obs (fun o => o <| o_temperature_upgrade_allowed := true |>)));
}.
End relations.

Definition over_world (R : world -> world -> Prop) (s s' : bstate) : Prop := R (bs_world s) (bs_world s').
#[export] Instance over_world_preorder R `{!PreOrder R} : PreOrder (over_world R).
Proof. split; [intros s; apply (PreOrder_Reflexive (bs_world s)) | intros s1 s2 s3 H1 H2; unfold over_world in *; by etransitivity]. Qed.

Definition over_engine (R : world -> world -> Prop) (s s' : fstate) : Prop := R (fs_world s) (fs_world s').
#[export] Instance over_engine_preorder R `{!PreOrder R} : PreOrder (over_engine R).
Proof. split; [intros s; apply (PreOrder_Reflexive (fs_world s)) | intros s1 s2 s3 H1 H2; unfold over_engine in *; by etransitivity]. Qed.

Section frames.
Context `{EV : Env, SE : SysEnv, FE : FusionEnv, BE : BridgeEnv} {R : world -> world -> Prop}.

Lemma bw_over {A} (m : M A) : respects R m -> respects (over_world R) (bw m).
Proof. intros Hm s. specialize (Hm (bs_world s)). unfold bw, over_world. by destruct (m (bs_world s)). Qed.

Lemma process_over {A} (m : M A) : respects R m -> respects (over_engine R) (in_process m).
Proof. intros Hm s. unfold over_engine. rewrite in_process_run. apply Hm. Qed.

Context `{HR : !PreOrder R}.

Lemma modify_over (f : bstate -> bstate) : (forall s, bs_world (f s) = bs_world s) -> respects (over_world R) (modify f).
Proof. intros Hf s. unfold over_world. cbn. rewrite Hf. apply (PreOrder_Reflexive (bs_world s)). Qed.

Lemma engine_over {A} (m : FM A) a : respects (over_engine R) m -> respects (over_world R) (on_engine m a).
Proof.
  intros Hm s. unfold on_engine, over_world. destruct (bs_fusion s) as [f|]; [|apply (PreOrder_Reflexive (bs_world s))].
  specialize (Hm (mkFstate (bs_world s) f)). by destruct (m _).
Qed.

Lemma helper_over {A} (m : HM A) :
  respects (fun s s' : hstate => R (hs_world s) (hs_world s')) m -> respects (over_world R) (on_helper m).
Proof.
  intros Hm s. unfold on_helper, over_world. specialize (Hm (mkHstate (bs_world s) (bs_helper s) (bs_fds s) (bs_search s))).
  by destruct (m _).
Qed.

Lemma set_over f : respects (over_engine R) (engine_set f).
Proof. intros s. apply (PreOrder_Reflexive (fs_world s)). Qed.
Lemma get_over {A} (f : TelemetryFusion -> A) : respects (over_engine R) (engine_get f).
Proof. intros s. apply (PreOrder_Reflexive (fs_world s)). Qed.
End frames.

Section quiet.
Context `{EV : Env, SE : SysEnv, FE : FusionEnv, BE : BridgeEnv} {R : world -> world -> Prop} `{HQ : !QuietRel R}.

Ltac engine_steps :=
  repeat first
    [ respects_step | apply set_over | apply get_over
    | apply respects_exn; [exact _ | | intro]
    | apply process_over; first [apply qr_ext; exact _ | apply qr_fusion; exact _] ].

Lemma running_over : respects (over_engine R) publish_running.
Proof. unfold publish_running. engine_steps. Qed.

Lemma bus_publish_over signal r : respects (over_engine R) (bus_publish signal r).
Proof. unfold bus_publish, throw. engine_steps. Qed.

Lemma poll_over now : respects (over_engine R) (poll now).
Proof.
  unfold poll. apply respects_bind; [exact _ | apply get_over|]. intros n. generalize 0%nat.
  induction n as [|n IH]; intros i; cbn [poll_from]; [engine_steps|].
  apply respects_exn; [exact _ | | intros _; apply IH].
  unfold collect, collector_sample. repeat first [apply bus_publish_over | progress engine_steps].
Qed.

Lemma iteration_over : respects (over_engine R) run_iteration.
Proof.
  unfold run_iteration, fuse, assign_value, readings, fine, throw.
  repeat first [apply running_over | apply poll_over | progress engine_steps].
Qed.

Lemma worker_over n : respects (over_engine R) (worker_turns n).
Proof. induction n as [|n IH]; cbn [worker_turns]; repeat first [apply IH | apply iteration_over | progress engine_steps]. Qed.

Lemma start_stop_over e : respects (over_engine R) (fusion_start e) /\ respects (over_engine R) fusion_stop.
Proof. unfold fusion_start, fusion_stop, throw. split; engine_steps. Qed.

Lemma helper_calls_over cpu :
  respects (over_world R) (on_helper (tsd_telemetry_helper_init_impl cpu)) /\
  respects (over_world R) (on_helper tsd_telemetry_helper_destroy_impl) /\
  respects (over_world R) (on_helper tsd_telemetry_helper_sample_impl).
Proof.
  split_and!; apply helper_over; [apply init_harmless | apply destroy_harmless | apply sample_harmless];
    (exact _ || (intros; apply qr_ext; exact _) || (intros; apply qr_metric; exact _)).
Qed.

Lemma config_over : respects (over_world R) (bw tsd_runtime_config_active_snapshot).
Proof. apply bw_over. intros w. apply (PreOrder_Reflexive w). Qed.
Lemma ext_over {A} (f : nat -> A) : respects (over_world R) (bw (ext f)).
Proof. apply bw_over, qr_ext, _. Qed.
Lemma fail_over e : respects (over_world R) (bw (fail e)).
Proof. apply bw_over. unfold fail. apply respects_bind; [exact _ | apply qr_errno, _|]. intros _. apply respects_ret. exact _. Qed.
End quiet.

(** Decompose a frame goal of the bridge. *)
Ltac bridge_step :=
  first
    [ respects_step
    | apply respects_exn; [exact _ | | intro]
    | (apply modify_over; [reflexivity])
    | apply config_over | apply ext_over | apply fail_over
    | apply (proj2 (proj2 (helper_calls_over 0))) | apply (proj1 (proj2 (helper_calls_over 0))) | apply helper_calls_over
    | apply engine_over; first [apply worker_over | apply bus_publish_over | apply get_over | apply (proj2 (start_stop_over None)) | apply start_stop_over] ].
Tactic Notation "bridge_steps" "with" tactic(leaf) := repeat first [leaf | bridge_step].

Section bridge_frames.
Context `{EV : Env, SE : SysEnv, FE : FusionEnv, BE : BridgeEnv} {R : world -> world -> Prop}.

Lemma worker_runs_over `{!QuietRel R} : respects (over_world R) worker_runs.
Proof. unfold worker_runs. bridge_steps with fail. Qed.

Lemma publish_over `{!QuietRel R} sample : respects (over_world R) (publish_sample_unlocked sample).
Proof.
  unfold publish_sample_unlocked, publish_temperature, publish_frequency, record_raw_sample_unlocked, steady_now, fine.
  bridge_steps with (first [apply worker_runs_over]).
Qed.

Lemma poll_direct_over `{!QuietRel R} : respects (over_world R) poll_direct_helper.
Proof. unfold poll_direct_helper. bridge_steps with (first [apply publish_over]). Qed.

Lemma snapshot_over `{!QuietRel R} : respects (over_world R) latest_snapshot.
Proof. unfold latest_snapshot. bridge_steps with (first [apply worker_runs_over]). Qed.

Lemma throw_over `{!QuietRel R} : respects (over_world R) may_throw.
Proof. unfold may_throw. bridge_steps with fail. Qed.

Lemma tail_over `{!GateRel R} sample b :
  respects (over_world R) (update_temperature_observability_unlocked sample) /\
  respects (over_world R) (update_temperature_gate_unlocked b).
Proof. split; apply bw_over; [apply gr_channels, _ | apply gr_gate, _]. Qed.

Ltac gate_step :=
  first
    [ apply throw_over | apply poll_direct_over | apply snapshot_over | apply publish_over
    | apply (proj1 (tail_over _ false)) | apply (proj2 (tail_over zero_sample _)) ].

Lemma sample_over `{!GateRel R} : respects (over_world R) fusion_sample.
Proof. unfold fusion_sample, sample_unlocked, copy_raw_cache_unlocked, steady_now, fine. bridge_steps with gate_step. Qed.

Lemma publish_call_over `{!GateRel R} sample : respects (over_world R) (fusion_publish_sample sample).
Proof. unfold fusion_publish_sample, copy_raw_cache_unlocked, steady_now, fine. bridge_steps with gate_step. Qed.

Lemma release_over `{!ReleaseRel R} : respects (over_world R) release_fusion.
Proof.
  unfold release_fusion, reset_fusion, destroy_direct_helper, reset_signal_state_unlocked.
  bridge_steps with (first [apply bw_over, rr_running, _ | apply bw_over, rr_reopen, _ | apply bw_over, gr_channels, _ | gate_step]).
Qed.

Lemma start_engine_over `{!ReleaseRel R} cpu : respects (over_world R) (start_engine cpu).
Proof.
  unfold start_engine, initial_sample, reset_fusion, reset_signal_state_unlocked, fine.
  bridge_steps with (first [apply bw_over, rr_running, _ | gate_step]).
Qed.

Lemma start_over `{!ReleaseRel R} cpu : respects (over_world R) (fusion_start_for_cpu cpu).
Proof.
  unfold fusion_start_for_cpu, start_unlocked, rollback_start_unlocked.
  bridge_steps with (first [apply start_engine_over | apply release_over | gate_step]).
Qed.

Lemma stop_over `{!ReleaseRel R} : respects (over_world R) fusion_stop_call.
Proof. unfold fusion_stop_call. bridge_steps with (first [apply release_over | gate_step]). Qed.
End bridge_frames.

(** ** The relations at work *)

(** What authorization reads of the bridge, and the configuration in force. *)
Definition gate_view (w : world) :=
  (o_fusion_running (w_obs w), o_temperature_upgrade_allowed (w_obs w), active_config w).
Definition session_view (w : world) := (o_fusion_running (w_obs w), active_config w).
(** What telemetry promises to leave alone. *)
Definition process_view (w : world) := (published_of w, w_degraded w, w_running w, stopping_of w).

Section instances.
Context `{EV : Env}.

Ltac patch_steps := repeat first [apply patch_frame_lock | respects_step | (intro; reflexivity)].

Lemma patch_frame_write_enter : respects patch_frame tsd_runtime_safety_write_enter.
Proof. unfold tsd_runtime_safety_write_enter. patch_steps. Qed.

(** A view that selecting a width leaves alone survives the writer bracket. *)
Definition coarse {T} (view : world -> T) : Prop := forall w w', patch_frame w w' -> view w = view w'.

Lemma coarse_gate : coarse gate_view /\ coarse session_view /\ coarse process_view.
Proof.
  unfold coarse, patch_frame, outside_patch, gate_view, session_view, process_view, active_config, published_of, stopping_of.
  split_and!; intros w w' [= Eo Ef Ec Ed Ei Et Er Es El Eg Ew Ea En Eq]; cbn; by rewrite ?Eo, ?Ec, ?Ed, ?Er, ?Eg, ?En, ?Eq.
Qed.

Lemma coarse_update {T} (view : world -> T) (body : M unit) :
  coarse view -> respects (fun w w' => view w = view w') body ->
  respects (fun w w' => view w = view w') (safety_update body).
Proof.
  intros Hv Hb. unfold safety_update. apply respects_bind; [exact _ | intros w; apply Hv, patch_frame_write_enter|].
  intros rc. destruct (rc <>? 0); [apply respects_ret; exact _|].
  apply respects_bind; [exact _ | done|]. intros _ w. apply Hv, patch_frame_write_leave.
Qed.

Lemma coarse_patch {T} (view : world -> T) width : coarse view -> respects (fun w w' => view w = view w') (tsd_trampoline_patch width).
Proof. intros Hv w. apply Hv, patch_keeps. Qed.

Lemma coarse_width {T} (view : world -> T) : coarse view -> respects (fun w w' => view w = view w') tsd_trampoline_state_current_width.
Proof.
  intros Hv w. apply Hv. assert (H : respects patch_frame tsd_trampoline_state_current_width); [|apply H].
  unfold tsd_trampoline_state_current_width, tsd_trampoline_state_snapshot. patch_steps.
Qed.

Lemma coarse_update_fusion {T} (view : world -> T) r :
  coarse view -> (forall r', respects (fun w w' => view w = view w') (on_obs (fun o => o <| o_fusion_obs_running := r' |>))) ->
  respects (fun w w' => view w = view w') (tsd_observability_update_fusion r).
Proof. intros Hv Ho. destruct r; [by apply coarse_update | apply respects_ret; exact _]. Qed.

Lemma coarse_channels {T} (view : world -> T) r :
  coarse view -> (forall n, respects (fun w w' => view w = view w') (ext (A := Z) n)) ->
  (forall f, (forall o, (o_fusion_running (f o), o_temperature_upgrade_allowed (f o), o_perf_mode (f o), o_perf_counters_healthy (f o)) =
     (o_fusion_running o, o_temperature_upgrade_allowed o, o_perf_mode o, o_perf_counters_healthy o)) ->
     respects (fun w w' => view w = view w') (on_obs f)) ->
  respects (fun w w' => view w = view w') (tsd_observability_update_temperature_channels r).
Proof.
  intros Hv He Ho. destruct r as [[b t]|]; [|apply respects_ret; exact _]. apply coarse_update; [done|].
  apply respects_bind; [exact _ | by apply Ho|]. intros _. destruct b; [|by apply Ho].
  apply respects_bind; [exact _ | apply He|]. intros now. by apply Ho.
Qed.

#[export] Instance quiet_gate_view : QuietRel (fun w w' => gate_view w = gate_view w').
Proof.
  destruct coarse_gate as (Hg & _). split; [exact _ | done | done | done|].
  intros r. apply coarse_update_fusion; [done|]. by intros r' w.
Qed.

Lemma store_gate_view {T} (view : world -> T) b :
  coarse view -> (forall b', respects (fun w w' => view w = view w') (on_obs (fun o => o <| o_temperature_upgrade_allowed := b' |>))) ->
  respects (fun w w' => view w = view w') (temperature_gate_store b).
Proof.
  intros Hv Ho. unfold temperature_gate_store. apply respects_bind; [exact _ | intros w; apply Hv, patch_frame_write_enter|].
  intros rc. destruct (rc =? 0); repeat first [apply Ho | respects_step]. intros w. apply Hv, patch_frame_write_leave.
Qed.

Lemma gate_keeps_view {T} (view : world -> T) b :
  coarse view -> (forall b', respects (fun w w' => view w = view w') (on_obs (fun o => o <| o_temperature_upgrade_allowed := b' |>))) ->
  respects (fun w w' => view w = view w') (update_temperature_gate b).
Proof.
  intros Hv Ho. unfold update_temperature_gate, tsd_trampoline_state_initialized.
  repeat first [by apply store_gate_view | by apply coarse_patch | by apply coarse_width | respects_step].
Qed.

#[export] Instance gate_session_view : GateRel (fun w w' => session_view w = session_view w').
Proof.
  destruct coarse_gate as (_ & Hs & _).
  assert (Ho : forall f, (forall o, o_fusion_running (f o) = o_fusion_running o) ->
    respects (fun w w' => session_view w = session_view w') (on_obs f)).
  { intros f Hf w. unfold session_view, active_config. cbn. by rewrite Hf. }
  split; [split|..]; try done; [exact _ | | |].
  - intros r. by apply coarse_update_fusion; [done|]; intros; apply Ho.
  - intros r. apply coarse_channels; [done..|]. intros f Hf. apply Ho. intros o. specialize (Hf o). congruence.
  - intros b. by apply gate_keeps_view; [done|]; intros; apply Ho.
Qed.
End instances.

Section laws.
Context `{EV : Env, MM : !MmapAligned}.

Lemma process_view_keeps {A} (m : M A) :
  respects (fun w w' => process_view w = process_view w') m ->
  (forall w, system_inv w -> system_inv (m w).2) ->
  (forall w, system_inv w -> selection_narrows w (m w).2) -> respects telemetry_keeps m.
Proof.
  intros Hv Hi Hn w. specialize (Hv w). unfold process_view in Hv. cbv beta in Hv. injection Hv as Hp Hh Hd Hr Hs.
  split_and!; [split; [apply Hi|]| apply Hn |]; unfold published_of; congruence.
Qed.

(** A publication under the writer lock. *)
Lemma update_keeps (body : M unit) :
  respects (fun w w' => process_view w = process_view w') body -> preserves (holds guard_only) body ->
  respects (fun w w' => w_tramp w = w_tramp w') body -> respects telemetry_keeps (safety_update body).
Proof.
  intros Hv Hl Ht.
  assert (Hframe : respects (fun w w' => w_tramp w = w_tramp w') (safety_update body)).
  { unfold safety_update. apply respects_bind; [exact _ | intros w; pose proof (guard_frame_write_enter w) as H; by injection H|].
    intros rc. destruct (rc <>? 0); [apply respects_ret; exact _|]. apply respects_bind; [exact _ | done|].
    intros _ w. pose proof (guard_frame_write_leave w) as H. by injection H. }
  apply process_view_keeps.
  - apply coarse_update; [apply coarse_gate | done].
  - intros w [Hg Hc]. split; [by apply (safety_update_inv body Hl)|]. by rewrite <- (Hframe w).
  - intros w _. left. by rewrite <- (Hframe w).
Qed.

Lemma obs_process_view f :
  (forall o, (o_perf_mode (f o), o_perf_counters_healthy (f o)) = (o_perf_mode o, o_perf_counters_healthy o)) ->
  respects (fun w w' => process_view w = process_view w') (on_obs f).
Proof. intros Hf w. specialize (Hf (w_obs w)). unfold process_view, published_of. cbn. injection Hf as -> ->. done. Qed.

Lemma gate_store_keeps b : respects telemetry_keeps (temperature_gate_store b).
Proof.
  assert (Hframe : respects guard_frame (temperature_gate_store b)).
  { pose proof (run_guard_op_frame (GTemperatureGate b)) as H. intros w. specialize (H w). cbn [run_guard_op] in H.
    unfold Guard.drop in H. by rewrite bind_run in H. }
  apply process_view_keeps.
  - apply store_gate_view; [apply coarse_gate|]. intros b'. by apply obs_process_view.
  - intros w [Hg Hc]. split; [by apply temperature_gate_inv|]. pose proof (Hframe w) as H. injection H as <-. done.
  - intros w _. left. pose proof (Hframe w) as H. by injection H as <-.
Qed.

Lemma patch_sse_keeps : respects telemetry_keeps (tsd_trampoline_patch SIMD_SSE41).
Proof.
  apply process_view_keeps; [apply coarse_patch, coarse_gate | |];
    intros w [Hg Ht]; destruct (patch_run SIMD_SSE41 w Hg Ht) as (rc & w' & -> & Hg' & Ht' & Hout); [done|].
  destruct Hout as [(-> & (_ & Hw & _) & _)|(-> & [(? & _)|(_ & _ & _ & _ & Hw & _)] & _)]; [by left | done | by right].
Qed.

Lemma errno_keeps e : respects telemetry_keeps (set_errno e).
Proof. apply telemetry_keeps_intro; [apply keeps_errno | done]. Qed.

Lemma gate_keeps b : respects telemetry_keeps (update_temperature_gate b).
Proof.
  unfold update_temperature_gate, tsd_trampoline_state_initialized, tsd_trampoline_state_current_width, tsd_trampoline_state_snapshot.
  repeat first [apply gate_store_keeps | apply patch_sse_keeps | apply errno_keeps | respects_step].
Qed.

#[export] Instance telemetry_release : ReleaseRel telemetry_keeps.
Proof.
  split; [split; [split|..]|..]; try exact _.
  - intros A f. apply ext_keeps.
  - apply metric_keeps.
  - apply errno_keeps.
  - intros [r|]; [|apply respects_ret; exact _]. apply update_keeps; [by apply obs_process_view | by intros w | by intros w].
  - intros [[b t]|]; [|apply respects_ret; exact _]. apply update_keeps.
    + apply respects_bind; [exact _ | by apply obs_process_view|]. intros _. destruct b; [|by apply obs_process_view].
      apply respects_bind; [exact _ | by intros w|]. intros now. by apply obs_process_view.
    + intros w Hw. by destruct b.
    + intros w. by destruct b.
  - apply gate_keeps.
  - intros b. apply process_view_keeps; [by apply obs_process_view | | intros w _; by left].
    intros w [Hg Ht]. split; [|done]. eapply guard_inv_frame; [..|exact Hg]; done.
  - apply update_keeps; [by apply obs_process_view | by intros w | by intros w].
Qed.
End laws.

(** ** The temperature gate *)

Lemma wp_bw {A} (m : M A) Q s : wp m (fun a w => Q a (s <| bs_world := w |>)) (bs_world s) -> wp (bw m) Q s.
Proof. unfold wp, bw. by destruct (m (bs_world s)). Qed.

Lemma wp_respects {W A} (R : W -> W -> Prop) (m : ST W A) (Q : A -> W -> Prop) s :
  respects R m -> (forall a s', R s s' -> Q a s') -> wp m Q s.
Proof. intros Hm HQ. apply HQ, Hm. Qed.

Lemma wp_config Q s : Q (active_config (bs_world s)) s -> wp (bw tsd_runtime_config_active_snapshot) Q s.
Proof. by destruct s. Qed.

(** A raw temperature the bridge may act on: recorded, and no older at [now]
    than the window of the configuration. *)
Definition fresh_raw (cfg : tsd_runtime_config) (s : bstate) (millic now : Z) : Prop :=
  rw_valid (bs_raw_temp s) = true /\ rw_value (bs_raw_temp s) = millic /\ rw_at (bs_raw_temp s) <> 0 /\
  0 <= now - rw_at (bs_raw_temp s) <= freshness_window cfg * NS_PER_MS.

(** What a call that reports [out] leaves behind. *)
Definition gate_settled `{EV : Env} (cfg : tsd_runtime_config) (s : bstate) (out : tsd_telemetry_sample_t) : Prop :=
  let w := bs_world s in
  (ts_temp_available out = true -> exists now, fresh_raw cfg s (ts_package_temp_millic out) now) /\
  (o_temperature_upgrade_allowed (w_obs w) = true -> ts_temp_available out = true) /\
  (ts_temp_available out = false -> o_fusion_running (w_obs w) = true ->
     forall width, SIMD_SSE41 < width -> result (tsd_runtime_width_authorized width) w = false).

Lemma raw_is_fresh_spec cfg timestamp now :
  raw_is_fresh cfg timestamp now = true -> timestamp <> 0 /\ 0 <= now - timestamp <= freshness_window cfg * NS_PER_MS.
Proof. unfold raw_is_fresh. destruct (timestamp =? 0) eqn:E; [done|]. intros H. zbool. lia. Qed.

Lemma copy_raw_temp cfg temp freq now out : ts_temp_available out = false ->
  let out' := copy_raw_cache cfg temp freq now out in
  ts_temp_available out' = true ->
  rw_valid temp = true /\ rw_at temp <> 0 /\ 0 <= now - rw_at temp <= freshness_window cfg * NS_PER_MS /\
  ts_package_temp_millic out' = rw_value temp.
Proof.
  intros Ho. unfold copy_raw_cache. cbv zeta. destruct (rw_valid temp && raw_is_fresh cfg (rw_at temp) now) eqn:E.
  - apply andb_true_iff in E as [Ev (Ea & Eb)%raw_is_fresh_spec]. destruct (rw_valid freq && _); by cbn.
  - destruct (rw_valid freq && _); cbn; congruence.
Qed.

Lemma fill_keeps_raw out :
  (ts_temp_available (fill_filtered_from_raw out), ts_package_temp_millic (fill_filtered_from_raw out)) =
  (ts_temp_available out, ts_package_temp_millic out).
Proof. unfold fill_filtered_from_raw. repeat case_if; done. Qed.

Lemma filtered_not_raw sn : ts_temp_available (copy_filtered_snapshot sn zero_sample).2 = false.
Proof. unfold copy_filtered_snapshot. by case_if. Qed.

Abbreviation same_gate := (over_world (fun w w' => gate_view w = gate_view w')).

Section gate.
Context `{EV : Env, SE : SysEnv, FE : FusionEnv, BE : BridgeEnv}.

Lemma gate_store_run b w :
  wp (temperature_gate_store b) (fun r w' => o_temperature_upgrade_allowed (w_obs w') = r /\ (r = true -> b = true)) w.
Proof.
  unfold temperature_gate_store. apply wp_bind. unfold wp at 1. destruct (_ =? 0).
  - apply wp_bind, wp_modify, wp_bind. eapply wp_respects; [apply patch_frame_write_leave|].
    intros ? w' Hf%patch_frame_obs. apply wp_ret. rewrite <- Hf. done.
  - apply wp_bind, wp_modify, wp_ret. done.
Qed.

Lemma gate_only_if_available b w : wp (update_temperature_gate b) (fun _ w' => o_temperature_upgrade_allowed (w_obs w') = true -> b = true) w.
Proof.
  unfold update_temperature_gate. apply wp_bind. eapply wp_mono; [apply gate_store_run|]. cbv beta. intros r w1 [Hr Hb].
  destruct r; [apply wp_ret; intros _; by apply Hb|].
  assert (Hq : forall w2, gate_view w1 = gate_view w2 -> o_temperature_upgrade_allowed (w_obs w2) = true -> b = true)
    by (unfold gate_view; intros w2 [= _ E _]; congruence).
  apply wp_bind, wp_gets. destruct (negb _); [by apply wp_ret, Hq|]. apply wp_bind.
  eapply wp_respects; [apply (coarse_width gate_view), coarse_gate|]. cbv beta. intros width w2 E2. apply wp_when.
  destruct (width <>? SIMD_SSE41); [|by apply Hq]. apply wp_bind.
  eapply wp_respects; [apply (coarse_patch gate_view), coarse_gate|]. cbv beta. intros rc w3 E3. apply wp_ret, Hq. congruence.
Qed.

Lemma closed_gate_blocks width w :
  o_fusion_running (w_obs w) = true -> o_temperature_upgrade_allowed (w_obs w) = false -> SIMD_SSE41 < width ->
  result (tsd_runtime_width_authorized width) w = false.
Proof.
  intros Hr Ha Hw. apply not_true_is_false. unfold result. intros H. apply width_authorized_run in H as [_ [-> |Hp]]; [lia|].
  destruct Hp as (_ & _ & Hg & _). unfold gate_open in Hg. by rewrite Hr, Ha in Hg.
Qed.

Lemma gate_settled_intro cfg s out :
  (ts_temp_available out = true -> exists now, fresh_raw cfg s (ts_package_temp_millic out) now) ->
  (o_temperature_upgrade_allowed (w_obs (bs_world s)) = true -> ts_temp_available out = true) -> gate_settled cfg s out.
Proof.
  intros H1 H2. split_and!; [done | done|]. intros Ht Hr width Hlt. apply closed_gate_blocks; [done | | done].
  apply not_true_is_false. intros Hx. by rewrite (H2 Hx) in Ht.
Qed.

Lemma fail_settled cfg s out e : gate_settled cfg s out -> wp (bw (fail e)) (fun rc s' => rc = -1 /\ gate_settled cfg s' out) s.
Proof. intros (H1 & H2 & _). split; [done|]. by apply gate_settled_intro. Qed.

Lemma same_gate_config s s' : same_gate s s' -> active_config (bs_world s') = active_config (bs_world s).
Proof. unfold over_world, gate_view. intros [= _ _ ->]. done. Qed.

(** [out] reports only what the raw cache of [s] supports. *)
Definition backed (cfg : tsd_runtime_config) (s : bstate) (out : tsd_telemetry_sample_t) : Prop :=
  ts_temp_available out = true -> exists now, fresh_raw cfg s (ts_package_temp_millic out) now.

(** Reading the cache. *)
Lemma cache_run {A} cfg out0 (k : tsd_telemetry_sample_t -> BM (exn + A)) Q s :
  active_config (bs_world s) = cfg -> ts_temp_available out0 = false ->
  (forall out s', backed cfg s' out -> wp (k out) Q s') ->
  wp (now <-! fine steady_now ;; out <-! fine (copy_raw_cache_unlocked out0 now) ;; k out) Q s.
Proof.
  intros Hc Ho Hk. apply wp_exn, wp_fine, wp_bw, wp_ext. set (now := env_steady _).
  match goal with |- wp _ _ ?x => set (s1 := x); assert (Hc1 : active_config (bs_world s1) = cfg) by exact Hc end.
  apply wp_exn, wp_fine, wp_bind, wp_config, wp_gets. rewrite Hc1. apply Hk. intros Ht.
  destruct (copy_raw_temp _ _ _ _ _ Ho Ht) as (E1 & E2 & E3 & E4). by exists now.
Qed.

Lemma backed_same cfg s out out' :
  (ts_temp_available out', ts_package_temp_millic out') = (ts_temp_available out, ts_package_temp_millic out) ->
  backed cfg s out -> backed cfg s out'.
Proof. unfold backed. by intros [= -> ->]. Qed.

(** Publishing [out] and setting the gate. *)
Lemma settle_run {A} cfg out (k : BM (exn + A)) Q s :
  backed cfg s out -> (forall s', gate_settled cfg s' out -> wp k Q s') ->
  wp (fine (update_temperature_observability_unlocked out) ;;!
      fine (update_temperature_gate_unlocked (ts_temp_available out)) ;;! k) Q s.
Proof.
  intros Ho Hk. apply wp_exn, wp_fine, wp_bw. unfold wp at 1. apply wp_exn, wp_fine, wp_bw.
  eapply wp_mono; [apply gate_only_if_available|]. cbv beta. intros _ w Hw. by apply Hk, gate_settled_intro.
Qed.

(** What a refused call leaves of the gate. *)
Definition refused (s : bstate) (rc : Z) (s' : bstate) : Prop := rc = -1 /\ gate_view (bs_world s') = gate_view (bs_world s).

Lemma fail_refused e s s' : same_gate s s' -> wp (bw (fail e)) (refused s) s'.
Proof. intros H. split; [done | by rewrite H]. Qed.

Lemma wp_same_gate {A} (m : BM A) Q s0 s :
  respects same_gate m -> same_gate s0 s -> (forall a s', same_gate s0 s' -> Q a s') -> wp m Q s.
Proof. intros Hm H0 HQ. apply HQ. transitivity s; [done | apply Hm]. Qed.

Lemma sample_settles s :
  wp fusion_sample (fun r s' =>
    (r.2 = zero_sample /\ refused s r.1 s') \/
    (gate_settled (active_config (bs_world s)) s' r.2 /\ (ts_temp_available r.2 = true -> r.1 = 0))) s.
Proof.
  assert (H0 : same_gate s s) by done. unfold fusion_sample.
  apply wp_bind, wp_exn. eapply wp_same_gate; [apply throw_over | exact H0|]. intros [e|[]] s1 H1.
  { apply wp_bind. eapply wp_mono; [by apply (fail_refused _ s)|]. intros rc s2 H2. apply wp_ret. by left. }
  apply wp_exn, wp_fine, wp_gets. destruct (negb _).
  { apply wp_exn, wp_fine. eapply wp_mono; [by apply (fail_refused _ s)|]. intros rc s2 H2. do 2 apply wp_ret. by left. }
  unfold sample_unlocked. apply wp_exn. eapply wp_same_gate; [apply poll_direct_over | exact H1|]. intros [e|[]] s2 H2.
  { apply wp_bind. eapply wp_mono; [by apply (fail_refused _ s)|]. intros rc s3 H3. apply wp_ret. by left. }
  apply wp_exn, wp_fine. eapply wp_same_gate; [apply snapshot_over | exact H2|]. intros snap s3 H3.
  assert (Hp : forall p, p = match snap with Some sn => copy_filtered_snapshot sn zero_sample | None => (false, zero_sample) end ->
    ts_temp_available p.2 = false) by (intros p ->; destruct snap; [apply filtered_not_raw | done]).
  destruct (match snap with Some _ => _ | None => _ end) as [usable out0]. specialize (Hp _ eq_refl). cbn in Hp.
  apply cache_run with (cfg := active_config (bs_world s)); [by apply same_gate_config | done|]. intros out s4 H4.
  apply settle_run with (cfg := active_config (bs_world s)); [eapply backed_same; [apply fill_keeps_raw | done]|]. intros s5 H5.
  cbv zeta. destruct (_ || usable) eqn:Eu.
  - do 2 apply wp_ret. by right.
  - apply wp_exn, wp_fine. eapply wp_mono; [by apply fail_settled|]. intros rc s6 [-> H6]. do 2 apply wp_ret. right.
    split; [done|]. cbn. intros Ht. by rewrite Ht in Eu.
Qed.

Lemma publish_settles sample s :
  wp (fusion_publish_sample sample) (fun rc s' => refused s rc s' \/ exists out, gate_settled (active_config (bs_world s)) s' out) s.
Proof.
  assert (H0 : same_gate s s) by done. destruct sample as [sample|]; [|left; by split]. unfold fusion_publish_sample.
  apply wp_bind, wp_exn. eapply wp_same_gate; [apply throw_over | exact H0|]. intros [e|[]] s1 H1.
  { eapply wp_mono; [by apply (fail_refused _ s)|]. intros rc s2 H2. by left. }
  apply wp_exn, wp_fine, wp_gets. destruct (negb _).
  { apply wp_fine. eapply wp_mono; [by apply (fail_refused _ s)|]. intros rc s2 H2. apply wp_ret. by left. }
  apply wp_exn. eapply wp_same_gate; [apply publish_over | exact H1|]. intros [e|published] s2 H2.
  { eapply wp_mono; [by apply (fail_refused _ s)|]. intros rc s3 H3. by left. }
  apply cache_run with (cfg := active_config (bs_world s)); [by apply same_gate_config | done|]. intros out s3 H3.
  apply wp_exn, wp_fine, wp_gets. cbv zeta.
  apply settle_run with (cfg := active_config (bs_world s)); [eapply backed_same; [|exact H3]; by destruct (bs_smoothed_temp_c s3)|].
  intros s4 H4. destruct published; [apply wp_ret, wp_ret; right; by eexists|].
  apply wp_fine. eapply wp_mono; [by apply fail_settled|]. intros rc s5 [_ H5]. apply wp_ret. right. by eexists.
Qed.
End gate.

(** ** Sessions *)

Definition engine_alive (f : TelemetryFusion) : Prop :=
  tf_running f = true /\ tf_joinable f = true /\ ring_ok (tf_ring f).

(** The engine runs for at least one user, fed by a helper whose descriptor is
    accounted for. *)
Record live_inv (s : bstate) : Prop := {
  lv_engine : exists f, bs_fusion s = Some f /\ engine_alive f;
  lv_manager : bs_manager s = true;
  lv_users : 1 <= bs_users s;
  lv_helper : bs_helper_ready s = true /\ helper_inv (bs_helper s) (bs_fds s);
  lv_running : o_fusion_running (w_obs (bs_world s)) = true;
}.

(** Nothing is left of any session. *)
Record idle_inv (s : bstate) : Prop := {
  id_engine : bs_fusion s = None /\ bs_manager s = false;
  id_users : bs_users s = 0 /\ bs_cpu s = -1;
  id_helper : bs_helper_ready s = false /\ bs_fds s = [];
  id_signals : bs_smoothed_temp_c s = None /\ bs_smoothed_freq_ratio s = None /\ bs_raw_temp s = no_raw /\ bs_raw_freq s = no_raw;
  id_running : o_fusion_running (w_obs (bs_world s)) = false;
}.

Definition bridge_inv (s : bstate) : Prop := live_inv s \/ idle_inv s.

(** The abstract session: the CPU it targets and its users. *)
Definition session_of (s : bstate) : option (Z * Z) :=
  match bs_fusion s with Some _ => Some (bs_cpu s, bs_users s) | None => None end.

(** A step inside a live session. *)
Definition live (s s' : bstate) : Prop := live_inv s -> live_inv s' /\ (bs_cpu s', bs_users s') = (bs_cpu s, bs_users s).
#[export] Instance live_preorder : PreOrder live.
Proof.
  split; [by intros s Hs|]. intros s1 s2 s3 H12 H23 H1. destruct (H12 H1) as [H2 E2]. destruct (H23 H2) as [H3 E3].
  split; [done | congruence].
Qed.

Lemma live_world s w : live_inv s -> o_fusion_running (w_obs w) = true -> live_inv (s <| bs_world := w |>).
Proof. intros [] Hw. by split. Qed.

Lemma session_running w w' : session_view w = session_view w' -> o_fusion_running (w_obs w') = o_fusion_running (w_obs w).
Proof. unfold session_view. congruence. Qed.

Abbreviation same_session := (fun w w' => session_view w = session_view w').

Lemma live_bw {A} (m : M A) : respects same_session m -> respects live (bw m).
Proof.
  intros Hm s Hs. specialize (Hm (bs_world s)). unfold bw. destruct (m (bs_world s)) as [a w]. cbn in *. split; [|done].
  apply live_world; [done|]. rewrite (session_running _ _ Hm). by destruct Hs.
Qed.

Lemma live_modify (f : bstate -> bstate) :
  (forall s, (bs_world (f s), bs_fusion (f s), bs_manager (f s), bs_helper (f s), bs_fds (f s), bs_helper_ready (f s), bs_users (f s), bs_cpu (f s)) =
             (bs_world s, bs_fusion s, bs_manager s, bs_helper s, bs_fds s, bs_helper_ready s, bs_users s, bs_cpu s)) ->
  respects live (modify f).
Proof.
  intros Hf s Hs. specialize (Hf s). cbn. injection Hf as E1 E2 E3 E4 E5 E6 E7 E8. destruct Hs.
  split; [split|]; rewrite ?E1, ?E2, ?E3, ?E4, ?E5, ?E6, ?E7, ?E8; done.
Qed.

Lemma live_engine {A} (m : FM A) a :
  (forall s, engine_alive (fs_engine s) -> engine_alive (fs_engine (m s).2)) ->
  respects (over_engine same_session) m -> respects live (on_engine m a).
Proof.
  intros Ha Hw s Hs. destruct (lv_engine _ Hs) as (f & Ef & Hf). unfold on_engine. rewrite Ef.
  specialize (Ha (mkFstate (bs_world s) f) Hf). specialize (Hw (mkFstate (bs_world s) f)). unfold over_engine in Hw.
  destruct (m _) as [b t]. cbn in *. split; [|done]. destruct Hs. split; cbn; try done; [by exists (fs_engine t)|].
  by rewrite (session_running _ _ Hw).
Qed.

Section sessions.
Context `{EV : Env, SE : SysEnv, FE : FusionEnv, BE : BridgeEnv}.

Lemma worker_alive n s : engine_alive (fs_engine s) -> engine_alive (fs_engine (worker_turns n s).2).
Proof.
  revert s. induction n as [|n IH]; intros s Hs; cbn [worker_turns]; [done|]. rewrite bind_run. cbn [engine_get gets fst snd].
  destruct (tf_running (fs_engine s)); [|done]. rewrite bind_run. apply IH. destruct Hs as (H1 & H2 & H3).
  destruct (iteration_run s H3) as (Hr & [= _ _ E1 E2] & _). unfold engine_alive. by rewrite E1, E2.
Qed.

Lemma bus_publish_alive signal r s : engine_alive (fs_engine s) -> engine_alive (fs_engine (bus_publish signal r s).2).
Proof. intros Hs. unfold bus_publish. rewrite bind_run, in_process_run. cbn. by destruct (fe_alloc _). Qed.

Lemma live_sample_helper : respects live (on_helper tsd_telemetry_helper_sample_impl).
Proof.
  intros s Hs. destruct (lv_helper _ Hs) as [Hr Hh].
  pose proof (proj2 (proj2 (helper_calls_over (R := same_session) 0)) s) as Hw.
  pose proof (sample_keeps (mkHstate (bs_world s) (bs_helper s) (bs_fds s) (bs_search s)) Hh) as Hk. unfold wp in Hk.
  unfold on_helper, over_world in *. destruct (tsd_telemetry_helper_sample_impl _) as [r t]. cbn in *. split; [|done].
  destruct Hs. split; cbn; try done; [|by rewrite (session_running _ _ Hw)]. split; [done | exact (proj1 Hk)].
Qed.

Ltac live_step :=
  first
    [ respects_step
    | apply respects_exn; [exact _ | | intro]
    | (apply live_modify; reflexivity)
    | apply live_sample_helper
    | apply live_engine; [first [apply worker_alive | apply bus_publish_alive | (by intros s Hs)] |
                          first [apply worker_over | apply bus_publish_over | apply get_over]]
    | apply live_bw; first [(intros w; reflexivity) | apply gr_channels, _ | apply gr_gate, _] ].

Lemma live_publish sample : respects live (publish_sample_unlocked sample).
Proof.
  unfold publish_sample_unlocked, publish_temperature, publish_frequency, record_raw_sample_unlocked, worker_runs, steady_now, fine.
  repeat live_step.
Qed.

Lemma live_initial_sample : respects live initial_sample.
Proof.
  unfold initial_sample, update_temperature_observability_unlocked, fine. repeat first [apply live_publish | live_step].
Qed.

Lemma live_calls sample : respects live fusion_sample /\ respects live (fusion_publish_sample sample).
Proof.
  unfold fusion_sample, fusion_publish_sample, sample_unlocked, poll_direct_helper, latest_snapshot, worker_runs, may_throw, steady_now,
    copy_raw_cache_unlocked, update_temperature_observability_unlocked, update_temperature_gate_unlocked, fine.
  split; repeat first [apply live_publish | live_step].
Qed.
End sessions.

(** The helper a release has to deal with. *)
Definition releasable (s : bstate) : Prop :=
  if bs_helper_ready s then helper_inv (bs_helper s) (bs_fds s) else bs_fds s = [].

Lemma live_releasable s : live_inv s -> releasable s.
Proof. intros [_ _ _ [Hr Hh] _]. unfold releasable. by rewrite Hr. Qed.
Lemma idle_releasable s : idle_inv s -> releasable s.
Proof. intros [_ _ [Hr Hf] _ _]. unfold releasable. by rewrite Hr. Qed.

Lemma idle_world s w : idle_inv s -> o_fusion_running (w_obs w) = false -> idle_inv (s <| bs_world := w |>).
Proof. intros [] Hw. by split. Qed.

Lemma engine_run {A} (m : FM A) a s :
  exists b w f, on_engine m a s = (b, s <| bs_world := w |> <| bs_fusion := f |>).
Proof.
  unfold on_engine. destruct (bs_fusion s) as [f|] eqn:E.
  - destruct (m _) as [b t]. by exists b, (fs_world t), (Some (fs_engine t)).
  - exists a, (bs_world s), None. by destruct s; cbn in E; subst.
Qed.

Section session_steps.
Context `{EV : Env, SE : SysEnv, FE : FusionEnv, BE : BridgeEnv}.

Lemma store_session_view b :
  respects same_session (safety_update (on_obs (fun o => o <| o_temperature_upgrade_allowed := b |>))).
Proof. apply coarse_update; [apply coarse_gate | by intros w]. Qed.

(** Every release ends idle. *)
Lemma release_ends_idle s : releasable s -> wp release_fusion (fun _ s' => idle_inv s') s.
Proof.
  intros Hs. unfold release_fusion, reset_fusion. apply wp_bind.
  destruct (engine_run fusion_stop tt s) as ([] & w1 & f1 & E1). eapply wp_run; [exact E1|]. apply wp_bind, wp_bind.
  match goal with |- wp _ _ ?x => destruct (engine_run fusion_stop tt x) as ([] & w2 & f2 & E2) end.
  eapply wp_run; [exact E2|]. apply wp_modify, wp_bind, wp_modify, wp_bind. clear E1 E2.
  match goal with |- wp _ _ ?x => assert (Hx : releasable x) by exact Hs; assert (Fx : bs_fusion x = None /\ bs_manager x = false) by done;
    revert Hx Fx; generalize x; clear s Hs; intros s Hs [Ff Fm] end.
  assert (Hd : wp destroy_direct_helper (fun _ s' => bs_fusion s' = None /\ bs_manager s' = false /\ bs_helper_ready s' = false /\ bs_fds s' = []) s).
  { unfold destroy_direct_helper, releasable in *. apply wp_bind, wp_gets, wp_when. destruct (bs_helper_ready s) eqn:Er; [|done]. apply wp_bind.
    pose proof (destroy_ok (mkHstate (bs_world s) (bs_helper s) (bs_fds s) (bs_search s)) Hs) as [_ Hk].
    unfold wp at 1, on_helper. destruct (tsd_telemetry_helper_destroy_impl _) as [[] t]. by apply wp_modify. }
  eapply wp_mono; [exact Hd|]. intros _ s1 (H1 & H2 & H3 & H4). apply wp_bind, wp_modify, wp_bind, wp_modify, wp_bind, wp_bw, wp_modify.
  apply wp_bind, wp_bw. eapply wp_respects; [apply store_session_view|]. cbv beta. intros _ w3 E3%session_running.
  apply wp_bw. eapply wp_respects; [apply (gr_channels same_session)|]. cbv beta. intros _ w4 E4%session_running.
  split; cbn; try done. cbn in E3, E4. congruence.
Qed.

Lemma fusion_start_run te w f : tf_running f = false -> tf_joinable f = false ->
  exists w', fusion_start te (mkFstate w f) =
    (match te with Some e => inl e | None => inr tt end,
     mkFstate w' (f <| tf_running := negb (has te) |> <| tf_joinable := negb (has te) |>)).
Proof.
  intros Hr Hj. unfold fusion_start. rewrite bind_run. cbn [engine_get gets fst snd fs_engine]. rewrite Hr, Hj. cbn [orb].
  destruct te as [e|]; rewrite !bind_run; cbn [engine_set modify fst snd]; rewrite in_process_run; cbn [fst snd throw ret];
    eexists; destruct f; cbn in *; subst; reflexivity.
Qed.

(** A start from rest: it succeeds with one user, or an exception leaves
    something a release can undo. *)
Lemma start_engine_run cpu s : 0 <= cpu -> idle_inv s ->
  wp (start_engine cpu) (fun r s' => releasable s' /\ match r with inr _ => live_inv s' /\ (bs_cpu s', bs_users s') = (cpu, 1) | inl _ => True end) s.
Proof.
  intros Hc Hs. assert (Hrel : releasable s) by (by apply idle_releasable). destruct Hs as [[Ef Em] _ [Er Efd] _ _].
  unfold start_engine, may_throw. apply wp_exn, wp_bind, wp_bw, wp_ext, wp_ret. destruct (be_throw _); [done|].
  apply wp_exn, wp_fine, wp_modify, wp_exn, wp_fine, wp_config, wp_exn, wp_bind, wp_bw, wp_ext, wp_ret. destruct (be_throw _); [done|].
  apply wp_exn, wp_fine, wp_bind. unfold reset_fusion. apply wp_bind.
  match goal with |- wp _ _ ?x => destruct (engine_run fusion_stop tt x) as ([] & w1 & f1 & E1) end.
  eapply wp_run; [exact E1|]. clear E1. apply wp_modify, wp_modify, wp_exn, wp_fine, wp_modify.
  match goal with |- context [default_config ?x] => set (cfg := x) end.
  apply wp_exn, wp_fine. unfold wp at 1, on_helper. cbn.
  pose proof (init_ok cpu (mkHstate w1 (bs_helper s) (bs_fds s) (bs_search s)) Hc Efd) as Hi. unfold wp in Hi.
  destruct (tsd_telemetry_helper_init_impl cpu _) as [rc t]. cbn in Hi |- *. destruct Hi as [-> Hh]. apply wp_exn, wp_fine, wp_modify. cbn.
  apply wp_exn, wp_fine, wp_bw, wp_ext. cbn. set (te := be_throw _).
  apply wp_exn. unfold wp at 1, on_engine. cbn [bs_fusion bs_world].
  match goal with |- context [fusion_start te (mkFstate ?w ?f)] => destruct (fusion_start_run te w f eq_refl eq_refl) as [w2 ->] end.
  destruct te as [e|]; cbn [has negb]; [split; [exact Hh | done]|].
  apply wp_exn, wp_fine, wp_modify, wp_exn, wp_fine, wp_bw, wp_modify. cbn.
  match goal with |- wp _ _ ?x => assert (Hl : live_inv x) end.
  { split; cbn; try done. eexists; split; [reflexivity|]. split_and!; try done. apply new_ring_ok. }
  match type of Hl with live_inv ?x => assert (Hu : (bs_cpu x, bs_users x) = (cpu, 1)) by done; revert Hl Hu; generalize x end.
  intros s1 Hl Hu. apply wp_exn. eapply wp_respects; [apply live_initial_sample|]. intros r s2 H2. destruct (H2 Hl) as [Hl2 E2].
  destruct r as [e|b]; [split; [by apply live_releasable | done]|].
  apply wp_fine. eapply wp_respects; [apply live_bw, (gr_gate same_session)|]. intros [] s3 H3. destruct (H3 Hl2) as [Hl3 E3].
  split; [by apply live_releasable|]. split; [done | congruence].
Qed.
End session_steps.

(** ** The abstract session and the calls of its clients *)

Inductive session_op : Type :=
  | BStart (cpu : Z)
  | BStop
  | BPublish (sample : option tsd_telemetry_sample_t)
  | BSample.

(** A process-wide session with a user count, and what a call may answer. *)
Inductive session_step : option (Z * Z) -> session_op -> Z -> option (Z * Z) -> Prop :=
  | ss_open cpu : 0 <= cpu -> session_step None (BStart cpu) 0 (Some (cpu, 1))
  | ss_join cpu n : session_step (Some (cpu, n)) (BStart cpu) 0 (Some (cpu, n + 1))
  | ss_refuse a cpu : session_step a (BStart cpu) (-1) a
  | ss_leave cpu n : 1 < n -> session_step (Some (cpu, n)) BStop 0 (Some (cpu, n - 1))
  | ss_close cpu : session_step (Some (cpu, 1)) BStop 0 None
  | ss_nothing : session_step None BStop 0 None
  | ss_no_lock a : session_step a BStop (-1) a
  | ss_publish a sample rc : session_step a (BPublish sample) rc a
  | ss_sample a rc : session_step a BSample rc a.

Inductive session_trace : option (Z * Z) -> list (session_op * Z) -> option (Z * Z) -> Prop :=
  | st_nil a : session_trace a [] a
  | st_cons a b c o rc l : session_step a o rc b -> session_trace b l c -> session_trace a ((o, rc) :: l) c.

Section session_runs.
Context `{EV : Env, SE : SysEnv, FE : FusionEnv, BE : BridgeEnv}.

(** [tsd_telemetry_fusion_stop] returns nothing; -1 stands for a lock that threw. *)
Definition run_session_op (o : session_op) : BM Z :=
  match o with
  | BStart cpu => fusion_start_for_cpu cpu
  | BStop => rc <- gets (fun s => if has (be_throw (w_calls (bs_world s))) then -1 else 0) ;; fusion_stop_call ;;; ret rc
  | BPublish sample => fusion_publish_sample sample
  | BSample => r <- fusion_sample ;; ret r.1
  end.

Fixpoint run_session (ops : list session_op) : BM (list (session_op * Z)) :=
  match ops with
  | [] => ret []
  | o :: ops => rc <- run_session_op o ;; l <- run_session ops ;; ret ((o, rc) :: l)
  end.

(** An abstract state stands for a bridge state. *)
Definition session_rep (a : option (Z * Z)) (s : bstate) : Prop := bridge_inv s /\ session_of s = a.

Definition users_in (a : option (Z * Z)) : Z := match a with Some (_, n) => n | None => 0 end.

Lemma idle_fail e s : idle_inv s -> wp (bw (fail e)) (fun rc s' => rc = -1 /\ idle_inv s') s.
Proof. intros Hs. split; [done|]. apply idle_world; [done|]. by destruct Hs. Qed.

Lemma rep_idle s : idle_inv s -> session_rep None s.
Proof. intros Hs. split; [by right|]. unfold session_of. by rewrite (proj1 (id_engine _ Hs)). Qed.

Lemma rep_live s : live_inv s -> session_rep (Some (bs_cpu s, bs_users s)) s.
Proof. intros Hs. split; [by left|]. unfold session_of. by destruct (lv_engine _ Hs) as (f & -> & _). Qed.

Lemma idle_call s : idle_inv s -> idle_inv (s <| bs_world := (bs_world s) <| w_calls ::= S |> |>).
Proof. intros [] . by split. Qed.

Lemma live_call s : live_inv s -> live_inv (s <| bs_world := (bs_world s) <| w_calls ::= S |> |>).
Proof. intros [] . by split. Qed.

(** Calls that need an engine do nothing without one. *)
Lemma idle_calls sample s : idle_inv s ->
  wp fusion_sample (fun _ s' => idle_inv s') s /\ wp (fusion_publish_sample sample) (fun _ s' => idle_inv s') s.
Proof.
  intros Hs. split.
  - unfold fusion_sample, may_throw. apply wp_bind, wp_exn, wp_bind, wp_bw, wp_ext, wp_ret.
    assert (H1 := idle_call s Hs). destruct (be_throw _).
    { apply wp_bind. eapply wp_mono; [by apply idle_fail|]. intros rc s2 [_ H2]. by apply wp_ret. }
    apply wp_exn, wp_fine, wp_gets. rewrite (proj1 (id_engine _ H1)). cbn [has negb]. apply wp_exn, wp_fine.
    eapply wp_mono; [by apply idle_fail|]. intros rc s2 [_ H2]. by do 2 apply wp_ret.
  - destruct sample as [sample|]; [|eapply wp_mono; [by apply idle_fail|]; by intros rc s2 [_ H2]].
    unfold fusion_publish_sample, may_throw. apply wp_bind, wp_exn, wp_bind, wp_bw, wp_ext, wp_ret.
    assert (H1 := idle_call s Hs). destruct (be_throw _).
    { eapply wp_mono; [by apply idle_fail|]. by intros rc s2 [_ H2]. }
    apply wp_exn, wp_fine, wp_gets. rewrite (proj1 (id_engine _ H1)). cbn [has negb andb]. apply wp_fine.
    eapply wp_mono; [by apply idle_fail|]. intros rc s2 [_ H2]. by apply wp_ret.
Qed.

Lemma live_keeps_rep {A} (m : BM A) s : respects live m -> live_inv s -> wp m (fun _ s' => session_rep (session_of s) s') s.
Proof.
  intros Hm Hs. eapply wp_respects; [exact Hm|]. intros a s' H'. destruct (H' Hs) as [Hl E].
  rewrite (proj2 (rep_live s Hs)), <- E. by apply rep_live.
Qed.

Lemma stop_session s : bridge_inv s ->
  wp (run_session_op BStop) (fun rc s' => exists a, session_step (session_of s) BStop rc a /\ session_rep a s') s.
Proof.
  intros Hs. cbn [run_session_op]. apply wp_bind, wp_gets, wp_bind. unfold fusion_stop_call, may_throw. apply wp_bind, wp_bind, wp_bw, wp_ext, wp_ret.
  destruct (be_throw (w_calls (bs_world s))); cbn [has].
  { apply wp_ret, wp_ret. exists (session_of s). split; [constructor|].
    destruct Hs as [Hs|Hs]; [by rewrite (proj2 (rep_live s Hs)); apply (rep_live _ (live_call s Hs))
                            | by rewrite (proj2 (rep_idle s Hs)); apply (rep_idle _ (idle_call s Hs))]. }
  apply wp_bind, wp_gets. destruct Hs as [Hs|Hs].
  - assert (H1 := live_call s Hs). rewrite (proj2 (rep_live s Hs)). destruct (bs_users _ >? 1) eqn:E; cbn in E.
    + apply wp_modify, wp_ret. zbool. eexists. split; [by constructor|]. cbn.
      match goal with |- session_rep _ ?x => apply (rep_live x) end. destruct H1. split; cbn in *; try done. lia.
    + zbool. assert (bs_users s = 1) as -> by (pose proof (lv_users _ Hs); lia).
      eapply wp_mono; [by apply release_ends_idle, live_releasable|]. cbv beta. intros _ s2 H2. apply wp_ret. exists None. split; [constructor | by apply rep_idle].
  - assert (H1 := idle_call s Hs). rewrite (proj2 (rep_idle s Hs)).
    destruct (bs_users _ >? 1) eqn:E; [cbn in E; by rewrite (proj1 (id_users _ Hs)) in E|].
    eapply wp_mono; [by apply release_ends_idle, idle_releasable|]. cbv beta. intros _ s2 H2. apply wp_ret. exists None. split; [constructor | by apply rep_idle].
Qed.

Lemma start_session cpu s : bridge_inv s -> users_in (session_of s) < UINT32_MAX ->
  wp (run_session_op (BStart cpu)) (fun rc s' => exists a, session_step (session_of s) (BStart cpu) rc a /\ session_rep a s') s.
Proof.
  intros Hs Hu. cbn [run_session_op]. unfold fusion_start_for_cpu, may_throw. apply wp_bind, wp_bind, wp_bw, wp_ext, wp_ret.
  match goal with |- wp _ _ ?x => set (s1 := x) end.
  assert (H1 : session_rep (session_of s) s1).
  { destruct Hs as [Hs|Hs]; [rewrite (proj2 (rep_live s Hs)); apply (rep_live s1 (live_call s Hs))
                            | rewrite (proj2 (rep_idle s Hs)); apply (rep_idle s1 (idle_call s Hs))]. }
  clearbody s1.
  assert (Hfail : forall e, wp (bw (fail e)) (fun rc s' => exists a, session_step (session_of s) (BStart cpu) rc a /\ session_rep a s') s1).
  { intros e. split with (session_of s). split; [constructor|]. destruct H1 as [[Hl|Hi] <-].
    - rewrite (proj2 (rep_live _ Hl)). match goal with |- session_rep _ ?x => apply (rep_live x) end.
      apply live_world; [done | by destruct Hl].
    - rewrite (proj2 (rep_idle _ Hi)). apply rep_idle, idle_world; [done | by destruct Hi]. }
  destruct (be_throw _); [apply Hfail|]. unfold start_unlocked. destruct (cpu <? 0) eqn:Ec; [apply Hfail|]. zbool.
  apply wp_bind, wp_config. destruct (_ && _); [apply Hfail|]. apply wp_bind, wp_gets. destruct H1 as [[Hl|Hi] Ha].
  - destruct (lv_engine _ Hl) as (f & Ef & Hf). rewrite Ef, (proj1 Hf). apply wp_bind, wp_gets.
    rewrite (proj2 (rep_live _ Hl)) in Ha. rewrite <- Ha in *. cbn in Hu.
    destruct (cpu =? bs_cpu s1) eqn:Ecpu; cbn [negb]; [|apply Hfail]. zbool. subst cpu. apply wp_bind, wp_modify, wp_ret.
    pose proof (lv_users _ Hl). eexists. split; [constructor|]. rewrite <- (u32_small (bs_users s1 + 1)) by (unfold_int; lia).
    match goal with |- session_rep _ ?x => apply (rep_live x) end. destruct Hl. split; cbn; try done.
    rewrite u32_small by (unfold_int; lia). lia.
  - rewrite (proj1 (id_engine _ Hi)). rewrite (proj2 (rep_idle _ Hi)) in Ha. rewrite <- Ha. apply wp_bind.
    eapply wp_mono; [by apply start_engine_run|]. cbv beta. intros [e|u] s2 [Hrel H2].
    + unfold rollback_start_unlocked. apply wp_bind. eapply wp_mono; [by apply release_ends_idle|]. cbv beta. intros _ s3 H3.
      eapply wp_mono; [by apply idle_fail|]. intros rc s4 [-> H4]. exists None. split; [constructor | by apply rep_idle].
    + destruct H2 as [Hl2 [= E1 E2]]. apply wp_ret. exists (Some (cpu, 1)). split; [by constructor|]. rewrite <- E1, <- E2. by apply rep_live.
Qed.

Lemma session_op_run o s : bridge_inv s -> users_in (session_of s) < UINT32_MAX ->
  wp (run_session_op o) (fun rc s' => exists a, session_step (session_of s) o rc a /\ session_rep a s') s.
Proof.
  intros Hs Hu. destruct o as [cpu| |sample|].
  - by apply start_session.
  - by apply stop_session.
  - cbn [run_session_op]. destruct Hs as [Hs|Hs].
    + eapply wp_mono; [apply live_keeps_rep; [apply (live_calls sample) | done]|]. intros rc s' H'. eexists. split; [constructor | done].
    + eapply wp_mono; [by apply idle_calls|]. cbv beta. intros rc s' H'. rewrite (proj2 (rep_idle s Hs)). exists None. split; [constructor | by apply rep_idle].
  - cbn [run_session_op]. apply wp_bind. destruct Hs as [Hs|Hs].
    + eapply wp_mono; [apply live_keeps_rep; [apply (live_calls None) | done]|]. intros r s' H'. apply wp_ret. eexists. split; [constructor | done].
    + eapply wp_mono; [by apply (idle_calls None)|]. cbv beta. intros r s' H'. apply wp_ret. rewrite (proj2 (rep_idle s Hs)). exists None.
      split; [constructor | by apply rep_idle].
Qed.

Lemma session_step_users a o rc b : session_step a o rc b -> users_in b <= Z.max 0 (users_in a) + 1.
Proof. intros []; cbn; lia. Qed.
End session_runs.

(** A bridge call seen from the process, started on given private state. *)
Definition seen_bridge {A} (m : BM A) (b : bstate) : M A :=
  fun w => let r := m (b <| bs_world := w |>) in (r.1, bs_world r.2).

Lemma seen_bridge_keeps {A} (R : world -> world -> Prop) (m : BM A) b : respects (over_world R) m -> respects R (seen_bridge m b).
Proof. intros Hm w. exact (Hm (b <| bs_world := w |>)). Qed.

(** The telemetry of this repository, as the counter machine calls it: the
    helper owned by the counter context and the process-wide bridge, each on
    any private state. *)
Definition repository_telemetry `{EV : Env, SE : SysEnv, FE : FusionEnv, BE : BridgeEnv}
    (h : tsd_telemetry_helper_t) (fds : list Z) (t : search) (b : bstate) : Telemetry :=
  mkTelemetry (fun cpu => seen_from_world (tsd_telemetry_helper_init_impl cpu) h fds t)
    (seen_from_world tsd_telemetry_helper_destroy_impl h fds t) (seen_from_world tsd_telemetry_helper_sample_impl h fds t)
    (fun cpu => seen_bridge (fusion_start_for_cpu cpu) b) (seen_bridge fusion_stop_call b) (seen_bridge fusion_sample b).

(** ** Properties *)

Section properties.
Context `{EV : Env, SE : SysEnv, FE : FusionEnv, BE : BridgeEnv}.


(** C20 (refinement). The bridge is a counted session: whatever the clients call and whatever the
    environment throws, the answers and the state follow the abstract machine in
    which the first start opens a session for its CPU, later starts for the same
    CPU join it and others are refused, and the last stop closes it; and in
    every state the engine, its helper and their descriptor exist exactly while
    a session is open, while a closed one leaves no engine, descriptor, cached
    or smoothed signal behind. *)
Theorem bridge_refines_counted_session (ops : list session_op) (s : bstate) :
  idle_inv s -> Z.of_nat (List.length ops) < UINT32_MAX ->
  wp (run_session ops) (fun l s' => l.*1 = ops /\ exists a, session_trace None l a /\ session_rep a s') s.
Proof.
  intros Hi Hn.
  assert (Hgen : forall ops s, bridge_inv s -> Z.max 0 (users_in (session_of s)) + Z.of_nat (List.length ops) < UINT32_MAX ->
    wp (run_session ops) (fun l s' => l.*1 = ops /\ exists a, session_trace (session_of s) l a /\ session_rep a s') s).
  { clear. induction ops as [|o ops IH]; intros s Hs Hu; cbn [run_session].
    - apply wp_ret. split; [done|]. exists (session_of s). split; [constructor | done].
    - apply wp_bind. cbn [List.length] in Hu. eapply wp_mono; [apply session_op_run; [done | lia]|].
      intros rc s1 (b & Hstep & Hs1 & <-). pose proof (session_step_users _ _ _ _ Hstep). apply wp_bind.
      eapply wp_mono; [apply IH; [done | lia]|]. intros l s2 (<- & a & Ht & Hr). apply wp_ret. split; [done|].
      exists a. split; [by econstructor | done]. }
  specialize (Hgen ops s (or_intror Hi)). rewrite (proj2 (rep_idle s Hi)) in Hgen. apply Hgen. cbn. lia.
Qed.
End properties.

(** Helper and bridge keep the promises the counter machine and the monitor rely on,
    on any private state: their calls keep the invariant of the process, the published counter
    state, the overlay and the life-cycle flags, and move the selection only to
    SSE4.1. *)
Theorem repository_telemetry_keeps_laws `{EV : Env, SE : SysEnv, FE : FusionEnv, BE : BridgeEnv, MM : !MmapAligned}
    (h : tsd_telemetry_helper_t) (fds : list Z) (t : search) (b : bstate) :
  TelemetryLaws (TL := repository_telemetry h fds t b).
Proof.
  split; intros; cbn.
  1-3: apply seen_from_world_keeps; [apply init_harmless || apply destroy_harmless || apply sample_harmless];
    (exact _ || apply @ext_keeps || apply metric_keeps).
  - apply seen_bridge_keeps, start_over.
  - apply seen_bridge_keeps, stop_over.
  - apply seen_bridge_keeps, sample_over.
Qed.

(** ** Concrete runs *)

Definition calm_bridge_env : BridgeEnv := mkBridgeEnv (fun _ => None) (fun _ => 1%nat).

Definition fresh_bridge : bstate :=
  mkBstate (initial_world 1 tsd_runtime_config_set_defaults) None false zero_helper [] (mkSearch (-1) 0 []) false 0 (-1) None None
    no_raw no_raw.

Lemma fresh_bridge_idle : idle_inv fresh_bridge.
Proof. by split. Qed.

Definition two_clients : list session_op := [BStart 1; BSample; BStart 1; BStart 0; BStop; BStop; BSample].

Lemma bridge_refines_counted_session_witness :
  (result (run_session (EV := quiet_env) (SE := two_socket_sys) (FE := plain_fusion_env) (BE := calm_bridge_env) two_clients) fresh_bridge).*2
    = [0; 0; 0; -1; 0; 0; -1] /\
  (Z.of_nat (List.length two_clients) < UINT32_MAX) /\
  wp (run_session (EV := quiet_env) (SE := two_socket_sys) (FE := plain_fusion_env) (BE := calm_bridge_env) two_clients)
    (fun l s' => l.*1 = two_clients /\ exists a, session_trace None l a /\ session_rep a s') fresh_bridge.
Proof.
  split; [vm_compute; reflexivity|]. split; [reflexivity|].
  refine (bridge_refines_counted_session (EV := quiet_env) (SE := two_socket_sys) (FE := plain_fusion_env) (BE := calm_bridge_env)
    two_clients fresh_bridge fresh_bridge_idle _). reflexivity.
Defined.

Lemma repository_telemetry_keeps_laws_witness :
  @MmapAligned quiet_env /\
  TelemetryLaws (EV := quiet_env) (TL := repository_telemetry (EV := quiet_env) (SE := two_socket_sys) (FE := plain_fusion_env)
    (BE := calm_bridge_env) zero_helper [] (mkSearch (-1) 0 []) fresh_bridge).
Proof.
  split; [apply quiet_mmap_aligned|].
  exact (repository_telemetry_keeps_laws (EV := quiet_env) (SE := two_socket_sys) (FE := plain_fusion_env) (BE := calm_bridge_env)
    (MM := quiet_mmap_aligned) zero_helper [] (mkSearch (-1) 0 []) fresh_bridge).
Defined.

(** A running engine without a helper, whose worker makes no further turn; the
    clock stands at one second. *)
Definition stalled_bridge_env : BridgeEnv := mkBridgeEnv (fun _ => None) (fun _ => 0%nat).
Definition stalled (ring : SnapshotRing) (raw : raw_channel) : bstate :=
  fresh_bridge <| bs_manager := true |> <| bs_users := 1 |> <| bs_cpu := 0 |> <| bs_raw_temp := raw |>
    <| bs_fusion := Some ((new_fusion 50 150 4) <| tf_running := true |> <| tf_joinable := true |> <| tf_ring := ring |>) |>.

(** The snapshot of an engine is reported whatever its age: here 0.9 s with a
    window of 150 ms, and no raw reading. *)
Example old_snapshot_is_reported :
  let r := result (fusion_sample (EV := quiet_env) (SE := two_socket_sys) (FE := plain_fusion_env) (BE := stalled_bridge_env))
    (stalled (ring_publish (mkSnapshot 1 100000000 true (Some (f64_of_Z 40)) None None None) (new_ring 4)) no_raw) in
  freshness_window tsd_runtime_config_set_defaults = 150 /\
  (r.1, ts_temp_available r.2, ts_filtered_temp_available r.2, ts_filtered_package_temp_millic r.2) = (0, false, true, 40000).
Proof. vm_compute. split; reflexivity. Qed.

(** A cached raw temperature is published with the time of the call, not of its
    measurement: here it was measured 149 ms before, and authorization will
    count its window again from the call. *)
Example cached_temperature_is_restamped :
  let s' := exec (fusion_sample (EV := quiet_env) (SE := two_socket_sys) (FE := plain_fusion_env) (BE := stalled_bridge_env))
    (stalled (new_ring 4) (mkRaw true 40000 851000000)) in
  (o_raw_temp_available (w_obs (bs_world s')), o_raw_temp_freshness_at (w_obs (bs_world s')), rw_at (bs_raw_temp s'))
    = (true, 1000000000, 851000000).
Proof. vm_compute. reflexivity. Qed.
