(* ===== verification/Arx.v ===== *)
(** * Arx: the temperature model of [src/src/policy/arx_model.cpp]

    Reading coefficients from text and predicting the next temperature from the
    sample history.  The text of the coefficient file, or the failure to read it,
    is an argument.  Arithmetic is that of [double]; a history is a list, oldest
    sample first.  Error messages are left out. *)
From S2P Require Import Prelude Float64 Format ConfigParser Config ConfigFile TelemetryHelper.
From Stdlib Require Import SpecFloat Ascii String.
#[local] Open Scope string_scope.
#[local] Open Scope Z_scope.

(** [TelemetrySample] *)
Record TelemetrySample : Type := mkTSample {
  s_ratio_milli : double;
  s_trimmed_ratio_milli : double;
  s_severity_milli : double;
  s_temperature_millic : double;
  s_temp_valid : bool;
  s_width : Z;
  s_timestamp : Z;   (** nanoseconds of the steady clock *)
}.

(** [ARXModel] *)
Record ARXModel : Type := mkArx {
  bias_ : double;
  temperature_coeffs_ : list double;
  ratio_coeffs_ : list double;
  severity_coeffs_ : list double;
  trimmed_ratio_coeffs_ : list double;
  ma_coefficient_ : double;
  ma_enabled_ : bool;
  last_residual_ : double;
  residual_valid_ : bool;
  coefficients_loaded_ : bool;
  required_history_ : nat;
  staleness_window_ms_ : Z;
  width_temperature_millic_per_step_ : double;
  width_performance_benefit_milli_per_step_ : double;
}.
#[export] Instance eta_arx : Eta ARXModel := fun m =>
  mkArx (bias_ m) (temperature_coeffs_ m) (ratio_coeffs_ m) (severity_coeffs_ m) (trimmed_ratio_coeffs_ m)
    (ma_coefficient_ m) (ma_enabled_ m) (last_residual_ m) (residual_valid_ m) (coefficients_loaded_ m)
    (required_history_ m) (staleness_window_ms_ m) (width_temperature_millic_per_step_ m)
    (width_performance_benefit_milli_per_step_ m).

Definition kDefaultWidthTemperatureMillicPerStep : double := f64_of_Z 2000.
Definition kDefaultWidthPerformanceBenefitMilliPerStep : double := f64_of_Z 100.

(** The constructor. *)
Definition new_arx : ARXModel :=
  mkArx f64_zero [] [] [] [] f64_zero false f64_zero false false 1 500
    kDefaultWidthTemperatureMillicPerStep kDefaultWidthPerformanceBenefitMilliPerStep.

(** ** Reading text *)

(** What follows the first occurrence of [needle]. *)
Fixpoint after (needle content : string) : option string :=
  if String.prefix needle content
  then Some (String.substring (String.length needle) (String.length content - String.length needle) content)
  else match content with "" => None | String _ rest => after needle rest end.

Definition quoted (key : string) : string := String (ascii_of_nat 34) key ++ String (ascii_of_nat 34) "".

Definition is_number_char (c : ascii) : bool :=
  isdigit c || existsb (Ascii.eqb c) ["-"; "+"; "."; "e"; "E"]%char.

Fixpoint extractNumberToken (s : string) : string :=
  match s with
  | String c s => if is_number_char c then String c (extractNumberToken s) else ""
  | "" => ""
  end.

(** [strtod] of a token that must be a whole finite number. *)
Definition finite_number (token : string) : option double :=
  let r := strtod (until_nul token) in
  if conversion_complete r && isfinite (st_val r) then Some (st_val r) else None.

(** The result of a field: [false], [true] with [found == false], or a value. *)
Inductive field (A : Type) : Type := FieldError | FieldMissing | FieldValue (a : A).
Arguments FieldError {A}.
Arguments FieldMissing {A}.
Arguments FieldValue {A} a.

Definition parseDoubleField (content key : string) (required : bool) : field double :=
  match after (quoted key) content with
  | None => if required then FieldError else FieldMissing
  | Some rest =>
      match after ":" rest with
      | None => FieldError
      | Some rest =>
          match extractNumberToken (skip_space rest) with
          | "" => FieldError
          | token => match finite_number token with Some x => FieldValue x | None => FieldError end
          end
      end
  end.

Definition parseUint64Field (content key : string) (required : bool) : field Z :=
  match parseDoubleField content key required with
  | FieldError => FieldError
  | FieldMissing => if required then FieldError else FieldMissing
  | FieldValue x => if flt x f64_zero || flt f64_uint64_max x then FieldError else FieldValue (f64_to_u64 (fadd x f64_half))
  end.

(** The text up to a comma or a closing bracket, and the rest. *)
Fixpoint array_entry (s : string) : string * string :=
  match s with
  | "" => ("", "")
  | String c rest =>
      if Ascii.eqb c "," || Ascii.eqb c "]" then ("", s) else let '(t, r) := array_entry rest in (String c t, r)
  end.

Fixpoint trim_start (s : string) : string :=
  match s with String c rest => if is_blank c then trim_start rest else s | "" => "" end.

(** [None] in the result: [false]; out of fuel never happens (see below). *)
Fixpoint array_loop (fuel : nat) (s : string) (acc : list double) : option (list double) :=
  match fuel with
  | O => None
  | S fuel =>
      match skip_space s with
      | "" => None
      | String c rest =>
          if Ascii.eqb c "]" then Some acc
          else
            let '(entry, tail) := array_entry (String c rest) in
            match trim_end (trim_start entry) with
            | "" => None
            | token =>
                match finite_number token with
                | None => None
                | Some x =>
                    array_loop fuel (match tail with String d t => if Ascii.eqb d "," then t else tail | "" => "" end) (acc ++ [x])%list
                end
            end
      end
  end.

Definition parseDoubleArrayField (content key : string) : option (list double) :=
  match after (quoted key) content with
  | None => Some []
  | Some rest =>
      match after "[" rest with
      | None => None
      | Some rest => array_loop (S (String.length rest)) rest []
      end
  end.

(** A value, a default for a missing field, or [false]. *)
Definition field_or {A} (default : A) (f : field A) : option A :=
  match f with FieldError => None | FieldMissing => Some default | FieldValue a => Some a end.

(** A width effect must not be negative when it is given. *)
Definition width_effect (content key : string) (default : double) : option double :=
  match parseDoubleField content key false with
  | FieldError => None
  | FieldMissing => Some default
  | FieldValue x => if flt x f64_zero then None else Some x
  end.

(** The members are written only when every field was read. *)
Definition parseContent (content : string) (m : ARXModel) : option ARXModel :=
  match parseDoubleField content "bias" true with
  | FieldValue bias =>
      temp_coeffs ← parseDoubleArrayField content "ar_temperature";
      if Nat.eqb (List.length temp_coeffs) 0 then None
      else
        ratio_coeffs ← parseDoubleArrayField content "ratio";
        severity_coeffs ← parseDoubleArrayField content "severity";
        trimmed_ratio_coeffs ← parseDoubleArrayField content "trimmed_ratio";
        let ma := parseDoubleField content "ma" false in
        ma_coeff ← field_or f64_zero ma;
        staleness ← field_or 500 (parseUint64Field content "staleness_window_ms" false);
        let staleness := if staleness =? 0 then 1 else staleness in
        width_temp ← width_effect content "width_temperature_millic_per_step" kDefaultWidthTemperatureMillicPerStep;
        width_perf ← width_effect content "width_performance_benefit_milli_per_step" kDefaultWidthPerformanceBenefitMilliPerStep;
        Some (m <| bias_ := bias |> <| temperature_coeffs_ := temp_coeffs |> <| ratio_coeffs_ := ratio_coeffs |>
                <| severity_coeffs_ := severity_coeffs |> <| trimmed_ratio_coeffs_ := trimmed_ratio_coeffs |>
                <| ma_coefficient_ := ma_coeff |> <| ma_enabled_ := match ma with FieldValue _ => true | _ => false end |>
                <| staleness_window_ms_ := staleness |> <| width_temperature_millic_per_step_ := width_temp |>
                <| width_performance_benefit_milli_per_step_ := width_perf |>)
  | _ => None
  end.

(** [contents]: what the stream delivered, [None] when it could not be read. *)
Definition loadFromFile (contents : option string) (m : ARXModel) : bool * ARXModel :=
  match contents ≫= (fun c => parseContent c m) with
  | None => (false, m <| coefficients_loaded_ := false |>)
  | Some m =>
      (true, m <| coefficients_loaded_ := true |> <| residual_valid_ := false |>
               <| required_history_ := Nat.max (Nat.max (Nat.max (Nat.max 1 (List.length (temperature_coeffs_ m)))
                    (List.length (ratio_coeffs_ m))) (List.length (severity_coeffs_ m))) (List.length (trimmed_ratio_coeffs_ m)) |>)
  end.

(** ** Prediction *)

(** [history[size - 1 - i]]; [None] is outside the history. *)
Definition sample_back (history : list TelemetrySample) (i : nat) : option TelemetrySample := rev history !! i.

(** [prediction += coeffs[i] * value(history[size - 1 - i])] for each [i]. *)
Fixpoint add_terms (history : list TelemetrySample) (value : TelemetrySample -> option double) (coeffs : list double) (i : nat)
    (prediction : double) : option double :=
  match coeffs with
  | [] => Some prediction
  | k :: coeffs =>
      x ← sample_back history i ≫= value;
      add_terms history value coeffs (S i) (fadd prediction (fmul k x))
  end.

Definition effective_ratio (s : TelemetrySample) : double :=
  if flt f64_zero (s_trimmed_ratio_milli s) then s_trimmed_ratio_milli s else s_ratio_milli s.

(** [None] is [*ok == false]. *)
Definition predict (m : ARXModel) (history : list TelemetrySample) : option double :=
  if negb (coefficients_loaded_ m) || Nat.ltb (List.length history) (required_history_ m) then None
  else
    p ← add_terms history (fun s => if s_temp_valid s then Some (s_temperature_millic s) else None) (temperature_coeffs_ m) 0 (bias_ m);
    p ← add_terms history (fun s => Some (effective_ratio s)) (ratio_coeffs_ m) 0 p;
    p ← add_terms history (fun s => Some (s_severity_milli s)) (severity_coeffs_ m) 0 p;
    p ← add_terms history (fun s => Some (s_trimmed_ratio_milli s)) (trimmed_ratio_coeffs_ m) 0 p;
    if Nat.eqb (List.length (temperature_coeffs_ m)) 0 || negb (isfinite p) then None
    else if ma_enabled_ m && residual_valid_ m then
      let p := fadd p (fmul (ma_coefficient_ m) (last_residual_ m)) in if isfinite p then Some p else None
    else Some p.

Definition updateResidual (residual : double) (m : ARXModel) : ARXModel :=
  if negb (isfinite residual) then m <| residual_valid_ := false |> <| last_residual_ := f64_zero |>
  else m <| last_residual_ := residual |> <| residual_valid_ := true |>.

Definition resetResidual (m : ARXModel) : ARXModel := m <| last_residual_ := f64_zero |> <| residual_valid_ := false |>.

(** ** Lemmas *)

Lemma array_entry_length s : (String.length (array_entry s).1 + String.length (array_entry s).2 = String.length s)%nat.
Proof.
  induction s as [|c s IH]; cbn [array_entry]; [done|]. destruct (_ || _); [done|].
  destruct (array_entry s) as [t r]. cbn in *. lia.
Qed.

Lemma skip_space_length s : (String.length (skip_space s) <= String.length s)%nat.
Proof. induction s as [|c s IH]; cbn; [done|]. destruct (isspace c); cbn; lia. Qed.

Lemma trim_nonempty_entry entry : trim_end (trim_start entry) <> "" -> (0 < String.length entry)%nat.
Proof. destruct entry; cbn; [done | lia]. Qed.

(** The fuel of the array loop is enough: more of it changes nothing. *)
Lemma array_loop_enough fuel s acc : (String.length s < fuel)%nat -> array_loop fuel s acc = array_loop (S fuel) s acc.
Proof.
  revert s acc. induction fuel as [|fuel IH]; intros s acc Hf; [lia|].
  remember (S fuel) as f1. rewrite Heqf1 at 1. cbn [array_loop]. subst f1. pose proof (skip_space_length s) as Hs.
  destruct (skip_space s) as [|c rest]; [done|]. destruct (Ascii.eqb c "]"); [done|].
  pose proof (array_entry_length (String c rest)) as He. destruct (array_entry (String c rest)) as [entry tail]. cbn [fst snd] in He.
  pose proof (trim_nonempty_entry entry) as Hn. destruct (trim_end (trim_start entry)) as [|a t]; [done|].
  specialize (Hn ltac:(done)). destruct (finite_number _); [|done]. apply IH.
  destruct tail as [|d tl]; cbn in *; [lia|]. destruct (Ascii.eqb d ","); cbn; lia.
Qed.

Definition all_finite (xs : list double) : Prop := Forall (fun x => isfinite x = true) xs.

Lemma finite_number_finite token x : finite_number token = Some x -> isfinite x = true.
Proof. unfold finite_number. cbv zeta. destruct (_ && _) eqn:E; [|done]. intros [= <-]. by apply andb_true_iff in E as [_ E]. Qed.

Lemma array_loop_finite fuel s acc xs : all_finite acc -> array_loop fuel s acc = Some xs -> all_finite xs.
Proof.
  revert s acc. induction fuel as [|fuel IH]; intros s acc Ha; cbn [array_loop]; [done|].
  destruct (skip_space s) as [|c rest]; [done|]. destruct (Ascii.eqb c "]"); [by intros [= <-]|].
  destruct (array_entry _) as [entry tail]. destruct (trim_end _) as [|a t]; [done|].
  destruct (finite_number _) as [x|] eqn:E; [|done]. apply IH. apply Forall_app. split; [done|].
  apply Forall_cons. split; [by eapply finite_number_finite | constructor].
Qed.

Lemma array_field_finite content key xs : parseDoubleArrayField content key = Some xs -> all_finite xs.
Proof.
  unfold parseDoubleArrayField. destruct (after _ content) as [r1|]; [|intros [= <-]; constructor].
  destruct (after "[" r1) as [r2|]; [|done]. apply array_loop_finite. constructor.
Qed.

Lemma double_field_finite content key req x : parseDoubleField content key req = FieldValue x -> isfinite x = true.
Proof.
  unfold parseDoubleField. destruct (after _ content) as [r1|]; [|by destruct req]. destruct (after ":" r1) as [r2|]; [|done].
  destruct (extractNumberToken _) as [|a t]; [done|]. destruct (finite_number _) eqn:E; [|done].
  intros [= <-]. by eapply finite_number_finite.
Qed.

(** Non-negative and finite. *)
Definition effect_ok (x : double) : Prop := isfinite x = true /\ flt x f64_zero = false.

Lemma width_effect_ok content key d x : effect_ok d -> width_effect content key d = Some x -> effect_ok x.
Proof.
  intros Hd. unfold width_effect. destruct (parseDoubleField content key false) as [| |y] eqn:E; [done | by intros [= <-]|].
  destruct (flt y f64_zero) eqn:Ey; [done|]. intros [= <-]. split; [by eapply double_field_finite | done].
Qed.

(** What loaded coefficients guarantee to the predictor and the controller. *)
Record arx_ok (m : ARXModel) : Prop := {
  ax_effects : effect_ok (width_temperature_millic_per_step_ m) /\ effect_ok (width_performance_benefit_milli_per_step_ m);
  ax_required : (1 <= required_history_ m)%nat;
  ax_loaded : coefficients_loaded_ m = true ->
    temperature_coeffs_ m <> [] /\ 1 <= staleness_window_ms_ m /\ isfinite (bias_ m) = true /\ isfinite (ma_coefficient_ m) = true /\
    Forall (fun cs => all_finite cs /\ (List.length cs <= required_history_ m)%nat)
      [temperature_coeffs_ m; ratio_coeffs_ m; severity_coeffs_ m; trimmed_ratio_coeffs_ m];
}.

Lemma new_arx_ok : arx_ok new_arx.
Proof. split; [by repeat split | cbn; lia | done]. Qed.

(** Reading succeeds only with finite, non-negative effects, at least one
    temperature coefficient and a positive window. *)
Record content_ok (m : ARXModel) : Prop := {
  co_effects : effect_ok (width_temperature_millic_per_step_ m) /\ effect_ok (width_performance_benefit_milli_per_step_ m);
  co_temp : temperature_coeffs_ m <> [];
  co_window : 1 <= staleness_window_ms_ m;
  co_scalars : isfinite (bias_ m) = true /\ isfinite (ma_coefficient_ m) = true;
  co_arrays : Forall all_finite [temperature_coeffs_ m; ratio_coeffs_ m; severity_coeffs_ m; trimmed_ratio_coeffs_ m];
}.

Lemma uint64_field_nonneg content key n : parseUint64Field content key false = FieldValue n -> 0 <= n.
Proof.
  unfold parseUint64Field. destruct (parseDoubleField _ _ _) as [| |x]; [done..|]. destruct (_ || _); [done|].
  intros [= <-]. apply u64_range.
Qed.

Lemma parse_content_ok content m m' : parseContent content m = Some m' -> content_ok m'.
Proof.
  unfold parseContent. destruct (parseDoubleField content "bias" true) as [| |bias] eqn:Eb; [done..|]. apply double_field_finite in Eb.
  destruct (parseDoubleArrayField content "ar_temperature") as [ts|] eqn:Et; [|done]. cbn [mbind option_bind].
  destruct (Nat.eqb_spec (List.length ts) 0) as [|Hts]; [done|].
  destruct (parseDoubleArrayField content "ratio") as [rs|] eqn:Er; [|done]. cbn [mbind option_bind].
  destruct (parseDoubleArrayField content "severity") as [ss|] eqn:Es; [|done]. cbn [mbind option_bind].
  destruct (parseDoubleArrayField content "trimmed_ratio") as [trs|] eqn:Etr; [|done]. cbn [mbind option_bind].
  destruct (field_or f64_zero (parseDoubleField content "ma" false)) as [ma|] eqn:Ema; [|done]. cbn [mbind option_bind].
  destruct (field_or 500 (parseUint64Field content "staleness_window_ms" false)) as [sw|] eqn:Esw; [|done]. cbn [mbind option_bind].
  destruct (width_effect content "width_temperature_millic_per_step" _) as [wt|] eqn:Ewt; [|done]. cbn [mbind option_bind].
  destruct (width_effect content "width_performance_benefit_milli_per_step" _) as [wp|] eqn:Ewp; [|done]. cbn [mbind option_bind].
  intros [= <-]. split; cbn.
  - split; [apply width_effect_ok in Ewt | apply width_effect_ok in Ewp]; done.
  - by destruct ts.
  - destruct (parseUint64Field content "staleness_window_ms" false) as [| |n] eqn:En; try done; injection Esw as <-; [done|].
    apply uint64_field_nonneg in En. destruct (n =? 0) eqn:E0; zbool; lia.
  - split; [done|]. destruct (parseDoubleField content "ma" false) as [| |x] eqn:Ex; [done | by injection Ema as <- |].
    injection Ema as <-. by eapply double_field_finite.
  - repeat (apply Forall_cons; split; [by eapply array_field_finite|]). constructor.
Qed.

Lemma load_ok contents m : arx_ok m -> arx_ok (loadFromFile contents m).2.
Proof.
  intros Hm. unfold loadFromFile. destruct (contents ≫= _) as [m'|] eqn:E; cbn [snd].
  - destruct contents as [c|]; [|done]. cbn in E. apply parse_content_ok in E as [E1 E2 E3 [E4 E5] E6]. split; cbn; [done | lia |].
    intros _. split_and!; try done. rewrite !Forall_cons in *. destruct E6 as (A & B & C & D & _). repeat split; try done; try lia; constructor.
  - destruct Hm as [H1 H2 H3]. split; done.
Qed.

(** ** Properties *)

(** A load is all or nothing: when it fails every coefficient keeps its value and
    the model only stops predicting; when it succeeds all coefficients are
    finite, there is a temperature coefficient, width effects are not negative,
    the window is positive and the history the model demands covers every
    coefficient it will index. *)
Theorem coefficient_load_is_transactional (contents : option string) (m : ARXModel) :
  arx_ok m ->
  let '(loaded, m') := loadFromFile contents m in
  arx_ok m' /\ coefficients_loaded_ m' = loaded /\ (loaded = false -> m' = m <| coefficients_loaded_ := false |>).
Proof.
  intros Hm. pose proof (load_ok contents m Hm) as H. unfold loadFromFile in *. destruct (contents ≫= _) as [m'|]; by split_and!.
Qed.

Definition sample_coefficients : string :=
  "{" ++ quoted "bias" ++ ": 1200.0, " ++ quoted "ar_temperature" ++ ": [0.75, 0.25 ], " ++ quoted "ratio" ++ ": [0.5]," ++
  quoted "staleness_window_ms" ++ ": 400 }".

Lemma coefficient_load_is_transactional_witness :
  let '(loaded, m') := loadFromFile (Some sample_coefficients) new_arx in
  loaded = true /\ arx_ok m' /\ required_history_ m' = 2%nat /\ staleness_window_ms_ m' = 400.
Proof.
  pose proof (coefficient_load_is_transactional (Some sample_coefficients) new_arx new_arx_ok) as H.
  destruct (loadFromFile (Some sample_coefficients) new_arx) as [loaded m'] eqn:E.
  assert (El : loaded = (loadFromFile (Some sample_coefficients) new_arx).1) by (by rewrite E).
  assert (Em : m' = (loadFromFile (Some sample_coefficients) new_arx).2) by (by rewrite E).
  split; [rewrite El; vm_compute; reflexivity|]. split; [apply H|]. rewrite Em. vm_compute. by split.
Defined.

Lemma sample_back_some history i : (i < List.length history)%nat -> exists s, sample_back history i = Some s.
Proof. intros H. apply lookup_lt_is_Some. by rewrite length_rev. Qed.

Lemma predict_finite m history p : predict m history = Some p -> isfinite p = true.
Proof.
  unfold predict. destruct (_ || _); [done|].
  repeat match goal with |- context [add_terms ?h ?f ?cs ?i ?x ≫= _] => destruct (add_terms h f cs i x) as [?|]; [cbn [mbind option_bind]|done] end.
  match goal with |- context [negb (isfinite ?p)] => destruct (isfinite p) eqn:Ep end; rewrite ?orb_true_r; [|done].
  destruct (_ || _); [done|]. destruct (_ && _); [|by intros [= <-]].
  cbv zeta. match goal with |- context [if isfinite ?q then _ else _] => destruct (isfinite q) eqn:Eq end; [by intros [= <-] | done].
Qed.

(** The model predicts from valid data only: a forecast is a finite number made
    with loaded coefficients and a history that reaches every sample the
    coefficients refer to, and no temperature it used was missing. *)
Theorem forecast_uses_only_valid_samples (m : ARXModel) (history : list TelemetrySample) (p : double) :
  arx_ok m -> predict m history = Some p ->
  isfinite p = true /\ coefficients_loaded_ m = true /\
  (forall cs i, In cs [temperature_coeffs_ m; ratio_coeffs_ m; severity_coeffs_ m; trimmed_ratio_coeffs_ m] ->
     (i < List.length cs)%nat -> exists s, sample_back history i = Some s) /\
  (forall i, (i < List.length (temperature_coeffs_ m))%nat -> exists s, sample_back history i = Some s /\ s_temp_valid s = true).
Proof.
  intros Hm Hp. split; [by eapply predict_finite|]. unfold predict in Hp.
  destruct (coefficients_loaded_ m) eqn:El; [|done]. cbn [negb orb] in Hp.
  destruct (Nat.ltb_spec (List.length history) (required_history_ m)); [done|].
  destruct (ax_loaded m Hm El) as (_ & _ & _ & _ & Hf). split; [done|]. split.
  - intros cs i Hin Hi. apply sample_back_some. rewrite List.Forall_forall in Hf. destruct (Hf cs Hin) as [_ Hl]. lia.
  - intros i Hi. destruct (add_terms history _ (temperature_coeffs_ m) 0 (bias_ m)) as [q|] eqn:Ea; [|done]. clear Hp.
    assert (Hg : forall cs k x y, add_terms history (fun s => if s_temp_valid s then Some (s_temperature_millic s) else None) cs k x = Some y ->
                 forall j, (j < List.length cs)%nat -> exists s, sample_back history (k + j) = Some s /\ s_temp_valid s = true).
    { clear. induction cs as [|c cs IH]; intros k x y H j Hj; cbn in Hj; [lia|]. cbn [add_terms] in H.
      destruct (sample_back history k) as [s|] eqn:Es; [|done]. cbn [mbind option_bind] in H.
      destruct (s_temp_valid s) eqn:Ev; [|done]. cbn [mbind option_bind] in H. destruct j as [|j].
      - exists s. by rewrite Nat.add_0_r.
      - destruct (IH (S k) _ y H j ltac:(lia)) as (s' & H1 & H2). exists s'. by replace (k + S j)%nat with (S k + j)%nat by lia. }
    by apply (Hg _ 0%nat _ _ Ea).
Qed.

Definition warm_sample (t : Z) : TelemetrySample :=
  mkTSample (f64_of_Z 1000) (f64_of_Z 1000) f64_zero (f64_of_Z t) true 0 0.

Lemma forecast_uses_only_valid_samples_witness :
  exists p, predict (loadFromFile (Some sample_coefficients) new_arx).2 [warm_sample 50000; warm_sample 52000] = Some p /\
    isfinite p = true /\ f64_trunc p = 53200.
Proof.
  eexists. split; [vm_compute; reflexivity|]. split; [|vm_compute; reflexivity].
  apply (forecast_uses_only_valid_samples (loadFromFile (Some sample_coefficients) new_arx).2 [warm_sample 50000; warm_sample 52000]);
    [apply load_ok, new_arx_ok | vm_compute; reflexivity].
Defined.
