(* ===== verification/Policy.v ===== *)
(** * Policy: the predictive controller

    The model-predictive controller ([src/src/policy/mpc_controller.cpp]) and the
    C interface the monitor calls ([src/src/policy/dispatcher_policy.cpp]).  Time
    comes from [Env]; the environment variable and files with coefficients, and
    the exceptions the C++ library may throw, from [PolicyEnv].  An exception may
    leave the controller object in any state: the environment says which.
    [qstate] is the process, the policy object (or null) and what was last
    published for diagnostics. *)
From S2P Require Import Prelude Float64 ConfigParser Config World Guard PerfMeasure Arx.
From Stdlib Require Import SpecFloat Ascii String.
#[local] Open Scope string_scope.
#[local] Open Scope Z_scope.

Definition kMinImprovement : double := f64_of_Z 1.
Definition kDefaultRatioTrendWeight : double := f64_ratio 1 4.
Definition kRatioViolationWeight : double := f64_of_Z 4.
Definition kRatioEfficiencyWeight : double := f64_ratio 1 20.
Definition kTemperatureWeight : double := f64_ratio 1 4.
Definition kStabilityMargin : double := f64_ratio 1 4.
Definition kHorizonDiscount : double := f64_ratio 9 10.
Definition kHardConstraintCost : double := f64_of_Z 1000000000.
Definition kDefaultStalenessWindow : Z := 500.
Definition f64_infinity : double := S754_infinity false.
Definition f64_one : double := f64_of_Z 1.

Definition TSD_METRIC_PREDICTIVE_FORECASTS : nat := 12.
Definition TSD_METRIC_PREDICTIVE_STALE_SAMPLES : nat := 13.
Definition TSD_METRIC_PREDICTIVE_RELOADS : nat := 14.
Definition TSD_METRIC_PREDICTIVE_RELOAD_ERRORS : nat := 15.
Definition TSD_METRIC_PREDICTIVE_ABS_ERROR_MILLIC : nat := 16.
Definition TSD_METRIC_PREDICTIVE_DECISIONS : nat := 17.

(** ** The controller *)

Record MPCController : Type := mkMpc {
  config_ : tsd_policy_config;
  history_ : list TelemetrySample;
  coeff_path_ : string;
  arx_model_ : ARXModel;
  staleness_window_ : Z;
  last_prediction_millic_ : double;
  last_prediction_valid_ : bool;
  history_limit_ : nat;
}.
#[export] Instance eta_mpc : Eta MPCController := fun c =>
  mkMpc (config_ c) (history_ c) (coeff_path_ c) (arx_model_ c) (staleness_window_ c) (last_prediction_millic_ c)
    (last_prediction_valid_ c) (history_limit_ c).

Class PolicyEnv : Type := mkPolicyEnv {
  pl_coeff_path : option string;              (** [TSD_PREDICTIVE_COEFF_PATH] *)
  pl_file : nat -> string -> option string;   (** text of a coefficient file *)
  pl_throw : nat -> option bool;              (** an exception, and whether it is [bad_alloc] *)
  pl_wreck : nat -> option MPCController;     (** the controller an exception leaves behind *)
}.

(** [std::max] and [std::fabs] *)
Definition fmax (a b : double) : double := if flt a b then b else a.
Definition fabs (x : double) : double :=
  match x with
  | S754_zero _ => S754_zero false
  | S754_infinity _ => S754_infinity false
  | S754_finite _ m e => S754_finite false m e
  | S754_nan => S754_nan
  end.

(** [std::pow(0.5, n)] *)
Definition half_power (n : nat) : double := f64_ratio 1 (Pos.pow 2 (Pos.of_nat n)).

Definition at_least_one (n : nat) : nat := Nat.max 1 n.

Definition runtimeTrendWeight (runtime : tsd_runtime_config) : double :=
  let alpha := predictive_alpha runtime in
  if negb (isfinite alpha) || flt alpha f64_zero || flt f64_one alpha then kDefaultRatioTrendWeight else alpha.

(** The last [n] samples, oldest first. *)
Definition last_samples (n : nat) (history : list TelemetrySample) : list TelemetrySample := skipn (List.length history - n)%nat history.

Definition computeForecastRatio (c : MPCController) (horizon : nat) : double :=
  if Nat.eqb (List.length (history_ c)) 0 || Nat.eqb horizon 0 then f64_zero
  else
    let count := Nat.min (List.length (history_ c)) horizon in
    let sum := fold_left (fun sum s => fadd sum (effective_ratio s)) (last_samples count (history_ c)) f64_zero in
    fdiv sum (f64_of_Z (Z.of_nat count)).

(** The forecast, the number of valid samples, and whether the model was used. *)
Definition computeForecastTemperature (c : MPCController) (horizon : nat) : double * nat * bool :=
  if Nat.eqb (List.length (history_ c)) 0 || Nat.eqb horizon 0 then (f64_zero, 0%nat, false)
  else
    match (if coefficients_loaded_ (arx_model_ c) then predict (arx_model_ c) (history_ c) else None) with
    | Some prediction =>
        (match last (history_ c) with
         | Some latest => if s_temp_valid latest then fmax prediction (s_temperature_millic latest) else prediction
         | None => prediction
         end, 1%nat, true)
    | None =>
        let window := last_samples (Nat.min (List.length (history_ c)) horizon) (history_ c) in
        let valid := filter (fun s => s_temp_valid s = true) window in
        let sum := fold_left (fun sum s => fadd sum (s_temperature_millic s)) valid f64_zero in
        (if Nat.eqb (List.length valid) 0 then f64_zero else fdiv sum (f64_of_Z (Z.of_nat (List.length valid))),
         List.length valid, false)
    end.

(** What one step of the rollout adds. *)
Definition step_cost (runtime : tsd_runtime_config) (c : MPCController) (candidate : simd_width_t) (control_step : Z)
    (forecast_ratio ratio_trend forecast_temp : double) (step : nat) : double :=
  let ratio_benefit := width_performance_benefit_milli_per_step_ (arx_model_ c) in
  let temp_effect := width_temperature_millic_per_step_ (arx_model_ c) in
  let hard_limit_valid := (predictive_temp_ceiling_c runtime >=? 20) && (predictive_temp_ceiling_c runtime <=? 125) in
  let hard_limit := if hard_limit_valid then fmul (f64_of_Z (predictive_temp_ceiling_c runtime)) f64_thousand else S754_infinity true in
  let response := fsub f64_one (half_power step) in
  let ratio_projection := fadd forecast_ratio (fmul (fmul ratio_trend (runtimeTrendWeight runtime)) (f64_of_Z (Z.of_nat step))) in
  let ratio_projection := fsub ratio_projection (fmul (fmul (f64_of_Z control_step) ratio_benefit) response) in
  let ratio_projection := if flt ratio_projection f64_zero then f64_zero else ratio_projection in
  let ratio_excess := fmax f64_zero (fsub ratio_projection (f64_of_Z (slo_ratio_milli (config_ c)))) in
  let ratio_cost := fadd (fmul ratio_excess kRatioViolationWeight) (fmul ratio_projection kRatioEfficiencyWeight) in
  let temp_cost :=
    if isfinite forecast_temp then
      let temp_projection := fadd forecast_temp (fmul (fmul (f64_of_Z control_step) temp_effect) response) in
      let temp_cost :=
        if slo_temp_millic (config_ c) <>? 0 then
          let excess := fsub temp_projection (f64_of_Z (slo_temp_millic (config_ c))) in
          if flt f64_zero excess then fadd f64_zero (fmul excess kTemperatureWeight) else f64_zero
        else f64_zero in
      if negb hard_limit_valid && (candidate >? SIMD_SSE41) then fadd temp_cost kHardConstraintCost
      else if hard_limit_valid && flt hard_limit temp_projection
      then fadd temp_cost (fadd kHardConstraintCost (fsub temp_projection hard_limit))
      else temp_cost
    else if negb hard_limit_valid && (candidate >? SIMD_SSE41) then fadd f64_zero kHardConstraintCost
    else f64_zero in
  fadd ratio_cost temp_cost.

Definition scoreWidth (runtime : tsd_runtime_config) (c : MPCController) (candidate current : simd_width_t) (horizon : nat)
    (forecast_ratio ratio_trend forecast_temp : double) : double :=
  let control_step := candidate - current in
  let '(cost, _) :=
    fold_left (fun '(cost, discount) step =>
      (fadd cost (fmul discount (step_cost runtime c candidate control_step forecast_ratio ratio_trend forecast_temp step)),
       fmul discount kHorizonDiscount))
      (seq 1 (at_least_one horizon)) (f64_zero, f64_one) in
  if candidate =? current then cost
  else
    let base_penalty := f64_of_Z (if candidate <? current then transition_penalty_down_milli (config_ c)
                                  else transition_penalty_up_milli (config_ c)) in
    fadd cost (fmul base_penalty (f64_of_Z (Z.abs control_step))).

(** One call of the lambda [evaluate_width]. *)
Definition evaluate_width (score : simd_width_t -> double) (max_width : simd_width_t) (best : double * simd_width_t) (candidate : simd_width_t) :
    double * simd_width_t :=
  if candidate >? max_width then best
  else
    let candidate_cost := score candidate in
    if flt (fadd candidate_cost kStabilityMargin) best.1 then (candidate_cost, candidate) else best.

(** The width with the least cost by the margin, and the decision to change. *)
Definition choose_width (score : simd_width_t -> double) (current_width max_width : simd_width_t) : option simd_width_t :=
  let '(best_cost, best_width) :=
    fold_left (evaluate_width score max_width) [current_width; SIMD_SSE41; SIMD_AVX2; SIMD_AVX512] (f64_infinity, current_width) in
  if best_width =? current_width then None
  else if flt (fsub (score current_width) best_cost) kMinImprovement then None
  else Some best_width.

Section controller.
Context `{EV : Env, PL : PolicyEnv}.

Definition resolveCoefficientPath : M string :=
  runtime <- tsd_runtime_config_active_snapshot ;;
  ret (match pl_coeff_path with
       | Some (String a b) => String a b
       | _ => if is_empty (predictive_coeff_path runtime) then "config/controller_coeffs.json" else predictive_coeff_path runtime
       end).

(** [static_cast<long long>] of an unsigned 64-bit value. *)
Definition i64 (z : Z) : Z := if z >? LONG_MAX then z - 18446744073709551616 else z.

Definition loadCoefficients (c : MPCController) : M (bool * MPCController) :=
  contents <- ext (fun n => pl_file n (coeff_path_ c)) ;;
  let '(ok, arx) := loadFromFile contents (arx_model_ c) in
  let horizon := Z.to_nat (forecast_horizon (config_ c)) in
  if negb ok then
    tsd_metrics_increment TSD_METRIC_PREDICTIVE_RELOAD_ERRORS ;;;
    ret (false, c <| arx_model_ := arx |> <| staleness_window_ := kDefaultStalenessWindow |> <| history_limit_ := at_least_one horizon |>)
  else
    let window_ms := i64 (staleness_window_ms_ arx) in
    let window_ms := if window_ms <=? 0 then kDefaultStalenessWindow else window_ms in
    tsd_metrics_increment TSD_METRIC_PREDICTIVE_RELOADS ;;;
    ret (true, c <| arx_model_ := resetResidual arx |> <| staleness_window_ := window_ms |>
                 <| history_limit_ := Nat.max (at_least_one horizon) (required_history_ arx) |>).

Definition mpc_reset (config : tsd_policy_config) (c : MPCController) : M MPCController :=
  path <- resolveCoefficientPath ;;
  let c := c <| config_ := config |> <| history_ := [] |> <| arx_model_ ::= resetResidual |>
             <| staleness_window_ := kDefaultStalenessWindow |> <| last_prediction_millic_ := f64_zero |>
             <| last_prediction_valid_ := false |> <| history_limit_ := at_least_one (Z.to_nat (forecast_horizon config)) |>
             <| coeff_path_ := path |> in
  let* (_, c) := loadCoefficients c in
  ret c.

(** [std::make_unique<MPCController>(config)] *)
Definition new_controller (config : tsd_policy_config) : M MPCController :=
  mpc_reset config (mkMpc config [] "" new_arx 0 f64_zero false 0).

Definition reloadCoefficients (c : MPCController) : M (bool * MPCController) :=
  path <- resolveCoefficientPath ;; loadCoefficients (c <| coeff_path_ := path |>).

Definition historyLimit (c : MPCController) : nat :=
  if Nat.eqb (history_limit_ c) 0 then at_least_one (Z.to_nat (forecast_horizon (config_ c))) else history_limit_ c.

Definition pushSample (sample : tsd_thermal_eval_t) (width : simd_width_t) (c : MPCController) : M MPCController :=
  let t := ev_telemetry sample in
  let control_temp_valid := ts_filtered_temp_available t || ts_temp_available t in
  let control_temp := f64_of_Z (if ts_filtered_temp_available t then ts_filtered_package_temp_millic t else ts_package_temp_millic t) in
  c <- (if last_prediction_valid_ c && control_temp_valid then
          let residual := fsub control_temp (last_prediction_millic_ c) in
          tsd_metrics_add TSD_METRIC_PREDICTIVE_ABS_ERROR_MILLIC (f64_to_u64 (fadd (fabs residual) f64_half)) ;;;
          ret (c <| arx_model_ ::= updateResidual residual |>)
        else ret c) ;;
  now <- ext env_steady ;;
  let entry := mkTSample (f64_of_Z (ev_ratio_milli sample)) (f64_of_Z (ev_trimmed_ratio_milli sample)) (f64_of_Z (ev_severity_milli sample))
                 control_temp control_temp_valid width now in
  let history := (history_ c ++ [entry])%list in
  ret (c <| last_prediction_valid_ := false |> <| history_ := skipn (List.length history - historyLimit c)%nat history |>).

(** [None] is [false]. *)
Definition mpc_recommend (current_width max_width : simd_width_t) (c : MPCController) : M (option simd_width_t * MPCController) :=
  let horizon := Nat.min (List.length (history_ c)) (Z.to_nat (forecast_horizon (config_ c))) in
  match last (history_ c) with
  | None => ret (None, c)
  | Some latest =>
      if Nat.eqb horizon 0 then ret (None, c)
      else
        now <- ext env_steady ;;
        if Z.quot (now - s_timestamp latest) 1000000 >? staleness_window_ c then
          tsd_metrics_increment TSD_METRIC_PREDICTIVE_STALE_SAMPLES ;;; ret (None, c)
        else
          let forecast_ratio := computeForecastRatio c horizon in
          let first_ratio := match last_samples horizon (history_ c) with s :: _ => s_ratio_milli s | [] => f64_zero end in
          let ratio_trend := if Nat.ltb 1 horizon then fdiv (fsub (s_ratio_milli latest) first_ratio) (f64_of_Z (Z.of_nat (horizon - 1)%nat))
                             else f64_zero in
          let '(forecast, valid_count, used_model) := computeForecastTemperature c horizon in
          when used_model (tsd_metrics_increment TSD_METRIC_PREDICTIVE_FORECASTS) ;;;
          let forecast_temp := if negb used_model && Nat.eqb valid_count 0 then S754_nan else forecast in
          let c := c <| last_prediction_millic_ := forecast_temp |> <| last_prediction_valid_ := used_model |> in
          runtime <- tsd_runtime_config_active_snapshot ;;
          match choose_width (fun candidate => scoreWidth runtime c candidate current_width horizon forecast_ratio ratio_trend forecast_temp)
                  current_width max_width with
          | None => ret (None, c)
          | Some target => tsd_metrics_increment TSD_METRIC_PREDICTIVE_DECISIONS ;;; ret (Some target, c)
          end
  end.
End controller.

(** ** The dispatcher policy *)

Record DispatcherPolicyState : Type := mkPolicyState {
  d_config : tsd_policy_config;
  d_fallback_active : bool;
  d_last_temp_available : bool;
  d_last_temp_millic : Z;
  d_have_sample : bool;
  d_temp_ceiling_c : Z;
  d_safety_margin_c : Z;
  d_emergency_margin_c : Z;
  d_controller : option MPCController;
}.
#[export] Instance eta_policy_state : Eta DispatcherPolicyState := fun s =>
  mkPolicyState (d_config s) (d_fallback_active s) (d_last_temp_available s) (d_last_temp_millic s) (d_have_sample s)
    (d_temp_ceiling_c s) (d_safety_margin_c s) (d_emergency_margin_c s) (d_controller s).

Definition new_policy_state : DispatcherPolicyState := mkPolicyState (mkPolicyConfig 0 0 0 0 0) false false 0 false 0 0 0 None.

(** [tsd_controller_telemetry_t] *)
Record tsd_controller_telemetry_t : Type := mkTelemetryOut {
  c_fallback_active : bool; c_current_width : simd_width_t; c_recommended_width : simd_width_t; c_issued_change : bool }.

Record qstate : Type := mkQstate {
  q_world : world;
  q_policy : option DispatcherPolicyState;       (** the object behind the handle, [None] for null *)
  q_published : option tsd_controller_telemetry_t;
}.
#[export] Instance eta_qstate : Eta qstate := fun s => mkQstate (q_world s) (q_policy s) (q_published s).

Abbreviation QM := (ST qstate).

Definition from_world {A} (m : M A) : QM A := fun s => let '(a, w) := m (q_world s) in (a, s <| q_world := w |>).
Definition put_policy (d : DispatcherPolicyState) : QM unit := modify (fun s => s <| q_policy := Some d |>).

Definition publish_state (d : DispatcherPolicyState) (current recommended : simd_width_t) (changed : bool) : QM unit :=
  modify (fun s => s <| q_published := Some (mkTelemetryOut (d_fallback_active d) current recommended changed) |>).

(** [current > SIMD_SSE41 ? SIMD_SSE41 : current] *)
Definition fallback_target (current : simd_width_t) : simd_width_t := if current >? SIMD_SSE41 then SIMD_SSE41 else current.

Definition enter_fail_closed (d : DispatcherPolicyState) (current : simd_width_t) (error_code : Z) : QM unit :=
  from_world (set_errno error_code) ;;;
  let d := d <| d_fallback_active := true |> in
  put_policy d ;;;
  publish_state d current (fallback_target current) (fallback_target current <>? current).

Definition snapshot_runtime_limits (d : DispatcherPolicyState) : QM DispatcherPolicyState :=
  runtime <- from_world tsd_runtime_config_active_snapshot ;;
  ret (d <| d_temp_ceiling_c := predictive_temp_ceiling_c runtime |> <| d_safety_margin_c := predictive_safety_margin_c runtime |>
         <| d_emergency_margin_c := predictive_emergency_margin_c runtime |>).

Definition policy_limits_valid (d : DispatcherPolicyState) : bool :=
  (d_temp_ceiling_c d >=? 20) && (d_temp_ceiling_c d <=? 125) && (d_safety_margin_c d >=? 0) && (d_safety_margin_c d <=? 60) &&
  (d_emergency_margin_c d >=? 0) && (d_emergency_margin_c d <=? 60).

(** [INT64_MIN] *)
Definition upgrade_temperature_limit_millic (d : DispatcherPolicyState) : Z :=
  if negb (policy_limits_valid d) then LONG_MIN else (d_temp_ceiling_c d - d_safety_margin_c d) * 1000.
Definition emergency_temperature_limit_millic (d : DispatcherPolicyState) : Z :=
  if negb (policy_limits_valid d) then LONG_MIN else (d_temp_ceiling_c d + d_emergency_margin_c d) * 1000.

Section dispatcher.
Context `{EV : Env, PL : PolicyEnv}.

(** The errno of the handler that catches. *)
Definition caught (bad_alloc : bool) : Z := if bad_alloc then ENOMEM else EIO.

(** Whether the library throws before the next call on the controller completes;
    if it does, the controller is whatever the environment says. *)
Definition attempt (d : DispatcherPolicyState) : QM (option Z * DispatcherPolicyState) :=
  thrown <- from_world (ext pl_throw) ;;
  match thrown with
  | None => ret (None, d)
  | Some bad_alloc => wreck <- from_world (ext pl_wreck) ;; ret (Some (caught bad_alloc), d <| d_controller := wreck |>)
  end.

(** [if (!state->controller) state->controller = std::make_unique...] *)
Definition ensure_controller (d : DispatcherPolicyState) : QM MPCController :=
  match d_controller d with Some c => ret c | None => from_world (new_controller (d_config d)) end.

(** The result is whether the handle is not null. *)
Definition tsd_dispatcher_policy_create (config : option tsd_policy_config) : QM bool :=
  let d := new_policy_state <| d_config := match config with Some c => c | None => tsd_policy_config_defaults end |> in
  d <- snapshot_runtime_limits d ;;
  let* (thrown, _) := attempt d in
  match thrown with
  | Some code => modify (fun s => s <| q_policy := None |>) ;;; from_world (set_errno code) ;;; ret false
  | None =>
      c <- from_world (new_controller (d_config d)) ;;
      let d := d <| d_controller := Some c |> <| d_fallback_active := false |> in
      put_policy d ;;;
      publish_state d SIMD_SSE41 SIMD_SSE41 false ;;;
      ret true
  end.

Definition tsd_dispatcher_policy_destroy : QM unit := modify (fun s => s <| q_policy := None |>).

Definition tsd_dispatcher_policy_reset (config : option tsd_policy_config) : QM unit :=
  opaque <- gets q_policy ;;
  match opaque with
  | None => ret tt
  | Some d =>
      let d := match config with Some c => d <| d_config := c |> | None => d end in
      d <- snapshot_runtime_limits d ;;
      let* (thrown, d) := attempt d in
      match thrown with
      | Some code => enter_fail_closed d SIMD_SSE41 code
      | None =>
          c <- ensure_controller d ;;
          c <- from_world (mpc_reset (d_config d) c) ;;
          let d := d <| d_controller := Some c |> <| d_fallback_active := false |> <| d_last_temp_available := false |>
                     <| d_last_temp_millic := 0 |> <| d_have_sample := false |> in
          put_policy d ;;;
          publish_state d SIMD_SSE41 SIMD_SSE41 false
      end
  end.

Definition tsd_dispatcher_policy_record (sample : option tsd_thermal_eval_t) (width : simd_width_t) : QM unit :=
  opaque <- gets q_policy ;;
  match opaque, sample with
  | Some d, Some sample =>
      let d := d <| d_last_temp_available := ts_temp_available (ev_telemetry sample) |>
                 <| d_last_temp_millic := ts_package_temp_millic (ev_telemetry sample) |> <| d_have_sample := true |> in
      let* (thrown, d) := attempt d in
      match thrown with
      | Some code => enter_fail_closed d width code
      | None =>
          c <- ensure_controller d ;;
          c <- from_world (pushSample sample width c) ;;
          let d := d <| d_controller := Some c |> in
          put_policy d ;;;
          publish_state d width width false
      end
  | _, _ => ret tt
  end.

(** The result, [*out_width] and [*fallback_active]. *)
Definition tsd_dispatcher_policy_recommend (current_width max_width : simd_width_t) : QM (Z * simd_width_t * bool) :=
  opaque <- gets q_policy ;;
  match opaque with
  | None => ret (0, current_width, false)
  | Some d =>
      let target := fallback_target current_width in
      if d_fallback_active d then
        publish_state d current_width target (target <>? current_width) ;;;
        ret (if target <>? current_width then 1 else 0, target, true)
      else if d_have_sample d && d_last_temp_available d && (current_width >? SIMD_SSE41) &&
              (d_last_temp_millic d >=? emergency_temperature_limit_millic d) then
        publish_state d current_width SIMD_SSE41 true ;;;
        ret (1, SIMD_SSE41, false)
      else
        let* (thrown, d) := attempt d in
        match thrown with
        | Some code =>
            enter_fail_closed d current_width code ;;;
            ret (if target <>? current_width then 1 else 0, target, true)
        | None =>
            c <- ensure_controller d ;;
            let* (changed, c) := from_world (mpc_recommend current_width max_width c) in
            let d := d <| d_controller := Some c |> in
            put_policy d ;;;
            match changed with
            | None => publish_state d current_width current_width false ;;; ret (0, current_width, false)
            | Some target =>
                if (target >? current_width) &&
                   (negb (d_have_sample d) || negb (d_last_temp_available d) ||
                    (d_last_temp_millic d >? upgrade_temperature_limit_millic d)) then
                  publish_state d current_width current_width false ;;; ret (0, current_width, false)
                else publish_state d current_width target true ;;; ret (1, target, false)
            end
        end
  end.

Definition tsd_dispatcher_policy_force_fallback : QM unit :=
  opaque <- gets q_policy ;;
  match opaque with
  | None => ret tt
  | Some d => let d := d <| d_fallback_active := true |> in put_policy d ;;; publish_state d SIMD_SSE41 SIMD_SSE41 false
  end.

Definition tsd_dispatcher_policy_heartbeat (current_width : simd_width_t) : QM unit :=
  opaque <- gets q_policy ;;
  match opaque with None => ret tt | Some d => publish_state d current_width current_width false end.

Definition tsd_dispatcher_policy_reload : QM Z :=
  opaque <- gets q_policy ;;
  match opaque with
  | None => from_world (fail EINVAL)
  | Some d =>
      let* (thrown, d) := attempt d in
      match thrown with
      | Some code => enter_fail_closed d SIMD_SSE41 code ;;; ret (-1)
      | None =>
          c <- ensure_controller d ;;
          let* (ok, c) := from_world (reloadCoefficients c) in
          put_policy (d <| d_controller := Some c |>) ;;;
          if negb ok then from_world (fail EIO) else ret 0
      end
  end.
End dispatcher.

(** ** The choice of a width *)

Section choice.
Context (score : simd_width_t -> double) (current_width max_width : simd_width_t).

(** The running best is the current width or a candidate within the limit, with
    its own cost. *)
Definition best_ok (best : double * simd_width_t) : Prop :=
  best = (f64_infinity, current_width) \/ (best.1 = score best.2 /\ best.2 <= max_width).

Lemma evaluate_widths_ok candidates best :
  best_ok best -> In best.2 (current_width :: candidates) ->
  let r := fold_left (evaluate_width score max_width) candidates best in best_ok r /\ In r.2 (current_width :: candidates).
Proof.
  cbv zeta. revert best. assert (H : forall cs best, best_ok best -> best_ok (fold_left (evaluate_width score max_width) cs best) /\
    (In (fold_left (evaluate_width score max_width) cs best).2 (best.2 :: cs))).
  { intros cs. induction cs as [|c cs IH]; intros best Hb; cbn [fold_left]; [by split; [|left]|].
    assert (Hs : best_ok (evaluate_width score max_width best c) /\ In (evaluate_width score max_width best c).2 [best.2; c]).
    { unfold evaluate_width. rewrite Z.gtb_ltb. destruct (max_width <? c) eqn:E; [by split; [|left]|]. cbv zeta. destruct (flt _ _); [|by split; [|left]].
      split; [right; zbool; cbn; split; [done | lia] | right; by left]. }
    destruct Hs as [H1 H2]. destruct (IH _ H1) as [H3 H4]. split; [done|].
    cbn in H2, H4 |- *. intuition congruence. }
  intros best Hb Hin. destruct (H candidates best Hb) as [H1 H2]. split; [done|].
  cbn in Hin, H2 |- *. intuition congruence.
Qed.

Lemma choose_width_ok target :
  choose_width score current_width max_width = Some target ->
  target <> current_width /\ target <= max_width /\ In target [SIMD_SSE41; SIMD_AVX2; SIMD_AVX512] /\
  flt (fsub (score current_width) (score target)) kMinImprovement = false.
Proof.
  unfold choose_width. intros H.
  pose proof (evaluate_widths_ok [current_width; SIMD_SSE41; SIMD_AVX2; SIMD_AVX512] (f64_infinity, current_width)
                (or_introl eq_refl) (or_introl eq_refl)) as Hb. cbv zeta in Hb.
  destruct (fold_left _ _ _) as [cost width]. cbn [fst snd] in Hb. destruct (width =? current_width) eqn:E; [done|]. zbool.
  destruct (flt (fsub _ _) _) eqn:Ef; [done|]. injection H as <-. destruct Hb as [[Hb|[Hc Hm]] Hin]; [congruence|].
  cbn [fst snd] in Hc, Hm. rewrite Hc in Ef. split_and!; try done. cbn in Hin |- *. intuition congruence.
Qed.
End choice.

Section controller_facts.
Context `{EV : Env, PL : PolicyEnv}.

(** The age of the newest sample, in milliseconds, at the next clock reading. *)
Definition sample_age (c : MPCController) (w : world) : Z :=
  match last (history_ c) with Some s => Z.quot (env_steady (w_calls w) - s_timestamp s) 1000000 | None => 0 end.

Lemma mpc_recommend_ok cur max c w target c' w' :
  mpc_recommend cur max c w = (Some target, c', w') ->
  target <> cur /\ target <= max /\ In target [SIMD_SSE41; SIMD_AVX2; SIMD_AVX512] /\
  history_ c <> [] /\ forecast_horizon (config_ c) > 0 /\ sample_age c w <= staleness_window_ c.
Proof.
  unfold mpc_recommend, sample_age. destruct (last (history_ c)) as [latest|] eqn:El; [|done].
  assert (Hne : history_ c <> []) by (intros E; by rewrite E in El).
  destruct (Nat.eqb_spec (Nat.min (List.length (history_ c)) (Z.to_nat (forecast_horizon (config_ c)))) 0); [done|].
  rewrite bind_run, ext_run. cbn [fst snd]. rewrite Z.gtb_ltb. destruct (staleness_window_ c <? _) eqn:Ea; [done|]. zbool.
  destruct (computeForecastTemperature c _) as [[forecast valid_count] used_model]. rewrite !bind_run. cbn [fst snd].
  destruct (choose_width _ cur max) as [t|] eqn:Ec; [|done]. rewrite bind_run. intros [= <- _ _].
  apply choose_width_ok in Ec as (H1 & H2 & H3 & _). split_and!; try done. lia.
Qed.
End controller_facts.

(** ** Properties *)

Inductive policy_op : Type :=
  | OpRecord (sample : option tsd_thermal_eval_t) (width : simd_width_t)
  | OpRecommend (current_width max_width : simd_width_t)
  | OpForceFallback
  | OpHeartbeat (current_width : simd_width_t)
  | OpReload.

Section properties.
Context `{EV : Env, PL : PolicyEnv}.

(** A call that is neither a creation, a reset nor a destruction. *)
Definition run_policy_op (op : policy_op) : QM unit :=
  match op with
  | OpRecord sample width => tsd_dispatcher_policy_record sample width
  | OpRecommend current_width max_width => tsd_dispatcher_policy_recommend current_width max_width ;;; ret tt
  | OpForceFallback => tsd_dispatcher_policy_force_fallback
  | OpHeartbeat current_width => tsd_dispatcher_policy_heartbeat current_width
  | OpReload => tsd_dispatcher_policy_reload ;;; ret tt
  end.

Fixpoint run_policy_ops (ops : list policy_op) : QM unit :=
  match ops with [] => ret tt | op :: ops => run_policy_op op ;;; run_policy_ops ops end.

Definition in_fallback (s : qstate) : Prop := exists d, q_policy s = Some d /\ d_fallback_active d = true.

Abbreviation policy_kept := (respects (fun s s' : qstate => q_policy s = q_policy s')).

Lemma from_world_kept {A} (m : M A) : policy_kept (from_world m).
Proof. intros s. unfold from_world. by destruct (m (q_world s)). Qed.
Lemma publish_kept d c r b : policy_kept (publish_state d c r b).
Proof. intros s. done. Qed.

(** Whatever was just written keeps the fallback flag of [d]. *)
Lemma wp_kept {A} (m : QM A) Q s : policy_kept m -> (forall a s', q_policy s = q_policy s' -> Q a s') -> wp m Q s.
Proof. intros Hm HQ. apply HQ, Hm. Qed.

Lemma fail_closed_fallback d cur code s : wp (enter_fail_closed d cur code) (fun _ s' => in_fallback s') s.
Proof.
  unfold enter_fail_closed. apply wp_bind. apply wp_kept; [apply from_world_kept|]. intros _ s1 _.
  apply wp_bind, wp_modify. by eexists.
Qed.

Lemma attempt_flag d s : wp (attempt d) (fun r s' => q_policy s = q_policy s' /\ d_fallback_active r.2 = d_fallback_active d) s.
Proof.
  unfold attempt. apply wp_bind. apply wp_kept; [apply from_world_kept|]. intros [b|] s1 E1; [|by apply wp_ret].
  apply wp_bind. apply wp_kept; [apply from_world_kept|]. intros wreck s2 E2. apply wp_ret. split; [congruence | done].
Qed.

Lemma ensure_kept d : policy_kept (ensure_controller d).
Proof. unfold ensure_controller. destruct (d_controller d); [apply respects_ret; exact _ | apply from_world_kept]. Qed.

(** A call that may throw: on an exception it fails closed, otherwise it
    continues with the same flag. *)
Lemma attempt_cases {A} d (on_throw : Z -> DispatcherPolicyState -> QM A) (go_on : DispatcherPolicyState -> QM A) Q s :
  (forall code d' s', wp (on_throw code d') Q s') ->
  (forall d' s', d_fallback_active d' = d_fallback_active d -> wp (go_on d') Q s') ->
  wp (let* (thrown, d) := attempt d in match thrown with Some code => on_throw code d | None => go_on d end) Q s.
Proof.
  intros H1 H2. apply wp_bind. eapply wp_mono; [apply attempt_flag|]. intros [[code|] d'] s' [_ Hd]; [apply H1 | by apply H2].
Qed.

Lemma in_fallback_kept {A} (m : QM A) s : policy_kept m -> in_fallback s -> wp m (fun _ s' => in_fallback s') s.
Proof. intros Hm (d & Hd & Hf). apply wp_kept; [done|]. intros a s' E. exists d. by rewrite <- E. Qed.

Lemma op_keeps_fallback op s : in_fallback s -> wp (run_policy_op op) (fun _ s' => in_fallback s') s.
Proof.
  intros Hs. pose proof Hs as (d & Hd & Hf). destruct op as [[sample|] width|cur max| |cur|]; cbn [run_policy_op].
  - unfold tsd_dispatcher_policy_record. apply wp_bind, wp_gets. rewrite Hd. apply attempt_cases; [intros; apply fail_closed_fallback|].
    intros d' s' Hd'. apply wp_bind. apply wp_kept; [apply ensure_kept|]. intros c s1 _. apply wp_bind. apply wp_kept; [apply from_world_kept|].
    intros c' s2 _. apply wp_bind, wp_modify. eexists. split; [done|]. cbn. by rewrite Hd'.
  - unfold tsd_dispatcher_policy_record. apply wp_bind, wp_gets. rewrite Hd. by apply wp_ret.
  - apply wp_bind. unfold tsd_dispatcher_policy_recommend. apply wp_bind, wp_gets. rewrite Hd, Hf. apply wp_bind, wp_modify, wp_ret, wp_ret. by exists d.
  - unfold tsd_dispatcher_policy_force_fallback. apply wp_bind, wp_gets. rewrite Hd. apply wp_bind, wp_modify. by eexists.
  - unfold tsd_dispatcher_policy_heartbeat. apply wp_bind, wp_gets. rewrite Hd. by exists d.
  - apply wp_bind. unfold tsd_dispatcher_policy_reload. apply wp_bind, wp_gets. rewrite Hd.
    apply (wp_mono _ (fun _ s' => in_fallback s')); [|intros a s' H; by apply wp_ret].
    apply attempt_cases; [intros; apply wp_bind; eapply wp_mono; [apply fail_closed_fallback|]; intros ? s1 H1; by apply wp_ret|].
    intros d' s' Hd'. apply wp_bind. apply wp_kept; [apply ensure_kept|]. intros c s1 _. apply wp_bind. apply wp_kept; [apply from_world_kept|].
    intros [ok c'] s2 _. apply wp_bind, wp_modify.
    assert (Hi : in_fallback (s2 <| q_policy := Some (d' <| d_controller := Some c' |>) |>)) by (eexists; split; [done|]; cbn; by rewrite Hd').
    destruct (negb ok); [apply in_fallback_kept; [apply from_world_kept | done] | by apply wp_ret].
Qed.

Lemma ops_keep_fallback ops s : in_fallback s -> wp (run_policy_ops ops) (fun _ s' => in_fallback s') s.
Proof.
  revert s. induction ops as [|op ops IH]; intros s Hs; cbn [run_policy_ops]; [by apply wp_ret|].
  apply wp_bind. eapply wp_mono; [by apply op_keeps_fallback|]. intros ? s' H'. by apply IH.
Qed.

(** Whether the emergency branch of a recommendation is taken. *)
Definition emergency (d : DispatcherPolicyState) (current_width : simd_width_t) : bool :=
  d_have_sample d && d_last_temp_available d && (current_width >? SIMD_SSE41) && (d_last_temp_millic d >=? emergency_temperature_limit_millic d).

(** The calls that reach the controller, and with it code that may throw. *)
Definition reaches_controller (op : policy_op) (d : DispatcherPolicyState) : bool :=
  match op with
  | OpRecord (Some _) _ | OpReload => true
  | OpRecommend current_width _ => negb (d_fallback_active d) && negb (emergency d current_width)
  | _ => false
  end.

Lemma attempt_throws d s b :
  pl_throw (w_calls (q_world s)) = Some b -> exists w d', attempt d s = (Some (caught b), d', s <| q_world := w |>).
Proof.
  intros Hb. unfold attempt. rewrite bind_run. unfold from_world at 1 2. rewrite ext_run. cbn [fst snd]. rewrite Hb.
  rewrite bind_run. unfold from_world. rewrite ext_run. cbn. by eexists _, _.
Qed.

(** An attempt that throws ends in the handler. *)
Lemma thrown_cases {A} d b (on_throw : Z -> DispatcherPolicyState -> QM A) (go_on : DispatcherPolicyState -> QM A) Q s :
  pl_throw (w_calls (q_world s)) = Some b -> (forall code d' s', wp (on_throw code d') Q s') ->
  wp (let* (thrown, d) := attempt d in match thrown with Some code => on_throw code d | None => go_on d end) Q s.
Proof. intros Hb H. apply wp_bind. unfold wp at 1. destruct (attempt_throws d s b Hb) as (w & d' & ->). apply H. Qed.

(** Every exception that the C++ library throws inside a policy call is caught
    and puts the policy into fallback. *)
Theorem exceptions_fail_closed (op : policy_op) (s : qstate) (d : DispatcherPolicyState) (bad_alloc : bool) :
  q_policy s = Some d -> reaches_controller op d = true -> pl_throw (w_calls (q_world s)) = Some bad_alloc ->
  in_fallback (exec (run_policy_op op) s).
Proof.
  intros Hd Hr Hb. change (wp (run_policy_op op) (fun _ s' => in_fallback s') s).
  destruct op as [[sample|] width|cur max| |cur|]; try done; cbn [run_policy_op reaches_controller] in *.
  - unfold tsd_dispatcher_policy_record. apply wp_bind, wp_gets. rewrite Hd. eapply thrown_cases; [exact Hb|]. intros. apply fail_closed_fallback.
  - apply wp_bind. unfold tsd_dispatcher_policy_recommend. apply wp_bind, wp_gets. rewrite Hd. apply andb_true_iff in Hr as [Hf He].
    apply negb_true_iff in Hf, He. unfold emergency in He. rewrite Hf, He. eapply thrown_cases; [exact Hb|].
    intros code d' s'. apply wp_bind. eapply wp_mono; [apply fail_closed_fallback|]. intros ? s1 H1. by apply wp_ret, wp_ret.
  - apply wp_bind. unfold tsd_dispatcher_policy_reload. apply wp_bind, wp_gets. rewrite Hd. eapply thrown_cases; [exact Hb|].
    intros code d' s'. apply wp_bind. eapply wp_mono; [apply fail_closed_fallback|]. intros ? s1 H1. by apply wp_ret, wp_ret.
Qed.

(** Once in fallback the policy stays there whatever is recorded, reloaded or
    thrown, until it is reset, and every recommendation in between is SSE4.1. *)
Theorem fallback_is_sticky (ops : list policy_op) (current_width max_width : simd_width_t) (s : qstate) :
  in_fallback s -> SIMD_SSE41 <= current_width ->
  let s' := exec (run_policy_ops ops) s in
  in_fallback s' /\
  result (tsd_dispatcher_policy_recommend current_width max_width) s' =
    (if current_width =? SIMD_SSE41 then 0 else 1, SIMD_SSE41, true).
Proof.
  intros Hs Hc. cbv zeta. pose proof (ops_keep_fallback ops s Hs) as H. change (in_fallback (exec (run_policy_ops ops) s)) in H.
  split; [exact H|]. destruct H as (d & Hd & Hf). unfold result, tsd_dispatcher_policy_recommend. rewrite bind_run. cbn [gets fst snd].
  rewrite Hd, Hf. rewrite bind_run. cbn [publish_state modify ret fst snd]. unfold fallback_target, SIMD_SSE41 in *. rewrite Z.gtb_ltb.
  destruct (0 <? current_width) eqn:E; zbool.
  - rewrite (proj2 (Z.eqb_neq 0 current_width)), (proj2 (Z.eqb_neq current_width 0)) by lia. done.
  - assert (current_width = 0) as -> by lia. done.
Qed.

Lemma attempt_quiet d s : wp (attempt d) (fun r s' => r.1 = None -> r.2 = d) s.
Proof.
  unfold attempt. apply wp_bind. apply wp_kept; [apply from_world_kept|]. intros [b|] s1 E1; [|by apply wp_ret].
  apply wp_bind. apply wp_kept; [apply from_world_kept|]. intros wreck s2 E2. by apply wp_ret.
Qed.

(** What an upgrade requires of the policy object. *)
Definition upgrade_evidence (d : DispatcherPolicyState) : Prop :=
  d_fallback_active d = false /\ d_have_sample d = true /\ d_last_temp_available d = true /\
  policy_limits_valid d = true /\ d_last_temp_millic d <= (d_temp_ceiling_c d - d_safety_margin_c d) * 1000.

Lemma upgrade_gate d :
  in_int (d_last_temp_millic d) -> d_fallback_active d = false ->
  negb (d_have_sample d) || negb (d_last_temp_available d) || (d_last_temp_millic d >? upgrade_temperature_limit_millic d) = false ->
  upgrade_evidence d.
Proof.
  intros Ht Hf H. apply orb_false_iff in H as [H H3]. apply orb_false_iff in H as [H1 H2]. apply negb_false_iff in H1, H2.
  rewrite Z.gtb_ltb in H3. zbool. unfold upgrade_temperature_limit_millic in H3. unfold upgrade_evidence.
  destruct (policy_limits_valid d); cbn [negb] in H3; [done|]. unfold_int. lia.
Qed.

Lemma fallback_result current :
  (if fallback_target current <>? current then 1 else 0) = (if fallback_target current =? current then 0 else 1) /\
  fallback_target current <= current.
Proof.
  split; [by destruct (fallback_target current =? current)|]. unfold fallback_target, SIMD_SSE41. rewrite Z.gtb_ltb.
  destruct (0 <? current) eqn:E; zbool; lia.
Qed.

End properties.

(** The controller decides only from a history whose newest sample is within the
    staleness window, for another width within the limit. *)
Theorem decision_needs_fresh_history `{EV : Env} (current_width max_width : simd_width_t) (c c' : MPCController)
    (w w' : world) (target : simd_width_t) :
  mpc_recommend current_width max_width c w = (Some target, c', w') ->
  target <> current_width /\ target <= max_width /\ In target [SIMD_SSE41; SIMD_AVX2; SIMD_AVX512] /\
  history_ c <> [] /\ forecast_horizon (config_ c) > 0 /\ sample_age c w <= staleness_window_ c.
Proof. apply mpc_recommend_ok. Qed.

(** ** Witnesses: a controller that has seen five slow, cool samples. *)

Definition calm_policy_env : PolicyEnv := mkPolicyEnv None (fun _ _ => Some sample_coefficients) (fun _ => None) (fun _ => None).
Definition throwing_policy_env : PolicyEnv := mkPolicyEnv None (fun _ _ => None) (fun _ => Some true) (fun _ => None).

Definition slow_eval : tsd_thermal_eval_t :=
  zero_eval <| ev_ratio_milli := 1900 |> <| ev_trimmed_ratio_milli := 1900 |> <| ev_telemetry := mkSample true false 50000 0 false false 0 0 |>.

Definition no_policy : qstate := mkQstate (initial_world 1 tsd_runtime_config_set_defaults) None None.
Definition warm_policy : qstate :=
  exec (tsd_dispatcher_policy_create (PL := calm_policy_env) (Some tsd_policy_config_defaults) ;;;
        run_policy_ops (EV := quiet_env) (PL := calm_policy_env) (replicate 5 (OpRecord (Some slow_eval) SIMD_SSE41))) no_policy.

Definition warm_object : DispatcherPolicyState := default new_policy_state (q_policy warm_policy).

Lemma warm_policy_temp d : q_policy warm_policy = Some d -> in_int (d_last_temp_millic d).
Proof.
  intros H. assert (E : d_last_temp_millic <$> q_policy warm_policy = Some 50000) by (vm_compute; reflexivity).
  rewrite H in E. injection E as ->. unfold_int. lia.
Qed.


Lemma fallback_is_sticky_witness :
  let s := exec tsd_dispatcher_policy_force_fallback warm_policy in
  in_fallback s /\
  result (tsd_dispatcher_policy_recommend (EV := quiet_env) (PL := calm_policy_env) SIMD_AVX2 SIMD_AVX512)
    (exec (run_policy_ops (EV := quiet_env) (PL := calm_policy_env) [OpRecord (Some slow_eval) SIMD_AVX2; OpReload]) s) = (1, SIMD_SSE41, true).
Proof.
  cbv zeta. assert (H0 : in_fallback (exec tsd_dispatcher_policy_force_fallback warm_policy)).
  { exists (warm_object <| d_fallback_active := true |>). split; [vm_compute; reflexivity | reflexivity]. }
  split; [exact H0|].
  exact (proj2 (fallback_is_sticky (EV := quiet_env) (PL := calm_policy_env) [OpRecord (Some slow_eval) SIMD_AVX2; OpReload] SIMD_AVX2 SIMD_AVX512
           (exec tsd_dispatcher_policy_force_fallback warm_policy) H0 ltac:(done))).
Defined.

Lemma exceptions_fail_closed_witness :
  in_fallback (exec (run_policy_op (EV := quiet_env) (PL := throwing_policy_env) (OpRecord (Some slow_eval) SIMD_AVX2))
                 (no_policy <| q_policy := Some new_policy_state |>)).
Proof.
  apply (exceptions_fail_closed (EV := quiet_env) (PL := throwing_policy_env) (OpRecord (Some slow_eval) SIMD_AVX2)
           (no_policy <| q_policy := Some new_policy_state |>) new_policy_state true); reflexivity.
Defined.

Definition warm_controller : MPCController := default (mkMpc tsd_policy_config_defaults [] "" new_arx 0 f64_zero false 0) (d_controller warm_object).

Lemma decision_needs_fresh_history_witness :
  exists c' w', mpc_recommend (EV := quiet_env) SIMD_SSE41 SIMD_AVX2 warm_controller (q_world warm_policy) = (Some SIMD_AVX2, c', w') /\
    sample_age (EV := quiet_env) warm_controller (q_world warm_policy) <= staleness_window_ warm_controller.
Proof.
  eexists _, _. split; [vm_compute; reflexivity|].
  eapply (decision_needs_fresh_history (EV := quiet_env) SIMD_SSE41 SIMD_AVX2 warm_controller). vm_compute. reflexivity.
Defined.
