(* ===== verification/Monitor.v ===== *)
(** * Monitor: the policy loop of [src/src/thermal_simd.c]

    [thermal_monitor_thread]: one [monitor_tick] per sample, over the counter
    context of [Perf.v] and the selector of [Trampoline.v].  [g_tsd_config] is
    compiled there as the active snapshot.  The predictive controller (C++) is
    the interface [Controller]: its recommendation is arbitrary, so the theorems
    hold whatever it recommends.  What other threads do while the monitor
    sleeps is a list of guard operations and the process flags they leave. *)
From S2P Require Import Prelude Float64 Statistics Config World Cpu TrampolineState Guard Trampoline Dispatch PerfMeasure Perf PerfMode.
#[local] Open Scope Z_scope.

(** [tsd_dispatcher_policy_recommend]: the return value and the target width. *)
Class Controller : Type := mkController {
  pc_create : nat -> bool;               (** [tsd_dispatcher_policy_create] returned a state *)
  pc_recommend : nat -> Z * simd_width_t;
}.

(** What other threads do during the sleep before a sample, by sample number. *)
Class MonitorEnv : Type := mkMonitorEnv {
  me_guard : nat -> list guard_op;       (** guard operations of other threads *)
  me_flags : nat -> bool * bool * bool;  (** running, stop requested, reload requested *)
}.

(** The local variables of the thread. *)
Record monitor : Type := mkMonitor {
  m_max_width : simd_width_t;
  m_throttle_count : Z;
  m_stable_count : Z;
  m_width_since_ms : Z;
  m_cooldown_until_ms : Z;
  m_policy : bool;                       (** [policy_state] is not null *)
}.
#[export] Instance eta_monitor : Eta monitor := fun r =>
  mkMonitor (m_max_width r) (m_throttle_count r) (m_stable_count r) (m_width_since_ms r)
    (m_cooldown_until_ms r) (m_policy r).

Definition nonnegative_ms (value : Z) : Z := if value >? 0 then value else 0.

(** ** Temperature gates *)

Definition temperature_upgrade_allowed (cfg : tsd_runtime_config) (eval : tsd_thermal_eval_t) : bool :=
  if negb (ts_temp_available (ev_telemetry eval)) then false
  else if (predictive_temp_ceiling_c cfg <? 20) || (predictive_temp_ceiling_c cfg >? 125) ||
          (predictive_safety_margin_c cfg <? 0) || (predictive_safety_margin_c cfg >? 60) then false
  else ts_package_temp_millic (ev_telemetry eval) <=?
       (predictive_temp_ceiling_c cfg - predictive_safety_margin_c cfg) * 1000.

Definition emergency_temperature_exceeded (cfg : tsd_runtime_config) (eval : tsd_thermal_eval_t) : bool :=
  if negb (ts_temp_available (ev_telemetry eval)) then false
  else if (predictive_temp_ceiling_c cfg <? 20) || (predictive_temp_ceiling_c cfg >? 125) ||
          (predictive_emergency_margin_c cfg <? 0) || (predictive_emergency_margin_c cfg >? 60) then true
  else ts_package_temp_millic (ev_telemetry eval) >=?
       (predictive_temp_ceiling_c cfg + predictive_emergency_margin_c cfg) * 1000.

Section monitor.
Context `{EV : Env, PE : PerfEnv, TL : Telemetry, PC : Controller, ME : MonitorEnv}.

Definition monotonic_now_ms : PM Z :=
  now <- clock_gettime ;;
  match now with
  | None => ret 0
  | Some (sec, nsec) => ret (u64 (u64 (sec * 1000) + nsec / 1000000))
  end.

Definition config : PM tsd_runtime_config := lift tsd_runtime_config_active_snapshot.
Definition current_width : PM simd_width_t := lift tsd_trampoline_state_current_width.
Definition patch (width : simd_width_t) : PM Z := lift (tsd_trampoline_patch width).

(** An [effective_*] accessor of the configuration in force. *)
Definition effective (f : bool -> option tsd_runtime_config -> Z) : PM Z :=
  cfg <- config ;;
  degraded <- lift tsd_runtime_config_is_degraded ;;
  ret (f degraded (Some cfg)).

(** [now_ms + nonnegative_ms(...)] *)
Definition cooldown_from (now_ms : Z) (f : bool -> option tsd_runtime_config -> Z) : PM Z :=
  ms <- effective f ;; ret (u64 (now_ms + nonnegative_ms ms)).

(** The return value; the width variable is read again by the caller. *)
Definition force_sse_safety : PM Z :=
  current <- current_width ;;
  if current =? SIMD_SSE41 then ret 0
  else
    rc <- patch SIMD_SSE41 ;;
    if rc <>? 0 then current_width ;;; ret (-1) else ret 0.

(** The three conditions every upgrade needs. *)
Definition upgrade_blocked (eval : tsd_thermal_eval_t) : PM bool :=
  allow <- lift tsd_runtime_flags_allow_transitions ;;
  if negb allow then ret true
  else
    upgrades <- tsd_perf_upgrades_allowed ;;
    if negb upgrades then ret true
    else cfg <- config ;; ret (negb (temperature_upgrade_allowed cfg eval)).

(** After a successful transition of the ordinary policy. *)
Definition settled (now_ms : Z) (cooldown : bool -> option tsd_runtime_config -> Z) (m : monitor) : PM monitor :=
  until <- cooldown_from now_ms cooldown ;;
  ret (m <| m_width_since_ms := now_ms |> <| m_cooldown_until_ms := until |>).

(** The predictive controller: [Some] ends the tick. *)
Definition predictive_step (m : monitor) (eval : tsd_thermal_eval_t) (width : simd_width_t) (now_ms : Z)
    : PM (option monitor) :=
  if negb (m_policy m) then ret None
  else
    let* (used_predictive, target) := lift (ext pc_recommend) in
    if (used_predictive >? 0) && (target <>? width) then
      blocked <- (if target >? width then upgrade_blocked eval else ret false) ;;
      target <- (if blocked then ret width
                 else
                   allow <- lift tsd_runtime_flags_allow_transitions ;;
                   ret (if negb allow && (target <>? SIMD_SSE41) then SIMD_SSE41 else target)) ;;
      if target <>? width then
        patch_rc <- patch target ;;
        if patch_rc =? 0 then
          m <- settled now_ms (if target <? width then tsd_runtime_config_effective_cooldown_down_ms
                               else tsd_runtime_config_effective_cooldown_up_ms)
                 (m <| m_throttle_count := 0 |> <| m_stable_count := 0 |>) ;;
          ret (Some m)
        else ret None
      else ret None
    else ret None.

Definition throttle_step (m : monitor) (width : simd_width_t) (now_ms : Z) : PM monitor :=
  let m := m <| m_throttle_count ::= fun c => i32 (c + 1) |> <| m_stable_count := 0 |> in
  down_count <- effective tsd_runtime_config_effective_down_count ;;
  if (m_throttle_count m >=? down_count) && (width >? SIMD_SSE41) then
    let target := width - 1 in
    allow <- lift tsd_runtime_flags_allow_transitions ;;
    let target := if negb allow && (target >? SIMD_SSE41) then SIMD_SSE41 else target in
    patch_rc <- patch target ;;
    if patch_rc =? 0 then
      settled now_ms tsd_runtime_config_effective_cooldown_down_ms (m <| m_throttle_count := 0 |>)
    else
      current_width ;;;
      down_count <- effective tsd_runtime_config_effective_down_count ;;
      ret (m <| m_throttle_count := down_count |> <| m_cooldown_until_ms := 0 |>)
  else ret m.

Definition stable_step (m : monitor) (eval : tsd_thermal_eval_t) (width : simd_width_t) (now_ms : Z) : PM monitor :=
  let m := m <| m_stable_count ::= fun c => i32 (c + 1) |> <| m_throttle_count := 0 |> in
  up_count <- effective tsd_runtime_config_effective_up_count ;;
  if (m_stable_count m >=? up_count) && (width <? m_max_width m) then
    blocked <- upgrade_blocked eval ;;
    if blocked then ret (m <| m_stable_count := 0 |>)
    else
      patch_rc <- patch (width + 1) ;;
      if patch_rc =? 0 then
        settled now_ms tsd_runtime_config_effective_cooldown_up_ms (m <| m_stable_count := 0 |>)
      else current_width ;;; ret (m <| m_stable_count := 0 |>)
  else ret m.

(** A timeout or an emergency: fall back, or retry at the next sample. *)
Definition safety_step (m : monitor) (now_ms : Z) : PM monitor :=
  rc <- force_sse_safety ;;
  if rc =? 0 then
    until <- cooldown_from now_ms tsd_runtime_config_effective_cooldown_down_ms ;;
    ret (m <| m_throttle_count := 0 |> <| m_stable_count := 0 |> <| m_width_since_ms := now_ms |>
           <| m_cooldown_until_ms := until |>)
  else
    down_count <- effective tsd_runtime_config_effective_down_count ;;
    ret (m <| m_throttle_count := down_count |> <| m_stable_count := 0 |> <| m_cooldown_until_ms := 0 |>).

(** The ordinary policy of a sample with performance evidence. *)
Definition policy_step (m : monitor) (rc : Z) (eval : tsd_thermal_eval_t) (width now_ms dwell : Z) : PM monitor :=
  min_dwell <- effective tsd_runtime_config_effective_min_dwell_ms ;;
  if (now_ms <? m_cooldown_until_ms m) || (dwell <? nonnegative_ms min_dwell) then ret m
  else
    done <- predictive_step m eval width now_ms ;;
    match done with
    | Some m => ret m
    | None => if rc <>? 0 then throttle_step m width now_ms else stable_step m eval width now_ms
    end.

(** What a sample observes: the time, whether the software timeout was reached,
    and the evaluation. *)
Definition monitor_observe (m : monitor) : PM (Z * bool * evaluation) :=
  now_ms <- monotonic_now_ms ;;
  current_width ;;;
  when (m_policy m) (lift (modify (fun w => w <| w_reload_requested := false |>))) ;;;
  cfg <- config ;;
  software_timeout <- tsd_perf_check_software_timeout (degraded_timeout_sec cfg) ;;
  evaluation <- tsd_perf_evaluate (Some cfg) ;;
  ret (now_ms, software_timeout, evaluation).

Definition dwell_ms (m : monitor) (now_ms : Z) : Z :=
  if now_ms >=? m_width_since_ms m then now_ms - m_width_since_ms m else 0.

(** One sample, from the clock reading to the next [nanosleep]. *)
Definition monitor_tick (m : monitor) : PM monitor :=
  let* (now_ms, software_timeout, (evaluation_rc, eval)) := monitor_observe m in
  width <- current_width ;;
  cfg <- config ;;
  if software_timeout || emergency_temperature_exceeded cfg eval then safety_step m now_ms
  else if negb (ev_performance_available eval) then ret (m <| m_stable_count := 0 |>)
  else policy_step m evaluation_rc eval width now_ms (dwell_ms m now_ms).

(** [nanosleep]: other threads run, and leave the process flags. *)
Definition monitor_sleep (sample : nat) : PM unit :=
  lift (fun w => (tt, run_guard_ops (me_guard sample) w)) ;;;
  let '(running, stop, reload) := me_flags sample in
  lift (modify (fun w => w <| w_running := running |> <| w_stop_requested := stop |>
                           <| w_reload_requested := reload |>)).

Definition monitor_active : PM bool :=
  lift (gets (fun w => w_running w && negb (w_stop_requested w))).

(** The loop from a sample number; [false] when [fuel] samples were not enough
    to see a stop. *)
Fixpoint monitor_loop (fuel sample : nat) (m : monitor) : PM bool :=
  match fuel with
  | O => ret false
  | S fuel =>
      active <- monitor_active ;;
      if negb active then ret true
      else
        monitor_sleep sample ;;;
        active <- monitor_active ;;
        if negb active then ret true
        else m <- monitor_tick m ;; monitor_loop fuel (S sample) m
  end.

Definition monitor_start : PM monitor :=
  current_width ;;;
  cfg <- config ;;
  max_width_cached <- lift (tsd_detect_max_simd (Some cfg)) ;;
  now_ms <- monotonic_now_ms ;;
  policy <- lift (ext pc_create) ;;
  lift (ext pe_setaffinity) ;;;
  ret (mkMonitor max_width_cached 0 0 now_ms 0 policy).

Definition thermal_monitor_thread (fuel : nat) : PM bool :=
  m <- monitor_start ;; monitor_loop fuel 0 m.
End monitor.

(** ** What the steps leave alone *)

Definition width_of (s : pstate) : simd_width_t := t_current_width (w_tramp (ps_world s)).

(** What an upgrade decision looks at. *)
Definition evidence_view (s : pstate) :=
  (ps_ctx s, w_obs (ps_world s), w_flags (ps_world s), config_in_force (ps_world s)).

(** Reading: only errno and the number of calls can change. *)
Definition idle (s s' : pstate) : Prop :=
  exists n e, s' = s <| ps_world ::= fun w => w <| w_calls := n |> <| w_errno := e |> |>.
#[export] Instance idle_preorder : PreOrder idle.
Proof.
  split.
  - intros [[] ? ? ?]. eexists _, _. reflexivity.
  - intros a b c (n & e & ->) (n' & e' & ->). by exists n', e'.
Qed.

Section decisions.
Context `{EV : Env, PE : PerfEnv, TL : Telemetry, PC : Controller, ME : MonitorEnv, TLL : !TelemetryLaws, MM : !MmapAligned}.

Lemma idle_system s s' : idle s s' -> system_inv (ps_world s) -> system_inv (ps_world s').
Proof. intros (n & e & ->) [Hg Ht]. split; [|done]. eapply guard_inv_frame; [..|exact Hg]; done. Qed.

Lemma idle_view s s' : idle s s' -> evidence_view s' = evidence_view s /\ width_of s' = width_of s.
Proof. by intros (n & e & ->). Qed.

Lemma idle_gets {A} (f : world -> A) : respects idle (lift (gets f)).
Proof. intros [[] ? ? ?]. eexists _, _. reflexivity. Qed.
Lemma idle_ext {A} (f : nat -> A) : respects idle (lift (ext f)).
Proof. intros s. exists (S (w_calls (ps_world s))), (w_errno (ps_world s)). by destruct s as [[] ? ? ?]. Qed.
Lemma idle_ctx {A} (f : perf_ctx -> A) : respects idle (ctx_get f).
Proof. intros s. unfold ctx_get. apply respects_gets. exact _. Qed.

Lemma idle_width : respects idle current_width.
Proof.
  intros s. unfold current_width. rewrite lift_run. cbn [snd].
  unfold tsd_trampoline_state_current_width, tsd_trampoline_state_snapshot. rewrite !bind_run. cbn [gets fst snd].
  destruct s as [[] ? ? ?]. cbn. repeat case_match; cbn in *; simplify_eq; eexists _, _; reflexivity.
Qed.

Lemma idle_allow : respects idle (lift tsd_runtime_flags_allow_transitions).
Proof.
  intros s. rewrite lift_run. cbn [snd]. unfold tsd_runtime_flags_allow_transitions, tsd_telemetry_temperature_upgrade_allowed.
  rewrite !bind_run. cbn [gets fst snd]. destruct s as [[] ? ? ?]. cbn.
  repeat case_match; cbn in *; simplify_eq; eexists _, _; reflexivity.
Qed.

Ltac idle_steps :=
  repeat first [apply idle_gets | apply idle_ext | apply idle_ctx | apply idle_width | apply idle_allow | respects_step].

Lemma idle_config : respects idle config.
Proof. unfold config, tsd_runtime_config_active_snapshot. idle_steps. Qed.
Lemma idle_effective f : respects idle (effective f).
Proof. unfold effective, config, tsd_runtime_config_active_snapshot, tsd_runtime_config_is_degraded. idle_steps. Qed.
Lemma idle_settled now f m : respects idle (settled now f m).
Proof. unfold settled, cooldown_from. repeat first [apply idle_effective | progress idle_steps]. Qed.
Lemma idle_blocked eval : respects idle (upgrade_blocked eval).
Proof. unfold upgrade_blocked, tsd_perf_upgrades_allowed. repeat first [apply idle_config | progress idle_steps]. Qed.
Lemma idle_cooldown now f : respects idle (cooldown_from now f).
Proof. unfold cooldown_from. repeat first [apply idle_effective | progress idle_steps]. Qed.

(** What one selection attempt does to the width. *)
Lemma patch_width_run target s :
  system_inv (ps_world s) ->
  wp (patch target) (fun rc s' =>
    system_inv (ps_world s') /\ evidence_view s' = evidence_view s /\
    ((rc = 0 /\ width_of s' = target) \/ (rc = -1 /\ width_of s' = width_of s))) s.
Proof.
  intros [Hg Ht]. unfold wp, patch. rewrite lift_run. cbn [fst snd].
  pose proof (patch_keeps target (ps_world s)) as Hf.
  destruct (patch_run target (ps_world s) Hg Ht) as (rc & w' & E & Hg' & Ht' & Hout). rewrite E in *. cbn [fst snd] in *.
  split; [done|]. split.
  - unfold patch_frame, outside_patch in Hf. unfold evidence_view, config_in_force. cbn. injection Hf as E1 E2 E3 _ _ _ _ _ _ _ _ _ E4 E5.
    by rewrite E1, E2, E3, E4, E5.
  - unfold width_of. cbn. destruct Hout as [(-> & (_ & Hw & _) & _)|(-> & [(? & _)|(_ & _ & _ & _ & Hw & _)] & _)]; [by right | done | by left].
Qed.

(** An attempt to reach SSE4.1 leaves SSE4.1 selected or fails. *)
Lemma width_result s : system_inv (ps_world s) -> (current_width s).1 = width_of s.
Proof.
  intros [_ Ht]. unfold current_width. rewrite lift_run. destruct (width_run (ps_world s) (ci_tramp _ Ht)) as [e ->]. done.
Qed.

(** ** Decisions *)

(** The evidence an upgrade needs. *)
Definition upgrade_evidence (eval : tsd_thermal_eval_t) (s : pstate) : Prop :=
  sandbox_passed (w_flags (ps_world s)) = true /\ gate_open (w_obs (ps_world s)) = true /\
  p_mode (ps_ctx s) = TSD_PERF_MODE_HARDWARE /\ p_hardware_validated (ps_ctx s) = true /\
  temperature_upgrade_allowed (config_in_force (ps_world s)) eval = true.

Lemma config_run s : config s = (config_in_force (ps_world s), s).
Proof. unfold config. rewrite lift_run. by destruct s. Qed.

Lemma allow_run s :
  (lift tsd_runtime_flags_allow_transitions s).1 = sandbox_passed (w_flags (ps_world s)) && gate_open (w_obs (ps_world s)).
Proof.
  rewrite lift_run. unfold tsd_runtime_flags_allow_transitions, sandbox_passed. rewrite !bind_run. cbn [gets fst snd].
  destruct (f_sandbox_complete _), (f_sandbox_success _); done.
Qed.

Lemma evidence_same eval s s' : evidence_view s' = evidence_view s -> upgrade_evidence eval s' -> upgrade_evidence eval s.
Proof.
  intros E. assert (H : ps_ctx s' = ps_ctx s /\ w_obs (ps_world s') = w_obs (ps_world s) /\
    w_flags (ps_world s') = w_flags (ps_world s) /\ config_in_force (ps_world s') = config_in_force (ps_world s))
    by (unfold evidence_view in E; split_and!; congruence).
  destruct H as (E1 & E2 & E3 & E4). unfold upgrade_evidence. by rewrite E1, E2, E3, E4.
Qed.

Lemma blocked_run eval s : (upgrade_blocked eval s).1 = false -> upgrade_evidence eval s.
Proof.
  unfold upgrade_blocked. rewrite bind_run. rewrite allow_run.
  destruct (idle_view _ _ (idle_allow s)) as [Ev _]. set (s1 := (lift tsd_runtime_flags_allow_transitions s).2) in *. clearbody s1.
  destruct (sandbox_passed (w_flags (ps_world s)) && gate_open (w_obs (ps_world s))) eqn:Ea; cbn [negb]; [|done]. apply andb_true_iff in Ea as [Ef Eg].
  rewrite bind_run. unfold tsd_perf_upgrades_allowed. cbn [ctx_get gets fst snd].
  destruct ((p_mode (ps_ctx s1) =? TSD_PERF_MODE_HARDWARE) && p_hardware_validated (ps_ctx s1)) eqn:Eu; cbn [negb]; [|done].
  rewrite bind_run, config_run. cbn [ret fst snd]. intros Ht%negb_false_iff. zbool.
  apply (evidence_same eval s s1 Ev). split_and!; try done.
  - unfold evidence_view in Ev. assert (E : w_flags (ps_world s1) = w_flags (ps_world s)) by congruence. by rewrite E.
  - unfold evidence_view in Ev. assert (E : w_obs (ps_world s1) = w_obs (ps_world s)) by congruence. by rewrite E.
Qed.

Section from_sample.
Context (eval : tsd_thermal_eval_t) (s0 : pstate).

(** Nothing has been decided yet. *)
Definition undecided (s : pstate) : Prop :=
  system_inv (ps_world s) /\ evidence_view s = evidence_view s0 /\ width_of s = width_of s0.

(** The width did not grow, or the evidence for growing it was there. *)
Definition decided (s : pstate) : Prop :=
  system_inv (ps_world s) /\ evidence_view s = evidence_view s0 /\
  (width_of s <= width_of s0 \/ upgrade_evidence eval s0).

Lemma undecided_idle s s' : idle s s' -> undecided s -> undecided s'.
Proof.
  intros Hi (H1 & H2 & H3). destruct (idle_view _ _ Hi) as [E1 E2].
  split; [by apply (idle_system s)|]. by rewrite E1, E2.
Qed.

Lemma decided_idle s s' : idle s s' -> decided s -> decided s'.
Proof.
  intros Hi (H1 & H2 & H3). destruct (idle_view _ _ Hi) as [E1 E2].
  split; [by apply (idle_system s)|]. by rewrite E1, E2.
Qed.

Lemma undecided_decided s : undecided s -> decided s.
Proof. intros (H1 & H2 & H3). split; [done|]. split; [done|]. left. lia. Qed.

Lemma decide_read {A B} (m : PM A) (k : A -> PM B) Q s :
  respects idle m -> undecided s -> (forall s', undecided s' -> wp (k (m s).1) Q s') -> wp (bind m k) Q s.
Proof. intros Hm Hs Hk. apply wp_bind. unfold wp. apply Hk, (undecided_idle s); [apply Hm | done]. Qed.

Lemma decide_end {A} (m : PM A) s : respects idle m -> decided s -> wp m (fun _ => decided) s.
Proof. intros Hm Hs. unfold wp. by apply (decided_idle s). Qed.

(** A selection attempt that does not widen, or has the evidence. *)
Lemma decide_patch {A} target (k : Z -> PM A) (Q : A -> pstate -> Prop) s :
  undecided s -> (target <= width_of s0 \/ upgrade_evidence eval s0) ->
  (forall s', decided s' -> wp (k 0) Q s') -> (forall s', undecided s' -> wp (k (-1)) Q s') ->
  wp (bind (patch target) k) Q s.
Proof.
  intros (H1 & H2 & H3) Ht Hok Hfail. apply wp_bind. eapply wp_mono; [by apply patch_width_run|]. cbv beta.
  intros rc s' (Hs' & Hv & [(-> & Hw)|(-> & Hw)]).
  - apply Hok. split; [done|]. split; [congruence|]. rewrite Hw. destruct Ht; [by left | by right].
  - apply Hfail. split; [done|]. split; congruence.
Qed.

Ltac decide_step :=
  match goal with
  | |- wp (ret _) _ _ => apply wp_ret
  | |- wp (bind _ _) _ _ => apply decide_read; [first [apply idle_effective | apply idle_allow | apply idle_config | apply idle_width | apply idle_ext | apply idle_blocked] | done | intros ? ?]
  | |- wp (if ?b then _ else _) _ _ => let E := fresh "E" in destruct b eqn:E
  end.

Lemma throttle_decided m now s :
  undecided s -> wp (throttle_step m (width_of s0) now) (fun _ => decided) s.
Proof.
  intros Hs. unfold throttle_step. cbv zeta. do 2 decide_step; [|by apply wp_ret, undecided_decided].
  decide_step. apply decide_patch; [done | | |].
  - left. apply andb_true_iff in E as [_ E]. zbool. unfold SIMD_SSE41 in *. destruct (_ && _); lia.
  - intros s2 H2. cbn [Z.eqb]. apply decide_end; [apply idle_settled | done].
  - intros s2 H2. cbn [Z.eqb]. do 2 decide_step. by apply wp_ret, undecided_decided.
Qed.

Lemma stable_decided m now s :
  undecided s -> wp (stable_step m eval (width_of s0) now) (fun _ => decided) s.
Proof.
  intros Hs. unfold stable_step. cbv zeta. do 2 decide_step; [|by apply wp_ret, undecided_decided].
  apply wp_bind. unfold wp at 1. match goal with |- context [upgrade_blocked eval ?x] => pose proof (blocked_run eval x) as Hb;
    pose proof (undecided_idle _ _ (idle_blocked eval x) ltac:(eassumption)) as H2; destruct (upgrade_blocked eval x) as [b s2] end.
  cbn [fst snd] in *. destruct b; [by apply wp_ret, undecided_decided|].
  apply decide_patch; [done | | |].
  - right. apply (evidence_same eval s0 s'); [apply H | by apply Hb].
  - intros s3 H3. cbn [Z.eqb]. apply decide_end; [apply idle_settled | done].
  - intros s3 H3. cbn [Z.eqb]. decide_step. by apply wp_ret, undecided_decided.
Qed.

Definition predictive_post (o : option monitor) (s : pstate) : Prop :=
  match o with Some _ => decided s | None => undecided s end.

(** Whatever the controller recommends. *)
Lemma predictive_decided m now s :
  undecided s -> 0 <= width_of s0 ->
  wp (predictive_step m eval (width_of s0) now) predictive_post s.
Proof.
  intros Hs H0. unfold predictive_step. decide_step; [by apply wp_ret|].
  apply decide_read; [apply idle_ext | done|]. intros s1 H1. destruct (lift (ext pc_recommend) s).1 as [used target].
  destruct ((used >? 0) && (target <>? width_of s0)) eqn:Eu; [|by apply wp_ret].
  apply wp_bind. unfold wp at 1. set (guard := if target >? width_of s0 then upgrade_blocked eval else ret false).
  assert (Hg : respects idle guard) by (unfold guard; case_if; [apply idle_blocked | apply respects_ret; exact _]).
  assert (Hev : (guard s1).1 = false -> target <= width_of s0 \/ upgrade_evidence eval s0).
  { unfold guard. destruct (target >? width_of s0) eqn:Et; [|left; zbool; lia]. intros Hb. right.
    apply (evidence_same eval s0 s1); [apply H1 | by apply blocked_run]. }
  pose proof (undecided_idle _ _ (Hg s1) H1) as H2. destruct (guard s1) as [blocked s2]. cbn [fst snd] in *. clear guard Hg.
  assert (Hpatch : forall t s, undecided s -> (t = width_of s0 \/ t <= width_of s0 \/ upgrade_evidence eval s0) ->
    wp (if t <>? width_of s0 then
          patch_rc <- patch t ;;
          if patch_rc =? 0 then
            m <- settled now (if t <? width_of s0 then tsd_runtime_config_effective_cooldown_down_ms
                              else tsd_runtime_config_effective_cooldown_up_ms)
                   (m <| m_throttle_count := 0 |> <| m_stable_count := 0 |>) ;;
            ret (Some m)
          else ret None
        else ret None) predictive_post s).
  { intros t s3 H3 Ht. destruct (t =? width_of s0) eqn:Et; cbn [negb]; zbool; [by apply wp_ret|].
    apply decide_patch; [done | by destruct Ht as [?|?] | |].
    - intros s4 K4. cbn [Z.eqb]. apply wp_bind. unfold wp. cbn [ret fst snd predictive_post].
      apply (decided_idle s4); [apply idle_settled | done].
    - intros s4 K4. cbn [Z.eqb]. by apply wp_ret. }
  apply wp_bind. unfold wp at 1. destruct blocked.
  - cbn [ret fst snd]. apply Hpatch; [done | by left].
  - rewrite bind_run. cbn [ret fst snd]. apply Hpatch; [by apply (undecided_idle s2); [apply idle_allow|]|].
    match goal with |- context [if ?b then SIMD_SSE41 else target] => destruct b end; [right; left; exact H0 | right; by apply Hev].
Qed.

Lemma policy_decided m rc now dwell s :
  undecided s -> 0 <= width_of s0 -> wp (policy_step m rc eval (width_of s0) now dwell) (fun _ => decided) s.
Proof.
  intros Hs H0. unfold policy_step. do 2 decide_step; [by apply wp_ret, undecided_decided|].
  apply wp_bind. eapply wp_mono; [apply predictive_decided; [done | done]|]. intros [m'|] s2 H2; cbn in H2.
  - by apply wp_ret.
  - decide_step; [by apply throttle_decided | by apply stable_decided].
Qed.
End from_sample.

(** Falling back to SSE4.1. *)
Lemma force_run s :
  system_inv (ps_world s) ->
  wp force_sse_safety (fun rc s' =>
    system_inv (ps_world s') /\ evidence_view s' = evidence_view s /\
    ((rc = 0 /\ width_of s' = SIMD_SSE41) \/ (rc = -1 /\ width_of s' = width_of s))) s.
Proof.
  intros Hs. unfold force_sse_safety. apply wp_bind. unfold wp at 1. rewrite width_result by done.
  pose proof (idle_width s) as Hi. destruct (idle_view _ _ Hi) as [Ev Ew]. pose proof (idle_system _ _ Hi Hs) as Hs1.
  set (s1 := (current_width s).2) in *. clearbody s1. destruct (width_of s =? SIMD_SSE41) eqn:E; zbool.
  { apply wp_ret. split; [done|]. split; [done|]. left. split; [done | congruence]. }
  apply wp_bind. eapply wp_mono; [by apply patch_width_run|]. cbv beta. intros rc s2 (Hs2 & Hv & [(-> & Hw)|(-> & Hw)]); cbn [Z.eqb negb].
  - apply wp_ret. split; [done|]. split; [congruence|]. by left.
  - apply wp_bind. unfold wp. cbn [ret fst snd]. destruct (idle_view _ _ (idle_width s2)) as [E1 E2].
    split; [by apply (idle_system _ _ (idle_width s2))|]. split; [congruence|]. right. split; [done | congruence].
Qed.

(** ** Observing a sample can only narrow the selection *)

Definition narrow_world (w w' : world) : Prop := system_inv w -> system_inv w' /\ selection_narrows w w'.
#[export] Instance narrow_world_preorder : PreOrder narrow_world.
Proof.
  split; [intros w Hw; split; [done | by left]|]. intros a b c H1 H2 Ha. destruct (H1 Ha) as [Hb Eb]. destruct (H2 Hb) as [Hc Ec].
  split; [done|]. unfold selection_narrows in *. destruct Ec as [-> | ->]; [done | by right].
Qed.

Definition narrow (s s' : pstate) : Prop := narrow_world (ps_world s) (ps_world s').
#[export] Instance narrow_preorder : PreOrder narrow.
Proof. split; [intros s; apply (PreOrder_Reflexive (R := narrow_world))|]. intros a b c. apply (PreOrder_Transitive (R := narrow_world)). Qed.

Lemma narrow_lift {A} (m : M A) : respects narrow_world m -> respects narrow (lift m).
Proof. intros Hm s. unfold narrow. rewrite lift_run. apply Hm. Qed.

Lemma narrow_modify (f : pstate -> pstate) : (forall s, ps_world (f s) = ps_world s) -> respects narrow (modify f).
Proof. intros Hf s. unfold narrow. cbn. by rewrite Hf. Qed.

Lemma narrow_set f : respects narrow (ctx_set f).
Proof. by apply narrow_modify. Qed.

(** A step that keeps the selection. *)
Lemma narrow_same {A} (m : M A) :
  (forall w, system_inv w -> system_inv (m w).2) -> (forall w, w_tramp (m w).2 = w_tramp w) -> respects narrow_world m.
Proof. intros Hs Ht w Hw. split; [by apply Hs|]. left. by rewrite Ht. Qed.

Lemma narrow_keeps {A} (m : M A) : respects world_keeps m -> (forall w, w_tramp (m w).2 = w_tramp w) -> respects narrow_world m.
Proof. intros Hk. apply narrow_same. intros w. apply (proj1 (Hk w)). Qed.

Lemma narrow_telemetry {A} (m : M A) : respects telemetry_keeps m -> respects narrow_world m.
Proof. intros Hm w Hw. split; [by apply (Hm w) | by apply Hm]. Qed.

Lemma narrow_degraded_op (m : M unit) b : (forall w, (m w).2 = w <| w_degraded := b |>) -> respects narrow_world m.
Proof. intros Hm. apply narrow_same; intros w; rewrite Hm; [apply degraded_inv | done]. Qed.

Lemma narrow_update t : respects narrow_world (tsd_observability_update_perf (Some t)).
Proof.
  apply narrow_same.
  - intros w Hw. by apply (update_perf_run t w).
  - intros w. pose proof (run_guard_op_frame (GUpdatePerf (Some t)) w) as Hf. unfold guard_frame, outside_guard in Hf.
    cbn [run_guard_op] in Hf. congruence.
Qed.

Lemma narrow_patch_sse : respects narrow_world (tsd_trampoline_patch SIMD_SSE41).
Proof.
  intros w [Hg Ht]. destruct (patch_run SIMD_SSE41 w Hg Ht) as (rc & w' & -> & Hg' & Ht' & Hout). split; [done|].
  destruct Hout as [(-> & (_ & Hw & _) & _)|(-> & [(? & _)|(_ & _ & _ & _ & Hw & _)] & _)]; [by left | done | by right].
Qed.

Lemma narrow_width : respects narrow_world tsd_trampoline_state_current_width.
Proof.
  unfold tsd_trampoline_state_current_width, tsd_trampoline_state_snapshot.
  repeat first [respects_step | (apply narrow_keeps; [apply keeps_errno | done])].
Qed.

Lemma narrow_work n : respects narrow_world (tsd_workload_iterations_add n).
Proof.
  apply narrow_keeps; [apply keeps_work|]. intros w. unfold tsd_workload_iterations_add. by destruct (n =? 0).
Qed.

Ltac narrow_leaf :=
  first
  [ apply narrow_set | (apply narrow_modify; reflexivity) | apply (respects_gets narrow)
  | apply narrow_lift; first
    [ apply narrow_patch_sse | apply narrow_update | apply narrow_width | apply narrow_work
    | (apply narrow_keeps; [first [apply keeps_ext | apply keeps_gets | apply keeps_errno | apply keeps_fail | apply keeps_metric] | solve [intro; cbn; repeat case_match; reflexivity]])
    | apply narrow_telemetry, helper_sample_keeps | apply narrow_telemetry, fusion_sample_keeps
    | (eapply narrow_degraded_op; first [intro; rewrite enter_degraded_run; reflexivity | intro; rewrite exit_degraded_run; reflexivity])
    | (apply narrow_same; [apply close_gate_inv | reflexivity]) ] ].

Ltac narrow_steps := repeat first [narrow_leaf | respects_step].

Lemma narrow_fetch : respects narrow fetch_fused_telemetry.
Proof. unfold fetch_fused_telemetry, ctx_get. narrow_steps. Qed.
Lemma narrow_publish b : respects narrow (publish_perf_state b).
Proof. unfold publish_perf_state, ctx_get. narrow_steps. Qed.

Ltac narrow_all := repeat first [apply narrow_fetch | apply narrow_publish | progress narrow_steps].

Lemma narrow_set_mode mode : respects narrow (perf_set_mode mode).
Proof. unfold perf_set_mode, enter_software, ctx_get, clock_gettime. narrow_all. Qed.

Lemma narrow_schedules : respects narrow schedule_perf_retry /\ respects narrow schedule_llc_retry /\
  respects narrow perf_retry_due /\ respects narrow llc_retry_due.
Proof.
  unfold schedule_perf_retry, schedule_llc_retry, perf_retry_due, llc_retry_due, monotonic_now_ns, clock_gettime, ctx_get.
  split_and!; narrow_all.
Qed.

Ltac narrow_perf :=
  destruct narrow_schedules as (Hn1 & Hn2 & Hn3 & Hn4);
  repeat first [apply narrow_set_mode | exact Hn1 | exact Hn2 | exact Hn3 | exact Hn4 | progress narrow_all].

Lemma narrow_events : respects narrow close_perf_events /\ respects narrow open_llc_event /\ respects narrow drop_llc /\
  respects narrow perf_event_open_sys /\ (forall fd r, respects narrow (perf_ioctl fd r)) /\
  (forall fd, respects narrow (read_group fd)) /\ (forall fd, respects narrow (read_word fd)).
Proof.
  unfold close_perf_events, open_llc_event, drop_llc, perf_event_open_sys, perf_ioctl, read_group, read_word, close_fd,
    reset_llc_retry, ctx_get. split_and!; intros; narrow_perf.
Qed.

Lemma narrow_fail_closed : respects narrow perf_fail_closed.
Proof. destruct narrow_events as (Hc & _). unfold perf_fail_closed. repeat first [exact Hc | progress narrow_perf]. Qed.

Ltac narrow_eval :=
  destruct narrow_events as (Hc & Ho & Hd & He & Hio & Hg & Hw);
  repeat first [apply narrow_fail_closed | exact Hc | exact Ho | exact Hd | exact He | apply Hio | apply Hg | apply Hw
               | progress narrow_perf].

Lemma narrow_evaluate cfg : respects narrow (tsd_perf_evaluate cfg).
Proof.
  unfold tsd_perf_evaluate, evaluate_software, try_recover_hardware, open_perf_events, enable_perf_events_strict,
    measure_hardware_baseline, finish_baseline, create_baseline_observation, reset_perf_retry,
    try_recover_llc, evaluate_group, evaluate_progress, handle_no_running_progress, advance_cursors, measurement,
    enable_optional_llc, clock_gettime, reset_llc_retry, ctx_get, tsd_runtime_config_is_degraded, tsd_runtime_config_active_snapshot,
    tsd_workload_iterations_load.
  narrow_eval.
Qed.

Lemma narrow_disable : respects narrow tsd_perf_disable.
Proof. unfold tsd_perf_disable, ctx_get. narrow_eval. Qed.

Lemma narrow_enable : respects narrow tsd_perf_enable.
Proof. unfold tsd_perf_enable, enable_perf_events_strict, enable_optional_llc, ctx_get. narrow_eval. Qed.

Lemma narrow_baseline cfg : respects narrow (tsd_perf_measure_baseline cfg).
Proof.
  unfold tsd_perf_measure_baseline, measure_software_baseline, enable_perf_events_strict, enable_optional_llc,
    measure_hardware_baseline, finish_baseline, create_baseline_observation, clock_gettime, ctx_get,
    tsd_workload_iterations_load.
  narrow_eval.
Qed.

Lemma narrow_init workload : respects narrow (tsd_perf_init workload).
Proof.
  unfold tsd_perf_init, open_perf_events, select_runtime_cpus, reset_perf_retry, reset_llc_retry, clock_gettime, ctx_get, current_tid.
  repeat first [apply narrow_lift, narrow_telemetry, helper_init_keeps | apply narrow_lift, narrow_telemetry, fusion_start_keeps
               | progress narrow_eval].
Qed.

Lemma narrow_cleanup : respects narrow tsd_perf_cleanup.
Proof.
  unfold tsd_perf_cleanup, restore_owner_affinity, ctx_get.
  repeat first [apply narrow_lift, narrow_telemetry, helper_destroy_keeps | apply narrow_lift, narrow_telemetry, fusion_stop_keeps
               | apply narrow_disable | progress narrow_eval].
Qed.

(** ** Ticks *)

Lemma idle_quiet s s' : idle s s' -> quiet s s'.
Proof. intros Hi. split; [by destruct Hi as (n & e & ->) | by apply idle_system]. Qed.

Lemma idle_clock : respects idle monotonic_now_ms.
Proof. unfold monotonic_now_ms, clock_gettime. idle_steps. Qed.

Lemma quiet_reload : respects quiet (lift (modify (fun w => w <| w_reload_requested := false |>))).
Proof.
  intros s. split; [done|]. intros [Hg Ht]. split; [|done]. eapply guard_inv_frame; [..|exact Hg]; done.
Qed.

Lemma narrow_quiet_idle {A} (m : PM A) : respects idle m -> respects narrow m.
Proof.
  intros Hm s Hs. split; [by apply (idle_system _ _ (Hm s))|]. left. by apply (idle_view _ _ (Hm s)).
Qed.

Lemma narrow_reload : respects narrow (lift (modify (fun w => w <| w_reload_requested := false |>))).
Proof. intros s Hs. split; [by apply quiet_reload | by left]. Qed.

Lemma narrow_timeout t : respects narrow (tsd_perf_check_software_timeout t).
Proof. unfold tsd_perf_check_software_timeout, perf_software_timeout_exceeded, clock_gettime, ctx_get. narrow_all. Qed.

Lemma observe_run m s :
  mode_inv s ->
  let s1 := exec (monitor_observe m) s in
  mode_inv s1 /\ (width_of s1 = width_of s \/ width_of s1 = SIMD_SSE41).
Proof.
  intros Hs. cbv zeta. split.
  - assert (H : keeps_inv (monitor_observe m)); [|by apply H]. unfold keeps_inv, monitor_observe.
    repeat first [ apply quiet_keeps, quiet_reload | apply keeps_timeout | apply keeps_evaluate
                 | (intro; apply quiet_inv, idle_quiet; first [apply idle_clock | apply idle_width | apply idle_config])
                 | respects_step ].
  - assert (H : respects narrow (monitor_observe m)); [|by apply (H s), mi_system]. unfold monitor_observe.
    repeat first [ apply narrow_reload | apply narrow_timeout | apply narrow_evaluate
                 | apply narrow_quiet_idle; first [apply idle_clock | apply idle_width | apply idle_config]
                 | respects_step ].
Qed.

(** The state in which the tick decides, once the width and configuration are read. *)
Lemma tick_decides m s :
  mode_inv s ->
  let obs := result (monitor_observe m) s in let s1 := exec (monitor_observe m) s in
  let cfg := config_in_force (ps_world s1) in let eval := obs.2.2 in
  exists s2, undecided s1 s2 /\
    monitor_tick m s =
      (if obs.1.2 || emergency_temperature_exceeded cfg eval then safety_step m obs.1.1
       else if negb (ev_performance_available eval) then ret (m <| m_stable_count := 0 |>)
       else policy_step m obs.2.1 eval (width_of s1) obs.1.1 (dwell_ms m obs.1.1)) s2.
Proof.
  intros Hs. cbv zeta. destruct (observe_run m s Hs) as [H1 _]. unfold result, exec in *.
  unfold monitor_tick. rewrite bind_run. destruct (monitor_observe m s) as [[[now timeout] [rc eval]] s1]. cbn [fst snd] in *.
  rewrite bind_run, (width_result s1) by apply H1. pose proof (idle_width s1) as Hi. set (s2 := (current_width s1).2) in *.
  exists s2. assert (Hu : undecided s1 s2) by (apply (undecided_idle s1 s1); [done | split; [apply H1 | done]]).
  split; [done|]. rewrite bind_run, config_run. cbn [fst snd].
  assert (E : config_in_force (ps_world s2) = config_in_force (ps_world s1)); [|by rewrite E].
  destruct Hu as (_ & Hv & _). unfold evidence_view in Hv. congruence.
Qed.

Lemma width_nonneg s : mode_inv s -> 0 <= width_of s.
Proof.
  intros Hs. destruct (mi_system _ Hs) as [_ Ht]. destruct (ci_tramp _ Ht) as [Hw _].
  destruct (width_cases _ Hw) as [H|[H|H]]; unfold width_of; rewrite H; done.
Qed.

(** ** The loop *)

Lemma quiet_patch target : respects quiet (patch target).
Proof. apply quiet_lift, patch_world_keeps. Qed.

Lemma idle_is_quiet {A} (m : PM A) : respects idle m -> respects quiet m.
Proof. intros Hm s. by apply idle_quiet. Qed.

Ltac tick_steps :=
  repeat first [ apply quiet_patch
               | apply idle_is_quiet; first [apply idle_clock | apply idle_width | apply idle_config | apply idle_effective
                   | apply idle_settled | apply idle_blocked | apply idle_cooldown | apply idle_allow | apply idle_ext]
               | respects_step ].

Lemma quiet_policy m rc eval width now dwell : respects quiet (policy_step m rc eval width now dwell).
Proof. unfold policy_step, predictive_step, throttle_step, stable_step. cbv zeta. tick_steps. Qed.

Lemma quiet_safety m now : respects quiet (safety_step m now).
Proof. unfold safety_step, force_sse_safety. tick_steps. Qed.

Lemma keeps_tick m : keeps_inv (monitor_tick m).
Proof.
  unfold monitor_tick, keeps_inv.
  repeat first [ (intros s Hs; by apply (observe_run m s)) | apply quiet_keeps, quiet_policy | apply quiet_keeps, quiet_safety
               | apply quiet_keeps, idle_is_quiet; first [apply idle_width | apply idle_config] | respects_step ].
Qed.

(** Other threads do not publish the counter state of this context. *)
Definition others_ok : Prop := forall n, Forall (fun o => own_publisher (PGuard o)) (me_guard n).

Lemma run_guard_ops_keeps ops w :
  Forall (fun o => own_publisher (PGuard o)) ops -> world_keeps w (run_guard_ops ops w).
Proof.
  intros Ho. revert w. induction Ho as [|o ops Ho _ IH]; intros w; [apply (PreOrder_Reflexive (R := world_keeps))|].
  eapply (PreOrder_Transitive (R := world_keeps)); [apply (guard_op_keeps o Ho w) | apply IH].
Qed.

Lemma keeps_sleep sample : others_ok -> keeps_inv (monitor_sleep sample).
Proof.
  intros Ho s. apply quiet_inv. unfold monitor_sleep. rewrite bind_run.
  etransitivity; [apply (quiet_lift (fun w => (tt, run_guard_ops (me_guard sample) w))); intros w; apply run_guard_ops_keeps, Ho|].
  set (s2 := (lift _ s).2). clearbody s2. destruct (me_flags sample) as [[running stop] reload].
  apply quiet_lift. intros w. split; [|done]. intros [Hg Ht]. split; [|done]. eapply guard_inv_frame; [..|exact Hg]; done.
Qed.

Lemma keeps_loop fuel sample m : others_ok -> keeps_inv (monitor_loop fuel sample m).
Proof.
  intros Ho. revert sample m. induction fuel as [|fuel IH]; intros sample m; [apply respects_ret; exact _|].
  cbn [monitor_loop]. unfold keeps_inv, monitor_active.
  repeat first [ apply (keeps_sleep sample Ho) | apply keeps_tick | apply IH | apply quiet_keeps, idle_is_quiet, idle_gets | respects_step ].
Qed.

(** A sleep that ends with a stop. *)
Definition stops_at (sample : nat) : Prop :=
  let '(running, stop, _) := me_flags sample in running && negb stop = false.

Lemma loop_stops fuel sample n m s :
  stops_at (sample + n) -> (n < fuel)%nat -> (monitor_loop fuel sample m s).1 = true.
Proof.
  revert sample n m s. induction fuel as [|fuel IH]; intros sample n m s Hn Hf; [lia|].
  cbn [monitor_loop]. rewrite bind_run. match goal with |- context [if negb ?b then _ else _] => destruct b end; cbn [negb]; [|done].
  rewrite bind_run. set (s1 := (monitor_active s).2). set (s2 := (monitor_sleep sample s1).2). rewrite bind_run.
  destruct n as [|n].
  - assert (Hact : (monitor_active s2).1 = false); [|by rewrite Hact].
    unfold s2, monitor_sleep, stops_at in *. rewrite Nat.add_0_r in Hn. destruct (me_flags sample) as [[running stop] reload].
    rewrite bind_run, lift_run. unfold monitor_active. by rewrite lift_run.
  - destruct (monitor_active s2).1; cbn [negb]; [|done]. rewrite bind_run. apply (IH (S sample) n); [|lia].
    by rewrite Nat.add_succ_comm.
Qed.

Lemma safety_narrows m now s :
  system_inv (ps_world s) -> 0 <= width_of s -> width_of (safety_step m now s).2 <= width_of s.
Proof.
  intros Hs H0. unfold safety_step. rewrite bind_run. destruct (force_run s Hs) as (_ & _ & Hf).
  set (s1 := (force_sse_safety s).2) in *.
  assert (Hw : width_of s1 <= width_of s) by (destruct Hf as [(_ & ->)|(_ & ->)]; [exact H0 | lia]).
  clearbody s1. destruct ((force_sse_safety s).1 =? 0); rewrite bind_run; cbn [ret snd].
  - by destruct (idle_view _ _ (idle_cooldown now tsd_runtime_config_effective_cooldown_down_ms s1)) as [_ ->].
  - by destruct (idle_view _ _ (idle_effective tsd_runtime_config_effective_down_count s1)) as [_ ->].
Qed.

(** ** Properties *)

(** C6 (safety). Whatever the predictive controller recommends, a sample selects
    a wider width only when no software timeout or emergency was seen, the
    sample has performance evidence, the sandbox passed, the fusion gate is
    open, the counters are hardware and validated, and the raw temperature of
    this sample is at most the ceiling less the safety margin. *)
Theorem upgrades_need_evidence (m : monitor) (s : pstate) :
  mode_inv s ->
  let obs := result (monitor_observe m) s in let s1 := exec (monitor_observe m) s in
  let s' := exec (monitor_tick m) s in
  width_of s < width_of s' ->
  obs.1.2 = false /\ emergency_temperature_exceeded (config_in_force (ps_world s1)) obs.2.2 = false /\
  ev_performance_available obs.2.2 = true /\ upgrade_evidence obs.2.2 s1.
Proof.
  intros Hs. cbv zeta. destruct (observe_run m s Hs) as [H1 Hw1]. destruct (tick_decides m s Hs) as (s2 & Hu & Htick).
  unfold exec. rewrite Htick. unfold exec in *. set (obs := result (monitor_observe m) s) in *. set (s1 := (monitor_observe m s).2) in *.
  assert (Hle : width_of s1 <= width_of s) by (pose proof (width_nonneg s Hs); destruct Hw1 as [-> | ->]; unfold SIMD_SSE41; lia).
  assert (Hsame : width_of s2 = width_of s1) by apply Hu.
  destruct (obs.1.2) eqn:Et; cbn [orb]; [|destruct (emergency_temperature_exceeded _ _) eqn:Ee].
  1,2: pose proof (safety_narrows m obs.1.1 s2 (proj1 Hu)) as Hn; pose proof (width_nonneg s1 H1); lia.
  destruct (ev_performance_available obs.2.2) eqn:Ep; cbn [negb]; [|cbn; lia].
  pose proof (policy_decided obs.2.2 s1 m obs.2.1 obs.1.1 (dwell_ms m obs.1.1) s2 Hu (width_nonneg s1 H1)) as (_ & _ & Hd).
  intros Hlt. destruct Hd as [Hd|Hd]; [lia | done].
Qed.

(** C12 (safety). A software timeout or an emergency temperature is acted on in
    the sample that sees it, whatever the dwell and cooldown: SSE4.1 is selected
    and the counters restart, or the selection failed and the throttle is
    saturated with no cooldown, so that the next sample retries. *)
Theorem emergency_forces_sse (m : monitor) (s : pstate) :
  mode_inv s ->
  let obs := result (monitor_observe m) s in let s1 := exec (monitor_observe m) s in
  let m' := result (monitor_tick m) s in let s' := exec (monitor_tick m) s in
  obs.1.2 = true \/ emergency_temperature_exceeded (config_in_force (ps_world s1)) obs.2.2 = true ->
  (width_of s' = SIMD_SSE41 /\ m_throttle_count m' = 0 /\ m_stable_count m' = 0 /\ m_width_since_ms m' = obs.1.1) \/
  (width_of s' = width_of s1 /\ m_cooldown_until_ms m' = 0 /\ m_stable_count m' = 0 /\
   m_throttle_count m' = tsd_runtime_config_effective_down_count (w_degraded (ps_world s')) (Some (config_in_force (ps_world s')))).
Proof.
  intros Hs. cbv zeta. intros Hsafe. destruct (tick_decides m s Hs) as (s2 & Hu & Htick).
  set (obs := result (monitor_observe m) s) in *. set (s1 := exec (monitor_observe m) s) in *. clearbody obs s1.
  unfold result, exec. rewrite Htick.
  assert (Hor : obs.1.2 || emergency_temperature_exceeded (config_in_force (ps_world s1)) obs.2.2 = true)
    by (apply orb_true_iff; by destruct Hsafe; [left | right]).
  rewrite Hor. unfold safety_step. rewrite bind_run. destruct (force_run s2 (proj1 Hu)) as (_ & Hv & Hf).
  set (s3 := (force_sse_safety s2).2) in *. destruct Hu as (_ & _ & Hw2).
  destruct Hf as [(-> & Hw)|(-> & Hw)]; cbn [Z.eqb]; rewrite bind_run; cbn [ret fst snd].
  - left. destruct (idle_view _ _ (idle_cooldown obs.1.1 tsd_runtime_config_effective_cooldown_down_ms s3)) as [_ ->]. done.
  - right. unfold effective. rewrite bind_run, config_run. cbn [fst snd]. rewrite bind_run, lift_run. cbn [ret fst snd tsd_runtime_config_is_degraded gets].
    split; [|done]. unfold width_of in *. cbn. congruence.
Qed.

(** Without a safety event, the selection does not change in a
    sample that has no performance evidence, falls inside the cooldown, or comes
    before the minimum dwell. *)
Theorem dwell_and_cooldown_hold (m : monitor) (s : pstate) :
  mode_inv s ->
  let obs := result (monitor_observe m) s in let s1 := exec (monitor_observe m) s in
  let s' := exec (monitor_tick m) s in
  let cfg := config_in_force (ps_world s1) in
  obs.1.2 = false -> emergency_temperature_exceeded cfg obs.2.2 = false ->
  (ev_performance_available obs.2.2 = false \/ obs.1.1 < m_cooldown_until_ms m \/
   dwell_ms m obs.1.1 < nonnegative_ms (tsd_runtime_config_effective_min_dwell_ms (w_degraded (ps_world s1)) (Some cfg))) ->
  width_of s' = width_of s1.
Proof.
  intros Hs. cbv zeta. intros Ht He Hheld. unfold monitor_tick, exec.
  destruct (observe_run m s Hs) as [H1 _]. unfold result, exec in *. rewrite bind_run.
  destruct (monitor_observe m s) as [[[now timeout] [rc eval]] s1]. cbn [fst snd] in *. subst timeout.
  rewrite bind_run, (width_result s1) by apply H1. pose proof (idle_width s1) as (n & e & Hi). set (s2 := (current_width s1).2) in *.
  clearbody s2. subst s2. rewrite bind_run, config_run. cbn [fst snd orb].
  match goal with |- context [emergency_temperature_exceeded (config_in_force (ps_world ?x)) eval] => set (s2 := x) end.
  change (config_in_force (ps_world s2)) with (config_in_force (ps_world s1)). rewrite He.
  destruct (ev_performance_available eval) eqn:Ep; cbn [negb]; [|done].
  destruct Hheld as [?|Hheld]; [done|]. unfold policy_step. rewrite bind_run. unfold effective. rewrite bind_run, config_run. cbn [fst snd].
  rewrite bind_run, lift_run. cbn [ret fst snd tsd_runtime_config_is_degraded gets].
  change (config_in_force (ps_world s2)) with (config_in_force (ps_world s1)). change (w_degraded (ps_world s2)) with (w_degraded (ps_world s1)).
  assert (Hb : (now <? m_cooldown_until_ms m) || (dwell_ms m now <? nonnegative_ms (tsd_runtime_config_effective_min_dwell_ms (w_degraded (ps_world s1)) (Some (config_in_force (ps_world s1))))) = true).
  { apply orb_true_iff. destruct Hheld as [?|?]; [left | right]; by apply Z.ltb_lt. }
  rewrite Hb. done.
Qed.

(** C36 (liveness). The monitor returns at the first sample whose sleep ends with
    the runtime not running or a stop request, and the invariant of the counters
    and the selector holds when it does. *)
Theorem monitor_returns_on_stop (n : nat) (s : pstate) :
  stops_at n -> others_ok -> mode_inv s ->
  result (thermal_monitor_thread (S n)) s = true /\ mode_inv (exec (thermal_monitor_thread (S n)) s).
Proof.
  intros Hn Ho Hs. unfold result, exec, thermal_monitor_thread. rewrite bind_run. split; [apply (loop_stops _ 0 n); [done | lia]|].
  apply (keeps_loop _ _ _ Ho). assert (H : keeps_inv monitor_start); [|by apply H]. unfold keeps_inv, monitor_start.
  repeat first [ apply quiet_keeps, idle_is_quiet; first [apply idle_width | apply idle_config | apply idle_clock | apply idle_ext]
               | respects_step ].
  apply quiet_keeps, quiet_lift. intros w. destruct (detect_frame (Some a0) w) as (b & ->). split; [|done].
  intros [Hg Ht]. split; [|done]. eapply guard_inv_frame; [..|exact Hg]; done.
Qed.

(** A sample in which the workload retired no instruction returns no
    telemetry: the emergency test of the monitor is false for it, whatever the
    package temperature. *)
Theorem idle_sample_hides_temperature (cfg : option tsd_runtime_config) (limits : tsd_runtime_config)
    (rd : perf_group_read_t) (s : pstate) :
  p_last_group_valid (ps_ctx s) = true -> p_fd_llc_misses (ps_ctx s) < 0 ->
  group_order_valid (p_last_group_read (ps_ctx s)) rd = true ->
  gr_insns rd = gr_insns (p_last_group_read (ps_ctx s)) ->
  (p_zero_running_samples (ps_ctx s) = 0) ->
  emergency_temperature_exceeded limits (result (evaluate_group zero_eval cfg rd) s).2 = false.
Proof.
  intros Hv Hl Ho Hi Hz. unfold result, evaluate_group. rewrite bind_run. cbn [ctx_get gets fst snd].
  rewrite bind_run. unfold read_word. rewrite (proj2 (Z.ltb_lt _ 0) Hl). cbn [ret fst snd].
  rewrite Z.geb_leb, (proj2 (Z.leb_gt 0 _) Hl). cbn [andb when]. rewrite bind_run. cbn [ret fst snd].
  rewrite bind_run. cbn [ctx_get gets fst snd]. unfold id. rewrite Hv, Ho. cbn [negb]. rewrite Hi, Z.sub_diag.
  destruct (_ || _).
  - unfold handle_no_running_progress. rewrite bind_run. cbn [ctx_set modify fst snd]. rewrite bind_run. cbn. by rewrite Hz.
  - rewrite bind_run. change (u64 0 =? 0) with true. cbv iota. by rewrite bind_run.
Qed.
End decisions.

(** ** Concrete runs *)

(** A package at 50 degrees. *)
Definition cool_sample : tsd_telemetry_sample_t := mkSample true false 50000 0 true false 50000 0.
Definition cool_telemetry : Telemetry :=
  mkTelemetry (fun _ => ret 0) (ret tt) (ret (0, cool_sample)) (fun _ => ret 0) (ret tt) (ret (0, cool_sample)).
(** And one at 140. *)
Definition hot_sample : tsd_telemetry_sample_t := mkSample true false 140000 0 true false 140000 0.
Definition hot_telemetry : Telemetry :=
  mkTelemetry (fun _ => ret 0) (ret tt) (ret (0, hot_sample)) (fun _ => ret 0) (ret tt) (ret (0, hot_sample)).

#[export] Instance cool_laws : TelemetryLaws (EV := quiet_env) (TL := cool_telemetry).
Proof. by split; intros; intros w. Qed.
#[export] Instance hot_laws : TelemetryLaws (EV := quiet_env) (TL := hot_telemetry).
Proof. by split; intros; intros w. Qed.

Definition silent_controller : Controller := mkController (fun _ => true) (fun _ => (0, 0)).
(** Two samples, then a stop. *)
Definition short_run : MonitorEnv :=
  mkMonitorEnv (fun _ => [GEnter SIMD_AVX2; GLeave SIMD_AVX2]) (fun n => (Nat.ltb n 2, false, true)).

(** A validated context with a workload, a passed sandbox and a published raw
    temperature; the monitor has seen many stable samples. *)
Definition ready_ops : list perf_op :=
  [PGuard GSandboxSuccess; PEnable; PBaseline (Some k_default_config);
   PGuard (GUpdateTemperature (Some (true, f64_of_Z 50)))].
Definition ready_pstate (TL : Telemetry) : pstate :=
  run_perf_ops (EV := quiet_env) (PE := quiet_perf_env) (TL := TL) ready_ops
    (exec (tsd_perf_init (EV := quiet_env) (PE := quiet_perf_env) (TL := TL) true) fresh_pstate).
Definition patient_monitor : monitor := mkMonitor SIMD_AVX512 0 100 0 0 true.

Lemma ready_pstate_ok (TL : Telemetry) (HT : TelemetryLaws (EV := quiet_env) (TL := TL)) :
  result (tsd_perf_init (EV := quiet_env) (PE := quiet_perf_env) (TL := TL) true) fresh_pstate = true ->
  mode_inv (EV := quiet_env) (ready_pstate TL).
Proof.
  intros Hr. refine (reached_inv (EV := quiet_env) (PE := quiet_perf_env) (TL := TL) true ready_ops fresh_pstate
    eq_refl eq_refl (initial_system_inv 1 k_default_config) _ Hr).
  repeat constructor.
Qed.

Section concrete.
#[local] Existing Instance quiet_env.
#[local] Existing Instance quiet_perf_env.
#[local] Existing Instance silent_controller.
#[local] Existing Instance short_run.

Lemma upgrades_need_evidence_witness :
  let s := ready_pstate cool_telemetry in
  width_of (exec (monitor_tick (TL := cool_telemetry) patient_monitor) s) = SIMD_AVX2 /\
  upgrade_evidence (result (monitor_observe (TL := cool_telemetry) patient_monitor) s).2.2
    (exec (monitor_observe (TL := cool_telemetry) patient_monitor) s).
Proof.
  assert (Hi : mode_inv (ready_pstate cool_telemetry)) by (apply ready_pstate_ok; [exact cool_laws | vm_compute; reflexivity]).
  assert (Hw : width_of (exec (monitor_tick (TL := cool_telemetry) patient_monitor) (ready_pstate cool_telemetry)) = SIMD_AVX2)
    by (vm_compute; reflexivity).
  split; [exact Hw|].
  refine (proj2 (proj2 (proj2 (upgrades_need_evidence (TL := cool_telemetry) patient_monitor (ready_pstate cool_telemetry) Hi _)))).
  vm_compute; reflexivity.
Defined.

Lemma emergency_forces_sse_witness :
  let s := ready_pstate hot_telemetry in
  emergency_temperature_exceeded k_default_config (result (monitor_observe (TL := hot_telemetry) patient_monitor) s).2.2 = true /\
  (width_of (exec (monitor_tick (TL := hot_telemetry) patient_monitor) s) = SIMD_SSE41 \/
   m_cooldown_until_ms (result (monitor_tick (TL := hot_telemetry) patient_monitor) s) = 0).
Proof.
  assert (Hi : mode_inv (ready_pstate hot_telemetry)) by (apply ready_pstate_ok; [exact hot_laws | vm_compute; reflexivity]).
  split; [vm_compute; reflexivity|].
  destruct (emergency_forces_sse (TL := hot_telemetry) patient_monitor (ready_pstate hot_telemetry) Hi) as [H|H];
    [right; vm_compute; reflexivity | left; exact (proj1 H) | right; exact (proj1 (proj2 H))].
Defined.

Lemma dwell_and_cooldown_hold_witness :
  let s := ready_pstate cool_telemetry in
  width_of (exec (monitor_tick (TL := cool_telemetry) (patient_monitor <| m_cooldown_until_ms := 5000 |>)) s) =
  width_of (exec (monitor_observe (TL := cool_telemetry) (patient_monitor <| m_cooldown_until_ms := 5000 |>)) s).
Proof.
  assert (Hi : mode_inv (ready_pstate cool_telemetry)) by (apply ready_pstate_ok; [exact cool_laws | vm_compute; reflexivity]).
  apply (dwell_and_cooldown_hold (TL := cool_telemetry) (patient_monitor <| m_cooldown_until_ms := 5000 |>) (ready_pstate cool_telemetry) Hi);
    [vm_compute; reflexivity | vm_compute; reflexivity | right; left; vm_compute; reflexivity].
Defined.

Lemma monitor_returns_on_stop_witness :
  result (thermal_monitor_thread (TL := cool_telemetry) 3) (ready_pstate cool_telemetry) = true.
Proof.
  assert (Hi : mode_inv (ready_pstate cool_telemetry)) by (apply ready_pstate_ok; [exact cool_laws | vm_compute; reflexivity]).
  refine (proj1 (monitor_returns_on_stop (TL := cool_telemetry) 2 (ready_pstate cool_telemetry) _ _ Hi)).
  - vm_compute; reflexivity.
  - intros n. repeat constructor.
Defined.

Lemma idle_sample_hides_temperature_witness :
  let rd := mkGroup 2 9 9 9 7 in
  let s := fresh_pstate <| ps_ctx := zero_perf <| p_fd_llc_misses := -1 |> <| p_last_group_valid := true |>
                                               <| p_last_group_read := mkGroup 2 5 5 5 7 |> |> in
  result (evaluate_group (TL := hot_telemetry) zero_eval None rd) s = (0, zero_eval) /\
  emergency_temperature_exceeded k_default_config (result (evaluate_group (TL := hot_telemetry) zero_eval None rd) s).2 = false.
Proof.
  intros rd s. split; [vm_compute; reflexivity|].
  apply (idle_sample_hides_temperature (TL := hot_telemetry) None k_default_config rd s); reflexivity.
Defined.
End concrete.
