(* ===== verification/Lifecycle.v ===== *)
(** * Lifecycle: starting and stopping a runtime

    The private life cycle of [src/src/thermal_simd.c] (compiled with the [_impl]
    names), the public handles of [src/src/runtime_api.c], the health check of
    [src/src/health_check.c] and the startup sandbox they run.  Heap objects are
    in maps from pointers (0 is null); freeing removes the object and a read of
    a freed object sets [ls_dangling].  The two life-cycle mutexes are fields
    here; taking a held one sets [ls_relock]. *)
From S2P Require Import Prelude Float64 Statistics Config World Cpu TrampolineState Guard Trampoline Dispatch PerfMeasure Perf PerfMode Monitor.
From stdpp Require Import gmap.
From Stdlib Require Import Ascii String.
#[local] Open Scope string_scope.
#[local] Open Scope Z_scope.

(** [struct tsd_runtime] of [thermal_simd.c] *)
Record runtime_impl : Type := mkImpl {
  ri_perf : bool;                 (** [perf] is not null; the context is [ps_ctx] *)
  ri_monitor_started : bool;
  ri_stop_in_progress : bool;
}.
#[export] Instance eta_impl : Eta runtime_impl := fun r =>
  mkImpl (ri_perf r) (ri_monitor_started r) (ri_stop_in_progress r).

(** [struct tsd_runtime] of [runtime_api.c] *)
Record runtime_handle : Type := mkHandle {
  rh_impl : Z;
  rh_generation : Z;
  rh_stopped : bool;
  rh_stop_in_progress : bool;
}.
#[export] Instance eta_handle : Eta runtime_handle := fun r =>
  mkHandle (rh_impl r) (rh_generation r) (rh_stopped r) (rh_stop_in_progress r).

Record lstate : Type := mkLstate {
  ls_p : pstate;
  ls_impls : gmap Z runtime_impl;
  ls_active : Z;                       (** [g_tsd_active_runtime] *)
  ls_handles : gmap Z runtime_handle;
  ls_public_active : Z;                (** [g_public_active_runtime] *)
  ls_public_starting : bool;           (** [g_public_runtime_starting] *)
  ls_next_generation : Z;              (** [g_next_runtime_generation] *)
  ls_next_pointer : Z;                 (** the next address [calloc] returns *)
  ls_runtime_lock : bool;
  ls_public_lock : bool;
  ls_relock : bool;
  ls_dangling : bool;
}.
#[export] Instance eta_lstate : Eta lstate := fun r =>
  mkLstate (ls_p r) (ls_impls r) (ls_active r) (ls_handles r) (ls_public_active r) (ls_public_starting r)
    (ls_next_generation r) (ls_next_pointer r) (ls_runtime_lock r) (ls_public_lock r) (ls_relock r) (ls_dangling r).

Abbreviation LM := (ST lstate).

(** Threads and the diagnostic text of the sandbox. *)
Class LifeEnv : Type := mkLifeEnv {
  le_create : nat -> Z;                (** [pthread_create] *)
  le_join : nat -> Z;                  (** [pthread_join] *)
  le_diag : nat -> string;             (** text composed from the failed checks *)
  le_drain_fuel : nat;                 (** wakeups allowed to the quiescence wait *)
}.

Section lifecycle.
Context `{EV : Env, PE : PerfEnv, TL : Telemetry, LE : LifeEnv}.

Definition on_p {A} (m : PM A) : LM A :=
  fun s => let '(a, p) := m (ls_p s) in (a, s <| ls_p := p |>).
Definition on_w {A} (m : M A) : LM A := on_p (lift m).
Definition lfail (e : Z) : LM Z := on_w (fail e).

(** ** The life-cycle mutexes *)

Definition lock_runtime : LM Z :=
  rc <- on_w (ext env_lock) ;;
  if rc =? 0 then
    modify (fun s => s <| ls_relock ::= orb (ls_runtime_lock s) |> <| ls_runtime_lock := true |>) ;;; ret 0
  else ret rc.
Definition unlock_runtime : LM unit := modify (fun s => s <| ls_runtime_lock := false |>).

Definition lock_public : LM Z :=
  rc <- on_w (ext env_lock) ;;
  if rc =? 0 then
    modify (fun s => s <| ls_relock ::= orb (ls_public_lock s) |> <| ls_public_lock := true |>) ;;; ret 0
  else ret rc.
Definition unlock_public : LM unit := modify (fun s => s <| ls_public_lock := false |>).

(** ** Objects *)

Definition read_impl (p : Z) : LM runtime_impl :=
  found <- gets (fun s => ls_impls s !! p) ;;
  match found with
  | Some r => ret r
  | None => modify (fun s => s <| ls_dangling := true |>) ;;; ret (mkImpl false false false)
  end.
Definition write_impl (p : Z) (f : runtime_impl -> runtime_impl) : LM unit :=
  modify (fun s => s <| ls_impls ::= alter f p |>).
Definition free_impl (p : Z) : LM unit := modify (fun s => s <| ls_impls ::= delete p |>).

Definition read_handle (p : Z) : LM runtime_handle :=
  found <- gets (fun s => ls_handles s !! p) ;;
  match found with
  | Some r => ret r
  | None => modify (fun s => s <| ls_dangling := true |>) ;;; ret (mkHandle 0 0 false false)
  end.
Definition write_handle (p : Z) (f : runtime_handle -> runtime_handle) : LM unit :=
  modify (fun s => s <| ls_handles ::= alter f p |>).
Definition free_handle (p : Z) : LM unit := modify (fun s => s <| ls_handles ::= delete p |>).

(** A fresh address, or 0 when [calloc] fails. *)
Definition calloc_pointer : LM Z :=
  found <- on_w (ext env_calloc) ;;
  if negb found then on_w (set_errno ENOMEM) ;;; ret 0
  else
    p <- gets ls_next_pointer ;;
    modify (fun s => s <| ls_next_pointer ::= fun n => n + 1 |>) ;;; ret p.

(** ** Sandbox and health check *)

Definition telemetry_available (sample : tsd_telemetry_sample_t) : bool :=
  ts_temp_available sample || ts_freq_ratio_available sample.

(** [healthcheck::RunSandbox]: whether every check passed. *)
Definition tsd_sandbox_run : PM bool :=
  valid <- lift tsd_trampoline_self_validate ;;
  let success := valid =? 0 in
  created <- tsd_perf_init false ;;
  success <- (if negb created then ret false
              else
                mode <- tsd_perf_get_mode ;;
                let success := success && (mode =? TSD_PERF_MODE_HARDWARE) in
                cpu <- tsd_perf_get_monitor_cpu ;;
                rc <- (if cpu <? 0 then ret (-1) else lift (tsd_telemetry_helper_init cpu)) ;;
                success <- (if rc <>? 0 then ret false
                            else
                              let* (rc, sample) := lift tsd_telemetry_helper_sample in
                              lift tsd_telemetry_helper_destroy ;;;
                              ret (success && (rc =? 0) && telemetry_available sample)) ;;
                tsd_perf_cleanup ;;; ret success) ;;
  when (negb success) (lift (tsd_metrics_increment TSD_METRIC_HEALTH_CHECK_FAILURES)) ;;;
  ret success.

Definition tsd_run_health_check : PM Z :=
  created <- tsd_perf_init false ;;
  if negb created then lift (tsd_metrics_increment TSD_METRIC_HEALTH_CHECK_FAILURES) ;;; ret 1
  else
    cfg <- lift (gets w_config) ;;
    tsd_perf_measure_baseline (Some cfg) ;;;
    mode <- tsd_perf_get_mode ;;
    let failures := if mode <>? TSD_PERF_MODE_HARDWARE then 1 else 0 in
    let* (rc, _) := tsd_perf_evaluate (Some cfg) in
    let failures := if rc <? 0 then failures + 1 else failures in
    valid <- lift tsd_trampoline_self_validate ;;
    let failures := if valid <>? 0 then failures + 1 else failures in
    cpu <- tsd_perf_get_monitor_cpu ;;
    rc <- lift (tsd_telemetry_helper_init cpu) ;;
    failures <- (if rc <>? 0 then ret (failures + 1)
                 else
                   let* (rc, sample) := lift tsd_telemetry_helper_sample in
                   lift tsd_telemetry_helper_destroy ;;;
                   ret (if (rc <>? 0) || negb (telemetry_available sample) then failures + 1 else failures)) ;;
    tsd_perf_cleanup ;;;
    when (failures >? 0) (lift (tsd_metrics_increment TSD_METRIC_HEALTH_CHECK_FAILURES)) ;;;
    ret (if failures <>? 0 then 1 else 0).

(** ** The private runtime *)

Definition set_config_in_force (cfg : tsd_runtime_config) : M unit :=
  modify (fun w => if g_config_snapshot_state (w_guard w) =? 2
                   then w <| w_guard ::= fun g => g <| g_config_snapshot := cfg |> |> else w <| w_config := cfg |>).

Definition ensure_runtime_prerequisites : PM Z :=
  cfg <- lift tsd_runtime_config_active_snapshot ;;
  rc <- (if check_interval_us cfg <=? 0 then
           let '(err, refreshed) := tsd_runtime_config_refresh_ticks tsd_runtime_config_set_defaults in
           lift (set_config_in_force refreshed) ;;;
           (match err with Some e => lift (fail e) | None => ret 0 end)
         else ret 0) ;;
  if rc <>? 0 then ret (-1)
  else if negb tsd_cpu_has_sse41 then lift (fail ENOTSUP)
  else
    rc <- lift tsd_trampoline_init ;;
    rc <- (if rc <>? 0 then ret rc else lift (tsd_trampoline_patch SIMD_SSE41)) ;;
    if rc <>? 0 then ret (-1)
    else
      complete <- lift tsd_runtime_flags_sandbox_complete ;;
      if complete then ret 0
      else
        lift tsd_runtime_flags_init ;;;
        passed <- tsd_sandbox_run ;;
        if passed then lift tsd_runtime_flags_record_sandbox_success ;;; ret 0
        else
          diag <- lift (ext le_diag) ;;
          lift (tsd_runtime_flags_record_sandbox_failure (Some diag)) ;;;
          lift tsd_runtime_flags_status_message ;;; ret 0.

(** [if (current_width() != SIMD_SSE41 && patch(SIMD_SSE41) != 0)]: the result of
    the patch, 0 without one. *)
Definition select_sse : PM Z :=
  width <- lift tsd_trampoline_state_current_width ;;
  if width <>? SIMD_SSE41 then lift (tsd_trampoline_patch SIMD_SSE41) else ret 0.

Definition set_running (b : bool) : M unit := modify (fun w => w <| w_running := b |>).

(** [tsd_perf_cleanup(runtime->perf); free(runtime); unlock] *)
Definition abandon_start (runtime : Z) : LM unit :=
  on_p tsd_perf_cleanup ;;; free_impl runtime ;;; unlock_runtime.

(** From the created context to the end. *)
Definition launch (runtime : Z) : LM (Z * Z) :=
  rc <- on_p select_sse ;;
  if rc <>? 0 then abandon_start runtime ;;; ret (-1, 0) else
  on_w (modify (fun w => w <| w_stop_requested := false |>)) ;;;
  on_w (set_running true) ;;;
  monitor_err <- on_w (ext le_create) ;;
  if monitor_err <>? 0 then
    on_w (set_running false) ;;; abandon_start runtime ;;; rc <- lfail monitor_err ;; ret (rc, 0)
  else
  write_impl runtime (fun r => r <| ri_monitor_started := true |>) ;;;
  rc <- on_w tsd_runtime_safety_write_enter ;;
  if rc <>? 0 then
    on_w (set_running false) ;;; on_w (ext le_join) ;;; abandon_start runtime ;;; ret (-1, 0)
  else
  tid <- on_w current_tid ;;
  on_w (tsd_runtime_set_owner_tid_locked tid) ;;;
  on_w (tsd_runtime_set_stopping_locked false) ;;;
  on_w tsd_runtime_safety_write_leave ;;;
  modify (fun s => s <| ls_active := runtime |>) ;;;
  unlock_runtime ;;;
  ret (0, runtime).

(** The result and the started runtime. *)
Definition tsd_runtime_start_impl (workload : bool) : LM (Z * Z) :=
  lock_runtime ;;;
  active <- gets ls_active ;;
  if active <>? 0 then unlock_runtime ;;; rc <- lfail EBUSY ;; ret (rc, 0)
  else
  rc <- on_p ensure_runtime_prerequisites ;;
  if rc <>? 0 then unlock_runtime ;;; ret (-1, 0) else
  rc <- on_w tsd_runtime_safety_write_enter ;;
  if rc <>? 0 then unlock_runtime ;;; ret (-1, 0) else
  on_w (tsd_runtime_set_stopping_locked true) ;;;
  on_w (tsd_runtime_set_owner_tid_locked 0) ;;;
  on_w tsd_runtime_config_reset_dynamic_state ;;;
  on_w tsd_runtime_safety_write_leave ;;;
  runtime <- calloc_pointer ;;
  if runtime =? 0 then unlock_runtime ;;; ret (-1, 0) else
  created <- on_p (tsd_perf_init workload) ;;
  if negb created then unlock_runtime ;;; ret (-1, 0) else
  modify (fun s => s <| ls_impls ::= <[runtime := mkImpl true false false]> |>) ;;;
  mode <- on_p tsd_perf_get_mode ;;
  when (mode =? TSD_PERF_MODE_HARDWARE) (on_p tsd_perf_enable) ;;;
  cfg <- on_w tsd_runtime_config_active_snapshot ;;
  on_p (tsd_perf_measure_baseline (Some cfg)) ;;;
  launch runtime.

Definition tsd_runtime_request_stop_impl (runtime : Z) : LM unit :=
  if runtime =? 0 then ret tt
  else
    rc <- on_w tsd_runtime_safety_write_enter ;;
    if rc =? 0 then
      on_w (tsd_runtime_set_stopping_locked true) ;;;
      on_w (set_running false) ;;;
      on_w tsd_runtime_safety_write_leave
    else on_w (set_running false).

(** Clear [stop_in_progress] under the lock and fail with [err]. *)
Definition retry_later (runtime err : Z) : LM Z :=
  lock_runtime ;;;
  active <- gets ls_active ;;
  when (runtime =? active) (write_impl runtime (fun r => r <| ri_stop_in_progress := false |>)) ;;;
  unlock_runtime ;;;
  lfail err.

(** [errno ? errno : EIO] *)
Definition saved_errno : LM Z := e <- on_w (gets w_errno) ;; ret (if e <>? 0 then e else EIO).

(** The end of a stop, with everything drained and SSE4.1 selected. *)
Definition finish_stop (runtime : Z) : LM Z :=
  lock_runtime ;;;
  active <- gets ls_active ;;
  r <- (if runtime =? active then read_impl runtime else ret (mkImpl false false false)) ;;
  if (runtime <>? active) || negb (ri_stop_in_progress r) then unlock_runtime ;;; lfail EBUSY
  else
    when (ri_perf r) (on_p tsd_perf_cleanup ;;; write_impl runtime (fun r => r <| ri_perf := false |>)) ;;;
    rc <- on_w tsd_runtime_safety_write_enter ;;
    if rc <>? 0 then
      err <- saved_errno ;;
      write_impl runtime (fun r => r <| ri_stop_in_progress := false |>) ;;;
      unlock_runtime ;;; lfail err
    else
      on_w (tsd_runtime_set_owner_tid_locked 0) ;;;
      on_w tsd_runtime_config_reset_dynamic_state ;;;
      modify (fun s => s <| ls_active := 0 |>) ;;;
      free_impl runtime ;;;
      on_w (tsd_runtime_set_stopping_locked false) ;;;
      on_w tsd_runtime_safety_write_leave ;;;
      unlock_runtime ;;; ret 0.

(** [None]: the quiescence wait is still waiting. *)
Definition drain_and_finish (runtime : Z) : LM (option Z) :=
  drained <- on_w (tsd_runtime_wait_for_wide_quiescence le_drain_fuel) ;;
  match drained with
  | None => ret None
  | Some rc =>
      if rc <>? 0 then err <- saved_errno ;; rc <- retry_later runtime err ;; ret (Some rc)
      else
        rc <- on_p select_sse ;;
        if rc <>? 0 then err <- saved_errno ;; rc <- retry_later runtime err ;; ret (Some rc)
        else rc <- finish_stop runtime ;; ret (Some rc)
  end.

(** Joining the monitor; on failure the stop can be retried. *)
Definition join_monitor (runtime : Z) : LM Z :=
  r <- read_impl runtime ;;
  if negb (ri_monitor_started r) then ret 0
  else
    join_rc <- on_w (ext le_join) ;;
    if join_rc <>? 0 then
      lock_rc <- lock_runtime ;;
      active <- gets ls_active ;;
      when (lock_rc =? 0)
        (when (runtime =? active) (write_impl runtime (fun r => r <| ri_stop_in_progress := false |>)) ;;;
         unlock_runtime) ;;;
      lfail (if lock_rc <>? 0 then lock_rc else join_rc)
    else write_impl runtime (fun r => r <| ri_monitor_started := false |>) ;;; ret 0.

Definition tsd_runtime_stop_impl (runtime : Z) : LM (option Z) :=
  if runtime =? 0 then rc <- lfail EINVAL ;; ret (Some rc)
  else
  inside <- on_w tsd_runtime_current_thread_in_wide_execution ;;
  if inside then rc <- lfail EDEADLK ;; ret (Some rc)
  else
  lock_runtime ;;;
  active <- gets ls_active ;;
  if runtime <>? active then unlock_runtime ;;; rc <- lfail EINVAL ;; ret (Some rc) else
  r <- read_impl runtime ;;
  if ri_stop_in_progress r then unlock_runtime ;;; rc <- lfail EBUSY ;; ret (Some rc) else
  write_impl runtime (fun r => r <| ri_stop_in_progress := true |>) ;;;
  rc <- on_w tsd_runtime_safety_write_enter ;;
  if rc <>? 0 then
    write_impl runtime (fun r => r <| ri_stop_in_progress := false |>) ;;; unlock_runtime ;;; ret (Some (-1))
  else
  on_w (tsd_runtime_set_stopping_locked true) ;;;
  on_w (set_running false) ;;;
  on_w tsd_runtime_safety_write_leave ;;;
  unlock_runtime ;;;
  rc <- join_monitor runtime ;;
  if rc <>? 0 then ret (Some (-1)) else drain_and_finish runtime.

Definition tsd_runtime_is_running_impl (runtime : Z) : LM bool :=
  active <- gets ls_active ;;
  running <- on_w (gets w_running) ;;
  ret ((runtime <>? 0) && (runtime =? active) && running).

Definition tsd_runtime_perf_mode_impl (runtime : Z) : LM Z :=
  active <- gets ls_active ;;
  if (runtime =? 0) || (runtime <>? active) then ret TSD_PERF_MODE_NONE
  else
    r <- read_impl runtime ;;
    if negb (ri_perf r) then ret TSD_PERF_MODE_NONE else on_p tsd_perf_get_mode.
End lifecycle.

(** ** Running the pieces *)

Section proofs.
Context `{EV : Env, PE : PerfEnv, TL : Telemetry, LE : LifeEnv, TLL : !TelemetryLaws, MM : !MmapAligned}.

Definition world_of (s : lstate) : world := ps_world (ls_p s).

Lemma on_p_run {A} (m : PM A) s : on_p m s = ((m (ls_p s)).1, s <| ls_p := (m (ls_p s)).2 |>).
Proof. unfold on_p. by destruct (m (ls_p s)). Qed.

Lemma wp_on_p {A} (m : PM A) Q s : wp m (fun a p => Q a (s <| ls_p := p |>)) (ls_p s) -> wp (on_p m) Q s.
Proof. unfold wp. by rewrite on_p_run. Qed.

Lemma wp_on_w {A} (m : M A) Q s :
  wp m (fun a w => Q a (s <| ls_p ::= fun p => p <| ps_world := w |> |>)) (world_of s) -> wp (on_w m) Q s.
Proof. intros H. apply wp_on_p. unfold wp in *. by rewrite lift_run. Qed.

(** The process invariant with every counter descriptor released. *)
Definition at_rest (p : pstate) : Prop :=
  ps_fds p = [] /\ ps_bad_close p = false /\ system_inv (ps_world p).

(** The guard bracket around a body that only changes guard fields. *)
Lemma bracket_inv (body : M unit) w :
  system_inv w -> (tsd_runtime_safety_write_enter w).1 = 0 ->
  preserves (holds guard_only) body -> respects (fun w w' => w_tramp w = w_tramp w') body ->
  let w' := exec tsd_runtime_safety_write_leave (exec body (exec tsd_runtime_safety_write_enter w)) in
  system_inv w' /\ w_tramp w' = w_tramp w.
Proof.
  intros [Hg Ht] Hrc Hb Htr. cbv zeta. unfold exec.
  destruct (write_enter_run w (proj1 Hg)) as [(Hne & _)|(_ & E)]; [done|].
  set (w1 := (tsd_runtime_safety_write_enter w).2) in *.
  assert (H1 : holds guard_only w1) by (rewrite E; done).
  assert (Et : w_tramp w1 = w_tramp w) by (rewrite E; done). clearbody w1.
  assert (Hl : forall x, w_tramp (tsd_runtime_safety_write_leave x).2 = w_tramp x).
  { intros x. pose proof (guard_frame_write_leave x) as Hf. unfold guard_frame, outside_guard in Hf. congruence. }
  rewrite Hl, <- (Htr w1), Et. split; [|done]. split; [by apply write_leave_run, Hb|]. by rewrite Hl, <- (Htr w1), Et.
Qed.

(** A bracket that cannot be entered changes nothing that matters. *)
Lemma bracket_refused w :
  system_inv w -> (tsd_runtime_safety_write_enter w).1 <> 0 ->
  system_inv (exec tsd_runtime_safety_write_enter w) /\
  outside_guard (exec tsd_runtime_safety_write_enter w) = outside_guard w /\
  stopping_of (exec tsd_runtime_safety_write_enter w) = stopping_of w.
Proof.
  intros [Hg Ht] Hrc. unfold exec. destruct (write_enter_run w (proj1 Hg)) as [(_ & e & ->)|(? & _)]; [|done].
  split; [|done]. split; [|done]. eapply guard_inv_frame; [..|exact Hg]; done.
Qed.

(** ** The self-check leaves the process alone *)

Definition reading (w w' : world) : Prop := exists n e, w' = w <| w_calls := n |> <| w_errno := e |>.
#[export] Instance reading_preorder : PreOrder reading.
Proof.
  split.
  - intros w. exists (w_calls w), (w_errno w). by destruct w.
  - intros a b c (n & e & ->) (n' & e' & ->). by exists n', e'.
Qed.

Lemma reading_gets {A} (f : world -> A) : respects reading (gets f).
Proof. apply respects_gets. exact _. Qed.
Lemma reading_ext {A} (f : nat -> A) : respects reading (ext f).
Proof. intros w. exists (S (w_calls w)), (w_errno w). by destruct w. Qed.
Lemma reading_errno e : respects reading (set_errno e).
Proof. intros w. exists (w_calls w), e. by destruct w. Qed.

Lemma validate_run w : system_inv w -> reading w (exec tsd_trampoline_self_validate w).
Proof.
  intros [[[Hl Hd] _] _]. unfold exec, tsd_trampoline_self_validate. rewrite bind_run.
  destruct (lock_run g_tsd_patch_lock w) as [(e & He & ->) | -> ]; cbn [fst snd].
  { rewrite (proj2 (Z.eqb_neq e 0)) by done. cbn. exists (S (w_calls w)), e. by destruct w. }
  cbn [Z.eqb negb]. rewrite bind_run. cbn [gets fst snd tsd_trampoline_state_initialized]. rewrite bind_run.
  match goal with |- context [(?m ?x).1] => assert (Hm : respects reading m); [|set (body := m) in *; set (w1 := x) in *] end.
  { unfold tsd_trampoline_state_current_width, tsd_trampoline_state_active, tsd_trampoline_state_snapshot,
      mapping_is_rx_not_writable, tsd_trampoline_state_page_a_writable, tsd_trampoline_state_page_b_writable.
    repeat first [apply reading_ext | apply reading_errno | respects_step]. }
  destruct (Hm w1) as (n & e & E). rewrite bind_run. cbn [ret snd]. rewrite E. clear E Hm body. unfold w1. exists n, e. destruct w as [? ? ? lk dl]. cbn in Hl, Hd. by subst lk dl.
Qed.

Lemma reading_inv w w' : reading w w' -> system_inv w -> system_inv w'.
Proof. intros (n & e & ->) [Hg Ht]. split; [|done]. eapply guard_inv_frame; [..|exact Hg]; done. Qed.

(** ** Resting contexts *)

Lemma at_rest_quiet p p' : quiet p p' -> at_rest p -> at_rest p'.
Proof.
  intros Hq (H1 & H2 & H3). destruct (quiet_eqs _ _ Hq) as (_ & E1 & E2 & _). unfold at_rest. rewrite E1, E2.
  split; [done|]. split; [done|]. by apply (proj2 Hq).
Qed.

(** A context that was created and is cleaned up. *)
Lemma cleanup_at_rest p : mode_inv p -> at_rest (exec tsd_perf_cleanup p).
Proof. intros Hi. apply cleanup_run; [apply mi_fds, Hi | apply mi_system, Hi]. Qed.

Lemma init_cases workload p :
  at_rest p ->
  wp (tsd_perf_init workload) (fun r p' => if r then mode_inv p' else at_rest p') p.
Proof.
  intros Hp. pose proof (init_inv workload p) as H. destruct Hp as (H1 & H2 & H3). specialize (H H1 H2 H3).
  unfold wp in *. destruct (tsd_perf_init workload p) as [[] p'] eqn:E; cbn [fst snd] in *; [by apply H|].
  revert E. unfold tsd_perf_init. rewrite bind_run.
  pose proof (quiet_lift _ (keeps_ext env_calloc) p) as Hq. destruct (lift (ext env_calloc) p) as [found p1]. cbn [fst snd] in *.
  destruct found; cbn [negb]; [|intros [= <-]; by apply (at_rest_quiet p)].
  match goal with |- ?m p1 = _ -> _ => assert (Ht : wp m (fun r _ => r = true) p1) end.
  { repeat first [apply wp_ret; reflexivity | apply wp_skip; intros ? ? _ | match goal with |- wp (if ?b then _ else _) _ _ => destruct b end]. }
  intros E. unfold wp in Ht. by rewrite E in Ht.
Qed.

Lemma sandbox_at_rest p : at_rest p -> at_rest (exec tsd_sandbox_run p).
Proof.
  intros Hp. pose proof Hp as (H1 & H2 & H3). cut (wp tsd_sandbox_run (fun _ => at_rest) p); [done|].
  unfold tsd_sandbox_run. apply wp_bind. unfold wp at 1. rewrite lift_run. cbn [fst snd].
  pose proof (validate_run (ps_world p) H3) as Hv. unfold exec in Hv.
  set (p1 := p <| ps_world := _ |>). assert (Hp1 : at_rest p1) by (split; [done|]; split; [done|]; by apply (reading_inv (ps_world p))).
  clearbody p1. clear Hp H1 H2 H3 Hv. apply wp_bind. eapply wp_mono; [by apply init_cases|]. cbv beta. intros created p2 H2.
  assert (Hend : forall ok p, at_rest p ->
    wp (when (negb ok) (lift (tsd_metrics_increment TSD_METRIC_HEALTH_CHECK_FAILURES)) ;;; ret ok) (fun _ => at_rest) p).
  { intros ok q Hq. apply wp_bind. unfold wp. cbn [ret snd]. destruct ok; cbn [negb when]; [done|].
    by apply (at_rest_quiet q); [apply quiet_lift, keeps_metric|]. }
  apply wp_bind. destruct created; [|by apply wp_ret, Hend].
  apply wp_bind, wp_gets, wp_bind, wp_gets. apply wp_bind. 
  match goal with |- wp (if ?b then _ else _) _ _ => set (neg := b) end.
  assert (Hq : forall q, mode_inv q -> mode_inv ((if neg then ret (-1) else lift (tsd_telemetry_helper_init (p_monitor_cpu (ps_ctx p2)))) q).2).
  { intros q Hq. destruct neg; [done|]. apply (quiet_inv q); [|done]. apply quiet_lift, telemetry_world, helper_init_keeps. }
  unfold wp at 1. specialize (Hq p2 H2). match type of Hq with mode_inv (?m p2).2 => destruct (m p2) as [rc p3] end. cbn [fst snd] in *.
  apply wp_bind. destruct (rc =? 0); cbn [negb].
  - apply wp_bind. unfold wp at 1.
    assert (H3 : mode_inv (lift tsd_telemetry_helper_sample p3).2)
      by (apply (quiet_inv p3); [apply quiet_lift, telemetry_world, helper_sample_keeps | done]).
    destruct (lift tsd_telemetry_helper_sample p3) as [[rc2 sample] p4]. cbn [fst snd] in *.
    apply wp_bind. unfold wp at 1.
    assert (H4 : mode_inv (lift tsd_telemetry_helper_destroy p4).2)
      by (apply (quiet_inv p4); [apply quiet_lift, telemetry_world, helper_destroy_keeps | done]).
    apply wp_ret, wp_bind. unfold wp at 1. apply wp_ret, Hend, cleanup_at_rest, H4.
  - apply wp_ret, wp_bind. unfold wp at 1. apply wp_ret, Hend, cleanup_at_rest, Hq.
Qed.

(** ** Prerequisites *)

(** A world step that keeps the invariant keeps a resting context. *)
Lemma at_rest_lift {A} (m : M A) p :
  (forall w, system_inv w -> system_inv (m w).2) -> at_rest p -> at_rest (lift m p).2.
Proof. intros Hm (H1 & H2 & H3). rewrite lift_run. split; [done|]. split; [done|]. by apply Hm. Qed.

Lemma status_inv w : system_inv w -> system_inv (tsd_runtime_flags_status_message w).2.
Proof.
  intros [[[Hl Hd] Ho] Ht]. unfold tsd_runtime_flags_status_message. rewrite bind_run.
  destruct (lock_run g_sandbox_message_lock w) as [(e & He & ->) | -> ]; cbn [fst snd].
  - split; [|done]. eapply guard_inv_frame; [..|split; [split; [exact Hl | exact Hd] | exact Ho]]; try done.
    cbn. rewrite Hl. done.
  - split; [|done]. eapply guard_inv_frame; [..|split; [split; [exact Hl | exact Hd] | exact Ho]]; try done; cbn; by rewrite Hl, ?Hd.
Qed.

Lemma config_set_inv cfg w : system_inv w -> system_inv (set_config_in_force cfg w).2.
Proof.
  intros [Hg Ht]. unfold set_config_in_force. cbn. destruct (_ =? 2); (split; [|done]); eapply guard_inv_frame; [..|exact Hg]; done.
Qed.

Lemma guard_op_inv o w : system_inv w -> system_inv (run_guard_op o w).2.
Proof. intros Hw. by apply (run_tramp_call_inv (CGuard o)). Qed.

Lemma tramp_init_inv w : system_inv w -> system_inv (tsd_trampoline_init w).2.
Proof.
  intros Hw. pose proof (run_tramp_call_inv CInit w Hw) as H. unfold exec, run_tramp_call, Guard.drop in H. by rewrite bind_run in H.
Qed.

Lemma patch_inv width w : system_inv w -> system_inv (tsd_trampoline_patch width w).2.
Proof. intros Hw. by apply (patch_system_inv width w MM). Qed.

Lemma reading_op_inv {A} (m : M A) : respects reading m -> forall w, system_inv w -> system_inv (m w).2.
Proof. intros Hm w. by apply reading_inv. Qed.

Lemma prereq_at_rest p : at_rest p -> at_rest (exec ensure_runtime_prerequisites p).
Proof.
  intros Hp. cut (wp ensure_runtime_prerequisites (fun _ => at_rest) p); [done|]. unfold ensure_runtime_prerequisites.
  assert (Hstep : forall {A B} (m : PM A) (k : A -> PM B) q, (forall q, at_rest q -> at_rest (m q).2) -> at_rest q ->
    (forall a q, at_rest q -> wp (k a) (fun _ => at_rest) q) -> wp (bind m k) (fun _ => at_rest) q).
  { intros A B m k q Hm Hq Hk. apply wp_bind. unfold wp at 1. apply Hk, Hm, Hq. }
  assert (Hread : forall {A} (m : M A), respects reading m -> forall q, at_rest q -> at_rest (lift m q).2).
  { intros A m Hm q. apply at_rest_lift. by apply reading_op_inv. }
  apply Hstep; [apply Hread, reading_gets | done|]. intros cfg p1 H1.
  apply Hstep; [|done|]; [intros q Hq; case_if; [|done]|].
  { destruct (tsd_runtime_config_refresh_ticks _) as [err refreshed]. rewrite bind_run.
    assert (Hset : at_rest (lift (set_config_in_force refreshed) q).2) by (apply at_rest_lift; [apply config_set_inv | done]).
    destruct err; [|exact Hset]. apply Hread; [|exact Hset]. unfold fail. repeat first [apply reading_errno | respects_step]. }
  intros rc p2 H2. destruct (rc <>? 0); [by apply wp_ret|]. destruct (negb tsd_cpu_has_sse41).
  { unfold wp. apply Hread; [|done]. unfold fail. repeat first [apply reading_errno | respects_step]. }
  apply Hstep; [intros q; apply at_rest_lift, tramp_init_inv | done|]. intros rc1 p3 H3.
  apply Hstep; [intros q Hq; case_if; [done | by apply at_rest_lift; [apply patch_inv|]] | done|]. intros rc2 p4 H4.
  destruct (rc2 <>? 0); [by apply wp_ret|]. apply Hstep; [apply Hread, reading_gets | done|]. intros complete p5 H5.
  destruct complete; [by apply wp_ret|].
  apply Hstep; [intros q; apply at_rest_lift, (guard_op_inv GFlagsInit) | done|]. intros _ p6 H6.
  apply Hstep; [apply sandbox_at_rest | done|]. intros passed p7 H7. destruct passed.
  - apply Hstep; [intros q; apply at_rest_lift, (guard_op_inv GSandboxSuccess) | done|]. intros _ p8 H8. by apply wp_ret.
  - apply Hstep; [apply Hread, reading_ext | done|]. intros diag p8 H8.
    apply Hstep; [intros q; apply at_rest_lift, (guard_op_inv (GSandboxFailure (Some diag))) | done|]. intros _ p9 H9.
    apply Hstep; [intros q; apply at_rest_lift, status_inv | done|]. intros _ p10 H10. by apply wp_ret.
Qed.

(** ** Stepping through a life-cycle operation *)

(** Everything but the process and its context. *)
Definition outer (s : lstate) :=
  (ls_impls s, ls_active s, (ls_handles s, ls_public_active s, ls_public_starting s, ls_next_generation s),
   (ls_next_pointer s, ls_runtime_lock s, ls_public_lock s, ls_relock s, ls_dangling s)).

Lemma step_p {A B} (m : PM A) (k : A -> LM B) Q s :
  (forall s', outer s' = outer s -> ls_p s' = (m (ls_p s)).2 -> wp (k (m (ls_p s)).1) Q s') ->
  wp (bind (on_p m) k) Q s.
Proof. intros H. apply wp_bind. unfold wp at 1. rewrite on_p_run. cbn [fst snd]. by apply H. Qed.

Lemma step_w {A B} (m : M A) (k : A -> LM B) Q s :
  (forall s', outer s' = outer s -> ls_p s' = (lift m (ls_p s)).2 -> wp (k (m (world_of s)).1) Q s') ->
  wp (bind (on_w m) k) Q s.
Proof.
  intros H. apply step_p. intros s' E1 E2. rewrite lift_run. cbn [fst]. by apply H.
Qed.

(** A life-cycle mutex: whether it was taken only matters to the code. *)
Lemma step_lock {B} (k : Z -> LM B) Q s :
  ls_runtime_lock s = false ->
  (forall rc s', quiet (ls_p s) (ls_p s') ->
     outer s' = outer (s <| ls_runtime_lock := rc =? 0 |>) -> wp (k rc) Q s') ->
  wp (bind lock_runtime k) Q s.
Proof.
  intros Hl H. unfold lock_runtime. apply wp_bind, wp_bind. unfold wp at 1. unfold on_w. rewrite on_p_run. cbn [fst snd].
  assert (Hq : quiet (ls_p s) (lift (ext env_lock) (ls_p s)).2) by apply quiet_lift, keeps_ext.
  destruct (lift (ext env_lock) (ls_p s)) as [rc p]. cbn [fst snd] in *. destruct (rc =? 0) eqn:E.
  - apply wp_bind, wp_modify, wp_ret. zbool. subst rc. apply H; [done|]. unfold outer. cbn. by rewrite Hl.
  - apply wp_ret, H; [done|]. rewrite E. unfold outer. cbn. by rewrite Hl.
Qed.

(** The writer bracket is invisible to the context. *)
Lemma bracket_quiet (body : M unit) p :
  (tsd_runtime_safety_write_enter (ps_world p)).1 = 0 ->
  preserves (holds guard_only) body ->
  respects (fun w w' => (w_tramp w, published_of w, w_degraded w) = (w_tramp w', published_of w', w_degraded w')) body ->
  system_inv (ps_world p) ->
  quiet p (p <| ps_world := exec tsd_runtime_safety_write_leave (exec body (exec tsd_runtime_safety_write_enter (ps_world p))) |>).
Proof.
  intros Hrc Hb Hk Hs.
  assert (Htr : respects (fun w w' => w_tramp w = w_tramp w') body) by (intros w; pose proof (Hk w); congruence).
  destruct (bracket_inv body (ps_world p) Hs Hrc Hb Htr) as [Hi _]. split; [|done].
  unfold core. cbn. unfold exec. set (w1 := (tsd_runtime_safety_write_enter (ps_world p)).2).
  pose proof (published_write_enter (ps_world p)) as P1. pose proof (published_write_leave (body w1).2) as P2.
  pose proof (guard_frame_write_enter (ps_world p)) as F1. pose proof (guard_frame_write_leave (body w1).2) as F2.
  pose proof (Hk w1) as Hk1. cbv beta in P1, P2. fold w1 in P1, F1.
  assert (D1 : w_degraded w1 = w_degraded (ps_world p)) by (unfold guard_frame, outside_guard in F1; congruence).
  assert (D2 : w_degraded (tsd_runtime_safety_write_leave (body w1).2).2 = w_degraded (body w1).2)
    by (unfold guard_frame, outside_guard in F2; congruence).
  assert (K1 : published_of (body w1).2 = published_of w1) by congruence.
  assert (K2 : w_degraded (body w1).2 = w_degraded w1) by congruence.
  rewrite <- P2, D2, K1, K2, D1, <- P1. done.
Qed.

(** Stores of plain flags. *)
Lemma quiet_flags (f : world -> world) :
  (forall w, (w_locks (f w), w_deadlock (f w), w_guard (f w), w_flags (f w), w_obs (f w), w_tramp (f w), w_degraded (f w)) =
             (w_locks w, w_deadlock w, w_guard w, w_flags w, w_obs w, w_tramp w, w_degraded w)) ->
  respects quiet (lift (modify f)).
Proof.
  intros Hf. apply quiet_lift. intros w. pose proof (Hf w) as E. cbn.
  assert (E1 : w_locks (f w) = w_locks w) by congruence. assert (E2 : w_deadlock (f w) = w_deadlock w) by congruence.
  assert (E3 : w_guard (f w) = w_guard w) by congruence. assert (E4 : w_flags (f w) = w_flags w) by congruence.
  assert (E5 : w_obs (f w) = w_obs w) by congruence. assert (E6 : w_tramp (f w) = w_tramp w) by congruence.
  assert (E7 : w_degraded (f w) = w_degraded w) by congruence. clear E. split.
  - intros [Hg Ht]. split; [|by rewrite E6]. eapply guard_inv_frame; [done | done | | |exact Hg].
    + unfold admission_open. by rewrite E3.
    + unfold evidence_recorded. by rewrite E3, E4, E5.
  - unfold published_of. by rewrite E5, E7.
Qed.

(** ** Starting *)

(** Addresses are handed out in order and never reused. *)
Definition heap_ok (s : lstate) : Prop :=
  0 < ls_next_pointer s /\ (forall p, ls_next_pointer s <= p -> ls_impls s !! p = None).

(** A runtime that is up: SSE4.1 selected, work accounted to the calling thread. *)
Record started (s : lstate) (runtime : Z) : Prop := {
  st_active : ls_active s = runtime /\ runtime <> 0;
  st_object : ls_impls s !! runtime = Some (mkImpl true true false);
  st_context : mode_inv (ls_p s);
  st_width : width_of (ls_p s) = SIMD_SSE41;
  st_running : w_running (world_of s) = true /\ w_stop_requested (world_of s) = false;
  st_owner : is_owner (world_of s) = true;
  st_stopping : stopping_of (world_of s) = false;
}.

(** What a start ends in, from [s0]. *)
Definition start_post (s0 : lstate) (r : Z * Z) (s : lstate) : Prop :=
  ls_runtime_lock s = false /\
  ((r.1 = 0 /\ r.2 = ls_next_pointer s0 /\ started s r.2 /\
      ls_impls s = <[r.2 := mkImpl true true false]> (ls_impls s0)) \/
   (r = (-1, 0) /\ ls_active s = 0 /\ ls_impls s = ls_impls s0 /\ at_rest (ls_p s))).

Lemma unlock_fail s0 s :
  ls_active s = 0 -> ls_impls s = ls_impls s0 -> at_rest (ls_p s) -> wp (unlock_runtime ;;; ret (-1, 0)) (start_post s0) s.
Proof. intros Ha Hi Hp. apply wp_bind, wp_modify, wp_ret. split; [done|]. by right. Qed.

(** Giving up after the context was created. *)
Lemma abandon_run s runtime :
  mode_inv (ls_p s) ->
  let s' := exec (abandon_start runtime) s in
  ls_runtime_lock s' = false /\ ls_impls s' = delete runtime (ls_impls s) /\ ls_active s' = ls_active s /\ at_rest (ls_p s').
Proof.
  intros Hi. cbv zeta. unfold exec, abandon_start. rewrite bind_run, on_p_run. cbn [fst snd]. rewrite bind_run. cbn.
  split_done. by apply cleanup_at_rest.
Qed.

(** The last bracket of a start. *)
Lemma publish_owner p :
  (tsd_runtime_safety_write_enter (ps_world p)).1 = 0 -> system_inv (ps_world p) ->
  let w' := exec tsd_runtime_safety_write_leave
              (exec (tsd_runtime_set_stopping_locked false)
                 (exec (tsd_runtime_set_owner_tid_locked (w_self_tid (ps_world p)))
                    (exec tsd_runtime_safety_write_enter (ps_world p)))) in
  quiet p (p <| ps_world := w' |>) /\ outside_guard w' = outside_guard (ps_world p) /\
  stopping_of w' = false /\ is_owner w' = true.
Proof.
  intros Hrc Hs. cbv zeta. split.
  - pose proof (bracket_quiet (tsd_runtime_set_owner_tid_locked (w_self_tid (ps_world p)) ;;; tsd_runtime_set_stopping_locked false)
      p Hrc) as H. unfold exec in *. rewrite bind_run in H. apply H; [| |done].
    + apply respects_bind; [exact _ | by intros w | intros _; by intros w].
    + apply respects_bind; [exact _ | by intros w | intros _; by intros w].
  - unfold exec. set (w1 := (tsd_runtime_safety_write_enter (ps_world p)).2).
    pose proof (guard_frame_write_enter (ps_world p)) as F1. fold w1 in F1.
    match goal with |- context [tsd_runtime_safety_write_leave ?x] => set (w2 := x) end.
    pose proof (guard_frame_write_leave w2) as F2. pose proof (keeps_stopping_write_leave w2) as Hst.
    pose proof (patch_frame_write_leave w2) as Hpf.
    split; [rewrite <- F2, F1; done|]. split; [by rewrite <- Hst|].
    assert (E : g_runtime_owner_tid (w_guard (tsd_runtime_safety_write_leave w2).2) = g_runtime_owner_tid (w_guard w2))
      by (unfold patch_frame, outside_patch in Hpf; congruence).
    assert (Et : w_self_tid (tsd_runtime_safety_write_leave w2).2 = w_self_tid (ps_world p)).
    { unfold guard_frame, outside_guard in F1, F2. assert (w_self_tid w2 = w_self_tid w1) by done. congruence. }
    unfold is_owner. rewrite E, Et. change (g_runtime_owner_tid (w_guard w2)) with (if w_self_tid (ps_world p) >? 0 then w_self_tid (ps_world p) else 0).
    destruct (w_self_tid (ps_world p) >? 0) eqn:Eg; zbool; [|done]. by rewrite Z.eqb_refl, orb_true_r.
Qed.

Lemma outer_eqs s s' :
  outer s' = outer s ->
  ls_impls s' = ls_impls s /\ ls_active s' = ls_active s /\ ls_next_pointer s' = ls_next_pointer s /\
  ls_runtime_lock s' = ls_runtime_lock s /\ ls_relock s' = ls_relock s /\ ls_dangling s' = ls_dangling s.
Proof. unfold outer. intros E. split_and!; congruence. Qed.

(** Selecting SSE4.1 when it is not selected: the context is untouched. *)
Lemma to_sse_system p :
  system_inv (ps_world p) ->
  wp select_sse
     (fun rc p' => quiet p p' /\ (rc = 0 -> width_of p' = SIMD_SSE41) /\
                   outside_patch (ps_world p') = outside_patch (ps_world p)) p.
Proof.
  intros Hi. unfold select_sse. apply wp_bind. unfold wp at 1. change (lift tsd_trampoline_state_current_width) with current_width.
  rewrite width_result by exact Hi. pose proof (idle_width p) as Hid. pose proof (idle_quiet _ _ Hid) as Hq.
  destruct (idle_view _ _ Hid) as [_ Hw]. assert (Ho : outside_patch (ps_world (current_width p).2) = outside_patch (ps_world p))
    by (destruct Hid as (n & e & ->); done).
  set (p1 := (current_width p).2) in *. clearbody p1. destruct (width_of p =? SIMD_SSE41) eqn:E; zbool; cbn [negb].
  - apply wp_ret. split; [done|]. split; [congruence | done].
  - pose proof (quiet_patch SIMD_SSE41 p1) as Hq2. pose proof (patch_keeps SIMD_SSE41 (ps_world p1)) as Hf.
    destruct (patch_width_run SIMD_SSE41 p1 (proj2 Hq Hi)) as (_ & _ & Hc).
    unfold wp. split; [by transitivity p1|]. split.
    + intros Hrc. destruct Hc as [(_ & ?)|(Hrc' & _)]; [done|]. unfold patch in Hrc'. rewrite Hrc in Hrc'. done.
    + rewrite <- Ho. unfold patch_frame in Hf. rewrite lift_run. by rewrite Hf.
Qed.

Lemma launch_run runtime s0 s :
  mode_inv (ls_p s) -> ls_impls s = <[runtime := mkImpl true false false]> (ls_impls s0) ->
  ls_impls s0 !! runtime = None -> runtime <> 0 -> runtime = ls_next_pointer s0 -> ls_active s = 0 ->
  wp (launch runtime) (start_post s0) s.
Proof.
  intros Hi Him Hfresh Hnz Hptr Ha.
  assert (Habandon : forall s1 r, mode_inv (ls_p s1) -> ls_active s1 = 0 ->
            (ls_impls s1 = ls_impls s \/ ls_impls s1 = alter (fun r => r <| ri_monitor_started := true |>) runtime (ls_impls s)) ->
            (forall s2, ls_runtime_lock s2 = false -> ls_active s2 = 0 -> ls_impls s2 = ls_impls s0 -> at_rest (ls_p s2) -> wp r (start_post s0) s2) ->
            wp (abandon_start runtime ;;; r) (start_post s0) s1).
  { intros s1 r H1 H2 H3 Hr. apply wp_bind. unfold wp at 1. destruct (abandon_run s1 runtime H1) as (E1 & E2 & E3 & E4). unfold exec in *.
    apply Hr; [done | congruence | | done]. rewrite E2.
    destruct H3 as [-> | ->]; rewrite Him, ?alter_insert_eq, delete_insert_id by done; done. }
  assert (Hfail : forall s2, ls_runtime_lock s2 = false -> ls_active s2 = 0 -> ls_impls s2 = ls_impls s0 -> at_rest (ls_p s2) ->
            wp (ret (-1, 0)) (start_post s0) s2) by (intros s2 ? ? ? ?; apply wp_ret; split; [done | by right]).
  unfold launch. apply step_p. intros s1 O1 E1. apply outer_eqs in O1 as (I1 & A1 & _).
  destruct (to_sse_system (ls_p s) (mi_system _ Hi)) as (Hq1 & Hw1 & _). rewrite <- E1 in Hq1, Hw1. pose proof (quiet_inv _ _ Hq1 Hi) as H1.
  set (rc := (select_sse (ls_p s)).1) in *. clearbody rc. destruct (rc =? 0) eqn:Erc; cbn [negb]; zbool.
  2: { apply Habandon; [done | congruence | left; congruence | done]. }
  specialize (Hw1 Erc). apply step_w. intros s2 O2 E2. apply outer_eqs in O2 as (I2 & A2 & _).
  apply step_w. intros s3 O3 E3. apply outer_eqs in O3 as (I3 & A3 & _).
  apply step_w. intros s4 O4 E4. apply outer_eqs in O4 as (I4 & A4 & _).
  assert (Q2 : quiet (ls_p s1) (ls_p s2)) by (rewrite E2; by apply quiet_flags).
  assert (Q3 : quiet (ls_p s2) (ls_p s3)) by (rewrite E3; by apply quiet_flags).
  assert (Q4 : quiet (ls_p s3) (ls_p s4)) by (rewrite E4; apply quiet_lift, keeps_ext).
  assert (H4 : mode_inv (ls_p s4)) by (apply (quiet_inv _ _ Q4), (quiet_inv _ _ Q3), (quiet_inv _ _ Q2), H1).
  assert (W4 : width_of (ls_p s4) = SIMD_SSE41) by (rewrite E4, E3, E2, !lift_run; exact Hw1).
  assert (R4 : w_running (ps_world (ls_p s4)) = true /\ w_stop_requested (ps_world (ls_p s4)) = false)
    by (rewrite E4, E3, E2, !lift_run; done).
  set (err := (ext le_create (world_of s3)).1) in *. clearbody err. clear E1 E2 E3 E4 Q2 Q3 Q4 Hq1.
  destruct (err =? 0) eqn:Eerr; cbn [negb]; zbool.
  2: { apply step_w. intros s5 O5 E5. apply outer_eqs in O5 as (I5 & A5 & _).
       apply Habandon; [rewrite E5; apply (quiet_inv (ls_p s4)); [by apply quiet_flags | done] | congruence | left; congruence|].
       intros s6 L6 A6 I6 P6. unfold lfail. apply step_w. intros s7 O7 E7. apply outer_eqs in O7 as (I7 & A7 & _ & L7 & _).
       apply Hfail; [congruence | congruence | congruence|]. rewrite E7. apply (at_rest_quiet (ls_p s6)); [apply quiet_lift, keeps_fail | done]. }
  apply wp_bind, wp_modify. set (s5 := s4 <| ls_impls ::= _ |>).
  assert (I5 : ls_impls s5 = alter (fun r => r <| ri_monitor_started := true |>) runtime (ls_impls s)) by (unfold s5; cbn; congruence).
  assert (A5 : ls_active s5 = 0) by (unfold s5; cbn; congruence). assert (P5 : ls_p s5 = ls_p s4) by done.
  rewrite <- P5 in H4, W4, R4. clearbody s5. clear P5 I1 I2 I3 I4 A1 A2 A3 A4 s1 s2 s3 s4 Hw1 H1.
  apply step_w. intros s6 O6 E6. apply outer_eqs in O6 as (I6 & A6 & _ & _).
  destruct (_ =? 0) eqn:Ee; cbn [negb]; zbool.
  2: { apply step_w. intros s7 O7 E7. apply step_w. intros s8 O8 E8. apply outer_eqs in O7 as (I7 & A7 & _). apply outer_eqs in O8 as (I8 & A8 & _).
       apply Habandon; [|congruence|right; by rewrite I8, I7, I6, I5|done].
       rewrite E8. apply (quiet_inv (ls_p s7)); [apply quiet_lift, keeps_ext|]. rewrite E7. apply (quiet_inv (ls_p s6)); [by apply quiet_flags|].
       rewrite E6. apply (quiet_inv (ls_p s5)); [|done]. rewrite lift_run. cbn [snd].
       destruct (bracket_refused (world_of s5) (mi_system _ H4) Ee) as (B1 & B2 & _). split; [|done].
       unfold core. cbn. unfold exec, outside_guard in B2. pose proof (published_write_enter (world_of s5)) as Bp. cbv beta in Bp.
       unfold world_of in *. rewrite <- Bp. assert (Bd : w_degraded (tsd_runtime_safety_write_enter (ps_world (ls_p s5))).2 = w_degraded (ps_world (ls_p s5))) by congruence.
       by rewrite Bd. }
  apply step_w. intros s7 O7 E7. apply step_w. intros s8 O8 E8. apply step_w. intros s9 O9 E9. apply step_w. intros s10 O10 E10.
  apply outer_eqs in O7 as (I7 & A7 & _). apply outer_eqs in O8 as (I8 & A8 & _). apply outer_eqs in O9 as (I9 & A9 & _).
  apply outer_eqs in O10 as (I10 & A10 & _).
  destruct (publish_owner (ls_p s5) Ee (mi_system _ H4)) as (Hq & Hout & Hst & Hown).
  assert (Htid : (current_tid (world_of s6)).1 = w_self_tid (ps_world (ls_p s5))).
  { unfold world_of. rewrite E6, lift_run. cbn. pose proof (guard_frame_write_enter (ps_world (ls_p s5))) as F.
    unfold guard_frame, outside_guard in F. congruence. }
  assert (Ep : ls_p s10 = (ls_p s5) <| ps_world := exec tsd_runtime_safety_write_leave
              (exec (tsd_runtime_set_stopping_locked false)
                 (exec (tsd_runtime_set_owner_tid_locked (w_self_tid (ps_world (ls_p s5))))
                    (exec tsd_runtime_safety_write_enter (ps_world (ls_p s5))))) |>).
  { rewrite E10, E9, E8, E7, E6, Htid, !lift_run. done. }
  rewrite <- Ep in Hq. assert (Ew : world_of s10 = exec tsd_runtime_safety_write_leave
              (exec (tsd_runtime_set_stopping_locked false)
                 (exec (tsd_runtime_set_owner_tid_locked (w_self_tid (ps_world (ls_p s5))))
                    (exec tsd_runtime_safety_write_enter (ps_world (ls_p s5)))))) by (unfold world_of; by rewrite Ep).
  rewrite <- Ew in Hout, Hst, Hown. unfold outside_guard in Hout. clear Ep Ew E6 E7 E8 E9 E10 Htid.
  apply wp_bind, wp_modify, wp_bind, wp_modify, wp_ret. split; [done|]. left. cbn [fst snd].
  assert (Himpls : ls_impls s10 = <[runtime := mkImpl true true false]> (ls_impls s0))
    by (rewrite I10, I9, I8, I7, I6, I5, Him, alter_insert_eq; done).
  split; [done|]. split; [done|]. split; [|done]. split; cbn; try done.
  - by rewrite Himpls, lookup_insert_eq.
  - by apply (quiet_inv (ls_p s5)).
  - rewrite <- W4. unfold width_of. assert (Et : w_tramp (world_of s10) = w_tramp (ps_world (ls_p s5))) by congruence. unfold world_of in Et. by rewrite Et.
  - assert (Er : w_running (world_of s10) = w_running (ps_world (ls_p s5))) by congruence.
    assert (Es : w_stop_requested (world_of s10) = w_stop_requested (ps_world (ls_p s5))) by congruence.
    unfold world_of in *. cbn. rewrite Er, Es. exact R4.
Qed.

Lemma exec_bind {W A B} (m : ST W A) (k : ST W B) w : exec (m ;;; k) w = exec k (exec m w).
Proof. unfold exec. by rewrite bind_run. Qed.

Lemma lift_exec {A} (m : M A) p : (lift m p).2 = p <| ps_world := exec m (ps_world p) |>.
Proof. unfold lift, exec. by destruct (m (ps_world p)). Qed.

Lemma lift_lift {A B} (m : M A) (k : M B) p : (lift k (lift m p).2).2 = (lift (m ;;; k) p).2.
Proof. rewrite !lift_exec, exec_bind. done. Qed.

(** The bracket that marks the runtime as stopping while it starts. *)
Lemma reset_bracket p :
  (tsd_runtime_safety_write_enter (ps_world p)).1 = 0 -> at_rest p ->
  at_rest (p <| ps_world := exec tsd_runtime_safety_write_leave (exec tsd_runtime_config_reset_dynamic_state
             (exec (tsd_runtime_set_owner_tid_locked 0) (exec (tsd_runtime_set_stopping_locked true)
                (exec tsd_runtime_safety_write_enter (ps_world p))))) |>).
Proof.
  intros Hrc (H1 & H2 & H3). split; [done|]. split; [done|].
  destruct (bracket_inv (tsd_runtime_set_stopping_locked true ;;; tsd_runtime_set_owner_tid_locked 0 ;;; tsd_runtime_config_reset_dynamic_state)
    (ps_world p) H3 Hrc) as [H _].
  - apply respects_bind; [exact _ | by intros w | intros _]. apply respects_bind; [exact _ | by intros w | intros _; by intros w].
  - apply respects_bind; [exact _ | by intros w | intros _]. apply respects_bind; [exact _ | by intros w | intros _; by intros w].
  - rewrite !exec_bind in H. exact H.
Qed.

Lemma at_rest_refused p :
  (tsd_runtime_safety_write_enter (ps_world p)).1 <> 0 -> at_rest p ->
  at_rest (lift tsd_runtime_safety_write_enter p).2.
Proof.
  intros Hrc (H1 & H2 & H3). rewrite lift_run. split; [done|]. split; [done|]. by apply bracket_refused.
Qed.

Lemma start_run workload s0 :
  heap_ok s0 -> ls_active s0 = 0 -> ls_runtime_lock s0 = false -> at_rest (ls_p s0) ->
  wp (tsd_runtime_start_impl workload) (start_post s0) s0.
Proof.
  intros [Hptr Hheap] Ha Hl Hp. unfold tsd_runtime_start_impl. apply step_lock; [done|]. intros rc0 s1 Q1 O1.
  apply outer_eqs in O1 as (I1 & A1 & N1 & _). cbn in I1, A1, N1.
  pose proof (at_rest_quiet _ _ Q1 Hp) as P1. apply wp_bind, wp_gets. rewrite A1, Ha. cbn [Z.eqb negb].
  apply step_p. intros s2 O2 E2. apply outer_eqs in O2 as (I2 & A2 & N2 & _).
  assert (P2 : at_rest (ls_p s2)) by (rewrite E2; by apply prereq_at_rest).
  destruct (_ <>? 0); [apply unlock_fail; [congruence.. | done]|]. apply step_w. intros s3 O3 E3. apply outer_eqs in O3 as (I3 & A3 & N3 & _).
  destruct (_ =? 0) eqn:Ee; cbn [negb]; zbool.
  2: { apply unlock_fail; [congruence..|]. rewrite E3. by apply at_rest_refused. }
  apply step_w. intros s4 O4 E4. apply step_w. intros s5 O5 E5. apply step_w. intros s6 O6 E6. apply step_w. intros s7 O7 E7.
  apply outer_eqs in O4 as (I4 & A4 & N4 & _). apply outer_eqs in O5 as (I5 & A5 & N5 & _).
  apply outer_eqs in O6 as (I6 & A6 & N6 & _). apply outer_eqs in O7 as (I7 & A7 & N7 & _).
  assert (P7 : at_rest (ls_p s7)).
  { pose proof (reset_bracket (ls_p s2) Ee P2) as H. by rewrite E7, E6, E5, E4, E3, !lift_lift, lift_exec, !exec_bind. }
  assert (Ia : ls_impls s7 = ls_impls s0) by congruence. assert (Aa : ls_active s7 = 0) by congruence.
  assert (Na : ls_next_pointer s7 = ls_next_pointer s0) by congruence.
  clear E2 E3 E4 E5 E6 E7 I1 I2 I3 I4 I5 I6 I7 A1 A2 A3 A4 A5 A6 A7 N1 N2 N3 N4 N5 N6 N7 P1 P2 Q1 Ee Hp.
  unfold calloc_pointer. apply wp_bind, step_w. intros s8 O8 E8. apply outer_eqs in O8 as (I8 & A8 & N8 & _).
  assert (P8 : at_rest (ls_p s8)) by (rewrite E8; apply (at_rest_quiet (ls_p s7)); [apply quiet_lift, keeps_ext | done]).
  destruct (negb _).
  { apply step_w. intros s9 O9 E9. apply outer_eqs in O9 as (I9 & A9 & _). apply wp_ret. cbn [Z.eqb].
    apply unlock_fail; [congruence..|]. rewrite E9. apply (at_rest_quiet (ls_p s8)); [apply quiet_lift, keeps_errno | done]. }
  apply wp_bind, wp_gets, wp_bind, wp_modify, wp_ret. set (s9 := s8 <| ls_next_pointer ::= _ |>).
  assert (Hn : ls_next_pointer s8 = ls_next_pointer s0) by congruence. rewrite Hn.
  rewrite (proj2 (Z.eqb_neq _ 0)) by lia. apply step_p. intros s10 O10 E10. apply outer_eqs in O10 as (I10 & A10 & _).
  pose proof (init_cases workload (ls_p s9) P8) as Hinit. unfold wp in Hinit. rewrite <- E10 in Hinit.
  assert (Ib : ls_impls s10 = ls_impls s0) by (rewrite I10; change (ls_impls s9) with (ls_impls s8); congruence).
  assert (Ab : ls_active s10 = 0) by (rewrite A10; change (ls_active s9) with (ls_active s8); congruence).
  destruct (tsd_perf_init workload (ls_p s9)).1; cbn [negb]; [|by apply unlock_fail].
  apply wp_bind, wp_modify. set (s11 := s10 <| ls_impls ::= _ |>). apply step_p. intros s12 O12 E12. apply outer_eqs in O12 as (I12 & A12 & _).
  apply wp_bind.
  match goal with |- wp (when ?b _) _ _ => destruct b end; cbn [when].
  - apply wp_on_p. unfold wp at 1. set (s13 := s12 <| ls_p := _ |>).
    assert (H13 : mode_inv (ls_p s13)) by (unfold s13; cbn; apply keeps_enable; rewrite E12; exact Hinit).
    apply step_w. intros s14 O14 E14. apply outer_eqs in O14 as (I14 & A14 & _).
    apply step_p. intros s15 O15 E15. apply outer_eqs in O15 as (I15 & A15 & _).
    apply launch_run; try done; try lia.
    + rewrite E15. apply keeps_baseline. rewrite E14. apply (quiet_inv (ls_p s13)); [apply quiet_lift, keeps_gets | done].
    + rewrite I15, I14. change (ls_impls s13) with (ls_impls s12). rewrite I12. unfold s11. cbn. by rewrite Ib.
    + apply Hheap. lia.
    + rewrite A15, A14. change (ls_active s13) with (ls_active s12). by rewrite A12.
  - apply wp_ret, step_w. intros s14 O14 E14. apply outer_eqs in O14 as (I14 & A14 & _).
    apply step_p. intros s15 O15 E15. apply outer_eqs in O15 as (I15 & A15 & _).
    apply launch_run; try done; try lia.
    + rewrite E15. apply keeps_baseline. rewrite E14. apply (quiet_inv (ls_p s12)); [apply quiet_lift, keeps_gets|]. rewrite E12. exact Hinit.
    + rewrite I15, I14, I12. unfold s11. cbn. by rewrite Ib.
    + apply Hheap. lia.
    + by rewrite A15, A14, A12.
Qed.

(** ** Stopping *)

(** The context of a runtime object, by whether it still has one. *)
Definition ctx_ok (perf : bool) (p : pstate) : Prop := if perf then mode_inv p else at_rest p.

Lemma ctx_ok_quiet b p p' : quiet p p' -> ctx_ok b p -> ctx_ok b p'.
Proof. intros Hq. destruct b; [by apply quiet_inv | by apply at_rest_quiet]. Qed.

Lemma ctx_ok_system b p : ctx_ok b p -> system_inv (ps_world p).
Proof. destruct b; [apply mi_system | by intros (_ & _ & ?)]. Qed.

(** What waiting for quiescence changes. *)
Definition waited (w w' : world) : Prop :=
  exists n e a, w' = w <| w_calls := n |> <| w_errno := e |>
                       <| w_guard ::= fun g => g <| g_active_wide_executions := a |> |>.

Lemma drain_waits fuel w r w' :
  w_locks w = no_locks <| l_wide_drain := true |> -> drain_loop fuel w = (Some r, w') ->
  exists w1, waited w w1 /\ w' = w1 <| w_locks := no_locks |>.
Proof.
  revert w. induction fuel as [|fuel IH]; intros w Hl; [done|].
  cbn [drain_loop]. rewrite bind_run. cbn [gets fst snd].
  destruct (g_active_wide_executions (w_guard w) =? 0) eqn:E; cbn [negb].
  - intros [= _ <-]. exists w. split; [by exists (w_calls w), (w_errno w), (g_active_wide_executions (w_guard w)); destruct w as [? ? ? ? ? g]; destruct g|].
    destruct w as [? ? ? lk]; cbn in Hl; subst lk. done.
  - rewrite bind_run. cbn [ext fst snd]. destruct (env_cond_wait (w_calls w)) as [rc found]. rewrite bind_run. destruct (rc =? 0); cbn [negb].
    + intros Hrun. apply IH in Hrun as (w1 & (n & e & a & ->) & ->); [|exact Hl].
      eexists. split; [|reflexivity]. exists n, e, a. by destruct w as [? ? ? ? ? g]; destruct g.
    + intros [= _ <-]. eexists (w <| w_calls := S (w_calls w) |> <| w_errno := rc |> <| w_guard ::= fun g => g <| g_active_wide_executions := found |> |>).
      split; [by exists (S (w_calls w)), rc, found; destruct w as [? ? ? ? ? g]; destruct g|].
      destruct w as [? ? ? lk]; cbn in Hl; subst lk. done.
Qed.

Lemma quiescence_waits fuel w r w' :
  system_inv w -> tsd_runtime_wait_for_wide_quiescence fuel w = (Some r, w') -> waited w w' /\ (r = 0 -> active_of w' = 0).
Proof.
  intros [[[Hl Hd] _] _]. unfold tsd_runtime_wait_for_wide_quiescence. rewrite bind_run.
  cbn [gets fst snd tsd_runtime_current_thread_in_wide_execution].
  assert (Hrefl : forall e n, waited w (w <| w_calls := n |> <| w_errno := e |>)).
  { intros e n. exists n, e, (g_active_wide_executions (w_guard w)). by destruct w as [? ? ? ? ? g]; destruct g. }
  destruct (g_wide_execution_depth (w_guard w) =? 0); cbn [negb].
  2: { intros [= <- <-]. split; [|done]. specialize (Hrefl EDEADLK (w_calls w)). by destruct w. }
  rewrite bind_run. destruct (lock_run g_tsd_wide_drain_lock w) as [(e & He & ->) | -> ]; cbn [fst snd].
  { rewrite (proj2 (Z.eqb_neq e 0)) by done. cbn [negb]. intros [= <- <-]. split; [|done]. specialize (Hrefl e (S (w_calls w))). by destruct w. }
  cbn [Z.eqb negb]. intros Hrun. pose proof (drain_loop_sound _ _ _ _ Hrun) as (Hz & _).
  apply drain_waits in Hrun as (w1 & (n & e & a & ->) & ->); [|cbn; by rewrite Hl]. split; [|exact Hz].
  exists n, e, a. destruct w as [? ? ? lk dl g]. cbn in Hl, Hd. subst lk dl. by destruct g.
Qed.

Lemma quiet_waited p w' : waited (ps_world p) w' -> quiet p (p <| ps_world := w' |>).
Proof.
  intros (n & e & a & ->). split; [done|]. intros [Hg Ht]. split; [|done]. eapply guard_inv_frame; [..|exact Hg]; done.
Qed.

(** The last bracket of a stop. *)
Lemma release_bracket p :
  (tsd_runtime_safety_write_enter (ps_world p)).1 = 0 -> at_rest p ->
  let body := tsd_runtime_set_owner_tid_locked 0 ;;; tsd_runtime_config_reset_dynamic_state ;;; tsd_runtime_set_stopping_locked false in
  let w' := exec tsd_runtime_safety_write_leave (exec body (exec tsd_runtime_safety_write_enter (ps_world p))) in
  at_rest (p <| ps_world := w' |>) /\ w_tramp w' = w_tramp (ps_world p) /\ w_running w' = w_running (ps_world p) /\
  w_degraded w' = false /\ stopping_of w' = false.
Proof.
  intros Hrc (H1 & H2 & H3). cbv zeta.
  match goal with |- context [exec ?b (exec tsd_runtime_safety_write_enter _)] => set (body := b) end.
  destruct (bracket_inv body (ps_world p) H3 Hrc) as [Hi Ht].
  { apply respects_bind; [exact _ | by intros w | intros _]. apply respects_bind; [exact _ | by intros w | intros _; by intros w]. }
  { apply respects_bind; [exact _ | by intros w | intros _]. apply respects_bind; [exact _ | by intros w | intros _; by intros w]. }
  split; [done|]. split; [done|]. set (w1 := exec tsd_runtime_safety_write_enter (ps_world p)) in *.
  pose proof (guard_frame_write_enter (ps_world p)) as F1. fold (exec tsd_runtime_safety_write_enter (ps_world p)) in F1. fold w1 in F1.
  pose proof (guard_frame_write_leave (exec body w1)) as F2. fold (exec tsd_runtime_safety_write_leave (exec body w1)) in F2.
  pose proof (keeps_stopping_write_leave (exec body w1)) as Hst. fold (exec tsd_runtime_safety_write_leave (exec body w1)) in Hst. cbv beta in Hst.
  unfold guard_frame, outside_guard in F1, F2.
  assert (B : w_running (exec body w1) = w_running w1 /\ w_degraded (exec body w1) = false /\ stopping_of (exec body w1) = false).
  { unfold body. rewrite !exec_bind. done. }
  destruct B as (B1 & B2 & B3). split_and!; congruence.
Qed.

(** What keeps the life-cycle flags. *)
Definition flags_kept (w w' : world) : Prop := (w_running w', stopping_of w') = (w_running w, stopping_of w).
#[export] Instance flags_kept_preorder : PreOrder flags_kept.
Proof. split; [done|]. unfold flags_kept. congruence. Qed.

Definition calm (p p' : pstate) : Prop := flags_kept (ps_world p) (ps_world p').
#[export] Instance calm_preorder : PreOrder calm.
Proof. split; [done|]. unfold calm, flags_kept. congruence. Qed.

Lemma calm_lift {A} (m : M A) : respects flags_kept m -> respects calm (lift m).
Proof. intros Hm p. unfold calm. rewrite lift_run. apply Hm. Qed.

Lemma calm_update t : respects flags_kept (tsd_observability_update_perf (Some t)).
Proof.
  intros w. pose proof (run_guard_op_frame (GUpdatePerf (Some t)) w) as Hf.
  pose proof (run_guard_op_keeps_stopping (GUpdatePerf (Some t)) I w) as Hs. cbv beta in Hs.
  unfold guard_frame, outside_guard in Hf. cbn [run_guard_op] in *. unfold flags_kept. congruence.
Qed.

Lemma calm_telemetry {A} (m : M A) : respects telemetry_keeps m -> respects flags_kept m.
Proof. intros Hm w. apply Hm. Qed.

Lemma calm_cleanup : respects calm tsd_perf_cleanup.
Proof.
  unfold tsd_perf_cleanup, tsd_perf_disable, close_perf_events, publish_perf_state, restore_owner_affinity, perf_ioctl,
    close_fd, ctx_get, ctx_set.
  repeat first [ apply calm_lift, calm_telemetry, helper_destroy_keeps | apply calm_lift, calm_telemetry, fusion_stop_keeps
               | apply calm_lift, calm_update | (apply calm_lift; intros w; reflexivity)
               | (intros p; reflexivity) | respects_step ].
Qed.

(** What a stop ends in, from [s0]: the runtime is gone and the process rests
    on SSE4.1; or it is still installed with a context to clean up, wide
    execution is still refused if it already was, and the stop can be called
    again unless the life-cycle mutex itself failed. *)
Record stopped (s0 s : lstate) (runtime : Z) : Prop := {
  sp_active : ls_active s = 0;
  sp_object : ls_impls s = delete runtime (ls_impls s0);
  sp_rest : at_rest (ls_p s);
  sp_width : width_of (ls_p s) = SIMD_SSE41;
  sp_flags : (w_running (world_of s), stopping_of (world_of s), w_degraded (world_of s)) = (false, false, false);
}.

Record stop_pending (s : lstate) (runtime : Z) : Prop := {
  pd_active : ls_active s = runtime;
  pd_object : exists o, ls_impls s !! runtime = Some o /\ ctx_ok (ri_perf o) (ls_p s) /\
                (ri_stop_in_progress o = true -> exists n, env_lock n <> 0);
}.

Definition closed (s : lstate) : Prop := w_running (world_of s) = false /\ stopping_of (world_of s) = true.

Definition stop_post (s0 : lstate) (runtime : Z) (r : Z) (s : lstate) : Prop :=
  ls_runtime_lock s = false /\ ls_dangling s = ls_dangling s0 /\
  ((r = 0 /\ stopped s0 s runtime) \/ (r = -1 /\ stop_pending s runtime /\ closed s)).

(** A stop under way: the flags are down and the object is marked. *)
Record stopping (s0 s : lstate) (runtime : Z) (o : runtime_impl) : Prop := {
  sg_active : ls_active s = runtime;
  sg_lock : ls_runtime_lock s = false;
  sg_dangling : ls_dangling s = ls_dangling s0;
  sg_object : ls_impls s = <[runtime := o]> (ls_impls s0);
  sg_context : ctx_ok (ri_perf o) (ls_p s);
  sg_closed : closed s;
}.

(** A quiet step that keeps the flags. *)
Lemma stopping_step s0 s s' runtime o :
  quiet (ls_p s) (ls_p s') -> calm (ls_p s) (ls_p s') -> outer s' = outer s -> stopping s0 s runtime o -> stopping s0 s' runtime o.
Proof.
  intros Hq Hc Ho [H1 H2 H3 H4 H5 [H6 H7]]. apply outer_eqs in Ho as (E1 & E2 & _ & E4 & _ & E6).
  unfold calm, flags_kept in Hc. assert (Ew : w_running (world_of s') = w_running (world_of s)) by (unfold world_of; congruence).
  assert (Es : stopping_of (world_of s') = stopping_of (world_of s)) by (unfold world_of; congruence).
  split; try congruence; [by apply (ctx_ok_quiet _ (ls_p s)) | split; congruence].
Qed.

Lemma stopping_fail s0 s runtime o e :
  stopping s0 s runtime o -> ri_stop_in_progress o = false -> wp (lfail e) (stop_post s0 runtime) s.
Proof.
  intros Hs Ho. unfold lfail, on_w, wp. rewrite on_p_run. cbn [fst snd].
  assert (H : stopping s0 (s <| ls_p := (lift (fail e) (ls_p s)).2 |>) runtime o).
  { apply (stopping_step s0 s); [apply quiet_lift, keeps_fail | rewrite lift_run; done | done | done]. }
  destruct H as [H1 H2 H3 H4 H5 H6]. split; [done|]. split; [done|]. right. rewrite lift_run. split; [done|].
  rewrite lift_run in H1, H4, H5, H6. split; [|done]. split; [done|]. exists o. rewrite H4, lookup_insert_eq.
  split; [done|]. split; [done|]. by rewrite Ho.
Qed.

(** Changing the marked object. *)
Lemma stopping_write s0 s runtime o f :
  stopping s0 s runtime o -> ctx_ok (ri_perf (f o)) (ls_p s) ->
  stopping s0 (s <| ls_impls ::= alter f runtime |>) runtime (f o).
Proof. intros [H1 H2 H3 H4 H5 H6] Hc. split; try done. cbn. by rewrite H4, alter_insert_eq. Qed.

(** Taking the life-cycle mutex during a stop. *)
Lemma stopping_lock {B} s0 s runtime o (k : Z -> LM B) Q :
  stopping s0 s runtime o ->
  (forall rc s', stopping s0 (s' <| ls_runtime_lock := false |>) runtime o -> width_of (ls_p s') = width_of (ls_p s) ->
     (rc <> 0 -> ls_runtime_lock s' = false /\ exists n, env_lock n <> 0) -> wp (k rc) Q s') ->
  wp (bind lock_runtime k) Q s.
Proof.
  intros Hs Hk. pose proof (sg_lock _ _ _ _ Hs) as Hl. unfold lock_runtime. apply wp_bind, wp_bind. unfold wp at 1, on_w.
  rewrite on_p_run, lift_run. cbn [fst snd ext]. set (s1 := s <| ls_p := _ |>).
  assert (H1 : stopping s0 s1 runtime o).
  { apply (stopping_step s0 s); [|done..]. unfold s1. cbn.
    pose proof (quiet_lift _ (keeps_ext env_lock) (ls_p s)) as Hq. rewrite lift_run in Hq. exact Hq. }
  set (rc := env_lock (w_calls (ps_world (ls_p s)))) in *. destruct (rc =? 0) eqn:E; zbool.
  - apply wp_bind, wp_modify, wp_ret, Hk; [|done | done]. destruct H1 as [A1 A2 A3 A4 A5 A6]. by split.
  - apply wp_ret, Hk; [|done | intros _; split; [apply H1 | by eexists]]. destruct H1 as [A1 A2 A3 A4 A5 A6]. by split.
Qed.

Lemma retry_run s0 s runtime o err :
  stopping s0 s runtime o -> wp (retry_later runtime err) (stop_post s0 runtime) s.
Proof.
  intros Hs. unfold retry_later. apply (stopping_lock s0 s runtime o); [done|]. intros rc s1 H1 _ _.
  apply wp_bind, wp_gets. pose proof (sg_active _ _ _ _ H1) as Ha. cbn in Ha. rewrite Ha, Z.eqb_refl. cbn [when].
  apply wp_bind, wp_modify, wp_bind, wp_modify. set (o' := o <| ri_stop_in_progress := false |>).
  apply (stopping_fail s0 _ runtime o'); [|done].
  pose (f := fun r : runtime_impl => r <| ri_stop_in_progress := false |>).
  destruct (stopping_write s0 _ runtime o f H1 (sg_context _ _ _ _ H1)) as [A1 A2 A3 A4 A5 A6].
  split; [exact A1 | done | exact A3 | cbn in A4 |- *; exact A4 | exact A5 | exact A6].
Qed.

Lemma stopping_errno s0 s runtime o :
  stopping s0 s runtime o -> wp (saved_errno) (fun _ s' => stopping s0 s' runtime o) s.
Proof.
  intros Hs. unfold saved_errno. apply step_w. intros s1 O1 E1. apply wp_ret.
  apply (stopping_step s0 s); rewrite ?E1; [apply quiet_lift, keeps_gets | rewrite lift_run; done | done | done].
Qed.

Lemma stopping_retry s0 s runtime o :
  stopping s0 s runtime o ->
  wp (err <- saved_errno ;; rc <- retry_later runtime err ;; ret (Some rc))
     (fun r s' => exists rc, r = Some rc /\ stop_post s0 runtime rc s') s.
Proof.
  intros Hs. apply wp_bind. eapply wp_mono; [by eapply stopping_errno|]. cbv beta. intros err s1 H1.
  apply wp_bind. eapply wp_mono; [by eapply retry_run|]. cbv beta. intros rc s2 H2. apply wp_ret. by exists rc.
Qed.

Lemma narrow_sse_cleanup p : mode_inv p -> width_of p = SIMD_SSE41 -> width_of (exec tsd_perf_cleanup p) = SIMD_SSE41.
Proof.
  intros Hi Hw. destruct (narrow_cleanup p (mi_system _ Hi)) as (_ & [E | E]); [|exact E].
  unfold width_of, exec in *. by rewrite E.
Qed.

(** Giving the context back. *)
Lemma stopping_cleanup s0 s runtime o :
  stopping s0 s runtime o -> width_of (ls_p s) = SIMD_SSE41 ->
  wp (when (ri_perf o) (on_p tsd_perf_cleanup ;;; write_impl runtime (fun r => r <| ri_perf := false |>)))
     (fun _ s' => stopping s0 s' runtime (o <| ri_perf := false |>) /\ width_of (ls_p s') = SIMD_SSE41) s.
Proof.
  intros Hs Hw. destruct (ri_perf o) eqn:Eo; cbn [when].
  2: { apply wp_ret. split; [|done]. destruct o; cbn in *. by subst. }
  pose proof (sg_context _ _ _ _ Hs) as Hc. rewrite Eo in Hc. cbn [ctx_ok] in Hc.
  apply step_p. intros s1 O1 E1. apply wp_modify. fold (exec tsd_perf_cleanup (ls_p s)) in E1.
  pose proof (cleanup_at_rest _ Hc) as Hr. pose proof (narrow_sse_cleanup _ Hc Hw) as Hw1. pose proof (calm_cleanup (ls_p s)) as Hcl.
  fold (exec tsd_perf_cleanup (ls_p s)) in Hcl. rewrite <- E1 in Hr, Hw1, Hcl. clear E1.
  destruct Hs as [H1 H2 H3 H4 H5 [H6 H7]]. apply outer_eqs in O1 as (I1 & A1 & _ & L1 & _ & D1).
  unfold calm, flags_kept in Hcl. split; [|done].
  split; cbn; [congruence | congruence | congruence | | done | split; unfold world_of in *; cbn; congruence].
  rewrite I1, H4, alter_insert_eq. done.
Qed.

(** The same with the mutex held. *)
Lemma stopping_cleanup_locked s0 s runtime o :
  stopping s0 (s <| ls_runtime_lock := false |>) runtime o -> width_of (ls_p s) = SIMD_SSE41 ->
  wp (when (ri_perf o) (on_p tsd_perf_cleanup ;;; write_impl runtime (fun r => r <| ri_perf := false |>)))
     (fun _ s' => stopping s0 (s' <| ls_runtime_lock := false |>) runtime (o <| ri_perf := false |>) /\
                  width_of (ls_p s') = SIMD_SSE41) s.
Proof.
  intros Hs Hw. pose proof (stopping_cleanup s0 _ runtime o Hs Hw) as H. revert H.
  destruct (ri_perf o); cbn [when]; [|unfold wp; cbn [ret fst snd]; intros [[A1 A2 A3 A4 A5 A6] Hw']; by split; [split|]]. unfold wp. rewrite !bind_run, !on_p_run.
  intros [[A1 A2 A3 A4 A5 A6] Hw']. split; [|exact Hw']. split; [exact A1 | done | exact A3 | exact A4 | exact A5 | exact A6].
Qed.

(** The last guard bracket, entered ([s1]) and left. *)
Lemma finish_release s0 s s1 runtime o :
  stopping s0 (s <| ls_runtime_lock := false |>) runtime o -> width_of (ls_p s) = SIMD_SSE41 -> at_rest (ls_p s) ->
  outer s1 = outer s -> ls_p s1 = (lift tsd_runtime_safety_write_enter (ls_p s)).2 ->
  (tsd_runtime_safety_write_enter (world_of s)).1 = 0 ->
  wp (on_w (tsd_runtime_set_owner_tid_locked 0) ;;;
      on_w tsd_runtime_config_reset_dynamic_state ;;;
      modify (fun s => s <| ls_active := 0 |>) ;;;
      free_impl runtime ;;;
      on_w (tsd_runtime_set_stopping_locked false) ;;;
      on_w tsd_runtime_safety_write_leave ;;;
      unlock_runtime ;;; ret 0) (stop_post s0 runtime) s1.
Proof.
  intros Hs Hw Hr O1 E1 Ee. destruct (release_bracket (ls_p s) Ee Hr) as (R1 & R2 & R3 & R4 & R5).
  destruct Hs as [H1 _ H3 H4 _ [H6 _]]. cbn in H1, H3, H4. unfold world_of in H6. cbn in H6.
  apply outer_eqs in O1 as (I1 & A1 & _ & _ & _ & D1).
  apply step_w. intros s2 O2 E2. apply outer_eqs in O2 as (I2 & A2 & _ & _ & _ & D2).
  apply step_w. intros s3 O3 E3. apply outer_eqs in O3 as (I3 & A3 & _ & _ & _ & D3).
  apply wp_bind, wp_modify, wp_bind, wp_modify.
  apply step_w. intros s5 O5 E5. apply outer_eqs in O5 as (I5 & A5 & _ & _ & _ & D5). cbn in I5, A5, D5. 
  apply step_w. intros s6 O6 E6. apply outer_eqs in O6 as (I6 & A6 & _ & _ & _ & D6).
  apply wp_bind, wp_modify, wp_ret.
  assert (Ep : ls_p s6 = (ls_p s) <| ps_world := exec tsd_runtime_safety_write_leave
       (exec (tsd_runtime_set_owner_tid_locked 0 ;;; tsd_runtime_config_reset_dynamic_state ;;; tsd_runtime_set_stopping_locked false)
          (exec tsd_runtime_safety_write_enter (ps_world (ls_p s)))) |>).
  { rewrite E6, E5. match goal with |- context [ls_p (over _ _ ?x)] => change (ls_p (over _ _ x)) with (ls_p s3) end. rewrite E3, E2, E1, !lift_lift, lift_exec, !exec_bind. done. }
  split; [done|]. split; [cbn; congruence|]. left. split; [done|]. split.
  - cbn. congruence.
  - cbn. rewrite I6, I5, I3, I2, I1, H4. by rewrite delete_insert_eq.
  - cbn. rewrite Ep. exact R1.
  - cbn. rewrite Ep, <- Hw. unfold width_of. exact (f_equal t_current_width R2).
  - unfold world_of. cbn. rewrite Ep. cbn [ps_world over]. cbv zeta in R3, R4, R5. rewrite R3, R4, R5, H6. done.
Qed.

Lemma finish_refused s0 s s1 runtime o :
  stopping s0 (s <| ls_runtime_lock := false |>) runtime o -> ri_perf o = false -> at_rest (ls_p s) ->
  outer s1 = outer s -> ls_p s1 = (lift tsd_runtime_safety_write_enter (ls_p s)).2 ->
  (tsd_runtime_safety_write_enter (world_of s)).1 <> 0 ->
  wp (err <- saved_errno ;;
      write_impl runtime (fun r => r <| ri_stop_in_progress := false |>) ;;;
      unlock_runtime ;;; lfail err) (stop_post s0 runtime) s1.
Proof.
  intros Hs Hp Hr O1 E1 Ee. pose proof (at_rest_refused _ Ee Hr) as R1. rewrite <- E1 in R1.
  destruct (bracket_refused (world_of s) (proj2 (proj2 Hr)) Ee) as (_ & B2 & B3). unfold outside_guard in B2.
  destruct Hs as [H1 _ H3 H4 _ [H6 H7]]. cbn in H1, H3, H4. unfold world_of in *. cbn in H6, H7.
  apply outer_eqs in O1 as (I1 & A1 & _ & _ & _ & D1). rewrite lift_run in E1.
  unfold saved_errno. apply wp_bind, step_w. intros s2 O2 E2. apply wp_ret.
  apply outer_eqs in O2 as (I2 & A2 & _ & _ & _ & D2). rewrite lift_run in E2.
  assert (E : ls_p s2 = ls_p s1) by (rewrite E2; by destruct (ls_p s1)).
  apply wp_bind, wp_modify, wp_bind, wp_modify.
  apply (stopping_fail s0 _ runtime (o <| ri_stop_in_progress := false |>)); [|done].
  split; cbn; [congruence | done | congruence | | | ].
  - rewrite I2, I1, H4, alter_insert_eq. done.
  - rewrite E, Hp. exact R1.
  - unfold closed, world_of. cbn. rewrite E, E1. cbn. unfold exec in B2, B3. split; congruence.
Qed.

Lemma finish_run s0 s runtime o :
  stopping s0 s runtime o -> ri_stop_in_progress o = true -> width_of (ls_p s) = SIMD_SSE41 ->
  wp (finish_stop runtime) (stop_post s0 runtime) s.
Proof.
  intros Hs Ho Hw. unfold finish_stop. apply (stopping_lock s0 s runtime o); [done|]. intros rc s1 H1 Hw1 _. rewrite Hw in Hw1.
  apply wp_bind, wp_gets. pose proof (sg_active _ _ _ _ H1) as Ha. cbn in Ha. rewrite Ha, Z.eqb_refl. cbn [negb orb].
  apply wp_bind. unfold read_impl. apply wp_bind, wp_gets. pose proof (sg_object _ _ _ _ H1) as Hi. cbn in Hi.
  rewrite Hi, lookup_insert_eq. apply wp_ret. rewrite Ho. cbn [negb].
  clear rc Hs Hw Ho Hi. pose proof (stopping_cleanup_locked s0 s1 runtime o H1 Hw1) as H2.
  apply wp_bind. eapply wp_mono; [exact H2|]. cbv beta. clear s Ha s1 H1 Hw1 H2. intros _ s (Hs & Hw).
  set (o' := o <| ri_perf := false |>) in *. assert (Hp : ri_perf o' = false) by done. clearbody o'. clear o. rename o' into o.
  pose proof (sg_context _ _ _ _ Hs) as Hr. rewrite Hp in Hr. cbn in Hr.
  apply step_w. intros s1 O1 E1. destruct (_ =? 0) eqn:Ee; cbn [negb]; zbool.
  - apply (finish_release s0 s s1 runtime o); done.
  - apply (finish_refused s0 s s1 runtime o); done.
Qed.

Lemma to_sse_ok b p :
  ctx_ok b p ->
  wp select_sse
     (fun rc p' => quiet p p' /\ calm p p' /\ (rc = 0 -> width_of p' = SIMD_SSE41)) p.
Proof.
  intros Hc. pose proof (ctx_ok_system _ _ Hc) as Hs. eapply wp_mono; [by apply to_sse_system|]. cbv beta. intros rc p' (Hq & Hw & Ho). split; [done|]. split; [|done].
  unfold calm, flags_kept, stopping_of. unfold outside_patch in Ho. congruence.
Qed.

Lemma drain_run s0 s runtime o :
  stopping s0 s runtime o -> ri_stop_in_progress o = true ->
  wp (drain_and_finish runtime) (fun r s' => forall rc, r = Some rc -> stop_post s0 runtime rc s') s.
Proof.
  intros Hs Ho. unfold drain_and_finish. apply step_w. intros s1 O1 E1. rewrite lift_run in E1.
  pose proof (ctx_ok_system _ _ (sg_context _ _ _ _ Hs)) as Hsys.
  destruct (tsd_runtime_wait_for_wide_quiescence le_drain_fuel (world_of s)) as [[rc|] w'] eqn:Ew.
  2: { apply wp_ret. intros rc. done. }
  destruct (quiescence_waits _ _ _ _ Hsys Ew) as [Hw _]. cbn [fst]. unfold world_of in Ew. rewrite Ew in E1. cbn in E1.
  assert (H1 : stopping s0 s1 runtime o).
  { apply (stopping_step s0 s); [| |done|done]; rewrite E1; [by apply quiet_waited|].
    destruct Hw as (n & e & a & ->). done. }
  assert (Hretry : forall s, stopping s0 s runtime o ->
    wp (err <- saved_errno ;; rc <- retry_later runtime err ;; ret (Some rc)) (fun r s' => forall rc, r = Some rc -> stop_post s0 runtime rc s') s).
  { intros s2 H2. eapply wp_mono; [by eapply stopping_retry|]. cbv beta. intros r s3 (rc' & -> & H3) rc'' [= <-]. done. }
  destruct (rc =? 0); cbn [negb]; [|by apply Hretry].
  clear E1 Ew Hw Hsys O1 Hs s rc. apply step_p. intros s2 O2 E2.
  destruct (to_sse_ok _ _ (sg_context _ _ _ _ H1)) as (Hq & Hc & Hw). rewrite <- E2 in Hq, Hc, Hw.
  pose proof (stopping_step s0 s1 s2 runtime o Hq Hc O2 H1) as H2.
  destruct (_ =? 0) eqn:Erc; cbn [negb]; zbool; [|by apply Hretry].
  apply wp_bind. eapply wp_mono; [apply (finish_run s0 s2 runtime o); auto|]. cbv beta. intros rc s3 H3. apply wp_ret.
  by intros rc' [= <-].
Qed.

(** A monitor that cannot be joined leaves the stop pending. *)
Lemma join_run s0 s runtime o :
  stopping s0 s runtime o ->
  wp (join_monitor runtime)
     (fun rc s' => if rc =? 0 then stopping s0 s' runtime (o <| ri_monitor_started := false |>)
                   else rc = -1 /\ stop_post s0 runtime (-1) s') s.
Proof.
  intros Hs. unfold join_monitor. apply wp_bind. unfold read_impl. apply wp_bind, wp_gets.
  rewrite (sg_object _ _ _ _ Hs), lookup_insert_eq. apply wp_ret. destruct (ri_monitor_started o) eqn:Em; cbn [negb].
  2: { apply wp_ret. cbn [Z.eqb]. assert (E : o <| ri_monitor_started := false |> = o) by (destruct o; cbn in *; by subst). by rewrite E. }
  apply step_w. intros s1 O1 E1.
  assert (H1 : stopping s0 s1 runtime o).
  { apply (stopping_step s0 s); [| |done|done]; rewrite E1; [apply quiet_lift, keeps_ext | rewrite lift_run; done]. }
  set (join_rc := (ext le_join (world_of s)).1). destruct (join_rc =? 0) eqn:Ej; cbn [negb]; zbool.
  - apply wp_bind, wp_modify, wp_ret. cbn [Z.eqb]. pose (f := fun r : runtime_impl => r <| ri_monitor_started := false |>).
    apply (stopping_write s0 s1 runtime o f H1). apply H1.
  - apply (stopping_lock s0 s1 runtime o); [done|]. intros rc s2 H2 _ Hrc. apply wp_bind, wp_gets.
    pose proof (sg_active _ _ _ _ H2) as Ha. cbn in Ha. rewrite Ha, Z.eqb_refl. apply wp_bind.
    destruct (rc =? 0) eqn:Er; cbn [negb when]; zbool.
    + apply wp_bind, wp_modify, wp_modify. pose (f := fun r : runtime_impl => r <| ri_stop_in_progress := false |>).
      pose proof (stopping_write s0 _ runtime o f H2 (sg_context _ _ _ _ H2)) as [A1 A2 A3 A4 A5 A6].
      assert (Hf : forall s e, stopping s0 s runtime (f o) ->
        wp (lfail e) (fun rc s' => if rc =? 0 then stopping s0 s' runtime (o <| ri_monitor_started := false |>) else rc = -1 /\ stop_post s0 runtime (-1) s') s).
      { intros s3 e H3. pose proof (stopping_fail s0 s3 runtime (f o) e H3 eq_refl) as Hp. unfold wp in *.
        assert (Er' : (lfail e s3).1 = -1) by (unfold lfail, on_w; rewrite on_p_run, lift_run; done). rewrite Er' in *. by split. }
      apply Hf. split; [exact A1 | done | exact A3 | exact A4 | exact A5 | exact A6].
    + apply wp_ret. destruct (Hrc Er) as [Hl (n & Hn)]. unfold lfail, on_w, wp. rewrite on_p_run, lift_run. cbn [fst snd fail]. 
      cbn [Z.eqb]. split; [done|].
      assert (H3 : stopping s0 (s2 <| ls_p := (lift (fail rc) (ls_p s2)).2 |> <| ls_runtime_lock := false |>) runtime o).
      { apply (stopping_step s0 (s2 <| ls_runtime_lock := false |>)); [apply quiet_lift, keeps_fail | change (calm (ls_p s2) (lift (fail rc) (ls_p s2)).2); rewrite lift_run; done | done | done]. }
      rewrite lift_run in H3. destruct H3 as [A1 A2 A3 A4 A5 A6]. split; [exact Hl|]. split; [exact A3|]. right. split; [done|]. split; [|exact A6].
      split; [exact A1|]. exists o. split; [|split; [exact A5 | intros _; by exists n]].
      etransitivity; [exact (f_equal (lookup runtime) A4) | apply lookup_insert_eq].
Qed.

(** The guard bracket that closes admission before anything is waited for. *)
Lemma closing_bracket p :
  (tsd_runtime_safety_write_enter (ps_world p)).1 = 0 -> system_inv (ps_world p) ->
  let w' := exec tsd_runtime_safety_write_leave (exec (set_running false)
              (exec (tsd_runtime_set_stopping_locked true) (exec tsd_runtime_safety_write_enter (ps_world p)))) in
  quiet p (p <| ps_world := w' |>) /\ w_running w' = false /\ stopping_of w' = true.
Proof.
  intros Hrc Hs. cbv zeta. split.
  - pose proof (bracket_quiet (tsd_runtime_set_stopping_locked true ;;; set_running false) p Hrc) as H.
    rewrite exec_bind in H. apply H; [| |done].
    + apply respects_bind; [exact _ | by intros w | intros _; by intros w].
    + apply respects_bind; [exact _ | by intros w | intros _; by intros w].
  - set (w1 := exec tsd_runtime_safety_write_enter (ps_world p)). set (w2 := exec (set_running false) _).
    pose proof (guard_frame_write_leave w2) as F2. pose proof (keeps_stopping_write_leave w2) as Hst. cbv beta in Hst.
    fold (exec tsd_runtime_safety_write_leave w2) in F2, Hst. unfold guard_frame, outside_guard in F2.
    assert (w_running w2 = false /\ stopping_of w2 = true) as [? ?] by done. split; congruence.
Qed.

Lemma alter_insert_lookup {A} (f : A -> A) (m : gmap Z A) k x : m !! k = Some x -> alter f k m = <[k := f x]> m.
Proof.
  intros Hk. apply map_eq. intros i. rewrite lookup_alter. destruct (decide (k = i)) as [<-|Hne].
  - by rewrite Hk, lookup_insert_eq.
  - by rewrite lookup_insert_ne.
Qed.

Lemma alter_undo {A} (f g : A -> A) (m : gmap Z A) k x : m !! k = Some x -> g (f x) = x -> alter g k (alter f k m) = m.
Proof.
  intros Hk Hg. rewrite (alter_insert_lookup f m k x), alter_insert_eq, Hg by done. by apply insert_id.
Qed.

(** The runtime is as it was. *)
Definition untouched (s0 s : lstate) : Prop :=
  ls_dangling s = ls_dangling s0 /\ ls_active s = ls_active s0 /\ ls_impls s = ls_impls s0 /\
  quiet (ls_p s0) (ls_p s) /\ calm (ls_p s0) (ls_p s).

Lemma untouched_step s0 s s' :
  quiet (ls_p s) (ls_p s') -> calm (ls_p s) (ls_p s') -> outer s' = outer s -> untouched s0 s -> untouched s0 s'.
Proof.
  intros Hq Hc Ho (H1 & H2 & H3 & H4 & H5). apply outer_eqs in Ho as (E1 & E2 & _ & _ & _ & E6).
  split_and!; [congruence.. | by transitivity (ls_p s) | by transitivity (ls_p s)].
Qed.

(** What a call to stop ends in: as [stop_post], or refused before anything was
    closed. *)
Definition stop_outcome (s0 : lstate) (runtime : Z) (r : Z) (s : lstate) : Prop :=
  stop_post s0 runtime r s \/ (r = -1 /\ ls_runtime_lock s = false /\ untouched s0 s).

Lemma refuse_run s0 s runtime e :
  untouched s0 s -> ls_runtime_lock s = false ->
  wp (rc <- lfail e ;; ret (Some rc)) (fun r s => forall rc, r = Some rc -> stop_outcome s0 runtime rc s) s.
Proof.
  intros Hu Hl. apply step_w. intros s1 O1 E1. apply wp_ret. intros rc [= <-]. right.
  split; [done|]. split; [apply outer_eqs in O1 as (_ & _ & _ & E & _); congruence|].
  apply (untouched_step s0 s); [| |done|done]; rewrite E1; [apply quiet_lift, keeps_fail | rewrite lift_run; done].
Qed.

Lemma close_run s0 s1 s2 runtime o :
  stopping s0 s2 runtime o -> ri_stop_in_progress o = true -> s1 = s2 ->
  wp (rc <- join_monitor runtime ;; if rc <>? 0 then ret (Some (-1)) else drain_and_finish runtime)
     (fun r s => forall rc, r = Some rc -> stop_outcome s0 runtime rc s) s1.
Proof.
  intros Hs Ho ->. apply wp_bind. eapply wp_mono; [by eapply join_run|]. cbv beta. intros rc s H.
  destruct (rc =? 0); cbn [negb].
  - eapply wp_mono; [by eapply drain_run|]. cbv beta. intros r s' H' rc' Hr. left. by apply H'.
  - apply wp_ret. intros rc' [= <-]. left. apply H.
Qed.

Lemma stop_run s0 runtime o :
  ls_active s0 = runtime -> runtime <> 0 -> ls_runtime_lock s0 = false ->
  ls_impls s0 !! runtime = Some o -> ri_stop_in_progress o = false -> ctx_ok (ri_perf o) (ls_p s0) ->
  wp (tsd_runtime_stop_impl runtime) (fun r s => forall rc, r = Some rc -> stop_outcome s0 runtime rc s) s0.
Proof.
  intros Ha Hnz Hl Hi Ho Hc. unfold tsd_runtime_stop_impl. rewrite (proj2 (Z.eqb_neq _ _) Hnz).
  assert (U0 : untouched s0 s0) by done.
  apply step_w. intros s1 O1 E1.
  assert (U1 : untouched s0 s1).
  { apply (untouched_step s0 s0); [| |done|done]; rewrite E1; [apply quiet_lift, keeps_gets | rewrite lift_run; done]. }
  assert (L1 : ls_runtime_lock s1 = false) by (apply outer_eqs in O1 as (_ & _ & _ & E & _); congruence).
  set (inside := (tsd_runtime_current_thread_in_wide_execution (world_of s0)).1). destruct inside; [by apply refuse_run|].
  clear E1 O1 U0. unfold lock_runtime. apply wp_bind, step_w. intros s2 O2 E2.
  assert (U2 : untouched s0 s2).
  { apply (untouched_step s0 s1); [| |done|done]; rewrite E2; [apply quiet_lift, keeps_ext | rewrite lift_run; done]. }
  assert (L2 : ls_runtime_lock s2 = false) by (apply outer_eqs in O2 as (_ & _ & _ & E & _); congruence).
  set (rc0 := (ext env_lock (world_of s1)).1). clearbody rc0. clear s1 U1 L1 O2 E2.
  match goal with |- wp (if ?b then _ else _) _ _ => set (got := b) end.
  assert (Hmid : forall s3, untouched s0 s3 -> wp
    (active <- gets ls_active ;;
     if runtime <>? active then unlock_runtime ;;; rc <- lfail EINVAL ;; ret (Some rc) else
     r <- read_impl runtime ;;
     if ri_stop_in_progress r then unlock_runtime ;;; rc <- lfail EBUSY ;; ret (Some rc) else
     write_impl runtime (fun r => r <| ri_stop_in_progress := true |>) ;;;
     rc <- on_w tsd_runtime_safety_write_enter ;;
     if rc <>? 0 then
       write_impl runtime (fun r => r <| ri_stop_in_progress := false |>) ;;; unlock_runtime ;;; ret (Some (-1))
     else
     on_w (tsd_runtime_set_stopping_locked true) ;;;
     on_w (set_running false) ;;;
     on_w tsd_runtime_safety_write_leave ;;;
     unlock_runtime ;;;
     rc <- join_monitor runtime ;;
     if rc <>? 0 then ret (Some (-1)) else drain_and_finish runtime)
    (fun r s => forall rc, r = Some rc -> stop_outcome s0 runtime rc s) s3).
  2: { destruct got; [apply wp_bind, wp_modify | ]; apply wp_ret, Hmid; done. }
  clear s2 U2 L2 got. intros s U. pose proof U as (D & A & I & Q & C).
  apply wp_bind, wp_gets. rewrite A, Ha, Z.eqb_refl. cbn [negb]. apply wp_bind. unfold read_impl. apply wp_bind, wp_gets.
  rewrite I, Hi. apply wp_ret. rewrite Ho. apply wp_bind, wp_modify.
  pose proof (ctx_ok_quiet _ _ _ Q Hc) as Hc1. pose proof (ctx_ok_system _ _ Hc1) as Hs1.
  set (s1 := s <| ls_impls ::= _ |>). apply step_w. intros s2 O2 E2. apply outer_eqs in O2 as (I2 & A2 & _ & _ & _ & D2).
  unfold s1 in I2, A2, D2, E2. cbn in I2, A2, D2. change (world_of s1) with (world_of s). clear s1.
  change (ls_p s <| ls_impls ::= _ |>) with (ls_p s) in E2.
  destruct (_ =? 0) eqn:Ee; cbn [negb]; zbool.
  - apply step_w. intros s3 O3 E3. apply step_w. intros s4 O4 E4. apply step_w. intros s5 O5 E5. apply wp_bind, wp_modify.
    apply outer_eqs in O3 as (I3 & A3 & _ & _ & _ & D3). apply outer_eqs in O4 as (I4 & A4 & _ & _ & _ & D4).
    apply outer_eqs in O5 as (I5 & A5 & _ & _ & _ & D5).
    destruct (closing_bracket (ls_p s) Ee Hs1) as (Hq & Hr & Hst).
    assert (Ep : ls_p s5 = (ls_p s) <| ps_world := exec tsd_runtime_safety_write_leave (exec (set_running false)
              (exec (tsd_runtime_set_stopping_locked true) (exec tsd_runtime_safety_write_enter (ps_world (ls_p s))))) |>).
    { rewrite E5, E4, E3, E2, !lift_lift, lift_exec, !exec_bind. done. }
    eapply (close_run s0 _ _ runtime (o <| ri_stop_in_progress := true |>)); [|done|reflexivity]. split.
    + cbn. congruence.
    + done.
    + cbn. congruence.
    + cbn. rewrite I5, I4, I3, I2, I, (alter_insert_lookup _ _ _ o) by done. done.
    + cbn. rewrite Ep. by apply (ctx_ok_quiet _ (ls_p s)).
    + unfold closed, world_of. cbn. rewrite Ep. by split.
  - apply wp_bind, wp_modify, wp_bind, wp_modify, wp_ret. intros rc [= <-]. right. split; [done|]. split; [done|].
    destruct (bracket_refused (world_of s) Hs1 Ee) as (B1 & B2 & B3). unfold exec, outside_guard in *.
    pose proof (published_write_enter (ps_world (ls_p s))) as Bp. cbv beta in Bp.
    assert (Eq : quiet (ls_p s) (ls_p s2) /\ calm (ls_p s) (ls_p s2)).
    { rewrite E2, lift_run. unfold world_of in *. split.
      - split; [|done]. unfold core. cbn. rewrite <- Bp.
        assert (Bd : w_degraded (tsd_runtime_safety_write_enter (ps_world (ls_p s))).2 = w_degraded (ps_world (ls_p s))) by congruence.
        by rewrite Bd.
      - unfold calm, flags_kept. cbn. congruence. }
    destruct Eq as [Eq1 Eq2]. split_and!; cbn; [congruence | congruence | | by transitivity (ls_p s) | by transitivity (ls_p s)].
    rewrite I2, I. apply (alter_undo _ _ _ _ o); [done|]. destruct o; cbn in *. by subst.
Qed.

(** ** Properties *)



(** Calls to stop that must not go through: a null runtime, a call
    from inside a wide execution, a runtime that is not the active one, and one
    that is already being stopped, with the error each reports; the runtime
    object and the flags are untouched. *)
Theorem stop_refusals (s0 : lstate) (runtime : Z) :
  let r := result (tsd_runtime_stop_impl runtime) s0 in
  let s := exec (tsd_runtime_stop_impl runtime) s0 in
  let refused e := r = Some (-1) /\ w_errno (world_of s) = e /\ untouched s0 s in
  let inside := g_wide_execution_depth (w_guard (world_of s0)) <>? 0 in
  (runtime = 0 -> refused EINVAL) /\
  (runtime <> 0 -> inside = true -> refused EDEADLK) /\
  (runtime <> 0 -> inside = false -> ls_active s0 <> runtime -> refused EINVAL) /\
  (runtime <> 0 -> inside = false -> ls_active s0 = runtime ->
   (exists o, ls_impls s0 !! runtime = Some o /\ ri_stop_in_progress o = true) -> refused EBUSY).
Proof.
  cbv zeta. set (inside := g_wide_execution_depth (w_guard (world_of s0)) <>? 0).
  assert (Hf : forall e s m, untouched s0 s -> (m s0) = (rc <- lfail e ;; ret (Some rc)) s ->
    result m s0 = Some (-1) /\ w_errno (world_of (exec m s0)) = e /\ untouched s0 (exec m s0)).
  { intros e s m U E. unfold result, exec. rewrite E. unfold lfail, on_w. rewrite bind_run, on_p_run, lift_run. cbn [fst snd ret fail].
    split; [done|]. split; [done|]. apply (untouched_step s0 s); [| |done|done].
    - pose proof (quiet_lift _ (keeps_fail e) (ls_p s)) as Q. rewrite lift_run in Q. exact Q.
    - done. }
  assert (Hself : forall s, ls_p s = ls_p s0 -> outer s = outer s0 -> untouched s0 s).
  { intros s E1 E2. apply (untouched_step s0 s0); [by rewrite E1 | by rewrite E1 | done | done]. }
  assert (Hlock : exists rc s1, lock_runtime s0 = (rc, s1) /\ untouched s0 s1).
  { unfold lock_runtime. rewrite bind_run. unfold on_w. rewrite on_p_run, lift_run. cbn [fst snd ext].
    pose proof (quiet_lift _ (keeps_ext env_lock) (ls_p s0)) as Q. rewrite lift_run in Q. cbn [fst snd ext] in Q.
    destruct (env_lock (w_calls (ps_world (ls_p s0))) =? 0); do 2 eexists; (split; [reflexivity|]); split_and!; done. }
  assert (Hin : forall A (k : bool -> LM A), bind (on_w tsd_runtime_current_thread_in_wide_execution) k s0 = k inside s0).
  { intros A k. rewrite bind_run. unfold on_w. rewrite on_p_run, lift_run. cbn. by destruct s0 as [[]]. }
  unfold tsd_runtime_stop_impl. split_and!.
  - intros ->. by apply (Hf EINVAL s0).
  - intros Hnz Hi. rewrite (proj2 (Z.eqb_neq _ _) Hnz). apply (Hf EDEADLK s0); [done|]. rewrite Hin, Hi. done.
  - intros Hnz Hi Ha. rewrite (proj2 (Z.eqb_neq _ _) Hnz). destruct Hlock as (rc & s1 & E & U).
    apply (Hf EINVAL (s1 <| ls_runtime_lock := false |>)); [exact U|].
    rewrite Hin, Hi, bind_run, E. cbn [fst snd]. rewrite bind_run. cbn [gets fst snd]. rewrite (proj1 (proj2 U)).
    rewrite (proj2 (Z.eqb_neq _ _)) by congruence. done.
  - intros Hnz Hi Ha (o & Ho & Hb). rewrite (proj2 (Z.eqb_neq _ _) Hnz). destruct Hlock as (rc & s1 & E & U).
    apply (Hf EBUSY (s1 <| ls_runtime_lock := false |>)); [exact U|].
    rewrite Hin, Hi, bind_run, E. cbn [fst snd]. rewrite bind_run. cbn [gets fst snd]. rewrite (proj1 (proj2 U)), Ha, Z.eqb_refl. cbn [negb].
    unfold read_impl. rewrite !bind_run. cbn [gets fst snd]. rewrite (proj1 (proj2 (proj2 U))), Ho. cbn [ret fst snd]. by rewrite Hb.
Qed.

(** A start followed by a stop that both succeed gives back the
    heap, rests on SSE4.1, and leaves the process ready for the next start:
    every precondition of starting holds again. *)
Theorem start_then_stop_restores (workload : bool) (s0 : lstate) (runtime : Z) :
  heap_ok s0 -> ls_active s0 = 0 -> ls_runtime_lock s0 = false -> at_rest (ls_p s0) ->
  result (tsd_runtime_start_impl workload) s0 = (0, runtime) ->
  let s1 := exec (tsd_runtime_start_impl workload) s0 in
  result (tsd_runtime_stop_impl runtime) s1 = Some 0 ->
  let s2 := exec (tsd_runtime_stop_impl runtime) s1 in
  ls_impls s2 = ls_impls s0 /\ ls_active s2 = 0 /\ ls_runtime_lock s2 = false /\ at_rest (ls_p s2) /\
  width_of (ls_p s2) = SIMD_SSE41 /\ stopping_of (world_of s2) = false.
Proof.
  intros Hh Ha Hl Hp Hr s1 Hs s2. pose proof (start_run workload s0 Hh Ha Hl Hp) as Hrun. unfold wp in Hrun.
  unfold result in Hr. rewrite Hr in Hrun. destruct Hrun as (L1 & [(_ & E & Hst & Him)|(? & _)]); [|done]. cbn [snd] in *.
  destruct Hst as [[A1 N1] O1 C1 _ _ _ _]. fold (exec (tsd_runtime_start_impl workload) s0) in *. fold s1 in A1, O1, C1, L1, Him.
  destruct (stop_run s1 runtime (mkImpl true true false) A1 N1 L1 O1 eq_refl C1 0 Hs) as [(L & D & [(_ & Hd)|(? & _)])|(? & _)]; [|done|done].
  destruct Hd as [B1 B2 B3 B4 B5]. split_and!; [| done | done | done | done |].
  - unfold s2, exec at 1. rewrite B2, Him. apply delete_insert_id. destruct Hh as [Hh1 Hh2]. apply Hh2. lia.
  - unfold s2, exec at 1. congruence.
Qed.
End proofs.

(** ** A concrete process *)

Definition quiet_life_env : LifeEnv := mkLifeEnv (fun _ => 0) (fun _ => 0) (fun _ => "perf counters unavailable") 1.

(** Nothing started yet. *)
Definition fresh_lstate : lstate := mkLstate fresh_pstate ∅ 0 ∅ 0 false 1 4096 false false false false.

Section concrete.
#[local] Existing Instance quiet_env.
#[local] Existing Instance quiet_perf_env.
#[local] Existing Instance quiet_telemetry.
#[local] Existing Instance quiet_life_env.

Lemma fresh_heap_ok : heap_ok fresh_lstate.
Proof. split; [done | intros p _; done]. Qed.

Lemma fresh_at_rest : at_rest (ls_p fresh_lstate).
Proof. split; [done|]. split; [done|]. apply initial_system_inv. Qed.

Definition up_lstate : lstate := exec (tsd_runtime_start_impl true) fresh_lstate.
Lemma up_result : result (tsd_runtime_start_impl true) fresh_lstate = (0, 4096).
Proof. vm_compute. reflexivity. Qed.


Lemma up_started : started up_lstate 4096.
Proof.
  pose proof (start_run true fresh_lstate fresh_heap_ok eq_refl eq_refl fresh_at_rest) as (_ & H).
  pose proof up_result as E. unfold result in E. rewrite E in H. destruct H as [(_ & _ & H & _)|(H & _)]; [exact H | discriminate H].
Qed.


Lemma stop_refusals_witness :
  result (tsd_runtime_stop_impl 17) fresh_lstate = Some (-1) /\
  w_errno (world_of (exec (tsd_runtime_stop_impl 17) fresh_lstate)) = EINVAL.
Proof.
  destruct (stop_refusals fresh_lstate 17) as (_ & _ & H & _).
  destruct (H ltac:(lia) eq_refl ltac:(cbn; lia)) as (H1 & H2 & _). split; assumption.
Defined.

Lemma start_then_stop_restores_witness :
  let s2 := exec (tsd_runtime_stop_impl 4096) up_lstate in
  ls_impls s2 = ∅ /\ ls_active s2 = 0 /\ at_rest (ls_p s2).
Proof.
  destruct (start_then_stop_restores true fresh_lstate 4096 fresh_heap_ok eq_refl eq_refl fresh_at_rest up_result)
    as (H1 & H2 & _ & H4 & _); [vm_compute; reflexivity|].
  split; [exact H1|]. split; [exact H2 | exact H4].
Defined.
End concrete.
