(* ===== verification/RuntimeApi.v ===== *)
(** * RuntimeApi: public handles ([src/src/runtime_api.c])

    One handle at a time is installed over the private runtime.  The private
    life cycle is used through the interface [PrivateRuntime] and its promise
    [PrivateLaws]: a start or a stop moves between an idle and a live private
    runtime and leaves the public part of the state alone.  The theorems on the
    handles are proved against that interface; [Lifecycle.v]'s operations
    implement it.  Operations drop the public mutex around the private ones, so
    each is split where it does. *)
From S2P Require Import Prelude Float64 Statistics Config World Cpu TrampolineState Guard Trampoline Dispatch PerfMeasure Perf PerfMode Lifecycle.
From stdpp Require Import gmap.
#[local] Open Scope Z_scope.

(** What the public layer uses of the private one. *)
Class PrivateRuntime : Type := mkPrivate {
  pr_start : bool -> LM (Z * Z);
  pr_request_stop : Z -> LM unit;
  pr_stop : Z -> LM (option Z);
  pr_is_running : Z -> LM bool;
  pr_perf_mode : Z -> LM Z;
}.

Section api.
Context `{EV : Env, PR : PrivateRuntime}.

(** Release the start slot, free the handle and fail with [err]. *)
Definition abandon_slot (handle err : Z) : LM Z :=
  lock_public ;;;
  modify (fun s => s <| ls_public_starting := false |>) ;;;
  unlock_public ;;;
  free_handle handle ;;;
  lfail err.

(** The reservation of the start slot: a fresh handle, or [inl] the result. *)
Definition start_reserve : LM (Z + Z) :=
  handle <- calloc_pointer ;;
  if handle =? 0 then ret (inl (-1))
  else
    modify (fun s => s <| ls_handles ::= <[handle := mkHandle 0 0 false false]> |>) ;;;
    lock_rc <- lock_public ;;
    if lock_rc <>? 0 then free_handle handle ;;; rc <- lfail lock_rc ;; ret (inl rc)
    else
      active <- gets ls_public_active ;;
      starting <- gets ls_public_starting ;;
      snapshot <- on_w tsd_runtime_config_snapshot_is_active ;;
      if (active <>? 0) || starting || snapshot then
        unlock_public ;;; free_handle handle ;;; rc <- lfail EBUSY ;; ret (inl rc)
      else
        modify (fun s => s <| ls_public_starting := true |>) ;;;
        unlock_public ;;; ret (inr handle).

(** Installing the handle over a started private runtime. *)
Definition start_install (handle impl : Z) : LM (option Z) :=
  lock_rc <- lock_public ;;
  if lock_rc <>? 0 then
    stopped <- pr_stop impl ;;
    match stopped with
    | None => ret None
    | Some stop_rc =>
        err <- on_w (gets w_errno) ;;
        when (stop_rc =? 0) (on_w tsd_runtime_config_deactivate_snapshot) ;;;
        free_handle handle ;;;
        rc <- lfail (if stop_rc =? 0 then lock_rc else if err <>? 0 then err else lock_rc) ;;
        ret (Some rc)
    end
  else
    generation <- gets ls_next_generation ;;
    write_handle handle (fun h => mkHandle impl generation false false) ;;;
    modify (fun s => s <| ls_next_generation := let n := u64 (generation + 1) in if n =? 0 then 1 else n |>
                       <| ls_public_active := handle |> <| ls_public_starting := false |>) ;;;
    unlock_public ;;; ret (Some 0).

(** The result and [*out_runtime]; [None]: a private stop is still waiting. *)
Definition tsd_runtime_start_with_config (workload : bool) (config : option tsd_runtime_config) : LM (option (Z * Z)) :=
  match config with
  | None => rc <- lfail EINVAL ;; ret (Some (rc, 0))
  | Some cfg =>
      reserved <- start_reserve ;;
      match reserved with
      | inl rc => ret (Some (rc, 0))
      | inr handle =>
          rc <- on_w (tsd_runtime_config_activate_snapshot (Some cfg)) ;;
          if rc <>? 0 then
            err <- on_w (gets w_errno) ;; rc <- abandon_slot handle err ;; ret (Some (rc, 0))
          else
            let* (rc, impl) := pr_start workload in
            if rc <>? 0 then
              err <- on_w (gets w_errno) ;;
              on_w tsd_runtime_config_deactivate_snapshot ;;;
              rc <- abandon_slot handle err ;; ret (Some (rc, 0))
            else
              installed <- start_install handle impl ;;
              ret ((fun rc => (rc, if rc =? 0 then handle else 0)) <$> installed)
      end
  end.

Definition tsd_runtime_start (workload : bool) : LM (option (Z * Z)) :=
  cfg <- on_w (gets w_config) ;; tsd_runtime_start_with_config workload (Some cfg).

(** The handle is installed, not stopped, and not being stopped. *)
Definition handle_live (runtime active : Z) (h : runtime_handle) : bool :=
  (runtime =? active) && negb (rh_stopped h) && negb (rh_stop_in_progress h) && (rh_impl h <>? 0).

Definition tsd_runtime_request_stop (runtime : Z) : LM unit :=
  if runtime =? 0 then ret tt
  else
    lock_rc <- lock_public ;;
    if lock_rc <>? 0 then ret tt
    else
      active <- gets ls_public_active ;;
      h <- (if runtime =? active then read_handle runtime else ret (mkHandle 0 0 false false)) ;;
      when (handle_live runtime active h) (pr_request_stop (rh_impl h)) ;;;
      unlock_public.

(** The first half of [tsd_runtime_stop]: the private runtime to stop. *)
Definition stop_begin (runtime : Z) : LM (Z + Z) :=
  if runtime =? 0 then rc <- lfail EINVAL ;; ret (inl rc)
  else
    lock_rc <- lock_public ;;
    if lock_rc <>? 0 then rc <- lfail lock_rc ;; ret (inl rc)
    else
      active <- gets ls_public_active ;;
      h <- (if runtime =? active then read_handle runtime else ret (mkHandle 0 0 false false)) ;;
      if (runtime <>? active) || rh_stopped h || (rh_impl h =? 0) then
        unlock_public ;;; rc <- lfail EINVAL ;; ret (inl rc)
      else if rh_stop_in_progress h then
        unlock_public ;;; rc <- lfail EBUSY ;; ret (inl rc)
      else
        write_handle runtime (fun h => h <| rh_stop_in_progress := true |>) ;;;
        unlock_public ;;; ret (inr (rh_impl h)).

(** Its second half, with the result of the private stop. *)
Definition stop_finish (runtime rc : Z) : LM Z :=
  err <- on_w (gets w_errno) ;;
  lock_rc <- lock_public ;;
  if lock_rc <>? 0 then lfail lock_rc
  else
    (if rc =? 0 then
       write_handle runtime (fun h => h <| rh_impl := 0 |> <| rh_stopped := true |> <| rh_stop_in_progress := false |>) ;;;
       modify (fun s => s <| ls_public_active := 0 |>) ;;;
       on_w tsd_runtime_config_deactivate_snapshot
     else write_handle runtime (fun h => h <| rh_stop_in_progress := false |>)) ;;;
    unlock_public ;;;
    when (rc <>? 0) (on_w (set_errno err)) ;;;
    ret rc.

Definition tsd_runtime_stop (runtime : Z) : LM (option Z) :=
  begun <- stop_begin runtime ;;
  match begun with
  | inl rc => ret (Some rc)
  | inr impl =>
      stopped <- pr_stop impl ;;
      match stopped with
      | None => ret None
      | Some rc => rc <- stop_finish runtime rc ;; ret (Some rc)
      end
  end.

Definition tsd_runtime_destroy (runtime : Z) : LM Z :=
  if runtime =? 0 then lfail EINVAL
  else
    lock_rc <- lock_public ;;
    if lock_rc <>? 0 then lfail lock_rc
    else
      active <- gets ls_public_active ;;
      if runtime =? active then unlock_public ;;; lfail EBUSY
      else
        h <- read_handle runtime ;;
        if rh_stop_in_progress h then unlock_public ;;; lfail EBUSY
        else if negb (rh_stopped h) || (rh_impl h <>? 0) then unlock_public ;;; lfail EINVAL
        else unlock_public ;;; free_handle runtime ;;; ret 0.

Definition tsd_runtime_is_running (runtime : Z) : LM bool :=
  if runtime =? 0 then ret false
  else
    lock_rc <- lock_public ;;
    if lock_rc <>? 0 then ret false
    else
      active <- gets ls_public_active ;;
      h <- (if runtime =? active then read_handle runtime else ret (mkHandle 0 0 false false)) ;;
      running <- (if handle_live runtime active h then pr_is_running (rh_impl h) else ret false) ;;
      unlock_public ;;; ret running.

Definition tsd_runtime_perf_mode (runtime : Z) : LM Z :=
  if runtime =? 0 then ret TSD_PERF_MODE_NONE
  else
    lock_rc <- lock_public ;;
    if lock_rc <>? 0 then ret TSD_PERF_MODE_NONE
    else
      active <- gets ls_public_active ;;
      h <- (if runtime =? active then read_handle runtime else ret (mkHandle 0 0 false false)) ;;
      mode <- (if handle_live runtime active h then pr_perf_mode (rh_impl h) else ret TSD_PERF_MODE_NONE) ;;
      unlock_public ;;; ret mode.
End api.

(** ** The promise of the private runtime *)

(** The part of the state that belongs to this file. *)
Definition public_view (s : lstate) :=
  (ls_handles s, ls_public_active s, ls_public_starting s, ls_next_generation s, ls_public_lock s).

Section promise.
Context `{EV : Env}.

(** What this file changes of the rest: it makes calls, sets errno, hands out
    addresses and moves the configuration snapshot. *)
Definition beside (s s' : lstate) : Prop :=
  ls_impls s' = ls_impls s /\ ls_active s' = ls_active s /\ ls_runtime_lock s' = ls_runtime_lock s /\
  ls_dangling s' = ls_dangling s /\ ls_next_pointer s <= ls_next_pointer s' /\ quiet (ls_p s) (ls_p s').
#[export] Instance beside_preorder : PreOrder beside.
Proof.
  split; [intros s; split_and!; done|]. intros a b c (H1 & H2 & H3 & H4 & H5 & H6) (K1 & K2 & K3 & K4 & K5 & K6).
  split_and!; try congruence; [lia | by transitivity (ls_p b)].
Qed.

End promise.

(** A private runtime is idle, or live under a non-null address. *)
Class PrivateLaws `{EV : Env, PR : PrivateRuntime} : Type := mkPrivateLaws {
  pl_idle : lstate -> Prop;
  pl_live : Z -> lstate -> Prop;
  pl_idle_beside s s' : beside s s' -> pl_idle s -> pl_idle s';
  pl_live_beside i s s' : beside s s' -> pl_live i s -> pl_live i s';
  pl_start workload s : pl_idle s ->
    wp (pr_start workload) (fun r s' =>
      public_view s' = public_view s /\ ls_dangling s' = ls_dangling s /\ ls_next_pointer s <= ls_next_pointer s' /\
      ((r.1 = 0 /\ r.2 <> 0 /\ pl_live r.2 s') \/ (r.1 = -1 /\ pl_idle s'))) s;
  pl_stop i s : pl_live i s ->
    wp (pr_stop i) (fun r s' => forall rc, r = Some rc ->
      public_view s' = public_view s /\ ls_dangling s' = ls_dangling s /\ ls_next_pointer s <= ls_next_pointer s' /\
      ((rc = 0 /\ pl_idle s') \/ (rc = -1 /\ pl_live i s'))) s;
}.


(** ** The abstract slot *)

(** The live handle and the stopped handles not destroyed yet. *)
Record slots : Type := mkSlots { sl_live : option Z; sl_done : gset Z }.

Inductive api_call : Type :=
  | AStart (workload : bool) (config : option tsd_runtime_config)
  | AStop (runtime : Z)
  | ADestroy (runtime : Z).

Inductive slot_step : slots -> api_call -> Z * Z -> slots -> Prop :=
  | SStart h d w cfg : h <> 0 -> h ∉ d -> slot_step (mkSlots None d) (AStart w (Some cfg)) (0, h) (mkSlots (Some h) d)
  | SStartFail a w c : slot_step a (AStart w c) (-1, 0) a
  | SStop h d : slot_step (mkSlots (Some h) d) (AStop h) (0, 0) (mkSlots None ({[h]} ∪ d))
  | SStopFail a h : slot_step a (AStop h) (-1, 0) a
  | SDestroy l h d : h ∈ d -> slot_step (mkSlots l d) (ADestroy h) (0, 0) (mkSlots l (d ∖ {[h]}))
  | SDestroyFail a h : h ∉ sl_done a -> slot_step a (ADestroy h) (-1, 0) a.

Inductive slot_trace : slots -> list (api_call * (Z * Z)) -> slots -> Prop :=
  | TNil a : slot_trace a [] a
  | TCons a c r a1 tr a2 : slot_step a c r a1 -> slot_trace a1 tr a2 -> slot_trace a ((c, r) :: tr) a2.

Section refinement.
Context `{EV : Env, PR : PrivateRuntime, PL : !PrivateLaws}.

Definition run_api (c : api_call) : LM (option (Z * Z)) :=
  match c with
  | AStart w config => tsd_runtime_start_with_config w config
  | AStop h => r <- tsd_runtime_stop h ;; ret ((fun rc => (rc, 0)) <$> r)
  | ADestroy h => rc <- tsd_runtime_destroy h ;; ret (Some (rc, 0))
  end.

(** A destroyed handle is not passed again. *)
Definition call_ok (s : lstate) (c : api_call) : Prop :=
  match c with ADestroy h => h = 0 \/ is_Some (ls_handles s !! h) | _ => True end.

(** A run of a client that keeps to this. *)
Inductive client_run : lstate -> list (api_call * (Z * Z)) -> lstate -> Prop :=
  | RNil s : client_run s [] s
  | RCons s c r tr s' :
      call_ok s c -> result (run_api c) s = Some r -> client_run (exec (run_api c) s) tr s' -> client_run s ((c, r) :: tr) s'.

Definition live_handle (i g : Z) : runtime_handle := mkHandle i g false false.
Definition done_handle (g : Z) : runtime_handle := mkHandle 0 g true false.

(** The state of the file stands for [a]. *)
Record rep (s : lstate) (a : slots) : Prop := {
  rp_unlocked : ls_public_lock s = false /\ ls_public_starting s = false;
  rp_live : match sl_live a with
            | None => ls_public_active s = 0 /\ pl_idle s
            | Some h => ls_public_active s = h /\ h <> 0 /\
                        exists i g, ls_handles s !! h = Some (live_handle i g) /\ i <> 0 /\ pl_live i s
            end;
  rp_done h : h ∈ sl_done a <-> exists g, ls_handles s !! h = Some (done_handle g);
  rp_known h : is_Some (ls_handles s !! h) -> sl_live a = Some h \/ h ∈ sl_done a;
  rp_fresh h : is_Some (ls_handles s !! h) -> 0 < h < ls_next_pointer s;
  rp_next : 0 < ls_next_pointer s;
}.

Lemma beside_on_w {A} (m : M A) s :
  respects world_keeps m -> beside s (on_w m s).2 /\ public_view (on_w m s).2 = public_view s.
Proof.
  intros Hm. unfold on_w. rewrite on_p_run. cbn [snd]. split; [|done]. split_and!; try done.
  cbn. by apply quiet_lift.
Qed.

(** A call that this file makes outside of its own state. *)
Lemma step_aside {A B} (m : M A) (k : A -> LM B) Q s :
  respects world_keeps m ->
  (forall s', beside s s' -> public_view s' = public_view s -> wp (k (m (world_of s)).1) Q s') ->
  wp (bind (on_w m) k) Q s.
Proof.
  intros Hm Hk. apply wp_bind. unfold wp at 1. destruct (beside_on_w m s Hm) as [Hb Hp].
  assert (E : (on_w m s).1 = (m (world_of s)).1) by (unfold on_w; by rewrite on_p_run, lift_run). rewrite E. by apply Hk.
Qed.

Lemma keeps_activate c : respects world_keeps (tsd_runtime_config_activate_snapshot c).
Proof.
  intros w. split; [intros [Hg Ht]; split|].
  - by apply activate_inv.
  - pose proof (run_guard_op_frame (GActivate c) w) as Hf. cbn [run_guard_op] in Hf. unfold Guard.drop, guard_frame, outside_guard in Hf.
    rewrite bind_run in Hf. cbn [ret snd] in Hf. assert (E : w_tramp (tsd_runtime_config_activate_snapshot c w).2 = w_tramp w) by congruence.
    by rewrite E.
  - unfold tsd_runtime_config_activate_snapshot. destruct c as [cfg|]; [|done]. destruct (validate_generation_config cfg); [done|].
    rewrite bind_run. cbn [gets fst snd]. by destruct (_ =? 0).
Qed.

Lemma keeps_deactivate : respects world_keeps tsd_runtime_config_deactivate_snapshot.
Proof. intros w. split; [|done]. intros [Hg Ht]. split; [|done]. eapply guard_inv_frame; [..|exact Hg]; done. Qed.

(** The private side is as in [s0] up to [beside], the public side is known. *)
Definition seen (s0 s : lstate) (hs : gmap Z runtime_handle) (active : Z) (starting : bool) (g : Z) (lock : bool) : Prop :=
  beside s0 s /\ public_view s = (hs, active, starting, g, lock).

Lemma seen_eqs s0 s hs a st g l :
  seen s0 s hs a st g l ->
  ls_handles s = hs /\ ls_public_active s = a /\ ls_public_starting s = st /\ ls_next_generation s = g /\ ls_public_lock s = l.
Proof. intros [_ E]. unfold public_view in E. split_and!; congruence. Qed.

Lemma seen_aside s0 s s' hs a st g l :
  beside s s' -> public_view s' = public_view s -> seen s0 s hs a st g l -> seen s0 s' hs a st g l.
Proof. intros Hb E [H1 H2]. split; [by transitivity s | congruence]. Qed.

Context (HL : locks_ok).

Lemma step_public {B} (k : Z -> LM B) Q s0 s hs a st g :
  seen s0 s hs a st g false ->
  (forall s', seen s0 s' hs a st g true -> wp (k 0) Q s') -> wp (bind lock_public k) Q s.
Proof.
  intros Hs Hk. pose proof (seen_eqs _ _ _ _ _ _ _ Hs) as (_ & _ & _ & _ & El). unfold lock_public.
  apply wp_bind, step_aside; [apply keeps_ext|]. intros s' Hb Hp. cbn [ext fst]. rewrite HL. cbn [Z.eqb].
  pose proof (seen_aside _ _ _ _ _ _ _ _ Hb Hp Hs) as Hs'. pose proof (seen_eqs _ _ _ _ _ _ _ Hs') as (E1 & E2 & E3 & E4 & E5).
  apply wp_bind, wp_modify, wp_ret, Hk. destruct Hs' as [H1 H2]. split; [exact H1|].
  unfold public_view. cbn. by rewrite E1, E2, E3, E4.
Qed.

Lemma step_unlock {B} (k : unit -> LM B) Q s0 s hs a st g l :
  seen s0 s hs a st g l -> (forall s', seen s0 s' hs a st g false -> wp (k tt) Q s') -> wp (bind unlock_public k) Q s.
Proof.
  intros Hs Hk. pose proof (seen_eqs _ _ _ _ _ _ _ Hs) as (E1 & E2 & E3 & E4 & E5). apply wp_bind, wp_modify, Hk.
  destruct Hs as [H1 _]. split; [exact H1|]. unfold public_view. cbn. by rewrite E1, E2, E3, E4.
Qed.

Lemma step_handles {B} (f : gmap Z runtime_handle -> gmap Z runtime_handle) (k : unit -> LM B) Q s0 s hs a st g l :
  seen s0 s hs a st g l -> (forall s', seen s0 s' (f hs) a st g l -> wp (k tt) Q s') ->
  wp (bind (modify (fun s => s <| ls_handles ::= f |>)) k) Q s.
Proof.
  intros Hs Hk. pose proof (seen_eqs _ _ _ _ _ _ _ Hs) as (E1 & E2 & E3 & E4 & E5). apply wp_bind, wp_modify, Hk.
  destruct Hs as [H1 _]. split; [exact H1|]. unfold public_view. cbn. by rewrite E1, E2, E3, E4, E5.
Qed.

Lemma run_fail {B} (f : Z -> B) e Q s0 s hs a st g l :
  seen s0 s hs a st g l -> (forall s', seen s0 s' hs a st g l -> Q (f (-1)) s') -> wp (rc <- lfail e ;; ret (f rc)) Q s.
Proof.
  intros Hs Hk. unfold lfail. apply step_aside; [apply keeps_fail|]. intros s' Hb Hp. apply wp_ret, Hk.
  by apply (seen_aside s0 s).
Qed.

Lemma step_errno {B} (k : Z -> LM B) Q s0 s hs a st g l :
  seen s0 s hs a st g l -> (forall e s', seen s0 s' hs a st g l -> wp (k e) Q s') -> wp (bind (on_w (gets w_errno)) k) Q s.
Proof. intros Hs Hk. apply step_aside; [apply keeps_gets|]. intros s' Hb Hp. apply Hk. by apply (seen_aside s0 s). Qed.

Lemma step_calloc {B} (k : Z -> LM B) Q s0 s hs a st g l :
  seen s0 s hs a st g l ->
  (forall s', seen s0 s' hs a st g l -> wp (k 0) Q s') ->
  (forall s' p, seen s0 s' hs a st g l -> p = ls_next_pointer s -> ls_next_pointer s' = p + 1 -> wp (k p) Q s') ->
  wp (bind calloc_pointer k) Q s.
Proof.
  intros Hs Hnull Hp. unfold calloc_pointer. apply wp_bind. unfold on_w at 1. apply wp_bind. unfold wp at 1. rewrite on_p_run. cbn [fst snd].
  set (s1 := s <| ls_p := _ |>). assert (H1 : seen s0 s1 hs a st g l).
  { destruct (beside_on_w (ext env_calloc) s (keeps_ext _)) as [Hb Hv]. unfold on_w in Hb, Hv. rewrite on_p_run in Hb, Hv. by apply (seen_aside s0 s). }
  assert (N1 : ls_next_pointer s1 = ls_next_pointer s) by done. clearbody s1. destruct (negb _).
  - apply step_aside; [apply keeps_errno|]. intros s2 Hb Hv. apply wp_ret, Hnull. by apply (seen_aside s0 s1).
  - apply wp_bind, wp_gets, wp_bind, wp_modify, wp_ret, Hp; [|done|cbn; lia].
    destruct H1 as [(B1 & B2 & B3 & B4 & B5 & B6) Hv]. split; [split_and!; try done; cbn; lia | exact Hv].
Qed.

(** Where a refinement step ends. *)
Definition refines (s0 : lstate) (a : slots) (c : api_call) (r : option (Z * Z)) (s : lstate) : Prop :=
  forall v, r = Some v -> exists a', slot_step a c v a' /\ rep s a' /\ ls_dangling s = ls_dangling s0.

Lemma rep_seen s a : rep s a -> seen s s (ls_handles s) (ls_public_active s) false (ls_next_generation s) false.
Proof. intros [[E1 E2] _ _ _ _ _]. split; [done|]. unfold public_view. by rewrite E1, E2. Qed.

(** A call that fails without a change. *)
Lemma rep_kept s a s' g : rep s a -> seen s s' (ls_handles s) (ls_public_active s) false g false -> rep s' a.
Proof.
  intros [_ H2 H3 H4 H5 H6] Hs. pose proof (seen_eqs _ _ _ _ _ _ _ Hs) as (E1 & E2 & E3 & E4 & E5). destruct Hs as [Hb _].
  pose proof Hb as (_ & _ & _ & _ & Hn & _). split; try rewrite E1; try done; [|intros h Hh; specialize (H5 h Hh); lia | lia].
  rewrite E2. destruct (sl_live a) as [h|].
  - destruct H2 as (A & N & i & g' & Hh & Hi & Hl). split; [done|]. split; [done|]. exists i, g'. split; [done|]. split; [done|].
    by apply (pl_live_beside i s).
  - destruct H2 as [A Hi]. split; [done|]. by apply (pl_idle_beside s).
Qed.

Lemma seen_dangling s0 s hs a st g l : seen s0 s hs a st g l -> ls_dangling s = ls_dangling s0.
Proof. intros [(_ & _ & _ & H & _) _]. done. Qed.

(** The handle at the active address. *)
Lemma rep_active s a h :
  rep s a -> ls_public_active s = h -> h <> 0 ->
  sl_live a = Some h /\ exists i g, ls_handles s !! h = Some (live_handle i g) /\ i <> 0 /\ pl_live i s.
Proof.
  intros [_ H2 _ _ _ _] Ha Hh. destruct (sl_live a) as [h'|]; [|destruct H2; congruence].
  destruct H2 as (A & N & H). assert (h' = h) as -> by congruence. done.
Qed.

(** After the private stop: the handle is retired, or can be stopped again. *)
Lemma stop_finish_run s0 a h i gen s1 s2 rc :
  rep s0 a -> sl_live a = Some h -> ls_public_active s0 = h -> ls_handles s0 !! h = Some (live_handle i gen) -> i <> 0 ->
  seen s0 s1 (<[h := mkHandle i gen false true]> (ls_handles s0)) h false (ls_next_generation s0) false ->
  public_view s2 = public_view s1 -> ls_dangling s2 = ls_dangling s1 -> ls_next_pointer s1 <= ls_next_pointer s2 ->
  ((rc = 0 /\ pl_idle s2) \/ (rc = -1 /\ pl_live i s2)) ->
  wp (rc <- stop_finish h rc ;; ret (Some rc))
     (fun r s' => forall v, r = Some v -> exists a', slot_step a (AStop h) (v, 0) a' /\ rep s' a' /\ ls_dangling s' = ls_dangling s0) s2.
Proof.
  intros Hr Hl Ha Hh Hi Hs1 Hv Hd Hn Hrc. pose proof Hr as [_ R2 R3 R4 R5 R6].
  assert (N1 : ls_next_pointer s0 <= ls_next_pointer s1) by (destruct Hs1 as [(_ & _ & _ & _ & ? & _) _]; done).
  assert (D1 : ls_dangling s1 = ls_dangling s0) by (eapply seen_dangling; exact Hs1).
  assert (Hne : h <> 0) by (rewrite Hl in R2; by destruct R2 as (_ & ? & _)).
  assert (S2 : seen s2 s2 (<[h := mkHandle i gen false true]> (ls_handles s0)) h false (ls_next_generation s0) false)
    by (split; [done | destruct Hs1; congruence]).
  unfold stop_finish. apply wp_bind. eapply step_errno; [exact S2|]. intros err s3 S3.
  eapply step_public; [exact S3|]. intros s4 S4. cbn [Z.eqb negb].
  assert (Hlt : 0 < h < ls_next_pointer s0) by (apply R5; by rewrite Hh).
  destruct Hrc as [[-> Hidle]|[-> Hlive]]; cbn [Z.eqb negb when].
  - apply wp_bind. eapply step_handles; [exact S4|]. intros s5 S5. apply wp_bind, wp_modify.
    pose proof (seen_eqs _ _ _ _ _ _ _ S5) as (E1 & E2 & E3 & E4 & E5). set (s6 := s5 <| ls_public_active := 0 |>).
    assert (S6 : seen s2 s6 (alter (fun h => h <| rh_impl := 0 |> <| rh_stopped := true |> <| rh_stop_in_progress := false |>) h
      (<[h := mkHandle i gen false true]> (ls_handles s0))) 0 false (ls_next_generation s0) true).
    { destruct S5 as [Hb _]. split; [exact Hb|]. unfold public_view, s6. cbn. by rewrite E1, E3, E4, E5. }
    rewrite alter_insert_eq in S6. destruct (beside_on_w _ s6 keeps_deactivate) as [Hb7 Hv7]. unfold wp at 1.
    pose proof (seen_aside _ _ _ _ _ _ _ _ Hb7 Hv7 S6) as S7. set (s7 := (on_w tsd_runtime_config_deactivate_snapshot s6).2) in *. clearbody s7.
    eapply step_unlock; [exact S7|]. intros s8 S8. apply wp_bind, wp_ret, wp_ret, wp_ret. intros v [= <-].
    exists (mkSlots None ({[h]} ∪ sl_done a)). split; [|split].
    + destruct a as [l d]. cbn in Hl. subst l. constructor.
    + pose proof (seen_eqs _ _ _ _ _ _ _ S8) as (F1 & F2 & F3 & F4 & F5). pose proof S8 as [Hb8 _].
      assert (N8 : ls_next_pointer s2 <= ls_next_pointer s8) by (destruct Hb8 as (_ & _ & _ & _ & ? & _); done).
      split; cbn [sl_live sl_done]; try rewrite F1.
      * done.
      * split; [done|]. by apply (pl_idle_beside s2).
      * intros h'. rewrite elem_of_union, elem_of_singleton, R3. destruct (decide (h' = h)) as [->|Hn'].
        { rewrite lookup_insert_eq. split; [intros _; by exists gen | by left]. }
        rewrite lookup_insert_ne by done. naive_solver.
      * intros h' Hh'. right. rewrite elem_of_union, elem_of_singleton. destruct (decide (h' = h)) as [->|Hn']; [by left|right].
        rewrite lookup_insert_ne in Hh' by done. destruct (R4 h' Hh') as [E|E]; [congruence | done].
      * intros h' Hh'. destruct (decide (h' = h)) as [->|Hn']; [lia|]. rewrite lookup_insert_ne in Hh' by done. specialize (R5 h' Hh'). lia.
      * lia.
    + pose proof (seen_dangling _ _ _ _ _ _ _ S8). congruence.
  - eapply step_handles; [exact S4|]. intros s5 S5. rewrite alter_insert_eq in S5.
    eapply step_unlock; [exact S5|]. intros s6 S6. apply wp_bind. destruct (beside_on_w _ s6 (keeps_errno err)) as [Hb7 Hv7].
    unfold wp at 1. pose proof (seen_aside _ _ _ _ _ _ _ _ Hb7 Hv7 S6) as S7. set (s7 := (on_w (set_errno err) s6).2) in *. clearbody s7.
    apply wp_ret, wp_ret. intros v [= <-]. exists a. split; [constructor|].
    pose proof (seen_eqs _ _ _ _ _ _ _ S7) as (F1 & F2 & F3 & F4 & F5). pose proof S7 as [Hb8 _].
    assert (N8 : ls_next_pointer s2 <= ls_next_pointer s7) by (destruct Hb8 as (_ & _ & _ & _ & ? & _); done).
    assert (Eh : <[h := mkHandle i gen false false]> (ls_handles s0) = ls_handles s0) by (by apply insert_id). 
    change (ls_handles s7 = <[h := mkHandle i gen false false]> (ls_handles s0)) in F1. rewrite Eh in F1. split; [|pose proof (seen_dangling _ _ _ _ _ _ _ S7); congruence].
    split; try rewrite F1; try done.
    + rewrite F2. rewrite Hl. split; [done|]. split; [done|]. exists i, gen. split; [done|]. split; [done|]. by apply (pl_live_beside i s2).
    + intros h' Hh'. specialize (R5 h' Hh'). lia.
    + lia.
Qed.

Lemma stop_refines s a h : rep s a -> wp (run_api (AStop h)) (refines s a (AStop h)) s.
Proof.
  intros Hr. unfold run_api. apply wp_bind. pose proof (rep_seen _ _ Hr) as S0.
  assert (Hfail : forall s' g, seen s s' (ls_handles s) (ls_public_active s) false g false -> forall r, r = Some (-1) ->
    wp (ret ((fun rc => (rc, 0)) <$> r)) (refines s a (AStop h)) s').
  { intros s' g Hs r ->. apply wp_ret. intros v [= <-]. exists a. split; [constructor|]. split; [by eapply rep_kept | by eapply seen_dangling]. }
  unfold tsd_runtime_stop. apply wp_bind. unfold stop_begin. destruct (h =? 0) eqn:E0; zbool.
  { eapply run_fail; [exact S0|]. intros s1 S1. apply wp_ret. by eapply Hfail. }
  eapply step_public; [exact S0|]. intros s1 S1. cbn [Z.eqb negb]. apply wp_bind, wp_gets.
  pose proof (seen_eqs _ _ _ _ _ _ _ S1) as (E1 & E2 & _). rewrite E2.
  destruct (h =? ls_public_active s) eqn:Ea; zbool; cbn [negb orb].
  2: { apply wp_bind, wp_ret. cbn [negb orb]. eapply step_unlock; [exact S1|]. intros s2 S2. eapply run_fail; [exact S2|]. intros s3 S3.
       apply wp_ret. by eapply Hfail. }
  destruct (rep_active s a h Hr (eq_sym Ea) E0) as (Hl & i & g & Hh & Hi & Hp).
  apply wp_bind. unfold read_handle. apply wp_bind, wp_gets. rewrite E1, Hh. apply wp_ret. cbn [rh_stopped rh_impl rh_stop_in_progress live_handle orb].
  rewrite (proj2 (Z.eqb_neq _ _) Hi). eapply step_handles; [exact S1|]. intros s2 S2.
  rewrite (alter_insert_lookup _ _ _ _ Hh), <- Ea in S2. eapply step_unlock; [exact S2|]. intros s3 S3. apply wp_ret. cbn [rh_impl live_handle].
  apply wp_bind. eapply wp_mono; [apply pl_stop; by apply (pl_live_beside i s s3 (proj1 S3))|]. cbv beta. intros r s4 H4.
  destruct r as [rc|]; [|apply wp_ret, wp_ret; intros v; done].
  destruct (H4 rc eq_refl) as (Hv & Hd & Hn & Hc).
  eapply wp_mono; [eapply (stop_finish_run s a h i g s3 s4 rc); eauto; by rewrite <- Ea|]. cbv beta. intros r s5 H5. apply wp_ret.
  intros v Hr'. destruct r as [rc'|]; [|done]. injection Hr' as <-. by apply H5.
Qed.

Lemma destroy_refines s a h : rep s a -> call_ok s (ADestroy h) -> wp (run_api (ADestroy h)) (refines s a (ADestroy h)) s.
Proof.
  intros Hr Hok. unfold run_api. apply wp_bind. pose proof (rep_seen _ _ Hr) as S0. pose proof Hr as [_ R2 R3 R4 R5 R6].
  assert (Hfail : h ∉ sl_done a -> forall s' g, seen s s' (ls_handles s) (ls_public_active s) false g false ->
    wp (ret (Some (-1, 0))) (refines s a (ADestroy h)) s').
  { intros Hnd s' g Hs. apply wp_ret. intros v [= <-]. exists a. split; [by constructor|]. split; [by eapply rep_kept | by eapply seen_dangling]. }
  assert (Hf : forall e s' g, h ∉ sl_done a -> seen s s' (ls_handles s) (ls_public_active s) false g false ->
    wp (lfail e) (fun rc => wp (ret (Some (rc, 0))) (refines s a (ADestroy h))) s').
  { intros e s' g Hnd Hs. unfold lfail, wp at 1. destruct (beside_on_w (fail e) s' (keeps_fail e)) as [Hb Hv].
    assert (E : (on_w (fail e) s').1 = -1) by (unfold on_w; by rewrite on_p_run, lift_run). rewrite E.
    eapply Hfail; [done|]. by eapply seen_aside. }
  unfold tsd_runtime_destroy. destruct (h =? 0) eqn:E0; zbool.
  { eapply Hf; [|exact S0]. rewrite R3, E0. intros (g & Hg). destruct (R5 0); [by rewrite Hg | lia]. }
  eapply step_public; [exact S0|]. intros s1 S1. cbn [Z.eqb negb]. apply wp_bind, wp_gets.
  pose proof (seen_eqs _ _ _ _ _ _ _ S1) as (E1 & E2 & _). rewrite E2.
  destruct (h =? ls_public_active s) eqn:Ea; zbool.
  { destruct (rep_active s a h Hr (eq_sym Ea) E0) as (Hl & i & g & Hh & Hi & Hp).
    eapply step_unlock; [exact S1|]. intros s2 S2. eapply Hf; [|exact S2]. rewrite R3, Hh. by intros (g' & ?). }
  destruct Hok as [?|Hok]; [done|]. destruct (R4 h Hok) as [Hl|Hd].
  { rewrite Hl in R2. destruct R2 as [? _]. congruence. }
  pose proof (proj1 (R3 h) Hd) as (g & Hg). apply wp_bind. unfold read_handle. apply wp_bind, wp_gets. rewrite E1, Hg. apply wp_ret.
  cbn [rh_stopped rh_impl rh_stop_in_progress done_handle negb orb Z.eqb].
  eapply step_unlock; [exact S1|]. intros s2 S2. eapply step_handles; [exact S2|]. intros s3 S3. apply wp_ret, wp_ret.
  intros v [= <-]. exists (mkSlots (sl_live a) (sl_done a ∖ {[h]})). split; [destruct a; by constructor|]. split; [|by eapply seen_dangling].
  pose proof (seen_eqs _ _ _ _ _ _ _ S3) as (F1 & F2 & F3 & F4 & F5). pose proof S3 as [Hb _].
  assert (N8 : ls_next_pointer s <= ls_next_pointer s3) by (destruct Hb as (_ & _ & _ & _ & ? & _); done).
  split; cbn [sl_live sl_done]; try rewrite F1; try rewrite F2.
  - done.
  - destruct (sl_live a) as [h'|]; [|split; [apply R2 | by apply (pl_idle_beside s), R2]].
    destruct R2 as (A & N & i & g' & Hh & Hi & Hp). split; [done|]. split; [done|]. exists i, g'.
    rewrite lookup_delete_ne by congruence. split; [done|]. split; [done|]. by apply (pl_live_beside i s).
  - intros h'. rewrite elem_of_difference, elem_of_singleton, R3. destruct (decide (h = h')) as [<-|Hn].
    + rewrite lookup_delete_eq. naive_solver.
    + rewrite lookup_delete_ne by done. naive_solver.
  - intros h' Hh'. destruct (decide (h = h')) as [<-|Hn]; [by rewrite lookup_delete_eq in Hh'; destruct Hh'|].
    rewrite lookup_delete_ne in Hh' by done. destruct (R4 h' Hh'); [by left | right; set_solver].
  - intros h' Hh'. destruct (decide (h = h')) as [<-|Hn]; [by rewrite lookup_delete_eq in Hh'; destruct Hh'|].
    rewrite lookup_delete_ne in Hh' by done. specialize (R5 h' Hh'). lia.
  - lia.
Qed.

(** A start that was given up. *)
Lemma rep_idle_again s a s1 s' g :
  rep s a -> sl_live a = None -> ls_next_pointer s <= ls_next_pointer s1 -> pl_idle s1 ->
  seen s1 s' (ls_handles s) 0 false g false -> rep s' a.
Proof.
  intros [_ R2 R3 R4 R5 R6] Hl Hn Hi Hs. pose proof (seen_eqs _ _ _ _ _ _ _ Hs) as (E1 & E2 & E3 & E4 & E5). pose proof Hs as [Hb _].
  assert (N : ls_next_pointer s1 <= ls_next_pointer s') by (destruct Hb as (_ & _ & _ & _ & ? & _); done).
  split; try rewrite E1; try done; [|intros h Hh; specialize (R5 h Hh); lia | lia].
  rewrite Hl, E2. split; [done|]. by apply (pl_idle_beside s1).
Qed.

Lemma abandon_run_slot s0 s hs a g h err :
  seen s0 s hs a true g false ->
  wp (abandon_slot h err) (fun rc s' => rc = -1 /\ seen s0 s' (delete h hs) a false g false) s.
Proof.
  intros Hs. unfold abandon_slot. eapply step_public; [exact Hs|]. intros s1 S1. apply wp_bind, wp_modify.
  set (s2 := s1 <| ls_public_starting := false |>). assert (S2 : seen s0 s2 hs a false g true).
  { pose proof (seen_eqs _ _ _ _ _ _ _ S1) as (E1 & E2 & E3 & E4 & E5). destruct S1 as [Hb _]. split; [exact Hb|].
    unfold public_view, s2. cbn. by rewrite E1, E2, E4, E5. }
  eapply step_unlock; [exact S2|]. intros s3 S3. eapply step_handles; [exact S3|]. intros s4 S4. unfold lfail, wp.
  destruct (beside_on_w (fail err) s4 (keeps_fail err)) as [Hb Hv]. split; [unfold on_w; by rewrite on_p_run, lift_run | by eapply seen_aside].
Qed.

(** The reservation: refused without a trace, or the slot is taken. *)
Lemma reserve_run s a :
  rep s a ->
  wp start_reserve (fun r s' =>
    match r with
    | inl rc => rc = -1 /\ seen s s' (ls_handles s) (ls_public_active s) false (ls_next_generation s) false
    | inr p => 0 < p /\ ls_handles s !! p = None /\ p < ls_next_pointer s' /\ sl_live a = None /\
               seen s s' (<[p := mkHandle 0 0 false false]> (ls_handles s)) 0 true (ls_next_generation s) false
    end) s.
Proof.
  intros Hr. pose proof (rep_seen _ _ Hr) as S0. pose proof Hr as [_ R2 R3 R4 R5 R6]. unfold start_reserve.
  eapply step_calloc; [exact S0| |].
  { intros s1 S1. cbn [Z.eqb]. by apply wp_ret. }
  intros s1 p S1 -> Hn. rewrite (proj2 (Z.eqb_neq _ 0)) by lia. set (p := ls_next_pointer s) in *.
  assert (Hp : ls_handles s !! p = None).
  { destruct (ls_handles s !! p) eqn:E; [|done]. destruct (R5 p); [by rewrite E | unfold p in *; lia]. }
  pose proof S1 as [B1 V1]. assert (T1 : seen s1 s1 (ls_handles s) (ls_public_active s) false (ls_next_generation s) false) by done.
  assert (Hback : forall s' hs a st g l, seen s1 s' hs a st g l -> seen s s' hs a st g l /\ p < ls_next_pointer s').
  { intros s' hs a' st g l [Hb Hv]. split; [split; [by transitivity s1 | done]|]. destruct Hb as (_ & _ & _ & _ & ? & _). lia. }
  eapply step_handles; [exact T1|]. intros s2 S2. eapply step_public; [exact S2|]. intros s3 S3. cbn [Z.eqb negb].
  apply wp_bind, wp_gets, wp_bind, wp_gets. pose proof (seen_eqs _ _ _ _ _ _ _ S3) as (E1 & E2 & E3 & E4 & _). rewrite E2, E3.
  apply step_aside; [apply keeps_gets|]. intros s4 Hb Hv. pose proof (seen_aside _ _ _ _ _ _ _ _ Hb Hv S3) as S4.
  match goal with |- wp (if ?b then _ else _) _ _ => destruct b eqn:Eb end.
  - eapply step_unlock; [exact S4|]. intros s5 S5. eapply step_handles; [exact S5|]. intros s6 S6. rewrite delete_insert_id in S6 by done.
    eapply run_fail; [exact S6|]. intros s7 S7. split; [done | by apply Hback].
  - zbool. apply wp_bind, wp_modify. set (s5 := s4 <| ls_public_starting := true |>).
    assert (Hact : ls_public_active s = 0) by done.
    assert (S5 : seen s1 s5 (<[p := mkHandle 0 0 false false]> (ls_handles s)) 0 true (ls_next_generation s) true).
    { pose proof (seen_eqs _ _ _ _ _ _ _ S4) as (G1 & G2 & G3 & G4 & G5). destruct S4 as [Hb4 _]. split; [exact Hb4|].
      unfold public_view, s5. cbn. by rewrite G1, G2, G4, G5, Hact. }
    eapply step_unlock; [exact S5|]. intros s6 S6. apply wp_ret. apply Hback in S6 as [S6 N6]. split; [lia|]. split; [done|]. split; [done|].
    split; [|done]. destruct (sl_live a) as [h|]; [|done]. destruct R2 as (A & N & _). congruence.
Qed.

(** Installing the handle. *)
Lemma install_run s0 s a w cfg p impl :
  rep s0 a -> sl_live a = None -> 0 < p -> ls_handles s0 !! p = None -> p < ls_next_pointer s -> ls_next_pointer s0 <= ls_next_pointer s ->
  ls_dangling s = ls_dangling s0 -> impl <> 0 -> pl_live impl s ->
  public_view s = (<[p := mkHandle 0 0 false false]> (ls_handles s0), 0, true, ls_next_generation s0, false) ->
  wp (installed <- start_install p impl ;; ret ((fun rc => (rc, if rc =? 0 then p else 0)) <$> installed))
     (refines s0 a (AStart w (Some cfg))) s.
Proof.
  intros Hr Hl Hp Hfresh Hlt Hn Hd Hi Hlive Hv. pose proof Hr as [_ R2 R3 R4 R5 R6]. unfold start_install.
  assert (S0 : seen s s (<[p := mkHandle 0 0 false false]> (ls_handles s0)) 0 true (ls_next_generation s0) false) by done.
  apply wp_bind. eapply step_public; [exact S0|]. intros s1 S1. cbn [Z.eqb negb]. apply wp_bind, wp_gets.
  pose proof (seen_eqs _ _ _ _ _ _ _ S1) as (_ & _ & _ & E4 & _). rewrite E4. set (gen := ls_next_generation s0).
  eapply step_handles; [exact S1|]. intros s2 S2. rewrite alter_insert_eq in S2.
  pose proof (seen_eqs _ _ _ _ _ _ _ S2) as (F1 & F2 & F3 & F4 & F5).
  apply wp_bind, wp_modify. set (s3 := over _ _ _).
  assert (S3 : exists g, seen s s3 (<[p := live_handle impl gen]> (ls_handles s0)) p false g true).
  { eexists. destruct S2 as [Hb _]. split; [exact Hb|]. unfold public_view, s3. cbn. rewrite F1, F5. reflexivity. }
  destruct S3 as [g S3]. clearbody s3. eapply step_unlock; [exact S3|]. intros s4 S4. apply wp_ret, wp_ret. intros v [= <-].
  pose proof (seen_eqs _ _ _ _ _ _ _ S4) as (G1 & G2 & G3 & G4 & G5). pose proof S4 as [Hb _].
  assert (N4 : ls_next_pointer s <= ls_next_pointer s4) by (destruct Hb as (_ & _ & _ & _ & ? & _); done).
  assert (Hnd : p ∉ sl_done a) by (rewrite R3, Hfresh; by intros (? & ?)).
  exists (mkSlots (Some p) (sl_done a)). split; [|split].
  - destruct a as [l d]. cbn in Hl. subst l. cbn [Z.eqb]. constructor; [lia | done].
  - split; cbn [sl_live sl_done]; try rewrite G1.
    + done.
    + split; [done|]. split; [lia|]. exists impl, gen. rewrite lookup_insert_eq. split; [done|]. split; [done|].
      by apply (pl_live_beside impl s).
    + intros h. rewrite R3. destruct (decide (h = p)) as [->|Hne].
      * rewrite lookup_insert_eq, Hfresh. split; [by intros (? & ?) | by intros (? & [=])].
      * by rewrite lookup_insert_ne.
    + intros h Hh. destruct (decide (h = p)) as [->|Hne]; [by left|right]. rewrite lookup_insert_ne in Hh by done.
      destruct (R4 h Hh) as [E|E]; [congruence | done].
    + intros h Hh. destruct (decide (h = p)) as [->|Hne]; [lia|]. rewrite lookup_insert_ne in Hh by done. specialize (R5 h Hh). lia.
    + lia.
  - pose proof (seen_dangling _ _ _ _ _ _ _ S4). congruence.
Qed.

Lemma start_refines s a w c : rep s a -> wp (run_api (AStart w c)) (refines s a (AStart w c)) s.
Proof.
  intros Hr. unfold run_api, tsd_runtime_start_with_config. pose proof (rep_seen _ _ Hr) as S0.
  destruct c as [cfg|].
  2: { eapply run_fail; [exact S0|]. intros s1 S1 v [= <-]. exists a. split; [constructor|]. split; [by eapply rep_kept | by eapply seen_dangling]. }
  apply wp_bind. eapply wp_mono; [by apply reserve_run|]. cbv beta. intros r s1 H1. destruct r as [rc|p].
  { destruct H1 as [-> S1]. apply wp_ret. intros v [= <-]. exists a. split; [constructor|]. split; [by eapply rep_kept | by eapply seen_dangling]. }
  destruct H1 as (Hp & Hfresh & Hlt & Hl & S1). pose proof Hr as [_ R2 _ _ _ _]. rewrite Hl in R2. destruct R2 as [Ha Hidle].
  assert (Hgive : forall s' s2 err g, ls_next_pointer s <= ls_next_pointer s' -> ls_dangling s' = ls_dangling s -> pl_idle s' ->
    seen s' s2 (<[p := mkHandle 0 0 false false]> (ls_handles s)) 0 true g false ->
    wp (rc <- abandon_slot p err ;; ret (Some (rc, 0))) (refines s a (AStart w (Some cfg))) s2).
  { intros s' s2 err g Hn Hd Hi Hs. apply wp_bind. eapply wp_mono; [eapply abandon_run_slot; exact Hs|]. cbv beta. intros rc s3 [-> S3].
    rewrite delete_insert_id in S3 by done. apply wp_ret. intros v [= <-]. exists a. split; [constructor|].
    split; [by eapply rep_idle_again | pose proof (seen_dangling _ _ _ _ _ _ _ S3); congruence]. }
  apply step_aside; [apply keeps_activate|]. intros s2 Hb Hv. pose proof (seen_aside _ _ _ _ _ _ _ _ Hb Hv S1) as S2.
  assert (Hi2 : pl_idle s2) by (apply (pl_idle_beside s); [apply S2 | done]).
  assert (N2 : ls_next_pointer s <= ls_next_pointer s2) by (destruct S2 as [(_ & _ & _ & _ & ? & _) _]; done).
  assert (L2 : p < ls_next_pointer s2) by (destruct Hb as (_ & _ & _ & _ & ? & _); lia).
  pose proof (seen_dangling _ _ _ _ _ _ _ S2) as D2.
  assert (T2 : seen s2 s2 (<[p := mkHandle 0 0 false false]> (ls_handles s)) 0 true (ls_next_generation s) false) by (split; [done | apply S2]).
  match goal with |- wp (if ?b then _ else _) _ _ => destruct b end.
  { eapply step_errno; [exact T2|]. intros err s3 S3. by eapply Hgive. }
  apply wp_bind. eapply wp_mono; [by apply pl_start|]. cbv beta. intros [rc impl] s3 (Hv3 & Hd3 & Hn3 & Hc). cbn [fst snd] in Hc.
  destruct Hc as [(-> & Hi & Hlive)|(-> & Hi3)]; cbn [Z.eqb negb].
  - apply install_run; try done; try lia; [congruence | ]. rewrite Hv3. apply T2.
  - assert (T3 : seen s3 s3 (<[p := mkHandle 0 0 false false]> (ls_handles s)) 0 true (ls_next_generation s) false)
      by (split; [done | rewrite Hv3; apply T2]).
    eapply step_errno; [exact T3|]. intros err s4 S4. apply step_aside; [apply keeps_deactivate|]. intros s5 Hb5 Hv5.
    eapply (Hgive s3); [lia | congruence | done |]. by eapply seen_aside.
Qed.

Lemma api_refines s a c : rep s a -> call_ok s c -> wp (run_api c) (refines s a c) s.
Proof. intros Hr Hok. destruct c; [by apply start_refines | by apply stop_refines | by apply destroy_refines]. Qed.

End refinement.

(** ** While a stop or a start is under way

    Nothing is assumed of the private runtime here, so no call is made to it. *)

Section windows.
Context `{EV : Env, PR : PrivateRuntime} (HL : locks_ok).

Lemma run_lfail e Q s0 s hs a st g l :
  seen s0 s hs a st g l -> (forall s', seen s0 s' hs a st g l -> w_errno (world_of s') = e -> Q (-1) s') -> wp (lfail e) Q s.
Proof.
  intros Hs Hk. unfold lfail, wp. destruct (beside_on_w (fail e) s (keeps_fail e)) as [Hb Hv].
  assert (E : (on_w (fail e) s).1 = -1) by (unfold on_w; by rewrite on_p_run, lift_run). rewrite E. apply Hk; [by eapply seen_aside|].
  unfold on_w, world_of. rewrite on_p_run, lift_run. done.
Qed.

(** Reading the installed handle. *)
Lemma step_active {B} (k : Z -> runtime_handle -> LM B) Q s0 s hs h st g l o :
  seen s0 s hs h st g l -> hs !! h = Some o -> wp (k h o) Q s ->
  wp (active <- gets ls_public_active ;;
      o <- (if h =? active then read_handle h else ret (mkHandle 0 0 false false)) ;; k active o) Q s.
Proof.
  intros Hs Hh Hk. pose proof (seen_eqs _ _ _ _ _ _ _ Hs) as (E1 & E2 & _). apply wp_bind, wp_gets. rewrite E2, Z.eqb_refl.
  apply wp_bind. unfold read_handle. apply wp_bind, wp_gets. rewrite E1, Hh. by apply wp_ret.
Qed.

Lemma window_not_live h i g : handle_live h h (mkHandle i g false true) = false.
Proof. unfold handle_live. by rewrite Z.eqb_refl. Qed.

(** The handle is being stopped. *)
Definition stop_window (s : lstate) (h : Z) : Prop :=
  h <> 0 /\ ls_public_lock s = false /\ ls_public_active s = h /\
  exists i g, i <> 0 /\ ls_handles s !! h = Some (mkHandle i g false true).

(** [m] ends with [r] and [e], and nothing public or private moved. *)
Definition refused {A} (m : LM A) (r : A) (e : Z) (s : lstate) : Prop :=
  wp m (fun r' s' => r' = r /\ w_errno (world_of s') = e /\ beside s s' /\ public_view s' = public_view s) s.
Definition silent {A} (m : LM A) (r : A) (s : lstate) : Prop :=
  wp m (fun r' s' => r' = r /\ beside s s' /\ public_view s' = public_view s) s.

Lemma start_refused w cfg s :
  ls_public_lock s = false -> (forall p, ls_next_pointer s <= p -> ls_handles s !! p = None) -> 0 < ls_next_pointer s ->
  ls_public_active s <> 0 \/ ls_public_starting s = true ->
  wp (tsd_runtime_start_with_config w (Some cfg)) (fun r s' =>
    r = Some (-1, 0) /\ (w_errno (world_of s') = EBUSY \/ w_errno (world_of s') = ENOMEM) /\
    beside s s' /\ public_view s' = public_view s) s.
Proof.
  intros Hlk Hfresh Hnext Hbusy. unfold tsd_runtime_start_with_config, start_reserve.
  set (st := ls_public_starting s). set (g := ls_next_generation s).
  assert (S0 : seen s s (ls_handles s) (ls_public_active s) st g false) by (split; [done|]; unfold public_view; by rewrite Hlk).
  apply wp_bind. unfold calloc_pointer. apply wp_bind, step_aside; [apply keeps_ext|]. intros s1 Hb1 Hv1.
  pose proof (seen_aside _ _ _ _ _ _ _ _ Hb1 Hv1 S0) as S1. assert (N1 : ls_next_pointer s1 >= ls_next_pointer s) by (destruct Hb1 as (_ & _ & _ & _ & ? & _); lia).
  destruct (negb _).
  { apply wp_bind. unfold wp at 1. destruct (beside_on_w _ s1 (keeps_errno ENOMEM)) as [Hb2 Hv2].
    apply wp_ret. cbn [Z.eqb]. apply wp_ret, wp_ret. split; [done|]. split; [right; unfold on_w, world_of; by rewrite on_p_run, lift_run|].
    split; [by transitivity s1 | congruence]. }
  apply wp_bind, wp_gets, wp_bind, wp_modify, wp_ret. set (s2 := s1 <| ls_next_pointer ::= _ |>). set (p := ls_next_pointer s1) in *.
  assert (S2 : seen s s2 (ls_handles s) (ls_public_active s) st g false).
  { destruct S1 as [(B1 & B2 & B3 & B4 & B5 & B6) Hv]. split; [split_and!; try done; unfold s2; cbn; lia | exact Hv]. }
  clearbody s2. rewrite (proj2 (Z.eqb_neq _ 0)) by lia. eapply step_handles; [exact S2|]. intros s3 S3.
  eapply step_public; [done | exact S3 |]. intros s4 S4. cbn [Z.eqb negb]. apply wp_bind, wp_gets, wp_bind, wp_gets.
  pose proof (seen_eqs _ _ _ _ _ _ _ S4) as (E1 & E2 & E3 & _). rewrite E2, E3.
  apply step_aside; [apply keeps_gets|]. intros s5 Hb5 Hv5. pose proof (seen_aside _ _ _ _ _ _ _ _ Hb5 Hv5 S4) as S5.
  match goal with |- wp (if ?b then _ else _) _ _ => assert (Eb : b = true) end.
  { destruct Hbusy as [Hne|Hst]; [rewrite (proj2 (Z.eqb_neq _ _) Hne) | unfold st; rewrite Hst, orb_true_r]; done. }
  rewrite Eb. eapply step_unlock; [exact S5|]. intros s6 S6. eapply step_handles; [exact S6|]. intros s7 S7.
  rewrite delete_insert_id in S7 by (apply Hfresh; lia). apply wp_bind. eapply run_lfail; [exact S7|]. intros s8 S8 He. apply wp_ret, wp_ret.
  split; [done|]. split; [by left|]. destruct S8 as [Hb8 Hv8]. split; [done|]. rewrite Hv8. unfold public_view. by rewrite Hlk.
Qed.

(** While a stop drains, the handle stays installed and every
    other public call fails closed at once: starts report EBUSY (or ENOMEM),
    stopping or destroying the handle reports EBUSY, the diagnostics answer
    "not running" and "no mode", and a stop request is ignored.  None of them
    reaches the private runtime, whatever it would do. *)
Theorem stop_window_fails_closed (h : Z) (s : lstate) :
  stop_window s h ->
  refused (tsd_runtime_stop h) (Some (-1)) EBUSY s /\
  refused (tsd_runtime_destroy h) (-1) EBUSY s /\
  silent (tsd_runtime_is_running h) false s /\
  silent (tsd_runtime_perf_mode h) TSD_PERF_MODE_NONE s /\
  silent (tsd_runtime_request_stop h) tt s /\
  (forall w cfg, (forall p, ls_next_pointer s <= p -> ls_handles s !! p = None) -> 0 < ls_next_pointer s ->
     wp (tsd_runtime_start_with_config w (Some cfg)) (fun r s' =>
       r = Some (-1, 0) /\ (w_errno (world_of s') = EBUSY \/ w_errno (world_of s') = ENOMEM) /\
       beside s s' /\ public_view s' = public_view s) s).
Proof.
  intros (Hne & Hlk & Ha & i & g & Hi & Hh).
  set (st := ls_public_starting s). set (ng := ls_next_generation s).
  assert (S0 : seen s s (ls_handles s) h st ng false) by (split; [done|]; unfold public_view; by rewrite Hlk, Ha).
  assert (Hend : forall s', seen s s' (ls_handles s) h st ng false -> beside s s' /\ public_view s' = public_view s).
  { intros s' [Hb Hv]. split; [done|]. rewrite Hv. unfold public_view. by rewrite Hlk, Ha. }
  assert (Hz : (h =? 0) = false) by (by apply Z.eqb_neq). split_and!.
  - unfold refused, tsd_runtime_stop, stop_begin. rewrite Hz. apply wp_bind. eapply step_public; [done | exact S0 |]. intros s1 S1. cbn [Z.eqb negb].
    eapply step_active; [exact S1 | exact Hh |]. rewrite Z.eqb_refl. cbn [negb orb rh_stopped rh_impl rh_stop_in_progress]. rewrite (proj2 (Z.eqb_neq _ _) Hi).
    eapply step_unlock; [exact S1|]. intros s2 S2. apply wp_bind. eapply run_lfail; [exact S2|]. intros s3 S3 He. apply wp_ret, wp_ret.
    split; [done|]. split; [done|]. by apply Hend.
  - unfold refused, tsd_runtime_destroy. rewrite Hz. eapply step_public; [done | exact S0 |]. intros s1 S1. cbn [Z.eqb negb].
    pose proof (seen_eqs _ _ _ _ _ _ _ S1) as (E1 & E2 & _). apply wp_bind, wp_gets. rewrite E2, Z.eqb_refl.
    eapply step_unlock; [exact S1|]. intros s2 S2. eapply run_lfail; [exact S2|]. intros s3 S3 He. split; [done|]. split; [done|]. by apply Hend.
  - unfold silent, tsd_runtime_is_running. rewrite Hz. eapply step_public; [done | exact S0 |]. intros s1 S1. cbn [Z.eqb negb].
    eapply step_active; [exact S1 | exact Hh |]. rewrite window_not_live.
    apply wp_bind, wp_ret. eapply step_unlock; [exact S1|]. intros s2 S2. apply wp_ret. split; [done|]. by apply Hend.
  - unfold silent, tsd_runtime_perf_mode. rewrite Hz. eapply step_public; [done | exact S0 |]. intros s1 S1. cbn [Z.eqb negb].
    eapply step_active; [exact S1 | exact Hh |]. rewrite window_not_live.
    apply wp_bind, wp_ret. eapply step_unlock; [exact S1|]. intros s2 S2. apply wp_ret. split; [done|]. by apply Hend.
  - unfold silent, tsd_runtime_request_stop. rewrite Hz. eapply step_public; [done | exact S0 |]. intros s1 S1. cbn [Z.eqb negb].
    eapply step_active; [exact S1 | exact Hh |]. rewrite window_not_live. cbn [when].
    apply wp_bind, wp_ret. unfold unlock_public. apply wp_modify. split; [done|].
    assert (S2 : seen s (s1 <| ls_public_lock := false |>) (ls_handles s) h st ng false).
    { pose proof (seen_eqs _ _ _ _ _ _ _ S1) as (F1 & F2 & F3 & F4 & _). destruct S1 as [Hb _]. split; [exact Hb|].
      unfold public_view. cbn. by rewrite F1, F2, F3, F4. }
    by apply Hend.
  - intros w cfg Hf Hn. apply start_refused; try done. left. congruence.
Qed.
End windows.

(** When the public mutex cannot be taken again after the private
    runtime was stopped, the handle stays marked as being stopped although
    nothing is left to stop; and when it cannot be taken again after a start,
    the start slot stays reserved although the runtime was stopped again.  With
    the busy test of stops (stated below) and the busy test of starts, every later start is
    refused. *)
Theorem failed_relock_strands_slot `{EV : Env, PR : PrivateRuntime} (s : lstate) (h impl : Z) :
  env_lock (w_calls (world_of s)) <> 0 ->
  (stop_window s h -> wp (stop_finish h 0) (fun rc s' => rc = -1 /\ stop_window s' h) s) /\
  (ls_public_starting s = true -> (forall s1, public_view (exec (pr_stop impl) s1) = public_view s1) ->
   wp (start_install h impl) (fun r s' => (r = None \/ r = Some (-1)) /\ ls_public_starting s' = true) s).
Proof.
  intros Hf.
  assert (Hlock : forall {B} (k : Z -> LM B) Q s1, world_of s1 = world_of s -> public_view s1 = public_view s ->
    (forall rc s', rc <> 0 -> public_view s' = public_view s -> wp (k rc) Q s') -> wp (bind lock_public k) Q s1).
  { intros B k Q s1 E V Hk. unfold lock_public. apply wp_bind, step_aside; [apply keeps_ext|]. intros s2 Hb Hv. cbn [ext fst]. rewrite E.
    rewrite (proj2 (Z.eqb_neq _ _) Hf). apply wp_ret, Hk; [done | congruence]. }
  assert (Hview : forall e s1, public_view (lfail e s1).2 = public_view s1 /\ (lfail e s1).1 = -1).
  { intros e s1. unfold lfail, on_w. rewrite on_p_run, lift_run. done. }
  split.
  - intros (Hne & Hlk & Ha & i & g & Hi & Hh). unfold stop_finish. apply step_w. intros s1 O1 E1.
    apply Hlock; [unfold world_of; rewrite E1, lift_run; done | unfold outer in O1; unfold public_view; congruence |]. intros rc s2 Hrc Hv.
    rewrite (proj2 (Z.eqb_neq _ _) Hrc). cbn [negb]. unfold wp. destruct (Hview rc s2) as [V R]. rewrite R. split; [done|].
    rewrite Hv in V. unfold public_view in V. split; [done|]. split; [congruence|]. split; [congruence|]. exists i, g. split; [done|].
    assert (E : ls_handles (lfail rc s2).2 = ls_handles s) by congruence. by rewrite E.
  - intros Hst Hpriv. unfold start_install. apply Hlock; [done..|]. intros rc s2 Hrc Hv.
    rewrite (proj2 (Z.eqb_neq _ _) Hrc). cbn [negb]. apply wp_bind. unfold wp at 1. pose proof (Hpriv s2) as Hp. unfold exec in Hp.
    destruct (pr_stop impl s2) as [[stop_rc|] s3]; cbn [fst snd] in *.
    2: { apply wp_ret. split; [by left|]. unfold public_view in *. congruence. }
    apply step_aside; [apply keeps_gets|]. intros s4 Hb4 Hv4. apply wp_bind. unfold wp at 1.
    assert (V5 : public_view ((when (stop_rc =? 0) (on_w tsd_runtime_config_deactivate_snapshot)) s4).2 = public_view s4).
    { destruct (stop_rc =? 0); cbn [when]; [apply beside_on_w, keeps_deactivate | done]. }
    set (s5 := (when _ _ s4).2) in *. clearbody s5. apply wp_bind, wp_modify, wp_bind. unfold wp at 1.
    match goal with |- context [lfail ?e ?x] => destruct (Hview e x) as [V6 R6]; rewrite R6; set (s6 := (lfail e x).2) in * end.
    clearbody s6. apply wp_ret. split; [by right|]. unfold public_view in *. cbn in V6. congruence.
Qed.

(** ** The private runtime keeps its promise *)

Section private.
Context `{EV : Env, PE : PerfEnv, TL : Telemetry, LE : LifeEnv, TLL : !TelemetryLaws, MM : !MmapAligned}.

#[export] Instance private_runtime : PrivateRuntime :=
  mkPrivate tsd_runtime_start_impl tsd_runtime_request_stop_impl tsd_runtime_stop_impl
    tsd_runtime_is_running_impl tsd_runtime_perf_mode_impl.

(** Private operations leave the public state alone, keep addresses unused and
    touch no object that is not there. *)
Definition inner (s s' : lstate) : Prop :=
  public_view s' = public_view s /\ ls_next_pointer s <= ls_next_pointer s' /\
  (forall p, ls_impls s !! p = None -> ls_impls s' !! p = None).
#[export] Instance inner_preorder : PreOrder inner.
Proof. split; [done|]. intros a b c (H1 & H2 & H3) (K1 & K2 & K3). split; [congruence|]. split; [lia | auto]. Qed.

Lemma inner_p {A} (m : PM A) : respects inner (on_p m).
Proof. intros s. rewrite on_p_run. done. Qed.
Lemma inner_w {A} (m : M A) : respects inner (on_w m).
Proof. apply inner_p. Qed.
Lemma inner_write p f : respects inner (write_impl p f).
Proof. intros s. split; [done|]. split; [cbn; lia|]. intros q Hq. cbn. by rewrite lookup_alter_None. Qed.
Lemma inner_free p : respects inner (free_impl p).
Proof. intros s. split; [done|]. split; [cbn; lia|]. intros q Hq. cbn. rewrite lookup_delete_None. by right. Qed.
Lemma inner_set (f : lstate -> lstate) :
  (forall s, public_view (f s) = public_view s /\ ls_next_pointer (f s) = ls_next_pointer s /\ ls_impls (f s) = ls_impls s) ->
  respects inner (modify f).
Proof. intros Hf s. destruct (Hf s) as (H1 & H2 & H3). split; [done|]. split; [cbn; lia|]. cbn. by rewrite H3. Qed.

Ltac inner_steps :=
  repeat first [apply inner_p | apply inner_w | apply inner_write | apply inner_free | (apply inner_set; done) | respects_step].

Lemma inner_lock : respects inner lock_runtime.
Proof. unfold lock_runtime. inner_steps. Qed.
Lemma inner_read p : respects inner (read_impl p).
Proof. unfold read_impl. inner_steps. Qed.

Lemma inner_launch p : respects inner (launch p).
Proof. unfold launch, abandon_start, unlock_runtime, lfail. inner_steps. Qed.

Lemma inner_stop p : respects inner (tsd_runtime_stop_impl p).
Proof.
  unfold tsd_runtime_stop_impl, join_monitor, drain_and_finish, finish_stop, retry_later, saved_errno, unlock_runtime, lfail.
  repeat first [apply inner_lock | apply inner_read | progress inner_steps].
Qed.

Lemma wp_inner {A B} (m : LM A) (k : A -> LM B) Q s s0 :
  respects inner m -> inner s0 s -> (forall a s', inner s0 s' -> wp (k a) Q s') -> wp (bind m k) Q s.
Proof. intros Hm Hs Hk. apply wp_bind. unfold wp at 1. apply Hk. transitivity s; [done | apply Hm]. Qed.

Lemma inner_heap s s' : inner s s' -> heap_ok s -> heap_ok s'.
Proof. intros (_ & H2 & H3) [K1 K2]. split; [lia|]. intros p Hp. apply H3, K2. lia. Qed.

(** What a start does to the rest of the state. *)
Definition outside_kept (s : lstate) (s' : lstate) : Prop :=
  public_view s' = public_view s /\ ls_next_pointer s <= ls_next_pointer s' /\ heap_ok s'.

Lemma inner_outside s s' : heap_ok s -> inner s s' -> outside_kept s s'.
Proof. intros Hh Hi. pose proof Hi as (H1 & H2 & _). split; [done|]. split; [done|]. by apply (inner_heap s). Qed.

Lemma start_outside workload s : heap_ok s -> wp (tsd_runtime_start_impl workload) (fun _ => outside_kept s) s.
Proof.
  intros Hh. unfold tsd_runtime_start_impl, unlock_runtime.
  assert (Hend : forall {A} (m : LM A) s', respects inner m -> inner s s' -> wp m (fun _ => outside_kept s) s').
  { intros A m s' Hm Hs. apply inner_outside; [done|]. transitivity s'; [done | apply Hm]. }
  eapply (wp_inner _ _ _ _ s); [apply inner_lock | done|]. intros _ s1 I1. apply wp_bind, wp_gets.
  destruct (_ <>? 0). { apply Hend; [unfold lfail; inner_steps | done]. }
  eapply (wp_inner _ _ _ _ s); [apply inner_p | done|]. intros rc s2 I2. destruct (_ <>? 0). { apply Hend; [inner_steps | done]. }
  eapply (wp_inner _ _ _ _ s); [apply inner_w | done|]. intros rc1 s3 I3. destruct (_ <>? 0). { apply Hend; [inner_steps | done]. }
  do 4 (eapply (wp_inner _ _ _ _ s); [apply inner_w | done|]; intros ? ? ?).
  unfold calloc_pointer. apply wp_bind. eapply (wp_inner _ _ _ _ s); [apply inner_w | done|]. intros found s4 I4.
  destruct (negb found).
  { apply wp_bind. unfold wp at 1. apply wp_ret. cbn [Z.eqb]. apply Hend; [inner_steps|]. transitivity s4; [done | apply inner_w]. }
  pose proof (inner_heap _ _ I4 Hh) as [N4 F4]. apply wp_bind, wp_gets, wp_bind, wp_modify, wp_ret.
  set (s5 := s4 <| ls_next_pointer ::= _ |>). rewrite (proj2 (Z.eqb_neq _ 0)) by lia.
  assert (I5 : inner s s5) by (destruct I4 as (J1 & J2 & J3); split_and!; [done | unfold s5; cbn; lia | done]).
  eapply (wp_inner _ _ _ _ s5); [apply inner_p | done|]. intros created s6 I6. destruct created; cbn [negb].
  2: { apply Hend; [inner_steps | by transitivity s5]. }
  apply wp_bind, wp_modify. set (s7 := s6 <| ls_impls ::= _ |>).
  assert (H7 : heap_ok s7).
  { pose proof (inner_heap _ _ I6 (inner_heap _ _ I5 Hh)) as [N6 F6]. assert (ls_next_pointer s4 + 1 <= ls_next_pointer s6) by apply I6.
    split; [done|]. intros q Hq. unfold s7 in *. cbn in *. rewrite lookup_insert_ne by lia. by apply F6. }
  assert (V7 : public_view s7 = public_view s /\ ls_next_pointer s <= ls_next_pointer s7).
  { assert (I : inner s s6) by (by transitivity s5). destruct I as (J1 & J2 & _). split; [exact J1 | exact J2]. }
  clearbody s7. match goal with |- wp ?m _ _ => assert (Hm : respects inner m) end.
  { repeat first [apply inner_launch | progress inner_steps]. }
  unfold wp. destruct (inner_outside _ _ H7 (Hm s7)) as (K1 & K2 & K3). destruct V7. split; [congruence|]. split; [lia | done].
Qed.

(** The two states of the private runtime. *)
Definition private_idle (s : lstate) : Prop :=
  heap_ok s /\ ls_active s = 0 /\ ls_runtime_lock s = false /\ at_rest (ls_p s).
Definition private_live (i : Z) (s : lstate) : Prop :=
  heap_ok s /\ i <> 0 /\ ls_active s = i /\ ls_runtime_lock s = false /\
  exists o, ls_impls s !! i = Some o /\ ri_stop_in_progress o = false /\ ctx_ok (ri_perf o) (ls_p s).

Lemma beside_heap s s' : beside s s' -> heap_ok s -> heap_ok s'.
Proof. intros (H1 & _ & _ & _ & H5 & _) [K1 K2]. split; [lia|]. intros p Hp. rewrite H1. apply K2. lia. Qed.

Lemma idle_beside s s' : beside s s' -> private_idle s -> private_idle s'.
Proof.
  intros Hb (H1 & H2 & H3 & H4). pose proof Hb as (_ & E2 & E3 & _ & _ & E6).
  split; [by apply (beside_heap s)|]. split; [congruence|]. split; [congruence|]. by apply (at_rest_quiet (ls_p s)).
Qed.

Lemma live_beside i s s' : beside s s' -> private_live i s -> private_live i s'.
Proof.
  intros Hb (H1 & H2 & H3 & H4 & o & H5 & H6 & H7). pose proof Hb as (E1 & E2 & E3 & _ & _ & E6).
  split; [by apply (beside_heap s)|]. split; [done|]. split; [congruence|]. split; [congruence|]. exists o.
  rewrite E1. split; [done|]. split; [done|]. by apply (ctx_ok_quiet _ (ls_p s)).
Qed.

Lemma start_reads_nothing workload : respects (fun s s' => ls_dangling s = ls_dangling s') (tsd_runtime_start_impl workload).
Proof.
  assert (Hp : forall {A} (m : PM A), respects (fun s s' => ls_dangling s = ls_dangling s') (on_p m)).
  { intros A m s. rewrite on_p_run. done. }
  assert (Hw : forall {A} (m : M A), respects (fun s s' => ls_dangling s = ls_dangling s') (on_w m)) by (intros A m; apply Hp).
  unfold tsd_runtime_start_impl, launch, abandon_start, lock_runtime, unlock_runtime, calloc_pointer, free_impl, write_impl, lfail.
  repeat first [apply Hp | apply Hw | (intros s; reflexivity) | respects_step].
Qed.

Lemma private_start workload s :
  private_idle s ->
  wp (tsd_runtime_start_impl workload) (fun r s' =>
    public_view s' = public_view s /\ ls_dangling s' = ls_dangling s /\ ls_next_pointer s <= ls_next_pointer s' /\
    ((r.1 = 0 /\ r.2 <> 0 /\ private_live r.2 s') \/ (r.1 = -1 /\ private_idle s'))) s.
Proof.
  intros (H1 & H2 & H3 & H4). pose proof (start_run workload s H1 H2 H3 H4) as [L H]. pose proof (start_outside workload s H1) as (V & N & Hh).
  pose proof (start_reads_nothing workload s) as D. unfold wp. split; [done|]. split; [by rewrite <- D|]. split; [done|].
  destruct H as [(R & _ & [[A1 A2] O C _ _ _ _] & _)|(R & A & _ & P)].
  - left. split; [done|]. split; [done|]. split; [done|]. split; [done|]. split; [done|]. split; [done|]. by exists (mkImpl true true false).
  - right. split; [by rewrite R|]. split; [done|]. split; [done|]. split; done.
Qed.

Lemma private_stop i s :
  locks_ok -> private_live i s ->
  wp (tsd_runtime_stop_impl i) (fun r s' => forall rc, r = Some rc ->
    public_view s' = public_view s /\ ls_dangling s' = ls_dangling s /\ ls_next_pointer s <= ls_next_pointer s' /\
    ((rc = 0 /\ private_idle s') \/ (rc = -1 /\ private_live i s'))) s.
Proof.
  intros HL (H1 & H2 & H3 & H4 & o & H5 & H6 & H7). pose proof (stop_run s i o H3 H2 H4 H5 H6 H7) as H. pose proof (inner_stop i s) as Hin.
  unfold wp in *. intros rc Hrc. specialize (H rc Hrc). pose proof (inner_heap _ _ Hin H1) as Hh. destruct Hin as (V & N & _).
  split; [done|]. destruct H as [(L & D & [(-> & [A _ R _ _])|(-> & [A (o' & O & C & P)] & _)])|(-> & L & (D & A & I & Q & _))];
    (split; [done|]; split; [done|]).
  - left. split; [done|]. by split_and!.
  - right. split; [done|]. split_and!; try done. exists o'. split; [done|]. split; [|done].
    destruct (ri_stop_in_progress o'); [|done]. destruct (P eq_refl) as (n & Hn). by rewrite HL in Hn.
  - right. split; [done|]. split_and!; try done; [congruence|]. exists o. rewrite I. split; [done|]. split; [done|].
    by apply (ctx_ok_quiet _ (ls_p s)).
Qed.

Definition private_laws (HL : locks_ok) : PrivateLaws :=
  mkPrivateLaws _ _ private_idle private_live idle_beside live_beside private_start (fun i s => private_stop i s HL).
End private.

(** ** Concrete runs *)

Section concrete.
#[local] Existing Instance quiet_env.
#[local] Existing Instance quiet_perf_env.
#[local] Existing Instance quiet_telemetry.
#[local] Existing Instance quiet_life_env.

Definition quiet_private : PrivateLaws (PR := private_runtime) := private_laws (fun _ => eq_refl).
#[local] Existing Instance quiet_private.

Lemma fresh_rep : rep fresh_lstate (mkSlots None ∅).
Proof.
  split; cbn [sl_live sl_done]; try done.
  - split; [done|]. split; [apply fresh_heap_ok|]. split; [done|]. split; [done|]. apply fresh_at_rest.
  - intros h. split; [set_solver|]. by intros (g & ?).
  - by intros h [? ?].
  - by intros h [? ?].
Qed.

Definition session : list (api_call * (Z * Z)) :=
  [(AStart true (Some k_default_config), (0, 4096)); (AStart true (Some k_default_config), (-1, 0)); (ADestroy 4096, (-1, 0)); (AStop 4096, (0, 0)); (AStop 4096, (-1, 0));
   (ADestroy 4096, (0, 0))].

Lemma session_runs : exists s', client_run fresh_lstate session s'.
Proof.
  eexists. repeat (eapply RCons; [first [exact I | right; vm_compute; eexists; reflexivity] | vm_compute; reflexivity |]). apply RNil.
Defined.


(** A process whose handle at 4096 is being stopped. *)
Definition window_lstate : lstate :=
  exec (stop_begin 4096) (exec (tsd_runtime_start_with_config true (Some k_default_config)) fresh_lstate).

Lemma stop_window_fails_closed_witness :
  result (tsd_runtime_stop 4096) window_lstate = Some (-1) /\ result (tsd_runtime_is_running 4096) window_lstate = false.
Proof.
  assert (Hw : stop_window window_lstate 4096).
  { split; [lia|]. split; [vm_compute; reflexivity|]. split; [vm_compute; reflexivity|]. exists 4097, 1. split; [lia | vm_compute; reflexivity]. }
  destruct (stop_window_fails_closed (EV := quiet_env) (PR := private_runtime) (fun _ => eq_refl) 4096 window_lstate Hw) as ((H1 & _) & _ & (H3 & _) & _).
  split; [exact H1 | exact H3].
Defined.
End concrete.

(** The same with a mutex that cannot be taken. *)
Definition no_lock_env : Env :=
  let '(mkEnv host _ cond steady clock page mmap mprotect rx shaok sha err calloc cancel kernel) := quiet_env in
  mkEnv host (fun _ => 22) cond steady clock page mmap mprotect rx shaok sha err calloc cancel kernel.

Lemma failed_relock_strands_slot_witness :
  result (stop_finish (EV := no_lock_env) 4096 0) window_lstate = -1 /\
  stop_window (exec (stop_finish (EV := no_lock_env) 4096 0) window_lstate) 4096.
Proof.
  destruct (failed_relock_strands_slot (EV := no_lock_env)
    (PR := private_runtime (EV := quiet_env) (PE := quiet_perf_env) (TL := quiet_telemetry) (LE := quiet_life_env))
    window_lstate 4096 4097 ltac:(cbn; lia)) as [H _].
  apply H. split; [lia|]. split; [vm_compute; reflexivity|]. split; [vm_compute; reflexivity|]. exists 4097, 1. split; [lia | vm_compute; reflexivity].
Defined.
