(* ===== verification/TelemetryState.v ===== *)
(** * TelemetryState: the published state of controller, fusion and counters

    [src/include/observability/telemetry_state.h] and
    [src/src/observability/telemetry_state.cpp] in full.  The fields the safety
    guard reads are the [obs_state] of the process ([World.v]); the remaining
    fields, which the exporter reports, are a [diag_state].  Snapshots join
    both.  [std::mutex::lock] may throw: the environment says when.

    [tracks] relates an operation of this file to the operation of [Guard.v] that
    models its effect on the process. *)
From S2P Require Import Prelude Float64 Config World Guard Fusion.
From Stdlib Require Import SpecFloat.
#[local] Open Scope Z_scope.

(** ** Data *)

Record tsd_controller_telemetry_t : Type := mkControllerTelemetry {
  ct_fallback_active : Z; ct_current_width : simd_width_t; ct_recommended_width : simd_width_t;
  ct_issued_change : Z }.

Record tsd_fusion_telemetry_t : Type := mkFusionTelemetry {
  ft_running : Z; ft_degraded : Z; ft_temp_available : Z; ft_package_temp_c : double;
  ft_freq_available : Z; ft_freq_ratio : double; ft_cpi_available : Z; ft_thermal_cpi : double;
  ft_power_available : Z; ft_power_budget_w : double }.

Record tsd_temperature_channels_t : Type := mkChannels {
  tc_raw_available : Z; tc_raw_package_temp_c : double;
  tc_filtered_available : Z; tc_filtered_package_temp_c : double }.

Record ControllerTelemetrySnapshot : Type := mkControllerSnapshot {
  cs_fallback_active : bool; cs_current_width : simd_width_t; cs_recommended_width : simd_width_t;
  cs_issued_change : bool; cs_updated_at : Z; cs_freshness_at : Z }.

Record FusionTelemetrySnapshot : Type := mkFusionSnapshot {
  fs_running : bool; fs_degraded : bool; fs_temp_available : bool; fs_package_temp_c : double;
  fs_raw_temp_available : bool; fs_raw_package_temp_c : double;
  fs_filtered_temp_available : bool; fs_filtered_package_temp_c : double;
  fs_freq_available : bool; fs_freq_ratio : double; fs_cpi_available : bool; fs_thermal_cpi : double;
  fs_power_available : bool; fs_power_budget_w : double;
  fs_updated_at : Z; fs_freshness_at : Z; fs_raw_temp_freshness_at : Z }.

Record PerfTelemetrySnapshot : Type := mkPerfSnapshot {
  ps_mode : Z; ps_counters_healthy : bool; ps_pinned_cpu : Z; ps_monitor_cpu : Z;
  ps_updated_at : Z; ps_freshness_at : Z }.

(** What [obs_state] does not hold, and the number of diagnostic calls made. *)
Record diag_state : Type := mkDiag {
  d_calls : nat;
  d_controller : ControllerTelemetrySnapshot;
  d_degraded : bool;
  d_temp_available : bool;
  d_package_temp_c : double;
  d_filtered_temp_available : bool;
  d_filtered_package_temp_c : double;
  d_freq_available : bool;
  d_freq_ratio : double;
  d_cpi_available : bool;
  d_thermal_cpi : double;
  d_power_available : bool;
  d_power_budget_w : double;
  d_fusion_updated_at : Z;
  d_fusion_freshness_at : Z;
  d_perf_updated_at : Z;
}.
#[export] Instance eta_diag : Eta diag_state := fun r =>
  mkDiag (d_calls r) (d_controller r) (d_degraded r) (d_temp_available r) (d_package_temp_c r)
    (d_filtered_temp_available r) (d_filtered_package_temp_c r) (d_freq_available r) (d_freq_ratio r)
    (d_cpi_available r) (d_thermal_cpi r) (d_power_available r) (d_power_budget_w r)
    (d_fusion_updated_at r) (d_fusion_freshness_at r) (d_perf_updated_at r).

Definition initial_diag : diag_state :=
  mkDiag 0 (mkControllerSnapshot false SIMD_SSE41 SIMD_SSE41 false 0 0) false false f64_zero false f64_zero
    false f64_zero false f64_zero false f64_zero 0 0 0.

Record tstate : Type := mkTstate { ts_world : world; ts_diag : diag_state }.
#[export] Instance eta_tstate : Eta tstate := fun s => mkTstate (ts_world s) (ts_diag s).

Abbreviation TM := (ST tstate).

Class DiagEnv : Type := mkDiagEnv {
  dg_system : nat -> Z;                 (** [system_clock::now()], ns since the epoch *)
  dg_steady : nat -> Z;                 (** [steady_clock::now()] read for diagnostics *)
  dg_lock : nat -> option Z;            (** [mutex_.lock()] throws [system_error] with this code *)
}.

Definition tw {A} (m : M A) : TM A := fun s => let '(a, w) := m (ts_world s) in (a, s <| ts_world := w |>).
Definition on_diag (f : diag_state -> diag_state) : TM unit := modify (fun s => s <| ts_diag ::= f |>).
Definition dext {A} (f : nat -> A) : TM A :=
  fun s => (f (d_calls (ts_diag s)), s <| ts_diag ::= over d_calls S |>).

Section telemetry_state.
Context `{EV : Env} `{DE : DiagEnv}.

(** [std::lock_guard<std::mutex> lock(mutex_)] around [body]. *)
Definition locked {A} (body : TM A) : TM (exn + A) :=
  err <- dext dg_lock ;;
  match err with Some code => throw (SystemError code) | None => fine body end.

(** [SafetyUpdateGuard guard; if (!guard) return;] around [body]: the guard is
    left when the scope is, also by an exception. *)
Definition safety_scope (body : TM (exn + unit)) : TM (exn + unit) :=
  rc <- tw tsd_runtime_safety_write_enter ;;
  if rc <>? 0 then ret (inr tt)
  else r <- body ;; tw tsd_runtime_safety_write_leave ;;; ret r.

(** ** Updates *)

Definition update_controller (telemetry : option tsd_controller_telemetry_t) : TM (exn + unit) :=
  match telemetry with
  | None => ret (inr tt)
  | Some t =>
      locked (updated_at <- dext dg_system ;;
              freshness_at <- dext dg_steady ;;
              on_diag (fun d => d <| d_controller :=
                mkControllerSnapshot (ct_fallback_active t <>? 0) (ct_current_width t) (ct_recommended_width t)
                  (ct_issued_change t <>? 0) updated_at freshness_at |>))
  end.

Definition update_fusion (telemetry : option tsd_fusion_telemetry_t) : TM (exn + unit) :=
  match telemetry with
  | None => ret (inr tt)
  | Some t =>
      safety_scope (locked (
        tw (on_obs (fun o => o <| o_fusion_obs_running := ft_running t <>? 0 |>)) ;;;
        on_diag (fun d => d <| d_degraded := ft_degraded t <>? 0 |>
                            <| d_temp_available := ft_temp_available t <>? 0 |>
                            <| d_package_temp_c := ft_package_temp_c t |>
                            <| d_filtered_temp_available := ft_temp_available t <>? 0 |>
                            <| d_filtered_package_temp_c := ft_package_temp_c t |>
                            <| d_freq_available := ft_freq_available t <>? 0 |>
                            <| d_freq_ratio := ft_freq_ratio t |>
                            <| d_cpi_available := ft_cpi_available t <>? 0 |>
                            <| d_thermal_cpi := ft_thermal_cpi t |>
                            <| d_power_available := ft_power_available t <>? 0 |>
                            <| d_power_budget_w := ft_power_budget_w t |>) ;;;
        updated_at <- dext dg_system ;;
        on_diag (fun d => d <| d_fusion_updated_at := updated_at |>) ;;;
        freshness_at <- dext dg_steady ;;
        on_diag (fun d => d <| d_fusion_freshness_at := freshness_at |>)))
  end.

Definition update_temperature_channels (telemetry : option tsd_temperature_channels_t) : TM (exn + unit) :=
  match telemetry with
  | None => ret (inr tt)
  | Some t =>
      safety_scope (locked (
        tw (on_obs (fun o => o <| o_raw_temp_available := tc_raw_available t <>? 0 |>
                               <| o_raw_package_temp_c := tc_raw_package_temp_c t |>)) ;;;
        (if tc_raw_available t <>? 0 then
           now <- tw (ext env_steady) ;; tw (on_obs (fun o => o <| o_raw_temp_freshness_at := now |>))
         else tw (on_obs (fun o => o <| o_raw_temp_freshness_at := 0 |>))) ;;;
        on_diag (fun d => d <| d_filtered_temp_available := tc_filtered_available t <>? 0 |>
                            <| d_filtered_package_temp_c := tc_filtered_package_temp_c t |>) ;;;
        (if tc_filtered_available t <>? 0 then
           on_diag (fun d => d <| d_temp_available := true |>
                               <| d_package_temp_c := tc_filtered_package_temp_c t |>)
         else if negb (tc_raw_available t <>? 0) then
           on_diag (fun d => d <| d_temp_available := false |> <| d_package_temp_c := f64_zero |>)
         else ret tt) ;;;
        updated_at <- dext dg_system ;;
        on_diag (fun d => d <| d_fusion_updated_at := updated_at |>) ;;;
        freshness_at <- dext dg_steady ;;
        on_diag (fun d => d <| d_fusion_freshness_at := freshness_at |>)))
  end.

Definition update_perf (telemetry : option tsd_perf_telemetry_t) : TM (exn + unit) :=
  match telemetry with
  | None => ret (inr tt)
  | Some t =>
      safety_scope (locked (
        tw (on_obs (fun o => o <| o_perf_mode := pt_mode t |>
                               <| o_perf_counters_healthy := pt_counters_healthy t |>
                               <| o_perf_pinned_cpu := pt_pinned_cpu t |>
                               <| o_perf_monitor_cpu := pt_monitor_cpu t |>)) ;;;
        updated_at <- dext dg_system ;;
        on_diag (fun d => d <| d_perf_updated_at := updated_at |>) ;;;
        now <- tw (ext env_steady) ;;
        tw (on_obs (fun o => o <| o_perf_freshness_at := now |>))))
  end.

(** ** Snapshots *)

Definition controller_of (s : tstate) : ControllerTelemetrySnapshot := d_controller (ts_diag s).

Definition fusion_of (s : tstate) : FusionTelemetrySnapshot :=
  let o := w_obs (ts_world s) in
  let d := ts_diag s in
  mkFusionSnapshot (o_fusion_obs_running o) (d_degraded d) (d_temp_available d) (d_package_temp_c d)
    (o_raw_temp_available o) (o_raw_package_temp_c o) (d_filtered_temp_available d) (d_filtered_package_temp_c d)
    (d_freq_available d) (d_freq_ratio d) (d_cpi_available d) (d_thermal_cpi d) (d_power_available d)
    (d_power_budget_w d) (d_fusion_updated_at d) (d_fusion_freshness_at d) (o_raw_temp_freshness_at o).

Definition perf_of (s : tstate) : PerfTelemetrySnapshot :=
  let o := w_obs (ts_world s) in
  mkPerfSnapshot (o_perf_mode o) (o_perf_counters_healthy o) (o_perf_pinned_cpu o) (o_perf_monitor_cpu o)
    (d_perf_updated_at (ts_diag s)) (o_perf_freshness_at o).

Definition controller_snapshot : TM (exn + ControllerTelemetrySnapshot) := locked (gets controller_of).
Definition fusion_snapshot : TM (exn + FusionTelemetrySnapshot) := locked (gets fusion_of).
Definition perf_snapshot : TM (exn + PerfTelemetrySnapshot) := locked (gets perf_of).

(** ** The C interface *)

(** An update that throws closes the admission of wide code, except that of the
    controller, which is only diagnostic. *)
Definition close_on_exn (m : TM (exn + unit)) : TM unit :=
  r <- m ;; match r with inl _ => tw tsd_runtime_wide_admission_close | inr _ => ret tt end.

Definition tsd_observability_update_controller (t : option tsd_controller_telemetry_t) : TM unit :=
  update_controller t ;;; ret tt.
Definition tsd_observability_update_fusion (t : option tsd_fusion_telemetry_t) : TM unit :=
  close_on_exn (update_fusion t).
Definition tsd_observability_update_temperature_channels (t : option tsd_temperature_channels_t) : TM unit :=
  close_on_exn (update_temperature_channels t).
Definition tsd_observability_update_perf (t : option tsd_perf_telemetry_t) : TM unit :=
  close_on_exn (update_perf t).

(** The queries; an exception gives the answer that refuses wide code. *)
Definition or_else {A} (default : A) (m : TM (exn + A)) : TM A :=
  r <- m ;; match r with inl _ => ret default | inr a => ret a end.

Definition tsd_observability_runtime_guard_active : TM bool :=
  or_else true (locked (tw Guard.tsd_observability_runtime_guard_active)).
Definition tsd_observability_perf_mode : TM Z :=
  or_else 0 (locked (tw Guard.tsd_observability_perf_mode)).
Definition tsd_observability_perf_hardware_fresh : TM bool :=
  or_else false (locked (tw Guard.tsd_observability_perf_hardware_fresh)).
Definition tsd_observability_raw_temperature_c (max_age_ms : Z) : TM (option double) :=
  if max_age_ms <? 0 then ret None
  else or_else None (locked (tw (Guard.tsd_observability_raw_temperature_c max_age_ms))).
End telemetry_state.

(** ** The process an operation leaves behind *)

(** [m] does to the process what [n] does, with the same result. *)
Definition tracks {A} (m : TM A) (n : M A) : Prop :=
  forall s, ((m s).1, ts_world (m s).2) = n (ts_world s).

Lemma tracks_tw {A} (m : M A) : tracks (tw m) m.
Proof. intros s. unfold tw. by destruct (m (ts_world s)). Qed.

(** A publication, as the runtime makes it. *)
Inductive publication : Type :=
  | PubController (t : option tsd_controller_telemetry_t)
  | PubFusion (t : option tsd_fusion_telemetry_t)
  | PubChannels (t : option tsd_temperature_channels_t)
  | PubPerf (t : option tsd_perf_telemetry_t).

Section tracking.
Context `{EV : Env} `{DE : DiagEnv}.

Definition publish_update (p : publication) : TM unit :=
  match p with
  | PubController t => tsd_observability_update_controller t
  | PubFusion t => tsd_observability_update_fusion t
  | PubChannels t => tsd_observability_update_temperature_channels t
  | PubPerf t => tsd_observability_update_perf t
  end.

(** The part of it that concerns the guard. *)
Definition guard_update (p : publication) : M unit :=
  match p with
  | PubController _ => ret tt
  | PubFusion t => Guard.tsd_observability_update_fusion (option_map (fun t => ft_running t <>? 0) t)
  | PubChannels t =>
      Guard.tsd_observability_update_temperature_channels
        (option_map (fun t => (tc_raw_available t <>? 0, tc_raw_package_temp_c t)) t)
  | PubPerf t => Guard.tsd_observability_update_perf t
  end.

(** What is left of it when [mutex_.lock()] throws: the bracket around nothing,
    and the admission closed. *)
Definition failed_update (p : publication) : M unit :=
  match p with
  | PubController _ | PubFusion None | PubChannels None | PubPerf None => ret tt
  | _ =>
      rc <- tsd_runtime_safety_write_enter ;;
      if rc <>? 0 then ret tt else tsd_runtime_safety_write_leave ;;; tsd_runtime_wide_admission_close
  end.

Definition lock_fails (s : tstate) : bool := match dg_lock (d_calls (ts_diag s)) with Some _ => true | None => false end.

Lemma locked_run {A} (body : TM A) s :
  locked body s =
    match dg_lock (d_calls (ts_diag s)) with
    | Some code => (inl (SystemError code), s <| ts_diag ::= over d_calls S |>)
    | None => let '(a, s') := body (s <| ts_diag ::= over d_calls S |>) in (inr a, s')
    end.
Proof.
  unfold locked. rewrite bind_run. cbn. by destruct (dg_lock _).
Qed.

Lemma enter_diag s : ts_diag (tw tsd_runtime_safety_write_enter s).2 = ts_diag s.
Proof. unfold tw. by destruct (tsd_runtime_safety_write_enter (ts_world s)). Qed.

(** A bracketed update, with and without the lock. *)
Lemma scope_world (body : TM unit) (n : M unit) s :
  tracks body n ->
  ts_world (close_on_exn (safety_scope (locked body)) s).2 =
    if lock_fails s
    then exec (rc <- tsd_runtime_safety_write_enter ;;
               if rc <>? 0 then ret tt else tsd_runtime_safety_write_leave ;;; tsd_runtime_wide_admission_close)
              (ts_world s)
    else exec (safety_update n) (ts_world s).
Proof.
  intros Hb. unfold close_on_exn, safety_scope, safety_update, exec, lock_fails. rewrite !bind_run.
  pose proof (tracks_tw tsd_runtime_safety_write_enter s) as Ht. pose proof (enter_diag s) as Hd.
  destruct (tw tsd_runtime_safety_write_enter s) as [rc s1]. cbn [fst snd] in *. rewrite <- Ht. cbn [fst snd].
  destruct (rc <>? 0) eqn:Erc; [by destruct (dg_lock _)|].
  rewrite !bind_run. rewrite locked_run, Hd.
  destruct (dg_lock (d_calls (ts_diag s))) as [code|]; cbn [fst snd].
  - cbn [ret fst snd].
    match goal with |- context [tw tsd_runtime_safety_write_leave ?x] =>
      pose proof (tracks_tw tsd_runtime_safety_write_leave x) as Hl; destruct (tw _ x) as [u s2] end.
    cbn [fst snd over ts_world] in *. rewrite <- Hl. done.
  - match goal with |- context [body ?x] => pose proof (Hb x) as Hbody; destruct (body x) as [u s2] end.
    cbn [fst snd over ts_world] in *. rewrite <- Hbody. cbn [fst snd ret].
    pose proof (tracks_tw tsd_runtime_safety_write_leave s2) as Hl. destruct (tw _ s2) as [v s3].
    cbn [fst snd] in *. by rewrite <- Hl.
Qed.

Lemma publish_world p s :
  ts_world (publish_update p s).2 =
    if lock_fails s then exec (failed_update p) (ts_world s) else exec (guard_update p) (ts_world s).
Proof.
  destruct p as [[t|]|[t|]|[t|]|[t|]]; cbn [publish_update guard_update failed_update option_map];
    try by destruct (lock_fails s).
  - unfold tsd_observability_update_controller, update_controller. rewrite bind_run, locked_run.
    unfold lock_fails. by destruct (dg_lock _).
  - apply scope_world. unfold Guard.tsd_observability_update_fusion. intros s0.
    done.
  - apply scope_world. destruct (tc_raw_available t <>? 0); intros s0; destruct (tc_filtered_available t <>? 0); done.
  - apply scope_world. intros s0. done.
Qed.

(** Publications that pass through the guard. *)
Definition guarded (p : publication) : bool :=
  match p with PubFusion (Some _) | PubChannels (Some _) | PubPerf (Some _) => true | _ => false end.

Lemma leave_keeps_obs w : w_obs (tsd_runtime_safety_write_leave w).2 = w_obs w.
Proof.
  unfold tsd_runtime_safety_write_leave. rewrite bind_run. cbn [tsd_runtime_is_stopping gets fst snd].
  destruct (g_runtime_stopping (w_guard w)); [done|].
  destruct (width_authorized_frame SIMD_AVX2 w) as (n & st & sn & E). by rewrite bind_run, E.
Qed.

Lemma enter_outcome w :
  w_obs (tsd_runtime_safety_write_enter w).2 = w_obs w /\
  (env_lock (w_calls w) = 0 -> (tsd_runtime_safety_write_enter w).1 = 0).
Proof.
  unfold tsd_runtime_safety_write_enter, pthread_mutex_lock. rewrite !bind_run. cbn [ext fst snd].
  destruct (env_lock (w_calls w) =? 0) eqn:E; cbn; [done|]. rewrite E. zbool. by split.
Qed.

Lemma failed_update_closes p w :
  w_obs (exec (failed_update p) w) = w_obs w /\
  (guarded p = true -> env_lock (w_calls w) = 0 ->
     g_wide_admission_open (w_guard (exec (failed_update p) w)) = false).
Proof.
  destruct (enter_outcome w) as [Ho Hr]. unfold exec.
  destruct p as [[t|]|[t|]|[t|]|[t|]]; try done; cbn [failed_update]; rewrite bind_run;
    (destruct ((tsd_runtime_safety_write_enter w).1 =? 0) eqn:E; cbn [negb];
     [rewrite bind_run; split; [etrans; [exact (leave_keeps_obs _) | done] | done]
     |split; [done|]; intros _ H; apply Hr in H; zbool; lia]).
Qed.

(** Every publication of controller, fusion, temperature or counter state does to the process exactly
    what the guard's model of it does, whatever is reported for diagnostics; when the mutex of the published state
    throws, the evidence of the guard is unchanged and admission of wide code is left closed. *)
Theorem publications_track_guard p s :
  let w' := ts_world (exec (publish_update p) s) in
  (lock_fails s = false -> w' = exec (guard_update p) (ts_world s)) /\
  (lock_fails s = true ->
     w_obs w' = w_obs (ts_world s) /\
     (guarded p = true -> env_lock (w_calls (ts_world s)) = 0 -> g_wide_admission_open (w_guard w') = false)).
Proof.
  cbn zeta. unfold exec at 1 3 4. rewrite publish_world. split; intros ->; [done|]. apply failed_update_closes.
Qed.

(** A query answers as the guard's model does, or refuses wide code. *)
Lemma query_fails_closed {A} (default : A) (m : M A) s :
  (or_else default (locked (tw m)) s).1 = if lock_fails s then default else (m (ts_world s)).1.
Proof.
  unfold or_else, lock_fails. rewrite bind_run, locked_run. destruct (dg_lock _); [done|]. unfold tw. cbn.
  by destruct (m (ts_world s)).
Qed.
End tracking.

(** A counter report whose mutex fails, on a process with open admission. *)
Definition failing_locks : DiagEnv := mkDiagEnv (fun _ => 0) (fun _ => 0) (fun _ => Some EAGAIN).

Lemma publications_track_guard_witness :
  let s := mkTstate (initial_world 7 tsd_runtime_config_set_defaults) initial_diag in
  let s := s <| ts_world ::= over w_guard (fun g => g <| g_wide_admission_open := true |>) |> in
  let t := Some (mkPerfTelemetry 1 true 0 1) in
  lock_fails (DE := failing_locks) s = true /\
  g_wide_admission_open (w_guard (ts_world (exec (publish_update (EV := quiet_env) (DE := failing_locks) (PubPerf t)) s))) = false.
Proof.
  cbn zeta. split; [reflexivity|].
  destruct (publications_track_guard (EV := quiet_env) (DE := failing_locks) (PubPerf (Some (mkPerfTelemetry 1 true 0 1)))
    ((mkTstate (initial_world 7 tsd_runtime_config_set_defaults) initial_diag)
       <| ts_world ::= over w_guard (fun g => g <| g_wide_admission_open := true |>) |>)) as [_ H].
  apply H; reflexivity.
Defined.
