(* ===== verification/Metrics.v ===== *)
(** * Metrics: the metrics registry and the StatsD client

    The class [MetricsRegistry] of [src/src/observability/metrics.cpp] and
    [src/src/observability/statsd_exporter.cpp].  A [std::map] is a list of
    entries in the order of its keys.  The operations are computations over
    [mstate]: the published telemetry, the registry, the StatsD client with the
    descriptors it has open, and the datagrams it sent.  Memory exhaustion while
    text is put together is not modelled. *)
From S2P Require Import Prelude Float64 Format Config World Guard Fusion TelemetryState.
From Stdlib Require Import SpecFloat Ascii String DecimalString.
#[local] Open Scope string_scope.
#[local] Open Scope Z_scope.
#[local] Arguments String.append !_ _ : simpl nomatch.

(** ** Names *)

Definition width_to_string (width : simd_width_t) : string :=
  if width =? SIMD_SSE41 then "sse41"
  else if width =? SIMD_AVX2 then "avx2"
  else if width =? SIMD_AVX512 then "avx512" else "unknown".

Definition perf_mode_to_string (mode : Z) : string :=
  if mode =? 1 then "hardware" else if mode =? 2 then "software" else "none".

Definition char_in (c lo hi : ascii) : bool := (code lo <=? code c) && (code c <=? code hi).

Definition statsd_char (c : ascii) : bool :=
  char_in c "a" "z" || char_in c "A" "Z" || char_in c "0" "9" ||
  Ascii.eqb c "." || Ascii.eqb c "-" || Ascii.eqb c "_".

Fixpoint sanitize_for_statsd (value : string) : string :=
  match value with
  | "" => ""
  | String c rest => String (if statsd_char c then c else "_") (sanitize_for_statsd rest)
  end.

Definition backslash : ascii := chr 92.

Definition escape_char (c : ascii) : string :=
  if code c =? 92 then String backslash (String backslash "")
  else if code c =? 34 then String backslash dq
  else if code c =? 10 then String backslash "n"
  else if code c =? 13 then "_"
  else String c "".

Fixpoint escape_prometheus_label (value : string) : string :=
  match value with
  | "" => ""
  | String c rest => escape_char c ++ escape_prometheus_label rest
  end.

(** ** Ordered maps *)

Section ordered_map.
Context {K V : Type} (ltb : K -> K -> bool).

(** [map[k]] with [f] applied to what is found there, or to nothing. *)
Fixpoint omap_upd (k : K) (f : option V -> V) (l : list (K * V)) : list (K * V) :=
  match l with
  | [] => [(k, f None)]
  | (k', v) :: l' =>
      if ltb k k' then (k, f None) :: l
      else if ltb k' k then (k', v) :: omap_upd k f l'
      else (k', f (Some v)) :: l'
  end.

Fixpoint omap_get (k : K) (l : list (K * V)) : option V :=
  match l with
  | [] => None
  | (k', v) :: l' => if ltb k k' then None else if ltb k' k then omap_get k l' else Some v
  end.
End ordered_map.

(** ** Data *)

Record PatchKey : Type := mkPatchKey { pk_from : simd_width_t; pk_to : simd_width_t; pk_success : bool }.

(** [false < true] *)
Definition bool_ltb (a b : bool) : bool := negb a && b.

Definition patch_key_ltb (a b : PatchKey) : bool :=
  if pk_from a <>? pk_from b then pk_from a <? pk_from b
  else if pk_to a <>? pk_to b then pk_to a <? pk_to b
  else bool_ltb (pk_success a) (pk_success b).

Record DwellStats : Type := mkDwell { dw_count : Z; dw_total_ms : Z; dw_max_ms : Z }.

Record SensorKey : Type := mkSensorKey { sk_sensor : string; sk_socket : Z }.

Definition sensor_key_ltb (a b : SensorKey) : bool :=
  if negb (String.eqb (sk_sensor a) (sk_sensor b)) then String.ltb (sk_sensor a) (sk_sensor b)
  else sk_socket a <? sk_socket b.

Record SensorSnapshot : Type := mkSensorSnapshot {
  sn_health : double; sn_quality : double; sn_valid : bool; sn_updated_at : Z }.

Record MetricsRegistry : Type := mkRegistry {
  patch_counts_ : list (PatchKey * Z);
  dwell_stats_ : list (simd_width_t * DwellStats);
  sensor_state_ : list (SensorKey * SensorSnapshot);
}.
#[export] Instance eta_registry : Eta MetricsRegistry := fun r =>
  mkRegistry (patch_counts_ r) (dwell_stats_ r) (sensor_state_ r).

Definition empty_registry : MetricsRegistry := mkRegistry [] [] [].

(** [std::clamp(v, 0.0, 1.0)] *)
Definition clamp_unit (v : double) : double :=
  if flt v f64_zero then f64_zero else if flt (f64_of_Z 1) v then f64_of_Z 1 else v.

(** ** What the registry stores *)

Definition add_dwell (dwell_ms : Z) (stats : option DwellStats) : DwellStats :=
  let s := default (mkDwell 0 0 0) stats in
  mkDwell (u64 (dw_count s + 1)) (u64 (dw_total_ms s + dwell_ms)) (Z.max (dw_max_ms s) dwell_ms).

Definition note_dwell (width : simd_width_t) (dwell_ms : Z) (r : MetricsRegistry) : MetricsRegistry :=
  r <| dwell_stats_ ::= omap_upd Z.ltb width (add_dwell dwell_ms) |>.

Definition note_patch (key : PatchKey) (r : MetricsRegistry) : MetricsRegistry :=
  r <| patch_counts_ ::= omap_upd patch_key_ltb key (fun n => u64 (default 0 n + 1)) |>.

Definition note_sensor (key : SensorKey) (s : SensorSnapshot) (r : MetricsRegistry) : MetricsRegistry :=
  r <| sensor_state_ ::= omap_upd sensor_key_ltb key (fun _ => s) |>.

(** ** The StatsD client *)

Record StatsdExporter : Type := mkStatsd {
  sd_socket : Z;
  sd_configured : bool;
  sd_destination : string;        (** the socket address, as bytes *)
  sd_destination_len : Z;
}.
#[export] Instance eta_statsd : Eta StatsdExporter := fun s =>
  mkStatsd (sd_socket s) (sd_configured s) (sd_destination s) (sd_destination_len s).

Definition initial_statsd : StatsdExporter := mkStatsd (-1) false "" 0.

Record mstate : Type := mkMstate {
  m_tele : tstate;
  m_calls : nat;
  m_registry : MetricsRegistry;
  m_statsd : StatsdExporter;
  m_fds : list Z;                        (** descriptors the StatsD client has open *)
  m_datagrams : list (string * string);  (** destination and text, oldest first *)
}.
#[export] Instance eta_mstate : Eta mstate := fun s =>
  mkMstate (m_tele s) (m_calls s) (m_registry s) (m_statsd s) (m_fds s) (m_datagrams s).

Abbreviation MM := (ST mstate).

Class MetricsEnv : Type := mkMetricsEnv {
  mx_now : nat -> Z;                                  (** [system_clock::now()], ns *)
  mx_resolve : nat -> string -> string -> option string;  (** [getaddrinfo]: the first address *)
  mx_socket : nat -> Z;                               (** [socket()] *)
}.

Definition mext {A} (f : nat -> A) : MM A := fun s => (f (m_calls s), s <| m_calls ::= S |>).
Definition on_registry (f : MetricsRegistry -> MetricsRegistry) : MM unit := modify (fun s => s <| m_registry ::= f |>).
Definition on_statsd (f : StatsdExporter -> StatsdExporter) : MM unit := modify (fun s => s <| m_statsd ::= f |>).

(** A descriptor the process gets; [close] gives it back. *)
Definition open_fd (fd : Z) : MM unit := modify (fun s => s <| m_fds ::= cons fd |>).
Fixpoint remove_one (fd : Z) (l : list Z) : list Z :=
  match l with [] => [] | x :: l => if x =? fd then l else x :: remove_one fd l end.
Definition close_fd (fd : Z) : MM unit := modify (fun s => s <| m_fds ::= remove_one fd |>).

Section statsd.
Context `{MX : MetricsEnv}.

Definition statsd_shutdown : MM unit :=
  fd <- gets (fun s => sd_socket (m_statsd s)) ;;
  when (fd >=? 0) (close_fd fd ;;; on_statsd (fun d => d <| sd_socket := -1 |>)) ;;;
  on_statsd (fun d => d <| sd_configured := false |> <| sd_destination_len := 0 |>).

Definition statsd_configure (host : string) (port : Z) : MM unit :=
  statsd_shutdown ;;;
  if is_empty host || (port =? 0) then ret tt
  else
    resolve <- mext mx_resolve ;;
    match resolve host (decimal port) with
    | None => ret tt
    | Some address =>
        fd <- mext mx_socket ;;
        on_statsd (fun d => d <| sd_socket := fd |>) ;;;
        if fd <? 0 then ret tt
        else
          open_fd fd ;;;
          on_statsd (fun d => d <| sd_destination := address |>
                                <| sd_destination_len := Z.of_nat (String.length address) |>
                                <| sd_configured := true |>)
    end.

Definition statsd_send (payload : string) : MM unit :=
  d <- gets m_statsd ;;
  if negb (sd_configured d) || (sd_socket d <? 0) then ret tt
  else modify (fun s => s <| m_datagrams ::= fun l => app l [(sd_destination d, payload)] |>).

Definition send_counter (name : string) (value : Z) : MM unit := statsd_send (name ++ ":" ++ decimal value ++ "|c").
Definition send_gauge (name : string) (value : double) : MM unit := statsd_send (name ++ ":" ++ f64_fixed 3 value ++ "|g").

(** ** The registry *)

Definition record_patch (from to : simd_width_t) (rc dwell_ms : Z) : MM unit :=
  let success := rc =? 0 in
  let statsd_name := "tsd.patch_transition." ++ width_to_string from ++ "." ++ width_to_string to ++
                     (if success then ".success" else ".failure") in
  on_registry (fun r =>
    let r := note_patch (mkPatchKey from to success) r in
    if dwell_ms >? 0 then note_dwell from dwell_ms r else r) ;;;
  send_counter statsd_name 1 ;;;
  when (dwell_ms >? 0) (send_gauge ("tsd.dwell.observed." ++ width_to_string from) (f64_of_Z dwell_ms)).

Definition observe_dwell (width : simd_width_t) (dwell_ms : Z) : MM unit :=
  if dwell_ms =? 0 then ret tt
  else
    on_registry (note_dwell width dwell_ms) ;;;
    send_gauge ("tsd.dwell_time." ++ width_to_string width) (f64_of_Z dwell_ms).

Definition record_sensor_health (sensor : string) (socket : Z) (health quality : double) (valid : bool) : MM unit :=
  mext mx_now ;;;
  now <- mext mx_now ;;
  on_registry (note_sensor (mkSensorKey sensor socket)
                 (mkSensorSnapshot (clamp_unit health) (clamp_unit quality) valid now)) ;;;
  let base := "tsd.sensor." ++ sanitize_for_statsd sensor ++ ".socket" ++ decimal socket in
  send_gauge (base ++ ".health") health ;;;
  send_gauge (base ++ ".quality") quality ;;;
  send_gauge (base ++ ".valid") (if valid then f64_of_Z 1 else f64_zero).

Definition tsd_metrics_exporter_record_patch := record_patch.
Definition tsd_metrics_exporter_observe_dwell := observe_dwell.
Definition tsd_metrics_exporter_record_sensor_health (sensor_name : option string) (socket : Z)
    (health quality : double) (valid : Z) : MM unit :=
  match sensor_name with
  | None => ret tt
  | Some sensor => record_sensor_health sensor socket health quality (valid <>? 0)
  end.
End statsd.

(** ** The exposition *)

(** [# HELP] and [# TYPE] lines. *)
Definition preamble (name help type : string) : string :=
  "# HELP " ++ name ++ " " ++ help ++ nl ++ "# TYPE " ++ name ++ " " ++ type ++ nl.

Definition patch_line (e : PatchKey * Z) : string :=
  "tsd_patch_transitions_total{from=" ++ dq ++ width_to_string (pk_from e.1) ++ dq ++ ",to=" ++ dq ++
  width_to_string (pk_to e.1) ++ dq ++ ",outcome=" ++ dq ++ (if pk_success e.1 then "success" else "failure") ++
  dq ++ "} " ++ decimal e.2 ++ nl.

Definition dwell_line (name : string) (value : DwellStats -> Z) (e : simd_width_t * DwellStats) : string :=
  name ++ "{width=" ++ dq ++ width_to_string e.1 ++ dq ++ "} " ++ decimal (value e.2) ++ nl.

Definition sensor_line (name : string) (value : SensorSnapshot -> string) (e : SensorKey * SensorSnapshot) : string :=
  name ++ "{sensor=" ++ dq ++ escape_prometheus_label (sk_sensor e.1) ++ dq ++ ",socket=" ++ dq ++
  decimal (sk_socket e.1) ++ dq ++ "} " ++ value e.2 ++ nl.

Definition bit_text (b : bool) : string := if b then "1" else "0".

(** Whole seconds of a time point ([duration_cast] truncates). *)
Definition to_seconds (t : Z) : Z := t ÷ NS_PER_S.

Definition channel_line (name channel value : string) : string :=
  name ++ "{channel=" ++ dq ++ channel ++ dq ++ "} " ++ value ++ nl.

Definition registry_text (r : MetricsRegistry) : string :=
  preamble "tsd_patch_transitions_total" "Dispatcher selection attempts by outcome." "counter" ++
  concat_text patch_line (patch_counts_ r) ++
  preamble "tsd_dwell_time_ms_sum" "Total dwell time observed before transitions." "counter" ++
  concat_text (dwell_line "tsd_dwell_time_ms_sum" dw_total_ms) (dwell_stats_ r) ++
  preamble "tsd_dwell_time_ms_count" "Number of dwell observations." "counter" ++
  concat_text (dwell_line "tsd_dwell_time_ms_count" dw_count) (dwell_stats_ r) ++
  preamble "tsd_dwell_time_ms_max" "Maximum dwell time observed." "gauge" ++
  concat_text (dwell_line "tsd_dwell_time_ms_max" dw_max_ms) (dwell_stats_ r) ++
  preamble "tsd_sensor_health_ratio" "Last reported sensor health ratio." "gauge" ++
  concat_text (sensor_line "tsd_sensor_health_ratio" (fun s => f64_general (sn_health s))) (sensor_state_ r) ++
  preamble "tsd_sensor_quality_ratio" "Last reported sensor quality ratio." "gauge" ++
  concat_text (sensor_line "tsd_sensor_quality_ratio" (fun s => f64_general (sn_quality s))) (sensor_state_ r) ++
  preamble "tsd_sensor_health_valid" "Last reported sensor validity (1=valid)." "gauge" ++
  concat_text (sensor_line "tsd_sensor_health_valid" (fun s => bit_text (sn_valid s))) (sensor_state_ r) ++
  preamble "tsd_sensor_health_timestamp_seconds" "UNIX time of last sensor report." "gauge" ++
  concat_text (sensor_line "tsd_sensor_health_timestamp_seconds" (fun s => decimal (to_seconds (sn_updated_at s))))
    (sensor_state_ r).

Definition temperature_text (fusion : FusionTelemetrySnapshot) : string :=
  preamble "tsd_package_temperature_c" "Package temperature by safety/control channel." "gauge" ++
  (if fs_raw_temp_available fusion
   then channel_line "tsd_package_temperature_c" "raw_safety" (f64_general (fs_raw_package_temp_c fusion)) else "") ++
  (if fs_filtered_temp_available fusion
   then channel_line "tsd_package_temperature_c" "filtered_control" (f64_general (fs_filtered_package_temp_c fusion))
   else "") ++
  preamble "tsd_package_temperature_available" "Package temperature channel availability." "gauge" ++
  channel_line "tsd_package_temperature_available" "raw_safety" (bit_text (fs_raw_temp_available fusion)) ++
  channel_line "tsd_package_temperature_available" "filtered_control" (bit_text (fs_filtered_temp_available fusion)).

Definition mt {A} (m : TM A) : MM A := fun s => let '(a, t) := m (m_tele s) in (a, s <| m_tele := t |>).

Definition build_prometheus `{EV : Env} `{DE : DiagEnv} : MM (exn + string) :=
  r <- gets m_registry ;;
  fusion <-! mt fusion_snapshot ;;
  ret (inr (registry_text r ++ temperature_text fusion)).

(** ** Keys are totally ordered *)

Class KeyOrder {K : Type} (ltb : K -> K -> bool) : Prop := mkKeyOrder {
  ko_irrefl a : ltb a a = false;
  ko_trans a b c : ltb a b = true -> ltb b c = true -> ltb a c = true;
  ko_total a b : ltb a b = false -> ltb b a = false -> a = b;
}.

#[export] Instance Z_key_order : KeyOrder Z.ltb.
Proof. split; intros; zbool; lia. Qed.

Lemma string_ltb_spec a b s t :
  String.ltb (String a s) (String b t) = if code a =? code b then String.ltb s t else code a <? code b.
Proof.
  unfold String.ltb, String.compare, Ascii.compare, code. fold String.compare.
  destruct (N.compare_spec (N_of_ascii a) (N_of_ascii b)) as [E|E|E].
  - by rewrite E, Z.eqb_refl.
  - rewrite (proj2 (Z.eqb_neq _ _)) by lia. symmetry. apply Z.ltb_lt. lia.
  - rewrite (proj2 (Z.eqb_neq _ _)) by lia. symmetry. apply Z.ltb_ge. lia.
Qed.

#[export] Instance string_key_order : KeyOrder String.ltb.
Proof.
  split.
  - induction a as [|c a IH]; [done|]. by rewrite string_ltb_spec, Z.eqb_refl.
  - induction a as [|x a IH]; intros [|y b] [|z c]; try done. rewrite !string_ltb_spec.
    repeat case_if; intros; zbool; try apply Z.ltb_lt; try lia; eauto.
  - induction a as [|x a IH]; intros [|y b]; try done. rewrite !string_ltb_spec.
    repeat case_if; intros; zbool; try lia. f_equal; [by apply code_inj | by apply IH].
Qed.

#[export] Instance patch_key_order : KeyOrder patch_key_ltb.
Proof.
  split; unfold patch_key_ltb, bool_ltb.
  - intros [f t s]. cbn. rewrite !Z.eqb_refl. by destruct s.
  - intros [f1 t1 s1] [f2 t2 s2] [f3 t3 s3]. cbn.
    repeat case_if; intros; zbool; try apply Z.ltb_lt; try lia; destruct s1, s2, s3; done.
  - intros [f1 t1 s1] [f2 t2 s2]. cbn.
    repeat case_if; intros; zbool; try lia. subst. by destruct s1, s2.
Qed.

#[export] Instance sensor_key_order : KeyOrder sensor_key_ltb.
Proof.
  split; unfold sensor_key_ltb.
  - intros [n k]. cbn. rewrite String.eqb_refl. cbn. lia.
  - intros [n1 k1] [n2 k2] [n3 k3]. cbn.
    destruct (String.eqb_spec n1 n2), (String.eqb_spec n2 n3), (String.eqb_spec n1 n3); cbn; subst; try done; intros.
    + zbool. apply Z.ltb_lt. lia.
    + assert (Hc : String.ltb n3 n3 = true) by (eapply ko_trans; eassumption). by rewrite ko_irrefl in Hc.
    + eapply ko_trans; eassumption.
  - intros [n1 k1] [n2 k2]. cbn. rewrite (String.eqb_sym n2 n1).
    destruct (String.eqb_spec n1 n2) as [->|Hn]; cbn; intros.
    + zbool. f_equal. lia.
    + exfalso. by apply Hn, ko_total.
Qed.

(** ** Ordered maps behave as maps *)

Section ordered_map_facts.
Context {K V : Type} (ltb : K -> K -> bool) `{KO : !KeyOrder ltb}.

Definition same_key (a b : K) : bool := negb (ltb a b) && negb (ltb b a).

Lemma same_key_eq a b : same_key a b = true <-> a = b.
Proof.
  unfold same_key. split.
  - intros. zbool. by apply ko_total.
  - intros ->. by rewrite (ko_irrefl (ltb := ltb)).
Qed.

Lemma omap_get_upd k f k' (l : list (K * V)) :
  omap_get ltb k' (omap_upd ltb k f l) =
    if same_key k' k then Some (f (omap_get ltb k l)) else omap_get ltb k' l.
Proof.
  destruct (same_key k' k) eqn:E.
  - apply same_key_eq in E as ->. induction l as [|[k' v] l IH]; cbn; [by rewrite ko_irrefl|].
    destruct (ltb k k') eqn:E1; cbn; [by rewrite ko_irrefl|].
    destruct (ltb k' k) eqn:E2; cbn; rewrite ?E1, ?E2; done.
  - assert (Hne : ltb k' k = false -> ltb k k' = true).
    { unfold same_key in E. intros H. rewrite H in E. by destruct (ltb k k'). }
    induction l as [|[k0 v] l IH]; cbn.
    + destruct (ltb k' k); [done|]. by rewrite Hne.
    + destruct (ltb k k0) eqn:E1; cbn.
      * destruct (ltb k' k) eqn:E2; [by rewrite (ko_trans _ _ _ E2 E1)|]. by rewrite Hne.
      * destruct (ltb k0 k) eqn:E2; cbn; [by rewrite IH|].
        assert (k0 = k) as -> by by apply ko_total.
        destruct (ltb k' k) eqn:E3; [done|]. by rewrite Hne.
Qed.
End ordered_map_facts.

(** ** The registry against its history *)

Inductive metric_event : Type :=
  | EvPatch (from to : simd_width_t) (rc dwell_ms : Z)
  | EvDwell (width : simd_width_t) (dwell_ms : Z)
  | EvSensor (sensor : string) (socket : Z) (health quality : double) (valid : bool)
  | EvConfigure (host : string) (port : Z)
  | EvShutdown.

Definition run_event `{MX : MetricsEnv} (e : metric_event) : MM unit :=
  match e with
  | EvPatch from to rc dwell_ms => record_patch from to rc dwell_ms
  | EvDwell width dwell_ms => observe_dwell width dwell_ms
  | EvSensor sensor socket health quality valid => record_sensor_health sensor socket health quality valid
  | EvConfigure host port => statsd_configure host port
  | EvShutdown => statsd_shutdown
  end.

Fixpoint run_events `{MX : MetricsEnv} (es : list metric_event) : MM unit :=
  match es with [] => ret tt | e :: es => run_event e ;;; run_events es end.

(** The attempts recorded for a key. *)
Definition is_attempt (k : PatchKey) (e : metric_event) : bool :=
  match e with
  | EvPatch from to rc _ => same_key patch_key_ltb (mkPatchKey from to (rc =? 0)) k
  | _ => false
  end.
Definition attempts (k : PatchKey) (es : list metric_event) : nat :=
  List.length (List.filter (is_attempt k) es).

(** The dwell times observed for a width, oldest first. *)
Definition dwell_of (w : simd_width_t) (e : metric_event) : list Z :=
  match e with
  | EvPatch from _ _ d => if (from =? w) && (d >? 0) then [d] else []
  | EvDwell width d => if (width =? w) && (d <>? 0) then [d] else []
  | _ => []
  end.
Definition dwells (w : simd_width_t) (es : list metric_event) : list Z := flat_map (dwell_of w) es.

Definition dwell_summary (ds : list Z) : option DwellStats :=
  match ds with
  | [] => None
  | _ => Some (mkDwell (u64 (Z.of_nat (List.length ds))) (u64 (foldr Z.add 0 ds)) (foldr Z.max 0 ds))
  end.

(** The last report of a sensor. *)
Definition report_of (k : SensorKey) (e : metric_event) : option (double * double * bool) :=
  match e with
  | EvSensor sensor socket h q v =>
      if same_key sensor_key_ltb (mkSensorKey sensor socket) k then Some (h, q, v) else None
  | _ => None
  end.
Definition last_report (k : SensorKey) (es : list metric_event) : option (double * double * bool) :=
  foldl (fun acc e => match report_of k e with Some r => Some r | None => acc end) None es.

Definition sensor_matches (expected : option (double * double * bool)) (found : option SensorSnapshot) : Prop :=
  match expected with
  | None => found = None
  | Some (h, q, v) => exists t, found = Some (mkSensorSnapshot (clamp_unit h) (clamp_unit q) v t)
  end.

(** The registry holds what the events say. *)
Definition registry_exact (es : list metric_event) (r : MetricsRegistry) : Prop :=
  (forall k, omap_get patch_key_ltb k (patch_counts_ r) =
     match attempts k es with O => None | n => Some (u64 (Z.of_nat n)) end) /\
  (forall w, omap_get Z.ltb w (dwell_stats_ r) = dwell_summary (dwells w es)) /\
  (forall k, sensor_matches (last_report k es) (omap_get sensor_key_ltb k (sensor_state_ r))).

(** What one event does to the registry; [t] is the time of a sensor report. *)
Definition registry_step (e : metric_event) (t : Z) (r : MetricsRegistry) : MetricsRegistry :=
  match e with
  | EvPatch from to rc dwell_ms =>
      let r := note_patch (mkPatchKey from to (rc =? 0)) r in
      if dwell_ms >? 0 then note_dwell from dwell_ms r else r
  | EvDwell width dwell_ms => if dwell_ms =? 0 then r else note_dwell width dwell_ms r
  | EvSensor sensor socket h q v =>
      note_sensor (mkSensorKey sensor socket) (mkSensorSnapshot (clamp_unit h) (clamp_unit q) v t) r
  | EvConfigure _ _ | EvShutdown => r
  end.


Lemma foldr_add_snoc ds d : foldr Z.add 0 (app ds [d]) = foldr Z.add 0 ds + d.
Proof. induction ds as [|x ds IH]; cbn in *; lia. Qed.

Lemma foldr_max_snoc ds d : foldr Z.max 0 (app ds [d]) = Z.max (foldr Z.max 0 ds) d.
Proof. induction ds as [|x ds IH]; cbn in *; lia. Qed.

Lemma add_dwell_snoc ds d : Some (add_dwell d (dwell_summary ds)) = dwell_summary (app ds [d]).
Proof.
  assert (H : app ds [d] <> []) by by destruct ds.
  unfold dwell_summary at 2. destruct (app ds [d]) as [|x l] eqn:E; [done|]. rewrite <- E.
  unfold add_dwell. do 2 f_equal.
  - rewrite length_app. destruct ds; cbn -[u64 List.length Z.add]; [done|].
    rewrite u64_add_l. f_equal. cbn [List.length]. lia.
  - rewrite foldr_add_snoc. destruct ds; cbn -[u64 Z.add foldr]; [done|]. by rewrite u64_add_l.
  - rewrite foldr_max_snoc. by destruct ds.
Qed.

Lemma dwells_snoc w es e : dwells w (app es [e]) = app (dwells w es) (dwell_of w e).
Proof. unfold dwells. rewrite flat_map_app. cbn. by rewrite app_nil_r. Qed.

Lemma note_dwell_exact es e width d r w :
  dwell_of w e = (if width =? w then [d] else []) ->
  omap_get Z.ltb w (dwell_stats_ r) = dwell_summary (dwells w es) ->
  omap_get Z.ltb w (dwell_stats_ (note_dwell width d r)) = dwell_summary (dwells w (app es [e])).
Proof.
  intros He Hr. cbn. rewrite (omap_get_upd Z.ltb), dwells_snoc, He. unfold same_key.
  destruct (width =? w) eqn:E; zbool.
  - subst w. rewrite Z.ltb_irrefl. cbn [negb andb]. by rewrite Hr, add_dwell_snoc.
  - replace (_ && _) with false by lia. by rewrite app_nil_r.
Qed.

Lemma attempts_snoc k es e : attempts k (app es [e]) = (attempts k es + if is_attempt k e then 1 else 0)%nat.
Proof. unfold attempts. rewrite List.filter_app, length_app. cbn. by destruct (is_attempt k e). Qed.

Lemma same_key_sym {K} (ltb : K -> K -> bool) a b : same_key ltb a b = same_key ltb b a.
Proof. unfold same_key. apply andb_comm. Qed.

Lemma registry_step_exact es e t r : registry_exact es r -> registry_exact (app es [e]) (registry_step e t r).
Proof.
  intros (Hp & Hd & Hs). split; [|split].
  - intros k. rewrite attempts_snoc. destruct e as [from to rc d|width d|n sk h q v|host port|];
      cbn [registry_step is_attempt]; rewrite ?Nat.add_0_r; try apply Hp; [|destruct (d =? 0); apply Hp].
    replace (patch_counts_ _) with (patch_counts_ (note_patch (mkPatchKey from to (rc =? 0)) r)) by by destruct (d >? 0).
    cbn. rewrite (omap_get_upd patch_key_ltb), (same_key_sym _ k).
    destruct (same_key patch_key_ltb (mkPatchKey from to (rc =? 0)) k) eqn:E; [|by rewrite Nat.add_0_r].
    apply (same_key_eq patch_key_ltb) in E as ->. rewrite Hp. rewrite Nat.add_1_r.
    destruct (attempts k es) as [|n]; [done|]. cbn -[u64 Z.of_nat]. rewrite u64_add_l. do 2 f_equal. lia.
  - intros w. destruct e as [from to rc d|width d|n sk h q v|host port|]; cbn [registry_step].
    + destruct (d >? 0) eqn:Ed.
      * apply note_dwell_exact; [cbn; rewrite Ed; by destruct (from =? w) | apply Hd].
      * cbn. rewrite dwells_snoc. cbn. rewrite Ed, andb_false_r, app_nil_r. apply Hd.
    + destruct (d =? 0) eqn:Ed.
      * rewrite dwells_snoc. cbn. rewrite Ed, andb_false_r, app_nil_r. apply Hd.
      * apply note_dwell_exact; [cbn; rewrite Ed; by destruct (width =? w) | apply Hd].
    + cbn. rewrite dwells_snoc. cbn. rewrite app_nil_r. apply Hd.
    + rewrite dwells_snoc. cbn. rewrite app_nil_r. apply Hd.
    + rewrite dwells_snoc. cbn. rewrite app_nil_r. apply Hd.
  - intros k. unfold last_report. rewrite foldl_app. cbn [foldl].
    destruct e as [from to rc d|width d|n sk h q v|host port|]; cbn [registry_step report_of];
      try apply Hs; [destruct (d >? 0); apply Hs|destruct (d =? 0); apply Hs|].
    cbn. rewrite (omap_get_upd sensor_key_ltb), (same_key_sym _ k).
    destruct (same_key sensor_key_ltb (mkSensorKey n sk) k); [|apply Hs]. by exists t.
Qed.

Section registry.
Context `{MX : MetricsEnv}.

Definition keeps_registry (s s' : mstate) : Prop := m_registry s = m_registry s'.
#[export] Instance keeps_registry_preorder : PreOrder keeps_registry.
Proof. unfold keeps_registry. exact _. Qed.

Lemma send_keeps_registry payload : respects keeps_registry (statsd_send payload).
Proof. intros s. unfold statsd_send. rewrite bind_run. cbn [gets fst snd]. by case_if. Qed.

Lemma shutdown_keeps_registry : respects keeps_registry statsd_shutdown.
Proof. intros s. unfold statsd_shutdown. rewrite bind_run. cbn [gets fst snd]. rewrite bind_run. by destruct (_ >=? 0). Qed.

Lemma configure_keeps_registry host port : respects keeps_registry (statsd_configure host port).
Proof.
  unfold statsd_configure. apply respects_bind; [exact _ | apply shutdown_keeps_registry | intros _].
  repeat (respects_step; try (intros ?; done)).
Qed.

Lemma run_event_registry e s : exists t, m_registry (exec (run_event e) s) = registry_step e t (m_registry s).
Proof.
  assert (Hsend : forall p s, m_registry (statsd_send p s).2 = m_registry s).
  { intros p s'. symmetry. apply (send_keeps_registry p s'). }
  unfold exec. destruct e as [from to rc d|width d|n sk h q v|host port|]; cbn [run_event registry_step].
  - exists 0. unfold record_patch, send_counter, send_gauge. rewrite !bind_run. unfold when.
    destruct (d >? 0); cbn [ret snd]; rewrite !Hsend; done.
  - exists 0. unfold observe_dwell, send_gauge. destruct (d =? 0); [done|]. rewrite !bind_run. by rewrite Hsend.
  - exists (mx_now (S (m_calls s))). unfold record_sensor_health, send_gauge. rewrite !bind_run. by rewrite !Hsend.
  - exists 0. symmetry. apply (configure_keeps_registry host port s).
  - exists 0. symmetry. apply (shutdown_keeps_registry s).
Qed.

Lemma run_events_exact es' es s :
  registry_exact es (m_registry s) -> registry_exact (app es es') (m_registry (exec (run_events es') s)).
Proof.
  revert es s. induction es' as [|e es' IH]; intros es s H; [by rewrite app_nil_r|].
  unfold exec. cbn [run_events]. rewrite bind_run.
  destruct (run_event_registry e s) as [t Et]. replace (app es (e :: es')) with (app (app es [e]) es') by by rewrite <- app_assoc.
  apply IH. unfold exec in Et. rewrite Et. by apply registry_step_exact.
Qed.
End registry.

(** After any sequence of recorded attempts, dwell times and sensor reports, interleaved with any
    configuration of the StatsD client, the registry holds exactly the number of attempts per transition and outcome,
    count, sum and maximum of the dwell times per width (modulo 2^64), and the last, clamped, report of each sensor. *)
Theorem registry_is_exact `{MX : MetricsEnv} es s :
  m_registry s = empty_registry -> registry_exact es (m_registry (exec (run_events es) s)).
Proof. intros H. apply (run_events_exact es [] s). by rewrite H. Qed.

(** ** Reading an exposition back

    A reader of the Prometheus text format: comment lines are skipped, a sample
    line is a name, labels with escaped values in double quotes, and a value. *)

Record series : Type := mkSeries { se_name : string; se_labels : list (string * string); se_value : string }.

(** The text before the first [c], and the text after it. *)
Fixpoint until (c : ascii) (s : string) : option (string * string) :=
  match s with
  | "" => None
  | String x s => if Ascii.eqb x c then Some ("", s)
                  else match until c s with Some (a, r) => Some (String x a, r) | None => None end
  end.

(** The end of a label value; [esc] tells that a backslash precedes. *)
Fixpoint label_value (esc : bool) (s : string) : option (string * string) :=
  match s with
  | "" => None
  | String x s =>
      if esc then
        if code x =? 92 then option_map (fun '(a, r) => (String x a, r)) (label_value false s)
        else if code x =? 34 then option_map (fun '(a, r) => (String x a, r)) (label_value false s)
        else if code x =? 110 then option_map (fun '(a, r) => (String (chr 10) a, r)) (label_value false s)
        else None
      else if code x =? 92 then label_value true s
      else if code x =? 34 then Some ("", s)
      else option_map (fun '(a, r) => (String x a, r)) (label_value false s)
  end.

Fixpoint parse_labels (fuel : nat) (s : string) : option (list (string * string) * string) :=
  match fuel with
  | O => None
  | S fuel =>
      match until "=" s with
      | Some (key, String q s) =>
          if negb (code q =? 34) then None
          else
            match label_value false s with
            | Some (v, String sep rest) =>
                if Ascii.eqb sep "}" then Some ([(key, v)], rest)
                else if Ascii.eqb sep "," then
                  match parse_labels fuel rest with
                  | Some (l, rest) => Some ((key, v) :: l, rest)
                  | None => None
                  end
                else None
            | _ => None
            end
      | _ => None
      end
  end.

Definition parse_series (line : string) : option series :=
  match until "{" line with
  | Some (name, rest) =>
      match parse_labels (String.length rest) rest with
      | Some (labels, String sp value) =>
          if Ascii.eqb sp " " && negb (String.eqb value "") then Some (mkSeries name labels value) else None
      | _ => None
      end
  | None => None
  end.

(** The lines of a text; each ends in a line feed. *)
Fixpoint lines (s : string) : list string :=
  match s with
  | "" => []
  | String x s =>
      if code x =? 10 then "" :: lines s
      else match lines s with l :: ls => String x l :: ls | [] => [String x ""] end
  end.

Definition is_comment (line : string) : bool := match line with String c _ => Ascii.eqb c "#" | "" => true end.

Definition parse_exposition (text : string) : option (list series) :=
  mapM parse_series (List.filter (fun l => negb (is_comment l)) (lines text)).

(** What a scrape of the registry should see. *)
Fixpoint cr_replaced (s : string) : string :=
  match s with "" => "" | String c s => String (if code c =? 13 then "_"%char else c) (cr_replaced s) end.

Definition patch_series (e : PatchKey * Z) : series :=
  mkSeries "tsd_patch_transitions_total"
    [("from", width_to_string (pk_from e.1)); ("to", width_to_string (pk_to e.1));
     ("outcome", if pk_success e.1 then "success" else "failure")] (decimal e.2).
Definition dwell_series (name : string) (value : DwellStats -> Z) (e : simd_width_t * DwellStats) : series :=
  mkSeries name [("width", width_to_string e.1)] (decimal (value e.2)).
Definition sensor_series (name : string) (value : SensorSnapshot -> string) (e : SensorKey * SensorSnapshot) : series :=
  mkSeries name [("sensor", cr_replaced (sk_sensor e.1)); ("socket", decimal (sk_socket e.1))] (value e.2).
Definition channel_series (name channel value : string) : series := mkSeries name [("channel", channel)] value.

Definition registry_series (r : MetricsRegistry) : list series :=
  (List.map patch_series (patch_counts_ r) ++
  List.map (dwell_series "tsd_dwell_time_ms_sum" dw_total_ms) (dwell_stats_ r) ++
  List.map (dwell_series "tsd_dwell_time_ms_count" dw_count) (dwell_stats_ r) ++
  List.map (dwell_series "tsd_dwell_time_ms_max" dw_max_ms) (dwell_stats_ r) ++
  List.map (sensor_series "tsd_sensor_health_ratio" (fun s => f64_general (sn_health s))) (sensor_state_ r) ++
  List.map (sensor_series "tsd_sensor_quality_ratio" (fun s => f64_general (sn_quality s))) (sensor_state_ r) ++
  List.map (sensor_series "tsd_sensor_health_valid" (fun s => bit_text (sn_valid s))) (sensor_state_ r) ++
  List.map (sensor_series "tsd_sensor_health_timestamp_seconds" (fun s => decimal (to_seconds (sn_updated_at s))))
    (sensor_state_ r))%list.

Definition temperature_series (fusion : FusionTelemetrySnapshot) : list series :=
  ((if fs_raw_temp_available fusion
   then [channel_series "tsd_package_temperature_c" "raw_safety" (f64_general (fs_raw_package_temp_c fusion))] else []) ++
  (if fs_filtered_temp_available fusion
   then [channel_series "tsd_package_temperature_c" "filtered_control" (f64_general (fs_filtered_package_temp_c fusion))]
   else []) ++
  [channel_series "tsd_package_temperature_available" "raw_safety" (bit_text (fs_raw_temp_available fusion));
   channel_series "tsd_package_temperature_available" "filtered_control" (bit_text (fs_filtered_temp_available fusion))])%list.

(** *** Lines *)

Lemma until_app c a r : all_chars (fun x => negb (Ascii.eqb x c)) a = true -> until c (a ++ String c r) = Some (a, r).
Proof.
  induction a as [|x a IH]; cbn [String.append until all_chars]; [by rewrite Ascii.eqb_refl|].
  intros H. apply andb_true_iff in H as [H Ha]. apply negb_true_iff in H. by rewrite H, IH.
Qed.

Lemma label_value_escape v r : label_value false (escape_prometheus_label v ++ String (chr 34) r) = Some (cr_replaced v, r).
Proof.
  induction v as [|c v IH]; [done|]. cbn [escape_prometheus_label cr_replaced]. rewrite string_app_assoc.
  unfold escape_char. destruct (code c =? 92) eqn:E1; [|destruct (code c =? 34) eqn:E2;
    [|destruct (code c =? 10) eqn:E3; [|destruct (code c =? 13) eqn:E4]]].
  1-3: cbn [String.append label_value dq]; zbool;
    match goal with E : code ?x = ?n |- _ => assert (x = chr n) as -> by (apply code_inj; by rewrite E) end;
    match goal with |- context [code backslash] => change (code backslash) with 92 end;
    cbn [Z.eqb Pos.eqb]; rewrite ?IH; done.
  - cbn [String.append label_value]. change (code "_") with 95. cbn [Z.eqb Pos.eqb]. by rewrite IH.
  - cbn [String.append label_value]. by rewrite E1, E2, IH.
Qed.

Lemma escape_one_line v : one_line (escape_prometheus_label v) = true.
Proof.
  induction v as [|c v IH]; [done|]. cbn [escape_prometheus_label]. rewrite all_chars_app, IH, andb_true_r.
  unfold escape_char. repeat case_if; try done. cbn. unfold not_code. by rewrite E1.
Qed.

(** Text that needs no escape. *)
Definition plain_char (c : ascii) : bool := not_code 92 c && not_code 34 c && not_code 10 c && not_code 13 c.

Lemma escape_plain v : all_chars plain_char v = true -> escape_prometheus_label v = v /\ cr_replaced v = v.
Proof.
  induction v as [|c v IH]; [done|]. cbn [all_chars escape_prometheus_label cr_replaced]. intros H.
  apply andb_true_iff in H as [Hc Hv]. destruct (IH Hv) as [-> ->].
  unfold plain_char, not_code in Hc. zbool. unfold escape_char.
  rewrite !(proj2 (Z.eqb_neq _ _)) by done. done.
Qed.

Lemma num_plain s : all_chars num_char s = true -> all_chars plain_char s = true.
Proof.
  apply all_chars_mono. intros c. unfold num_char, plain_char, not_code, isdigit. intros H.
  apply orb_true_iff in H as [H|H].
  - zbool. rewrite !(proj2 (Z.eqb_neq _ _)) by lia. done.
  - cbn in H. repeat (apply orb_true_iff in H as [H|H]; [apply Ascii.eqb_eq in H as ->; done|]). done.
Qed.

Lemma plain_one_line s : all_chars plain_char s = true -> one_line s = true.
Proof. apply all_chars_mono. unfold plain_char. intros. zbool. done. Qed.

Lemma lines_cons a r : one_line a = true -> lines (a ++ nl ++ r) = a :: lines r.
Proof.
  induction a as [|c a IH]; [done|]. cbn [all_chars String.append lines]. unfold not_code at 1. intros H. zbool.
  rewrite (proj2 (Z.eqb_neq _ _)) by done. by rewrite IH.
Qed.

Lemma dq_app s : dq ++ s = String (chr 34) s.
Proof. done. Qed.

(** *** Sample lines *)

Definition label_text (l : string * string) : string := l.1 ++ "=" ++ dq ++ escape_prometheus_label l.2 ++ dq.
Fixpoint labels_text (l : list (string * string)) : string :=
  match l with
  | [] => ""
  | [x] => label_text x
  | x :: l => label_text x ++ "," ++ labels_text l
  end.

Definition key_ok (k : string) : bool := all_chars (fun x => negb (Ascii.eqb x "=") && not_code 10 x) k.
Definition clean_labels (l : list (string * string)) : list (string * string) :=
  List.map (fun '(k, v) => (k, cr_replaced v)) l.

Lemma parse_labels_text fuel l r :
  (List.length l <= fuel)%nat -> l <> [] -> forallb (fun x => key_ok x.1) l = true ->
  parse_labels fuel (labels_text l ++ "}" ++ r) = Some (clean_labels l, r).
Proof.
  revert fuel. induction l as [|[k v] l IH]; intros fuel Hf Hl Hk; [done|].
  destruct fuel as [|fuel]; [cbn in Hf; lia|]. cbn in Hk. apply andb_true_iff in Hk as [Hk Hks].
  assert (E : labels_text ((k, v) :: l) ++ "}" ++ r =
              k ++ "=" ++ dq ++ escape_prometheus_label v ++ dq ++
              (match l with [] => "}" ++ r | _ => "," ++ labels_text l ++ "}" ++ r end)).
  { destruct l; cbn [labels_text]; unfold label_text; cbn [fst snd]; rewrite !string_app_assoc; done. }
  rewrite E. clear E. cbn [parse_labels]. change ("=" ++ ?x) with (String "=" x).
  rewrite until_app by (eapply all_chars_mono; [|exact Hk]; intros ? H; by apply andb_true_iff in H as [? _]).
  rewrite !dq_app. change (code (chr 34) =? 34) with true. cbn [negb].
  rewrite label_value_escape. destruct l as [|x l]; [done|].
  change ("," ++ ?x) with (String "," x). cbn [Ascii.eqb Bool.eqb].
  change (Ascii.eqb "," "}") with false. change (Ascii.eqb "," ",") with true. cbv iota.
  rewrite IH; [done | cbn in *; lia | done | done].
Qed.

Definition render (se : series) : string := se_name se ++ "{" ++ labels_text (se_labels se) ++ "} " ++ se_value se.

Record renderable (se : series) : Prop := mkRenderable {
  rd_name : all_chars (fun x => negb (Ascii.eqb x "{") && not_code 10 x) (se_name se) = true;
  rd_start : is_comment (render se) = false;
  rd_labels : se_labels se <> [];
  rd_keys : forallb (fun x => key_ok x.1) (se_labels se) = true;
  rd_value : se_value se <> "";
  rd_line : one_line (se_value se) = true;
}.

Lemma labels_length l : (List.length l <= String.length (labels_text l))%nat.
Proof.
  induction l as [|x l IH]; [done|].
  assert (Hx : (1 <= String.length (label_text x))%nat).
  { unfold label_text. rewrite !string_length_app. change (String.length "=") with 1%nat. lia. }
  destruct l as [|y l]; [exact Hx|].
  change (labels_text (x :: y :: l)) with (label_text x ++ "," ++ labels_text (y :: l)).
  rewrite !string_length_app. cbn [List.length] in *. lia.
Qed.

Lemma parse_render se :
  renderable se -> parse_series (render se) = Some (mkSeries (se_name se) (clean_labels (se_labels se)) (se_value se)).
Proof.
  intros [Hn _ Hl Hk Hv _]. unfold parse_series, render. change ("{" ++ ?x) with (String "{" x).
  rewrite until_app by (eapply all_chars_mono; [|exact Hn]; intros ? H; by apply andb_true_iff in H as [? _]).
  change ("} " ++ ?x) with ("}" ++ String " " x).
  rewrite parse_labels_text; [|rewrite string_length_app; pose proof (labels_length (se_labels se)); lia|done|done].
  cbn [Ascii.eqb Bool.eqb andb]. destruct (String.eqb_spec (se_value se) ""); done.
Qed.

Lemma labels_one_line l : forallb (fun x => key_ok x.1) l = true -> one_line (labels_text l) = true.
Proof.
  induction l as [|[k v] l IH]; [done|]. intros H. cbn [forallb fst] in H. apply andb_true_iff in H as [Hk Hl].
  assert (Hx : one_line (label_text (k, v)) = true).
  { unfold label_text. rewrite !all_chars_app, escape_one_line. cbn. rewrite !andb_true_r.
    eapply all_chars_mono; [|exact Hk]. intros ? H; by apply andb_true_iff in H as [_ ?]. }
  destruct l as [|y l]; [exact Hx|].
  change (labels_text ((k, v) :: y :: l)) with (label_text (k, v) ++ "," ++ labels_text (y :: l)).
  by rewrite !all_chars_app, Hx, IH.
Qed.

Lemma render_one_line se : renderable se -> one_line (render se) = true.
Proof.
  intros [Hn _ _ Hk _ Hv]. unfold render. rewrite !all_chars_app, labels_one_line, Hv by done. cbn. rewrite andb_true_r.
  eapply all_chars_mono; [|exact Hn]. intros ? H; by apply andb_true_iff in H as [_ ?].
Qed.

(** *** Texts *)

(** Reading [text] before anything else gives [l] before anything else. *)
Definition exposes (text : string) (l : list series) : Prop :=
  forall rest, parse_exposition (text ++ rest) = option_map (app l) (parse_exposition rest).

Lemma exposes_nil : exposes "" [].
Proof. intros rest. change ("" ++ rest) with rest. by destruct (parse_exposition rest). Qed.

Lemma exposes_app a b la lb : exposes a la -> exposes b lb -> exposes (a ++ b) (app la lb).
Proof.
  intros Ha Hb rest. rewrite string_app_assoc, Ha, Hb. destruct (parse_exposition rest) as [l|]; cbn; [|done].
  by rewrite app_assoc.
Qed.

Lemma exposes_map {A} (f : A -> string) (g : A -> series) l :
  (forall a, exposes (f a) [g a]) -> exposes (concat_text f l) (List.map g l).
Proof.
  intros H. induction l as [|a l IH]; [apply exposes_nil|]. cbn. by apply (exposes_app _ _ [g a]).
Qed.

Lemma exposes_preamble name help type :
  one_line (name ++ " " ++ help) = true -> one_line (name ++ " " ++ type) = true -> exposes (preamble name help type) [].
Proof.
  intros H1 H2 rest. unfold preamble, parse_exposition.
  assert (E : ("# HELP " ++ name ++ " " ++ help ++ nl ++ "# TYPE " ++ name ++ " " ++ type ++ nl) ++ rest =
              ("# HELP " ++ name ++ " " ++ help) ++ nl ++ ("# TYPE " ++ name ++ " " ++ type) ++ nl ++ rest)
    by by rewrite !string_app_assoc.
  rewrite E, !lines_cons by (rewrite all_chars_app; by apply andb_true_iff).
  cbn. by destruct (mapM _ _).
Qed.

Lemma exposes_render se :
  renderable se -> exposes (render se ++ nl) [mkSeries (se_name se) (clean_labels (se_labels se)) (se_value se)].
Proof.
  intros H rest. unfold parse_exposition. rewrite string_app_assoc, lines_cons by by apply render_one_line.
  cbn [List.filter]. rewrite (rd_start _ H). cbn -[parse_series render]. rewrite parse_render by done. cbn.
  by destruct (mapM _ _).
Qed.

Lemma width_plain w : all_chars plain_char (width_to_string w) = true.
Proof. unfold width_to_string. by repeat case_if. Qed.

Lemma decimal_nonnil n : decimal n <> "".
Proof. by destruct (decimal_nonempty n) as (c & s & ->). Qed.

Lemma general_nonnil x : f64_general x <> "".
Proof.
  destruct x as [s|s| |s m e]; unfold f64_general; [by destruct s | by destruct s | done |].
  destruct (magnitude m e) as [num den]. destruct (significant num den) as [n x]. cbv zeta. intros H.
  apply (f_equal String.length) in H. rewrite string_length_app in H.
  assert (Hd : forall k, String.length (decimal k) <> O) by (intros k; by destruct (decimal_nonempty k) as (c & r & ->)).
  destruct ((-4 <=? x) && (x <? 6)); rewrite !string_length_app in H; cbn [String.length] in H;
    [specialize (Hd (n / 10 ^ (5 - x)))|specialize (Hd (n / 100000))]; lia.
Qed.

Lemma bit_nonnil b : bit_text b <> "" /\ one_line (bit_text b) = true.
Proof. by destruct b. Qed.

Lemma value_text s : all_chars num_char s = true -> one_line s = true.
Proof. intros. by apply plain_one_line, num_plain. Qed.
#[export] Hint Resolve general_num fixed_num value_text decimal_nonnil general_nonnil : tsd.

Lemma patch_line_exposes e : exposes (patch_line e) [patch_series e].
Proof.
  destruct e as [[from to ok] n].
  assert (E : patch_line (mkPatchKey from to ok, n) =
    render (mkSeries "tsd_patch_transitions_total"
      [("from", width_to_string from); ("to", width_to_string to); ("outcome", if ok then "success" else "failure")]
      (decimal n)) ++ nl).
  { unfold patch_line, render, labels_text, label_text. cbn [fst snd pk_from pk_to pk_success se_name se_labels se_value].
    rewrite !(proj1 (escape_plain _ (width_plain _))). destruct ok; rewrite !string_app_assoc; reflexivity. }
  rewrite E. unfold patch_series. cbn [fst snd pk_from pk_to pk_success].
  pose proof (exposes_render (mkSeries "tsd_patch_transitions_total"
      [("from", width_to_string from); ("to", width_to_string to); ("outcome", if ok then "success" else "failure")]
      (decimal n))) as H. cbn [clean_labels List.map se_name se_labels se_value] in H.
  rewrite !(proj2 (escape_plain _ (width_plain _))) in H. destruct ok; apply H; split; cbn [se_name se_labels se_value]; auto with tsd; done.
Qed.

Lemma dwell_line_exposes name value e :
  (forall s, is_comment (name ++ s) = false) -> all_chars (fun x => negb (Ascii.eqb x "{") && not_code 10 x) name = true ->
  exposes (dwell_line name value e) [dwell_series name value e].
Proof.
  intros Hc Hn. destruct e as [w d].
  pose proof (exposes_render (mkSeries name [("width", width_to_string w)] (decimal (value d)))) as H.
  cbn [clean_labels List.map se_name se_labels se_value] in H. rewrite (proj2 (escape_plain _ (width_plain _))) in H.
  assert (E : dwell_line name value (w, d) = render (mkSeries name [("width", width_to_string w)] (decimal (value d))) ++ nl).
  { unfold dwell_line, render, labels_text, label_text. cbn [fst snd se_name se_labels se_value].
    rewrite !(proj1 (escape_plain _ (width_plain _))). rewrite !string_app_assoc. reflexivity. }
  rewrite E. apply H. split; cbn [se_name se_labels se_value]; auto with tsd; first [apply Hc | done].
Qed.

Lemma sensor_line_exposes name value e :
  (forall s, is_comment (name ++ s) = false) -> all_chars (fun x => negb (Ascii.eqb x "{") && not_code 10 x) name = true ->
  (forall s, value s <> "" /\ one_line (value s) = true) ->
  exposes (sensor_line name value e) [sensor_series name value e].
Proof.
  intros Hc Hn Hv. destruct e as [[sensor socket] s]. destruct (Hv s) as [Hv1 Hv2].
  pose proof (escape_plain (decimal socket) (num_plain _ (decimal_num socket))) as [He Hr].
  pose proof (exposes_render (mkSeries name [("sensor", sensor); ("socket", decimal socket)] (value s))) as H.
  cbn [clean_labels List.map se_name se_labels se_value] in H. rewrite Hr in H.
  assert (E : sensor_line name value (mkSensorKey sensor socket, s) =
              render (mkSeries name [("sensor", sensor); ("socket", decimal socket)] (value s)) ++ nl).
  { unfold sensor_line, render, labels_text, label_text. cbn [fst snd se_name se_labels se_value sk_sensor sk_socket].
    rewrite He, !string_app_assoc. reflexivity. }
  rewrite E. apply H. split; cbn [se_name se_labels se_value]; auto with tsd; first [apply Hc | done].
Qed.

Lemma channel_line_exposes name channel value :
  (forall s, is_comment (name ++ s) = false) -> all_chars (fun x => negb (Ascii.eqb x "{") && not_code 10 x) name = true ->
  all_chars plain_char channel = true -> value <> "" -> one_line value = true ->
  exposes (channel_line name channel value) [channel_series name channel value].
Proof.
  intros Hc Hn Hp Hv1 Hv2. destruct (escape_plain channel Hp) as [He Hr].
  pose proof (exposes_render (mkSeries name [("channel", channel)] value)) as H.
  cbn [clean_labels List.map se_name se_labels se_value] in H. rewrite Hr in H.
  assert (E : channel_line name channel value = render (mkSeries name [("channel", channel)] value) ++ nl).
  { unfold channel_line, render, labels_text, label_text. cbn [fst snd se_name se_labels se_value].
    rewrite He, !string_app_assoc. reflexivity. }
  rewrite E. apply H. split; cbn [se_name se_labels se_value]; auto with tsd; first [apply Hc | done].
Qed.

Lemma registry_text_exposes r : exposes (registry_text r) (registry_series r).
Proof.
  unfold registry_text, registry_series.
  repeat match goal with
    | |- exposes (preamble _ _ _ ++ _) ?l => apply (exposes_app _ _ [] l); [by apply exposes_preamble|]
    | |- exposes (_ ++ _) (app _ _) => apply exposes_app
    end; apply exposes_map; intros e;
    first [apply patch_line_exposes | by apply dwell_line_exposes | apply sensor_line_exposes; try done];
    intros s; first [apply bit_nonnil | split; auto with tsd].
Qed.

Lemma temperature_text_exposes f : exposes (temperature_text f) (temperature_series f).
Proof.
  assert (Hb : forall name channel b, (forall s, is_comment (name ++ s) = false) ->
    all_chars (fun x => negb (Ascii.eqb x "{") && not_code 10 x) name = true -> all_chars plain_char channel = true ->
    exposes (channel_line name channel (bit_text b)) [channel_series name channel (bit_text b)]).
  { intros name channel b Hc Hn Hp. destruct (bit_nonnil b). by apply channel_line_exposes. }
  unfold temperature_text, temperature_series.
  apply (exposes_app _ _ []); [by apply exposes_preamble|].
  apply exposes_app; [case_if; [apply channel_line_exposes; auto with tsd; done | apply exposes_nil]|].
  apply exposes_app; [case_if; [apply channel_line_exposes; auto with tsd; done | apply exposes_nil]|].
  apply (exposes_app _ _ []); [by apply exposes_preamble|].
  apply (exposes_app _ _ [_] [_]); by apply Hb.
Qed.

Lemma build_prometheus_run `{EV : Env} `{DE : DiagEnv} s :
  build_prometheus s =
    match dg_lock (d_calls (ts_diag (m_tele s))) with
    | Some code => (inl (SystemError code), s <| m_tele ::= over ts_diag (over d_calls S) |>)
    | None => (inr (registry_text (m_registry s) ++ temperature_text (fusion_of (m_tele s))),
               s <| m_tele ::= over ts_diag (over d_calls S) |>)
    end.
Proof.
  unfold build_prometheus, bind_exn, fusion_snapshot, mt. rewrite !bind_run. cbn [gets fst snd].
  rewrite locked_run. by destruct (dg_lock _).
Qed.

(** C34 (roundtrip). Whatever was recorded and whatever the sensors are called, a reader of the text format gets from
    the exposition exactly the recorded series with their label values (a carriage return in a sensor name reads as an
    underscore): no recorded text can add, drop or change a line. *)
Theorem exposition_reads_back `{EV : Env} `{DE : DiagEnv} s body s' :
  build_prometheus s = (inr body, s') ->
  parse_exposition body = Some (app (registry_series (m_registry s)) (temperature_series (fusion_of (m_tele s)))).
Proof.
  rewrite build_prometheus_run. destruct (dg_lock _); [discriminate|].
  intros E. assert (Eb : registry_text (m_registry s) ++ temperature_text (fusion_of (m_tele s)) = body)
    by exact (f_equal (fun r => match r.1 with inr b => b | inl _ => "" end) E).
  rewrite <- Eb.
  rewrite <- (string_app_nil (temperature_text _)), registry_text_exposes, temperature_text_exposes.
  change (parse_exposition "") with (Some (@nil series)). unfold option_map. by rewrite app_nil_r.
Qed.

(** ** The StatsD session *)

(** One measurement: a name of the StatsD alphabet, a number, and its kind. *)
Definition datagram_ok (text : string) : Prop :=
  exists name value kind, text = name ++ ":" ++ value ++ "|" ++ kind /\
    all_chars statsd_char name = true /\ all_chars num_char value = true /\ (kind = "c" \/ kind = "g").

(** The open descriptors are the socket of the client, and it is configured only
    with one; every datagram sent is one measurement. *)
Definition statsd_inv (s : mstate) : Prop :=
  m_fds s = (if sd_socket (m_statsd s) >=? 0 then [sd_socket (m_statsd s)] else []) /\
  (sd_configured (m_statsd s) = true -> 0 <= sd_socket (m_statsd s)) /\
  List.Forall (fun d => datagram_ok d.2) (m_datagrams s).

Lemma sanitize_ok s : all_chars statsd_char (sanitize_for_statsd s) = true.
Proof.
  induction s as [|c s IH]; [done|]. cbn [sanitize_for_statsd all_chars]. rewrite IH, andb_true_r. by case_if.
Qed.

Lemma width_statsd w : all_chars statsd_char (width_to_string w) = true.
Proof. unfold width_to_string. by repeat case_if. Qed.

Lemma decimal_statsd n : all_chars statsd_char (decimal n) = true.
Proof.
  assert (H : forall u, all_chars statsd_char (NilZero.string_of_uint u) = true).
  { intros u. eapply all_chars_mono; [|apply nil_zero_digits]. intros c. unfold isdigit, statsd_char, char_in. intros.
    change (code "0") with 48. change (code "9") with 57. rewrite H. by rewrite !orb_true_r. }
  unfold decimal. destruct (Z.to_int n); cbn; by rewrite H.
Qed.
#[export] Hint Resolve sanitize_ok width_statsd decimal_statsd : tsd.

Section session.
Context `{MX : MetricsEnv}.

Definition keeps_session (s s' : mstate) : Prop := statsd_inv s -> statsd_inv s'.
#[export] Instance keeps_session_preorder : PreOrder keeps_session.
Proof. unfold keeps_session. exact _. Qed.

Lemma send_session text : datagram_ok text -> respects keeps_session (statsd_send text).
Proof.
  intros Ht s (H1 & H2 & H3). unfold statsd_send. rewrite bind_run. cbn [gets fst snd]. case_if; [done|].
  split; [done|]. split; [done|]. cbn. apply List.Forall_app. by split; [|constructor].
Qed.

Lemma gauge_session name value : all_chars statsd_char name = true -> respects keeps_session (send_gauge name value).
Proof. intros Hn. apply send_session. exists name, (f64_fixed 3 value), "g". split; [done|]. auto using fixed_num. Qed.

Lemma counter_session name value : all_chars statsd_char name = true -> respects keeps_session (send_counter name value).
Proof. intros Hn. apply send_session. exists name, (decimal value), "c". split; [done|]. auto using decimal_num. Qed.

Lemma registry_session f : respects keeps_session (on_registry f).
Proof. intros s H. exact H. Qed.

Lemma mext_session {A} (f : nat -> A) : respects keeps_session (mext f).
Proof. intros s H. exact H. Qed.

Lemma shutdown_run s :
  statsd_inv s -> statsd_inv (exec statsd_shutdown s) /\ m_fds (exec statsd_shutdown s) = [] /\
  sd_socket (m_statsd (exec statsd_shutdown s)) < 0.
Proof.
  intros (H1 & H2 & H3). unfold exec, statsd_shutdown. rewrite bind_run. cbn [gets fst snd]. rewrite bind_run.
  unfold statsd_inv. destruct (sd_socket (m_statsd s) >=? 0) eqn:E; cbn; rewrite H1.
  - cbn. rewrite Z.eqb_refl. done.
  - rewrite E. by zbool.
Qed.

Lemma configure_session host port : respects keeps_session (statsd_configure host port).
Proof.
  intros s Hs. unfold statsd_configure. rewrite bind_run. destruct (shutdown_run s Hs) as (Hi & Hf & Hk).
  unfold exec in *. set (s1 := (statsd_shutdown s).2) in *. clearbody s1. case_if; [done|].
  rewrite bind_run. cbn [mext fst snd]. destruct (mx_resolve _ host _) as [address|]; [|done].
  destruct Hi as (H1 & H2 & H3). rewrite !bind_run. cbn -[Z.of_nat]. set (fd := mx_socket _). destruct (fd <? 0) eqn:Efd; zbool.
  - unfold statsd_inv. cbn. rewrite Hf. replace (fd >=? 0) with false by lia. split; [done|]. split; [|done].
    intros Hc. apply H2 in Hc. lia.
  - unfold statsd_inv. cbn. rewrite Hf. replace (fd >=? 0) with true by lia. done.
Qed.

Lemma event_session e : respects keeps_session (run_event e).
Proof.
  assert (Hname : forall a b, all_chars statsd_char a = true -> all_chars statsd_char b = true ->
                              all_chars statsd_char (a ++ b) = true) by (intros a b Ha Hb; by rewrite all_chars_app, Ha, Hb).
  destruct e as [from to rc d|width d|n sk h q v|host port|]; cbn [run_event].
  - unfold record_patch. apply respects_bind; [exact _ | apply registry_session | intros _].
    apply respects_bind; [exact _ | apply counter_session | intros _].
    + repeat (apply Hname; auto with tsd). by case_if.
    + apply respects_when; [exact _|]. apply gauge_session. apply Hname; auto with tsd.
  - unfold observe_dwell. case_if; [apply respects_ret; exact _|].
    apply respects_bind; [exact _ | apply registry_session | intros _]. apply gauge_session, Hname; auto with tsd.
  - unfold record_sensor_health. do 2 (apply respects_bind; [exact _ | apply mext_session | intros ?]).
    apply respects_bind; [exact _ | apply registry_session | intros _].
    repeat (apply respects_bind; [exact _ | | intros _]); apply gauge_session; repeat (apply Hname; auto with tsd).
  - apply configure_session.
  - intros s Hs. by apply shutdown_run.
Qed.

(** In any session the StatsD client has at most its one socket open, a closing configuration or shutdown
    leaves none behind, and every datagram it ever sent is exactly one measurement: no sensor name can smuggle a
    second one in. *)
Theorem statsd_session_is_clean es s :
  statsd_inv s ->
  statsd_inv (exec (run_events es) s) /\ m_fds (exec (run_events (app es [EvShutdown])) s) = [].
Proof.
  assert (H : forall es s, statsd_inv s -> statsd_inv (exec (run_events es) s)).
  { induction es0 as [|e es0 IH]; intros s0 Hs; [done|]. unfold exec. cbn [run_events]. rewrite bind_run.
    apply IH. by apply (event_session e s0). }
  intros Hs. split; [by apply H|].
  assert (E : exec (run_events (app es [EvShutdown])) s = exec statsd_shutdown (exec (run_events es) s)).
  { clear Hs. unfold exec. revert s. induction es as [|e es IH]; intros s; [cbn; by rewrite bind_run|].
    cbn [app run_events]. rewrite !bind_run. apply IH. }
  rewrite E. by apply shutdown_run, H.
Qed.
End session.

(** Two sensors, one with a hostile name. *)
Definition demo_env : MetricsEnv := mkMetricsEnv (fun _ => 5000000000) (fun _ _ _ => Some "addr") (fun _ => 3).
Definition idle_diag : DiagEnv := mkDiagEnv (fun _ => 0) (fun _ => 0) (fun _ => None).
Definition idle_metrics : mstate :=
  mkMstate (mkTstate (initial_world 7 tsd_runtime_config_set_defaults) initial_diag) 0 empty_registry initial_statsd [] [].
Definition hostile_name : string := "cpu" ++ dq ++ "} 1" ++ nl ++ "fake 2" ++ String backslash "".
Definition demo_events : list metric_event :=
  [EvConfigure "localhost" 8125; EvPatch 0 1 0 20; EvPatch 0 1 0 30; EvPatch 1 0 (-1) 0; EvDwell 1 7;
   EvSensor hostile_name 1 (f64_of_Z 2) f64_half true].

Lemma registry_is_exact_witness :
  m_registry idle_metrics = empty_registry /\
  registry_exact demo_events (m_registry (exec (run_events (MX := demo_env) demo_events) idle_metrics)).
Proof. split; [reflexivity|]. apply registry_is_exact. reflexivity. Defined.

Lemma exposition_reads_back_witness :
  let s := exec (run_events (MX := demo_env) demo_events) idle_metrics in
  build_prometheus (EV := quiet_env) (DE := idle_diag) s =
    (inr (registry_text (m_registry s) ++ temperature_text (fusion_of (m_tele s))),
     s <| m_tele ::= over ts_diag (over d_calls S) |>) /\
  parse_exposition (registry_text (m_registry s) ++ temperature_text (fusion_of (m_tele s))) =
    Some (app (registry_series (m_registry s)) (temperature_series (fusion_of (m_tele s)))).
Proof.
  intros s. split; [exact (build_prometheus_run (EV := quiet_env) (DE := idle_diag) s)|].
  exact (exposition_reads_back (EV := quiet_env) (DE := idle_diag) s _ _
           (build_prometheus_run (EV := quiet_env) (DE := idle_diag) s)).
Defined.

Lemma statsd_session_is_clean_witness :
  statsd_inv idle_metrics /\
  m_fds (exec (run_events (MX := demo_env) demo_events) idle_metrics) = [3] /\
  m_fds (exec (run_events (MX := demo_env) (app demo_events [EvShutdown])) idle_metrics) = [].
Proof.
  assert (H : statsd_inv idle_metrics) by (repeat split; [done | constructor]).
  split; [exact H|]. split; [vm_compute; reflexivity|].
  exact (proj2 (statsd_session_is_clean (MX := demo_env) demo_events idle_metrics H)).
Defined.
