(* ===== verification/Http.v ===== *)
(** * Http: requests and responses of the metrics endpoint

    What one worker of the exporter does with one connection
    ([src/src/observability/metrics.cpp]): reading the request, credentials,
    readiness, the response, and the TLS object around it.  [cstate] is the
    state of the process with the bytes sent on the connection and the TLS
    objects alive.  Bytes received and sent come from [HttpEnv]: [recv] delivers
    at most the size of the buffer, [send] accepts at most what it is given. *)
From S2P Require Import Prelude Float64 Format Config World Guard Fusion TelemetryState Metrics.
From stdpp Require Import gmap strings.
From Stdlib Require Import SpecFloat Ascii String.
#[local] Open Scope string_scope.
#[local] Open Scope Z_scope.
#[local] Arguments String.append !_ _ : simpl nomatch.

Definition kMaxRequestBytes : nat := Z.to_nat 8192.
Definition kChunkBytes : nat := Z.to_nat 512.

(** ** Configuration *)

Record ExporterTlsConfig : Type := mkTls {
  tls_enabled : bool; tls_certificate : string; tls_key : string; tls_ca : string; tls_require_client_auth : bool }.
Record ExporterBasicAuth : Type := mkAuth { au_enabled : bool; au_username : string; au_password : string }.
Record ExporterConfig : Type := mkExporterConfig {
  ec_bind_address : string; ec_port : Z; ec_tls : ExporterTlsConfig; ec_auth : ExporterBasicAuth;
  ec_statsd_host : string; ec_statsd_port : Z }.
#[export] Instance eta_exporter_config : Eta ExporterConfig := fun c =>
  mkExporterConfig (ec_bind_address c) (ec_port c) (ec_tls c) (ec_auth c) (ec_statsd_host c) (ec_statsd_port c).

Definition default_exporter_config : ExporterConfig :=
  mkExporterConfig "127.0.0.1" 0 (mkTls false "" "" "" false) (mkAuth false "" "") "" 0.

(** ** Credentials *)

Definition b64_alphabet : string := "ABCDEFGHIJKLMNOPQRSTUVWXYZabcdefghijklmnopqrstuvwxyz0123456789+/".

(** [alphabet.find(c)] *)
Fixpoint find_char (c : ascii) (s : string) (at_ : Z) : option Z :=
  match s with
  | "" => None
  | String x s => if Ascii.eqb x c then Some at_ else find_char c s (at_ + 1)
  end.

Fixpoint base64_loop (input : string) (val valb : Z) (output : string) : string :=
  match input with
  | "" => output
  | String c input =>
      if isspace c then base64_loop input val valb output
      else if Ascii.eqb c "=" then output
      else
        match find_char c b64_alphabet 0 with
        | None => ""
        | Some pos =>
            let val := Z.lor (u32 (Z.shiftl val 6)) pos in
            let valb := valb + 6 in
            if valb >=? 0
            then base64_loop input val (valb - 8) (output ++ String (chr (Z.land (Z.shiftr val valb) 255)) "")
            else base64_loop input val valb output
        end
  end.

Definition base64_decode (input : string) : string := base64_loop input 0 (-8) "".

(** The byte of [s] at [i], 0 beyond the end. *)
Definition byte_at (s : string) (i : nat) : Z := match String.get i s with Some c => code c | None => 0 end.

Definition constant_time_equal (a b : string) : bool :=
  let max_len := Nat.max (String.length a) (String.length b) in
  let diff := u32 (Z.lxor (Z.of_nat (String.length a)) (Z.of_nat (String.length b))) in
  foldl (fun diff i => Z.lor diff (Z.lxor (byte_at a i) (byte_at b i))) diff (seq 0 max_len) =? 0.

(** ** Requests *)

Record HttpRequest : Type := mkRequest {
  rq_method : string; rq_path : string; rq_headers : gmap string string }.

Definition crlf2 : string := crlf ++ crlf.

(** [if (!line.empty() && line.back() == '\r') line.pop_back();] *)
Fixpoint pop_cr (line : string) : string :=
  match line with
  | "" => ""
  | String c rest => if (code c =? 13) && is_empty rest then "" else String c (pop_cr rest)
  end.

(** The next word of a stream ([>>]): it and the rest, [None] without one. *)
Fixpoint take_word (s : string) : string * string :=
  match s with
  | "" => ("", "")
  | String c rest => if isspace c then ("", s) else let '(w, r) := take_word rest in (String c w, r)
  end.
Definition read_word (s : string) : option (string * string) :=
  match skip_space s with "" => None | s => Some (take_word s) end.

(** Method, path and version of the request line. *)
Definition parse_request_line (line : string) : option (string * string * string) :=
  match read_word line with
  | Some (method, r) =>
      match read_word r with
      | Some (path, r) => match read_word r with Some (version, _) => Some (method, path, version) | None => None end
      | None => None
      end
  | None => None
  end.

Fixpoint lower_text (s : string) : string :=
  match s with "" => "" | String c s => String (tolower c) (lower_text s) end.

(** One header line; a line without a colon is skipped. *)
Definition add_header (line : string) (headers : gmap string string) : gmap string string :=
  match until ":" line with
  | None => headers
  | Some (key, value) => <[lower_text key := skip_space value]> headers
  end.

Fixpoint header_loop (fuel : nat) (s : string) (headers : gmap string string) : gmap string string :=
  match fuel with
  | O => headers
  | S fuel =>
      match getline s with
      | None => headers
      | Some (line, s) =>
          let line := pop_cr line in
          if is_empty line then headers else header_loop fuel s (add_header line headers)
      end
  end.

Definition parse_request (buffer : string) : option HttpRequest :=
  if negb (strstr buffer crlf2) then None
  else
    match getline buffer with
    | None => None
    | Some (line, s) =>
        match parse_request_line (pop_cr line) with
        | None => None
        | Some (method, path, version) =>
            if negb (String.prefix "HTTP/" version) then None
            else Some (mkRequest method path (header_loop (S (String.length s)) s ∅))
        end
    end.

Definition authorized (config : ExporterConfig) (request : HttpRequest) : bool :=
  let auth := ec_auth config in
  if negb (au_enabled auth) then true
  else
    match rq_headers request !! "authorization" with
    | None => false
    | Some value =>
        if Nat.leb (String.length value) (String.length "Basic ") || negb (String.prefix "Basic " value) then false
        else
          let decoded := base64_decode (String.substring (String.length "Basic ") (String.length value) value) in
          let expected := au_username auth ++ ":" ++ au_password auth in
          constant_time_equal decoded expected
    end.

(** ** Responses *)

Definition build_response (status content_type body : string) (headers : list (string * string)) : string :=
  "HTTP/1.1 " ++ status ++ crlf ++
  "Content-Type: " ++ content_type ++ crlf ++
  "Content-Length: " ++ decimal (Z.of_nat (String.length body)) ++ crlf ++
  "Cache-Control: no-cache" ++ crlf ++
  concat_text (fun h => h.1 ++ ": " ++ h.2 ++ crlf) headers ++
  "Connection: close" ++ crlf2 ++ body.

(** ** State *)

Record cstate : Type := mkCstate {
  c_metrics : mstate;
  c_config : ExporterConfig;
  c_running : bool;              (** [running_] *)
  c_ssl_ctx : bool;              (** [use_tls_ && ssl_ctx_] *)
  c_calls : nat;
  c_out : string;                (** bytes the peer was sent *)
  c_ssl_live : nat;              (** TLS objects allocated and not freed *)
}.
#[export] Instance eta_cstate : Eta cstate := fun s =>
  mkCstate (c_metrics s) (c_config s) (c_running s) (c_ssl_ctx s) (c_calls s) (c_out s) (c_ssl_live s).

Abbreviation CM := (ST cstate).

Class HttpEnv : Type := mkHttpEnv {
  hx_recv : nat -> string;       (** bytes waiting; none for an error or the end *)
  hx_send : nat -> Z;            (** [send]/[SSL_write] *)
  hx_steady : nat -> Z;          (** [steady_clock::now()] *)
  hx_ssl_new : nat -> bool;
  hx_ssl_accept : nat -> Z;
}.

Definition cext {A} (f : nat -> A) : CM A := fun s => (f (c_calls s), s <| c_calls ::= S |>).
Definition cm {A} (m : MM A) : CM A := fun s => let '(a, x) := m (c_metrics s) in (a, s <| c_metrics := x |>).

Section http.
Context `{EV : Env} `{DE : DiagEnv} `{HX : HttpEnv}.

(** ** Input and output *)

(** [None]: out of fuel. *)
Fixpoint read_loop (fuel : nat) (buffer : string) : CM (option string) :=
  if strstr buffer crlf2 || Nat.ltb kMaxRequestBytes (String.length buffer) then ret (Some buffer)
  else
    match fuel with
    | O => ret None
    | S fuel =>
        bytes <- cext hx_recv ;;
        let chunk := String.substring 0 kChunkBytes bytes in
        if is_empty chunk then ret (Some buffer) else read_loop fuel (buffer ++ chunk)
    end.

Definition read_request_payload : CM (option string) :=
  r <- read_loop (S kMaxRequestBytes) "" ;;
  ret (match r with
       | Some buffer => Some (if Nat.ltb kMaxRequestBytes (String.length buffer) then "" else buffer)
       | None => None
       end).

(** [fuel] bounds the bytes left. *)
Fixpoint send_loop (fuel : nat) (data : string) : CM bool :=
  match fuel with
  | O => ret true
  | S fuel =>
      if is_empty data then ret true
      else
        let chunk := Z.min (Z.of_nat (String.length data)) INT_MAX in
        answer <- cext hx_send ;;
        let sent := Z.min answer chunk in
        if sent <=? 0 then ret false
        else
          modify (fun s => s <| c_out ::= fun out => out ++ String.substring 0 (Z.to_nat sent) data |>) ;;;
          send_loop fuel (String.substring (Z.to_nat sent) (String.length data) data)
  end.

Definition send_payload (payload : string) : CM bool := send_loop (String.length payload) payload.

(** ** Health *)

Definition health_ok : CM bool := gets c_running.

Definition recent (now updated : Z) : bool :=
  (updated <>? 0) && (now >=? updated) && (now - updated <=? 5 * NS_PER_S).

Definition readiness_ok : CM (exn + bool) :=
  controller <-! cm (mt controller_snapshot) ;;
  fusion <-! cm (mt fusion_snapshot) ;;
  perf <-! cm (mt perf_snapshot) ;;
  now <-! fine (cext hx_steady) ;;
  let perf_healthy := (ps_mode perf =? 1) && ps_counters_healthy perf in
  ret (inr (recent now (cs_freshness_at controller) && recent now (fs_freshness_at fusion) &&
            recent now (ps_freshness_at perf) && negb (cs_fallback_active controller) &&
            fs_running fusion && negb (fs_degraded fusion) && perf_healthy)).

Definition json_controller (c : ControllerTelemetrySnapshot) : string :=
  "," ++ in_quotes "controller" ++ ":{" ++ in_quotes "fallbackActive" ++ ":" ++ bool_text (cs_fallback_active c) ++
  "," ++ in_quotes "currentWidth" ++ ":" ++ in_quotes (width_to_string (cs_current_width c)) ++
  "," ++ in_quotes "recommendedWidth" ++ ":" ++ in_quotes (width_to_string (cs_recommended_width c)) ++
  "," ++ in_quotes "issuedChange" ++ ":" ++ bool_text (cs_issued_change c) ++
  "," ++ in_quotes "updatedAtSeconds" ++ ":" ++ decimal (to_seconds (cs_updated_at c)) ++ "},".

Definition json_fusion (f : FusionTelemetrySnapshot) : string :=
  in_quotes "fusion" ++ ":{" ++ in_quotes "running" ++ ":" ++ bool_text (fs_running f) ++
  "," ++ in_quotes "degraded" ++ ":" ++ bool_text (fs_degraded f) ++
  "," ++ in_quotes "tempAvailable" ++ ":" ++ bool_text (fs_temp_available f) ++
  "," ++ in_quotes "packageTempC" ++ ":" ++ f64_fixed 2 (fs_package_temp_c f) ++
  "," ++ in_quotes "rawTempAvailable" ++ ":" ++ bool_text (fs_raw_temp_available f) ++
  "," ++ in_quotes "rawPackageTempC" ++ ":" ++ f64_fixed 2 (fs_raw_package_temp_c f) ++
  "," ++ in_quotes "filteredTempAvailable" ++ ":" ++ bool_text (fs_filtered_temp_available f) ++
  "," ++ in_quotes "filteredPackageTempC" ++ ":" ++ f64_fixed 2 (fs_filtered_package_temp_c f) ++
  "," ++ in_quotes "freqAvailable" ++ ":" ++ bool_text (fs_freq_available f) ++
  "," ++ in_quotes "freqRatio" ++ ":" ++ f64_fixed 2 (fs_freq_ratio f) ++
  "," ++ in_quotes "cpiAvailable" ++ ":" ++ bool_text (fs_cpi_available f) ++
  "," ++ in_quotes "thermalCpi" ++ ":" ++ f64_fixed 2 (fs_thermal_cpi f) ++
  "," ++ in_quotes "powerAvailable" ++ ":" ++ bool_text (fs_power_available f) ++
  "," ++ in_quotes "powerBudgetW" ++ ":" ++ f64_fixed 2 (fs_power_budget_w f) ++
  "," ++ in_quotes "updatedAtSeconds" ++ ":" ++ decimal (to_seconds (fs_updated_at f)) ++ "},".

Definition json_perf (p : PerfTelemetrySnapshot) : string :=
  in_quotes "perf" ++ ":{" ++ in_quotes "mode" ++ ":" ++ in_quotes (perf_mode_to_string (ps_mode p)) ++
  "," ++ in_quotes "countersHealthy" ++ ":" ++ bool_text (ps_counters_healthy p) ++
  "," ++ in_quotes "pinnedCpu" ++ ":" ++ decimal (ps_pinned_cpu p) ++
  "," ++ in_quotes "monitorCpu" ++ ":" ++ decimal (ps_monitor_cpu p) ++
  "," ++ in_quotes "updatedAtSeconds" ++ ":" ++ decimal (to_seconds (ps_updated_at p)) ++ "}}".

Definition build_health_json : CM (exn + string) :=
  controller <-! cm (mt controller_snapshot) ;;
  fusion <-! cm (mt fusion_snapshot) ;;
  perf <-! cm (mt perf_snapshot) ;;
  live <-! fine health_ok ;;
  ready <-! readiness_ok ;;
  ret (inr ("{" ++ in_quotes "live" ++ ":" ++ bool_text live ++ "," ++ in_quotes "ready" ++ ":" ++ bool_text ready ++
            json_controller controller ++ json_fusion fusion ++ json_perf perf)).

(** ** One connection *)

(** [None]: out of fuel. *)
Definition respond (status content_type body : string) (headers : list (string * string)) : CM (exn + unit) :=
  send_payload (build_response status content_type body headers) ;;; ret (inr tt).

Definition availability (ok : bool) : string := if ok then "200 OK" else "503 Service Unavailable".

Definition route (request : HttpRequest) : CM (exn + unit) :=
  if String.eqb (rq_path request) "/metrics" then
    body <-! cm build_prometheus ;;
    respond "200 OK" "text/plain; version=0.0.4" body []
  else if String.eqb (rq_path request) "/healthz" then
    ok <-! fine health_ok ;;
    body <-! build_health_json ;;
    respond (availability ok) "application/json" body []
  else if String.eqb (rq_path request) "/readyz" then
    ok <-! readiness_ok ;;
    body <-! build_health_json ;;
    respond (availability ok) "application/json" body []
  else respond "404 Not Found" "text/plain" ("not found" ++ nl) [].

(** What the payload leads to. *)
Definition answer_request (request_payload : string) : CM (exn + unit) :=
  if is_empty request_payload || negb (strstr request_payload crlf2) then
    respond "408 Request Timeout" "text/plain" ("request timeout or too large" ++ nl) []
  else
    match parse_request request_payload with
    | None => respond "400 Bad Request" "text/plain" ("bad request" ++ nl) []
    | Some request =>
        if negb (String.eqb (rq_method request) "GET") then
          respond "405 Method Not Allowed" "text/plain" ("method not allowed" ++ nl) []
        else
          config <-! fine (gets c_config) ;;
          if negb (authorized config request) then
            respond "401 Unauthorized" "text/plain" ("unauthorized" ++ nl)
              [("WWW-Authenticate", "Basic realm=" ++ in_quotes "metrics")]
          else route request
    end.

(** [None]: the read loop is out of fuel. *)
Definition handle_client : CM (option (exn + unit)) :=
  payload <- read_request_payload ;;
  match payload with
  | None => ret None
  | Some request_payload => r <- answer_request request_payload ;; ret (Some r)
  end.

(** An exception leaves [serve_client] before the TLS object is freed. *)
Definition serve_client : CM (option (exn + unit)) :=
  tls <- gets c_ssl_ctx ;;
  if negb tls then handle_client
  else
    made <- cext hx_ssl_new ;;
    if negb made then ret (Some (inr tt))
    else
      modify (fun s => s <| c_ssl_live ::= S |>) ;;;
      accepted <- cext hx_ssl_accept ;;
      if accepted <=? 0 then modify (fun s => s <| c_ssl_live ::= Nat.pred |>) ;;; ret (Some (inr tt))
      else
        r <- handle_client ;;
        match r with
        | Some (inr _) => modify (fun s => s <| c_ssl_live ::= Nat.pred |>) ;;; ret r
        | _ => ret r
        end.
End http.

(** ** Base64

    The encoder of RFC 4648, which clients use. *)

Definition b64_char (n : Z) : ascii := match String.get (Z.to_nat n) b64_alphabet with Some c => c | None => "="%char end.

Fixpoint base64_encode (s : string) : string :=
  match s with
  | "" => ""
  | String x "" => String (b64_char (code x / 4)) (String (b64_char (code x mod 4 * 16)) "==")
  | String x (String y "") =>
      String (b64_char (code x / 4)) (String (b64_char (code x mod 4 * 16 + code y / 16))
        (String (b64_char (code y mod 16 * 4)) "="))
  | String x (String y (String z rest)) =>
      String (b64_char (code x / 4)) (String (b64_char (code x mod 4 * 16 + code y / 16))
        (String (b64_char (code y mod 16 * 4 + code z / 64)) (String (b64_char (code z mod 64))
          (base64_encode rest))))
  end.

Example base64_example : base64_encode "admin:secret" = "YWRtaW46c2VjcmV0" /\ base64_decode "YWRtaW46c2VjcmV0" = "admin:secret".
Proof. vm_compute. by split. Qed.

Lemma b64_char_ok n : 0 <= n < 64 ->
  find_char (b64_char n) b64_alphabet 0 = Some n /\ isspace (b64_char n) = false /\ Ascii.eqb (b64_char n) "=" = false.
Proof.
  intros Hn. assert (H : forallb (fun k => let n := Z.of_nat k in
      bool_decide (find_char (b64_char n) b64_alphabet 0 = Some n) && negb (isspace (b64_char n)) &&
      negb (Ascii.eqb (b64_char n) "=")) (seq 0 64) = true) by by vm_compute.
  rewrite forallb_forall in H. specialize (H (Z.to_nat n)). rewrite Z2Nat.id in H by lia.
  assert (Hin : In (Z.to_nat n) (seq 0 64)) by (apply in_seq; lia).
  apply H in Hin. cbv zeta in Hin. zbool. split_done. by eapply bool_decide_eq_true.
Qed.

(** The accumulator after one more digit. *)
Lemma b64_shift val n : 0 <= val -> 0 <= n < 64 ->
  exists k, Z.lor (u32 (Z.shiftl val 6)) n = 64 * val + n - 4294967296 * k /\ 0 <= Z.lor (u32 (Z.shiftl val 6)) n.
Proof.
  intros Hv Hn. rewrite Z.shiftl_mul_pow2 by lia. change (2 ^ 6) with 64. unfold u32. set (a := val * 64 mod 4294967296).
  assert (Ha : exists k, a = 64 * val - 4294967296 * k).
  { exists (val * 64 / 4294967296). subst a. pose proof (Z.div_mod (val * 64) 4294967296). lia. }
  assert (Hm : 0 <= a) by (apply Z.mod_pos_bound; lia).
  assert (E : Z.lor a n = a + n).
  { rewrite <- Z.lxor_lor, <- Z.add_nocarry_lxor; [done|..];
      apply Z.bits_inj'; intros i Hi; rewrite Z.land_spec, Z.bits_0;
      (destruct (Z_lt_le_dec i 6) as [Hlt|Hge];
       [destruct Ha as [k Ha]; replace a with ((val - 67108864 * k) * 2 ^ 6) by lia;
        by rewrite Z.mul_pow2_bits_low
       |rewrite <- (Z.mod_small n (2 ^ 6)), Z.mod_pow2_bits_high by lia; apply andb_false_r]). }
  rewrite E. destruct Ha as [k Ha]. exists k. lia.
Qed.

Lemma b64_byte val b : 0 <= b -> Z.land (Z.shiftr val b) 255 = (val / 2 ^ b) mod 256.
Proof. intros Hb. change 255 with (Z.ones 8). by rewrite Z.land_ones, Z.shiftr_div_pow2 by lia. Qed.

Lemma b64_digit n input val valb out :
  0 <= val -> 0 <= n < 64 ->
  exists val' k, val' = 64 * val + n - 4294967296 * k /\ 0 <= val' /\
  base64_loop (String (b64_char n) input) val valb out =
    if valb + 6 >=? 0
    then base64_loop input val' (valb - 2) (out ++ String (chr ((val' / 2 ^ (valb + 6)) mod 256)) "")
    else base64_loop input val' (valb + 6) out.
Proof.
  intros Hv Hn. destruct (b64_char_ok n Hn) as (H1 & H2 & H3). destruct (b64_shift val n Hv Hn) as (k & Hk & Hpos).
  exists (Z.lor (u32 (Z.shiftl val 6)) n), k. split; [done|]. split; [done|].
  cbn [base64_loop]. rewrite H2, H3, H1. destruct (valb + 6 >=? 0) eqn:E; [|done]. zbool.
  rewrite b64_byte by lia. by replace (valb + 6 - 8) with (valb - 2) by lia.
Qed.

(** Linear arithmetic with quotients and remainders by constants. *)
Ltac dlia := Z.div_mod_to_equations; lia.

Lemma base64_loop_encode s val out : 0 <= val -> base64_loop (base64_encode s) val (-8) out = out ++ s.
Proof.
  revert val out. induction s as [s IH] using (induction_ltof1 _ String.length). unfold ltof in IH.
  intros val out Hv. destruct s as [|x [|y [|z rest]]]; [by rewrite string_app_nil|..];
    pose proof (code_range x) as Hx; cbn [base64_encode].
  - destruct (b64_digit (code x / 4) (String (b64_char (code x mod 4 * 16)) "==") val (-8) out) as (v1 & k1 & E1 & P1 & ->);
      [done | dlia|]. change (-8 + 6 >=? 0) with false. cbv iota. change (-8 + 6) with (-2).
    destruct (b64_digit (code x mod 4 * 16) "==" v1 (-2) out) as (v2 & k2 & E2 & P2 & ->); [done | dlia|].
    change (-2 + 6 >=? 0) with true. cbv iota. change (base64_loop "==" v2 (-2 - 2) ?o) with o. f_equal. f_equal.
    rewrite <- (chr_code x). f_equal. change (2 ^ (-2 + 6)) with 16. dlia.
  - pose proof (code_range y) as Hy.
    edestruct (b64_digit (code x / 4)) as (v1 & k1 & E1 & P1 & ->); [done | dlia|].
    change (-8 + 6 >=? 0) with false. cbv iota. change (-8 + 6) with (-2).
    edestruct (b64_digit (code x mod 4 * 16 + code y / 16)) as (v2 & k2 & E2 & P2 & ->); [done | dlia|].
    change (-2 + 6 >=? 0) with true. cbv iota. change (-2 - 2) with (-4).
    edestruct (b64_digit (code y mod 16 * 4)) as (v3 & k3 & E3 & P3 & ->); [done | dlia|].
    change (-4 + 6 >=? 0) with true. cbv iota. change (base64_loop "=" v3 (-4 - 2) ?o) with o.
    rewrite string_app_assoc. f_equal. change (2 ^ (-2 + 6)) with 16. change (2 ^ (-4 + 6)) with 4.
    replace ((v2 / 16) mod 256) with (code x) by dlia. replace ((v3 / 4) mod 256) with (code y) by dlia. by rewrite !chr_code.
  - pose proof (code_range y) as Hy. pose proof (code_range z) as Hz.
    edestruct (b64_digit (code x / 4)) as (v1 & k1 & E1 & P1 & ->); [done | dlia|].
    change (-8 + 6 >=? 0) with false. cbv iota. change (-8 + 6) with (-2).
    edestruct (b64_digit (code x mod 4 * 16 + code y / 16)) as (v2 & k2 & E2 & P2 & ->); [done | dlia|].
    change (-2 + 6 >=? 0) with true. cbv iota. change (-2 - 2) with (-4).
    edestruct (b64_digit (code y mod 16 * 4 + code z / 64)) as (v3 & k3 & E3 & P3 & ->); [done | dlia|].
    change (-4 + 6 >=? 0) with true. cbv iota. change (-4 - 2) with (-6).
    edestruct (b64_digit (code z mod 64)) as (v4 & k4 & E4 & P4 & ->); [done | dlia|].
    change (-6 + 6 >=? 0) with true. cbv iota. change (-6 - 2) with (-8).
    rewrite IH; [|cbn; lia|done]. rewrite !string_app_assoc. f_equal.
    change (2 ^ (-2 + 6)) with 16. change (2 ^ (-4 + 6)) with 4. change (2 ^ (-6 + 6)) with 1.
    replace ((v2 / 16) mod 256) with (code x) by dlia. replace ((v3 / 4) mod 256) with (code y) by dlia.
    replace ((v4 / 1) mod 256) with (code z) by dlia. by rewrite !chr_code.
Qed.

Lemma base64_roundtrip s : base64_decode (base64_encode s) = s.
Proof. unfold base64_decode. by rewrite base64_loop_encode. Qed.

(** ** Comparing credentials *)

Lemma foldl_lor_zero (f : nat -> Z) l d :
  foldl (fun d i => Z.lor d (f i)) d l = 0 <-> d = 0 /\ (forall i, In i l -> f i = 0).
Proof.
  revert d. induction l as [|i l IH]; intros d; cbn; [naive_solver|].
  rewrite IH, Z.lor_eq_0_iff. naive_solver.
Qed.

Lemma u32_lxor_zero a b : 0 <= a < 4294967296 -> 0 <= b < 4294967296 -> u32 (Z.lxor a b) = 0 -> a = b.
Proof.
  intros Ha Hb H. apply Z.lxor_eq_0_iff. apply Z.bits_inj'. intros i Hi. rewrite Z.bits_0.
  destruct (Z_lt_le_dec i 32) as [Hlt|Hge].
  - apply (f_equal (fun z => Z.testbit z i)) in H. unfold u32 in H. change 4294967296 with (2 ^ 32) in H.
    by rewrite Z.mod_pow2_bits_low, Z.bits_0 in H by lia.
  - change 4294967296 with (2 ^ 32) in *. rewrite Z.lxor_spec.
    rewrite <- (Z.mod_small a (2 ^ 32)), <- (Z.mod_small b (2 ^ 32)) by lia.
    by rewrite !Z.mod_pow2_bits_high by lia.
Qed.

Lemma strings_by_bytes a b :
  String.length a = String.length b -> (forall i, (i < String.length a)%nat -> byte_at a i = byte_at b i) -> a = b.
Proof.
  revert b. induction a as [|x a IH]; intros [|y b] Hl H; try done. f_equal.
  - apply code_inj. apply (H 0%nat). cbn. lia.
  - apply IH; [by injection Hl|]. intros i Hi. apply (H (S i)). cbn. lia.
Qed.

Definition size_ok (s : string) : Prop := Z.of_nat (String.length s) < 4294967296.

(** The comparison is equality, for strings shorter than the 32 bits the length
    difference is kept in. *)
Lemma constant_time_equal_spec a b : size_ok a -> size_ok b -> constant_time_equal a b = true <-> a = b.
Proof.
  unfold size_ok, constant_time_equal. intros Ha Hb. rewrite Z.eqb_eq, foldl_lor_zero. split.
  - intros [Hl H]. apply u32_lxor_zero in Hl; [|lia..]. apply strings_by_bytes; [lia|].
    intros i Hi. apply Z.lxor_eq_0_iff, H, in_seq. lia.
  - intros ->. split; [by rewrite Z.lxor_nilpotent|]. intros i _. apply Z.lxor_nilpotent.
Qed.

(** *** The decoder does not grow its input *)

Lemma base64_loop_length input val valb out :
  -8 <= valb < 0 ->
  8 * Z.of_nat (String.length (base64_loop input val valb out)) <=
    8 * Z.of_nat (String.length out) + 6 * Z.of_nat (String.length input) + valb + 8.
Proof.
  revert val valb out. induction input as [|c input IH]; intros val valb out Hb; [cbn [base64_loop String.length]; lia|].
  cbn [base64_loop]. change (String.length (String c input)) with (S (String.length input)).
  destruct (isspace c); [specialize (IH val valb out Hb); lia|].
  destruct (Ascii.eqb c "="); [lia|].
  destruct (find_char c b64_alphabet 0) as [pos|]; [|cbn [String.length]; lia]. cbv zeta.
  destruct (valb + 6 >=? 0) eqn:E; zbool.
  - match goal with |- context [base64_loop input ?v ?b ?o] => specialize (IH v b o) end.
    rewrite string_length_app in IH. cbn [String.length] in IH. lia.
  - match goal with |- context [base64_loop input ?v ?b ?o] => specialize (IH v b o) end. lia.
Qed.

Lemma base64_decode_length input : (String.length (base64_decode input) <= String.length input)%nat.
Proof. pose proof (base64_loop_length input 0 (-8) ""). unfold base64_decode. cbn [String.length] in *. lia. Qed.

(** ** Who is authorized *)

(** The header carries the configured credentials. *)
Definition has_credentials (auth : ExporterBasicAuth) (request : HttpRequest) : Prop :=
  exists token, rq_headers request !! "authorization" = Some ("Basic " ++ token) /\ token <> "" /\
    base64_decode token = au_username auth ++ ":" ++ au_password auth.

Lemma prefix_split p s : String.prefix p s = true -> exists r, s = p ++ r.
Proof.
  revert s. induction p as [|c p IH]; intros s H; [by exists s|].
  destruct s as [|d s]; [done|]. cbn in H. destruct (ascii_dec c d) as [->|]; [|done].
  destruct (IH s H) as [r ->]. by exists r.
Qed.

Lemma prefix_app p r : String.prefix p (p ++ r) = true.
Proof. induction p as [|c p IH]; [by destruct r|]. cbn. by destruct (ascii_dec c c). Qed.

Lemma substring_whole s n : (String.length s <= n)%nat -> String.substring 0 n s = s.
Proof. revert n. induction s as [|c s IH]; intros [|n] H; cbn in *; try done; try lia. rewrite IH; [done | lia]. Qed.

Lemma substring_skip p s n : String.substring (String.length p) n (p ++ s) = String.substring 0 n s.
Proof. induction p as [|c p IH]; [done|]. exact IH. Qed.

Lemma authorized_spec config request :
  size_ok (au_username (ec_auth config) ++ ":" ++ au_password (ec_auth config)) ->
  (forall v, rq_headers request !! "authorization" = Some v -> size_ok v) ->
  authorized config request = true <->
  (au_enabled (ec_auth config) = true -> has_credentials (ec_auth config) request).
Proof.
  intros Hc Hv. unfold authorized, has_credentials. destruct (au_enabled (ec_auth config)); cbn [negb]; [|naive_solver].
  destruct (rq_headers request !! "authorization") as [value|]; [|naive_solver].
  specialize (Hv value eq_refl). change (String.length "Basic ") with 6%nat.
  destruct (String.prefix "Basic " value) eqn:Ep; cbn [negb].
  - apply prefix_split in Ep as [token ->].
    change (String.length ("Basic " ++ token)) with (6 + String.length token)%nat.
    change 6%nat with (String.length "Basic ") at 3. rewrite substring_skip, substring_whole by lia.
    assert (Hd : size_ok (base64_decode token)).
    { pose proof (base64_decode_length token). unfold size_ok in *.
      change (String.length ("Basic " ++ token)) with (6 + String.length token)%nat in Hv. lia. }
    destruct token as [|c token].
    + cbn. split; [done|]. intros H. destruct (H eq_refl) as (t & [= Ht] & Hne & _). by subst t.
    + replace (Nat.leb _ _) with false by (symmetry; apply Nat.leb_gt; cbn; lia). cbn [orb].
      rewrite constant_time_equal_spec by done. split.
      * intros H _. by exists (String c token).
      * intros H. destruct (H eq_refl) as (t & Ht & _ & Hb). by injection Ht as <-.
  - rewrite orb_true_r. split; [done|]. intros H. destruct (H eq_refl) as (t & Ht & _).
    assert (value = "Basic " ++ t) as -> by congruence. by rewrite prefix_app in Ep.
Qed.

(** A client that encodes the configured credentials is authorized. *)
Lemma encoded_credentials_accepted auth request :
  rq_headers request !! "authorization" = Some ("Basic " ++ base64_encode (au_username auth ++ ":" ++ au_password auth)) ->
  has_credentials auth request.
Proof.
  intros H. eexists. split; [exact H|]. rewrite base64_roundtrip. split; [|done].
  destruct (au_username auth ++ ":" ++ au_password auth) as [|x [|y [|z r]]] eqn:E; try done. by destruct (au_username auth).
Qed.

(** ** Reading a request *)

Lemma substring_length n s : (String.length (String.substring 0 n s) <= n)%nat.
Proof. revert n. induction s as [|c s IH]; intros [|n]; cbn; try lia. specialize (IH n). lia. Qed.

Lemma is_empty_spec s : is_empty s = true <-> s = "".
Proof. unfold is_empty. by rewrite String.eqb_eq. Qed.

Lemma nonempty_length s : is_empty s = false -> (1 <= String.length s)%nat.
Proof. destruct s; [done|]. cbn. lia. Qed.

Section reading.
Context `{HX : HttpEnv}.

(** The loop ends, having read at most one buffer beyond the limit. *)
Lemma read_loop_run fuel buffer s :
  (kMaxRequestBytes < String.length buffer + fuel)%nat ->
  (String.length buffer <= kMaxRequestBytes + kChunkBytes)%nat ->
  exists text n, read_loop fuel buffer s = (Some text, s <| c_calls := n |>) /\
    (String.length text <= kMaxRequestBytes + kChunkBytes)%nat.
Proof.
  revert buffer s. induction fuel as [|fuel IH]; intros buffer s Hf Hb; cbn [read_loop].
  - rewrite (proj2 (Nat.ltb_lt _ _)), orb_true_r by lia. exists buffer, (c_calls s). by destruct s.
  - destruct (_ || _) eqn:E; [exists buffer, (c_calls s); by destruct s|].
    apply orb_false_iff in E as [_ E]. apply Nat.ltb_ge in E.
    rewrite bind_run. cbn [cext fst snd]. set (chunk := String.substring 0 kChunkBytes _).
    destruct (is_empty chunk) eqn:Ec; [by exists buffer, (S (c_calls s))|].
    apply nonempty_length in Ec. pose proof (substring_length kChunkBytes (hx_recv (c_calls s))) as Hc. fold chunk in Hc.
    destruct (IH (buffer ++ chunk) (s <| c_calls ::= S |>)) as (text & n & -> & Ht);
      [rewrite string_length_app; lia..|]. by exists text, n.
Qed.

Lemma read_request_run s :
  exists payload n, read_request_payload s = (Some payload, s <| c_calls := n |>) /\
    (String.length payload <= kMaxRequestBytes)%nat.
Proof.
  unfold read_request_payload. rewrite bind_run.
  destruct (read_loop_run (S kMaxRequestBytes) "" s) as (text & n & -> & Ht); [cbn [String.length]; lia..|].
  cbn [fst snd ret]. destruct (Nat.ltb_spec kMaxRequestBytes (String.length text)).
  - exists "", n. split; [done|]. cbn. lia.
  - exists text, n. split; [done | lia].
Qed.

(** The bytes of [n] reads, from call [k] on. *)
Definition received (k n : nat) : string :=
  concat_text (fun i => String.substring 0 kChunkBytes (hx_recv i)) (seq k n).

Lemma read_loop_received fuel buffer s text n :
  read_loop fuel buffer s = (Some text, s <| c_calls := n |>) ->
  exists m, n = (c_calls s + m)%nat /\ (m <= fuel)%nat /\ text = buffer ++ received (c_calls s) m.
Proof.
  revert buffer s. induction fuel as [|fuel IH]; intros buffer s; cbn [read_loop].
  - destruct (_ || _); [|done]. intros E. exists 0%nat. rewrite string_app_nil.
    assert (n = c_calls s) by exact (eq_sym (f_equal (fun r => c_calls r.2) E)).
    assert (text = buffer) by (by injection E). subst. repeat split; lia.
  - destruct (_ || _).
    { intros E. exists 0%nat. rewrite string_app_nil.
      assert (n = c_calls s) by exact (eq_sym (f_equal (fun r => c_calls r.2) E)).
      assert (text = buffer) by (by injection E). subst. repeat split; lia. }
    rewrite bind_run. cbn [cext fst snd]. set (chunk := String.substring 0 kChunkBytes _).
    destruct (is_empty chunk) eqn:Ec.
    + intros E. exists 1%nat. assert (n = S (c_calls s)) by exact (eq_sym (f_equal (fun r => c_calls r.2) E)).
      assert (text = buffer) by (by injection E). subst. split; [lia|]. split; [lia|].
      apply is_empty_spec in Ec. unfold received. cbn [seq concat_text]. fold chunk. by rewrite Ec, !string_app_nil.
    + intros E. destruct (IH (buffer ++ chunk) (s <| c_calls ::= S |>)) as (m & Hn & Hm & Ht); [exact E|].
      exists (S m). cbn in Hn, Ht. split; [lia|]. split; [lia|]. rewrite Ht, string_app_assoc. done.
Qed.

(** Whatever the peer sends and however slowly, reading a request ends after at most 8193 reads of at
    most 512 bytes with a payload of at most 8192 bytes, which is what was received, or nothing when that was more. *)
Theorem request_reading_is_bounded s :
  exists payload n, read_request_payload s = (Some payload, s <| c_calls := (c_calls s + n)%nat |>) /\
    Z.of_nat n <= 8193 /\ Z.of_nat (String.length payload) <= 8192 /\
    (payload = received (c_calls s) n \/
     (payload = "" /\ 8192 < Z.of_nat (String.length (received (c_calls s) n)) <= 8704)).
Proof.
  unfold read_request_payload. rewrite bind_run.
  destruct (read_loop_run (S kMaxRequestBytes) "" s) as (text & n & E & Ht); [cbn [String.length]; lia..|].
  destruct (read_loop_received _ _ _ _ _ E) as (m & -> & Hm & Hx). rewrite E. cbn [fst snd ret].
  change ("" ++ received (c_calls s) m) with (received (c_calls s) m) in Hx. subst text.
  unfold kMaxRequestBytes, kChunkBytes in *.
  destruct (Nat.ltb_spec (Z.to_nat 8192) (String.length (received (c_calls s) m))).
  - exists "", m. split; [done|]. change (String.length "") with 0%nat. split; [lia|]. split; [lia|]. right. split; [done | lia].
  - eexists _, m. split; [done|]. split; [lia|]. split; [lia|]. by left.
Qed.

(** ** Sending *)

Lemma substring_cut n s : (n <= String.length s)%nat ->
  s = String.substring 0 n s ++ String.substring n (String.length s) s /\
  String.length (String.substring n (String.length s) s) = (String.length s - n)%nat.
Proof.
  revert s. induction n as [|n IH]; intros s Hn.
  - rewrite (substring_whole s (String.length s)) by lia. split; [by destruct s | lia].
  - destruct s as [|c s]; [cbn in Hn; lia|].
    assert (Hskip : forall k, String.substring (S n) k (String c s) = String.substring n k s) by done.
    assert (Hlong : forall a m k, (String.length a <= k + m)%nat -> String.substring k m a = String.substring k (String.length a) a).
    { clear. induction a as [|x a IH]; intros m k Hk; [by destruct k, m|].
      destruct k as [|k]; [rewrite !substring_whole by (cbn in *; lia); done|].
      cbn [String.substring String.length] in *. rewrite IH by lia. symmetry. apply IH. lia. }
    rewrite Hskip. cbn [String.length] in Hn. destruct (IH s) as [H1 H2]; [lia|].
    rewrite (Hlong s (String.length (String c s)) n) by (cbn; lia). cbn [String.substring String.length]. split; [|lia].
    change (String c s = String c (String.substring 0 n s ++ String.substring n (String.length s) s)). by f_equal.
Qed.

Lemma send_loop_run fuel data s :
  (String.length data <= fuel)%nat ->
  exists ok n sent rest, send_loop fuel data s = (ok, s <| c_calls := n |> <| c_out := c_out s ++ sent |>) /\
    data = sent ++ rest /\ (ok = true -> rest = "").
Proof.
  revert data s. induction fuel as [|fuel IH]; intros data s Hf; cbn [send_loop].
  - exists true, (c_calls s), "", data. rewrite string_app_nil. split; [by destruct s|]. split; [done|].
    intros _. destruct data; [done|]. cbn in Hf. lia.
  - destruct (is_empty data) eqn:Ed.
    { exists true, (c_calls s), "", data. rewrite string_app_nil. split; [by destruct s|]. split; [done|]. intros _. by apply is_empty_spec. }
    rewrite bind_run. cbn [cext fst snd]. set (chunk := Z.min _ INT_MAX). set (sent := Z.min _ chunk).
    destruct (sent <=? 0) eqn:E; zbool.
    { exists false, (S (c_calls s)), "", data. rewrite string_app_nil. by destruct s. }
    rewrite bind_run. cbn [modify fst snd].
    assert (Hn : (Z.to_nat sent <= String.length data)%nat) by lia. destruct (substring_cut _ _ Hn) as [Hcut Hlen].
    match goal with |- context [send_loop fuel ?d ?t] => destruct (IH d t) as (ok & n & sent' & rest & Er & Hd & Hok) end; [lia|].
    exists ok, n, (String.substring 0 (Z.to_nat sent) data ++ sent'), rest. rewrite Er. split; [|split; [|done]].
    + cbn. by rewrite string_app_assoc.
    + by rewrite string_app_assoc, <- Hd.
Qed.

Lemma respond_run status content_type body headers s :
  exists n sent rest, respond status content_type body headers s = (inr tt, s <| c_calls := n |> <| c_out := c_out s ++ sent |>) /\
    build_response status content_type body headers = sent ++ rest.
Proof.
  unfold respond, send_payload. rewrite bind_run.
  destruct (send_loop_run (String.length (build_response status content_type body headers))
    (build_response status content_type body headers) s) as (ok & n & sent & rest & -> & Hd & _); [done|].
  by exists n, sent, rest.
Qed.
End reading.

(** ** Headers stay within the request *)

Lemma pop_cr_length s : (String.length (pop_cr s) <= String.length s)%nat.
Proof. induction s as [|c s IH]; cbn; [done|]. case_if; cbn; lia. Qed.

Lemma until_length c s a r : until c s = Some (a, r) -> (String.length r <= String.length s)%nat.
Proof.
  revert a. induction s as [|x s IH]; intros a; cbn [until]; [done|].
  destruct (Ascii.eqb x c); [intros [= _ <-]; cbn; lia|].
  destruct (until c s) as [[a' r']|]; intros [= _ <-]. specialize (IH _ eq_refl). cbn. lia.
Qed.

Lemma skip_space_shorter s : (String.length (skip_space s) <= String.length s)%nat.
Proof. induction s as [|c s IH]; cbn; [done|]. case_if; cbn; lia. Qed.

Definition values_within (n : nat) (m : gmap string string) : Prop := map_Forall (fun _ v => (String.length v <= n)%nat) m.

Lemma header_loop_within n fuel s headers :
  (String.length s <= n)%nat -> values_within n headers -> values_within n (header_loop fuel s headers).
Proof.
  revert s headers. induction fuel as [|fuel IH]; intros s headers Hs Hh; cbn [header_loop]; [done|].
  destruct (getline s) as [[l r]|] eqn:E; [|done]. apply getline_length in E as [El Er]. cbv zeta.
  case_if; [done|]. apply IH; [lia|]. unfold add_header.
  destruct (until ":" (pop_cr l)) as [[k v]|] eqn:Eu; [|done]. apply until_length in Eu.
  pose proof (pop_cr_length l). pose proof (skip_space_shorter v). by apply map_Forall_insert_2; [lia|].
Qed.

Lemma parse_request_within buffer rq :
  parse_request buffer = Some rq -> values_within (String.length buffer) (rq_headers rq).
Proof.
  unfold parse_request. case_if; [done|]. destruct (getline buffer) as [[l r]|] eqn:Eg; [|done].
  destruct (parse_request_line _) as [[[m p] v]|]; [|done]. case_if; [done|]. intros E1. assert (rq = mkRequest m p (header_loop (S (String.length r)) r ∅)) as -> by congruence.
  cbn [rq_headers]. apply getline_length in Eg as [_ Er]. by apply header_loop_within; [lia | apply map_Forall_empty].
Qed.

(** ** What strangers see *)

Definition response_408 : string := build_response "408 Request Timeout" "text/plain" ("request timeout or too large" ++ nl) [].
Definition response_400 : string := build_response "400 Bad Request" "text/plain" ("bad request" ++ nl) [].
Definition response_405 : string := build_response "405 Method Not Allowed" "text/plain" ("method not allowed" ++ nl) [].
Definition response_401 : string :=
  build_response "401 Unauthorized" "text/plain" ("unauthorized" ++ nl)
    [("WWW-Authenticate", "Basic realm=" ++ in_quotes "metrics")].
Definition refusals : list string := [response_408; response_400; response_405; response_401].

Section gate.
Context `{EV : Env} `{DE : DiagEnv} `{HX : HttpEnv}.

Lemma refusal_run status content_type body headers s :
  In (build_response status content_type body headers) refusals ->
  exists s', respond status content_type body headers s = (inr tt, s') /\
    exists sent rest, In (sent ++ rest) refusals /\ c_out s' = c_out s ++ sent.
Proof.
  intros Hin. destruct (respond_run status content_type body headers s) as (n & sent & rest & E & Hb).
  eexists. split; [exact E|]. exists sent, rest. by rewrite <- Hb.
Qed.

(** C30 (safety). With basic authentication enabled every connection is answered, and either its request is a GET with
    the configured credentials, or the peer is sent (a prefix of) one of four fixed refusals: nothing that depends on
    the recorded metrics or on the published telemetry. *)
Theorem strangers_learn_nothing s :
  au_enabled (ec_auth (c_config s)) = true ->
  size_ok (au_username (ec_auth (c_config s)) ++ ":" ++ au_password (ec_auth (c_config s))) ->
  exists payload r s', (read_request_payload s).1 = Some payload /\ handle_client s = (Some r, s') /\
    ((exists rq, parse_request payload = Some rq /\ rq_method rq = "GET" /\ has_credentials (ec_auth (c_config s)) rq) \/
     (r = inr tt /\ exists sent rest, In (sent ++ rest) refusals /\ c_out s' = c_out s ++ sent)).
Proof.
  intros Hon Hsz. unfold handle_client. rewrite bind_run.
  destruct (read_request_run s) as (payload & n & -> & Hlen). cbn [fst snd].
  exists payload. set (s1 := s <| c_calls := n |>). rewrite bind_run. unfold answer_request.
  destruct (is_empty payload || negb (strstr payload crlf2)).
  { destruct (refusal_run "408 Request Timeout" "text/plain" ("request timeout or too large" ++ nl) [] s1) as (s' & -> & H);
      [by left|]. exists (inr tt), s'. split_done. by right. }
  destruct (parse_request payload) as [rq|] eqn:Ep.
  2:{ destruct (refusal_run "400 Bad Request" "text/plain" ("bad request" ++ nl) [] s1) as (s' & -> & H);
      [by right; left|]. exists (inr tt), s'. split_done. by right. }
  destruct (String.eqb_spec (rq_method rq) "GET") as [Em|_]; cbn [negb].
  2:{ destruct (refusal_run "405 Method Not Allowed" "text/plain" ("method not allowed" ++ nl) [] s1) as (s' & -> & H);
      [by do 2 right; left|]. exists (inr tt), s'. split_done. by right. }
  unfold bind_exn, fine. rewrite !bind_run. cbn [gets fst snd ret].
  destruct (authorized (c_config s) rq) eqn:Ea; cbn [negb].
  - assert (Hvals : forall v, rq_headers rq !! "authorization" = Some v -> size_ok v).
    { intros v Hv. pose proof (parse_request_within payload rq Ep "authorization" v Hv) as Hw. cbv beta in Hw.
      unfold size_ok. unfold kMaxRequestBytes in Hlen. lia. }
    pose proof (proj1 (authorized_spec (c_config s) rq Hsz Hvals) Ea Hon) as Hcred.
    eexists _, _. split; [done|]. split; [done|]. left. by exists rq.
  - destruct (refusal_run "401 Unauthorized" "text/plain" ("unauthorized" ++ nl)
      [("WWW-Authenticate", "Basic realm=" ++ in_quotes "metrics")] s1) as (s' & E & H); [by do 3 right; left|].
    change (c_config s1) with (c_config s). rewrite Ea. cbn [negb]. rewrite E. exists (inr tt), s'. split_done. by right.
Qed.
End gate.

(** ** Framing of responses

    A reader of responses: the head is what precedes the first empty line; its
    [Content-Length] gives the size of the body. *)

Fixpoint split_head (s : string) : option (string * string) :=
  match s with
  | "" => None
  | String c rest =>
      if String.prefix crlf2 s then Some ("", String.substring 4 (String.length s) s)
      else option_map (fun '(h, b) => (String c h, b)) (split_head rest)
  end.

Abbreviation no_cr := (all_chars (not_code 13)).

Lemma split_head_text a s : no_cr a = true -> split_head (a ++ s) = option_map (fun '(h, b) => (a ++ h, b)) (split_head s).
Proof.
  induction a as [|c a IH]; intros H.
  - change ("" ++ s) with s. by destruct (split_head s) as [[h b]|].
  - cbn [all_chars] in H. apply andb_true_iff in H as [Hc Ha]. change (String c a ++ s) with (String c (a ++ s)). cbn [split_head].
    replace (String.prefix crlf2 (String c (a ++ s))) with false.
    + rewrite IH by done. by destruct (split_head s) as [[h b]|].
    + unfold crlf2, crlf. cbn [String.append String.prefix]. destruct (ascii_dec (chr 13) c) as [<-|]; [done|done].
Qed.

Lemma split_head_line c s :
  not_code 13 c = true ->
  split_head (crlf ++ String c s) = option_map (fun '(h, b) => (crlf ++ h, b)) (split_head (String c s)).
Proof.
  intros Hc. unfold crlf, nl. cbn [String.append]. cbn [split_head].
  replace (String.prefix crlf2 (String (chr 13) (String (chr 10) (String c s)))) with false.
  - replace (String.prefix crlf2 (String (chr 10) (String c s))) with false by done.
    by destruct (if String.prefix _ _ then _ else _) as [[h b]|].
  - unfold crlf2, crlf, nl. cbn [String.append String.prefix].
    destruct (ascii_dec (chr 13) (chr 13)); [|done]. destruct (ascii_dec (chr 10) (chr 10)); [|done].
    destruct (ascii_dec (chr 13) c) as [<-|]; done.
Qed.

Lemma split_head_end body : split_head (crlf2 ++ body) = Some ("", body).
Proof.
  unfold crlf2, crlf, nl. cbn [String.append split_head].
  replace (String.prefix _ _) with true by by (destruct body; vm_compute).
  do 2 f_equal. change (String.substring 0 (S (S (S (S (String.length body))))) body = body). apply substring_whole. lia.
Qed.

(** A header line of the exporter. *)
Definition header_text (h : string * string) : string := h.1 ++ ": " ++ h.2 ++ crlf.
Definition header_ok (h : string * string) : bool :=
  no_cr h.1 && no_cr h.2 && match h.1 with String _ _ => true | "" => false end.

(** The head of a response. *)
Definition response_head (status content_type : string) (size : Z) (headers : list (string * string)) : string :=
  "HTTP/1.1 " ++ status ++ crlf ++ "Content-Type: " ++ content_type ++ crlf ++ "Content-Length: " ++ decimal size ++ crlf ++
  "Cache-Control: no-cache" ++ crlf ++ concat_text header_text headers ++ "Connection: close".

Lemma split_head_headers headers tail_ h b :
  forallb header_ok headers = true ->
  split_head ("Connection: close" ++ tail_) = Some (h, b) ->
  split_head (crlf ++ concat_text header_text headers ++ "Connection: close" ++ tail_) =
    Some (crlf ++ concat_text header_text headers ++ h, b).
Proof.
  intros Hh Ht. induction headers as [|[k v] headers IH]; cbn [concat_text].
  - change ("" ++ ?x) with x. change ("Connection: close" ++ tail_) with (String "C" ("onnection: close" ++ tail_)).
    rewrite split_head_line by done. change (String "C" ("onnection: close" ++ tail_)) with ("Connection: close" ++ tail_).
    by rewrite Ht.
  - cbn [forallb] in Hh. apply andb_true_iff in Hh as [H1 Hh]. unfold header_ok in H1. cbn [fst snd] in H1.
    destruct k as [|c k]; [by rewrite !andb_false_r in H1|]. zbool. cbn [all_chars] in H. apply andb_true_iff in H as [Hc Hk].
    rewrite string_app_assoc. change (header_text (String c k, v)) with (String c k ++ ": " ++ v ++ crlf). rewrite !string_app_assoc.
    change (String c k ++ ?x) with (String c (k ++ x)). rewrite split_head_line by done.
    change (String c (k ++ ?x)) with (String c k ++ x).
    rewrite split_head_text by (cbn [all_chars]; by rewrite Hc, Hk).
    rewrite (split_head_text ": ") by done. rewrite (split_head_text v) by done. rewrite IH by done.
    cbn [option_map]. by rewrite ?string_app_assoc.
Qed.

Lemma decimal_no_cr n : no_cr (decimal n) = true.
Proof.
  eapply all_chars_mono; [|apply num_plain, decimal_num]. unfold plain_char. intros c Hc.
  by apply andb_true_iff in Hc as [_ ?].
Qed.

(** A reader that splits a response at its first empty line gets exactly the head the exporter
    meant and exactly the body, whatever bytes the body holds, and the announced length reads back as its size. *)
Theorem response_frames_body status content_type body headers :
  no_cr status = true -> no_cr content_type = true -> forallb header_ok headers = true ->
  Z.of_nat (String.length body) <= LONG_MAX ->
  split_head (build_response status content_type body headers) =
    Some (response_head status content_type (Z.of_nat (String.length body)) headers, body) /\
  strtol (decimal (Z.of_nat (String.length body))) = mkStrto (Z.of_nat (String.length body)) 0 (Some "").
Proof.
  intros Hs Ht Hh Hlen. split; [|apply strtol_decimal; unfold_int; lia].
  assert (Hend : split_head ("Connection: close" ++ crlf2 ++ body) = Some ("Connection: close", body)).
  { rewrite split_head_text, split_head_end by done. by rewrite <- (string_app_nil "Connection: close"). }
  pose proof (split_head_headers headers _ _ _ Hh Hend) as Hhead.
  unfold build_response, response_head.
  rewrite (split_head_text "HTTP/1.1 ") by done. rewrite (split_head_text status) by done.
  change ("Content-Type: " ++ ?x) with (String "C" ("ontent-Type: " ++ x)). rewrite split_head_line by done.
  change (String "C" ("ontent-Type: " ++ ?x)) with ("Content-Type: " ++ x).
  rewrite (split_head_text "Content-Type: ") by done. rewrite (split_head_text content_type) by done.
  change ("Content-Length: " ++ ?x) with (String "C" ("ontent-Length: " ++ x)). rewrite split_head_line by done.
  change (String "C" ("ontent-Length: " ++ ?x)) with ("Content-Length: " ++ x).
  rewrite (split_head_text "Content-Length: ") by done. rewrite (split_head_text (decimal _)) by apply decimal_no_cr.
  change ("Cache-Control: no-cache" ++ ?x) with (String "C" ("ache-Control: no-cache" ++ x)). rewrite split_head_line by done.
  change (String "C" ("ache-Control: no-cache" ++ ?x)) with ("Cache-Control: no-cache" ++ x).
  rewrite (split_head_text "Cache-Control: no-cache") by done.
  change (concat_text _ headers) with (concat_text header_text headers).
  rewrite Hhead. done.
Qed.

(** ** Requests as clients write them *)

Definition render_request (method path : string) (headers : list (string * string)) : string :=
  method ++ " " ++ path ++ " HTTP/1.1" ++ crlf ++ concat_text header_text headers ++ crlf.

Definition word_ok (w : string) : bool := all_chars (fun c => negb (isspace c)) w && negb (is_empty w).

(** A field name has no colon, line feed or carriage return and is not empty; a
    value has no line feed or carriage return and does not start with a space. *)
Definition field_ok (h : string * string) : bool :=
  all_chars (fun c => negb (Ascii.eqb c ":") && not_code 10 c) h.1 && negb (is_empty h.1) &&
  all_chars (fun c => not_code 10 c && not_code 13 c) h.2 && String.eqb (skip_space h.2) h.2.

Definition fields (headers : list (string * string)) (m : gmap string string) : gmap string string :=
  foldl (fun m h => <[lower_text h.1 := h.2]> m) m headers.

Lemma pop_cr_app a : pop_cr (a ++ String (chr 13) "") = a.
Proof.
  induction a as [|c a IH]; [done|]. change (String c a ++ ?x) with (String c (a ++ x)). cbn [pop_cr]. rewrite IH.
  replace (is_empty (a ++ String (chr 13) "")) with false by by destruct a. by rewrite andb_false_r.
Qed.

Lemma take_word_app w c r :
  all_chars (fun c => negb (isspace c)) w = true -> isspace c = true -> take_word (w ++ String c r) = (w, String c r).
Proof.
  intros H Hc. induction w as [|x w IH]; [cbn; by rewrite Hc|]. cbn [all_chars] in H. apply andb_true_iff in H as [Hx Hw].
  change (String x w ++ ?y) with (String x (w ++ y)). cbn [take_word]. apply negb_true_iff in Hx. by rewrite Hx, IH.
Qed.

Lemma read_word_app w c r : word_ok w = true -> isspace c = true -> read_word (w ++ String c r) = Some (w, String c r).
Proof.
  unfold word_ok, read_word. intros H Hc. apply andb_true_iff in H as [Hw Hne]. destruct w as [|x w]; [done|].
  assert (Hs : skip_space (String x w ++ String c r) = String x w ++ String c r).
  { cbn [all_chars] in Hw. apply andb_true_iff in Hw as [Hx _]. apply negb_true_iff in Hx. cbn. by rewrite Hx. }
  rewrite Hs. rewrite <- take_word_app by done. done.
Qed.

Lemma request_line_ok method path :
  word_ok method = true -> word_ok path = true ->
  parse_request_line (method ++ " " ++ path ++ " HTTP/1.1") = Some (method, path, "HTTP/1.1").
Proof.
  intros Hm Hp. unfold parse_request_line. change (" " ++ path ++ " HTTP/1.1") with (String " " (path ++ String " " "HTTP/1.1")).
  rewrite read_word_app by done.
  replace (read_word (String " " (path ++ String " " "HTTP/1.1"))) with (read_word (path ++ String " " "HTTP/1.1")) by done.
  by rewrite read_word_app.
Qed.

Lemma header_line_read k v r :
  field_ok (k, v) = true ->
  exists line, getline (header_text (k, v) ++ r) = Some (line, r) /\ pop_cr line = k ++ ": " ++ v /\
    is_empty (k ++ ": " ++ v) = false /\ forall m, add_header (k ++ ": " ++ v) m = <[lower_text k := v]> m.
Proof.
  unfold field_ok. cbn [fst snd]. intros H. apply andb_true_iff in H as [H Hsk]. apply andb_true_iff in H as [H Hv].
  apply andb_true_iff in H as [Hk Hne]. exists ((k ++ ": " ++ v) ++ String (chr 13) "").
  assert (E : header_text (k, v) ++ r = ((k ++ ": " ++ v) ++ String (chr 13) "") ++ nl ++ r).
  { unfold header_text. cbn [fst snd]. rewrite !string_app_assoc. done. }
  rewrite E, getline_app.
  - split; [done|]. split; [apply pop_cr_app|]. split; [by destruct k|]. intros m. unfold add_header.
    change (": " ++ v) with (String ":" (String " " v)). rewrite until_app.
    + apply String.eqb_eq in Hsk. f_equal. rewrite <- Hsk at 2. done.
    + eapply all_chars_mono; [|exact Hk]. intros c Hc. by apply andb_true_iff in Hc as [? _].
  - rewrite !all_chars_app. apply andb_true_iff; split; [|done]. apply andb_true_iff; split; [|apply andb_true_iff; split; [done|]].
    + eapply all_chars_mono; [|exact Hk]. intros c Hc. by apply andb_true_iff in Hc as [_ ?].
    + eapply all_chars_mono; [|exact Hv]. intros c Hc. by apply andb_true_iff in Hc as [? _].
Qed.

Lemma header_loop_fields fuel headers m :
  (List.length headers < fuel)%nat -> forallb field_ok headers = true ->
  header_loop fuel (concat_text header_text headers ++ crlf) m = fields headers m.
Proof.
  revert fuel m. induction headers as [|[k v] headers IH]; intros fuel m Hf Hh;
    (destruct fuel as [|fuel]; [cbn in Hf; lia|]); [done|].
  cbn [forallb] in Hh. apply andb_true_iff in Hh as [Hkv Hh]. cbn [concat_text]. rewrite string_app_assoc.
  destruct (header_line_read k v (concat_text header_text headers ++ crlf) Hkv) as (line & Hg & Hp & He & Ha).
  cbn [header_loop]. rewrite Hg. cbv zeta. rewrite Hp, He, Ha. apply IH; [cbn in Hf; lia | done].
Qed.

Lemma strstr_suffix a n : strstr (a ++ n) n = true.
Proof.
  assert (Hp : String.prefix n n = true) by (rewrite <- (string_app_nil n) at 2; apply prefix_app).
  induction a as [|c a IH]; [change ("" ++ n) with n; destruct n; cbn [strstr]; by rewrite Hp|].
  change (String c a ++ n) with (String c (a ++ n)). cbn [strstr]. by rewrite IH, orb_true_r.
Qed.

Lemma headers_end headers : exists a, crlf ++ concat_text header_text headers ++ crlf = a ++ crlf2.
Proof.
  induction headers as [|h headers [a IH]]; [by exists ""|]. exists (crlf ++ (h.1 ++ ": " ++ h.2) ++ a).
  cbn [concat_text]. unfold header_text at 1. rewrite !string_app_assoc, <- IH. done.
Qed.

Lemma concat_length headers : (List.length headers <= String.length (concat_text header_text headers))%nat.
Proof.
  induction headers as [|h headers IH]; [done|]. cbn [concat_text List.length]. rewrite string_length_app.
  unfold header_text at 1. rewrite !string_length_app. change (String.length ": ") with 2%nat. lia.
Qed.

(** A request written with any method, path and header fields of the usual form is parsed into
    exactly that method and path and the map of those fields, names in lower case, the last of equal names winning. *)
Theorem request_parses_back method path headers :
  word_ok method = true -> word_ok path = true -> forallb field_ok headers = true ->
  parse_request (render_request method path headers) = Some (mkRequest method path (fields headers ∅)).
Proof.
  intros Hm Hp Hh. unfold parse_request, render_request. destruct (headers_end headers) as [a Ha].
  assert (Hin : strstr (method ++ " " ++ path ++ " HTTP/1.1" ++ crlf ++ concat_text header_text headers ++ crlf) crlf2 = true).
  { rewrite Ha. rewrite <- !string_app_assoc. apply strstr_suffix. }
  rewrite Hin. cbn [negb].
  assert (E : method ++ " " ++ path ++ " HTTP/1.1" ++ crlf ++ concat_text header_text headers ++ crlf =
              ((method ++ " " ++ path ++ " HTTP/1.1") ++ String (chr 13) "") ++ nl ++ (concat_text header_text headers ++ crlf)).
  { rewrite !string_app_assoc. done. }
  assert (Hone : forall w, word_ok w = true -> one_line w = true).
  { intros w Hw. apply andb_true_iff in Hw as [Hw _]. eapply all_chars_mono; [|exact Hw].
    intros c Hc. unfold not_code. apply negb_true_iff, Z.eqb_neq. intros E10. unfold isspace in Hc. by rewrite E10 in Hc. }
  rewrite E, getline_app by (rewrite !all_chars_app, (Hone method), (Hone path); done).
  rewrite pop_cr_app, request_line_ok by done. change (String.prefix "HTTP/" "HTTP/1.1") with true. cbn [negb].
  do 2 f_equal. apply header_loop_fields; [|done]. rewrite string_length_app. pose proof (concat_length headers). lia.
Qed.

(** ** A scrape with credentials *)

Lemma b64_char_plain n : 0 <= n < 64 -> plain_char (b64_char n) = true.
Proof.
  intros Hn. assert (H : forallb (fun k => plain_char (b64_char (Z.of_nat k))) (seq 0 64) = true) by by vm_compute.
  rewrite forallb_forall in H. specialize (H (Z.to_nat n)). rewrite Z2Nat.id in H by lia. apply H, in_seq. lia.
Qed.

Lemma base64_plain s : all_chars plain_char (base64_encode s) = true.
Proof.
  induction s as [s IH] using (induction_ltof1 _ String.length). unfold ltof in IH.
  destruct s as [|x [|y [|z rest]]]; [done|..]; pose proof (code_range x); cbn [base64_encode all_chars];
    try pose proof (code_range y); try pose proof (code_range z);
    rewrite !b64_char_plain by dlia; [done | done |]. apply IH. cbn. lia.
Qed.

(** The request of a client with these credentials. *)
Definition scrape_request (auth : ExporterBasicAuth) (path : string) : string :=
  render_request "GET" path
    [("Host", "localhost"); ("Authorization", "Basic " ++ base64_encode (au_username auth ++ ":" ++ au_password auth))].

Definition scrape_headers (auth : ExporterBasicAuth) : gmap string string :=
  fields [("Host", "localhost"); ("Authorization", "Basic " ++ base64_encode (au_username auth ++ ":" ++ au_password auth))] ∅.

Lemma scrape_parses auth path :
  word_ok path = true -> parse_request (scrape_request auth path) = Some (mkRequest "GET" path (scrape_headers auth)).
Proof.
  intros Hp. apply request_parses_back; [done | done|]. cbn [forallb].
  apply andb_true_iff; split; [done|]. rewrite andb_true_r. unfold field_ok. cbn [fst snd].
  apply andb_true_iff; split; [|apply String.eqb_refl]. rewrite all_chars_app.
  apply andb_true_iff; split; [done|]. apply andb_true_iff; split; [done|].
  eapply all_chars_mono; [|apply base64_plain]. unfold plain_char. intros c Hc.
  apply andb_true_iff in Hc as [Hc ->]. apply andb_true_iff in Hc as [_ ->]. done.
Qed.

Lemma scrape_headers_auth auth :
  scrape_headers auth !! "authorization" = Some ("Basic " ++ base64_encode (au_username auth ++ ":" ++ au_password auth)).
Proof.
  unfold scrape_headers, fields. cbn [foldl fst snd].
  assert (E : lower_text "Authorization" = "authorization") by reflexivity. rewrite E. apply lookup_insert_eq.
Qed.

Section scrape.
Context `{EV : Env} `{DE : DiagEnv} `{HX : HttpEnv}.

Lemma answer_routes payload rq s :
  is_empty payload = false -> parse_request payload = Some rq -> rq_method rq = "GET" ->
  authorized (c_config s) rq = true -> answer_request payload s = route rq s.
Proof.
  intros He Hp Hm Ha. unfold answer_request.
  assert (Hin : strstr payload crlf2 = true) by (unfold parse_request in Hp; by destruct (strstr _ crlf2)).
  destruct (is_empty payload || negb (strstr payload crlf2)) eqn:E; [by rewrite He, Hin in E|].
  rewrite Hp. destruct (String.eqb_spec (rq_method rq) "GET") as [_|]; [|done]. cbn [negb].
  unfold bind_exn, fine. rewrite !bind_run. cbn [gets fst snd ret].
  destruct (authorized (c_config s) rq); [done | discriminate].
Qed.

Lemma route_metrics rq s :
  rq_path rq = "/metrics" -> lock_fails (m_tele (c_metrics s)) = false ->
  exists s' sent rest, route rq s = (inr tt, s') /\ c_out s' = c_out s ++ sent /\
    sent ++ rest = build_response "200 OK" "text/plain; version=0.0.4"
      (registry_text (m_registry (c_metrics s)) ++ temperature_text (fusion_of (m_tele (c_metrics s)))) [].
Proof.
  intros Hp Hlock. unfold route. rewrite Hp. replace (String.eqb "/metrics" "/metrics") with true by done.
  unfold bind_exn, cm. rewrite !bind_run, build_prometheus_run.
  unfold lock_fails in Hlock. destruct (dg_lock _); [discriminate|]. cbn [fst snd].
  match goal with |- context [respond ?a ?b ?c ?d ?st] => destruct (respond_run a b c d st) as (n' & sent & rest & -> & Hb) end.
  eexists _, sent, rest. split; [reflexivity|]. split; [reflexivity|]. by rewrite <- Hb.
Qed.

Lemma scrape_authorized config path :
  word_ok path = true -> (String.length (scrape_request (ec_auth config) path) <= kMaxRequestBytes)%nat ->
  size_ok (au_username (ec_auth config) ++ ":" ++ au_password (ec_auth config)) ->
  authorized config (mkRequest "GET" path (scrape_headers (ec_auth config))) = true.
Proof.
  intros Hw Hlen Hsz. pose proof (scrape_parses (ec_auth config) path Hw) as Hp.
  apply authorized_spec; [done| |intros _; apply encoded_credentials_accepted, scrape_headers_auth].
  intros v Hv. pose proof (parse_request_within _ _ Hp "authorization" v Hv) as Hl. cbv beta in Hl.
  unfold size_ok, kMaxRequestBytes in *. lia.
Qed.

(** A client that sends the configured credentials (in RFC 7617 form) and asks for /metrics is
    answered 200 with the exposition of the registry and of the published temperatures, as far as the peer takes it. *)
Theorem scrape_is_served s s1 :
  read_request_payload s = (Some (scrape_request (ec_auth (c_config s)) "/metrics"), s1) ->
  size_ok (au_username (ec_auth (c_config s)) ++ ":" ++ au_password (ec_auth (c_config s))) ->
  lock_fails (m_tele (c_metrics s)) = false ->
  exists s' sent rest, handle_client s = (Some (inr tt), s') /\ c_out s' = c_out s ++ sent /\
    sent ++ rest = build_response "200 OK" "text/plain; version=0.0.4"
      (registry_text (m_registry (c_metrics s)) ++ temperature_text (fusion_of (m_tele (c_metrics s)))) [].
Proof.
  intros Hread Hsz Hlock. destruct (read_request_run s) as (payload & n & Hrun & Hlen).
  rewrite Hrun in Hread. injection Hread as -> <-. unfold handle_client. rewrite bind_run, Hrun. cbn [fst snd].
  set (s2 := s <| c_calls := n |>).
  destruct (route_metrics (mkRequest "GET" "/metrics" (scrape_headers (ec_auth (c_config s)))) s2 eq_refl Hlock)
    as (s' & sent & rest & Hr & Ho & Hb).
  exists s', sent, rest. split; [|by split].
  rewrite bind_run, (answer_routes _ (mkRequest "GET" "/metrics" (scrape_headers (ec_auth (c_config s))))); [by rewrite Hr|..].
  - done.
  - by apply scrape_parses.
  - done.
  - by apply scrape_authorized.
Qed.

(** ** Readiness *)

(** Fresh reports of a controller outside fallback, of a running fusion that is
    not degraded and of healthy hardware counters. *)
Definition ready (t : tstate) (now : Z) : Prop :=
  let fresh updated := updated <> 0 /\ 0 <= now - updated <= 5 * NS_PER_S in
  fresh (cs_freshness_at (controller_of t)) /\ cs_fallback_active (controller_of t) = false /\
  fresh (fs_freshness_at (fusion_of t)) /\ fs_running (fusion_of t) = true /\ fs_degraded (fusion_of t) = false /\
  counter_evidence (w_obs (ts_world t)) now.

Lemma recent_spec now updated : recent now updated = true <-> updated <> 0 /\ 0 <= now - updated <= 5 * NS_PER_S.
Proof. unfold recent. rewrite !andb_true_iff, negb_true_iff, Z.eqb_neq, Z.geb_leb, !Z.leb_le. lia. Qed.

Lemma tele_snapshot_run {A} (f : tstate -> A) s :
  cm (mt (locked (gets f))) s =
    (match dg_lock (d_calls (ts_diag (m_tele (c_metrics s)))) with Some code => inl (SystemError code) | None => inr (f ((m_tele (c_metrics s)) <| ts_diag ::= over d_calls S |>)) end,
     s <| c_metrics ::= over m_tele (over ts_diag (over d_calls S)) |>).
Proof. unfold cm, mt. rewrite locked_run. by destruct (dg_lock _). Qed.

Lemma readiness_run s r s' :
  readiness_ok s = (inr r, s') ->
  (r = true <-> ready (m_tele (c_metrics s)) (hx_steady (c_calls s))).
Proof.
  unfold readiness_ok, controller_snapshot, fusion_snapshot, perf_snapshot, bind_exn.
  rewrite bind_run, tele_snapshot_run. destruct (dg_lock _); [discriminate|]. cbn [fst snd].
  rewrite bind_run, tele_snapshot_run. destruct (dg_lock _); [discriminate|]. cbn [fst snd].
  rewrite bind_run, tele_snapshot_run. destruct (dg_lock _); [discriminate|]. cbn [fst snd].
  unfold fine. rewrite !bind_run. cbn [cext fst snd ret]. intros [= <- _]. unfold ready, counter_evidence.
  rewrite !andb_true_iff, !negb_true_iff, !recent_spec, Z.eqb_eq.
  cbn -[Z.mul]. unfold TSD_PERF_MODE_HARDWARE. naive_solver.
Qed.

(** Reading the published state sends nothing. *)
Definition same_session (s s' : cstate) : Prop := c_out s = c_out s' /\ c_ssl_live s = c_ssl_live s' /\ c_config s = c_config s'.
#[export] Instance same_session_preorder : PreOrder same_session.
Proof. split; unfold same_session; [by intros s | intros s1 s2 s3; intuition congruence]. Qed.

Lemma cm_session {A} (m : MM A) : respects same_session (cm m).
Proof. intros s. unfold cm. by destruct (m (c_metrics s)). Qed.
Lemma cext_session {A} (f : nat -> A) : respects same_session (cext f).
Proof. by intros s. Qed.

Ltac session_step :=
  first [ apply cm_session | apply cext_session
        | apply respects_exn; [exact _ | | intro]
        | unfold fine; respects_step | respects_step ].

Lemma readiness_session : respects same_session readiness_ok.
Proof. unfold readiness_ok. repeat session_step. Qed.

Lemma health_json_session : respects same_session build_health_json.
Proof. unfold build_health_json, health_ok. repeat first [apply readiness_session | session_step]. Qed.

(** The readiness probe answers 200 exactly when controller, fusion and counters all reported within
    five seconds, the controller is not in fallback, fusion runs undegraded and the guard itself has its counter
    evidence; otherwise it answers 503, unless reading the state throws, and then nothing is sent. *)
Theorem readyz_tells_readiness rq s :
  rq_path rq = "/readyz" ->
  let '(r, s') := route rq s in
  (exists e, r = inl e /\ c_out s' = c_out s) \/
  (r = inr tt /\ exists ok body sent rest, (ok = true <-> ready (m_tele (c_metrics s)) (hx_steady (c_calls s))) /\
     c_out s' = c_out s ++ sent /\ sent ++ rest = build_response (availability ok) "application/json" body []).
Proof.
  intros Hp. unfold route. rewrite Hp. replace (String.eqb "/readyz" "/metrics") with false by done.
  replace (String.eqb "/readyz" "/healthz") with false by done. replace (String.eqb "/readyz" "/readyz") with true by done.
  unfold bind_exn. rewrite bind_run. pose proof (readiness_session s) as (Ho & _).
  pose proof (readiness_run s) as Hr. destruct (readiness_ok s) as [[e|ok] s1]; cbn [fst snd] in *; [left; by exists e|].
  specialize (Hr ok s1 eq_refl). rewrite bind_run. pose proof (health_json_session s1) as (Ho1 & _).
  destruct (build_health_json s1) as [[e|body] s2]; cbn [fst snd] in *; [left; exists e; split; [done|congruence]|].
  destruct (respond_run (availability ok) "application/json" body [] s2) as (n & sent & rest & -> & Hb).
  right. split; [done|]. exists ok, body, sent, rest. split; [done|]. split; [cbn; congruence | done].
Qed.

(** ** TLS objects *)

Lemma respond_ssl status content_type body headers s :
  c_ssl_live (respond status content_type body headers s).2 = c_ssl_live s.
Proof. destruct (respond_run status content_type body headers s) as (n & sent & rest & -> & _). done. Qed.

Definition same_ssl (s s' : cstate) : Prop := c_ssl_live s = c_ssl_live s'.
#[export] Instance same_ssl_preorder : PreOrder same_ssl.
Proof. unfold same_ssl. exact _. Qed.

Lemma session_ssl {A} (m : CM A) : respects same_session m -> respects same_ssl m.
Proof. intros H s. by destruct (H s) as (_ & ? & _). Qed.

Lemma answer_ssl payload : respects same_ssl (answer_request payload).
Proof.
  assert (Hr : forall a b c d, respects same_ssl (respond a b c d)) by (intros a b c d s; symmetry; apply respond_ssl).
  unfold answer_request, route.
  repeat first [apply Hr | apply session_ssl, readiness_session | apply session_ssl, health_json_session
               | apply session_ssl, cm_session | apply respects_exn; [exact _ | | intro]
               | unfold fine, health_ok; respects_step | respects_step].
Qed.

Lemma handle_ssl s : c_ssl_live (handle_client s).2 = c_ssl_live s.
Proof.
  unfold handle_client. rewrite bind_run. destruct (read_request_run s) as (payload & n & -> & _). cbn [fst snd].
  rewrite bind_run. pose proof (answer_ssl payload (s <| c_calls := n |>)) as H. symmetry. exact H.
Qed.

(** Every connection that ends without an exception gives its TLS object back. *)
Lemma tls_objects_freed s s' : serve_client s = (Some (inr tt), s') -> c_ssl_live s' = c_ssl_live s.
Proof.
  unfold serve_client. rewrite bind_run. cbn [gets fst snd]. destruct (c_ssl_ctx s); cbn [negb].
  - rewrite bind_run. cbn [cext fst snd]. destruct (hx_ssl_new _); cbn [negb]; [|by intros [= <-]].
    rewrite !bind_run. cbn [modify cext fst snd]. destruct (_ <=? 0); [by intros [= <-]|]. rewrite bind_run.
    match goal with |- context [handle_client ?x] => pose proof (handle_ssl x) as H; destruct (handle_client x) as [[[e|u]|] s2] end;
      cbn [fst snd ret] in *; [discriminate | | discriminate]. rewrite bind_run. intros E.
    apply (f_equal snd) in E. cbn in E, H. rewrite <- E. cbn. by rewrite H.
  - intros E. pose proof (handle_ssl s) as H. by rewrite E in H.
Qed.
End scrape.

(** An exporter with credentials over TLS and a peer that asks for the metrics. *)
Definition demo_auth : ExporterBasicAuth := mkAuth true "admin" "secret".
Definition demo_session (ctx : bool) : cstate :=
  mkCstate idle_metrics (default_exporter_config <| ec_auth := demo_auth |>) true ctx 0 "" 0.
(** The request arrives in one piece, or not at all. *)
Definition demo_peer (request : string) : HttpEnv :=
  mkHttpEnv (fun _ => request) (fun _ => 100000) (fun _ => 1000000000) (fun _ => true) (fun _ => 1).

(** An exception while the metrics are collected leaves a TLS object behind. *)
Lemma tls_object_leaks :
  let HX := demo_peer (scrape_request demo_auth "/metrics") in
  let r := serve_client (EV := quiet_env) (DE := failing_locks) (HX := HX) (demo_session true) in
  r.1 = Some (inl (SystemError EAGAIN)) /\ c_ssl_live r.2 = 1%nat.
Proof. vm_compute. done. Qed.

Lemma strangers_learn_nothing_witness :
  let HX := demo_peer (render_request "GET" "/metrics" []) in
  let s := demo_session false in
  au_enabled (ec_auth (c_config s)) = true /\
  exists payload r s', (read_request_payload s).1 = Some payload /\
    handle_client (EV := quiet_env) (DE := idle_diag) (HX := HX) s = (Some r, s') /\
    ((exists rq, parse_request payload = Some rq /\ rq_method rq = "GET" /\ has_credentials (ec_auth (c_config s)) rq) \/
     (r = inr tt /\ exists sent rest, In (sent ++ rest) refusals /\ c_out s' = c_out s ++ sent)).
Proof.
  cbn zeta. split; [reflexivity|].
  apply (strangers_learn_nothing (EV := quiet_env) (DE := idle_diag) (HX := demo_peer (render_request "GET" "/metrics" []))
           (demo_session false)); [reflexivity | vm_compute; reflexivity].
Defined.

Lemma scrape_is_served_witness :
  let HX := demo_peer (scrape_request demo_auth "/metrics") in
  let s := demo_session false in
  exists s1, read_request_payload s = (Some (scrape_request demo_auth "/metrics"), s1) /\
  exists s' sent rest, handle_client (EV := quiet_env) (DE := idle_diag) (HX := HX) s = (Some (inr tt), s') /\
    c_out s' = c_out s ++ sent /\
    sent ++ rest = build_response "200 OK" "text/plain; version=0.0.4"
      (registry_text (m_registry (c_metrics s)) ++ temperature_text (fusion_of (m_tele (c_metrics s)))) [].
Proof.
  cbn zeta. eexists. split; [vm_compute; reflexivity|].
  eapply (scrape_is_served (EV := quiet_env) (DE := idle_diag) (HX := demo_peer (scrape_request demo_auth "/metrics"))
            (demo_session false)); vm_compute; reflexivity.
Defined.

Lemma response_frames_body_witness :
  no_cr "200 OK" = true /\
  split_head (build_response "200 OK" "text/plain" (crlf2 ++ "x") [("A", "b")]) =
    Some (response_head "200 OK" "text/plain" (Z.of_nat (String.length (crlf2 ++ "x"))) [("A", "b")], crlf2 ++ "x").
Proof.
  split; [reflexivity|].
  apply (response_frames_body "200 OK" "text/plain" (crlf2 ++ "x") [("A", "b")]); [reflexivity.. | vm_compute; discriminate].
Defined.

Lemma request_parses_back_witness :
  word_ok "GET" = true /\
  parse_request (render_request "GET" "/readyz" [("Host", "a"); ("X-Y", "b c")]) =
    Some (mkRequest "GET" "/readyz" (fields [("Host", "a"); ("X-Y", "b c")] ∅)).
Proof. split; [reflexivity|]. apply request_parses_back; reflexivity. Defined.

Lemma readyz_tells_readiness_witness :
  let rq := mkRequest "GET" "/readyz" ∅ in
  let s := demo_session false in
  rq_path rq = "/readyz" /\
  let '(r, s') := route (EV := quiet_env) (DE := idle_diag) (HX := demo_peer "") rq s in
  (exists e, r = inl e /\ c_out s' = c_out s) \/
  (r = inr tt /\ exists ok body sent rest,
     (ok = true <-> ready (m_tele (c_metrics s)) (hx_steady (HttpEnv := demo_peer "") (c_calls s))) /\
     c_out s' = c_out s ++ sent /\ sent ++ rest = build_response (availability ok) "application/json" body []).
Proof.
  cbn zeta. split; [reflexivity|].
  exact (readyz_tells_readiness (EV := quiet_env) (DE := idle_diag) (HX := demo_peer "") (mkRequest "GET" "/readyz" ∅)
           (demo_session false) eq_refl).
Defined.
