(* ===== verification/Exporter.v ===== *)
(** * Exporter: the server of the metrics endpoint

    Start, stop, the accept thread and the workers of the class
    [PrometheusExporter] ([src/src/observability/metrics.cpp]) as a transition
    system over any number of threads that call [start] and [stop].  A step is
    the code between two points where another thread can act: a mutex is taken
    or released, [running_] is accessed without a mutex, a wait begins, a thread
    is joined.  What a connection is answered is in [Http.v]; here serving it is
    one step that ends with its descriptor closed.

    [running_] is written without [client_mutex_], so a worker that has tested
    the condition of its wait and not yet gone to sleep is a state of its own
    ([WCommit]). *)
From S2P Require Import Prelude Http.
From stdpp Require Import base list relations.
From Stdlib Require Import String.
#[local] Open Scope Z_scope.

Definition kClientQueueLimit : nat := 32.
Definition kWorkerCount : nat := 4.

(** ** TLS contexts *)

Record tls_state : Type := mkTlsState {
  tl_ctx : option nat;           (** [ssl_ctx_] *)
  tl_use : bool;                 (** [use_tls_] *)
  tl_live : list nat;            (** contexts allocated and not freed *)
  tl_next : nat;
}.
#[export] Instance eta_tls_state : Eta tls_state := fun t => mkTlsState (tl_ctx t) (tl_use t) (tl_live t) (tl_next t).

Definition no_tls : tls_state := mkTlsState None false [] 0.

(** Answers of the TLS library. *)
Record tls_answers : Type := mkTlsAnswers {
  ta_new : bool; ta_certificate : Z; ta_key : Z; ta_ca : Z }.

Definition free_ctx (c : nat) (t : tls_state) : tls_state := t <| tl_live ::= filter (fun x => x <> c) |>.

Definition destroy_tls (t : tls_state) : tls_state :=
  let t := match tl_ctx t with Some c => (free_ctx c t) <| tl_ctx := None |> | None => t end in
  t <| tl_use := false |>.

Definition initialize_tls (tls : ExporterTlsConfig) (a : tls_answers) (t : tls_state) : bool * tls_state :=
  if negb (tls_enabled tls) then (true, destroy_tls t)
  else if negb (ta_new a) then (false, t)
  else
    let ctx := tl_next t in
    let t := t <| tl_next ::= S |> <| tl_live ::= cons ctx |> in
    let ca_given := negb (String.eqb (tls_ca tls) EmptyString) in
    if (ta_certificate a <=? 0) || (ta_key a <=? 0) then (false, free_ctx ctx t)
    else if ca_given && (ta_ca a <=? 0) then (false, free_ctx ctx t)
    else if tls_require_client_auth tls && negb ca_given then (false, free_ctx ctx t)
    else (true, (destroy_tls t) <| tl_ctx := Some ctx |> <| tl_use := true |>).

(** ** Threads *)

(** The accept thread ([serve]) and a worker ([worker_loop]). *)
Inductive service : Type :=
  | ATest (l : nat)              (** at the loop test *)
  | AAccept (l : nat)            (** in [accept] *)
  | ARetest (l : nat)            (** [accept] failed *)
  | AGot (l : nat) (fd : Z)      (** about to lock [client_mutex_] *)
  | AHold (l : nat) (fd : Z)     (** holding it *)
  | ANotify (l : nat)            (** queued *)
  | AReject (l : nat) (fd : Z)   (** not queued *)
  | ADone
  | WLock                        (** about to lock [client_mutex_] *)
  | WHold                        (** holding it, at the wait *)
  | WCommit                      (** holding it, the condition was false *)
  | WWait                        (** asleep *)
  | WTrue                        (** holding it, the condition was true *)
  | WServe (fd : Z)
  | WDone.

(** A thread that calls [start] and [stop]. *)
Inductive control : Type :=
  | CIdle (rc : Z)               (** outside, with its last result *)
  | TCheck (cfg : ExporterConfig)  (** in [start], holding [server_mutex_] *)
  | TBuild (cfg : ExporterConfig)
  | TSpawn (l : nat)             (** [running_] set, creating threads *)
  | TFail (l : nat)              (** in the [catch] block *)
  | TFailNotify (l : nat)
  | TFailJoin (l : nat) (ws : list nat)
  | PExchange                    (** in [stop], holding [server_mutex_] *)
  | PMoved (l : option nat) (ws : list nat) (a : option nat)  (** threads moved out, mutex released *)
  | PClients (l : option nat) (ws : list nat) (a : option nat)  (** holding [client_mutex_] *)
  | PNotify (l : option nat) (ws : list nat) (a : option nat)
  | PJoinAccept (l : option nat) (ws : list nat) (a : option nat)
  | PClose (l : option nat) (ws : list nat)
  | PListener (l : option nat) (ws : list nat)  (** holding [server_mutex_] *)
  | PJoin (ws : list nat)
  | PTls.

(** Who holds [client_mutex_]. *)
Inductive holder : Type := HService (i : nat) | HControl (k : nat).
#[export] Instance holder_eq_dec : EqDecision holder.
Proof. solve_decision. Defined.

Record exporter : Type := mkExporter {
  x_running : bool;
  x_server_mutex : option nat;
  x_client_mutex : option holder;
  x_clients : list Z;            (** [clients_] *)
  x_open : list Z;               (** client descriptors open *)
  x_listen : option nat;         (** [listen_fd_] *)
  x_port : Z;                    (** [listen_port_] *)
  x_config : ExporterConfig;     (** [config_] *)
  x_tls : tls_state;
  x_statsd : bool;               (** the StatsD client was configured *)
  x_workers : list nat;          (** [workers_] *)
  x_server_thread : option nat;  (** [server_thread_] *)
  x_listeners : list nat;        (** listening sockets open *)
  x_shut : list nat;             (** listening sockets shut down *)
  x_next : nat;
  x_service : list service;
  x_control : list control;
}.
#[export] Instance eta_exporter : Eta exporter := fun s =>
  mkExporter (x_running s) (x_server_mutex s) (x_client_mutex s) (x_clients s) (x_open s) (x_listen s) (x_port s)
    (x_config s) (x_tls s) (x_statsd s) (x_workers s) (x_server_thread s) (x_listeners s) (x_shut s) (x_next s)
    (x_service s) (x_control s).

(** [n] threads that may call, and no server. *)
Definition exporter_init (n : nat) : exporter :=
  mkExporter false None None [] [] None 0 default_exporter_config no_tls false [] None [] [] 0 [] (replicate n (CIdle 0)).

(** ** Steps *)

(** What the operating system answers while a server is set up. *)
Record setup_answers : Type := mkSetup {
  su_socket : Z; su_address_ok : bool; su_bind : Z; su_listen : Z; su_port : option Z; su_tls : tls_answers;
  su_statsd : bool }.

(** What the environment and the caller choose. *)
Inductive choice : Type :=
  | Go
  | Fail
  | Client (fd : Z)              (** [accept] returns this descriptor *)
  | Wake (i : nat)               (** [notify_one] wakes this worker *)
  | Spurious                     (** a wait ends by itself *)
  | CallStart (cfg : ExporterConfig)
  | CallStop
  | Setup (a : setup_answers).

Definition set_service (i : nat) (t : service) (s : exporter) : exporter := s <| x_service ::= <[i := t]> |>.
Definition set_control (k : nat) (t : control) (s : exporter) : exporter := s <| x_control ::= <[k := t]> |>.
Definition unlock_client (s : exporter) : exporter := s <| x_client_mutex := None |>.
Definition unlock_server (s : exporter) : exporter := s <| x_server_mutex := None |>.
Definition lock_client (h : holder) (s : exporter) : option exporter :=
  match x_client_mutex s with None => Some (s <| x_client_mutex := Some h |>) | Some _ => None end.
Definition lock_server (k : nat) (s : exporter) : option exporter :=
  match x_server_mutex s with None => Some (s <| x_server_mutex := Some k |>) | Some _ => None end.

(** [::close(client)] *)
Fixpoint drop_fd (fd : Z) (l : list Z) : list Z :=
  match l with [] => [] | x :: l => if x =? fd then l else x :: drop_fd fd l end.
Definition close_client (fd : Z) (s : exporter) : exporter := s <| x_open ::= drop_fd fd |>.
Definition close_clients (s : exporter) : exporter :=
  (foldl (fun s fd => close_client fd s) s (x_clients s)) <| x_clients := [] |>.

Definition is_waiting (t : service) : bool := match t with WWait => true | _ => false end.
Definition wake (t : service) : service := match t with WWait => WLock | _ => t end.
Definition notify_all (s : exporter) : exporter := s <| x_service ::= fmap wake |>.

Definition is_done (t : service) : bool := match t with ADone | WDone => true | _ => false end.
(** [thread.join()] can return. *)
Definition finished (i : nat) (s : exporter) : bool := match x_service s !! i with Some t => is_done t | None => false end.

(** One step of the accept thread or of a worker. *)
Definition service_step (c : choice) (i : nat) (t : service) (s : exporter) : option exporter :=
  match t with
  | ATest l => Some (set_service i (if x_running s then AAccept l else ADone) s)
  | AAccept l =>
      match c with
      | Client fd =>
          if (fd <? 0) || bool_decide (fd ∈ x_open s) || bool_decide (l ∈ x_shut s) then None
          else Some (set_service i (AGot l fd) (s <| x_open ::= cons fd |>))
      | Fail => Some (set_service i (ARetest l) s)
      | _ => None
      end
  | ARetest l => Some (set_service i (if negb (x_running s) then ADone else ATest l) s)
  | AGot l fd => set_service i (AHold l fd) <$> lock_client (HService i) s
  | AHold l fd =>
      if Nat.ltb (List.length (x_clients s)) kClientQueueLimit && x_running s
      then Some (set_service i (ANotify l) (unlock_client (s <| x_clients ::= fun q => q ++ [fd] |>)))
      else Some (set_service i (AReject l fd) (unlock_client s))
  | ANotify l =>
      match c with
      | Wake j => match x_service s !! j with
                  | Some WWait => Some (set_service i (ATest l) (set_service j WLock s))
                  | _ => None
                  end
      | Go => if existsb is_waiting (x_service s) then None else Some (set_service i (ATest l) s)
      | _ => None
      end
  | AReject l fd => Some (set_service i (ATest l) (close_client fd s))
  | WLock => set_service i WHold <$> lock_client (HService i) s
  | WHold =>
      Some (set_service i (if negb (x_running s) || negb (bool_decide (x_clients s = [])) then WTrue else WCommit) s)
  | WCommit => Some (set_service i WWait (unlock_client s))
  | WWait => match c with Spurious => Some (set_service i WLock s) | _ => None end
  | WTrue =>
      match x_clients s with
      | [] => Some (set_service i (if negb (x_running s) then WDone else WLock) (unlock_client s))
      | fd :: q => Some (set_service i (WServe fd) (unlock_client (s <| x_clients := q |>)))
      end
  | WServe fd => Some (set_service i WLock (close_client fd s))
  | ADone | WDone => None
  end.

(** The part of [start] before the [try] block: the port when it succeeds. *)
Definition prepare (cfg : ExporterConfig) (a : setup_answers) (t : tls_state) : option Z * tls_state :=
  if su_socket a <? 0 then (None, t)
  else if negb (su_address_ok a) then (None, t)
  else if (su_bind a <>? 0) || (su_listen a <>? 0) then (None, t)
  else
    match su_port a with
    | None => (None, t)
    | Some port =>
        let '(ok, t) := initialize_tls (ec_tls cfg) (su_tls a) t in
        (if ok then Some port else None, t)
    end.

Definition local_config (cfg : ExporterConfig) : ExporterConfig :=
  if String.eqb (ec_bind_address cfg) EmptyString then cfg <| ec_bind_address := "127.0.0.1"%string |> else cfg.

Definition add_thread (t : service) (s : exporter) : exporter := s <| x_service ::= fun l => l ++ [t] |>.

(** One step of a thread inside [start] or [stop]. *)
Definition control_step (c : choice) (k : nat) (t : control) (s : exporter) : option exporter :=
  match t with
  | CIdle _ =>
      match c with
      | CallStart cfg => set_control k (TCheck (local_config cfg)) <$> lock_server k s
      | CallStop => set_control k PExchange <$> lock_server k s
      | _ => None
      end
  | TCheck cfg =>
      if x_running s then Some (set_control k (CIdle (-1)) (unlock_server s)) else Some (set_control k (TBuild cfg) s)
  | TBuild cfg =>
      match c with
      | Setup a =>
          let '(port, t) := prepare cfg a (x_tls s) in
          let s := s <| x_tls := t |> in
          match port with
          | None => Some (set_control k (CIdle (-1)) (unlock_server s))
          | Some port =>
              let l := x_next s in
              Some (set_control k (TSpawn l)
                (s <| x_next ::= S |> <| x_listeners ::= cons l |> <| x_statsd := su_statsd a |> <| x_listen := Some l |>
                   <| x_port := port |> <| x_config := cfg |> <| x_running := true |> <| x_workers := [] |>))
          end
      | _ => None
      end
  | TSpawn l =>
      match c with
      | Go =>
          let i := List.length (x_service s) in
          if Nat.ltb (List.length (x_workers s)) kWorkerCount
          then Some (add_thread WLock (s <| x_workers ::= fun ws => ws ++ [i] |>))
          else Some (set_control k (CIdle 0) (unlock_server (add_thread (ATest l) (s <| x_server_thread := Some i |>))))
      | Fail => Some (set_control k (TFail l) s)
      | _ => None
      end
  | TFail l => Some (set_control k (TFailNotify l) (s <| x_running := false |> <| x_shut ::= cons l |>))
  | TFailNotify l => Some (set_control k (TFailJoin l (x_workers s)) (notify_all s))
  | TFailJoin l (w :: ws) => if finished w s then Some (set_control k (TFailJoin l ws) s) else None
  | TFailJoin l [] =>
      Some (set_control k (CIdle (-1)) (unlock_server
        (s <| x_workers := [] |>
           <| x_listen ::= fun o => if bool_decide (o = Some l) then None else o |>
           <| x_port := 0 |> <| x_listeners ::= filter (fun x => x <> l) |> <| x_statsd := false |>
           <| x_tls ::= destroy_tls |>)))
  | PExchange =>
      if negb (x_running s) then Some (set_control k (CIdle 0) (unlock_server s))
      else
        let shut := match x_listen s with Some l => cons l | None => id end in
        Some (set_control k (PMoved (x_listen s) (x_workers s) (x_server_thread s)) (unlock_server
          (s <| x_running := false |> <| x_statsd := false |> <| x_shut ::= shut |>
             <| x_server_thread := None |> <| x_workers := [] |>)))
  | PMoved l ws a => set_control k (PClients l ws a) <$> lock_client (HControl k) s
  | PClients l ws a => Some (set_control k (PNotify l ws a) (unlock_client (close_clients s)))
  | PNotify l ws a => Some (set_control k (PJoinAccept l ws a) (notify_all s))
  | PJoinAccept l ws a =>
      match a with
      | Some i => if finished i s then Some (set_control k (PClose l ws) s) else None
      | None => Some (set_control k (PClose l ws) s)
      end
  | PClose l ws => set_control k (PListener l ws) <$> lock_server k s
  | PListener l ws =>
      let s := match l with
               | Some i =>
                   if bool_decide (x_listen s = Some i)
                   then s <| x_listeners ::= filter (fun x => x <> i) |> <| x_listen := None |> <| x_port := 0 |>
                   else s
               | None => s
               end in
      Some (set_control k (PJoin ws) (unlock_server s))
  | PJoin (w :: ws) => if finished w s then Some (set_control k (PJoin ws) s) else None
  | PJoin [] => Some (set_control k PTls s)
  | PTls => Some (set_control k (CIdle 0) (s <| x_tls ::= destroy_tls |>))
  end.

Inductive actor : Type := Service (i : nat) | Control (k : nat).

Definition run_step (who : actor) (c : choice) (s : exporter) : option exporter :=
  match who with
  | Service i => match x_service s !! i with Some t => service_step c i t s | None => None end
  | Control k => match x_control s !! k with Some t => control_step c k t s | None => None end
  end.

(** Every step, and the steps without spurious wake-ups (a wait may end by
    itself, but nothing makes it). *)
Definition any_step (s s' : exporter) : Prop := exists who c, run_step who c s = Some s'.
Definition sure_step (s s' : exporter) : Prop := exists who c, c <> Spurious /\ run_step who c s = Some s'.

Definition reachable (n : nat) (s : exporter) : Prop := rtc any_step (exporter_init n) s.

(** ** The C interface *)

Record tsd_metrics_tls_config_t : Type := mkTlsConfig {
  mt_certificate_path : option string; mt_private_key_path : option string; mt_ca_certificate_path : option string;
  mt_require_client_auth : Z }.
Record tsd_metrics_basic_auth_t : Type := mkBasicAuth { mb_username : option string; mb_password : option string }.
Record tsd_metrics_exporter_config_t : Type := mkMetricsConfig {
  mc_bind_address : option string; mc_port : Z; mc_tls : option tsd_metrics_tls_config_t;
  mc_basic_auth : option tsd_metrics_basic_auth_t; mc_statsd_host : option string; mc_statsd_port : Z }.

(** A null string leaves the empty one. *)
Definition given (s : option string) : string := match s with Some s => s | None => EmptyString end.

Definition exporter_config_of (config : option tsd_metrics_exporter_config_t) : ExporterConfig :=
  match config with
  | None => default_exporter_config
  | Some c =>
      mkExporterConfig
        (match mc_bind_address c with Some a => a | None => ec_bind_address default_exporter_config end)
        (mc_port c)
        (match mc_tls c with
         | Some t => mkTls true (given (mt_certificate_path t)) (given (mt_private_key_path t))
                       (given (mt_ca_certificate_path t)) (mt_require_client_auth t <>? 0)
         | None => ec_tls default_exporter_config
         end)
        (match mc_basic_auth c with
         | Some a => mkAuth true (given (mb_username a)) (given (mb_password a))
         | None => ec_auth default_exporter_config
         end)
        (given (mc_statsd_host c)) (mc_statsd_port c)
  end.

(** The calls the C functions make. *)
Definition tsd_metrics_exporter_start_with_config (config : option tsd_metrics_exporter_config_t) : choice :=
  CallStart (exporter_config_of config).
Definition tsd_metrics_exporter_start (bind_address : option string) (port : Z) : choice :=
  tsd_metrics_exporter_start_with_config (Some (mkMetricsConfig bind_address port None None None 0)).
Definition tsd_metrics_exporter_stop : choice := CallStop.

(** [listen_port()] *)
Definition listen_port (s : exporter) : Z := x_port s.
Definition tsd_metrics_exporter_listen_port (s : exporter) : Z := listen_port s.

(** What every step preserves holds along a run. *)
Lemma rtc_preserves {A} (R : A -> A -> Prop) (P : A -> Prop) s s' :
  (forall s1 s2, R s1 s2 -> P s1 -> P s2) -> rtc R s s' -> P s -> P s'.
Proof. intros HR H. induction H as [|s1 s2 s3 H12 _ IH]; [done|]. intros Hs. by eapply IH, HR. Qed.

(** ** Client descriptors *)

(** The descriptor a service thread is responsible for. *)
Definition held (t : service) : list Z :=
  match t with AGot _ fd | AHold _ fd | AReject _ fd | WServe fd => [fd] | _ => [] end.

Definition fds_ok (open clients : list Z) (threads : list service) : Prop :=
  open ≡ₚ clients ++ List.concat (held <$> threads) /\ NoDup open /\ (List.length clients <= kClientQueueLimit)%nat.

Definition fd_inv (s : exporter) : Prop := fds_ok (x_open s) (x_clients s) (x_service s).

Lemma held_insert (l : list service) i t t' :
  l !! i = Some t -> List.concat (held <$> <[i := t']> l) ++ held t ≡ₚ List.concat (held <$> l) ++ held t'.
Proof.
  intros H. pose proof (lookup_lt_Some _ _ _ H) as Hlt. rewrite insert_take_drop by done.
  rewrite <- (take_drop_middle _ _ _ H) at 3. rewrite !fmap_app, !List.concat_app, !fmap_cons. cbn [List.concat].
  solve_Permutation.
Qed.

(** A thread moves, and descriptors change hands accordingly. *)
Lemma fds_move open clients threads i t t' open' clients' :
  threads !! i = Some t -> fds_ok open clients threads ->
  open' ++ clients ++ held t ≡ₚ open ++ clients' ++ held t' ->
  NoDup open' -> (List.length clients' <= kClientQueueLimit)%nat ->
  fds_ok open' clients' (<[i := t']> threads).
Proof.
  intros Hi (Ho & _ & _) Hp Hn Hl. split; [|done]. pose proof (held_insert threads i t t' Hi) as Hh.
  apply (Permutation_app_inv_r (clients ++ held t)). rewrite Hp, Ho.
  transitivity (clients ++ clients' ++ (List.concat (held <$> threads) ++ held t')); [solve_Permutation|].
  rewrite <- Hh. solve_Permutation.
Qed.

Lemma fds_keep open clients threads i t t' :
  threads !! i = Some t -> held t' = held t -> fds_ok open clients threads -> fds_ok open clients (<[i := t']> threads).
Proof. intros Hi Hh H. destruct H as (H1 & H2 & H3). eapply fds_move; [done | done | by rewrite Hh | done | done]. Qed.

Lemma drop_fd_perm fd l : fd ∈ l -> l ≡ₚ fd :: drop_fd fd l.
Proof.
  induction l as [|x l IH]; [by intros ?%elem_of_nil|]. cbn. destruct (x =? fd) eqn:E; zbool; [by subst|].
  intros [->|H]%elem_of_cons; [done|]. rewrite (IH H) at 1. apply Permutation_swap.
Qed.

Lemma drop_fd_rest fd l rest : l ≡ₚ fd :: rest -> drop_fd fd l ≡ₚ rest.
Proof.
  intros H. assert (Hin : fd ∈ l) by (rewrite H; left). rewrite (drop_fd_perm fd l Hin) in H. by apply Permutation_cons_inv in H.
Qed.

Lemma close_clients_open s rest : x_open s ≡ₚ x_clients s ++ rest -> x_open (close_clients s) ≡ₚ rest.
Proof.
  unfold close_clients. cbn. generalize (x_clients s) as q. intros q. revert s.
  induction q as [|fd q IH]; intros s H; [done|]. cbn [foldl]. apply IH. cbn. by apply drop_fd_rest.
Qed.

Lemma close_clients_frame s :
  x_service (close_clients s) = x_service s /\ x_control (close_clients s) = x_control s /\
  x_clients (close_clients s) = [].
Proof.
  unfold close_clients. cbn. generalize (x_clients s) as q. intros q. revert s.
  induction q as [|fd q IH]; intros s; [done|]. cbn [foldl]. by destruct (IH (close_client fd s)) as (-> & -> & _).
Qed.

Lemma fds_wake open clients threads : fds_ok open clients threads -> fds_ok open clients (wake <$> threads).
Proof.
  unfold fds_ok. rewrite <- list_fmap_compose.
  by rewrite (list_fmap_ext (held ∘ wake) held threads) by (intros ? [] _; done).
Qed.

Lemma fds_app open clients threads t : held t = [] -> fds_ok open clients threads -> fds_ok open clients (threads ++ [t]).
Proof. unfold fds_ok. intros Ht. rewrite fmap_app, List.concat_app. cbn. by rewrite Ht, !app_nil_r. Qed.

Lemma service_step_fds c i t s s' :
  x_service s !! i = Some t -> service_step c i t s = Some s' -> fd_inv s -> fd_inv s'.
Proof.
  intros Hi Hs Hinv. pose proof Hinv as (Hp & Hn & Hq). unfold fd_inv in *.
  assert (Hclose : forall fd t', held t = [fd] -> held t' = [] ->
    fds_ok (drop_fd fd (x_open s)) (x_clients s) (<[i := t']> (x_service s))).
  { intros fd t' Ht Ht'. assert (Hin : fd ∈ x_open s).
    { rewrite Hp. apply elem_of_app. right. apply list_elem_of_In, List.in_concat. exists (held t).
      split; [|rewrite Ht; by left]. by apply list_elem_of_In, list_elem_of_fmap_2, (list_elem_of_lookup_2 _ i). }
    pose proof (drop_fd_perm fd (x_open s) Hin) as Ho. eapply fds_move; [exact Hi | done | | | done].
    - rewrite Ht, Ht'. rewrite Ho at 2. solve_Permutation.
    - rewrite Ho in Hn. by apply NoDup_cons in Hn as [_ ?]. }
  unfold service_step, lock_client in Hs. destruct t as [l|l|l|l fd|l fd|l|l fd| | | | | | |fd|].
  - injection Hs as <-. eapply fds_keep; [done | by case_match | done].
  - destruct c; try discriminate; [injection Hs as <-; by eapply fds_keep|].
    destruct (_ || _) eqn:E; [discriminate|]. injection Hs as <-. apply orb_false_iff in E as [E _].
    apply orb_false_iff in E as [_ E]. apply bool_decide_eq_false in E.
    eapply fds_move; [done | done | cbn; solve_Permutation | by constructor | done].
  - injection Hs as <-. eapply fds_keep; [done | by case_match | done].
  - destruct (x_client_mutex s); [discriminate|]. injection Hs as <-. by eapply fds_keep.
  - destruct (_ && _) eqn:E; injection Hs as <-; [|by eapply fds_keep].
    apply andb_true_iff in E as [E _]. apply Nat.ltb_lt in E.
    cbn. eapply fds_move; [done | done | cbn; solve_Permutation | done | rewrite length_app; cbn; unfold kClientQueueLimit in *; lia].
  - destruct c as [| | |j| | | |]; try discriminate; [destruct (existsb _ _); [discriminate|]; injection Hs as <-; by eapply fds_keep|].
    destruct (x_service s !! j) as [[]|] eqn:Ej; try discriminate. injection Hs as <-. cbn.
    assert (Hj : fds_ok (x_open s) (x_clients s) (<[j := WLock]> (x_service s))) by by eapply fds_keep.
    apply (fds_keep _ _ _ i (ANotify l)); [|done|exact Hj]. rewrite list_lookup_insert_ne; [done|]. intros ->. congruence.
  - injection Hs as <-. by apply Hclose.
  - discriminate.
  - destruct (x_client_mutex s); [discriminate|]. injection Hs as <-. by eapply fds_keep.
  - injection Hs as <-. eapply fds_keep; [done | by case_match | done].
  - injection Hs as <-. by eapply fds_keep.
  - destruct c; try discriminate. injection Hs as <-. by eapply fds_keep.
  - destruct (x_clients s) as [|fd q] eqn:Eq; injection Hs as <-.
    + cbn. rewrite ?Eq. eapply fds_keep; [done | by case_match | done].
    + cbn. rewrite ?Eq in *. eapply fds_move; [done | done | cbn; solve_Permutation | done | cbn in *; lia].
  - injection Hs as <-. by apply Hclose.
  - discriminate.
Qed.

Lemma control_step_fds c k t s s' : control_step c k t s = Some s' -> fd_inv s -> fd_inv s'.
Proof.
  intros Hs Hinv. unfold control_step, lock_server, lock_client in Hs. unfold fd_inv in *.
  destruct t as [rc|cfg|cfg|l|l|l|l [|w ws]| |l ws a|l ws a|l ws a|l ws a|l ws|l ws|[|w ws]|];
    try (injection Hs as <-; done).
  - destruct c; try discriminate; destruct (x_server_mutex s); try discriminate; injection Hs as <-; done.
  - destruct (x_running s); injection Hs as <-; done.
  - destruct c as [| | | | | | |a]; try discriminate. destruct (prepare cfg a (x_tls s)) as [[port|] t]; injection Hs as <-; done.
  - destruct c; try discriminate; [|injection Hs as <-; done].
    destruct (Nat.ltb _ _); injection Hs as <-; cbn; by apply fds_app.
  - injection Hs as <-. cbn. by apply fds_wake.
  - destruct (finished w s); [|discriminate]. injection Hs as <-; done.
  - destruct (x_running s); injection Hs as <-; done.
  - destruct (x_client_mutex s); [discriminate|]. injection Hs as <-; done.
  - injection Hs as <-. destruct (close_clients_frame s) as (Ef & _ & Ec). destruct Hinv as (Hp & Hn & Hq).
    pose proof (close_clients_open s _ Hp) as Ho. unfold fds_ok, set_control, unlock_client. cbn -[close_clients].
    rewrite Ef, Ec. split; [done|]. split; [|cbn; lia]. rewrite Ho. rewrite Hp in Hn. by apply NoDup_app in Hn as (_ & _ & ?).
  - injection Hs as <-. cbn. by apply fds_wake.
  - destruct a as [i|]; [destruct (finished i s); [|discriminate]|]; injection Hs as <-; done.
  - destruct (x_server_mutex s); [discriminate|]. injection Hs as <-; done.
  - injection Hs as <-. destruct l as [i|]; [|done]. cbn. by destruct (bool_decide (x_listen s = Some i)).
  - destruct (finished w s); [|discriminate]. injection Hs as <-; done.
Qed.

Lemma any_step_fds s s' : any_step s s' -> fd_inv s -> fd_inv s'.
Proof.
  intros ([i|k] & c & H) Hinv; cbn [run_step] in H.
  - destruct (x_service s !! i) as [t|] eqn:E; [|discriminate]. by eapply service_step_fds.
  - destruct (x_control s !! k) as [t|]; [|discriminate]. by eapply control_step_fds.
Qed.

Lemma reachable_fds n s : reachable n s -> fd_inv s.
Proof.
  intros H. apply (rtc_preserves _ fd_inv _ _ any_step_fds H). split; [done|]. split; [constructor | cbn; lia].
Qed.

(** ** Who holds [client_mutex_] *)

Definition holds (t : service) : bool := match t with AHold _ _ | WHold | WCommit | WTrue => true | _ => false end.
Definition holds_client (t : control) : bool := match t with PClients _ _ _ => true | _ => false end.

Record mutex_inv (s : exporter) : Prop := mkMutexInv {
  mi_service i : x_client_mutex s = Some (HService i) <-> exists t, x_service s !! i = Some t /\ holds t = true;
  mi_control k : x_client_mutex s = Some (HControl k) <-> exists t, x_control s !! k = Some t /\ holds_client t = true;
}.

(** A thread moves without touching the mutex. *)
Lemma mutex_service_keep s i t t' :
  x_service s !! i = Some t -> holds t' = holds t -> mutex_inv s -> mutex_inv (set_service i t' s).
Proof.
  intros Hi Hh [H1 H2]. pose proof (lookup_lt_Some _ _ _ Hi) as Hlt. split; cbn; [|done]. intros j. rewrite H1.
  destruct (decide (i = j)) as [<-|Hne].
  - rewrite list_lookup_insert_eq by done. split; intros (u & Hu & Hhu); simplify_eq; eexists; split; [done | congruence | done | congruence].
  - by rewrite list_lookup_insert_ne.
Qed.

Lemma mutex_service_take s i t t' :
  x_service s !! i = Some t -> holds t = false -> holds t' = true -> x_client_mutex s = None ->
  mutex_inv s -> mutex_inv (set_service i t' (s <| x_client_mutex := Some (HService i) |>)).
Proof.
  intros Hi Hh Hh' Hm [H1 H2]. pose proof (lookup_lt_Some _ _ _ Hi) as Hlt. split; cbn.
  - intros j. destruct (decide (i = j)) as [<-|Hne].
    + rewrite list_lookup_insert_eq by done. naive_solver.
    + rewrite list_lookup_insert_ne by done. rewrite <- H1, Hm. naive_solver.
  - intros k. rewrite <- H2, Hm. naive_solver.
Qed.

Lemma mutex_service_release s i t t' :
  x_service s !! i = Some t -> holds t = true -> holds t' = false ->
  mutex_inv s -> mutex_inv (set_service i t' (unlock_client s)).
Proof.
  intros Hi Hh Hh' [H1 H2]. pose proof (lookup_lt_Some _ _ _ Hi) as Hlt.
  assert (Hm : x_client_mutex s = Some (HService i)) by (apply H1; eauto). split; cbn.
  - intros j. destruct (decide (i = j)) as [<-|Hne].
    + rewrite list_lookup_insert_eq by done. split; [done|]. intros (u & [= <-] & Hu). congruence.
    + rewrite list_lookup_insert_ne by done. rewrite <- H1, Hm. naive_solver.
  - intros k. rewrite <- H2, Hm. naive_solver.
Qed.

Lemma mutex_control_keep s k t t' :
  x_control s !! k = Some t -> holds_client t' = holds_client t -> mutex_inv s -> mutex_inv (set_control k t' s).
Proof.
  intros Hi Hh [H1 H2]. pose proof (lookup_lt_Some _ _ _ Hi) as Hlt. split; cbn; [done|]. intros j. rewrite H2.
  destruct (decide (k = j)) as [<-|Hne].
  - rewrite list_lookup_insert_eq by done. split; intros (u & Hu & Hhu); simplify_eq; eexists; split; [done | congruence | done | congruence].
  - by rewrite list_lookup_insert_ne.
Qed.

(** Only mutex and threads matter. *)
Lemma mutex_inv_ext s s' :
  x_client_mutex s' = x_client_mutex s -> x_service s' = x_service s -> x_control s' = x_control s -> mutex_inv s -> mutex_inv s'.
Proof. intros E1 E2 E3 [H1 H2]. split; rewrite E1, ?E2, ?E3; [exact H1 | exact H2]. Qed.

Lemma mutex_wake s : mutex_inv s -> mutex_inv (notify_all s).
Proof.
  intros [H1 H2]. split; cbn; [|done]. intros i. rewrite H1, list_lookup_fmap.
  destruct (x_service s !! i) as [t|]; cbn; [|naive_solver].
  split; intros (u & Hu & Hh); simplify_eq; [exists (wake u) | exists t]; split; try done; by destruct t || destruct u.
Qed.

Lemma mutex_app s t : holds t = false -> mutex_inv s -> mutex_inv (add_thread t s).
Proof.
  intros Ht [H1 H2]. split; cbn; [|done]. intros i. rewrite H1. split.
  - intros (u & Hu & Hh). exists u. split; [by apply lookup_app_l_Some | done].
  - intros (u & Hu & Hh). exists u. split; [|done]. apply lookup_app_Some in Hu as [Hu|[_ Hu]]; [done|].
    apply list_lookup_singleton_Some in Hu as [_ <-]. congruence.
Qed.

Lemma service_step_mutex c i t s s' :
  x_service s !! i = Some t -> service_step c i t s = Some s' -> mutex_inv s -> mutex_inv s'.
Proof.
  intros Hi Hs Hinv. unfold service_step, lock_client in Hs.
  assert (Hframe : forall s1 t', x_client_mutex s1 = x_client_mutex s -> x_service s1 = x_service s -> x_control s1 = x_control s ->
    (holds t' = holds t -> mutex_inv (set_service i t' s1)) /\
    (holds t = true -> holds t' = false -> mutex_inv (set_service i t' (unlock_client s1)))).
  { intros s1 t' E1 E2 E3. assert (H1 : mutex_inv s1) by by apply (mutex_inv_ext s). rewrite <- E2 in Hi.
    split; intros; [by eapply mutex_service_keep | by eapply mutex_service_release]. }
  destruct t as [l|l|l|l fd|l fd|l|l fd| | | | | | |fd|]; try discriminate;
    try (injection Hs as <-; apply Hframe; try done; by case_match).
  - destruct c; try discriminate; [injection Hs as <-; by apply Hframe|].
    destruct (_ || _); [discriminate|]. injection Hs as <-. by apply Hframe.
  - destruct (x_client_mutex s) eqn:Em; [discriminate|]. injection Hs as <-. by eapply mutex_service_take.
  - destruct (_ && _); injection Hs as <-; by apply Hframe.
  - destruct c as [| | |j| | | |]; try discriminate; [destruct (existsb _ _); [discriminate|]; injection Hs as <-; by apply Hframe|].
    destruct (x_service s !! j) as [[]|] eqn:Ej; try discriminate. injection Hs as <-.
    assert (Hj : mutex_inv (set_service j WLock s)) by by eapply mutex_service_keep.
    apply (mutex_service_keep _ i (ANotify l)); [|done|done]. cbn. rewrite list_lookup_insert_ne; [done|]. intros ->. congruence.
  - destruct (x_client_mutex s) eqn:Em; [discriminate|]. injection Hs as <-. by eapply mutex_service_take.
  - destruct c; try discriminate. injection Hs as <-. by apply Hframe.
  - destruct (x_clients s) as [|fd q]; injection Hs as <-; apply Hframe; try done. by case_match.
Qed.

Lemma close_clients_mutex s : x_client_mutex (close_clients s) = x_client_mutex s.
Proof.
  unfold close_clients. cbn. generalize (x_clients s) as q. intros q. revert s.
  induction q as [|fd q IH]; intros s; [done|]. cbn [foldl]. by rewrite IH.
Qed.

Lemma control_step_mutex c k t s s' :
  x_control s !! k = Some t -> control_step c k t s = Some s' -> mutex_inv s -> mutex_inv s'.
Proof.
  intros Hk Hs Hinv. unfold control_step, lock_server, lock_client in Hs.
  assert (Hframe : forall s1 t', x_client_mutex s1 = x_client_mutex s -> x_service s1 = x_service s -> x_control s1 = x_control s ->
    holds_client t' = holds_client t -> mutex_inv (set_control k t' s1)).
  { intros s1 t' E1 E2 E3 Hh. assert (H1 : mutex_inv s1) by by apply (mutex_inv_ext s). rewrite <- E3 in Hk.
    by eapply mutex_control_keep. }
  destruct t as [rc|cfg|cfg|l|l|l|l [|w ws]| |l ws a|l ws a|l ws a|l ws a|l ws|l ws|[|w ws]|];
    try (injection Hs as <-; by apply Hframe).
  - destruct c; try discriminate; destruct (x_server_mutex s); try discriminate; injection Hs as <-; by apply Hframe.
  - destruct (x_running s); injection Hs as <-; by apply Hframe.
  - destruct c as [| | | | | | |a]; try discriminate. destruct (prepare cfg a (x_tls s)) as [[port|] t]; injection Hs as <-; by apply Hframe.
  - destruct c; try discriminate; [|injection Hs as <-; by apply Hframe].
    destruct (Nat.ltb _ _); injection Hs as <-.
    + apply mutex_app; [done|]. by apply (mutex_inv_ext s).
    + apply (mutex_control_keep _ k (TSpawn l)); [done | done|]. apply (mutex_inv_ext (add_thread (ATest l) s)); try done.
      by apply mutex_app.
  - injection Hs as <-. apply (mutex_control_keep _ k (TFailNotify l)); [done | done | by apply mutex_wake].
  - destruct (finished w s); [|discriminate]. injection Hs as <-. by apply Hframe.
  - destruct (x_running s); injection Hs as <-; by apply Hframe.
  - destruct (x_client_mutex s) eqn:Em; [discriminate|]. injection Hs as <-. destruct Hinv as [H1 H2].
    pose proof (lookup_lt_Some _ _ _ Hk) as Hlt. split; cbn.
    + intros i. rewrite <- H1, Em. naive_solver.
    + intros j. destruct (decide (k = j)) as [<-|Hne].
      * rewrite list_lookup_insert_eq by done. naive_solver.
      * rewrite list_lookup_insert_ne by done. rewrite <- H2, Em. naive_solver.
  - injection Hs as <-. destruct Hinv as [H1 H2]. assert (Em : x_client_mutex s = Some (HControl k)) by (apply H2; eauto).
    pose proof (lookup_lt_Some _ _ _ Hk) as Hlt. destruct (close_clients_frame s) as (Ef & Ec & _). split; cbn -[close_clients].
    + intros i. rewrite Ef, <- H1, Em. naive_solver.
    + intros j. rewrite Ec. destruct (decide (k = j)) as [<-|Hne].
      * rewrite list_lookup_insert_eq by done. naive_solver.
      * rewrite list_lookup_insert_ne by done. rewrite <- H2, Em. naive_solver.
  - injection Hs as <-. apply (mutex_control_keep _ k (PNotify l ws a)); [done | done | by apply mutex_wake].
  - destruct a as [i|]; [destruct (finished i s); [|discriminate]|]; injection Hs as <-; by apply Hframe.
  - destruct (x_server_mutex s); [discriminate|]. injection Hs as <-. by apply Hframe.
  - injection Hs as <-. apply Hframe; try done; destruct l as [i|]; try done; by destruct (bool_decide (x_listen s = Some i)).
  - destruct (finished w s); [|discriminate]. injection Hs as <-. by apply Hframe.
Qed.

Lemma any_step_mutex s s' : any_step s s' -> mutex_inv s -> mutex_inv s'.
Proof.
  intros ([i|k] & c & H) Hinv; cbn [run_step] in H.
  - destruct (x_service s !! i) as [t|] eqn:E; [|discriminate]. by eapply service_step_mutex.
  - destruct (x_control s !! k) as [t|] eqn:E; [|discriminate]. by eapply control_step_mutex.
Qed.

Lemma init_mutex n : mutex_inv (exporter_init n).
Proof.
  split; cbn; [naive_solver|]. intros k. split; [done|]. intros (t & Ht & Hh).
  apply lookup_replicate in Ht as [-> _]. done.
Qed.

(** ** One controlling thread

    [start] and [stop] are called by one thread, as the program does. *)

(** Service threads that have not returned are among [L]. *)
Definition covers (L : list nat) (s : exporter) : Prop :=
  forall i t, x_service s !! i = Some t -> is_done t = false -> i ∈ L.

Definition listener_of (t : service) : option nat :=
  match t with
  | ATest l | AAccept l | ARetest l | AGot l _ | AHold l _ | ANotify l | AReject l _ => Some l
  | _ => None
  end.
(** Every accept thread left uses a socket of [P]. *)
Definition accepts_on (P : nat -> Prop) (s : exporter) : Prop :=
  forall i t l, x_service s !! i = Some t -> listener_of t = Some l -> P l.

Definition no_thread (p : service -> bool) (s : exporter) : Prop := forall i t, x_service s !! i = Some t -> p t = false.
Definition is_commit (t : service) : bool := match t with WCommit => true | _ => false end.

Definition base (run : bool) (L : list nat) (l : option nat) (s : exporter) : Prop :=
  x_running s = run /\ covers L s /\ x_listen s = l /\ x_listeners s = option_list l.

(** Nothing is left of a server. *)
Definition resting (s : exporter) : Prop :=
  base false [] None s /\ x_clients s = [] /\ x_workers s = [] /\ x_server_thread s = None /\
  tl_ctx (x_tls s) = None /\ x_statsd s = false.
(** A server runs on [l]. *)
Definition serving (l : nat) (s : exporter) : Prop :=
  base true (x_workers s ++ option_list (x_server_thread s)) (Some l) s /\ accepts_on (eq l) s.
(** A server on [l] is being set up or given up. *)
Definition starting (l : nat) (run : bool) (L : list nat) (s : exporter) : Prop :=
  base run L (Some l) s /\ x_clients s = [] /\ x_server_thread s = None /\ accepts_on (fun _ => False) s.
(** A server is being stopped; its threads are in [L]. *)
Definition stopping (l : option nat) (L : list nat) (s : exporter) : Prop :=
  base false L l s /\ x_workers s = [] /\ x_server_thread s = None /\ x_statsd s = false /\
  accepts_on (fun l => l ∈ x_shut s) s.
(** The queue was emptied and nobody is about to fall asleep. *)
Definition emptied (s : exporter) : Prop := x_clients s = [] /\ no_thread is_commit s.
(** ... and the sleepers were woken. *)
Definition woken (s : exporter) : Prop := emptied s /\ no_thread is_waiting s.

Definition phase (c : control) (s : exporter) : Prop :=
  match c with
  | CIdle _ | TCheck _ | PExchange => (exists l, serving l s) \/ resting s
  | TBuild _ => resting s
  | TSpawn l | TFail l => starting l true (x_workers s) s
  | TFailNotify l => starting l false (x_workers s) s
  | TFailJoin l ws => starting l false ws s
  | PMoved l ws a | PClients l ws a => stopping l (ws ++ option_list a) s
  | PNotify l ws a => stopping l (ws ++ option_list a) s /\ emptied s
  | PJoinAccept l ws a => stopping l (ws ++ option_list a) s /\ woken s
  | PClose l ws | PListener l ws => stopping l ws s /\ woken s
  | PJoin ws => stopping None ws s /\ woken s
  | PTls => stopping None [] s /\ woken s
  end.

(** *** Steps of service threads *)

(** What they do not change. *)
Definition frame_of (s : exporter) :=
  (x_running s, x_server_mutex s, (x_listen s, x_port s, x_config s), (x_tls s, x_statsd s),
   (x_workers s, x_server_thread s, x_listeners s, x_shut s, x_next s), x_control s).

(** The threads after a step of [i]: each is as before, or [i] moved from [t], or a sleeper was woken. *)
Definition moved (i : nat) (t t' : service) (threads threads' : list service) : Prop :=
  forall j u, threads' !! j = Some u ->
    (j = i /\ u = t') \/ threads !! j = Some u \/ (u = WLock /\ threads !! j = Some WWait).

Lemma moved_insert i t t' threads : moved i t t' threads (<[i := t']> threads).
Proof.
  intros j u H. destruct (decide (i = j)) as [<-|Hne].
  - left. apply list_lookup_insert_Some in H as [(_ & <- & _)|(? & _)]; done.
  - right. left. by rewrite list_lookup_insert_ne in H.
Qed.

(** The moves of a service thread while [running_] is [run] and the queue is [q]. *)
Definition allowed (run : bool) (t t' : service) : Prop :=
  is_done t = false /\
  (forall l, listener_of t' = Some l -> listener_of t = Some l) /\
  is_waiting t' = is_commit t /\
  (is_commit t' = true -> run = true).

Lemma service_step_frame c i t s s' :
  x_service s !! i = Some t -> service_step c i t s = Some s' ->
  frame_of s' = frame_of s /\
  (exists t', moved i t t' (x_service s) (x_service s') /\ allowed (x_running s) t t') /\
  (x_clients s = [] -> x_running s = false \/ listener_of t = None -> x_clients s' = []).
Proof.
  intros Hi Hs. unfold service_step, lock_client in Hs.
  destruct t as [l|l|l|l fd|l fd|l|l fd| | | | | | |fd|]; try discriminate.
  - injection Hs as <-. split; [done|]. split; [|done]. eexists. split; [apply moved_insert|]. by destruct (x_running s).
  - destruct c; try discriminate.
    + injection Hs as <-. split; [done|]. split; [|done]. eexists. split; [apply moved_insert | done].
    + destruct (_ || _); [discriminate|]. injection Hs as <-. split; [done|]. split; [|done]. eexists. split; [apply moved_insert | done].
  - injection Hs as <-. split; [done|]. split; [|done]. eexists. split; [apply moved_insert|]. by destruct (x_running s).
  - destruct (x_client_mutex s); [discriminate|]. injection Hs as <-. split; [done|]. split; [|done]. eexists. split; [apply moved_insert | done].
  - destruct (_ && _) eqn:E; injection Hs as <-; (split; [done|]); (split; [eexists; split; [apply moved_insert | done]|]); [|done].
    intros _ [H|H]; [|done]. rewrite H, andb_false_r in E. done.
  - destruct c as [| | |j| | | |]; try discriminate.
    + destruct (existsb _ _); [discriminate|]. injection Hs as <-. split; [done|]. split; [|done]. eexists. split; [apply moved_insert | done].
    + destruct (x_service s !! j) as [[]|] eqn:Ej; try discriminate. injection Hs as <-. split; [done|]. split; [|done].
      exists (ATest l). split; [|done]. cbn. intros n u H. destruct (decide (i = n)) as [<-|Hne].
      * left. apply list_lookup_insert_Some in H as [(_ & <- & _)|(? & _)]; done.
      * rewrite list_lookup_insert_ne in H by done. destruct (decide (j = n)) as [<-|Hne2].
        -- apply list_lookup_insert_Some in H as [(_ & <- & _)|(? & _)]; [by right; right | done].
        -- rewrite list_lookup_insert_ne in H by done. by right; left.
  - injection Hs as <-. split; [done|]. split; [|done]. eexists. split; [apply moved_insert | done].
  - destruct (x_client_mutex s); [discriminate|]. injection Hs as <-. split; [done|]. split; [|done]. eexists. split; [apply moved_insert | done].
  - injection Hs as <-. split; [done|]. split; [|done]. eexists. split; [apply moved_insert|].
    destruct (x_running s), (bool_decide (x_clients s = [])); done.
  - injection Hs as <-. split; [done|]. split; [|done]. eexists. split; [apply moved_insert | done].
  - destruct c; try discriminate. injection Hs as <-. split; [done|]. split; [|done]. eexists. split; [apply moved_insert | done].
  - destruct (x_clients s) as [|fd q] eqn:Eq; injection Hs as <-; (split; [done|]); (split; [eexists; split; [apply moved_insert|]|]); try done.
    by destruct (x_running s).
  - injection Hs as <-. split; [done|]. split; [|done]. eexists. split; [apply moved_insert | done].
Qed.

Section service_move.
Context (c : choice) (i : nat) (t : service) (s s' : exporter).
Context (Hi : x_service s !! i = Some t) (Hs : service_step c i t s = Some s').

Lemma move_covers L : covers L s -> covers L s'.
Proof.
  destruct (service_step_frame c i t s s' Hi Hs) as (_ & (t' & Hm & Hd & _) & _).
  intros H j u Hj Hu. destruct (Hm j u Hj) as [[-> _]|[Hj'|[_ Hj']]]; by eapply H.
Qed.

Lemma move_accepts P : accepts_on P s -> accepts_on P s'.
Proof.
  destruct (service_step_frame c i t s s' Hi Hs) as (_ & (t' & Hm & _ & Hl & _) & _).
  intros H j u l Hj Hu. destruct (Hm j u Hj) as [[-> ->]|[Hj'|[-> _]]]; [|by eapply H | done].
  eapply H; [exact Hi | by apply Hl].
Qed.

Lemma move_commit : x_running s = false -> no_thread is_commit s -> no_thread is_commit s'.
Proof.
  destruct (service_step_frame c i t s s' Hi Hs) as (_ & (t' & Hm & _ & _ & _ & Hc) & _).
  intros Hr H j u Hj. destruct (Hm j u Hj) as [[-> ->]|[Hj'|[-> _]]]; [|by eapply H | done].
  destruct (is_commit t'); [|done]. by rewrite Hc in Hr.
Qed.

Lemma move_waiting : no_thread is_commit s -> no_thread is_waiting s -> no_thread is_waiting s'.
Proof.
  destruct (service_step_frame c i t s s' Hi Hs) as (_ & (t' & Hm & _ & _ & Hw & _) & _).
  intros Hc H j u Hj. destruct (Hm j u Hj) as [[-> ->]|[Hj'|[-> _]]]; [|by eapply H | done].
  rewrite Hw. by eapply Hc.
Qed.

Lemma move_clients : x_clients s = [] -> x_running s = false \/ listener_of t = None -> x_clients s' = [].
Proof. by destruct (service_step_frame c i t s s' Hi Hs) as (_ & _ & H). Qed.

Lemma move_base run L l : base run L l s -> base run L l s'.
Proof.
  destruct (service_step_frame c i t s s' Hi Hs) as (Hf & _). injection Hf as E1 _ E2 _ _ _ _ _ _ E3 _ _ _.
  intros (H1 & H2 & H3 & H4). repeat split; [congruence | by apply move_covers | congruence | congruence].
Qed.

Lemma move_emptied : x_running s = false -> emptied s -> emptied s'.
Proof. intros Hr [H1 H2]. split; [apply move_clients; auto | by apply move_commit]. Qed.

Lemma move_woken : x_running s = false -> woken s -> woken s'.
Proof. intros Hr [[H1 H2] H3]. split; [by apply move_emptied | by apply move_waiting]. Qed.

Lemma move_resting : resting s -> resting s'.
Proof.
  intros (Hb & Hc & Hw & Ha & Ht & Hd). destruct (service_step_frame c i t s s' Hi Hs) as (Hf & _).
  injection Hf as _ _ _ _ _ E1 E2 E3 E4 _ _ _ _. pose proof Hb as (Hr & _).
  split; [by apply move_base|]. split; [apply move_clients; auto|]. repeat split; congruence.
Qed.

Lemma move_serving l : serving l s -> serving l s'.
Proof.
  intros (Hb & Ha). destruct (service_step_frame c i t s s' Hi Hs) as (Hf & _).
  injection Hf as _ _ _ _ _ _ _ E3 E4 _ _ _ _. split; [rewrite E3, E4; by apply move_base | by apply move_accepts].
Qed.

Lemma move_starting l run L : starting l run L s -> starting l run L s'.
Proof.
  intros (Hb & Hc & Ha & Hn). destruct (service_step_frame c i t s s' Hi Hs) as (Hf & _).
  injection Hf as _ _ _ _ _ _ _ _ E4 _ _ _ _. split; [by apply move_base|]. split; [|split; [congruence | by apply move_accepts]].
  apply move_clients; [done|]. right. destruct (listener_of t) as [l'|] eqn:E; [|done]. exfalso. by eapply (Hn i t l').
Qed.

Lemma move_stopping l L : stopping l L s -> stopping l L s'.
Proof.
  intros (Hb & Hw & Ha & Hd & Hn). destruct (service_step_frame c i t s s' Hi Hs) as (Hf & _).
  injection Hf as _ _ _ _ _ _ E2 E3 E4 _ E5 _ _. split; [by apply move_base|]. rewrite E3, E4, E2.
  split; [done|]. split; [done|]. split; [done|]. unfold accepts_on. rewrite E5. by apply move_accepts.
Qed.

Lemma service_step_phase k : phase k s -> phase k s'.
Proof.
  assert (Hw : x_workers s' = x_workers s).
  { destruct (service_step_frame c i t s s' Hi Hs) as (Hf & _). by injection Hf. }
  assert (Hstop : forall l L, stopping l L s /\ emptied s -> stopping l L s' /\ emptied s').
  { intros l L [H1 H2]. split; [by apply move_stopping|]. by apply move_emptied; [destruct H1 as ((? & _) & _)|]. }
  assert (Hstop2 : forall l L, stopping l L s /\ woken s -> stopping l L s' /\ woken s').
  { intros l L [H1 H2]. split; [by apply move_stopping|]. by apply move_woken; [destruct H1 as ((? & _) & _)|]. }
  assert (Hidle : (exists l, serving l s) \/ resting s -> (exists l, serving l s') \/ resting s').
  { intros [[l H]|H]; [left; exists l; by apply move_serving | right; by apply move_resting]. }
  destruct k; cbn [phase]; rewrite ?Hw; auto using move_resting, move_starting, move_stopping.
Qed.
End service_move.

(** *** TLS contexts are neither leaked nor freed twice *)

Definition tls_ok (t : tls_state) : Prop :=
  tl_live t = option_list (tl_ctx t) /\ (forall c, tl_ctx t = Some c -> (c < tl_next t)%nat) /\
  (tl_use t = true <-> tl_ctx t <> None).

Lemma free_other c (l : list nat) : c ∉ l -> filter (fun x => x <> c) (c :: l) = l.
Proof.
  intros H. rewrite filter_cons_False by tauto. induction l as [|x l IH]; [done|].
  apply not_elem_of_cons in H as [H1 H2]. rewrite filter_cons_True by congruence. by rewrite IH.
Qed.

Lemma destroy_tls_ok t : tls_ok t -> tls_ok (destroy_tls t) /\ tl_ctx (destroy_tls t) = None.
Proof.
  intros (H1 & H2 & H3). unfold destroy_tls, tls_ok, free_ctx. destruct (tl_ctx t) as [c|] eqn:E; cbn -[filter]; rewrite H1.
  - cbn -[filter]. rewrite free_other by apply not_elem_of_nil. naive_solver.
  - rewrite E. naive_solver.
Qed.

Lemma initialize_tls_ok tls a t :
  tls_ok t -> tls_ok (initialize_tls tls a t).2 /\
  ((initialize_tls tls a t).1 = false -> tl_ctx (initialize_tls tls a t).2 = tl_ctx t) /\
  ((initialize_tls tls a t).1 = true -> tl_use (initialize_tls tls a t).2 = tls_enabled tls).
Proof.
  intros Hok. pose proof Hok as (H1 & H2 & H3). unfold initialize_tls.
  destruct (tls_enabled tls); cbn [negb].
  2:{ destruct (destroy_tls_ok t Hok) as [? ?]. split; [done|]. split; [done|]. intros _. unfold destroy_tls. by destruct (tl_ctx t). }
  destruct (ta_new a); cbn [negb]; [|done].
  assert (Hfresh : tl_next t ∉ tl_live t).
  { rewrite H1. destruct (tl_ctx t) as [c|]; cbn; [|apply not_elem_of_nil]. specialize (H2 c eq_refl). set_solver by lia. }
  set (t1 := t <| tl_next ::= S |> <| tl_live ::= cons (tl_next t) |>).
  assert (Hfree : tls_ok (free_ctx (tl_next t) t1) /\ tl_ctx (free_ctx (tl_next t) t1) = tl_ctx t).
  { split; [|done]. unfold tls_ok, free_ctx, t1. cbn -[filter]. rewrite free_other by done. split; [done|]. split; [|done].
    intros c Hc. specialize (H2 c Hc). lia. }
  destruct (_ || _); [by destruct Hfree|]. destruct (_ && _); [by destruct Hfree|]. destruct (_ && _); [by destruct Hfree|].
  cbn [fst snd]. split; [|done]. unfold tls_ok. cbn -[destroy_tls]. split; [|split; [|done]].
  - unfold destroy_tls, free_ctx, t1. cbn -[filter]. destruct (tl_ctx t) as [c|]; cbn -[filter]; [|by rewrite H1].
    rewrite H1. specialize (H2 c eq_refl). rewrite filter_cons_True by lia. cbn -[filter].
    by rewrite free_other by apply not_elem_of_nil.
  - intros c [= <-]. unfold destroy_tls, t1. cbn -[free_ctx]. destruct (tl_ctx t); cbn; lia.
Qed.

(** *** Steps of the controlling thread *)

Definition solo (s : exporter) : Prop :=
  (exists c, x_control s = [c] /\ phase c s) /\ mutex_inv s /\ fd_inv s /\ tls_ok (x_tls s).

Lemma covers_finished w ws s : covers (w :: ws) s -> finished w s = true -> covers ws s.
Proof.
  intros Hc Hf i t Hi Ht. specialize (Hc i t Hi Ht). apply elem_of_cons in Hc as [->|]; [|done].
  unfold finished in Hf. rewrite Hi in Hf. congruence.
Qed.

Lemma covers_joined a ws s : covers (ws ++ option_list a) s -> (forall i, a = Some i -> finished i s = true) -> covers ws s.
Proof.
  intros Hc Hf i t Hi Ht. specialize (Hc i t Hi Ht). apply elem_of_app in Hc as [|Hin]; [done|].
  destruct a as [j|]; [|by apply elem_of_nil in Hin]. apply list_elem_of_singleton in Hin as ->. specialize (Hf j eq_refl).
  unfold finished in Hf. rewrite Hi in Hf. congruence.
Qed.

Lemma wake_covers L s : covers L s -> covers L (notify_all s).
Proof.
  intros Hc i t Hi Ht. cbn in Hi. rewrite list_lookup_fmap in Hi. destruct (x_service s !! i) as [u|] eqn:E; [|done].
  injection Hi as <-. eapply Hc; [exact E|]. by destruct u.
Qed.

Lemma wake_accepts P s : accepts_on P s -> accepts_on P (notify_all s).
Proof.
  intros Hc i t l Hi Ht. cbn in Hi. rewrite list_lookup_fmap in Hi. destruct (x_service s !! i) as [u|] eqn:E; [|done].
  injection Hi as <-. eapply Hc; [exact E|]. by destruct u.
Qed.

Lemma wake_commit s : no_thread is_commit s -> no_thread is_commit (notify_all s).
Proof.
  intros Hc i t Hi. cbn in Hi. rewrite list_lookup_fmap in Hi. destruct (x_service s !! i) as [u|] eqn:E; [|done].
  injection Hi as <-. specialize (Hc i u E). by destruct u.
Qed.

Lemma wake_waiting s : no_thread is_waiting (notify_all s).
Proof.
  intros i t Hi. cbn in Hi. rewrite list_lookup_fmap in Hi. destruct (x_service s !! i) as [u|] eqn:E; [|done].
  injection Hi as <-. by destruct u.
Qed.

Lemma spawn_covers L t s : covers L s -> covers (L ++ [List.length (x_service s)]) (add_thread t s).
Proof.
  intros Hc i u Hi Hu. cbn in Hi. apply lookup_app_Some in Hi as [Hi|[Hge Hi]].
  - apply elem_of_app. left. by eapply Hc.
  - apply list_lookup_singleton_Some in Hi as [Hi _]. apply elem_of_app. right. apply list_elem_of_singleton. lia.
Qed.

Lemma spawn_accepts P t s : (forall l, listener_of t = Some l -> P l) -> accepts_on P s -> accepts_on P (add_thread t s).
Proof.
  intros Ht Hc i u l Hi Hu. cbn in Hi. apply lookup_app_Some in Hi as [Hi|[_ Hi]]; [by eapply Hc|].
  apply list_lookup_singleton_Some in Hi as [_ <-]. by apply Ht.
Qed.

(** A stop that holds [client_mutex_] meets no worker that is about to sleep. *)
Lemma held_no_commit s c : mutex_inv s -> x_control s = [c] -> holds_client c = true -> no_thread is_commit s.
Proof.
  intros [H1 H2] Hc Hh i t Hi. destruct t; try done. exfalso.
  assert (E1 : x_client_mutex s = Some (HControl 0)) by (apply H2; exists c; by rewrite Hc).
  assert (E2 : x_client_mutex s = Some (HService i)) by (apply H1; by exists WCommit). congruence.
Qed.

Lemma prepare_failed cfg a t t' : tls_ok t -> tl_ctx t = None -> prepare cfg a t = (None, t') -> tl_ctx t' = None.
Proof.
  intros Ht Hn. unfold prepare. repeat case_match; intros [= <-]; try done;
  match goal with H : initialize_tls ?x ?y t = (false, _) |- _ =>
    pose proof (initialize_tls_ok x y t Ht) as (_ & Hf & _); rewrite H in Hf; cbn in Hf; by rewrite Hf end.
Qed.

Lemma prepare_tls_ok cfg a t : tls_ok t -> tls_ok (prepare cfg a t).2.
Proof.
  intros Ht. unfold prepare. repeat case_match; try done;
  match goal with H : initialize_tls ?x ?y t = _ |- _ => pose proof (initialize_tls_ok x y t Ht) as (Hok & _); by rewrite H in Hok end.
Qed.

Lemma close_clients_rest s : frame_of (close_clients s) = frame_of s.
Proof.
  unfold close_clients, frame_of. cbn. generalize (x_clients s) as q. intros q. revert s.
  induction q as [|fd q IH]; intros s; [done|]. cbn [foldl]. by rewrite IH.
Qed.

Lemma control_step_phase c t s s' :
  x_control s = [t] -> mutex_inv s -> tls_ok (x_tls s) -> phase t s -> control_step c 0 t s = Some s' ->
  exists t', x_control s' = [t'] /\ phase t' s'.
Proof.
  intros Hc Hm Htls Hp Hs. unfold control_step, lock_server, lock_client in Hs.
  assert (Hset : forall t' s1, x_control s1 = [t] -> x_control (set_control 0 t' s1) = [t']) by (intros t' s1 E; cbn; by rewrite E).
  destruct t as [rc|cfg|cfg|l|l|l|l [|w ws]| |l ws a|l ws a|l ws a|l ws a|l ws|l ws|[|w ws]|]; cbn [phase] in Hp.
  - destruct c; try discriminate; destruct (x_server_mutex s); try discriminate; injection Hs as <-;
      (eexists; split; [by apply Hset | exact Hp]).
  - destruct (x_running s) eqn:Er; injection Hs as <-; (eexists; split; [by apply Hset|]); [exact Hp|].
    destruct Hp as [(l & (H & _) & _)|Hp]; [congruence | exact Hp].
  - destruct c as [| | | | | | |a]; try discriminate. destruct Hp as (Hb & Hq & Hw & Ha & Hx & Hd).
    destruct (prepare cfg a (x_tls s)) as [[port|] t] eqn:Ep; injection Hs as <-; (eexists; split; [by apply Hset|]).
    + destruct Hb as (Hr & Hcov & Hl & Hls). cbn [phase]. unfold starting, base. cbn. rewrite Hls.
      split; [by repeat split|]. split; [done|]. split; [done|]. intros i u l Hi Hu. exfalso.
      specialize (Hcov i u Hi). destruct (is_done u) eqn:E; [by destruct u|]. by specialize (Hcov eq_refl); apply elem_of_nil in Hcov.
    + right. split; [exact Hb|]. repeat split; try done. by eapply prepare_failed.
  - destruct c; try discriminate.
    + destruct Hp as ((Hr & Hcov & Hl & Hls) & Hq & Ha & Hn). destruct (Nat.ltb _ _); injection Hs as <-.
      * exists (TSpawn l). split; [done|]. split; [|split; [done|split; [done|by apply spawn_accepts]]].
        split; [done|]. split; [by apply (spawn_covers (x_workers s) WLock s) | done].
      * eexists. split; [by apply Hset|]. left. exists l. split.
        -- split; [done|]. split; [|done]. cbn. by apply (spawn_covers (x_workers s) (ATest l) s).
        -- apply (spawn_accepts (eq l) (ATest l) s); [by intros l' [= ->]|]. intros i u l' Hi Hu. exfalso. by eapply (Hn i u l').
    + injection Hs as <-. eexists. split; [by apply Hset | exact Hp].
  - injection Hs as <-. eexists. split; [by apply Hset|]. destruct Hp as ((Hr & Hb) & Hq). split; [|exact Hq]. by split.
  - injection Hs as <-. eexists. split; [by apply Hset|]. destruct Hp as ((Hr & Hcov & Hb) & Hq & Ha & Hn).
    split; [split; [done|split; [by apply wake_covers | done]]|]. split; [done|]. split; [done | by apply wake_accepts].
  - injection Hs as <-. eexists. split; [by apply Hset|]. destruct Hp as ((Hr & Hcov & Hl & Hls) & Hq & Ha & Hn). right.
    destruct (destroy_tls_ok _ Htls) as [_ Hctx]. split; [|repeat split; done]. split; [done|]. split; [done|].
    cbn -[filter]. rewrite Hl, Hls, bool_decide_eq_true_2 by done. cbn -[filter]. by rewrite free_other by apply not_elem_of_nil.
  - destruct (finished w s) eqn:Ef; [|discriminate]. injection Hs as <-. eexists. split; [by apply Hset|].
    destruct Hp as ((Hr & Hcov & Hb) & Hq). split; [|exact Hq]. split; [done|]. split; [by eapply covers_finished | done].
  - destruct Hp as [(l & (Hr & Hcov & Hl & Hls) & Hn)|Hp].
    + rewrite Hr in Hs. injection Hs as <-. eexists. split; [by apply Hset|]. cbn [phase]. rewrite Hl. split; [by repeat split|].
      split; [done|]. split; [done|]. split; [done|]. intros i u l' Hi Hu. cbn. specialize (Hn i u l' Hi Hu) as ->. left.
    + pose proof Hp as ((Hr & _) & _). rewrite Hr in Hs. injection Hs as <-. eexists. split; [by apply Hset|]. by right.
  - destruct (x_client_mutex s) eqn:Em; [discriminate|]. injection Hs as <-. eexists. split; [by apply Hset | exact Hp].
  - injection Hs as <-. pose proof (held_no_commit s _ Hm Hc eq_refl) as Hno.
    destruct (close_clients_frame s) as (Ef & Ec & Eq). pose proof (close_clients_rest s) as Er.
    generalize dependent (close_clients s). intros s1 Ef Ec Eq Er. injection Er as E1 _ E2 _ _ _ E3 E4 E5 E6 E7 _ _.
    eexists. split; [apply Hset; cbn; congruence|]. destruct Hp as ((Hr & Hcov & Hl & Hls) & Hw & Ha & Hd & Hn).
    split; [|split; [done|]].
    + split; [split; [cbn; congruence|split; [|split; cbn; congruence]]|].
      * intros i u Hi. cbn in Hi. rewrite Ef in Hi. by apply Hcov.
      * split; [cbn; congruence|]. split; [cbn; congruence|]. split; [cbn; congruence|]. intros i u l' Hi.
        cbn in Hi |- *. rewrite Ef in Hi. rewrite E7. by apply (Hn i u).
    + intros i u Hi. cbn in Hi. rewrite Ef in Hi. by eapply Hno.
  - injection Hs as <-. eexists. split; [by apply Hset|]. destruct Hp as (((Hr & Hcov & Hb) & Hw & Ha & Hd & Hn) & Hq & Hno).
    split; [|split; [split; [done | by apply wake_commit] | apply wake_waiting]].
    split; [split; [done|split; [by apply wake_covers | done]]|]. split; [done|]. split; [done|]. split; [done | by apply wake_accepts].
  - destruct Hp as (((Hr & Hcov & Hb) & Hrest) & Hwok).
    assert (Hfin : s' = set_control 0 (PClose l ws) s /\ forall i, a = Some i -> finished i s = true).
    { destruct a as [i|]; [destruct (finished i s) eqn:Ef; [|discriminate]|]; injection Hs as <-; (split; [done|]); intros j [= <-]; done. }
    destruct Hfin as [-> Hfin]. eexists. split; [by apply Hset|]. split; [|exact Hwok]. split; [|exact Hrest].
    split; [done|]. split; [by eapply covers_joined | done].
  - destruct (x_server_mutex s); [discriminate|]. injection Hs as <-. eexists. split; [by apply Hset | exact Hp].
  - injection Hs as <-. destruct Hp as (((Hr & Hcov & Hl & Hls) & Hrest) & Hwok).
    destruct l as [i|].
    + rewrite bool_decide_eq_true_2 by done. eexists. split; [by apply Hset|]. split; [|exact Hwok]. split; [|exact Hrest].
      split; [done|]. split; [done|]. split; [done|]. cbn -[filter]. rewrite Hls. cbn -[filter]. by rewrite free_other by apply not_elem_of_nil.
    + eexists. split; [by apply Hset|]. split; [|exact Hwok]. split; [|exact Hrest]. by repeat split.
  - injection Hs as <-. eexists. split; [by apply Hset | exact Hp].
  - destruct (finished w s) eqn:Ef; [|discriminate]. injection Hs as <-. destruct Hp as (((Hr & Hcov & Hb) & Hrest) & Hwok).
    eexists. split; [by apply Hset|]. split; [|exact Hwok]. split; [|exact Hrest]. split; [done|]. split; [by eapply covers_finished | done].
  - injection Hs as <-. eexists. split; [by apply Hset|]. right. destruct Hp as ((Hb & Hw & Ha & Hd & Hn) & (Hq & _) & _).
    destruct (destroy_tls_ok _ Htls) as [_ Hctx]. split; [exact Hb|]. by repeat split.
Qed.

Lemma control_step_tls c k t s s' : control_step c k t s = Some s' -> tls_ok (x_tls s) -> tls_ok (x_tls s').
Proof.
  intros Hs Ht. unfold control_step, lock_server, lock_client in Hs.
  destruct t as [rc|cfg|cfg|l|l|l|l [|w ws]| |l ws a|l ws a|l ws a|l ws a|l ws|l ws|[|w ws]|];
    try (injection Hs as <-; done).
  - destruct c; try discriminate; destruct (x_server_mutex s); try discriminate; injection Hs as <-; done.
  - destruct (x_running s); injection Hs as <-; done.
  - destruct c as [| | | | | | |a]; try discriminate. pose proof (prepare_tls_ok cfg a _ Ht) as Hp.
    destruct (prepare cfg a (x_tls s)) as [[port|] t]; injection Hs as <-; done.
  - destruct c; try discriminate; [|injection Hs as <-; done]. destruct (Nat.ltb _ _); injection Hs as <-; done.
  - injection Hs as <-. by apply destroy_tls_ok.
  - destruct (finished w s); [|discriminate]. injection Hs as <-; done.
  - destruct (x_running s); injection Hs as <-; done.
  - destruct (x_client_mutex s); [discriminate|]. injection Hs as <-; done.
  - injection Hs as <-. pose proof (close_clients_rest s) as Er. revert Er. generalize (close_clients s). intros s1 Er. injection Er. cbn. congruence.
  - destruct a as [i|]; [destruct (finished i s); [|discriminate]|]; injection Hs as <-; done.
  - destruct (x_server_mutex s); [discriminate|]. injection Hs as <-; done.
  - injection Hs as <-. destruct l as [i|]; [|done]. cbn. by destruct (bool_decide (x_listen s = Some i)).
  - destruct (finished w s); [|discriminate]. injection Hs as <-; done.
  - injection Hs as <-. by apply destroy_tls_ok.
Qed.

Lemma any_step_solo s s' : any_step s s' -> solo s -> solo s'.
Proof.
  intros Hstep ((c & Hc & Hp) & Hm & Hf & Ht).
  assert (Hrest : mutex_inv s' /\ fd_inv s') by (split; [by eapply any_step_mutex | by eapply any_step_fds]).
  destruct Hrest as [Hm' Hf']. destruct Hstep as ([i|k] & ch & H); cbn [run_step] in H.
  - destruct (x_service s !! i) as [t|] eqn:E; [|discriminate].
    destruct (service_step_frame ch i t s s' E H) as (Hframe & _). injection Hframe as _ _ _ _ _ Etls _ _ _ _ _ _ Ectl.
    split; [|split; [done|split; [done | by rewrite Etls]]]. exists c. split; [congruence|]. by eapply service_step_phase.
  - destruct (x_control s !! k) as [t|] eqn:E; [|discriminate]. rewrite Hc in E.
    apply list_lookup_singleton_Some in E as [-> <-].
    split; [|split; [done|split; [done | by eapply control_step_tls]]]. by eapply control_step_phase.
Qed.

Lemma init_solo : solo (exporter_init 1).
Proof.
  split; [|split; [apply init_mutex|split; [split; [done|split; [constructor | cbn; lia]]|]]].
  - exists (CIdle 0). split; [done|]. right. split; [|done]. repeat split. by intros i t Hi.
  - split; [done|]. by split.
Qed.

Lemma reachable_solo s : reachable 1 s -> solo s.
Proof.
  intros H. exact (rtc_preserves _ solo _ _ any_step_solo H init_solo).
Qed.

(** C31 (invariant). In every interleaving of any number of callers of start and stop with the accept thread and the
    workers, each client descriptor that is open has exactly one owner, the queue or one thread, so none is closed twice
    or used after being closed, and the queue never exceeds its limit. *)
Theorem clients_have_one_owner n s :
  reachable n s ->
  NoDup (x_open s) /\ x_open s ≡ₚ x_clients s ++ List.concat (held <$> x_service s) /\
  (List.length (x_clients s) <= 32)%nat /\
  (forall i j t u fd, x_service s !! i = Some t -> x_service s !! j = Some u -> held t = [fd] -> held u = [fd] -> i = j) /\
  (forall i t fd, x_service s !! i = Some t -> held t = [fd] -> fd ∈ x_open s /\ fd ∉ x_clients s).
Proof.
  intros H. destruct (reachable_fds n s H) as (Hp & Hn & Hq). split; [done|]. split; [done|]. split; [done|].
  rewrite Hp in Hn. apply NoDup_app in Hn as (_ & Hdisj & Hnd).
  assert (Hin : forall i t fd, x_service s !! i = Some t -> held t = [fd] -> fd ∈ List.concat (held <$> x_service s)).
  { intros i t fd Hi Ht. apply list_elem_of_In, List.in_concat. exists (held t). split; [|rewrite Ht; by left].
    by apply list_elem_of_In, list_elem_of_fmap_2, (list_elem_of_lookup_2 _ i). }
  split.
  - intros i j t u fd Hi Hj Ht Hu. destruct (decide (i = j)) as [|Hne]; [done|]. exfalso.
    pose proof (held_insert (x_service s) i t WDone Hi) as Hh. rewrite Ht in Hh. cbn [held] in Hh. rewrite app_nil_r in Hh.
    rewrite <- Hh in Hnd. apply NoDup_app in Hnd as (_ & Hd & _). apply (Hd fd); [|left].
    apply list_elem_of_In, List.in_concat. exists (held u). split; [|rewrite Hu; by left].
    apply list_elem_of_In, list_elem_of_fmap_2, (list_elem_of_lookup_2 _ j). by rewrite list_lookup_insert_ne.
  - intros i t fd Hi Ht. specialize (Hin i t fd Hi Ht). split; [rewrite Hp; apply elem_of_app; by right|].
    intros Hc. by apply (Hdisj fd).
Qed.

(** With one controlling thread: whenever it is outside start and stop and the server is not running,
    after a stop as well as after a start that failed anywhere, nothing is left of a server: every thread returned,
    every client and listening descriptor is closed, the queue is empty, no TLS context is alive and StatsD is off. *)
Theorem resting_exporter_owns_nothing s rc :
  reachable 1 s -> x_control s = [CIdle rc] -> x_running s = false ->
  (forall i t, x_service s !! i = Some t -> is_done t = true) /\
  x_open s = [] /\ x_clients s = [] /\ x_listeners s = [] /\ tl_live (x_tls s) = [] /\ x_statsd s = false.
Proof.
  intros H Hc Hr. destruct (reachable_solo s H) as ((c & Hc' & Hp) & _ & (Hperm & _) & (Hlive & _)).
  rewrite Hc in Hc'. injection Hc' as <-. destruct Hp as [(l & (Hr' & _) & _)|Hp]; [congruence|].
  destruct Hp as ((_ & Hcov & _ & Hls) & Hq & _ & _ & Hctx & Hd).
  assert (Hdone : forall i t, x_service s !! i = Some t -> is_done t = true).
  { intros i t Hi. destruct (is_done t) eqn:E; [done|]. by specialize (Hcov i t Hi E); apply elem_of_nil in Hcov. }
  split; [done|]. split; [|split; [done|split; [done|split; [by rewrite Hlive, Hctx | done]]]].
  apply Permutation_nil_r. rewrite Hperm, Hq. cbn. apply Permutation_nil_r.
  destruct (List.concat _) as [|fd l] eqn:E; [done|]. exfalso.
  assert (Hin : In fd (List.concat (held <$> x_service s))) by (rewrite E; by left).
  apply List.in_concat in Hin as (x & Hx & Hfd). apply list_elem_of_In, list_elem_of_fmap in Hx as (t & -> & Ht).
  apply list_elem_of_lookup_1 in Ht as (i & Hi). specialize (Hdone i t Hi). by destruct t.
Qed.

(** ** A stop returns *)

(** What has to happen sooner or later without help from outside: threads run,
    and [accept] on a socket that was shut down fails. *)
Definition forced (who : actor) (c : choice) (s : exporter) : Prop :=
  match c, who with
  | Go, _ | Wake _, _ => True
  | Fail, Service i => exists l, x_service s !! i = Some (AAccept l) /\ l ∈ x_shut s
  | _, _ => False
  end.
Definition forced_step (s s' : exporter) : Prop := exists who c, forced who c s /\ run_step who c s = Some s'.

Definition in_stop (c : control) : bool :=
  match c with
  | PExchange | PMoved _ _ _ | PClients _ _ _ | PNotify _ _ _ | PJoinAccept _ _ _ | PClose _ _ | PListener _ _ | PJoin _ | PTls => true
  | _ => false
  end.

(** *** The server mutex and the thread handles of the controlling thread *)

Definition holds_server (c : control) : bool :=
  match c with
  | TCheck _ | TBuild _ | TSpawn _ | TFail _ | TFailNotify _ | TFailJoin _ _ | PExchange | PListener _ _ => true
  | _ => false
  end.

Definition handles (c : control) : list nat :=
  match c with
  | TFailJoin _ ws | PClose _ ws | PListener _ ws | PJoin ws => ws
  | PMoved _ ws a | PClients _ ws a | PNotify _ ws a | PJoinAccept _ ws a => ws ++ option_list a
  | _ => []
  end.

(** Every handle names a thread. *)
Definition known (c : control) (s : exporter) : Prop :=
  Forall (fun i => (i < List.length (x_service s))%nat) (handles c ++ x_workers s ++ option_list (x_server_thread s)).

Definition owned (s : exporter) : Prop :=
  exists c, x_control s = [c] /\ x_server_mutex s = (if holds_server c then Some 0%nat else None) /\ known c s.

Lemma known_mono c c' s s' :
  handles c' ++ x_workers s' ++ option_list (x_server_thread s') ⊆ handles c ++ x_workers s ++ option_list (x_server_thread s) ->
  (List.length (x_service s) <= List.length (x_service s'))%nat -> known c s -> known c' s'.
Proof.
  intros Hsub Hlen Hk. unfold known in *. rewrite Forall_forall in *. intros i Hi. specialize (Hk i (Hsub i Hi)). cbv beta in *. lia.
Qed.

Lemma service_step_length c i t s s' :
  service_step c i t s = Some s' -> List.length (x_service s') = List.length (x_service s).
Proof.
  unfold service_step, lock_client. intros Hs.
  destruct t; repeat (case_match; try discriminate); try discriminate; simplify_option_eq; cbn; by rewrite ?length_insert.
Qed.

Ltac own_step :=
  match goal with
  | Hset : forall t' s1, _ -> _, Hk : known ?t ?s |- owned _ =>
      eexists; split; [by apply Hset|]; split; [cbn; done|];
      apply (known_mono t _ s); [cbn; set_solver | cbn; rewrite ?length_fmap; lia | exact Hk]
  end.

Lemma control_step_owned c s s' t :
  x_control s = [t] -> x_server_mutex s = (if holds_server t then Some 0%nat else None) -> known t s ->
  control_step c 0 t s = Some s' -> owned s'.
Proof.
  intros Hc Hm Hk Hs. unfold control_step, lock_server, lock_client in Hs.
  assert (Hset : forall t' s1, x_control s1 = [t] -> x_control (set_control 0 t' s1) = [t']) by (intros t' s1 E; cbn; by rewrite E).
  destruct t as [rc|cfg|cfg|l|l|l|l [|w ws]| |l ws a|l ws a|l ws a|l ws a|l ws|l ws|[|w ws]|]; cbn [holds_server] in Hm.
  - destruct c; try discriminate; rewrite Hm in Hs; injection Hs as <-; own_step.
  - destruct (x_running s); injection Hs as <-; own_step.
  - destruct c as [| | | | | | |a]; try discriminate. destruct (prepare cfg a (x_tls s)) as [[port|] t]; injection Hs as <-; own_step.
  - destruct c; try discriminate; [|injection Hs as <-; own_step]. destruct (Nat.ltb _ _); injection Hs as <-.
    + exists (TSpawn l). split; [done|]. split; [done|]. unfold known in *. cbn in *. rewrite length_app. cbn.
      rewrite !Forall_app in *. destruct Hk as [Hk1 Hk2]. repeat split; [|repeat constructor; lia|];
        eapply Forall_impl; try done; cbv beta; lia.
    + eexists. split; [by apply Hset|]. split; [done|]. unfold known in *. cbn in *. rewrite length_app. cbn.
      rewrite !Forall_app in *. destruct Hk as [Hk1 Hk2]. split; [|repeat constructor; lia].
      eapply Forall_impl; [done|]. cbv beta. lia.
  - injection Hs as <-. own_step.
  - injection Hs as <-. own_step.
  - injection Hs as <-. own_step.
  - destruct (finished w s); [|discriminate]. injection Hs as <-. own_step.
  - destruct (x_running s); injection Hs as <-; own_step.
  - destruct (x_client_mutex s); [discriminate|]. injection Hs as <-. own_step.
  - injection Hs as <-. destruct (close_clients_frame s) as (Ef & Ec & _). pose proof (close_clients_rest s) as Er.
    generalize dependent (close_clients s). intros s1 Ef Ec Er. injection Er as _ Em _ _ _ _ _ E4 E5 _ _ _ _.
    eexists. split; [apply Hset; cbn; congruence|]. split; [cbn; congruence|].
    apply (known_mono (PClients l ws a) _ s); [cbn; rewrite E4, E5; set_solver | cbn; rewrite Ef; lia | exact Hk].
  - injection Hs as <-. own_step.
  - destruct a as [i|]; [destruct (finished i s); [|discriminate]|]; injection Hs as <-; own_step.
  - rewrite Hm in Hs. injection Hs as <-. own_step.
  - injection Hs as <-. destruct l as [i|]; [destruct (bool_decide (x_listen s = Some i))|]; own_step.
  - injection Hs as <-. own_step.
  - destruct (finished w s); [|discriminate]. injection Hs as <-. own_step.
  - injection Hs as <-. own_step.
Qed.

Lemma any_step_owned s s' : any_step s s' -> owned s -> owned s'.
Proof.
  intros Hstep (c & Hc & Hm & Hk). destruct Hstep as ([i|k] & ch & H); cbn [run_step] in H.
  - destruct (x_service s !! i) as [t|] eqn:E; [|discriminate].
    pose proof (service_step_length ch i t s s' H) as Hlen.
    destruct (service_step_frame ch i t s s' E H) as (Hframe & _). injection Hframe as _ Em _ _ _ _ _ E4 E5 _ _ _ Ec.
    exists c. split; [congruence|]. split; [congruence|].
    apply (known_mono c _ s); [by rewrite E4, E5 | rewrite Hlen; lia | exact Hk].
  - destruct (x_control s !! k) as [t|] eqn:E; [|discriminate]. rewrite Hc in E.
    apply list_lookup_singleton_Some in E as [-> <-]. by eapply control_step_owned.
Qed.

Lemma init_owned : owned (exporter_init 1).
Proof. exists (CIdle 0). split; [done|]. split; [done|]. constructor. Qed.

(** *** Work left *)

Definition rank (t : service) : nat :=
  match t with
  | ADone | WDone => 0
  | ATest _ | ARetest _ | WTrue => 1
  | AAccept _ | AReject _ _ | ANotify _ | WHold => 2
  | AHold _ _ | WLock => 3
  | AGot _ _ | WServe _ | WWait => 4
  | WCommit => 5
  end.

Definition work (s : exporter) : nat := sum_list_with rank (x_service s) + 10 * List.length (x_clients s).

Definition weight (c : control) (s : exporter) : nat :=
  match c with
  | PExchange => 9 + List.length (x_workers s)
  | PMoved _ ws _ => 8 + List.length ws
  | PClients _ ws _ => 7 + List.length ws
  | PNotify _ ws _ => 6 + List.length ws
  | PJoinAccept _ ws _ => 5 + List.length ws
  | PClose _ ws => 4 + List.length ws
  | PListener _ ws => 3 + List.length ws
  | PJoin ws => 2 + List.length ws
  | PTls => 1
  | _ => 0
  end.

Lemma rank_insert (l : list service) i t t' :
  l !! i = Some t -> (sum_list_with rank (<[i := t']> l) + rank t = sum_list_with rank l + rank t')%nat.
Proof.
  revert i. induction l as [|u l IH]; intros [|i] H; [done..| |].
  - injection H as ->. change (<[0%nat := t']> (t :: l)) with (t' :: l). cbn [sum_list_with]. lia.
  - change (<[S i := t']> (u :: l)) with (u :: <[i := t']> l). cbn [sum_list_with]. specialize (IH i H). lia.
Qed.

Lemma rank_wake l : (sum_list_with rank (wake <$> l) <= sum_list_with rank l)%nat.
Proof. induction l as [|t l IH]; [done|]. cbn. assert (rank (wake t) <= rank t)%nat by (destruct t; cbn; lia). lia. Qed.

(** With [running_] down, every step of a service thread is progress. *)
Lemma service_step_work c i t s s' :
  x_running s = false -> x_service s !! i = Some t -> c <> Spurious -> (forall fd, c <> Client fd) ->
  service_step c i t s = Some s' -> (work s' < work s)%nat.
Proof.
  intros Hr Hi Hc1 Hc2 Hs. pose proof (fun t' => rank_insert (x_service s) i t t' Hi) as Hrank. unfold work.
  unfold service_step, lock_client in Hs. rewrite Hr in Hs. cbn [negb orb andb] in Hs.
  destruct t as [l|l|l|l fd|l fd|l|l fd| | | | | | |fd|]; try discriminate;
    try (injection Hs as <-; cbn; match goal with |- context [<[i := ?t']> _] => specialize (Hrank t') end; cbn in Hrank; lia).
  - destruct c as [| |fd| | | | |]; try discriminate; [|by destruct (Hc2 fd)].
    injection Hs as <-; cbn. specialize (Hrank (ARetest l)). cbn in Hrank. lia.
  - destruct (x_client_mutex s); [discriminate|]. injection Hs as <-. cbn. specialize (Hrank (AHold l fd)). cbn in Hrank. lia.
  - rewrite andb_false_r in Hs. injection Hs as <-. cbn. specialize (Hrank (AReject l fd)). cbn in Hrank. lia.
  - destruct c as [| | |j| | | |]; try discriminate.
    + destruct (existsb _ _); [discriminate|]. injection Hs as <-. cbn. specialize (Hrank (ATest l)). cbn in Hrank. lia.
    + destruct (x_service s !! j) as [[]|] eqn:Ej; try discriminate. injection Hs as <-. cbn.
      pose proof (rank_insert (x_service s) j WWait WLock Ej) as Hj.
      assert (Hi' : <[j := WLock]> (x_service s) !! i = Some (ANotify l)) by (rewrite list_lookup_insert_ne; [done | congruence]).
      pose proof (rank_insert _ i _ (ATest l) Hi') as Hi2. cbn in *. lia.
  - destruct (x_client_mutex s); [discriminate|]. injection Hs as <-. cbn. specialize (Hrank WHold). cbn in Hrank. lia.
  - destruct c; try discriminate. done.
  - destruct (x_clients s) as [|fd q] eqn:Eq; injection Hs as <-; cbn.
    + specialize (Hrank WDone). cbn in Hrank. rewrite ?Eq. cbn. lia.
    + specialize (Hrank (WServe fd)). cbn in Hrank. lia.
Qed.

(** A thread that holds [client_mutex_] can go on. *)
Lemma holder_moves s i t :
  x_service s !! i = Some t -> holds t = true -> x_running s = false -> exists s', service_step Go i t s = Some s'.
Proof.
  intros Hi Hh Hr. destruct t; try done; cbn [service_step]; [|by eexists..|].
  - case_match; by eexists.
  - case_match; by eexists.
Qed.

(** Whoever waits for [client_mutex_] can be served. *)
Lemma mutex_progress s c :
  mutex_inv s -> x_control s = [c] -> holds_client c = false -> x_running s = false -> x_client_mutex s <> None ->
  exists i t s', x_service s !! i = Some t /\ service_step Go i t s = Some s'.
Proof.
  intros [H1 H2] Hc Hh Hr Hm. destruct (x_client_mutex s) as [[i|k]|] eqn:E; [| |done].
  - destruct (proj1 (H1 i) eq_refl) as (t & Hi & Ht). destruct (holder_moves s i t Hi Ht Hr) as [s' Hs]. by exists i, t, s'.
  - destruct (proj1 (H2 k) eq_refl) as (t & Hk & Ht). rewrite Hc in Hk. apply list_lookup_singleton_Some in Hk as [_ <-]. congruence.
Qed.

(** After the wake-up, a thread that has not returned goes on, or the holder of the mutex does. *)
Lemma thread_progress s c i :
  mutex_inv s -> x_control s = [c] -> holds_client c = false -> x_running s = false ->
  no_thread is_waiting s -> accepts_on (fun l => l ∈ x_shut s) s ->
  (i < List.length (x_service s))%nat -> finished i s = false ->
  exists j t ch s', x_service s !! j = Some t /\ forced (Service j) ch s /\ service_step ch j t s = Some s' /\
    ch <> Spurious /\ forall fd, ch <> Client fd.
Proof.
  intros Hm Hc Hh Hr Hw Ha Hlt Hf. destruct (lookup_lt_is_Some_2 _ _ Hlt) as [t Hi]. unfold finished in Hf. rewrite Hi in Hf.
  assert (Hgo : forall j u s', x_service s !! j = Some u -> service_step Go j u s = Some s' ->
    exists j t ch s', x_service s !! j = Some t /\ forced (Service j) ch s /\ service_step ch j t s = Some s' /\
      ch <> Spurious /\ forall fd, ch <> Client fd) by (intros j u s' Hj Hs; by exists j, u, Go, s').
  assert (Hlock : x_client_mutex s <> None ->
    exists j t ch s', x_service s !! j = Some t /\ forced (Service j) ch s /\ service_step ch j t s = Some s' /\
      ch <> Spurious /\ forall fd, ch <> Client fd).
  { intros Hne. destruct (mutex_progress s c Hm Hc Hh Hr Hne) as (j & u & s' & Hj & Hs). by eapply Hgo. }
  destruct t as [l|l|l|l fd|l fd|l|l fd| | | | | | |fd|]; try done; try by (eapply Hgo; [exact Hi | done]).
  - exists i, (AAccept l), Fail, (set_service i (ARetest l) s). split; [done|]. split; [exists l; split; [done|]|done].
    by eapply (Ha i).
  - destruct (x_client_mutex s) eqn:E; [by apply Hlock|]. eapply Hgo; [exact Hi|]. cbn. unfold lock_client. by rewrite E.
  - destruct (holder_moves s i _ Hi eq_refl Hr) as [s' Hs]. by eapply Hgo.
  - eapply Hgo; [exact Hi|]. cbn. destruct (existsb is_waiting (x_service s)) eqn:E; [|done]. exfalso.
    apply existsb_exists in E as (u & Hu & Hwu). apply list_elem_of_In, list_elem_of_lookup_1 in Hu as [j Hj].
    by rewrite (Hw j u Hj) in Hwu.
  - destruct (x_client_mutex s) eqn:E; [by apply Hlock|]. eapply Hgo; [exact Hi|]. cbn. unfold lock_client. by rewrite E.
  - by specialize (Hw i WWait Hi).
  - destruct (holder_moves s i _ Hi eq_refl Hr) as [s' Hs]. by eapply Hgo.
Qed.

(** *** The stop goes on until it returns *)

Definition measure (s : exporter) : nat :=
  work s + match x_control s with [c] => weight c s | _ => 0 end.

(** Inside a stop some forced step makes progress, and the stop goes on or returns. *)
Lemma stop_progress s c :
  solo s -> owned s -> x_control s = [c] -> in_stop c = true ->
  exists s' c', forced_step s s' /\ x_control s' = [c'] /\ (in_stop c' = true \/ c' = CIdle 0) /\ (measure s' < measure s)%nat.
Proof.
  intros ((c0 & Hc0 & Hp) & Hm & _ & _) (c1 & Hc1 & Hsm & Hk) Hc Hin.
  rewrite Hc in Hc0, Hc1. injection Hc0 as <-. injection Hc1 as <-.
  (* a step of the controlling thread *)
  assert (Hctl : forall s' c', control_step Go 0 c s = Some s' -> x_control s' = [c'] ->
    (in_stop c' = true \/ c' = CIdle 0) -> (work s' <= work s)%nat -> (weight c' s' < weight c s)%nat ->
    exists s' c', forced_step s s' /\ x_control s' = [c'] /\ (in_stop c' = true \/ c' = CIdle 0) /\ (measure s' < measure s)%nat).
  { intros s' c' Hs Hc' Hin' Hw1 Hw2. exists s', c'. split; [|split; [done|split; [done|]]].
    - exists (Control 0), Go. split; [done|]. cbn. by rewrite Hc.
    - unfold measure. rewrite Hc', Hc. lia. }
  (* a step of a service thread *)
  assert (Hsvc : forall j t ch s', x_running s = false -> x_service s !! j = Some t -> forced (Service j) ch s ->
    service_step ch j t s = Some s' -> ch <> Spurious -> (forall fd, ch <> Client fd) ->
    exists s' c', forced_step s s' /\ x_control s' = [c'] /\ (in_stop c' = true \/ c' = CIdle 0) /\ (measure s' < measure s)%nat).
  { intros j t ch s' Hr Hj Hf Hs Hne1 Hne2. pose proof (service_step_work ch j t s s' Hr Hj Hne1 Hne2 Hs) as Hw.
    destruct (service_step_frame ch j t s s' Hj Hs) as (Hframe & _). injection Hframe as _ _ _ _ _ _ _ E4 _ _ _ _ Ec.
    exists s', c. split; [|split; [congruence|split; [by left|]]].
    - exists (Service j), ch. split; [done|]. cbn. by rewrite Hj.
    - unfold measure. rewrite Ec, Hc. assert (weight c s' = weight c s) by (destruct c; cbn; by rewrite ?E4). lia. }
  assert (Hset : forall t' s1, x_control s1 = [c] -> x_control (set_control 0 t' s1) = [t']) by (intros t' s1 E; cbn; by rewrite E).
  (* waiting for a thread *)
  assert (Hjoin : forall i l L, stopping l L s -> woken s -> holds_client c = false -> i ∈ handles c -> finished i s = false ->
    exists s' c', forced_step s s' /\ x_control s' = [c'] /\ (in_stop c' = true \/ c' = CIdle 0) /\ (measure s' < measure s)%nat).
  { intros i l L ((Hr & _) & _ & _ & _ & Ha) (_ & Hw) Hh Hi Hf.
    assert (Hlt : (i < List.length (x_service s))%nat) by (unfold known in Hk; rewrite Forall_app in Hk; destruct Hk as [Hk _]; by rewrite Forall_forall in Hk; apply Hk).
    destruct (thread_progress s c i Hm Hc Hh Hr Hw Ha Hlt Hf) as (j & t & ch & s' & Hj & Hfo & Hs & Hn1 & Hn2). by eapply Hsvc. }
  destruct c as [rc|cfg|cfg|l|l|l|l ws0| |l ws a|l ws a|l ws a|l ws a|l ws|l ws|[|w ws]|]; try done; cbn [phase] in Hp; cbn [holds_server] in Hsm.
  - destruct (x_running s) eqn:Er.
    + eapply Hctl; [cbn [control_step]; rewrite Er; done | by apply Hset | by left | done | cbn; lia].
    + eapply Hctl; [cbn [control_step]; rewrite Er; done | by apply Hset | by right | done | cbn; lia].
  - destruct (x_client_mutex s) eqn:Em.
    + destruct Hp as ((Hr & _) & _). destruct (mutex_progress s _ Hm Hc eq_refl Hr) as (j & t & s' & Hj & Hs); [by rewrite Em|].
      by eapply (Hsvc j t Go).
    + eapply Hctl; [cbn [control_step]; unfold lock_client; rewrite Em; done | by apply Hset | by left | done | cbn; lia].
  - destruct (close_clients_frame s) as (Ef & Ec & Eq). eapply Hctl; [done | apply Hset; cbn -[close_clients]; congruence | by left | | cbn; lia].
    unfold work, set_control, unlock_client. cbn -[close_clients]. rewrite Ef, Eq. cbn. lia.
  - eapply Hctl; [done | by apply Hset | by left | | cbn; lia]. unfold work. cbn. pose proof (rank_wake (x_service s)). lia.
  - destruct Hp as [Hstop Hwok]. destruct a as [i|].
    + destruct (finished i s) eqn:Ef.
      * eapply Hctl; [cbn [control_step]; rewrite Ef; done | by apply Hset | by left | done | cbn; lia].
      * eapply (Hjoin i); [done | done | done | cbn; apply elem_of_app; right; left | done].
    + eapply Hctl; [done | by apply Hset | by left | done | cbn; lia].
  - eapply Hctl; [cbn [control_step]; unfold lock_server; rewrite Hsm; done | by apply Hset | by left | done | cbn; lia].
  - eapply Hctl; [done | apply Hset | by left | | cbn; lia].
    + destruct l as [i|]; [destruct (bool_decide _)|]; done.
    + destruct l as [i|]; [destruct (bool_decide _)|]; done.
  - eapply Hctl; [done | by apply Hset | by left | done | cbn; lia].
  - destruct Hp as [Hstop Hwok]. destruct (finished w s) eqn:Ef.
    + eapply Hctl; [cbn [control_step]; rewrite Ef; done | by apply Hset | by left | done | cbn; lia].
    + eapply (Hjoin w); [done | done | done | cbn; left | done].
  - eapply Hctl; [done | by apply Hset | by right | done | cbn; lia].
Qed.

Lemma forced_any s s' : forced_step s s' -> any_step s s'.
Proof. intros (who & c & _ & H). by exists who, c. Qed.

Lemma reachable_owned s : reachable 1 s -> owned s.
Proof.
  intros H. exact (rtc_preserves _ owned _ _ any_step_owned H init_owned).
Qed.

(** C32 (liveness). With one controlling thread no interleaving gets stuck in a stop: from every reachable state inside
    one, whatever workers and accept thread are doing, steps that must happen lead to its return; only the four workers,
    the accept thread and the caller move, and accepting fails only on the socket that was shut down. *)
Theorem stop_always_returns s c :
  reachable 1 s -> x_control s = [c] -> in_stop c = true ->
  exists s', rtc forced_step s s' /\ x_control s' = [CIdle 0].
Proof.
  intros Hreach Hc Hin. pose proof (reachable_solo s Hreach) as Hsolo. pose proof (reachable_owned s Hreach) as Hown. clear Hreach.
  revert s c Hsolo Hown Hc Hin. induction s as [s IH] using (induction_ltof1 _ measure). unfold ltof in IH.
  intros c Hsolo Hown Hc Hin. destruct (stop_progress s c Hsolo Hown Hc Hin) as (s1 & c1 & Hstep & Hc1 & [Hin1| ->] & Hlt).
  - pose proof (forced_any _ _ Hstep) as Hany.
    destruct (IH s1 Hlt c1) as (s' & Hrun & Hend); [by eapply any_step_solo | by eapply any_step_owned | done | done|].
    exists s'. split; [by eapply rtc_l | done].
  - exists s1. split; [by apply rtc_once | done].
Qed.

(** ** Runs *)

Fixpoint run_trace (trace : list (actor * choice)) (s : exporter) : option exporter :=
  match trace with
  | [] => Some s
  | (who, c) :: trace => match run_step who c s with Some s => run_trace trace s | None => None end
  end.

Lemma run_trace_reachable n trace s : run_trace trace (exporter_init n) = Some s -> reachable n s.
Proof.
  unfold reachable. generalize (exporter_init n) as s0. induction trace as [|[who c] trace IH]; cbn; intros s0 H; [by injection H as ->|].
  destruct (run_step who c s0) as [s1|] eqn:E; [|discriminate]. eapply rtc_l; [by exists who, c | by apply IH].
Qed.

Definition good_setup : choice := Setup (mkSetup 3 true 0 0 (Some 9464) (mkTlsAnswers true 1 1 1) false).
Definition start_trace (k : nat) (workers : nat) : list (actor * choice) :=
  [(Control k, CallStart default_exporter_config); (Control k, Go); (Control k, good_setup)] ++ replicate workers (Control k, Go).

(** *** A start that fails can hang *)

Definition calm_step (s s' : exporter) : Prop := exists who c, c <> Spurious /\ run_step who c s = Some s'.

(** A worker sleeps, the failed start waits for it, and no thread is left to wake it. *)
Definition stuck_start (l w : nat) (ws : list nat) (s : exporter) : Prop :=
  x_control s = [TFailJoin l (w :: ws)] /\ x_service s !! w = Some WWait /\ accepts_on (fun _ => False) s.

Lemma stuck_start_step l w ws s s' : calm_step s s' -> stuck_start l w ws s -> stuck_start l w ws s'.
Proof.
  intros ([i|k] & c & Hne & H) (Hc & Hw & Ha); cbn [run_step] in H.
  - destruct (x_service s !! i) as [t|] eqn:E; [|discriminate].
    destruct (service_step_frame c i t s s' E H) as (Hframe & _). injection Hframe as _ _ _ _ _ _ _ _ _ _ _ _ Ec.
    split; [congruence|]. split; [|exact (move_accepts c i t s s' E H _ Ha)].
    assert (Hiw : i <> w).
    { intros ->. rewrite Hw in E. injection E as <-. destruct c; done. }
    assert (Ht : listener_of t = None) by (destruct (listener_of t) as [l'|] eqn:El; [exfalso; by eapply (Ha i t l') | done]).
    unfold service_step, lock_client in H. destruct t; try done; repeat (case_match; try discriminate);
      simplify_option_eq; cbn; by rewrite list_lookup_insert_ne.
  - rewrite Hc in H. destruct k as [|k]; [|by destruct k]. cbn in H. unfold finished in H. rewrite Hw in H. discriminate.
Qed.

(** The notification of the failed start is sent without [client_mutex_]: a worker that tested the condition before
    and falls asleep after it is never woken, and the start never returns. *)
Theorem failed_start_can_hang :
  exists s l ws, reachable 1 s /\ x_control s = [TFailJoin l ws] /\
    forall s', rtc calm_step s s' -> x_control s' = [TFailJoin l ws].
Proof.
  pose (trace := start_trace 0 1 ++ [(Service 0, Go); (Service 0, Go); (Control 0, Fail); (Control 0, Go); (Control 0, Go); (Service 0, Go)]).
  destruct (run_trace trace (exporter_init 1)) as [s|] eqn:E; [|vm_compute in E; discriminate].
  assert (Hs : stuck_start 0 0 [] s).
  { vm_compute in E. injection E as <-. split; [done|]. split; [done|]. intros i t l Hi Hl. destruct i; by simplify_eq/=. }
  exists s, 0%nat, [0%nat]. split; [by eapply run_trace_reachable|]. split; [apply Hs|].
  intros s' Hrun. by apply (rtc_preserves _ _ _ _ (stuck_start_step 0 0 []) Hrun Hs).
Qed.

(** *** A start during a stop *)

(** Steps of everyone, as long as nobody calls stop. *)
Definition no_stop_step (s s' : exporter) : Prop := exists who c, c <> CallStop /\ run_step who c s = Some s'.

(** The accept thread of the stopped server spins on its closed socket. *)
Definition spinning (l : nat) (t : service) : bool :=
  match t with ATest l' | AAccept l' | ARetest l' => Nat.eqb l' l | _ => false end.

Definition blocked_stop (l a : nat) (ws : list nat) (s : exporter) : Prop :=
  x_running s = true /\ l ∈ x_shut s /\ (exists t, x_service s !! a = Some t /\ spinning l t = true) /\
  exists c1, x_control s = [PJoinAccept (Some l) ws (Some a); c1] /\ match c1 with CIdle _ | TCheck _ => True | _ => False end.

Lemma blocked_stop_step l a ws s s' : no_stop_step s s' -> blocked_stop l a ws s -> blocked_stop l a ws s'.
Proof.
  intros ([i|k] & c & Hne & H) (Hr & Hl & (ta & Hta & Hsp) & c1 & Hc & Hc1); cbn [run_step] in H.
  - destruct (x_service s !! i) as [t|] eqn:E; [|discriminate].
    destruct (service_step_frame c i t s s' E H) as (Hframe & (t' & Hm & _) & _). injection Hframe as Er _ _ _ _ _ _ _ _ _ Es _ Ec.
    split; [congruence|]. split; [congruence|]. split; [|exists c1; split; [congruence | done]].
    destruct (decide (i = a)) as [->|Hia].
    + rewrite Hta in E. injection E as <-. pose proof (lookup_lt_Some _ _ _ Hta) as Hlt.
      destruct ta as [l'|l'|l'| | | | | | | | | | | |]; try done; cbn [spinning] in Hsp; cbn [service_step] in H; rewrite ?Hr in H; cbn [negb] in H.
      * injection H as <-. exists (AAccept l'). cbn. by rewrite list_lookup_insert_eq.
      * apply Nat.eqb_eq in Hsp as ->. destruct c; try discriminate.
        -- injection H as <-. exists (ARetest l). cbn. rewrite list_lookup_insert_eq by done. by rewrite Nat.eqb_refl.
        -- rewrite (bool_decide_eq_true_2 (l ∈ x_shut s)), orb_true_r in H by done. discriminate.
      * injection H as <-. exists (ATest l'). cbn. by rewrite list_lookup_insert_eq.
    + exists ta. split; [|done]. unfold service_step, lock_client in H.
      destruct t; repeat (case_match; try discriminate); try discriminate; simplify_option_eq; cbn;
        rewrite list_lookup_insert_ne by done; try done;
        (rewrite list_lookup_insert_ne; [done|]; intros Heq; subst; assert (ta = WWait) as -> by congruence; done).
  - rewrite Hc in H. destruct k as [|[|k]]; [| |by destruct k]; cbn [lookup list_lookup] in H.
    + cbn in H. unfold finished in H. rewrite Hta in H. by destruct ta.
    + unfold blocked_stop. destruct c1; try done; cbn [control_step] in H; unfold lock_server in H.
      * destruct c; try discriminate; [|done]. destruct (x_server_mutex s); [discriminate|]. injection H as <-.
        split; [done|]. split; [done|]. split; [by exists ta|]. eexists. cbn. by rewrite Hc.
      * rewrite Hr in H. injection H as <-. split; [done|]. split; [done|]. split; [by exists ta|]. eexists. cbn. by rewrite Hc.
Qed.

(** A start that is accepted while a stop waits for its threads raises [running_] again: the old accept thread keeps
    trying to accept on the socket that was shut down, and the stop does not return unless somebody stops once more. *)
Theorem overlapping_start_blocks_stop :
  exists s l ws a, reachable 2 s /\ x_control s !! 0%nat = Some (PJoinAccept (Some l) ws (Some a)) /\
    x_control s !! 1%nat = Some (CIdle 0) /\
    forall s', rtc no_stop_step s s' -> x_control s' !! 0%nat = Some (PJoinAccept (Some l) ws (Some a)).
Proof.
  pose (trace := start_trace 0 5 ++ [(Control 0, CallStop); (Control 0, Go)] ++ start_trace 1 5 ++ [(Control 0, Go); (Control 0, Go); (Control 0, Go)]).
  destruct (run_trace trace (exporter_init 2)) as [s|] eqn:E; [|vm_compute in E; discriminate].
  assert (Hs : blocked_stop 0 4 [0; 1; 2; 3]%nat s /\ x_control s !! 1%nat = Some (CIdle 0)).
  { vm_compute in E. injection E as <-. split; [|done]. split; [done|]. split; [by left|]. split; [by eexists|]. by eexists. }
  destruct Hs as [Hs Hs1]. exists s, 0%nat, [0; 1; 2; 3]%nat, 4%nat. split; [by eapply run_trace_reachable|].
  split; [destruct Hs as (_ & _ & _ & c1 & -> & _); done|]. split; [done|].
  intros s' Hrun. pose proof (rtc_preserves _ _ _ _ (blocked_stop_step 0 4 [0; 1; 2; 3]%nat) Hrun Hs) as H'.
  destruct H' as (_ & _ & _ & c1 & -> & _). done.
Qed.

(** *** A server with a client *)

Definition client_trace : list (actor * choice) :=
  start_trace 0 5 ++ [(Service 4, Go); (Service 4, Client 7); (Service 4, Go); (Service 4, Go); (Service 4, Go);
                      (Service 0, Go); (Service 0, Go); (Service 0, Go)].

Lemma clients_have_one_owner_witness :
  exists s, reachable 1 s /\ x_open s = [7] /\ x_service s !! 0%nat = Some (WServe 7) /\
  NoDup (x_open s) /\ x_open s ≡ₚ x_clients s ++ List.concat (held <$> x_service s) /\
  (List.length (x_clients s) <= 32)%nat /\
  (forall i j t u fd, x_service s !! i = Some t -> x_service s !! j = Some u -> held t = [fd] -> held u = [fd] -> i = j) /\
  (forall i t fd, x_service s !! i = Some t -> held t = [fd] -> fd ∈ x_open s /\ fd ∉ x_clients s).
Proof.
  destruct (run_trace client_trace (exporter_init 1)) as [s|] eqn:E; [|vm_compute in E; discriminate].
  assert (H : reachable 1 s) by exact (run_trace_reachable 1 client_trace s E).
  exists s. split; [exact H|]. split; [vm_compute in E; injection E as <-; reflexivity|].
  split; [vm_compute in E; injection E as <-; reflexivity|]. exact (clients_have_one_owner 1 s H).
Defined.

(** A stop in the middle of a connection. *)
Definition stopping_trace : list (actor * choice) := client_trace ++ [(Control 0, CallStop); (Control 0, Go)].

Lemma stop_always_returns_witness :
  exists s l ws a, reachable 1 s /\ x_control s = [PMoved l ws a] /\
  exists s', rtc forced_step s s' /\ x_control s' = [CIdle 0].
Proof.
  destruct (run_trace stopping_trace (exporter_init 1)) as [s|] eqn:E; [|vm_compute in E; discriminate].
  assert (H : reachable 1 s) by exact (run_trace_reachable 1 stopping_trace s E).
  assert (Hc : x_control s = [PMoved (Some 0) [0; 1; 2; 3] (Some 4)]%nat) by (vm_compute in E; injection E as <-; reflexivity).
  exists s, (Some 0%nat), [0; 1; 2; 3]%nat, (Some 4%nat). split; [exact H|]. split; [exact Hc|].
  exact (stop_always_returns s _ H Hc eq_refl).
Defined.

(** A start whose second worker cannot be created. *)
Definition failed_trace : list (actor * choice) :=
  start_trace 0 1 ++ [(Control 0, Fail); (Control 0, Go); (Control 0, Go); (Service 0, Go); (Service 0, Go); (Service 0, Go);
                      (Control 0, Go); (Control 0, Go)].

Lemma resting_exporter_owns_nothing_witness :
  exists s, reachable 1 s /\ x_control s = [CIdle (-1)] /\
  ((forall i t, x_service s !! i = Some t -> is_done t = true) /\
   x_open s = [] /\ x_clients s = [] /\ x_listeners s = [] /\ tl_live (x_tls s) = [] /\ x_statsd s = false).
Proof.
  destruct (run_trace failed_trace (exporter_init 1)) as [s|] eqn:E; [|vm_compute in E; discriminate].
  assert (H : reachable 1 s) by exact (run_trace_reachable 1 failed_trace s E).
  assert (Hc : x_control s = [CIdle (-1)]) by (vm_compute in E; injection E as <-; reflexivity).
  assert (Hr : x_running s = false) by (vm_compute in E; injection E as <-; reflexivity).
  exists s. split; [exact H|]. split; [exact Hc|]. exact (resting_exporter_owns_nothing s (-1) H Hc Hr).
Defined.
