(* ===== verification/Workload.v ===== *)
(** * Workload: the built-in shim and the timed workload loop

    The executable of [src/src/thermal_simd.c] runs its own kernel, a call of the
    selected trampoline slot with two integers.  [simd_shim] takes one coherent
    selection, enters the width, runs the bytes of the slot (see [Machine.v]),
    leaves; a wide width that is refused is replaced by SSE4.1.  The workload
    repeats it in batches until a duration has passed.

    The state is the process of [Lifecycle.v] with the vector registers of the
    running thread, the slots it called, the exporter calls and the log lines of
    the program.  Other threads run between the steps of the shim: at such a
    point they publish guard state, select other widths, and signals arrive. *)
From S2P Require Import Prelude Float64 Config World Cpu TrampolineState Guard Trampoline Machine Dispatch Perf PerfMode Lifecycle Exporter.
From Stdlib Require Import Ascii String.
#[local] Open Scope string_scope.
#[local] Open Scope Z_scope.

(** A call of a slot: its address, the width it was taken for, and the wide
    executions then in flight. *)
Record shim_call : Type := mkShimCall { sh_target : Z; sh_width : simd_width_t; sh_active : Z }.

Inductive exporter_event : Type :=
  | ExporterStart (cfg : tsd_metrics_exporter_config_t) (rc : Z)
  | ExporterStop.

Record program : Type := mkProgram {
  pr_l : lstate;
  pr_regs : vregs;
  pr_fault : bool;                       (** an instruction faulted *)
  pr_shim : list shim_call;              (** slots called, oldest first *)
  pr_exporter : list exporter_event;     (** exporter calls, oldest first *)
  pr_handlers : list Z;                  (** signals with a handler of the program *)
  pr_level : Z;                          (** the log level *)
  pr_log : list (Z * string);            (** messages with their level, oldest first *)
}.
#[export] Instance eta_program : Eta program := fun r =>
  mkProgram (pr_l r) (pr_regs r) (pr_fault r) (pr_shim r) (pr_exporter r) (pr_handlers r) (pr_level r) (pr_log r).

Abbreviation PG := (ST program).

Definition SIGHUP : Z := 1.
Definition SIGINT : Z := 2.
Definition SIGTERM : Z := 15.

Class ProgramEnv : Type := mkProgramEnv {
  pg_others : nat -> list tramp_call;    (** what other threads call at a point where they run *)
  pg_signals : nat -> list Z;            (** signals delivered at a point *)
  pg_exporter : nat -> Z;                (** [tsd_metrics_exporter_start_with_config] *)
  pg_port : nat -> Z;                    (** [tsd_metrics_exporter_listen_port] *)
  pg_sigaction : nat -> Z;
  pg_strerror : Z -> string;
}.

Section workload.
Context `{EV : Env, GE : ProgramEnv}.

Definition on_l {A} (m : LM A) : PG A := fun p => let '(a, l) := m (pr_l p) in (a, p <| pr_l := l |>).
Definition on_world {A} (m : M A) : PG A := on_l (on_w m).

Definition config : PG tsd_runtime_config := on_world tsd_runtime_config_active_snapshot.

(** ** Signals and other threads *)

Definition tsd_handle_sighup : M unit := modify (fun w => w <| w_reload_requested := true |>).
Definition tsd_handle_shutdown_signal : M unit := modify (fun w => w <| w_stop_requested := true |>).

(** The handler of a signal; one without a handler is not delivered (its default
    action ends the process). *)
Definition deliver (sig : Z) : PG unit :=
  handlers <- gets pr_handlers ;;
  when (existsb (Z.eqb sig) handlers)
    (on_world (if sig =? SIGHUP then tsd_handle_sighup else tsd_handle_shutdown_signal)).

Fixpoint deliver_all (sigs : list Z) : PG unit :=
  match sigs with [] => ret tt | sig :: sigs => deliver sig ;;; deliver_all sigs end.

(** The in-flight counters are changed by the entering thread only. *)
Definition may_call (c : tramp_call) : bool := match c with CGuard op => is_writer op | _ => true end.

Definition threads_run : M unit :=
  fun w => (tt, run_tramp_calls (List.filter may_call (pg_others (w_calls w))) (w <| w_calls ::= S |>)).

Definition elsewhere : PG unit :=
  sigs <- on_world (ext pg_signals) ;;
  deliver_all sigs ;;;
  on_world threads_run.

(** ** The shim *)

(** A faulting instruction ends the process: the registers stay as they are. *)
Definition simd_shim_unlocked (a b target : Z) (selected : simd_width_t) : PG Z :=
  avx <- on_world tsd_cpu_avx_available ;;
  active <- on_world (gets active_of) ;;
  code <- on_world (gets (fun w => code_at (t_code (w_tramp w)) target)) ;;
  modify (fun p => p <| pr_shim ::= fun l => (l ++ [mkShimCall target selected active])%list |>) ;;;
  elsewhere ;;;
  rs <- gets pr_regs ;;
  match shim_asm avx a b code selected rs with
  | Some (r, rs) => modify (fun p => p <| pr_regs := rs |>) ;;; ret r
  | None => modify (fun p => p <| pr_fault := true |>) ;;; ret 0
  end.

(** The loop of [simd_shim], with the attempts that are left. *)
Fixpoint shim_attempts (n : nat) (a b : Z) : PG Z :=
  match n with
  | O => ret 0
  | S n =>
      let* (rc, snapshot) := on_world tsd_trampoline_state_snapshot in
      if (rc <>? 0) || (sel_active snapshot =? 0) then ret 0
      else
        let selected := sel_width snapshot in
        elsewhere ;;;
        enter_rc <- on_world (tsd_runtime_execution_enter selected) ;;
        if enter_rc =? 0 then
          result <- simd_shim_unlocked a b (sel_active snapshot) selected ;;
          on_world (tsd_runtime_execution_leave selected) ;;;
          ret result
        else
          err <- on_world (gets w_errno) ;;
          if (selected <=? SIMD_SSE41) || (err <>? EAGAIN) then ret 0
          else
            rc <- on_world (tsd_trampoline_patch SIMD_SSE41) ;;
            if rc <>? 0 then ret 0 else shim_attempts n a b
  end.

Definition simd_shim (a b : Z) : PG Z := shim_attempts 2 a b.

(** ** The workload *)

Definition workload_once : PG unit :=
  simd_shim 42 7 ;;;
  on_world (modify (fun w => w <| w_workload_iterations ::= fun c => u64 (c + 1) |>)).

(** The iterations from [i] on, of which [n] are left. *)
Fixpoint workload_from (n : nat) (i : Z) : PG unit :=
  match n with
  | O => ret tt
  | S n =>
      stop <- (if Z.land i 0x3fff =? 0 then on_world (gets w_stop_requested) else ret false) ;;
      if stop then ret tt
      else workload_once ;;; workload_from n (i + 1)
  end.

Definition workload_loop (iterations : Z) : PG unit := workload_from (Z.to_nat iterations) 0.

Record tsd_demo_result_t : Type := mkDemoResult { dr_iterations : Z; dr_elapsed_ns : Z }.

(** Both pointers are those of locals here. *)
Definition monotonic_elapsed_ns (start finish : Z * Z) : Z :=
  let sec := finish.1 - start.1 in
  let nsec := finish.2 - start.2 in
  let '(sec, nsec) := if nsec <? 0 then (sec - 1, nsec + 1000000000) else (sec, nsec) in
  if sec <? 0 then 0 else u64 (u64 (sec * 1000000000) + nsec).

Definition now : PG (option (Z * Z)) := on_world (ext env_clock).

(** The [do ... while] loop: the elapsed time last computed, or [None] when the
    fuel runs out. *)
Fixpoint batches (fuel : nat) (batch : Z) (run_forever : bool) (start : Z * Z) (target_ns elapsed : Z) : PG (option Z) :=
  match fuel with
  | O => ret None
  | S fuel =>
      workload_loop batch ;;;
      stop <- on_world (gets w_stop_requested) ;;
      running <- on_world (gets w_running) ;;
      if stop || negb running then ret (Some elapsed)
      else
        t <- now ;;
        match t with
        | None => ret (Some elapsed)
        | Some t =>
            let elapsed := monotonic_elapsed_ns start t in
            if run_forever || (elapsed <? target_ns) then batches fuel batch run_forever start target_ns elapsed
            else ret (Some elapsed)
        end
  end.

(** [tsd_log_error], [tsd_log_warn], [tsd_log_info] with the formatted text. *)
Definition say (level : Z) (text : string) : PG unit := modify (fun p => p <| pr_log ::= fun l => (l ++ [(level, text)])%list |>).

Definition run_workload (fuel : nat) (duration_sec batch_iterations : Z) (run_forever : bool) : PG (option tsd_demo_result_t) :=
  if (batch_iterations <=? 0) || (negb run_forever && (duration_sec <=? 0)) then ret (Some (mkDemoResult 0 0))
  else
    start <- now ;;
    match start with
    | None => say TSD_LOG_LEVEL_ERROR "CLOCK_MONOTONIC unavailable; cannot run workload" ;;; ret (Some (mkDemoResult 0 0))
    | Some start =>
        before <- on_world (gets w_workload_iterations) ;;
        let target_ns := if run_forever then UINT64_MAX else u64 (duration_sec * 1000000000) in
        done <- batches fuel batch_iterations run_forever start target_ns 0 ;;
        match done with
        | None => ret None
        | Some elapsed =>
            t <- now ;;
            let elapsed := match t with Some t => monotonic_elapsed_ns start t | None => elapsed end in
            after <- on_world (gets w_workload_iterations) ;;
            ret (Some (mkDemoResult (u64 (after - before)) elapsed))
        end
    end.
End workload.

(** ** What other threads leave to the shim *)

Section frames.
Context `{EV : Env}.

(** The depth of the running thread, and AVX reported only where it runs. *)
Definition avx_true (w : world) : Prop := w_avx_available w = true -> runs_avx = true.
Definition thread_frame (w w' : world) : Prop := depth_of w' = depth_of w /\ (avx_true w -> avx_true w').
#[export] Instance thread_frame_preorder : PreOrder thread_frame.
Proof. split; [done|]. intros a b c [H1 H2] [H3 H4]. split; [congruence | auto]. Qed.

(** A code page, once built, stays. *)
Definition page_frame (w w' : world) : Prop := t_page_a (w_tramp w) <> 0 -> t_page_a (w_tramp w') = t_page_a (w_tramp w).
#[export] Instance page_frame_preorder : PreOrder page_frame.
Proof. split; [done|]. intros a b c H1 H2 H. rewrite <- (H1 H). apply H2. by rewrite (H1 H). Qed.

Lemma thread_frame_authorized width : respects thread_frame (tsd_runtime_width_authorized width).
Proof. intros w. destruct (width_authorized_frame width w) as (n & st & sn & ->). done. Qed.
Lemma thread_frame_lock m : respects thread_frame (pthread_mutex_lock m).
Proof. intros w. destruct (lock_run m w) as [(e & He & ->) | -> ]; done. Qed.
Lemma thread_frame_detect cfg : respects thread_frame (tsd_detect_max_simd cfg).
Proof.
  intros w. rewrite detect_run. cbn [snd]. destruct (negb tsd_cpu_has_sse41 || _) eqn:E; [done|].
  apply orb_false_iff in E as [E1 E2]. apply negb_false_iff in E1, E2. destruct cpu_has_avx_bit eqn:E3; [|done].
  split; [done|]. intros _ _. unfold runs_avx. by rewrite E1, E2, E3.
Qed.

Lemma page_frame_authorized width : respects page_frame (tsd_runtime_width_authorized width).
Proof. intros w. destruct (width_authorized_frame width w) as (n & st & sn & ->). done. Qed.
Lemma page_frame_lock m : respects page_frame (pthread_mutex_lock m).
Proof. intros w. destruct (lock_run m w) as [(e & He & ->) | -> ]; done. Qed.
Lemma page_frame_detect cfg : respects page_frame (tsd_detect_max_simd cfg).
Proof. intros w. destruct (detect_frame cfg w) as (n & -> ). done. Qed.

Ltac frame_steps :=
  repeat first
    [ apply thread_frame_authorized | apply thread_frame_lock | apply thread_frame_detect
    | apply page_frame_authorized | apply page_frame_lock | apply page_frame_detect
    | respects_step | (intro; done) ].

Lemma thread_frame_slots n i page : respects thread_frame (write_slots n i page).
Proof.
  revert i. induction n as [|n IH]; intros i; cbn [write_slots]; [frame_steps|].
  unfold discard_code_page, set_error, memcpy_slot. frame_steps; apply IH.
Qed.

Lemma thread_frame_ensure : respects thread_frame ensure_code_page.
Proof.
  unfold ensure_code_page, build_canonical_code_page, discard_code_page, mapping_is_rx_not_writable, set_error.
  repeat first [apply thread_frame_slots | progress frame_steps].
Qed.

Lemma page_frame_ensure : respects page_frame ensure_code_page.
Proof.
  intros w Hp. unfold ensure_code_page. rewrite bind_run. cbn [gets fst snd]. by rewrite (proj2 (Z.eqb_neq _ 0)).
Qed.

Ltac patch_frame_steps :=
  unfold tsd_trampoline_patch, tsd_trampoline_init, tsd_runtime_safety_write_enter, tsd_runtime_safety_write_leave,
    tsd_runtime_is_stopping, tsd_trampoline_patch_impl, select_trampoline, mapping_is_rx_not_writable,
    commit_selection_and_attestation, tsd_trampoline_state_active, tsd_trampoline_state_current_width,
    tsd_trampoline_state_snapshot, tsd_trampoline_state_publish_selection, tsd_metrics_record_width_transition,
    tsd_runtime_config_active_snapshot, set_error, fail;
  repeat first [apply thread_frame_ensure | apply page_frame_ensure | progress frame_steps].

Lemma thread_frame_patch width : respects thread_frame (tsd_trampoline_patch width).
Proof. patch_frame_steps. Qed.
Lemma page_frame_patch width : respects page_frame (tsd_trampoline_patch width).
Proof. patch_frame_steps. Qed.
Lemma thread_frame_init : respects thread_frame tsd_trampoline_init.
Proof. patch_frame_steps. Qed.
Lemma page_frame_init : respects page_frame tsd_trampoline_init.
Proof. patch_frame_steps. Qed.
End frames.

Section shim_facts.
Context `{EV : Env, GE : ProgramEnv, MM : !MmapAligned}.

(** The process as the shim needs it. *)
Record world_ok (w : world) : Prop := {
  wo_system : system_inv w;
  wo_level : t_current_width (w_tramp w) <= host_level;
  wo_avx : avx_true w;
}.

(** What a step elsewhere leaves alone. *)
Record aside (w w' : world) : Prop := {
  as_counts : counts w' = counts w;
  as_page : page_frame w w';
  as_iterations : w_workload_iterations w' = w_workload_iterations w;
  as_running : w_running w' = w_running w;
}.
#[export] Instance aside_preorder : PreOrder aside.
Proof.
  split; [by split|]. intros a b c [] []. split; [congruence | by etransitivity | congruence | congruence].
Qed.

(** From the pieces of the state both read. *)
Definition seen_by_shim (w : world) :=
  (counts w, t_page_a (w_tramp w), w_workload_iterations w, w_running w, w_avx_available w, t_current_width (w_tramp w)).

Lemma seen_same w w' : seen_by_shim w' = seen_by_shim w -> system_inv w' -> world_ok w -> world_ok w' /\ aside w w'.
Proof.
  unfold seen_by_shim. intros [= E1 E2 E3 E4 E5 E6 E7] Hs [_ Hl Ha]. unfold avx_true, counts in *.
  split; split; unfold avx_true, counts, page_frame, active_of, depth_of in *; rewrite ?E1, ?E2, ?E3, ?E4, ?E5, ?E6, ?E7; done.
Qed.

Lemma guard_call_aside op w : is_writer op = true -> world_ok w -> world_ok (run_guard_op op w).2 /\ aside w (run_guard_op op w).2.
Proof.
  intros Ho Hw. pose proof (writer_keeps_counts op Ho w) as Hc. pose proof (run_guard_op_frame op w) as Hf.
  cbv beta in Hc. unfold outside_guard in Hf. apply seen_same; [|by apply guard_op_inv, Hw | done].
  injection Hf as H1 _ _ _ H2 _ H3 H4 _ _ _ _. unfold seen_by_shim. congruence.
Qed.

Lemma patch_call_aside width w :
  world_ok w ->
  let w' := (tsd_trampoline_patch width w).2 in
  world_ok w' /\ aside w w' /\ w_stop_requested w' = w_stop_requested w /\
  ((tsd_trampoline_patch width w).1 = 0 -> t_current_width (w_tramp w') = width /\ t_selection_word (w_tramp w') <> 0).
Proof.
  intros [[Hg Ht] Hl Ha]. cbv zeta. pose proof (patch_keeps width w) as Hf. pose proof (thread_frame_patch width w) as [Hd Hx].
  pose proof (page_frame_patch width w) as Hp. destruct (patch_run width w Hg Ht) as (rc & w' & E & Hg' & Ht' & Ho). rewrite E in *.
  cbn [fst snd] in *. unfold patch_frame, outside_patch in Hf. injection Hf as _ _ _ _ Hi _ Hr Hst _ _ _ Hac _ _.
  assert (Has : aside w w') by (split; [unfold counts, active_of; congruence | done | congruence | congruence]).
  destruct Ho as [(-> & Hs & _)|(-> & [[? _]|(_ & Hw & _ & Hle & Hcw & Hn & _)] & _)]; [|done|].
  - destruct Hs as (_ & Hcw & _). split; [split; [done | by rewrite Hcw | auto] | done].
  - split; [split; [done | | auto] | done]. rewrite Hcw. pose proof (detected_level (Some (config_in_force w))). lia.
Qed.

Lemma init_call_aside w : world_ok w -> world_ok (tsd_trampoline_init w).2 /\ aside w (tsd_trampoline_init w).2.
Proof.
  intros [[Hg Ht] Hl Ha]. pose proof (page_frame_init w) as Hp. pose proof (tramp_init_inv w (conj Hg Ht)) as Hi.
  destruct (init_run w Hg Ht) as (rc & n & e & t & E & Hinv & Ho). rewrite E in *. cbn [snd] in *.
  split; [split; [done | | done] | by split]. cbn. destruct Ho as [(_ & _ & -> & _)|(_ & _ & -> & _)]; [done|].
  pose proof (width_cases _ (detected_width_range (Some (k_default_config <| allow_avx512 := true |>)))) as Hc.
  unfold host_level. destruct Hc as [-> | [-> | ->]]; done.
Qed.

Lemma calls_aside cs w :
  Forall (fun c => may_call c = true) cs -> world_ok w -> world_ok (run_tramp_calls cs w) /\ aside w (run_tramp_calls cs w).
Proof.
  intros Hcs. revert w. induction Hcs as [|c cs Hc _ IH]; intros w Hw; [done|].
  assert (H1 : world_ok (exec (run_tramp_call c) w) /\ aside w (exec (run_tramp_call c) w)).
  { destruct c as [|width|op]; unfold exec; cbn [run_tramp_call]; unfold Guard.drop; rewrite ?bind_run; cbn [ret snd].
    - by apply init_call_aside.
    - by destruct (patch_call_aside width w Hw) as (? & ? & _).
    - by apply guard_call_aside. }
  destruct H1 as [Hok Has]. destruct (IH _ Hok) as [Hok' Has']. split; [done | by etransitivity].
Qed.

(** ** Running the pieces *)

Definition wof (p : program) : world := world_of (pr_l p).
Definition put (w : world) (p : program) : program := p <| pr_l ::= fun l => l <| ls_p ::= fun q => q <| ps_world := w |> |> |>.

Lemma on_world_run {A} (m : M A) p : on_world m p = ((m (wof p)).1, put (m (wof p)).2 p).
Proof. unfold on_world, on_l, on_w. rewrite on_p_run, lift_run. done. Qed.

Lemma wp_on_world {A} (m : M A) Q p : wp m (fun a w => Q a (put w p)) (wof p) -> wp (on_world m) Q p.
Proof. unfold wp. by rewrite on_world_run. Qed.

(** Everything of the program that only its own code changes. *)
Definition surface (p : program) :=
  (pr_regs p, pr_fault p, pr_shim p, (pr_exporter p, pr_handlers p, pr_level p, pr_log p)).

(** A step that leaves the program to itself. *)
Record untouched (p p' : program) : Prop := {
  un_surface : surface p' = surface p;
  un_ok : world_ok (wof p');
  un_aside : aside (wof p) (wof p');
}.

Lemma untouched_trans p1 p2 p3 : untouched p1 p2 -> untouched p2 p3 -> untouched p1 p3.
Proof. intros [] []. split; [congruence | done | by etransitivity]. Qed.

Lemma untouched_put w p : world_ok w -> aside (wof p) w -> untouched p (put w p).
Proof. by split. Qed.

(** A change of plain fields. *)
Lemma world_ok_fields w w' :
  seen_by_shim w' = seen_by_shim w -> (w_locks w', w_deadlock w', w_guard w', w_flags w', w_obs w', w_tramp w') =
    (w_locks w, w_deadlock w, w_guard w, w_flags w, w_obs w, w_tramp w) -> world_ok w -> world_ok w' /\ aside w w'.
Proof.
  intros E [= E1 E2 E3 E4 E5 E6] Hw. apply seen_same; [done | | done]. destruct Hw as [[Hg Ht] _ _]. split; [|by rewrite E6].
  eapply guard_inv_frame; [done | done | | |exact Hg]; [unfold admission_open | unfold evidence_recorded]; congruence.
Qed.

Lemma tick_ok w : world_ok w -> world_ok (w <| w_calls ::= S |>) /\ aside w (w <| w_calls ::= S |>).
Proof. intros Hw. by apply (world_ok_fields w). Qed.

Lemma deliver_untouched sig p : world_ok (wof p) -> untouched p (deliver sig p).2.
Proof.
  intros Hw. unfold deliver. rewrite bind_run. cbn [gets fst snd]. destruct (existsb _ _); cbn [when]; [|by split].
  rewrite on_world_run. cbn [snd].
  match goal with |- context [put ?w p] => destruct (world_ok_fields (wof p) w) as [H1 H2]; [by case_if | by case_if | done|] end.
  by apply untouched_put.
Qed.

Lemma deliver_all_untouched sigs p : world_ok (wof p) -> untouched p (deliver_all sigs p).2.
Proof.
  revert p. induction sigs as [|sig sigs IH]; intros p Hw; [by split|]. cbn [deliver_all]. rewrite bind_run.
  pose proof (deliver_untouched sig p Hw) as H1. apply (untouched_trans _ _ _ H1), IH, H1.
Qed.

Lemma elsewhere_untouched p : world_ok (wof p) -> untouched p (elsewhere p).2.
Proof.
  intros Hw. unfold elsewhere. rewrite bind_run, on_world_run. cbn [fst snd ext]. set (sigs := pg_signals _). clearbody sigs.
  set (p1 := put _ p). assert (H1 : untouched p p1) by (by apply untouched_put; apply tick_ok).
  clearbody p1. apply (untouched_trans _ _ _ H1). rewrite bind_run.
  pose proof (deliver_all_untouched sigs p1 (un_ok _ _ H1)) as H2. apply (untouched_trans _ _ _ H2).
  set (p2 := (deliver_all sigs p1).2) in *. clearbody p2. rewrite on_world_run. unfold threads_run. cbn [snd].
  destruct (tick_ok _ (un_ok _ _ H2)) as [H3 H4].
  set (cs := List.filter may_call _). assert (Hcs : Forall (fun c => may_call c = true) cs).
  { apply Forall_forall. intros c Hc. apply list_elem_of_In, filter_In in Hc. apply Hc. }
  clearbody cs. destruct (calls_aside cs _ Hcs H3) as [H5 H6].
  apply untouched_put; [done | by etransitivity].
Qed.

(** ** One attempt *)

(** The slot that runs: a slot of the code page, no wider than the host, admitted
    when it is wide. *)
Record slot_call (p : program) (c : shim_call) : Prop := {
  sc_width : width_in_range (sh_width c) = true /\ sh_width c <= host_level;
  sc_target : exists page, page <> 0 /\ sh_target c = page + sh_width c * kSlotStride;
  sc_active : sh_active c = active_of (wof p) + Dispatch.weight (sh_width c);
  sc_admitted : sh_width c <> SIMD_SSE41 ->
    exists entry, wide_policy entry /\ admission_open entry = true /\ is_owner entry = true /\ counts entry = counts (wof p);
}.

(** The rest of the surface. *)
Definition quiet_surface (p : program) := (pr_exporter p, pr_handlers p, pr_level p, pr_log p).

Record shim_ran (a b : Z) (p : program) (r : Z) (p' : program) : Prop := {
  ra_result : r = i32 (a * b);
  ra_call : exists c, pr_shim p' = (pr_shim p ++ [c])%list /\ slot_call p c;
  ra_fault : pr_fault p' = false;
  ra_regs : regs_ok (pr_regs p');
  ra_world : world_ok (wof p') /\ aside (wof p) (wof p');
  ra_quiet : quiet_surface p' = quiet_surface p;
}.

(** Entering and leaving move the counters only. *)
Lemma admission_world w w' :
  admission_frame w w' -> world_ok w ->
  world_ok w' /\ w_tramp w' = w_tramp w /\ w_workload_iterations w' = w_workload_iterations w /\ w_running w' = w_running w.
Proof.
  intros Hf Hw. destruct (admission_frame_kept w w' Hf) as [_ Hg]. destruct Hw as [[Hg0 Ht0] Hl Ha].
  destruct Hf as (n & e & dl & lk & ac & d & st & sn & -> & _). split_done. split; [split; [auto | done] | done | done].
Qed.

Lemma admission_aside w w' : admission_frame w w' -> world_ok w -> counts w' = counts w -> world_ok w' /\ aside w w'.
Proof.
  intros Hf Hw Hc. destruct (admission_world w w' Hf Hw) as (Hok & Ht & Hi & Hr). split; [done|]. split; [done | | done | done].
  unfold page_frame. by rewrite Ht.
Qed.

(** The code of the selected slot runs. *)
Lemma unlocked_run `{!HostLaws} a b target width p :
  tsd_cpu_has_sse41 = true -> world_ok (wof p) -> regs_ok (pr_regs p) -> pr_fault p = false ->
  width_in_range width = true -> width <= host_level ->
  canonical_patch width = Some (code_at (t_code (w_tramp (wof p))) target) ->
  exists p', simd_shim_unlocked a b target width p = (i32 (a * b), p') /\
    pr_shim p' = (pr_shim p ++ [mkShimCall target width (active_of (wof p))])%list /\ pr_fault p' = false /\
    regs_ok (pr_regs p') /\ world_ok (wof p') /\ aside (wof p) (wof p') /\ quiet_surface p' = quiet_surface p.
Proof.
  intros Hs Hw Hr Hf Hr' Hl Hc. unfold simd_shim_unlocked. rewrite bind_run, on_world_run. cbn [gets fst snd tsd_cpu_avx_available].
  rewrite bind_run, on_world_run. cbn [gets fst snd]. rewrite bind_run, on_world_run. cbn [gets fst snd]. rewrite bind_run. cbn [modify snd].
  rewrite bind_run. match goal with |- context [elsewhere ?x] => set (p1 := x) end.
  assert (Hp1 : world_ok (wof p1)) by done. pose proof (elsewhere_untouched p1 Hp1) as [Hsf Hok Has].
  destruct (elsewhere p1) as [[] p2]. cbn [fst snd] in *. rewrite bind_run. cbn [gets fst snd].
  unfold surface in Hsf. injection Hsf as E1 E2 E3 E4 E5 E6 E7.
  match goal with |- context [shim_asm ?x a b ?c width ?rs] =>
    change (shim_asm x a b c width rs) with
      (shim_asm (w_avx_available (wof p1)) a b (code_at (t_code (w_tramp (wof p))) target) width rs) end.
  destruct (shim_asm_run (w_avx_available (wof p1)) a b width (code_at (t_code (w_tramp (wof p))) target) (pr_regs p2))
    as (rs' & -> & Hres); [by apply level_runs | apply Hp1 | done | done | by rewrite E1|].
  rewrite bind_run. eexists. split; [reflexivity|]. cbn. rewrite E2, E3.
  split; [done|]. split; [done|]. split; [apply Hres|]. split; [done|]. split; [done|]. unfold quiet_surface. cbn. congruence.
Qed.

(** From an admitted width to the end of the attempt. *)
Lemma admitted_shim `{!HostLaws} a b target width p p1 w2 Q :
  tsd_cpu_has_sse41 = true -> counts_ok (wof p) -> regs_ok (pr_regs p) -> pr_fault p = false -> untouched p p1 ->
  width_in_range width = true -> width <= host_level ->
  t_page_a (w_tramp (wof p)) <> 0 -> target = t_page_a (w_tramp (wof p)) + width * kSlotStride ->
  admission_frame (wof p1) w2 -> counts w2 = (active_of (wof p) + Dispatch.weight width, depth_of (wof p) + Dispatch.weight width) ->
  (width <> SIMD_SSE41 -> admission_open (wof p1) = true /\ is_owner (wof p1) = true /\ wide_policy (wof p1)) ->
  (forall r p', shim_ran a b p r p' -> Q r p') ->
  wp (result <- simd_shim_unlocked a b target width ;; on_world (tsd_runtime_execution_leave width) ;;; ret result) Q (put w2 p1).
Proof.
  intros Hs Hco Hr Hf [Hsf Hok1 Has1] Hwr Hl Hpg -> Hfr Hc2 Hadm HQ. unfold surface in Hsf. injection Hsf as E1 E2 E3 E4 E5 E6 E7.
  destruct (admission_world _ _ Hfr Hok1) as (Hok2 & Ht2 & Hi2 & Hr2). set (p2 := put w2 p1).
  assert (Hcode : canonical_patch width = Some (code_at (t_code (w_tramp (wof p2))) (t_page_a (w_tramp (wof p)) + width * kSlotStride))).
  { change (wof p2) with w2. rewrite Ht2. pose proof (as_page _ _ Has1 Hpg) as Hp. rewrite <- Hp.
    apply (ci_page _ (proj2 (wo_system _ Hok1))); [by rewrite Hp | done]. }
  destruct (unlocked_run a b _ width p2 Hs Hok2 ltac:(by cbn; rewrite E1) ltac:(by cbn; rewrite E2) Hwr Hl Hcode)
    as (p3 & E & Hsh & Hf3 & Hr3 & Hok3 & Has3 & Hq3).
  apply wp_bind. unfold wp at 1. rewrite E. cbn [fst snd]. change (wof p2) with w2 in *.
  assert (Hent : entered width (active_of (wof p)) (depth_of (wof p)) (wof p3)).
  { destruct Hco. split; [apply Hok3 | done | done | done|]. by rewrite (as_counts _ _ Has3). }
  destruct (leave_run_kept _ _ _ _ Hent) as (w4 & El & _ & Hc4 & _). pose proof (admission_frame_leave width (wof p3)) as Hfr4.
  apply wp_bind, wp_on_world. unfold wp. rewrite El in *. cbn [ret fst snd] in *. apply HQ.
  destruct (admission_world _ _ Hfr4 Hok3) as (Hok4 & Ht4 & Hi4 & Hr4). split; [done | | done | done | | ].
  - eexists. split; [cbn; rewrite Hsh; cbn; by rewrite E3|]. split; [done | by exists (t_page_a (w_tramp (wof p))) | by injection Hc2 as -> _ |].
    intros Hwide. destruct (Hadm Hwide) as (? & ? & ?). exists (wof p1). split_done. apply Has1.
  - split; [done|]. change (wof (put w4 p3)) with w4. destruct Has1 as [C1 P1 I1 R1], Has3 as [C3 P3 I3 R3].
    split; [rewrite Hc4; done | | congruence | congruence].
    intros Hp. rewrite Ht4. pose proof (P1 Hp) as Hp1. rewrite P3, Ht2; [done|]. by rewrite Ht2, Hp1.
  - unfold quiet_surface in *. cbn in *. congruence.
Qed.

Lemma attempt_wp `{!HostLaws} n a b p Q :
  tsd_cpu_has_sse41 = true -> world_ok (wof p) -> counts_ok (wof p) -> regs_ok (pr_regs p) -> pr_fault p = false ->
  (forall r p', shim_ran a b p r p' -> Q r p') ->
  (t_selection_word (w_tramp (wof p)) = 0 -> forall p', untouched p p' -> Q 0 p') ->
  (forall w p', t_current_width (w_tramp (wof p)) <> SIMD_SSE41 -> (tsd_trampoline_patch SIMD_SSE41 w).1 <> 0 -> untouched p p' -> Q 0 p') ->
  (forall p1, t_current_width (w_tramp (wof p)) <> SIMD_SSE41 -> untouched p p1 ->
     t_current_width (w_tramp (wof p1)) = SIMD_SSE41 -> t_selection_word (w_tramp (wof p1)) <> 0 -> wp (shim_attempts n a b) Q p1) ->
  wp (shim_attempts (S n) a b) Q p.
Proof.
  intros Hs Hw Hco Hr Hf Qran Qnone Qfail Qnext. cbn [shim_attempts]. pose proof Hw as [[Hg Ht] Hl Ha].
  apply wp_bind, wp_on_world. unfold wp at 1. rewrite snapshot_run by apply Ht.
  destruct (t_selection_word (w_tramp (wof p)) =? 0) eqn:Esel; zbool; cbn [fst snd sel_active sel_width].
  { cbn. apply wp_ret, Qnone; [done|]. apply untouched_put; by apply (world_ok_fields (wof p)). }
  assert (Hpg : t_page_a (w_tramp (wof p)) <> 0) by (intros H0; by destruct (ci_no_page _ Ht H0)).
  pose proof (ci_selected _ Ht Esel) as Hact. destruct (ci_page _ Ht Hpg) as (Hpok & _ & _).
  pose proof (proj1 (ci_tramp _ Ht)) as Hwr. set (width := t_current_width (w_tramp (wof p))) in *.
  pose proof (slot_in_page _ width Hpok Hwr) as [Hpos _]. rewrite <- Hact in Hpos.
  rewrite (proj2 (Z.eqb_neq (t_active_trampoline _) 0)) by lia. cbn [Z.eqb negb orb].
  set (p0 := put (wof p) p).
  assert (U0 : untouched p p0) by (by apply untouched_put).
  apply wp_bind. unfold wp at 1. pose proof (untouched_trans _ _ _ U0 (elsewhere_untouched p0 Hw)) as U1.
  destruct (elsewhere p0) as [[] p1]. cbn [fst snd] in *. clear p0 U0. pose proof U1 as [Hsf Hok1 Has1].
  apply wp_bind, wp_on_world. unfold wp at 1. pose proof (admission_frame_enter width (wof p1)) as Hfr.
  destruct (tsd_runtime_execution_enter width (wof p1)) as [rc w2] eqn:Een. cbn [fst snd] in *.
  assert (Hc1 : counts (wof p1) = counts (wof p)) by apply Has1. destruct Hco as [Hco1 Hco2].
  injection Hc1 as Hac1 Hdp1.
  destruct (enter_run width (wof p1) rc w2 Een ltac:(by rewrite Hac1) ltac:(by rewrite Hdp1)) as
    [(-> & A2 & D2 & He)|[(-> & Ew & ->)|(-> & Hwide & A2 & D2 & Ho & Hi & Hpol)]]; cbn [Z.eqb].
  - rewrite Hwr in He. destruct (admission_aside _ _ Hfr Hok1 ltac:(unfold counts; by rewrite A2, D2)) as [Hok2 Has2].
    assert (Hne : width <> SIMD_SSE41) by (intros ->; rewrite enter_sse_run in Een; discriminate Een).
    assert (U2 : untouched p (put w2 p1)) by (split; [done | done | by etransitivity]).
    apply wp_bind, wp_on_world, wp_gets. change (wof (put w2 p1)) with w2. rewrite He. change (EAGAIN =? EAGAIN) with true. cbn [negb].
    rewrite orb_false_r. destruct (width <=? SIMD_SSE41) eqn:Ele.
    { exfalso. destruct (width_cases _ Hwr) as [? | [Hx | Hx]]; [done|..]; rewrite Hx in Ele; done. }
    apply wp_bind, wp_on_world. unfold wp at 1. change (wof (put w2 (put w2 p1))) with w2.
    destruct (patch_call_aside SIMD_SSE41 w2 Hok2) as (Hok3 & Has3 & _ & Hz).
    destruct (tsd_trampoline_patch SIMD_SSE41 w2) as [rc3 w3] eqn:Ep. cbn [fst snd] in *.
    set (p3 := put w3 (put w2 (put w2 p1))). assert (U3 : untouched p p3).
    { split; [done | done |]. etransitivity; [exact Has1|]. by etransitivity. }
    destruct (rc3 =? 0) eqn:E3; zbool; cbn [negb].
    + destruct (Hz E3) as [Hz1 Hz2]. by apply Qnext.
    + apply wp_ret. apply (Qfail w2); [done | by rewrite Ep | done].
  - eapply (admitted_shim a b _ width p p1 (wof p1)); try done. rewrite Ew. change (Dispatch.weight SIMD_SSE41) with 0. unfold counts. rewrite !Z.add_0_r. by rewrite Hac1, Hdp1.
  - eapply (admitted_shim a b _ width p p1 w2); try done.
    assert (Dispatch.weight width = 1) as -> by (destruct Hwide as [-> | ->]; done). unfold counts. congruence.
Qed.

(** Whether the shim can run at all: something is selected. *)
Lemma shim_wp `{!HostLaws} a b p :
  tsd_cpu_has_sse41 = true -> world_ok (wof p) -> counts_ok (wof p) -> regs_ok (pr_regs p) -> pr_fault p = false ->
  wp (simd_shim a b) (fun r p' => shim_ran a b p r p' \/
    (r = 0 /\ untouched p p' /\
       (t_selection_word (w_tramp (wof p)) = 0 \/
        t_current_width (w_tramp (wof p)) <> SIMD_SSE41 /\ exists w, (tsd_trampoline_patch SIMD_SSE41 w).1 <> 0))) p.
Proof.
  intros Hs Hw Hco Hr Hf. apply attempt_wp; try done; [by left | by right; split_done; left | right; split_done; right; split; [done | by exists w] |].
  intros p1 Hne U1 Hw1 Hsel. pose proof U1 as [Hsf Hok Has]. unfold surface in Hsf. injection Hsf as E1 E2 E3 E4 E5 E6 E7.
  apply attempt_wp; [done | done | | by rewrite E1 | by rewrite E2 | | done | done | done].
  - unfold counts_ok in *. pose proof (as_counts _ _ Has) as [= -> ->]. done.
  - intros r p' [H1 (c & Hc & Hsc) H2 H3 [H4 H5] H6]. left. split; try done.
    + exists c. split; [by rewrite Hc, E3|]. destruct Hsc as [S1 S2 S3 S4]. pose proof (as_counts _ _ Has) as Hcc.
      split; [done | done | by injection Hcc as <- _ |]. intros Hx. destruct (S4 Hx) as (e & ? & ? & ? & ?). exists e. split_done. by rewrite <- Hcc.
    + split; [done | by etransitivity].
    + rewrite H6. unfold quiet_surface. congruence.
Qed.
End shim_facts.

(** ** External calls only go forward *)

Section later.
Context `{EV : Env, GE : ProgramEnv}.

Definition later (w w' : world) : Prop := (w_calls w <= w_calls w')%nat.
#[export] Instance later_preorder : PreOrder later.
Proof. unfold later. split; [intros w; lia | intros a b c; lia]. Qed.

Ltac later_steps := repeat first [respects_step | (intro; unfold later; cbn; lia)].

Lemma later_authorized width : respects later (tsd_runtime_width_authorized width).
Proof.
  unfold tsd_runtime_width_authorized, raw_temperature_upgrade_allowed, safety_config_snapshot, tsd_observability_raw_temperature_c,
    tsd_observability_perf_hardware_fresh, tsd_telemetry_temperature_upgrade_allowed, tsd_runtime_is_stopping,
    tsd_runtime_flags_allow_transitions, tsd_observability_runtime_guard_active, tsd_observability_perf_mode, tsd_runtime_config_active_snapshot.
  later_steps.
Qed.
Lemma later_lock m : respects later (pthread_mutex_lock m).
Proof. unfold pthread_mutex_lock. later_steps. Qed.
Lemma later_detect cfg : respects later (tsd_detect_max_simd cfg).
Proof. intros w. destruct (detect_frame cfg w) as (n & -> ). by unfold later. Qed.

Lemma later_write_enter : respects later tsd_runtime_safety_write_enter.
Proof. unfold tsd_runtime_safety_write_enter. repeat first [apply later_lock | progress later_steps]. Qed.
Lemma later_write_leave : respects later tsd_runtime_safety_write_leave.
Proof.
  unfold tsd_runtime_safety_write_leave, tsd_runtime_is_stopping. repeat first [apply later_lock | apply later_authorized | progress later_steps].
Qed.

Lemma later_release : respects later wide_execution_release.
Proof. unfold wide_execution_release. repeat first [apply later_lock | progress later_steps]. Qed.
Lemma later_enter width : respects later (tsd_runtime_execution_enter width).
Proof.
  unfold tsd_runtime_execution_enter, admission_check_first, admission_recheck, tsd_runtime_current_thread_is_owner,
    tsd_runtime_wide_admission_is_open, current_tid, fail.
  repeat first [apply later_authorized | apply later_release | progress later_steps].
Qed.
Lemma later_leave width : respects later (tsd_runtime_execution_leave width).
Proof. unfold tsd_runtime_execution_leave. apply respects_when; [exact _ | apply later_release]. Qed.

Lemma later_slots n i page : respects later (write_slots n i page).
Proof.
  revert i. induction n as [|n IH]; intros i; cbn [write_slots]; [later_steps|].
  unfold discard_code_page, set_error, memcpy_slot. later_steps; apply IH.
Qed.

Lemma later_guard_op o : respects later (run_guard_op o).
Proof.
  destruct o; cbn [run_guard_op]; unfold tsd_runtime_config_deactivate_snapshot, tsd_runtime_wide_admission_close;
    guard_op_steps ltac:(first
      [ apply later_write_enter | apply later_write_leave | apply later_lock | apply later_enter | apply later_leave
      | (intro; unfold later; cbn; lia) ]).
  intros w. unfold later. by destruct stopping.
Qed.

Ltac later_patch :=
  unfold tsd_trampoline_patch, tsd_trampoline_init, tsd_trampoline_patch_impl, select_trampoline,
    ensure_code_page, build_canonical_code_page, mapping_is_rx_not_writable, discard_code_page,
    commit_selection_and_attestation, tsd_trampoline_state_active, tsd_trampoline_state_current_width,
    tsd_trampoline_state_snapshot, tsd_trampoline_state_publish_selection, tsd_metrics_record_width_transition,
    tsd_runtime_config_active_snapshot, set_error, fail;
  repeat first [apply later_slots | apply later_write_enter | apply later_write_leave | apply later_lock | apply later_authorized
    | apply later_detect | progress later_steps].

Lemma later_patch_width width : respects later (tsd_trampoline_patch width).
Proof. later_patch. Qed.
Lemma later_init : respects later tsd_trampoline_init.
Proof. later_patch. Qed.

Lemma later_calls cs w : later w (run_tramp_calls cs w).
Proof.
  revert w. induction cs as [|c cs IH]; intros w; [done|]. etransitivity; [|apply IH].
  destruct c as [|width|op]; unfold exec; cbn [run_tramp_call]; unfold Guard.drop; rewrite ?bind_run; cbn [ret snd];
    [apply later_init | apply later_patch_width | apply later_guard_op].
Qed.

(** The same of the program. *)
Definition prog_later (p p' : program) : Prop := later (wof p) (wof p').
#[export] Instance prog_later_preorder : PreOrder prog_later.
Proof. unfold prog_later. split; [intros p; reflexivity | intros a b c; by etransitivity]. Qed.

Lemma later_on_world {A} (m : M A) : respects later m -> respects prog_later (on_world m).
Proof. intros Hm p. rewrite on_world_run. apply Hm. Qed.

Lemma later_threads : respects later threads_run.
Proof. intros w. unfold threads_run. cbn [snd]. etransitivity; [|apply later_calls]. unfold later. cbn. lia. Qed.

Lemma later_ext {A} (f : nat -> A) : respects later (ext f).
Proof. intros w. unfold later. cbn. lia. Qed.

Ltac prog_steps :=
  repeat first [ apply later_on_world | apply later_ext | apply later_threads | apply later_enter | apply later_leave | apply later_patch_width
               | respects_step | (intro; unfold prog_later, later; apply Nat.le_refl) | (intro; unfold later; cbn; lia) ].

Lemma later_elsewhere : respects prog_later elsewhere.
Proof.
  unfold elsewhere. apply respects_bind; [exact _ | prog_steps|]. intros sigs. apply respects_bind; [exact _| | intros _; prog_steps].
  induction sigs as [|sig sigs IH]; cbn [deliver_all]; [prog_steps|]. apply respects_bind; [exact _| | done].
  unfold deliver, tsd_handle_sighup, tsd_handle_shutdown_signal. prog_steps.
Qed.

Lemma later_shim n a b : respects prog_later (shim_attempts n a b).
Proof.
  induction n as [|n IH]; cbn [shim_attempts]; [prog_steps|]. unfold simd_shim_unlocked, tsd_trampoline_state_snapshot, tsd_cpu_avx_available.
  repeat first [apply IH | apply later_elsewhere | progress prog_steps].
Qed.

Lemma later_once : respects prog_later workload_once.
Proof. unfold workload_once, simd_shim. repeat first [apply later_shim | progress prog_steps]. Qed.

Lemma later_loop n i : respects prog_later (workload_from n i).
Proof. revert i. induction n as [|n IH]; intros i; cbn [workload_from]; repeat first [apply IH | apply later_once | progress prog_steps]. Qed.
End later.

(** ** The workload *)

(** What [CLOCK_MONOTONIC] promises: normalised readings that never go back, and
    an uptime below 584 years. *)
Definition ns_of (t : Z * Z) : Z := t.1 * 1000000000 + t.2.
Class ClockLaws `{EV : Env} : Prop := {
  clock_normal n t : env_clock n = Some t -> 0 <= t.1 /\ 0 <= t.2 < 1000000000 /\ ns_of t <= UINT64_MAX;
  clock_monotone n m t t' : (n <= m)%nat -> env_clock n = Some t -> env_clock m = Some t' -> ns_of t <= ns_of t';
}.

Lemma elapsed_spec `{ClockLaws} n m t t' :
  (n <= m)%nat -> env_clock n = Some t -> env_clock m = Some t' -> monotonic_elapsed_ns t t' = ns_of t' - ns_of t.
Proof.
  intros Hle E E'. pose proof (clock_normal n t E) as (H1 & H2 & H3). pose proof (clock_normal m t' E') as (H4 & H5 & H6).
  pose proof (clock_monotone n m t t' Hle E E') as Hm. unfold monotonic_elapsed_ns, ns_of in *. destruct t as [s ns], t' as [s' ns']. cbn [fst snd] in *.
  destruct (ns' - ns <? 0) eqn:En; zbool.
  - rewrite (proj2 (Z.ltb_ge (s' - s - 1) 0)) by lia. rewrite (u64_small (_ * 1000000000)) by (unfold_int; lia). rewrite u64_small by (unfold_int; lia). lia.
  - rewrite (proj2 (Z.ltb_ge (s' - s) 0)) by lia. rewrite (u64_small (_ * 1000000000)) by (unfold_int; lia). rewrite u64_small by (unfold_int; lia). lia.
Qed.

Section contract.
Context `{EV : Env, GE : ProgramEnv, MM : !MmapAligned, HL : !HostLaws}.
Hypothesis Hsse : tsd_cpu_has_sse41 = true.

Record demo_ok (p : program) : Prop := {
  do_world : world_ok (wof p);
  do_counts : counts_ok (wof p);
  do_regs : regs_ok (pr_regs p);
  do_fault : pr_fault p = false;
}.

(** [k] iterations later. *)
Record iterated (k : Z) (p p' : program) : Prop := {
  it_ok : demo_ok p';
  it_counts : counts (wof p') = counts (wof p);
  it_count : u64 (w_workload_iterations (wof p') - w_workload_iterations (wof p)) = u64 k;
  it_running : w_running (wof p') = w_running (wof p);
  it_calls : exists calls, pr_shim p' = (pr_shim p ++ calls)%list /\ Z.of_nat (List.length calls) <= k /\ Forall (slot_call p) calls;
  it_quiet : quiet_surface p' = quiet_surface p;
}.

Lemma slot_call_eq p q c : counts (wof p) = counts (wof q) -> slot_call p c -> slot_call q c.
Proof.
  intros E [H1 H2 H3 H4]. split; [done | done | by injection E as <- _ |]. intros Hw. destruct (H4 Hw) as (e & ? & ? & ? & ?). exists e. split_done. congruence.
Qed.

Lemma counts_ok_eq w w' : counts w' = counts w -> counts_ok w -> counts_ok w'.
Proof. unfold counts_ok. by intros [= -> ->]. Qed.

Lemma iterated_refl p : demo_ok p -> iterated 0 p p.
Proof.
  intros H. split; try done; [by rewrite Z.sub_diag|]. exists []. split; [by rewrite app_nil_r|]. split; [done | constructor].
Qed.

Lemma u64_add x y a b : u64 x = u64 a -> u64 y = u64 b -> u64 (x + y) = u64 (a + b).
Proof. unfold u64. intros H1 H2. rewrite Zplus_mod, H1, H2, <- Zplus_mod. done. Qed.

Lemma iterated_trans j k p q r : iterated j p q -> iterated k q r -> iterated (j + k) p r.
Proof.
  intros [A1 A2 A3 A4 (c1 & A5 & A6 & A7) A8] [B1 B2 B3 B4 (c2 & B5 & B6 & B7) B8].
  split; [done | congruence | | congruence | | congruence].
  - replace (w_workload_iterations (wof r) - w_workload_iterations (wof p)) with
      ((w_workload_iterations (wof q) - w_workload_iterations (wof p)) + (w_workload_iterations (wof r) - w_workload_iterations (wof q))) by lia.
    by apply u64_add.
  - exists (c1 ++ c2)%list. rewrite B5, A5, app_assoc, length_app. split; [done|]. split; [lia|]. apply Forall_app. split; [done|].
    eapply Forall_impl; [exact B7|]. intros c. by apply slot_call_eq.
Qed.

Lemma once_iterated p : demo_ok p -> iterated 1 p (workload_once p).2.
Proof.
  intros [Hw Hc Hr Hf]. unfold workload_once. rewrite bind_run. pose proof (shim_wp 42 7 p Hsse Hw Hc Hr Hf) as H. unfold wp in H.
  destruct (simd_shim 42 7 p) as [r p1]. cbn [fst snd] in *. rewrite on_world_run. cbn [modify snd]. set (p2 := put _ p1).
  assert (H1 : world_ok (wof p1) /\ aside (wof p) (wof p1) /\ regs_ok (pr_regs p1) /\ pr_fault p1 = false /\ quiet_surface p1 = quiet_surface p /\
    exists calls, pr_shim p1 = (pr_shim p ++ calls)%list /\ Z.of_nat (List.length calls) <= 1 /\ Forall (slot_call p) calls).
  { destruct H as [[_ (c & Hcall & Hsc) ? ? [? ?] ?]|(_ & [Hsf ? ?] & _)].
    - split_done. exists [c]. split_done. by constructor.
    - unfold surface in Hsf. injection Hsf as E1 E2 E3 E4 E5 E6 E7. rewrite E1, E2. split_done; [unfold quiet_surface; congruence|].
      exists []. split; [by rewrite app_nil_r|]. split; [done | constructor]. }
  clear H. destruct H1 as (Hok & [Ac Ap Ai Ar] & Hr1 & Hf1 & Hq1 & Hcalls).
  assert (Hok2 : world_ok (wof p2)) by (destruct Hok as [[Hg Ht] Hl Ha]; split; [split; [eapply guard_inv_frame; [..|exact Hg]; done | done] | done | done]).
  split; [split; try done; by eapply counts_ok_eq | done | | done | done | done].
  change (w_workload_iterations (wof p2)) with (u64 (w_workload_iterations (wof p1) + 1)). rewrite Ai. unfold u64.
  rewrite Zminus_mod_idemp_l. f_equal. lia.
Qed.

Lemma loop_iterated n i p : demo_ok p -> exists k, 0 <= k <= Z.of_nat n /\ iterated k p (workload_from n i p).2.
Proof.
  revert i p. induction n as [|n IH]; intros i p Hp; cbn [workload_from]; [exists 0; split; [lia | by apply iterated_refl]|].
  rewrite bind_run. assert (E : exists b p1, (if Z.land i 0x3fff =? 0 then on_world (gets w_stop_requested) else ret false) p = (b, p1) /\ iterated 0 p p1).
  { destruct (_ =? 0); [|exists false, p; split; [done | by apply iterated_refl]]. rewrite on_world_run. do 2 eexists. split; [reflexivity|].
    destruct (iterated_refl p Hp) as [[] ? ? ? ? ?]. by split. }
  destruct E as (b & p1 & -> & H1). cbn [fst snd]. destruct b; [exists 0; split; [lia | done]|]. rewrite bind_run.
  pose proof (once_iterated p1 (it_ok _ _ _ H1)) as H2. destruct (IH (i + 1) _ (it_ok _ _ _ H2)) as (k & Hk & H3).
  exists (0 + (1 + k)). split; [lia|]. by do 2 (eapply iterated_trans; [eassumption|]).
Qed.

(** Why a workload ended. *)
Definition ended_by (target elapsed : Z) (p : program) : Prop :=
  w_stop_requested (wof p) = true \/ w_running (wof p) = false \/ (exists n, env_clock n = None) \/ target <= elapsed.

Lemma batches_run `{!ClockLaws} fuel batch start target elapsed p (N : nat) n0 :
  demo_ok p -> env_clock n0 = Some start -> (n0 <= w_calls (wof p))%nat ->
  (forall n t, (N <= n)%nat -> env_clock n = Some t -> target <= ns_of t - ns_of start) ->
  (N < w_calls (wof p) + fuel)%nat ->
  (0 < fuel)%nat ->
  exists e k p', batches fuel batch false start target elapsed p = (Some e, p') /\ 0 <= k /\ iterated k p p' /\
    (w_calls (wof p) <= w_calls (wof p'))%nat /\
    (w_stop_requested (wof p') = true \/ w_running (wof p') = false \/ (exists n, env_clock n = None) \/
     exists n t, (n < w_calls (wof p'))%nat /\ env_clock n = Some t /\ target <= ns_of t - ns_of start).
Proof.
  intros Hp Hn0. revert elapsed p Hp. induction fuel as [|fuel IH]; intros elapsed p Hp Hle Hreach Hfuel H0; [lia|]. clear H0. cbn [batches].
  rewrite bind_run. unfold workload_loop. destruct (loop_iterated (Z.to_nat batch) 0 p Hp) as (k & Hk & H1).
  pose proof (later_loop (Z.to_nat batch) 0 p) as Hl. unfold prog_later, later in Hl. set (p1 := (workload_from _ 0 p).2) in *. clearbody p1.
  rewrite bind_run, on_world_run. cbn [gets fst snd]. rewrite bind_run, on_world_run. cbn [gets fst snd].
  set (p2 := put _ (put _ p1)). assert (H2 : iterated k p p2) by (by destruct H1 as [[] ? ? ? ? ?]).
  assert (E2 : wof p2 = wof p1) by done. change (w_running (wof (put (wof p1) p1))) with (w_running (wof p1)).
  destruct (w_stop_requested (wof p1) || negb (w_running (wof p1))) eqn:Estop.
  { exists elapsed, k, p2. split; [done|]. split; [lia|]. split; [done|]. rewrite E2. split; [done|].
    apply orb_true_iff in Estop as [?|?]; [by left | right; left; by apply negb_true_iff]. }
  rewrite bind_run. change (now p2) with (on_world (ext env_clock) p2). rewrite on_world_run. cbn [ext fst snd]. rewrite E2.
  match goal with |- context [put ?w p2] => set (p3 := put w p2) end.
  assert (H3 : iterated k p p3).
  { destruct H2 as [[Hw Hc Hr Hf] ? ? ? ? ?]. split; try done. split; [by apply tick_ok | done | done | done]. }
  assert (E3 : w_calls (wof p3) = S (w_calls (wof p1))) by done.
  destruct (env_clock (w_calls (wof p1))) as [t|] eqn:Et.
  2: { exists elapsed, k, p3. split; [done|]. split; [lia|]. split; [done|]. split; [lia|]. right; right; left. by eexists. }
  rewrite (elapsed_spec n0 (w_calls (wof p1))) by (done || lia). cbn [orb].
  destruct (ns_of t - ns_of start <? target) eqn:Elt; zbool.
  - assert (Hnot : (w_calls (wof p1) < N)%nat).
    { destruct (le_lt_dec N (w_calls (wof p1))) as [Hge|]; [|done]. pose proof (Hreach _ _ Hge Et). lia. }
    destruct (IH (ns_of t - ns_of start) p3 (it_ok _ _ _ H3)) as (e & k' & p' & -> & Hk' & Hit & Hlater & Hwhy); [lia | done | lia | lia|].
    exists e, (k + k'), p'. split; [done|]. split; [lia|]. split; [by eapply iterated_trans|]. split; [lia | done].
  - exists (ns_of t - ns_of start), k, p3. split; [done|]. split; [lia|]. split; [done|]. split; [lia|].
    right; right; right. exists (w_calls (wof p1)), t. split; [lia | done].
Qed.
End contract.

Section properties.
Context `{EV : Env, GE : ProgramEnv, MM : !MmapAligned, HL : !HostLaws}.

(** C23 (safety). The built-in shim, whatever other threads publish or select and
    whatever signals arrive while it runs: it either returns the product computed
    by one call of a slot of the code page, of a width the host can run, which
    when wide was admitted by the safety policy on the owner thread and was
    counted in flight while it ran; or it calls nothing and returns 0, and then
    no slot is selected or a wide selection could not be replaced by SSE4.1.  No
    instruction faults, and the in-flight counters are as before. *)
Theorem shim_runs_only_admitted_code (a b : Z) (p : program) :
  tsd_cpu_has_sse41 = true -> demo_ok p ->
  let r := result (simd_shim a b) p in
  let p' := exec (simd_shim a b) p in
  demo_ok p' /\ counts (wof p') = counts (wof p) /\
  ((r = i32 (a * b) /\ exists c, pr_shim p' = (pr_shim p ++ [c])%list /\ slot_call p c) \/
   (r = 0 /\ pr_shim p' = pr_shim p /\
      (t_selection_word (w_tramp (wof p)) = 0 \/
       t_current_width (w_tramp (wof p)) <> SIMD_SSE41 /\ exists w, result (tsd_trampoline_patch SIMD_SSE41) w <> 0))).
Proof.
  intros Hs [Hw Hc Hr Hf]. cbv zeta. unfold result, exec. pose proof (shim_wp a b p Hs Hw Hc Hr Hf) as H. unfold wp in H.
  destruct (simd_shim a b p) as [r p']. cbn [fst snd] in *. destruct H as [[H1 H2 H3 H4 [H5 H6] H7]|(-> & [Hsf Hok Has] & Hwhy)].
  - pose proof (as_counts _ _ H6). split; [split; try done; by eapply counts_ok_eq|]. split; [done|]. by left.
  - unfold surface in Hsf. injection Hsf as E1 E2 E3 E4 E5 E6 E7. pose proof (as_counts _ _ Has).
    split; [split; [done | by eapply counts_ok_eq | by rewrite E1 | by rewrite E2]|]. split; [done|]. by right.
Qed.

End properties.

(** ** A concrete process *)

(** A clock that advances by a second per reading, up to a thousand. *)
Definition ticking_env : Env :=
  mkEnv (env_host (Env := quiet_env)) (fun _ => 0) (fun _ => (0, 0)) (fun _ => 1000000000) (fun n => Some (Z.min (Z.of_nat n) 1000, 0)) (fun _ => 4096)
    (fun _ => 65536) (fun _ => 0) (fun _ => true) (fun _ => true) (fun bytes => Z.of_nat (List.length bytes))
    (fun _ => 0) (fun _ => true) (fun _ => 0) (fun _ => Some 0).

(** Another thread selects AVX2 and back, and a signal arrives at the third point. *)
Definition busy_program_env : ProgramEnv :=
  mkProgramEnv (fun n => if (n mod 2 =? 0)%nat then [CGuard GSandboxSuccess; CPatch SIMD_AVX2] else [CPatch SIMD_SSE41])
    (fun n => if (n =? 40)%nat then [SIGINT] else []) (fun _ => 0) (fun _ => 9464) (fun _ => 0) (fun _ => "error").

Section concrete.
#[local] Existing Instance ticking_env.
#[local] Existing Instance busy_program_env.

#[local] Instance ticking_aligned : MmapAligned.
Proof. intros n. right. vm_compute. intuition congruence. Qed.
#[local] Instance ticking_host : HostLaws.
Proof. intros _. vm_compute. reflexivity. Qed.
#[local] Instance ticking_clock : ClockLaws.
Proof.
  split.
  - intros n t [= <-]. unfold ns_of. cbn [fst snd]. unfold_int. lia.
  - intros n m t t' Hle [= <-] [= <-]. unfold ns_of. cbn [fst snd]. lia.
Qed.

Definition fresh_program : program := mkProgram fresh_lstate (repeat (repeat 7 16) 16) false [] [] [] 2 [].
Lemma ticking_sse : tsd_cpu_has_sse41 = true.
Proof. vm_compute. reflexivity. Qed.

(** After the trampoline was built and SSE4.1 selected. *)
Definition ready_program : program := exec (on_world (tsd_trampoline_init ;;; tsd_trampoline_patch SIMD_SSE41)) fresh_program.

Lemma ready_demo_ok : demo_ok ready_program.
Proof.
  assert (Hw : world_ok (wof fresh_program)).
  { split; [apply initial_system_inv | vm_compute; discriminate | intros H; discriminate H]. }
  unfold ready_program, exec. rewrite on_world_run. cbn [snd]. rewrite bind_run.
  destruct (init_call_aside _ Hw) as [Hw1 _]. destruct (patch_call_aside SIMD_SSE41 _ Hw1) as (Hw2 & _ & _).
  split; [exact Hw2 | vm_compute; intuition congruence | split; [reflexivity | repeat constructor] | reflexivity].
Qed.

Lemma shim_runs_only_admitted_code_witness :
  result (simd_shim 42 7) ready_program = 294 /\
  exists c, pr_shim (exec (simd_shim 42 7) ready_program) = [c] /\ slot_call ready_program c.
Proof.
  assert (E : result (simd_shim 42 7) ready_program = 294) by (vm_compute; reflexivity). split; [exact E|].
  destruct (shim_runs_only_admitted_code 42 7 ready_program ticking_sse ready_demo_ok) as (_ & _ & [(_ & c & Hc & Hs)|(H & _)]).
  - exists c. split; [exact Hc | exact Hs].
  - rewrite E in H. discriminate H.
Defined.

End concrete.
