(* ===== verification/History.v ===== *)
(** * History: the per-socket baseline store

    [src/src/telemetry/history_store.cpp]: a running mean and variance per
    socket, written to a text file after every update (a temporary file is
    renamed over the old one) and read back when the store is created.  The
    operations are computations over [hstate]; clock, file system answers and
    the order in which an [unordered_map] is walked come from the environment. *)
From S2P Require Import Prelude Float64 Format FloatText Guard.
From stdpp Require Import gmap strings.
From Stdlib Require Import SpecFloat Ascii String.
#[local] Open Scope string_scope.
#[local] Open Scope Z_scope.
#[local] Arguments String.append !_ _ : simpl nomatch.

(** ** State *)

Record BaselineRecord : Type := mkBaseline {
  br_baseline : double;
  br_variance_accumulator : double;
  br_sample_count : Z;
  br_last_update : Z;        (** ns *)
  br_valid : bool;
}.
#[export] Instance eta_baseline : Eta BaselineRecord := fun r =>
  mkBaseline (br_baseline r) (br_variance_accumulator r) (br_sample_count r) (br_last_update r) (br_valid r).

Definition empty_baseline : BaselineRecord := mkBaseline f64_zero f64_zero 0 0 false.

Definition variance (r : BaselineRecord) : double :=
  if br_sample_count r <=? 1 then f64_zero else fdiv (br_variance_accumulator r) (f64_of_Z (br_sample_count r - 1)).

Record hstate : Type := mkHstate {
  hs_path : string;
  hs_records : gmap Z BaselineRecord;
  hs_files : gmap string string;       (** the file system *)
  hs_calls : nat;
}.
#[export] Instance eta_hstate : Eta hstate := fun s => mkHstate (hs_path s) (hs_records s) (hs_files s) (hs_calls s).

Abbreviation HM := (ST hstate).

Class HistoryEnv : Type := mkHistoryEnv {
  he_now : nat -> Z;                   (** [system_clock::now()], ns *)
  he_order : gmap Z BaselineRecord -> list (Z * BaselineRecord);
  he_order_perm : forall m, he_order m ≡ₚ map_to_list m;  (** each entry is visited once *)
  he_readable : nat -> bool;           (** an existing file can be opened *)
  he_create : nat -> bool;             (** the temporary file can be created *)
  he_written : nat -> string -> string;  (** what reaches it of the text *)
  he_rename : nat -> bool;
  he_remove : nat -> bool;
}.

Definition hext {A} (f : nat -> A) : HM A := fun s => (f (hs_calls s), s <| hs_calls ::= S |>).
Definition on_files (f : gmap string string -> gmap string string) : HM unit := modify (fun s => s <| hs_files ::= f |>).

(** ** The text *)

Definition space : string := " ".

(** [duration_cast<seconds>] truncates. *)
Definition whole_seconds (t : Z) : Z := t ÷ NS_PER_S.

Definition record_line (e : Z * BaselineRecord) : string :=
  decimal e.1 ++ space ++ f64_fixed 17 (br_baseline e.2) ++ space ++ f64_fixed 17 (br_variance_accumulator e.2) ++ space ++
  decimal (br_sample_count e.2) ++ space ++ decimal (whole_seconds (br_last_update e.2)) ++ nl.

(** A 64-bit product, as the processor wraps it. *)
Definition i64 (z : Z) : Z := (z + 9223372036854775808) mod 18446744073709551616 - 9223372036854775808.

Definition parse_line (line : string) : option (Z * BaselineRecord) :=
  match stream_int line with
  | None => None
  | Some (socket, s) =>
  match stream_double s with
  | None => None
  | Some (baseline, s) =>
  match stream_double s with
  | None => None
  | Some (variance_accumulator, s) =>
  match stream_u64 s with
  | None => None
  | Some (sample_count, s) =>
  match stream_long s with
  | None => None
  | Some (timestamp, _) =>
      Some (socket, mkBaseline baseline variance_accumulator sample_count (i64 (timestamp * NS_PER_S)) (sample_count >? 0))
  end end end end end.

(** [emplace] keeps an entry that is already there. *)
Definition emplace (e : Z * BaselineRecord) (records : gmap Z BaselineRecord) : gmap Z BaselineRecord :=
  match records !! e.1 with Some _ => records | None => <[e.1 := e.2]> records end.

Definition load_line (line : string) (records : gmap Z BaselineRecord) : gmap Z BaselineRecord :=
  if String.eqb line "" then records
  else match parse_line line with Some e => emplace e records | None => records end.

Fixpoint load_lines (fuel : nat) (input : string) (records : gmap Z BaselineRecord) : gmap Z BaselineRecord :=
  match fuel with
  | O => records
  | S fuel =>
      match getline input with
      | None => records
      | Some (line, rest) => load_lines fuel rest (load_line line records)
      end
  end.

(** ** Operations *)

Definition kTempSuffix : string := ".tmp".

Section store.
Context `{HE : HistoryEnv}.

(** [std::filesystem::rename] and [remove]: whether they succeeded. *)
Definition rename (from to : string) : HM bool :=
  ok <- hext he_rename ;;
  files <- gets hs_files ;;
  match ok : bool, files !! from with
  | true, Some text => on_files (fun m => <[to := text]> (delete from m)) ;;; ret true
  | _, _ => ret false
  end.
Definition remove (path : string) : HM unit :=
  ok <- hext he_remove ;;
  when ok (on_files (delete path)).

Definition flush_unlocked : HM unit :=
  path <- gets hs_path ;;
  if String.eqb path "" then ret tt
  else
    let temp_path := path ++ kTempSuffix in
    opened <- hext he_create ;;
    if negb opened then ret tt
    else
      written <- hext he_written ;;
      records <- gets hs_records ;;
      on_files (<[temp_path := written (concat_text record_line (he_order records))]>) ;;;
      ok <- rename temp_path path ;;
      if ok : bool then ret tt
      else
        remove path ;;;
        ok <- rename temp_path path ;;
        if ok : bool then ret tt else remove temp_path.

Definition flush : HM unit := flush_unlocked.

(** Welford's update. *)
Definition updated (record : BaselineRecord) (sample_value : double) (now : Z) : BaselineRecord :=
  (if br_sample_count record =? 0 then
     record <| br_sample_count := 1 |> <| br_baseline := sample_value |> <| br_variance_accumulator := f64_zero |>
   else
     let count := u64 (br_sample_count record + 1) in
     let delta := fsub sample_value (br_baseline record) in
     let baseline := fadd (br_baseline record) (fdiv delta (f64_of_Z count)) in
     let delta2 := fsub sample_value baseline in
     record <| br_sample_count := count |> <| br_baseline := baseline |>
            <| br_variance_accumulator ::= fun a => fadd a (fmul delta delta2) |>)
  <| br_last_update := now |> <| br_valid := true |>.

Definition update (socket : Z) (sample_value : double) : HM unit :=
  now <- hext he_now ;;
  modify (fun s => s <| hs_records ::= fun m =>
    <[socket := updated (default empty_baseline (m !! socket)) sample_value now]> m |>) ;;;
  flush_unlocked.

Definition get (socket : Z) : HM BaselineRecord := gets (fun s => default empty_baseline (hs_records s !! socket)).

Definition load : HM unit :=
  modify (fun s => s <| hs_records := ∅ |>) ;;;
  path <- gets hs_path ;;
  readable <- hext he_readable ;;
  file <- gets (fun s => hs_files s !! path) ;;
  match readable : bool, file with
  | true, Some text => modify (fun s => s <| hs_records ::= load_lines (S (String.length text)) text |>)
  | _, _ => ret tt
  end.

(** The constructor and the destructor. *)
Definition new_store (path : string) : HM unit := modify (fun s => s <| hs_path := path |> <| hs_records := ∅ |>) ;;; load.
Definition destroy_store : HM unit := flush.
End store.

(** ** Loading *)

(** A line takes at least one byte, so the fuel of [load] reads every line. *)
Lemma load_lines_fuel fuel fuel' input m :
  (String.length input < fuel)%nat -> (String.length input < fuel')%nat ->
  load_lines fuel input m = load_lines fuel' input m.
Proof.
  revert fuel' input m. induction fuel as [|fuel IH]; intros [|fuel'] input m H H'; try lia. cbn [load_lines].
  destruct (getline input) as [[l r]|] eqn:E; [|done]. apply getline_shorter in E. apply IH; lia.
Qed.

Lemma emplace_union e m : emplace e m = m ∪ {[e.1 := e.2]}.
Proof.
  unfold emplace. apply map_eq. intros k. destruct (m !! e.1) as [r|] eqn:E.
  - rewrite lookup_union. destruct (m !! k) as [r'|] eqn:Ek; [by rewrite union_Some_l|].
    rewrite lookup_singleton_ne; [done|]. by intros <-; rewrite E in Ek.
  - destruct (decide (e.1 = k)) as [<-|Hne].
    + by rewrite lookup_insert_eq, lookup_union, E, lookup_singleton_eq.
    + rewrite lookup_insert_ne, lookup_union, lookup_singleton_ne by done. by destruct (m !! k).
Qed.

(** The first entry of a socket wins. *)
Lemma emplace_all l m : foldl (fun m e => emplace e m) m l = m ∪ list_to_map l.
Proof.
  revert m. induction l as [|[k r] l IH]; intros m; cbn [foldl list_to_map foldr]; [by rewrite (right_id_L ∅ (∪))|].
  rewrite IH, emplace_union. cbn [fst snd uncurry]. by rewrite <- (assoc_L (∪)), <- insert_union_singleton_l.
Qed.

(** ** Writing and reading back *)

(** What a reload keeps of a record. *)
Definition reloaded (r : BaselineRecord) : BaselineRecord :=
  r <| br_last_update ::= fun t => whole_seconds t * NS_PER_S |> <| br_valid := (br_sample_count r >? 0) |>.

(** Entries the text represents exactly. *)
Definition storable (socket : Z) (r : BaselineRecord) : Prop :=
  Prelude.in_int socket /\ printable (br_baseline r) = true /\ printable (br_variance_accumulator r) = true /\
  in_u64 (br_sample_count r) /\ LONG_MIN <= br_last_update r <= LONG_MAX.

Definition line_body (e : Z * BaselineRecord) : string :=
  decimal e.1 ++ space ++ f64_fixed 17 (br_baseline e.2) ++ space ++ f64_fixed 17 (br_variance_accumulator e.2) ++ space ++
  decimal (br_sample_count e.2) ++ space ++ decimal (whole_seconds (br_last_update e.2)).

Lemma record_line_body e : record_line e = line_body e ++ nl.
Proof. unfold record_line, line_body, space. by rewrite !string_app_assoc. Qed.

Lemma num_char_one_line s : all_chars num_char s = true -> one_line s = true.
Proof.
  apply all_chars_mono. intros c. unfold num_char, not_code. destruct (Z.eqb_spec (code c) 10) as [E|]; [|done].
  assert (c = chr 10) as -> by (apply code_inj; by rewrite E). done.
Qed.

Lemma line_body_one_line e : one_line (line_body e) = true.
Proof.
  unfold line_body, space. rewrite !all_chars_app.
  rewrite !(num_char_one_line _ (decimal_num _)), !(num_char_one_line _ (fixed_num _ _)). done.
Qed.

Lemma seconds_range t : LONG_MIN <= t <= LONG_MAX -> LONG_MIN <= whole_seconds t <= LONG_MAX /\ LONG_MIN <= whole_seconds t * NS_PER_S <= LONG_MAX.
Proof. unfold whole_seconds, NS_PER_S. unfold_int. intros. Z.quot_rem_to_equations. lia. Qed.

Lemma i64_small z : LONG_MIN <= z <= LONG_MAX -> i64 z = z.
Proof. unfold i64. unfold_int. intros. rewrite Z.mod_small; lia. Qed.

Lemma parse_line_body k r : storable k r -> parse_line (line_body (k, r)) = Some (k, reloaded r).
Proof.
  intros (Hk & Hb & Hv & Hc & Ht). destruct (seconds_range _ Ht) as [Hs1 Hs2]. unfold line_body, space. cbn [fst snd].
  unfold parse_line, stream_int, stream_long. rewrite stream_signed_decimal by done.
  change (stream_double (" " ++ ?s)) with (stream_double s). rewrite stream_double_fixed by done.
  change (stream_double (" " ++ ?s)) with (stream_double s). rewrite stream_double_fixed by done.
  change (stream_u64 (" " ++ ?s)) with (stream_u64 s). rewrite stream_u64_decimal by done.
  change (stream_signed ?a ?b (" " ++ ?s)) with (stream_signed a b s).
  rewrite <- (string_app_nil (decimal (whole_seconds _))), stream_signed_decimal by done.
  rewrite i64_small by done. done.
Qed.

Lemma load_lines_text l m fuel :
  Forall (fun e => storable e.1 e.2) l -> (String.length (concat_text record_line l) < fuel)%nat ->
  load_lines fuel (concat_text record_line l) m = m ∪ list_to_map (prod_map id reloaded <$> l).
Proof.
  intros Hl. rewrite <- emplace_all. revert m fuel. induction l as [|[k r] l IH]; intros m fuel Hf.
  - destruct fuel; [cbn in Hf; lia|done].
  - apply Forall_cons in Hl as [He Hl]. cbn [fst snd] in He. destruct fuel as [|fuel]; [lia|].
    cbn [concat_text] in Hf |- *. rewrite record_line_body, string_app_assoc in Hf |- *.
    cbn [load_lines]. rewrite getline_app by apply line_body_one_line.
    rewrite string_length_app in Hf. cbn [String.append String.length nl] in Hf.
    rewrite IH by (done || lia). rewrite fmap_cons. cbn [foldl]. f_equal. unfold load_line.
    pose proof (parse_line_body k r He) as Hp.
    destruct (String.eqb_spec (line_body (k, r)) "") as [E|_]; [by rewrite E in Hp|]. by rewrite Hp.
Qed.

Section durability.
Context `{HE : HistoryEnv}.

Definition stored_text (records : gmap Z BaselineRecord) : string := concat_text record_line (he_order records).

(** Reading a complete file gives every record back. *)
Lemma load_stored records m :
  map_Forall storable records ->
  load_lines (S (String.length (stored_text records))) (stored_text records) m = m ∪ (reloaded <$> records).
Proof.
  intros Hs. unfold stored_text. pose proof (he_order_perm records) as Hp. rewrite load_lines_text; [|clear Hp|lia].
  - f_equal. rewrite <- (list_to_map_to_list (reloaded <$> records)), map_to_list_fmap.
    apply list_to_map_proper.
    + rewrite <- list_fmap_compose, (list_fmap_ext _ fst _) by by intros ? [].
      rewrite Hp. apply NoDup_fst_map_to_list.
    + by apply fmap_Permutation.
  - rewrite Forall_forall. intros [k r] Hin. rewrite (he_order_perm records) in Hin.
    apply elem_of_map_to_list in Hin. by apply Hs.
Qed.

Lemma temp_path_ne path : path ++ kTempSuffix <> path.
Proof. intros E. apply (f_equal String.length) in E. rewrite string_length_app in E. cbn in E. lia. Qed.

(** What a flush can leave behind: no other file is touched, and the file at
    [path] is the old one, the new one, or none; it is missing or old only if
    the temporary file could not be created or both renames failed. *)
Lemma flush_outcome s :
  hs_path s <> "" ->
  let s' := exec flush s in
  let path := hs_path s in
  let text := he_written (S (hs_calls s)) (stored_text (hs_records s)) in
  hs_path s' = path /\ hs_records s' = hs_records s /\
  (forall p, p <> path -> p <> path ++ kTempSuffix -> hs_files s' !! p = hs_files s !! p) /\
  (he_create (hs_calls s) = false -> hs_files s' = hs_files s) /\
  (he_create (hs_calls s) = true ->
     if he_rename (S (S (hs_calls s))) || he_rename (S (S (S (S (hs_calls s)))))
     then hs_files s' !! path = Some text /\ hs_files s' !! (path ++ kTempSuffix) = None
     else hs_files s' !! path = if he_remove (S (S (S (hs_calls s)))) then None else hs_files s !! path).
Proof.
  destruct s as [path records files n]. cbn [hs_path hs_records hs_files hs_calls]. intros Hpath.
  pose proof (temp_path_ne path) as Hne.
  unfold flush, flush_unlocked, exec, bind, gets, ret. cbn [hs_path fst snd].
  rewrite (proj2 (String.eqb_neq _ _) Hpath). unfold hext. cbn [hs_calls fst snd].
  destruct (he_create n); [|done]. cbn [negb].
  unfold on_files, modify, rename, remove, hext, bind, gets, ret, on_files, modify, when.
  cbn -[concat_text he_order lookup insert delete].
  rewrite lookup_insert_eq. fold (stored_text records).
  set (text := he_written (S n) (stored_text records)). set (temp := path ++ kTempSuffix) in *.
  destruct (he_rename (S (S n))); cbn -[lookup insert delete].
  { split_and!; try done; [|split; [by rewrite lookup_insert_eq|by rewrite lookup_insert_ne, lookup_delete_eq]].
    intros p H1 H2. by rewrite lookup_insert_ne, lookup_delete_ne, lookup_insert_ne. }
  destruct (he_remove (S (S (S n)))); cbn -[lookup insert delete].
  - rewrite lookup_delete_ne, lookup_insert_eq by done.
    destruct (he_rename (S (S (S (S n))))); cbn -[lookup insert delete].
    + split_and!; try done; [|split; [by rewrite lookup_insert_eq|by rewrite lookup_insert_ne, lookup_delete_eq]].
      intros p H1 H2. by rewrite lookup_insert_ne, lookup_delete_ne, lookup_delete_ne, lookup_insert_ne.
    + destruct (he_remove (S (S (S (S (S n)))))); cbn -[lookup insert delete]; split_and!; try done;
        intros; repeat rewrite ?lookup_delete_ne, ?lookup_insert_ne, ?lookup_delete_eq by done; done.
  - rewrite lookup_insert_eq. destruct (he_rename (S (S (S (S n))))); cbn -[lookup insert delete].
    + split_and!; try done; [|split; [by rewrite lookup_insert_eq|by rewrite lookup_insert_ne, lookup_delete_eq]].
      intros p H1 H2. by rewrite lookup_insert_ne, lookup_delete_ne, lookup_insert_ne.
    + destruct (he_remove (S (S (S (S (S n)))))); cbn -[lookup insert delete]; split_and!; try done;
        intros; repeat rewrite ?lookup_delete_ne, ?lookup_insert_ne by done; done.
Qed.
End durability.

(** ** A restart keeps the history *)

Section restart.
Context `{HE : HistoryEnv}.

(** The file system does what it is asked to. *)
Definition reliable : Prop :=
  (forall n, he_create n = true) /\ (forall n text, he_written n text = text) /\ (forall n, he_rename n = true) /\
  (forall n, he_readable n = true).

(** C33 (roundtrip). After an update, a store created again from the same file
    holds every record of the old one: the baseline and the accumulated
    variance bit for bit, the exact count, the time of the last update cut to
    whole seconds; in whatever order the map is walked.  The doubles have to
    be zeros or normal numbers of magnitude 1/8 and more, and the file system
    has to do its work. *)
Theorem history_survives_restart socket sample_value s :
  hs_path s <> "" -> reliable -> map_Forall storable (hs_records (exec (update socket sample_value) s)) ->
  hs_records (exec (new_store (hs_path s)) (exec (update socket sample_value) s))
  = reloaded <$> hs_records (exec (update socket sample_value) s).
Proof.
  intros Hp (Hc & Hw & Hr & Ho). unfold update, bind, hext, modify, exec. cbn [snd fst].
  set (s1 := _ <| hs_records ::= _ |>). pose proof (flush_outcome s1) as H.
  assert (Hp1 : hs_path s1 = hs_path s) by done. rewrite Hp1 in H. specialize (H Hp). cbv zeta in H.
  rewrite Hc, Hw, Hr in H. cbn [orb] in H. change (flush_unlocked s1).2 with (exec flush s1).
  destruct H as (_ & Hrec & _ & _ & Hfile). destruct (Hfile eq_refl) as [Hfile' _]. rewrite Hrec. intros Hs.
  unfold new_store, load, hext, bind, modify, gets. cbn -[load_lines lookup exec].
  rewrite Ho, Hfile'. cbn [snd hs_records over]. cbn -[load_lines lookup exec].
  rewrite load_stored by done. by rewrite (left_id_L ∅ (∪)).
Qed.

(** Whatever the file system answers, a flush touches no file but
    the store's own and its temporary one, and replaces the store's file as a
    whole: the file is missing afterwards only if both renames failed and the
    old file was removed in between. *)
Theorem flush_never_mixes s :
  let s' := exec flush s in
  let file := hs_files s' !! hs_path s in
  (forall p, p <> hs_path s -> p <> hs_path s ++ kTempSuffix -> hs_files s' !! p = hs_files s !! p) /\
  (file = hs_files s !! hs_path s \/ file = Some (he_written (S (hs_calls s)) (stored_text (hs_records s))) \/
   file = None /\ he_rename (S (S (hs_calls s))) = false /\ he_remove (S (S (S (hs_calls s)))) = true /\
   he_rename (S (S (S (S (hs_calls s))))) = false).
Proof.
  cbv zeta. destruct (decide (hs_path s = "")) as [E|Hne].
  - unfold exec, flush, flush_unlocked, bind, gets. cbn [fst snd]. rewrite E. split; [done|]. by left.
  - destruct (flush_outcome s Hne) as (_ & _ & Hother & Hno & Hyes). split; [done|].
    destruct (he_create (hs_calls s)); [|left; by rewrite Hno].
    specialize (Hyes eq_refl). destruct (he_rename (S (S (hs_calls s)))); [right; left; apply Hyes|].
    destruct (he_rename (S (S (S (S (hs_calls s)))))); [right; left; apply Hyes|]. cbn [orb] in Hyes.
    destruct (he_remove _); [right; right|left]; done.
Qed.
End restart.

(** ** The running mean *)

Lemma fsub_self x : isfinite x = true -> x <> S754_zero true -> fsub x x = f64_zero.
Proof.
  destruct x as [[]|s| |s m e]; try done. intros _ _. unfold fsub, SFsub.
  rewrite Z.sub_diag. done.
Qed.

Lemma fadd_zero x : isfinite x = true -> x <> S754_zero true -> fadd x f64_zero = x.
Proof. by destruct x as [[]|s| |s m e]. Qed.

(** Small counts are positive doubles. *)
Lemma f64_of_Z_positive n : 0 < n < 2 ^ 53 -> exists m e, f64_of_Z n = S754_finite false m e.
Proof.
  intros Hn. destruct n as [|p|p]; try lia. unfold f64_of_Z, binary_normalize, binary_round.
  pose proof (digits2_bounds p) as Hd. set (d := Z.pos (digits2_pos p)) in *.
  assert (H53 : d - 1 < 53) by (apply (Z.pow_lt_mono_r_iff 2); lia).
  assert (Hd1 : 1 <= d) by (subst d; lia).
  assert (Hf : fexp f64_prec f64_emax (d + 0) = d - 53) by (unfold fexp, emin, f64_prec, f64_emax; lia).
  rewrite Hf. unfold shl_align. replace (d - 53 - 0) with (d - 53) by lia.
  assert (Ha : forall k (q : positive), Z.pos (Pos.iter xO q k) = Z.pos q * 2 ^ Z.pos k).
  { intros k q. rewrite <- Pos2Z.inj_pow, <- Pos2Z.inj_mul. f_equal.
    rewrite Pos.mul_comm. symmetry. unfold Pos.pow.
    induction k using Pos.peano_ind; [done|]. rewrite !Pos.iter_succ, <- Pos.mul_assoc. by rewrite IHk. }
  destruct (d - 53) as [|k|k] eqn:E; [|lia|].
  - assert (d = 53) as Ed by lia. rewrite Ed in Hd. change (53 - 1) with 52 in Hd. eexists _, _.
    unfold binary_round_aux. rewrite renormalise by lia. cbn [shr_m loc_of_shr_record round_nearest_even].
    rewrite renormalise by lia. done.
  - eexists _, _. unfold binary_round_aux.
    assert (Hm : 2 ^ 52 <= Z.pos (Pos.iter xO p k) < 2 ^ 53).
    { rewrite Ha. replace (Z.pos k) with (53 - d) by lia.
      replace 52 with ((d - 1) + (53 - d)) by lia. replace (2 ^ 53) with (2 ^ (d + (53 - d))) by (f_equal; lia).
      rewrite !Z.pow_add_r by lia. assert (0 < 2 ^ (53 - d)) by lia. nia. }
    rewrite renormalise by lia. cbn [shr_m loc_of_shr_record round_nearest_even]. rewrite renormalise by lia.
    cbn [shr_m]. replace (Z.neg k <=? f64_emax - f64_prec) with true by (symmetry; apply Z.leb_le; unfold f64_emax, f64_prec; lia).
    reflexivity.
Qed.

Section mean.
Context `{HE : HistoryEnv}.

Fixpoint update_all (socket : Z) (values : list double) : HM unit :=
  match values with [] => ret tt | v :: values => update socket v ;;; update_all socket values end.

Lemma flush_keeps_records s : hs_records (exec flush_unlocked s) = hs_records s.
Proof.
  destruct (decide (hs_path s = "")) as [E|Hne]; [|by destruct (flush_outcome s Hne) as (_ & H & _)].
  unfold exec, flush_unlocked, bind, gets. cbn [fst snd]. by rewrite E.
Qed.

Lemma update_records socket v s :
  hs_records (exec (update socket v) s)
  = <[socket := updated (default empty_baseline (hs_records s !! socket)) v (he_now (hs_calls s))]> (hs_records s).
Proof. exact (flush_keeps_records _). Qed.

Lemma exec_update_all socket v values s :
  exec (update_all socket (v :: values)) s = exec (update_all socket values) (exec (update socket v) s).
Proof. unfold exec. cbn [update_all]. by rewrite bind_run. Qed.

Lemma update_all_others socket values s k :
  k <> socket -> hs_records (exec (update_all socket values) s) !! k = hs_records s !! k.
Proof.
  intros Hk. revert s. induction values as [|v values IH]; intros s; [done|].
  by rewrite exec_update_all, IH, update_records, lookup_insert_ne.
Qed.

Section constant.
Variable (v : double).
Hypothesis (Hfinite : isfinite v = true) (Hzero : v <> S754_zero true).

Lemma updated_constant c now now' :
  0 < c -> c + 1 < 2 ^ 53 ->
  updated (mkBaseline v f64_zero c now true) v now' = mkBaseline v f64_zero (c + 1) now' true.
Proof.
  intros Hc Hm. unfold updated. cbn -[f64_of_Z]. rewrite (proj2 (Z.eqb_neq c 0)) by lia.
  cbn -[f64_of_Z]. rewrite u64_small by (unfold in_u64; unfold_int; lia).
  destruct (f64_of_Z_positive (c + 1)) as (m & e & ->); [lia|]. rewrite fsub_self by done.
  replace (fdiv f64_zero (S754_finite false m e)) with f64_zero by done. rewrite fadd_zero, fsub_self by done. done.
Qed.

Lemma constant_updates socket n c now s :
  0 < c -> c + Z.of_nat n < 2 ^ 53 -> hs_records s !! socket = Some (mkBaseline v f64_zero c now true) ->
  exists now', hs_records (exec (update_all socket (replicate n v)) s) !! socket
             = Some (mkBaseline v f64_zero (c + Z.of_nat n) now' true).
Proof.
  revert c now s. induction n as [|n IH]; intros c now s Hc Hm Hs.
  - exists now. cbn. by rewrite Z.add_0_r.
  - cbn [replicate]. rewrite exec_update_all.
    destruct (IH (c + 1) (he_now (hs_calls s)) (exec (update socket v) s)) as [now' H]; [lia|lia| |].
    + rewrite update_records, Hs, lookup_insert_eq. cbn [default from_option id]. by rewrite updated_constant by lia.
    + exists now'. rewrite H. do 2 f_equal. lia.
Qed.
End constant.

(** Updates of one socket leave the records of the others
    alone, count every sample and keep the record valid; and a constant reading
    has itself as its mean, bit for bit, with variance zero, however long it is
    fed (the rounding of the running mean does not drift). *)
Theorem constant_reading_is_its_mean socket v (n : nat) s :
  isfinite v = true -> v <> S754_zero true -> (0 < n)%nat -> Z.of_nat n < 2 ^ 53 -> hs_records s !! socket = None ->
  let records := hs_records (exec (update_all socket (replicate n v)) s) in
  (forall k, k <> socket -> records !! k = hs_records s !! k) /\
  exists now, records !! socket = Some (mkBaseline v f64_zero (Z.of_nat n) now true).
Proof.
  intros Hv Hz Hn H53 Hnew. cbv zeta. split; [by intros; apply update_all_others|].
  destruct n as [|n]; [lia|]. cbn [replicate]. rewrite exec_update_all.
  destruct (constant_updates v Hv Hz socket n 1 (he_now (hs_calls s)) (exec (update socket v) s)) as [now H]; [lia|lia| |].
  - by rewrite update_records, Hnew, lookup_insert_eq.
  - exists now. rewrite H. do 2 f_equal. lia.
Qed.

(** A NaN that entered the mean stays there until the store is created again. *)
Lemma nan_baseline_sticks r v now :
  br_baseline r = S754_nan -> br_sample_count r <> 0 -> br_baseline (updated r v now) = S754_nan.
Proof.
  intros Hb Hc. unfold updated. rewrite (proj2 (Z.eqb_neq _ 0)) by done. cbn. rewrite Hb. by destruct v.
Qed.
End mean.

(** And the text of such a record is not read back: it is lost on a restart. *)
Lemma nan_record_is_dropped k r : Prelude.in_int k -> br_baseline r = S754_nan -> parse_line (line_body (k, r)) = None.
Proof.
  intros Hk Hb. unfold line_body, space, parse_line, stream_int. cbn [fst snd]. rewrite stream_signed_decimal by done.
  by rewrite Hb.
Qed.

(** ** Examples *)

Definition plain_files : HistoryEnv := {|
  he_now := fun _ => 1700000000123456789; he_order := map_to_list; he_order_perm := fun _ => reflexivity _;
  he_readable := fun _ => true; he_create := fun _ => true; he_written := fun _ text => text;
  he_rename := fun _ => true; he_remove := fun _ => true |}.

(** A write that ends early is not noticed: the shorter text replaces the file. *)
Definition full_disk : HistoryEnv := {|
  he_now := fun _ => 1700000000123456789; he_order := map_to_list; he_order_perm := fun _ => reflexivity _;
  he_readable := fun _ => true; he_create := fun _ => true; he_written := fun _ _ => "";
  he_rename := fun _ => true; he_remove := fun _ => true |}.

Definition demo_history : hstate :=
  mkHstate "h" {[1 := mkBaseline (f64_ratio 723 10) (f64_ratio 5 4) 12 1600000000000000000 true]} {["h" := "old"]} 0.

Lemma short_write_replaces_history :
  hs_files (exec (update (HE := full_disk) 0 (f64_of_Z 70)) demo_history) !! "h" = Some "".
Proof. vm_compute. reflexivity. Qed.

(** A store with two sockets. *)
Lemma history_survives_restart_witness :
  hs_records (exec (new_store (HE := plain_files) "h") (exec (update (HE := plain_files) 0 (f64_ratio 701 10)) demo_history))
  = reloaded <$> hs_records (exec (update (HE := plain_files) 0 (f64_ratio 701 10)) demo_history).
Proof.
  apply (history_survives_restart (HE := plain_files) 0 (f64_ratio 701 10) demo_history); [done|by repeat split|].
  rewrite (update_records (HE := plain_files)). apply map_Forall_insert_2; [|apply map_Forall_singleton];
    (split; [done|]); (split; [vm_compute; reflexivity|]); (split; [vm_compute; reflexivity|]); done.
Defined.

Lemma constant_reading_is_its_mean_witness :
  exists now, hs_records (exec (update_all (HE := plain_files) 0 (replicate 3 (f64_ratio 701 10))) demo_history) !! 0
    = Some (mkBaseline (f64_ratio 701 10) f64_zero 3 now true).
Proof.
  apply (constant_reading_is_its_mean (HE := plain_files) 0 (f64_ratio 701 10) 3 demo_history); [done..|lia|done|done].
Defined.
