(* ===== verification/Sensors.v ===== *)
(** * Sensors: sensor adapters and the weighted evaluation of a socket

    [src/src/telemetry/sensors.cpp] and [src/src/telemetry/evaluator.cpp].  An
    adapter asks the provider it was given (a function of the caller, part of
    the environment: it may return nothing or throw), remembers the last good
    sample of every socket and answers with it, halved, when the provider
    fails.  The evaluator combines the adapters of a socket by health times
    quality and falls back to the stored baseline.  Failures of the adapter's
    mutex are not modelled. *)
From S2P Require Import Prelude Float64 Format FloatText Config World Guard Fusion TelemetryState Metrics History.
From stdpp Require Import gmap strings.
From Stdlib Require Import SpecFloat Ascii String.
#[local] Open Scope string_scope.
#[local] Open Scope Z_scope.

(** ** State *)

Record SensorSample : Type := mkSample {
  sa_value : double; sa_health : double; sa_quality : double; sa_valid : bool; sa_timestamp : Z }.
#[export] Instance eta_sample : Eta SensorSample := fun s =>
  mkSample (sa_value s) (sa_health s) (sa_quality s) (sa_valid s) (sa_timestamp s).

Definition empty_sample : SensorSample := mkSample f64_zero f64_zero f64_zero false 0.

(** [SensorAdapterBase]; a [std::function] may be empty. *)
Record SensorAdapter : Type := mkAdapter {
  ad_name : string;
  ad_has_provider : bool;
  ad_has_availability : bool;
  ad_last_good : gmap Z SensorSample;
}.
#[export] Instance eta_adapter : Eta SensorAdapter := fun a =>
  mkAdapter (ad_name a) (ad_has_provider a) (ad_has_availability a) (ad_last_good a).

(** The constructors of the adapters. *)
Definition new_adapter (name : string) (provider availability : bool) : SensorAdapter :=
  mkAdapter name provider availability ∅.
Definition HfiPmtAdapter : bool -> bool -> SensorAdapter := new_adapter "hfi_pmt".
Definition AmdHsmpAdapter : bool -> bool -> SensorAdapter := new_adapter "amd_hsmp".
Definition AcpiPmtAdapter : bool -> bool -> SensorAdapter := new_adapter "acpi_pmt".

(** What the adapters and the evaluator share. *)
Record shared : Type := mkShared {
  sh_metrics : mstate;
  sh_history : option hstate;
  sh_calls : nat;
}.
#[export] Instance eta_shared : Eta shared := fun s => mkShared (sh_metrics s) (sh_history s) (sh_calls s).

Abbreviation SM := (ST shared).

Class SensorEnv : Type := mkSensorEnv {
  se_provide : nat -> string -> Z -> exn + option SensorSample;  (** a sample provider *)
  se_available : nat -> string -> Z -> exn + bool;
  se_now : nat -> Z;
}.

Definition sext {A} (f : nat -> A) : SM A := fun s => (f (sh_calls s), s <| sh_calls ::= S |>).
Definition on_metrics {A} (m : MM A) : SM A := fun s => let '(a, x) := m (sh_metrics s) in (a, s <| sh_metrics := x |>).

(** ** Adapters *)

Section adapters.
Context `{SE : SensorEnv} `{MX : MetricsEnv}.

Definition is_available (a : SensorAdapter) (socket : Z) : SM bool :=
  if negb (ad_has_availability a) then ret true
  else
    answer <- sext se_available ;;
    ret match answer (ad_name a) socket with inr b => b | inl _ => false end.

Definition degraded_sample (a : SensorAdapter) (socket : Z) : SM SensorSample :=
  now <- sext se_now ;;
  ret match ad_last_good a !! socket with
      | Some s => s <| sa_health ::= fun h => fmul h f64_half |> <| sa_quality ::= fun q => fmul q f64_half |>
                    <| sa_valid := false |>
      | None => empty_sample <| sa_timestamp := now |>
      end.

Definition report (a : SensorAdapter) (socket : Z) (s : SensorSample) : SM unit :=
  on_metrics (tsd_metrics_exporter_record_sensor_health (Some (until_nul (ad_name a))) socket
                (sa_health s) (sa_quality s) (if sa_valid s then 1 else 0)).

(** The provider's answer, exceptions and all. *)
Definition ask (a : SensorAdapter) (socket : Z) : SM (option SensorSample) :=
  if negb (ad_has_provider a) then ret None
  else
    answer <- sext se_provide ;;
    ret match answer (ad_name a) socket with inr maybe_sample => maybe_sample | inl _ => None end.

(** [sample]: the sample, and the adapter with its memory. *)
Definition sample (a : SensorAdapter) (socket : Z) : SM (SensorSample * SensorAdapter) :=
  maybe_sample <- ask a socket ;;
  match maybe_sample with
  | Some s =>
      now <- sext se_now ;;
      let s := s <| sa_health ::= clamp_unit |> <| sa_quality ::= clamp_unit |> <| sa_valid := true |>
                 <| sa_timestamp := now |> in
      let a := a <| ad_last_good ::= <[socket := s]> |> in
      report a socket s ;;;
      ret (s, a)
  | None =>
      s <- degraded_sample a socket ;;
      report a socket s ;;;
      ret (s, a)
  end.
End adapters.

(** ** The evaluator *)

Section evaluator.
Context `{SE : SensorEnv} `{MX : MetricsEnv} `{HE : HistoryEnv}.

(** One turn of the loop, for an adapter that is there. *)
Definition weight_of (s : SensorSample) : double := fmul (clamp_unit (sa_health s)) (clamp_unit (sa_quality s)).

Definition add_sample (s : SensorSample) (sums : double * double) : double * double :=
  let weight := weight_of s in
  if fle weight f64_zero then sums
  else (fadd sums.1 (fmul (sa_value s) weight), fadd sums.2 weight).

Fixpoint evaluate_sensors (socket : Z) (sensors : list (option SensorAdapter)) (sums : double * double)
    : SM (double * double * list (option SensorAdapter)) :=
  match sensors with
  | [] => ret (sums, [])
  | None :: rest =>
      let* (sums, rest) := evaluate_sensors socket rest sums in ret (sums, None :: rest)
  | Some a :: rest =>
      available <- is_available a socket ;;
      if negb available then
        let* (sums, rest) := evaluate_sensors socket rest sums in ret (sums, Some a :: rest)
      else
        let* (s, a) := sample a socket in
        let* (sums, rest) := evaluate_sensors socket rest (add_sample s sums) in ret (sums, Some a :: rest)
  end.

(** A call on the history store, when there is one. *)
Definition on_history {A} (m : HM A) : SM (option A) := fun s =>
  match sh_history s with
  | Some h => let '(a, h) := m h in (Some a, s <| sh_history := Some h |>)
  | None => (None, s)
  end.

Definition evaluate_socket (sensors : list (option SensorAdapter)) (socket : Z)
    : SM (double * list (option SensorAdapter)) :=
  let* (sums, sensors) := evaluate_sensors socket sensors (f64_zero, f64_zero) in
  if flt f64_zero sums.2 then
    let aggregated := fdiv sums.1 sums.2 in
    on_history (update socket aggregated) ;;;
    ret (aggregated, sensors)
  else
    record <- on_history (History.get socket) ;;
    ret (match record with
         | Some r => if br_valid r then br_baseline r else f64_zero
         | None => f64_zero
         end, sensors).
End evaluator.

(** ** What a caller of an adapter sees *)

Section observations.
Context `{SE : SensorEnv} `{MX : MetricsEnv}.

Fixpoint run_samples (a : SensorAdapter) (sockets : list Z) : SM (list (Z * SensorSample) * SensorAdapter) :=
  match sockets with
  | [] => ret ([], a)
  | socket :: sockets =>
      let* (s, a) := sample a socket in
      let* (l, a) := run_samples a sockets in
      ret ((socket, s) :: l, a)
  end.

(** The last sample of [socket] that was marked valid. *)
Fixpoint last_valid (socket : Z) (seen : list (Z * SensorSample)) (found : option SensorSample) : option SensorSample :=
  match seen with
  | [] => found
  | (k, s) :: seen => last_valid socket seen (if (k =? socket) && sa_valid s then Some s else found)
  end.

Definition in_unit (x : double) : Prop := isnan x = true \/ fle f64_zero x = true /\ fle x (f64_of_Z 1) = true.

(** A valid sample is bounded; another one is the last valid sample of its
    socket with half its health and quality, or zero. *)
Definition expected (seen : list (Z * SensorSample)) (socket : Z) (s : SensorSample) : Prop :=
  if sa_valid s then in_unit (sa_health s) /\ in_unit (sa_quality s)
  else
    match last_valid socket seen None with
    | Some g => s = mkSample (sa_value g) (fmul (sa_health g) f64_half) (fmul (sa_quality g) f64_half) false (sa_timestamp g)
    | None => s = empty_sample <| sa_timestamp := sa_timestamp s |>
    end.

Lemma clamp_unit_range x : in_unit (clamp_unit x).
Proof.
  unfold in_unit, clamp_unit. destruct (flt x f64_zero) eqn:E0; [right; by vm_compute|].
  destruct (flt (f64_of_Z 1) x) eqn:E1; [right; by vm_compute|].
  destruct (isnan x) eqn:En; [by left|right].
  split; [apply not_flt_fle|apply not_flt_fle]; done.
Qed.

Lemma report_shows a socket r s :
  omap_get sensor_key_ltb (mkSensorKey (until_nul (ad_name a)) socket)
    (sensor_state_ (m_registry (sh_metrics (exec (report a socket r) s))))
  = Some (mkSensorSnapshot (clamp_unit (sa_health r)) (clamp_unit (sa_quality r)) (sa_valid r) (mx_now (S (m_calls (sh_metrics s))))).
Proof.
  assert (Hsend : forall p s, m_registry (statsd_send p s).2 = m_registry s).
  { intros p t. symmetry. apply (send_keeps_registry p t). }
  unfold exec, report, on_metrics, tsd_metrics_exporter_record_sensor_health, record_sensor_health, send_gauge.
  rewrite !bind_run. set (m := statsd_send _ _). destruct m as [u ms] eqn:E. cbn [snd].
  apply (f_equal snd) in E. cbn [snd] in E. subst m ms. change (sh_metrics (?x <| sh_metrics := ?v |>)) with v.
  rewrite !Hsend. cbn. rewrite (omap_get_upd sensor_key_ltb), (proj2 (same_key_eq sensor_key_ltb _ _) eq_refl).
  by destruct (sa_valid r).
Qed.

Lemma degraded_spec a socket s :
  let r := result (degraded_sample a socket) s in
  sa_valid r = false /\
  match ad_last_good a !! socket with
  | Some g => r = mkSample (sa_value g) (fmul (sa_health g) f64_half) (fmul (sa_quality g) f64_half) false (sa_timestamp g)
  | None => r = empty_sample <| sa_timestamp := sa_timestamp r |>
  end.
Proof. unfold result, degraded_sample, sext, bind, ret. cbn. by destruct (ad_last_good a !! socket). Qed.

(** One call of [sample]. *)
Lemma sample_spec a socket s :
  let r := (result (sample a socket) s).1 in
  let a' := (result (sample a socket) s).2 in
  ad_name a' = ad_name a /\
  (sa_valid r = true <-> exists p, result (ask a socket) s = Some p) /\
  (if sa_valid r then
     in_unit (sa_health r) /\ in_unit (sa_quality r) /\ ad_last_good a' = <[socket := r]> (ad_last_good a)
   else
     ad_last_good a' = ad_last_good a /\
     match ad_last_good a !! socket with
     | Some g => r = mkSample (sa_value g) (fmul (sa_health g) f64_half) (fmul (sa_quality g) f64_half) false (sa_timestamp g)
     | None => r = empty_sample <| sa_timestamp := sa_timestamp r |>
     end) /\
  exists t, omap_get sensor_key_ltb (mkSensorKey (until_nul (ad_name a)) socket)
    (sensor_state_ (m_registry (sh_metrics (exec (sample a socket) s))))
  = Some (mkSensorSnapshot (clamp_unit (sa_health r)) (clamp_unit (sa_quality r)) (sa_valid r) t).
Proof.
  cbv zeta. unfold sample, result, exec. rewrite !bind_run.
  destruct (ask a socket s) as [[p|] s1]; cbn [fst snd].
  - rewrite !bind_run. cbn [ret fst snd]. set (r := p <| sa_health ::= _ |> <| sa_quality ::= _ |> <| sa_valid := _ |> <| sa_timestamp := _ |>).
    set (a' := a <| ad_last_good ::= _ |>). split; [done|]. split; [split; [by eexists|done]|]. split.
    + split; [apply clamp_unit_range|]. split; [apply clamp_unit_range|done].
    + eexists. apply (report_shows a' socket r).
  - rewrite !bind_run. cbn [ret fst snd]. destruct (degraded_spec a socket s1) as [Hv Hd]. unfold result in Hv, Hd.
    set (r := (degraded_sample a socket s1).1) in *. rewrite Hv. split; [done|].
    split; [split; [done|by intros [? ?]]|]. split; [done|]. eexists. rewrite <- Hv. apply (report_shows a socket r).
Qed.

Lemma last_valid_snoc k seen found socket r :
  last_valid k (seen ++ [(socket, r)])%list found
  = if (socket =? k) && sa_valid r then Some r else last_valid k seen found.
Proof. revert found. induction seen as [|[k' s'] seen IH]; intros found; [done|apply IH]. Qed.

Lemma run_samples_spec sockets a s seen :
  (forall k, ad_last_good a !! k = last_valid k seen None) ->
  forall pre socket r post, (result (run_samples a sockets) s).1 = (pre ++ (socket, r) :: post)%list ->
  expected (seen ++ pre)%list socket r.
Proof.
  revert a s seen. induction sockets as [|socket0 sockets IH]; intros a s seen Hm pre socket r post; unfold result; cbn [run_samples].
  - intros E. by destruct pre.
  - rewrite bind_run. pose proof (sample_spec a socket0 s) as Hs. unfold result in Hs. cbv zeta in Hs.
    destruct (sample a socket0 s) as [[r0 a0] s0]. cbn [fst snd] in Hs |- *.
    destruct Hs as (_ & _ & Hs & _). rewrite bind_run.
    specialize (IH a0 s0 (seen ++ [(socket0, r0)])%list). unfold result in IH.
    destruct (run_samples a0 sockets s0) as [[l a1] s1]. cbn [fst snd ret] in IH |- *.
    destruct pre as [|e pre]; intros E; inversion E; subst; clear E.
    + subst. rewrite app_nil_r. unfold expected. rewrite <- (Hm socket).
      destruct (sa_valid r); [by destruct Hs as (? & ? & _)|by destruct Hs].
    + replace (seen ++ (socket0, r0) :: pre)%list with ((seen ++ [(socket0, r0)]) ++ pre)%list
        by by rewrite <- app_assoc.
      apply (fun H => IH H pre socket r post eq_refl). intros k. rewrite last_valid_snoc.
      destruct (sa_valid r0).
      * destruct Hs as (_ & _ & ->). destruct (Z.eqb_spec socket0 k) as [->|Hne]; cbn [andb].
        -- by rewrite lookup_insert_eq.
        -- by rewrite lookup_insert_ne.
      * destruct Hs as [-> _]. by rewrite andb_false_r.
Qed.
End observations.

(** Whatever sockets an adapter is asked for and whatever its
    provider answers or throws: a sample marked valid has health and quality in
    [0, 1] (or NaN); any other sample is the last valid sample of that socket
    with half its health and half its quality (not compounded by repeated
    failures), or all zeros if there was none. *)
Theorem failing_sensor_is_discounted `{SE : SensorEnv} `{MX : MetricsEnv} name provider availability sockets s pre socket r post :
  (result (run_samples (new_adapter name provider availability) sockets) s).1 = (pre ++ (socket, r) :: post)%list ->
  expected pre socket r.
Proof. intros H. apply (run_samples_spec sockets (new_adapter name provider availability) s [] (fun k => eq_refl) pre socket r post H). Qed.

(** ** The evaluation *)

Section evaluation.
Context `{SE : SensorEnv} `{MX : MetricsEnv} `{HE : HistoryEnv}.

(** The samples of the adapters that are available. *)
Fixpoint collect (socket : Z) (sensors : list (option SensorAdapter)) : SM (list SensorSample * list (option SensorAdapter)) :=
  match sensors with
  | [] => ret ([], [])
  | None :: rest => let* (l, rest) := collect socket rest in ret (l, None :: rest)
  | Some a :: rest =>
      available <- is_available a socket ;;
      if available : bool then
        let* (s, a) := sample a socket in
        let* (l, rest) := collect socket rest in ret (s :: l, Some a :: rest)
      else let* (l, rest) := collect socket rest in ret (l, Some a :: rest)
  end.

Definition weighted_sums (samples : list SensorSample) (sums : double * double) : double * double :=
  foldl (fun t r => add_sample r t) sums samples.

Lemma evaluate_sensors_collect socket sensors sums s :
  evaluate_sensors socket sensors sums s
  = (weighted_sums (collect socket sensors s).1.1 sums, (collect socket sensors s).1.2, (collect socket sensors s).2).
Proof.
  revert sums s. induction sensors as [|[a|] rest IH]; intros sums s; [done| |]; cbn [evaluate_sensors collect].
  - rewrite !bind_run. destruct (is_available a socket s) as [[] s1]; cbn [fst snd negb].
    + rewrite !bind_run. destruct (sample a socket s1) as [[r a'] s2]. cbn [fst snd].
      rewrite !bind_run, IH. destruct (collect socket rest s2) as [[l rest'] s3]. done.
    + rewrite !bind_run, IH. by destruct (collect socket rest s1) as [[l rest'] s3].
  - rewrite !bind_run, IH. by destruct (collect socket rest s) as [[l rest'] s3].
Qed.

(** What is left when no reading counts. *)
Definition fallback (socket : Z) (s : shared) : double :=
  match sh_history s with
  | Some h => let r := default empty_baseline (hs_records h !! socket) in if br_valid r then br_baseline r else f64_zero
  | None => f64_zero
  end.

Lemma evaluate_without_weight sensors socket s :
  let samples := (collect socket sensors s).1.1 in
  let s' := (collect socket sensors s).2 in
  flt f64_zero (weighted_sums samples (f64_zero, f64_zero)).2 = false ->
  (result (evaluate_socket sensors socket) s).1 = fallback socket s' /\ exec (evaluate_socket sensors socket) s = s'.
Proof.
  cbv zeta. intros H. unfold evaluate_socket, result, exec. rewrite bind_run, evaluate_sensors_collect. cbn [fst snd].
  rewrite H. rewrite bind_run. unfold on_history, History.get, gets, fallback.
  destruct (collect socket sensors s) as [[l rest] s']. cbn [fst snd] in *. destruct s' as [ms [h|] n]; done.
Qed.

Lemma weightless samples sums :
  Forall (fun r => fle (weight_of r) f64_zero = true) samples -> weighted_sums samples sums = sums.
Proof.
  intros H. revert sums. induction H as [|r l Hr Hl IH]; intros sums; [done|]. unfold weighted_sums. cbn [foldl].
  unfold add_sample at 2. rewrite Hr. apply IH.
Qed.

Lemma total_stays_nan samples sums : isnan sums.2 = true -> isnan (weighted_sums samples sums).2 = true.
Proof.
  revert sums. induction samples as [|r l IH]; intros [a t]; [done|]. cbn [snd]. intros Ht. apply IH.
  unfold add_sample. case_if; [done|]. cbn [snd]. by destruct t.
Qed.

Lemma nan_weight_total samples sums :
  Exists (fun r => isnan (weight_of r) = true) samples -> isnan (weighted_sums samples sums).2 = true.
Proof.
  intros H. revert sums. induction H as [r l Hr|r l Hl IH]; intros sums; [|apply IH].
  apply (total_stays_nan l (add_sample r sums)). unfold add_sample. destruct (weight_of r); try done. by destruct sums.2.
Qed.

(** A reading without weight is worth nothing: when none has weight, or when
    the weight of a single one is NaN, the stored baseline is returned (zero
    without one) and the history is left as it is.  So one sensor that reports
    NaN as its health silences all others. *)
Theorem evaluation_falls_back sensors socket s :
  let samples := (collect socket sensors s).1.1 in
  let s' := (collect socket sensors s).2 in
  Forall (fun r => fle (weight_of r) f64_zero = true) samples \/ Exists (fun r => isnan (weight_of r) = true) samples ->
  (result (evaluate_socket sensors socket) s).1 = fallback socket s' /\ exec (evaluate_socket sensors socket) s = s'.
Proof.
  cbv zeta. intros H. apply evaluate_without_weight. destruct H as [H|H].
  - by rewrite (weightless _ _ H).
  - pose proof (nan_weight_total _ (f64_zero, f64_zero) H) as Hn. by destruct (weighted_sums _ _).2.
Qed.
End evaluation.

(** ** Examples *)

Definition flaky : SensorEnv := {|
  se_provide := fun n _ _ => if (n <? 2)%nat then inr (Some (mkSample (f64_of_Z 70) (f64_of_Z 2) f64_half false 0))
                             else if (n <? 4)%nat then inl StdException else inr None;
  se_available := fun _ _ _ => inr true; se_now := fun n => Z.of_nat n |}.

Definition idle_shared (h : option hstate) : shared := mkShared idle_metrics h 0.

(** A good sample, then an exception, then nothing. *)
Definition flaky_run : list (Z * SensorSample) :=
  (result (run_samples (SE := flaky) (MX := demo_env) (HfiPmtAdapter true false) [0; 0; 1]) (idle_shared None)).1.

Lemma failing_sensor_is_discounted_witness :
  expected [nth 0 flaky_run (0, empty_sample)] 0 (nth 1 flaky_run (0, empty_sample)).2.
Proof.
  apply (failing_sensor_is_discounted (SE := flaky) (MX := demo_env) "hfi_pmt" true false [0; 0; 1] (idle_shared None)
           [nth 0 flaky_run (0, empty_sample)] 0 (nth 1 flaky_run (0, empty_sample)).2 [nth 2 flaky_run (0, empty_sample)]).
  vm_compute. reflexivity.
Defined.

Example flaky_values :
  List.map (fun e => (f64_fixed 2 (sa_value e.2), f64_fixed 2 (sa_health e.2), f64_fixed 2 (sa_quality e.2), sa_valid e.2)) flaky_run
  = [("70.00", "1.00", "0.50", true); ("70.00", "0.50", "0.25", false); ("0.00", "0.00", "0.00", false)].
Proof. vm_compute. reflexivity. Qed.

(** One NaN among two sensors. *)
Definition nan_health : SensorEnv := {|
  se_provide := fun _ name _ => inr (Some (mkSample (f64_of_Z 70) (if String.eqb name "hfi_pmt" then S754_nan else f64_of_Z 1) (f64_of_Z 1) true 0));
  se_available := fun _ _ _ => inr true; se_now := fun n => Z.of_nat n |}.

Lemma evaluation_falls_back_witness :
  (result (evaluate_socket (SE := nan_health) (MX := demo_env) (HE := plain_files)
     [Some (HfiPmtAdapter true false); None; Some (AmdHsmpAdapter true true)] 1) (idle_shared (Some demo_history))).1
  = f64_ratio 723 10.
Proof.
  refine (eq_trans (proj1 (evaluation_falls_back (SE := nan_health) (MX := demo_env) (HE := plain_files)
    [Some (HfiPmtAdapter true false); None; Some (AmdHsmpAdapter true true)] 1 (idle_shared (Some demo_history)) _)) _).
  - right. vm_compute. by left.
  - vm_compute. reflexivity.
Defined.
