(* ===== verification/Signals.v ===== *)
(** * Signals: the crash report of [src/src/thermal_signals.c]

    The handler of SIGSEGV and SIGBUS writes a line with the signal and the
    trampoline state to standard error and ends the process.  It runs on top of
    whatever was interrupted, so it takes no lock and allocates nothing: it only
    calls [write], reads three atomics and calls [_exit].  [write] may be
    interrupted and may accept less than it is given. *)
From S2P Require Import Prelude Float64 Format FloatText Config World.
From Stdlib Require Import Ascii String.
#[local] Open Scope string_scope.
#[local] Open Scope Z_scope.
#[local] Arguments String.append !_ _ : simpl nomatch.

(** What [write] answers: an [errno], or the number of bytes it took. *)
Class SignalEnv : Type := mkSignalEnv { sg_write : nat -> Z + nat }.

(** What the handler leaves behind: the calls made and the bytes written. *)
Record gstate : Type := mkGstate { gs_calls : nat; gs_out : string }.
#[export] Instance eta_gstate : Eta gstate := fun s => mkGstate (gs_calls s) (gs_out s).
Abbreviation GM := (ST gstate).

Fixpoint drop_bytes (n : nat) (s : string) : string :=
  match n, s with S n, String _ s => drop_bytes n s | _, _ => s end.
Fixpoint take_bytes (n : nat) (s : string) : string :=
  match n, s with S n, String c s => String c (take_bytes n s) | _, _ => "" end.

Section signals.
Context `{SG : SignalEnv}.

(** [write] takes at most what it is given. *)
Definition write (buf : string) : GM (Z + nat) := fun s =>
  let s' := s <| gs_calls ::= S |> in
  match sg_write (gs_calls s) with
  | inl e => (inl e, s')
  | inr n => let n := Nat.min n (String.length buf) in (inr n, s' <| gs_out ::= fun o => o ++ take_bytes n buf |>)
  end.

(** [None] when the fuel, one unit per call of [write], ran out. *)
Fixpoint tsd_safe_write_buf (fuel : nat) (buf : string) : GM (option unit) :=
  match buf with
  | "" => ret (Some tt)
  | _ =>
      match fuel with
      | O => ret None
      | S fuel =>
          written <- write buf ;;
          match written with
          | inl e => if e =? EINTR then tsd_safe_write_buf fuel buf else ret (Some tt)
          | inr O => ret (Some tt)
          | inr n => tsd_safe_write_buf fuel (drop_bytes n buf)
          end
      end
  end.

(** The digits of [value], built from the end of a buffer of [n] bytes. *)
Fixpoint uint_digits_loop (n : nat) (value : Z) (buf : string) : string :=
  match n with
  | O => buf
  | S n =>
      let buf := String (chr (48 + value mod 10)) buf in
      if (value / 10 =? 0) || (n =? 0)%nat then buf else uint_digits_loop n (value / 10) buf
  end.
Definition tsd_safe_write_uint (fuel : nat) (value : Z) : GM (option unit) :=
  tsd_safe_write_buf fuel (uint_digits_loop 16 value "").

Definition width_text (width : Z) : string :=
  if width =? SIMD_SSE41 then "SSE4.1" else if width =? SIMD_AVX2 then "AVX2"
  else if width =? SIMD_AVX512 then "AVX-512" else "unknown".
Definition tsd_safe_write_width (fuel : nat) (width : Z) : GM (option unit) := tsd_safe_write_buf fuel (width_text width).

(** One write after the other, until the fuel of one runs out. *)
Definition then_write (a b : GM (option unit)) : GM (option unit) :=
  r <- a ;; match r with None => ret None | Some _ => b end.

(** The handler: the status it passes to [_exit]. *)
Definition crash_signal_handler (fuel : nat) (sig : Z) (t : tramp_state) : GM (option Z) :=
  let lit := tsd_safe_write_buf fuel in
  r <- then_write (lit (nl ++ "[thermal_simd] caught signal "))
      (then_write (tsd_safe_write_uint fuel (u32 sig))
      (then_write (lit " while dispatching. last_selected=")
      (then_write (tsd_safe_write_width fuel (t_last_patched_width t))
      (then_write (lit " last_attempt=")
      (then_write (tsd_safe_write_width fuel (t_last_patch_attempt t))
      (then_write (lit " active=")
      (then_write (tsd_safe_write_width fuel (t_current_width_byte t))
      (lit nl)))))))) ;;
  ret match r with Some _ => Some (128 + sig) | None => None end.

(** The signals it is installed for, with [SA_RESTART]. *)
Definition SIGBUS : Z := 7.
Definition SIGSEGV : Z := 11.
Definition tsd_install_patch_signal_handlers : list Z := [SIGSEGV; SIGBUS].
End signals.

(** ** Numbers *)

Lemma uint_digits_spec n v buf :
  0 <= v < 10 ^ Z.of_nat n -> (0 < n)%nat ->
  exists ds, uint_digits_loop n v buf = ds ++ buf /\ all_chars isdigit ds = true /\ dec_value ds 0 = v /\
    (0 < String.length ds)%nat /\ (v <> 0 -> 10 ^ (Z.of_nat (String.length ds) - 1) <= v) /\ (v = 0 -> String.length ds = 1%nat).
Proof.
  revert v buf. induction n as [|n IH]; intros v buf Hv Hn; [lia|]. cbn [uint_digits_loop].
  set (c := chr (48 + v mod 10)).
  assert (Hm : 0 <= v mod 10 < 10) by (apply Z.mod_pos_bound; lia).
  assert (Hc : isdigit c = true /\ digit_val c = v mod 10).
  { subst c. unfold isdigit, digit_val. rewrite code_chr by lia. split; [|lia].
    apply andb_true_iff. split; apply Z.leb_le; lia. }
  pose proof (Z.div_mod v 10 ltac:(lia)) as Hdm.
  rewrite Nat2Z.inj_succ, Z.pow_succ_r in Hv by lia.
  assert (Hz : (n =? 0)%nat = true -> v / 10 = 0).
  { intros H0%Nat.eqb_eq. subst n. cbn in Hv. apply Z.div_small. lia. }
  destruct (Z.eqb_spec (v / 10) 0) as [E|E]; cbn [orb].
  - exists (String c ""). split; [done|]. cbn [all_chars dec_value String.length]. destruct Hc as [-> ->].
    split; [done|]. split; [lia|]. split; [lia|]. split; [cbn; lia|done].
  - destruct (Nat.eqb_spec n 0) as [->|Hn0]; [by destruct (E (Hz eq_refl))|].
    destruct (IH (v / 10) (String c buf)) as (ds & Eq & Hd & Hval & Hl & Hlow & _); [|lia|].
    { split; [apply Z.div_pos; lia|]. apply Z.div_lt_upper_bound; lia. }
    exists (ds ++ String c "")%string. rewrite Eq. split; [by rewrite string_app_assoc|].
    rewrite all_chars_app, dec_value_app, Hval, string_length_app, Hd. cbn [all_chars dec_value String.length]. destruct Hc as [-> ->].
    split; [done|]. split; [lia|]. split; [lia|]. split; [|intros ->; by destruct (E eq_refl)].
    intros _. specialize (Hlow E). replace (Z.of_nat (String.length ds + 1) - 1) with (Z.succ (Z.of_nat (String.length ds) - 1)) by lia.
    rewrite Z.pow_succ_r by lia. lia.
Qed.

(** The loop of [tsd_safe_write_uint] prints the decimal notation. *)
Lemma uint_digits_decimal v : 0 <= v <= UINT32_MAX -> uint_digits_loop 16 v "" = decimal v.
Proof.
  intros Hv. destruct (uint_digits_spec 16 v "") as (ds & -> & Hd & Hval & Hl & Hlow & Hzero); [|lia|].
  { revert Hv. unfold_int. cbn. lia. }
  rewrite string_app_nil. apply dec_value_inj; [done|apply decimal_nonneg; lia| |rewrite decimal_value; lia].
  destruct (Z.eq_dec v 0) as [->|Hnz]; [by rewrite Hzero|].
  destruct (decimal_nonempty v) as (c & s & E). pose proof (decimal_head v c s ltac:(lia) E) as Hc.
  pose proof (decimal_nonneg v ltac:(lia)) as Hdv. pose proof (decimal_value v ltac:(lia)) as Hvv.
  pose proof (dec_value_bound ds Hd) as [_ Hup]. pose proof (dec_value_bound _ Hdv) as [_ Hup']. rewrite Hval in Hup. rewrite Hvv in Hup'.
  assert (Hle : (String.length (decimal v) <= String.length ds)%nat) by (apply decimal_length; lia).
  assert (Hlt : 10 ^ (Z.of_nat (String.length ds) - 1) < 10 ^ Z.of_nat (String.length (decimal v))) by (specialize (Hlow Hnz); lia).
  apply Z.pow_lt_mono_r_iff in Hlt; lia.
Qed.

(** ** The report *)

Lemma take_drop_bytes n s : take_bytes n s ++ drop_bytes n s = s.
Proof. revert s. induction n as [|n IH]; intros [|c s]; try done. cbn. by rewrite IH. Qed.

Lemma drop_bytes_length n s : String.length (drop_bytes n s) = (String.length s - n)%nat.
Proof. revert s. induction n as [|n IH]; intros [|c s]; try done. apply IH. Qed.

Section report.
Context `{SG : SignalEnv}.

(** [write] fails only by interruption and otherwise takes something. *)
Definition terminal_accepts : Prop := forall n, sg_write n = inl EINTR \/ exists k, sg_write n = inr (S k).

(** The interruptions among [fuel] calls from the [n]-th. *)
Fixpoint interruptions (n fuel : nat) : nat :=
  match fuel with
  | O => O
  | S fuel => (match sg_write n with inl _ => 1 | inr _ => 0 end + interruptions (S n) fuel)%nat
  end.

(** Every byte is written, in order, whatever portions [write] takes. *)
Lemma write_buf_complete fuel buf s :
  terminal_accepts -> (String.length buf + interruptions (gs_calls s) fuel <= fuel)%nat ->
  exists calls, (gs_calls s <= calls)%nat /\ (calls <= gs_calls s + fuel)%nat /\
    tsd_safe_write_buf fuel buf s = (Some tt, mkGstate calls (gs_out s ++ buf)).
Proof.
  intros Hok. revert buf s. induction fuel as [|fuel IH]; intros buf [n out] Hf; cbn [gs_calls gs_out interruptions] in *.
  - destruct buf; [|cbn in Hf; lia]. exists n. split; [lia|]. split; [lia|]. by rewrite string_app_nil.
  - destruct buf as [|c buf]; [exists n; split; [lia|]; split; [lia|]; by rewrite string_app_nil|].
    cbn [tsd_safe_write_buf]. rewrite bind_run. unfold write. cbn [gs_calls].
    destruct (Hok n) as [E|[k E]]; rewrite E in Hf |- *; cbn [fst snd].
    + rewrite Z.eqb_refl. destruct (IH (String c buf) (mkGstate (S n) out)) as (calls & H1 & H2 & H3); [cbn in *; lia|].
      exists calls. cbn in H1, H2. split; [lia|]. split; [lia|]. exact H3.
    + set (m := Nat.min (S k) (String.length (String c buf))).
      assert (Hm : (0 < m)%nat) by (subst m; cbn; lia). destruct m as [|m'] eqn:Em; [lia|].
      destruct (IH (drop_bytes (S m') (String c buf)) (mkGstate (S n) (out ++ take_bytes (S m') (String c buf)))) as (calls & H1 & H2 & H3).
      { rewrite drop_bytes_length. cbn [gs_calls String.length] in *. lia. }
      exists calls. cbn in H1, H2. split; [lia|]. split; [lia|]. cbn [gs_out] in H3.
      rewrite string_app_assoc, take_drop_bytes in H3. exact H3.
Qed.

Definition report_text (sig : Z) (t : tramp_state) : string :=
  nl ++ "[thermal_simd] caught signal " ++ decimal sig ++ " while dispatching. last_selected=" ++
  width_text (t_last_patched_width t) ++ " last_attempt=" ++ width_text (t_last_patch_attempt t) ++ " active=" ++
  width_text (t_current_width_byte t) ++ nl.

(** A computation that writes [text] and nothing else. *)
Definition writes (m : GM (option unit)) (text : string) : Prop :=
  forall s, exists calls, m s = (Some tt, mkGstate calls (gs_out s ++ text)).

Lemma then_writes a b ta tb : writes a ta -> writes b tb -> writes (then_write a b) (ta ++ tb).
Proof.
  intros Ha Hb s. destruct (Ha s) as [n1 E1]. destruct (Hb (mkGstate n1 (gs_out s ++ ta))) as [n2 E2].
  exists n2. unfold then_write. rewrite bind_run, E1. cbn [fst snd]. rewrite E2. cbn [gs_out]. by rewrite string_app_assoc.
Qed.

(** A crash report is complete: if standard error takes at
    least one byte per call that is not interrupted, and the interruptions leave
    room for 64 calls in any window of [fuel] calls, the handler writes exactly
    one line with the signal number and the three widths, in order and without
    loss, however [write] cuts it up, and exits with 128 plus the signal. *)
Theorem crash_report_is_complete fuel sig t s :
  0 <= sig <= INT_MAX -> terminal_accepts -> (forall n, (64 + interruptions n fuel <= fuel)%nat) ->
  exists calls, crash_signal_handler fuel sig t s = (Some (128 + sig), mkGstate calls (gs_out s ++ report_text sig t)).
Proof.
  intros Hsig Hok Hfuel.
  assert (Hbuf : forall buf, (String.length buf <= 64)%nat -> writes (tsd_safe_write_buf fuel buf) buf).
  { intros buf Hb s'. specialize (Hfuel (gs_calls s')).
    destruct (write_buf_complete fuel buf s' Hok) as (calls & _ & _ & E); [lia|]. by exists calls. }
  assert (Hw : forall w, writes (tsd_safe_write_width fuel w) (width_text w)).
  { intros w. apply Hbuf. unfold width_text. repeat case_if; cbn; lia. }
  assert (Hn : writes (tsd_safe_write_uint fuel (u32 sig)) (decimal sig)).
  { unfold tsd_safe_write_uint. assert (Hu : u32 sig = sig) by (apply u32_small; unfold in_u32; revert Hsig; unfold_int; lia).
    rewrite Hu, uint_digits_decimal by (revert Hsig; unfold_int; lia). apply Hbuf.
    etransitivity; [apply (decimal_length sig 10); [lia|]; revert Hsig; unfold_int; cbn; lia|lia]. }
  unfold crash_signal_handler. rewrite bind_run.
  match goal with |- context [then_write ?a ?b s] => assert (Hall : writes (then_write a b) (report_text sig t)) end.
  { unfold report_text. rewrite <- (string_app_assoc nl).
    repeat (apply then_writes; [first [apply Hw | exact Hn | apply Hbuf; cbn; lia]|]). apply Hbuf. cbn. lia. }
  destruct (Hall s) as [calls E]. exists calls. rewrite E. done.
Qed.
End report.

(** A terminal that takes three bytes at a time and interrupts every fourth call. *)
Definition slow_terminal : SignalEnv := {| sg_write := fun n => if (n mod 4 =? 3)%nat then inl EINTR else inr 3%nat |}.

Example slow_report :
  gs_out (crash_signal_handler (SG := slow_terminal) 200 11 (initial_tramp <| t_last_patch_attempt := 1 |>) (mkGstate 0 "")).2
  = nl ++ "[thermal_simd] caught signal 11 while dispatching. last_selected=SSE4.1 last_attempt=AVX2 active=SSE4.1" ++ nl.
Proof. vm_compute. reflexivity. Qed.

Lemma quarter_interrupted n k : (interruptions (SG := slow_terminal) n (4 * k) = k)%nat.
Proof.
  revert n. induction k as [|k IH]; intros n; [done|]. replace (4 * S k)%nat with (S (S (S (S (4 * k))))) by lia.
  cbn [interruptions slow_terminal sg_write]. rewrite (IH (S (S (S (S n))))).
  pose proof (Nat.mod_upper_bound n 4 ltac:(lia)) as Hb. pose proof (Nat.div_mod n 4 ltac:(lia)) as Hd.
  set (q := (n / 4)%nat) in *. set (r := (n mod 4)%nat) in *.
  assert (Hr : forall i, ((i + n) mod 4 = (i + r) mod 4)%nat).
  { intros i. rewrite Hd. replace (i + (4 * q + r))%nat with ((i + r) + q * 4)%nat by lia. apply Nat.Div0.mod_add. }
  pose proof (Hr 1%nat) as H1. pose proof (Hr 2%nat) as H2. pose proof (Hr 3%nat) as H3. cbn [Nat.add] in H1, H2, H3.
  rewrite H1, H2, H3. fold r. destruct r as [|[|[|[|r]]]]; cbn; lia.
Qed.

Lemma crash_report_is_complete_witness :
  exists calls, crash_signal_handler (SG := slow_terminal) 200 11 initial_tramp (mkGstate 0 "")
    = (Some 139, mkGstate calls (report_text 11 initial_tramp)).
Proof.
  apply (crash_report_is_complete (SG := slow_terminal) 200 11 initial_tramp (mkGstate 0 "")); [unfold INT_MAX; lia| |].
  - intros n. cbn [slow_terminal sg_write]. destruct (n mod 4 =? 3)%nat; [by left|right; by exists 2%nat].
  - intros n. change 200%nat with (4 * 50)%nat at 1. rewrite quarter_interrupted. lia.
Defined.
