(* ===== verification/Logging.v ===== *)
(** * Logging: the logger and the counters' names

    [src/src/logging.c] and the reporting half of [src/src/runtime_metrics.c].
    The text [vsnprintf] produces from a format and its arguments is a
    parameter of [tsd_log] ([None] for an encoding error); what the logger does
    with it, the buffers, the time stamp and the line, is modelled. *)
From S2P Require Import Prelude Float64 Format FloatText Config ConfigParser World Cli.
From Stdlib Require Import Ascii String.
#[local] Open Scope string_scope.
#[local] Open Scope Z_scope.
#[local] Arguments String.append !_ _ : simpl nomatch.

Definition level_name (level : Z) : string :=
  if level =? TSD_LOG_LEVEL_ERROR then "ERROR" else if level =? TSD_LOG_LEVEL_WARN then "WARN"
  else if level =? TSD_LOG_LEVEL_INFO then "INFO" else if level =? TSD_LOG_LEVEL_DEBUG then "DEBUG" else "UNKNOWN".
Definition tsd_log_level_to_string : Z -> string := level_name.

(** ** State *)

Inductive stream : Type := Stdout | Stderr.

Record log_state : Type := mkLog {
  lg_level : Z;                      (** [g_tsd_log_level] *)
  lg_locked : bool;                  (** [g_tsd_log_lock] *)
  lg_lines : list (stream * string); (** oldest first *)
  lg_heap : Z;                       (** buffers allocated and not freed *)
  lg_calls : nat;
}.
#[export] Instance eta_log : Eta log_state := fun s => mkLog (lg_level s) (lg_locked s) (lg_lines s) (lg_heap s) (lg_calls s).
Abbreviation GLM := (ST log_state).

Definition initial_log : log_state := mkLog TSD_LOG_LEVEL_INFO false [] 0 0.

Class LogEnv : Type := mkLogEnv {
  le_clock : nat -> option (Z * Z);   (** [clock_gettime(CLOCK_REALTIME)] *)
  le_gettid : nat -> Z;
  le_pthread_self : Z;
  le_malloc : nat -> bool;
  le_strerror : Z -> string;          (** [strerror_r] of glibc *)
}.

Definition gext {A} (f : nat -> A) : GLM A := fun s => (f (lg_calls s), s <| lg_calls ::= S |>).

(** ** Levels *)

Definition clamp_level (level : Z) : Z :=
  if level <? TSD_LOG_LEVEL_ERROR then TSD_LOG_LEVEL_ERROR
  else if level >? TSD_LOG_LEVEL_DEBUG then TSD_LOG_LEVEL_DEBUG else level.

Definition tsd_log_set_level (level : Z) : GLM unit := modify (fun s => s <| lg_level := clamp_level level |>).
Definition tsd_log_get_level : GLM Z := gets (fun s => clamp_level (lg_level s)).
Definition tsd_log_should_log (level : Z) : GLM bool := gets (fun s => level <=? lg_level s).

(** ** Time stamps *)

(** [gmtime_r]: the proleptic Gregorian calendar, from days since 1970-01-01. *)
Record tm : Type := mkTm { tm_year : Z; tm_mon : Z; tm_mday : Z; tm_hour : Z; tm_min : Z; tm_sec : Z }.

Definition civil_of_days (days : Z) : Z * Z * Z :=
  let z := days + 719468 in
  let era := z / 146097 in
  let doe := z mod 146097 in
  let yoe := (doe - doe / 1460 + doe / 36524 - doe / 146096) / 365 in
  let doy := doe - (365 * yoe + yoe / 4 - yoe / 100) in
  let mp := (5 * doy + 2) / 153 in
  let month := if mp <? 10 then mp + 3 else mp - 9 in
  (yoe + era * 400 + (if month <=? 2 then 1 else 0), month, doy - (153 * mp + 2) / 5 + 1).

Definition gmtime_r (t : Z) : tm :=
  let '(year, month, day) := civil_of_days (t / 86400) in
  let s := t mod 86400 in
  mkTm year month day (s / 3600) (s / 60 mod 60) (s mod 60).

(** ["%Y-%m-%dT%H:%M:%S"] *)
Definition strftime (t : tm) : string :=
  decimal (tm_year t) ++ "-" ++ padded 2 (tm_mon t) ++ "-" ++ padded 2 (tm_mday t) ++ "T" ++
  padded 2 (tm_hour t) ++ ":" ++ padded 2 (tm_min t) ++ ":" ++ padded 2 (tm_sec t).

Section logging.
Context `{LX : LogEnv}.

(** The time stamp and the nanoseconds; [strftime] needs room for its text in 32 bytes. *)
Definition format_timestamp : GLM (string * Z) :=
  now <- gext le_clock ;;
  ret match now with
      | None => ("1970-01-01T00:00:00Z", 0)
      | Some (sec, nsec) =>
          let text := strftime (gmtime_r sec) in
          (if (String.length text <? 32)%nat then text else "1970-01-01T00:00:00", nsec)
      end.

(** ** Lines *)

Definition line_text (timestamp : string) (nsec level tid : Z) (component message : string) : string :=
  timestamp ++ "." ++ padded 9 nsec ++ "Z [" ++ level_name level ++ "] (" ++ decimal tid ++ ") " ++
  component ++ ": " ++ message ++ nl.

Definition write_log_line (level : Z) (component : option string) (message : string) : GLM unit :=
  let* (timestamp, nsec) := format_timestamp in
  tid <- gext le_gettid ;;
  let tid := if tid <? 0 then le_pthread_self else tid in
  let component := match component with Some c => if String.eqb c "" then "core" else c | None => "core" end in
  let stream := if level <=? TSD_LOG_LEVEL_WARN then Stderr else Stdout in
  modify (fun s => s <| lg_locked := true |>) ;;;
  modify (fun s => s <| lg_lines ::= fun l => app l [(stream, line_text timestamp nsec level tid component message)] |>) ;;;
  modify (fun s => s <| lg_locked := false |>).

(** [tsd_log]: [formatted] is the text the format and its arguments stand for. *)
Definition tsd_log (level : Z) (component formatted : option string) : GLM unit :=
  should <- tsd_log_should_log level ;;
  if negb should then ret tt
  else
    match formatted with
    | None => ret tt
    | Some text =>
        if (512 <=? String.length text)%nat then
          got <- gext le_malloc ;;
          if got : bool then
            modify (fun s => s <| lg_heap ::= Z.add 1 |>) ;;;
            write_log_line level component text ;;;
            modify (fun s => s <| lg_heap ::= fun n => n - 1 |>)
          else write_log_line level component "<log oom>"
        else write_log_line level component text
    end.

(** [tsd_log_strerror] with a buffer of [buf_len] bytes. *)
Definition tsd_log_strerror (errnum : Z) (buf : bool) (buf_len : Z) : string :=
  if negb buf || (buf_len =? 0) then "" else le_strerror errnum.
End logging.

(** ** Counters *)

Definition tsd_metrics_counter_name (id : Z) : string :=
  if id <? 0 then "invalid"
  else nth (Z.to_nat id)
    ["perf_fallbacks"; "perf_recoveries"; "telemetry_temp_drops"; "telemetry_temp_recoveries"; "telemetry_freq_drops";
     "telemetry_freq_recoveries"; "telemetry_msr_drops"; "telemetry_msr_recoveries"; "patch_transitions";
     "patch_failures"; "health_check_failures"; "software_timeout_escalations"; "predictive_forecasts_total";
     "predictive_stale_samples_total"; "predictive_coeff_reload_total"; "predictive_coeff_reload_errors_total";
     "predictive_abs_error_millic_total"; "predictive_decisions_total"] "invalid".

(** [tsd_metrics_snapshot]; nothing is stored through a null pointer. *)
Definition tsd_metrics_snapshot (out : bool) : M (option (list Z)) :=
  if negb out then ret None else gets (fun w => Some (w_metrics w)).

(** ** The calendar *)

Definition days_of_civil (year month day : Z) : Z :=
  let y := if month <=? 2 then year - 1 else year in
  let era := y / 400 in
  let yoe := y mod 400 in
  let doy := (153 * (if month >? 2 then month - 3 else month + 9) + 2) / 5 + day - 1 in
  era * 146097 + (yoe * 365 + yoe / 4 - yoe / 100 + doy) - 719468.

(** The year of an era and the day of that year. *)
Lemma year_of_era_range doe :
  0 <= doe < 146097 ->
  let yoe := (doe - doe / 1460 + doe / 36524 - doe / 146096) / 365 in
  0 <= yoe < 400 /\ 0 <= doe - (365 * yoe + yoe / 4 - yoe / 100) <= 365.
Proof. intros H. cbv zeta. Z.div_mod_to_equations. lia. Qed.

Lemma civil_spec days year month day :
  civil_of_days days = (year, month, day) ->
  days_of_civil year month day = days /\ 1 <= month <= 12 /\ 1 <= day <= 31 /\
  400 * ((days + 719468) / 146097) <= year <= 400 * ((days + 719468) / 146097) + 400.
Proof.
  unfold civil_of_days. set (era := (days + 719468) / 146097). set (doe := (days + 719468) mod 146097).
  assert (Hd : days = era * 146097 + doe - 719468) by (pose proof (Z.div_mod (days + 719468) 146097); subst era doe; lia).
  assert (Hr : 0 <= doe < 146097) by (apply Z.mod_pos_bound; lia). clearbody era doe. subst days.
  destruct (year_of_era_range doe Hr) as [Hy Hdoy].
  set (yoe := (doe - doe / 1460 + doe / 36524 - doe / 146096) / 365) in *. clearbody yoe.
  remember (doe - (365 * yoe + yoe / 4 - yoe / 100)) as doy eqn:Edoy.
  assert (Hmp : 0 <= (5 * doy + 2) / 153 <= 11) by (Z.div_mod_to_equations; lia).
  assert (Hday : 1 <= doy - (153 * ((5 * doy + 2) / 153) + 2) / 5 + 1 <= 31) by (Z.div_mod_to_equations; lia).
  set (mp := (5 * doy + 2) / 153) in *. clearbody mp. intros [= <- <- <-]. unfold days_of_civil.
  assert (Ey : forall b, yoe + era * 400 + b - b = yoe + era * 400) by lia.
  assert (E400 : (yoe + era * 400) / 400 = era /\ (yoe + era * 400) mod 400 = yoe)
    by (rewrite Z.div_add, Z.mod_add, Z.div_small, Z.mod_small by lia; lia).
  destruct E400 as [E1 E2]. destruct (Z.ltb_spec mp 10).
  - assert ((mp + 3 <=? 2) = false /\ (mp + 3 >? 2) = true) as [-> ->] by lia.
    rewrite Z.add_0_r, E1, E2. replace (mp + 3 - 3) with mp by lia. lia.
  - assert ((mp - 9 <=? 2) = true /\ (mp - 9 >? 2) = false) as [-> ->] by lia.
    rewrite Ey, E1, E2. replace (mp - 9 + 9) with mp by lia. lia.
Qed.

Definition seconds_of (t : tm) : Z :=
  days_of_civil (tm_year t) (tm_mon t) (tm_mday t) * 86400 + tm_hour t * 3600 + tm_min t * 60 + tm_sec t.

Lemma gmtime_inverse t : seconds_of (gmtime_r t) = t.
Proof.
  unfold gmtime_r, seconds_of. destruct (civil_of_days (t / 86400)) as [[y m] d] eqn:E.
  cbn [tm_year tm_mon tm_mday tm_hour tm_min tm_sec]. apply civil_spec in E as [-> _]. Z.div_mod_to_equations. lia.
Qed.

(** ** Reading a time stamp *)

Definition number (s : string) : option (Z * string) :=
  let '(v, n, rest) := scan_digits s 0 0 in if n =? 0 then None else Some (v, rest).

Definition after_char (c : ascii) (s : string) : option string :=
  match s with String x s => if Ascii.eqb x c then Some s else None | EmptyString => None end.

(** A number and the character behind it. *)
Definition field (c : ascii) (s : string) : option (Z * string) :=
  match number s with
  | Some (v, s) => match after_char c s with Some s => Some (v, s) | None => None end
  | None => None
  end.

Definition parse_timestamp (s : string) : option tm :=
  match field "-" s with None => None | Some (year, s) =>
  match field "-" s with None => None | Some (month, s) =>
  match field "T" s with None => None | Some (day, s) =>
  match field ":" s with None => None | Some (hour, s) =>
  match field ":" s with None => None | Some (minute, s) =>
  match number s with None => None | Some (second, _) => Some (mkTm year month day hour minute second)
  end end end end end end.

Lemma field_decimal c n rest : 0 <= n -> isdigit c = false -> field c (decimal n ++ String c rest) = Some (n, rest).
Proof.
  intros Hn Hc. unfold field, number. destruct (scan_decimal n (String c rest) Hn) as (k & Hk & ->); [cbn; by rewrite Hc|].
  rewrite (proj2 (Z.eqb_neq k 0)) by lia. cbn. by rewrite Ascii.eqb_refl.
Qed.

Lemma number_padded n rest : 0 <= n < 100 -> no_digit rest = true -> number (padded 2 n ++ rest) = Some (n, rest).
Proof.
  intros Hn Hr. destruct (padded_spec 2 n) as (Hd & Hl & Hv); [lia|cbn; lia|]. unfold number.
  rewrite scan_digits_stop, Hl, Hv by done. done.
Qed.

Lemma field_padded c n rest : 0 <= n < 100 -> isdigit c = false -> field c (padded 2 n ++ String c rest) = Some (n, rest).
Proof.
  intros Hn Hc. unfold field. rewrite number_padded by (done || by cbn; rewrite Hc). cbn. by rewrite Ascii.eqb_refl.
Qed.

(** The first second of the year 10000. *)
Definition year_10000 : Z := 253402300800.

Lemma gmtime_fields sec :
  0 <= sec < year_10000 ->
  let t := gmtime_r sec in
  0 <= tm_year t < 10000 + 400 /\ 0 <= tm_mon t < 100 /\ 0 <= tm_mday t < 100 /\ 0 <= tm_hour t < 100 /\
  0 <= tm_min t < 100 /\ 0 <= tm_sec t < 100.
Proof.
  intros Hs. unfold gmtime_r. destruct (civil_of_days (sec / 86400)) as [[y m] d] eqn:E.
  apply civil_spec in E as (_ & Hm & Hd & Hy). cbv zeta. cbn [tm_year tm_mon tm_mday tm_hour tm_min tm_sec].
  unfold year_10000 in Hs. assert (0 <= sec / 86400 < 2932897) by (Z.div_mod_to_equations; lia).
  assert (4 <= (sec / 86400 + 719468) / 146097 <= 24) by (Z.div_mod_to_equations; lia).
  repeat split; try lia; Z.div_mod_to_equations; lia.
Qed.

Lemma timestamp_decodes sec : 0 <= sec < year_10000 -> parse_timestamp (strftime (gmtime_r sec)) = Some (gmtime_r sec).
Proof.
  intros Hs. pose proof (gmtime_fields sec Hs) as H. cbv zeta in H. destruct (gmtime_r sec) as [y mo d h mi s].
  cbn [tm_year tm_mon tm_mday tm_hour tm_min tm_sec] in H. destruct H as (Hy & Hmo & Hd & Hh & Hmi & Hse).
  unfold strftime, parse_timestamp. cbn [tm_year tm_mon tm_mday tm_hour tm_min tm_sec].
  cbn [String.append].
  rewrite field_decimal by (done || lia). cbv beta iota. do 4 (rewrite field_padded by done; cbv beta iota).
  rewrite <- (string_app_nil (padded 2 s)), number_padded by done. done.
Qed.

(** ** What a log call writes *)

Section faithful.
Context `{LX : LogEnv}.

Definition component_text (component : option string) : string :=
  match component with Some c => if String.eqb c "" then "core" else c | None => "core" end.

(** The time in a line is that of the [k]-th call, when the clock answered. *)
Definition time_of_call (k : nat) (timestamp : string) (nsec : Z) : Prop :=
  match le_clock k with
  | Some (sec, ns) => nsec = ns /\ (0 <= sec < year_10000 -> option_map seconds_of (parse_timestamp timestamp) = Some sec)
  | None => timestamp = "1970-01-01T00:00:00Z" /\ nsec = 0
  end.

Lemma strftime_short sec : 0 <= sec < year_10000 -> (String.length (strftime (gmtime_r sec)) < 32)%nat.
Proof.
  intros Hs. pose proof (gmtime_fields sec Hs) as H. cbv zeta in H. destruct (gmtime_r sec) as [y mo d h mi s].
  cbn [tm_year tm_mon tm_mday tm_hour tm_min tm_sec] in H. destruct H as (Hy & Hmo & Hd & Hh & Hmi & Hse).
  unfold strftime. cbn [tm_year tm_mon tm_mday tm_hour tm_min tm_sec].
  assert (Hp : forall n, 0 <= n < 100 -> String.length (padded 2 n) = 2%nat) by (intros n Hn; apply (padded_spec 2 n); [lia|cbn; lia]).
  assert (String.length (decimal y) <= 5)%nat by (apply decimal_length; [lia|cbn; lia]).
  rewrite !string_length_app, !Hp by done. cbn. lia.
Qed.

Lemma write_log_line_spec level component message s :
  exists timestamp nsec tid calls, time_of_call (lg_calls s) timestamp nsec /\
    exec (write_log_line level component message) s
    = s <| lg_calls := calls |> <| lg_locked := false |>
        <| lg_lines ::= fun l => app l [(if level <=? TSD_LOG_LEVEL_WARN then Stderr else Stdout,
             line_text timestamp nsec level tid (component_text component) message)] |>.
Proof.
  unfold exec, write_log_line, format_timestamp, gext. cbn -[line_text strftime gmtime_r String.length Nat.ltb]. unfold time_of_call.
  destruct (le_clock (lg_calls s)) as [[sec ns]|]; cbn -[line_text strftime gmtime_r String.length Nat.ltb]; do 4 eexists; (split; [|reflexivity]); [|done].
  split; [done|]. intros Hs. rewrite (proj2 (Nat.ltb_lt _ _) (strftime_short sec Hs)), (timestamp_decodes sec Hs).
  cbn [option_map]. by rewrite gmtime_inverse.
Qed.

(** A call of the logger at an enabled level writes one line,
    to standard error for errors and warnings and to standard output otherwise;
    the line carries the complete message whatever its length (or ["<log oom>"]
    when a long one finds no memory), the component (["core"] without one), and
    a time stamp that decodes to the second the clock reported; the lock and any
    buffer are given back.  At a disabled level, or when formatting fails,
    nothing changes. *)
Theorem log_line_is_faithful level component formatted s :
  let s' := exec (tsd_log level component formatted) s in
  if level <=? lg_level s then
    match formatted with
    | None => s' = s
    | Some text =>
        lg_level s' = lg_level s /\ lg_heap s' = lg_heap s /\ lg_locked s' = false /\
        exists k timestamp nsec tid message, time_of_call k timestamp nsec /\
          (message = text \/ message = "<log oom>" /\ (512 <= String.length text)%nat /\ le_malloc (lg_calls s) = false) /\
          lg_lines s' = app (lg_lines s) [(if level <=? TSD_LOG_LEVEL_WARN then Stderr else Stdout,
            line_text timestamp nsec level tid (component_text component) message)]
    end
  else s' = s.
Proof.
  cbv zeta. unfold exec, tsd_log. rewrite bind_run. cbn [tsd_log_should_log gets fst snd].
  destruct (level <=? lg_level s); [|done]. cbn [negb]. destruct formatted as [text|]; [|done].
  destruct (Nat.leb_spec 512 (String.length text)) as [Hlong|Hshort].
  - rewrite bind_run. cbn [gext fst snd]. set (s1 := s <| lg_calls ::= S |>).
    destruct (le_malloc (lg_calls s)) eqn:Em.
    + rewrite bind_run. cbn [modify snd]. set (s2 := s1 <| lg_heap ::= _ |>). rewrite bind_run. cbn [modify snd].
      destruct (write_log_line_spec level component text s2) as (ts & ns & tid & calls & Ht & E). unfold exec in E. rewrite E.
      split; [done|]. split; [cbn; lia|]. split; [done|]. do 5 eexists. split; [exact Ht|]. split; [by left|done].
    + destruct (write_log_line_spec level component "<log oom>" s1) as (ts & ns & tid & calls & Ht & E). unfold exec in E. rewrite E.
      split; [done|]. split; [done|]. split; [done|]. do 5 eexists. split; [exact Ht|]. split; [by right|done].
  - destruct (write_log_line_spec level component text s) as (ts & ns & tid & calls & Ht & E). unfold exec in E. rewrite E.
    split; [done|]. split; [done|]. split; [done|]. do 5 eexists. split; [exact Ht|]. split; [by left|done].
Qed.
End faithful.

(** Levels have names that are read back. *)
Example level_names_read_back : forallb (fun l => bool_decide (tsd_log_level_from_string (level_name l) = Some l)) [0; 1; 2; 3] = true.
Proof. vm_compute. reflexivity. Qed.

Definition dead_clock : LogEnv := mkLogEnv (fun _ => None) (fun _ => 7) 1 (fun _ => true) (fun _ => "").

(** Without a clock the zone mark is printed twice. *)
Example dead_clock_line :
  lg_lines (exec (tsd_log (LX := dead_clock) 0 None (Some "x")) initial_log)
  = [(Stderr, "1970-01-01T00:00:00Z.000000000Z [ERROR] (7) core: x" ++ nl)].
Proof. vm_compute. reflexivity. Qed.

Definition demo_clock : LogEnv := mkLogEnv (fun _ => Some (951827696, 5)) (fun _ => 7) 1 (fun _ => true) (fun _ => "").

Example demo_line :
  lg_lines (exec (tsd_log (LX := demo_clock) 2 (Some "perf") (Some "ok")) initial_log)
  = [(Stdout, "2000-02-29T12:34:56.000000005Z [INFO] (7) perf: ok" ++ nl)].
Proof. vm_compute. reflexivity. Qed.
