(* ===== verification/Program.v ===== *)
(** * Program: the demonstration run and the executable's main functions

    [run_demo], [install_runtime_signal_handlers] and [tsd_dispatcher_main] of
    [src/src/thermal_simd.c], and [main] of [src/src/main.cpp], composed from the
    components they call: the command line, the sandbox flags, the trampoline,
    the life cycle, the workload and the exporter (whose start and stop calls are
    recorded in order; what they do is [Exporter.v]).

    A [None] result means that the fuel of the workload ran out or that a stop is
    still waiting for wide executions to end. *)
From S2P Require Import Prelude Float64 Format Config Cli World Cpu TrampolineState Guard Trampoline Machine Dispatch Perf PerfMode Lifecycle Exporter Signals Logging Workload.
From Stdlib Require Import Ascii String.
#[local] Open Scope string_scope.
#[local] Open Scope Z_scope.

(** ** Messages *)

(** [result->iterations * 1e9 / elapsed_ns], in 128 bits. *)
Definition throughput (r : tsd_demo_result_t) : Z :=
  if dr_elapsed_ns r >? 0 then u64 (dr_iterations r * 1000000000 / dr_elapsed_ns r) else 0.

Definition demo_result_text (r : tsd_demo_result_t) : string :=
  "Workload complete: elapsed_ms=" ++ decimal (dr_elapsed_ns r / 1000000) ++ " iterations=" ++ decimal (dr_iterations r) ++
  " throughput_iter_per_sec=" ++ decimal (throughput r).

Definition max_width_text (width : simd_width_t) : string :=
  if width =? SIMD_AVX512 then "AVX-512 (512-bit)" else if width =? SIMD_AVX2 then "AVX2 (256-bit)" else "SSE4.1 (128-bit)".

(** The lines of [print_configuration]. *)
Definition configuration_lines (cfg : tsd_runtime_config) (degraded avx : bool) (max_width : simd_width_t) : list string :=
  let ms f := decimal (f degraded (Some cfg)) in
  ["Maximum supported: " ++ max_width_text max_width ++ (if allow_avx512 cfg then "" else " [AVX-512 disabled by policy]");
   "AVX transition guard: " ++ (if avx then "enabled" else "disabled");
   "Policy configuration:";
   "  Check interval: " ++ decimal (Z.quot (check_interval_us cfg) 1000) ++ " ms";
   "  Down threshold: " ++ f64_fixed 1 (down_ratio cfg) ++ "x CPI (after " ++ ms tsd_runtime_config_effective_down_count ++ " events)";
   "  Up threshold: " ++ ms tsd_runtime_config_effective_up_count ++ " stable events";
   "  Cooldown: " ++ ms tsd_runtime_config_effective_cooldown_down_ms ++ " ms down, " ++
      ms tsd_runtime_config_effective_cooldown_up_ms ++ " ms up";
   "  Minimum dwell: " ++ ms tsd_runtime_config_effective_min_dwell_ms ++ " ms per width";
   "  Memory guard: divisor=" ++ decimal (memory_guard_divisor cfg) ++ " offset=" ++ decimal (memory_guard_offset_milli cfg) ++ " milli";
   "  Telemetry weights: temp=" ++ decimal (thermal_temp_weight_milli cfg) ++ " ratio=" ++ decimal (thermal_ratio_weight_milli cfg) ++ " (milli)";
   "  Cooldown ticks: down=" ++ decimal (cooldown_down_ticks cfg) ++ " up=" ++ decimal (cooldown_up_ticks cfg) ++
      " min-dwell=" ++ decimal (min_dwell_ticks cfg);
   "  Runtime: " ++ (if run_forever cfg then "persistent" else "finite") ++ ", finite duration: " ++ decimal (demo_duration_sec cfg) ++
      " sec, work batch: " ++ decimal (work_iters cfg) ++ " iterations"].

(** [append_message]: the text before the cursor, and the cursor.  [text] is what
    the format and its arguments give. *)
Definition append_message (buf_size : nat) (buf : string * nat) (text : string) : string * nat :=
  let '(content, cursor) := buf in
  if (buf_size =? 0)%nat || (buf_size <=? cursor)%nat then buf
  else if (buf_size - cursor <=? String.length text)%nat
  then (content ++ substring 0 (buf_size - 1 - cursor) text, (buf_size - 1)%nat)
  else (content ++ text, (cursor + String.length text)%nat).

Section program.
Context `{EV : Env, PE : PerfEnv, TL : Telemetry, LE : LifeEnv, GE : ProgramEnv}.

Definition log_demo_result (r : tsd_demo_result_t) : PG unit := say TSD_LOG_LEVEL_INFO (demo_result_text r).

Definition print_configuration (max_width : simd_width_t) : PG unit :=
  cfg <- config ;;
  degraded <- on_world tsd_runtime_config_is_degraded ;;
  avx <- on_world tsd_cpu_avx_available ;;
  modify (fun p => p <| pr_log ::= fun l =>
    (l ++ map (fun text => (TSD_LOG_LEVEL_INFO, text)) (configuration_lines cfg degraded avx max_width))%list |>).

(** ** The demonstration *)

(** [run_workload] with the values of the configuration in force. *)
Definition configured_workload (fuel : nat) : PG (option tsd_demo_result_t) :=
  cfg <- config ;; run_workload fuel (demo_duration_sec cfg) (work_iters cfg) (run_forever cfg).

Definition run_demo (fuel : nat) : PG (option unit) :=
  let* (rc, runtime) := on_l (tsd_runtime_start_impl true) in
  if rc <>? 0 then
    err <- on_world (gets w_errno) ;;
    say TSD_LOG_LEVEL_ERROR ("Failed to start adaptive runtime: " ++ pg_strerror err) ;;;
    on_world (modify (fun w => w <| w_stop_requested := false |>)) ;;;
    on_world (set_running true) ;;;
    result <- configured_workload fuel ;;
    match result with
    | None => ret None
    | Some result => log_demo_result result ;;; ret (Some tt)
    end
  else
    cfg <- config ;;
    (if run_forever cfg then
       say TSD_LOG_LEVEL_INFO ("Running persistent workload until SIGINT/SIGTERM (batch iterations: " ++ decimal (work_iters cfg) ++ ")")
     else
       say TSD_LOG_LEVEL_INFO ("Running workload for " ++ decimal (demo_duration_sec cfg) ++ " wall-clock seconds (batch iterations: " ++
         decimal (work_iters cfg) ++ ")")) ;;;
    say TSD_LOG_LEVEL_INFO "Tip: stress-ng --cpu 8 --cpu-load 100 to simulate thermal load" ;;;
    result <- configured_workload fuel ;;
    match result with
    | None => ret None
    | Some result =>
        log_demo_result result ;;;
        on_l (tsd_runtime_request_stop_impl runtime) ;;;
        stopped <- on_l (tsd_runtime_stop_impl runtime) ;;
        match stopped with
        | None => ret None
        | Some rc => when (rc <>? 0) (say TSD_LOG_LEVEL_ERROR "adaptive runtime cleanup failed") ;;; ret (Some tt)
        end
    end.

(** [sigaction] with one of the handlers. *)
Definition sigaction (sig : Z) : PG Z :=
  rc <- on_world (ext pg_sigaction) ;;
  when (rc =? 0) (modify (fun p => p <| pr_handlers ::= cons sig |>)) ;;;
  ret rc.

Definition warn_errno (text : string) : PG unit :=
  err <- on_world (gets w_errno) ;; say TSD_LOG_LEVEL_WARN (text ++ pg_strerror err).

Definition install_runtime_signal_handlers : PG unit :=
  rc <- sigaction SIGHUP ;;
  when (rc <>? 0) (warn_errno "Unable to install executable SIGHUP reload handler: ") ;;;
  rc <- sigaction SIGINT ;;
  rc <- (if rc <>? 0 then ret rc else sigaction SIGTERM) ;;
  when (rc <>? 0) (warn_errno "Unable to install graceful shutdown handlers: ").

(** ** The dispatcher's main function *)

(** [(uint16_t)v] *)
Definition u16 (v : Z) : Z := v mod 65536.

Definition nonempty (s : string) : bool := negb (is_empty s).

Definition exporter_config (cfg : tsd_runtime_config) : tsd_metrics_exporter_config_t :=
  let tls := if nonempty (metrics_tls_cert_path cfg) && nonempty (metrics_tls_key_path cfg)
             then Some (mkTlsConfig (Some (metrics_tls_cert_path cfg)) (Some (metrics_tls_key_path cfg))
                          (if nonempty (metrics_tls_ca_path cfg) then Some (metrics_tls_ca_path cfg) else None)
                          (if metrics_tls_require_client_auth cfg then 1 else 0))
             else None in
  let auth := if nonempty (metrics_basic_auth_user cfg) && nonempty (metrics_basic_auth_pass cfg)
              then Some (mkBasicAuth (Some (metrics_basic_auth_user cfg)) (Some (metrics_basic_auth_pass cfg)))
              else None in
  let statsd := nonempty (statsd_host cfg) && (statsd_port cfg >? 0) in
  mkMetricsConfig (Some (metrics_bind_host cfg)) (u16 (metrics_port cfg)) tls auth
    (if statsd then Some (statsd_host cfg) else None) (if statsd then u16 (statsd_port cfg) else 0).

(** Whether the exporter was started. *)
Definition start_metrics : PG bool :=
  only <- on_world tsd_runtime_flags_sandbox_only ;;
  cfg <- config ;;
  if negb only && metrics_enabled cfg && (metrics_port cfg >? 0) then
    rc <- on_world (ext pg_exporter) ;;
    modify (fun p => p <| pr_exporter ::= fun l => (l ++ [ExporterStart (exporter_config cfg) rc])%list |>) ;;;
    if rc =? 0 then
      port <- on_world (ext pg_port) ;;
      say TSD_LOG_LEVEL_INFO ("Metrics exporter listening on " ++ metrics_bind_host cfg ++ ":" ++ decimal port) ;;;
      ret true
    else
      say TSD_LOG_LEVEL_WARN ("Failed to start metrics exporter on " ++ metrics_bind_host cfg ++ ":" ++ decimal (metrics_port cfg)) ;;;
      ret false
  else ret false.

Definition stop_exporter : PG unit := modify (fun p => p <| pr_exporter ::= fun l => (l ++ [ExporterStop])%list |>).

(** [if (metrics_started) tsd_metrics_exporter_stop(); return rc;] *)
Definition leave_main (metrics_started : bool) (rc : Z) : PG (option Z) :=
  when metrics_started stop_exporter ;;; ret (Some rc).

(** The startup sandbox: whether it passed, with the flags recorded. *)
Definition startup_sandbox : PG bool :=
  passed <- on_l (on_p tsd_sandbox_run) ;;
  if passed then on_world tsd_runtime_flags_record_sandbox_success ;;; ret true
  else
    diag <- on_world (ext le_diag) ;;
    on_world (tsd_runtime_flags_record_sandbox_failure (Some diag)) ;;;
    status <- on_world tsd_runtime_flags_status_message ;;
    say TSD_LOG_LEVEL_WARN ("startup sandbox failed: " ++ status ++ "; SIMD transitions locked to SSE4.1") ;;;
    ret false.

(** From the end of the sandbox on. *)
Definition dispatch_mode (fuel : nat) (metrics_started sandbox_ok : bool) (max_width : simd_width_t) : PG (option Z) :=
  only <- on_world tsd_runtime_flags_sandbox_only ;;
  if only then leave_main metrics_started (if sandbox_ok : bool then 0 else 1)
  else
    (if max_width <>? SIMD_SSE41 then
       allow <- on_world tsd_runtime_flags_allow_transitions ;;
       if allow then
         say TSD_LOG_LEVEL_INFO "Detected wider SIMD capability but retaining SSE4.1 until live perf/thermal validation authorizes upgrade"
       else
         status <- on_world tsd_runtime_flags_status_message ;;
         say TSD_LOG_LEVEL_WARN ("Operating in safe SIMD mode; detected maximum " ++ decimal max_width ++ " but constrained: " ++ status)
     else ret tt) ;;;
    print_configuration max_width ;;;
    cfg <- config ;;
    if health_check_mode cfg then
      say TSD_LOG_LEVEL_INFO "Running health check mode" ;;;
      rc <- on_l (on_p tsd_run_health_check) ;;
      leave_main metrics_started (if sandbox_ok : bool then rc else 1)
    else
      install_runtime_signal_handlers ;;;
      done <- run_demo fuel ;;
      match done with
      | None => ret None
      | Some _ => leave_main metrics_started 0
      end.

Definition tsd_dispatcher_main (fuel : nat) : PG (option Z) :=
  on_world (on_tramp (fun t => t <| t_last_patch_attempt := SIMD_SSE41 |> <| t_last_patched_width := SIMD_SSE41 |>)) ;;;
  metrics_started <- start_metrics ;;
  rc <- on_world tsd_trampoline_init ;;
  if rc <>? 0 then say TSD_LOG_LEVEL_ERROR "Failed to create trampolines" ;;; leave_main metrics_started 1
  else
  cfg <- config ;;
  max_width <- on_world (tsd_detect_max_simd (Some cfg)) ;;
  if (max_width =? SIMD_SSE41) && negb tsd_cpu_has_sse41 then
    say TSD_LOG_LEVEL_ERROR "SSE4.1 required but not available" ;;; leave_main metrics_started 1
  else
  rc <- on_world (tsd_trampoline_patch SIMD_SSE41) ;;
  if rc <>? 0 then say TSD_LOG_LEVEL_ERROR "Failed to install baseline trampoline patch" ;;; leave_main metrics_started 1
  else
  sandbox_ok <- startup_sandbox ;;
  dispatch_mode fuel metrics_started sandbox_ok max_width.

(** ** The executable *)

(** [tsd_install_patch_signal_handlers] installs the crash handlers of [Signals.v]. *)
Definition install_crash_handlers : PG unit :=
  modify (fun p => p <| pr_handlers ::= fun l => (l ++ tsd_install_patch_signal_handlers)%list |>).

(** The [--sandbox-only] run of [main.cpp]. *)
Definition sandbox_main : PG (option Z) :=
  rc <- on_world tsd_trampoline_init ;;
  if rc <>? 0 then say TSD_LOG_LEVEL_ERROR "Failed to create trampolines for sandbox" ;;; ret (Some 1)
  else
  rc <- on_world (tsd_trampoline_patch SIMD_SSE41) ;;
  if rc <>? 0 then say TSD_LOG_LEVEL_ERROR "Failed to install baseline trampoline for sandbox" ;;; ret (Some 1)
  else
  passed <- on_l (on_p tsd_sandbox_run) ;;
  if passed then on_world tsd_runtime_flags_record_sandbox_success ;;; ret (Some 0)
  else
    diag <- on_world (ext le_diag) ;;
    on_world (tsd_runtime_flags_record_sandbox_failure (Some diag)) ;;;
    status <- on_world tsd_runtime_flags_status_message ;;
    say TSD_LOG_LEVEL_ERROR ("Sandbox failed: " ++ status) ;;; ret (Some 1).

(** The files and memory the command line can use. *)
Context (read_file : string -> option (list ascii)) (calloc_ok : nat -> bool) (env_level : option string).

(** The exit status; [args] is [argv] without the program name. *)
Definition main (fuel : nat) (args : list string) : PG (option Z) :=
  on_world tsd_runtime_flags_init ;;;
  say TSD_LOG_LEVEL_INFO "=== Production Thermal-Aware SIMD Dispatcher ===" ;;;
  only <- on_world tsd_runtime_flags_sandbox_only ;;
  match tsd_runtime_config_parse_cli read_file calloc_ok env_level only args with
  | CliExit status => ret (Some status)
  | CliOverrun | CliStuck => ret None
  | CliNext s =>
      on_world (modify (fun w => w <| w_config := cli_cfg s |>)) ;;;
      on_world (tsd_runtime_flags_set_sandbox_only (cli_sandbox_only s)) ;;;
      modify (fun p => p <| pr_level := clamp_level (log_level (cli_cfg s)) |>) ;;;
      if cli_sandbox_only s then sandbox_main
      else install_crash_handlers ;;; tsd_dispatcher_main fuel
  end.
End program.

(** ** Facts *)

(** A bounded buffer holds the beginning of everything appended to it. *)
Definition buffered (buf_size : nat) (buf : string * nat) : Prop := String.length buf.1 = buf.2 /\ (buf.2 < buf_size)%nat.

Lemma substring_length_min n s : String.length (substring 0 n s) = Nat.min n (String.length s).
Proof. revert s. induction n as [|n IH]; intros [|c s]; cbn; [done..|]. by rewrite IH. Qed.

Lemma append_message_fits buf_size buf text :
  buffered buf_size buf -> buffered buf_size (append_message buf_size buf text).
Proof.
  destruct buf as [content cursor]. intros [H1 H2]. cbn [fst snd] in *. unfold append_message.
  destruct (Nat.eqb_spec buf_size 0), (Nat.leb_spec buf_size cursor); cbn [orb]; try lia.
  destruct (Nat.leb_spec (buf_size - cursor) (String.length text)); split; cbn [fst snd]; rewrite ?string_length_app, ?substring_length_min; lia.
Qed.

Section facts.
Context `{EV : Env, PE : PerfEnv, TL : Telemetry, LE : LifeEnv, GE : ProgramEnv}.

(** What everything but the exporter calls and the workload leaves alone. *)
Definition outward (p : program) := (pr_exporter p, pr_shim p).
Definition inside (p p' : program) : Prop := outward p = outward p'.
#[export] Instance inside_preorder : PreOrder inside.
Proof. unfold inside. exact _. Qed.

Lemma inside_on_l {A} (m : LM A) : respects inside (on_l m).
Proof. intros p. unfold on_l. by destruct (m (pr_l p)). Qed.
Lemma inside_on_world {A} (m : M A) : respects inside (on_world m).
Proof. apply inside_on_l. Qed.
Lemma inside_say level text : respects inside (say level text).
Proof. by intros p. Qed.

Ltac inside_steps := repeat first [apply inside_on_l | apply inside_on_world | apply inside_say | respects_step | (intro; reflexivity)].

Lemma inside_config : respects inside config.
Proof. apply inside_on_world. Qed.
Lemma inside_sandbox : respects inside startup_sandbox.
Proof. unfold startup_sandbox. inside_steps. Qed.
Lemma inside_print width : respects inside (print_configuration width).
Proof. unfold print_configuration, config. inside_steps. Qed.
Lemma inside_handlers : respects inside install_runtime_signal_handlers.
Proof. unfold install_runtime_signal_handlers, sigaction, warn_errno. inside_steps. Qed.

(** The exporter is not touched by the workload. *)
Definition exporter_kept (p p' : program) : Prop := pr_exporter p = pr_exporter p'.
#[export] Instance exporter_kept_preorder : PreOrder exporter_kept.
Proof. unfold exporter_kept. exact _. Qed.

Lemma kept_on_l {A} (m : LM A) : respects exporter_kept (on_l m).
Proof. intros p. unfold on_l. by destruct (m (pr_l p)). Qed.
Lemma kept_on_world {A} (m : M A) : respects exporter_kept (on_world m).
Proof. apply kept_on_l. Qed.

Ltac kept_steps := repeat first [apply kept_on_l | apply kept_on_world | respects_step | (intro; reflexivity)].

Lemma kept_elsewhere : respects exporter_kept elsewhere.
Proof.
  unfold elsewhere. apply respects_bind; [exact _ | kept_steps|]. intros sigs. apply respects_bind; [exact _| | intros _; kept_steps].
  induction sigs as [|sig sigs IH]; cbn [deliver_all]; [kept_steps|]. apply respects_bind; [exact _| | done]. unfold deliver. kept_steps.
Qed.

Lemma kept_shim n a b : respects exporter_kept (shim_attempts n a b).
Proof.
  induction n as [|n IH]; cbn [shim_attempts]; [kept_steps|]. unfold simd_shim_unlocked.
  repeat first [apply IH | apply kept_elsewhere | progress kept_steps].
Qed.

Lemma kept_loop n i : respects exporter_kept (workload_from n i).
Proof.
  revert i. induction n as [|n IH]; intros i; cbn [workload_from]; unfold workload_once, simd_shim;
    repeat first [apply IH | apply kept_shim | progress kept_steps].
Qed.

Lemma kept_batches fuel batch forever start target elapsed : respects exporter_kept (batches fuel batch forever start target elapsed).
Proof.
  revert elapsed. induction fuel as [|fuel IH]; intros elapsed; cbn [batches]; unfold workload_loop, now;
    repeat first [apply IH | apply kept_loop | progress kept_steps].
Qed.

Lemma kept_demo fuel : respects exporter_kept (run_demo fuel).
Proof.
  unfold run_demo, configured_workload, run_workload, config, now, log_demo_result, say.
  repeat first [apply kept_batches | progress kept_steps].
Qed.

(** Stepping over a part that is inside. *)
Lemma wp_inside {A B} (m : PG A) (k : A -> PG B) Q p :
  respects inside m -> (forall a p', inside p p' -> wp (k a) Q p') -> wp (bind m k) Q p.
Proof. intros Hm Hk. apply wp_bind. unfold wp at 1. apply Hk, Hm. Qed.

Lemma health_status p : (tsd_run_health_check p).1 = 0 \/ (tsd_run_health_check p).1 = 1.
Proof.
  cut (wp tsd_run_health_check (fun rc _ => rc = 0 \/ rc = 1) p); [done|]. unfold tsd_run_health_check.
  repeat first [ apply wp_ret; solve [by left | by right | case_if; [by right | by left]]
               | apply wp_bind; unfold wp at 1
               | match goal with |- wp (if ?b then _ else _) _ _ => destruct b end
               | match goal with |- wp (match ?x with _ => _ end) _ _ => destruct x end ].
Qed.
End facts.

(** The exporter calls of one run. *)
Definition session (es : list exporter_event) : Prop :=
  es = [] \/ (exists c rc, rc <> 0 /\ es = [ExporterStart c rc]) \/ exists c, es = [ExporterStart c 0; ExporterStop].

(** TLS and credentials only in complete pairs. *)
Definition paired (c : tsd_metrics_exporter_config_t) : Prop :=
  (forall t, mc_tls c = Some t -> exists cert key,
     mt_certificate_path t = Some cert /\ mt_private_key_path t = Some key /\ cert <> "" /\ key <> "") /\
  (forall a, mc_basic_auth c = Some a -> exists user pass,
     mb_username a = Some user /\ mb_password a = Some pass /\ user <> "" /\ pass <> "").

Lemma nonempty_neq s : nonempty s = true -> s <> "".
Proof. unfold nonempty, is_empty. intros H ->. by rewrite String.eqb_refl in H. Qed.

Lemma exporter_config_paired cfg : paired (exporter_config cfg).
Proof.
  unfold exporter_config, paired. cbn -[nonempty u16]. split.
  - intros t. destruct (_ && _) eqn:E; [|done]. apply andb_true_iff in E as [H1 H2]. intros [= <-].
    do 2 eexists. split_done; by apply nonempty_neq.
  - intros t. destruct (_ && _) eqn:E; [|done]. apply andb_true_iff in E as [H1 H2]. intros [= <-].
    do 2 eexists. split_done; by apply nonempty_neq.
Qed.

Section runs.
Context `{EV : Env, PE : PerfEnv, TL : Telemetry, LE : LifeEnv, GE : ProgramEnv}.

(** How a run of the dispatcher from [p0] ends. *)
Definition run_ok (p0 : program) (r : option Z) (p' : program) : Prop :=
  match r with
  | None => True
  | Some status =>
      (status = 0 \/ status = 1) /\
      (exists es, pr_exporter p' = (pr_exporter p0 ++ es)%list /\ session es /\
         forall c rc, In (ExporterStart c rc) es -> paired c) /\
      (pr_shim p' <> pr_shim p0 -> status = 0 /\ tsd_cpu_has_sse41 = true)
  end.

(** After [start_metrics]: the exporter calls so far. *)
Definition started_as (p0 p : program) (started : bool) : Prop :=
  pr_shim p = pr_shim p0 /\
  exists es, pr_exporter p = (pr_exporter p0 ++ es)%list /\
    if started then exists c, es = [ExporterStart c 0] /\ paired c
    else es = [] \/ exists c rc, rc <> 0 /\ es = [ExporterStart c rc] /\ paired c.

Lemma start_metrics_run p : wp start_metrics (fun started p' => started_as p p' started) p.
Proof.
  unfold start_metrics. apply wp_inside; [apply inside_on_world|]. intros only p1 [= E1 S1].
  apply wp_inside; [apply inside_config|]. intros cfg p2 [= E2 S2]. destruct (_ && _).
  2: { apply wp_ret. split; [congruence|]. exists []. rewrite app_nil_r. split; [congruence | by left]. }
  apply wp_inside; [apply inside_on_world|]. intros rc p3 [= E3 S3]. apply wp_bind, wp_modify.
  pose proof (exporter_config_paired cfg) as Hp. destruct (rc =? 0) eqn:Erc; zbool.
  - apply wp_inside; [apply inside_on_world|]. intros port p4 [= E4 S4]. apply wp_inside; [apply inside_say|]. intros _ p5 [= E5 S5].
    apply wp_ret. split; [congruence|]. subst rc. exists [ExporterStart (exporter_config cfg) 0]. split; [congruence|]. by exists (exporter_config cfg).
  - apply wp_inside; [apply inside_say|]. intros _ p4 [= E4 S4]. apply wp_ret. split; [congruence|].
    exists [ExporterStart (exporter_config cfg) rc]. split; [congruence|]. right. by exists (exporter_config cfg), rc.
Qed.

Lemma started_inside p0 p p' started : inside p p' -> started_as p0 p started -> started_as p0 p' started.
Proof. intros [= E S] (H1 & es & H2 & H3). split; [congruence|]. exists es. split; [congruence | done]. Qed.

(** Every return stops what was started. *)
Lemma leave_main_run p0 p (started : bool) rc :
  (rc = 0 \/ rc = 1) ->
  (pr_shim p <> pr_shim p0 -> rc = 0 /\ tsd_cpu_has_sse41 = true) ->
  (exists es, pr_exporter p = (pr_exporter p0 ++ es)%list /\
    if started then exists c, es = [ExporterStart c 0] /\ paired c
    else es = [] \/ exists c rc, rc <> 0 /\ es = [ExporterStart c rc] /\ paired c) ->
  wp (leave_main started rc) (run_ok p0) p.
Proof.
  intros Hrc Hsh (es & He & Hs). unfold leave_main. apply wp_bind. destruct started; cbn [when].
  - apply wp_modify, wp_ret. destruct Hs as (c & -> & Hc). split; [done|]. split; [|done]. exists [ExporterStart c 0; ExporterStop].
    cbn. rewrite He, <- app_assoc. split; [done|]. split; [right; right; by eexists|]. intros c' rc' [[= <- <-]|[?|[]]]; done.
  - apply wp_ret, wp_ret. split; [done|]. split; [|done]. exists es. split; [done|].
    destruct Hs as [-> | (c & rc' & Hne & -> & Hc)]; [split; [by left | by intros ? ? []]|].
    split; [right; left; by do 2 eexists|]. intros c' rc'' [[= <- <-]|[]]. done.
Qed.

Lemma leave_quiet p0 p started rc : (rc = 0 \/ rc = 1) -> started_as p0 p started -> wp (leave_main started rc) (run_ok p0) p.
Proof. intros Hrc [Hsh He]. by apply leave_main_run. Qed.

Lemma dispatch_mode_run fuel p0 p started sandbox_ok width :
  tsd_cpu_has_sse41 = true -> started_as p0 p started -> wp (dispatch_mode fuel started sandbox_ok width) (run_ok p0) p.
Proof.
  intros Hsse Hs. unfold dispatch_mode. apply wp_inside; [apply inside_on_world|]. intros only p1 I1. apply (started_inside _ _ _ _ I1) in Hs. clear I1 p.
  destruct only; [apply leave_quiet; [destruct sandbox_ok; auto | done]|].
  apply wp_inside; [case_if; [|apply respects_ret; exact _]; apply respects_bind; [exact _ | apply inside_on_world|]; intros []; [apply inside_say|];
    apply respects_bind; [exact _ | apply inside_on_world | intros status; apply inside_say]|].
  intros _ p2 I2. apply (started_inside _ _ _ _ I2) in Hs. clear I2 p1.
  apply wp_inside; [apply inside_print|]. intros _ p3 I3. apply (started_inside _ _ _ _ I3) in Hs. clear I3 p2.
  apply wp_inside; [apply inside_config|]. intros cfg p4 I4. apply (started_inside _ _ _ _ I4) in Hs. clear I4 p3.
  destruct (health_check_mode cfg).
  - apply wp_inside; [apply inside_say|]. intros _ p5 I5. apply (started_inside _ _ _ _ I5) in Hs. clear I5 p4.
    apply wp_bind. unfold wp at 1, on_l. rewrite on_p_run. cbn [fst snd]. apply leave_quiet; [destruct sandbox_ok; [apply health_status | auto] | done].
  - apply wp_inside; [apply inside_handlers|]. intros _ p5 I5. apply (started_inside _ _ _ _ I5) in Hs. clear I5 p4.
    apply wp_bind. unfold wp at 1. pose proof (kept_demo fuel p5) as Hk. unfold exporter_kept in Hk. destruct Hs as [_ He]. rewrite Hk in He.
    destruct (run_demo fuel p5) as [[[]|] p6]; cbn [fst snd] in *; [|done]. by apply leave_main_run; [left | |].
Qed.

Lemma dispatcher_main_run fuel p : wp (tsd_dispatcher_main fuel) (run_ok p) p.
Proof.
  unfold tsd_dispatcher_main. apply wp_inside; [apply inside_on_world|]. intros _ p1 I1. apply wp_bind. eapply wp_mono; [apply start_metrics_run|].
  cbv beta. intros started p2 Hs. assert (Hs0 : started_as p p2 started).
  { destruct Hs as (H1 & es & H2 & H3). injection I1 as E S. split; [congruence|]. exists es. split; [congruence | done]. }
  clear Hs I1 p1. rename Hs0 into Hs.
  assert (Hfail : forall text q, started_as p q started -> wp (say TSD_LOG_LEVEL_ERROR text ;;; leave_main started 1) (run_ok p) q).
  { intros text q Hq. apply wp_inside; [apply inside_say|]. intros _ q' I. apply leave_quiet; [by right|]. by eapply started_inside. }
  apply wp_inside; [apply inside_on_world|]. intros rc p3 I3. apply (started_inside _ _ _ _ I3) in Hs. clear I3 p2.
  destruct (rc <>? 0); [by apply Hfail|]. apply wp_inside; [apply inside_config|]. intros cfg p4 I4. apply (started_inside _ _ _ _ I4) in Hs. clear I4 p3.
  apply wp_bind. unfold wp at 1. rewrite on_world_run. cbn [fst snd]. rewrite detect_run. cbn [fst snd]. set (p5 := put _ p4).
  assert (Hs5 : started_as p p5 started) by done. clearbody p5. clear Hs p4.
  destruct ((_ =? _) && negb tsd_cpu_has_sse41) eqn:Esse; [by apply Hfail|].
  assert (Hsse : tsd_cpu_has_sse41 = true).
  { destruct tsd_cpu_has_sse41 eqn:E; [done|]. unfold detected_width in Esse. by rewrite E in Esse. }
  apply wp_inside; [apply inside_on_world|]. intros rc2 p6 I6. apply (started_inside _ _ _ _ I6) in Hs5. clear I6 p5.
  destruct (rc2 <>? 0); [by apply Hfail|]. apply wp_inside; [apply inside_sandbox|]. intros ok p7 I7. apply (started_inside _ _ _ _ I7) in Hs5.
  by apply dispatch_mode_run.
Qed.
End runs.

Section properties.
Context `{EV : Env, PE : PerfEnv, TL : Telemetry, LE : LifeEnv, GE : ProgramEnv}.

(** C25 (safety). The executable, for any command line, files, environment and
    interleaving: a run that ends has started the exporter at most once, with TLS
    and credentials given only in complete pairs, and has stopped it exactly when
    the start succeeded, on every exit path; its status is 0 or 1, or the one the
    command line exits with.  The workload has run only in a run that exits with
    0 on a host with SSE4.1. *)
Theorem executable_stops_what_it_started (read_file : string -> option (list ascii)) (calloc_ok : nat -> bool) (env_level : option string)
    (fuel : nat) (args : list string) (p : program) (status : Z) :
  result (main read_file calloc_ok env_level fuel args) p = Some status ->
  let p' := exec (main read_file calloc_ok env_level fuel args) p in
  (status = 0 \/ status = 1 \/ exists only, tsd_runtime_config_parse_cli read_file calloc_ok env_level only args = CliExit status) /\
  (exists es, pr_exporter p' = (pr_exporter p ++ es)%list /\ session es /\ forall c rc, In (ExporterStart c rc) es -> paired c) /\
  (pr_shim p' <> pr_shim p -> status = 0 /\ tsd_cpu_has_sse41 = true).
Proof.
  set (cli := fun only => tsd_runtime_config_parse_cli read_file calloc_ok env_level only args).
  cut (wp (main read_file calloc_ok env_level fuel args) (fun r p' => match r with None => True | Some status =>
    (status = 0 \/ status = 1 \/ exists only, cli only = CliExit status) /\
    (exists es, pr_exporter p' = (pr_exporter p ++ es)%list /\ session es /\ forall c rc, In (ExporterStart c rc) es -> paired c) /\
    (pr_shim p' <> pr_shim p -> status = 0 /\ tsd_cpu_has_sse41 = true) end) p).
  { unfold wp, result, exec. intros H Hr. by rewrite Hr in H. }
  assert (Hend : forall q, inside p q -> (exists es, pr_exporter q = (pr_exporter p ++ es)%list /\ session es /\ forall c rc, In (ExporterStart c rc) es -> paired c) /\
    (forall s, pr_shim q <> pr_shim p -> s = 0 /\ tsd_cpu_has_sse41 = true)).
  { intros q [= E S]. split; [exists []; rewrite app_nil_r; split; [done|]; split; [by left | by intros ? ? []] | intros s; congruence]. }
  unfold main. apply wp_inside; [apply inside_on_world|]. intros _ p1 I1. apply wp_inside; [apply inside_say|]. intros _ p2 I2.
  apply wp_inside; [apply inside_on_world|]. intros only p3 I3. assert (I : inside p p3) by (by etransitivity; [|etransitivity]). clear I1 I2 I3 p1 p2.
  destruct (tsd_runtime_config_parse_cli read_file calloc_ok env_level only args) as [st| | |s] eqn:Ecli; [|done|done|].
  { apply wp_ret. destruct (Hend p3 I) as [H1 H2]. split; [right; right; by exists only | split; [exact H1 | apply H2]]. }
  apply wp_inside; [apply inside_on_world|]. intros _ p4 I4. apply wp_inside; [apply inside_on_world|]. intros _ p5 I5.
  apply wp_inside; [by intro|]. intros _ p6 I6. assert (I' : inside p p6) by (by do 3 (etransitivity; [|eassumption])). clear I I4 I5 I6 p3 p4 p5.
  destruct (cli_sandbox_only s).
  - assert (Hsb : respects inside sandbox_main).
    { unfold sandbox_main. repeat first [apply inside_on_l | apply inside_on_world | apply inside_say | respects_step]. }
    assert (Hst : wp sandbox_main (fun r _ => r = Some 0 \/ r = Some 1) p6).
    { unfold sandbox_main. repeat first [ apply wp_ret; solve [by left | by right] | apply wp_bind; unfold wp at 1
        | match goal with |- wp (if ?b then _ else _) _ _ => destruct b end ]. }
    unfold wp in *. specialize (Hsb p6). destruct (sandbox_main p6) as [r p7]. cbn [fst snd] in *.
    destruct (Hend p7 ltac:(by etransitivity)) as [H1 H2]. destruct Hst as [-> | ->]; (split; [auto | split; [exact H1 | apply H2]]).
  - apply wp_inside; [by intro|]. intros _ p7 I7. assert (I : inside p p7) by (by etransitivity). injection I as E S.
    eapply wp_mono; [apply dispatcher_main_run|]. intros [st|] p8 H; [|done]. destruct H as (H1 & (es & H2 & H3) & H4).
    split; [tauto|]. split; [exists es; split; [congruence | exact H3] | rewrite S; exact H4].
Qed.
End properties.

(** ** A concrete run *)

Section concrete.
#[local] Existing Instance ticking_env.
#[local] Existing Instance busy_program_env.
#[local] Existing Instance quiet_perf_env.
#[local] Existing Instance quiet_telemetry.
#[local] Existing Instance quiet_life_env.

Definition demo_args : list string := ["--duration-sec=40"; "--work-iters=2"; "--metrics-port=9464"; "--metrics-basic-auth=u:p"].
#[local] Abbreviation demo_main := (main (fun _ => None) (fun _ => true) None 10 demo_args).

(** The last line of the run. *)
Example demo_report :
  last (pr_log (exec demo_main fresh_program)) =
    Some (TSD_LOG_LEVEL_INFO, "Workload complete: elapsed_ms=66000 iterations=4 throughput_iter_per_sec=0").
Proof. vm_compute. reflexivity. Qed.

Lemma executable_stops_what_it_started_witness :
  result demo_main fresh_program = Some 0 /\ pr_shim (exec demo_main fresh_program) <> [] /\
  (exists c, pr_exporter (exec demo_main fresh_program) = [ExporterStart c 0; ExporterStop] /\ paired c) /\ tsd_cpu_has_sse41 = true.
Proof.
  assert (E : result demo_main fresh_program = Some 0) by (vm_compute; reflexivity).
  assert (S : pr_shim (exec demo_main fresh_program) <> []) by (vm_compute; discriminate).
  destruct (executable_stops_what_it_started (fun _ => None) (fun _ => true) None 10 demo_args fresh_program 0 E) as (_ & (es & H1 & H2 & H3) & H4).
  split; [exact E|]. split; [exact S|]. split; [|exact (proj2 (H4 S))].
  change (pr_exporter (exec demo_main fresh_program) = es) in H1.
  destruct H2 as [-> | [(c & rc & Hrc & ->)|(c & ->)]].
  - exfalso. revert H1. vm_compute. discriminate.
  - exfalso. revert H1. vm_compute. discriminate.
  - exists c. split; [exact H1 | apply (H3 c 0); left; reflexivity].
Defined.
End concrete.
