(* ===== verification/Kernels.v ===== *)
(** * Kernels: the registered kernels of [src/benchmarks/registered_kernel.c]

    One integer mix in three instruction sets.  A vector is the list of its
    32-bit lanes, an intrinsic acts lane by lane.  An array is a list; a load or
    store that leaves it is [None], so the theorems also say that no kernel
    touches memory outside of its buffers.  All three kernels are proved to be
    the scalar reference on the range they are given, which is what makes it
    right to change the width between two chunks. *)
From S2P Require Import Prelude Machine.
#[local] Open Scope Z_scope.

Record kernel_context_t : Type := mkContext {
  kc_input : list Z;
  kc_output : list Z;
  kc_item_count : Z;
  kc_rounds : Z;
}.
#[export] Instance eta_context : Eta kernel_context_t := fun r =>
  mkContext (kc_input r) (kc_output r) (kc_item_count r) (kc_rounds r).

Definition MULTIPLIER_A : Z := 1664525.
Definition ADDEND_A : Z := 1013904223.
Definition MULTIPLIER_B : Z := 2246822519.
Definition ADDEND_B : Z := 3266489917.

(** ** The scalar reference *)

(** The body of the loop of [mix_scalar]. *)
Definition mix_round (value : Z) : Z :=
  let value := u32 (u32 (value * MULTIPLIER_A) + ADDEND_A) in
  let value := Z.lxor value (Z.shiftr value 13) in
  let value := u32 (u32 (value * MULTIPLIER_B) + ADDEND_B) in
  Z.lxor value (u32 (Z.shiftl value 7)).

Definition mix_scalar (value rounds : Z) : Z := Nat.iter (Z.to_nat rounds) mix_round value.

(** ** Intrinsics, for any number of lanes *)

Definition set1_epi32 (lanes : nat) (x : Z) : list Z := replicate lanes (u32 x).
Definition mullo_epi32 (a b : list Z) : list Z := zip_with mul32 a b.
Definition add_epi32 (a b : list Z) : list Z := zip_with (fun x y => u32 (x + y)) a b.
Definition xor_si (a b : list Z) : list Z := zip_with Z.lxor a b.
Definition srli_epi32 (a : list Z) (n : Z) : list Z := map (fun x => Z.shiftr x n) a.
Definition slli_epi32 (a : list Z) (n : Z) : list Z := map (fun x => u32 (Z.shiftl x n)) a.

(** [lanes] items of an array from an index on. *)
Definition loadu (lanes : nat) (array : list Z) (index : Z) : option (list Z) :=
  if index + Z.of_nat lanes <=? Z.of_nat (length array) then Some (take lanes (drop (Z.to_nat index) array)) else None.

(** The array with [value] written at an index. *)
Definition storeu (array : list Z) (index : Z) (value : list Z) : option (list Z) :=
  if index + Z.of_nat (length value) <=? Z.of_nat (length array)
  then Some (take (Z.to_nat index) array ++ value ++ drop (Z.to_nat index + length value) array)
  else None.

(** ** The kernels *)

Definition vector_round (lanes : nat) (value : list Z) : list Z :=
  let value := add_epi32 (mullo_epi32 value (set1_epi32 lanes MULTIPLIER_A)) (set1_epi32 lanes ADDEND_A) in
  let value := xor_si value (srli_epi32 value 13) in
  let value := add_epi32 (mullo_epi32 value (set1_epi32 lanes MULTIPLIER_B)) (set1_epi32 lanes ADDEND_B) in
  xor_si value (slli_epi32 value 7).

(** The loops give the index they end at with the output; [None] is an access
    out of bounds or lack of fuel. *)
Fixpoint vector_loop (fuel lanes : nat) (input : list Z) (rounds index stop : Z) (output : list Z) : option (Z * list Z) :=
  match fuel with
  | O => None
  | S fuel =>
      if u64 (index + Z.of_nat lanes) <=? stop then
        match loadu lanes input index with
        | None => None
        | Some value =>
            let value := Nat.iter (Z.to_nat rounds) (vector_round lanes) value in
            match storeu output index value with
            | None => None
            | Some output => vector_loop fuel lanes input rounds (u64 (index + Z.of_nat lanes)) stop output
            end
        end
      else Some (index, output)
  end.

Fixpoint scalar_loop (fuel : nat) (input : list Z) (rounds index stop : Z) (output : list Z) : option (Z * list Z) :=
  match fuel with
  | O => None
  | S fuel =>
      if index <? stop then
        match loadu 1 input index with
        | Some [x] =>
            match storeu output index [mix_scalar x rounds] with
            | None => None
            | Some output => scalar_loop fuel input rounds (u64 (index + 1)) stop output
            end
        | _ => None
        end
      else Some (index, output)
  end.

(** The text the three kernels share: the return value and the context. *)
Definition mix_kernel (lanes : nat) (opaque : option kernel_context_t) (offset work_items : Z) : option (Z * option kernel_context_t) :=
  match opaque with
  | None => Some (EINVAL, None)
  | Some context =>
      if (offset >? kc_item_count context) || (work_items >? u64 (kc_item_count context - offset)) then Some (EINVAL, opaque)
      else
        let stop := u64 (offset + work_items) in
        let fuel := S (Z.to_nat work_items) in
        match vector_loop fuel lanes (kc_input context) (kc_rounds context) offset stop (kc_output context) with
        | None => None
        | Some (index, output) =>
            match scalar_loop fuel (kc_input context) (kc_rounds context) index stop output with
            | None => None
            | Some (_, output) => Some (0, Some (context <| kc_output := output |>))
            end
        end
  end.

Definition kernel_sse41 := mix_kernel 4.
Definition kernel_avx2 := mix_kernel 8.
Definition kernel_avx512 := mix_kernel 16.

(** ** The checksum of an output: FNV-1a over its little-endian bytes *)

Definition FNV_BASIS : Z := 1469598103934665603.
Definition FNV_PRIME : Z := 1099511628211.

Definition fnv_byte (hash byte : Z) : Z := u64 (Z.lxor hash byte * FNV_PRIME).

Definition fnv_item (hash value : Z) : Z :=
  fold_left (fun hash byte => fnv_byte hash (u8 (Z.shiftr value (byte * 8)))) [0; 1; 2; 3] hash.

Definition fnv_items (values : list Z) (hash : Z) : Z := fold_left fnv_item values hash.

Definition checksum_output (context : kernel_context_t) : Z :=
  fnv_items (take (Z.to_nat (kc_item_count context)) (kc_output context)) FNV_BASIS.

(** ** The kernels are the reference *)

(** Buffers of [item_count] items, which an array of [uint32_t] can have. *)
Record context_ok (c : kernel_context_t) : Prop := {
  co_input : Z.of_nat (length (kc_input c)) = kc_item_count c;
  co_output : Z.of_nat (length (kc_output c)) = kc_item_count c;
  co_size : kc_item_count c < 2 ^ 62;
}.

(** The first [n] items from [off] on replaced by the mix of the input. *)
Definition mixed (c : kernel_context_t) (off n : nat) : list Z :=
  take off (kc_output c) ++ map (fun x => mix_scalar x (kc_rounds c)) (take n (drop off (kc_input c))) ++ drop (off + n) (kc_output c).

(** A vector operation is the scalar one on each lane. *)
Lemma vector_round_lanes v : vector_round (length v) v = map mix_round v.
Proof.
  unfold vector_round, add_epi32, mullo_epi32, set1_epi32, xor_si, srli_epi32, slli_epi32, mix_round, mul32.
  change (u32 MULTIPLIER_A) with MULTIPLIER_A. change (u32 ADDEND_A) with ADDEND_A.
  change (u32 MULTIPLIER_B) with MULTIPLIER_B. change (u32 ADDEND_B) with ADDEND_B.
  induction v as [|x v IH]; [reflexivity|]. cbn [length replicate zip_with map]. f_equal. exact IH.
Qed.

Lemma vector_rounds_lanes n v : Nat.iter n (vector_round (length v)) v = map (fun x => Nat.iter n mix_round x) v.
Proof.
  induction n as [|n IH]; cbn [Nat.iter nat_rect]; [by rewrite map_id|]. unfold Nat.iter in *. rewrite IH.
  rewrite <- (map_map (fun x => nat_rect _ x (fun _ => mix_round) n) mix_round), <- vector_round_lanes. by rewrite length_map.
Qed.

(** Reading and writing the next [n] items. *)
Lemma loadu_next n array i :
  (i + n <= length array)%nat -> loadu n array (Z.of_nat i) = Some (take n (drop i array)).
Proof. intros H. unfold loadu. rewrite (proj2 (Z.leb_le _ _)) by lia. by rewrite Nat2Z.id. Qed.

Lemma mixed_length c off n :
  length (kc_input c) = length (kc_output c) -> (off + n <= length (kc_output c))%nat -> length (mixed c off n) = length (kc_output c).
Proof. intros E H. unfold mixed. rewrite !length_app, length_map, !length_take, !length_drop. lia. Qed.

Lemma storeu_next c off k n :
  length (kc_input c) = length (kc_output c) -> (off + k + n <= length (kc_output c))%nat ->
  storeu (mixed c off k) (Z.of_nat (off + k)) (map (fun x => mix_scalar x (kc_rounds c)) (take n (drop (off + k) (kc_input c)))) =
    Some (mixed c off (k + n)).
Proof.
  intros E H. unfold storeu. rewrite mixed_length, length_map, length_take, length_drop by lia.
  rewrite Nat.min_l by lia. rewrite (proj2 (Z.leb_le _ _)) by lia. f_equal. rewrite Nat2Z.id. unfold mixed.
  set (m := fun x => mix_scalar x (kc_rounds c)). set (front := take off (kc_output c) ++ map m (take k (drop off (kc_input c)))).
  assert (Hf : length front = (off + k)%nat) by (unfold front; rewrite length_app, length_map, !length_take, length_drop; lia).
  rewrite !(app_assoc (take off (kc_output c))). fold front. rewrite take_app_le, take_ge by lia.
  rewrite drop_app_ge by lia. rewrite drop_drop, Hf. replace (off + k + (off + k + n - (off + k)))%nat with (off + (k + n))%nat by lia.
  unfold front. rewrite <- !app_assoc. f_equal. rewrite app_assoc, <- map_app. do 2 f_equal.
  rewrite <- (take_take_drop _ k n), drop_drop. done.
Qed.

Section loops.
Context (c : kernel_context_t) (Hc : context_ok c).

Local Lemma sizes : length (kc_input c) = length (kc_output c) /\ Z.of_nat (length (kc_output c)) < 2 ^ 62.
Proof. destruct Hc as [H1 H2 H3]. rewrite H2. split; [lia | done]. Qed.

Local Lemma index_next i (n : nat) : Z.of_nat i <= 2 ^ 62 -> Z.of_nat n <= 16 -> u64 (Z.of_nat i + Z.of_nat n) = Z.of_nat (i + n).
Proof. intros H1 H2. rewrite u64_small; unfold_int; lia. Qed.

(** The vector loop mixes whole vectors and stops less than one before the end. *)
Lemma vector_loop_run fuel lanes off k n :
  (1 <= lanes <= 16)%nat -> (off + n <= length (kc_output c))%nat -> (k <= n)%nat -> (n - k < fuel)%nat ->
  exists k', (k <= k' <= n)%nat /\
    vector_loop fuel lanes (kc_input c) (kc_rounds c) (Z.of_nat (off + k)) (Z.of_nat (off + n)) (mixed c off k) =
      Some (Z.of_nat (off + k'), mixed c off k').
Proof.
  intros Hl Hn. destruct sizes as [Hs Hm]. revert k. induction fuel as [|fuel IH]; intros k Hk Hf; [lia|].
  cbn [vector_loop]. rewrite index_next by lia.
  destruct (Z.leb_spec (Z.of_nat (off + k + lanes)) (Z.of_nat (off + n))) as [Hle|Hle]; [|by exists k].
  rewrite loadu_next by lia. set (v := take lanes (drop (off + k) (kc_input c))).
  assert (Hv : length v = lanes) by (unfold v; rewrite length_take, length_drop; lia).
  replace (vector_round lanes) with (vector_round (length v)) by (by rewrite Hv). rewrite vector_rounds_lanes.
  change (fun x => Nat.iter _ mix_round x) with (fun x => mix_scalar x (kc_rounds c)). unfold v. rewrite (storeu_next c off k lanes) by lia.
  destruct (IH (k + lanes)%nat) as (k' & Hk' & E); [lia | lia|]. exists k'. split; [lia|].
  by rewrite <- E, Nat.add_assoc.
Qed.

(** The scalar loop does the rest. *)
Lemma scalar_loop_run fuel off k n :
  (off + n <= length (kc_output c))%nat -> (k <= n)%nat -> (n - k < fuel)%nat ->
  scalar_loop fuel (kc_input c) (kc_rounds c) (Z.of_nat (off + k)) (Z.of_nat (off + n)) (mixed c off k) =
    Some (Z.of_nat (off + n), mixed c off n).
Proof.
  intros Hn. destruct sizes as [Hs Hm]. revert k. induction fuel as [|fuel IH]; intros k Hk Hf; [lia|].
  cbn [scalar_loop]. destruct (Z.ltb_spec (Z.of_nat (off + k)) (Z.of_nat (off + n))) as [Hlt|Hle].
  2: { replace k with n by lia. done. }
  rewrite loadu_next by lia. pose proof (storeu_next c off k 1 Hs ltac:(lia)) as Hst.
  assert (Hv : length (take 1 (drop (off + k) (kc_input c))) = 1%nat) by (rewrite length_take, length_drop; lia).
  destruct (take 1 (drop (off + k) (kc_input c))) as [|x [|? ?]]; try done.
  cbn [map] in Hst. rewrite Hst. change 1 with (Z.of_nat 1). rewrite (index_next (off + k) 1) by lia. rewrite <- (IH (k + 1)%nat) by lia. by rewrite Nat.add_assoc.
Qed.
End loops.

(** The range lies in the buffers. *)
Definition in_context (c : kernel_context_t) (off n : Z) : bool := (off <=? kc_item_count c) && (n <=? kc_item_count c - off).

(** Every width is the reference. *)
Lemma mix_kernel_run lanes c off n :
  (1 <= lanes <= 16)%nat -> context_ok c -> 0 <= off -> 0 <= n ->
  mix_kernel lanes (Some c) off n =
    Some (if in_context c off n then (0, Some (c <| kc_output := mixed c (Z.to_nat off) (Z.to_nat n) |>)) else (EINVAL, Some c)).
Proof.
  intros Hl Hc Ho Hn. pose proof Hc as [H1 H2 H3]. unfold mix_kernel, in_context. rewrite !Z.gtb_ltb.
  destruct (Z.ltb_spec (kc_item_count c) off) as [E1|E1].
  { cbn [orb]. rewrite (proj2 (Z.leb_gt off _)) by lia. done. }
  rewrite (proj2 (Z.leb_le off _)) by lia. cbn [orb andb]. rewrite u64_small by (unfold_int; lia).
  destruct (Z.ltb_spec (kc_item_count c - off) n) as [E2|E2].
  { rewrite (proj2 (Z.leb_gt n _)) by lia. done. }
  rewrite (proj2 (Z.leb_le n _)) by lia. rewrite u64_small by (unfold_int; lia).
  rewrite <- (Z2Nat.id off), <- (Z2Nat.id n) by lia. set (o := Z.to_nat off). set (m := Z.to_nat n). rewrite !Nat2Z.id.
  assert (Hlen : (o + m <= length (kc_output c))%nat) by lia. rewrite <- Nat2Z.inj_add.
  assert (H0 : kc_output c = mixed c o 0).
  { unfold mixed. rewrite take_0. cbn [map]. rewrite Nat.add_0_r. symmetry. apply take_drop. }
  rewrite H0 at 1. replace (Z.of_nat o) with (Z.of_nat (o + 0)) by lia.
  destruct (vector_loop_run c Hc (S m) lanes o 0 m Hl Hlen ltac:(lia) ltac:(lia)) as (k & Hk & ->).
  by rewrite (scalar_loop_run c Hc (S m) o k m Hlen) by lia.
Qed.

(** Consecutive ranges: a range mixed after the one before it. *)
Lemma mixed_mixed c off a b :
  length (kc_input c) = length (kc_output c) -> (off + a + b <= length (kc_output c))%nat ->
  mixed (c <| kc_output := mixed c off a |>) (off + a) b = mixed c off (a + b).
Proof.
  intros E H. pose proof (storeu_next c off a b E H) as Hs. unfold storeu in Hs. destruct (_ <=? _) in Hs; [|done].
  injection Hs as Hs. rewrite <- Hs. unfold mixed at 1. cbn [kc_output kc_input kc_rounds over]. rewrite Nat2Z.id, length_map, length_take, length_drop.
  by rewrite Nat.min_l by lia.
Qed.

Lemma mixed_ok c off n :
  context_ok c -> (off + n <= length (kc_output c))%nat -> context_ok (c <| kc_output := mixed c off n |>).
Proof. intros [H1 H2 H3] H. split; cbn; [done | rewrite mixed_length by lia; done | done]. Qed.
