(* ===== verification/Benchmark.v ===== *)
(** * Benchmark: the registered kernel benchmark ([src/benchmarks/registered_kernel.c])

    The program registers the kernels of [Kernels.v] with a second
    generation dispatcher, runs them chunk by chunk under a live runtime (or one
    of them directly), and writes a result with a checksum of the output.
    It uses the library through its public interface only.

    The state is the process with the buffers, the exporter calls, the files and
    the output of the program.  Between two chunks other threads run: they
    publish guard state, select widths, run the monitor's baseline workload, and
    signals arrive. *)
From S2P Require Import Prelude Float64 Format FloatText Config ConfigParser World Cpu TrampolineState Guard Trampoline Machine Dispatch Perf PerfMode Lifecycle RuntimeApi Exporter Workload Program Kernels.
From stdpp Require Import gmap strings.
From Stdlib Require Import SpecFloat Ascii String.
#[local] Open Scope string_scope.
#[local] Open Scope Z_scope.

Definition EXIT_SUCCESS : Z := 0.
Definition EXIT_FAILURE : Z := 1.

Definition BENCH_SSE41 : Z := 0.
Definition BENCH_AVX2 : Z := 1.
Definition BENCH_AVX512 : Z := 2.
Definition BENCH_ADAPTIVE : Z := 3.

Record benchmark_options_t : Type := mkOptions {
  bo_mode : Z;
  bo_adaptive_max : simd_width_t;
  bo_work_items : Z;
  bo_chunk_items : Z;
  bo_rounds : Z;
  bo_duration_seconds : double;
  bo_warmup_seconds : double;
  bo_run_forever : bool;
  bo_metrics_port : Z;
  bo_metrics_bind : string;
  bo_result_json : option string;
}.
#[export] Instance eta_options : Eta benchmark_options_t := fun r =>
  mkOptions (bo_mode r) (bo_adaptive_max r) (bo_work_items r) (bo_chunk_items r) (bo_rounds r) (bo_duration_seconds r)
    (bo_warmup_seconds r) (bo_run_forever r) (bo_metrics_port r) (bo_metrics_bind r) (bo_result_json r).

Record benchmark_result_t : Type := mkResult {
  br_completed_passes : Z;
  br_completed_work_items : Z;
  br_width_work_items : list Z;
  br_checksum : Z;
  br_elapsed_seconds : double;
  br_pinned_cpu : Z;
  br_stopped_by_signal : bool;
}.
#[export] Instance eta_result : Eta benchmark_result_t := fun r =>
  mkResult (br_completed_passes r) (br_completed_work_items r) (br_width_work_items r) (br_checksum r)
    (br_elapsed_seconds r) (br_pinned_cpu r) (br_stopped_by_signal r).

Definition mode_name (mode : Z) : string :=
  if mode =? BENCH_SSE41 then "sse41" else if mode =? BENCH_AVX2 then "avx2"
  else if mode =? BENCH_AVX512 then "avx512" else if mode =? BENCH_ADAPTIVE then "adaptive" else "invalid".

Definition width_name (width : simd_width_t) : string :=
  if width =? SIMD_SSE41 then "sse41" else if width =? SIMD_AVX2 then "avx2"
  else if width =? SIMD_AVX512 then "avx512" else "invalid".

(** ** Options *)

Definition parse_mode (value : string) : option Z :=
  if String.eqb value "sse41" then Some BENCH_SSE41 else if String.eqb value "avx2" then Some BENCH_AVX2
  else if String.eqb value "avx512" then Some BENCH_AVX512 else if String.eqb value "adaptive" then Some BENCH_ADAPTIVE else None.

Definition parse_max_isa (value : string) : option simd_width_t :=
  if String.eqb value "avx2" then Some SIMD_AVX2 else if String.eqb value "avx512" then Some SIMD_AVX512 else None.

(** [strtoull(value, &end, 10)]: a minus sign negates in the unsigned type. *)
Definition strtoull (value : string) : strto Z :=
  let '(neg, s) := scan_sign (skip_space value) in
  let '(mag, n, rest) := scan_digits s 0 0 in
  if n =? 0 then mkStrto 0 0 None
  else if mag >? UINT64_MAX then mkStrto UINT64_MAX ERANGE (Some rest)
  else mkStrto (u64 (if neg : bool then - mag else mag)) 0 (Some rest).

(** [errno != 0 || !end || *end != '\0'] negated; without a conversion [end] is
    [value]. *)
Definition whole_text {A} (value : string) (r : strto A) : bool :=
  (st_errno r =? 0) && String.eqb (default value (st_end r)) "".

Definition parse_size (value : string) (minimum maximum : Z) : option Z :=
  let r := strtoull value in
  if negb (whole_text value r) || (st_val r <? minimum) || (st_val r >? maximum) then None else Some (st_val r).

Definition parse_unsigned (value : string) (minimum maximum : Z) : option Z :=
  match parse_size value minimum maximum with Some v => Some (u32 v) | None => None end.

Definition parse_double_value (value : string) (minimum maximum : double) : option double :=
  let r := strtod value in
  if negb (whole_text value r) || negb (isfinite (st_val r)) || flt (st_val r) minimum || flt maximum (st_val r) then None
  else Some (st_val r).

(** [strncmp(argument, name, strlen(name)) == 0]: the text after the name. *)
Fixpoint after (name argument : string) : option string :=
  match name, argument with
  | "", _ => Some argument
  | String c name, String d argument => if Ascii.eqb c d then after name argument else None
  | String _ _, "" => None
  end.

Definition default_options : benchmark_options_t :=
  mkOptions BENCH_SSE41 SIMD_AVX2 1048576 65536 32 (f64_of_Z 5) f64_zero false 19464 "127.0.0.1" None.

(** One argument: [None] for the result -1, [inl] for [exit(EXIT_SUCCESS)], else
    the options and whether a mode was seen. *)
Definition parse_argument (argument : string) (options : benchmark_options_t) (mode_seen : bool) : option (unit + (benchmark_options_t * bool)) :=
  let keep {A} (v : option A) (f : A -> benchmark_options_t) := match v with Some v => Some (inr (f v, mode_seen)) | None => None end in
  match after "--mode=" argument with
  | Some v => match parse_mode v with Some m => Some (inr (options <| bo_mode := m |>, true)) | None => None end
  | None =>
  match after "--max-isa=" argument with
  | Some v => keep (parse_max_isa v) (fun w => options <| bo_adaptive_max := w |>)
  | None =>
  match after "--duration-seconds=" argument with
  | Some v => keep (parse_double_value v (f64_ratio 1 1000) (f64_of_Z 86400)) (fun d => options <| bo_duration_seconds := d |>)
  | None =>
  match after "--warmup-seconds=" argument with
  | Some v => keep (parse_double_value v f64_zero (f64_of_Z 3600)) (fun d => options <| bo_warmup_seconds := d |>)
  | None =>
  if String.eqb argument "--run-forever" then Some (inr (options <| bo_run_forever := true |>, mode_seen)) else
  match after "--work-items=" argument with
  | Some v => keep (parse_size v 16 (2 ^ 29)) (fun n => options <| bo_work_items := n |>)
  | None =>
  match after "--chunk-items=" argument with
  | Some v => keep (parse_size v 1 (2 ^ 29)) (fun n => options <| bo_chunk_items := n |>)
  | None =>
  match after "--rounds=" argument with
  | Some v => keep (parse_unsigned v 1 10000) (fun n => options <| bo_rounds := n |>)
  | None =>
  match after "--metrics-port=" argument with
  | Some v => keep (parse_size v 1 65535) (fun n => options <| bo_metrics_port := n mod 65536 |>)
  | None =>
  match after "--metrics-bind=" argument with
  | Some v => if String.eqb v "" then None else Some (inr (options <| bo_metrics_bind := v |>, mode_seen))
  | None =>
  match after "--result-json=" argument with
  | Some v => if String.eqb v "" then None else Some (inr (options <| bo_result_json := Some v |>, mode_seen))
  | None => if String.eqb argument "--help" then Some (inl tt) else None
  end end end end end end end end end end.

Fixpoint parse_arguments (arguments : list string) (options : benchmark_options_t) (mode_seen : bool) : option (unit + (benchmark_options_t * bool)) :=
  match arguments with
  | [] => Some (inr (options, mode_seen))
  | argument :: arguments =>
      match parse_argument argument options mode_seen with
      | Some (inr (options, mode_seen)) => parse_arguments arguments options mode_seen
      | r => r
      end
  end.

Definition parse_options (arguments : list string) : option (unit + benchmark_options_t) :=
  match parse_arguments arguments default_options false with
  | None => None
  | Some (inl _) => Some (inl tt)
  | Some (inr (options, mode_seen)) =>
      if negb mode_seen || (bo_chunk_items options >? bo_work_items options) ||
         negb (bo_work_items options mod 16 =? 0) || negb (bo_chunk_items options mod 16 =? 0) ||
         (bo_run_forever options && negb (bo_mode options =? BENCH_ADAPTIVE))
      then None else Some (inr options)
  end.

Definition print_usage (program : string) : string :=
  "usage: " ++ program ++ " --mode=sse41|avx2|avx512|adaptive [options]" ++ nl ++
  "  --max-isa=avx2|avx512       adaptive-mode ceiling (default: avx2)" ++ nl ++
  "  --duration-seconds=N        measured duration (default: 5)" ++ nl ++
  "  --warmup-seconds=N          unreported warmup (default: 0)" ++ nl ++
  "  --run-forever               adaptive run ends on SIGINT/SIGTERM" ++ nl ++
  "  --work-items=N              uint32 items per pass; multiple of 16 (default: 1048576)" ++ nl ++
  "  --chunk-items=N             decision boundary; multiple of 16 (default: 65536)" ++ nl ++
  "  --rounds=N                  integer-mix rounds per item (default: 32)" ++ nl ++
  "  --metrics-port=N            adaptive metrics port (default: 19464)" ++ nl ++
  "  --metrics-bind=ADDR         adaptive metrics address (default: 127.0.0.1)" ++ nl ++
  "  --result-json=PATH          atomically write machine-readable result" ++ nl.

(** ** The result as text *)

Fixpoint hex_digits (n : nat) (v : Z) : string :=
  match n with
  | O => ""
  | S n => String (let d := Z.land (Z.shiftr v (4 * Z.of_nat n)) 15 in if d <? 10 then chr (48 + d) else chr (87 + d)) (hex_digits n v)
  end.

Definition items_per_second (r : benchmark_result_t) : double :=
  if flt f64_zero (br_elapsed_seconds r) then fdiv (f64_of_Z (br_completed_work_items r)) (br_elapsed_seconds r) else f64_zero.

Definition width_items (r : benchmark_result_t) (width : simd_width_t) : Z := nth (Z.to_nat width) (br_width_work_items r) 0.

(** A member of the object, with its key. *)
Definition member (key value : string) : string := in_quotes key ++ ": " ++ value.

Definition result_text (o : benchmark_options_t) (r : benchmark_result_t) (cfg : tsd_runtime_config) : string :=
  let line key value := "  " ++ member key value ++ "," ++ nl in
  "{" ++ nl ++
  line "schema_version" "1" ++
  line "mode" (in_quotes (mode_name (bo_mode o))) ++
  line "adaptive_max_isa" (in_quotes (width_name (bo_adaptive_max o))) ++
  line "work_items_per_pass" (decimal (bo_work_items o)) ++
  line "chunk_items" (decimal (bo_chunk_items o)) ++
  line "rounds_per_item" (decimal (bo_rounds o)) ++
  line "elapsed_seconds" (f64_fixed 9 (br_elapsed_seconds r)) ++
  line "completed_passes" (decimal (br_completed_passes r)) ++
  line "completed_work_items" (decimal (br_completed_work_items r)) ++
  line "items_per_second" (f64_fixed 3 (items_per_second r)) ++
  line "checksum_fnv1a64" (in_quotes (hex_digits 16 (br_checksum r))) ++
  line "pinned_cpu" (decimal (br_pinned_cpu r)) ++
  line "stopped_by_signal" (bool_text (br_stopped_by_signal r)) ++
  line "width_work_items" ("{" ++ member "sse41" (decimal (width_items r SIMD_SSE41)) ++ ", " ++
    member "avx2" (decimal (width_items r SIMD_AVX2)) ++ ", " ++ member "avx512" (decimal (width_items r SIMD_AVX512)) ++ "}") ++
  "  " ++ member "effective_policy" ("{" ++ member "temp_ceiling_c" (decimal (predictive_temp_ceiling_c cfg)) ++ ", " ++
    member "safety_margin_c" (decimal (predictive_safety_margin_c cfg)) ++ ", " ++
    member "emergency_margin_c" (decimal (predictive_emergency_margin_c cfg)) ++ ", " ++
    member "thermal_temp_weight_milli" (decimal (thermal_temp_weight_milli cfg)) ++ ", " ++
    member "thermal_ratio_weight_milli" (decimal (thermal_ratio_weight_milli cfg)) ++ "}") ++ nl ++
  "}" ++ nl.

(** ** The process *)

Record bench : Type := mkBench {
  bn_l : lstate;                              (** the library *)
  bn_context : option kernel_context_t;       (** the buffers of the workload, while allocated *)
  bn_baseline : option kernel_context_t;      (** those of the monitor's baseline *)
  bn_baseline_shared : bool;                  (** [g_baseline_context] points to them *)
  bn_stop : bool;                             (** [g_stop_requested] *)
  bn_handlers : list Z;
  bn_buffers : Z;                             (** arrays allocated and not freed *)
  bn_dispatchers : Z;                         (** dispatchers created and not destroyed *)
  bn_oob : bool;                              (** a kernel left its buffers *)
  bn_exporter : list exporter_event;
  bn_files : gmap string string;
  bn_stdout : string;
  bn_stderr : list string;
}.
#[export] Instance eta_bench : Eta bench := fun r =>
  mkBench (bn_l r) (bn_context r) (bn_baseline r) (bn_baseline_shared r) (bn_stop r) (bn_handlers r) (bn_buffers r)
    (bn_dispatchers r) (bn_oob r) (bn_exporter r) (bn_files r) (bn_stdout r) (bn_stderr r).

Abbreviation BN := (ST bench).

(** What happens outside the main thread. *)
Inductive bench_event : Type :=
  | BCall (c : tramp_call)       (** another thread calls the guard or the selector *)
  | BBaseline                    (** the monitor runs its baseline workload *)
  | BSignal (sig : Z).

Class BenchEnv : Type := mkBenchEnv {
  be_events : nat -> list bench_event;
  be_sigaction : nat -> Z;
  be_memalign : nat -> bool;                  (** [posix_memalign] found memory *)
  be_exporter : nat -> Z;                     (** [tsd_metrics_exporter_start] *)
  be_getaffinity : nat -> option (Z -> bool); (** the CPUs allowed *)
  be_setaffinity : nat -> bool;
  be_malloc : nat -> bool;
  be_fopen : nat -> bool;
  be_fprintf : nat -> bool;
  be_fflush : nat -> bool;
  be_fsync : nat -> bool;
  be_fclose : nat -> bool;
  be_rename : nat -> bool;
  be_unlink : nat -> bool;
  be_kept : nat -> nat;                       (** bytes of a failed output that reached the file *)
}.

(** The addresses of the kernels. *)
Definition KERNEL_SSE41 : Z := 1.
Definition KERNEL_AVX2 : Z := 2.
Definition KERNEL_AVX512 : Z := 3.

Definition kernel_at (fn : Z) : option kernel_context_t -> Z -> Z -> option (Z * option kernel_context_t) :=
  if fn =? KERNEL_AVX512 then kernel_avx512 else if fn =? KERNEL_AVX2 then kernel_avx2 else kernel_sse41.

(** The environment in which a registered kernel returns [rc]. *)
Definition answering `{EV : Env} (rc : Z) : Env :=
  mkEnv env_host env_lock env_cond_wait env_steady env_clock env_page_size env_mmap env_mprotect env_maps_rx
    env_sha256_ok env_sha256 env_errno env_calloc env_cancel (fun _ => Some rc).

Section bench.
Context `{EV : Env, OT : Others, PE : PerfEnv, TL : Telemetry, LE : LifeEnv, BE : BenchEnv}.

Definition lib {A} (m : LM A) : BN A := fun s => let '(a, l) := m (bn_l s) in (a, s <| bn_l := l |>).
Definition proc {A} (m : M A) : BN A := lib (on_w m).

(** [perror] and [fprintf(stderr, ...)]; the text of [errno] is left out. *)
Definition report (text : string) : BN unit := modify (fun s => s <| bn_stderr ::= fun l => (l ++ [text])%list |>).

(** *** Signals *)

Definition stop_handler : BN unit := modify (fun s => s <| bn_stop := true |>).

Definition bench_sigaction (sig : Z) : BN Z :=
  rc <- proc (ext be_sigaction) ;;
  when (rc =? 0) (modify (fun s => s <| bn_handlers ::= cons sig |>)) ;;;
  ret rc.

Definition install_signal_handlers : BN Z :=
  rc <- bench_sigaction SIGINT ;;
  if rc <>? 0 then ret (-1)
  else rc <- bench_sigaction SIGTERM ;; ret (if rc <>? 0 then -1 else 0).

(** *** Buffers *)

Definition input_item (index : Z) : Z := Z.lxor (u32 (u32 index * 2654435761)) 0xa5a5a5a5.

Definition fresh_context (work_items rounds : Z) : kernel_context_t :=
  mkContext (map input_item (seqZ 0 work_items)) (replicate (Z.to_nat work_items) 0) work_items rounds.

(** The context, [None] for the result -1.  [free(NULL)] does nothing. *)
Definition allocate_context (work_items rounds : Z) : BN (option kernel_context_t) :=
  input <- proc (ext be_memalign) ;;
  if negb input then ret None
  else
    modify (fun s => s <| bn_buffers ::= fun n => n + 1 |>) ;;;
    output <- proc (ext be_memalign) ;;
    if negb output then modify (fun s => s <| bn_buffers ::= fun n => n - 1 |>) ;;; ret None
    else
      modify (fun s => s <| bn_buffers ::= fun n => n + 1 |>) ;;;
      ret (Some (fresh_context work_items rounds)).

(** [free_context] of the workload and of the baseline. *)
Definition free_buffers (context : option kernel_context_t) : BN unit :=
  match context with None => ret tt | Some _ => modify (fun s => s <| bn_buffers ::= fun n => n - 2 |>) end.

Definition free_contexts : BN unit :=
  baseline <- gets bn_baseline ;;
  free_buffers baseline ;;;
  modify (fun s => s <| bn_baseline := None |>) ;;;
  context <- gets bn_context ;;
  free_buffers context ;;;
  modify (fun s => s <| bn_context := None |>).

(** *** Kernels *)

(** A kernel called on a context: its result and the context after it. *)
Definition call_on (fn : Z) (context : option kernel_context_t) (off n : Z) : BN (Z * option kernel_context_t) :=
  match kernel_at fn context off n with
  | Some r => ret r
  | None => modify (fun s => s <| bn_oob := true |>) ;;; ret (0, context)
  end.

Definition run_kernel (fn off n : Z) : BN Z :=
  context <- gets bn_context ;;
  let* (rc, context) := call_on fn context off n in
  modify (fun s => s <| bn_context := context |>) ;;; ret rc.

Definition baseline_workload : BN unit :=
  shared <- gets bn_baseline_shared ;;
  context <- gets bn_baseline ;;
  match context with
  | Some c =>
      if negb shared then ret tt
      else
        let count := if kc_item_count c <? 64 then kc_item_count c else 64 in
        let* (_, context) := call_on KERNEL_SSE41 context 0 count in
        modify (fun s => s <| bn_baseline := context |>)
  | None => ret tt
  end.

(** *** Other threads *)

Definition happens (e : bench_event) : BN unit :=
  match e with
  | BCall c => when (may_call c) (proc (run_tramp_call c))
  | BBaseline => baseline_workload
  | BSignal sig =>
      handlers <- gets bn_handlers ;; when (existsb (Z.eqb sig) handlers) stop_handler
  end.

Fixpoint all_happen (es : list bench_event) : BN unit :=
  match es with [] => ret tt | e :: es => happens e ;;; all_happen es end.

Definition meanwhile : BN unit := es <- proc (ext be_events) ;; all_happen es.

(** *** A dispatched chunk

    The kernel is called by the dispatcher with the registered context: the call
    it logs is made on the buffers, which nothing else touches.  The return
    value the dispatcher sees is that of the kernels, which agree on it. *)

Fixpoint make_calls (calls : list kernel_call) : BN unit :=
  match calls with
  | [] => ret tt
  | c :: calls => run_kernel (kc_fn c) (kc_offset c) (kc_items c) ;;; make_calls calls
  end.

Definition kernel_status (context : option kernel_context_t) (off n : Z) : Z :=
  match kernel_sse41 context off n with Some (rc, _) => rc | None => 0 end.

Definition bench_dispatch_execute (dispatch : option tsd_kernel_dispatch_t) (off n : Z) : BN outcome :=
  context <- gets bn_context ;;
  before <- proc (gets w_kernel_log) ;;
  o <- proc (tsd_kernel_dispatch_v2_execute (EV := answering (kernel_status context off n)) dispatch off n) ;;
  all <- proc (gets w_kernel_log) ;;
  make_calls (List.skipn (List.length before) all) ;;;
  ret o.

(** *** A phase *)

(** [NULL] for the adaptive mode. *)
Definition fixed_kernel (mode : Z) : Z :=
  if mode =? BENCH_SSE41 then KERNEL_SSE41 else if mode =? BENCH_AVX2 then KERNEL_AVX2
  else if mode =? BENCH_AVX512 then KERNEL_AVX512 else 0.

(** 0 when the clock fails. *)
Definition monotonic_ns : BN Z :=
  t <- proc (ext env_clock) ;;
  ret (match t with Some (sec, nsec) => u64 (u64 (sec * 1000000000) + nsec) | None => 0 end).

Definition seconds (ns : Z) : double := fdiv (f64_of_Z ns) (f64_of_Z 1000000000).

(** [result->completed_work_items] and [result->width_work_items[used]]. *)
Definition count_chunk (used : simd_width_t) (count : Z) (r : benchmark_result_t) : benchmark_result_t :=
  r <| br_completed_work_items ::= fun n => u64 (n + count) |>
    <| br_width_work_items ::= alter (fun n => u64 (n + count)) (Z.to_nat used) |>.

(** One chunk: the return code and the width used; [None] when the dispatcher did
    not return. *)
Definition run_chunk (options : benchmark_options_t) (dispatch : option tsd_kernel_dispatch_t) (off count : Z) : BN (option (Z * simd_width_t)) :=
  if bo_mode options =? BENCH_ADAPTIVE then
    o <- bench_dispatch_execute dispatch off count ;;
    match o with
    | Returned rc used => ret (Some (rc, default SIMD_SSE41 used))
    | _ => ret None
    end
  else rc <- run_kernel (fixed_kernel (bo_mode options)) off count ;; ret (Some (rc, bo_mode options)).

(** The inner loop: [None] when out of fuel, [inl] for the result -1. *)
Fixpoint pass_loop (fuel : nat) (options : benchmark_options_t) (dispatch : option tsd_kernel_dispatch_t) (off : Z)
    (collect : bool) (r : benchmark_result_t) : BN (option (unit + benchmark_result_t)) :=
  if off <? bo_work_items options then
    match fuel with
    | O => ret None
    | S fuel =>
        meanwhile ;;;
        let left := u64 (bo_work_items options - off) in
        let count := if left >? bo_chunk_items options then bo_chunk_items options else left in
        done <- run_chunk options dispatch off count ;;
        match done with
        | None => ret None
        | Some (rc, used) =>
            if rc <>? 0 then proc (set_errno rc) ;;; ret (Some (inl tt))
            else if (used <? SIMD_SSE41) || (used >? SIMD_AVX512) then proc (set_errno ERANGE) ;;; ret (Some (inl tt))
            else pass_loop fuel options dispatch (u64 (off + count)) collect (if collect then count_chunk used count r else r)
        end
    end
  else ret (Some (inr r)).

(** The [do ... while] loop, one unit of fuel per pass. *)
Fixpoint phase_loop (fuel : nat) (options : benchmark_options_t) (dispatch : option tsd_kernel_dispatch_t) (duration : double)
    (collect : bool) (start_ns : Z) (r : benchmark_result_t) : BN (option (unit + benchmark_result_t)) :=
  match fuel with
  | O => ret None
  | S fuel =>
      pass <- pass_loop (Z.to_nat (bo_work_items options)) options dispatch 0 collect r ;;
      match pass with
      | Some (inr r) =>
          let r := if collect then r <| br_completed_passes ::= fun n => u64 (n + 1) |> else r in
          now_ns <- monotonic_ns ;;
          if now_ns =? 0 then ret (Some (inl tt))
          else if (negb collect || negb (bo_run_forever options)) && fle duration (seconds (u64 (now_ns - start_ns))) then ret (Some (inr r))
          else
            stop <- gets bn_stop ;;
            if stop then ret (Some (inr r)) else phase_loop fuel options dispatch duration collect start_ns r
      | p => ret p
      end
  end.

Definition run_phase (fuel : nat) (options : benchmark_options_t) (dispatch : option tsd_kernel_dispatch_t) (duration : double)
    (collect : bool) (r : benchmark_result_t) : BN (option (unit + benchmark_result_t)) :=
  start_ns <- monotonic_ns ;;
  if start_ns =? 0 then ret (Some (inl tt))
  else
    phase <- phase_loop fuel options dispatch duration collect start_ns r ;;
    match phase with
    | Some (inr r) =>
        end_ns <- monotonic_ns ;;
        if end_ns =? 0 then ret (Some (inl tt))
        else ret (Some (inr (if collect then r <| br_elapsed_seconds := seconds (u64 (end_ns - start_ns)) |> else r)))
    | p => ret p
    end.

(** *** Writing the result *)

Definition write_file (path text : string) : BN unit := modify (fun s => s <| bn_files ::= <[path := text]> |>).

(** The text arrives whole when every call succeeds. *)
Definition write_result (options : benchmark_options_t) (r : benchmark_result_t) : BN Z :=
  cfg <- proc (gets w_config) ;;
  let text := result_text options r cfg in
  match bo_result_json options with
  | None =>
      ok <- proc (ext be_fprintf) ;;
      kept <- proc (ext be_kept) ;;
      modify (fun s => s <| bn_stdout ::= fun out => out ++ (if ok : bool then text else substring 0 kept text) |>) ;;;
      ret (if ok : bool then 0 else -1)
  | Some path =>
      memory <- proc (ext be_malloc) ;;
      if negb memory then ret (-1)
      else
        let temporary := path ++ ".tmp" in
        opened <- proc (ext be_fopen) ;;
        if negb opened then ret (-1)
        else
          printed <- proc (ext be_fprintf) ;;
          flushed <- (if printed : bool then proc (ext be_fflush) else ret false) ;;
          kept <- proc (ext be_kept) ;;
          write_file temporary (if flushed : bool then text else substring 0 kept text) ;;;
          synced <- (if flushed : bool then proc (ext be_fsync) else ret false) ;;
          closed <- proc (ext be_fclose) ;;
          renamed <- (if synced && closed then proc (ext be_rename) else ret false) ;;
          if renamed : bool then
            modify (fun s => s <| bn_files ::= fun files => <[path := default "" (files !! temporary)]> (delete temporary files) |>) ;;;
            ret 0
          else
            removed <- proc (ext be_unlink) ;;
            when removed (modify (fun s => s <| bn_files ::= delete temporary |>)) ;;;
            ret (-1)
  end.

(** *** [main] *)

(** The first CPU this thread may run on, after it was bound to it; -1. *)
Definition pin_fixed_workload : BN Z :=
  allowed <- proc (ext be_getaffinity) ;;
  match allowed with
  | None => ret (-1)
  | Some allowed =>
      match List.find allowed (seqZ 0 1024) with
      | None => proc (set_errno ENODEV) ;;; ret (-1)
      | Some cpu =>
          ok <- proc (ext be_setaffinity) ;;
          ret (if ok : bool then cpu else -1)
      end
  end.

(** The locals [dispatch], [runtime] and [metrics_started]. *)
Record locals : Type := mkLocals { lc_dispatch : option tsd_kernel_dispatch_t; lc_runtime : Z; lc_metrics : bool }.

Definition bench_variants : tsd_kernel_variants_t := mkVariants KERNEL_SSE41 KERNEL_AVX2 KERNEL_AVX512.

(** The adaptive branch of the setup: whether it went through, with the locals;
    [None] when a stop inside it is still waiting. *)
Definition adaptive_setup (options : benchmark_options_t) : BN (option (bool * locals)) :=
  baseline <- allocate_context 64 (bo_rounds options) ;;
  match baseline with
  | None => report "failed to allocate isolated monitor-baseline buffers" ;;; ret (Some (false, mkLocals None 0 false))
  | Some baseline =>
      modify (fun s => s <| bn_baseline := Some baseline |>) ;;;
      let* (rc, dispatch) := proc (tsd_kernel_dispatch_v2_create (Some bench_variants)) in
      if rc <>? 0 then report "adaptive dispatch creation" ;;; ret (Some (false, mkLocals None 0 false))
      else
        modify (fun s => s <| bn_dispatchers ::= fun n => n + 1 |>) ;;;
        rc <- proc (ext be_exporter) ;;
        modify (fun s => s <| bn_exporter ::= fun l =>
          (l ++ [ExporterStart (mkMetricsConfig (Some (bo_metrics_bind options)) (bo_metrics_port options) None None None 0) rc])%list |>) ;;;
        if rc <>? 0 then report "metrics exporter start" ;;; ret (Some (false, mkLocals dispatch 0 false))
        else
          proc tsd_runtime_flags_init ;;;
          modify (fun s => s <| bn_baseline_shared := true |>) ;;;
          started <- lib (tsd_runtime_start true) ;;
          match started with
          | None => ret None
          | Some (rc, runtime) =>
              if rc <>? 0 then report "adaptive runtime start" ;;; ret (Some (false, mkLocals dispatch 0 true))
              else ret (Some (true, mkLocals dispatch runtime true))
          end
  end.

(** The phases up to [status = EXIT_SUCCESS]: [None] when out of fuel, [inl] when
    [status] stays [EXIT_FAILURE]. *)
Definition measure (fuel : nat) (options : benchmark_options_t) (dispatch : option tsd_kernel_dispatch_t) (r : benchmark_result_t)
    : BN (option (unit + benchmark_result_t)) :=
  warm <- (if flt f64_zero (bo_warmup_seconds options)
           then run_phase fuel options dispatch (bo_warmup_seconds options) false r else ret (Some (inr r))) ;;
  match warm with
  | None => ret None
  | Some (inl _) => report "benchmark warmup" ;;; ret (Some (inl tt))
  | Some (inr r) =>
      stop <- gets bn_stop ;;
      phase <- (if negb stop then run_phase fuel options dispatch (bo_duration_seconds options) true r else ret (Some (inr r))) ;;
      match phase with
      | None => ret None
      | Some (inl _) => report "benchmark measurement" ;;; ret (Some (inl tt))
      | Some (inr r) =>
          stop <- gets bn_stop ;;
          context <- gets bn_context ;;
          let sum := match context with Some c => checksum_output c | None => 0 end in
          let r := r <| br_stopped_by_signal := stop |> <| br_checksum := sum |> in
          if (br_completed_passes r =? 0) || (br_completed_work_items r =? 0) then
            report "benchmark completed no measured work" ;;; ret (Some (inl tt))
          else ret (Some (inr r))
      end
  end.

(** Stopping and destroying the runtime: the status after it. *)
Definition end_runtime (runtime status : Z) : BN (option Z) :=
  if runtime =? 0 then ret (Some status)
  else
    lib (tsd_runtime_request_stop runtime) ;;;
    stopped <- lib (tsd_runtime_stop runtime) ;;
    match stopped with
    | None => ret None
    | Some rc =>
        let status := if rc <>? 0 then EXIT_FAILURE else status in
        rc <- lib (tsd_runtime_destroy runtime) ;;
        ret (Some (if rc <>? 0 then EXIT_FAILURE else status))
    end.

(** From the label [cleanup] on; the result is that of a run with the status
    [EXIT_SUCCESS]. *)
Definition cleanup (options : benchmark_options_t) (l : locals) (r : option benchmark_result_t) : BN (option Z) :=
  ended <- end_runtime (lc_runtime l) (match r with Some _ => EXIT_SUCCESS | None => EXIT_FAILURE end) ;;
  match ended with
  | None => ret None
  | Some status =>
      modify (fun s => s <| bn_baseline_shared := false |>) ;;;
      when (lc_metrics l) (modify (fun s => s <| bn_exporter ::= fun l => (l ++ [ExporterStop])%list |>)) ;;;
      when (negb (is_null (lc_dispatch l))) (modify (fun s => s <| bn_dispatchers ::= fun n => n - 1 |>)) ;;;
      written <- (match r with
                  | Some r => if status =? EXIT_SUCCESS then write_result options r else ret 0
                  | None => ret 0
                  end) ;;
      when (written <>? 0) (report "write benchmark result") ;;;
      free_contexts ;;;
      ret (Some (if written <>? 0 then EXIT_FAILURE else status))
  end.

Definition no_result : benchmark_result_t := mkResult 0 0 [0; 0; 0] 0 f64_zero (-1) false.

(** After the buffers were allocated. *)
Definition bench_body (fuel : nat) (options : benchmark_options_t) : BN (option Z) :=
  setup <- (if bo_mode options =? BENCH_ADAPTIVE then
              s <- adaptive_setup options ;; ret ((fun '(ok, l) => (ok : bool, l, -1)) <$> s)
            else
              cpu <- pin_fixed_workload ;;
              (if cpu <? 0 then report "workload affinity" ;;; ret (Some (false, mkLocals None 0 false, -1))
               else ret (Some (true, mkLocals None 0 false, cpu)))) ;;
  match setup with
  | None => ret None
  | Some (ok, l, cpu) =>
      measured <- (if ok : bool then measure fuel options (lc_dispatch l) (no_result <| br_pinned_cpu := cpu |>) else ret (Some (inl tt))) ;;
      match measured with
      | None => ret None
      | Some m => cleanup options l (match m with inr r => Some r | inl _ => None end)
      end
  end.

(** The exit status; [arguments] is [argv] without the program name.  The log
    level set here is not part of the state. *)
Definition bench_main (fuel : nat) (program : string) (arguments : list string) : BN (option Z) :=
  match parse_options arguments with
  | None => report (print_usage program) ;;; ret (Some EXIT_FAILURE)
  | Some (inl _) => report (print_usage program) ;;; ret (Some EXIT_SUCCESS)
  | Some (inr options) =>
      rc <- install_signal_handlers ;;
      if rc <>? 0 then report "sigaction" ;;; ret (Some EXIT_FAILURE)
      else
        let '(err, cfg) := tsd_runtime_config_refresh_ticks
          (tsd_runtime_config_set_defaults <| allow_avx512 := (bo_adaptive_max options =? SIMD_AVX512) |>) in
        proc (modify (fun w => w <| w_config := cfg |>)) ;;;
        if negb (is_null err) then report "failed to initialize runtime timing configuration" ;;; ret (Some EXIT_FAILURE)
        else
          host_max <- proc (tsd_detect_max_simd (Some (cfg <| allow_avx512 := true |>))) ;;
          let required := if bo_mode options =? BENCH_ADAPTIVE then bo_adaptive_max options else bo_mode options in
          if negb tsd_cpu_has_sse41 || (host_max <? required) then
            report ("requested mode " ++ mode_name (bo_mode options) ++ " is unavailable on this host") ;;; ret (Some EXIT_FAILURE)
          else
            context <- allocate_context (bo_work_items options) (bo_rounds options) ;;
            match context with
            | None => report "failed to allocate aligned benchmark buffers" ;;; ret (Some EXIT_FAILURE)
            | Some context =>
                modify (fun s => s <| bn_context := Some context |>) ;;;
                bench_body fuel options
            end
  end.
End bench.

(** ** What one dispatched call does to the kernel log

    No invariant of the process is needed for it. *)

Section calls.
Context `{EV : Env, OT : Others}.

Definition log_kept (w w' : world) : Prop := w_kernel_log w = w_kernel_log w'.

Lemma log_auth {A} (m : M A) : respects auth_frame m -> respects log_kept m.
Proof. intros Hm w. by destruct (Hm w) as (n & st & sn & ->). Qed.
Lemma log_admission {A} (m : M A) : respects admission_frame m -> respects log_kept m.
Proof. intros Hm w. destruct (Hm w) as (? & ? & ? & ? & ? & ? & ? & ? & -> & _). done. Qed.
Lemma log_cancel_set b : respects log_kept (cancel_set_state b).
Proof. intros w. destruct (setcancel_run b w) as (? & ? & ? & ? & -> & _). done. Qed.
Lemma log_cancel_disable : respects log_kept cancel_disable.
Proof. intros w. destruct (cancel_disable_run w) as (? & ? & ? & ? & -> & _). done. Qed.

#[local] Instance log_kept_preorder : PreOrder log_kept.
Proof. unfold log_kept. exact _. Qed.

Lemma log_others : respects log_kept others_run.
Proof.
  intros w. destruct (others_run_spec w) as [Hm _]. unfold mine, outside_guard in Hm. injection Hm as _ _ _ _ _ _ _ _ _ _ _ _ _ Hl. by symmetry.
Qed.

Ltac log_steps :=
  repeat first
    [ apply log_auth, width_authorized_frame | apply log_admission, admission_frame_enter
    | apply log_admission, admission_frame_leave | apply log_cancel_set | apply log_cancel_disable | apply log_others
    | respects_step | (intro; reflexivity) ].

Lemma log_resolve d : respects log_kept (resolve_v2_internal d).
Proof.
  unfold resolve_v2_internal, selected_width_snapshot, tsd_trampoline_state_current_width, tsd_trampoline_state_snapshot,
    tsd_runtime_wide_admission_is_open, tsd_runtime_current_thread_is_owner. log_steps.
Qed.
Lemma log_enter d actual fn : respects log_kept (enter_or_fallback_v2 d actual fn).
Proof. unfold enter_or_fallback_v2. log_steps. Qed.
Lemma log_restore b e : respects log_kept (restore_and_fail b e).
Proof. unfold restore_and_fail. log_steps. Qed.
Lemma log_account n : respects log_kept (account_completed_work n).
Proof. intros w. rewrite account_run. by destruct (_ && _). Qed.

(** A variant of [d], with a width of its own. *)
Definition variant_of (d : tsd_kernel_dispatch_t) (p : simd_width_t * Z) : Prop :=
  width_in_range p.1 = true /\ p.2 = registered (variants d) p.1.

Lemma choose_variant_of d selected : variant_of d (choose_variant d selected).
Proof. unfold choose_variant, variant_of. repeat case_if; done. Qed.

Lemma resolve_variant_of d w : wp (resolve_v2_internal (Some d)) (fun r _ => forall p, r = Some p -> variant_of d p) w.
Proof.
  unfold resolve_v2_internal. case_if; [apply wp_bind; unfold wp at 1; by apply wp_ret|].
  apply wp_bind. unfold wp at 1. apply wp_ret. intros p [= <-]. apply choose_variant_of.
Qed.

Lemma enter_variant_of d actual fn w :
  variant_of d (actual, fn) -> wp (enter_or_fallback_v2 (Some d) actual fn) (fun r _ => forall p, r = Some p -> variant_of d p) w.
Proof.
  intros Hv. assert (Hs : variant_of d (SIMD_SSE41, sse41 (variants d))) by done. unfold enter_or_fallback_v2.
  repeat first [ apply wp_ret; solve [intros p [= <-]; done | intros p [=]] | apply wp_bind; unfold wp at 1
               | match goal with |- wp (if ?b then _ else _) _ _ => destruct b end ].
Qed.

(** Stepping over a part that makes no call, with what is known of it. *)
Lemma wp_logless {A B} (m : M A) (k : A -> M B) (P : A -> world -> Prop) Q w :
  respects log_kept m -> wp m P w -> (forall a w', P a w' -> w_kernel_log w' = w_kernel_log w -> wp (k a) Q w') -> wp (bind m k) Q w.
Proof. intros Hm HP Hk. apply wp_bind. unfold wp at 1. apply Hk; [exact HP | symmetry; apply Hm]. Qed.

Lemma wp_true {A} (m : M A) w : wp m (fun _ _ => True) w.
Proof. done. Qed.

(** The calls of one execution, and what is returned. *)
Definition calls_made (d : tsd_kernel_dispatch_t) (rc off n : Z) (before : list kernel_call) (o : outcome) (w : world) : Prop :=
  (w_kernel_log w = before /\ o = Returned (-1) None) \/
  (exists width active, width_in_range width = true /\
     w_kernel_log w = (before ++ [mkCall (registered (variants d) width) off n active])%list /\
     (o = Returned rc (if rc =? 0 then Some width else None) \/ exists used, o = Returned (-1) used)).

(** Once the kernel was called, whatever follows without another call. *)
Lemma execute_calls d rc off n w :
  (forall m, env_kernel m = Some rc) ->
  wp (tsd_kernel_dispatch_v2_execute (Some d) off n) (calls_made d rc off n (w_kernel_log w)) w.
Proof.
  intros Hk. unfold tsd_kernel_dispatch_v2_execute.
  assert (Hrestore : forall b e (Q : outcome -> world -> Prop) w', (forall w'', w_kernel_log w'' = w_kernel_log w' -> Q (Returned (-1) None) w'') -> wp (restore_and_fail b e) Q w').
  { intros b e Q w' HQ. unfold restore_and_fail. eapply wp_logless; [apply log_cancel_set | apply wp_true|]. intros _ w1 _ E1.
    apply wp_bind, wp_modify, wp_ret, HQ. exact E1. }
  eapply wp_logless; [apply log_cancel_disable | apply wp_true|]. intros [rc0 previous] w1 _ E1. case_if; [apply wp_ret; by left|].
  eapply wp_logless; [apply log_resolve | apply resolve_variant_of|]. intros [[actual fn]|] w2 V2 E2.
  2: { apply wp_bind, wp_gets. apply Hrestore. intros w3 E3. left. split; [congruence | done]. }
  eapply wp_logless; [apply log_others | apply wp_true|]. intros _ w3 _ E3.
  eapply wp_logless; [apply log_enter | by apply enter_variant_of, V2|]. intros [[width fn']|] w4 V4 E4.
  2: { apply wp_bind, wp_gets. apply Hrestore. intros w5 E5. left. split; [congruence | done]. }
  destruct (V4 _ eq_refl) as [Hr Hf]. cbn [fst snd] in Hr, Hf. subst fn'.
  eapply wp_logless; [apply log_cancel_set | apply wp_true|]. intros rc1 w5 _ E5.
  assert (Ew : w_kernel_log w5 = w_kernel_log w) by congruence. clear E1 E2 E3 E4 E5 V2 V4 w1 w2 w3 w4.
  destruct (rc1 =? 0).
  2: { apply wp_bind, wp_gets. eapply wp_logless; [apply log_admission, admission_frame_leave | apply wp_true|]. intros _ w6 _ E6.
    apply Hrestore. intros w7 E7. left. split; [congruence | done]. }
  apply wp_bind. unfold wp at 1. destruct (call_kernel_run (registered (variants d) width) off n w5) as (r & w6 & Er & _ & _ & _ & _ & El & _).
  assert (Hr6 : r = Some rc).
  { unfold call_kernel in Er. rewrite !bind_run in Er. cbn [ext gets ret fst snd] in Er. injection Er as <- _. rewrite Hk. by case_if. }
  rewrite Er. cbn [fst snd]. subst r. rewrite Ew in El.
  eapply wp_logless; [apply log_cancel_disable | apply wp_true|]. intros [rc2 p2] w7 _ E7. destruct (rc2 =? 0).
  - eapply wp_logless; [apply respects_when; [exact _ | apply log_account] | apply wp_true|]. intros _ w8 _ E8.
    eapply wp_logless; [apply log_admission, admission_frame_leave | apply wp_true|]. intros _ w9 _ E9.
    eapply wp_logless; [apply log_cancel_set | apply wp_true|]. intros rc3 w10 _ E10.
    assert (Ef : w_kernel_log w10 = (w_kernel_log w ++ [mkCall (registered (variants d) width) off n (active_of w5)])%list) by congruence.
    case_if; apply wp_ret; right; exists width, (active_of w5); split_done; [right; by eexists | by left].
  - apply wp_bind, wp_gets. eapply wp_logless; [apply log_admission, admission_frame_leave | apply wp_true|]. intros _ w8 _ E8.
    apply Hrestore. intros w9 E9. right. exists width, (active_of w5). split_done; [congruence | right; by eexists].
Qed.

Lemma execute_null off n w :
  wp (tsd_kernel_dispatch_v2_execute None off n) (fun o w' => w_kernel_log w' = w_kernel_log w /\ o = Returned (-1) None) w.
Proof.
  unfold tsd_kernel_dispatch_v2_execute.
  eapply wp_logless; [apply log_cancel_disable | apply wp_true|]. intros [rc0 previous] w1 _ E1. case_if; [by apply wp_ret|].
  apply wp_bind. unfold wp at 1. apply wp_bind, wp_gets. unfold restore_and_fail.
  eapply wp_logless; [apply log_cancel_set | apply wp_true|]. intros _ w2 _ E2. apply wp_bind, wp_modify, wp_ret.
  split; [|done]. cbn in *. congruence.
Qed.
End calls.

(** ** Accepted options *)

Record options_ok (o : benchmark_options_t) : Prop := {
  oo_mode : BENCH_SSE41 <= bo_mode o <= BENCH_ADAPTIVE;
  oo_max : bo_adaptive_max o = SIMD_AVX2 \/ bo_adaptive_max o = SIMD_AVX512;
  oo_work : 16 <= bo_work_items o <= 2 ^ 29;
  oo_chunk : 16 <= bo_chunk_items o <= bo_work_items o;
  oo_vectors : (16 | bo_work_items o) /\ (16 | bo_chunk_items o);
  oo_rounds : 1 <= bo_rounds o <= 10000;
  oo_duration : fle (f64_ratio 1 1000) (bo_duration_seconds o) = true /\ fle (bo_duration_seconds o) (f64_of_Z 86400) = true;
  oo_warmup : fle f64_zero (bo_warmup_seconds o) = true /\ fle (bo_warmup_seconds o) (f64_of_Z 3600) = true;
  oo_port : 1 <= bo_metrics_port o <= 65535;
  oo_forever : bo_run_forever o = true -> bo_mode o = BENCH_ADAPTIVE;
}.

(** What each argument keeps of it. *)
Record parsed_ok (o : benchmark_options_t) : Prop := {
  po_mode : BENCH_SSE41 <= bo_mode o <= BENCH_ADAPTIVE;
  po_max : bo_adaptive_max o = SIMD_AVX2 \/ bo_adaptive_max o = SIMD_AVX512;
  po_work : 16 <= bo_work_items o <= 2 ^ 29;
  po_chunk : 1 <= bo_chunk_items o <= 2 ^ 29;
  po_rounds : 1 <= bo_rounds o <= 10000;
  po_duration : fle (f64_ratio 1 1000) (bo_duration_seconds o) = true /\ fle (bo_duration_seconds o) (f64_of_Z 86400) = true;
  po_warmup : fle f64_zero (bo_warmup_seconds o) = true /\ fle (bo_warmup_seconds o) (f64_of_Z 3600) = true;
  po_port : 1 <= bo_metrics_port o <= 65535;
}.

Lemma parse_size_range v lo hi n : parse_size v lo hi = Some n -> lo <= n <= hi.
Proof. unfold parse_size. case_if; [done|]. intros [= <-]. zbool. lia. Qed.

Lemma parse_unsigned_range v lo hi n : 0 <= lo -> hi <= UINT32_MAX -> parse_unsigned v lo hi = Some n -> lo <= n <= hi.
Proof.
  unfold parse_unsigned. destruct (parse_size v lo hi) as [m|] eqn:E; [|done]. intros Hl Hh [= <-].
  apply parse_size_range in E. rewrite u32_small; [done | unfold_int; lia].
Qed.

Lemma parse_double_range v lo hi d :
  isnan lo = false -> isnan hi = false -> parse_double_value v lo hi = Some d -> fle lo d = true /\ fle d hi = true.
Proof.
  intros Hl Hh. unfold parse_double_value. case_if; [done|]. intros [= <-]. zbool.
  assert (isnan (st_val (strtod v)) = false) by (by destruct (st_val (strtod v))). split; by apply not_flt_fle.
Qed.

Lemma parse_mode_range v m : parse_mode v = Some m -> BENCH_SSE41 <= m <= BENCH_ADAPTIVE.
Proof. unfold parse_mode. repeat case_if; intros [= <-]; vm_compute; intuition congruence. Qed.

Lemma parse_max_isa_range v w : parse_max_isa v = Some w -> w = SIMD_AVX2 \/ w = SIMD_AVX512.
Proof. unfold parse_max_isa. repeat case_if; intros [= <-]; auto. Qed.

Lemma parse_argument_ok a o seen o' seen' :
  parsed_ok o -> parse_argument a o seen = Some (inr (o', seen')) -> parsed_ok o'.
Proof.
  intros [H1 H2 H3 H4 H5 H6 H7 H8] H. unfold parse_argument in H. cbv zeta in H.
  repeat match type of H with
  | context [match after ?n ?x with _ => _ end] => destruct (after n x) as [v|]
  | context [if String.eqb ?x ?y then _ else _] => destruct (String.eqb x y)
  | context [match parse_mode ?v with _ => _ end] => destruct (parse_mode v) eqn:?
  | context [match parse_max_isa ?v with _ => _ end] => destruct (parse_max_isa v) eqn:?
  | context [match parse_double_value ?v ?l ?h with _ => _ end] => destruct (parse_double_value v l h) eqn:?
  | context [match parse_size ?v ?l ?h with _ => _ end] => destruct (parse_size v l h) eqn:?
  | context [match parse_unsigned ?v ?l ?h with _ => _ end] => destruct (parse_unsigned v l h) eqn:?
  end; try discriminate H; injection H as <- _; (split; cbn -[fle f64_ratio f64_of_Z Z.pow]; try assumption);
    eauto using parse_mode_range, parse_max_isa_range, parse_size_range.
  all: match goal with
       | E : parse_double_value _ _ _ = Some _ |- _ => apply parse_double_range in E; [exact E | reflexivity | reflexivity]
       | E : parse_unsigned _ _ _ = Some _ |- _ => apply parse_unsigned_range in E; [exact E | lia | unfold_int; lia]
       | E : parse_size _ _ _ = Some _ |- _ => apply parse_size_range in E; rewrite Z.mod_small; lia
       end.
Qed.

Lemma parse_arguments_ok args o seen o' seen' :
  parsed_ok o -> parse_arguments args o seen = Some (inr (o', seen')) -> parsed_ok o'.
Proof.
  revert o seen. induction args as [|a args IH]; intros o seen Ho; cbn [parse_arguments]; [by intros [= <- _]|].
  destruct (parse_argument a o seen) as [[?|[o1 s1]]|] eqn:E; try discriminate. apply IH. by eapply parse_argument_ok.
Qed.

Lemma default_options_ok : parsed_ok default_options.
Proof. split; try (vm_compute; intuition congruence). Qed.

(** Whatever the arguments, accepted options are in range and the chunks are
    whole vectors of every width. *)
Theorem accepted_options_in_range (args : list string) (o : benchmark_options_t) :
  parse_options args = Some (inr o) -> options_ok o.
Proof.
  unfold parse_options. destruct (parse_arguments args default_options false) as [[?|[o1 seen]]|] eqn:E; try discriminate.
  apply parse_arguments_ok in E as [H1 H2 H3 H4 H5 H6 H7 H8]; [|apply default_options_ok].
  case_if; [done|]. intros [= <-]. zbool.
  assert (D1 : (16 | bo_work_items o1)) by (by apply Z.mod_divide). assert (D2 : (16 | bo_chunk_items o1)) by (by apply Z.mod_divide).
  split; try done.
  - destruct D2 as [k Hk]. lia.
  - intros Hf. match goal with H : _ && _ = false |- _ => rewrite Hf in H; cbn in H; by zbool end.
Qed.

(** ** The buffers during a run *)

Definition inputs (n : Z) : list Z := map input_item (seqZ 0 n).

(** The first [off] items of the output are those of the reference. *)
Record progress (n rounds off : Z) (s : bench) : Prop := {
  pg_oob : bn_oob s = false;
  pg_baseline : forall c, bn_baseline s = Some c -> context_ok c;
  pg_context : exists c, bn_context s = Some c /\ context_ok c /\ kc_input c = inputs n /\ kc_item_count c = n /\ kc_rounds c = rounds /\
    take (Z.to_nat off) (kc_output c) = map (fun x => mix_scalar x rounds) (take (Z.to_nat off) (inputs n));
}.

Lemma progress_zero n rounds off s : progress n rounds off s -> progress n rounds 0 s.
Proof. intros [H1 H2 (c & H3 & H4 & H5 & H6 & H7 & _)]. split; [done | done|]. exists c. split_done. Qed.

Lemma fresh_context_ok n rounds : 0 <= n < 2 ^ 62 -> context_ok (fresh_context n rounds).
Proof.
  intros H. split; cbn; [rewrite length_map, length_seqZ; lia | rewrite length_replicate; lia | lia].
Qed.

Lemma kernel_at_run fn c off n :
  context_ok c -> 0 <= off -> 0 <= n ->
  kernel_at fn (Some c) off n =
    Some (if in_context c off n then (0, Some (c <| kc_output := mixed c (Z.to_nat off) (Z.to_nat n) |>)) else (EINVAL, Some c)).
Proof. intros Hc Ho Hn. unfold kernel_at. destruct (fn =? KERNEL_AVX512), (fn =? KERNEL_AVX2); apply mix_kernel_run; (done || lia). Qed.

Section runs.
Context `{EV : Env, OT : Others, PE : PerfEnv, TL : Telemetry, LE : LifeEnv, BE : BenchEnv}.

(** What a phase leaves alone. *)
Definition outside_phase (s : bench) :=
  (bn_exporter s, bn_files s, bn_stdout s, bn_buffers s, bn_dispatchers s, bn_baseline_shared s,
   is_null (bn_baseline s), is_null (bn_context s)).
Definition phase_frame (s s' : bench) : Prop := outside_phase s = outside_phase s'.
#[export] Instance phase_frame_preorder : PreOrder phase_frame.
Proof. unfold phase_frame. exact _. Qed.

Lemma frame_lib {A} (m : LM A) : respects phase_frame (lib m).
Proof. intros s. unfold lib. by destruct (m (bn_l s)). Qed.
Lemma frame_proc {A} (m : M A) : respects phase_frame (proc m).
Proof. apply frame_lib. Qed.

Lemma mix_kernel_null lanes context off n r context' :
  mix_kernel lanes context off n = Some (r, context') -> is_null context' = is_null context.
Proof.
  unfold mix_kernel. destruct context as [c|]; [|by intros [= <- <-]]. case_if; [by intros [= <- <-]|].
  destruct (vector_loop _ _ _ _ _ _ _) as [[i out]|]; [|done]. destruct (scalar_loop _ _ _ _ _ _) as [[? ?]|]; [|done]. by intros [= <- <-].
Qed.

Lemma call_on_null fn context off n s :
  wp (call_on fn context off n) (fun r s' => phase_frame s s' /\ is_null r.2 = is_null context) s.
Proof.
  unfold call_on. destruct (kernel_at fn context off n) as [[rc c]|] eqn:E.
  - apply wp_ret. split; [done|]. revert E. unfold kernel_at, kernel_sse41, kernel_avx2, kernel_avx512. repeat case_if; apply mix_kernel_null.
  - apply wp_bind, wp_modify, wp_ret. done.
Qed.

Lemma frame_run_kernel fn off n : respects phase_frame (run_kernel fn off n).
Proof.
  intros s. cut (wp (run_kernel fn off n) (fun _ s' => phase_frame s s') s); [done|]. unfold run_kernel. apply wp_bind, wp_gets, wp_bind.
  eapply wp_mono; [apply call_on_null|]. intros [rc c] s1 [H1 H2]. apply wp_bind, wp_modify, wp_ret.
  unfold phase_frame, outside_phase in *. cbn in *. injection H1 as -> -> -> -> -> -> -> E. by rewrite H2.
Qed.

Lemma frame_baseline : respects phase_frame baseline_workload.
Proof.
  intros s. cut (wp baseline_workload (fun _ s' => phase_frame s s') s); [done|]. unfold baseline_workload.
  apply wp_bind, wp_gets, wp_bind, wp_gets. destruct (bn_baseline s) as [c|] eqn:Eb; [|by apply wp_ret]. case_if; [by apply wp_ret|].
  apply wp_bind. eapply wp_mono; [apply call_on_null|]. intros [rc c'] s1 [H1 H2]. apply wp_modify.
  unfold phase_frame, outside_phase in *. cbn in *. injection H1 as -> -> -> -> -> -> En ->. rewrite H2, Eb. done.
Qed.

Ltac frame_steps :=
  repeat first [ apply frame_lib | apply frame_proc | apply frame_run_kernel | apply frame_baseline | respects_step | (intro; reflexivity) ].

Lemma frame_meanwhile : respects phase_frame meanwhile.
Proof.
  unfold meanwhile. apply respects_bind; [exact _ | apply frame_proc|]. intros es. induction es as [|e es IH]; cbn [all_happen]; [frame_steps|].
  apply respects_bind; [exact _ | | intros _; exact IH]. destruct e; cbn [happens]; unfold stop_handler; frame_steps.
Qed.

Lemma frame_make_calls calls : respects phase_frame (make_calls calls).
Proof. induction calls as [|c calls IH]; cbn [make_calls]; [frame_steps|]. apply respects_bind; [exact _ | apply frame_run_kernel | intros _; exact IH]. Qed.

Lemma frame_chunk o d off n : respects phase_frame (run_chunk o d off n).
Proof. unfold run_chunk, bench_dispatch_execute. repeat first [apply frame_make_calls | progress frame_steps]. Qed.

Lemma frame_pass fuel o d off collect r : respects phase_frame (pass_loop fuel o d off collect r).
Proof.
  revert off r. induction fuel as [|fuel IH]; intros off r; cbn [pass_loop]; repeat first [apply IH | apply frame_meanwhile | apply frame_chunk | progress frame_steps].
Qed.

Lemma frame_phase fuel o d duration collect r : respects phase_frame (run_phase fuel o d duration collect r).
Proof.
  unfold run_phase, monotonic_ns. apply respects_bind; [exact _ | frame_steps|]. intros start. case_if; [frame_steps|].
  apply respects_bind; [exact _ | | intros p; unfold monotonic_ns; frame_steps].
  revert r. induction fuel as [|fuel IH]; intros r; cbn [phase_loop]; unfold monotonic_ns;
    repeat first [apply IH | apply frame_pass | progress frame_steps].
Qed.

Lemma frame_measure fuel o d r : respects phase_frame (measure fuel o d r).
Proof. unfold measure, report. repeat first [apply frame_phase | progress frame_steps]. Qed.

(** *** Progress *)

Definition keeps_progress {A} (n rounds off : Z) (m : BN A) : Prop :=
  respects (fun s s' => progress n rounds off s -> progress n rounds off s') m.

Lemma progress_lib {A} n rounds off (m : LM A) : keeps_progress n rounds off (lib m).
Proof. intros s. unfold lib. destruct (m (bn_l s)). cbn. intros [H1 H2 H3]. by split. Qed.
Lemma progress_proc {A} n rounds off (m : M A) : keeps_progress n rounds off (proc m).
Proof. apply progress_lib. Qed.

(** The monitor's baseline stays in its own buffers. *)
Lemma progress_baseline n rounds off : keeps_progress n rounds off baseline_workload.
Proof.
  intros s Hp. cut (wp baseline_workload (fun _ s' => progress n rounds off s') s); [done|]. unfold baseline_workload.
  apply wp_bind, wp_gets, wp_bind, wp_gets. destruct (bn_baseline s) as [c|] eqn:Eb; [|by apply wp_ret]. case_if; [by apply wp_ret|].
  destruct Hp as [H1 H2 H3]. pose proof (H2 c Eb) as Hc. set (count := if _ <? _ then _ else _). unfold call_on.
  assert (Hcount : 0 <= count <= kc_item_count c) by (destruct Hc; unfold count; destruct (Z.ltb_spec (kc_item_count c) 64); lia).
  rewrite kernel_at_run by (done || lia). unfold in_context.
  rewrite (proj2 (Z.leb_le 0 _)), (proj2 (Z.leb_le count _)) by lia. cbn [andb]. apply wp_bind, wp_ret, wp_modify.
  split; [done | | done]. intros c' [= <-]. destruct Hc as [K1 K2 K3] eqn:Ec. apply mixed_ok; [done | lia].
Qed.

Lemma progress_meanwhile n rounds off : keeps_progress n rounds off meanwhile.
Proof.
  unfold meanwhile, keeps_progress. apply respects_bind; [exact _ | apply progress_proc|]. intros es.
  induction es as [|e es IH]; cbn [all_happen]; [by intros s|]. apply respects_bind; [exact _ | | intros _; exact IH]. destruct e; cbn [happens].
  - apply respects_when; [exact _ | apply progress_proc].
  - apply progress_baseline.
  - respects_step; [respects_step|]. apply respects_when; [exact _|]. intros s [H1 H2 H3]. by split.
Qed.

(** A chunk at the front of what is done moves it forward. *)
Lemma run_kernel_progress n rounds off k fn s :
  progress n rounds off s -> 0 <= off -> 0 <= k -> off + k <= n ->
  wp (run_kernel fn off k) (fun rc s' => rc = 0 /\ progress n rounds (off + k) s') s.
Proof.
  intros [H1 H2 (c & Ec & Hc & Hi & Hn & Hr & Ho)] Hoff Hk Hle. unfold run_kernel. apply wp_bind, wp_gets. rewrite Ec. unfold call_on.
  rewrite kernel_at_run by done. unfold in_context. rewrite Hn, (proj2 (Z.leb_le off _)), (proj2 (Z.leb_le k _)) by lia. cbn [andb].
  apply wp_bind, wp_ret, wp_bind, wp_modify, wp_ret. split; [done|]. pose proof Hc as [K1 K2 K3].
  split; [done | done|]. eexists. split; [reflexivity|]. split; [apply mixed_ok; [done | lia]|]. cbn [kc_input kc_item_count kc_rounds kc_output over].
  split_done. unfold mixed. rewrite Hi, Hr, Z2Nat.inj_add by lia. rewrite <- (take_take_drop (inputs n)), map_app, <- Ho, app_assoc.
  rewrite take_app_le, take_ge; [done|..]; rewrite length_app, length_map, !length_take, length_drop; rewrite Hi, ?length_take, ?length_drop in *; lia.
Qed.

(** *** Running the library *)

Definition the_world (s : bench) : world := world_of (bn_l s).
Definition put_world (w : world) (s : bench) : bench := s <| bn_l ::= fun l => l <| ls_p ::= fun q => q <| ps_world := w |> |> |>.

Lemma wp_proc {A} (m : M A) Q s : wp m (fun a w => Q a (put_world w s)) (the_world s) -> wp (proc m) Q s.
Proof. unfold wp, proc, lib, on_w. rewrite on_p_run, lift_run. done. Qed.

Lemma progress_put n rounds off w s : progress n rounds off s -> progress n rounds off (put_world w s).
Proof. intros [H1 H2 H3]. by split. Qed.

(** A dispatched chunk: it is done by some width, or reported as failed. *)
Lemma dispatch_progress n rounds off k d s :
  progress n rounds off s -> 0 <= off -> 0 <= k -> off + k <= n ->
  wp (bench_dispatch_execute (Some d) off k) (fun o s' => progress n rounds 0 s' /\
    exists rc used, o = Returned rc used /\
      (rc = 0 -> progress n rounds (off + k) s' /\ exists width, used = Some width /\ width_in_range width = true)) s.
Proof.
  intros Hp Hoff Hk Hle. pose proof Hp as [_ _ (c & Ec & Hc & Hi & Hn & Hr & _)]. unfold bench_dispatch_execute. apply wp_bind, wp_gets.
  assert (Hs : kernel_status (bn_context s) off k = 0).
  { unfold kernel_status. rewrite Ec. change kernel_sse41 with (kernel_at KERNEL_SSE41). rewrite kernel_at_run by done. unfold in_context.
    by rewrite Hn, (proj2 (Z.leb_le off _)), (proj2 (Z.leb_le k _)) by lia. }
  rewrite Hs. apply wp_bind, wp_proc, wp_gets. apply wp_bind, wp_proc.
  eapply wp_mono; [apply (execute_calls (EV := answering 0)); done|]. intros o w Hcalls. apply wp_bind, wp_proc, wp_gets.
  change (w_kernel_log (the_world (put_world w (put_world (the_world s) s)))) with (w_kernel_log w).
  change (w_kernel_log (the_world (put_world (the_world s) s))) with (w_kernel_log (the_world s)) in Hcalls.
  apply wp_bind. destruct Hcalls as [[E ->]|(width & active & Hw & E & Ho)]; rewrite E.
  - rewrite skipn_all. apply wp_ret, wp_ret. split; [by do 3 apply progress_put; apply progress_zero in Hp|]. do 2 eexists. split; [reflexivity|]. done.
  - rewrite skipn_app, skipn_all, Nat.sub_diag. cbn [app skipn make_calls kc_fn kc_offset kc_items]. apply wp_bind.
    eapply wp_mono; [apply (run_kernel_progress n rounds off k); [by do 3 apply progress_put | lia..]|]. intros rc s1 [_ H1].
    apply wp_ret, wp_ret. split; [by eapply progress_zero|].
    destruct Ho as [-> | [used ->]]; do 2 eexists; (split; [reflexivity|]); [|done]. intros _. split; [done|]. by exists width.
Qed.

(** *** What is counted *)

(** The counters after whole passes over [n] items and [off] items more. *)
Record tally (n off : Z) (r : benchmark_result_t) : Prop := {
  tl_items : br_completed_work_items r = u64 (br_completed_passes r * n + off);
  tl_widths : exists a b c, br_width_work_items r = [a; b; c] /\ br_completed_work_items r = u64 (a + b + c);
}.

Lemma u64_mul_l a b : u64 (u64 a * b) = u64 (a * b).
Proof. unfold u64. by rewrite Zmult_mod_idemp_l. Qed.

Lemma u64_add_mid a x b : u64 (a + u64 x + b) = u64 (a + x + b).
Proof. replace (a + u64 x + b) with (u64 x + (a + b)) by lia. rewrite u64_add_l. f_equal. lia. Qed.

Lemma count_chunk_tally n off used count r :
  width_in_range used = true -> tally n off r -> tally n (off + count) (count_chunk used count r).
Proof.
  intros Hw [H1 (a & b & c & H2 & H3)]. split.
  - cbn. rewrite H1, u64_add_l. by rewrite Z.add_assoc.
  - destruct (width_cases _ Hw) as [-> | [-> | -> ]]; cbn; rewrite H2; do 3 eexists; (split; [reflexivity|]); rewrite H3, u64_add_l.
    + symmetry. rewrite <- Z.add_assoc, u64_add_l. f_equal. lia.
    + rewrite u64_add_mid. f_equal. lia.
    + rewrite <- (Z.add_0_r (a + b + u64 (c + count))), u64_add_mid. f_equal. lia.
Qed.

Lemma next_pass_tally n r : tally n n r -> tally n 0 (r <| br_completed_passes ::= fun p => u64 (p + 1) |>).
Proof. intros [H1 H2]. split; [|done]. cbn. rewrite H1, Z.add_0_r, u64_mul_l. f_equal. lia. Qed.

(** The dispatcher exists when it is used. *)
Definition dispatch_for (o : benchmark_options_t) (d : option tsd_kernel_dispatch_t) : Prop := bo_mode o = BENCH_ADAPTIVE -> is_Some d.

(** A chunk in any mode. *)
Lemma chunk_run o d off k s :
  options_ok o -> dispatch_for o d -> progress (bo_work_items o) (bo_rounds o) off s -> 0 <= off -> 0 <= k -> off + k <= bo_work_items o ->
  wp (run_chunk o d off k) (fun r s' => progress (bo_work_items o) (bo_rounds o) 0 s' /\
    exists rc used, r = Some (rc, used) /\
      (rc = 0 -> progress (bo_work_items o) (bo_rounds o) (off + k) s' /\ width_in_range used = true)) s.
Proof.
  intros Ho Hd Hp Hoff Hk Hle. unfold run_chunk. destruct (Z.eqb_spec (bo_mode o) BENCH_ADAPTIVE) as [Em|Em].
  - destruct (Hd Em) as [d' ->]. apply wp_bind. eapply wp_mono; [by apply dispatch_progress|]. intros out s1 [H0 (rc & used & -> & H)].
    apply wp_ret. split; [done|]. do 2 eexists. split; [reflexivity|]. intros E. destruct (H E) as (H1 & width & -> & H2). done.
  - apply wp_bind. eapply wp_mono; [by apply run_kernel_progress|]. intros rc s1 [-> H]. apply wp_ret. split; [by eapply progress_zero|].
    do 2 eexists. split; [reflexivity|]. intros _. split; [done|]. destruct Ho as [Hm _ _ _ _ _ _ _ _ _].
    unfold BENCH_SSE41, BENCH_ADAPTIVE, width_in_range, SIMD_SSE41, SIMD_AVX512 in *. rewrite Z.gtb_ltb, (proj2 (Z.ltb_ge _ 0)), (proj2 (Z.ltb_ge 2 _)) by lia. done.
Qed.

(** A pass never runs out of fuel; one that completes has mixed every item. *)
Lemma pass_run fuel o d off collect r s :
  options_ok o -> dispatch_for o d -> progress (bo_work_items o) (bo_rounds o) off s -> 0 <= off <= bo_work_items o ->
  (Z.to_nat (bo_work_items o - off) <= fuel)%nat -> (collect = true -> tally (bo_work_items o) off r) ->
  wp (pass_loop fuel o d off collect r) (fun p s' => progress (bo_work_items o) (bo_rounds o) 0 s' /\
    exists q, p = Some q /\ forall r', q = inr r' -> progress (bo_work_items o) (bo_rounds o) (bo_work_items o) s' /\
      if collect then tally (bo_work_items o) (bo_work_items o) r' else r' = r) s.
Proof.
  intros Ho Hd. pose proof Ho as [_ _ Hw Hc _ _ _ _ _ _]. revert off r s.
  induction fuel as [|fuel IH]; intros off r s Hp Hoff Hf Ht; cbn [pass_loop];
    (destruct (Z.ltb_spec off (bo_work_items o)) as [Hlt|Hge]; [|apply wp_ret; split; [by eapply progress_zero|]; eexists; split; [reflexivity|];
      assert (E : off = bo_work_items o) by lia; subst off; intros r' [= <-]; split; [done|]; destruct collect; [by apply Ht | done]]); [lia|].
  apply wp_bind. unfold wp at 1. pose proof (progress_meanwhile _ _ _ s Hp) as Hp1. set (s1 := (meanwhile s).2) in *. clearbody s1. clear s Hp.
  rewrite u64_small by (unfold_int; lia). set (k := if _ >? _ then _ else _).
  assert (Hk : 1 <= k <= bo_work_items o - off) by (unfold k; rewrite Z.gtb_ltb; destruct (Z.ltb_spec (bo_chunk_items o) (bo_work_items o - off)); lia).
  apply wp_bind. eapply wp_mono; [apply chunk_run; (done || lia)|]. intros c s2 [H0 (rc & used & -> & H)].
  destruct (Z.eqb_spec rc 0) as [Erc|Erc]; cbn [negb].
  2: { apply wp_bind, wp_proc, wp_modify, wp_ret. split; [by apply progress_put|]. by eexists. }
  destruct (H Erc) as [H1 H2]. destruct (_ || _) eqn:Er.
  { exfalso. unfold width_in_range in H2. by rewrite Er in H2. }
  rewrite u64_small by (unfold_int; lia).
  eapply wp_mono; [apply IH; [done | lia | lia|]; intros ->; apply count_chunk_tally; auto|].
  intros p s3 [G0 (q & -> & G)]. split; [done|]. eexists. split; [reflexivity|]. intros r' E. destruct (G r' E) as [G1 G2]. split; [done|]. by destruct collect.
Qed.

(** How a phase ends: [full] when it completed at least one pass. *)
Definition phase_post (o : benchmark_options_t) (collect : bool) (r : benchmark_result_t) (p : option (unit + benchmark_result_t)) (s : bench) : Prop :=
  progress (bo_work_items o) (bo_rounds o) 0 s /\
  forall r', p = Some (inr r') -> progress (bo_work_items o) (bo_rounds o) (bo_work_items o) s /\
    if collect then tally (bo_work_items o) 0 r' else r' = r.

Lemma clock_run Q s : (forall t w, Q t (put_world w s)) -> wp monotonic_ns Q s.
Proof. intros H. unfold monotonic_ns. apply wp_bind, wp_proc, wp_ext, wp_ret, H. Qed.

Lemma phase_loop_run fuel o d duration collect start r s :
  options_ok o -> dispatch_for o d -> progress (bo_work_items o) (bo_rounds o) 0 s -> (collect = true -> tally (bo_work_items o) 0 r) ->
  wp (phase_loop fuel o d duration collect start r) (phase_post o collect r) s.
Proof.
  intros Ho Hd. pose proof Ho as [_ _ Hw _ _ _ _ _ _ _]. revert r s. induction fuel as [|fuel IH]; intros r s Hp Ht; cbn [phase_loop]; [by apply wp_ret|].
  apply wp_bind. eapply wp_mono; [apply pass_run; (done || lia)|]. intros p s1 [H0 (q & -> & H)].
  destruct q as [[]|r1]; [by apply wp_ret|]. destruct (H r1 eq_refl) as [H1 H2]. clear H.
  apply wp_bind, clock_run. intros t w. case_if; [apply wp_ret; split; [by apply progress_put | done]|].
  set (r2 := if collect then _ else r1). assert (Hr2 : if collect then tally (bo_work_items o) 0 r2 else r2 = r).
  { unfold r2. destruct collect; [by apply next_pass_tally | done]. }
  assert (Hdone : phase_post o collect r (Some (inr r2)) (put_world w s1)).
  { split; [by apply progress_put|]. intros r' [= <-]. split; [by apply progress_put | done]. }
  case_if; [by apply wp_ret|]. apply wp_bind, wp_gets. case_if; [by apply wp_ret|].
  eapply wp_mono; [apply IH; [by apply progress_put | intros ->; done]|].
  intros p s2 [G0 G1]. split; [done|]. intros r' E'. destruct (G1 r' E') as [? ?]. split; [done|]. destruct collect; [done | congruence].
Qed.

Lemma run_phase_run fuel o d duration collect r s :
  options_ok o -> dispatch_for o d -> progress (bo_work_items o) (bo_rounds o) 0 s -> (collect = true -> tally (bo_work_items o) 0 r) ->
  wp (run_phase fuel o d duration collect r) (phase_post o collect r) s.
Proof.
  intros Ho Hd Hp Ht. unfold run_phase. apply wp_bind, clock_run. intros t w. case_if; [apply wp_ret; split; [by apply progress_put | done]|].
  apply wp_bind. eapply wp_mono; [apply phase_loop_run; [done | done | by apply progress_put | done]|].
  intros p s1 [H0 H1]. destruct p as [[[]|r1]|]; [by apply wp_ret| |by apply wp_ret]. destruct (H1 r1 eq_refl) as [H2 H3].
  apply wp_bind, clock_run. intros t' w'. case_if; apply wp_ret; (split; [by apply progress_put | intros r' [=]]).
  subst r'. split; [by apply progress_put|]. destruct collect; [|done]. destruct H3 as [T1 T2]. by split.
Qed.

(** *** Phases end *)

(** A fixed width makes no call of the library, so only the clock and the other
    threads answer from the environment, and the readings go forward. *)
Definition bench_later (s s' : bench) : Prop := later (the_world s) (the_world s').
#[export] Instance bench_later_preorder : PreOrder bench_later.
Proof. unfold bench_later. split; [intros s; reflexivity | intros a b c; by etransitivity]. Qed.

Lemma later_proc {A} (m : M A) : respects later m -> respects bench_later (proc m).
Proof. intros Hm s. apply (wp_proc m (fun _ s' => bench_later s s')). unfold wp, bench_later. apply Hm. Qed.

Lemma later_call_on fn context off n : respects bench_later (call_on fn context off n).
Proof. unfold call_on. destruct (kernel_at fn context off n); repeat first [respects_step | (intro; unfold bench_later, later; apply Nat.le_refl)]. Qed.

Ltac bench_later_steps :=
  repeat first [ apply later_proc | apply later_ext | apply later_call_on | respects_step | (intro; unfold bench_later, later; apply Nat.le_refl)
               | (intro; unfold later; cbn; lia) ].

Lemma later_meanwhile : respects bench_later meanwhile.
Proof.
  unfold meanwhile. apply respects_bind; [exact _ | bench_later_steps|]. intros es. induction es as [|e es IH]; cbn [all_happen]; [bench_later_steps|].
  apply respects_bind; [exact _ | | intros _; exact IH]. destruct e as [c| |sig]; cbn [happens]; unfold baseline_workload, stop_handler; bench_later_steps.
  intros w. exact (later_calls [c] w).
Qed.

Lemma later_pass fuel o d off collect r : bo_mode o <> BENCH_ADAPTIVE -> respects bench_later (pass_loop fuel o d off collect r).
Proof.
  intros Hm. revert off r. induction fuel as [|fuel IH]; intros off r; cbn [pass_loop]; unfold run_chunk, run_kernel; rewrite ?(proj2 (Z.eqb_neq (bo_mode o) BENCH_ADAPTIVE)) by done;
    repeat first [apply IH | apply later_meanwhile | progress bench_later_steps].
Qed.

(** The nanoseconds of a reading, and a clock whose readings are [duration] apart
    when at least [N] calls lie between them. *)
Definition stamp (t : Z * Z) : Z := u64 (u64 (t.1 * 1000000000) + t.2).
Definition clock_passes (N : nat) (duration : double) : Prop :=
  forall m n t t', (m + N <= n)%nat -> env_clock m = Some t -> env_clock n = Some t' ->
    fle duration (seconds (u64 (stamp t' - stamp t))) = true.

(** A reading of the clock: 0 or that of the next call. *)
Lemma monotonic_run Q s :
  (forall ns s', s' = put_world ((the_world s) <| w_calls ::= S |>) s ->
     (ns <> 0 -> exists t, env_clock (w_calls (the_world s)) = Some t /\ ns = stamp t) -> Q ns s') ->
  wp monotonic_ns Q s.
Proof.
  intros H. unfold monotonic_ns. apply wp_bind, wp_proc. unfold wp, ext. cbn [fst snd ret]. apply H; [done|].
  destruct (env_clock _) as [[sec nsec]|]; [|done]. intros _. by exists (sec, nsec).
Qed.

Lemma phase_loop_ends fuel N m t o d duration collect r s :
  options_ok o -> bo_mode o <> BENCH_ADAPTIVE -> progress (bo_work_items o) (bo_rounds o) 0 s -> (collect = true -> tally (bo_work_items o) 0 r) ->
  clock_passes N duration -> env_clock m = Some t -> (m + N < w_calls (the_world s) + fuel)%nat -> (0 < fuel)%nat ->
  wp (phase_loop fuel o d duration collect (stamp t) r) (fun p _ => p <> None) s.
Proof.
  intros Ho Hm. assert (Hd : dispatch_for o d) by (by intros E). pose proof Ho as [_ _ Hw _ _ _ _ _ _ Hf].
  intros Hp Ht Hc Et. revert r s Hp Ht. induction fuel as [|fuel IH]; intros r s Hp Ht Hfuel H0; [lia|]. cbn [phase_loop].
  pose proof (later_pass (Z.to_nat (bo_work_items o)) o d 0 collect r Hm s) as Hl. apply wp_bind.
  assert (Hrun := pass_run (Z.to_nat (bo_work_items o)) o d 0 collect r s Ho Hd Hp ltac:(lia) ltac:(lia) Ht). unfold wp in Hrun. unfold wp at 1.
  destruct (pass_loop _ _ _ _ _ _ s) as [p s1]. cbn [fst snd] in *. destruct Hrun as [P0 (q & -> & H)]. destruct q as [[]|r1]; [by apply wp_ret|].
  destruct (H r1 eq_refl) as [_ T1]. clear H.
  set (r2 := if collect then _ else r1). assert (T2 : collect = true -> tally (bo_work_items o) 0 r2).
  { unfold r2. intros E. subst collect. by apply next_pass_tally. }
  apply wp_bind, monotonic_run. intros ns s2 E2 Hns. destruct (Z.eqb_spec ns 0) as [|En]; [by apply wp_ret|]. destruct (Hns En) as (t' & Et' & ->).
  assert (Hfor : negb collect || negb (bo_run_forever o) = true).
  { destruct (bo_run_forever o); [by specialize (Hf eq_refl) | by rewrite orb_true_r]. }
  rewrite Hfor, andb_true_l. destruct (fle _ _) eqn:Ef; [by apply wp_ret|].
  assert (Hn : (w_calls (the_world s1) < m + N)%nat).
  { destruct (decide (w_calls (the_world s1) < m + N)%nat) as [|Hge]; [done|]. rewrite (Hc m (w_calls (the_world s1)) t t') in Ef; [done | lia | done | done]. }
  unfold bench_later, later in Hl. assert (Hs2 : w_calls (the_world s2) = S (w_calls (the_world s1))) by (by subst s2).
  apply wp_bind, wp_gets. case_if; [by apply wp_ret|]. apply IH; [subst s2; by apply progress_put | done | lia | lia].
Qed.

Lemma run_phase_ends fuel o d duration collect r s :
  options_ok o -> bo_mode o <> BENCH_ADAPTIVE -> progress (bo_work_items o) (bo_rounds o) 0 s -> (collect = true -> tally (bo_work_items o) 0 r) ->
  clock_passes fuel duration -> (0 < fuel)%nat -> wp (run_phase fuel o d duration collect r) (fun p _ => p <> None) s.
Proof.
  intros Ho Hm Hp Ht Hc H0. unfold run_phase. apply wp_bind, monotonic_run. intros ns s1 E1 Hns.
  destruct (Z.eqb_spec ns 0) as [|En]; [by apply wp_ret|]. destruct (Hns En) as (t & Et & ->). apply wp_bind.
  eapply wp_mono; [apply (phase_loop_ends _ fuel (w_calls (the_world s)) t); [done | done | subst s1; by apply progress_put | done | done | done | subst s1; cbn; lia | done]|].
  intros p s2 Hne. destruct p as [[[]|r1]|]; [by apply wp_ret | | done]. apply wp_bind, clock_run. intros ns' w. by case_if; apply wp_ret.
Qed.

(** What makes a run end by itself. *)
Definition finite (fuel : nat) (o : benchmark_options_t) : Prop :=
  bo_mode o <> BENCH_ADAPTIVE /\ (0 < fuel)%nat /\ clock_passes fuel (bo_warmup_seconds o) /\ clock_passes fuel (bo_duration_seconds o).

(** The checksum of the scalar reference over the input. *)
Definition reference_checksum (n rounds : Z) : Z := fnv_items (map (fun x => mix_scalar x rounds) (inputs n)) FNV_BASIS.

Lemma full_checksum n rounds s :
  0 <= n -> progress n rounds n s -> exists c, bn_context s = Some c /\ checksum_output c = reference_checksum n rounds.
Proof.
  intros Hn [_ _ (c & Ec & Hc & Hi & Hcount & _ & Ho)]. exists c. split; [done|]. unfold checksum_output, reference_checksum.
  rewrite Hcount, Ho. rewrite take_ge; [done|]. unfold inputs. rewrite length_map, length_seqZ. lia.
Qed.

(** Both sides of a postcondition. *)
Lemma wp_both {A} (m : BN A) (F : Prop) (N : A -> Prop) (P : bench -> Prop) (Q : A -> bench -> Prop) s :
  (F -> wp m (fun a _ => N a) s) -> wp m (fun a s' => P s' /\ Q a s') s -> wp m (fun a s' => P s' /\ (F -> N a) /\ Q a s') s.
Proof. unfold wp. tauto. Qed.

(** What a successful measurement reports. *)
Definition measured_ok (o : benchmark_options_t) (r : benchmark_result_t) : Prop :=
  br_checksum r = reference_checksum (bo_work_items o) (bo_rounds o) /\
  tally (bo_work_items o) 0 r /\ br_completed_passes r <> 0.

Lemma measure_run fuel o d r s :
  options_ok o -> dispatch_for o d -> progress (bo_work_items o) (bo_rounds o) 0 s ->
  tally (bo_work_items o) 0 r -> br_completed_passes r = 0 ->
  wp (measure fuel o d r) (fun p s' => progress (bo_work_items o) (bo_rounds o) 0 s' /\ (finite fuel o -> p <> None) /\
    forall r', p = Some (inr r') -> measured_ok o r') s.
Proof.
  intros Ho Hd Hp Ht Hz. pose proof Ho as [_ _ Hw _ _ _ _ _ _ _]. unfold measure. apply wp_bind.
  apply (wp_mono _ (fun p s' => progress (bo_work_items o) (bo_rounds o) 0 s' /\ (finite fuel o -> p <> None) /\ forall r', p = Some (inr r') -> r' = r)).
  { case_if; [|apply wp_ret; split; [done | split; [done | by intros r' [=]]]].
    apply wp_both; [intros (? & ? & ? & ?); by apply run_phase_ends|]. eapply wp_mono; [by apply run_phase_run|].
    intros p s1 [H0 H1]. split; [done|]. intros r' E'. by apply H1. }
  intros p s1 (H0 & Hn & H1). destruct p as [[[]|r1]|]; [apply wp_bind, wp_modify, wp_ret; split; [by destruct H0; split | done]| |by apply wp_ret; split_done].
  rewrite (H1 r1 eq_refl). clear r1 H1 Hn. apply wp_bind, wp_gets, wp_bind.
  apply (wp_mono _ (fun p s' => progress (bo_work_items o) (bo_rounds o) 0 s' /\ (finite fuel o -> p <> None) /\
    forall r', p = Some (inr r') -> (progress (bo_work_items o) (bo_rounds o) (bo_work_items o) s' /\ tally (bo_work_items o) 0 r') \/ br_completed_passes r' = 0)).
  { destruct (negb _); [|apply wp_ret; split; [done | split; [done | intros r' [= <-]; by right]]].
    apply wp_both; [intros (? & ? & ? & ?); by apply run_phase_ends|]. eapply wp_mono; [by apply run_phase_run|].
    intros p s2 [G0 G1]. split; [done|]. intros r' E'. left. by apply G1. }
  intros p s2 (G0 & Gn & G1). destruct p as [[[]|r1]|]; [apply wp_bind, wp_modify, wp_ret; split; [by destruct G0; split | done]| |by apply wp_ret; split_done].
  apply wp_bind, wp_gets, wp_bind, wp_gets. case_if; [apply wp_bind, wp_modify, wp_ret; split; [by destruct G0; split | done]|].
  apply wp_ret. split; [done|]. split; [done|]. intros r' [= <-]. zbool. cbn [br_completed_passes over] in *.
  destruct (G1 r1 eq_refl) as [[P [T1 T2]]|?]; [|done]. destruct (full_checksum (bo_work_items o) (bo_rounds o) s2 ltac:(lia) P) as (c & -> & Hc).
  split; [exact Hc|]. by split.
Qed.

(** *** Setup and cleanup *)

(** What the setup of [o] acquired, on top of the state [s0] with the buffers of the workload. *)
Definition acquired (s0 : bench) (l : locals) (baseline shared : bool) (s : bench) : Prop :=
  exists es, outside_phase s =
    ((bn_exporter s0 ++ es)%list, bn_files s0, bn_stdout s0, bn_buffers s0 + (if baseline then 2 else 0),
     bn_dispatchers s0 + (if is_null (lc_dispatch l) then 0 else 1), shared, negb baseline, false) /\
    if lc_metrics l then exists c, es = [ExporterStart c 0] else es = [] \/ exists c rc, rc <> 0 /\ es = [ExporterStart c rc].

Lemma acquired_frame s0 l baseline shared s s' : phase_frame s s' -> acquired s0 l baseline shared s -> acquired s0 l baseline shared s'.
Proof. intros Hf (es & E & H). exists es. by rewrite <- Hf. Qed.

Lemma create_some v w : wp (tsd_kernel_dispatch_v2_create v) (fun r _ => r.1 = 0 /\ is_Some r.2 \/ r.1 = -1 /\ r.2 = None) w.
Proof.
  unfold tsd_kernel_dispatch_v2_create, fail.
  repeat first [ apply wp_ret; solve [by right | left; split; [done | by eexists]] | apply wp_bind; unfold wp at 1
               | match goal with |- wp (if ?b then _ else _) _ _ => destruct b end | match goal with |- wp (match ?x with _ => _ end) _ _ => destruct x end ].
Qed.

(** Memory for a context, or nothing. *)
Lemma allocate_run n rounds Q s :
  (forall w, Q None (put_world w s)) ->
  (forall w, Q (Some (fresh_context n rounds)) (put_world w s <| bn_buffers := bn_buffers s + 2 |>)) ->
  wp (allocate_context n rounds) Q s.
Proof.
  intros HN HS. unfold allocate_context. apply wp_bind, wp_proc, wp_ext. case_if; [apply wp_ret, HN|]. apply wp_bind, wp_modify, wp_bind, wp_proc, wp_ext.
  case_if; apply wp_bind, wp_modify, wp_ret.
  - match goal with |- Q None ?x => match x with context [put_world ?w _] =>
      match w with context [w_calls] => replace x with (put_world w s); [apply HN|] end end end.
    unfold put_world. cbn. destruct s. cbn. f_equal. lia.
  - match goal with |- Q _ ?x => match x with context [put_world ?w _] =>
      replace x with (put_world w s <| bn_buffers := bn_buffers s + 2 |>); [apply HS|] end end.
    unfold put_world. cbn. destruct s. cbn. f_equal. lia.
Qed.

(** The state the setup starts from. *)
Record ready (o : benchmark_options_t) (s : bench) : Prop := {
  rd_progress : progress (bo_work_items o) (bo_rounds o) 0 s;
  rd_baseline : bn_baseline s = None;
  rd_shared : bn_baseline_shared s = false;
}.

Lemma ready_context o s : ready o s -> is_null (bn_context s) = false.
Proof. intros [[_ _ (c & -> & _)] _ _]. done. Qed.

Definition setup_post (o : benchmark_options_t) (s0 : bench) (r : option (bool * locals)) (s : bench) : Prop :=
  progress (bo_work_items o) (bo_rounds o) 0 s /\
  match r with
  | None => True
  | Some (ok, l) => (exists baseline shared, acquired s0 l baseline shared s) /\ (ok = true -> is_Some (lc_dispatch l))
  end.

Lemma adaptive_setup_run o s : ready o s -> wp (adaptive_setup o) (setup_post o s) s.
Proof.
  intros Hr. pose proof (ready_context o s Hr) as Hc. pose proof Hr as [Hp Hb Hsh]. unfold adaptive_setup. apply wp_bind, allocate_run.
  { intros w. apply wp_bind, wp_modify, wp_ret. split; [by destruct Hp; split|]. split; [|done]. exists false, false, []. split; [|by left].
    unfold outside_phase. cbn. rewrite app_nil_r, Hb, Hsh, Hc. by rewrite !Z.add_0_r. }
  intros w. apply wp_bind, wp_modify, wp_bind, wp_proc. eapply wp_mono; [apply create_some|]. intros [rc dispatch] w1 Hd. cbn [fst snd] in Hd.
  set (s1 := put_world w1 _). assert (Hp1 : progress (bo_work_items o) (bo_rounds o) 0 s1).
  { destruct Hp as [H1 H2 H3]. split; [done | | done]. intros c [= <-]. apply fresh_context_ok. lia. }
  assert (E1 : outside_phase s1 = (bn_exporter s, bn_files s, bn_stdout s, bn_buffers s + 2, bn_dispatchers s, false, false, false)).
  { unfold outside_phase, s1. cbn. by rewrite Hsh, Hc. }
  clearbody s1. destruct Hd as [[-> [d ->]]|[-> ->]]; cbn [Z.eqb negb].
  2: { apply wp_bind, wp_modify, wp_ret. split; [by destruct Hp1; split|]. split; [|done]. exists true, false, []. split; [|by left].
    transitivity (outside_phase s1); [done|]. rewrite E1, app_nil_r, Z.add_0_r. done. }
  apply wp_bind, wp_modify, wp_bind, wp_proc, wp_ext, wp_bind, wp_modify. set (rc := be_exporter _). set (cfg := mkMetricsConfig _ _ _ _ _ _).
  set (s2 := over bn_exporter _ _). assert (Hp2 : progress (bo_work_items o) (bo_rounds o) 0 s2) by (by destruct Hp1; split).
  assert (E2 : outside_phase s2 = ((bn_exporter s ++ [ExporterStart cfg rc])%list, bn_files s, bn_stdout s, bn_buffers s + 2, bn_dispatchers s + 1, false, false, false)).
  { unfold outside_phase, s2 in *. cbn. injection E1 as -> -> -> -> -> -> -> ->. done. }
  clearbody s2. clearbody rc. clear E1 Hp1 s1. destruct (Z.eqb_spec rc 0) as [Erc|Erc]; cbn [negb].
  2: { apply wp_bind, wp_modify, wp_ret. split; [by destruct Hp2; split|]. split; [|done]. exists true, false, [ExporterStart cfg rc].
    split; [done|]. right. by exists cfg, rc. }
  apply wp_bind. unfold wp at 1. pose proof (frame_proc tsd_runtime_flags_init s2) as F3. pose proof (progress_proc _ _ _ tsd_runtime_flags_init s2 Hp2) as Hp3.
  set (s3 := (proc tsd_runtime_flags_init s2).2) in *. clearbody s3. apply wp_bind, wp_modify, wp_bind. unfold wp at 1.
  set (s4 := over bn_baseline_shared _ s3). assert (Hp4 : progress (bo_work_items o) (bo_rounds o) 0 s4) by (by destruct Hp3; split).
  assert (E4 : outside_phase s4 = ((bn_exporter s ++ [ExporterStart cfg rc])%list, bn_files s, bn_stdout s, bn_buffers s + 2, bn_dispatchers s + 1, true, false, false)).
  { unfold phase_frame in F3. rewrite E2 in F3. unfold outside_phase, s4 in *. cbn. injection F3 as <- <- <- <- <- _ <- <-. done. }
  clearbody s4. pose proof (frame_lib (tsd_runtime_start true) s4) as F5. pose proof (progress_lib _ _ _ (tsd_runtime_start true) s4 Hp4) as Hp5.
  destruct (lib (tsd_runtime_start true) s4) as [[[rc5 runtime]|] s5]; cbn [fst snd] in *; [|by apply wp_ret].
  assert (Hacq : forall l, lc_dispatch l = Some d -> lc_metrics l = true -> acquired s l true true s5).
  { intros l El Em. exists [ExporterStart cfg rc]. rewrite Em, El. unfold phase_frame in F5. rewrite <- F5. split; [exact E4|]. exists cfg. by rewrite Erc. }
  destruct (rc5 <>? 0); [apply wp_bind, wp_modify|]; apply wp_ret; (split; [by destruct Hp5; split|]).
  - split; [|done]. exists true, true. by apply (Hacq (mkLocals (Some d) 0 true)).
  - split; [|by eexists]. exists true, true. by apply Hacq.
Qed.

(** The complete result is on standard output or in the file asked for. *)
Definition result_written (o : benchmark_options_t) (r : benchmark_result_t) (s s' : bench) : Prop :=
  exists cfg, match bo_result_json o with
              | None => bn_stdout s' = bn_stdout s ++ result_text o r cfg
              | Some path => bn_files s' !! path = Some (result_text o r cfg)
              end.

(** The file is never left half written. *)
Definition file_kept_or (P : Prop) (o : benchmark_options_t) (s s' : bench) : Prop :=
  forall path, bo_result_json o = Some path -> bn_files s' !! path = bn_files s !! path \/ P.

Definition besides_output (s : bench) :=
  (bn_oob s, bn_baseline s, bn_context s, bn_baseline_shared s, bn_buffers s, bn_dispatchers s, bn_exporter s).

Lemma temporary_differs path : path ++ ".tmp" <> path.
Proof. intros E. apply (f_equal String.length) in E. rewrite string_length_app in E. cbn in E. lia. Qed.

(** What writing the result does. *)
Record write_post (o : benchmark_options_t) (r : benchmark_result_t) (s : bench) (rc : Z) (s' : bench) : Prop := {
  wr_besides : besides_output s' = besides_output s;
  wr_file : file_kept_or (result_written o r s s') o s s';
  wr_whole : rc = 0 -> result_written o r s s';
  wr_rc : rc = 0 \/ rc = -1;
}.

Lemma write_failed o r s path q :
  bo_result_json o = Some path -> besides_output q = besides_output s -> bn_files q !! path = bn_files s !! path -> write_post o r s (-1) q.
Proof. intros Ej Hq Hf. split; [done | | done | by right]. intros p Hp. left. rewrite Ej in Hp. by injection Hp as <-. Qed.

Lemma write_result_run o r s : wp (write_result o r) (write_post o r s) s.
Proof.
  unfold write_result. apply wp_bind, wp_proc, wp_gets. set (cfg := w_config _). destruct (bo_result_json o) as [path|] eqn:Ej.
  2: { apply wp_bind, wp_proc, wp_ext, wp_bind, wp_proc, wp_ext, wp_bind, wp_modify, wp_ret. split; [done | by intros p; rewrite Ej | | case_if; auto].
    case_if; intros H; [|done]. exists cfg. by rewrite Ej. }
  pose proof (fun q => write_failed o r s path q Ej) as Hkeep.
  apply wp_bind, wp_proc, wp_ext. case_if; [by apply wp_ret, Hkeep|]. apply wp_bind, wp_proc, wp_ext. case_if; [by apply wp_ret, Hkeep|].
  apply wp_bind, wp_proc, wp_ext. set (printed := be_fprintf _). set (temporary := path ++ ".tmp").
  assert (Hne : temporary <> path) by apply temporary_differs.
  assert (Hopt : forall (b : bool) (f : nat -> bool) (Q : bool -> bench -> Prop) q,
    (forall v w, (v = true -> b = true) -> Q v (put_world w q)) -> wp (if b then proc (ext f) else ret false) Q q).
  { intros [] f Q q HQ; [apply wp_proc, wp_ext, HQ; done|]. apply wp_ret. specialize (HQ false (the_world q)). destruct q as [[[]]]. by apply HQ. }
  apply wp_bind, Hopt. intros flushed w1 _. apply wp_bind, wp_proc, wp_ext, wp_bind, wp_modify, wp_bind, Hopt. intros synced w2 Hsync.
  apply wp_bind, wp_proc, wp_ext, wp_bind, Hopt. intros renamed w3 Hren. set (text := if flushed : bool then _ else _). destruct renamed.
  - specialize (Hren eq_refl). apply andb_true_iff in Hren as [Hs _].
    assert (Hw : forall q, bn_files q !! path = Some text -> besides_output q = besides_output s -> write_post o r s 0 q).
    { intros q Hq Hb. assert (H : result_written o r s q) by (exists cfg; rewrite Ej, Hq; unfold text; by rewrite (Hsync Hs)).
      split; [done | intros p _; by right | done | by left]. }
    apply wp_bind, wp_modify, wp_ret, Hw; [|done]. cbn. rewrite lookup_insert_eq. cbn. by rewrite lookup_insert_eq.
  - apply wp_bind, wp_proc, wp_ext, wp_bind, wp_when. destruct (be_unlink _).
    + apply wp_modify, wp_ret, Hkeep; [done|]. cbn. by rewrite lookup_delete_ne, lookup_insert_ne by done.
    + apply wp_ret, Hkeep; [done|]. cbn. by rewrite lookup_insert_ne by done.
Qed.

(** A result that was measured is written whole. *)
Definition reported (o : benchmark_options_t) (s s' : bench) : Prop := exists r, measured_ok o r /\ result_written o r s s'.

(** How a run from [s0] ends with a status: [held] arrays are to be freed. *)
Record run_end (o : benchmark_options_t) (held : Z) (s0 : bench) (status : Z) (s' : bench) : Prop := {
  re_status : status = EXIT_SUCCESS \/ status = EXIT_FAILURE;
  re_memory : bn_buffers s' = bn_buffers s0 - held /\ bn_context s' = None /\ bn_baseline s' = None /\ bn_baseline_shared s' = false;
  re_dispatcher : bn_dispatchers s' = bn_dispatchers s0;
  re_exporter : exists es, bn_exporter s' = (bn_exporter s0 ++ es)%list /\ session es;
  re_report : status = EXIT_SUCCESS -> reported o s0 s';
  re_file : file_kept_or (reported o s0 s') o s0 s';
}.

Definition end_post (fuel : nat) (o : benchmark_options_t) (held : Z) (s0 : bench) (x : option Z) (s' : bench) : Prop :=
  bn_oob s' = false /\ (finite fuel o -> x <> None) /\ forall status, x = Some status -> run_end o held s0 status s'.

Lemma oob_lib {A} (m : LM A) : respects (fun s s' => bn_oob s = bn_oob s') (lib m).
Proof. intros s. unfold lib. by destruct (m (bn_l s)). Qed.

Lemma end_runtime_frame runtime status :
  respects phase_frame (end_runtime runtime status) /\ respects (fun s s' => bn_oob s = bn_oob s') (end_runtime runtime status).
Proof. unfold end_runtime. split; repeat first [apply frame_lib | apply oob_lib | respects_step]. Qed.

Lemma end_runtime_status runtime status s :
  (status = EXIT_SUCCESS \/ status = EXIT_FAILURE) ->
  wp (end_runtime runtime status) (fun r _ => forall st, r = Some st -> (st = EXIT_SUCCESS \/ st = EXIT_FAILURE) /\ (st = EXIT_SUCCESS -> status = EXIT_SUCCESS)) s.
Proof.
  intros Hs. unfold end_runtime.
  repeat first [ apply wp_ret; solve [intros st [= <-]; repeat case_if; (split; [auto | first [discriminate | auto]]) | done] | apply wp_bind; unfold wp at 1
               | match goal with |- wp (if ?b then _ else _) _ _ => destruct b end | match goal with |- wp (match ?x with _ => _ end) _ _ => destruct x end ].
Qed.

(** Both contexts are freed, if they exist. *)
Lemma free_contexts_run s :
  exec free_contexts s = s <| bn_baseline := None |> <| bn_context := None |>
    <| bn_buffers := bn_buffers s - (if is_null (bn_baseline s) then 0 else 2) - (if is_null (bn_context s) then 0 else 2) |>.
Proof.
  unfold free_contexts, free_buffers, exec. destruct s as [l c b sh st h n d oob e f out err]. cbn.
  destruct b, c; cbn; f_equal; lia.
Qed.

Lemma bench_cleanup_run fuel o l r s0 baseline shared s :
  acquired s0 l baseline shared s -> progress (bo_work_items o) (bo_rounds o) 0 s -> (forall r', r = Some r' -> measured_ok o r') ->
  (finite fuel o -> lc_runtime l = 0) -> wp (cleanup o l r) (end_post fuel o 2 s0) s.
Proof.
  intros Ha Hp Hr Hf. unfold cleanup. set (status0 := match r with Some _ => EXIT_SUCCESS | None => EXIT_FAILURE end).
  destruct (end_runtime_frame (lc_runtime l) status0) as [F1 O1]. specialize (F1 s). specialize (O1 s). cbv beta in O1.
  pose proof (end_runtime_status (lc_runtime l) status0 s ltac:(unfold status0; destruct r; auto)) as S1. unfold wp in S1.
  assert (Hn : finite fuel o -> (end_runtime (lc_runtime l) status0 s).1 <> None) by (intros F; rewrite (Hf F); done).
  apply wp_bind. unfold wp at 1. destruct (end_runtime (lc_runtime l) status0 s) as [ended s1]. cbn [fst snd] in *.
  apply (acquired_frame _ _ _ _ _ _ F1) in Ha. destruct Hp as [Hoob _ _]. rewrite Hoob in O1. symmetry in O1. clear F1 Hoob s.
  destruct ended as [status|]; [|by apply wp_ret; split_done]. destruct (S1 status eq_refl) as [Hst Hst0]. clear S1.
  destruct Ha as (es & E & Hes). apply wp_bind, wp_modify, wp_bind. unfold wp at 1.
  set (s2 := (when (lc_metrics l) _ _).2). apply wp_bind. unfold wp at 1. set (s3 := (when (negb _) _ s2).2).
  assert (E3 : bn_oob s3 = false /\ outside_phase s3 = ((bn_exporter s0 ++ (es ++ (if lc_metrics l then [ExporterStop] else [])))%list, bn_files s0, bn_stdout s0,
      bn_buffers s0 + (if baseline then 2 else 0), bn_dispatchers s0, false, negb baseline, false)).
  { unfold outside_phase in *. injection E as Ex Ef Es Eb Ed Esh Enb Enc. subst s3 s2.
    destruct (lc_metrics l), (is_null (lc_dispatch l)); cbn; rewrite Ex, Ef, Es, Eb, Ed, Enb, Enc, ?app_nil_r, <- ?app_assoc; (split; [done|]); repeat f_equal; lia. }
  clearbody s3. clear E s2 O1 s1. destruct E3 as [O3 E3].
  apply wp_bind. eapply (wp_mono _ (fun rc s' => besides_output s' = besides_output s3 /\ (rc = 0 \/ rc = -1) /\
    file_kept_or (reported o s3 s') o s3 s' /\ (status = EXIT_SUCCESS -> rc = 0 -> reported o s3 s'))).
  { destruct r as [r|].
    - destruct (Z.eqb_spec status EXIT_SUCCESS) as [Es|Es]; [|apply wp_ret; split; [done|]; split; [by left|]; split; [intros p _; by left | done]].
      eapply wp_mono; [apply write_result_run|]. intros rc s4 [W1 W2 W3 W4]. specialize (Hr r eq_refl). split; [done|]. split; [done|].
      split; [intros p Ep; destruct (W2 p Ep); [by left | right; by exists r] | intros _ Erc; exists r; auto].
    - apply wp_ret. split; [done|]. split; [by left|]. split; [intros p _; by left|]. intros Es. by specialize (Hst0 Es). }
  intros rc s4 (W1 & W2 & W3 & W4). apply wp_bind. unfold wp at 1. set (s5 := (when (rc <>? 0) _ s4).2).
  assert (E5 : besides_output s5 = besides_output s4 /\ bn_files s5 = bn_files s4 /\ bn_stdout s5 = bn_stdout s4) by (subst s5; by destruct (rc <>? 0)).
  clearbody s5. destruct E5 as (B5 & F5 & T5). apply wp_bind. unfold wp at 1. change ((free_contexts s5).2) with (exec free_contexts s5). rewrite free_contexts_run.
  rewrite W1 in B5. unfold besides_output, outside_phase in *. injection B5 as B1 B2 B3 B4 B6 B7 B8. injection E3 as X1 X2 X3 X4 X5 X6 X7 X8.
  assert (Hrep : forall q, bn_files q = bn_files s5 -> bn_stdout q = bn_stdout s5 -> reported o s3 s4 -> reported o s0 q).
  { intros q Hq1 Hq2 (r' & M & cfg & H). exists r'. split; [done|]. exists cfg. rewrite Hq1, Hq2, F5, T5, <- X3. exact H. }
  apply wp_ret. split; [cbn; congruence|]. split; [done|]. intros status' [= <-].
  split; cbn [bn_buffers bn_context bn_baseline bn_baseline_shared bn_dispatchers bn_exporter bn_files over].
  - destruct (rc <>? 0); auto.
  - rewrite B2, B3, B6, X4, X7, X8. split_done; [destruct baseline; cbn; lia | congruence].
  - congruence.
  - eexists. split; [rewrite B8; exact X1|]. destruct (lc_metrics l).
    + destruct Hes as [c ->]. right. right. by exists c.
    + rewrite app_nil_r. destruct Hes as [-> | (c & rc' & ? & ->)]; [by left|]. right. left. by exists c, rc'.
  - intros Es. destruct W2 as [-> | ->]; [|done]. apply Hrep; [done..|]. by apply W4.
  - intros p Ep. destruct (W3 p Ep) as [H|H]; [left; cbn; rewrite F5, H; congruence | right; by apply Hrep].
Qed.

Lemma pin_frame : respects phase_frame pin_fixed_workload /\ forall n rounds off, keeps_progress n rounds off pin_fixed_workload.
Proof.
  unfold pin_fixed_workload, keeps_progress. split; [|intros n rounds off]; repeat first [apply frame_proc | apply progress_proc | respects_step].
Qed.

Lemma body_run fuel o s : options_ok o -> ready o s -> wp (bench_body fuel o) (end_post fuel o 2 s) s.
Proof.
  intros Ho Hr. pose proof Hr as [Hp Hb Hsh]. pose proof (ready_context o s Hr) as Hc. unfold bench_body. apply wp_bind.
  apply (wp_mono _ (fun x s' => progress (bo_work_items o) (bo_rounds o) 0 s' /\ match x with None => bo_mode o = BENCH_ADAPTIVE | Some (ok, l, cpu) =>
    (exists baseline shared, acquired s l baseline shared s') /\ (ok = true -> dispatch_for o (lc_dispatch l)) /\ (bo_mode o <> BENCH_ADAPTIVE -> lc_runtime l = 0) end)).
  { destruct (Z.eqb_spec (bo_mode o) BENCH_ADAPTIVE) as [Em|Em].
    - apply wp_bind. eapply wp_mono; [by apply adaptive_setup_run|]. intros [[ok l]|] s1 [H1 H2]; apply wp_ret; (split; [done|]); [|done].
      destruct H2 as [H2 H3]. split; [done|]. split; [intros Hok _; auto | done].
    - destruct pin_frame as [F P]. specialize (F s). specialize (P _ _ _ s Hp). apply wp_bind. unfold wp at 1.
      destruct (pin_fixed_workload s) as [cpu s1]. cbn [fst snd] in *.
      assert (Ha : forall s2, outside_phase s2 = outside_phase s1 -> acquired s (mkLocals None 0 false) false false s2).
      { intros s2 E2. exists []. split; [|by left]. rewrite E2. unfold phase_frame in F. rewrite <- F. unfold outside_phase.
        cbn. by rewrite app_nil_r, Hb, Hsh, Hc, !Z.add_0_r. }
      destruct (cpu <? 0); [apply wp_bind, wp_modify|]; apply wp_ret; (split; [by destruct P; split|]); (split; [exists false, false; by apply Ha | split; [by intros _ E | done]]). }
  intros [[[ok l] cpu]|] s1 [P1 H]; [|apply wp_ret; destruct P1; split; [done|]; split; [intros [Hm _]; by destruct (Hm H) | done]]. destruct H as ((baseline & shared & Ha) & Hd & Hrt). apply wp_bind.
  apply (wp_mono _ (fun m s' => progress (bo_work_items o) (bo_rounds o) 0 s' /\ acquired s l baseline shared s' /\ (finite fuel o -> m <> None) /\ forall r, m = Some (inr r) -> measured_ok o r)).
  { destruct ok; [|by apply wp_ret]. pose proof (frame_measure fuel o (lc_dispatch l) (no_result <| br_pinned_cpu := cpu |>) s1) as F.
    assert (T : tally (bo_work_items o) 0 (no_result <| br_pinned_cpu := cpu |>)) by (split; [reflexivity | by exists 0, 0, 0]).
    pose proof (measure_run fuel o (lc_dispatch l) _ s1 Ho (Hd eq_refl) P1 T eq_refl) as (M1 & Mn & M2). split; [done|]. split; [by apply (acquired_frame _ _ _ _ s1) | done]. }
  intros m s2 (P2 & A2 & Mn & M2). destruct m as [m|]; [|apply wp_ret; split; [by destruct P2 |]; split; [intros F; by destruct (Mn F) | done]].
  apply (bench_cleanup_run _ _ _ _ _ baseline shared); [done | done | | by intros [Hm _]; apply Hrt]. intros r' Er. apply M2. destruct m as [[]|r]; [done|]. by injection Er as ->.
Qed.

(** Nothing of the benchmark exists yet. *)
Record unstarted (s : bench) : Prop := {
  us_oob : bn_oob s = false;
  us_context : bn_context s = None;
  us_baseline : bn_baseline s = None;
  us_shared : bn_baseline_shared s = false;
}.

Lemma unstarted_end fuel o s s' :
  phase_frame s s' -> bn_oob s' = bn_oob s -> bn_context s' = None -> bn_baseline s' = None -> unstarted s -> end_post fuel o 0 s (Some EXIT_FAILURE) s'.
Proof.
  intros F E1 E2 E3 [H1 H2 H3 H4]. unfold phase_frame, outside_phase in F. injection F as F1 F2 F3 F4 F5 F6 F7 F8. split; [congruence|]. split; [done|].
  intros st [= <-]. split; [by right | | congruence | | done | intros p _; left; congruence].
  - rewrite Z.sub_0_r. split_done; congruence.
  - exists []. rewrite app_nil_r. split; [congruence | by left].
Qed.

(** What happens before the buffers are allocated. *)
Definition early_view (s : bench) := (outside_phase s, bn_oob s, bn_context s, bn_baseline s).
Definition early (s s' : bench) : Prop := early_view s = early_view s'.
#[export] Instance early_preorder : PreOrder early.
Proof. unfold early. exact _. Qed.

Lemma early_proc {A} (m : M A) : respects early (proc m).
Proof. intros s. unfold proc, lib. by destruct (on_w m (bn_l s)). Qed.
Lemma early_handlers : respects early install_signal_handlers.
Proof. unfold install_signal_handlers, bench_sigaction. repeat first [apply early_proc | respects_step | (intro; reflexivity)]. Qed.

Lemma early_fails fuel o s s' text :
  early s s' -> unstarted s -> wp (report text ;;; ret (Some EXIT_FAILURE)) (end_post fuel o 0 s) s'.
Proof.
  intros [= E1 E2 E3 E4 E5 E6 E7 E8 E9 E10 E11] Hu. apply wp_bind, wp_modify, wp_ret. apply unstarted_end; try done; cbn; destruct Hu; try congruence.
  unfold phase_frame, outside_phase. cbn. congruence.
Qed.

Lemma main_run fuel program args o s :
  parse_options args = Some (inr o) -> unstarted s -> wp (bench_main fuel program args) (end_post fuel o 0 s) s.
Proof.
  intros Hp Hu. pose proof (accepted_options_in_range args o Hp) as Ho. unfold bench_main. rewrite Hp.
  apply wp_bind. unfold wp at 1. pose proof (early_handlers s) as F1. destruct (install_signal_handlers s) as [rc s1]. cbn [fst snd] in *.
  destruct (rc <>? 0); [by apply early_fails|]. destruct (tsd_runtime_config_refresh_ticks _) as [err cfg].
  apply wp_bind. unfold wp at 1. pose proof (early_proc (modify (fun w => w <| w_config := cfg |>)) s1) as F2. set (s2 := (proc _ s1).2) in *. clearbody s2.
  assert (F : early s s2) by (by etransitivity). clear F1 F2 s1. destruct (negb _); [by apply early_fails|].
  apply wp_bind. unfold wp at 1. pose proof (early_proc (tsd_detect_max_simd (Some (cfg <| allow_avx512 := true |>))) s2) as F3.
  destruct (proc _ s2) as [host_max s3]. cbn [fst snd] in *. assert (Fa : early s s3) by (by etransitivity). clear F F3 s2.
  case_if; [by apply early_fails|]. apply wp_bind, allocate_run.
  { intros w. apply early_fails; [|done]. etransitivity; [exact Fa|]. done. }
  intros w. apply wp_bind, wp_modify. set (s4 := over bn_context _ _).
  injection Fa as E1 E2 E3 E4 E5 E6 E7 E8 E9 E10 E11. pose proof Hu as [U1 U2 U3 U4].
  assert (Hr : ready o s4).
  { split; [|cbn; congruence | cbn; congruence]. split; [cbn; congruence | cbn; intros c; congruence|].
    eexists. split; [reflexivity|]. pose proof Ho as [_ _ Hw _ _ _ _ _ _ _]. split; [apply fresh_context_ok; lia|]. by split_and!. }
  eapply wp_mono; [by apply body_run|]. intros x s5 (H0 & Hn & H1). split; [done|]. split; [done|]. intros status Ex.
  destruct (H1 status Ex) as [R1 (R2 & R3 & R4 & R5) R6 (es & R7 & R8) R9 R10]. cbn in R2, R6, R7.
  assert (Hrep : reported o s4 s5 -> reported o s s5).
  { intros (r & M & c & H). exists r. split; [done|]. exists c. cbn in H. destruct (bo_result_json o); [done|]. by rewrite E3. }
  split; [done | split_done; lia | congruence | exists es; split; [congruence | done] | auto |].
  intros p Ep. destruct (R10 p Ep) as [H|H]; [left; cbn in H; congruence | right; auto].
Qed.
End runs.

(** ** Properties *)

Section properties.
Context `{EV : Env, OT : Others, PE : PerfEnv, TL : Telemetry, LE : LifeEnv, BE : BenchEnv}.

(** C26 (equivalence). The benchmark reports the same work for every width.  In
    every mode, whatever widths other threads select between and during its
    chunks, whatever the guard publishes and whenever signals arrive, a run that
    exits with success has written, whole, a result whose checksum is that of the
    scalar mix over the input, whose item count is the number of passes times the
    items of a pass and the sum of what the three widths did (modulo 2^64), and
    which covers at least one pass; no kernel touched memory outside of its
    buffers, whether the run succeeded or not.  A run with a fixed width ends: when
    the clock passes the durations of both phases within [fuel] calls, [fuel]
    passes are enough. *)
Theorem benchmark_checksum_is_width_independent (fuel : nat) (program : string) (args : list string) (o : benchmark_options_t) (s : bench) :
  parse_options args = Some (inr o) -> unstarted s ->
  let s' := exec (bench_main fuel program args) s in
  bn_oob s' = false /\
  (finite fuel o -> result (bench_main fuel program args) s <> None) /\
  (result (bench_main fuel program args) s = Some EXIT_SUCCESS ->
   exists r a b c,
     br_checksum r = fnv_items (map (fun x => mix_scalar x (bo_rounds o)) (map input_item (seqZ 0 (bo_work_items o)))) FNV_BASIS /\
     br_completed_passes r <> 0 /\ br_completed_work_items r = u64 (br_completed_passes r * bo_work_items o) /\
     br_width_work_items r = [a; b; c] /\ br_completed_work_items r = u64 (a + b + c) /\
     result_written o r s s').
Proof.
  intros Hp Hu s'. destruct (main_run fuel program args o s Hp Hu) as (H0 & Hn & H1). split; [done|]. split; [exact Hn|]. intros Hr.
  destruct (re_report _ _ _ _ _ (H1 _ Hr) eq_refl) as (r & (M1 & [T1 (a & b & c & T2 & T3)] & M3) & W). exists r, a, b, c.
  rewrite Z.add_0_r in T1. split_done.
Qed.

(** A run of the benchmark leaves nothing behind: on every ending its arrays are
    freed once, no dispatcher is left, the monitor's pointer to the baseline is
    cleared, the exporter was stopped exactly when its start succeeded, and the
    result file is the old one or a complete new one. *)
Theorem benchmark_leaves_nothing_behind (fuel : nat) (program : string) (args : list string) (o : benchmark_options_t) (s : bench) (status : Z) :
  parse_options args = Some (inr o) -> unstarted s -> result (bench_main fuel program args) s = Some status ->
  let s' := exec (bench_main fuel program args) s in
  (status = EXIT_SUCCESS \/ status = EXIT_FAILURE) /\
  bn_buffers s' = bn_buffers s /\ bn_dispatchers s' = bn_dispatchers s /\
  bn_context s' = None /\ bn_baseline s' = None /\ bn_baseline_shared s' = false /\
  (exists es, bn_exporter s' = (bn_exporter s ++ es)%list /\ session es) /\
  (forall path, bo_result_json o = Some path -> bn_files s' !! path = bn_files s !! path \/ exists r cfg, bn_files s' !! path = Some (result_text o r cfg)).
Proof.
  intros Hp Hu Hr s'. destruct (main_run fuel program args o s Hp Hu) as (_ & _ & H1).
  destruct (H1 status Hr) as [R1 (R2 & R3 & R4 & R5) R6 R7 _ R9]. rewrite Z.sub_0_r in R2. split_done.
  intros path Ep. destruct (R9 path Ep) as [H|(r & _ & cfg & H)]; [by left|]. rewrite Ep in H. right. by exists r, cfg.
Qed.
End properties.

(** ** Concrete runs *)

(** An unsigned option accepts a negative text that wraps into its range, and
    the warmup accepts an empty one. *)
Theorem negative_text_wraps_into_range :
  parse_size "-18446744073709551600" 16 (2 ^ 29) = Some 16 /\ parse_double_value "" f64_zero (f64_of_Z 3600) = Some f64_zero.
Proof. split; vm_compute; reflexivity. Qed.

Section concrete.
#[local] Existing Instance ticking_env.
#[local] Existing Instance quiet_perf_env.
#[local] Existing Instance quiet_telemetry.
#[local] Existing Instance quiet_life_env.
#[local] Instance no_others : Others := fun _ => [].

(** Another thread publishes evidence and selects AVX2 and SSE4.1 in turn, and the
    monitor runs its baseline. *)
Definition evidence : list bench_event :=
  map (fun op => BCall (CGuard op))
    [GSandboxSuccess; GUpdatePerf (Some (mkPerfTelemetry 1 true 0 1)); GUpdateTemperature (Some (true, f64_of_Z 50)); GTemperatureGate true].
Definition busy_bench_env : BenchEnv := {|
  be_events := fun n => if (n mod 2 =? 0)%nat then (evidence ++ [BCall (CPatch SIMD_AVX2); BBaseline])%list else [BCall (CPatch SIMD_SSE41)];
  be_sigaction := fun _ => 0; be_memalign := fun _ => true; be_exporter := fun _ => 0;
  be_getaffinity := fun _ => Some (fun cpu => cpu =? 3); be_setaffinity := fun _ => true;
  be_malloc := fun _ => true; be_fopen := fun _ => true; be_fprintf := fun _ => true; be_fflush := fun _ => true; be_fsync := fun _ => true;
  be_fclose := fun _ => true; be_rename := fun _ => true; be_unlink := fun _ => true; be_kept := fun _ => 0%nat |}.
#[local] Existing Instance busy_bench_env.

Definition fresh_bench : bench := mkBench fresh_lstate None None false false [] 0 0 false [] ∅ "" [].

Definition adaptive_args : list string :=
  ["--mode=adaptive"; "--work-items=48"; "--chunk-items=32"; "--rounds=2"; "--duration-seconds=0.5"; "--result-json=out.json"].
Definition avx2_args : list string := ["--mode=avx2"; "--work-items=48"; "--chunk-items=32"; "--rounds=2"; "--duration-seconds=0.5"].

Lemma fresh_unstarted : unstarted fresh_bench.
Proof. split; reflexivity. Qed.

(** The options the arguments stand for. *)
Definition options_of (args : list string) : benchmark_options_t :=
  match parse_options args with Some (inr o) => o | _ => default_options end.

(** A second passes with each call; the clock is read for a minute. *)
Definition minute_env : Env :=
  mkEnv env_host env_lock env_cond_wait env_steady (fun n => if (n <? 60)%nat then Some (Z.of_nat n, 0) else None) env_page_size env_mmap env_mprotect
    env_maps_rx env_sha256_ok env_sha256 env_errno env_calloc env_cancel env_kernel.

Lemma minute_passes d :
  forallb (fun m => forallb (fun n => implb (m + 1 <=? n)%nat (fle d (seconds (u64 (stamp (Z.of_nat n, 0) - stamp (Z.of_nat m, 0)))))) (seq 0 60)) (seq 0 60) = true ->
  clock_passes (EV := minute_env) 1 d.
Proof.
  intros H m n t t' Hle Em En. cbn [env_clock minute_env] in Em, En. destruct (Nat.ltb_spec m 60) as [Hm|]; [|done]. destruct (Nat.ltb_spec n 60) as [Hn|]; [|done].
  injection Em as <-. injection En as <-. rewrite forallb_forall in H. specialize (H m ltac:(apply in_seq; lia)). rewrite forallb_forall in H.
  specialize (H n ltac:(apply in_seq; lia)). by rewrite (proj2 (Nat.leb_le _ _) Hle) in H.
Qed.

Lemma avx2_finite : finite (EV := minute_env) 1 (options_of avx2_args).
Proof. split; [vm_compute; discriminate|]. split; [lia|]. split; apply minute_passes; vm_compute; reflexivity. Qed.

(** The chunks of this run are done by AVX2 and SSE4.1; the file has the checksum
    of the scalar mix.  The run on AVX2 ends after one pass. *)
Lemma benchmark_checksum_is_width_independent_witness :
  map kc_fn (w_kernel_log (the_world (exec (bench_main 10 "bench" adaptive_args) fresh_bench))) = [KERNEL_AVX2; KERNEL_SSE41] /\
  (exists r cfg, bn_files (exec (bench_main 10 "bench" adaptive_args) fresh_bench) !! "out.json" = Some (result_text (options_of adaptive_args) r cfg) /\
    br_checksum r = 0x881f766b6b2ce181) /\
  result (bench_main (EV := minute_env) 1 "bench" avx2_args) fresh_bench <> None.
Proof.
  split; [vm_compute; reflexivity|]. split.
  2: { assert (Hp : parse_options avx2_args = Some (inr (options_of avx2_args))) by (vm_compute; reflexivity).
       exact (proj1 (proj2 (benchmark_checksum_is_width_independent (EV := minute_env) 1 "bench" avx2_args _ fresh_bench Hp fresh_unstarted)) avx2_finite). }
  assert (Hp : parse_options adaptive_args = Some (inr (options_of adaptive_args))) by (vm_compute; reflexivity).
  destruct (benchmark_checksum_is_width_independent 10 "bench" adaptive_args (options_of adaptive_args) fresh_bench Hp fresh_unstarted) as (_ & _ & H).
  destruct (H ltac:(vm_compute; reflexivity)) as (r & a & b & c & E & _ & _ & _ & _ & cfg & W). exists r, cfg.
  split; [exact W|]. rewrite E. vm_compute. reflexivity.
Defined.

Lemma benchmark_leaves_nothing_behind_witness :
  bn_buffers (exec (bench_main 10 "bench" avx2_args) fresh_bench) = 0 /\ bn_context (exec (bench_main 10 "bench" avx2_args) fresh_bench) = None.
Proof.
  assert (Hp : parse_options avx2_args = Some (inr (options_of avx2_args))) by (vm_compute; reflexivity).
  assert (Hr : result (bench_main 10 "bench" avx2_args) fresh_bench = Some 0) by (vm_compute; reflexivity).
  destruct (benchmark_leaves_nothing_behind 10 "bench" avx2_args (options_of avx2_args) fresh_bench 0 Hp fresh_unstarted Hr)
    as (_ & H1 & _ & H2 & _). split; [exact H1 | exact H2].
Defined.

Lemma accepted_options_in_range_witness : options_ok (options_of adaptive_args).
Proof. apply (accepted_options_in_range adaptive_args). vm_compute. reflexivity. Defined.
End concrete.
