(* ===== verification/Overhead.v ===== *)
(** * Overhead: the dispatch overhead benchmark ([src/benchmarks/dispatch_overhead.c])

    A tiny kernel adds offset and count to a checksum.  It is called directly and
    through a second generation dispatcher equally often, and the two checksums
    are compared before the times are printed. *)
From S2P Require Import Prelude Float64 Format Config World Cpu TrampolineState Guard Trampoline Dispatch Benchmark.
From Stdlib Require Import SpecFloat Ascii String.
#[local] Open Scope string_scope.
#[local] Open Scope Z_scope.

(** The process with the two [benchmark_state_t] and what is printed. *)
Record overhead : Type := mkOverhead {
  ov_world : world;
  ov_direct : Z;
  ov_dispatched : Z;
  ov_dispatchers : Z;
  ov_stdout : string;
  ov_stderr : list string;
}.
#[export] Instance eta_overhead : Eta overhead := fun r =>
  mkOverhead (ov_world r) (ov_direct r) (ov_dispatched r) (ov_dispatchers r) (ov_stdout r) (ov_stderr r).

Abbreviation OV := (ST overhead).

(** The checksum after a call; the kernel returns 0. *)
Definition tiny_kernel (checksum offset work_items : Z) : Z := u64 (checksum + u64 (offset + work_items)).

(** The iterations, [None] when the program exits. *)
Definition parse_iterations (args : list string) : option Z :=
  match args with
  | [] => Some 10000000
  | [text] =>
      let r := strtoull text in
      if negb (whole_text text r) || (st_val r =? 0) || (st_val r >? SIZE_MAX) then None else Some (st_val r)
  | _ => None
  end.

Definition TINY_KERNEL : Z := 1.

Section overhead.
Context `{EV : Env, OT : Others}.

Definition sys {A} (m : M A) : OV A := fun s => let '(a, w) := m (ov_world s) in (a, s <| ov_world := w |>).

Definition complain (text : string) : OV unit := modify (fun s => s <| ov_stderr ::= fun l => (l ++ [text])%list |>).

Definition direct_call (offset work_items : Z) : OV unit :=
  modify (fun s => s <| ov_direct ::= fun c => tiny_kernel c offset work_items |>).

(** The dispatcher's call of the kernel, on the context it was registered with. *)
Fixpoint kernel_calls (calls : list kernel_call) : OV unit :=
  match calls with
  | [] => ret tt
  | c :: calls => modify (fun s => s <| ov_dispatched ::= fun sum => tiny_kernel sum (kc_offset c) (kc_items c) |>) ;;; kernel_calls calls
  end.

Definition dispatched_call (dispatch : option tsd_kernel_dispatch_t) (offset work_items : Z) : OV outcome :=
  before <- sys (gets w_kernel_log) ;;
  o <- sys (tsd_kernel_dispatch_v2_execute (EV := answering 0) dispatch offset work_items) ;;
  all <- sys (gets w_kernel_log) ;;
  kernel_calls (List.skipn (List.length before) all) ;;;
  ret o.

Definition succeeded (o : outcome) : bool := match o with Returned rc _ => rc =? 0 | _ => false end.

(** The warm-up loop with [n] iterations left: whether every dispatch returned 0. *)
Fixpoint warm_loop (n : nat) (dispatch : option tsd_kernel_dispatch_t) (i : Z) : OV bool :=
  match n with
  | O => ret true
  | S n =>
      direct_call i 1 ;;;
      o <- dispatched_call dispatch i 1 ;;
      if succeeded o then warm_loop n dispatch (u64 (i + 1)) else ret false
  end.

Fixpoint direct_loop (n : nat) (i : Z) : OV unit :=
  match n with O => ret tt | S n => direct_call i 1 ;;; direct_loop n (u64 (i + 1)) end.

Fixpoint dispatched_loop (n : nat) (dispatch : option tsd_kernel_dispatch_t) (i : Z) : OV bool :=
  match n with
  | O => ret true
  | S n =>
      o <- dispatched_call dispatch i 1 ;;
      if succeeded o then dispatched_loop n dispatch (u64 (i + 1))
      else complain ("dispatch failed at iteration " ++ decimal i ++ nl) ;;; ret false
  end.

(** The clock; [None] when it fails, which ends the program. *)
Definition clock_ns : OV (option Z) :=
  t <- sys (ext env_clock) ;;
  match t with
  | Some (sec, nsec) => ret (Some (u64 (u64 (sec * 1000000000) + nsec)))
  | None => complain "clock_gettime" ;;; ret None
  end.

Definition overhead_text (iterations direct_ns dispatch_ns checksum : Z) : string :=
  let direct := fdiv (f64_of_Z direct_ns) (f64_of_Z iterations) in
  let dispatch := fdiv (f64_of_Z dispatch_ns) (f64_of_Z iterations) in
  "iterations=" ++ decimal iterations ++ " direct_ns_per_call=" ++ f64_fixed 3 direct ++ " dispatch_ns_per_call=" ++ f64_fixed 3 dispatch ++
  " incremental_ns_per_call=" ++ f64_fixed 3 (fsub dispatch direct) ++ " checksum=" ++ decimal checksum ++ nl.

Definition mismatch_text (direct dispatched : Z) : string :=
  "checksum mismatch: direct=" ++ decimal direct ++ " dispatch=" ++ decimal dispatched ++ nl.

(** The exit status after the dispatcher was created; [exit] destroys nothing. *)
Definition overhead_body (iterations : Z) (dispatch : option tsd_kernel_dispatch_t) : OV Z :=
  warm <- warm_loop (Z.to_nat 10000) dispatch 0 ;;
  if negb warm then ret EXIT_FAILURE
  else
    modify (fun s => s <| ov_direct := 0 |> <| ov_dispatched := 0 |>) ;;;
    start <- clock_ns ;;
    match start with
    | None => ret EXIT_FAILURE
    | Some start =>
        direct_loop (Z.to_nat iterations) 0 ;;;
        t <- clock_ns ;;
        match t with
        | None => ret EXIT_FAILURE
        | Some t =>
            let direct_ns := u64 (t - start) in
            start <- clock_ns ;;
            match start with
            | None => ret EXIT_FAILURE
            | Some start =>
                ok <- dispatched_loop (Z.to_nat iterations) dispatch 0 ;;
                if negb ok then ret EXIT_FAILURE
                else
                  t <- clock_ns ;;
                  match t with
                  | None => ret EXIT_FAILURE
                  | Some t =>
                      let dispatch_ns := u64 (t - start) in
                      modify (fun s => s <| ov_dispatchers ::= fun n => n - 1 |>) ;;;
                      direct <- gets ov_direct ;;
                      dispatched <- gets ov_dispatched ;;
                      if direct <>? dispatched then complain (mismatch_text direct dispatched) ;;; ret EXIT_FAILURE
                      else
                        modify (fun s => s <| ov_stdout ::= fun out => out ++ overhead_text iterations direct_ns dispatch_ns direct |>) ;;;
                        ret EXIT_SUCCESS
                  end
            end
        end
    end.

Definition overhead_main (args : list string) : OV Z :=
  match parse_iterations args with
  | None => complain "invalid iteration count" ;;; ret EXIT_FAILURE
  | Some iterations =>
      rc <- sys tsd_trampoline_init ;;
      rc <- (if rc <>? 0 then ret rc else sys (tsd_trampoline_patch SIMD_SSE41)) ;;
      if rc <>? 0 then complain "trampoline initialization" ;;; ret EXIT_FAILURE
      else
        let* (rc, dispatch) := sys (tsd_kernel_dispatch_v2_create (Some (mkVariants TINY_KERNEL 0 0))) in
        if rc <>? 0 then complain "dispatch creation" ;;; ret EXIT_FAILURE
        else
          modify (fun s => s <| ov_dispatchers ::= fun n => n + 1 |>) ;;;
          overhead_body iterations dispatch
  end.
End overhead.

(** ** Both ways compute the same sum *)

(** The sum of [i + 1] for the iterations below [n], in 64 bits. *)
Definition sum_to (n : Z) : Z := u64 (n * (n + 1) / 2).

Lemma tiny_next i : 0 <= i < UINT64_MAX -> tiny_kernel (sum_to i) i 1 = sum_to (i + 1).
Proof.
  intros Hi. unfold tiny_kernel, sum_to. rewrite (u64_small (i + 1)) by (unfold_int; lia). rewrite u64_add_l. f_equal.
  replace ((i + 1) * (i + 1 + 1)) with (i * (i + 1) + (i + 1) * 2) by lia. by rewrite Z.div_add by lia.
Qed.

Section facts.
Context `{EV : Env, OT : Others}.

Lemma wp_sys {A} (m : M A) Q s : wp m (fun a w => Q a (s <| ov_world := w |>)) (ov_world s) -> wp (sys m) Q s.
Proof. unfold wp, sys. by destruct (m (ov_world s)). Qed.

(** A complaint that is not a mismatch. *)
Definition unlike_mismatch (text : string) : Prop := forall a b, text <> mismatch_text a b.

(** Printed so far: nothing on standard output, no mismatch. *)
Definition quiet_out (s0 s : overhead) : Prop :=
  ov_stdout s = ov_stdout s0 /\ exists l, ov_stderr s = (ov_stderr s0 ++ l)%list /\ Forall unlike_mismatch l.

Lemma quiet_refl s : quiet_out s s.
Proof. split; [done|]. exists []. by rewrite app_nil_r. Qed.

Lemma quiet_same s0 s s' : ov_stdout s' = ov_stdout s -> ov_stderr s' = ov_stderr s -> quiet_out s0 s -> quiet_out s0 s'.
Proof. intros E1 E2 [H1 (l & H2 & H3)]. split; [congruence|]. exists l. split; [congruence | done]. Qed.

Lemma quiet_complain s0 s text : unlike_mismatch text -> quiet_out s0 s -> quiet_out s0 (complain text s).2.
Proof.
  intros Ht [H1 (l & H2 & H3)]. split; [done|]. exists (l ++ [text])%list. cbn. rewrite H2, app_assoc. split; [done|].
  apply Forall_app. split; [done | by constructor].
Qed.

Definition sums (s : overhead) := (ov_direct s, ov_dispatched s).

(** A dispatched call that returns 0 is one call of the kernel. *)
Lemma dispatched_call_run d i s :
  wp (dispatched_call (Some d) i 1) (fun o s' => ov_direct s' = ov_direct s /\ ov_stdout s' = ov_stdout s /\ ov_stderr s' = ov_stderr s /\
    (succeeded o = true -> ov_dispatched s' = tiny_kernel (ov_dispatched s) i 1)) s.
Proof.
  unfold dispatched_call. apply wp_bind, wp_sys, wp_gets, wp_bind, wp_sys. eapply wp_mono; [apply (execute_calls (EV := answering 0)); done|].
  intros o w H. apply wp_bind, wp_sys, wp_gets. cbn [ov_world over]. apply wp_bind.
  destruct H as [[E ->]|(width & active & _ & E & _)]; cbn in E; rewrite E.
  - rewrite skipn_all. apply wp_ret, wp_ret. done.
  - rewrite skipn_app, skipn_all, Nat.sub_diag. cbn [app skipn kernel_calls]. apply wp_bind, wp_modify, wp_ret, wp_ret. done.
Qed.

Lemma clock_quiet s0 Q s :
  quiet_out s0 s -> (forall t s', quiet_out s0 s' -> sums s' = sums s -> Q t s') -> wp clock_ns Q s.
Proof.
  intros Hq HQ. unfold clock_ns. apply wp_bind, wp_sys, wp_ext. destruct (env_clock _) as [[sec ns]|].
  - apply wp_ret, HQ; [by apply (quiet_same _ s) | done].
  - apply wp_bind. unfold wp at 1. apply wp_ret, HQ; [|done]. apply quiet_complain; [by intros a b|]. by apply (quiet_same _ s).
Qed.

Lemma direct_loop_run s0 n i s :
  quiet_out s0 s -> 0 <= i -> i + Z.of_nat n <= UINT64_MAX -> ov_direct s = sum_to i ->
  wp (direct_loop n i) (fun _ s' => quiet_out s0 s' /\ ov_direct s' = sum_to (i + Z.of_nat n) /\ ov_dispatched s' = ov_dispatched s) s.
Proof.
  revert i s. induction n as [|n IH]; intros i s Hq Hi Hn Hs; cbn [direct_loop]; [apply wp_ret; by rewrite Z.add_0_r|].
  apply wp_bind, wp_modify. rewrite u64_small by (unfold_int; lia).
  eapply wp_mono; [apply IH; [by apply (quiet_same _ s) | lia | lia | cbn; rewrite Hs; apply tiny_next; lia]|].
  intros _ s' (H1 & H2 & H3). split; [done|]. split; [rewrite H2; f_equal; lia | done].
Qed.

Lemma dispatched_loop_run s0 n d i s :
  quiet_out s0 s -> 0 <= i -> i + Z.of_nat n <= UINT64_MAX -> ov_dispatched s = sum_to i ->
  wp (dispatched_loop n (Some d) i) (fun ok s' => quiet_out s0 s' /\ ov_direct s' = ov_direct s /\
    (ok = true -> ov_dispatched s' = sum_to (i + Z.of_nat n))) s.
Proof.
  revert i s. induction n as [|n IH]; intros i s Hq Hi Hn Hs; cbn [dispatched_loop]; [apply wp_ret; by rewrite Z.add_0_r|].
  apply wp_bind. eapply wp_mono; [apply dispatched_call_run|]. intros o s1 (H1 & H2 & H3 & H4).
  assert (Hq1 : quiet_out s0 s1) by (by apply (quiet_same _ s)). destruct (succeeded o).
  - rewrite u64_small by (unfold_int; lia). eapply wp_mono; [apply IH; [done | lia | lia | rewrite (H4 eq_refl), Hs; apply tiny_next; lia]|].
    intros ok s2 (G1 & G2 & G3). split; [done|]. split; [congruence|]. intros E. rewrite (G3 E). f_equal. lia.
  - apply wp_bind. unfold wp at 1. apply wp_ret. split; [apply quiet_complain; [by intros a b | done]|]. split; [by rewrite <- H1 | done].
Qed.

Lemma warm_loop_run s0 n d i s :
  quiet_out s0 s -> wp (warm_loop n (Some d) i) (fun _ s' => quiet_out s0 s') s.
Proof.
  revert i s. induction n as [|n IH]; intros i s Hq; cbn [warm_loop]; [by apply wp_ret|]. apply wp_bind, wp_modify, wp_bind.
  eapply wp_mono; [apply dispatched_call_run|]. intros o s1 (_ & H2 & H3 & _). assert (Hq1 : quiet_out s0 s1) by (by apply (quiet_same _ s)).
  destruct (succeeded o); [by apply IH | by apply wp_ret].
Qed.

(** How the program ends after [iterations] were accepted. *)
Definition overhead_post (iterations : Z) (s0 : overhead) (status : Z) (s' : overhead) : Prop :=
  (exists l, ov_stderr s' = (ov_stderr s0 ++ l)%list /\ Forall unlike_mismatch l) /\
  ((status = EXIT_FAILURE /\ ov_stdout s' = ov_stdout s0) \/
   (status = EXIT_SUCCESS /\ exists direct_ns dispatch_ns, ov_stdout s' = ov_stdout s0 ++ overhead_text iterations direct_ns dispatch_ns (sum_to iterations))).

Lemma failed_post n s0 s' : quiet_out s0 s' -> overhead_post n s0 EXIT_FAILURE s'.
Proof. intros [H1 H2]. split; [done | by left]. Qed.

Lemma body_post n d s0 s : 1 <= n <= UINT64_MAX -> quiet_out s0 s -> wp (overhead_body n (Some d)) (overhead_post n s0) s.
Proof.
  intros Hn Hq. unfold overhead_body. apply wp_bind. eapply wp_mono; [by apply (warm_loop_run s0)|]. intros warm s1 Q1.
  destruct (negb warm); [by apply wp_ret, failed_post|]. apply wp_bind, wp_modify, wp_bind. apply (clock_quiet s0); [by apply (quiet_same _ s1)|].
  intros [start|] s2 Q2 [= D2 P2]; [|by apply wp_ret, failed_post]. apply wp_bind. eapply wp_mono; [apply (direct_loop_run s0); [done | lia | lia | by rewrite D2]|].
  intros _ s3 (Q3 & D3 & P3). apply wp_bind, (clock_quiet s0); [done|]. intros [t|] s4 Q4 [= D4 P4]; [|by apply wp_ret, failed_post].
  apply wp_bind, (clock_quiet s0); [done|]. intros [start'|] s5 Q5 [= D5 P5]; [|by apply wp_ret, failed_post].
  apply wp_bind. eapply wp_mono; [apply (dispatched_loop_run s0); [done | lia | lia | by rewrite P5, P4, P3, P2]|].
  intros ok s6 (Q6 & D6 & P6). destruct ok; [|by apply wp_ret, failed_post]. specialize (P6 eq_refl).
  apply wp_bind, (clock_quiet s0); [done|]. intros [t'|] s7 Q7 [= D7 P7]; [|by apply wp_ret, failed_post].
  apply wp_bind, wp_modify, wp_bind, wp_gets, wp_bind, wp_gets. cbn [ov_direct ov_dispatched over]. rewrite Z2Nat.id, Z.add_0_l in D3, P6 by lia.
  assert (Ed : ov_direct s7 = sum_to n) by congruence. assert (Ep : ov_dispatched s7 = sum_to n) by congruence.
  rewrite Ed, Ep, Z.eqb_refl. cbn [negb]. apply wp_bind, wp_modify, wp_ret. destruct Q7 as [H1 H2]. split; [exact H2|]. right. split; [done|].
  do 2 eexists. cbn. by rewrite H1.
Qed.
End facts.

(** Dispatching loses no call and makes none twice: whatever the environment and
    the concurrent publications, the comparison of the two checksums never fails,
    and a run that succeeds prints the closed form of the sum. *)
Theorem overhead_checksums_agree `{EV : Env, OT : Others} (args : list string) (s : overhead) :
  let s' := exec (overhead_main args) s in
  (exists l, ov_stderr s' = (ov_stderr s ++ l)%list /\ forall direct dispatched, ~ In (mismatch_text direct dispatched) l) /\
  (result (overhead_main args) s = EXIT_SUCCESS ->
   exists n direct_ns dispatch_ns, parse_iterations args = Some n /\ ov_stdout s' = ov_stdout s ++ overhead_text n direct_ns dispatch_ns (u64 (n * (n + 1) / 2))).
Proof.
  cut (wp (overhead_main args) (fun status s' => exists n, (parse_iterations args = Some n \/ status = EXIT_FAILURE) /\ overhead_post n s status s') s).
  { intros (n & Hn & (l & H1 & H2) & H3). split.
    - exists l. split; [done|]. intros a b Hin. rewrite Forall_forall in H2. by apply (H2 _ (proj2 (list_elem_of_In _ _) Hin) a b).
    - unfold result. intros E. destruct H3 as [[Ef _]|(_ & a & b & H)]; [by rewrite E in Ef|]. exists n, a, b. destruct Hn as [Hn|Hn]; [done | by rewrite E in Hn]. }
  unfold overhead_main. assert (Hfail : forall text q, unlike_mismatch text -> ov_stdout q = ov_stdout s -> ov_stderr q = ov_stderr s ->
    wp (complain text ;;; ret EXIT_FAILURE) (fun status s' => exists n, (parse_iterations args = Some n \/ status = EXIT_FAILURE) /\ overhead_post n s status s') q).
  { intros text q Ht E1 E2. apply wp_bind. unfold wp at 1. apply wp_ret. exists 0. split; [by right|]. apply failed_post, quiet_complain; [done|].
    apply (quiet_same _ s); [done | done | apply quiet_refl]. }
  destruct (parse_iterations args) as [n|] eqn:Ep; [|by apply Hfail].
  assert (Hn : 1 <= n <= UINT64_MAX).
  { unfold parse_iterations in Ep. destruct args as [|text [|]]; [injection Ep as <-; unfold_int; lia | | done]. case_if; [done|]. injection Ep as <-. zbool.
    assert (0 <= st_val (strtoull text)); [|unfold SIZE_MAX in *; lia]. unfold strtoull. destruct (scan_sign _), (scan_digits _ _ _) as [[]].
    repeat case_if; cbn; try (unfold_int; lia); apply u64_range. }
  apply wp_bind, wp_sys. unfold wp at 1. set (s1 := over ov_world _ s). set (rc := (tsd_trampoline_init _).1). apply wp_bind.
  apply (wp_mono _ (fun _ q => ov_stdout q = ov_stdout s /\ ov_stderr q = ov_stderr s)).
  { case_if; [by apply wp_ret|]. apply wp_sys. by unfold wp. }
  intros rc2 s2 [E1 E2]. case_if; [by apply Hfail|]. apply wp_bind, wp_sys. eapply wp_mono; [apply create_some|]. intros [rc3 d] w H. cbn [fst snd] in H. destruct H as [[-> [d' ->]]|[-> ->]]; cbn [Z.eqb negb].
  - apply wp_bind, wp_modify. eapply wp_mono; [apply (body_post n d' s); [done|]; apply (quiet_same _ s); [done | done | apply quiet_refl]|].
    intros status s3 H. exists n. split; [by left | done].
  - by apply Hfail.
Qed.

(** A small count; like the options of the other benchmark, a negative text wraps. *)
Example overhead_sum : sum_to 3 = 6 /\ parse_iterations ["3"] = Some 3 /\ parse_iterations ["-18446744073709551613"] = Some 3.
Proof. vm_compute. split_and!; reflexivity. Qed.
