(* ===== verification/Transparency.v ===== *)
(** * Transparency: chunked adaptive execution as an application sees it

    [RangeKernel] is what the interface of [src/include/thermal/simd/adaptive_dispatch.h]
    asks of the kernels an application registers: every variant processes the
    whole range it is given, as one reference operation that may be split at any
    item.  Against this interface chunked execution is proved to be the reference
    on the whole range, whatever width runs which chunk.  The kernels of
    [Kernels.v] implement the interface. *)
From S2P Require Import Prelude Float64 Config World Cpu TrampolineState Guard Dispatch Kernels Benchmark.
#[local] Open Scope Z_scope.

(** [run fn c off n] is the context after the function at [fn] processed
    [off, off + n) of the context [c] and returned 0. *)
Class RangeKernel {C : Type} (run : Z -> C -> Z -> Z -> C) (v : tsd_kernel_variants_t) : Type := mkRangeKernel {
  rk_ok : C -> Prop;
  rk_limit : C -> Z;
  rk_ref : C -> Z -> Z -> C;
  rk_variant width c off n :
    registered v width <> 0 -> rk_ok c -> 0 <= off -> 0 <= n -> off + n <= rk_limit c ->
    run (registered v width) c off n = rk_ref c off n;
  rk_keeps c off n :
    rk_ok c -> 0 <= off -> 0 <= n -> off + n <= rk_limit c -> rk_ok (rk_ref c off n) /\ rk_limit (rk_ref c off n) = rk_limit c;
  rk_empty c off : rk_ok c -> 0 <= off <= rk_limit c -> rk_ref c off 0 = c;
  rk_split c off a b :
    rk_ok c -> 0 <= off -> 0 <= a -> 0 <= b -> off + a + b <= rk_limit c ->
    rk_ref (rk_ref c off a) (off + a) b = rk_ref c off (a + b);
}.

(** The calls of a log made one after the other on a context. *)
Definition run_calls {C} (run : Z -> C -> Z -> Z -> C) (calls : list kernel_call) (c : C) : C :=
  fold_left (fun c call => run (kc_fn call) c (kc_offset call) (kc_items call)) calls c.

Section transparency.
Context {C : Type} (run : Z -> C -> Z -> Z -> C) (v : tsd_kernel_variants_t) `{RK : !RangeKernel run v}.

(** Any split of a range, each part done by some variant. *)
Lemma run_plan fuel calls c off total mc :
  0 < mc -> 0 <= total <= Z.of_nat fuel -> 0 <= off -> rk_ok c -> off + total <= rk_limit c ->
  Forall (fun call => exists width, kc_fn call = registered v width /\ kc_fn call <> 0) calls ->
  range_of <$> calls = chunk_plan off total mc ->
  run_calls run calls c = rk_ref c off total.
Proof.
  intros Hmc. revert calls c off total. induction fuel as [|fuel IH]; intros calls c off total Ht Ho Hok Hlim Hreg Hplan.
  { assert (total = 0) as -> by lia. rewrite chunk_plan_nil in Hplan by done. apply fmap_nil_inv in Hplan as ->.
    symmetry. apply (rk_empty c); [done | lia]. }
  destruct (Z.eq_dec total 0) as [-> |Hnz].
  { rewrite chunk_plan_nil in Hplan by done. apply fmap_nil_inv in Hplan as ->. symmetry. apply (rk_empty c); [done | lia]. }
  rewrite chunk_plan_cons in Hplan by lia. destruct calls as [|call calls]; [done|]. injection Hplan as Hoff Hitems Hplan.
  apply Forall_cons in Hreg as [(width & Hfn & Hn) Hreg]. rewrite Hfn in Hn. cbn [run_calls fold_left]. rewrite Hoff, Hitems, Hfn.
  set (k := Z.min mc total) in *. assert (Hk : 0 < k <= total) by (unfold k; lia).
  rewrite rk_variant by (done || lia). destruct (rk_keeps c off k) as [Hok' Hlim']; [done | lia..|].
  fold (run_calls run calls (rk_ref c off k)). rewrite (IH calls (rk_ref c off k) (off + k) (total - k)); [|lia | lia | done | lia | done | done].
  rewrite rk_split by (done || lia). f_equal. lia.
Qed.

Context `{EV : Env, OT : Others}.

(** C8 (refinement). Chunked adaptive execution is transparent to the
    application.  For kernels that keep the contract of the interface, whatever
    other threads publish during the run, a chunked execution always returns, and
    one that returns 0 leaves the context as the reference operation on the whole range does: every
    item of [initial_offset, initial_offset + total) is processed exactly once,
    in order, whichever variant each chunk was given to. *)
Theorem chunked_execution_is_transparent (d : tsd_kernel_dispatch_t) (off total max_chunk : Z) (want : bool) (w : world) (c : C) :
  variants d = v -> valid_dispatch d -> guard_inv w -> tramp_ok (w_tramp w) -> counts_ok w ->
  0 <= off -> 0 < total -> off + total <= SIZE_MAX -> 0 < max_chunk ->
  rk_ok c -> off + total <= rk_limit c ->
  let o := result (tsd_kernel_dispatch_v2_execute_chunked (Some d) off total max_chunk want) w in
  let w' := exec (tsd_kernel_dispatch_v2_execute_chunked (Some d) off total max_chunk want) w in
  o <> OutOfFuel /\
  exists calls, w_kernel_log w' = w_kernel_log w ++ calls /\
    forall used, o = Returned 0 used -> run_calls run calls c = rk_ref c off total.
Proof.
  intros Hv Hd Hg Ht Hc Ho Htot Hmax Hmc Hok Hlim. cbv zeta. unfold result, exec, tsd_kernel_dispatch_v2_execute_chunked. cbn [is_null orb].
  rewrite (proj2 (Z.eqb_neq max_chunk 0)), Z.gtb_ltb, (proj2 (Z.ltb_ge _ _)), (proj2 (Z.eqb_neq total 0)) by lia. cbn [orb].
  destruct (v2_chunks_run (Z.to_nat total) d off total max_chunk SIMD_SSE41 want w) as (o & w' & calls & -> & Hcp); [done | done | lia | lia | lia | done | done | done |].
  cbn [fst snd]. destruct Hcp as [Hfuel _ _ _ Hl Hr _ Hall]. split; [done|]. exists calls. split; [done|]. intros used ->.
  apply (run_plan (Z.to_nat total) calls c off total max_chunk); try done; try lia.
  - eapply Forall_impl; [exact Hr|]. intros call (width & _ & H1 & H2). exists width. by rewrite <- Hv.
  - by eapply Hall.
Qed.
End transparency.

(** ** The kernels of the benchmark keep the contract *)

Definition mix_run (fn : Z) (c : kernel_context_t) (off n : Z) : kernel_context_t :=
  match kernel_at fn (Some c) off n with Some (_, Some c') => c' | _ => c end.

Definition mix_ref (c : kernel_context_t) (off n : Z) : kernel_context_t := c <| kc_output := mixed c (Z.to_nat off) (Z.to_nat n) |>.

Section mix.
Lemma mix_variant fn c off n :
  context_ok c -> 0 <= off -> 0 <= n -> off + n <= kc_item_count c -> mix_run fn c off n = mix_ref c off n.
Proof.
  intros Hc Ho Hn Hle. unfold mix_run. rewrite kernel_at_run by done. unfold in_context.
  by rewrite (proj2 (Z.leb_le off _)), (proj2 (Z.leb_le n _)) by lia.
Qed.

#[export] Instance mix_range_kernel : RangeKernel mix_run bench_variants.
Proof.
  refine (mkRangeKernel _ mix_run bench_variants context_ok kc_item_count mix_ref _ _ _ _).
  - intros width c off n _. apply mix_variant.
  - intros c off n Hc Ho Hn Hle. split; [|done]. apply mixed_ok; [done|]. destruct Hc. lia.
  - intros c off Hc Ho. unfold mix_ref, mixed. change (Z.to_nat 0) with O. rewrite Nat.add_0_r, take_0. cbn. rewrite take_drop. by destruct c.
  - intros c off a b Hc Ho Ha Hb Hle. unfold mix_ref. rewrite !Z2Nat.inj_add by lia.
    pose proof (mixed_mixed c (Z.to_nat off) (Z.to_nat a) (Z.to_nat b)) as H. destruct Hc as [H1 H2 H3]. rewrite <- H by lia. done.
Defined.
End mix.

Section concrete.
#[local] Existing Instance quiet_env.

Definition mix_dispatch : tsd_kernel_dispatch_t := mkDispatch bench_variants SIMD_AVX512.

(** Items 3 to 12 of 16, in chunks of four, on AVX2. *)
Lemma chunked_execution_is_transparent_witness :
  result (tsd_kernel_dispatch_v2_execute_chunked (Some mix_dispatch) 3 10 4 true) wide_world = Returned 0 (Some SIMD_AVX2) /\
  exists calls,
    w_kernel_log (exec (tsd_kernel_dispatch_v2_execute_chunked (Some mix_dispatch) 3 10 4 true) wide_world) = w_kernel_log wide_world ++ calls /\
    run_calls mix_run calls (fresh_context 16 2) = mix_ref (fresh_context 16 2) 3 10.
Proof.
  assert (Hd : valid_dispatch mix_dispatch) by (split; [discriminate | reflexivity]). destruct wide_world_ok as (Hg & Ht & Hc).
  assert (Hr : result (tsd_kernel_dispatch_v2_execute_chunked (Some mix_dispatch) 3 10 4 true) wide_world = Returned 0 (Some SIMD_AVX2)) by (vm_compute; reflexivity).
  assert (Hok : context_ok (fresh_context 16 2)) by (apply fresh_context_ok; lia).
  destruct (chunked_execution_is_transparent mix_run bench_variants (RK := mix_range_kernel) mix_dispatch 3 10 4 true wide_world (fresh_context 16 2)
    eq_refl Hd Hg Ht Hc ltac:(lia) ltac:(lia) ltac:(unfold_int; lia) ltac:(lia) Hok ltac:(vm_compute; discriminate)) as (_ & calls & Hl & Hrun).
  split; [exact Hr|]. exists calls. split; [exact Hl|]. exact (Hrun _ Hr).
Defined.
End concrete.
